(* ===== verification/_CoqProject ===== *)
-Q . S2P
Prelude.v
CInt.v
CLib.v
CLibOk.v
Memory.v
MtTests.v
MtTestsOk.v
MtFaults.v
MtMain.v
MtShown.v
MtMainOk.v
MtFrame.v
MtClaims.v
RxSpec.v
RxRules.v
RxRulesOk.v
RxInsert.v
RxParse.v
RxParseOk.v
RxClaims.v
CanSocket.v
CanTools.v
CanOk.v
CanConfig.v
CanConfigOk.v
CanClaims.v
UbTest.v
UbClaims.v
BoardTools.v
ToolClaims.v
Ping.v
PingOk.v
PingRun.v
PingLoop.v
PingSafe.v
PingTimes.v
PingClaims.v
EtCmd.v
EtSet.v
EtSetOk.v
EtLink.v
EtLinkOk.v
EtFeat.v
EtFeatOk.v
EtIndir.v
EtRx.v
EtRxOk.v
EtSfp.v
EtDev.v
EtMain.v
EtClaims.v
CFmt.v
EtRegs.v
EtIgb.v
EtIxgbe.v
EtE1000.v
EtNatsemi.v
EtDe2104x.v
EtRealtek.v
EtPcnet32.v
EtRegMisc.v
EtSfcTab.v
EtSfc.v
EtRegsAll.v
EtMainClaims.v
Vlan.v
TestSuite.v
FloatTools.v
NetToolClaims.v
NpLib.v
NpServer.v
NpSh.v
NpStat.v
NpOk.v
NpClaims.v
NpShOk.v
NpStatOk.v
NpOmni.v
NpOmniOk.v
NpOmniShow.v
