(* ===== verification/Prelude.v ===== *)
(** * Verification of the linux-test board test programs: overview and prelude

    The repository holds the programs and scripts that test Linux and U-Boot on
    SoC FPGA boards (a 32-bit or 64-bit ARM processor system). This development
    models the C programs that carry logic of their own and proves what they
    guarantee, and where they do not do what they are meant to.

    ** How programs are modelled

    A C fragment is a value of [M W A] (this file): a function from a state to an
    outcome and a state. The state has the text written so far ([out], newest
    chunk first) and the part of the world the program acts on ([dev], of type
    [W], a record per program). Outcomes are the values of [res]: a returned
    value, [exit] with a code, [abort], an access that is not allowed ([Crash])
    and [OutOfFuel]. Counted loops are [for_] and [for_acc]; loops without a
    bound are [while_] with fuel. Operating system, libraries and drivers are
    records of answers (named [*_os]) or classes, given as parameters; what the
    programs rely on is stated as named hypotheses ([good_*], [RxDriver],
    [GoodMemory]), and every theorem that uses one has a witness with a concrete
    instance. [runs m s Q] says that [m] returns and the result satisfies [Q];
    [wp m s Q] speaks of every outcome.

    Integers are [Z] with explicit wrap-around (CInt.v); the width of [long] and
    of pointers is the class [DataModel] (32 or 64 bits), fixed to 32 bits where
    the source is for 32-bit targets only. CLib.v defines the part of the C
    library the programs use: [strtoul] and relatives, [printf] conversions,
    [inet_pton], [sscanf] of hexadecimal bytes and [getopt_long]; CLibOk.v proves
    that printed numbers are read back. Memory.v is the interface to memory under
    test, with a working memory, a memory with a stuck bit and one with a faulty
    address decoder as instances.

    ** Programs, files and theorems

    - memtester ([src/memory_test/memtester]): MtTests.v has the tests of
      tests.c, MtMain.v the options, memory acquisition and test loop of
      memtester.c. MtShown.v picks the lines that announce a round, a test or a
      success from the output and states which are expected; MtTestsOk.v,
      MtMainOk.v, MtFrame.v and MtFaults.v hold the
      lemmas, MtClaims.v the properties: on a working memory exactly the
      requested rounds with the selected tests are run, all pass and the exit
      code is 0, a stuck bit is found, aliased addresses are found
      by the address test, mismatches are reported word by word, no test writes
      outside its buffers, the aligned buffer lies inside the block the last
      [malloc] gave, and two flaws of the allocation loop.
    - ethtool receive classification ([src/ethernet_test/ethtool/rxclass.c] with
      the structures of ethtool-copy.h and internal.h): RxSpec.v has the layout
      and the classes [RxDevice] and [RxDriver] of the kernel side, RxRules.v the
      display of rules, the bitmaps and the rule manager, RxParse.v the option
      parser; RxInsert.v has a table driver that keeps the driver contract.
      RxClaims.v: inserting never overwrites a rule, and inserts it when a slot is
      free and the table size is no multiple of the word size; the slot chosen is
      then the highest free one (for a multiple, the last word of slots can be
      missed); a command line is turned into exactly the structure it describes,
      numbers are accepted exactly in range, and two flaws of error reporting and
      display. Lemmas in RxRulesOk.v and RxParseOk.v.
    - CAN utilities ([src/can_test/utilities]): CanSocket.v is the socket layer,
      CanTools.v and CanConfig.v have the four programs
      (modules [Seq], [Send], [Dump], [Config]), CanOk.v and CanConfigOk.v hold
      lemmas. CanClaims.v: the sender numbers
      its frames without gaps whatever the system does, the receiver reports
      exactly the breaks, cansend builds the frame asked for, candump writes all
      frames and installs the filters written on its command line, canconfig
      always exits and hands the library the values named, and three flaws.
    - U-Boot TFTP test ([src/preloader-uboot]): UbTest.v (module [Ub]) has the
      generator of myrand.c, creatf.c, the helpers of crtinit.c and tftp-test.c.
      UbClaims.v: a file written by creatf passes the test wherever it is loaded,
      what exactly the test checks, and the two arithmetic helpers.
    - memtool ([src/memtool/memtool.c]): BoardTools.v (module [Tool]);
      ToolClaims.v: every way to write stores the value in one aligned cell, a
      read shows the cells asked for, and a count that wraps leads outside the
      mapping.
    - watchdog test ([src/watchdog/watchdog-test.c]): BoardTools.v (module [Wd]);
      ToolClaims.v: what the driver sees of a session, and that the end of
      the input is not handled.
    - SPI loopback test ([src/spi_test/spi-test-loopback.c]): BoardTools.v (module
      [Spi]); ToolClaims.v: with a loopback device the result file gets the data
      sent.
    - ping ([src/ethernet_test/ping/ping.c]): Ping.v has every function of the
      program, from the command line to the final statistics; network, clock and
      name service are the record [ping_os]. PingOk.v, PingRun.v,
      PingSafe.v and PingTimes.v hold lemmas on checksum, packets,
      table of duplicates, display, bounds, data and times; PingLoop.v defines
      an abstract machine of the counters and shows that the main loop
      implements it, in flood mode (where a round begins with a request and asks
      [select] for an event) and otherwise. PingClaims.v: the refinement, the relation between the
      counters, that requests are well formed and pass the checksum test, that
      the checksum is the one's complement sum, that minimum, mean and maximum
      are those of the times measured, and two flaws (the comparison of the data
      is shifted against the data sent, a fill pattern can leave its buffer).
    - ethtool, command layer ([src/ethernet_test/ethtool/ethtool.c] and
      sfpid.c). EtCmd.v is the parameter parser, over a store whose cells are the
      variables and structure fields a handler passes by address. EtSet.v has
      pause, ring, channel, coalesce and EEE parameters and the class [EtDevice]
      of the kernel side, EtLink.v the display and change of link settings,
      EtFeat.v string sets, private flags and offload features, EtIndir.v the
      flow hash indirection table, EtRx.v the classification commands around the
      rule manager and the conversion to n-tuple form, EtSfp.v the decoder of
      module data, EtDev.v driver information, register, EEPROM and module dumps,
      tests, statistics, firmware and time stamps (files are the class
      [EtFiles], decoders of single drivers are arguments, given by EtRegsAll.v), EtMain.v the table of
      options and [main]. EtSetOk.v, EtLinkOk.v, EtFeatOk.v and EtRxOk.v state
      what a command line means, as a map from fields to values, and that the
      parser implements it. EtClaims.v and EtMainClaims.v: a command writes back
      the structure it read with exactly the fields named on the command line
      changed, features and flags are requested as asked for, a rule is added
      without loss of others, a rule without VLAN type and its n-tuple form match
      the same packets, flow type included,
      weights fill the whole indirection table in proportion, the entry point
      runs the handler of the option given, and what is written to an EEPROM.
    - ethtool, register dumps ([src/ethernet_test/ethtool], one file per driver).
      CFmt.v interprets the formats of [printf] and reads words of a block; code
      that only shows something satisfies [shows]. EtRegs.v has the words of a
      dump, EtIgb.v, EtIxgbe.v, EtE1000.v, EtNatsemi.v, EtDe2104x.v, EtRealtek.v,
      EtPcnet32.v and EtRegMisc.v (ixgb, e100, amd8111e, skge, sky2, ibm_emac,
      fec_8xx, smsc911x, stmmac, tg3, vioc, at76c50x) the decoders, in the order
      of the source and with its formats; EtSfcTab.v the macros and tables of
      sfc, EtSfc.v its decoder. EtRegsAll.v chooses the decoder by the name of
      the driver and says what each one needs of a dump: its length, and counts
      and an index two decoders take from it without a check. EtMainClaims.v:
      [ethtool -d] reads nothing outside a dump of that kind, none of the
      decoders looks at the length, a field of sfc reads back as its value, and
      the tables of sfc are well typed.
    - VLAN tools ([src/ethernet_test/vlan]), the C programs of the Ethernet test
      suite ([src/ethernet_test/test-suite]), the SPI converter ([src/spi_adc])
      and the latency test ([src/latency]): Vlan.v (modules [Vconfig], [Macvlan]),
      TestSuite.v (one module per program) and FloatTools.v ([Adc], [Latency],
      floating point as the Standard Library specifies IEEE 754).
      NetToolClaims.v: what the kernel is asked for, what the receivers count,
      and that printed addresses and statistics are read back.
    - netperf ([src/ethernet_test/netperf-2.6.0/src]), its core without the
      single tests. NpLib.v has the control connection of netlib.c (requests,
      responses, byte order, time limits), NpServer.v the request loop of
      netserver.c ([Server]) and the questions of netperf ([Client]); NpSh.v the
      options of netsh.c and netserver.c with the tables of dscp.c; NpStat.v the
      buffer rings ([Ring]), the histogram ([Hist]), throughput, service demand
      and confidence ([Stat]) and the identifiers of net_uuid.c ([Uuid]). NpOk.v
      holds the lemmas on messages: a predicate on results that are determined
      up to the text shown ([det]), seen through the bytes of both directions.
      NpClaims.v: messages arrive whatever the two byte orders and however the
      network cuts the stream, the server answers as an abstract machine does,
      the passphrase guards it, and what happens to a partial message.
      NpShOk.v follows what options leave unchanged ([kept]) and shows that the
      number of iterations and the level of confidence fit the table of
      Student's t after any command line. NpStatOk.v: the histogram counts every
      time once, in the entry for it but for rounding in single precision; its
      ring of time stamps is a queue; the buffers of a ring are aligned, linked
      and hold the pattern; time stamps of identifiers differ. NpOmni.v has the
      results of the omni test of nettest_omni.c: the table of what can be shown,
      its selection and the three ways to show it; NpOmniOk.v follows the table,
      the selection and the buffers, which grow to what the values need, and
      NpOmniShow.v states what is printed as a function of the variables.

    The programs are independent processes; what they share is the C library,
    the memory interface, the CAN bus between sender and receiver of cansequence,
    the file between creatf and the TFTP test, and the control connection between
    netperf and netserver, over which the end-to-end theorems are stated. Inside ethtool the command layer calls the option parser
    and the rule manager of rxclass.c; its theorems use theirs through the classes
    [RxDevice], [RxDriver] and [EtDevice].

    ** Bounds and fuel

    The fuel of a loop without a bound is a parameter of the model; the theorems
    that a program returns ask for as many rounds as the code needs and say so
    (pages plus retries and loops for memtester, slots plus one for the rule
    manager, which computes its own fuel, frames for cansequence and candump,
    commands for the watchdog test); the main loop of ping is followed for any
    number of rounds. Inner loops with a known bound have that bound as fuel: 64
    rounds for the at most 40 bytes of IP options (shown to be enough in
    PingRun.v), the size of the packet buffer for the fill pattern, two more
    than the number of weights for the indirection table (shown to be enough in
    EtIndir.v). In netperf a message is received in at most one round more than
    its bytes, a buffer is filled from a file in at most two rounds per byte and
    two more, and the words of a direction are at most one more than its
    characters; each is shown to be enough. The theorems that a loop does not end hold for every
    fuel.

    ** What is not modelled

    The single tests of netperf ([nettest_*.c], but for the results of the omni
    test; handlers and scanners are arguments), its meters for other systems ([netcpu_*.c]), the probes of
    network hardware ([netslot_*.c], [netdrv_*.c], [netrt_*.c], [netsys_*.c]),
    the opening of connections, [fork] and its demo mode; the configuration is
    that of config.h, and floats and integers have the same order of words.
    sockperf, the unit tests of ethtool, C++ programs, scripts and assembly, and
    programs that only measure times. Sleeping, daemonising, the
    diagnostics [getopt] writes by itself and buffering of the standard streams
    have no counterpart in the model. canecho.c does not compile in the
    repository; what follows the unconditional return of sdram-test.c is not
    reached. *)

From stdpp Require Import base list strings option numbers.
From Stdlib Require Import ZArith Lia.
#[global] Open Scope Z_scope.

(** ** Outcomes of a C program fragment

    [Ret a] is normal completion, [Exit c] a call of [exit(c)], [Abort] a call
    of [abort()], [Crash] an access the C program is not allowed to make (a null
    or out of range pointer) and [OutOfFuel] a loop that was cut by the bound
    given to the model. *)
Inductive res (A : Type) : Type :=
| Ret (a : A)
| Exit (code : Z)
| Abort
| Crash
| OutOfFuel.
Arguments Ret {A} a.
Arguments Exit {A} code.
Arguments Abort {A}.
Arguments Crash {A}.
Arguments OutOfFuel {A}.

(** One chunk of text written to a standard stream. *)
Inductive msg : Type :=
| Stdout (s : string)
| Stderr (s : string).

#[export] Instance msg_eq_dec : EqDecision msg.
Proof. solve_decision. Defined.

(** The state of a run: what the program wrote (newest chunk first) and the
    part of the machine it talks to. *)
Record st (W : Type) : Type := mkst { out : list msg; dev : W }.
Arguments mkst {W} out dev.
Arguments out {W} s.
Arguments dev {W} s.

(** A program fragment: state passing with an outcome. *)
Definition M (W A : Type) : Type := st W -> res A * st W.

#[export] Instance M_ret W : MRet (M W) := fun A a s => (Ret a, s).
#[export] Instance M_bind W : MBind (M W) := fun A B f m s =>
  match m s with
  | (Ret a, s') => f a s'
  | (Exit c, s') => (Exit c, s')
  | (Abort, s') => (Abort, s')
  | (Crash, s') => (Crash, s')
  | (OutOfFuel, s') => (OutOfFuel, s')
  end.

Section prims.
Context {W : Type}.

Definition printf (x : string) : M W unit := fun s => (Ret tt, mkst (Stdout x :: out s) (dev s)).
Definition eprintf (x : string) : M W unit := fun s => (Ret tt, mkst (Stderr x :: out s) (dev s)).
Definition exit {A} (c : Z) : M W A := fun s => (Exit c, s).
Definition abort {A} : M W A := fun s => (Abort, s).
Definition crash {A} : M W A := fun s => (Crash, s).
Definition out_of_fuel {A} : M W A := fun s => (OutOfFuel, s).
(** A device operation: reads and changes the device part of the state only. *)
Definition devop {A} (f : W -> A * W) : M W A :=
  fun s => let '(a, w) := f (dev s) in (Ret a, mkst (out s) w).
Definition getdev : M W W := devop (fun w => (w, w)).
Definition setdev (f : W -> W) : M W unit := devop (fun w => (tt, f w)).
Definition when (b : bool) (m : M W unit) : M W unit := if b then m else mret tt.

(** [for (i = i0; i < i0 + n; i++) body] with a loop-carried value; the body
    gives [inl] to go on and [inr] to leave the enclosing function. *)
Fixpoint for_acc {S R} (n : nat) (i : Z) (acc : S) (body : Z -> S -> M W (S + R)) : M W (S + R) :=
  match n with
  | O => mret (inl acc)
  | S n' => r ← body i acc;
            match r with
            | inl acc' => for_acc n' (i + 1) acc' body
            | inr v => mret (inr v)
            end
  end.

(** The same without early return and without a loop-carried value. *)
Fixpoint for_ (n : nat) (i : Z) (body : Z -> M W unit) : M W unit :=
  match n with
  | O => mret tt
  | S n' => body i;; for_ n' (i + 1) body
  end.

(** [while (1)] over a loop-carried value, cut after [fuel] rounds. *)
Fixpoint while_ {S R} (fuel : nat) (acc : S) (body : S -> M W (S + R)) : M W R :=
  match fuel with
  | O => out_of_fuel
  | S f => r ← body acc;
           match r with
           | inl acc' => while_ f acc' body
           | inr v => mret v
           end
  end.
End prims.

(** ** Postconditions of runs that return *)

(** [runs m s Q]: [m] started in [s] returns normally, and the value and the
    final state satisfy [Q]. *)
Definition runs {W A} (m : M W A) (s : st W) (Q : A -> st W -> Prop) : Prop :=
  exists a s', m s = (Ret a, s') /\ Q a s'.

Create HintDb linuxtest.
Create Rewrite HintDb linuxtest.

Section runs.
Context {W : Type}.
Implicit Types s : st W.

Lemma runs_ret {A} (a : A) s (Q : A -> st W -> Prop) : Q a s -> runs (mret a) s Q.
Proof. intros; do 2 eexists; split; [reflexivity | done]. Qed.

Lemma runs_mono {A} (m : M W A) s (P Q : A -> st W -> Prop) :
  runs m s P -> (forall a s', P a s' -> Q a s') -> runs m s Q.
Proof. intros (a & s' & E & HP) H. exists a, s'. eauto. Qed.

Lemma runs_bind {A B} (m : M W A) (f : A -> M W B) s (Q : B -> st W -> Prop) :
  runs m s (fun a s' => runs (f a) s' Q) -> runs (m ≫= f) s Q.
Proof.
  intros (a & s' & E & b & s'' & E' & HQ). exists b, s''.
  unfold mbind, M_bind. rewrite E. eauto.
Qed.

Lemma bind_ret_run {A B} (m : M W A) (f : A -> M W B) s a s' :
  m s = (Ret a, s') -> (m ≫= f) s = f a s'.
Proof. unfold mbind, M_bind. by intros ->. Qed.

Lemma bind_exit_run {A B} (m : M W A) (f : A -> M W B) s c s' :
  m s = (Exit c, s') -> (m ≫= f) s = (Exit c, s').
Proof. unfold mbind, M_bind. by intros ->. Qed.

Lemma runs_printf x s (Q : unit -> st W -> Prop) :
  Q tt (mkst (Stdout x :: out s) (dev s)) -> runs (printf x) s Q.
Proof. intros. do 2 eexists; split; [reflexivity | done]. Qed.

Lemma runs_eprintf x s (Q : unit -> st W -> Prop) :
  Q tt (mkst (Stderr x :: out s) (dev s)) -> runs (eprintf x) s Q.
Proof. intros. do 2 eexists; split; [reflexivity | done]. Qed.

Lemma runs_devop {A} (f : W -> A * W) s (Q : A -> st W -> Prop) :
  Q (f (dev s)).1 (mkst (out s) (f (dev s)).2) -> runs (devop f) s Q.
Proof.
  intros. unfold runs, devop. destruct (f (dev s)) as [a w].
  do 2 eexists; split; [reflexivity | done].
Qed.

Lemma runs_getdev s (Q : W -> st W -> Prop) : Q (dev s) s -> runs getdev s Q.
Proof. intros. apply runs_devop. by destruct s. Qed.

Lemma runs_setdev (f : W -> W) s (Q : unit -> st W -> Prop) :
  Q tt (mkst (out s) (f (dev s))) -> runs (setdev f) s Q.
Proof. intros. by apply runs_devop. Qed.

Lemma runs_when (b : bool) (m : M W unit) s (Q : unit -> st W -> Prop) :
  (b = true -> runs m s Q) -> (b = false -> Q tt s) -> runs (when b m) s Q.
Proof. destruct b; intros H1 H2; [by apply H1 | by apply runs_ret, H2]. Qed.

(** Invariant rule for counted loops: [I k] holds before round [k]. *)
Lemma runs_for_ (I : Z -> st W -> Prop) (body : Z -> M W unit) n : forall i s,
  I i s ->
  (forall k s', i <= k < i + Z.of_nat n -> I k s' -> runs (body k) s' (fun _ => I (k + 1))) ->
  runs (for_ n i body) s (fun _ => I (i + Z.of_nat n)).
Proof.
  induction n as [|n IH]; intros i s HI Hb; simpl.
  - apply runs_ret. by rewrite Z.add_0_r.
  - apply runs_bind. eapply runs_mono; [apply Hb; [lia | done]|].
    intros ? s' HI'. replace (i + Z.of_nat (S n)) with (i + 1 + Z.of_nat n) by lia.
    apply IH; [done|]. intros k s'' Hk. apply Hb. lia.
Qed.

(** Invariant rule for loops with early return: [I k acc] before round [k],
    [J v] when the body returned [v] from the function. *)
Lemma runs_for_acc {S R} (I : Z -> S -> st W -> Prop) (J : R -> st W -> Prop)
    (body : Z -> S -> M W (S + R)) n : forall i acc s,
  I i acc s ->
  (forall k a s', i <= k < i + Z.of_nat n -> I k a s' ->
     runs (body k a) s' (fun r s'' => match r with inl a' => I (k + 1) a' s'' | inr v => J v s'' end)) ->
  runs (for_acc n i acc body) s
    (fun r s' => match r with inl a => I (i + Z.of_nat n) a s' | inr v => J v s' end).
Proof.
  induction n as [|n IH]; intros i acc s HI Hb; simpl.
  - apply runs_ret. by rewrite Z.add_0_r.
  - apply runs_bind. eapply runs_mono; [apply Hb; [lia | done]|].
    intros [a'|v] s' H'; [|by apply runs_ret].
    replace (i + Z.of_nat (Datatypes.S n)) with (i + 1 + Z.of_nat n) by lia.
    apply IH; [done|]. intros k a s'' Hk. apply Hb. lia.
Qed.
End runs.

#[export] Hint Resolve runs_ret runs_printf runs_eprintf runs_devop runs_getdev runs_setdev : linuxtest.

(** ** Postconditions of all runs

    [wp m s Q]: however [m] started in [s] ends, its outcome and final state
    satisfy [Q]. *)
Definition wp {W A} (m : M W A) (s : st W) (Q : res A -> st W -> Prop) : Prop := Q (m s).1 (m s).2.

Section wp.
Context {W : Type}.
Implicit Types s : st W.

Lemma wp_ret {A} (a : A) s (Q : res A -> st W -> Prop) : Q (Ret a) s -> wp (mret a) s Q.
Proof. done. Qed.

Lemma wp_mono {A} (m : M W A) s (P Q : res A -> st W -> Prop) :
  wp m s P -> (forall r s', P r s' -> Q r s') -> wp m s Q.
Proof. unfold wp. auto. Qed.

Lemma wp_bind {A B} (m : M W A) (f : A -> M W B) s (Q : res B -> st W -> Prop) :
  wp m s (fun r s' => match r with
                      | Ret a => wp (f a) s' Q
                      | Exit c => Q (Exit c) s'
                      | Abort => Q Abort s'
                      | Crash => Q Crash s'
                      | OutOfFuel => Q OutOfFuel s'
                      end) -> wp (m ≫= f) s Q.
Proof. unfold wp, mbind, M_bind. by destruct (m s) as [[] s']. Qed.

Lemma wp_runs {A} (m : M W A) s (Q : A -> st W -> Prop) :
  runs m s Q <-> wp m s (fun r s' => exists a, r = Ret a /\ Q a s').
Proof.
  unfold runs, wp. split.
  - intros (a & s' & -> & HQ). by exists a.
  - destruct (m s) as [r s']. simpl. intros (a & -> & HQ). by exists a, s'.
Qed.

Lemma wp_printf x s (Q : res unit -> st W -> Prop) :
  Q (Ret tt) (mkst (Stdout x :: out s) (dev s)) -> wp (printf x) s Q.
Proof. done. Qed.

Lemma wp_eprintf x s (Q : res unit -> st W -> Prop) :
  Q (Ret tt) (mkst (Stderr x :: out s) (dev s)) -> wp (eprintf x) s Q.
Proof. done. Qed.

Lemma wp_when (b : bool) (m : M W unit) s (Q : res unit -> st W -> Prop) :
  (b = true -> wp m s Q) -> (b = false -> Q (Ret tt) s) -> wp (when b m) s Q.
Proof. destruct b; intros H1 H2; [by apply H1 | by apply H2]. Qed.

(** Invariant rule for loops, at any fuel. *)
Lemma wp_while {S R} (I : S -> st W -> Prop) (Q : res R -> st W -> Prop) (body : S -> M W (S + R)) fuel :
  (forall a s, I a s -> Q OutOfFuel s) ->
  (forall a s, I a s -> wp (body a) s (fun r s' =>
     match r with
     | Ret (inl a') => I a' s'
     | Ret (inr v) => Q (Ret v) s'
     | Exit c => Q (Exit c) s'
     | Abort => Q Abort s'
     | Crash => Q Crash s'
     | OutOfFuel => Q OutOfFuel s'
     end)) ->
  forall acc s, I acc s -> wp (while_ fuel acc body) s Q.
Proof.
  intros Hout Hbody. induction fuel as [|f IH]; intros acc s HI; [by eapply Hout|].
  simpl. apply wp_bind. eapply wp_mono; [by apply Hbody|].
  intros [[a'|v]| | | |] s' H; auto.
Qed.

(** Invariant rule for counted loops whose body may end the program. *)
Lemma wp_for_ (I : Z -> st W -> Prop) (Q : res unit -> st W -> Prop) (body : Z -> M W unit) n : forall i s,
  I i s ->
  (forall k s', i <= k < i + Z.of_nat n -> I k s' -> wp (body k) s' (fun r s'' =>
     match r with
     | Ret _ => I (k + 1) s''
     | Exit c => Q (Exit c) s''
     | Abort => Q Abort s''
     | Crash => Q Crash s''
     | OutOfFuel => Q OutOfFuel s''
     end)) ->
  (forall s', I (i + Z.of_nat n) s' -> Q (Ret tt) s') ->
  wp (for_ n i body) s Q.
Proof.
  induction n as [|n IH]; intros i s HI Hb HQ; simpl.
  - apply wp_ret, HQ. by rewrite Z.add_0_r.
  - apply wp_bind. eapply wp_mono; [apply Hb; [lia|done]|]. intros [[]| | | |] s' H; try done.
    apply IH; [done| |].
    + intros k s'' Hk. apply Hb. lia.
    + intros s'' H'. apply HQ. replace (i + Z.of_nat (Datatypes.S n)) with (i + 1 + Z.of_nat n) by lia. done.
Qed.
End wp.

(** One more round of a loop, under [runs]. *)
Lemma runs_while {W S R} f (acc : S) (body : S -> M W (S + R)) s (Q : R -> st W -> Prop) :
  runs (body acc) s (fun r s' => match r with
                                 | inl a => runs (while_ f a body) s' Q
                                 | inr v => Q v s' end) ->
  runs (while_ (Datatypes.S f) acc body) s Q.
Proof.
  intros H. simpl. apply runs_bind. eapply runs_mono; [exact H|].
  intros [a|v] s' HQ; [done | by apply runs_ret].
Qed.

(** Symbolic execution of straight-line code under [runs]. *)
Ltac runs_step :=
  match goal with
  | |- runs (mret _) _ _ => apply runs_ret
  | |- runs (_ ≫= _) _ _ => apply runs_bind
  | |- runs (printf _) _ _ => apply runs_printf
  | |- runs (eprintf _) _ _ => apply runs_eprintf
  | |- runs (devop _) _ _ => apply runs_devop
  | |- runs getdev _ _ => apply runs_getdev
  | |- runs (setdev _) _ _ => apply runs_setdev
  end; cbn [out dev].
Ltac runs_steps := repeat runs_step.

(** ** Characters of C string literals *)
Definition nl : string := String (Ascii.ascii_of_nat 10) EmptyString.
Definition tab : string := String (Ascii.ascii_of_nat 9) EmptyString.
Definition bs : string := String (Ascii.ascii_of_nat 8) EmptyString.
Definition dq : string := String (Ascii.ascii_of_nat 34) EmptyString.
