(* ===== verification/CInt.v ===== *)
(** * Machine integers of the C programs

    A w-bit integer is a [Z]; every operation that can leave the range is
    followed by the wrap-around the C program performs. Byte sequences are
    lists of [Z] between 0 and 255, in memory order; the targets of the
    repository (ARM and x86) are little endian. *)

From stdpp Require Import base list numbers.
From Stdlib Require Import ZArith Lia.
From S2P Require Import Prelude.

(** ** The data model

    [long] and pointers have 32 bits on the Cyclone V / Arria 10 boards and 64
    bits on Stratix 10 and on the build host; the sources are written for both
    ([sizes.h] of memtester, [BITS_PER_LONG] of ethtool). *)
Class DataModel : Type := {
  long_bits : Z;
  long_bits_cases : long_bits = 32 \/ long_bits = 64
}.

Definition ILP32 : DataModel := {| long_bits := 32; long_bits_cases := or_introl eq_refl |}.
Definition LP64 : DataModel := {| long_bits := 64; long_bits_cases := or_intror eq_refl |}.

(** ** Conversions *)

Definition wrapu (w x : Z) : Z := x mod 2 ^ w.
Definition wraps (w x : Z) : Z := (x + 2 ^ (w - 1)) mod 2 ^ w - 2 ^ (w - 1).
Definition u8 (x : Z) : Z := wrapu 8 x.
Definition u16 (x : Z) : Z := wrapu 16 x.
Definition u32 (x : Z) : Z := wrapu 32 x.
Definition u64 (x : Z) : Z := wrapu 64 x.
Definition s32 (x : Z) : Z := wraps 32 x.
(** [unsigned long] and [size_t], at the width of the data model. *)
Definition ulong `{DataModel} (x : Z) : Z := wrapu long_bits x.
(** C's [~x] and [x << k] at an unsigned type of width [w]. *)
Definition notu (w x : Z) : Z := wrapu w (Z.lnot x).
Definition shlu (w x k : Z) : Z := wrapu w (Z.shiftl x k).
(** C's [!x] and truth value of an integer. *)
Definition truth (x : Z) : bool := negb (x =? 0).

(** ** Little-endian byte sequences *)

Fixpoint le_bytes (n : nat) (x : Z) : list Z :=
  match n with
  | O => []
  | S n' => x mod 256 :: le_bytes n' (x / 256)
  end.

Fixpoint le_val (l : list Z) : Z :=
  match l with
  | [] => 0
  | b :: l' => b + 256 * le_val l'
  end.

Definition is_byte (b : Z) : Prop := 0 <= b < 256.

(** ** Lemmas *)

Lemma wrapu_range w x : 0 <= w -> 0 <= wrapu w x < 2 ^ w.
Proof. intros. apply Z.mod_pos_bound, Z.pow_pos_nonneg; lia. Qed.

Lemma wrapu_small w x : 0 <= x < 2 ^ w -> wrapu w x = x.
Proof. apply Z.mod_small. Qed.

Lemma wrapu_idem w x : wrapu w (wrapu w x) = wrapu w x.
Proof.
  unfold wrapu. destruct (decide (2 ^ w = 0)) as [->|]; [by rewrite !Z.mod_0_r|].
  by apply Z.mod_mod.
Qed.

Lemma wraps_small w x : 0 < w -> - 2 ^ (w - 1) <= x < 2 ^ (w - 1) -> wraps w x = x.
Proof.
  intros Hw Hx. unfold wraps.
  assert (2 ^ w = 2 * 2 ^ (w - 1)) by (rewrite <- Z.pow_succ_r by lia; f_equal; lia).
  rewrite Z.mod_small; lia.
Qed.

Lemma wraps_range w x : 0 < w -> - 2 ^ (w - 1) <= wraps w x < 2 ^ (w - 1).
Proof.
  intros Hw. unfold wraps.
  assert (2 ^ w = 2 * 2 ^ (w - 1)) by (rewrite <- Z.pow_succ_r by lia; f_equal; lia).
  pose proof (Z.mod_pos_bound (x + 2 ^ (w - 1)) (2 ^ w) ltac:(lia)). lia.
Qed.

Lemma wrapu_testbit w x i :
  0 <= w -> Z.testbit (wrapu w x) i = ((i <? w) && Z.testbit x i)%bool.
Proof.
  intros Hw. unfold wrapu. destruct (Z.ltb_spec i w); simpl.
  - destruct (Z.lt_ge_cases i 0); [by rewrite !Z.testbit_neg_r|].
    by rewrite Z.mod_pow2_bits_low.
  - by rewrite Z.mod_pow2_bits_high by lia.
Qed.

Lemma notu_testbit w x i :
  0 <= w -> 0 <= i -> Z.testbit (notu w x) i = ((i <? w) && negb (Z.testbit x i))%bool.
Proof. intros. unfold notu. rewrite wrapu_testbit, Z.lnot_spec by lia. done. Qed.

Lemma notu_eq w x : 0 <= w -> 0 <= x < 2 ^ w -> notu w x = 2 ^ w - 1 - x.
Proof.
  intros Hw Hx. unfold notu, wrapu. rewrite <- (Z.mod_small (2 ^ w - 1 - x) (2 ^ w)) by lia.
  replace (2 ^ w - 1 - x) with (Z.lnot x + 1 * 2 ^ w) by (unfold Z.lnot; lia).
  by rewrite Z.mod_add by lia.
Qed.

Lemma notu_involutive w x : 0 <= w -> 0 <= x < 2 ^ w -> notu w (notu w x) = x.
Proof. intros. rewrite (notu_eq w x), notu_eq; lia. Qed.

Lemma bits_zero_range w x : 0 <= w -> (forall i, w <= i -> Z.testbit x i = false) -> 0 <= x -> x < 2 ^ w.
Proof.
  intros Hw Hb Hx. destruct (Z.lt_ge_cases x (2 ^ w)) as [|Hge]; [done|exfalso].
  assert (0 < x) by (pose proof (Z.pow_pos_nonneg 2 w); lia).
  pose proof (Z.bit_log2 x ltac:(lia)) as Hbit.
  rewrite Hb in Hbit; [done|]. apply Z.log2_le_pow2; lia.
Qed.

Lemma testbit_high w x i : 0 <= w -> 0 <= x < 2 ^ w -> w <= i -> Z.testbit x i = false.
Proof. intros ?? ?. rewrite <- (Z.mod_small x (2 ^ w)) by lia. by apply Z.mod_pow2_bits_high. Qed.

(** Bitwise operators stay within the width of their operands. *)
Lemma bitop_range (f : Z -> Z -> Z) (g : bool -> bool -> bool) w x y :
  (forall a b i, 0 <= i -> Z.testbit (f a b) i = g (Z.testbit a i) (Z.testbit b i)) ->
  g false false = false -> (forall a b, 0 <= a -> 0 <= b -> 0 <= f a b) ->
  0 <= w -> 0 <= x < 2 ^ w -> 0 <= y < 2 ^ w -> 0 <= f x y < 2 ^ w.
Proof.
  intros Hf Hg Hpos Hw Hx Hy. split; [apply Hpos; lia|].
  apply bits_zero_range; [done| |apply Hpos; lia].
  intros i Hi. rewrite Hf by lia. by rewrite !(testbit_high w) by lia.
Qed.

Lemma lxor_range w x y : 0 <= w -> 0 <= x < 2 ^ w -> 0 <= y < 2 ^ w -> 0 <= Z.lxor x y < 2 ^ w.
Proof.
  apply (bitop_range Z.lxor xorb); [intros; apply Z.lxor_spec|done|].
  intros. apply Z.lxor_nonneg. lia.
Qed.

Lemma lor_range w x y : 0 <= w -> 0 <= x < 2 ^ w -> 0 <= y < 2 ^ w -> 0 <= Z.lor x y < 2 ^ w.
Proof.
  apply (bitop_range Z.lor orb); [intros; apply Z.lor_spec|done|].
  intros. by apply Z.lor_nonneg.
Qed.

Lemma land_range w x y : 0 <= w -> 0 <= x < 2 ^ w -> 0 <= y < 2 ^ w -> 0 <= Z.land x y < 2 ^ w.
Proof.
  apply (bitop_range Z.land andb); [intros; apply Z.land_spec|done|].
  intros. apply Z.land_nonneg. by left.
Qed.

(** A single-bit mask test reads one bit. *)
Lemma land_pow2_testbit x k : 0 <= k -> truth (Z.land x (2 ^ k)) = Z.testbit x k.
Proof.
  intros Hk. unfold truth. destruct (Z.testbit x k) eqn:E.
  - apply negb_true_iff, Z.eqb_neq. intros H0.
    assert (Z.testbit (Z.land x (2 ^ k)) k = true) as Hb
      by (rewrite Z.land_spec, E, Z.pow2_bits_true; [done|lia]).
    rewrite H0, Z.bits_0 in Hb. done.
  - apply negb_false_iff, Z.eqb_eq, Z.bits_inj'. intros i Hi.
    rewrite Z.land_spec, Z.bits_0. destruct (decide (k = i)) as [->|Hne].
    + by rewrite E.
    + by rewrite Z.pow2_bits_false, andb_false_r by done.
Qed.

Lemma le_bytes_length n x : length (le_bytes n x) = n.
Proof. revert x. induction n; intros; simpl; [done|]. by rewrite IHn. Qed.

Lemma le_bytes_is_byte n x : Forall is_byte (le_bytes n x).
Proof.
  revert x. induction n; intros; simpl; constructor; [|done].
  apply Z.mod_pos_bound. lia.
Qed.

Lemma le_val_range l : Forall is_byte l -> 0 <= le_val l < 256 ^ Z.of_nat (length l).
Proof.
  induction 1 as [|b l Hb Hl IH]; cbn [le_val length]; [lia|].
  rewrite Nat2Z.inj_succ, Z.pow_succ_r by lia. unfold is_byte in Hb. lia.
Qed.

(** Bit [i] of byte [k] is bit [8k + i] of the little-endian value. *)
Lemma le_val_testbit l k i : Forall is_byte l -> 0 <= i < 8 ->
  Z.testbit (le_val l) (8 * Z.of_nat k + i) = Z.testbit (nth k l 0) i.
Proof.
  intros Hl Hi. revert k. induction Hl as [|b l Hb Hl IH]; intros k; cbn [le_val].
  - rewrite Z.bits_0. destruct k; by rewrite Z.bits_0.
  - unfold is_byte in Hb. destruct k; cbn [nth].
    + rewrite Z.mul_0_r, Z.add_0_l, <- (Z.mod_pow2_bits_low _ 8) by lia. f_equal.
      change (2 ^ 8) with 256. rewrite Z.mul_comm, Z.mod_add by lia. apply Z.mod_small. lia.
    + rewrite <- (IH k). replace (8 * Z.of_nat (S k) + i) with (8 * Z.of_nat k + i + 8) by lia.
      rewrite <- Z.div_pow2_bits by lia. f_equal. change (2 ^ 8) with 256.
      rewrite Z.mul_comm, Z.div_add by lia. rewrite Z.div_small; lia.
Qed.

Lemma le_val_bytes n x : le_val (le_bytes n x) = x mod 256 ^ Z.of_nat n.
Proof.
  revert x. induction n as [|n IH]; intros x; cbn [le_bytes le_val]; [by rewrite Z.mod_1_r|].
  rewrite IH, Nat2Z.inj_succ, Z.pow_succ_r by lia.
  rewrite Z.rem_mul_r by (try apply Z.pow_nonzero; lia). lia.
Qed.

Lemma le_bytes_val l : Forall is_byte l -> le_bytes (length l) (le_val l) = l.
Proof.
  induction 1 as [|b l Hb Hl IH]; cbn [le_val length le_bytes]; [done|].
  unfold is_byte in Hb.
  replace ((b + 256 * le_val l) mod 256) with b
    by (rewrite Z.mul_comm, Z.mod_add, Z.mod_small; lia).
  f_equal. etrans; [|exact IH]. f_equal.
  rewrite Z.mul_comm, Z.div_add, Z.div_small; lia.
Qed.

Lemma le_val_inj l1 l2 :
  Forall is_byte l1 -> Forall is_byte l2 -> length l1 = length l2 -> le_val l1 = le_val l2 -> l1 = l2.
Proof. intros H1 H2 Hl Hv. by rewrite <- (le_bytes_val l1), <- (le_bytes_val l2), Hl, Hv. Qed.

Lemma pow_256 n : 0 <= n -> 256 ^ n = 2 ^ (8 * n).
Proof. intros. by rewrite Z.pow_mul_r by lia. Qed.

Section datamodel.
Context `{DM : DataModel}.

Lemma long_bits_pos : 0 < long_bits.
Proof. destruct long_bits_cases; lia. Qed.

Lemma ulong_range x : 0 <= ulong x < 2 ^ long_bits.
Proof. apply wrapu_range. pose proof long_bits_pos. lia. Qed.

Lemma ulong_small x : 0 <= x < 2 ^ long_bits -> ulong x = x.
Proof. apply wrapu_small. Qed.
End datamodel.

#[export] Hint Resolve wrapu_range wrapu_small le_bytes_is_byte ulong_range : linuxtest.
#[export] Hint Rewrite le_bytes_length : linuxtest.
