(* ===== verification/CLib.v ===== *)
(** * The part of the C library the programs use

    Number parsing ([strtoul] and relatives), number formatting ([printf]
    conversions), string searching, [inet_pton]/[inet_ntop] for IPv4, the
    [%2x] conversion of [sscanf], and GNU [getopt]/[getopt_long] with argument
    permutation. The diagnostics [getopt] itself writes are not modelled. *)

From stdpp Require Import base list strings option numbers.
From Stdlib Require Import ZArith Lia Ascii.
From S2P Require Import Prelude CInt.

(** ** Characters *)

Definition cc (c : ascii) : Z := Z.of_N (N_of_ascii c).
Definition chr (z : Z) : ascii := ascii_of_N (Z.to_N z).
Definition isspace (c : ascii) : bool := ((cc c =? 32) || ((9 <=? cc c) && (cc c <=? 13)))%bool.
Definition isblank (c : ascii) : bool := ((cc c =? 32) || (cc c =? 9))%bool.
Definition isdigit (c : ascii) : bool := ((48 <=? cc c) && (cc c <=? 57))%bool.

(** The value of a digit in bases up to 36. *)
Definition digit_val (c : ascii) : option Z :=
  let z := cc c in
  if ((48 <=? z) && (z <=? 57))%bool then Some (z - 48)
  else if ((97 <=? z) && (z <=? 122))%bool then Some (z - 87)
  else if ((65 <=? z) && (z <=? 90))%bool then Some (z - 55)
  else None.

Definition digit_in (base : Z) (c : ascii) : option Z :=
  match digit_val c with
  | Some d => if d <? base then Some d else None
  | None => None
  end.

(** ** Strings *)

Fixpoint strlen (s : string) : Z :=
  match s with EmptyString => 0 | String _ s' => 1 + strlen s' end.

(** [strchr]: the suffix that starts at the first [c]. *)
Fixpoint strchr (s : string) (c : ascii) : option string :=
  match s with
  | EmptyString => None
  | String c' s' => if Ascii.eqb c' c then Some s else strchr s' c
  end.

Fixpoint skip_while (p : ascii -> bool) (s : string) : string :=
  match s with
  | String c s' => if p c then skip_while p s' else s
  | EmptyString => s
  end.

Definition streq (a b : string) : bool := String.eqb a b.

(** Letter case in the C locale, comparison without it. *)
Definition tolower (c : ascii) : ascii := if ((65 <=? cc c) && (cc c <=? 90))%bool then chr (cc c + 32) else c.
Definition toupper (c : ascii) : ascii := if ((97 <=? cc c) && (cc c <=? 122))%bool then chr (cc c - 32) else c.
Fixpoint smap (f : ascii -> ascii) (s : string) : string :=
  match s with EmptyString => EmptyString | String c s' => String (f c) (smap f s') end.
Definition strcasecmp (a b : string) : bool := streq (smap tolower a) (smap tolower b).

(** Whether [strstr] finds [needle]. *)
Fixpoint strstr (s needle : string) : bool :=
  (String.prefix needle s || match s with EmptyString => false | String _ s' => strstr s' needle end)%bool.

(** A C string in an array: the bytes before the first 0; the bytes of a string. *)
Fixpoint cstr (l : list Z) : string :=
  match l with
  | [] => EmptyString
  | b :: l' => if b =? 0 then EmptyString else String (chr b) (cstr l')
  end.
Fixpoint str_bytes (s : string) : list Z :=
  match s with EmptyString => [] | String c s' => cc c :: str_bytes s' end.
(** The first [n] characters. *)
Fixpoint str_take (n : nat) (s : string) : string :=
  match n, s with S n', String c s' => String c (str_take n' s') | _, _ => EmptyString end.

(** The first character, 0 at the end of the string: C's [*s]. *)
Definition char_at0 (s : string) : Z :=
  match s with String c _ => cc c | EmptyString => 0 end.

Definition str_tail (s : string) : string :=
  match s with String _ s' => s' | EmptyString => EmptyString end.

(** ** Number parsing *)

(** Digits of [base] from the front of [s]: value, whether there was one, and
    the rest. *)
Fixpoint scan_digits (base : Z) (s : string) (acc : Z) (any : bool) : Z * bool * string :=
  match s with
  | String c s' =>
      match digit_in base c with
      | Some d => scan_digits base s' (acc * base + d) true
      | None => (acc, any, s)
      end
  | EmptyString => (acc, any, s)
  end.

Definition scan_sign (s : string) : bool * string :=
  match s with
  | String c s' => if cc c =? 45 then (true, s') else if cc c =? 43 then (false, s') else (false, s)
  | EmptyString => (false, s)
  end.

(** A [0x] or [0X] that is followed by a hexadecimal digit. *)
Definition hex_prefix (s : string) : option string :=
  match s with
  | String c0 (String c1 (String c2 _ as r)) =>
      if ((cc c0 =? 48) && ((cc c1 =? 120) || (cc c1 =? 88)))%bool
      then match digit_in 16 c2 with Some _ => Some r | None => None end
      else None
  | _ => None
  end.

(** The common part of [strtol] and [strtoul]: sign, magnitude and rest; [None]
    when there is no number. *)
Definition strto_scan (base : Z) (s : string) : option (bool * Z * string) :=
  let '(neg, s1) := scan_sign (skip_while isspace s) in
  let '(b, s2) :=
    match (if (base =? 0) || (base =? 16) then hex_prefix s1 else None)%bool with
    | Some r => (16, r)
    | None => (if base =? 0 then (if char_at0 s1 =? 48 then 8 else 10) else base, s1)
    end in
  let '(v, any, rest) := scan_digits b s2 0 false in
  if any then Some (neg, v, rest) else None.

(** Result of a conversion: the value, [*endptr], and whether [errno] was set
    to [ERANGE]. *)
Record strto_res := mk_strto { sv : Z; send : string; serange : bool }.

(** [strtoul] for a [w]-bit unsigned type. *)
Definition strtou (w base : Z) (s : string) : strto_res :=
  match strto_scan base s with
  | None => mk_strto 0 s false
  | Some (neg, v, rest) =>
      if 2 ^ w - 1 <? v then mk_strto (2 ^ w - 1) rest true
      else mk_strto (wrapu w (if neg then - v else v)) rest false
  end.

(** [strtol] for a [w]-bit signed type. *)
Definition strtos (w base : Z) (s : string) : strto_res :=
  match strto_scan base s with
  | None => mk_strto 0 s false
  | Some (neg, v, rest) =>
      if neg then
        if 2 ^ (w - 1) <? v then mk_strto (- 2 ^ (w - 1)) rest true else mk_strto (- v) rest false
      else if 2 ^ (w - 1) - 1 <? v then mk_strto (2 ^ (w - 1) - 1) rest true
      else mk_strto v rest false
  end.

Definition strtoul `{DataModel} (base : Z) (s : string) : strto_res := strtou long_bits base s.
Definition strtoull (base : Z) (s : string) : strto_res := strtou 64 base s.
Definition strtoll (base : Z) (s : string) : strto_res := strtos 64 base s.
(** glibc: [atoi(s)] is [(int) strtol(s, NULL, 10)]. *)
Definition atoi `{DataModel} (s : string) : Z := s32 (sv (strtos long_bits 10 s)).

(** ** Number formatting *)

Definition digit_chr (upper : bool) (d : Z) : ascii :=
  if d <? 10 then chr (48 + d) else chr ((if upper then 55 else 87) + d).

Fixpoint fmt_digits (fuel : nat) (upper : bool) (base n : Z) (acc : string) : string :=
  match fuel with
  | O => acc
  | S f => let acc' := String (digit_chr upper (n mod base)) acc in
           if n / base =? 0 then acc' else fmt_digits f upper base (n / base) acc'
  end.

Definition fmt_base (upper : bool) (base n : Z) : string :=
  fmt_digits (S (Z.to_nat (Z.log2 n))) upper base n EmptyString.

(** [%u] and [%d] *)
Definition dec (n : Z) : string :=
  if n <? 0 then String (chr 45) (fmt_base false 10 (- n)) else fmt_base false 10 n.
(** [%x] and [%X] *)
Definition hex (n : Z) : string := fmt_base false 16 n.
Definition hexU (n : Z) : string := fmt_base true 16 n.

Fixpoint nchars (n : nat) (c : ascii) : string :=
  match n with O => EmptyString | S n' => String c (nchars n' c) end.

Definition pad_left (c : ascii) (w : Z) (s : string) : string :=
  nchars (Z.to_nat (w - strlen s)) c +:+ s.
Definition pad_right (w : Z) (s : string) : string :=
  s +:+ nchars (Z.to_nat (w - strlen s)) (chr 32).
(** [%0<w>x], [%0<w>X], [%<w>u], [%-<w>s] *)
Definition hex0 (w n : Z) : string := pad_left (chr 48) w (hex n).
Definition hexU0 (w n : Z) : string := pad_left (chr 48) w (hexU n).
Definition decw (w n : Z) : string := pad_left (chr 32) w (dec n).

(** ** IPv4 text addresses *)

(** One decimal octet: up to 255, no leading zero (as glibc's [inet_pton]). *)
Fixpoint scan_octet (s : string) (acc : Z) (n : nat) : option (Z * nat * string) :=
  match s with
  | String c s' =>
      if isdigit c then
        if ((0 <? n)%nat && (acc =? 0))%bool then None
        else let v := acc * 10 + (cc c - 48) in
             if 255 <? v then None else scan_octet s' v (S n)
      else Some (acc, n, s)
  | EmptyString => Some (acc, n, s)
  end.

Fixpoint scan_octets (k : nat) (s : string) : option (list Z) :=
  match scan_octet s 0 0 with
  | Some (v, S _, rest) =>
      match k, rest with
      | O, EmptyString => Some [v]
      | S k', String c rest' =>
          if cc c =? 46 then match scan_octets k' rest' with Some l => Some (v :: l) | None => None end
          else None
      | _, _ => None
      end
  | _ => None
  end.

(** [inet_pton(AF_INET, s, &val)]: the four bytes in memory order. *)
Definition inet_pton4 (s : string) : option (list Z) := scan_octets 3 s.

Definition inet_ntop4 (b : list Z) : string :=
  String.concat "." (dec <$> b).

(** ** [sscanf]'s [%2x] *)

(** At most two characters: a sign counts, [0x] reads as 0. *)
Definition scan_hex2 (s : string) : option (Z * string) :=
  let s0 := skip_while isspace s in
  let '(neg, s1) := scan_sign s0 in
  let signed := negb (strlen s0 =? strlen s1) in
  let fin v rest := Some (wrapu 32 (if neg then - v else v), rest) in
  match s1 with
  | String c0 r0 =>
      match digit_in 16 c0 with
      | None => None
      | Some d0 =>
          if signed then fin d0 r0
          else match r0 with
               | String c1 r1 =>
                   if ((d0 =? 0) && ((cc c1 =? 120) || (cc c1 =? 88)))%bool then fin 0 r1
                   else match digit_in 16 c1 with
                        | Some d1 => fin (16 * d0 + d1) r1
                        | None => fin d0 r0
                        end
               | EmptyString => fin d0 r0
               end
      end
  | EmptyString => None
  end.

(** [sscanf(s, "%2x:%2x:...:%2x", ...)] with [k + 1] conversions: the values
    converted before the first mismatch. *)
Fixpoint scan_hex_colon (k : nat) (s : string) : list Z :=
  match scan_hex2 s with
  | None => []
  | Some (v, rest) =>
      match k, rest with
      | S k', String c rest' => if cc c =? 58 then v :: scan_hex_colon k' rest' else [v]
      | _, _ => [v]
      end
  end.

(** ** getopt *)

(** A long option: name, whether it takes an argument, the value returned. *)
Record longopt := mk_longopt { lo_name : string; lo_arg : bool; lo_val : Z }.

(** What one call of [getopt_long] returned: the option value and [optarg]. *)
Definition optev : Type := Z * option string.
Definition opt_bad : optev := (63, None).

(** Whether [c] is an option of [optstring], and whether it takes an argument. *)
Fixpoint short_lookup (optstring : string) (c : ascii) : option bool :=
  match optstring with
  | EmptyString => None
  | String c' r => if Ascii.eqb c' c then Some (char_at0 r =? 58) else short_lookup r c
  end.

(** A cluster [-abc]: the options found, and the option that still needs its
    argument from the next word. *)
Fixpoint short_cluster (optstring : string) (s : string) : list optev * option ascii :=
  match s with
  | EmptyString => ([], None)
  | String c r =>
      match (if cc c =? 58 then None else short_lookup optstring c) with
      | None => let '(evs, p) := short_cluster optstring r in (opt_bad :: evs, p)
      | Some false => let '(evs, p) := short_cluster optstring r in ((cc c, None) :: evs, p)
      | Some true => match r with
                     | EmptyString => ([], Some c)
                     | _ => ([(cc c, Some r)], None)
                     end
      end
  end.

(** The part of a long option word before [=] and the value after it. *)
Fixpoint split_eq (s : string) : string * option string :=
  match s with
  | EmptyString => (EmptyString, None)
  | String c r => if cc c =? 61 then (EmptyString, Some r)
                  else let '(a, v) := split_eq r in (String c a, v)
  end.

(** The exact name, or else the only kind of option the word abbreviates. *)
Definition long_lookup (opts : list longopt) (name : string) : option longopt :=
  match filter (fun o => lo_name o = name) opts with
  | o :: _ => Some o
  | [] => match filter (fun o => String.prefix name (lo_name o) = true) opts with
          | [] => None
          | o :: os => if forallb (fun o' => Bool.eqb (lo_arg o) (lo_arg o') && (lo_val o =? lo_val o'))%bool os
                       then Some o else None
          end
  end.

(** What the missing argument of an option is reported as. *)
Definition opt_missing (optstring : string) : optev :=
  if char_at0 optstring =? 58 then (58, None) else opt_bad.

(** All calls of [getopt_long] on [argv[1..]]: their results in order, and the
    operands left after [optind]. *)
Fixpoint getopt_long (optstring : string) (opts : list longopt) (args : list string)
    : list optev * list string :=
  match args with
  | [] => ([], [])
  | a :: rest =>
      let more (evs : list optev) r := let '(es, ops) := getopt_long optstring opts r in (evs ++ es, ops) in
      match a with
      | String c0 (String c1 r as body) =>
          if negb (cc c0 =? 45) then
            let '(es, ops) := getopt_long optstring opts rest in (es, a :: ops)
          else if negb (cc c1 =? 45) then
            match short_cluster optstring body with
            | (evs, None) => more evs rest
            | (evs, Some c) => match rest with
                               | v :: rest' => more (evs ++ [(cc c, Some v)]) rest'
                               | [] => (evs ++ [opt_missing optstring], [])
                               end
            end
          else match r with
               | EmptyString => ([], rest)
               | _ =>
                   let '(name, v) := split_eq r in
                   match long_lookup opts name with
                   | None => more [opt_bad] rest
                   | Some o =>
                       match lo_arg o, v with
                       | false, None => more [(lo_val o, None)] rest
                       | false, Some _ => more [opt_bad] rest
                       | true, Some x => more [(lo_val o, Some x)] rest
                       | true, None => match rest with
                                       | x :: rest' => more [(lo_val o, Some x)] rest'
                                       | [] => ([opt_missing optstring], [])
                                       end
                       end
                   end
               end
      | _ => let '(es, ops) := getopt_long optstring opts rest in (es, a :: ops)
      end
  end.

Definition getopt (optstring : string) (args : list string) : list optev * list string :=
  getopt_long optstring [] args.
