(* ===== verification/CLibOk.v ===== *)
(** * Lemmas on the C library: numbers printed in decimal or hexadecimal are read back *)

From stdpp Require Import base list strings option numbers.
From Stdlib Require Import ZArith Lia Ascii.
From S2P Require Import Prelude CInt CLib.

Lemma digit_chr_facts d : 0 <= d < 16 ->
  digit_val (digit_chr false d) = Some d /\ isspace (digit_chr false d) = false /\
  (cc (digit_chr false d) =? 45) = false /\ (cc (digit_chr false d) =? 43) = false /\
  (cc (digit_chr false d) =? 48) = (d =? 0).
Proof.
  intros Hd. assert (d = 0 \/ d = 1 \/ d = 2 \/ d = 3 \/ d = 4 \/ d = 5 \/ d = 6 \/ d = 7 \/ d = 8 \/
    d = 9 \/ d = 10 \/ d = 11 \/ d = 12 \/ d = 13 \/ d = 14 \/ d = 15) as H by lia.
  repeat (destruct H as [-> | H]; [vm_compute; auto|]). subst. vm_compute. auto.
Qed.

Lemma digit_in_chr base d : 0 <= d < base -> base <= 16 -> digit_in base (digit_chr false d) = Some d.
Proof.
  intros Hd Hb. unfold digit_in. destruct (digit_chr_facts d ltac:(lia)) as [-> _].
  by destruct (Z.ltb_spec d base); [|lia].
Qed.

Section base.
Context (base : Z) (Hbase : 2 <= base <= 16).

Lemma fmt_fuel_step n f : 0 <= n < 2 ^ Z.of_nat (S f) -> n / base <> 0 -> 0 <= n / base < 2 ^ Z.of_nat f.
Proof.
  intros Hn Hne. rewrite Nat2Z.inj_succ, Z.pow_succ_r in Hn by lia.
  split; [apply Z.div_pos; lia|]. apply Z.div_lt_upper_bound; nia.
Qed.

Lemma scan_fmt_digits f : forall n acc any,
  (0 < f)%nat -> 0 <= n < 2 ^ Z.of_nat f ->
  scan_digits base (fmt_digits f false base n acc) 0 any = scan_digits base acc n true.
Proof.
  induction f as [|f IH]; intros n acc any Hf Hn; [lia|]. cbn [fmt_digits].
  pose proof (Z.mod_pos_bound n base ltac:(lia)) as Hm. pose proof (Z.div_mod n base ltac:(lia)) as Hdm.
  destruct (Z.eqb_spec (n / base) 0) as [H0|H0].
  - cbn [scan_digits]. rewrite digit_in_chr by lia. f_equal. lia.
  - pose proof (fmt_fuel_step n f Hn H0) as Hf'. rewrite IH; [|destruct f; simpl in *; lia|done].
    cbn [scan_digits]. rewrite digit_in_chr by lia. f_equal. lia.
Qed.

(** The first character is a digit, and not 0 unless the number is. *)
Lemma fmt_digits_head f : forall n acc,
  (0 < f)%nat -> 0 <= n < 2 ^ Z.of_nat f ->
  exists d r, fmt_digits f false base n acc = String (digit_chr false d) r /\
    0 <= d < base /\ (d = 0 -> n = 0 /\ r = acc).
Proof.
  induction f as [|f IH]; intros n acc Hf Hn; [lia|]. cbn [fmt_digits].
  pose proof (Z.mod_pos_bound n base ltac:(lia)) as Hm. pose proof (Z.div_mod n base ltac:(lia)) as Hdm.
  destruct (Z.eqb_spec (n / base) 0) as [H0|H0].
  - exists (n mod base), acc. split; [done|]. split; [done|]. intros. split; [lia | done].
  - pose proof (fmt_fuel_step n f Hn H0) as Hf'.
    destruct (IH (n / base) (String (digit_chr false (n mod base)) acc)) as (d & r & E & Hd & Hz);
      [destruct f; simpl in *; lia | done|].
    exists d, r. split; [done|]. split; [done|]. intros Hd0. by destruct (Hz Hd0).
Qed.

Lemma fmt_base_fuel n : 0 <= n -> 0 <= n < 2 ^ Z.of_nat (S (Z.to_nat (Z.log2 n))).
Proof.
  intros Hn. split; [done|]. pose proof (Z.log2_nonneg n). rewrite Nat2Z.inj_succ, Z2Nat.id by done.
  destruct (decide (n = 0)) as [->|]; [done|]. apply Z.log2_spec. lia.
Qed.

Lemma scan_fmt_base n any : 0 <= n -> scan_digits base (fmt_base false base n) 0 any = (n, true, EmptyString).
Proof. intros Hn. unfold fmt_base. by rewrite scan_fmt_digits by (apply fmt_base_fuel; lia) || lia. Qed.

Lemma fmt_base_head n : 0 <= n ->
  exists d r, fmt_base false base n = String (digit_chr false d) r /\ 0 <= d < base /\
    (d = 0 -> n = 0 /\ r = EmptyString).
Proof. intros. apply fmt_digits_head; [lia | by apply fmt_base_fuel]. Qed.
End base.

(** [strtoul(s, &end, 0)] on the decimal representation of a number. *)
Lemma strto_scan_dec n : 0 <= n -> strto_scan 0 (dec n) = Some (false, n, EmptyString).
Proof.
  intros Hn. unfold dec. destruct (Z.ltb_spec n 0); [lia|].
  destruct (fmt_base_head 10 ltac:(lia) n Hn) as (d & r & E & Hd & Hz).
  destruct (digit_chr_facts d ltac:(lia)) as (_ & Hsp & Hm & Hp & H0).
  destruct (decide (d = 0)) as [->|Hne].
  - destruct (Hz eq_refl) as [-> _]. reflexivity.
  - pose proof (scan_fmt_base 10 ltac:(lia) n false Hn) as Hs. rewrite E in *.
    unfold strto_scan. cbn [skip_while]. rewrite Hsp. cbn [scan_sign]. rewrite Hm, Hp.
    assert (hex_prefix (String (digit_chr false d) r) = None) as ->.
    { unfold hex_prefix. destruct r as [|c1 [|c2 r']]; try done. rewrite H0.
      destruct (Z.eqb_spec d 0); [done | done]. }
    cbn [char_at0 Z.eqb orb]. rewrite H0. destruct (Z.eqb_spec d 0); [done|]. by rewrite Hs.
Qed.

Lemma strtou_dec w n : 0 <= n < 2 ^ w -> strtou w 0 (dec n) = mk_strto n EmptyString false.
Proof.
  intros Hn. unfold strtou. rewrite strto_scan_dec by lia.
  destruct (Z.ltb_spec (2 ^ w - 1) n); [lia|]. by rewrite wrapu_small.
Qed.

Lemma strtou_dec_big w n : 0 <= n -> 2 ^ w <= n -> strtou w 0 (dec n) = mk_strto (2 ^ w - 1) EmptyString true.
Proof.
  intros Hn Hw. unfold strtou. rewrite strto_scan_dec by lia.
  by destruct (Z.ltb_spec (2 ^ w - 1) n); [|lia].
Qed.

(** ** Numbers followed by other text *)

Lemma str_app_assoc (a b c : string) : (a +:+ b) +:+ c = a +:+ (b +:+ c).
Proof. induction a as [|x a IH]; [done|]. change (String x ((a +:+ b) +:+ c) = String x (a +:+ (b +:+ c))). by rewrite IH. Qed.

Lemma fmt_digits_app f up base : forall n acc, fmt_digits f up base n acc = fmt_digits f up base n EmptyString +:+ acc.
Proof.
  induction f as [|f IH]; intros n acc; cbn [fmt_digits]; [done|].
  destruct (n / base =? 0); [done|].
  rewrite IH, (IH _ (String _ EmptyString)). by rewrite str_app_assoc.
Qed.

Lemma dec_app n acc : 0 <= n -> dec n +:+ acc = fmt_digits (S (Z.to_nat (Z.log2 n))) false 10 n acc.
Proof.
  intros Hn. unfold dec, fmt_base. destruct (Z.ltb_spec n 0); [lia|]. by rewrite <- fmt_digits_app.
Qed.

(** A suffix that does not go on with a digit or an [x]. *)
Definition stops (r : string) : Prop :=
  match r with
  | EmptyString => True
  | String c _ => digit_val c = None /\ cc c <> 120 /\ cc c <> 88
  end.

Lemma scan_digits_stops base r v : stops r -> scan_digits base r v true = (v, true, r).
Proof. destruct r as [|c r]; simpl; [done|]. intros (Hd & _). unfold digit_in. by rewrite Hd. Qed.

Lemma strto_scan_dec_app n r : 0 <= n -> stops r -> strto_scan 0 (dec n +:+ r) = Some (false, n, r).
Proof.
  intros Hn Hr. rewrite dec_app by done. set (f := S (Z.to_nat (Z.log2 n))).
  pose proof (fmt_base_fuel n Hn) as Hf. fold f in Hf.
  destruct (fmt_digits_head 10 ltac:(lia) f n r ltac:(unfold f; lia) Hf) as (d & q & E & Hd & Hz).
  destruct (digit_chr_facts d ltac:(lia)) as (_ & Hsp & Hm & Hp & H0).
  pose proof (scan_fmt_digits 10 ltac:(lia) f n r false ltac:(unfold f; lia) Hf) as Hs.
  rewrite (scan_digits_stops 10 r n Hr), E in Hs. rewrite E.
  unfold strto_scan. cbn [skip_while]. rewrite Hsp. cbn [scan_sign]. rewrite Hm, Hp.
  assert (hex_prefix (String (digit_chr false d) q) = None) as ->.
  { unfold hex_prefix. destruct q as [|c1 [|c2 q']]; try done. rewrite H0.
    destruct (Z.eqb_spec d 0) as [->|]; [|done]. destruct (Hz eq_refl) as [_ <-]. simpl in Hr.
    destruct Hr as (_ & H1 & H2).
    by destruct (Z.eqb_spec (cc c1) 120), (Z.eqb_spec (cc c1) 88). }
  cbn [char_at0 Z.eqb orb]. rewrite H0. destruct (Z.eqb_spec d 0) as [->|]; [|by rewrite Hs].
  destruct (Hz eq_refl) as [-> ->]. cbn [scan_digits]. change (digit_in 8 (digit_chr false 0)) with (Some 0).
  cbv iota. by rewrite scan_digits_stops.
Qed.

Lemma strtou_dec_app w n r : 0 <= n < 2 ^ w -> stops r -> strtou w 0 (dec n +:+ r) = mk_strto n r false.
Proof.
  intros Hn Hr. unfold strtou. rewrite strto_scan_dec_app by (done || lia).
  destruct (Z.ltb_spec (2 ^ w - 1) n); [lia|]. by rewrite wrapu_small.
Qed.

(** Searching for a character that is not a digit. *)
Lemma strchr_fmt f base c : 2 <= base <= 16 -> digit_val c = None -> forall n acc, 0 <= n ->
  strchr (fmt_digits f false base n acc) c = strchr acc c.
Proof.
  intros Hb Hc. induction f as [|f IH]; intros n acc Hn; cbn [fmt_digits]; [done|].
  pose proof (Z.mod_pos_bound n base ltac:(lia)).
  assert (strchr (String (digit_chr false (n mod base)) acc) c = strchr acc c) as Hstep.
  { cbn [strchr]. destruct (Ascii.eqb_spec (digit_chr false (n mod base)) c) as [E|]; [|done].
    destruct (digit_chr_facts (n mod base) ltac:(lia)) as [Hd _]. rewrite E, Hc in Hd. done. }
  destruct (n / base =? 0); [done|]. rewrite IH; [done | apply Z.div_pos; lia].
Qed.

Lemma strchr_dec n c acc : 0 <= n -> digit_val c = None -> strchr (dec n +:+ acc) c = strchr acc c.
Proof. intros Hn Hc. rewrite dec_app by done. by apply strchr_fmt; [lia| |]. Qed.

(** A number is no word. *)
Lemma isdigit_chr d : 0 <= d < 10 -> isdigit (digit_chr false d) = true.
Proof.
  intros Hd. assert (d = 0 \/ d = 1 \/ d = 2 \/ d = 3 \/ d = 4 \/ d = 5 \/ d = 6 \/ d = 7 \/ d = 8 \/ d = 9) as H by lia.
  repeat (destruct H as [-> | H]; [done|]). by subst.
Qed.

Lemma streq_dec n c r : 0 <= n -> isdigit c = false -> streq (dec n) (String c r) = false.
Proof.
  intros Hn Hc. unfold streq, dec. destruct (Z.ltb_spec n 0); [lia|].
  destruct (fmt_base_head 10 ltac:(lia) n Hn) as (d & q & E & Hd & _). rewrite E.
  apply String.eqb_neq. intros [= Ec _]. pose proof (isdigit_chr d ltac:(lia)) as Hv.
  rewrite Ec, Hc in Hv. done.
Qed.

Lemma strlen_app a b : strlen (a +:+ b) = strlen a + strlen b.
Proof. induction a as [|c a IH]; [done|]. change (1 + strlen (a +:+ b) = 1 + strlen a + strlen b). lia. Qed.

Lemma strlen_nonneg a : 0 <= strlen a.
Proof. induction a as [|c a IH]; cbn [strlen]; lia. Qed.

Lemma strlen_length a : strlen a = Z.of_nat (String.length a).
Proof. induction a as [|c a IH]; cbn [strlen String.length]; lia. Qed.

(** Formatted numbers are short. *)
Lemma strlen_fmt_digits f up base : forall n acc, strlen (fmt_digits f up base n acc) <= Z.of_nat f + strlen acc.
Proof.
  induction f as [|f IH]; intros n acc; cbn [fmt_digits]; [lia|].
  destruct (n / base =? 0); [cbn [strlen]; lia|]. etrans; [apply IH|]. cbn [strlen]. lia.
Qed.

Lemma strlen_fmt_base up base n w : 0 <= n < 2 ^ w -> 0 < w -> strlen (fmt_base up base n) <= w.
Proof.
  intros Hn Hw. unfold fmt_base. etrans; [apply strlen_fmt_digits|]. cbn [strlen].
  destruct (decide (n = 0)) as [->|]; [simpl; lia|].
  pose proof (Z.log2_nonneg n). assert (Z.log2 n < w) by (apply Z.log2_lt_pow2; lia). lia.
Qed.

Lemma strlen_nchars n c : strlen (nchars n c) = Z.of_nat n.
Proof. induction n as [|n IH]; [done|]. cbn [nchars strlen]. lia. Qed.

Lemma strlen_pad_left c w s : strlen (pad_left c w s) = Z.max w (strlen s).
Proof. unfold pad_left. rewrite strlen_app, strlen_nchars. pose proof (strlen_nonneg s). lia. Qed.

(** ** Numbers printed in hexadecimal are read back in base 16 *)

Lemma hex_app n acc : hex n +:+ acc = fmt_digits (S (Z.to_nat (Z.log2 n))) false 16 n acc.
Proof. unfold hex, fmt_base. by rewrite <- fmt_digits_app. Qed.

Lemma strto_scan_hex_app n r : 0 <= n -> stops r -> strto_scan 16 (hex n +:+ r) = Some (false, n, r).
Proof.
  intros Hn Hr. rewrite hex_app. set (f := S (Z.to_nat (Z.log2 n))).
  pose proof (fmt_base_fuel n Hn) as Hf. fold f in Hf.
  destruct (fmt_digits_head 16 ltac:(lia) f n r ltac:(unfold f; lia) Hf) as (d & q & E & Hd & Hz).
  destruct (digit_chr_facts d ltac:(lia)) as (_ & Hsp & Hm & Hp & H0).
  pose proof (scan_fmt_digits 16 ltac:(lia) f n r false ltac:(unfold f; lia) Hf) as Hs.
  rewrite (scan_digits_stops 16 r n Hr), E in Hs. rewrite E.
  unfold strto_scan. cbn [skip_while]. rewrite Hsp. cbn [scan_sign]. rewrite Hm, Hp.
  assert (hex_prefix (String (digit_chr false d) q) = None) as ->.
  { unfold hex_prefix. destruct q as [|c1 [|c2 q']]; try done. rewrite H0.
    destruct (Z.eqb_spec d 0) as [->|]; [|done]. destruct (Hz eq_refl) as [_ <-]. simpl in Hr.
    destruct Hr as (_ & H1 & H2).
    by destruct (Z.eqb_spec (cc c1) 120), (Z.eqb_spec (cc c1) 88). }
  change (16 =? 16) with true. change (16 =? 0) with false. cbn [orb]. cbv iota beta. by rewrite Hs.
Qed.

Lemma strtou_hex_app w n r : 0 <= n < 2 ^ w -> stops r -> strtou w 16 (hex n +:+ r) = mk_strto n r false.
Proof.
  intros Hn Hr. unfold strtou. rewrite strto_scan_hex_app by (done || lia).
  destruct (Z.ltb_spec (2 ^ w - 1) n); [lia|]. by rewrite wrapu_small.
Qed.

Lemma strchr_hex n c acc : 0 <= n -> digit_val c = None -> strchr (hex n +:+ acc) c = strchr acc c.
Proof. intros Hn Hc. rewrite hex_app. by apply strchr_fmt; [lia| |]. Qed.

Lemma str_app_nil_r (a : string) : a +:+ EmptyString = a.
Proof. induction a as [|c a IH]; [done|]. change (String c (a +:+ EmptyString) = String c a). by rewrite IH. Qed.

(** The first character is a digit. *)
Lemma hex_head n : 0 <= n -> exists d r, hex n = String (digit_chr false d) r /\ 0 <= d < 16.
Proof.
  intros Hn. destruct (fmt_base_head 16 ltac:(lia) n Hn) as (d & r & E & Hd & _). by exists d, r.
Qed.

Lemma streq_hex_app n acc c r : 0 <= n -> digit_val c = None -> streq (hex n +:+ acc) (String c r) = false.
Proof.
  intros Hn Hc. destruct (hex_head n Hn) as (d & q & -> & Hd). apply String.eqb_neq. intros [= Ec _].
  destruct (digit_chr_facts d Hd) as [Hv _]. rewrite Ec, Hc in Hv. done.
Qed.
