(* ===== verification/Memory.v ===== *)
(** * Memory as the memory tester sees it

    The interface between [memory_test/memtester/tests.c] and the memory under
    test: byte loads and stores, words being little-endian groups of bytes.
    [GoodMemory] is the promise of a working memory; the tester's theorems about
    working memory are proved against it. Instances: a map ([ram], which keeps
    the promise), a memory with one bit stuck ([stuck_mem]) and a memory whose
    address decoder maps several words to one cell ([alias_mem]). *)

From stdpp Require Import base list gmap numbers.
From Stdlib Require Import ZArith Lia.
From S2P Require Import Prelude CInt.

Class Memory (Mem : Type) : Type := {
  loadb : Mem -> Z -> Z;
  storeb : Mem -> Z -> Z -> Mem;
  loadb_byte : forall m a, is_byte (loadb m a)
}.

Class GoodMemory (Mem : Type) `{Memory Mem} : Prop := {
  loadb_storeb_eq : forall m a v, loadb (storeb m a v) a = v mod 256;
  loadb_storeb_ne : forall m a b v, a <> b -> loadb (storeb m a v) b = loadb m b
}.

(** ** Multi-byte accesses *)

Section accesses.
Context {Mem : Type} `{Memory Mem}.

Fixpoint load_bytes (m : Mem) (a : Z) (n : nat) : list Z :=
  match n with
  | O => []
  | S n' => loadb m a :: load_bytes m (a + 1) n'
  end.

Fixpoint store_bytes (m : Mem) (a : Z) (l : list Z) : Mem :=
  match l with
  | [] => m
  | b :: l' => store_bytes (storeb m a b) (a + 1) l'
  end.

(** [sizeof(unsigned long)] *)
Definition sizeof_ul `{DataModel} : Z := long_bits / 8.
Definition load_word `{DataModel} (m : Mem) (a : Z) : Z :=
  le_val (load_bytes m a (Z.to_nat sizeof_ul)).
Definition store_word `{DataModel} (m : Mem) (a v : Z) : Mem :=
  store_bytes m a (le_bytes (Z.to_nat sizeof_ul) v).
End accesses.

(** ** Instances *)

(** A working memory: a finite map, cells that were never written read 0. *)
Definition ram : Type := gmap Z Z.

Lemma ram_byte (m : ram) a : is_byte (default 0 ((m : gmap Z Z) !! a) mod 256).
Proof. apply Z.mod_pos_bound. lia. Qed.

#[export] Instance ram_Memory : Memory ram := {|
  loadb := fun m a => default 0 ((m : gmap Z Z) !! a) mod 256;
  storeb := fun m a v => <[a := v]> (m : gmap Z Z);
  loadb_byte := ram_byte
|}.

(** A memory in which one bit of one cell always reads as a fixed value. *)
Record stuck_mem := mk_stuck { sm_base : ram; sm_addr : Z; sm_bit : Z; sm_val : bool }.

Definition force_bit (v k : Z) (b : bool) : Z :=
  if b then Z.lor v (2 ^ k) else Z.land v (255 - 2 ^ k).

Definition stuck_load (m : stuck_mem) (a : Z) : Z :=
  let v := loadb (sm_base m) a in
  if decide (a = sm_addr m) then force_bit v (sm_bit m) (sm_val m) mod 256 else v.

Lemma stuck_byte m a : is_byte (stuck_load m a).
Proof.
  unfold stuck_load. case_decide; [apply Z.mod_pos_bound; lia | apply loadb_byte].
Qed.

#[export] Instance stuck_Memory : Memory stuck_mem := {|
  loadb := stuck_load;
  storeb := fun m a v => mk_stuck (storeb (sm_base m) a v) (sm_addr m) (sm_bit m) (sm_val m);
  loadb_byte := stuck_byte
|}.

(** A memory whose address decoder sends address [a] to the cell [am_map a]. *)
Record alias_mem := mk_alias { am_base : ram; am_map : Z -> Z }.

#[export] Instance alias_Memory : Memory alias_mem := {|
  loadb := fun m a => loadb (am_base m) (am_map m a);
  storeb := fun m a v => mk_alias (storeb (am_base m) (am_map m a) v) (am_map m);
  loadb_byte := fun m a => loadb_byte (am_base m) (am_map m a)
|}.

(** ** Lemmas *)

#[export] Instance ram_GoodMemory : GoodMemory ram.
Proof.
  split.
  - intros m a v. simpl. rewrite lookup_insert_eq. done.
  - intros m a b v Hne. simpl. by rewrite lookup_insert_ne.
Qed.

Section good.
Context {Mem : Type} `{HM : Memory Mem}.

Lemma load_bytes_length (m : Mem) a n : length (load_bytes m a n) = n.
Proof. revert a. induction n; intros; simpl; [done|]. by rewrite IHn. Qed.

Lemma load_bytes_is_byte (m : Mem) a n : Forall is_byte (load_bytes m a n).
Proof. revert a. induction n; intros; simpl; constructor; [apply loadb_byte | done]. Qed.

(** Two memories that agree on the bytes of a range give the same bytes. *)
Lemma load_bytes_ext (m m' : Mem) a n :
  (forall i, a <= i < a + Z.of_nat n -> loadb m i = loadb m' i) ->
  load_bytes m a n = load_bytes m' a n.
Proof.
  revert a. induction n as [|n IH]; intros a Hext; simpl; [done|].
  f_equal; [apply Hext; lia|]. apply IH. intros. apply Hext. lia.
Qed.

Lemma load_bytes_snoc (m : Mem) a n :
  load_bytes m a (S n) = load_bytes m a n ++ [loadb m (a + Z.of_nat n)].
Proof.
  revert a. induction n as [|n IH]; intros a; [by rewrite Z.add_0_r|].
  change (loadb m a :: load_bytes m (a + 1) (S n) = loadb m a :: load_bytes m (a + 1) n ++ [loadb m (a + Z.of_nat (S n))]).
  rewrite IH. do 3 f_equal. f_equal. lia.
Qed.

Lemma load_bytes_lookup (m : Mem) n k a : (k < n)%nat -> load_bytes m a n !! k = Some (loadb m (a + Z.of_nat k)).
Proof.
  revert k a. induction n as [|n IH]; intros [|k] a Hk; try lia; cbn [load_bytes].
  - by rewrite Z.add_0_r.
  - change (load_bytes m (a + 1) n !! k = Some (loadb m (a + Z.of_nat (S k)))). rewrite IH by lia. do 2 f_equal. lia.
Qed.

Lemma load_bytes_take (m : Mem) n k a : (k <= n)%nat -> take k (load_bytes m a n) = load_bytes m a k.
Proof.
  revert k a. induction n as [|n IH]; intros [|k] a Hk; try done; [lia|]. cbn [load_bytes take].
  f_equal. apply IH. lia.
Qed.

Lemma load_bytes_drop (m : Mem) k n a : drop k (load_bytes m a (k + n)) = load_bytes m (a + Z.of_nat k) n.
Proof.
  revert a. induction k as [|k IH]; intros a; [by rewrite Z.add_0_r|].
  cbn [Nat.add load_bytes drop]. rewrite IH. f_equal. lia.
Qed.

Lemma load_bytes_slice (m : Mem) k n N a :
  (k + n <= N)%nat -> load_bytes m (a + Z.of_nat k) n = take n (drop k (load_bytes m a N)).
Proof.
  intros H. replace N with (k + (N - k))%nat by lia. rewrite load_bytes_drop. symmetry. apply load_bytes_take. lia.
Qed.

Lemma store_bytes_app (m : Mem) a l1 l2 :
  store_bytes m a (l1 ++ l2) = store_bytes (store_bytes m a l1) (a + Z.of_nat (length l1)) l2.
Proof.
  revert m a. induction l1 as [|x l1 IH]; intros m a; cbn [store_bytes app length];
    [by rewrite Z.add_0_r|]. rewrite IH. f_equal. lia.
Qed.

Context {HG : GoodMemory Mem}.

Lemma loadb_store_bytes_out (m : Mem) a l b :
  ~ (a <= b < a + Z.of_nat (length l)) -> loadb (store_bytes m a l) b = loadb m b.
Proof.
  revert m a. induction l as [|x l IH]; intros m a Hb; cbn [store_bytes length] in *; [done|].
  rewrite IH by lia. apply loadb_storeb_ne. lia.
Qed.

Lemma load_store_bytes (m : Mem) a l :
  Forall is_byte l -> load_bytes (store_bytes m a l) a (length l) = l.
Proof.
  intros Hl. revert m a. induction Hl as [|x l Hx Hl IH]; intros m a; [done|].
  cbn [length load_bytes store_bytes]. f_equal; [|apply IH].
  rewrite loadb_store_bytes_out by lia. rewrite loadb_storeb_eq.
  apply Z.mod_small, Hx.
Qed.

Lemma load_store_bytes_out (m : Mem) a l b n :
  b + Z.of_nat n <= a \/ a + Z.of_nat (length l) <= b ->
  load_bytes (store_bytes m a l) b n = load_bytes m b n.
Proof. intros Hd. apply load_bytes_ext. intros. apply loadb_store_bytes_out. lia. Qed.

(** A store inside a range that is loaded replaces that part. *)
Definition splice (k : nat) (l x : list Z) : list Z := take k x ++ l ++ drop (k + length l) x.

Lemma load_bytes_splice (m : Mem) a l k n :
  Forall is_byte l -> (k + length l <= n)%nat ->
  load_bytes (store_bytes m (a + Z.of_nat k) l) a n = splice k l (load_bytes m a n).
Proof.
  intros Hl Hn. unfold splice. replace n with (k + (length l + (n - k - length l)))%nat by lia.
  rewrite <- (take_drop k (load_bytes (store_bytes _ _ _) _ _)) at 1. f_equal.
  - rewrite !load_bytes_take by lia. apply load_store_bytes_out. lia.
  - rewrite load_bytes_drop.
    rewrite <- (take_drop (length l) (load_bytes (store_bytes _ _ _) _ _)) at 1. f_equal.
    + rewrite load_bytes_take by lia. by apply load_store_bytes.
    + rewrite load_bytes_drop, Nat.add_assoc, load_bytes_drop. rewrite load_store_bytes_out by lia.
      f_equal. lia.
Qed.

Context `{DM : DataModel}.

Lemma sizeof_ul_pos : 0 < sizeof_ul.
Proof. unfold sizeof_ul. destruct long_bits_cases as [-> | ->]; reflexivity. Qed.

Lemma sizeof_ul_bits : 8 * sizeof_ul = long_bits.
Proof. unfold sizeof_ul. destruct long_bits_cases as [-> | ->]; reflexivity. Qed.

Lemma le_bytes_ul v : le_val (le_bytes (Z.to_nat sizeof_ul) v) = ulong v.
Proof.
  pose proof sizeof_ul_pos.
  rewrite le_val_bytes, Z2Nat.id, pow_256, sizeof_ul_bits by lia. done.
Qed.

Lemma load_word_range (m : Mem) a : 0 <= load_word m a < 2 ^ long_bits.
Proof.
  pose proof sizeof_ul_pos.
  pose proof (le_val_range _ (load_bytes_is_byte m a (Z.to_nat sizeof_ul))) as Hr.
  rewrite load_bytes_length, Z2Nat.id, pow_256, sizeof_ul_bits in Hr by lia. done.
Qed.

Lemma load_store_word (m : Mem) a v : load_word (store_word m a v) a = ulong v.
Proof.
  unfold load_word, store_word. rewrite <- le_bytes_ul. f_equal.
  rewrite <- (le_bytes_length (Z.to_nat sizeof_ul) v) at 2.
  apply load_store_bytes, le_bytes_is_byte.
Qed.

Lemma load_store_word_ne (m : Mem) a b v :
  b + sizeof_ul <= a \/ a + sizeof_ul <= b -> load_word (store_word m a v) b = load_word m b.
Proof.
  intros Hd. pose proof sizeof_ul_pos. unfold load_word, store_word.
  rewrite load_store_bytes_out; [done|]. rewrite le_bytes_length. lia.
Qed.
End good.

#[export] Hint Resolve load_word_range : linuxtest.
