(* ===== verification/MtTests.v ===== *)
(** * memtester: the memory tests ([memory_test/memtester/tests.c])

    One definition per test function, with what it prints. The state is the
    memory under test, the values the C library's [rand] will return, and the
    two globals [use_phys] and [physaddrbase] of [memtester.c]. Addresses are
    [Z]; [p + i * sizeof_ul] is the pointer [p + i] of type [ulv *]. *)

From stdpp Require Import base list strings numbers.
From Stdlib Require Import ZArith Lia.
From S2P Require Import Prelude CInt CLib Memory.

Record mtw (Mem : Type) := mk_mtw {
  mt_mem : Mem;
  mt_rand : nat -> Z;
  mt_pos : nat;
  use_phys : bool;
  physaddrbase : Z
}.
Arguments mk_mtw {Mem} mt_mem mt_rand mt_pos use_phys physaddrbase.
Arguments mt_mem {Mem} m.
Arguments mt_rand {Mem} m.
Arguments mt_pos {Mem} m.
Arguments use_phys {Mem} m.
Arguments physaddrbase {Mem} m.

Definition set_mem {Mem} (w : mtw Mem) (m : Mem) : mtw Mem :=
  mk_mtw m (mt_rand w) (mt_pos w) (use_phys w) (physaddrbase w).

(** ** sizes.h *)

Section sizes.
Context `{DM : DataModel}.

Definition UL_LEN : Z := long_bits.
Definition UL_ONEBITS : Z := 2 ^ long_bits - 1.
Definition CHECKERBOARD1 : Z := if long_bits =? 32 then 0x55555555 else 0x5555555555555555.
Definition CHECKERBOARD2 : Z := if long_bits =? 32 then 0xaaaaaaaa else 0xaaaaaaaaaaaaaaaa.
Definition UL_BYTE (x : Z) : Z :=
  let x4 := Z.lor (Z.lor (Z.lor x (Z.shiftl x 8)) (Z.shiftl x 16)) (Z.shiftl x 24) in
  if long_bits =? 32 then u32 x4
  else ulong (Z.lor (Z.lor (Z.lor (Z.lor x4 (Z.shiftl x 32)) (Z.shiftl x 40)) (Z.shiftl x 48)) (Z.shiftl x 56)).
End sizes.

Section tests.
Context `{DM : DataModel} {Mem : Type} `{HM : Memory Mem}.
(** The value the compiled code computes for [1L << k] when [k] is not below
    the width of [long] (the C standard leaves it undefined);
    [test_bitspread_comparison] evaluates such shifts. *)
Context (shl_over : Z -> Z).

Abbreviation P := (M (mtw Mem)).

Definition rand : P Z :=
  devop (fun w => (mt_rand w (mt_pos w),
                   mk_mtw (mt_mem w) (mt_rand w) (S (mt_pos w)) (use_phys w) (physaddrbase w))).
Definition rand32 : P Z :=
  a ← rand; b ← rand; mret (Z.lor (u32 a) (shlu 32 (u32 b) 16)).
Definition rand_ul : P Z :=
  if long_bits =? 32 then rand32
  else a ← rand32; b ← rand32; mret (ulong (Z.lor (Z.shiftl a 32) b)).

Definition ld (p : Z) : P Z := devop (fun w => (load_word (mt_mem w) p, w)).
Definition sto (p v : Z) : P unit := setdev (fun w => set_mem w (store_word (mt_mem w) p v)).
(** A [u8v] or [u16v] store of the given bytes. *)
Definition sto_bytes (p : Z) (l : list Z) : P unit :=
  setdev (fun w => set_mem w (store_bytes (mt_mem w) p l)).

(** [ONE << k] converted to [ul]. *)
Definition one_shl (k : Z) : Z := if k <? UL_LEN then ulong (Z.shiftl 1 k) else ulong (shl_over k).
Definition ulnot (x : Z) : Z := notu long_bits x.

Definition PROGRESSLEN : Z := 4.
Definition PROGRESSOFTEN : Z := 2500.
Definition progress (k : Z) : string :=
  match k with 0 => "-" | 1 => "\" | 2 => "|" | _ => "/" end.

Definition bs11 : string := nchars 11 (chr 8).
Definition sp11 : string := nchars 11 (chr 32).

Definition fail_word (w : mtw Mem) (i v1 v2 : Z) : string :=
  "FAILURE: 0x" +:+ hex0 8 v1 +:+ " != 0x" +:+ hex0 8 v2 +:+
  (if use_phys w
   then " at physical address 0x" +:+ hex0 8 (ulong (physaddrbase w + i * sizeof_ul))
   else " at offset 0x" +:+ hex0 8 (ulong (i * sizeof_ul))) +:+ "." +:+ nl.

Definition compare_regions (bufa bufb count : Z) : P Z :=
  r ← for_acc (R := Empty_set) (Z.to_nat count) 0 0 (fun i r =>
        v1 ← ld (bufa + i * sizeof_ul);
        v2 ← ld (bufb + i * sizeof_ul);
        if v1 =? v2 then mret (inl r)
        else w ← getdev;
             eprintf (fail_word w i v1 v2);;
             mret (inl (-1)));
  match r with inl v => mret v | inr e => match e : Empty_set with end end.

Definition stuck_val (j i p : Z) : Z := if ((j + i) mod 2 =? 0) then ulong p else ulnot (ulong p).

Definition fail_addr (w : mtw Mem) (i : Z) : string :=
  "FAILURE: possible bad address line at " +:+
  (if use_phys w
   then "physical address 0x" +:+ hex0 8 (ulong (physaddrbase w + i * sizeof_ul))
   else "offset 0x" +:+ hex0 8 (ulong (i * sizeof_ul))) +:+ "." +:+ nl.

Definition test_stuck_address (bufa count : Z) : P Z :=
  printf sp11;;
  r ← for_acc 16 0 tt (fun j _ =>
        printf bs11;;
        printf ("setting " +:+ decw 3 j);;
        for_ (Z.to_nat count) 0 (fun i =>
          let p1 := bufa + i * sizeof_ul in sto p1 (stuck_val j i p1));;
        printf bs11;;
        printf ("testing " +:+ decw 3 j);;
        for_acc (Z.to_nat count) 0 tt (fun i _ =>
          let p1 := bufa + i * sizeof_ul in
          v ← ld p1;
          if v =? stuck_val j i p1 then mret (inl tt)
          else w ← getdev;
               eprintf (fail_addr w i);;
               printf ("Skipping to next test..." +:+ nl);;
               mret (inr (-1))));
  match r with
  | inl _ => printf (bs11 +:+ sp11 +:+ bs11);; mret 0
  | inr v => mret v
  end.

(** [*p1++ = *p2++ = v(i)] over both buffers. *)
Definition fill_both (bufa bufb count : Z) (v : Z -> Z) : P unit :=
  for_ (Z.to_nat count) 0 (fun i =>
    sto (bufb + i * sizeof_ul) (v i);; sto (bufa + i * sizeof_ul) (v i)).

(** [*p1++ op= q; *p2++ op= q;] over both buffers. *)
Definition update_both (bufa bufb count : Z) (op : Z -> Z) : P unit :=
  for_ (Z.to_nat count) 0 (fun i =>
    v1 ← ld (bufa + i * sizeof_ul);
    sto (bufa + i * sizeof_ul) (op v1);;
    v2 ← ld (bufb + i * sizeof_ul);
    sto (bufb + i * sizeof_ul) (op v2)).

(** The progress mark after word [i]; the new [j]. *)
Definition spin (i j : Z) : P Z :=
  if i mod PROGRESSOFTEN =? 0 then
    printf bs;; printf (progress ((j + 1) mod PROGRESSLEN));; mret (j + 1)
  else mret j.

Definition test_random_value (bufa bufb count : Z) : P Z :=
  printf " ";;
  for_acc (R := Empty_set) (Z.to_nat count) 0 0 (fun i j =>
    q ← rand_ul;
    (sto (bufb + i * sizeof_ul) q;; sto (bufa + i * sizeof_ul) q);;
    j' ← spin i j; mret (inl j'));;
  printf (bs +:+ " " +:+ bs);;
  compare_regions bufa bufb count.

Definition test_xor_comparison (bufa bufb count : Z) : P Z :=
  q ← rand_ul;
  update_both bufa bufb count (fun v => Z.lxor v q);;
  compare_regions bufa bufb count.

Definition test_sub_comparison (bufa bufb count : Z) : P Z :=
  q ← rand_ul;
  update_both bufa bufb count (fun v => ulong (v - q));;
  compare_regions bufa bufb count.

Definition test_mul_comparison (bufa bufb count : Z) : P Z :=
  q ← rand_ul;
  update_both bufa bufb count (fun v => ulong (v * q));;
  compare_regions bufa bufb count.

Definition test_div_comparison (bufa bufb count : Z) : P Z :=
  q ← rand_ul;
  update_both bufa bufb count (fun v => v / (if q =? 0 then q + 1 else q));;
  compare_regions bufa bufb count.

Definition test_or_comparison (bufa bufb count : Z) : P Z :=
  q ← rand_ul;
  update_both bufa bufb count (fun v => Z.lor v q);;
  compare_regions bufa bufb count.

Definition test_and_comparison (bufa bufb count : Z) : P Z :=
  q ← rand_ul;
  update_both bufa bufb count (fun v => Z.land v q);;
  compare_regions bufa bufb count.

Definition test_seqinc_comparison (bufa bufb count : Z) : P Z :=
  q ← rand_ul;
  fill_both bufa bufb count (fun i => ulong (i + q));;
  compare_regions bufa bufb count.

(** One set-and-compare round, labelled [lab]; [inr (-1)] leaves the test. *)
Definition pattern_round (bufa bufb count : Z) (lab : Z) (v : Z -> Z) : P (unit + Z) :=
  printf bs11;;
  printf ("setting " +:+ decw 3 lab);;
  fill_both bufa bufb count v;;
  printf bs11;;
  printf ("testing " +:+ decw 3 lab);;
  r ← compare_regions bufa bufb count;
  if truth r then mret (inr (-1)) else mret (inl tt).

(** The frame shared by the pattern tests: [rounds] rounds, round [j] writing
    [v j i] to word [i]. *)
Definition pattern_test (bufa bufb count : Z) (rounds : Z) (v : Z -> Z -> Z) : P Z :=
  printf sp11;;
  r ← for_acc (Z.to_nat rounds) 0 tt (fun j _ => pattern_round bufa bufb count j (v j));
  match r with
  | inl _ => printf (bs11 +:+ sp11 +:+ bs11);; mret 0
  | inr x => mret x
  end.

Definition solidbits_val (j i : Z) : Z :=
  let q := if j mod 2 =? 0 then UL_ONEBITS else 0 in if i mod 2 =? 0 then q else ulnot q.
Definition test_solidbits_comparison (bufa bufb count : Z) : P Z :=
  pattern_test bufa bufb count 64 solidbits_val.

Definition checkerboard_val (j i : Z) : Z :=
  let q := if j mod 2 =? 0 then CHECKERBOARD1 else CHECKERBOARD2 in if i mod 2 =? 0 then q else ulnot q.
Definition test_checkerboard_comparison (bufa bufb count : Z) : P Z :=
  pattern_test bufa bufb count 64 checkerboard_val.

Definition test_blockseq_comparison (bufa bufb count : Z) : P Z :=
  pattern_test bufa bufb count 256 (fun j i => ulong (UL_BYTE j)).

Definition walkbits0_val (j i : Z) : Z :=
  if j <? UL_LEN then one_shl j else one_shl (UL_LEN * 2 - j - 1).
Definition test_walkbits0_comparison (bufa bufb count : Z) : P Z :=
  pattern_test bufa bufb count (UL_LEN * 2) walkbits0_val.

Definition walkbits1_val (j i : Z) : Z :=
  if j <? UL_LEN then Z.lxor UL_ONEBITS (one_shl j)
  else Z.lxor UL_ONEBITS (one_shl (UL_LEN * 2 - j - 1)).
Definition test_walkbits1_comparison (bufa bufb count : Z) : P Z :=
  pattern_test bufa bufb count (UL_LEN * 2) walkbits1_val.

Definition bitspread_val (j i : Z) : Z :=
  if j <? UL_LEN then
    if i mod 2 =? 0 then Z.lor (one_shl j) (one_shl (j + 2))
    else Z.lxor UL_ONEBITS (Z.lor (one_shl j) (one_shl (j + 2)))
  else
    if i mod 2 =? 0 then Z.lor (one_shl (UL_LEN * 2 - 1 - j)) (one_shl (UL_LEN * 2 + 1 - j))
    else Z.lxor UL_ONEBITS (Z.lor (one_shl (UL_LEN * 2 - 1 - j)) (one_shl (UL_LEN * 2 + 1 - j))).
Definition test_bitspread_comparison (bufa bufb count : Z) : P Z :=
  pattern_test bufa bufb count (UL_LEN * 2) bitspread_val.

Definition test_bitflip_comparison (bufa bufb count : Z) : P Z :=
  printf sp11;;
  r ← for_acc (Z.to_nat UL_LEN) 0 tt (fun k _ =>
        let q0 := one_shl k in
        x ← for_acc 8 0 q0 (fun j q =>
              let q' := ulnot q in
              y ← pattern_round bufa bufb count (k * 8 + j) (fun i => if i mod 2 =? 0 then q' else ulnot q');
              match y with inl _ => mret (inl q') | inr e => mret (inr e) end);
        match x with inl _ => mret (inl tt) | inr e => mret (inr e) end);
  match r with
  | inl _ => printf (bs11 +:+ sp11 +:+ bs11);; mret 0
  | inr x => mret x
  end.

(** The two narrow-write tests; [chunk] is the store size in bytes. *)
Definition narrow_word (p1 : Z) (val chunk : Z) : P unit :=
  for_ (Z.to_nat (sizeof_ul / chunk)) 0 (fun b =>
    sto_bytes (p1 + b * chunk)
      (take (Z.to_nat chunk) (drop (Z.to_nat (b * chunk)) (le_bytes (Z.to_nat sizeof_ul) val)))).

Definition narrow_test (chunk : Z) (bufa bufb count : Z) : P Z :=
  printf " ";;
  r ← for_acc 2 0 0 (fun attempt j =>
        let p1 := if truth (Z.land attempt 1) then bufa else bufb in
        let p2 := if truth (Z.land attempt 1) then bufb else bufa in
        x ← for_acc (R := Empty_set) (Z.to_nat count) 0 j (fun i j =>
              q ← rand_ul;
              (sto (p2 + i * sizeof_ul) q;; narrow_word (p1 + i * sizeof_ul) q chunk);;
              j' ← spin i j; mret (inl j'));
        c ← compare_regions bufa bufb count;
        if truth c then mret (inr (-1))
        else match x with inl j' => mret (inl j') | inr e => match e : Empty_set with end end);
  match r with
  | inl _ => printf (bs +:+ " " +:+ bs);; mret 0
  | inr x => mret x
  end.

Definition test_8bit_wide_random (bufa bufb count : Z) : P Z := narrow_test 1 bufa bufb count.
Definition test_16bit_wide_random (bufa bufb count : Z) : P Z := narrow_test 2 bufa bufb count.
End tests.
