(* ===== verification/MtTestsOk.v ===== *)
(** * memtester: what the tests report

    On any memory [compare_regions] reports exactly the differing words; on a
    working memory every test returns 0 (the arithmetic ones provided the two
    buffers start equal) and leaves the two buffers equal. *)

From stdpp Require Import base list strings numbers.
From Stdlib Require Import ZArith Lia.
From S2P Require Import Prelude CInt CLib Memory MtTests.

(** ** Specification vocabulary *)

Section spec.
Context `{DM : DataModel} {Mem : Type} `{HM : Memory Mem}.

Definition word_at (w : mtw Mem) (p i : Z) : Z := load_word (mt_mem w) (p + i * sizeof_ul).

(** The indices at which the two buffers differ. *)
Definition mismatches (w : mtw Mem) (bufa bufb i : Z) (n : nat) : list Z :=
  filter (fun i => word_at w bufa i <> word_at w bufb i) (seqZ i (Z.of_nat n)).

Definition bufs_equal (bufa bufb count : Z) (w : mtw Mem) : Prop :=
  forall i, 0 <= i < count -> word_at w bufa i = word_at w bufb i.

Definition bufs_disjoint (bufa bufb count : Z) : Prop :=
  bufa + count * sizeof_ul <= bufb \/ bufb + count * sizeof_ul <= bufa.
End spec.

(** ** compare_regions on any memory *)

Section compare.
Context `{DM : DataModel} {Mem : Type} `{HM : Memory Mem}.
Implicit Types s : st (mtw Mem).

Lemma mismatches_S w bufa bufb i n :
  mismatches w bufa bufb i (S n) =
  (if word_at w bufa i =? word_at w bufb i then [] else [i]) ++ mismatches w bufa bufb (i + 1) n.
Proof.
  unfold mismatches. rewrite seqZ_cons, filter_cons by lia.
  replace (Z.pred (Z.of_nat (S n))) with (Z.of_nat n) by lia.
  replace (Z.succ i) with (i + 1) by lia.
  destruct (Z.eqb_spec (word_at w bufa i) (word_at w bufb i)); case_decide; done.
Qed.

Lemma compare_loop_run bufa bufb n : forall i r s,
  for_acc (R := Empty_set) n i r (fun i r =>
        v1 ← ld (bufa + i * sizeof_ul);
        v2 ← ld (bufb + i * sizeof_ul);
        if v1 =? v2 then mret (inl r)
        else w ← getdev; eprintf (fail_word w i v1 v2);; mret (inl (-1))) s =
  (Ret (inl (if decide (mismatches (dev s) bufa bufb i n = []) then r else -1)),
   mkst (reverse ((fun i => Stderr (fail_word (dev s) i (word_at (dev s) bufa i) (word_at (dev s) bufb i)))
                  <$> mismatches (dev s) bufa bufb i n) ++ out s) (dev s)).
Proof.
  induction n as [|n IH]; intros i r s; [by destruct s|].
  cbn [for_acc]. rewrite !mismatches_S.
  unfold mbind at 1, M_bind at 1, ld, getdev, devop, mret, M_ret, eprintf, mbind, M_bind; cbn [dev out].
  fold (word_at (dev s) bufa i) (word_at (dev s) bufb i).
  destruct (word_at (dev s) bufa i =? word_at (dev s) bufb i).
  - destruct s as [o w]. apply IH.
  - etrans; [apply IH|]. cbn [dev out app].
    rewrite fmap_cons, reverse_cons, <- app_assoc.
    rewrite (decide_False (P := _ :: _ = [])) by done. by case_decide.
Qed.

Lemma compare_regions_run bufa bufb count s :
  compare_regions bufa bufb count s =
  (Ret (if decide (mismatches (dev s) bufa bufb 0 (Z.to_nat count) = []) then 0 else -1),
   mkst (reverse ((fun i => Stderr (fail_word (dev s) i (word_at (dev s) bufa i) (word_at (dev s) bufb i)))
                  <$> mismatches (dev s) bufa bufb 0 (Z.to_nat count)) ++ out s) (dev s)).
Proof.
  unfold compare_regions. erewrite bind_ret_run by apply compare_loop_run. reflexivity.
Qed.

Lemma mismatches_nil w bufa bufb count :
  mismatches w bufa bufb 0 (Z.to_nat count) = [] <-> bufs_equal bufa bufb count w.
Proof.
  unfold mismatches, bufs_equal. split.
  - intros Hnil i Hi.
    destruct (decide (word_at w bufa i = word_at w bufb i)) as [|Hne]; [done|exfalso].
    apply (filter_nil_not_elem_of _ _ i Hnil Hne). apply elem_of_seqZ. lia.
  - intros Heq. apply elem_of_nil_inv. intros i Hi.
    apply list_elem_of_filter in Hi as [Hne Hi]. apply elem_of_seqZ in Hi.
    apply Hne, Heq. lia.
Qed.

Lemma runs_compare_equal bufa bufb count s :
  bufs_equal bufa bufb count (dev s) ->
  compare_regions bufa bufb count s = (Ret 0, s).
Proof.
  intros Heq. rewrite compare_regions_run.
  rewrite (proj2 (mismatches_nil _ _ _ _) Heq). by destruct s.
Qed.

Lemma compare_differ bufa bufb count i s :
  0 <= i < count -> word_at (dev s) bufa i <> word_at (dev s) bufb i ->
  exists s', compare_regions bufa bufb count s = (Ret (-1), s') /\ dev s' = dev s.
Proof.
  intros Hi Hne. rewrite compare_regions_run. rewrite decide_False.
  - eexists; split; reflexivity.
  - intros Heq%mismatches_nil. by apply Hne, Heq.
Qed.
End compare.

(** ** Writing words of a working memory *)

Section words.
Context `{DM : DataModel} {Mem : Type} `{HG : GoodMemory Mem}.
Implicit Types (s : st (mtw Mem)) (w : mtw Mem).

Definition upd w (p v : Z) : mtw Mem := set_mem w (store_word (mt_mem w) p v).

Lemma word_at_upd_eq w p i v : word_at (upd w (p + i * sizeof_ul) v) p i = ulong v.
Proof. apply load_store_word. Qed.

Lemma word_at_upd_ne w p i j v : i <> j -> word_at (upd w (p + i * sizeof_ul) v) p j = word_at w p j.
Proof.
  intros Hij. pose proof sizeof_ul_pos. apply load_store_word_ne.
  destruct (Z.lt_total i j) as [?|[?|?]]; [right|done|left]; nia.
Qed.

Lemma word_at_upd_other w a b count i j v :
  bufs_disjoint a b count -> 0 <= i < count -> 0 <= j < count ->
  word_at (upd w (a + i * sizeof_ul) v) b j = word_at w b j.
Proof.
  intros Hd Hi Hj. pose proof sizeof_ul_pos. apply load_store_word_ne.
  unfold bufs_disjoint in Hd. destruct Hd; [right|left]; nia.
Qed.

Lemma bufs_disjoint_sym a b count : bufs_disjoint a b count -> bufs_disjoint b a count.
Proof. unfold bufs_disjoint. tauto. Qed.

Lemma runs_ld p s (Q : Z -> st (mtw Mem) -> Prop) : Q (load_word (mt_mem (dev s)) p) s -> runs (ld p) s Q.
Proof. intros. apply runs_devop. by destruct s. Qed.

Lemma runs_sto p v s (Q : unit -> st (mtw Mem) -> Prop) :
  Q tt (mkst (out s) (upd (dev s) p v)) -> runs (sto p v) s Q.
Proof. intros. by apply runs_devop. Qed.

(** [rand_ul] gives a word and leaves the memory alone. *)
Lemma runs_rand_ul s (Q : Z -> st (mtw Mem) -> Prop) :
  (forall q s', 0 <= q < 2 ^ long_bits -> mt_mem (dev s') = mt_mem (dev s) -> Q q s') -> runs rand_ul s Q.
Proof.
  intros HQ. unfold rand_ul, rand32, rand.
  assert (forall a b, 0 <= Z.lor (u32 a) (shlu 32 (u32 b) 16) < 2 ^ 32) as Hr.
  { intros. apply lor_range; [lia | apply wrapu_range; lia ..]. }
  destruct (Z.eqb_spec long_bits 32) as [E|E]; runs_steps; apply HQ; cbn [mt_mem]; try done.
  - rewrite E. apply Hr.
  - apply ulong_range.
Qed.

Lemma runs_spin i j s (Q : Z -> st (mtw Mem) -> Prop) :
  (forall j' s', dev s' = dev s -> Q j' s') -> runs (spin i j) s Q.
Proof. intros HQ. unfold spin. destruct (_ =? _); runs_steps; by apply HQ. Qed.
End words.

#[export] Hint Rewrite @word_at_upd_eq : linuxtest.

(** Symbolic execution for the memory tests. *)
Ltac mt_step :=
  first [ runs_step
        | apply runs_ld
        | apply runs_sto; cbn [out dev] ].
Ltac mt_steps := repeat mt_step.

(** ** The tests on a working memory *)

Section good.
Context `{DM : DataModel} {Mem : Type} `{HG : GoodMemory Mem} (shl_over : Z -> Z).
Context (bufa bufb count : Z) (Hd : bufs_disjoint bufa bufb count).
Implicit Types (s : st (mtw Mem)).

(** The test returns 0 and leaves the buffers equal, from a state with [pre]. *)
Definition passes (pre : mtw Mem -> Prop) (t : M (mtw Mem) Z) : Prop :=
  forall s, pre (dev s) -> runs t s (fun r s' => r = 0 /\ bufs_equal bufa bufb count (dev s')).

Lemma runs_compare_ok s (Q : Z -> st (mtw Mem) -> Prop) :
  bufs_equal bufa bufb count (dev s) -> Q 0 s -> runs (compare_regions bufa bufb count) s Q.
Proof. intros He HQ. exists 0, s. by rewrite runs_compare_equal. Qed.

(** One word of each buffer set to the same value. *)
Lemma bufs_equal_step k w1 w2 v :
  (forall j, 0 <= j < k -> word_at w1 bufa j = word_at w1 bufb j) -> 0 <= k < count ->
  w2 = upd (upd w1 (bufb + k * sizeof_ul) v) (bufa + k * sizeof_ul) v \/
  w2 = upd (upd w1 (bufa + k * sizeof_ul) v) (bufb + k * sizeof_ul) v ->
  forall j, 0 <= j < k + 1 -> word_at w2 bufa j = word_at w2 bufb j.
Proof.
  intros Heq Hk Hw j Hj. pose proof (bufs_disjoint_sym _ _ _ Hd) as Hd'.
  destruct (decide (k = j)) as [<-|Hne]; destruct Hw as [-> | ->].
  - rewrite word_at_upd_eq, (word_at_upd_other _ bufa bufb count), word_at_upd_eq by (done || lia). done.
  - rewrite word_at_upd_eq, (word_at_upd_other _ bufb bufa count), word_at_upd_eq by (done || lia). done.
  - rewrite word_at_upd_ne, (word_at_upd_other _ bufa bufb count), (word_at_upd_other _ bufb bufa count),
      word_at_upd_ne by (done || lia). apply Heq. lia.
  - rewrite (word_at_upd_other _ bufb bufa count), !word_at_upd_ne, (word_at_upd_other _ bufa bufb count)
      by (done || lia). apply Heq. lia.
Qed.

Lemma runs_fill_both v s :
  runs (fill_both bufa bufb count v) s (fun _ s' => bufs_equal bufa bufb count (dev s')).
Proof.
  set (I k s' := forall j, 0 <= j < k -> word_at (dev s') bufa j = word_at (dev s') bufb j).
  eapply runs_mono; [eapply (runs_for_ I)|].
  - intros j Hj. lia.
  - intros k s' Hk HI. mt_steps. intros j. eapply bufs_equal_step; [exact HI | lia | by left].
  - intros ? s' HI j Hj. apply HI. lia.
Qed.

Lemma runs_update_both op s :
  bufs_equal bufa bufb count (dev s) ->
  runs (update_both bufa bufb count op) s (fun _ s' => bufs_equal bufa bufb count (dev s')).
Proof.
  intros Heq. pose proof (bufs_disjoint_sym _ _ _ Hd) as Hd'.
  eapply runs_mono; [eapply (runs_for_ (fun _ s' => bufs_equal bufa bufb count (dev s')))|]; [done| |done].
  intros k s' Hk HI. mt_steps.
  fold (word_at (dev s') bufa k). fold (word_at (upd (dev s') (bufa + k * sizeof_ul) (op (word_at (dev s') bufa k))) bufb k).
  rewrite (word_at_upd_other _ bufa bufb count) by (done || lia).
  rewrite <- (HI k) by lia. intros j Hj.
  destruct (decide (j = k)) as [->|].
  - rewrite word_at_upd_eq, (word_at_upd_other _ bufb bufa count), word_at_upd_eq by (done || lia). done.
  - rewrite (word_at_upd_other _ bufb bufa count), !word_at_upd_ne, (word_at_upd_other _ bufa bufb count)
      by (done || lia). by apply HI.
Qed.

Lemma passes_update op :
  passes (bufs_equal bufa bufb count)
    (q ← rand_ul; update_both bufa bufb count (op q);; compare_regions bufa bufb count).
Proof.
  intros s Heq. mt_steps. apply runs_rand_ul. intros q s' _ Hm.
  apply runs_bind. eapply runs_mono.
  - apply (runs_update_both (op q)). unfold bufs_equal, word_at in *. by rewrite Hm.
  - intros ? s'' He. by apply runs_compare_ok.
Qed.

Lemma runs_pattern_round lab v s :
  runs (pattern_round bufa bufb count lab v) s
    (fun r s' => r = inl tt /\ bufs_equal bufa bufb count (dev s')).
Proof.
  unfold pattern_round. mt_steps. eapply runs_mono; [apply runs_fill_both|].
  intros ? s' He. mt_steps. apply runs_compare_ok; [done|]. cbn. by mt_steps.
Qed.

Lemma passes_pattern rounds v : 0 < rounds ->
  passes (fun _ => True) (pattern_test bufa bufb count rounds v).
Proof.
  intros Hr s _. unfold pattern_test. mt_steps.
  set (I k (a : unit) s' := 0 < k -> bufs_equal bufa bufb count (dev s')).
  eapply runs_mono; [eapply (runs_for_acc I (fun _ _ => False))|].
  - intros ?. lia.
  - intros k a s' Hk _. eapply runs_mono; [apply runs_pattern_round|].
    intros r s'' [-> He]. by intros _.
  - intros [a|e] s' HI; [|done]. mt_steps. split; [done|]. apply HI. lia.
Qed.

Lemma passes_bitflip : passes (fun _ => True) (test_bitflip_comparison shl_over bufa bufb count).
Proof.
  intros s _. unfold test_bitflip_comparison. mt_steps. pose proof long_bits_pos.
  set (I k (a : unit) s' := 0 < k -> bufs_equal bufa bufb count (dev s')).
  eapply runs_mono; [eapply (runs_for_acc I (fun _ _ => False))|].
  - intros ?. lia.
  - intros k a s' Hk _. mt_steps.
    eapply runs_mono; [eapply (runs_for_acc (fun k (_ : Z) s' => I k tt s') (fun _ _ => False))|].
    + intros ?. lia.
    + intros j q s'' Hj _. mt_steps. eapply runs_mono; [apply runs_pattern_round|].
      intros r s3 [-> He]. mt_steps. by intros _.
    + intros [q|e] s'' HI; [|done]. mt_steps. intros _. apply HI. lia.
  - intros [a|e] s' HI; [|done]. mt_steps. split; [done|]. apply HI. unfold UL_LEN. lia.
Qed.

(** A loop that draws a random word per index and stores it to both buffers. *)
Lemma runs_random_fill (store2 : Z -> Z -> M (mtw Mem) unit) (j0 : Z) s :
  (forall i q s', 0 <= i < count ->
     runs (store2 i q) s' (fun _ s'' =>
       dev s'' = upd (upd (dev s') (bufb + i * sizeof_ul) q) (bufa + i * sizeof_ul) q \/
       dev s'' = upd (upd (dev s') (bufa + i * sizeof_ul) q) (bufb + i * sizeof_ul) q)) ->
  runs (for_acc (R := Empty_set) (Z.to_nat count) 0 j0 (fun i j =>
          q ← rand_ul; store2 i q;; j' ← spin i j; mret (inl j'))) s
    (fun _ s' => bufs_equal bufa bufb count (dev s')).
Proof.
  intros Hst.
  set (I k (_ : Z) s' := forall j, 0 <= j < k -> word_at (dev s') bufa j = word_at (dev s') bufb j).
  eapply runs_mono; [eapply (runs_for_acc I (fun _ _ => False))|].
  - intros j Hj. lia.
  - intros k a s' Hk HI. mt_steps. apply runs_rand_ul. intros q s1 _ Hm.
    mt_steps. eapply runs_mono; [apply Hst; lia|]. intros ? s2 Hs2.
    mt_steps. apply runs_spin. intros j' s3 Hs3. mt_steps.
    intros j. rewrite Hs3. eapply bufs_equal_step; [|lia|exact Hs2].
    unfold I, word_at in *. by rewrite Hm.
  - intros [a|e] s' HI j Hj; [|done]. apply HI. lia.
Qed.

Lemma passes_random_value : passes (fun _ => True) (test_random_value bufa bufb count).
Proof.
  intros s _. unfold test_random_value. mt_steps.
  eapply runs_mono.
  - apply (runs_random_fill (fun i q => sto (bufb + i * sizeof_ul) q;; sto (bufa + i * sizeof_ul) q)).
    intros i q s' Hi. mt_steps. by left.
  - intros ? s' He. mt_steps. by apply runs_compare_ok.
Qed.

(** Writing a byte sequence in pieces of [c] bytes is writing it at once. *)
Lemma store_pieces p (l : list Z) (c : Z) : 0 < c -> forall n i s,
  0 <= i -> Z.of_nat (length l) = (i + Z.of_nat n) * c ->
  for_ n i (fun b => sto_bytes (p + b * c) (take (Z.to_nat c) (drop (Z.to_nat (b * c)) l))) s =
  (Ret tt, mkst (out s) (set_mem (dev s) (store_bytes (mt_mem (dev s)) (p + i * c) (drop (Z.to_nat (i * c)) l)))).
Proof.
  intros Hc. induction n as [|n IH]; intros i s Hi Hlen; cbn [for_].
  - rewrite drop_ge by lia. by destruct s as [? []].
  - erewrite bind_ret_run by reflexivity. rewrite IH by lia. cbn [fst snd out dev].
    symmetry. rewrite <- (take_drop (Z.to_nat c) (drop (Z.to_nat (i * c)) l)) at 1.
    rewrite store_bytes_app, drop_drop, length_take, length_drop. unfold set_mem; cbn [mt_mem].
    do 4 f_equal; [lia|]. f_equal. lia.
Qed.

Lemma narrow_word_sto p v chunk s : chunk = 1 \/ chunk = 2 -> narrow_word p v chunk s = sto p v s.
Proof.
  intros Hc. unfold narrow_word. rewrite store_pieces.
  - by rewrite Z.mul_0_l, Z.add_0_r.
  - destruct Hc; lia.
  - lia.
  - rewrite le_bytes_length. unfold sizeof_ul.
    destruct long_bits_cases as [-> | ->], Hc as [-> | ->]; reflexivity.
Qed.

Lemma passes_narrow chunk : chunk = 1 \/ chunk = 2 -> passes (fun _ => True) (narrow_test chunk bufa bufb count).
Proof.
  intros Hch s _. unfold narrow_test. mt_steps.
  set (I k (_ : Z) s' := 0 < k -> bufs_equal bufa bufb count (dev s')).
  eapply runs_mono; [eapply (runs_for_acc I (fun _ _ => False))|].
  - intros ?. lia.
  - intros k j s' Hk _. mt_steps. eapply runs_mono.
    + apply (runs_random_fill (fun i q =>
        sto ((if truth (Z.land k 1) then bufb else bufa) + i * sizeof_ul) q;;
        narrow_word ((if truth (Z.land k 1) then bufa else bufb) + i * sizeof_ul) q chunk)).
      intros i q s1 Hi. mt_steps. do 2 eexists. split; [by rewrite narrow_word_sto|].
      cbn. destruct (truth _); [left|right]; done.
    + intros [j'|[]] s1 He. mt_steps. apply runs_compare_ok; [done|]. cbn. mt_steps. by intros _.
  - intros [j|e] s' HI; [|done]. mt_steps. split; [done|]. apply HI. lia.
Qed.
End good.

(** ** The address-line test on a working memory *)

Section stuck_ok.
Context `{DM : DataModel} {Mem : Type} `{HG : GoodMemory Mem} (buf count : Z).
Implicit Types (s : st (mtw Mem)).

Lemma stuck_val_ulong j i p : ulong (stuck_val j i p) = stuck_val j i p.
Proof.
  pose proof long_bits_pos. apply ulong_small. unfold stuck_val.
  destruct (_ =? _); [apply ulong_range | apply wrapu_range; lia].
Qed.

Lemma runs_stuck_address_ok s : runs (test_stuck_address buf count) s (fun r _ => r = 0).
Proof.
  unfold test_stuck_address. mt_steps.
  eapply runs_mono; [eapply (runs_for_acc (fun _ _ _ => True) (fun _ _ => False))|]; [done| |].
  - intros j a s' Hj _. mt_steps.
    set (V k s' := forall i, 0 <= i < k -> word_at (dev s') buf i = stuck_val j i (buf + i * sizeof_ul)).
    eapply runs_mono; [eapply (runs_for_ V)|].
    + intros i Hi. lia.
    + intros k s1 Hk HV. mt_steps. intros i Hi. cbn [dev]. destruct (decide (k = i)) as [<-|].
      * rewrite word_at_upd_eq. apply stuck_val_ulong.
      * rewrite word_at_upd_ne by done. apply HV. lia.
    + intros ? s1 HV. mt_steps.
      eapply runs_mono; [eapply (runs_for_acc (fun _ _ s' => dev s' = dev s1) (fun _ _ => False))|];
        [done| |by intros [|]].
      intros k u s2 Hk Hs2. mt_steps. fold (word_at (dev s2) buf k). rewrite Hs2, HV by lia.
      rewrite Z.eqb_refl. by mt_steps.
  - intros [u|e] s' HI; [|done]. by mt_steps.
Qed.
End stuck_ok.
