(* ===== verification/MtFaults.v ===== *)
(** * memtester: faults the tests detect

    A bit stuck at 0 or 1 in either buffer is found by the solid-bits and the
    checkerboard test, and an address decoder that sends two words of the
    buffer to one cell is found by the stuck-address test. *)

From stdpp Require Import base list strings numbers gmap.
From Stdlib Require Import ZArith Lia.
From S2P Require Import Prelude CInt CLib Memory MtTests MtTestsOk.

(** ** The fill loop as a function on memories *)

Section fill.
Context `{DM : DataModel} {Mem : Type} `{HM : Memory Mem}.

Fixpoint fill_mem (bufa bufb : Z) (v : Z -> Z) (n : nat) (i : Z) (m : Mem) : Mem :=
  match n with
  | O => m
  | S n' => fill_mem bufa bufb v n' (i + 1)
              (store_word (store_word m (bufb + i * sizeof_ul) (v i)) (bufa + i * sizeof_ul) (v i))
  end.

Lemma fill_both_run bufa bufb count v (s : st (mtw Mem)) :
  fill_both bufa bufb count v s =
  (Ret tt, mkst (out s) (set_mem (dev s) (fill_mem bufa bufb v (Z.to_nat count) 0 (mt_mem (dev s))))).
Proof.
  unfold fill_both. generalize (Z.to_nat count) as n, 0 as i. intros n. revert s.
  induction n as [|n IH]; intros s i; [by destruct s as [? []]|].
  cbn [for_ fill_mem]. erewrite bind_ret_run by reflexivity. rewrite IH. reflexivity.
Qed.
End fill.

Section fill_good.
Context `{DM : DataModel} {Mem : Type} `{HG : GoodMemory Mem}.

Lemma fill_mem_out bufa bufb v q n : forall i (m : Mem),
  (forall k, i <= k < i + Z.of_nat n ->
     (q + sizeof_ul <= bufa + k * sizeof_ul \/ bufa + k * sizeof_ul + sizeof_ul <= q) /\
     (q + sizeof_ul <= bufb + k * sizeof_ul \/ bufb + k * sizeof_ul + sizeof_ul <= q)) ->
  load_word (fill_mem bufa bufb v n i m) q = load_word m q.
Proof.
  induction n as [|n IH]; intros i m Hq; cbn [fill_mem]; [done|].
  rewrite IH by (intros; apply Hq; lia).
  rewrite !load_store_word_ne; [done | apply Hq; lia ..].
Qed.

(** After the loop both buffers hold the pattern. *)
Lemma fill_mem_words bufa bufb count v n j : bufs_disjoint bufa bufb count -> forall i (m : Mem),
  0 <= i -> i + Z.of_nat n <= count -> i <= j < i + Z.of_nat n ->
  load_word (fill_mem bufa bufb v n i m) (bufa + j * sizeof_ul) = ulong (v j) /\
  load_word (fill_mem bufa bufb v n i m) (bufb + j * sizeof_ul) = ulong (v j).
Proof.
  intros Hd. pose proof sizeof_ul_pos. unfold bufs_disjoint in Hd.
  induction n as [|n IH]; intros i m Hi Hn Hj; cbn [fill_mem]; [lia|].
  destruct (decide (i = j)) as [<-|Hne]; [|apply IH; lia].
  split; rewrite fill_mem_out by (intros; split; nia).
  - by rewrite load_store_word.
  - rewrite load_store_word_ne by nia. by rewrite load_store_word.
Qed.
End fill_good.

(** ** A stuck bit *)

Section stuck.
Context `{DM : DataModel}.

Lemma stuck_store_word (m : stuck_mem) a v :
  store_word m a v = mk_stuck (store_word (sm_base m) a v) (sm_addr m) (sm_bit m) (sm_val m).
Proof.
  unfold store_word. generalize (le_bytes (Z.to_nat sizeof_ul) v) as l. intros l. revert m a.
  induction l as [|b l IH]; intros m a; cbn [store_bytes]; [by destruct m|]. by rewrite IH.
Qed.

Lemma stuck_fill bufa bufb v n : forall i (m : stuck_mem),
  fill_mem bufa bufb v n i m =
  mk_stuck (fill_mem bufa bufb v n i (sm_base m)) (sm_addr m) (sm_bit m) (sm_val m).
Proof.
  induction n as [|n IH]; intros i m; cbn [fill_mem]; [by destruct m|].
  rewrite IH, !stuck_store_word. reflexivity.
Qed.

Lemma stuck_load_out (m : stuck_mem) a :
  ~ (a <= sm_addr m < a + sizeof_ul) -> load_word m a = load_word (sm_base m) a.
Proof.
  intros Ha. pose proof sizeof_ul_pos. unfold load_word. f_equal.
  assert (forall n b, ~ (b <= sm_addr m < b + Z.of_nat n) -> load_bytes m b n = load_bytes (sm_base m) b n)
    as Hl.
  { induction n as [|n IH]; intros b Hb; cbn [load_bytes]; [done|].
    f_equal; [|apply IH; lia]. simpl. unfold stuck_load. rewrite decide_False by lia. done. }
  apply Hl. lia.
Qed.

Lemma load_bytes_nth {Mem} `{Memory Mem} (m : Mem) a n k :
  (k < n)%nat -> nth k (load_bytes m a n) 0 = loadb m (a + Z.of_nat k).
Proof.
  revert a k. induction n as [|n IH]; intros a k Hk; [lia|]. destruct k; cbn [load_bytes nth].
  - by rewrite Z.add_0_r.
  - rewrite IH by lia. f_equal. lia.
Qed.

Lemma force_bit_testbit v k b : is_byte v -> 0 <= k < 8 -> Z.testbit (force_bit v k b mod 256) k = b.
Proof.
  intros Hv Hk. change 256 with (2 ^ 8). rewrite Z.mod_pow2_bits_low by lia. unfold force_bit.
  destruct b.
  - rewrite Z.lor_spec, Z.pow2_bits_true by lia. apply orb_true_r.
  - rewrite Z.land_spec. apply andb_false_intro2.
    assert (k = 0 \/ k = 1 \/ k = 2 \/ k = 3 \/ k = 4 \/ k = 5 \/ k = 6 \/ k = 7) as Hc by lia.
    repeat destruct Hc as [-> | Hc]; try subst k; reflexivity.
Qed.

(** The stuck bit of the word that holds it. *)
Lemma stuck_load_bit (m : stuck_mem) a :
  a <= sm_addr m < a + sizeof_ul -> 0 <= sm_bit m < 8 ->
  Z.testbit (load_word m a) (8 * (sm_addr m - a) + sm_bit m) = sm_val m.
Proof.
  intros Ha Hb. unfold load_word.
  replace (sm_addr m - a) with (Z.of_nat (Z.to_nat (sm_addr m - a))) by lia.
  rewrite le_val_testbit; [|apply load_bytes_is_byte|done].
  rewrite load_bytes_nth by lia. simpl. unfold stuck_load.
  rewrite decide_True by lia. apply force_bit_testbit; [apply loadb_byte | done].
Qed.

Context (bufa bufb count : Z) (Hd : bufs_disjoint bufa bufb count).

(** The fault lies in word [i] of one of the two buffers. *)
Definition fault_in (m : stuck_mem) (i : Z) : Prop :=
  0 <= i < count /\ 0 <= sm_bit m < 8 /\
  ((bufa + i * sizeof_ul <= sm_addr m < bufa + i * sizeof_ul + sizeof_ul) \/
   (bufb + i * sizeof_ul <= sm_addr m < bufb + i * sizeof_ul + sizeof_ul)).

(** The pattern word has, at the fault, the opposite of the stuck value. *)
Definition opposes (m : stuck_mem) (i x : Z) : Prop :=
  forall a, a = bufa + i * sizeof_ul \/ a = bufb + i * sizeof_ul ->
  a <= sm_addr m < a + sizeof_ul ->
  Z.testbit (ulong x) (8 * (sm_addr m - a) + sm_bit m) = negb (sm_val m).

Lemma stuck_fill_differs m i v :
  fault_in m i -> opposes m i (v i) ->
  let m' := fill_mem bufa bufb v (Z.to_nat count) 0 m in
  load_word m' (bufa + i * sizeof_ul) <> load_word m' (bufb + i * sizeof_ul).
Proof.
  intros (Hi & Hbit & Hf) Hv m'. subst m'. rewrite stuck_fill.
  pose proof sizeof_ul_pos. unfold bufs_disjoint in Hd.
  destruct (fill_mem_words bufa bufb count v (Z.to_nat count) i Hd 0 (sm_base m)) as [Wa Wb]; [lia..|].
  set (m' := mk_stuck _ _ _ _).
  destruct Hf as [Hf|Hf]; intros Heq; pose proof (stuck_load_bit m' _ Hf Hbit) as Hs;
    [rewrite Heq in Hs | rewrite <- Heq in Hs];
    (rewrite stuck_load_out in Hs by (subst m'; cbn [sm_addr]; nia));
    subst m'; cbn [sm_base sm_addr sm_bit sm_val] in Hs; rewrite ?Wa, ?Wb, Hv in Hs by tauto;
    by destruct (sm_val m).
Qed.

(** A pattern test one of whose rounds opposes the stuck bit reports it. *)
Lemma pattern_detects m i rounds v j :
  fault_in m i -> 0 <= j < rounds -> opposes m i (v j i) ->
  forall s, mt_mem (dev s) = m ->
  runs (pattern_test bufa bufb count rounds v) s (fun r _ => r = -1).
Proof.
  intros Hf Hj Hop s Hs. unfold pattern_test. mt_steps.
  set (same (w : mtw stuck_mem) := exists b, mt_mem w = mk_stuck b (sm_addr m) (sm_bit m) (sm_val m)).
  eapply runs_mono;
    [eapply (runs_for_acc (fun k (_ : unit) s' => k <= j /\ same (dev s')) (fun r _ => r = -1))|].
  - split; [lia|]. exists (sm_base m). cbn [dev]. rewrite Hs. by destruct m.
  - intros k u s' Hk [Hkj [b Hb]]. unfold pattern_round. mt_steps.
    eexists tt, _; split; [apply fill_both_run|]. cbn [out dev]. mt_steps.
    eexists _, _; split; [apply compare_regions_run|]. cbn [out dev].
    case_decide as Hm; cbn; mt_steps; [|done].
    apply mismatches_nil in Hm. split.
    + destruct (decide (k = j)) as [->|]; [exfalso|lia].
      unfold bufs_equal, word_at in Hm. cbn [set_mem mt_mem] in Hm. rewrite Hb in Hm.
      eapply (stuck_fill_differs (mk_stuck b (sm_addr m) (sm_bit m) (sm_val m)) i (v j));
        [exact Hf|exact Hop|]. apply Hm. apply Hf.
    + unfold same. cbn [set_mem mt_mem]. rewrite Hb, stuck_fill. by eexists.
  - intros [u|r] s' HI; [lia|]. mt_steps. done.
Qed.

(** Two rounds that write complementary words oppose every stuck bit. *)
Lemma complement_detects m i rounds v :
  fault_in m i -> 2 <= rounds -> 0 <= v 0 i < 2 ^ long_bits -> v 1 i = ulnot (v 0 i) ->
  forall s, mt_mem (dev s) = m ->
  runs (pattern_test bufa bufb count rounds v) s (fun r _ => r = -1).
Proof.
  intros Hf Hr Hv0 Hv1. pose proof long_bits_pos. pose proof sizeof_ul_bits.
  pose proof (Hf) as (Hi & Hbit & Hin).
  assert (exists a, (a = bufa + i * sizeof_ul \/ a = bufb + i * sizeof_ul) /\
                    a <= sm_addr m < a + sizeof_ul) as (a & Ha & Hra) by (destruct Hin; eauto).
  set (k := 8 * (sm_addr m - a) + sm_bit m).
  assert (forall a', a' = bufa + i * sizeof_ul \/ a' = bufb + i * sizeof_ul ->
                     a' <= sm_addr m < a' + sizeof_ul -> a' = a) as Hu.
  { pose proof sizeof_ul_pos. unfold bufs_disjoint in Hd. intros a' [-> | ->] Hra'; destruct Ha as [-> | ->]; nia. }
  assert (Z.testbit (v 1 i) k = negb (Z.testbit (v 0 i) k)) as Hc.
  { rewrite Hv1. unfold ulnot. rewrite notu_testbit by lia.
    by rewrite (proj2 (Z.ltb_lt k long_bits)) by lia. }
  destruct (decide (Z.testbit (v 0 i) k = negb (sm_val m))) as [E|E].
  - apply (pattern_detects m i rounds v 0); [done|lia|]. intros a' Ha' Hr'.
    rewrite (Hu a' Ha' Hr'), ulong_small by done. exact E.
  - apply (pattern_detects m i rounds v 1); [done|lia|]. intros a' Ha' Hr'.
    rewrite (Hu a' Ha' Hr'), ulong_small by (rewrite Hv1; apply wrapu_range; lia).
    fold k. rewrite Hc. by destruct (Z.testbit (v 0 i) k), (sm_val m).
Qed.

Lemma solidbits_complement i :
  0 <= solidbits_val 0 i < 2 ^ long_bits /\ solidbits_val 1 i = ulnot (solidbits_val 0 i).
Proof.
  unfold solidbits_val, UL_ONEBITS, ulnot. destruct (i mod 2 =? 0);
    destruct long_bits_cases as [-> | ->]; vm_compute; repeat split; congruence.
Qed.

Lemma checkerboard_complement i :
  0 <= checkerboard_val 0 i < 2 ^ long_bits /\ checkerboard_val 1 i = ulnot (checkerboard_val 0 i).
Proof.
  unfold checkerboard_val, CHECKERBOARD1, CHECKERBOARD2, ulnot. destruct (i mod 2 =? 0);
    destruct long_bits_cases as [-> | ->]; vm_compute; repeat split; congruence.
Qed.
End stuck.

(** ** An address decoder fault *)

Section alias.
Context `{DM : DataModel}.

Lemma alias_load_word (m : alias_mem) a c :
  (forall k, 0 <= k < sizeof_ul -> am_map m (a + k) = c + k) ->
  load_word m a = load_word (am_base m) c.
Proof.
  intros Hm. pose proof sizeof_ul_pos. unfold load_word. f_equal.
  assert (forall n k, 0 <= k -> k + Z.of_nat n <= sizeof_ul ->
            load_bytes m (a + k) n = load_bytes (am_base m) (c + k) n) as Hl.
  { induction n as [|n IH]; intros k Hk Hn; cbn [load_bytes]; [done|]. f_equal.
    - simpl. rewrite Hm by lia. done.
    - rewrite <- !Z.add_assoc. apply IH; lia. }
  specialize (Hl (Z.to_nat sizeof_ul) 0). rewrite !Z.add_0_r in Hl. apply Hl; lia.
Qed.

Lemma alias_store_word (m : alias_mem) a c v :
  (forall k, 0 <= k < sizeof_ul -> am_map m (a + k) = c + k) ->
  store_word m a v = mk_alias (store_word (am_base m) c v) (am_map m).
Proof.
  intros Hm. pose proof sizeof_ul_pos. unfold store_word.
  assert (forall l k b, 0 <= k -> k + Z.of_nat (length l) <= sizeof_ul ->
            store_bytes (mk_alias b (am_map m)) (a + k) l =
            mk_alias (store_bytes b (c + k) l) (am_map m)) as Hl.
  { induction l as [|x l IH]; intros k b Hk Hn; cbn [store_bytes length] in *; [done|].
    rewrite <- !Z.add_assoc. simpl storeb. rewrite Hm by lia. apply IH; lia. }
  specialize (Hl (le_bytes (Z.to_nat sizeof_ul) v) 0 (am_base m)). rewrite !Z.add_0_r in Hl.
  destruct m as [b f]. apply Hl; [lia|]. rewrite le_bytes_length. lia.
Qed.

Context (buf count : Z) (Hbuf : 0 <= buf) (Heven : buf mod 2 = 0)
        (Hfit : buf + count * sizeof_ul <= 2 ^ long_bits).
(** The decoder sends word [i] of the buffer to cell [f i]. *)
Context (f : Z -> Z) (amap : Z -> Z)
        (Hmap : forall i k, 0 <= i < count -> 0 <= k < sizeof_ul ->
                  amap (buf + i * sizeof_ul + k) = buf + f i * sizeof_ul + k).

Abbreviation addr i := (buf + i * sizeof_ul).

Lemma stuck_val_inj j i i' :
  0 <= i < count -> 0 <= i' < count -> stuck_val j i (addr i) = stuck_val j i' (addr i') -> i = i'.
Proof.
  intros Hi Hi'. pose proof sizeof_ul_pos. pose proof long_bits_pos. unfold stuck_val.
  rewrite !ulong_small by nia. unfold ulnot.
  assert (sizeof_ul mod 2 = 0) by (unfold sizeof_ul; destruct long_bits_cases as [-> | ->]; reflexivity).
  assert ((2 ^ long_bits) mod 2 = 0) by (destruct long_bits_cases as [-> | ->]; reflexivity).
  assert (forall x, (addr x) mod 2 = 0) as Hev.
  { intros x. rewrite Zplus_mod, Heven, Zmult_mod, H1, Z.mul_0_r. reflexivity. }
  pose proof (Hev i). pose proof (Hev i').
  destruct (_ =? _), (_ =? _); rewrite ?notu_eq by nia; intros E.
  - nia.
  - exfalso. assert ((2 ^ long_bits - 1 - addr i') mod 2 = 1) by (rewrite Z.mod_eq in * by lia; lia). congruence.
  - exfalso. assert ((2 ^ long_bits - 1 - addr i) mod 2 = 1) by (rewrite Z.mod_eq in * by lia; lia). congruence.
  - nia.
Qed.

(** Each cell holds what the last word sent to it was given. *)
Definition last_writer (j k : Z) (m : alias_mem) : Prop :=
  exists b, m = mk_alias b amap /\
  forall i, 0 <= i < k -> exists i', 0 <= i' < k /\ f i' = f i /\
    (forall x, 0 <= x < k -> f x = f i -> x <= i') /\
    load_word b (addr (f i)) = stuck_val j i' (addr i').

Lemma last_writer_step j k m :
  0 <= k < count -> last_writer j k m -> last_writer j (k + 1) (store_word m (addr k) (stuck_val j k (addr k))).
Proof.
  intros Hk (b & -> & Hl). pose proof sizeof_ul_pos.
  erewrite alias_store_word by (intros; apply Hmap; lia). eexists; split; [reflexivity|].
  intros i Hi. cbn [am_base]. destruct (decide (f i = f k)) as [E|E].
  - exists k. split_and!; [lia..|done| |].
    + intros x Hx _. lia.
    + rewrite E, load_store_word. apply stuck_val_ulong.
  - assert (i <> k) by congruence. destruct (Hl i) as (i' & Hi' & Hf & Hlast & Hv); [lia|].
    exists i'. split_and!; [lia..|done| |].
    + intros x Hx Hfx. destruct (decide (x = k)) as [->|]; [congruence|]. apply Hlast; [lia|done].
    + rewrite load_store_word_ne; [done|]. assert (f i < f k \/ f k < f i) as [?|?] by lia; [left|right]; nia.
Qed.

Lemma alias_detected i1 i2 (s : st (mtw alias_mem)) :
  0 <= i1 < i2 -> i2 < count -> f i1 = f i2 -> am_map (mt_mem (dev s)) = amap ->
  runs (test_stuck_address buf count) s (fun r _ => r = -1).
Proof.
  intros H12 H2 Hf Hs. unfold test_stuck_address. mt_steps.
  eapply runs_mono;
    [eapply (runs_for_acc (fun k (_ : unit) s' => k = 0 /\ am_map (mt_mem (dev s')) = amap) (fun r _ => r = -1))|].
  - done.
  - intros j u s' Hj [-> Hm]. mt_steps.
    eapply runs_mono; [eapply (runs_for_ (fun k s' => last_writer 0 k (mt_mem (dev s'))))|].
    + exists (am_base (mt_mem (dev s'))). split; [cbn; rewrite <- Hm; by destruct (mt_mem (dev s'))|].
      intros i Hi. lia.
    + intros k s1 Hk Hl. mt_steps. apply last_writer_step; [lia|done].
    + intros ? s1 Hl. mt_steps. rewrite Z.add_0_l, Z2Nat.id in Hl by lia. destruct Hl as (b & Hb & Hl).
      eapply runs_mono;
        [eapply (runs_for_acc (fun k (_ : unit) s' => k <= i1 /\ dev s' = dev s1) (fun r _ => r = -1))|].
      * split; [lia|done].
      * intros k ? s2 Hk [Hk1 Hs2]. mt_steps. rewrite Hs2, Hb.
        erewrite (alias_load_word (mk_alias b amap)) by (intros; apply Hmap; lia). cbn [am_base].
        destruct (_ =? _) eqn:E; mt_steps; [|done]. split; [|done].
        destruct (decide (k = i1)) as [->|]; [exfalso|lia].
        destruct (Hl i1) as (i' & Hi' & _ & Hlast & Hv); [lia|].
        apply Z.eqb_eq in E. rewrite Hv in E. apply stuck_val_inj in E; [|lia..].
        specialize (Hlast i2). lia.
      * intros [?|r] s2 HI; [lia|]. done.
  - intros [u|r] s' HI; [lia|]. by mt_steps.
Qed.
End alias.
