(* ===== verification/MtMain.v ===== *)
(** * memtester: the main program ([memory_test/memtester/memtester.c])

    Command line, memory acquisition ([malloc] and [mlock] with retries, or
    [mmap] of a device) and the loop that runs the tests and collects the exit
    code. The operating system's answers are the fields of [mt_os]; [os_malloc]
    and [os_mlock] also get the number of earlier calls, so they may answer
    differently each time. *)

From stdpp Require Import base list strings numbers.
From Stdlib Require Import ZArith Lia Ascii.
From S2P Require Import Prelude CInt CLib Memory MtTests.

Inductive mlock_res := MlockOk | MlockEAGAIN | MlockENOMEM | MlockEPERM | MlockOther.

Record mt_os := {
  os_posix_version : Z;
  os_page_size : Z;
  os_testmask : option string;
  (** [stat]: [None] on error, else whether the file is a character device *)
  os_stat : string -> option bool;
  os_open : string -> bool;
  (** [mmap] of the given length at the given offset *)
  os_mmap : Z -> Z -> option Z;
  os_mlock : nat -> Z -> Z -> mlock_res;
  (** 0 is the null pointer *)
  os_malloc : nat -> Z -> Z;
  os_strerror : string
}.

Definition EXIT_FAIL_NONSTARTER : Z := 1.
Definition EXIT_FAIL_ADDRESSLINES : Z := 2.
Definition EXIT_FAIL_OTHERTEST : Z := 4.

Section main.
Context `{DM : DataModel} {Mem : Type} `{HM : Memory Mem} (shl_over : Z -> Z).
Abbreviation P := (M (mtw Mem)).

(** [struct test tests[]], built with [TEST_NARROW_WRITES] (conf-cc). *)
Definition tests : list (string * (Z -> Z -> Z -> P Z)) := [
  ("Random Value", test_random_value);
  ("Compare XOR", test_xor_comparison);
  ("Compare SUB", test_sub_comparison);
  ("Compare MUL", test_mul_comparison);
  ("Compare DIV", test_div_comparison);
  ("Compare OR", test_or_comparison);
  ("Compare AND", test_and_comparison);
  ("Sequential Increment", test_seqinc_comparison);
  ("Solid Bits", test_solidbits_comparison);
  ("Block Sequential", test_blockseq_comparison);
  ("Checkerboard", test_checkerboard_comparison);
  ("Bit Spread", test_bitspread_comparison shl_over);
  ("Bit Flip", test_bitflip_comparison shl_over);
  ("Walking Ones", test_walkbits1_comparison shl_over);
  ("Walking Zeroes", test_walkbits0_comparison shl_over);
  ("8-bit Writes", test_8bit_wide_random);
  ("16-bit Writes", test_16bit_wide_random)
]%string.

(** ** The test loop *)

(** [if (!tests[i].name) break; ...] over the rest of the table. *)
Fixpoint run_tests (l : list (string * (Z -> Z -> Z -> P Z))) (i testmask bufa bufb count exit_code : Z) : P Z :=
  match l with
  | [] => mret exit_code
  | (name, fp) :: l' =>
      if (truth testmask && negb (truth (Z.land (Z.shiftl 1 i) testmask)))%bool
      then run_tests l' (i + 1) testmask bufa bufb count exit_code
      else printf ("  " +:+ pad_right 20 name +:+ ": ");;
           r ← fp bufa bufb count;
           e ← (if truth r then mret (Z.lor exit_code EXIT_FAIL_OTHERTEST)
                else printf ("ok" +:+ nl);; mret exit_code);
           run_tests l' (i + 1) testmask bufa bufb count e
  end.

(** One round: the address-line test on the whole buffer, then the table. *)
Definition one_loop (loop loops testmask aligned bufsize exit_code : Z) : P Z :=
  let halflen := bufsize / 2 in
  let count := halflen / sizeof_ul in
  let bufa := aligned in
  let bufb := aligned + halflen in
  printf ("Loop " +:+ dec loop);;
  when (truth loops) (printf ("/" +:+ dec loops));;
  printf (":" +:+ nl);;
  printf ("  " +:+ pad_right 20 "Stuck Address" +:+ ": ");;
  r ← test_stuck_address aligned (bufsize / sizeof_ul);
  e ← (if truth r then mret (Z.lor exit_code EXIT_FAIL_ADDRESSLINES)
       else printf ("ok" +:+ nl);; mret exit_code);
  e' ← run_tests tests 0 testmask bufa bufb count e;
  printf nl;;
  mret e'.

(** [for (loop = 1; !loops || loop <= loops; loop++)] *)
Definition test_loop (fuel : nat) (loops testmask aligned bufsize : Z) : P Z :=
  while_ fuel (1, 0) (fun '(loop, exit_code) =>
    if (negb (truth loops) || (loop <=? loops))%bool
    then e ← one_loop loop loops testmask aligned bufsize exit_code;
         mret (inl (ulong (loop + 1), e))
    else mret (inr exit_code)).

(** ** Command line *)

Context (os : mt_os) (me : string).

Definition usage {A} : P A :=
  eprintf (nl +:+ "Usage: " +:+ me +:+ " [-p physaddrbase [-d device]] <mem>[B|K|M|G] [loops]" +:+ nl);;
  exit EXIT_FAIL_NONSTARTER.

Definition check_posix_system : P unit :=
  when (os_posix_version os <? 198808)
    (eprintf ("A POSIX system is required.  Don't be surprised if this craps out." +:+ nl);;
     eprintf ("_SC_VERSION is " +:+ dec (ulong (os_posix_version os)) +:+ nl)).

Definition memtester_pagesize : P Z :=
  if os_page_size os =? -1 then
    eprintf ("get page size failed: " +:+ os_strerror os +:+ nl);; exit EXIT_FAIL_NONSTARTER
  else printf ("pagesize is " +:+ dec (os_page_size os) +:+ nl);; mret (os_page_size os).

(** The MEMTESTER_TEST_MASK environment variable. *)
Definition get_testmask : P Z :=
  match os_testmask os with
  | None => mret 0
  | Some v =>
      let r := strtoul 0 v in
      if serange r then
        eprintf ("error parsing MEMTESTER_TEST_MASK " +:+ v +:+ ": " +:+ os_strerror os +:+ nl);; usage
      else
        m ← (if (truth (Z.land (sv r) 0x7E) && negb (truth (Z.land (sv r) 1)))%bool
             then printf ("enabling Random Value Test (0x1) to initialize test buffer" +:+ nl);;
                  mret (Z.lor (sv r) 1)
             else mret (sv r));
        printf ("using testmask 0x" +:+ hex m +:+ nl);;
        mret m
  end.

Definition bad_phys {A} : P A :=
  eprintf ("failed to parse physaddrbase arg; should be hex address (0x123...)" +:+ nl);; usage.

Definition set_phys (base : Z) : P unit :=
  setdev (fun w => mk_mtw (mt_mem w) (mt_rand w) (mt_pos w) true base).

(** One result of [getopt]; the accumulator is [device_name] when given. *)
Definition do_option (pagesize : Z) (ev : optev) (device : option string) : P (option string) :=
  match ev with
  | (112, Some arg) => (* 'p' *)
      let r := strtoull 16 arg in
      let base := wraps 64 (sv r) in
      if serange r then bad_phys
      else if truth (char_at0 (send r)) then bad_phys
      else if truth (Z.land base (pagesize - 1)) then
        eprintf ("bad physaddrbase arg; does not start on page boundary" +:+ nl);; usage
      else set_phys base;; mret device
  | (100, Some arg) => (* 'd' *)
      match os_stat os arg with
      | None => eprintf ("can not use " +:+ arg +:+ " as device: " +:+ os_strerror os +:+ nl);; usage
      | Some false => eprintf ("can not mmap non-char device " +:+ arg +:+ nl);; usage
      | Some true => mret (Some arg)
      end
  | _ => usage
  end.

Fixpoint do_options (pagesize : Z) (evs : list optev) (device : option string) : P (option string) :=
  match evs with
  | [] => mret device
  | ev :: evs' => d ← do_option pagesize ev device; do_options pagesize evs' d
  end.

(** The switch on the suffix character: the shift, [None] for a bad suffix. *)
Definition memshift (c : Z) : option Z :=
  if ((c =? 71) || (c =? 103))%bool then Some 30        (* G g *)
  else if ((c =? 77) || (c =? 109))%bool then Some 20   (* M m *)
  else if ((c =? 75) || (c =? 107))%bool then Some 10   (* K k *)
  else if ((c =? 66) || (c =? 98))%bool then Some 0     (* B b *)
  else if c =? 0 then Some 20
  else None.

Definition maxmb : Z := Z.shiftr (2 ^ long_bits - 1) 20 + 1.

(** The memory argument: [wantbytes]. *)
Definition parse_mem (pagesize : Z) (arg : string) : P Z :=
  let r := strtoul 0 arg in
  if serange r then eprintf "failed to parse memory argument";; usage
  else match memshift (char_at0 (send r)) with
       | None => usage
       | Some sh =>
           let wantbytes := shlu long_bits (sv r) sh in
           let wantmb := Z.shiftr wantbytes 20 in
           if maxmb <? wantmb then
             eprintf ("This system can only address " +:+ dec maxmb +:+ " MB." +:+ nl);;
             exit EXIT_FAIL_NONSTARTER
           else if wantbytes <? pagesize then
             eprintf ("bytes " +:+ dec (wraps long_bits wantbytes) +:+ " < pagesize " +:+ dec pagesize +:+
                      " -- memory argument too large?" +:+ nl);;
             exit EXIT_FAIL_NONSTARTER
           else mret wantbytes
       end.

Definition parse_loops (arg : option string) : P Z :=
  match arg with
  | None => mret 0
  | Some a =>
      let r := strtoul 0 a in
      if serange r then eprintf "failed to parse number of loops";; usage
      else if truth (char_at0 (send r)) then
        eprintf ("loop suffix " +:+ String (chr (char_at0 (send r))) EmptyString +:+ nl);; usage
      else mret (sv r)
  end.

(** ** Memory acquisition *)

(** [while (!buf && wantbytes) { buf = malloc(wantbytes); if (!buf) wantbytes -= pagesize; }]
    carrying [buf], [wantbytes] and the number of [malloc] calls made. *)
Definition malloc_loop (fuel : nat) (pagesize buf wantbytes : Z) (nm : nat) : P (Z * Z * nat) :=
  while_ fuel (buf, wantbytes, nm) (fun '(buf, wantbytes, nm) =>
    if ((buf =? 0) && truth wantbytes)%bool then
      let b := os_malloc os nm wantbytes in
      mret (inl (b, (if b =? 0 then ulong (wantbytes - pagesize) else wantbytes), S nm))
    else mret (inr (buf, wantbytes, nm))).

(** The locals the acquisition loop carries; [al_aligned] is [None] while the
    C variable is uninitialised. *)
Record alloc_st := mk_alloc {
  al_buf : Z; al_aligned : option Z; al_wantbytes : Z; al_bufsize : Z;
  al_do_mlock : bool; al_nm : nat; al_nl : nat
}.

(** One round of [while (!done_mem)]; [inr] when [done_mem] was set. *)
Definition alloc_round (fuel : nat) (pagesize wantbytes_orig : Z) (a : alloc_st) : P (alloc_st + alloc_st) :=
  x ← malloc_loop fuel pagesize (al_buf a) (al_wantbytes a) (al_nm a);
  let '(buf, wantbytes, nm) := x in
  let bufsize := wantbytes in
  printf ("got  " +:+ dec (Z.shiftr wantbytes 20) +:+ "MB (" +:+ dec wantbytes +:+ " bytes)");;
  if al_do_mlock a then
    printf ", trying mlock ...";;
    let aligned := if truth (buf mod pagesize)
                   then ulong (Z.land buf (notu long_bits (pagesize - 1)) + pagesize) else buf in
    let bufsize := if truth (buf mod pagesize) then ulong (bufsize - (aligned - buf)) else bufsize in
    let retry w dm := mret (inl (mk_alloc 0 (Some aligned) w bufsize dm nm (S (al_nl a)))) in
    let done dm := mret (inr (mk_alloc buf (Some aligned) wantbytes bufsize dm nm (S (al_nl a)))) in
    match os_mlock os (al_nl a) aligned bufsize with
    | MlockEAGAIN => printf ("over system/pre-process limit, reducing..." +:+ nl);;
                     retry (ulong (wantbytes - pagesize)) true
    | MlockENOMEM => printf ("too many pages, reducing..." +:+ nl);;
                     retry (ulong (wantbytes - pagesize)) true
    | MlockEPERM => printf ("insufficient permission." +:+ nl);;
                    printf ("Trying again, unlocked:" +:+ nl);;
                    retry wantbytes_orig false
    | MlockOther => printf ("failed for unknown reason." +:+ nl);; done false
    | MlockOk => printf ("locked." +:+ nl);; done true
    end
  else
    printf nl;;
    mret (inr (mk_alloc buf (al_aligned a) wantbytes bufsize false nm (al_nl a))).

Definition alloc_malloc (fuel : nat) (pagesize wantbytes : Z) : P alloc_st :=
  while_ fuel (mk_alloc 0 None wantbytes 0 true 0 0) (alloc_round fuel pagesize wantbytes).

(** The [-p] case: map the device, and lock what was mapped. *)
Definition alloc_phys (device_name : string) (base wantbytes : Z) : P alloc_st :=
  if negb (os_open os device_name) then
    eprintf ("failed to open " +:+ device_name +:+ " for physical memory: " +:+ os_strerror os +:+ nl);;
    exit EXIT_FAIL_NONSTARTER
  else match os_mmap os wantbytes base with
       | None => eprintf ("failed to mmap " +:+ device_name +:+ " for physical memory: " +:+ os_strerror os +:+ nl);;
                 exit EXIT_FAIL_NONSTARTER
       | Some buf =>
           dm ← match os_mlock os 0 buf wantbytes with
                | MlockOk => mret true
                | _ => eprintf ("failed to mlock mmap'ed space" +:+ nl);; mret false
                end;
           mret (mk_alloc buf (Some buf) wantbytes wantbytes dm 0 1)
       end.

(** ** main *)

Definition main (fuel : nat) (args : list string) : P unit :=
  printf ("memtester version 4.3.0 (" +:+ dec UL_LEN +:+ "-bit)" +:+ nl);;
  printf ("Copyright (C) 2001-2012 Charles Cazabon." +:+ nl);;
  printf ("Licensed under the GNU General Public License version 2 (only)." +:+ nl);;
  printf nl;;
  check_posix_system;;
  pagesize ← memtester_pagesize;
  printf ("pagesizemask is 0x" +:+ hex (notu long_bits (pagesize - 1)) +:+ nl);;
  testmask ← get_testmask;
  let '(evs, operands) := getopt "p:d:" args in
  device ← do_options pagesize evs None;
  w ← getdev;
  when (match device with Some _ => negb (use_phys w) | None => false end)
    (eprintf ("for mem device, physaddrbase (-p) must be specified" +:+ nl);; usage);;
  match operands with
  | [] => eprintf ("need memory argument, in MB" +:+ nl);; usage
  | memarg :: rest =>
      wantbytes ← parse_mem pagesize memarg;
      loops ← parse_loops (head rest);
      printf ("want " +:+ dec (Z.shiftr wantbytes 20) +:+ "MB (" +:+ dec wantbytes +:+ " bytes)" +:+ nl);;
      a ← (if use_phys w
           then alloc_phys (default "/dev/mem" device) (physaddrbase w) wantbytes
           else alloc_malloc fuel pagesize wantbytes);
      when (negb (al_do_mlock a))
        (eprintf ("Continuing with unlocked memory; testing will be slower and less reliable." +:+ nl));;
      match al_aligned a with
      | None => crash
      | Some aligned =>
          e ← test_loop fuel loops testmask aligned (al_bufsize a);
          printf ("Done." +:+ nl);;
          exit e
      end
  end.
End main.
