(* ===== verification/MtShown.v ===== *)
(** * memtester: what a run announces

    The lines that name a round or a test, and those that report success, picked
    from everything the program writes; the tests themselves write none. *)

From stdpp Require Import base list strings numbers.
From Stdlib Require Import ZArith Lia Ascii.
From S2P Require Import Prelude CInt CLib Memory MtTests MtMain.

(** ** The expected lines *)

(** The tests in the order of the documentation: entry [i] is bit [i] of the mask. *)
Definition test_names : list string := [
  "Random Value"; "Compare XOR"; "Compare SUB"; "Compare MUL"; "Compare DIV"; "Compare OR"; "Compare AND";
  "Sequential Increment"; "Solid Bits"; "Block Sequential"; "Checkerboard"; "Bit Spread"; "Bit Flip";
  "Walking Ones"; "Walking Zeroes"; "8-bit Writes"; "16-bit Writes" ]%string.

(** Whether the mask selects test [i]: all of them for the mask 0. *)
Definition selected (testmask i : Z) : bool := ((testmask =? 0) || Z.testbit testmask i)%bool.

Fixpoint chosen (testmask i : Z) (l : list string) : list string :=
  match l with
  | [] => []
  | name :: l' => (if selected testmask i then [name] else []) ++ chosen testmask (i + 1) l'
  end.

Definition test_line (name : string) : string := ("  " +:+ pad_right 20 name +:+ ": ")%string.
Definition ok_line : string := ("ok" +:+ nl)%string.
Definition loop_line (k : Z) : string := ("Loop " +:+ dec k)%string.
Definition passed (names : list string) : list string := flat_map (fun name => [test_line name; ok_line]) names.

(** A round in which everything passes, and [loops] of them. *)
Definition good_round (testmask k : Z) : list string :=
  loop_line k :: passed ("Stuck Address"%string :: chosen testmask 0 test_names).
Definition good_rounds (testmask loops : Z) : list string := flat_map (good_round testmask) (seqZ 1 loops).

(** ** The lines of a run *)

Definition headline (x : string) : bool :=
  (String.prefix "Loop " x || String.eqb x ok_line || String.eqb x ("Done." +:+ nl) ||
   existsb (String.eqb x) (test_line <$> "Stuck Address"%string :: test_names))%bool.
Definition heading (m : msg) : option string :=
  match m with Stdout x => if headline x then Some x else None | Stderr _ => None end.
(** The headlines written so far, the oldest first. *)
Definition headlines (o : list msg) : list string := rev (omap heading o).

Section quiet.
Context {W : Type}.
Implicit Types s : st W.

Lemma headlines_printf x o : headlines (Stdout x :: o) = headlines o ++ (if headline x then [x] else []).
Proof. unfold headlines. cbn [omap list_omap heading]. destruct (headline x); cbn [rev]; [done|]. by rewrite app_nil_r. Qed.

(** The fragment writes no headline, however it ends. *)
Definition quiet {A} (m : M W A) : Prop := forall s, headlines (out (m s).2) = headlines (out s).

Lemma quiet_ret {A} (a : A) : quiet (mret a). Proof. done. Qed.
Lemma quiet_devop {A} (f : W -> A * W) : quiet (devop f).
Proof. intros s. unfold devop. by destruct (f (dev s)). Qed.
Lemma quiet_eprintf x : quiet (eprintf x). Proof. done. Qed.
Lemma quiet_printf x : headline x = false -> quiet (printf x).
Proof. intros Hx s. cbn [printf snd out]. by rewrite headlines_printf, Hx, app_nil_r. Qed.

Lemma quiet_bind {A B} (m : M W A) (f : A -> M W B) : quiet m -> (forall a, quiet (f a)) -> quiet (m ≫= f).
Proof.
  intros Hm Hf s. specialize (Hm s). unfold mbind, M_bind. destruct (m s) as [[a| | | |] s']; cbn [snd] in *; try exact Hm.
  by rewrite Hf.
Qed.

Lemma quiet_for_ n body : forall i, (forall k, quiet (body k)) -> quiet (for_ n i body).
Proof. induction n as [|n IH]; intros i Hb; [done|]. apply quiet_bind; [apply Hb|]. intros _. by apply IH. Qed.

Lemma quiet_for_acc {S R} n (body : Z -> S -> M W (S + R)) : forall i acc,
  (forall k a, quiet (body k a)) -> quiet (for_acc n i acc body).
Proof.
  induction n as [|n IH]; intros i acc Hb; [done|]. apply quiet_bind; [apply Hb|].
  intros [a|r]; [by apply IH|apply quiet_ret].
Qed.

Lemma quiet_while {S R} n (body : S -> M W (S + R)) : forall x, (forall x, quiet (body x)) -> quiet (while_ n x body).
Proof.
  induction n as [|n IH]; intros x Hb; [done|]. apply quiet_bind; [apply Hb|].
  intros [a|r]; [by apply IH|apply quiet_ret].
Qed.

Lemma quiet_when b m : quiet m -> quiet (when b m). Proof. by destruct b. Qed.

(** What a fragment does and what it announces are shown apart. *)
Lemma runs_quiet {A} (m : M W A) s (Q : A -> st W -> Prop) : quiet m -> runs m s Q ->
  runs m s (fun a s' => Q a s' /\ headlines (out s') = headlines (out s)).
Proof. intros Hm (a & s' & E & HQ). exists a, s'. split; [done|]. split; [done|]. specialize (Hm s). by rewrite E in Hm. Qed.
End quiet.

Ltac quiet_steps := repeat (intros; lazymatch goal with
  | |- quiet (mret _) => apply quiet_ret
  | |- quiet (devop _) => apply quiet_devop
  | |- quiet getdev => apply quiet_devop
  | |- quiet (setdev _) => apply quiet_devop
  | |- quiet (eprintf _) => apply quiet_eprintf
  | |- quiet (printf _) => apply quiet_printf; reflexivity
  | |- quiet (when _ _) => apply quiet_when
  | |- quiet (_ ≫= _) => apply quiet_bind
  | |- quiet (for_ _ _ _) => apply quiet_for_
  | |- quiet (for_acc _ _ _ _) => apply quiet_for_acc
  | |- quiet (while_ _ _ _) => apply quiet_while
  | |- quiet (match ?x with _ => _ end) => destruct x
  end); intros.

(** ** The tests announce nothing *)

Section tests_quiet.
Context `{DM : DataModel} {Mem : Type} `{HM : Memory Mem} (shl_over : Z -> Z).
Abbreviation quiet := (quiet (W := mtw Mem)).

Lemma quiet_rand_ul : quiet rand_ul.
Proof. unfold rand_ul, rand32, rand. quiet_steps. Qed.
Lemma quiet_compare a b n : quiet (compare_regions a b n).
Proof. unfold compare_regions, ld. quiet_steps. Qed.
Lemma quiet_fill_both a b n v : quiet (fill_both a b n v).
Proof. unfold fill_both, sto. quiet_steps. Qed.
Lemma quiet_update a b n op : quiet (q ← rand_ul; update_both a b n (op q);; compare_regions a b n).
Proof. unfold update_both, ld, sto. quiet_steps; try apply quiet_rand_ul; apply quiet_compare. Qed.
Lemma quiet_progress k : headline (progress k) = false.
Proof. unfold progress. destruct k as [|[[]|[]|]|]; reflexivity. Qed.
Lemma quiet_spin i j : quiet (spin i j).
Proof. unfold spin. quiet_steps. apply quiet_printf, quiet_progress. Qed.
Lemma quiet_pattern_round a b n lab v : quiet (pattern_round a b n lab v).
Proof. unfold pattern_round. quiet_steps; [apply quiet_fill_both|apply quiet_compare]. Qed.
Lemma quiet_pattern a b n rounds v : quiet (pattern_test a b n rounds v).
Proof. unfold pattern_test. quiet_steps. apply quiet_pattern_round. Qed.
Lemma quiet_seqinc a b n : quiet (test_seqinc_comparison a b n).
Proof. unfold test_seqinc_comparison. quiet_steps; [apply quiet_rand_ul|apply quiet_fill_both|apply quiet_compare]. Qed.
Lemma quiet_bitflip a b n : quiet (test_bitflip_comparison shl_over a b n).
Proof. unfold test_bitflip_comparison. quiet_steps. apply quiet_pattern_round. Qed.
Lemma quiet_random_value a b n : quiet (test_random_value a b n).
Proof.
  unfold test_random_value, sto. quiet_steps; [apply quiet_rand_ul|apply quiet_spin|apply quiet_compare].
Qed.
Lemma quiet_narrow c a b n : quiet (narrow_test c a b n).
Proof.
  unfold narrow_test, narrow_word, sto_bytes, sto.
  quiet_steps; try apply quiet_rand_ul; try apply quiet_spin; apply quiet_compare.
Qed.
Lemma quiet_stuck_address a n : quiet (test_stuck_address a n).
Proof. unfold test_stuck_address, sto, ld. quiet_steps. Qed.

Lemma tests_quiet k name fp a b n : tests shl_over !! k = Some (name, fp) -> quiet (fp a b n).
Proof.
  destruct k as [|[|[|[|[|[|[|[|[|[|[|[|[|[|[|[|[|k]]]]]]]]]]]]]]]]]; intros E; simplify_eq/=;
    [ apply quiet_random_value | apply (quiet_update _ _ _ (fun q v => Z.lxor v q))
    | apply (quiet_update _ _ _ (fun q v => ulong (v - q))) | apply (quiet_update _ _ _ (fun q v => ulong (v * q)))
    | apply (quiet_update _ _ _ (fun q v => v / (if q =? 0 then q + 1 else q)))
    | apply (quiet_update _ _ _ (fun q v => Z.lor v q)) | apply (quiet_update _ _ _ (fun q v => Z.land v q))
    | apply quiet_seqinc | apply quiet_pattern | apply quiet_pattern | apply quiet_pattern | apply quiet_pattern
    | apply quiet_bitflip | apply quiet_pattern | apply quiet_pattern | apply quiet_narrow | apply quiet_narrow ].
Qed.

(** The table has the documented names. *)
Lemma tests_named k name fp : tests shl_over !! k = Some (name, fp) -> test_names !! k = Some name.
Proof.
  assert (test_names = (tests shl_over).*1) as -> by reflexivity. intros E. by rewrite list_lookup_fmap, E.
Qed.
End tests_quiet.

(** ** Recognising headlines *)

Lemma headline_test name : name ∈ "Stuck Address"%string :: test_names -> headline (test_line name) = true.
Proof.
  assert (Forall (fun name => headline (test_line name) = true) ("Stuck Address"%string :: test_names)) as H
    by (repeat constructor).
  intros Hn. by apply (proj1 (list.Forall_forall _ _) H).
Qed.

Lemma headline_loop k : headline (loop_line k) = true.
Proof. unfold headline, loop_line. by destruct (dec k). Qed.
