(* ===== verification/MtMainOk.v ===== *)
(** * memtester: what a whole run reports

    On a working memory a run of any number of rounds with any test mask ends
    with exit code 0; the exit code records exactly which kind of test failed;
    the memory acquisition loop terminates and, unless locking was refused with
    EPERM, the tested bytes lie in the allocated block. *)

From stdpp Require Import base list strings numbers gmap.
From Stdlib Require Import ZArith Lia.
From S2P Require Import Prelude CInt CLib Memory MtTests MtTestsOk MtMain MtShown.

(** ** A run on a working memory *)

Section good_run.
Context `{DM : DataModel} {Mem : Type} `{HG : GoodMemory Mem} (shl_over : Z -> Z).
Implicit Types (s : st (mtw Mem)).

(** The masks [get_testmask] gives: when one of the tests 1 to 6 is selected,
    so is test 0, which makes the buffers equal. *)
Definition mask_ok (testmask : Z) : Prop :=
  0 <= testmask /\ (Z.land testmask 0x7E <> 0 -> Z.testbit testmask 0 = true).

Context (bufa bufb count testmask : Z) (Hd : bufs_disjoint bufa bufb count) (Hmask : mask_ok testmask).

Lemma skip_selected i : 0 <= i ->
  (truth testmask && negb (truth (Z.land (Z.shiftl 1 i) testmask)))%bool = negb (selected testmask i).
Proof.
  intros Hi. rewrite Z.shiftl_1_l, Z.land_comm, land_pow2_testbit by done. unfold selected, truth.
  destruct (testmask =? 0), (Z.testbit testmask i); reflexivity.
Qed.

Lemma arith_needs_first i : 1 <= i <= 6 -> selected testmask i = true -> selected testmask 0 = true.
Proof.
  destruct Hmask as [Hm0 Hm]. unfold selected. intros Hi.
  destruct (testmask =? 0); [done|]. simpl. intros Hbit. apply Hm. intros H0.
  assert (Z.testbit (Z.land testmask 126) i = true) as Hl; [|by rewrite H0, Z.bits_0 in Hl].
  rewrite Z.land_spec, Hbit.
  assert (i = 1 \/ i = 2 \/ i = 3 \/ i = 4 \/ i = 5 \/ i = 6) as Hc by lia.
  repeat destruct Hc as [-> | Hc]; try subst i; reflexivity.
Qed.

(** What entry [i] of the table needs from the buffers. *)
Definition entry_pre (i : Z) (w : mtw Mem) : Prop := 1 <= i <= 6 -> bufs_equal bufa bufb count w.

Lemma passes_weaken (P Q : mtw Mem -> Prop) t :
  passes bufa bufb count P t -> (forall w, Q w -> P w) -> passes bufa bufb count Q t.
Proof. intros Ht HPQ s Hs. by apply Ht, HPQ. Qed.

Lemma passes_seqinc : passes bufa bufb count (fun _ => True) (test_seqinc_comparison bufa bufb count).
Proof.
  intros s _. unfold test_seqinc_comparison. mt_steps. apply runs_rand_ul. intros q s' _ _. mt_steps.
  eapply runs_mono; [by apply runs_fill_both|]. intros ? s2 He. by apply runs_compare_ok.
Qed.

(** Every entry of the table passes on a working memory. *)
Lemma tests_pass k name fp :
  tests shl_over !! k = Some (name, fp) ->
  passes bufa bufb count (entry_pre (Z.of_nat k)) (fp bufa bufb count).
Proof.
  pose proof long_bits_pos. unfold entry_pre.
  assert (forall op, passes bufa bufb count (bufs_equal bufa bufb count)
    (q ← rand_ul; update_both bufa bufb count (op q);; compare_regions bufa bufb count)) as Hup
    by (intros; by apply passes_update).
  assert (forall r v, 0 < r -> passes bufa bufb count (fun _ => True) (pattern_test bufa bufb count r v)) as Hpat
    by (intros; by apply passes_pattern).
  destruct k as [|[|[|[|[|[|[|[|[|[|[|[|[|[|[|[|[|k]]]]]]]]]]]]]]]]]; intros E; simplify_eq/=;
    [ eapply passes_weaken; [by apply passes_random_value|done]
    | eapply passes_weaken; [apply (Hup (fun q v => Z.lxor v q))|]
    | eapply passes_weaken; [apply (Hup (fun q v => ulong (v - q)))|]
    | eapply passes_weaken; [apply (Hup (fun q v => ulong (v * q)))|]
    | eapply passes_weaken; [apply (Hup (fun q v => v / (if q =? 0 then q + 1 else q)))|]
    | eapply passes_weaken; [apply (Hup (fun q v => Z.lor v q))|]
    | eapply passes_weaken; [apply (Hup (fun q v => Z.land v q))|]
    | eapply passes_weaken; [apply passes_seqinc|done]
    | eapply passes_weaken; [by apply (Hpat 64)|done]
    | eapply passes_weaken; [by apply (Hpat 256)|done]
    | eapply passes_weaken; [by apply (Hpat 64)|done]
    | eapply passes_weaken; [apply (Hpat (UL_LEN * 2)); unfold UL_LEN; lia|done]
    | eapply passes_weaken; [by apply passes_bitflip|done]
    | eapply passes_weaken; [apply (Hpat (UL_LEN * 2)); unfold UL_LEN; lia|done]
    | eapply passes_weaken; [apply (Hpat (UL_LEN * 2)); unfold UL_LEN; lia|done]
    | eapply passes_weaken; [apply passes_narrow; [done|by left]|done]
    | eapply passes_weaken; [apply passes_narrow; [done|by right]|done] ];
    intros w Hw; apply Hw; lia.
Qed.

Lemma run_tests_good e n : forall k s,
  (n + k = 17)%nat ->
  ((0 < k)%nat -> selected testmask 0 = true -> bufs_equal bufa bufb count (dev s)) ->
  runs (run_tests (drop k (tests shl_over)) (Z.of_nat k) testmask bufa bufb count e) s (fun r s' => r = e /\
    headlines (out s') = headlines (out s) ++ passed (chosen testmask (Z.of_nat k) (drop k test_names))).
Proof.
  induction n as [|n IH]; intros k s Hk Heq.
  - rewrite !drop_ge by (simpl; lia). apply runs_ret. by rewrite app_nil_r.
  - destruct (lookup_lt_is_Some_2 (tests shl_over) k) as [[name fp] Hl]; [simpl; lia|].
    pose proof (tests_named shl_over k name fp Hl) as Hname.
    rewrite (drop_S _ _ _ Hl), (drop_S _ _ _ Hname). cbn [run_tests chosen]. rewrite skip_selected by lia.
    replace (Z.of_nat k + 1) with (Z.of_nat (S k)) by lia.
    destruct (selected testmask (Z.of_nat k)) eqn:Hsel; cbn [negb].
    + runs_steps. fold (test_line name). eapply runs_mono.
      * apply runs_quiet; [by apply (tests_quiet shl_over k name)|]. apply (tests_pass k name fp Hl).
        intros Hk16. cbn [dev]. apply Heq; [lia|]. eapply arith_needs_first; done.
      * intros r s' [[-> He] Hs']. cbn [out] in Hs'. rewrite headlines_printf, headline_test in Hs'
          by (apply list_elem_of_further; by eapply list_elem_of_lookup_2).
        cbn [truth Z.eqb negb]. runs_steps. fold ok_line.
        eapply runs_mono; [apply IH; [lia|done]|]. intros r2 s2 [-> Hs2]. split; [done|].
        rewrite Hs2. cbn [out]. rewrite headlines_printf, Hs'. change (headline ok_line) with true. cbn [app passed flat_map].
        by rewrite <- !app_assoc.
    + apply IH; [lia|]. intros _ Hs0. destruct k; [change (Z.of_nat 0) with 0 in Hsel; congruence|]. apply Heq; [lia|done].
Qed.
End good_run.

Section whole_run.
Context `{DM : DataModel} {Mem : Type} `{HG : GoodMemory Mem} (shl_over : Z -> Z).
Implicit Types (s : st (mtw Mem)).

Lemma half_disjoint aligned bufsize :
  0 <= bufsize -> bufs_disjoint aligned (aligned + bufsize / 2) (bufsize / 2 / sizeof_ul).
Proof.
  intros Hb. left.
  assert (0 < sizeof_ul) as Hs by apply sizeof_ul_pos.
  pose proof (Z.mul_div_le (bufsize / 2) sizeof_ul Hs). nia.
Qed.

Lemma one_loop_good loop loops testmask aligned bufsize e s :
  0 <= bufsize -> mask_ok testmask ->
  runs (one_loop shl_over loop loops testmask aligned bufsize e) s (fun r s' => r = e /\
    headlines (out s') = headlines (out s) ++ good_round testmask loop).
Proof.
  intros Hb Hm. unfold one_loop. apply runs_bind, runs_printf, runs_bind. fold (loop_line loop). set (s0 := mkst _ _).
  eapply runs_mono; [apply (runs_quiet _ s0 (fun _ _ => True));
    [apply quiet_when, quiet_printf; reflexivity|unfold when; by destruct (truth loops); eexists _, _]|].
  intros [] s1 [_ H1]. runs_steps. fold (test_line "Stuck Address").
  eapply runs_mono; [apply runs_quiet; [apply quiet_stuck_address|apply runs_stuck_address_ok]|].
  intros r s2 [-> H2]. cbn [truth Z.eqb negb]. runs_steps. fold ok_line.
  eapply runs_mono;
    [apply (run_tests_good shl_over _ _ _ _ (half_disjoint aligned bufsize Hb) Hm e 17 0); [done|lia]|].
  intros r s3 [-> H3]. runs_steps. split; [done|].
  cbn [out] in *. rewrite headlines_printf, H3. cbn [out]. rewrite headlines_printf, H2, headlines_printf, headlines_printf.
  rewrite H1. unfold s0. cbn [out]. rewrite headlines_printf, headline_loop, headline_test by apply list_elem_of_here.
  change (headline ok_line) with true. change (headline (":" +:+ nl)) with false. change (headline nl) with false.
  unfold good_round. cbn [passed flat_map app]. rewrite !app_nil_r, <- !app_assoc. done.
Qed.

Lemma test_loop_good loops testmask aligned bufsize n : forall fuel loop s,
  0 <= bufsize -> mask_ok testmask -> 0 < loops < 2 ^ long_bits - 1 ->
  0 < loop -> loops + 1 - loop = Z.of_nat n -> (n < fuel)%nat ->
  runs (while_ fuel (loop, 0) (fun '(loop, exit_code) =>
    if (negb (truth loops) || (loop <=? loops))%bool
    then e ← one_loop shl_over loop loops testmask aligned bufsize exit_code;
         mret (inl (ulong (loop + 1), e))
    else mret (inr exit_code))) s (fun r s' => r = 0 /\
      headlines (out s') = headlines (out s) ++ flat_map (good_round testmask) (seqZ loop (loops + 1 - loop))).
Proof.
  induction n as [|n IH]; intros [|fuel] loop s Hb Hm Hl Hloop Hn Hf; try lia; cbn [while_]; runs_steps.
  - replace (truth loops) with true by (unfold truth; by rewrite (proj2 (Z.eqb_neq _ _)) by lia).
    rewrite (proj2 (Z.leb_gt _ _)) by lia. cbn [negb orb]. runs_steps. split; [done|].
    rewrite Hn. change (seqZ loop (Z.of_nat 0)) with (@nil Z). by rewrite app_nil_r.
  - rewrite (proj2 (Z.leb_le _ _)) by lia. rewrite orb_true_r. runs_steps.
    eapply runs_mono; [by apply one_loop_good|]. intros r s' [-> Hs']. runs_steps.
    rewrite ulong_small by lia. eapply runs_mono; [apply IH; [done..|lia|lia|lia]|]. intros r s2 [-> Hs2].
    split; [done|]. rewrite Hs2, Hs', (seqZ_cons loop (loops + 1 - loop)) by lia. cbn [flat_map].
    replace (Z.pred (loops + 1 - loop)) with (loops + 1 - (loop + 1)) by lia.
    replace (Z.succ loop) with (loop + 1) by lia. by rewrite app_assoc.
Qed.
End whole_run.

(** * memtester: the memory acquisition loop

    For a request of whole pages the [malloc]/[mlock] loop ends; without an
    EPERM answer from [mlock] the bytes that will be tested are page aligned and
    inside the block [malloc] returned. *)

Section alloc.
Context `{DM : DataModel} {Mem : Type} `{HM : Memory Mem} (os : mt_os).
Context (pagebits : Z) (Hpb : 0 < pagebits < long_bits).
Abbreviation pagesize := (2 ^ pagebits).
(** [malloc] gives the null pointer or a block inside the address space. *)
Context (Hmalloc : forall n sz, 0 < sz ->
           os_malloc os n sz = 0 \/ (0 < os_malloc os n sz /\ os_malloc os n sz + sz <= 2 ^ long_bits)).
(** Locking no bytes succeeds. *)
Context (Hmlock0 : forall n a, os_mlock os n a 0 = MlockOk).
Implicit Types (s : st (mtw Mem)).

Lemma pagesize_pos : 0 < pagesize.
Proof. apply Z.pow_pos_nonneg; lia. Qed.

Lemma page_mask x : 0 <= x < 2 ^ long_bits ->
  Z.land x (notu long_bits (pagesize - 1)) = x - x mod pagesize.
Proof.
  intros Hx. pose proof pagesize_pos.
  assert (Z.land x (notu long_bits (pagesize - 1)) = Z.ldiff x (Z.ones pagebits)) as ->.
  { apply Z.bits_inj'. intros i Hi. rewrite Z.land_spec, Z.ldiff_spec, notu_testbit by lia.
    rewrite <- Z.sub_1_r, <- Z.ones_equiv || (rewrite Z.ones_equiv, <- Z.sub_1_r).
    destruct (Z.ltb_spec i long_bits); [done|].
    by rewrite (testbit_high long_bits x) by lia. }
  rewrite Z.ldiff_ones_r by lia. rewrite Z.shiftr_div_pow2, Z.shiftl_mul_pow2 by lia.
  rewrite Z.mod_eq by lia. lia.
Qed.

(** What [malloc_loop] leaves: a whole number of pages, and a null pointer only
    together with no bytes; otherwise the block is what the last call of [malloc]
    gave for that number of bytes. *)
Definition malloc_post (q : Z) (x : Z * Z * nat) : Prop :=
  let '(buf, wb, nm) := x in
  exists q', 0 <= q' <= q /\ wb = q' * pagesize /\
    ((buf = 0 /\ q' = 0) \/
     (0 < buf /\ 0 < q' /\ buf + wb <= 2 ^ long_bits /\ buf = os_malloc os (pred nm) wb)).

Lemma malloc_loop_ends n : forall fuel q nm s,
  q = Z.of_nat n -> q * pagesize < 2 ^ long_bits -> (n + 1 < fuel)%nat ->
  runs (malloc_loop os fuel pagesize 0 (q * pagesize) nm) s (fun x s' => s' = s /\ malloc_post q x).
Proof.
  pose proof pagesize_pos as Hp. unfold malloc_loop.
  induction n as [|n IH]; intros [|fuel] q nm s Hq Hw Hf; try lia; cbn [while_].
  - subst q. cbn. apply runs_bind, runs_ret, runs_ret. split; [done|]. exists 0. split_and!; [lia..|by left].
  - assert (truth (q * pagesize) = true) as -> by (unfold truth; rewrite (proj2 (Z.eqb_neq _ _)); [done|nia]).
    cbn [andb Z.eqb]. apply runs_bind, runs_ret.
    destruct (Hmalloc nm (q * pagesize)) as [E|[E1 E2]]; [nia| |].
    + rewrite E. cbn [Z.eqb]. rewrite ulong_small by nia.
      replace (q * pagesize - pagesize) with ((q - 1) * pagesize) by lia.
      eapply runs_mono; [apply IH; [lia|nia|lia]|]. intros [[b w] m] s' (-> & q' & Hq' & Hrest).
      split; [done|]. exists q'. split; [lia|done].
    + rewrite (proj2 (Z.eqb_neq (os_malloc os nm (q * pagesize)) 0)) by lia.
      destruct fuel as [|fuel]; [lia|]. cbn [while_].
      rewrite (proj2 (Z.eqb_neq (os_malloc os nm (q * pagesize)) 0)) by lia. cbn [andb].
      apply runs_bind, runs_ret, runs_ret. split; [done|]. exists q. split; [lia|]. split; [done|].
      right. split_and!; [lia..|done].
Qed.

(** The block at [al_buf] is what the last call of [malloc] gave for
    [al_wantbytes] bytes, or there is none. *)
Definition from_malloc (a : alloc_st) : Prop :=
  (al_buf a = 0 /\ al_wantbytes a = 0) \/
  (0 < al_buf a /\ 0 < al_wantbytes a /\ al_buf a = os_malloc os (pred (al_nm a)) (al_wantbytes a)).

(** The tested bytes [[aligned, aligned + bufsize)] lie in the block and start
    on a page boundary. *)
Definition in_block (a : alloc_st) : Prop :=
  from_malloc a /\ exists al, al_aligned a = Some al /\ al_buf a <= al /\ 0 <= al_bufsize a /\
    al + al_bufsize a = al_buf a + al_wantbytes a /\ al mod pagesize = 0.

Lemma aligned_ok buf wb :
  0 <= buf -> (buf = 0 -> wb = 0) -> (0 < buf -> pagesize <= wb) -> buf + wb <= 2 ^ long_bits ->
  let aligned := if truth (buf mod pagesize)
                 then ulong (Z.land buf (notu long_bits (pagesize - 1)) + pagesize) else buf in
  let bufsize := if truth (buf mod pagesize) then ulong (wb - (aligned - buf)) else wb in
  buf <= aligned /\ 0 <= bufsize <= wb /\ aligned + bufsize = buf + wb /\ aligned mod pagesize = 0 /\
  (wb = 0 -> bufsize = 0).
Proof.
  intros Hb H0 H1 Hfit. pose proof pagesize_pos as Hp. cbn zeta. unfold truth.
  destruct (Z.eqb_spec (buf mod pagesize) 0) as [E|E]; cbn [negb].
  - assert (0 <= wb) by (destruct (decide (buf = 0)); lia). repeat split; lia || done.
  - assert (0 < buf) by (destruct (decide (buf = 0)) as [->|]; [by rewrite Z.mod_0_l in E by lia|lia]).
    assert (buf < 2 ^ long_bits) by lia. pose proof (Z.mod_pos_bound buf pagesize Hp).
    assert (wb < 2 ^ long_bits) by lia.
    rewrite page_mask by lia. rewrite (ulong_small (_ + _)) by lia.
    rewrite ulong_small by lia.
    repeat split; [lia..| |lia].
    replace (buf - buf mod pagesize + pagesize) with ((buf / pagesize + 1) * pagesize)
      by (rewrite (Z.mod_eq buf) by lia; lia).
    apply Z.mod_mul. lia.
Qed.

(** Round without a lock attempt: it always ends the loop. *)
Lemma round_unlocked fuel q orig a s :
  al_do_mlock a = false -> al_buf a = 0 -> al_wantbytes a = q * pagesize -> 0 <= q ->
  q * pagesize < 2 ^ long_bits -> (Z.to_nat q + 1 < fuel)%nat ->
  runs (alloc_round os fuel pagesize orig a) s (fun r _ => exists a', r = inr a').
Proof.
  intros Hm Hb Hw Hq Hlt Hf. unfold alloc_round. rewrite Hm, Hb, Hw. runs_steps.
  eapply runs_mono; [apply (malloc_loop_ends (Z.to_nat q)); [lia|done|done]|].
  intros [[b w] n] s' [-> _]. runs_steps. eauto.
Qed.

(** Round with a lock attempt: done with the bytes inside the block, or retry
    with fewer pages, or (EPERM) retry unlocked. *)
Lemma round_locked fuel q orig a s :
  al_do_mlock a = true -> al_buf a = 0 -> al_wantbytes a = q * pagesize -> 0 <= q ->
  q * pagesize < 2 ^ long_bits -> (Z.to_nat q + 1 < fuel)%nat ->
  runs (alloc_round os fuel pagesize orig a) s (fun r _ =>
    match r with
    | inr a' => in_block a'
    | inl a' => al_buf a' = 0 /\
        ((al_do_mlock a' = true /\ exists q', 0 <= q' < q /\ al_wantbytes a' = q' * pagesize) \/
         (al_do_mlock a' = false /\ al_wantbytes a' = orig /\ exists n x l, os_mlock os n x l = MlockEPERM))
    end).
Proof.
  intros Hm Hb Hw Hq Hlt Hf. pose proof pagesize_pos as Hp. unfold alloc_round. rewrite Hm, Hb, Hw. runs_steps.
  eapply runs_mono; [apply (malloc_loop_ends (Z.to_nat q)); [lia|done|done]|].
  intros [[b w] n] s' (-> & q' & Hq' & -> & Hcase). runs_steps.
  destruct (aligned_ok b (q' * pagesize)) as (H1 & H2 & H3 & H4 & H5); [lia|nia|nia|nia|].
  set (al := if truth (b mod pagesize) then _ else _) in *.
  set (bsz := if truth (b mod pagesize) then ulong (q' * pagesize - (al - b)) else q' * pagesize) in *.
  assert (0 < q' \/ os_mlock os (al_nl a) al bsz = MlockOk) as Hpos.
  { destruct (decide (q' = 0)) as [Hz|]; [right|left; lia].
    replace bsz with 0 by (symmetry; apply H5; rewrite Hz; lia). apply Hmlock0. }
  assert (forall dm nl, from_malloc (mk_alloc b (Some al) (q' * pagesize) bsz dm n nl)) as Hblk.
  { intros dm nl. unfold from_malloc. cbn. destruct Hcase as [[-> ->]|(? & ? & _ & ?)]; [left; lia|right].
    split; [done|]. split; [nia|done]. }
  clearbody al bsz.
  destruct (os_mlock os (al_nl a) al bsz) eqn:E; runs_steps.
  - split; [done|]. exists al. cbn. repeat split; done || lia.
  - split; [done|]. left. split; [done|]. exists (q' - 1). cbn. destruct Hpos; [|done].
    rewrite ulong_small by nia. lia.
  - split; [done|]. left. split; [done|]. exists (q' - 1). cbn. destruct Hpos; [|done].
    rewrite ulong_small by nia. lia.
  - split; [done|]. right. split_and!; [done|done|]. by eexists _, _, _.
  - split; [done|]. exists al. cbn. repeat split; done || lia.
Qed.

(** The loop ends; without EPERM the tested bytes are inside the block. *)
Lemma alloc_loop_ends Q n : forall fuel fuel' a q s,
  al_do_mlock a = true -> al_buf a = 0 -> al_wantbytes a = q * pagesize ->
  q = Z.of_nat n -> q <= Q -> Q * pagesize < 2 ^ long_bits ->
  (Z.to_nat Q + 1 < fuel)%nat -> (n + 2 <= fuel')%nat ->
  runs (while_ fuel' a (alloc_round os fuel pagesize (Q * pagesize))) s (fun a' _ =>
    in_block a' \/ exists n x l, os_mlock os n x l = MlockEPERM).
Proof.
  pose proof pagesize_pos as Hp.
  induction n as [n IH] using lt_wf_ind.
  intros fuel [|fuel'] a q s Hm Hb Hw Hq HQ Hlt Hf Hf'; [lia|]. cbn [while_]. runs_steps.
  eapply runs_mono; [apply (round_locked fuel q); [done..|lia|nia|lia]|].
  intros [a'|a'] s' Hr; [|by runs_steps; left].
  destruct Hr as [Hb' [(Hm' & q' & Hq' & Hw')|(Hm' & Hw' & He)]].
  - eapply (IH (Z.to_nat q')); [lia|done..|lia|lia|done|lia|lia].
  - destruct fuel' as [|fuel']; [lia|]. cbn [while_]. runs_steps.
    eapply runs_mono; [apply (round_unlocked fuel Q); [done..|lia|done|done]|].
    intros r s2 [a2 ->]. runs_steps. by right.
Qed.
End alloc.
