(* ===== verification/MtFrame.v ===== *)
(** * memtester: every test ends and stays inside its buffers

    On any memory, working or not, each test of the table returns 0 or -1, and
    every property of the memory that single-byte stores inside the two buffers
    keep is kept by the test. *)

From stdpp Require Import base list strings numbers.
From Stdlib Require Import ZArith Lia.
From S2P Require Import Prelude CInt CLib Memory MtTests MtTestsOk MtFaults MtMain MtShown MtMainOk.

Section frame.
Context `{DM : DataModel} {Mem : Type} `{HM : Memory Mem} (shl_over : Z -> Z).
Context (bufa bufb count : Z).

(** The bytes of the two buffers. *)
Definition in_bufs (a : Z) : Prop :=
  bufa <= a < bufa + count * sizeof_ul \/ bufb <= a < bufb + count * sizeof_ul.

Context (Inv : Mem -> Prop) (Hinv : forall m a v, in_bufs a -> Inv m -> Inv (storeb m a v)).
Implicit Types (s : st (mtw Mem)).

Definition keeps (s : st (mtw Mem)) : Prop := Inv (mt_mem (dev s)).

(** The test returns, with 0 or -1, and keeps the property. *)
Definition ends (t : M (mtw Mem) Z) : Prop :=
  forall s, keeps s -> runs t s (fun r s' => (r = 0 \/ r = -1) /\ keeps s').

Lemma store_bytes_keeps l : forall m a,
  (forall i, a <= i < a + Z.of_nat (length l) -> in_bufs i) -> Inv m -> Inv (store_bytes m a l).
Proof.
  induction l as [|b l IH]; intros m a Ha Hm; cbn [store_bytes length] in *; [done|].
  apply IH; [intros; apply Ha; lia|]. apply Hinv; [apply Ha; lia|done].
Qed.

Lemma word_in_bufs p i a :
  p = bufa \/ p = bufb -> 0 <= i < count ->
  p + i * sizeof_ul <= a < p + i * sizeof_ul + sizeof_ul -> in_bufs a.
Proof.
  assert (0 < sizeof_ul) as Hs by apply sizeof_ul_pos.
  unfold in_bufs. intros [-> | ->] Hi Ha; [left|right]; nia.
Qed.

Lemma runs_sto_keeps p i v s :
  p = bufa \/ p = bufb -> 0 <= i < count -> keeps s ->
  runs (sto (p + i * sizeof_ul) v) s (fun _ s' => keeps s').
Proof.
  intros Hp Hi Hk. assert (0 < sizeof_ul) as Hs by apply sizeof_ul_pos.
  apply runs_setdev. apply store_bytes_keeps; [|done].
  intros a Ha. rewrite le_bytes_length in Ha. eapply (word_in_bufs p i); [done..|lia].
Qed.

Lemma runs_compare_keeps s (Q : Z -> st (mtw Mem) -> Prop) :
  (forall r s', r = 0 \/ r = -1 -> dev s' = dev s -> Q r s') ->
  runs (compare_regions bufa bufb count) s Q.
Proof.
  intros HQ. eexists _, _; split; [apply compare_regions_run|]. apply HQ; [|done].
  case_decide; tauto.
Qed.

Lemma fill_both_keeps v s : keeps s -> runs (fill_both bufa bufb count v) s (fun _ s' => keeps s').
Proof.
  intros Hk. eapply runs_mono; [eapply (runs_for_ (fun _ => keeps))|]; [done| |done].
  intros k s' Hk' HI. runs_steps. eapply runs_mono; [apply runs_sto_keeps; [tauto|lia|done]|].
  intros ? s2 H2. apply runs_sto_keeps; [tauto|lia|done].
Qed.

Lemma update_both_keeps op s : keeps s -> runs (update_both bufa bufb count op) s (fun _ s' => keeps s').
Proof.
  intros Hk. eapply runs_mono; [eapply (runs_for_ (fun _ => keeps))|]; [done| |done].
  intros k s' Hk' HI. runs_steps. apply runs_ld. runs_steps.
  eapply runs_mono; [apply runs_sto_keeps; [tauto|lia|done]|].
  intros ? s2 H2. runs_steps. apply runs_ld. apply runs_sto_keeps; [tauto|lia|done].
Qed.

Lemma compare_ends s : keeps s ->
  runs (compare_regions bufa bufb count) s (fun r s' => (r = 0 \/ r = -1) /\ keeps s').
Proof. intros Hk. apply runs_compare_keeps. intros r s' Hr Hs. unfold keeps. by rewrite Hs. Qed.

Lemma update_ends op :
  ends (q ← rand_ul; update_both bufa bufb count (op q);; compare_regions bufa bufb count).
Proof.
  intros s Hk. runs_steps. apply runs_rand_ul. intros q s' _ Hm. runs_steps.
  eapply runs_mono; [apply update_both_keeps; unfold keeps; by rewrite Hm|].
  intros ? s2 H2. by apply compare_ends.
Qed.

Lemma seqinc_ends : ends (test_seqinc_comparison bufa bufb count).
Proof.
  intros s Hk. unfold test_seqinc_comparison. runs_steps. apply runs_rand_ul. intros q s' _ Hm. runs_steps.
  eapply runs_mono; [apply fill_both_keeps; unfold keeps; by rewrite Hm|].
  intros ? s2 H2. by apply compare_ends.
Qed.

Lemma pattern_round_keeps lab v s : keeps s ->
  runs (pattern_round bufa bufb count lab v) s (fun r s' => (r = inl tt \/ r = inr (-1)) /\ keeps s').
Proof.
  intros Hk. unfold pattern_round. runs_steps.
  eapply runs_mono; [by apply fill_both_keeps|]. intros ? s2 H2. runs_steps.
  apply runs_compare_keeps. intros r s3 Hr H3.
  assert (keeps s3) by (unfold keeps; rewrite H3; apply H2).
  destruct Hr as [-> | ->]; cbn; runs_steps; tauto.
Qed.

Lemma pattern_ends rounds v : ends (pattern_test bufa bufb count rounds v).
Proof.
  intros s Hk. unfold pattern_test. runs_steps.
  eapply runs_mono;
    [eapply (runs_for_acc (fun _ _ => keeps) (fun r s' => r = -1 /\ keeps s'))|]; [done| |].
  - intros j u s' Hj HI. eapply runs_mono; [by apply pattern_round_keeps|].
    intros r s2 [[-> | ->] H2]; [done|done].
  - intros [u|r] s' HI; [by runs_steps; eauto|]. runs_steps. destruct HI; eauto.
Qed.

Lemma bitflip_ends : ends (test_bitflip_comparison shl_over bufa bufb count).
Proof.
  intros s Hk. unfold test_bitflip_comparison. runs_steps.
  eapply runs_mono;
    [eapply (runs_for_acc (fun _ _ => keeps) (fun r s' => r = -1 /\ keeps s'))|]; [done| |].
  - intros k u s' Hj HI. runs_steps.
    eapply runs_mono;
      [eapply (runs_for_acc (fun _ _ => keeps) (fun r s' => r = -1 /\ keeps s'))|]; [done| |].
    + intros j q s2 Hj2 H2. runs_steps. eapply runs_mono; [by apply pattern_round_keeps|].
      intros r s3 [[-> | ->] H3]; by runs_steps.
    + intros [u2|r] s2 H2; by runs_steps.
  - intros [u|r] s' HI; [by runs_steps; eauto|]. runs_steps. destruct HI; eauto.
Qed.

(** The loop of the tests that draw a fresh word per index. *)
Lemma random_fill_keeps (store2 : Z -> Z -> M (mtw Mem) unit) (j0 : Z) s :
  (forall i q s', 0 <= i < count -> keeps s' -> runs (store2 i q) s' (fun _ => keeps)) -> keeps s ->
  runs (for_acc (R := Empty_set) (Z.to_nat count) 0 j0 (fun i j =>
          q ← rand_ul; store2 i q;; j' ← spin i j; mret (inl j'))) s (fun _ => keeps).
Proof.
  intros Hst Hk.
  eapply runs_mono; [eapply (runs_for_acc (fun _ _ => keeps) (fun _ _ => False))|]; [done| |by intros [|]].
  intros k a s' Hk' HI. runs_steps. apply runs_rand_ul. intros q s1 _ Hm. runs_steps.
  eapply runs_mono; [apply Hst; [lia|unfold keeps; by rewrite Hm]|]. intros ? s2 H2. runs_steps.
  apply runs_spin. intros j' s3 H3. runs_steps. unfold keeps. rewrite H3. apply H2.
Qed.

Lemma random_value_ends : ends (test_random_value bufa bufb count).
Proof.
  intros s Hk. unfold test_random_value. runs_steps. eapply runs_mono.
  - apply (random_fill_keeps (fun i q => sto (bufb + i * sizeof_ul) q;; sto (bufa + i * sizeof_ul) q)); [|done].
    intros i q s' Hi H'. runs_steps. eapply runs_mono; [apply runs_sto_keeps; [tauto|lia|done]|].
    intros ? s2 H2. apply runs_sto_keeps; [tauto|lia|done].
  - intros ? s2 H2. runs_steps. by apply compare_ends.
Qed.

Lemma narrow_ends chunk : chunk = 1 \/ chunk = 2 -> ends (narrow_test chunk bufa bufb count).
Proof.
  intros Hc s Hk. unfold narrow_test. runs_steps.
  eapply runs_mono;
    [eapply (runs_for_acc (fun _ _ => keeps) (fun r s' => r = -1 /\ keeps s'))|]; [done| |].
  - intros k j s' Hk' HI. runs_steps. eapply runs_mono.
    + apply (random_fill_keeps (fun i q =>
        sto ((if truth (Z.land k 1) then bufb else bufa) + i * sizeof_ul) q;;
        narrow_word ((if truth (Z.land k 1) then bufa else bufb) + i * sizeof_ul) q chunk)); [|done].
      intros i q s2 Hi H2. runs_steps.
      eapply runs_mono; [apply runs_sto_keeps; [destruct (truth _); tauto|lia|done]|]. intros ? s3 H3.
      destruct (runs_sto_keeps (if truth (Z.land k 1) then bufa else bufb) i q s3) as (u & s4 & E & H4);
        [destruct (truth _); tauto|lia|done|].
      exists u, s4. by rewrite narrow_word_sto.
    + intros [j'|[]] s2 H2. runs_steps. apply runs_compare_keeps. intros r s3 Hr H3.
      assert (keeps s3) by (unfold keeps; rewrite H3; apply H2).
      destruct Hr as [-> | ->]; cbn; by runs_steps.
  - intros [u|r] s' HI; [by runs_steps; eauto|]. runs_steps. destruct HI; eauto.
Qed.

Lemma tests_end k name fp : tests shl_over !! k = Some (name, fp) -> ends (fp bufa bufb count).
Proof.
  destruct k as [|[|[|[|[|[|[|[|[|[|[|[|[|[|[|[|[|k]]]]]]]]]]]]]]]]]; intros E; simplify_eq/=;
    [ apply random_value_ends | apply (update_ends (fun q v => Z.lxor v q))
    | apply (update_ends (fun q v => ulong (v - q))) | apply (update_ends (fun q v => ulong (v * q)))
    | apply (update_ends (fun q v => v / (if q =? 0 then q + 1 else q)))
    | apply (update_ends (fun q v => Z.lor v q)) | apply (update_ends (fun q v => Z.land v q))
    | apply seqinc_ends | apply pattern_ends | apply pattern_ends | apply pattern_ends | apply pattern_ends
    | apply bitflip_ends | apply pattern_ends | apply pattern_ends
    | apply narrow_ends; tauto | apply narrow_ends; tauto ].
Qed.
End frame.

(** * memtester: a stuck bit shows in the exit code of the whole run *)

Section detect.
Context `{DM : DataModel} (shl_over : Z -> Z).
Implicit Types (s : st (mtw stuck_mem)).

(** The memory has the fault of [m0]. *)
Definition same_fault (m0 m : stuck_mem) : Prop :=
  sm_addr m = sm_addr m0 /\ sm_bit m = sm_bit m0 /\ sm_val m = sm_val m0.

Lemma same_fault_store m0 m a v : same_fault m0 m -> same_fault m0 (storeb m a v).
Proof. done. Qed.

Context (m0 : stuck_mem).
Abbreviation faulty := (fun s : st (mtw stuck_mem) => same_fault m0 (mt_mem (dev s))).

Lemma stuck_address_ends buf count s : faulty s ->
  runs (test_stuck_address buf count) s (fun r s' => (r = 0 \/ r = -1) /\ faulty s').
Proof.
  intros Hf. unfold test_stuck_address. mt_steps.
  eapply runs_mono; [eapply (runs_for_acc (fun _ _ => faulty) (fun r s' => r = -1 /\ faulty s'))|]; [done| |].
  - intros j u s' Hj HI. mt_steps.
    eapply runs_mono; [eapply (runs_for_ (fun _ => faulty))|]; [done| |].
    + intros i s2 Hi H2. apply runs_setdev. cbn [dev set_mem mt_mem]. unfold same_fault.
      by rewrite stuck_store_word.
    + intros ? s2 H2. mt_steps.
      eapply runs_mono; [eapply (runs_for_acc (fun _ _ => faulty) (fun r s' => r = -1 /\ faulty s'))|]; [done| |].
      * intros i v s3 Hi H3. mt_steps. destruct (_ =? _); mt_steps; done.
      * by intros [?|?].
  - intros [u|r] s' HI; mt_steps; [eauto|]. destruct HI; eauto.
Qed.

Context (bufa bufb count i testmask : Z) (Hd : bufs_disjoint bufa bufb count)
        (Hf : fault_in bufa bufb count m0 i) (Hsel : selected testmask 8 = true).

Lemma solidbits_detects s : faulty s ->
  runs (test_solidbits_comparison bufa bufb count) s (fun r _ => r = -1).
Proof.
  intros Hs. destruct (solidbits_complement i) as [Hr Hc].
  eapply (complement_detects bufa bufb count Hd (mt_mem (dev s)) i 64); [|lia|done|done|done].
  unfold fault_in in *. destruct Hs as (-> & -> & _). done.
Qed.

(** Once set, the failure bit of the exit code stays; the solid-bits entry sets it. *)
Lemma run_tests_detects n : forall k e s,
  (n + k = 17)%nat -> faulty s -> Z.testbit e 2 = true \/ (k <= 8)%nat ->
  runs (run_tests (drop k (tests shl_over)) (Z.of_nat k) testmask bufa bufb count e) s
    (fun r s' => Z.testbit r 2 = true /\ faulty s').
Proof.
  induction n as [|n IH]; intros k e s Hk Hs He.
  - rewrite drop_ge by (simpl; lia). apply runs_ret. destruct He; [done|lia].
  - destruct (lookup_lt_is_Some_2 (tests (Mem := stuck_mem) shl_over) k) as [[name fp] Hl]; [simpl; lia|].
    rewrite (drop_S _ _ _ Hl). cbn [run_tests]. rewrite skip_selected by lia.
    replace (Z.of_nat k + 1) with (Z.of_nat (S k)) by lia.
    destruct (selected testmask (Z.of_nat k)) eqn:Hsk; cbn [negb].
    + runs_steps.
      pose proof (tests_end shl_over bufa bufb count (same_fault m0)
        (fun m a v _ => same_fault_store m0 m a v) k name fp Hl) as Hend.
      destruct (Hend (mkst (Stdout ("  " +:+ pad_right 20 name +:+ ": ") :: out s) (dev s)) Hs)
        as (r & s' & E & Hr & Hs').
      exists r, s'. split; [exact E|].
      assert (k = 8%nat -> r = -1) as H8.
      { intros ->. simpl in Hl. simplify_eq.
        destruct (solidbits_detects (mkst (Stdout ("  " +:+ pad_right 20 "Solid Bits" +:+ ": ") :: out s) (dev s)) Hs)
          as (r' & s'' & E' & ->). rewrite E in E'. congruence. }
      assert (Z.testbit (Z.lor e EXIT_FAIL_OTHERTEST) 2 = true) as Hset
        by (rewrite Z.lor_spec; apply orb_true_r).
      destruct Hr as [-> | ->]; cbn [truth Z.eqb negb]; runs_steps; apply IH; try lia; try done; [|by left].
      destruct He as [He|He]; [by left|]. destruct (decide (k = 8%nat)); [|right; lia]. by specialize (H8 e0).
    + apply IH; [lia|done|]. destruct He as [He|He]; [by left|]. right.
      destruct (decide (k = 8%nat)) as [->|]; [|lia]. change (Z.of_nat 8) with 8 in Hsk. congruence.
Qed.
End detect.

Section whole_run.
Context `{DM : DataModel} (shl_over : Z -> Z) (m0 : stuck_mem) (aligned bufsize i testmask : Z).
Context (Hb : 0 <= bufsize)
        (Hf : fault_in aligned (aligned + bufsize / 2) (bufsize / 2 / sizeof_ul) m0 i)
        (Hsel : selected testmask 8 = true).
Implicit Types (s : st (mtw stuck_mem)).
Abbreviation faulty := (fun s : st (mtw stuck_mem) => same_fault m0 (mt_mem (dev s))).

Lemma one_loop_detects loop loops e s : faulty s ->
  runs (one_loop shl_over loop loops testmask aligned bufsize e) s
    (fun r s' => Z.testbit r 2 = true /\ faulty s').
Proof.
  intros Hs. unfold one_loop. runs_steps. apply runs_when; intros _; runs_steps.
  all: eapply runs_mono; [by apply (stuck_address_ends m0)|]; intros r s' [[-> | ->] Hs'];
    cbn [truth Z.eqb negb]; runs_steps.
  all: eapply runs_mono;
    [apply (run_tests_detects shl_over m0 aligned (aligned + bufsize / 2) (bufsize / 2 / sizeof_ul) i testmask
       (half_disjoint aligned bufsize Hb) Hf Hsel 17 0); [done|exact Hs'|right; lia]|].
  all: intros r s2 [Hr H2]; by runs_steps.
Qed.

Lemma test_loop_detects loops n : forall fuel loop e s,
  0 < loops < 2 ^ long_bits - 1 -> 0 < loop -> loops + 1 - loop = Z.of_nat n -> (n < fuel)%nat ->
  faulty s -> (0 < n)%nat \/ Z.testbit e 2 = true ->
  runs (while_ fuel (loop, e) (fun '(loop, exit_code) =>
    if (negb (truth loops) || (loop <=? loops))%bool
    then e ← one_loop shl_over loop loops testmask aligned bufsize exit_code;
         mret (inl (ulong (loop + 1), e))
    else mret (inr exit_code))) s (fun r _ => Z.testbit r 2 = true).
Proof.
  induction n as [|n IH]; intros [|fuel] loop e s Hl Hloop Hn Hfu Hs He; try lia; cbn [while_]; runs_steps.
  - replace (truth loops) with true by (unfold truth; by rewrite (proj2 (Z.eqb_neq _ _)) by lia).
    rewrite (proj2 (Z.leb_gt _ _)) by lia. cbn [negb orb]. runs_steps. destruct He; [lia|done].
  - rewrite (proj2 (Z.leb_le _ _)) by lia. rewrite orb_true_r. runs_steps.
    eapply runs_mono; [by apply one_loop_detects|]. intros r s' [Hr Hs']. runs_steps.
    rewrite ulong_small by lia. apply IH; [done|lia|lia|lia|done|by right].
Qed.
End whole_run.
