(* ===== verification/MtClaims.v ===== *)
(** * memtester: the properties of the program

    The theorems of this file state what the tests and the whole program
    guarantee; the lemmas behind them are in the [Mt*] files before it. *)

From stdpp Require Import base list strings numbers gmap.
From Stdlib Require Import ZArith Lia.
From S2P Require Import Prelude CInt CLib Memory MtTests MtTestsOk MtFaults MtMain MtShown MtMainOk MtFrame.

(** ** Small configurations for the witnesses *)

Definition demo_rand (n : nat) : Z := (Z.of_nat n * 1103515245 + 12345) mod 2147483648.
Definition demo_ram : st (mtw ram) := mkst [] (mk_mtw (∅ : gmap Z Z) demo_rand 0 false 0).
Definition demo_stuck : stuck_mem := mk_stuck (∅ : gmap Z Z) 0x1005 3 true.
Definition demo_stuck_st : st (mtw stuck_mem) := mkst [] (mk_mtw demo_stuck demo_rand 0 false 0).
(** Address bit 4 of the decoder is ignored. *)
Definition demo_alias : alias_mem := mk_alias (∅ : gmap Z Z) (fun a => a mod 16 + 32 * (a / 32)).
Definition demo_alias_st : st (mtw alias_mem) := mkst [] (mk_mtw demo_alias demo_rand 0 false 0).

Definition demo_os (malloc : nat -> Z -> Z) (mlock : nat -> Z -> Z -> mlock_res) : mt_os := {|
  os_posix_version := 200809; os_page_size := 4096; os_testmask := Some "0x2"%string;
  os_stat := fun _ => None; os_open := fun _ => false; os_mmap := fun _ _ => None;
  os_mlock := mlock; os_malloc := malloc; os_strerror := "error" |}.

Section exits.
Context {W : Type}.

(** The fragment ends the process with code [c], in a state with [Q]. *)
Definition exits {A} (m : M W A) (s : st W) (c : Z) (Q : st W -> Prop) : Prop :=
  exists s', m s = (Exit c, s') /\ Q s'.

Lemma exits_bind {A B} (m : M W A) (f : A -> M W B) s c Q :
  runs m s (fun a s' => exits (f a) s' c Q) -> exits (m ≫= f) s c Q.
Proof.
  intros (a & s' & E & s'' & E' & HQ). exists s''. by erewrite bind_ret_run by exact E.
Qed.

(** A part that announces nothing; [h] is what was announced before, [w] the
    machine. *)
Lemma exits_quiet {A B} (m : M W A) (f : A -> M W B) s c h (P : A -> W -> Prop) Q :
  headlines (out s) = h -> quiet m -> runs m s (fun a s' => P a (dev s')) ->
  (forall a s', P a (dev s') -> headlines (out s') = h -> exits (f a) s' c Q) -> exits (m ≫= f) s c Q.
Proof.
  intros Hh Hq Hm Hf. apply exits_bind. eapply runs_mono; [by apply runs_quiet|].
  intros a s' [HP Hs]. apply Hf; [done|]. by rewrite Hs.
Qed.

Lemma exits_printf {B} x (f : unit -> M W B) s c h w Q : headline x = false -> headlines (out s) = h -> dev s = w ->
  (forall s', headlines (out s') = h -> dev s' = w -> exits (f tt) s' c Q) -> exits (printf x ≫= f) s c Q.
Proof.
  intros Hx <- <- Hf. eapply (exits_quiet _ _ _ _ _ (fun _ w' => w' = dev s)); [done|by apply quiet_printf|by apply runs_printf|].
  intros [] s' Hw Hs. by apply Hf.
Qed.
End exits.

Section masks.
Context `{DM : DataModel} {Mem : Type} `{HM : Memory Mem} (os : mt_os) (me : string).

(** The mask of the environment: 0 when there is none, and test 0 added to it
    when it has one of the tests that compare the old contents of the buffers. *)
Definition env_mask : Z :=
  match os_testmask os with
  | None => 0
  | Some v => let m := sv (strtoul 0 v) in if Z.land m 0x7E =? 0 then m else Z.lor m 1
  end.

Lemma strtoul_nonneg v : 0 <= sv (strtoul 0 v).
Proof.
  unfold strtoul, strtou. pose proof long_bits_pos. pose proof (Z.pow_pos_nonneg 2 long_bits).
  destruct (strto_scan 0 v) as [[[neg x] r]|]; [|done]. destruct (_ <? _); cbn [sv]; [lia|].
  apply wrapu_range. lia.
Qed.

Lemma env_mask_ok : mask_ok env_mask.
Proof.
  unfold mask_ok, env_mask. destruct (os_testmask os) as [v|]; [|by split]. cbv zeta.
  pose proof (strtoul_nonneg v) as Hpos. destruct (Z.eqb_spec (Z.land (sv (strtoul 0 v)) 0x7E) 0) as [E|E]; [done|].
  split; [by apply Z.lor_nonneg|]. intros _. rewrite Z.lor_spec. apply orb_true_r.
Qed.

Lemma lor_bit0 x : Z.testbit x 0 = true -> Z.lor x 1 = x.
Proof.
  intros H. apply Z.bits_inj'. intros i Hi. rewrite Z.lor_spec. destruct (decide (i = 0)) as [->|Hne]; [by rewrite H|].
  change 1 with (2 ^ 0). rewrite Z.pow2_bits_false by lia. apply orb_false_r.
Qed.

Lemma get_testmask_ok (s : st (mtw Mem)) :
  (forall v, os_testmask os = Some v -> serange (strtoul 0 v) = false) ->
  runs (get_testmask os me) s (fun m s' => m = env_mask /\ dev s' = dev s).
Proof.
  intros Hr. unfold get_testmask, env_mask. destruct (os_testmask os) as [v|]; [|by apply runs_ret].
  specialize (Hr v eq_refl). rewrite Hr.
  assert (forall x, truth (Z.land x 1) = Z.testbit x 0) as H1 by (intros; by apply (land_pow2_testbit x 0)).
  rewrite H1. unfold truth. destruct (_ =? 0), (Z.testbit (sv (strtoul 0 v)) 0) eqn:E0;
    cbn [andb negb]; runs_steps; split; try done. symmetry. by apply lor_bit0.
Qed.

Lemma quiet_get_testmask : quiet (W := mtw Mem) (get_testmask os me).
Proof. unfold get_testmask, MtMain.usage, exit. by quiet_steps. Qed.

Lemma quiet_check_posix : quiet (W := mtw Mem) (check_posix_system os).
Proof. unfold check_posix_system. quiet_steps. Qed.

Lemma quiet_pagesize : quiet (W := mtw Mem) (memtester_pagesize os).
Proof. unfold memtester_pagesize, exit. by quiet_steps. Qed.

Lemma pagesize_ok (s : st (mtw Mem)) : os_page_size os <> -1 ->
  runs (memtester_pagesize os) s (fun p s' => p = os_page_size os /\ dev s' = dev s).
Proof. intros Hp. unfold memtester_pagesize. rewrite (proj2 (Z.eqb_neq _ _)) by done. by runs_steps. Qed.

Lemma quiet_alloc_malloc fuel pagesize n : quiet (W := mtw Mem) (alloc_malloc os fuel pagesize n).
Proof. unfold alloc_malloc, alloc_round, malloc_loop. by quiet_steps. Qed.
End masks.

(** ** Working memory *)

(** C1: on a working memory the program runs the requested number of rounds
    and ends with exit code 0: for any environment mask that parses, any request
    of whole pages that fits the address space and any positive number of rounds,
    when [malloc] gives blocks inside the address space and [mlock] never answers
    EPERM. Of the lines that name a round or a test or report success it writes
    exactly these: for every round from the first to the last its number, the
    address test, each test the mask selects in the documented order, every test
    followed by "ok", and at the end "Done.". *)
Theorem memtester_good_memory `{DM : DataModel} {Mem : Type} `{HG : GoodMemory Mem} (shl_over : Z -> Z)
    (os : mt_os) (me memarg looparg : string) (fuel : nat) (pagebits Q loops : Z) (s : st (mtw Mem)) :
  0 < pagebits < long_bits -> os_page_size os = 2 ^ pagebits ->
  (forall v, os_testmask os = Some v -> serange (strtoul 0 v) = false) ->
  (forall n sz, 0 < sz ->
     os_malloc os n sz = 0 \/ (0 < os_malloc os n sz /\ os_malloc os n sz + sz <= 2 ^ long_bits)) ->
  (forall n a, os_mlock os n a 0 = MlockOk) ->
  (forall n a l, os_mlock os n a l <> MlockEPERM) ->
  use_phys (dev s) = false ->
  getopt "p:d:" [memarg; looparg] = ([], [memarg; looparg]) ->
  (forall s', parse_mem (Mem := Mem) me (2 ^ pagebits) memarg s' = (Ret (Q * 2 ^ pagebits), s')) ->
  0 <= Q -> Q * 2 ^ pagebits < 2 ^ long_bits ->
  (forall s', parse_loops (Mem := Mem) me (Some looparg) s' = (Ret loops, s')) ->
  0 < loops < 2 ^ long_bits - 1 ->
  (Z.to_nat Q + 2 < fuel)%nat -> (Z.to_nat loops < fuel)%nat ->
  exits (main shl_over os me fuel [memarg; looparg]) s 0 (fun s' =>
    headlines (out s') = headlines (out s) ++ good_rounds (env_mask os) loops ++ ["Done." +:+ nl]).
Proof.
  intros Hpb Hps Hmask Hmal Hml0 Hnp Hphys Hopt Hmem HQ0 HQ Hloops Hl Hf1 Hf2.
  unfold main. rewrite Hopt. set (h := headlines (out s)). set (w := dev s) in *.
  assert (headlines (out s) = h /\ dev s = w) as [Hh Hw] by done. clearbody h w.
  do 4 (eapply exits_printf; [reflexivity|exact Hh|exact Hw|]; clear dependent s; intros s Hh Hw).
  eapply (exits_quiet _ _ _ _ _ (fun _ w' => w' = w)); [exact Hh|apply quiet_check_posix| |clear dependent s; intros _ s Hw Hh].
  { unfold check_posix_system. apply runs_when; intros _; by runs_steps. }
  eapply (exits_quiet _ _ _ _ _ (fun p w' => p = os_page_size os /\ w' = w)); [exact Hh|apply quiet_pagesize| |].
  { rewrite <- Hw. apply pagesize_ok. rewrite Hps. pose proof (Z.pow_pos_nonneg 2 pagebits). lia. }
  clear dependent s. intros p s [-> Hw] Hh. rewrite Hps.
  eapply exits_printf; [reflexivity|exact Hh|exact Hw|]; clear dependent s; intros s Hh Hw.
  eapply (exits_quiet _ _ _ _ _ (fun m w' => m = env_mask os /\ w' = w));
    [exact Hh|apply quiet_get_testmask|rewrite <- Hw; by apply get_testmask_ok|].
  clear dependent s. intros m s [-> Hw] Hh.
  do 3 (apply exits_bind; cbn [do_options when]; runs_steps).
  apply exits_bind; eexists _, _; split; [apply Hmem|].
  apply exits_bind; eexists _, _; split; [apply Hloops|]. cbn [out dev]. rewrite Hw, Hphys.
  eapply exits_printf; [reflexivity|exact Hh|exact Hw|]; clear dependent s; intros s Hh Hw.
  eapply (exits_quiet _ _ _ _ _ (fun a _ => in_block os pagebits a)); [exact Hh|apply quiet_alloc_malloc| |].
  { eapply runs_mono;
      [eapply (alloc_loop_ends os pagebits Hpb Hmal Hml0 Q (Z.to_nat Q) fuel fuel _ Q); cbn; done || lia|].
    intros a s' [Hin|(n & x & l & He)]; [exact Hin|by apply Hnp in He]. }
  clear dependent s. intros a s (_ & al & -> & _ & Hbs & _) Hh.
  eapply (exits_quiet _ _ _ _ _ (fun _ _ => True)); [exact Hh|apply quiet_when, quiet_eprintf| |].
  { apply runs_when; intros _; by runs_steps. }
  clear dependent s. intros _ s _ Hh. apply exits_bind.
  eapply runs_mono;
    [apply (test_loop_good shl_over loops (env_mask os) al (al_bufsize a) (Z.to_nat loops));
       [done|apply env_mask_ok|done|lia..]|].
  intros r s3 [-> Hs3]. apply exits_bind; runs_steps. eexists. split; [done|]. cbn [out].
  rewrite headlines_printf, Hs3, Hh. replace (loops + 1 - 1) with loops by lia. by rewrite <- app_assoc.
Qed.

Definition demo_malloc (n : nat) (sz : Z) : Z := if sz <=? 2 ^ 30 then 0x10010 else 0.

Lemma memtester_good_memory_witness :
  exits (@main LP64 ram _ (fun _ => 0) (demo_os demo_malloc (fun _ _ _ => MlockOk)) "memtester" 10 ["8K"; "1"]%string)
    demo_ram 0 (fun s' => headlines (out s') = [
      "Loop 1"; "  Stuck Address       : "; "ok" +:+ nl; "  Random Value        : "; "ok" +:+ nl;
      "  Compare XOR         : "; "ok" +:+ nl; "Done." +:+ nl ]%string).
Proof.
  set (lines := ["Loop 1"; _; _; _; _; _; _; _]%string).
  assert (lines = headlines (out demo_ram) ++
    good_rounds (env_mask (DM := LP64) (demo_os demo_malloc (fun _ _ _ => MlockOk))) 1 ++ ["Done." +:+ nl]) as ->
    by (vm_compute; reflexivity).
  apply (@memtester_good_memory LP64 ram _ _ (fun _ => 0) _ "memtester" "8K" "1" 10 12 2 1 demo_ram).
  - by split.
  - reflexivity.
  - intros v E. injection E as <-. vm_compute. reflexivity.
  - intros n sz Hsz. cbn. unfold demo_malloc. destruct (Z.leb_spec sz (2 ^ 30)); [right|by left].
    split; [reflexivity|]. change long_bits with 64. lia.
  - reflexivity.
  - discriminate.
  - reflexivity.
  - vm_compute. reflexivity.
  - intros s'. vm_compute. destruct s'. reflexivity.
  - discriminate.
  - reflexivity.
  - intros s'. vm_compute. destruct s'. reflexivity.
  - by split.
  - vm_compute. lia.
  - vm_compute. lia.
Defined.

(** ** Faulty memory *)

(** C2: a bit of the tested memory that is stuck at 0 or at 1, in a word of
    either half of the buffer, shows as the "other test" failure bit (0x04) in
    the exit code of a run that selects the Solid Bits test. *)
Theorem memtester_detects_stuck_bit `{DM : DataModel} (shl_over : Z -> Z)
    (fuel : nat) (loops testmask aligned bufsize i : Z) (s : st (mtw stuck_mem)) :
  0 <= bufsize ->
  fault_in aligned (aligned + bufsize / 2) (bufsize / 2 / sizeof_ul) (mt_mem (dev s)) i ->
  selected testmask 8 = true ->
  0 < loops < 2 ^ long_bits - 1 -> (Z.to_nat loops < fuel)%nat ->
  runs (test_loop shl_over fuel loops testmask aligned bufsize) s
    (fun exit_code _ => truth (Z.land exit_code EXIT_FAIL_OTHERTEST) = true).
Proof.
  intros Hb Hf Hsel Hl Hfu. unfold test_loop.
  eapply runs_mono;
    [apply (test_loop_detects shl_over (mt_mem (dev s)) aligned bufsize i testmask Hb Hf Hsel loops (Z.to_nat loops));
     done || lia|].
  intros r ? Hr. change EXIT_FAIL_OTHERTEST with (2 ^ 2). by rewrite land_pow2_testbit.
Qed.

Lemma memtester_detects_stuck_bit_witness :
  runs (@test_loop ILP32 stuck_mem _ (fun _ => 0) 3 1 0 0x1000 32) demo_stuck_st
    (fun exit_code _ => truth (Z.land exit_code EXIT_FAIL_OTHERTEST) = true).
Proof.
  apply (@memtester_detects_stuck_bit ILP32 (fun _ => 0) 3 1 0 0x1000 32 1 demo_stuck_st).
  - discriminate.
  - vm_compute. repeat split; try congruence. left. split; congruence.
  - reflexivity.
  - by split.
  - vm_compute. lia.
Defined.

(** C9: an address decoder that sends two different words of the tested buffer
    to one cell (a stuck or shorted address line) makes the stuck-address test
    return -1. *)
Theorem stuck_address_detects_alias `{DM : DataModel} (buf count i1 i2 : Z) (f : Z -> Z)
    (s : st (mtw alias_mem)) :
  0 <= buf -> buf mod 2 = 0 -> buf + count * sizeof_ul <= 2 ^ long_bits ->
  (forall i k, 0 <= i < count -> 0 <= k < sizeof_ul ->
     am_map (mt_mem (dev s)) (buf + i * sizeof_ul + k) = buf + f i * sizeof_ul + k) ->
  0 <= i1 < i2 -> i2 < count -> f i1 = f i2 ->
  runs (test_stuck_address buf count) s (fun r _ => r = -1).
Proof. intros. by eapply (alias_detected buf count); [..|reflexivity]. Qed.

Lemma stuck_address_detects_alias_witness :
  runs (@test_stuck_address ILP32 alias_mem _ 0x1000 8) demo_alias_st (fun r _ => r = -1).
Proof.
  apply (@stuck_address_detects_alias ILP32 0x1000 8 0 4 (fun i => i mod 4) demo_alias_st).
  - discriminate.
  - reflexivity.
  - vm_compute. discriminate.
  - intros i k Hi Hk. change sizeof_ul with 4 in *. cbn.
    replace (4096 + i * 4 + k) with (4096 + (i / 4) * 16 + (i mod 4 * 4 + k)) by (rewrite (Z.mod_eq i) by lia; lia).
    pose proof (Z.mod_pos_bound i 4 ltac:(lia)).
    assert (i / 4 = 0 \/ i / 4 = 1) as [-> | ->]
      by (pose proof (Z.div_pos i 4); pose proof (Z.div_lt_upper_bound i 4 2); lia).
    + rewrite <- (Z.mod_unique (4096 + 0 * 16 + (i mod 4 * 4 + k)) 16 256 (i mod 4 * 4 + k)) by lia.
      rewrite <- (Z.div_unique (4096 + 0 * 16 + (i mod 4 * 4 + k)) 32 128 (i mod 4 * 4 + k)) by lia. lia.
    + rewrite <- (Z.mod_unique (4096 + 1 * 16 + (i mod 4 * 4 + k)) 16 257 (i mod 4 * 4 + k)) by lia.
      rewrite <- (Z.div_unique (4096 + 1 * 16 + (i mod 4 * 4 + k)) 32 128 (16 + i mod 4 * 4 + k)) by lia. lia.
  - lia.
  - lia.
  - reflexivity.
Defined.

(** C37: on any memory, [compare_regions] writes one FAILURE line per differing
    word, in address order and with the two values read, changes nothing, and
    returns -1 when there is a difference and 0 when there is none. *)
Theorem compare_regions_reports `{DM : DataModel} {Mem : Type} `{HM : Memory Mem} (bufa bufb count : Z)
    (s : st (mtw Mem)) :
  let diffs := mismatches (dev s) bufa bufb 0 (Z.to_nat count) in
  let line i := Stderr (fail_word (dev s) i (word_at (dev s) bufa i) (word_at (dev s) bufb i)) in
  compare_regions bufa bufb count s =
    (Ret (if decide (diffs = []) then 0 else -1), mkst (reverse (line <$> diffs) ++ out s) (dev s)) /\
  (diffs = [] <-> bufs_equal bufa bufb count (dev s)).
Proof. split; [apply compare_regions_run | apply mismatches_nil]. Qed.

(** C23: on a working memory every test of the table ends with 0 or -1 and
    leaves every byte outside its two buffers as it was. *)
Theorem tests_confined `{DM : DataModel} {Mem : Type} `{HG : GoodMemory Mem} (shl_over : Z -> Z)
    (bufa bufb count : Z) (k : nat) (name : string) (fp : Z -> Z -> Z -> M (mtw Mem) Z) (s : st (mtw Mem)) :
  tests shl_over !! k = Some (name, fp) ->
  runs (fp bufa bufb count) s (fun r s' =>
    (r = 0 \/ r = -1) /\
    forall a, ~ in_bufs bufa bufb count a -> loadb (mt_mem (dev s')) a = loadb (mt_mem (dev s)) a).
Proof.
  intros Hl.
  apply (tests_end shl_over bufa bufb count
    (fun m => forall a, ~ in_bufs bufa bufb count a -> loadb m a = loadb (mt_mem (dev s)) a)) with (k := k) (name := name).
  - intros m a v Ha Hm b Hb. rewrite loadb_storeb_ne by (intros ->; done). by apply Hm.
  - done.
  - by intros a _.
Qed.

Lemma tests_confined_witness :
  runs (@test_bitspread_comparison ILP32 ram _ (fun _ => 0) 0x1000 0x1010 4) demo_ram (fun r s' =>
    (r = 0 \/ r = -1) /\
    forall a, ~ @in_bufs ILP32 0x1000 0x1010 4 a -> loadb (mt_mem (dev s')) a = loadb (mt_mem (dev demo_ram)) a).
Proof. apply (@tests_confined ILP32 ram _ _ (fun _ => 0) 0x1000 0x1010 4 11 "Bit Spread"). reflexivity. Defined.

(** ** Memory acquisition *)

(** C27: for a request of whole pages, with enough fuel for one attempt per page,
    the [malloc]/[mlock] loop ends, and without an EPERM answer the block it
    holds is the one the last call of [malloc] returned, for as many bytes as
    that call asked for, or there is no memory at all; and the bytes that will be
    tested start on a page boundary, lie inside that block and reach to its
    end. *)
Theorem alloc_inside_block `{DM : DataModel} {Mem : Type} `{HM : Memory Mem} (os : mt_os)
    (pagebits Q : Z) (fuel : nat) (s : st (mtw Mem)) :
  0 < pagebits < long_bits ->
  (forall n sz, 0 < sz ->
     os_malloc os n sz = 0 \/ (0 < os_malloc os n sz /\ os_malloc os n sz + sz <= 2 ^ long_bits)) ->
  (forall n a, os_mlock os n a 0 = MlockOk) ->
  0 <= Q -> Q * 2 ^ pagebits < 2 ^ long_bits -> (Z.to_nat Q + 2 < fuel)%nat ->
  runs (alloc_malloc os fuel (2 ^ pagebits) (Q * 2 ^ pagebits)) s (fun a _ =>
    ((al_buf a = 0 /\ al_wantbytes a = 0) \/
     (0 < al_buf a /\ 0 < al_wantbytes a /\ al_buf a = os_malloc os (pred (al_nm a)) (al_wantbytes a))) /\
    (exists al, al_aligned a = Some al /\ al_buf a <= al /\ 0 <= al_bufsize a /\
       al + al_bufsize a = al_buf a + al_wantbytes a /\ al mod 2 ^ pagebits = 0) \/
    exists n x l, os_mlock os n x l = MlockEPERM).
Proof.
  intros Hpb Hmal Hml0 HQ0 HQ Hf.
  eapply (alloc_loop_ends os pagebits Hpb Hmal Hml0 Q (Z.to_nat Q) fuel fuel _ Q); cbn; done || lia.
Qed.

Lemma alloc_inside_block_witness :
  let os := demo_os demo_malloc (fun n _ l => if l =? 0 then MlockOk else MlockENOMEM) in
  runs (@alloc_malloc LP64 ram os 9 (2 ^ 12) (4 * 2 ^ 12)) demo_ram (fun a _ =>
    (((al_buf a = 0 /\ al_wantbytes a = 0) \/
      (0 < al_buf a /\ 0 < al_wantbytes a /\ al_buf a = os_malloc os (pred (al_nm a)) (al_wantbytes a))) /\
     exists al, al_aligned a = Some al /\ al_buf a <= al /\ 0 <= al_bufsize a /\
       al + al_bufsize a = al_buf a + al_wantbytes a /\ al mod 2 ^ 12 = 0) \/
    exists n x l, os_mlock os n x l = MlockEPERM).
Proof.
  apply (@alloc_inside_block LP64 ram _ _ 12 4 9 demo_ram).
  - by split.
  - intros n sz Hsz. cbn. unfold demo_malloc. destruct (Z.leb_spec sz (2 ^ 30)); [right|by left].
    split; [reflexivity|]. change long_bits with 64. lia.
  - reflexivity.
  - discriminate.
  - reflexivity.
  - vm_compute. lia.
Defined.

(** After an EPERM answer the next block is tested through the pointer
    computed for the block that was freed: the program tests the requested number
    of bytes from the old aligned address, here 4096 bytes of which none belongs
    to the block it holds. *)
Theorem alloc_eperm_stale_pointer {Mem : Type} (s : st (mtw Mem)) :
  let os := demo_os (fun n _ => if Nat.eqb n 0 then 0x10010 else 0x80010) (fun _ _ _ => MlockEPERM) in
  let a := {| al_buf := 0x80010; al_aligned := Some 0x11000; al_wantbytes := 4096; al_bufsize := 4096;
              al_do_mlock := false; al_nm := 2; al_nl := 1 |} in
  (@alloc_malloc LP64 Mem os 10 4096 4096 s).1 = Ret a /\
  forall x, 0x11000 <= x < 0x11000 + al_bufsize a -> ~ (al_buf a <= x < al_buf a + al_wantbytes a).
Proof. split; [destruct s; vm_compute; reflexivity | cbn; lia]. Qed.

(** When [malloc] always fails, a request of whole pages ends with no memory
    at all, and the run over that empty buffer still reports every test as passed:
    exit code 0. *)
Theorem alloc_failure_reports_success `{DM : DataModel} {Mem : Type} `{HG : GoodMemory Mem} (shl_over : Z -> Z)
    (os : mt_os) (pagebits Q loops testmask : Z) (fuel : nat) (s : st (mtw Mem)) :
  0 < pagebits < long_bits -> (forall n sz, os_malloc os n sz = 0) -> (forall n a, os_mlock os n a 0 = MlockOk) ->
  0 <= Q -> Q * 2 ^ pagebits < 2 ^ long_bits -> (Z.to_nat Q + 2 < fuel)%nat ->
  mask_ok testmask -> 0 < loops < 2 ^ long_bits - 1 -> (Z.to_nat loops < fuel)%nat ->
  runs (alloc_malloc os fuel (2 ^ pagebits) (Q * 2 ^ pagebits)) s (fun a s' =>
    al_aligned a = Some 0 /\ al_bufsize a = 0 /\
    runs (test_loop shl_over fuel loops testmask 0 (al_bufsize a)) s' (fun exit_code _ => exit_code = 0)).
Proof.
  intros Hpb Hmal Hml0 HQ0 HQ Hf Hm Hl Hf2. pose proof (Z.pow_pos_nonneg 2 pagebits ltac:(lia) ltac:(lia)).
  unfold alloc_malloc. destruct fuel as [|fuel]; [lia|]. cbn [while_]. apply runs_bind.
  unfold alloc_round at 1. cbn [al_buf al_wantbytes al_nm al_do_mlock al_nl]. apply runs_bind.
  eapply runs_mono; [apply (malloc_loop_ends os pagebits) with (n := Z.to_nat Q); eauto; lia|].
  intros [[b w] n] s' (-> & q' & Hq' & -> & [[-> ->]|(Hb & _ & _ & E)]); [|rewrite Hmal in E; lia].
  rewrite Z.mul_0_l, Z.mod_0_l by lia. cbn [truth Z.eqb negb]. runs_steps.
  rewrite Hml0. runs_steps. cbn [al_aligned al_bufsize]. split_and!; [done..|].
  eapply runs_mono; [apply (test_loop_good shl_over loops testmask 0 0 (Z.to_nat loops)); done || lia|].
  by intros r s2 [Hr _].
Qed.

Lemma alloc_failure_reports_success_witness :
  runs (@alloc_malloc LP64 ram (demo_os (fun _ _ => 0) (fun _ _ _ => MlockOk)) 9 (2 ^ 12) (2 * 2 ^ 12)) demo_ram
    (fun a s' => al_aligned a = Some 0 /\ al_bufsize a = 0 /\
       runs (@test_loop LP64 ram _ (fun _ => 0) 9 1 0 0 (al_bufsize a)) s' (fun exit_code _ => exit_code = 0)).
Proof.
  apply (@alloc_failure_reports_success LP64 ram _ _ (fun _ => 0) _ 12 2 1 0 9 demo_ram).
  - by split.
  - reflexivity.
  - reflexivity.
  - discriminate.
  - reflexivity.
  - vm_compute. lia.
  - by split.
  - by split.
  - vm_compute. lia.
Defined.
