(* ===== verification/RxSpec.v ===== *)
(** * ethtool: the flow specification and the rule-management ioctls

    [struct ethtool_rx_flow_spec] and [struct ethtool_rxnfc] of
    [ethernet_test/ethtool/ethtool-copy.h], the byte-order helpers of
    [internal.h], and the interface to the network driver. A flow specification
    is the 168 bytes of the struct (natural alignment: [ring_cookie] at a
    multiple of 8), because [rxclass.c] writes its fields through a byte pointer
    and an offset. *)

From stdpp Require Import base list strings gmap numbers.
From Stdlib Require Import ZArith Lia.
From S2P Require Import Prelude CInt CLib.

(** ** Byte order (little-endian host) *)

Definition cpu_to_be16 (value : Z) : Z := u16 (Z.lor (Z.shiftr value 8) (Z.shiftl value 8)).
Definition cpu_to_be32 (value : Z) : Z :=
  Z.lor (cpu_to_be16 (Z.shiftr value 16)) (Z.shiftl (cpu_to_be16 (u16 value)) 16).
Definition cpu_to_be64 (value : Z) : Z :=
  Z.lor (cpu_to_be32 (Z.shiftr value 32)) (Z.shiftl (cpu_to_be32 (u32 value)) 32).
Definition htons (x : Z) : Z := cpu_to_be16 (u16 x).
Definition htonl (x : Z) : Z := cpu_to_be32 (u32 x).
Definition htonll (x : Z) : Z := cpu_to_be64 (u64 x).
Definition ntohs (x : Z) : Z := htons x.
Definition ntohl (x : Z) : Z := htonl x.

(** ** Flow types and special values *)

Definition TCP_V4_FLOW : Z := 0x01.
Definition UDP_V4_FLOW : Z := 0x02.
Definition SCTP_V4_FLOW : Z := 0x03.
Definition TCP_V6_FLOW : Z := 0x05.
Definition UDP_V6_FLOW : Z := 0x06.
Definition SCTP_V6_FLOW : Z := 0x07.
Definition AH_V4_FLOW : Z := 0x09.
Definition ESP_V4_FLOW : Z := 0x0a.
Definition AH_V6_FLOW : Z := 0x0b.
Definition ESP_V6_FLOW : Z := 0x0c.
Definition IP_USER_FLOW : Z := 0x0d.
Definition ETHER_FLOW : Z := 0x12.
Definition FLOW_EXT : Z := 0x80000000.
Definition RX_CLS_FLOW_DISC : Z := 0xffffffffffffffff.
Definition RX_CLS_LOC_SPECIAL : Z := 0x80000000.
Definition RX_CLS_LOC_ANY : Z := 0xffffffff.
Definition ETH_RX_NFC_IP4 : Z := 1.
Definition ETHTOOL_GRXCLSRLCNT : Z := 0x2e.
Definition ETHTOOL_GRXCLSRULE : Z := 0x2f.
Definition ETHTOOL_GRXCLSRLALL : Z := 0x30.
Definition ETHTOOL_SRXCLSRLDEL : Z := 0x31.
Definition ETHTOOL_SRXCLSRLINS : Z := 0x32.

(** ** Layout: offset and size of each field *)

Record field := mk_field { f_off : Z; f_len : nat }.

(** Members of [union ethtool_flow_union], relative to its start. *)
Module ip4.
Definition ip4src : field := mk_field 0 4.
Definition ip4dst : field := mk_field 4 4.
Definition psrc : field := mk_field 8 2.       (* tcp_ip4_spec *)
Definition pdst : field := mk_field 10 2.
Definition spi : field := mk_field 8 4.        (* ah_ip4_spec, esp_ip4_spec *)
Definition l4_4_bytes : field := mk_field 8 4. (* usr_ip4_spec *)
Definition tos : field := mk_field 12 1.
Definition ip_ver : field := mk_field 13 1.
Definition proto : field := mk_field 14 1.
End ip4.
Module ether.
Definition h_dest : field := mk_field 0 6.
Definition h_source : field := mk_field 6 6.
Definition h_proto : field := mk_field 12 2.
End ether.
Module flow_ext.
Definition vlan_etype : field := mk_field 0 2.
Definition vlan_tci : field := mk_field 2 2.
Definition data : field := mk_field 4 8.
Definition data0 : field := mk_field 4 4.
Definition data1 : field := mk_field 8 4.
End flow_ext.

(** Members of [struct ethtool_rx_flow_spec]. *)
Definition flow_type : field := mk_field 0 4.
Definition sizeof_flow_union : Z := 60.
Definition h_u (f : field) : field := mk_field (4 + f_off f) (f_len f).
Definition h_ext (f : field) : field := mk_field (64 + f_off f) (f_len f).
Definition m_u (f : field) : field := mk_field (76 + f_off f) (f_len f).
Definition m_ext (f : field) : field := mk_field (136 + f_off f) (f_len f).
Definition ring_cookie : field := mk_field 152 8.
Definition location : field := mk_field 160 4.
Definition sizeof_flow_spec : Z := 168.

(** A flow specification: its bytes. *)
Definition spec : Type := list Z.
Definition zero_spec : spec := replicate (Z.to_nat sizeof_flow_spec) 0.

Definition get_bytes (p : spec) (off : Z) (n : nat) : list Z := take n (drop (Z.to_nat off) p).
(** A store of the bytes [l] at [off]; [None] outside the struct. *)
Definition put_bytes (p : spec) (off : Z) (l : list Z) : option spec :=
  if ((0 <=? off) && (off + Z.of_nat (length l) <=? Z.of_nat (length p)))%bool
  then Some (take (Z.to_nat off) p ++ l ++ drop (Z.to_nat off + length l) p)
  else None.

Definition getf (p : spec) (f : field) : Z := le_val (get_bytes p (f_off f) (f_len f)).
(** Assignment to a field of a complete struct. *)
Definition setf (p : spec) (f : field) (v : Z) : spec :=
  default p (put_bytes p (f_off f) (le_bytes (f_len f) v)).

Definition wf_spec (p : spec) : Prop := length p = Z.to_nat sizeof_flow_spec /\ Forall is_byte p.

(** ** The ioctl interface *)

(** [struct ethtool_rxnfc] (the fields these commands use). *)
Record rxnfc := mk_rxnfc {
  nfc_cmd : Z; nfc_data : Z; nfc_fs : spec; nfc_rule_cnt : Z; nfc_rule_locs : list Z
}.

(** A network device: [send_ioctl] gives the return code, the structure as the
    kernel left it, and the new state of the device. *)
Class RxDevice (D : Type) : Type :=
  send_ioctl : rxnfc -> D -> Z * rxnfc * D.

(** What [ethtool-copy.h] documents of a driver with a rule table. *)
Class RxDriver (D : Type) `{RxDevice D} : Type := {
  rules : D -> gmap Z spec;
  table_size : D -> Z;
  (** the driver chooses locations itself *)
  selects : D -> bool;
  table_size_ok : forall d, 0 < table_size d < 2 ^ 31;
  rules_in_table : forall d l, is_Some (rules d !! l) -> 0 <= l < table_size d;
  ioctl_count : forall q d err r d', nfc_cmd q = ETHTOOL_GRXCLSRLCNT ->
    send_ioctl q d = (err, r, d') ->
    d' = d /\ (0 <= err -> nfc_rule_cnt r = Z.of_nat (size (rules d)) /\
                          truth (Z.land (nfc_data r) RX_CLS_LOC_SPECIAL) = selects d);
  ioctl_all : forall q d err r d', nfc_cmd q = ETHTOOL_GRXCLSRLALL ->
    nfc_rule_cnt q = Z.of_nat (size (rules d)) ->
    send_ioctl q d = (err, r, d') ->
    d' = d /\ (0 <= err -> nfc_data r = table_size d /\
                          nfc_rule_locs r ≡ₚ (map_to_list (rules d)).*1);
  ioctl_get : forall q d err r d', nfc_cmd q = ETHTOOL_GRXCLSRULE ->
    send_ioctl q d = (err, r, d') ->
    d' = d /\ (0 <= err -> rules d !! getf (nfc_fs q) location = Some (nfc_fs r));
  ioctl_insert : forall q d err r d', nfc_cmd q = ETHTOOL_SRXCLSRLINS ->
    0 <= getf (nfc_fs q) location < table_size d ->
    send_ioctl q d = (err, r, d') ->
    table_size d' = table_size d /\ selects d' = selects d /\
    (err < 0 -> rules d' = rules d) /\
    (0 <= err -> nfc_fs r = nfc_fs q /\
                rules d' = <[getf (nfc_fs q) location := nfc_fs q]> (rules d));
  ioctl_delete : forall q d err r d', nfc_cmd q = ETHTOOL_SRXCLSRLDEL ->
    send_ioctl q d = (err, r, d') ->
    table_size d' = table_size d /\ selects d' = selects d /\
    (err < 0 -> rules d' = rules d) /\
    (0 <= err -> is_Some (rules d !! getf (nfc_fs q) location) /\
                rules d' = delete (getf (nfc_fs q) location) (rules d))
}.

(** ** Lemmas on stores and fields *)

Lemma put_bytes_some p off l p' :
  put_bytes p off l = Some p' ->
  0 <= off /\ (Z.to_nat off + length l <= length p)%nat /\
  p' = take (Z.to_nat off) p ++ l ++ drop (Z.to_nat off + length l) p.
Proof.
  unfold put_bytes. destruct (Z.leb_spec 0 off); simpl; [|done].
  destruct (Z.leb_spec (off + Z.of_nat (length l)) (Z.of_nat (length p))); [|done].
  intros [= <-]. split; [done|]. split; [lia | done].
Qed.

Lemma put_bytes_in p off l :
  0 <= off -> off + Z.of_nat (length l) <= Z.of_nat (length p) -> is_Some (put_bytes p off l).
Proof.
  intros H1 H2. unfold put_bytes. destruct (Z.leb_spec 0 off); [|lia].
  destruct (Z.leb_spec (off + Z.of_nat (length l)) (Z.of_nat (length p))); [|lia]. by eexists.
Qed.

Lemma put_bytes_length p off l p' : put_bytes p off l = Some p' -> length p' = length p.
Proof.
  intros (H1 & H2 & ->)%put_bytes_some. rewrite !length_app, length_take, length_drop. lia.
Qed.

Lemma put_bytes_byte p off l p' :
  put_bytes p off l = Some p' -> Forall is_byte p -> Forall is_byte l -> Forall is_byte p'.
Proof.
  intros (H1 & H2 & ->)%put_bytes_some Hp Hl.
  apply Forall_app_2; [by apply Forall_take|]. apply Forall_app_2; [done | by apply Forall_drop].
Qed.

Lemma get_put_same p off l p' : put_bytes p off l = Some p' -> get_bytes p' off (length l) = l.
Proof.
  intros (H1 & H2 & ->)%put_bytes_some. unfold get_bytes.
  rewrite drop_app_length' by (rewrite length_take; lia). by rewrite take_app_length.
Qed.

Lemma lookup_put_bytes_out (p : list Z) off l (p' : list Z) i :
  put_bytes p off l = Some p' ->
  (i < Z.to_nat off \/ Z.to_nat off + length l <= i)%nat -> p' !! i = p !! i.
Proof.
  intros (H1 & H2 & ->)%put_bytes_some [Hi|Hi].
  - rewrite lookup_app_l by (rewrite length_take; lia). by apply lookup_take_lt.
  - rewrite lookup_app_r by (rewrite length_take; lia).
    rewrite lookup_app_r by (rewrite length_take; lia). rewrite lookup_drop, length_take.
    f_equal. lia.
Qed.

Lemma get_put_out (p : list Z) off l (p' : list Z) o n :
  put_bytes p off l = Some p' ->
  (Z.to_nat o + n <= Z.to_nat off \/ Z.to_nat off + length l <= Z.to_nat o)%nat ->
  get_bytes p' o n = get_bytes p o n.
Proof.
  intros Hput Hd. unfold get_bytes. apply list_eq. intros i.
  destruct (decide (i < n)%nat) as [Hi|Hi].
  - rewrite !lookup_take_lt, !lookup_drop by done. eapply lookup_put_bytes_out; [done|lia].
  - by rewrite !lookup_take_ge by lia.
Qed.

Lemma wf_put p off l p' : put_bytes p off l = Some p' -> wf_spec p -> Forall is_byte l -> wf_spec p'.
Proof.
  intros Hput [Hlen Hb] Hl. split; [by rewrite (put_bytes_length _ _ _ _ Hput)|].
  by eapply put_bytes_byte.
Qed.

Lemma wf_zero_spec : wf_spec zero_spec.
Proof. split; [done|]. apply Forall_replicate. by split. Qed.

(** A field lies inside the struct. *)
Definition in_spec (f : field) : Prop := 0 <= f_off f /\ f_off f + Z.of_nat (f_len f) <= sizeof_flow_spec.

Lemma setf_put p f v :
  wf_spec p -> in_spec f -> put_bytes p (f_off f) (le_bytes (f_len f) v) = Some (setf p f v).
Proof.
  intros [Hlen _] [H1 H2]. unfold setf.
  destruct (put_bytes_in p (f_off f) (le_bytes (f_len f) v)) as [p' E]; [done| |by rewrite E].
  rewrite le_bytes_length, Hlen. unfold sizeof_flow_spec in *. lia.
Qed.

Lemma wf_setf p f v : wf_spec p -> in_spec f -> wf_spec (setf p f v).
Proof. intros Hp Hf. eapply wf_put; [by apply setf_put | done | apply le_bytes_is_byte]. Qed.

Lemma getf_setf p f v : wf_spec p -> in_spec f -> getf (setf p f v) f = v mod 256 ^ Z.of_nat (f_len f).
Proof.
  intros Hp Hf. unfold getf. rewrite <- le_val_bytes. f_equal.
  rewrite <- (le_bytes_length (f_len f) v) at 1. eapply get_put_same. by apply setf_put.
Qed.

Lemma getf_setf_ne p f g v :
  wf_spec p -> in_spec f -> in_spec g ->
  f_off g + Z.of_nat (f_len g) <= f_off f \/ f_off f + Z.of_nat (f_len f) <= f_off g ->
  getf (setf p f v) g = getf p g.
Proof.
  intros Hp Hf Hg Hd. unfold getf. f_equal. destruct Hf, Hg.
  eapply get_put_out; [by apply setf_put|]. rewrite le_bytes_length. lia.
Qed.

Lemma in_spec_location : in_spec location.
Proof. by split. Qed.

(** A field value fits its width. *)
Lemma getf_range p f : wf_spec p -> in_spec f -> 0 <= getf p f < 256 ^ Z.of_nat (f_len f).
Proof.
  intros [Hlen Hb] [H1 H2]. unfold getf.
  assert (length (get_bytes p (f_off f) (f_len f)) = f_len f) as Hl.
  { unfold get_bytes. rewrite length_take, length_drop, Hlen. unfold sizeof_flow_spec in *. lia. }
  rewrite <- Hl at 3. apply le_val_range. by apply Forall_take, Forall_drop.
Qed.
