(* ===== verification/RxRules.v ===== *)
(** * ethtool: rule display and rule manager ([ethernet_test/ethtool/rxclass.c], first half)

    The device is any [RxDevice]; [env] holds what the C library contributes:
    the contents of uninitialised stack structures, whether [calloc] succeeds,
    and the text [perror] appends. *)

From stdpp Require Import base list strings gmap numbers.
From Stdlib Require Import ZArith Lia.
From S2P Require Import Prelude CInt CLib RxSpec.

Record rx_env := {
  env_junk : rxnfc;
  env_calloc : Z -> bool;
  env_errno : string
}.

(** ** Bitmaps ([internal.h]); [None] is an access outside the array *)

Section bitmap.
Context `{DM : DataModel}.

Definition BITS_PER_LONG : Z := long_bits.
Definition DIV_ROUND_UP (n d : Z) : Z := ulong (n + d - 1) / d.
Definition BITS_TO_LONGS (nr : Z) : Z := DIV_ROUND_UP nr BITS_PER_LONG.

Definition word_at (addr : list Z) (k : Z) : option Z :=
  if k <? 0 then None else addr !! Z.to_nat k.

Definition set_bit (nr : Z) (addr : list Z) : option (list Z) :=
  w ← word_at addr (nr / BITS_PER_LONG);
  Some (<[Z.to_nat (nr / BITS_PER_LONG) := Z.lor w (Z.shiftl 1 (nr mod BITS_PER_LONG))]> addr).
Definition clear_bit (nr : Z) (addr : list Z) : option (list Z) :=
  w ← word_at addr (nr / BITS_PER_LONG);
  Some (<[Z.to_nat (nr / BITS_PER_LONG) :=
          Z.land w (notu long_bits (Z.shiftl 1 (nr mod BITS_PER_LONG)))]> addr).
Definition test_bit (nr : Z) (addr : list Z) : option bool :=
  w ← word_at addr (nr / BITS_PER_LONG);
  Some (truth (Z.land (Z.shiftl 1 (nr mod BITS_PER_LONG)) w)).
End bitmap.

(** ** The rule manager's state *)

Record rmgr_ctrl := mk_rmgr {
  driver_select : bool;
  slot : list Z;
  n_rules : Z;
  rm_size : Z
}.

Section rules.
Context `{DM : DataModel} {D : Type} `{RD : RxDevice D} (env : rx_env).
Abbreviation P := (M D).

Definition perror (x : string) : P unit := eprintf (x +:+ ": " +:+ env_errno env +:+ nl).
Definition ioctl (q : rxnfc) : P (Z * rxnfc) :=
  devop (fun d => let '(err, r, d') := send_ioctl q d in (err, r, d')).
Definition lift_opt {A} (o : option A) : P A := match o with Some a => mret a | None => crash end.

(** ** Display *)

Definition invert_flow_mask (fsp : spec) : spec :=
  take 76 fsp ++ map (fun b => Z.lxor b 255) (get_bytes fsp 76 (Z.to_nat sizeof_flow_union)) ++ drop 136 fsp.

Definition field_bytes (fsp : spec) (f : field) : list Z := get_bytes fsp (f_off f) (f_len f).

Definition rxclass_print_ipv4_rule (sip sipm dip dipm : list Z) (tos tosm : Z) : P unit :=
  printf (tab +:+ "Src IP addr: " +:+ inet_ntop4 sip +:+ " mask: " +:+ inet_ntop4 sipm +:+ nl +:+
          tab +:+ "Dest IP addr: " +:+ inet_ntop4 dip +:+ " mask: " +:+ inet_ntop4 dipm +:+ nl +:+
          tab +:+ "TOS: 0x" +:+ hex tos +:+ " mask: 0x" +:+ hex tosm +:+ nl).

(** [data] as the code computes it: the second assignment replaces the first. *)
Definition rxclass_print_nfc_spec_ext (fsp : spec) : P unit :=
  if negb (truth (Z.land (getf fsp flow_type) FLOW_EXT)) then mret tt
  else
    let etype := ntohs (getf fsp (h_ext flow_ext.vlan_etype)) in
    let etypem := ntohs (notu 16 (getf fsp (m_ext flow_ext.vlan_etype))) in
    let tci := ntohs (getf fsp (h_ext flow_ext.vlan_tci)) in
    let tcim := ntohs (notu 16 (getf fsp (m_ext flow_ext.vlan_tci))) in
    let data := ntohl (getf fsp (h_ext flow_ext.data1)) in
    let datam := Z.lor (Z.shiftl (ntohl (notu 32 (getf fsp (m_ext flow_ext.data0)))) 32)
                       (ntohl (notu 32 (getf fsp (m_ext flow_ext.data1)))) in
    printf (tab +:+ "VLAN EtherType: 0x" +:+ hex etype +:+ " mask: 0x" +:+ hex etypem +:+ nl +:+
            tab +:+ "VLAN: 0x" +:+ hex tci +:+ " mask: 0x" +:+ hex tcim +:+ nl +:+
            tab +:+ "User-defined: 0x" +:+ hex data +:+ " mask: 0x" +:+ hex datam +:+ nl).

Definition mac_str (l : list Z) : string := String.concat ":" (map (hexU0 2) l).

Definition print_ip4 (fsp : spec) : P unit :=
  rxclass_print_ipv4_rule (field_bytes fsp (h_u ip4.ip4src)) (field_bytes fsp (m_u ip4.ip4src))
    (field_bytes fsp (h_u ip4.ip4dst)) (field_bytes fsp (m_u ip4.ip4dst))
    (getf fsp (h_u ip4.tos)) (getf fsp (m_u ip4.tos)).

(** The [switch] of [rxclass_print_nfc_rule] on an inverted specification. *)
Definition print_nfc_body (ft : Z) (fsp : spec) : P unit :=
  if ((ft =? TCP_V4_FLOW) || (ft =? UDP_V4_FLOW) || (ft =? SCTP_V4_FLOW))%bool then
    (if ft =? TCP_V4_FLOW then printf (tab +:+ "Rule Type: TCP over IPv4" +:+ nl)
     else if ft =? UDP_V4_FLOW then printf (tab +:+ "Rule Type: UDP over IPv4" +:+ nl)
     else printf (tab +:+ "Rule Type: SCTP over IPv4" +:+ nl));;
    print_ip4 fsp;;
    printf (tab +:+ "Src port: " +:+ dec (ntohs (getf fsp (h_u ip4.psrc))) +:+
            " mask: 0x" +:+ hex (ntohs (getf fsp (m_u ip4.psrc))) +:+ nl +:+
            tab +:+ "Dest port: " +:+ dec (ntohs (getf fsp (h_u ip4.pdst))) +:+
            " mask: 0x" +:+ hex (ntohs (getf fsp (m_u ip4.pdst))) +:+ nl)
  else if ((ft =? AH_V4_FLOW) || (ft =? ESP_V4_FLOW))%bool then
    (if ft =? AH_V4_FLOW then printf (tab +:+ "Rule Type: IPSEC AH over IPv4" +:+ nl)
     else printf (tab +:+ "Rule Type: IPSEC ESP over IPv4" +:+ nl));;
    print_ip4 fsp;;
    printf (tab +:+ "SPI: " +:+ dec (s32 (ntohl (getf fsp (h_u ip4.spi)))) +:+
            " mask: 0x" +:+ hex (ntohl (getf fsp (m_u ip4.spi))) +:+ nl)
  else if ft =? IP_USER_FLOW then
    printf (tab +:+ "Rule Type: Raw IPv4" +:+ nl);;
    print_ip4 fsp;;
    printf (tab +:+ "Protocol: " +:+ dec (getf fsp (h_u ip4.proto)) +:+
            " mask: 0x" +:+ hex (getf fsp (m_u ip4.proto)) +:+ nl +:+
            tab +:+ "L4 bytes: 0x" +:+ hex (ntohl (getf fsp (h_u ip4.l4_4_bytes))) +:+
            " mask: 0x" +:+ hex (ntohl (getf fsp (m_u ip4.l4_4_bytes))) +:+ nl)
  else if ft =? ETHER_FLOW then
    printf (tab +:+ "Flow Type: Raw Ethernet" +:+ nl +:+
            tab +:+ "Src MAC addr: " +:+ mac_str (field_bytes fsp (h_u ether.h_source)) +:+
            " mask: " +:+ mac_str (field_bytes fsp (m_u ether.h_source)) +:+ nl +:+
            tab +:+ "Dest MAC addr: " +:+ mac_str (field_bytes fsp (h_u ether.h_dest)) +:+
            " mask: " +:+ mac_str (field_bytes fsp (m_u ether.h_dest)) +:+ nl +:+
            tab +:+ "Ethertype: 0x" +:+ hexU (ntohs (getf fsp (h_u ether.h_proto))) +:+
            " mask: 0x" +:+ hexU (ntohs (getf fsp (m_u ether.h_proto))) +:+ nl)
  else printf (tab +:+ "Unknown Flow type: " +:+ dec (s32 ft) +:+ nl).

Definition rxclass_print_nfc_rule (fsp0 : spec) : P unit :=
  printf ("Filter: " +:+ dec (s32 (getf fsp0 location)) +:+ nl);;
  let ft := Z.land (getf fsp0 flow_type) (notu 32 FLOW_EXT) in
  let fsp := invert_flow_mask fsp0 in
  print_nfc_body ft fsp;;
  rxclass_print_nfc_spec_ext fsp;;
  (if negb (getf fsp ring_cookie =? RX_CLS_FLOW_DISC)
   then printf (tab +:+ "Action: Direct to queue " +:+ dec (getf fsp ring_cookie) +:+ nl)
   else printf (tab +:+ "Action: Drop" +:+ nl));;
  printf nl.

Definition is_nfc_flow (ft : Z) : bool :=
  ((ft =? TCP_V4_FLOW) || (ft =? UDP_V4_FLOW) || (ft =? SCTP_V4_FLOW) ||
   (ft =? AH_V4_FLOW) || (ft =? ESP_V4_FLOW) || (ft =? ETHER_FLOW))%bool.
Definition is_v6_flow (ft : Z) : bool :=
  ((ft =? TCP_V6_FLOW) || (ft =? UDP_V6_FLOW) || (ft =? SCTP_V6_FLOW) ||
   (ft =? AH_V6_FLOW) || (ft =? ESP_V6_FLOW))%bool.

Definition rxclass_print_rule (fsp : spec) : P unit :=
  let ft := Z.land (getf fsp flow_type) (notu 32 FLOW_EXT) in
  if is_nfc_flow ft then rxclass_print_nfc_rule fsp
  else if ((ft =? IP_USER_FLOW) && (getf fsp (h_u ip4.ip_ver) =? ETH_RX_NFC_IP4))%bool
  then rxclass_print_nfc_rule fsp
  else if ((ft =? IP_USER_FLOW) || is_v6_flow ft)%bool
  then eprintf ("IPv6 flows not implemented" +:+ nl)
  else eprintf ("rxclass: Unknown flow type" +:+ nl).

(** ** Queries *)

(** The result and, through the two pointers, [*count] and [*driver_select]. *)
Definition rxclass_get_dev_info : P (Z * Z * bool) :=
  let j := env_junk env in
  x ← ioctl (mk_rxnfc ETHTOOL_GRXCLSRLCNT 0 (nfc_fs j) (nfc_rule_cnt j) []);
  let '(err, nfccmd) := x in
  when (err <? 0) (perror "rxclass: Cannot get RX class rule count");;
  mret (err, nfc_rule_cnt nfccmd, truth (Z.land (nfc_data nfccmd) RX_CLS_LOC_SPECIAL)).

Definition rxclass_rule_get (loc : Z) : P Z :=
  let j := env_junk env in
  x ← ioctl (mk_rxnfc ETHTOOL_GRXCLSRULE (nfc_data j) (setf zero_spec location loc) (nfc_rule_cnt j) []);
  let '(err, nfccmd) := x in
  if err <? 0 then perror "rxclass: Cannot get RX class rule";; mret err
  else rxclass_print_rule (nfc_fs nfccmd);; mret err.

(** [sizeof(struct ethtool_rxnfc)] is 192: 16 + 168 + 4 rounded up to 8. *)
Definition sizeof_rxnfc : Z := 192.
Definition sizeof_locs (count : Z) : Z := ulong (sizeof_rxnfc + ulong (count * 4)).

Definition rxclass_rule_getall : P Z :=
  x ← rxclass_get_dev_info;
  let '(err, count, _) := x in
  if err <? 0 then mret err
  else
    printf ("Total " +:+ dec (s32 count) +:+ " rules" +:+ nl +:+ nl);;
    if negb (env_calloc env (sizeof_locs count)) then
      perror "rxclass: Cannot allocate memory for RX class rule locations";; mret (-12)
    else
      y ← ioctl (mk_rxnfc ETHTOOL_GRXCLSRLALL 0 zero_spec count (replicate (Z.to_nat count) 0));
      let '(err, nfccmd) := y in
      if err <? 0 then perror "rxclass: Cannot get RX class rules";; mret err
      else
        r ← for_acc (Z.to_nat count) 0 err (fun i _ =>
              loc ← lift_opt (nfc_rule_locs nfccmd !! Z.to_nat i);
              err ← rxclass_rule_get loc;
              if err <? 0 then mret (inr err) else mret (inl err));
        match r with inl e => mret e | inr e => mret e end.

(** ** The rule manager *)

Definition rmgr_ins (rmgr : rmgr_ctrl) (loc : Z) : P (Z * rmgr_ctrl) :=
  if rm_size rmgr <=? loc then
    eprintf ("rmgr: Location out of range" +:+ nl);; mret (-1, rmgr)
  else
    s ← lift_opt (set_bit loc (slot rmgr));
    mret (0, mk_rmgr (driver_select rmgr) s (n_rules rmgr) (rm_size rmgr)).

(** [while (loc < size && !~slot[slot_num])] *)
Definition skip_full_words (fuel : nat) (rmgr : rmgr_ctrl) (loc slot_num : Z) : P Z :=
  while_ fuel (loc, slot_num) (fun '(loc, slot_num) =>
    if loc <? rm_size rmgr then
      w ← lift_opt (word_at (slot rmgr) slot_num);
      if notu long_bits w =? 0 then mret (inl (u32 (loc - BITS_PER_LONG), u32 (slot_num - 1)))
      else mret (inr loc)
    else mret (inr loc)).

(** [while (loc < size && test_bit(loc, slot)) loc--;] *)
Definition skip_used_bits (fuel : nat) (rmgr : rmgr_ctrl) (loc : Z) : P Z :=
  while_ fuel loc (fun loc =>
    if loc <? rm_size rmgr then
      b ← lift_opt (test_bit loc (slot rmgr));
      if b : bool then mret (inl (u32 (loc - 1))) else mret (inr loc)
    else mret (inr loc)).

(** Each round of either loop lowers [loc], so [size + 1] rounds are enough. *)
Definition rmgr_find_empty_slot (rmgr : rmgr_ctrl) (fsp : spec) : P (Z * rmgr_ctrl * spec) :=
  if driver_select rmgr then mret (0, rmgr, fsp)
  else
    let size := rm_size rmgr in
    let fuel := S (Z.to_nat size) in
    let loc := u32 (size - 1) in
    let slot_num := loc / BITS_PER_LONG in
    w ← lift_opt (word_at (slot rmgr) slot_num);
    let full := notu long_bits (Z.lor w (shlu long_bits (notu long_bits 1) (size mod BITS_PER_LONG))) =? 0 in
    let loc := if full then u32 (loc - (1 + loc mod BITS_PER_LONG)) else loc in
    let slot_num := if full then u32 (slot_num - 1) else slot_num in
    loc ← skip_full_words fuel rmgr loc slot_num;
    loc ← skip_used_bits fuel rmgr loc;
    if loc <? size then
      x ← rmgr_ins rmgr loc;
      let '(err, rmgr') := x in
      mret (err, rmgr', setf fsp location loc)
    else
      eprintf ("rmgr: Cannot find appropriate slot to insert rule" +:+ nl);;
      mret (-1, rmgr, fsp).

Definition rmgr_init : P (Z * rmgr_ctrl) :=
  x ← rxclass_get_dev_info;
  let '(err, n, sel) := x in
  let rmgr := mk_rmgr sel [] n 0 in
  if err <? 0 then mret (err, rmgr)
  else if sel then mret (0, rmgr)
  else if negb (env_calloc env (sizeof_locs n)) then
    perror "rmgr: Cannot allocate memory for RX class rule locations";; mret (-1, rmgr)
  else
    y ← ioctl (mk_rxnfc ETHTOOL_GRXCLSRLALL 0 zero_spec n (replicate (Z.to_nat n) 0));
    let '(err, nfccmd) := y in
    if err <? 0 then perror "rmgr: Cannot get RX class rules";; mret (err, rmgr)
    else
      let size := u32 (nfc_data nfccmd) in
      let rmgr := mk_rmgr sel [] n size in
      if ((size =? 0) || (size <? n))%bool then
        perror "rmgr: Invalid RX class rules table size";; mret (-1, rmgr)
      else if negb (env_calloc env (ulong (BITS_TO_LONGS size * (long_bits / 8)))) then
        perror "rmgr: Cannot allocate memory for RX class rules";; mret (-1, rmgr)
      else
        let rmgr := mk_rmgr sel (replicate (Z.to_nat (BITS_TO_LONGS size)) 0) n size in
        r ← for_acc (Z.to_nat n) 0 (err, rmgr) (fun i '(_, rmgr) =>
              loc ← lift_opt (nfc_rule_locs nfccmd !! Z.to_nat i);
              x ← rmgr_ins rmgr loc;
              if x.1 <? 0 then mret (inr x) else mret (inl x));
        match r with inl x => mret x | inr x => mret x end.

Definition rmgr_cleanup (rmgr : rmgr_ctrl) : rmgr_ctrl :=
  mk_rmgr (driver_select rmgr) [] (n_rules rmgr) 0.

Definition rmgr_set_location (fsp : spec) : P (Z * spec) :=
  x ← rmgr_init;
  let '(err, rmgr) := x in
  if err <? 0 then
    let rmgr := rmgr_cleanup rmgr in mret (err, fsp)
  else
    y ← rmgr_find_empty_slot rmgr fsp;
    let '(err, rmgr, fsp) := y in
    let rmgr := rmgr_cleanup rmgr in mret (err, fsp).

(** ** Insertion and deletion *)

Definition rxclass_rule_ins (fsp : spec) : P Z :=
  let j := env_junk env in
  let loc := getf fsp location in
  let special := truth (Z.land loc RX_CLS_LOC_SPECIAL) in
  x ← (if special then rmgr_set_location fsp else mret (0, fsp));
  let '(err, fsp) := x in
  if (special && (err <? 0))%bool then mret err
  else
    y ← ioctl (mk_rxnfc ETHTOOL_SRXCLSRLINS (nfc_data j) fsp (nfc_rule_cnt j) []);
    let '(err, nfccmd) := y in
    (if err <? 0 then perror "rmgr: Cannot insert RX class rule"
     else when special (printf ("Added rule with ID " +:+ dec (s32 (getf (nfc_fs nfccmd) location)) +:+ nl)));;
    mret 0.

Definition rxclass_rule_del (loc : Z) : P Z :=
  let j := env_junk env in
  x ← ioctl (mk_rxnfc ETHTOOL_SRXCLSRLDEL (nfc_data j) (setf (nfc_fs j) location loc) (nfc_rule_cnt j) []);
  let '(err, _) := x in
  when (err <? 0) (perror "rmgr: Cannot delete RX class rule");;
  mret err.
End rules.
