(* ===== verification/RxRulesOk.v ===== *)
(** * ethtool: lemmas on the rule manager

    What a bitmap represents ([used]), that the bitmap operations implement it,
    and the search for an empty slot. *)

From stdpp Require Import base list strings gmap numbers.
From Stdlib Require Import ZArith Lia.
From S2P Require Import Prelude CInt CLib RxSpec RxRules.

Section bitmap.
Context `{DM : DataModel}.
Abbreviation B := BITS_PER_LONG.

(** Location [l] is marked. *)
Definition used (addr : list Z) (l : Z) : bool := default false (test_bit l addr).

(** A bitmap for [size] locations: enough words, no mark beyond [size]. *)
Definition wf_bitmap (size : Z) (addr : list Z) : Prop :=
  length addr = Z.to_nat (BITS_TO_LONGS size) /\
  Forall (fun w => 0 <= w < 2 ^ B) addr /\
  forall l, size <= l -> used addr l = false.

Lemma B_pos : 0 < B.
Proof. unfold BITS_PER_LONG. apply long_bits_pos. Qed.

Lemma B_le : B <= 64.
Proof. unfold BITS_PER_LONG. destruct long_bits_cases as [-> | ->]; lia. Qed.

Lemma mod_B l : 0 <= l mod B < B.
Proof. apply Z.mod_pos_bound, B_pos. Qed.

Lemma div_mod_B l : l = B * (l / B) + l mod B.
Proof. apply Z.div_mod. pose proof B_pos. lia. Qed.

Lemma multiple_B n : 0 < n -> n mod B = 0 -> B <= n.
Proof.
  intros Hn Hm. destruct (Z.lt_ge_cases n B); [|done]. rewrite Z.mod_small in Hm; lia.
Qed.

Lemma notw_testbit w i : 0 <= i -> Z.testbit (notu long_bits w) i = ((i <? B) && negb (Z.testbit w i))%bool.
Proof. intros. apply notu_testbit; [|done]. apply Z.lt_le_incl, long_bits_pos. Qed.

Lemma BITS_TO_LONGS_eq size : 0 <= size < 2 ^ 31 -> BITS_TO_LONGS size = (size + B - 1) / B.
Proof.
  intros Hs. unfold BITS_TO_LONGS, DIV_ROUND_UP. pose proof B_pos. pose proof B_le.
  rewrite ulong_small; [done|].
  destruct long_bits_cases as [-> | ->]; simpl in *; lia.
Qed.

(** The word of a location below [size] exists. *)
Lemma word_in size l : 0 <= l < size -> size < 2 ^ 31 -> 0 <= l / B < BITS_TO_LONGS size.
Proof.
  intros Hl Hs. pose proof B_pos. rewrite BITS_TO_LONGS_eq by lia. split.
  - apply Z.div_pos; lia.
  - apply Z.lt_le_trans with (l / B + 1); [lia|].
    replace (l / B + 1) with ((l + 1 * B) / B) by (rewrite Z.div_add by lia; lia).
    apply Z.div_le_mono; lia.
Qed.

Lemma test_bit_word (l : Z) addr w :
  0 <= l -> word_at addr (l / B) = Some w -> test_bit l addr = Some (Z.testbit w (l mod B)).
Proof.
  intros Hl Hw. unfold test_bit. pose proof B_pos. pose proof (mod_B l).
  rewrite Hw. simpl. f_equal. rewrite Z.shiftl_1_l, Z.land_comm. apply land_pow2_testbit. lia.
Qed.

Lemma used_word l addr w :
  0 <= l -> word_at addr (l / B) = Some w -> used addr l = Z.testbit w (l mod B).
Proof. intros Hl Hw. unfold used. by rewrite (test_bit_word l addr w). Qed.

Lemma word_at_lookup addr k : 0 <= k -> word_at addr k = addr !! Z.to_nat k.
Proof. intros. unfold word_at. destruct (Z.ltb_spec k 0); [lia | done]. Qed.

Lemma wf_word size addr l :
  wf_bitmap size addr -> size < 2 ^ 31 -> 0 <= l < size ->
  exists w, word_at addr (l / B) = Some w /\ 0 <= w < 2 ^ B.
Proof.
  intros (Hlen & Hw & _) Hs Hl. pose proof (word_in size l Hl Hs) as Hk.
  destruct (lookup_lt_is_Some_2 addr (Z.to_nat (l / B))) as [w E]; [lia|].
  exists w. split; [by rewrite word_at_lookup by lia|].
  by eapply (Forall_lookup_1 (fun w => 0 <= w < 2 ^ B)).
Qed.

Lemma test_bit_used size addr l :
  wf_bitmap size addr -> size < 2 ^ 31 -> 0 <= l < size -> test_bit l addr = Some (used addr l).
Proof.
  intros Hwf Hs Hl. destruct (wf_word size addr l Hwf Hs Hl) as (w & E & _).
  by rewrite (used_word l addr w), (test_bit_word l addr w) by (done || lia).
Qed.

(** A word of ones has no free location. *)
Lemma full_word_used addr k w l :
  word_at addr k = Some w -> 0 <= w < 2 ^ B -> notu long_bits w = 0 -> 0 <= k -> l / B = k -> 0 <= l ->
  used addr l = true.
Proof.
  intros Hw Hr Hn Hk Hl H0. pose proof B_pos. subst k. rewrite (used_word l addr w) by done.
  pose proof (mod_B l) as Hm.
  pose proof (notw_testbit w (l mod B) (proj1 Hm)) as Hb.
  rewrite Hn, Z.bits_0 in Hb.
  destruct (Z.ltb_spec (l mod B) B); [|lia]. simpl in Hb.
  by destruct (Z.testbit w (l mod B)).
Qed.

Lemma not_full w i : 0 <= i < B -> Z.testbit w i = false -> notu long_bits w <> 0.
Proof.
  intros Hi Hb Hn. pose proof (notw_testbit w i (proj1 Hi)) as H.
  rewrite Hn, Z.bits_0, Hb in H. destruct (Z.ltb_spec i B); [done | lia].
Qed.

Lemma used_insert addr l k w w' :
  0 <= l -> 0 <= k -> word_at addr (l / B) = Some w ->
  used (<[Z.to_nat (l / B) := w']> addr) k =
    if decide (k / B = l / B) then Z.testbit w' (k mod B) else used addr k.
Proof.
  intros Hl Hk Hw. pose proof B_pos.
  assert (0 <= l / B) by (apply Z.div_pos; lia). assert (0 <= k / B) by (apply Z.div_pos; lia).
  assert (Z.to_nat (l / B) < length addr)%nat as Hlen.
  { rewrite word_at_lookup in Hw by lia. by apply lookup_lt_is_Some_1; eexists. }
  case_decide as Hd.
  - apply used_word; [lia|]. rewrite Hd, word_at_lookup by lia. by apply list_lookup_insert_eq.
  - unfold used, test_bit. rewrite !word_at_lookup by lia.
    rewrite list_lookup_insert_ne; [done | lia].
Qed.

Lemma set_bit_spec size addr l :
  wf_bitmap size addr -> size < 2 ^ 31 -> 0 <= l < size ->
  exists addr', set_bit l addr = Some addr' /\ wf_bitmap size addr' /\
    forall k, 0 <= k -> used addr' k = ((k =? l) || used addr k)%bool.
Proof.
  intros Hwf Hs Hl. pose proof B_pos. pose proof (mod_B l) as Hm.
  destruct (wf_word size addr l Hwf Hs Hl) as (w & E & Hr).
  set (w' := Z.lor w (Z.shiftl 1 (l mod B))).
  assert (forall k, 0 <= k ->
    used (<[Z.to_nat (l / B) := w']> addr) k = ((k =? l) || used addr k)%bool) as Hu.
  { intros k Hk. rewrite (used_insert addr l k w w') by (done || lia).
    pose proof (div_mod_B l). pose proof (div_mod_B k).
    pose proof (mod_B k).
    case_decide as Hd.
    - rewrite (used_word k addr w) by (lia || by rewrite Hd).
      unfold w'. rewrite Z.lor_spec, Z.shiftl_1_l, Z.pow2_bits_eqb, orb_comm by lia.
      destruct (Z.eqb_spec k l) as [->|]; [by rewrite Z.eqb_refl|].
      destruct (Z.eqb_spec (l mod B) (k mod B)); [lia | done].
    - destruct (Z.eqb_spec k l) as [->|]; [done | done]. }
  exists (<[Z.to_nat (l / B) := w']> addr). split; [unfold set_bit; by rewrite E|]. split; [|done].
  destruct Hwf as (Hlen & Hw & Hz). split; [by rewrite length_insert|]. split.
  - apply Forall_insert; [done|]. apply lor_range; [lia | done |].
    rewrite Z.shiftl_1_l. split; [apply Z.pow_nonneg; lia | apply Z.pow_lt_mono_r; lia].
  - intros k Hk. rewrite Hu, Hz by lia. destruct (Z.eqb_spec k l); [lia | done].
Qed.

Lemma wf_bitmap_empty size :
  wf_bitmap size (replicate (Z.to_nat (BITS_TO_LONGS size)) 0) /\
  forall l, used (replicate (Z.to_nat (BITS_TO_LONGS size)) 0) l = false.
Proof.
  assert (forall l, used (replicate (Z.to_nat (BITS_TO_LONGS size)) 0) l = false) as Hz.
  { intros l. unfold used, test_bit, word_at. destruct (l / B <? 0); [done|].
    destruct (replicate _ 0 !! _) as [w|] eqn:E; [|done].
    apply lookup_replicate in E as [-> _]. cbn [mbind option_bind default]. by rewrite Z.land_0_r. }
  split; [|done]. split; [by rewrite length_replicate|]. split; [|by intros].
  apply Forall_replicate. pose proof B_pos. split; [lia | apply Z.pow_pos_nonneg; lia].
Qed.
End bitmap.

(** ** The search *)

Section search.
Context `{DM : DataModel} {D : Type} `{RD : RxDevice D}.
Abbreviation B := BITS_PER_LONG.
Implicit Types (s : st D) (rmgr : rmgr_ctrl).

(** [r] is the highest free location up to [bound], or the wrapped [-1]. *)
Definition highest_free (addr : list Z) (bound r : Z) : Prop :=
  (0 <= r <= bound /\ used addr r = false /\ forall k, r < k <= bound -> used addr k = true) \/
  (r = 2 ^ 32 - 1 /\ forall k, 0 <= k <= bound -> used addr k = true).

Definition wf_rmgr rmgr : Prop := 0 < rm_size rmgr < 2 ^ 31 /\ wf_bitmap (rm_size rmgr) (slot rmgr).

Lemma u32_bound b : -1 <= b < 2 ^ 31 -> u32 b = if b =? -1 then 2 ^ 32 - 1 else b.
Proof.
  intros. destruct (Z.eqb_spec b (-1)) as [->|]; [done|]. apply wrapu_small. lia.
Qed.

Lemma lift_opt_some {A} (o : option A) a s (Q : A -> st D -> Prop) :
  o = Some a -> Q a s -> runs (lift_opt o) s Q.
Proof. intros -> HQ. by apply runs_ret. Qed.

Lemma skip_used_bits_spec rmgr : wf_rmgr rmgr -> forall fuel b s,
  -1 <= b < rm_size rmgr -> b + 1 < Z.of_nat fuel ->
  runs (skip_used_bits fuel rmgr (u32 b)) s (fun r s' => s' = s /\ highest_free (slot rmgr) b r).
Proof.
  intros [Hsz Hwf]. induction fuel as [|f IH]; intros b s Hb Hf; [lia|].
  apply runs_while. rewrite u32_bound by lia. destruct (Z.eqb_spec b (-1)) as [->|Hne].
  - destruct (Z.ltb_spec (2 ^ 32 - 1) (rm_size rmgr)); [lia|]. apply runs_ret.
    split; [done|]. right. split; [done | intros; lia].
  - destruct (Z.ltb_spec b (rm_size rmgr)); [|lia]. apply runs_bind.
    eapply lift_opt_some; [apply (test_bit_used (rm_size rmgr)); [done|lia|lia]|].
    destruct (used (slot rmgr) b) eqn:E; apply runs_ret.
    + eapply runs_mono; [apply (IH (b - 1)); lia|]. intros r s' [-> Hr]. split; [done|].
      destruct Hr as [(Hr & Hu & Hall)|[-> Hall]]; [left|right].
      * split; [lia|]. split; [done|]. intros k Hk. destruct (decide (k = b)) as [->|]; [done|].
        apply Hall. lia.
      * split; [done|]. intros k Hk. destruct (decide (k = b)) as [->|]; [done|]. apply Hall. lia.
    + split; [done|]. left. split; [lia|]. split; [done | intros; lia].
Qed.

(** The word loop stops at some [b'] below which nothing was looked at, having
    passed used locations only. It starts at the last location of a word,
    unless the word of [b] has a free location. *)
Lemma skip_full_words_spec rmgr : wf_rmgr rmgr -> forall fuel b s,
  -1 <= b < rm_size rmgr -> b + 1 < Z.of_nat fuel ->
  (b mod B = B - 1 \/ exists w, word_at (slot rmgr) (b / B) = Some w /\ notu long_bits w <> 0) ->
  runs (skip_full_words fuel rmgr (u32 b) (u32 (b / B))) s
    (fun r s' => s' = s /\ exists b', r = u32 b' /\ -1 <= b' <= b /\
                 forall k, b' < k <= b -> used (slot rmgr) k = true).
Proof.
  intros [Hsz Hwf]. pose proof B_pos.
  induction fuel as [|f IH]; intros b s Hb Hf Ha; [lia|].
  apply runs_while. pose proof (u32_bound b ltac:(lia)) as Eb.
  destruct (Z.eqb_spec b (-1)) as [->|Hne].
  - rewrite Eb. destruct (Z.ltb_spec (2 ^ 32 - 1) (rm_size rmgr)); [lia|]. apply runs_ret.
    split; [done|]. exists (-1). split; [done|]. split; [lia | intros; lia].
  - rewrite Eb. destruct (Z.ltb_spec b (rm_size rmgr)); [|lia].
    destruct (wf_word (rm_size rmgr) (slot rmgr) b Hwf ltac:(lia) ltac:(lia)) as (w & Ew & Hw).
    assert (0 <= b / B <= b) as Hq
      by (split; [apply Z.div_pos; lia | apply Z.div_le_upper_bound; nia]).
    rewrite (wrapu_small 32 (b / B)) by lia. apply runs_bind.
    eapply lift_opt_some; [exact Ew|]. destruct (Z.eqb_spec (notu long_bits w) 0) as [Hn|Hn]; apply runs_ret.
    + destruct Ha as [Ha|(w' & Ew' & Hn')]; [|congruence].
      pose proof (div_mod_B b) as Hdm.
      assert ((b - B) mod B = B - 1 /\ (b - B) / B = b / B - 1) as [Hm1 Hd1].
      { replace (b - B) with (b + (-1) * B) by lia. rewrite Z.mod_add, Z.div_add by lia. lia. }
      rewrite <- Hd1. eapply runs_mono; [apply (IH (b - B)); [nia|lia|by left]|].
      intros r s' [-> (b' & -> & Hb' & Hall)]. split; [done|]. exists b'.
      split; [done|]. split; [lia|]. intros k Hk.
      destruct (decide (k <= b - B)); [apply Hall; lia|].
      apply (full_word_used _ (b / B) w); try done; try lia.
      symmetry. apply Z.div_unique with (k - B * (b / B)); nia.
    + split; [done|]. exists b. split; [by rewrite Eb; destruct (Z.eqb_spec b (-1))|]. split; [lia | intros; lia].
Qed.

(** The number of locations the search looks at: when the size is a multiple of
    the word size and the first location of the last word is used, the last word
    is passed over. *)
Definition search_limit rmgr : Z :=
  if ((rm_size rmgr mod B =? 0) && used (slot rmgr) (rm_size rmgr - B))%bool
  then rm_size rmgr - B else rm_size rmgr.

Lemma last_word_full rmgr w : wf_rmgr rmgr ->
  word_at (slot rmgr) ((rm_size rmgr - 1) / B) = Some w -> 0 <= w < 2 ^ B ->
  (notu long_bits (Z.lor w (shlu long_bits (notu long_bits 1) (rm_size rmgr mod B))) =? 0) =
    ((rm_size rmgr mod B =? 0) && used (slot rmgr) (rm_size rmgr - B))%bool.
Proof.
  intros [Hsz Hwf] Hw Hr. pose proof B_pos. set (n := rm_size rmgr) in *.
  pose proof (mod_B n) as Hm. pose proof (div_mod_B n) as Hdm.
  assert (forall i, 0 <= i < B -> Z.testbit (shlu long_bits (notu long_bits 1) (n mod B)) i =
            ((n mod B <? i))%bool) as Hmask.
  { intros i Hi. unfold shlu. unfold BITS_PER_LONG in *. rewrite wrapu_testbit, Z.shiftl_spec by lia.
    destruct (Z.ltb_spec i long_bits); [|lia]. simpl.
    destruct (Z.ltb_spec (n mod long_bits) i).
    - rewrite notu_testbit by lia. destruct (Z.ltb_spec (i - n mod long_bits) long_bits); [|lia].
      simpl. change 1 with (2 ^ 0). rewrite Z.pow2_bits_false; [done | lia].
    - destruct (decide (i = n mod long_bits)) as [->|].
      + rewrite Z.sub_diag, notu_testbit by lia. by destruct (0 <? long_bits).
      + rewrite Z.testbit_neg_r; [done | lia]. }
  destruct (Z.eqb_spec (n mod B) 0) as [H0|H0]; cbn [andb].
  - assert ((n - B) / B = (n - 1) / B /\ (n - B) mod B = 0) as [Hd1 Hm1].
    { replace (n - B) with (n + (-1) * B) by lia. rewrite Z.mod_add, Z.div_add by lia.
      split; [|done]. apply Z.div_unique with (B - 1); nia. }
    pose proof (multiple_B n ltac:(lia) H0).
    assert (0 <= n - B) by lia.
    rewrite (used_word (n - B) _ w), Hm1 by (lia || by rewrite Hd1).
    destruct (Z.testbit w 0) eqn:Ew0.
    + apply Z.eqb_eq, Z.bits_inj'. intros i Hi. rewrite notw_testbit, Z.bits_0 by lia.
      destruct (Z.ltb_spec i B); [|done]. simpl. rewrite Z.lor_spec, Hmask, H0 by lia.
      destruct (Z.ltb_spec 0 i); [by rewrite orb_true_r|]. replace i with 0 by lia. by rewrite Ew0.
    + apply Z.eqb_neq, (not_full _ 0); [lia|]. rewrite Z.lor_spec, Hmask, H0, Ew0 by lia. done.
  - apply Z.eqb_neq, (not_full _ (n mod B)); [lia|].
    rewrite Z.lor_spec, Hmask, Z.ltb_irrefl, orb_false_r by lia.
    rewrite <- (used_word n (slot rmgr) w); [apply Hwf; lia | lia |].
    rewrite <- Hw. f_equal. apply Z.div_unique with (n mod B - 1); lia.
Qed.

Lemma search_limit_bounds rmgr : wf_rmgr rmgr -> 0 <= search_limit rmgr <= rm_size rmgr.
Proof.
  intros [Hsz _]. unfold search_limit. pose proof B_pos.
  destruct (Z.eqb_spec (rm_size rmgr mod B) 0) as [H0|]; cbn [andb]; [|lia].
  destruct (used _ _); [|lia].
  pose proof (multiple_B (rm_size rmgr) ltac:(lia) H0). lia.
Qed.

(** The two loops of the search. *)
Lemma search_loops rmgr s : wf_rmgr rmgr ->
  let l := search_limit rmgr - 1 in
  let fuel := S (Z.to_nat (rm_size rmgr)) in
  (l mod B = B - 1 \/ exists w, word_at (slot rmgr) (l / B) = Some w /\ notu long_bits w <> 0) ->
  runs (skip_full_words fuel rmgr (u32 l) (u32 (l / B))) s (fun loc s' =>
    runs (skip_used_bits fuel rmgr loc) s' (fun r s'' => s'' = s /\ highest_free (slot rmgr) l r)).
Proof.
  intros Hwf l fuel Ha. pose proof (search_limit_bounds rmgr Hwf) as Hl.
  eapply runs_mono; [apply (skip_full_words_spec rmgr Hwf); [lia|lia|done]|].
  intros r s' [-> (b' & -> & Hb' & Hall)].
  eapply runs_mono; [apply (skip_used_bits_spec rmgr Hwf); lia|].
  intros r s' [-> Hr]. split; [done|].
  destruct Hr as [(Hr & Hu & Hall')|[-> Hall']]; [left|right].
  - split; [lia|]. split; [done|]. intros k Hk. destruct (decide (k <= b')); [apply Hall'; lia | apply Hall; lia].
  - split; [done|]. intros k Hk. destruct (decide (k <= b')); [apply Hall'; lia | apply Hall; lia].
Qed.

(** Where the search starts. *)
Lemma search_start rmgr w : wf_rmgr rmgr ->
  word_at (slot rmgr) ((rm_size rmgr - 1) / B) = Some w -> 0 <= w < 2 ^ B ->
  let full := ((rm_size rmgr mod B =? 0) && used (slot rmgr) (rm_size rmgr - B))%bool in
  let loc := u32 (rm_size rmgr - 1) in
  let l := search_limit rmgr - 1 in
  (if full then u32 (loc - (1 + loc mod B)) else loc) = u32 l /\
  (if full then u32 (loc / B - 1) else loc / B) = u32 (l / B) /\
  (l mod B = B - 1 \/ exists w, word_at (slot rmgr) (l / B) = Some w /\ notu long_bits w <> 0).
Proof.
  intros Hwf Hw Hr full loc l. pose proof (proj1 Hwf) as Hsz. pose proof B_pos.
  assert (loc = rm_size rmgr - 1) as El by (apply wrapu_small; lia).
  assert (0 <= (rm_size rmgr - 1) / B < 2 ^ 31) as Hq.
  { split; [apply Z.div_pos; lia | apply Z.div_lt_upper_bound; nia]. }
  pose proof (last_word_full rmgr w Hwf Hw Hr) as Hf.
  destruct (Z.eqb_spec (rm_size rmgr mod B) 0) as [H0|H0].
  - pose proof (multiple_B (rm_size rmgr) ltac:(lia) H0) as Hge.
    pose proof (div_mod_B (rm_size rmgr)) as Hdm.
    assert ((rm_size rmgr - 1) / B = rm_size rmgr / B - 1) as Hd
      by (symmetry; apply Z.div_unique with (B - 1); nia).
    assert ((rm_size rmgr - 1) mod B = B - 1) as Hm
      by (symmetry; apply Z.mod_unique with (rm_size rmgr / B - 1); nia).
    subst full l. unfold search_limit. rewrite H0, Z.eqb_refl. cbn [andb].
    destruct (used (slot rmgr) (rm_size rmgr - B)).
    + assert ((rm_size rmgr - B - 1) / B = rm_size rmgr / B - 2 /\ (rm_size rmgr - B - 1) mod B = B - 1) as [Hd' Hm'].
      { replace (rm_size rmgr - B - 1) with (rm_size rmgr - 1 + (-1) * B) by lia.
        rewrite Z.div_add, Z.mod_add by lia. lia. }
      rewrite El, Hm, Hd, Hd', Hm'. split; [f_equal; lia|]. split; [f_equal; lia | by left].
    + rewrite El, Hm. split; [symmetry; apply wrapu_small; lia|].
      split; [symmetry; apply wrapu_small; lia | by left].
  - subst full l. unfold search_limit. destruct (Z.eqb_spec (rm_size rmgr mod B) 0) as [|_]; [done|].
    cbn [andb] in *. rewrite El. split; [symmetry; apply wrapu_small; lia|].
    split; [symmetry; apply wrapu_small; lia|]. right. exists w. split; [done|].
    apply (not_full w (rm_size rmgr mod B)); [apply mod_B|].
    rewrite <- (used_word (rm_size rmgr) (slot rmgr) w); [apply Hwf; lia | lia |].
    rewrite <- Hw. f_equal. pose proof (mod_B (rm_size rmgr)). pose proof (div_mod_B (rm_size rmgr)).
    apply Z.div_unique with (rm_size rmgr mod B - 1); lia.
Qed.

Lemma rmgr_ins_spec rmgr loc s : wf_rmgr rmgr -> 0 <= loc < rm_size rmgr ->
  runs (rmgr_ins rmgr loc) s (fun x s' => s' = s /\ x.1 = 0 /\ wf_rmgr x.2 /\
    rm_size x.2 = rm_size rmgr /\ driver_select x.2 = driver_select rmgr /\ n_rules x.2 = n_rules rmgr /\
    forall k, 0 <= k -> used (slot x.2) k = ((k =? loc) || used (slot rmgr) k)%bool).
Proof.
  intros [Hsz Hwf] Hloc. unfold rmgr_ins. destruct (Z.leb_spec (rm_size rmgr) loc); [lia|].
  destruct (set_bit_spec (rm_size rmgr) (slot rmgr) loc Hwf ltac:(lia) Hloc) as (a' & E & Hwf' & Hu).
  apply runs_bind. eapply lift_opt_some; [exact E|]. apply runs_ret.
  do 3 (split; [done|]). auto.
Qed.

(** What the search returns. *)
Definition slot_found rmgr (fsp : spec) (x : Z * rmgr_ctrl * spec) : Prop :=
  exists loc, 0 <= loc < search_limit rmgr /\ used (slot rmgr) loc = false /\
    (forall k, loc < k < search_limit rmgr -> used (slot rmgr) k = true) /\
    x.1.1 = 0 /\ x.2 = setf fsp location loc /\ wf_rmgr x.1.2 /\
    forall k, 0 <= k -> used (slot x.1.2) k = ((k =? loc) || used (slot rmgr) k)%bool.
Definition slot_not_found rmgr (fsp : spec) (x : Z * rmgr_ctrl * spec) : Prop :=
  (forall k, 0 <= k < search_limit rmgr -> used (slot rmgr) k = true) /\ x = (-1, rmgr, fsp).

Lemma find_empty_slot_spec rmgr fsp s : wf_rmgr rmgr -> driver_select rmgr = false ->
  runs (rmgr_find_empty_slot rmgr fsp) s (fun x s' =>
    (s' = s /\ slot_found rmgr fsp x) \/ (dev s' = dev s /\ slot_not_found rmgr fsp x)).
Proof.
  intros Hwf Hsel. pose proof (proj1 Hwf) as Hsz. unfold rmgr_find_empty_slot. rewrite Hsel.
  pose proof (search_limit_bounds rmgr Hwf) as Hlim.
  assert (u32 (rm_size rmgr - 1) = rm_size rmgr - 1) as El by (apply wrapu_small; lia).
  destruct (wf_word _ (slot rmgr) (rm_size rmgr - 1) (proj2 Hwf) ltac:(lia) ltac:(lia)) as (w & Ew & Hr).
  cbv zeta. apply runs_bind. eapply lift_opt_some; [rewrite El; exact Ew|]. cbv beta.
  rewrite (last_word_full rmgr w Hwf Ew Hr).
  destruct (search_start rmgr w Hwf Ew Hr) as (-> & -> & Ha).
  apply runs_bind. eapply runs_mono; [by apply search_loops|].
  intros loc s' H. apply runs_bind. eapply runs_mono; [exact H|]. clear H.
  intros r s'' [-> [(Hb & Hu & Hall)|[-> Hall]]].
  - destruct (Z.ltb_spec r (rm_size rmgr)); [|lia]. apply runs_bind.
    eapply runs_mono; [apply rmgr_ins_spec; [done|lia]|].
    intros [err rmgr'] s1 (-> & He & Hwf' & _ & _ & _ & Hu'). apply runs_ret. left. split; [done|].
    exists r. split; [lia|]. split; [done|]. split; [intros; apply Hall; lia|]. simpl in *. auto.
  - destruct (Z.ltb_spec (2 ^ 32 - 1) (rm_size rmgr)); [lia|]. runs_steps. right.
    split; [done|]. split; [|done]. intros k Hk. apply Hall. lia.
Qed.
End search.
