(* ===== verification/RxInsert.v ===== *)
(** * ethtool: inserting rules against a driver with a rule table

    The rule manager's picture of the table is the table ([rmgr_init]), hence an
    insertion without a location takes a free one. [tbl] is a driver that keeps
    the documented contract. *)

From stdpp Require Import base list strings gmap numbers.
From Stdlib Require Import ZArith Lia.
From S2P Require Import Prelude CInt CLib RxSpec RxRules RxRulesOk.

(** ** A driver with a table *)

Record tbl := mk_tbl { t_rules : gmap Z spec; t_size : Z; t_select : bool }.

Definition tbl_size (d : tbl) : Z := Z.max 1 (Z.min (2 ^ 31 - 1) (t_size d)).
Definition tbl_rules (d : tbl) : gmap Z spec := filter (fun x => 0 <= x.1 < tbl_size d) (t_rules d).

Definition tbl_ioctl (q : rxnfc) (d : tbl) : Z * rxnfc * tbl :=
  let loc := getf (nfc_fs q) location in
  let reply data fs cnt locs := mk_rxnfc (nfc_cmd q) data fs cnt locs in
  if nfc_cmd q =? ETHTOOL_GRXCLSRLCNT then
    (0, reply (if t_select d then RX_CLS_LOC_SPECIAL else 0) (nfc_fs q) (Z.of_nat (size (tbl_rules d))) [], d)
  else if nfc_cmd q =? ETHTOOL_GRXCLSRLALL then
    (0, reply (tbl_size d) (nfc_fs q) (Z.of_nat (size (tbl_rules d))) (map_to_list (tbl_rules d)).*1, d)
  else if nfc_cmd q =? ETHTOOL_GRXCLSRULE then
    match tbl_rules d !! loc with
    | Some fs => (0, reply 0 fs 0 [], d)
    | None => (-1, q, d)
    end
  else if nfc_cmd q =? ETHTOOL_SRXCLSRLINS then
    if loc <? tbl_size d then (0, q, mk_tbl (<[loc := nfc_fs q]> (t_rules d)) (t_size d) (t_select d))
    else (-1, q, d)
  else if nfc_cmd q =? ETHTOOL_SRXCLSRLDEL then
    match tbl_rules d !! loc with
    | Some _ => (0, q, mk_tbl (delete loc (t_rules d)) (t_size d) (t_select d))
    | None => (-1, q, d)
    end
  else (-1, q, d).

#[export] Instance tbl_RxDevice : RxDevice tbl := tbl_ioctl.

Lemma tbl_rules_insert (d : tbl) loc fs :
  0 <= loc < tbl_size d ->
  tbl_rules (mk_tbl (<[loc := fs]> (t_rules d)) (t_size d) (t_select d)) = <[loc := fs]> (tbl_rules d).
Proof.
  intros Hl. unfold tbl_rules, tbl_size in *. cbn [t_rules t_size].
  by rewrite map_filter_insert_True.
Qed.

Lemma tbl_rules_delete (d : tbl) loc :
  tbl_rules (mk_tbl (delete loc (t_rules d)) (t_size d) (t_select d)) = delete loc (tbl_rules d).
Proof. unfold tbl_rules, tbl_size. cbn [t_rules t_size]. by rewrite map_filter_delete. Qed.

Ltac tbl_law :=
  intros q d err r d' Hq; unfold send_ioctl, tbl_RxDevice, tbl_ioctl; rewrite Hq; simpl.

#[export] Program Instance tbl_RxDriver : RxDriver tbl := {|
  rules := tbl_rules; table_size := tbl_size; selects := t_select
|}.
Next Obligation. intros d. unfold tbl_size. lia. Qed.
Next Obligation.
  intros d l [fs H]. unfold tbl_rules in H. by apply map_lookup_filter_Some in H as [_ H].
Qed.
Next Obligation. tbl_law. intros [= <- <- <-]. simpl. by destruct (t_select d). Qed.
Next Obligation. tbl_law. intros _ [= <- <- <-]. by simpl. Qed.
Next Obligation.
  tbl_law. destruct (tbl_rules d !! _) eqn:E; intros [= <- <- <-]; simpl;
    (split; [done|]); intros; [done | lia].
Qed.
Next Obligation.
  tbl_law. intros Hl. destruct (Z.ltb_spec (getf (nfc_fs q) location) (tbl_size d)); [|lia].
  intros [= <- <- <-]. rewrite tbl_rules_insert by done. split; [done|]. split; [done|].
  split; [lia | done].
Qed.
Next Obligation.
  tbl_law. destruct (tbl_rules d !! _) eqn:E; intros [= <- <- <-].
  - rewrite tbl_rules_delete. split; [done|]. split; [done|]. split; [lia|]. done.
  - split; [done|]. split; [done|]. split; [done | lia].
Qed.

(** ** The rule manager against any driver *)

Section driver.
Context `{DM : DataModel} {D : Type} `{RD : RxDevice D, !RxDriver D} (env : rx_env).
Implicit Types (s : st D) (rmgr : rmgr_ctrl).

(** The bitmap marks exactly the locations of the driver's rules. *)
Definition tracks rmgr (d : D) : Prop :=
  wf_rmgr rmgr /\ driver_select rmgr = false /\ rm_size rmgr = table_size d /\
  forall l, 0 <= l -> used (slot rmgr) l = bool_decide (is_Some (rules d !! l)).

Lemma runs_ioctl q s (Q : Z * rxnfc -> st D -> Prop) :
  (forall err r d', send_ioctl q (dev s) = (err, r, d') -> Q (err, r) (mkst (out s) d')) ->
  runs (ioctl q) s Q.
Proof.
  intros H. apply runs_devop. destruct (send_ioctl q (dev s)) as [[err r] d'] eqn:E. by apply H.
Qed.

Lemma runs_perror x s (Q : unit -> st D -> Prop) :
  (forall s', dev s' = dev s -> Q tt s') -> runs (perror env x) s Q.
Proof. intros H. apply runs_eprintf. by apply H. Qed.

Lemma get_dev_info_spec s :
  runs (rxclass_get_dev_info env) s (fun '(err, n, sel) s' => dev s' = dev s /\
    (0 <= err -> n = Z.of_nat (size (rules (dev s))) /\ sel = selects (dev s))).
Proof.
  unfold rxclass_get_dev_info. apply runs_bind, runs_ioctl. intros err r d' E.
  apply ioctl_count in E as [-> Hok]; [|done]. apply runs_bind, runs_when; intros Herr.
  - apply runs_perror. intros s' Hs'. apply runs_ret. split; [done|]. lia.
  - apply runs_ret. split; [done|]. intros H. by destruct (Hok H).
Qed.

Lemma rules_locs_NoDup (d : D) : NoDup (map_to_list (rules d)).*1.
Proof. apply NoDup_fst_map_to_list. Qed.

Lemma rules_locs_in (d : D) l :
  l ∈ (map_to_list (rules d)).*1 <-> is_Some (rules d !! l).
Proof.
  rewrite list_elem_of_fmap. split.
  - intros ([k v] & -> & H). apply elem_of_map_to_list in H. by eexists.
  - intros [v H]. exists (l, v). split; [done | by apply elem_of_map_to_list].
Qed.

Lemma rules_size_le (d : D) : Z.of_nat (size (rules d)) <= table_size d.
Proof.
  pose proof (table_size_ok d).
  assert ((map_to_list (rules d)).*1 ⊆+ seqZ 0 (table_size d)) as Hs.
  { apply NoDup_submseteq; [apply rules_locs_NoDup|]. intros l Hl.
    apply rules_locs_in, rules_in_table in Hl. apply elem_of_seqZ. lia. }
  apply submseteq_length in Hs. rewrite length_fmap, length_map_to_list, length_seqZ in Hs. lia.
Qed.

(** Marking a list of locations. *)
Lemma mark_locs rmgr (locs : list Z) n err s :
  wf_rmgr rmgr -> (n <= length locs)%nat -> 0 <= err ->
  (forall l, l ∈ locs -> 0 <= l < rm_size rmgr) ->
  runs (for_acc n 0 (err, rmgr) (fun i '(_, rmgr) =>
          loc ← lift_opt (locs !! Z.to_nat i);
          x ← rmgr_ins rmgr loc;
          if x.1 <? 0 then mret (inr x) else mret (inl x))) s
    (fun r s' => s' = s /\ exists e rm, r = inl (e, rm) /\ 0 <= e /\ wf_rmgr rm /\
       rm_size rm = rm_size rmgr /\ driver_select rm = driver_select rmgr /\
       forall l, 0 <= l -> used (slot rm) l = (bool_decide (l ∈ take n locs) || used (slot rmgr) l)%bool).
Proof.
  intros Hwf Hn He Hin.
  eapply runs_mono; [apply (runs_for_acc
    (fun i x s' => s' = s /\ 0 <= x.1 /\ wf_rmgr x.2 /\ rm_size x.2 = rm_size rmgr /\
       driver_select x.2 = driver_select rmgr /\
       forall l, 0 <= l -> used (slot x.2) l = (bool_decide (l ∈ take (Z.to_nat i) locs) || used (slot rmgr) l)%bool)
    (fun _ _ => False))|].
  - simpl. by repeat (split; [done|]).
  - intros k [e rm] s' Hk (-> & He' & Hwf' & Hsz & Hsel & Hu).
    destruct (lookup_lt_is_Some_2 locs (Z.to_nat k)) as [loc El]; [lia|].
    apply runs_bind. eapply lift_opt_some; [exact El|]. apply runs_bind.
    eapply runs_mono; [apply rmgr_ins_spec; [done|]|].
    { simpl in *. rewrite Hsz. apply Hin. by eapply list_elem_of_lookup_2. }
    intros [e' rm'] s' (-> & He1 & Hwf1 & Hsz1 & Hsel1 & _ & Hu1). simpl in *. subst e'.
    apply runs_ret. simpl. split; [done|]. split; [done|]. split; [done|]. split; [congruence|].
    split; [congruence|]. intros l Hl. rewrite Hu1, Hu by done.
    replace (Z.to_nat (k + 1)) with (S (Z.to_nat k)) by lia. rewrite (take_S_r _ _ loc El).
    destruct (Z.eqb_spec l loc) as [->|Hne]; simpl.
    + rewrite bool_decide_eq_true_2; [done|]. apply elem_of_app. right. by apply list_elem_of_singleton.
    + f_equal. apply bool_decide_ext. rewrite elem_of_app, list_elem_of_singleton. tauto.
  - intros [[e rm]|v] s' H; [|done]. destruct H as (-> & He' & Hwf' & Hsz & Hsel & Hu). split; [done|].
    exists e, rm. do 5 (split; [done|]). intros l Hl. rewrite Hu by done.
    by rewrite Z.add_0_l, Nat2Z.id.
Qed.

(** The two queries of the rule manager do not fail. *)
Definition queries_ok (d : D) : Prop := forall q,
  nfc_cmd q = ETHTOOL_GRXCLSRLCNT \/ nfc_cmd q = ETHTOOL_GRXCLSRLALL -> 0 <= (send_ioctl q d).1.1.

Lemma ioctl_err q d err r (d' : D) :
  send_ioctl q d = (err, r, d') -> 0 <= (send_ioctl q d).1.1 -> 0 <= err.
Proof. by intros ->. Qed.

(** [rmgr_init] fails, or its bitmap is the table. It only fails when an ioctl
    or an allocation does. *)
Lemma rmgr_init_spec s :
  selects (dev s) = false ->
  runs (rmgr_init env) s (fun '(err, rmgr) s' => dev s' = dev s /\ (0 <= err -> tracks rmgr (dev s)) /\
    (queries_ok (dev s) -> (forall n, env_calloc env n = true) -> 0 <= err)).
Proof.
  intros Hsel. unfold rmgr_init. apply runs_bind. unfold rxclass_get_dev_info.
  apply runs_bind, runs_ioctl. intros err r d' E.
  assert (queries_ok (dev s) -> 0 <= err) as Hpos.
  { intros H. eapply ioctl_err in E; [done|]. apply H. by left. }
  apply ioctl_count in E as [-> Hok]; [|done].
  destruct (Z.ltb_spec err 0) as [Hlt|Hge].
  { simpl. unfold perror. runs_steps. destruct (Z.ltb_spec err 0); [|lia]. runs_steps.
    split; [done|]. split; [lia|]. intros Hq. apply Hpos in Hq. lia. }
  destruct (Hok Hge) as [-> ->]. rewrite Hsel. simpl. runs_steps.
  destruct (Z.ltb_spec err 0); [lia|]. simpl.
  destruct (env_calloc env _) eqn:Ec; simpl.
  2:{ unfold perror. runs_steps. split; [done|]. split; [lia|]. intros _ H'. by rewrite H' in Ec. }
  apply runs_bind, runs_ioctl. simpl. intros err2 r2 d2 E2.
  assert (queries_ok (dev s) -> 0 <= err2) as Hpos2.
  { intros H'. eapply ioctl_err in E2; [done|]. apply H'. by right. }
  apply ioctl_all in E2 as [-> Hok2]; [|done|done].
  destruct (Z.ltb_spec err2 0) as [Hlt2|Hge2].
  { unfold perror. runs_steps. split; [done|]. split; [lia|]. intros H'. apply Hpos2 in H'. lia. }
  destruct (Hok2 Hge2) as [-> Hlocs]. pose proof (table_size_ok (dev s)) as Hts.
  pose proof (rules_size_le (dev s)) as Hle.
  rewrite (wrapu_small 32 (table_size (dev s))) by lia.
  destruct (Z.eqb_spec (table_size (dev s)) 0); [lia|].
  destruct (Z.ltb_spec (table_size (dev s)) (Z.of_nat (size (rules (dev s))))); [lia|]. simpl.
  destruct (env_calloc env (ulong (_ * _))) eqn:Ec2; simpl.
  2:{ unfold perror. runs_steps. split; [done|]. split; [lia|]. intros _ H'. by rewrite H' in Ec2. }
  destruct (wf_bitmap_empty (table_size (dev s))) as [Hwf0 Hz].
  apply runs_bind. eapply runs_mono; [apply mark_locs|].
  - by split.
  - rewrite Hlocs, length_fmap, length_map_to_list. lia.
  - done.
  - intros l. rewrite Hlocs, rules_locs_in. apply rules_in_table.
  - intros x s' (-> & e & rm & -> & He & Hwf & Hsz & Hsl & Hu). apply runs_ret. split; [done|].
    split; [|done]. intros _. split; [done|]. split; [done|]. split; [done|].
    intros l Hl. rewrite Hu by done. simpl. rewrite Hz, orb_false_r.
    apply bool_decide_ext. rewrite <- rules_locs_in, <- Hlocs, take_ge; [done|].
    rewrite Hlocs, length_fmap, length_map_to_list. lia.
Qed.

(** The location chosen for a rule, in terms of the table. *)
Definition free_loc (d : D) (loc : Z) : Prop := 0 <= loc < table_size d /\ rules d !! loc = None.

Lemma set_location_spec fsp s :
  selects (dev s) = false ->
  runs (rmgr_set_location env fsp) s (fun '(err, fsp') s' => dev s' = dev s /\
    (0 <= err -> exists loc, free_loc (dev s) loc /\ fsp' = setf fsp location loc) /\
    (queries_ok (dev s) -> (forall n, env_calloc env n = true) ->
     table_size (dev s) mod BITS_PER_LONG <> 0 -> (exists loc, free_loc (dev s) loc) -> 0 <= err)).
Proof.
  intros Hsel. unfold rmgr_set_location. apply runs_bind.
  eapply runs_mono; [by apply rmgr_init_spec|]. intros [err rmgr] s' (Hd & Htr & Hok).
  destruct (Z.ltb_spec err 0) as [Hlt|Hge].
  { runs_steps. split; [done|]. split; [lia|]. intros H1 H2 _ _. by apply Hok. }
  destruct (Htr Hge) as (Hwf & Hs & Hsz & Hu).
  apply runs_bind. eapply runs_mono; [by apply find_empty_slot_spec|].
  assert (search_limit rmgr <= table_size (dev s)) by (rewrite <- Hsz; by apply search_limit_bounds).
  intros [[e rm] fsp'] s'' [[-> Hf]|[Hd'' Hnf]]; apply runs_ret.
  - destruct Hf as (loc & Hl & Hfree & _ & He & Hfsp & _). simpl in He, Hfsp. split; [done|].
    split; [|intros; lia]. intros _. exists loc. split; [|done]. split; [lia|].
    rewrite Hu in Hfree by lia. apply bool_decide_eq_false in Hfree. by apply eq_None_not_Some.
  - destruct Hnf as [Hall [= -> -> ->]]. split; [congruence|]. split; [lia|].
    intros _ _ Hmod (loc & Hl & Hnone). exfalso.
    assert (search_limit rmgr = table_size (dev s)) as El.
    { unfold search_limit. rewrite Hsz. by destruct (Z.eqb_spec (table_size (dev s) mod BITS_PER_LONG) 0). }
    pose proof (Hall loc ltac:(lia)) as Hb. rewrite Hu in Hb by lia.
    apply bool_decide_eq_true in Hb. rewrite Hnone in Hb. by destruct Hb.
Qed.

(** Adding a rule without a location: nothing changes, or the rule is at a
    location that was free. *)
Lemma rule_ins_spec fsp s : selects (dev s) = false -> wf_spec fsp ->
  truth (Z.land (getf fsp location) RX_CLS_LOC_SPECIAL) = true ->
  runs (rxclass_rule_ins env fsp) s (fun r s' => rules (dev s') = rules (dev s) \/
    (r = 0 /\ exists loc, 0 <= loc < table_size (dev s) /\ rules (dev s) !! loc = None /\
       rules (dev s') = <[loc := setf fsp location loc]> (rules (dev s)))).
Proof.
  intros Hsel Hfsp Hsp. unfold rxclass_rule_ins. rewrite Hsp. apply runs_bind.
  eapply runs_mono; [by apply set_location_spec|]. intros [err fsp'] s' (Hd & Hok & _). cbn [andb].
  destruct (Z.ltb_spec err 0) as [Hlt|Hge]; [runs_steps; left; by rewrite Hd|].
  destruct (Hok Hge) as (loc & [Hl Hfree] & ->). pose proof (table_size_ok (dev s)).
  assert (getf (setf fsp location loc) location = loc) as Eloc.
  { rewrite getf_setf by (done || apply in_spec_location). apply Z.mod_small. simpl. lia. }
  apply runs_bind, runs_ioctl. intros err2 r d' E. rewrite Hd in E.
  apply ioctl_insert in E as (_ & _ & Hno & Hyes); [|done|simpl; rewrite Eloc; done].
  simpl in *. rewrite Eloc in Hyes.
  destruct (Z.ltb_spec err2 0) as [Hlt2|Hge2]; unfold perror; runs_steps.
  - left. by apply Hno.
  - right. split; [done|]. exists loc. by destruct (Hyes Hge2) as [_ ->].
Qed.
End driver.
