(* ===== verification/RxParse.v ===== *)
(** * ethtool: rule options ([ethernet_test/ethtool/rxclass.c], second half)

    The option tables, the conversion of option values and masks, and the parser
    of [ethtool -N dev flow-type ...]. *)

From stdpp Require Import base list strings numbers.
From Stdlib Require Import ZArith Lia Ascii.
From S2P Require Import Prelude CInt CLib RxSpec.

Inductive rule_opt_type :=
  OPT_NONE | OPT_S32 | OPT_U8 | OPT_U16 | OPT_U32 | OPT_U64 | OPT_BE16 | OPT_BE32 | OPT_BE64 | OPT_IP4 | OPT_MAC.

#[export] Instance rule_opt_type_eq_dec : EqDecision rule_opt_type.
Proof. solve_decision. Defined.

Definition NFC_FLAG_RING : Z := 0x001.
Definition NFC_FLAG_LOC : Z := 0x002.
Definition NFC_FLAG_SADDR : Z := 0x004.
Definition NFC_FLAG_DADDR : Z := 0x008.
Definition NFC_FLAG_SPORT : Z := 0x010.
Definition NFC_FLAG_DPORT : Z := 0x020.
Definition NFC_FLAG_SPI : Z := 0x030.
Definition NFC_FLAG_TOS : Z := 0x040.
Definition NFC_FLAG_PROTO : Z := 0x080.
Definition NTUPLE_FLAG_VLAN : Z := 0x100.
Definition NTUPLE_FLAG_UDEF : Z := 0x200.
Definition NTUPLE_FLAG_VETH : Z := 0x400.

Record rule_opts := mk_opt {
  ro_name : string; ro_type : rule_opt_type; ro_flag : Z; ro_offset : Z; ro_moffset : Z
}.

(** An entry whose value and mask are the same member of [h_u]/[m_u] or of
    [h_ext]/[m_ext]. *)
Definition uopt (name : string) (t : rule_opt_type) (flag : Z) (f : field) : rule_opts :=
  mk_opt name t flag (f_off (h_u f)) (f_off (m_u f)).
Definition eopt (name : string) (t : rule_opt_type) (flag : Z) (f : field) : rule_opts :=
  mk_opt name t flag (f_off (h_ext f)) (f_off (m_ext f)).

(** The five entries that end every table. *)
Definition common_opts : list rule_opts := [
  mk_opt "action" OPT_U64 NFC_FLAG_RING (f_off ring_cookie) (-1);
  mk_opt "loc" OPT_U32 NFC_FLAG_LOC (f_off location) (-1);
  eopt "vlan-etype" OPT_BE16 NTUPLE_FLAG_VETH flow_ext.vlan_etype;
  eopt "vlan" OPT_BE16 NTUPLE_FLAG_VLAN flow_ext.vlan_tci;
  eopt "user-def" OPT_BE64 NTUPLE_FLAG_UDEF flow_ext.data
]%string.

Definition rule_nfc_tcp_ip4 : list rule_opts := [
  uopt "src-ip" OPT_IP4 NFC_FLAG_SADDR ip4.ip4src;
  uopt "dst-ip" OPT_IP4 NFC_FLAG_DADDR ip4.ip4dst;
  uopt "tos" OPT_U8 NFC_FLAG_TOS ip4.tos;
  uopt "src-port" OPT_BE16 NFC_FLAG_SPORT ip4.psrc;
  uopt "dst-port" OPT_BE16 NFC_FLAG_DPORT ip4.pdst
]%string ++ common_opts.

Definition rule_nfc_esp_ip4 : list rule_opts := [
  uopt "src-ip" OPT_IP4 NFC_FLAG_SADDR ip4.ip4src;
  uopt "dst-ip" OPT_IP4 NFC_FLAG_DADDR ip4.ip4dst;
  uopt "tos" OPT_U8 NFC_FLAG_TOS ip4.tos;
  uopt "spi" OPT_BE32 NFC_FLAG_SPI ip4.spi
]%string ++ common_opts.

Definition rule_nfc_usr_ip4 : list rule_opts := [
  uopt "src-ip" OPT_IP4 NFC_FLAG_SADDR ip4.ip4src;
  uopt "dst-ip" OPT_IP4 NFC_FLAG_DADDR ip4.ip4dst;
  uopt "tos" OPT_U8 NFC_FLAG_TOS ip4.tos;
  uopt "l4proto" OPT_U8 NFC_FLAG_PROTO ip4.proto;
  uopt "l4data" OPT_BE32 NFC_FLAG_SPI ip4.l4_4_bytes;
  uopt "spi" OPT_BE32 NFC_FLAG_SPI ip4.l4_4_bytes;
  uopt "src-port" OPT_BE16 NFC_FLAG_SPORT ip4.l4_4_bytes;
  mk_opt "dst-port" OPT_BE16 NFC_FLAG_DPORT (f_off (h_u ip4.l4_4_bytes) + 2) (f_off (m_u ip4.l4_4_bytes) + 2)
]%string ++ common_opts.

Definition rule_nfc_ether : list rule_opts := [
  uopt "src" OPT_MAC NFC_FLAG_SADDR ether.h_source;
  uopt "dst" OPT_MAC NFC_FLAG_DADDR ether.h_dest;
  uopt "proto" OPT_BE16 NFC_FLAG_PROTO ether.h_proto
]%string ++ common_opts.

(** ** Values; [None] is the return value -1 *)

Definition rxclass_get_long (str : string) (size : Z) : option Z :=
  let max := Z.shiftr (2 ^ 64 - 1) (65 - size) in
  let r := strtoll 0 str in
  if (truth (char_at0 (send r)) || serange r || (max <? sv r) || (sv r <? Z.lnot max))%bool
  then None else Some (sv r).

(** [max] is a [long long]; the comparison converts it back to unsigned. *)
Definition rxclass_get_ulong (str : string) (size : Z) : option Z :=
  let max := wraps 64 (Z.shiftr (2 ^ 64 - 1) (64 - size)) in
  let r := strtoull 0 str in
  if (truth (char_at0 (send r)) || serange r || (u64 max <? sv r))%bool
  then None else Some (sv r).

(** The address in network order: its bytes in memory order. *)
Definition rxclass_get_ipv4 (str : string) : option (list Z) := inet_pton4 str.

Definition ETH_ALEN : nat := 6.

Definition rxclass_get_ether (str : string) : option (list Z) :=
  match strchr str (chr 58) with
  | None => None
  | Some _ =>
      let buf := scan_hex_colon 5 str in
      if negb (Nat.eqb (length buf) ETH_ALEN) then None else Some (map u8 buf)
  end.

(** The bytes a value of type [t] is stored as (first switch of
    [rxclass_get_val], second switch of [rxclass_get_mask] before the
    complement). *)
Definition opt_bytes (t : rule_opt_type) (str : string) : option (list Z) :=
  match t with
  | OPT_S32 => le_bytes 4 <$> rxclass_get_long str 32
  | OPT_U8 => le_bytes 1 <$> rxclass_get_ulong str 8
  | OPT_U16 => le_bytes 2 <$> rxclass_get_ulong str 16
  | OPT_U32 => le_bytes 4 <$> rxclass_get_ulong str 32
  | OPT_U64 => le_bytes 8 <$> rxclass_get_ulong str 64
  | OPT_BE16 => (fun v => le_bytes 2 (htons v)) <$> rxclass_get_ulong str 16
  | OPT_BE32 => (fun v => le_bytes 4 (htonl v)) <$> rxclass_get_ulong str 32
  | OPT_BE64 => (fun v => le_bytes 8 (htonll v)) <$> rxclass_get_ulong str 64
  | OPT_IP4 => rxclass_get_ipv4 str
  | OPT_MAC => rxclass_get_ether str
  | OPT_NONE => None
  end.

Section parse.
Context {W : Type}.
Abbreviation P := (M W).

(** A store through [p]; outside the struct it is not defined. *)
Definition store (p : spec) (off : Z) (l : list Z) : P spec :=
  match put_bytes p off l with Some p' => mret p' | None => crash end.

(** Result, the struct and [*flags]. *)
Definition rxclass_get_val (str : string) (p : spec) (flags : Z) (opt : rule_opts) : P (Z * spec * Z) :=
  if truth (Z.land flags (ro_flag opt)) then mret (-1, p, flags)
  else
    let flags := Z.lor flags (ro_flag opt) in
    match opt_bytes (ro_type opt) str with
    | None => mret (-1, p, flags)
    | Some l =>
        p ← store p (ro_offset opt) l;
        p ← (if 0 <=? ro_moffset opt then store p (ro_moffset opt) (replicate (length l) 255) else mret p);
        mret (0, p, flags)
    end.

Definition rxclass_get_mask (str : string) (p : spec) (opt : rule_opts) : P (Z * spec) :=
  if ro_moffset opt <? 0 then mret (-1, p)
  else match opt_bytes (ro_type opt) str with
       | None => mret (-1, p)
       | Some l => p ← store p (ro_moffset opt) (map (notu 8) l); mret (0, p)
       end.

Definition find_opt (options : list rule_opts) (name : string) : option rule_opts :=
  head (filter (fun o => ro_name o = name) options).

Definition syntax_err (p : spec) : P (Z * spec * Z) :=
  eprintf ("Add rule, invalid syntax" +:+ nl);; mret (-1, p, 0).

(** [for (i = 1; i < argc;)]: the arguments from [i] on; gives 0 or -1, the
    struct and the flags. *)
Fixpoint parse_opts (options : list rule_opts) (args : list string) (p : spec) (flags : Z) : P (Z * spec * Z) :=
  match args with
  | [] => mret (0, p, flags)
  | name :: args1 =>
      match find_opt options name with
      | None => printf ("Add rule, unrecognized option[" +:+ name +:+ "]" +:+ nl);; mret (-1, p, flags)
      | Some opt =>
          match args1 with
          | [] => mret (0, p, flags)
          | value :: args2 =>
              x ← rxclass_get_val value p flags opt;
              let '(err, p, flags) := x in
              if truth err then
                eprintf ("Invalid " +:+ ro_name opt +:+ " value[" +:+ value +:+ "]" +:+ nl);; mret (-1, p, flags)
              else match args2 with
                   | [] => mret (0, p, flags)
                   | m :: args3 =>
                       if negb (streq m "m" || streq m (ro_name opt +:+ "-mask")%string) then
                         parse_opts options args2 p flags
                       else match args3 with
                            | [] => syntax_err p
                            | mask :: args4 =>
                                y ← rxclass_get_mask mask p opt;
                                let '(err, p) := y in
                                if truth err then
                                  eprintf ("Invalid " +:+ ro_name opt +:+ " mask[" +:+ mask +:+ "]" +:+ nl);;
                                  mret (-1, p, flags)
                                else parse_opts options args4 p flags
                            end
                   end
          end
      end
  end.

Definition flow_type_of (name : string) : option Z :=
  if streq name "tcp4" then Some TCP_V4_FLOW
  else if streq name "udp4" then Some UDP_V4_FLOW
  else if streq name "sctp4" then Some SCTP_V4_FLOW
  else if streq name "ah4" then Some AH_V4_FLOW
  else if streq name "esp4" then Some ESP_V4_FLOW
  else if streq name "ip4" then Some IP_USER_FLOW
  else if streq name "ether" then Some ETHER_FLOW
  else None.

(** The second [switch]; its default is not reachable. *)
Definition options_of (ft : Z) : option (list rule_opts) :=
  if ((ft =? TCP_V4_FLOW) || (ft =? UDP_V4_FLOW) || (ft =? SCTP_V4_FLOW))%bool then Some rule_nfc_tcp_ip4
  else if ((ft =? AH_V4_FLOW) || (ft =? ESP_V4_FLOW))%bool then Some rule_nfc_esp_ip4
  else if ft =? IP_USER_FLOW then Some rule_nfc_usr_ip4
  else if ft =? ETHER_FLOW then Some rule_nfc_ether
  else None.

Definition EXT_FLAGS : Z := Z.lor (Z.lor NTUPLE_FLAG_VLAN NTUPLE_FLAG_UDEF) NTUPLE_FLAG_VETH.

Definition rxclass_parse_ruleopts (args : list string) (fsp : spec) : P (Z * spec) :=
  match args with
  | [] => x ← syntax_err fsp; mret (-1, fsp)
  | name :: rest =>
      match flow_type_of name with
      | None => x ← syntax_err fsp; mret (-1, fsp)
      | Some ft =>
          match options_of ft with
          | None => eprintf ("Add rule, invalid rule type[" +:+ name +:+ "]" +:+ nl);; mret (-1, fsp)
          | Some options =>
              let p := setf (setf zero_spec flow_type ft) location RX_CLS_LOC_ANY in
              x ← parse_opts options rest p 0;
              let '(err, p, flags) := x in
              if truth err then mret (err, p)
              else
                let p := if ft =? IP_USER_FLOW then setf p (h_u ip4.ip_ver) ETH_RX_NFC_IP4 else p in
                let p := if truth (Z.land flags EXT_FLAGS)
                         then setf p flow_type (Z.lor (getf p flow_type) FLOW_EXT) else p in
                mret (0, p)
          end
      end
  end.
End parse.
