(* ===== verification/RxParseOk.v ===== *)
(** * ethtool: lemmas on the rule option parser

    The parser is compared with [items], the options as they are written on the
    command line: on success every item's value and mask are in the struct, and
    no other byte was written. *)

From stdpp Require Import base list strings numbers.
From Stdlib Require Import ZArith Lia Ascii.
From S2P Require Import Prelude CInt CLib RxSpec RxParse.

(** ** What the values are *)

Definition opt_len (t : rule_opt_type) : nat :=
  match t with
  | OPT_NONE => 0
  | OPT_U8 => 1
  | OPT_U16 | OPT_BE16 => 2
  | OPT_S32 | OPT_U32 | OPT_BE32 | OPT_IP4 => 4
  | OPT_U64 | OPT_BE64 => 8
  | OPT_MAC => 6
  end.

Lemma scan_octet_byte s : forall acc n v k r,
  is_byte acc -> scan_octet s acc n = Some (v, k, r) -> is_byte v.
Proof.
  unfold is_byte. induction s as [|c s IH]; intros acc n v k r Hacc; simpl; [by intros [= <- _ _]|].
  destruct (isdigit c) eqn:Hd; [|by intros [= <- _ _]].
  destruct ((0 <? n)%nat && (acc =? 0))%bool; [done|].
  destruct (Z.ltb_spec 255 (acc * 10 + (cc c - 48))); [done|].
  apply IH. unfold isdigit in Hd. apply andb_true_iff in Hd as [Hd _]. apply Z.leb_le in Hd. lia.
Qed.

Lemma scan_octets_bytes k : forall s l, scan_octets k s = Some l -> length l = S k /\ Forall is_byte l.
Proof.
  induction k as [|k IH]; intros s l; simpl.
  - destruct (scan_octet s 0 0) as [[[v [|n]] [|c r]]|] eqn:E; try done.
    intros [= <-]. split; [done|]. constructor; [|done]. eapply scan_octet_byte; [|exact E]. by split.
  - destruct (scan_octet s 0 0) as [[[v [|n]] [|c r]]|] eqn:E; try done.
    destruct (cc c =? 46); [|done]. destruct (scan_octets k r) as [l'|] eqn:E'; [|done].
    intros [= <-]. destruct (IH _ _ E') as [Hl Hb]. split; [simpl; by rewrite Hl|].
    constructor; [|done]. eapply scan_octet_byte; [|exact E]. by split.
Qed.

Lemma get_ether_bytes s l : rxclass_get_ether s = Some l -> length l = ETH_ALEN /\ Forall is_byte l.
Proof.
  unfold rxclass_get_ether. destruct (strchr _ _); [|done].
  destruct (Nat.eqb_spec (length (scan_hex_colon 5 s)) ETH_ALEN) as [E|]; [|done]. simpl.
  intros [= <-]. split; [by rewrite length_map|].
  apply Forall_map, Forall_true. intros x. by apply wrapu_range.
Qed.

Lemma opt_bytes_ok t str l : opt_bytes t str = Some l -> length l = opt_len t /\ Forall is_byte l.
Proof.
  destruct t; cbn [opt_bytes opt_len]; intros H; try done;
    try (apply fmap_Some in H as (v & _ & ->); split; [apply le_bytes_length | apply le_bytes_is_byte]).
  - by apply scan_octets_bytes in H.
  - by eapply get_ether_bytes.
Qed.

(** ** Which bytes an option writes *)

Definition covers (off : Z) (n : nat) (i : nat) : Prop := off <= Z.of_nat i < off + Z.of_nat n.
Definition writes (o : rule_opts) (i : nat) : Prop :=
  covers (ro_offset o) (opt_len (ro_type o)) i \/
  (0 <= ro_moffset o /\ covers (ro_moffset o) (opt_len (ro_type o)) i).

(** Areas of bytes as numbers, for computation on the tables. *)
Definition areas (o : rule_opts) : list (Z * Z) :=
  (ro_offset o, ro_offset o + Z.of_nat (opt_len (ro_type o))) ::
  (if 0 <=? ro_moffset o then [(ro_moffset o, ro_moffset o + Z.of_nat (opt_len (ro_type o)))] else []).
Definition apart (a b : Z * Z) : bool := (a.2 <=? b.1) || (b.2 <=? a.1).
Definition apart_opts (o1 o2 : rule_opts) : bool :=
  forallb (fun a => forallb (apart a) (areas o2)) (areas o1).
(** Inside the struct, after [flow_type], and value and mask apart. *)
Definition opt_ok (o : rule_opts) : bool :=
  (forallb (fun a => (4 <=? a.1) && (a.2 <=? sizeof_flow_spec)) (areas o) &&
   ((ro_moffset o <? 0) || apart (ro_offset o, ro_offset o + Z.of_nat (opt_len (ro_type o)))
                             (ro_moffset o, ro_moffset o + Z.of_nat (opt_len (ro_type o)))))%bool.
(** Options with disjoint flags write disjoint areas; mask names fit [mask_name[16]]. *)
Definition table_ok (t : list rule_opts) : bool :=
  (forallb opt_ok t &&
   forallb (fun o => strlen (ro_name o +:+ "-mask") <? 16) t &&
   forallb (fun o1 => forallb (fun o2 => (negb (Z.land (ro_flag o1) (ro_flag o2) =? 0)) || apart_opts o1 o2) t) t)%bool.

Definition all_tables : list (list rule_opts) :=
  [rule_nfc_tcp_ip4; rule_nfc_esp_ip4; rule_nfc_usr_ip4; rule_nfc_ether].

Lemma all_tables_ok : forallb table_ok all_tables = true.
Proof. vm_compute. reflexivity. Qed.

Lemma options_of_table ft t : options_of ft = Some t -> table_ok t = true.
Proof.
  pose proof all_tables_ok as H. rewrite forallb_forall in H. unfold options_of.
  repeat case_match; intros [= <-]; apply H; unfold all_tables; simpl; tauto.
Qed.

Section table.
Context (t : list rule_opts) (Ht : table_ok t = true).

Lemma table_opt o : o ∈ t -> opt_ok o = true.
Proof.
  intros Ho. unfold table_ok in Ht. apply andb_true_iff in Ht as [Ht' _].
  apply andb_true_iff in Ht' as [H _]. rewrite forallb_forall in H. by apply H, list_elem_of_In.
Qed.

Lemma apart_writes o1 o2 i : apart_opts o1 o2 = true -> writes o1 i -> writes o2 i -> False.
Proof.
  unfold apart_opts, areas, writes, covers, apart. intros H.
  repeat rewrite forallb_cons in H || cbn [forallb] in H.
  destruct (Z.leb_spec 0 (ro_moffset o1)), (Z.leb_spec 0 (ro_moffset o2));
    cbn [forallb fst snd] in H; rewrite ?andb_true_iff, ?orb_true_iff, ?Z.leb_le in H; lia.
Qed.

Lemma table_apart o1 o2 i :
  o1 ∈ t -> o2 ∈ t -> Z.land (ro_flag o1) (ro_flag o2) = 0 -> writes o1 i -> writes o2 i -> False.
Proof.
  intros H1 H2 Hf. apply apart_writes. unfold table_ok in Ht. apply andb_true_iff in Ht as [_ H].
  rewrite forallb_forall in H. specialize (H o1 ltac:(by apply list_elem_of_In)).
  rewrite forallb_forall in H. specialize (H o2 ltac:(by apply list_elem_of_In)).
  by rewrite Hf in H.
Qed.

Lemma opt_ok_bounds o : opt_ok o = true ->
  4 <= ro_offset o /\ ro_offset o + Z.of_nat (opt_len (ro_type o)) <= sizeof_flow_spec /\
  (0 <= ro_moffset o -> 4 <= ro_moffset o /\ ro_moffset o + Z.of_nat (opt_len (ro_type o)) <= sizeof_flow_spec /\
     forall i, covers (ro_offset o) (opt_len (ro_type o)) i -> covers (ro_moffset o) (opt_len (ro_type o)) i -> False).
Proof.
  unfold opt_ok, areas, apart, covers. destruct (Z.leb_spec 0 (ro_moffset o)); cbn [forallb fst snd];
    rewrite ?andb_true_iff, ?orb_true_iff, ?Z.leb_le, ?Z.ltb_lt; intros Hok.
  - split; [lia|]. split; [lia|]. intros _. split; [lia|]. split; [lia|]. intros i. lia.
  - split; [lia|]. split; [lia|]. lia.
Qed.

Lemma find_opt_in name o : find_opt t name = Some o -> o ∈ t /\ ro_name o = name.
Proof.
  unfold find_opt. destruct (filter _ t) as [|o' l] eqn:E; [done|]. intros [= ->].
  assert (o ∈ filter (fun o => ro_name o = name) t) as H by (rewrite E; left).
  by apply list_elem_of_filter in H as [].
Qed.
End table.

(** ** The command line as items *)

(** An option with its value and, when one is given, its mask. *)
Definition item : Type := rule_opts * string * option string.

Fixpoint items (options : list rule_opts) (args : list string) : list item :=
  match args with
  | name :: value :: args2 =>
      match find_opt options name with
      | None => []
      | Some opt =>
          match args2 with
          | m :: (mask :: args4) as args3 =>
              if (streq m "m" || streq m (ro_name opt +:+ "-mask")%string)%bool
              then (opt, value, Some mask) :: items options args4
              else (opt, value, None) :: items options args2
          | _ => (opt, value, None) :: items options args2
          end
      end
  | _ => []
  end.

(** The value of an item, and its mask (stored complemented), are in the struct. *)
Definition holds (p : spec) (it : item) : Prop :=
  let '(o, v, m) := it in
  exists l, opt_bytes (ro_type o) v = Some l /\ get_bytes p (ro_offset o) (length l) = l /\
  match m with
  | None => 0 <= ro_moffset o -> get_bytes p (ro_moffset o) (length l) = replicate (length l) 255
  | Some mv => 0 <= ro_moffset o /\
      exists ml, opt_bytes (ro_type o) mv = Some ml /\ get_bytes p (ro_moffset o) (length ml) = map (notu 8) ml
  end.

(** Only the option's bytes changed. *)
Definition changes_only (o : rule_opts) (p p' : list Z) : Prop := forall i, ~ writes o i -> p' !! i = p !! i.

Lemma get_bytes_ext (p p' : list Z) off n :
  0 <= off -> (forall i, covers off n i -> p' !! i = p !! i) -> get_bytes p' off n = get_bytes p off n.
Proof.
  intros H0 Hext. unfold get_bytes. apply list_eq. intros i.
  destruct (decide (i < n)%nat) as [Hi|Hi].
  - rewrite !lookup_take_lt, !lookup_drop by done. apply Hext. unfold covers. lia.
  - by rewrite !lookup_take_ge by lia.
Qed.

Lemma holds_frame (p p' : list Z) (it : item) :
  opt_ok it.1.1 = true -> (forall i, writes it.1.1 i -> p' !! i = p !! i) -> holds p it -> holds p' it.
Proof.
  destruct it as [[o v] m]. simpl. intros Hok Hsame (l & El & Hl & Hm). exists l.
  pose proof (opt_ok_bounds o Hok) as (Hb & _ & Hbm). destruct (opt_bytes_ok _ _ _ El) as [Hlen _].
  split; [done|]. split.
  - etrans; [|exact Hl]. apply get_bytes_ext; [lia|]. intros i Hi. apply Hsame. left. by rewrite <- Hlen.
  - assert (forall n, n = opt_len (ro_type o) -> 0 <= ro_moffset o ->
      get_bytes p' (ro_moffset o) n = get_bytes p (ro_moffset o) n) as Hext.
    { intros n -> Hmo. apply get_bytes_ext; [done|]. intros i Hi. apply Hsame. by right. }
    destruct m as [mv|].
    + destruct Hm as (Hmo & ml & Eml & Hml). split; [done|]. exists ml. split; [done|].
      destruct (opt_bytes_ok _ _ _ Eml) as [Hmlen _]. by rewrite Hext.
    + intros Hmo. rewrite Hext by done. by apply Hm.
Qed.

Section parse.
Context {W : Type} (t : list rule_opts) (Ht : table_ok t = true).
Implicit Types (s : st W) (p : spec).

Lemma store_runs p off l s :
  wf_spec p -> 0 <= off -> off + Z.of_nat (length l) <= sizeof_flow_spec -> Forall is_byte l ->
  runs (store p off l) s (fun p' s' => s' = s /\ put_bytes p off l = Some p' /\ wf_spec p').
Proof.
  intros Hp H0 H1 Hl. unfold store. destruct (put_bytes_in p off l) as [p' E]; [done| |].
  - destruct Hp as [-> _]. unfold sizeof_flow_spec in *. lia.
  - rewrite E. apply runs_ret. split; [done|]. split; [done|]. by eapply wf_put.
Qed.

Lemma store_changes (p : list Z) off l p' o :
  put_bytes p off l = Some p' -> (forall i, covers off (length l) i -> writes o i) -> changes_only o p p'.
Proof.
  intros E Hw i Hn. destruct (put_bytes_some _ _ _ _ E) as (H0 & _).
  eapply lookup_put_bytes_out; [exact E|].
  destruct (decide (covers off (length l) i)) as [Hc|Hc]; [by destruct Hn; apply Hw|].
  unfold covers in Hc. lia.
Qed.

Lemma changes_trans o p1 p2 p3 : changes_only o p1 p2 -> changes_only o p2 p3 -> changes_only o p1 p3.
Proof. intros H1 H2 i Hi. rewrite (H2 i Hi). by apply H1. Qed.

Lemma get_val_runs str p flags o s : o ∈ t -> wf_spec p ->
  runs (rxclass_get_val str p flags o) s (fun '(err, p', fl) s' => s' = s /\ wf_spec p' /\
    (err = -1 \/ (err = 0 /\ Z.land flags (ro_flag o) = 0 /\ fl = Z.lor flags (ro_flag o) /\
                  holds p' (o, str, None) /\ changes_only o p p'))).
Proof.
  intros Ho Hp. unfold rxclass_get_val.
  destruct (truth (Z.land flags (ro_flag o))) eqn:Hfl; [apply runs_ret; auto|].
  assert (Z.land flags (ro_flag o) = 0) as Hfl0.
  { unfold truth in Hfl. by apply negb_false_iff, Z.eqb_eq in Hfl. }
  destruct (opt_bytes (ro_type o) str) as [l|] eqn:El; [|apply runs_ret; auto].
  destruct (opt_bytes_ok _ _ _ El) as [Hlen Hl].
  destruct (opt_ok_bounds o (table_opt t Ht o Ho)) as (Hb1 & Hb2 & Hbm).
  apply runs_bind. eapply runs_mono; [apply store_runs; [done|lia|by rewrite Hlen|done]|].
  intros p1 s' (-> & E1 & Hp1). apply runs_bind.
  assert (changes_only o p p1) as Hc1.
  { eapply store_changes; [exact E1|]. intros i Hi. left. by rewrite <- Hlen. }
  destruct (Z.leb_spec 0 (ro_moffset o)) as [Hmo|Hmo].
  - destruct (Hbm Hmo) as (Hm1 & Hm2 & Hap).
    eapply runs_mono; [apply store_runs; [done|lia|by rewrite length_replicate, Hlen|]|].
    { apply Forall_replicate. by split. }
    intros p2 s' (-> & E2 & Hp2). apply runs_ret. split; [done|]. split; [done|]. right.
    do 3 (split; [done|]). split.
    + exists l. split; [done|]. split; [|intros _; rewrite <- (length_replicate (length l) 255) at 1; by eapply get_put_same].
      etrans; [|by eapply get_put_same]. apply get_bytes_ext; [lia|]. intros i Hi.
      eapply lookup_put_bytes_out; [exact E2|]. rewrite length_replicate.
      destruct (decide (covers (ro_moffset o) (length l) i)) as [Hc|Hc].
      * rewrite Hlen in *. by destruct (Hap i).
      * unfold covers in Hc. lia.
    + eapply changes_trans; [exact Hc1|]. eapply store_changes; [exact E2|].
      intros i Hi. right. rewrite length_replicate, Hlen in Hi. done.
  - apply runs_ret, runs_ret. split; [done|]. split; [done|]. right. do 3 (split; [done|]). split; [|done].
    exists l. split; [done|]. split; [by eapply get_put_same | lia].
Qed.

Lemma get_mask_runs v str p o s : o ∈ t -> wf_spec p -> holds p (o, v, None) ->
  runs (rxclass_get_mask str p o) s (fun '(err, p') s' => s' = s /\ wf_spec p' /\
    (err = -1 \/ (err = 0 /\ holds p' (o, v, Some str) /\ changes_only o p p'))).
Proof.
  intros Ho Hp (l & El & Hl & _). unfold rxclass_get_mask.
  destruct (Z.ltb_spec (ro_moffset o) 0) as [|Hmo]; [apply runs_ret; auto|].
  destruct (opt_bytes (ro_type o) str) as [ml|] eqn:Eml; [|apply runs_ret; auto].
  destruct (opt_bytes_ok _ _ _ El) as [Hlen _]. destruct (opt_bytes_ok _ _ _ Eml) as [Hmlen _].
  destruct (opt_ok_bounds o (table_opt t Ht o Ho)) as (Hb1 & Hb2 & Hbm).
  destruct (Hbm Hmo) as (Hm1 & Hm2 & Hap).
  apply runs_bind. eapply runs_mono; [apply store_runs; [done|lia|by rewrite length_map, Hmlen|]|].
  { apply Forall_map, Forall_true. intros x. by apply wrapu_range. }
  intros p1 s' (-> & E1 & Hp1). apply runs_ret. split; [done|]. split; [done|]. right. split; [done|]. split.
  - exists l. split; [done|]. split.
    + etrans; [|exact Hl]. apply get_bytes_ext; [lia|]. intros i Hi.
      eapply lookup_put_bytes_out; [exact E1|]. rewrite length_map.
      destruct (decide (covers (ro_moffset o) (length ml) i)) as [Hc|Hc].
      * rewrite Hmlen in Hc. rewrite Hlen in Hi. by destruct (Hap i).
      * unfold covers in Hc. lia.
    + split; [done|]. exists ml. split; [done|].
      rewrite <- (length_map (notu 8) ml) at 1. by eapply get_put_same.
  - eapply store_changes; [exact E1|]. intros i Hi. right. rewrite length_map, Hmlen in Hi. done.
Qed.

(** What a successful run of the option loop has done. *)
Definition parsed (p0 : list Z) (flags0 : Z) (its : list item) (p' : list Z) (fl : Z) : Prop :=
  (forall it, it ∈ its -> it.1.1 ∈ t /\ Z.land flags0 (ro_flag it.1.1) = 0 /\ holds p' it) /\
  (forall i, (forall it, it ∈ its -> ~ writes it.1.1 i) -> p' !! i = p0 !! i) /\
  fl = fold_left (fun f (it : item) => Z.lor f (ro_flag it.1.1)) its flags0 /\
  ForallOrdPairs (fun a b : item => Z.land (ro_flag a.1.1) (ro_flag b.1.1) = 0) its.

Lemma parsed_nil p flags : parsed p flags [] p flags.
Proof. split; [by intros it Hit%elem_of_nil|]. split; [done|]. split; [done | constructor]. Qed.

Lemma land_lor_0 a b c : Z.land (Z.lor a b) c = 0 -> Z.land a c = 0 /\ Z.land b c = 0.
Proof. rewrite Z.land_lor_distr_l. apply Z.lor_eq_0_iff. Qed.

Lemma parsed_cons o v m p0 p1 flags its p' fl :
  o ∈ t -> Z.land flags (ro_flag o) = 0 -> holds p1 (o, v, m) -> changes_only o p0 p1 ->
  parsed p1 (Z.lor flags (ro_flag o)) its p' fl -> parsed p0 flags ((o, v, m) :: its) p' fl.
Proof.
  intros Ho Hf Hh Hc (Hits & Hfr & -> & Hfop). split; [|split; [|split; [done|]]].
  - intros it [->|Hit]%elem_of_cons.
    + split; [done|]. split; [done|]. eapply holds_frame; [by apply (table_opt t Ht)| |exact Hh].
      simpl. intros i Hi. apply Hfr. intros it Hit Hw. destruct (Hits it Hit) as (Hin & Hl & _).
      apply land_lor_0 in Hl as [_ Hl]. by eapply (table_apart t Ht o it.1.1 i).
    + destruct (Hits it Hit) as (Hin & Hl & Hhold). by apply land_lor_0 in Hl as [Hl _].
  - intros i Hi. rewrite Hfr by (intros; apply Hi; by right). apply Hc.
    apply (Hi (o, v, m)). by left.
  - constructor; [|done]. apply Forall_forall. intros it Hit%list_elem_of_In.
    destruct (Hits it Hit) as (_ & Hl & _). by apply land_lor_0 in Hl as [_ Hl].
Qed.

Definition parse_post (p0 : list Z) (flags0 : Z) (its : list item) (s : st W) (x : Z * spec * Z) (s' : st W) : Prop :=
  dev s' = dev s /\ wf_spec x.1.2 /\ (x.1.1 = -1 \/ (x.1.1 = 0 /\ parsed p0 flags0 its x.1.2 x.2)).

Lemma parse_opts_runs n : forall args p flags s, (length args <= n)%nat -> wf_spec p ->
  runs (parse_opts t args p flags) s (parse_post p flags (items t args) s).
Proof.
  induction n as [|n IH]; intros [|name [|value args2]] p flags s Hn Hp; simpl in Hn; try lia; simpl.
  1,2: apply runs_ret; split; [done|]; split; [done|]; right; split; [done | apply parsed_nil].
  - destruct (find_opt t name); runs_steps; (split; [done|]; split; [done|]); [right | by left].
    split; [done | apply parsed_nil].
  - destruct (find_opt t name) as [opt|] eqn:Eo.
    2:{ runs_steps. split; [done|]. split; [done|]. by left. }
    apply find_opt_in in Eo as [Ho _]. apply runs_bind.
    eapply runs_mono; [by apply get_val_runs|]. intros [[err p1] fl1] s' (-> & Hp1 & Hres).
    destruct Hres as [->|(-> & Hl & -> & Hh & Hc)].
    { simpl. runs_steps. split; [done|]. split; [done|]. by left. }
    assert (forall its s x s', parse_post p1 (Z.lor flags (ro_flag opt)) its s x s' ->
              parse_post p flags ((opt, value, None) :: its) s x s') as Hpost.
    { intros its s1 x s2 (Hd & Hw & [He|[He Hpar]]); split; [done| |done|]; (split; [done|]); [by left|right].
      split; [done|]. by eapply parsed_cons. }
    cbn [truth negb Z.eqb].
    destruct args2 as [|m args3].
    { apply runs_ret, Hpost. split; [done|]. split; [done|]. right. split; [done | apply parsed_nil]. }
    destruct (streq m "m" || streq m (ro_name opt +:+ "-mask")%string)%bool; cbn [negb].
    2:{ eapply runs_mono; [apply IH; [simpl in *; lia|done]|].
        intros x s' HP. destruct args3; by apply Hpost. }
    destruct args3 as [|mask args4].
    { unfold syntax_err. runs_steps. split; [done|]. split; [done|]. by left. }
    apply runs_bind. eapply runs_mono; [by eapply get_mask_runs|].
    intros [err p2] s' (-> & Hp2 & [->|(-> & Hh2 & Hc2)]).
    { simpl. runs_steps. split; [done|]. split; [done|]. by left. }
    cbn [truth negb Z.eqb]. eapply runs_mono; [apply IH; [simpl in *; lia|done]|].
    intros x s' (Hd & Hw & [He|[He Hpar]]); (split; [done|]; split; [done|]); [by left|right].
    split; [done|]. eapply parsed_cons; [done|done|exact Hh2| |exact Hpar]. by eapply changes_trans.
Qed.
End parse.

(** ** The fields set outside the loop *)

Definition init_spec (ft : Z) : spec := setf (setf zero_spec flow_type ft) location RX_CLS_LOC_ANY.
Definition is_ext (it : item) : bool :=
  (streq (ro_name it.1.1) "vlan-etype" || streq (ro_name it.1.1) "vlan" || streq (ro_name it.1.1) "user-def")%bool.

Lemma flow_fields_in : in_spec flow_type /\ in_spec (h_u ip4.ip_ver).
Proof. by repeat split. Qed.

Lemma wf_init_spec ft : wf_spec (init_spec ft).
Proof. apply wf_setf; [|by split]. apply wf_setf; [apply wf_zero_spec | by split]. Qed.

Lemma setf_lookup_out (p : list Z) f v i :
  wf_spec p -> in_spec f -> ~ covers (f_off f) (f_len f) i -> setf p f v !! i = p !! i.
Proof.
  intros Hp Hf Hc. pose proof (setf_put p f v Hp Hf) as E. destruct Hf as [H0 _].
  eapply lookup_put_bytes_out; [exact E|]. rewrite le_bytes_length. unfold covers in Hc. lia.
Qed.

(** Flags and names agree on which options are extensions, and the raw IPv4
    options leave [ip_ver] alone. *)
Definition ext_ok (t : list rule_opts) : bool :=
  forallb (fun o => Bool.eqb (truth (Z.land (ro_flag o) EXT_FLAGS)) (is_ext (o, EmptyString, None))) t.

Lemma options_of_ext ft t o : options_of ft = Some t -> o ∈ t ->
  truth (Z.land (ro_flag o) EXT_FLAGS) = is_ext (o, EmptyString, None).
Proof.
  intros Hopt Ho. assert (forallb ext_ok all_tables = true) as H by (vm_compute; reflexivity).
  assert (ext_ok t = true) as Ht.
  { rewrite forallb_forall in H. apply H. unfold options_of in Hopt.
    repeat case_match; simplify_eq; unfold all_tables; simpl; tauto. }
  unfold ext_ok in Ht. rewrite forallb_forall in Ht.
  apply Bool.eqb_prop, Ht. by apply list_elem_of_In.
Qed.

Lemma usr_ip_ver o : o ∈ rule_nfc_usr_ip4 -> ~ writes o 17.
Proof.
  intros Ho. assert (forallb (fun o => forallb (apart (17, 18)) (areas o)) rule_nfc_usr_ip4 = true) as H
    by (vm_compute; reflexivity).
  rewrite forallb_forall in H. apply list_elem_of_In, H in Ho.
  unfold writes, covers, areas, apart in *. intros Hw.
  destruct (Z.leb_spec 0 (ro_moffset o)); cbn [forallb fst snd] in Ho;
    rewrite ?andb_true_iff, ?orb_true_iff, ?Z.leb_le in Ho; lia.
Qed.

Lemma truth_land_fold (its : list item) E : forall f,
  truth (Z.land (fold_left (fun f (it : item) => Z.lor f (ro_flag it.1.1)) its f) E) =
    (truth (Z.land f E) || existsb (fun it => truth (Z.land (ro_flag it.1.1) E)) its)%bool.
Proof.
  induction its as [|it its IH]; intros f; simpl; [by rewrite orb_false_r|].
  rewrite IH, orb_assoc. f_equal. unfold truth. rewrite Z.land_lor_distr_l.
  destruct (Z.eqb_spec (Z.lor (Z.land f E) (Z.land (ro_flag it.1.1) E)) 0) as [H|H].
  - by apply Z.lor_eq_0_iff in H as [-> ->].
  - destruct (Z.eqb_spec (Z.land f E) 0) as [H1|]; [|done].
    destruct (Z.eqb_spec (Z.land (ro_flag it.1.1) E) 0) as [H2|]; [|done].
    by rewrite H1, H2 in H.
Qed.

(** What is left to do after the loop keeps the items in place. *)
Lemma flow_type_small name ft : flow_type_of name = Some ft -> 0 <= ft < 32.
Proof. unfold flow_type_of. repeat case_match; intros [= <-]; by split. Qed.

Lemma item_low t it i : table_ok t = true -> it ∈ t -> writes it i -> (4 <= i)%nat.
Proof.
  intros Ht Hin Hw. destruct (opt_ok_bounds it (table_opt t Ht it Hin)) as (H1 & _ & H2).
  unfold writes, covers in Hw. destruct Hw as [|[Hm ?]]; [lia|]. destruct (H2 Hm). lia.
Qed.

Lemma getf_agree (p p' : list Z) f :
  0 <= f_off f -> (forall i, covers (f_off f) (f_len f) i -> p' !! i = p !! i) -> getf p' f = getf p f.
Proof. intros H0 Hs. unfold getf. f_equal. by apply get_bytes_ext. Qed.

Lemma init_flow_type ft : 0 <= ft < 32 -> getf (init_spec ft) flow_type = ft.
Proof.
  intros Hft. destruct flow_fields_in as [Hf _].
  assert (wf_spec (setf zero_spec flow_type ft)) by (apply wf_setf; [apply wf_zero_spec | done]).
  unfold init_spec. rewrite getf_setf_ne; [|done|by split|done|simpl; lia].
  rewrite getf_setf by (apply wf_zero_spec || done). apply Z.mod_small. simpl. lia.
Qed.

Lemma lor_ext_range ft : 0 <= ft < 32 -> 0 <= Z.lor ft FLOW_EXT < 256 ^ 4.
Proof. intros. change (256 ^ 4) with (2 ^ 32). apply lor_range; unfold FLOW_EXT; lia. Qed.

Lemma options_of_usr t : options_of IP_USER_FLOW = Some t -> t = rule_nfc_usr_ip4.
Proof. by intros [= <-]. Qed.

Definition finish (ft fl : Z) (p : spec) : spec :=
  let p := if ft =? IP_USER_FLOW then setf p (h_u ip4.ip_ver) ETH_RX_NFC_IP4 else p in
  if truth (Z.land fl EXT_FLAGS) then setf p flow_type (Z.lor (getf p flow_type) FLOW_EXT) else p.

Section finish.
Context (ft fl : Z) (t : list rule_opts) (rest : list string) (p : spec).
Context (Hft : 0 <= ft < 32) (Ht : options_of ft = Some t) (Hp : wf_spec p).
Context (Hpar : parsed t (init_spec ft) 0 (items t rest) p fl).
Let p1 := if ft =? IP_USER_FLOW then setf p (h_u ip4.ip_ver) ETH_RX_NFC_IP4 else p.

Lemma wf_p1 : wf_spec p1.
Proof. unfold p1. destruct (ft =? IP_USER_FLOW); [apply wf_setf; [done | apply flow_fields_in] | done]. Qed.

Lemma wf_finish : wf_spec (finish ft fl p).
Proof.
  unfold finish. fold p1. pose proof wf_p1.
  destruct (truth _); [apply wf_setf; [done | apply flow_fields_in] | done].
Qed.

Lemma p1_agree i : (ft = IP_USER_FLOW -> i <> 17%nat) -> (p1 : list Z) !! i = (p : list Z) !! i.
Proof.
  intros Hi. unfold p1. destruct (Z.eqb_spec ft IP_USER_FLOW) as [E|]; [|done].
  apply setf_lookup_out; [done | apply flow_fields_in|]. unfold covers. simpl. specialize (Hi E). lia.
Qed.

Lemma finish_agree i : (4 <= i)%nat -> (finish ft fl p : list Z) !! i = (p1 : list Z) !! i.
Proof.
  intros Hi. unfold finish. fold p1. destruct (truth _); [|done].
  apply setf_lookup_out; [apply wf_p1 | apply flow_fields_in|]. unfold covers. simpl. lia.
Qed.

Lemma p1_flow_type : getf p1 flow_type = ft.
Proof.
  etrans; [|exact (init_flow_type ft Hft)].
  pose proof (options_of_table ft t Ht) as Htab. destruct Hpar as (Hits & Hfr & _).
  transitivity (getf p flow_type).
  - apply getf_agree; [done|]. intros i Hi. apply p1_agree. unfold covers in Hi. simpl in Hi. lia.
  - apply getf_agree; [done|]. intros i Hi. apply Hfr. intros it Hit Hw.
    pose proof (item_low t it.1.1 i Htab (proj1 (Hits it Hit)) Hw). unfold covers in Hi. simpl in Hi. lia.
Qed.

Lemma ext_flags : truth (Z.land fl EXT_FLAGS) = existsb is_ext (items t rest).
Proof.
  destruct Hpar as (Hits & _ & -> & _). rewrite truth_land_fold. simpl.
  assert (forall l, (forall it, it ∈ l -> it.1.1 ∈ t) ->
    existsb (fun it : item => truth (Z.land (ro_flag it.1.1) EXT_FLAGS)) l = existsb is_ext l) as H.
  { induction l as [|it l IH]; intros Hl; simpl; [done|].
    rewrite IH by (intros; apply Hl; by right). f_equal.
    rewrite (options_of_ext ft t it.1.1 Ht) by (apply Hl; by left). done. }
  apply H. intros it Hit. by apply Hits.
Qed.

Lemma finish_flow_type :
  getf (finish ft fl p) flow_type = if existsb is_ext (items t rest) then Z.lor ft FLOW_EXT else ft.
Proof.
  unfold finish. fold p1. rewrite ext_flags, p1_flow_type.
  destruct (existsb _ _); [|apply p1_flow_type].
  rewrite getf_setf by (apply wf_p1 || apply flow_fields_in).
  apply Z.mod_small. by apply lor_ext_range.
Qed.

Lemma finish_ip_ver : ft = IP_USER_FLOW -> getf (finish ft fl p) (h_u ip4.ip_ver) = ETH_RX_NFC_IP4.
Proof.
  intros E. transitivity (getf p1 (h_u ip4.ip_ver)).
  - apply getf_agree; [done|]. intros i Hi. apply finish_agree. unfold covers in Hi. simpl in Hi. lia.
  - unfold p1. rewrite E. simpl. rewrite getf_setf by (done || apply flow_fields_in). done.
Qed.

Lemma finish_parse :
  let its := items t rest in let p' := finish ft fl p in
  wf_spec p' /\ (forall it, it ∈ its -> it.1.1 ∈ t /\ holds p' it) /\
  ForallOrdPairs (fun a b => Z.land (ro_flag a.1.1) (ro_flag b.1.1) = 0) its /\
  getf p' flow_type = (if existsb is_ext its then Z.lor ft FLOW_EXT else ft) /\
  (ft = IP_USER_FLOW -> getf p' (h_u ip4.ip_ver) = ETH_RX_NFC_IP4) /\
  forall i, (4 <= i)%nat -> (ft = IP_USER_FLOW -> i <> 17%nat) ->
    (forall it, it ∈ its -> ~ writes it.1.1 i) -> (p' : list Z) !! i = (init_spec ft : list Z) !! i.
Proof.
  pose proof Hpar as (Hits & Hfr & _ & Hfop). pose proof (options_of_table ft t Ht) as Htab.
  split; [apply wf_finish|]. split.
  - intros it Hit. destruct (Hits it Hit) as (Hin & _ & Hh). split; [done|].
    eapply holds_frame; [by apply (table_opt t Htab)| |exact Hh]. intros i Hw.
    rewrite finish_agree by (by eapply item_low). apply p1_agree.
    intros E. subst ft. apply options_of_usr in Ht. subst t. intros ->. by eapply usr_ip_ver.
  - split; [done|]. split; [apply finish_flow_type|]. split; [apply finish_ip_ver|].
    intros i Hi H17 Hn. rewrite finish_agree, p1_agree by done. by apply Hfr.
Qed.
End finish.

(** ** The whole parser *)

(** [p] is the rule the arguments describe. *)
Definition rule_of (args : list string) (p : spec) : Prop :=
  exists name rest ft t, args = name :: rest /\ flow_type_of name = Some ft /\
    options_of ft = Some t /\ let its := items t rest in
    wf_spec p /\ (forall it, it ∈ its -> it.1.1 ∈ t /\ holds p it) /\
    ForallOrdPairs (fun a b => Z.land (ro_flag a.1.1) (ro_flag b.1.1) = 0) its /\
    getf p flow_type = (if existsb is_ext its then Z.lor ft FLOW_EXT else ft) /\
    (ft = IP_USER_FLOW -> getf p (h_u ip4.ip_ver) = ETH_RX_NFC_IP4) /\
    forall i, (4 <= i)%nat -> (ft = IP_USER_FLOW -> i <> 17%nat) ->
      (forall it, it ∈ its -> ~ writes it.1.1 i) -> (p : list Z) !! i = (init_spec ft : list Z) !! i.

Lemma parse_ruleopts_spec {W} (args : list string) (fsp : spec) (s : st W) :
  runs (rxclass_parse_ruleopts args fsp) s (fun '(err, p) s' => dev s' = dev s /\ (err = 0 \/ err = -1) /\
    (err = 0 -> rule_of args p)).
Proof.
  unfold rxclass_parse_ruleopts, syntax_err.
  destruct args as [|name rest]; [runs_steps; split; [done|]; split; [by right | done]|].
  destruct (flow_type_of name) as [ft|] eqn:Eft; [|runs_steps; split; [done|]; split; [by right | done]].
  destruct (options_of ft) as [t|] eqn:Et; [|runs_steps; split; [done|]; split; [by right | done]].
  pose proof (options_of_table ft t Et) as Ht. fold (init_spec ft). apply runs_bind.
  eapply runs_mono; [apply (parse_opts_runs t Ht (length rest)); [done | apply wf_init_spec]|].
  intros [[err p] fl] s' (Hd & Hp & [He|[He Hpar]]); simpl in *; subst err.
  { apply runs_ret. split; [done|]. split; [by right | done]. }
  apply runs_ret. split; [done|]. split; [by left|]. intros _.
  exists name, rest, ft, t. do 3 (split; [done|]).
  apply (finish_parse ft fl t rest p (flow_type_small name ft Eft) Et Hp Hpar).
Qed.
