(* ===== verification/RxClaims.v ===== *)
(** * ethtool receive classification: properties

    The slot search, insertion against a driver with a rule table, the option
    parser, and the display of user-defined data. *)

From stdpp Require Import base list strings gmap numbers.
From Stdlib Require Import ZArith Lia Ascii.
From S2P Require Import Prelude CInt CLib CLibOk RxSpec RxRules RxRulesOk RxInsert RxParse RxParseOk.

(** ** Slot search *)

Definition demo_rmgr (size : Z) (words : list Z) : rmgr_ctrl := mk_rmgr false words 0 size.
Definition demo_tbl : tbl := mk_tbl {[ 9 := zero_spec; 8 := zero_spec ]} 10 false.

Section search.
Context `{DM : DataModel} {D : Type} `{RD : RxDevice D}.

(** C15: in a table whose size is not a multiple of the word size, the search
    takes the free location of the highest number (the lowest priority), records
    it in the rule and marks it; it gives up only when every location is used. *)
Theorem find_empty_slot_highest_free (rmgr : rmgr_ctrl) (fsp : spec) (s : st D) :
  wf_rmgr rmgr -> driver_select rmgr = false -> rm_size rmgr mod BITS_PER_LONG <> 0 ->
  runs (rmgr_find_empty_slot rmgr fsp) s (fun '(err, rmgr', fsp') s' => dev s' = dev s /\
    ((exists loc, err = 0 /\ 0 <= loc < rm_size rmgr /\ used (slot rmgr) loc = false /\
        (forall k, loc < k < rm_size rmgr -> used (slot rmgr) k = true) /\
        fsp' = setf fsp location loc /\
        forall k, 0 <= k -> used (slot rmgr') k = ((k =? loc) || used (slot rmgr) k)%bool) \/
     (err = -1 /\ fsp' = fsp /\ forall k, 0 <= k < rm_size rmgr -> used (slot rmgr) k = true))).
Proof.
  intros Hwf Hsel Hmod. eapply runs_mono; [by apply find_empty_slot_spec|].
  assert (search_limit rmgr = rm_size rmgr) as El.
  { unfold search_limit. by destruct (Z.eqb_spec (rm_size rmgr mod BITS_PER_LONG) 0). }
  intros [[err rm] fsp'] s' [[-> (loc & Hl & Hu & Hall & He & Hf & _ & Hm)]|[Hd [Hall [= -> -> ->]]]];
    rewrite El in *; simpl in *.
  - split; [done|]. left. exists loc. auto 10.
  - split; [done|]. by right.
Qed.

(** In a table whose size is a multiple of the word size, a used first
    location of the last word hides that word from the search: with the words
    below it full, insertion fails whatever is free in the last word. *)
Theorem find_empty_slot_skips_last_word (rmgr : rmgr_ctrl) (fsp : spec) (s : st D) :
  wf_rmgr rmgr -> driver_select rmgr = false -> rm_size rmgr mod BITS_PER_LONG = 0 ->
  (forall k, 0 <= k <= rm_size rmgr - BITS_PER_LONG -> used (slot rmgr) k = true) ->
  runs (rmgr_find_empty_slot rmgr fsp) s (fun x _ => x = (-1, rmgr, fsp)).
Proof.
  intros Hwf Hsel Hmod Hused. eapply runs_mono; [by apply find_empty_slot_spec|].
  assert (search_limit rmgr = rm_size rmgr - BITS_PER_LONG) as El.
  { unfold search_limit. rewrite Hmod, Hused; [done|].
    pose proof (multiple_B (rm_size rmgr) (proj1 (proj1 Hwf)) Hmod). lia. }
  intros x s' [[-> (loc & Hl & Hu & _)]|[_ [_ ->]]]; [|done].
  rewrite El in Hl. rewrite Hused in Hu by lia. done.
Qed.
End search.

Lemma wf_demo_rmgr size words w :
  @BITS_TO_LONGS LP64 size = 1 -> 0 < size <= 64 -> words = [w] -> 0 <= w < 2 ^ size ->
  wf_rmgr (DM := LP64) (demo_rmgr size words).
Proof.
  intros Hb Hs -> Hw. assert (2 ^ size <= 2 ^ 64) by (apply Z.pow_le_mono_r; lia).
  split; [simpl; lia|]. split; [simpl; by rewrite Hb|]. split.
  - constructor; [|done]. unfold BITS_PER_LONG. simpl. lia.
  - simpl. intros l Hl. destruct (decide (l / 64 = 0)) as [H0|H0].
    + rewrite (@used_word LP64 l [w] w) by (lia || (unfold BITS_PER_LONG; simpl; by rewrite H0)).
      unfold BITS_PER_LONG. simpl. apply (testbit_high size); [lia | done |].
      pose proof (Z.div_mod l 64 ltac:(lia)). lia.
    + unfold used, test_bit, BITS_PER_LONG. simpl. rewrite word_at_lookup by (apply Z.div_pos; lia).
      rewrite lookup_ge_None_2; [done|]. simpl. assert (0 <= l / 64) by (apply Z.div_pos; lia). lia.
Qed.

Lemma find_empty_slot_highest_free_witness :
  runs (@rmgr_find_empty_slot LP64 unit (demo_rmgr 10 [0x280]) zero_spec) (mkst [] tt)
    (fun '(err, _, _) s' => err = 0).
Proof.
  eapply runs_mono.
  - apply (@find_empty_slot_highest_free LP64 unit (demo_rmgr 10 [0x280]) zero_spec (mkst [] tt)).
    + by apply (wf_demo_rmgr 10 _ 0x280).
    + reflexivity.
    + discriminate.
  - intros [[err rm] f] s' [_ [(loc & -> & _)|(_ & _ & Hall)]]; [done|].
    specialize (Hall 0 ltac:(simpl; lia)). by vm_compute in Hall.
Defined.

(** 63 of the 64 locations are free. *)
Lemma find_empty_slot_skips_last_word_witness :
  runs (@rmgr_find_empty_slot LP64 unit (demo_rmgr 64 [1]) zero_spec) (mkst [] tt)
    (fun x _ => x = (-1, demo_rmgr 64 [1], zero_spec)) /\
  forall k, 0 < k < 64 -> @used LP64 [1] k = false.
Proof.
  split.
  - apply (@find_empty_slot_skips_last_word LP64 unit (demo_rmgr 64 [1]) zero_spec (mkst [] tt)).
    + by apply (wf_demo_rmgr 64 _ 1).
    + reflexivity.
    + reflexivity.
    + intros k Hk. simpl in Hk. unfold BITS_PER_LONG in Hk. simpl in Hk. replace k with 0 by lia. reflexivity.
  - intros k Hk. assert (k / 64 = 0) as H0 by (apply Z.div_small; lia).
    rewrite (@used_word LP64 k [1] 1) by (lia || (unfold BITS_PER_LONG; simpl; by rewrite H0)).
    unfold BITS_PER_LONG. simpl. rewrite Z.mod_small by lia.
    change 1 with (2 ^ 0). apply Z.pow2_bits_false. lia.
Defined.

(** ** Insertion *)

Section insertion.
Context `{DM : DataModel} {D : Type} `{RD : RxDevice D, !RxDriver D} (env : rx_env).

(** C4: adding a rule without a location, to a driver that does not choose
    locations, never replaces or removes a rule: the table is unchanged, or has
    the new rule at a location that was free. *)
Theorem rule_ins_keeps_rules (fsp : spec) (s : st D) :
  selects (dev s) = false -> wf_spec fsp ->
  truth (Z.land (getf fsp location) RX_CLS_LOC_SPECIAL) = true ->
  runs (rxclass_rule_ins env fsp) s (fun _ s' =>
    rules (dev s') = rules (dev s) \/
    exists loc, 0 <= loc < table_size (dev s) /\ rules (dev s) !! loc = None /\
      rules (dev s') = <[loc := setf fsp location loc]> (rules (dev s))).
Proof.
  intros Hsel Hfsp Hsp. eapply runs_mono; [by apply rule_ins_spec|]. intros r s' [H | (_ & H)]; [by left|by right].
Qed.

(** C34: when a location is free, the table size is not a multiple of the word
    size, memory is available and the driver answers and accepts, a rule added
    without a location is in the table afterwards. *)
Theorem rule_ins_inserts (fsp : spec) (s : st D) :
  selects (dev s) = false -> wf_spec fsp ->
  truth (Z.land (getf fsp location) RX_CLS_LOC_SPECIAL) = true ->
  queries_ok (dev s) -> (forall n, env_calloc env n = true) ->
  (forall q, nfc_cmd q = ETHTOOL_SRXCLSRLINS -> 0 <= getf (nfc_fs q) location < table_size (dev s) ->
     0 <= (send_ioctl q (dev s)).1.1) ->
  table_size (dev s) mod BITS_PER_LONG <> 0 ->
  (exists loc, 0 <= loc < table_size (dev s) /\ rules (dev s) !! loc = None) ->
  runs (rxclass_rule_ins env fsp) s (fun r s' => r = 0 /\
    exists loc, rules (dev s) !! loc = None /\ rules (dev s') !! loc = Some (setf fsp location loc)).
Proof.
  intros Hsel Hfsp Hsp Hq Hc Hins Hmod Hfree0. unfold rxclass_rule_ins. rewrite Hsp. apply runs_bind.
  eapply runs_mono; [by apply set_location_spec|]. intros [err fsp'] s' (Hd & Hok & Hpos). cbn [andb].
  specialize (Hpos Hq Hc Hmod Hfree0).
  destruct (Z.ltb_spec err 0) as [Hlt|Hge]; [lia|].
  destruct (Hok Hge) as (loc & [Hl Hfree] & ->). pose proof (table_size_ok (dev s)).
  assert (getf (setf fsp location loc) location = loc) as Eloc.
  { rewrite getf_setf by (done || apply in_spec_location). apply Z.mod_small. simpl. lia. }
  apply runs_bind, runs_ioctl. intros err2 r d' E. rewrite Hd in E.
  pose proof (ioctl_err _ _ _ _ _ E) as Hpos2.
  apply ioctl_insert in E as (_ & _ & Hno & Hyes); [|done|simpl; rewrite Eloc; done].
  simpl in *. rewrite Eloc in Hyes.
  assert (0 <= err2) as Hge2 by (apply Hpos2, Hins; [done | simpl; by rewrite Eloc]).
  destruct (Z.ltb_spec err2 0); [lia|]. runs_steps. split; [done|]. exists loc. split; [done|].
  destruct (Hyes Hge2) as [_ ->]. by apply lookup_insert_eq.
Qed.
End insertion.

Definition demo_env : rx_env := {| env_junk := mk_rxnfc 0 0 zero_spec 0 []; env_calloc := fun _ => true; env_errno := "errno" |}.
Definition any_spec : spec := setf zero_spec location RX_CLS_LOC_ANY.

Lemma wf_any_spec : wf_spec any_spec.
Proof. apply wf_setf; [apply wf_zero_spec | apply in_spec_location]. Qed.

Lemma rule_ins_keeps_rules_witness :
  runs (@rxclass_rule_ins LP64 tbl _ demo_env any_spec) (mkst [] demo_tbl) (fun _ s' =>
    rules (dev s') = rules demo_tbl \/
    exists loc, 0 <= loc < table_size demo_tbl /\ rules demo_tbl !! loc = None /\
      rules (dev s') = <[loc := setf any_spec location loc]> (rules demo_tbl)).
Proof.
  apply (@rule_ins_keeps_rules LP64 tbl _ _ demo_env any_spec (mkst [] demo_tbl)).
  - reflexivity.
  - apply wf_any_spec.
  - reflexivity.
Defined.

Lemma rule_ins_inserts_witness :
  runs (@rxclass_rule_ins LP64 tbl _ demo_env any_spec) (mkst [] demo_tbl) (fun r s' => r = 0 /\
    exists loc, rules demo_tbl !! loc = None /\ rules (dev s') !! loc = Some (setf any_spec location loc)).
Proof.
  apply (@rule_ins_inserts LP64 tbl _ _ demo_env any_spec (mkst [] demo_tbl)).
  - reflexivity.
  - apply wf_any_spec.
  - reflexivity.
  - intros q [Hq|Hq]; unfold send_ioctl, tbl_RxDevice, tbl_ioctl; rewrite Hq; simpl; lia.
  - reflexivity.
  - intros q Hq [_ Hl]. unfold send_ioctl, tbl_RxDevice, tbl_ioctl. rewrite Hq. simpl.
    destruct (Z.ltb_spec (getf (nfc_fs q) location) (tbl_size demo_tbl)) as [_|Hge]; [simpl; lia|].
    exfalso. apply (Z.lt_irrefl (tbl_size demo_tbl)). eapply Z.le_lt_trans; [exact Hge | exact Hl].
  - discriminate.
  - exists 0. split; [split; reflexivity || discriminate | reflexivity].
Defined.

(** Adding a rule at a given location reports success even when the driver
    refuses it: the function returns 0 and only a message tells. *)
Theorem rule_ins_hides_refusal `{DM : DataModel} {D : Type} `{RD : RxDevice D} (env : rx_env)
    (fsp : spec) (s : st D) :
  truth (Z.land (getf fsp location) RX_CLS_LOC_SPECIAL) = false ->
  (forall q d, nfc_cmd q = ETHTOOL_SRXCLSRLINS -> (send_ioctl q d).1.1 < 0) ->
  runs (rxclass_rule_ins env fsp) s (fun r s' => r = 0 /\
    out s' = Stderr ("rmgr: Cannot insert RX class rule: " +:+ env_errno env +:+ nl) :: out s).
Proof.
  intros Hsp Hbad. unfold rxclass_rule_ins. rewrite Hsp. apply runs_bind, runs_ret. cbn [andb].
  apply runs_bind. apply runs_devop.
  set (q := mk_rxnfc _ _ _ _ _). pose proof (Hbad q (dev s) eq_refl) as Hlt.
  destruct (send_ioctl q (dev s)) as [[err r] d']. simpl in *.
  destruct (Z.ltb_spec err 0); [|lia]. unfold perror. by runs_steps.
Qed.

Definition refusing_device (q : rxnfc) (d : unit) : Z * rxnfc * unit := (-1, q, d).

Lemma rule_ins_hides_refusal_witness :
  runs (@rxclass_rule_ins LP64 unit refusing_device demo_env zero_spec) (mkst [] tt) (fun r s' => r = 0 /\
    out s' = [Stderr ("rmgr: Cannot insert RX class rule: " +:+ env_errno demo_env +:+ nl)]).
Proof.
  apply (@rule_ins_hides_refusal LP64 unit refusing_device demo_env zero_spec (mkst [] tt)).
  - reflexivity.
  - intros q d _. simpl. lia.
Defined.

(** ** Option values *)

(** A number within the width of the option is read as itself, a larger one
    is refused, for each of the widths in use. *)
Theorem get_ulong_exact (n size : Z) :
  0 <= n -> size = 8 \/ size = 16 \/ size = 32 \/ size = 64 ->
  rxclass_get_ulong (dec n) size = if n <? 2 ^ size then Some n else None.
Proof.
  intros Hn Hsize. unfold rxclass_get_ulong, strtoull.
  assert (u64 (wraps 64 (Z.shiftr (2 ^ 64 - 1) (64 - size))) = 2 ^ size - 1) as ->
    by (destruct Hsize as [-> | [-> | [-> | ->]]]; reflexivity).
  assert (2 ^ size <= 2 ^ 64) by (apply Z.pow_le_mono_r; lia).
  destruct (Z.lt_ge_cases n (2 ^ 64)).
  - rewrite strtou_dec by lia. simpl.
    destruct (Z.ltb_spec (2 ^ size - 1) n), (Z.ltb_spec n (2 ^ size)); lia || done.
  - rewrite strtou_dec_big by lia. cbn [char_at0 CLib.send serange sv]. simpl.
    destruct (Z.ltb_spec n (2 ^ size)); [lia | done].
Qed.

Lemma get_ulong_exact_witness :
  rxclass_get_ulong (dec 65535) 16 = Some 65535 /\ rxclass_get_ulong (dec 65536) 16 = None.
Proof.
  split.
  - apply (get_ulong_exact 65535 16); [lia | auto].
  - apply (get_ulong_exact 65536 16); [lia | auto].
Defined.

(** ** The parser *)

Section parser.
Context {W : Type}.

(** C7: parsing rule options always ends with 0 or -1 and never writes outside
    the rule. When it ends with 0, the options on the command line were used at
    most once and do not overlap, the value and the mask of each of them are in
    the rule, the flow type carries [FLOW_EXT] exactly when a VLAN or
    user-defined option was given, and all other bytes have their initial
    value. *)
Theorem parse_ruleopts_correct (args : list string) (fsp : spec) (s : st W) :
  runs (rxclass_parse_ruleopts args fsp) s (fun '(err, p) s' => dev s' = dev s /\ (err = 0 \/ err = -1) /\
    (err = 0 -> exists name rest ft t, args = name :: rest /\ flow_type_of name = Some ft /\
       options_of ft = Some t /\ let its := items t rest in
       wf_spec p /\ (forall it, it ∈ its -> it.1.1 ∈ t /\ holds p it) /\
       ForallOrdPairs (fun a b => Z.land (ro_flag a.1.1) (ro_flag b.1.1) = 0) its /\
       getf p flow_type = (if existsb is_ext its then Z.lor ft FLOW_EXT else ft) /\
       (ft = IP_USER_FLOW -> getf p (h_u ip4.ip_ver) = ETH_RX_NFC_IP4) /\
       forall i, (4 <= i)%nat -> (ft = IP_USER_FLOW -> i <> 17%nat) ->
         (forall it, it ∈ its -> ~ writes it.1.1 i) -> (p : list Z) !! i = (init_spec ft : list Z) !! i)).
Proof. apply parse_ruleopts_spec. Qed.
End parser.

(** ** Display *)

Section display.
Context {D : Type}.

(** The display of user-defined data drops its first 32-bit word: rules
    that differ only there are shown alike. *)
Theorem print_ext_ignores_data0 (p : spec) (v : Z) (s : st D) :
  wf_spec p ->
  rxclass_print_nfc_spec_ext (setf p (h_ext flow_ext.data0) v) s = rxclass_print_nfc_spec_ext p s.
Proof.
  intros Hp. assert (in_spec (h_ext flow_ext.data0)) as Hf by by split.
  unfold rxclass_print_nfc_spec_ext.
  rewrite !getf_setf_ne by (done || (unfold in_spec; simpl; lia) || (simpl; lia)). done.
Qed.
End display.

Lemma print_ext_ignores_data0_witness :
  rxclass_print_nfc_spec_ext (setf zero_spec (h_ext flow_ext.data0) 7) (mkst [] tt) =
  rxclass_print_nfc_spec_ext zero_spec (mkst [] tt).
Proof. apply (print_ext_ignores_data0 zero_spec 7 (mkst [] tt)), wf_zero_spec. Defined.
