(* ===== verification/CanSocket.v ===== *)
(** * CAN utilities: frames, sockets and the operating system

    What the programs of [can_test/utilities] share: [struct can_frame] and the
    masks of [linux/can.h], the answers of the operating system, and the state of
    the raw CAN socket. Answers that can change from call to call get the number
    of earlier calls. *)

From stdpp Require Import base list strings numbers.
From Stdlib Require Import ZArith Lia.
From S2P Require Import Prelude CInt CLib.

Definition CAN_EFF_FLAG : Z := 0x80000000.
Definition CAN_RTR_FLAG : Z := 0x40000000.
Definition CAN_SFF_MASK : Z := 0x7ff.
Definition CAN_EFF_MASK : Z := 0x1fffffff.
Definition PF_CAN : Z := 29.
Definition SOCK_RAW : Z := 3.
Definition CAN_RAW : Z := 1.
Definition IFNAMSIZ : Z := 16.
Definition EINTR : Z := 4.
Definition ENOBUFS : Z := 105.

Record can_frame := mk_frame { can_id : Z; can_dlc : Z; data : list Z }.

(** [write]: success, or -1 with [errno]. [read]: a frame, a short read, or -1. *)
Inductive write_res := WriteOk | WriteErr (errno : Z).
Inductive read_res := ReadFrame (f : can_frame) | ReadShort | ReadErr.

Record can_os := {
  os_socket : Z -> Z -> Z -> bool;
  os_ifindex : string -> bool;
  os_bind : bool;
  os_setsockopt : nat -> bool;
  os_read : nat -> read_res;
  os_write : nat -> write_res;
  (** [None] is success, else [errno] *)
  os_poll : nat -> option Z;
  (** the flag [running] when the loop tests it for the n-th time *)
  os_running : nat -> bool;
  os_strerror : string;
  os_version : string;
  os_prg : string
}.

(** Calls made so far, the frames sent (newest first), and the filters set on
    the socket ([None]: the default, everything is received). *)
Record can_w := mk_canw {
  cw_setsockopts : nat; cw_reads : nat; cw_writes : nat; cw_polls : nat; cw_tests : nat;
  cw_sent : list can_frame; cw_filter : option (list (Z * Z))
}.
Definition can_w0 : can_w := mk_canw 0 0 0 0 0 [] None.

Section socket.
Context (os : can_os).
Abbreviation P := (M can_w).

Definition can_perror (x : string) : P unit := eprintf (x +:+ ": " +:+ os_strerror os +:+ nl).
Definition sock_read : P read_res :=
  devop (fun w => (os_read os (cw_reads w),
    mk_canw (cw_setsockopts w) (S (cw_reads w)) (cw_writes w) (cw_polls w) (cw_tests w) (cw_sent w) (cw_filter w))).
(** A frame is sent when [write] succeeds. *)
Definition sock_write (f : can_frame) : P write_res :=
  devop (fun w =>
    let r := os_write os (cw_writes w) in
    (r, mk_canw (cw_setsockopts w) (cw_reads w) (S (cw_writes w)) (cw_polls w) (cw_tests w)
          (match r with WriteOk => f :: cw_sent w | WriteErr _ => cw_sent w end) (cw_filter w))).
Definition sock_poll : P (option Z) :=
  devop (fun w => (os_poll os (cw_polls w),
    mk_canw (cw_setsockopts w) (cw_reads w) (cw_writes w) (S (cw_polls w)) (cw_tests w) (cw_sent w) (cw_filter w))).
Definition test_running : P bool :=
  devop (fun w => (os_running os (cw_tests w),
    mk_canw (cw_setsockopts w) (cw_reads w) (cw_writes w) (cw_polls w) (S (cw_tests w)) (cw_sent w) (cw_filter w))).
Definition sock_filter (l : list (Z * Z)) : P bool :=
  devop (fun w =>
    let ok := os_setsockopt os (cw_setsockopts w) in
    (ok, mk_canw (S (cw_setsockopts w)) (cw_reads w) (cw_writes w) (cw_polls w) (cw_tests w) (cw_sent w)
           (if ok then Some l else cw_filter w))).

(** The first 16 characters, what [strncpy] copies of an interface name. *)
Definition ifname (interface : string) : string := String.substring 0 (Z.to_nat IFNAMSIZ) interface.
End socket.

Section lemmas.
Context (os : can_os).
Implicit Types s : st can_w.

Lemma runs_test_running s (Q : bool -> st can_w -> Prop) :
  (forall s', out s' = out s -> cw_sent (dev s') = cw_sent (dev s) -> cw_reads (dev s') = cw_reads (dev s) ->
              cw_writes (dev s') = cw_writes (dev s) ->
              Q (os_running os (cw_tests (dev s))) s') ->
  runs (test_running os) s Q.
Proof. intros H. apply runs_devop. by apply H. Qed.

Lemma runs_sock_read s (Q : read_res -> st can_w -> Prop) :
  (forall s', out s' = out s -> cw_sent (dev s') = cw_sent (dev s) -> cw_reads (dev s') = S (cw_reads (dev s)) ->
              Q (os_read os (cw_reads (dev s))) s') ->
  runs (sock_read os) s Q.
Proof. intros H. apply runs_devop. by apply H. Qed.

Lemma runs_sock_write f s (Q : write_res -> st can_w -> Prop) :
  (forall s' r, r = os_write os (cw_writes (dev s)) -> out s' = out s ->
              cw_writes (dev s') = S (cw_writes (dev s)) ->
              cw_sent (dev s') = match r with WriteOk => f :: cw_sent (dev s) | WriteErr _ => cw_sent (dev s) end ->
              Q r s') ->
  runs (sock_write os f) s Q.
Proof. intros H. apply runs_devop. by apply H. Qed.
End lemmas.
