(* ===== verification/CanTools.v ===== *)
(** * The CAN utilities cansequence, cansend and candump *)

From stdpp Require Import base list strings numbers.
From Stdlib Require Import ZArith Lia Ascii.
From S2P Require Import Prelude CInt CLib CanSocket.

(** ** cansequence ([can_test/utilities/cansequence.c])

    A sender that numbers its frames and a receiver that checks the numbers. *)

Module Seq.

Definition CAN_ID_DEFAULT : Z := 2.
Definition VERSION_OPTION : Z := 128.

Section cansequence.
Context `{DM : DataModel} (os : can_os).
Abbreviation P := (M can_w).

Definition print_usage : P unit :=
  eprintf ("Usage: " +:+ os_prg os +:+ " [<can-interface>] [Options]" +:+ nl +:+ nl +:+
    "cansequence sends CAN messages with a rising sequence number as payload." +:+ nl +:+
    "When the -r option is given, cansequence expects to receive these messages" +:+ nl +:+
    "and prints an error message if a wrong sequence number is encountered." +:+ nl +:+
    "The main purpose of this program is to test the reliability of CAN links." +:+ nl +:+ nl +:+
    "Options:" +:+ nl +:+
    " -e  --extended" +:+ tab +:+ tab +:+ "send extended frame" +:+ nl +:+
    " -i, --identifier=ID" +:+ tab +:+ "CAN Identifier (default = " +:+ dec CAN_ID_DEFAULT +:+ ")" +:+ nl +:+
    " -r, --receive" +:+ tab +:+ tab +:+ "work as receiver" +:+ nl +:+
    "     --loop=COUNT" +:+ tab +:+ "send message COUNT times" +:+ nl +:+
    " -p  --poll" +:+ tab +:+ tab +:+ "use poll(2) to wait for buffer space while sending" +:+ nl +:+
    " -q  --quit" +:+ tab +:+ tab +:+ "quit if a wrong sequence is encountered" +:+ nl +:+
    " -v, --verbose" +:+ tab +:+ tab +:+ "be verbose (twice to be even more verbose" +:+ nl +:+
    " -h  --help" +:+ tab +:+ tab +:+ "this help" +:+ nl +:+
    "     --version" +:+ tab +:+ tab +:+ "print version information and exit" +:+ nl).

Definition long_options : list longopt := [
  mk_longopt "extended" false 101; mk_longopt "help" false 104; mk_longopt "poll" false 112;
  mk_longopt "quit" false 113; mk_longopt "receive" false 114; mk_longopt "verbose" false 118;
  mk_longopt "version" false VERSION_OPTION; mk_longopt "identifier" true 105; mk_longopt "loop" true 108
]%string.

(** The locals the options set. *)
Record opts := mk_opts {
  extended : bool; use_poll : bool; quit : bool; receive : bool;
  verbose : Z; loopcount : Z; infinite : bool; filter_id : Z
}.
Definition opts0 : opts := mk_opts false false false false 0 1 true CAN_ID_DEFAULT.

Definition do_option (o : opts) (ev : optev) : P opts :=
  let '(opt, optarg) := ev in
  let '(mk_opts ext pl qt rc vb lc inf fid) := o in
  match opt with
  | 101 => mret (mk_opts true pl qt rc vb lc inf fid)                      (* e *)
  | 104 => print_usage;; exit 0                                            (* h *)
  | 112 => mret (mk_opts ext true qt rc vb lc inf fid)                     (* p *)
  | 113 => mret (mk_opts ext pl true rc vb lc inf fid)                     (* q *)
  | 114 => mret (mk_opts ext pl qt true vb lc inf fid)                     (* r *)
  | 118 => mret (mk_opts ext pl qt rc (s32 (vb + 1)) lc inf fid)           (* v *)
  | 128 => printf ("cansequence " +:+ os_version os +:+ nl);; exit 0       (* VERSION_OPTION *)
  | 108 => match optarg with                                               (* l *)
           | Some a => mret (mk_opts ext pl qt rc vb (s32 (sv (strtoul 0 a))) false fid)
           | None => mret (mk_opts ext pl qt rc vb lc true fid)
           end
  | 105 => match optarg with                                               (* i *)
           | Some a => mret (mk_opts ext pl qt rc vb lc inf (u32 (sv (strtoul 0 a))))
           | None => crash
           end
  | _ => eprintf ("Unknown option " +:+ String (chr opt) EmptyString +:+ nl);; mret o
  end.

Fixpoint do_options (o : opts) (evs : list optev) : P opts :=
  match evs with
  | [] => mret o
  | ev :: evs' => o' ← do_option o ev; do_options o' evs'
  end.

(** [filter->can_id] and [filter->can_mask]. *)
Definition filter_of (o : opts) : Z * Z :=
  if extended o then (Z.lor (Z.land (filter_id o) CAN_EFF_MASK) CAN_EFF_FLAG, CAN_EFF_MASK)
  else (Z.land (filter_id o) CAN_SFF_MASK, CAN_SFF_MASK).

(** [(infinite || loopcount--) && running]: the answer and the new [loopcount]. *)
Definition loop_test (o : opts) (loopcount : Z) : P (bool * Z) :=
  let lc := if infinite o then loopcount else s32 (loopcount - 1) in
  if (infinite o || truth loopcount)%bool then r ← test_running os; mret (r, lc)
  else mret (false, lc).

(** *** Receiver *)

Record rx_state := mk_rx { rx_frame : can_frame; rx_init : bool; rx_seq : Z; rx_wrap : Z; rx_loop : Z }.

Definition data0 (f : can_frame) : Z := default 0 (data f !! 0%nat).

(** One round of the receive loop; [inr] is the value given to [exit]. *)
Definition rx_round (o : opts) (x : rx_state) : P (rx_state + Z) :=
  t ← loop_test o (rx_loop x);
  let '(go, lc) := t in
  if negb go then mret (inr 0)
  else
    r ← sock_read os;
    match r with
    | ReadErr => can_perror os "read";; exit 1
    | _ =>
        let frame := match r with ReadFrame f => f | _ => rx_frame x end in
        let d := data0 frame in
        let sequence := if rx_init x then d else rx_seq x in
        when (1 <? verbose o) (printf ("received frame. sequence number: " +:+ dec d +:+ nl));;
        let wrong := negb (d =? sequence) in
        when wrong (printf ("received wrong sequence count. expected: " +:+ dec sequence +:+
                            ", got: " +:+ dec d +:+ nl));;
        if (wrong && quit o)%bool then mret (inr 1)
        else
          let sequence := u8 ((if wrong then d else sequence) + 1) in
          let wrapped := (truth (verbose o) && (sequence =? 0))%bool in
          when wrapped (printf ("sequence wrap around (" +:+ dec (rx_wrap x) +:+ ")" +:+ nl));;
          mret (inl (mk_rx frame false sequence (if wrapped then s32 (rx_wrap x + 1) else rx_wrap x) lc))
    end.

Definition receiver (fuel : nat) (o : opts) (frame : can_frame) : P Z :=
  while_ fuel (mk_rx frame true 0 0 (loopcount o)) (rx_round o).

(** *** Sender *)

(** [again:] until the frame is out; a full queue is waited for with -p. *)
Definition send_frame (fuel : nat) (o : opts) (frame : can_frame) : P unit :=
  while_ fuel tt (fun _ =>
    r ← sock_write os frame;
    match r with
    | WriteOk => mret (inr tt)
    | WriteErr errno =>
        if errno =? ENOBUFS then
          if negb (use_poll o) then can_perror os "write";; exit 1
          else
            err ← sock_poll os;
            match err with
            | Some e => if negb (e =? - EINTR) then can_perror os "poll()";; exit 1 else mret (inl tt)
            | None => mret (inl tt)
            end
        else if errno =? EINTR then mret (inl tt)
        else can_perror os "write";; exit 1
    end).

Record tx_state := mk_tx { tx_frame : can_frame; tx_seq : Z; tx_wrap : Z; tx_loop : Z }.

(** [frame.data[0]++] *)
Definition next_frame (f : can_frame) : can_frame :=
  mk_frame (can_id f) (can_dlc f) (<[0%nat := u8 (data0 f + 1)]> (data f)).

Definition tx_round (fuel : nat) (o : opts) (x : tx_state) : P (tx_state + Z) :=
  t ← loop_test o (tx_loop x);
  let '(go, lc) := t in
  if negb go then mret (inr 0)
  else
    when (1 <? verbose o) (printf ("sending frame. sequence number: " +:+ dec (tx_seq x) +:+ nl));;
    send_frame fuel o (tx_frame x);;
    let sequence := u8 (tx_seq x + 1) in
    let wrapped := (truth (verbose o) && (sequence =? 0))%bool in
    when wrapped (printf ("sequence wrap around (" +:+ dec (tx_wrap x) +:+ ")" +:+ nl));;
    mret (inl (mk_tx (next_frame (tx_frame x)) sequence (if wrapped then s32 (tx_wrap x + 1) else tx_wrap x) lc)).

Definition sender (fuel : nat) (o : opts) (frame : can_frame) : P Z :=
  while_ fuel (mk_tx frame 0 0 (loopcount o)) (tx_round fuel o).

(** *** main *)

(** [struct can_frame frame = { .can_dlc = 1 }], with its identifier. *)
Definition first_frame (id : Z) : can_frame := mk_frame id 1 (replicate 8 0).

Definition main (fuel : nat) (args : list string) : P Z :=
  let '(evs, operands) := getopt_long "ehpqrvi:l:" long_options args in
  o ← do_options opts0 evs;
  let interface := match operands with i :: _ => i | [] => "can0"%string end in
  let '(id, mask) := filter_of o in
  printf ("interface = " +:+ interface +:+ ", family = " +:+ dec PF_CAN +:+ ", type = " +:+ dec SOCK_RAW +:+
          ", proto = " +:+ dec CAN_RAW +:+ nl);;
  if negb (os_socket os PF_CAN SOCK_RAW CAN_RAW) then can_perror os "socket";; mret 1
  else if negb (os_ifindex os (ifname interface)) then can_perror os "ioctl";; mret 1
  else
    ok ← sock_filter os [];
    if negb ok then can_perror os "setsockopt";; exit 1
    else if negb (os_bind os) then can_perror os "bind";; mret 1
    else
      v ← (if receive o then
             ok ← sock_filter os [(id, mask)];
             if negb ok then can_perror os "setsockopt";; exit 1
             else receiver fuel o (first_frame id)
           else sender fuel o (first_frame id));
      exit v.
End cansequence.
End Seq.

(** ** cansend ([can_test/utilities/cansend.c])

    Builds one frame from the command line and sends it a number of times. *)

Module Send.

Definition VERSION_OPTION : Z := 128.

Section cansend.
Context `{DM : DataModel} (os : can_os).
(** The value of the local [delay] when no option sets it. *)
Context (junk : Z).
Abbreviation P := (M can_w).

Definition print_usage : P unit :=
  eprintf ("Usage: " +:+ os_prg os +:+ " [<can-interface>] [Options] <can-msg>" +:+ nl +:+
    "<can-msg> can consist of up to 8 bytes given as a space separated list" +:+ nl +:+
    "Options:" +:+ nl +:+
    " -i, --identifier=ID" +:+ tab +:+ "CAN Identifier (default = 1)" +:+ nl +:+
    " -r  --rtr" +:+ tab +:+ tab +:+ "send remote request" +:+ nl +:+
    " -e  --extended" +:+ tab +:+ "send extended frame" +:+ nl +:+
    " -f, --family=FAMILY" +:+ tab +:+ "Protocol family (default PF_CAN = " +:+ dec PF_CAN +:+ ")" +:+ nl +:+
    " -t, --type=TYPE" +:+ tab +:+ "Socket type, see man 2 socket (default SOCK_RAW = " +:+ dec SOCK_RAW +:+ ")" +:+ nl +:+
    " -p, --protocol=PROTO" +:+ tab +:+ "CAN protocol (default CAN_RAW = " +:+ dec CAN_RAW +:+ ")" +:+ nl +:+
    " -l" +:+ tab +:+ tab +:+ tab +:+ "send message infinite times" +:+ nl +:+
    "     --loop=COUNT" +:+ tab +:+ "send message COUNT times" +:+ nl +:+
    " -d  send can frame with delay(us)" +:+
    " -v, --verbose" +:+ tab +:+ tab +:+ "be verbose" +:+ nl +:+
    " -h, --help" +:+ tab +:+ tab +:+ "this help" +:+ nl +:+
    "     --version" +:+ tab +:+ tab +:+ "print version information and exit" +:+ nl).

Definition long_options : list longopt := [
  mk_longopt "help" false 104; mk_longopt "identifier" true 105; mk_longopt "rtr" false 114;
  mk_longopt "extended" false 101; mk_longopt "family" true 102; mk_longopt "protocol" true 112;
  mk_longopt "type" true 116; mk_longopt "version" false VERSION_OPTION; mk_longopt "verbose" false 118;
  mk_longopt "loop" true 108; mk_longopt "delay_us" true 100
]%string.

Record opts := mk_opts {
  family : Z; type : Z; proto : Z; loopcount : Z; infinite : bool;
  rtr : bool; extended : bool; verbose : bool; delay : Z; id : Z
}.
Definition opts0 : opts := mk_opts PF_CAN SOCK_RAW CAN_RAW 1 false false false false junk 1.

Definition int_arg (a : string) : Z := s32 (sv (strtoul 0 a)).

Definition do_option (o : opts) (ev : optev) : P opts :=
  let '(mk_opts fam ty pr lc inf rt ext vb dl fid) := o in
  match ev with
  | (104, _) => print_usage;; exit 0                                               (* h *)
  | (102, Some a) => mret (mk_opts (int_arg a) ty pr lc inf rt ext vb dl fid)      (* f *)
  | (116, Some a) => mret (mk_opts fam (int_arg a) pr lc inf rt ext vb dl fid)     (* t *)
  | (112, Some a) => mret (mk_opts fam ty (int_arg a) lc inf rt ext vb dl fid)     (* p *)
  | (118, _) => mret (mk_opts fam ty pr lc inf rt ext true dl fid)                 (* v *)
  | (108, Some a) => mret (mk_opts fam ty pr (int_arg a) inf rt ext vb dl fid)     (* l *)
  | (108, None) => mret (mk_opts fam ty pr lc true rt ext vb dl fid)
  | (105, Some a) => mret (mk_opts fam ty pr lc inf rt ext vb dl (u32 (sv (strtoul 0 a))))  (* i *)
  | (114, _) => mret (mk_opts fam ty pr lc inf true ext vb dl fid)                 (* r *)
  | (101, _) => mret (mk_opts fam ty pr lc inf rt true vb dl fid)                  (* e *)
  | (100, Some a) => mret (mk_opts fam ty pr lc inf rt ext vb (int_arg a) fid)     (* d *)
  | (128, _) => printf ("cansend " +:+ os_version os +:+ nl);; exit 0
  | (opt, _) => eprintf ("Unknown option " +:+ String (chr opt) EmptyString +:+ nl);; mret o
  end.

Fixpoint do_options (o : opts) (evs : list optev) : P opts :=
  match evs with
  | [] => mret o
  | ev :: evs' => o' ← do_option o ev; do_options o' evs'
  end.

(** The payload: up to eight arguments, each cut to a byte. *)
Fixpoint fill_data (args : list string) (dlc : Z) (buf : list Z) : Z * list Z :=
  match args with
  | [] => (dlc, buf)
  | a :: args' =>
      let buf := <[Z.to_nat dlc := u8 (sv (strtoul 0 a))]> buf in
      let dlc := dlc + 1 in
      if dlc =? 8 then (dlc, buf) else fill_data args' dlc buf
  end.

Definition frame_id (o : opts) : Z :=
  let i := if extended o then Z.lor (Z.land (id o) CAN_EFF_MASK) CAN_EFF_FLAG else Z.land (id o) CAN_SFF_MASK in
  if rtr o then Z.lor i CAN_RTR_FLAG else i.

Definition build_frame (o : opts) (args : list string) : can_frame :=
  let '(dlc, buf) := fill_data args 0 (replicate 8 0) in
  mk_frame (frame_id o) dlc buf.

Fixpoint print_bytes (n : nat) (i : Z) (f : can_frame) : P unit :=
  match n with
  | O => mret tt
  | S n' => printf ("0x" +:+ hex0 2 (default 0 (data f !! Z.to_nat i)) +:+ " ");; print_bytes n' (i + 1) f
  end.

(** [while (infinite || loopcount--)] *)
Definition send_loop (fuel : nat) (o : opts) (frame : can_frame) : P unit :=
  while_ fuel (loopcount o) (fun lc =>
    let lc' := if infinite o then lc else s32 (lc - 1) in
    if (infinite o || truth lc)%bool then
      r ← sock_write os frame;
      match r with
      | WriteErr _ => can_perror os "write";;
                      printf ("Please specify a more long delay time!" +:+ nl);; mret (inr tt)
      | WriteOk => mret (inl lc')
      end
    else mret (inr tt)).

(** [strcpy] of the interface name into [ifr.ifr_name]. *)
Definition copy_ifname (interface : string) : P unit :=
  if strlen interface <? IFNAMSIZ then mret tt else crash.

Definition main (fuel : nat) (args : list string) : P Z :=
  let '(evs, operands) := getopt_long "hf:t:p:vi:l:d:re" long_options args in
  o ← do_options opts0 evs;
  match operands with
  | [] => print_usage;; exit 0
  | interface :: rest =>
      printf ("interface = " +:+ interface +:+ ", family = " +:+ dec (family o) +:+ ", type = " +:+ dec (type o) +:+
              ", proto = " +:+ dec (proto o) +:+ nl);;
      if negb (os_socket os (family o) (type o) (proto o)) then can_perror os "socket";; mret 1
      else
        copy_ifname interface;;
        if negb (os_ifindex os interface) then can_perror os "ioctl";; mret 1
        else if negb (os_bind os) then can_perror os "bind";; mret 1
        else
          let frame := build_frame o rest in
          when (verbose o)
            (printf ("id: " +:+ dec (s32 (can_id frame)) +:+ " ");;
             printf ("dlc: " +:+ dec (can_dlc frame) +:+ nl);;
             print_bytes (Z.to_nat (can_dlc frame)) 0 frame;;
             printf nl);;
          printf ("It will send can frame with " +:+ dec (delay o) +:+ " us interval!" +:+ nl);;
          send_loop fuel o frame;;
          mret 0
  end.
End cansend.
End Send.

(** ** candump ([can_test/utilities/candump.c])

    Receives frames, through the filters of the command line, and writes one
    line for each. Memory for the filters is always available in the model. *)

Module Dump.

Definition VERSION_OPTION : Z := 128.
Definition FILTER_OPTION : Z := 129.

(** Answers to [fflush], and whether [fopen] succeeds, by the number of calls. *)
Inductive flush_res := FlushOk | FlushEPIPE | FlushErr.
Record dump_os := { d_can : can_os; d_fflush : nat -> flush_res; d_fopen : nat -> bool }.

(** The socket, the statics [filter] and [receive_cnt], the lines in the output
    file (newest first), and the calls of [fflush] and [fopen] so far. *)
Record dump_w := mk_dump {
  dw_can : can_w; dw_filter : list (Z * Z); dw_receive_cnt : Z; dw_file : list string;
  dw_flushes : nat; dw_opens : nat
}.
Definition dump_w0 : dump_w := mk_dump can_w0 [] 0 [] 0 0.

Section candump.
Context `{DM : DataModel} (os : dump_os).
Abbreviation P := (M dump_w).

(** Operations of the shared socket, on the larger state. *)
Definition sock {A} (m : M can_w A) : P A := fun s =>
  let '(r, s') := m (mkst (out s) (dw_can (dev s))) in
  let w := dev s in
  (r, mkst (out s') (mk_dump (dev s') (dw_filter w) (dw_receive_cnt w) (dw_file w) (dw_flushes w) (dw_opens w))).
Definition perror (x : string) : P unit := sock (can_perror (d_can os) x).

Definition print_usage : P unit :=
  eprintf ("Usage: " +:+ os_prg (d_can os) +:+ " [<can-interface>] [Options]" +:+ nl +:+
    "Options:" +:+ nl +:+
    " -f, --family=FAMILY" +:+ tab +:+ "protocol family (default PF_CAN = " +:+ dec PF_CAN +:+ ")" +:+ nl +:+
    " -t, --type=TYPE" +:+ tab +:+ "socket type, see man 2 socket (default SOCK_RAW = " +:+ dec SOCK_RAW +:+ ")" +:+ nl +:+
    " -p, --protocol=PROTO" +:+ tab +:+ "CAN protocol (default CAN_RAW = " +:+ dec CAN_RAW +:+ ")" +:+ nl +:+
    "     --filter=id:mask[:id:mask]..." +:+ nl +:+
    tab +:+ tab +:+ tab +:+ "apply filter" +:+ nl +:+
    " -h, --help" +:+ tab +:+ tab +:+ "this help" +:+ nl +:+
    " -o <filename>" +:+ tab +:+ tab +:+ "output into filename" +:+ nl +:+
    " -d" +:+ tab +:+ tab +:+ tab +:+ "daemonize" +:+ nl +:+
    " -s " +:+ tab +:+ tab +:+ tab +:+ "there is no output any received frame info" +:+ nl +:+
    "     --version" +:+ tab +:+ tab +:+ "print version information and exit" +:+ nl).

Definition add_filter (fid mask : Z) : P Z :=
  setdev (fun w => mk_dump (dw_can w) (dw_filter w ++ [(fid, mask)]) (dw_receive_cnt w) (dw_file w)
                     (dw_flushes w) (dw_opens w));;
  printf ("id: 0x" +:+ hex0 8 fid +:+ " mask: 0x" +:+ hex0 8 mask +:+ nl);;
  mret 0.

(** [while (1)] over [ptr]; every round passes at least one colon, so the
    length of the string bounds the rounds. *)
Definition parse_filter (optarg : string) : P unit :=
  while_ (S (String.length optarg)) optarg (fun ptr =>
    let fid := u32 (sv (strtoul 0 ptr)) in
    match strchr ptr (chr 58) with
    | None => eprintf ("filter must be applied in the form id:mask[:id:mask]..." +:+ nl);; exit 1
    | Some p1 =>
        let p2 := str_tail p1 in
        let mask := u32 (sv (strtoul 0 p2)) in
        add_filter fid mask;;
        match strchr p2 (chr 58) with
        | None => mret (inr tt)
        | Some p3 => mret (inl (str_tail p3))
        end
    end).

Definition long_options : list longopt := [
  mk_longopt "help" false 104; mk_longopt "family" true 102; mk_longopt "protocol" true 112;
  mk_longopt "type" true 116; mk_longopt "filter" true FILTER_OPTION; mk_longopt "version" false VERSION_OPTION
]%string.

Record opts := mk_opts {
  family : Z; type : Z; proto : Z; optout : option string; optdaemon : Z; silent : bool
}.
Definition opts0 : opts := mk_opts PF_CAN SOCK_RAW CAN_RAW None 0 false.

Definition int_arg (a : string) : Z := s32 (sv (strtoul 0 a)).

Definition do_option (o : opts) (ev : optev) : P opts :=
  let '(mk_opts fam ty pr oo od si) := o in
  match ev with
  | (100, _) => mret (mk_opts fam ty pr oo (s32 (od + 1)) si)               (* d *)
  | (104, _) => print_usage;; exit 0                                        (* h *)
  | (102, Some a) => mret (mk_opts (int_arg a) ty pr oo od si)              (* f *)
  | (116, Some a) => mret (mk_opts fam (int_arg a) pr oo od si)             (* t *)
  | (112, Some a) => mret (mk_opts fam ty (int_arg a) oo od si)             (* p *)
  | (111, Some a) => mret (mk_opts fam ty pr (Some a) od si)                (* o *)
  | (129, Some a) => parse_filter a;; mret o                                (* FILTER_OPTION *)
  | (115, _) => mret (mk_opts fam ty pr oo od true)                         (* s *)
  | (128, _) => printf ("candump " +:+ os_version (d_can os) +:+ nl);; exit 0
  | (opt, _) => eprintf ("Unknown option " +:+ String (chr opt) EmptyString +:+ nl);; mret o
  end.

Fixpoint do_options (o : opts) (evs : list optev) : P opts :=
  match evs with
  | [] => mret o
  | ev :: evs' => o' ← do_option o ev; do_options o' evs'
  end.

(** *** Output *)

(** The bytes of a frame; [frame.data] has eight. *)
Fixpoint data_str (n : nat) (l : list Z) : option string :=
  match n with
  | O => Some EmptyString
  | S n' => match l with
            | [] => None
            | b :: l' => match data_str n' l' with
                         | Some r => Some (hex0 2 b +:+ " " +:+ r)
                         | None => None
                         end
            end
  end.

Definition frame_line (f : can_frame) : option string :=
  let head := if truth (Z.land (can_id f) CAN_EFF_FLAG)
              then "<0x" +:+ hex0 8 (Z.land (can_id f) CAN_EFF_MASK) +:+ "> "
              else "<0x" +:+ hex0 3 (Z.land (can_id f) CAN_SFF_MASK) +:+ "> " in
  match data_str (Z.to_nat (can_dlc f)) (data f) with
  | Some d => Some (head +:+ "[" +:+ dec (can_dlc f) +:+ "] " +:+ d +:+
                    (if truth (Z.land (can_id f) CAN_RTR_FLAG) then "remote request" else EmptyString))
  | None => None
  end.

(** [fprintf(out, "%s\n", buf)]: to the file of -o, else to standard output. *)
Definition emit (o : opts) (line : string) : P unit :=
  match optout o with
  | None => printf (line +:+ nl)
  | Some _ => setdev (fun w => mk_dump (dw_can w) (dw_filter w) (dw_receive_cnt w) ((line +:+ nl)%string :: dw_file w)
                                 (dw_flushes w) (dw_opens w))
  end.

Definition fflush : P flush_res :=
  devop (fun w => (d_fflush os (dw_flushes w),
    mk_dump (dw_can w) (dw_filter w) (dw_receive_cnt w) (dw_file w) (S (dw_flushes w)) (dw_opens w))).
Definition fopen : P bool :=
  devop (fun w => (d_fopen os (dw_opens w),
    mk_dump (dw_can w) (dw_filter w) (dw_receive_cnt w) (dw_file w) (dw_flushes w) (S (dw_opens w)))).

(** [do { ... } while (err == -EPIPE)] *)
Definition flush_loop (fuel : nat) (o : opts) : P unit :=
  while_ fuel tt (fun _ =>
    r ← fflush;
    match r with
    | FlushEPIPE =>
        match optout o with
        | None => crash
        | Some _ => ok ← fopen; if ok : bool then mret (inl tt) else exit 1
        end
    | _ => mret (inr tt)
    end).

Definition count_frame : P unit :=
  setdev (fun w => mk_dump (dw_can w) (dw_filter w) (u32 (dw_receive_cnt w + 1)) (dw_file w) (dw_flushes w) (dw_opens w)).

(** One round of [while (running)]; [inr] is what [main] returns. *)
Definition dump_round (fuel : nat) (o : opts) : P (unit + Z) :=
  go ← sock (test_running (d_can os));
  if negb go then exit 0
  else
    r ← sock (sock_read (d_can os));
    match r with
    | ReadErr => perror "read";; mret (inr 1)
    | ReadShort => perror "read";; mret (inr 2)
    | ReadFrame f =>
        count_frame;;
        (if silent o then mret tt
         else match frame_line f with
              | None => crash
              | Some line => emit o line;; flush_loop fuel o
              end);;
        mret (inl tt)
    end.

Definition dump_loop (fuel : nat) (o : opts) : P Z := while_ fuel tt (fun _ => dump_round fuel o).

Definition sigstp : P unit :=
  w ← getdev; printf ("Have received " +:+ dec (dw_receive_cnt w) +:+ " can frames!" +:+ nl).

Definition main (fuel : nat) (args : list string) : P Z :=
  let '(evs, operands) := getopt_long "f:t:p:o:ds" long_options args in
  o ← do_options opts0 evs;
  let interface := match operands with i :: _ => i | [] => "can0"%string end in
  printf ("interface = " +:+ interface +:+ ", family = " +:+ dec (family o) +:+ ", type = " +:+ dec (type o) +:+
          ", proto = " +:+ dec (proto o) +:+ nl);;
  if negb (os_socket (d_can os) (family o) (type o) (proto o)) then perror "socket";; mret 1
  else if negb (os_ifindex (d_can os) (ifname interface)) then perror "ioctl";; mret 1
  else if negb (os_bind (d_can os)) then perror "bind";; mret 1
  else
    w ← getdev;
    ok ← (match dw_filter w with
          | [] => mret true
          | l => sock (sock_filter (d_can os) l)
          end);
    if negb ok then perror "setsockopt";; exit 1
    else
      ok ← (match optout o with Some _ => fopen | None => mret true end);
      if negb ok then perror "fopen";; exit 1
      else dump_loop fuel o.
End candump.
End Dump.
