(* ===== verification/CanOk.v ===== *)
(** * CAN utilities: lemmas on cansequence and candump *)

From stdpp Require Import base list strings numbers.
From Stdlib Require Import ZArith Lia Ascii.
From S2P Require Import Prelude CInt CLib CanSocket CanTools CLibOk.

(** * cansequence: lemmas

    The frames a sender has put on the bus in any run, and the reports of a
    receiver as a function of the numbers it reads. *)

Import Seq.

(** Keeps the continuation of a loop folded while its body is unfolded. *)
Ltac hide_post K := match goal with |- runs _ _ ?Q => set (K := Q) end.

(** The [k]-th frame of a sender, and its first [n] frames. *)
Definition frame_no (id k : Z) : can_frame := mk_frame id 1 (k mod 256 :: replicate 7 0).
Definition numbered (id : Z) (n : nat) : list can_frame := map (frame_no id) (seqZ 0 (Z.of_nat n)).

Lemma first_frame_no id : first_frame id = frame_no id 0.
Proof. done. Qed.

Lemma next_frame_no id k : next_frame (frame_no id k) = frame_no id (k + 1).
Proof.
  unfold next_frame, frame_no, data0, u8, wrapu. simpl. do 2 f_equal. rewrite Z.add_mod_idemp_l; [done | lia].
Qed.

Lemma numbered_S id n : numbered id (S n) = numbered id n ++ [frame_no id (Z.of_nat n)].
Proof.
  unfold numbered. replace (Z.of_nat (S n)) with (Z.of_nat n + 1) by lia.
  rewrite seqZ_app, map_app by lia. by rewrite Z.add_0_l.
Qed.

(** The reports a receiver owes for the numbers it reads: pairs of the expected
    and the received number. *)
Fixpoint mismatches (expected : option Z) (l : list Z) : list (Z * Z) :=
  match l with
  | [] => []
  | d :: l' =>
      let rest := mismatches (Some (u8 (d + 1))) l' in
      match expected with
      | Some e => if d =? e then rest else (e, d) :: rest
      | None => rest
      end
  end.

Definition report (m : Z * Z) : msg :=
  Stdout ("received wrong sequence count. expected: " +:+ dec m.1 +:+ ", got: " +:+ dec m.2 +:+ nl).

(** Successive indices differ by 1 modulo 256. *)
Fixpoint gapless (l : list Z) : bool :=
  match l with
  | a :: (b :: _) as l' => ((b - a) mod 256 =? 1) && gapless l'
  | _ => true
  end.

Lemma gap_mismatch a b : (u8 (a mod 256 + 1) =? b mod 256) = ((b - a) mod 256 =? 1).
Proof.
  unfold u8, wrapu. change (2 ^ 8) with 256. rewrite Z.add_mod_idemp_l by lia.
  destruct (Z.eqb_spec ((b - a) mod 256) 1) as [H|H].
  - apply Z.eqb_eq. replace b with (a + (b - a)) by lia.
    rewrite <- (Z.add_mod_idemp_r a (b - a)) by lia. by rewrite H.
  - apply Z.eqb_neq. intros E. apply H. rewrite Zminus_mod, <- E, <- Zminus_mod.
    replace (a + 1 - a) with 1 by lia. done.
Qed.

Lemma mismatches_indices l : forall a,
  mismatches (Some (u8 (a mod 256 + 1))) (map (fun k => k mod 256) l) = [] <-> gapless (a :: l) = true.
Proof.
  induction l as [|b l IH]; intros a; cbn [mismatches map]; [done|].
  rewrite (Z.eqb_sym (b mod 256)), gap_mismatch.
  change (gapless (a :: b :: l)) with (((b - a) mod 256 =? 1) && gapless (b :: l))%bool.
  destruct ((b - a) mod 256 =? 1); cbn [andb]; [apply IH | done].
Qed.

Section seq.
Context `{DM : DataModel} (os : can_os).
Implicit Types (s : st can_w) (o : opts).

(** ** Sender *)

Lemma send_frame_wp fuel o f s :
  wp (send_frame os fuel o f) s (fun r s' =>
    cw_sent (dev s') = match r with Ret _ => f :: cw_sent (dev s) | _ => cw_sent (dev s) end).
Proof.
  apply (wp_while (fun _ s' => cw_sent (dev s') = cw_sent (dev s))); [done| |done].
  intros _ s' Hs. apply wp_bind. unfold sock_write. unfold wp at 1. simpl.
  destruct (os_write os (cw_writes (dev s'))) as [|errno]; [by simpl; rewrite Hs|].
  destruct (errno =? ENOBUFS); [|by destruct (errno =? EINTR)].
  destruct (use_poll o); [|done]. simpl. unfold wp, mbind, M_bind, sock_poll. simpl.
  destruct (os_poll os _) as [e|]; [|done]. by destruct (negb (e =? - EINTR)).
Qed.

Lemma loop_test_wp o lc s :
  wp (loop_test os o lc) s (fun r s' => cw_sent (dev s') = cw_sent (dev s) /\
    exists go lc', r = Ret (go, lc') /\ out s' = out s).
Proof.
  unfold loop_test. destruct (infinite o || truth lc)%bool; (split; [done|]); by do 2 eexists.
Qed.

Lemma when_printf_wp b x s :
  wp (when b (printf x)) s (fun r s' => r = Ret tt /\ dev s' = dev s).
Proof. by destruct b. Qed.

(** However the sender ends, the frames sent are numbered from 0 without gaps. *)
Lemma sender_wp fuel o id s : cw_sent (dev s) = [] ->
  wp (sender os fuel o (first_frame id)) s (fun _ s' => exists n, rev (cw_sent (dev s')) = numbered id n).
Proof.
  intros H0. apply (wp_while (fun x s' => exists n, rev (cw_sent (dev s')) = numbered id n /\
    tx_frame x = frame_no id (Z.of_nat n))).
  - intros a s' (n & Hn & _). by exists n.
  - intros x s' (n & Hn & Hf). unfold tx_round. apply wp_bind. eapply wp_mono; [apply loop_test_wp|].
    intros r s1 (Hs1 & go & lc & -> & _). rewrite <- Hs1 in Hn. clear Hs1.
    destruct go; simpl; [|by exists n]. apply wp_bind. eapply wp_mono; [apply when_printf_wp|].
    intros r s2 [-> Hd2]. rewrite <- Hd2 in Hn. apply wp_bind. eapply wp_mono; [apply send_frame_wp|].
    intros [[]| | | |] s3 Hs3; try (exists n; by rewrite Hs3).
    apply wp_bind. eapply wp_mono; [apply when_printf_wp|]. intros r s4 [-> Hd4].
    apply wp_ret. exists (S n). rewrite Hd4, Hs3. cbn [rev tx_frame]. rewrite Hn, Hf, next_frame_no, numbered_S.
    split; [done | f_equal; lia].
  - exists 0%nat. by rewrite H0.
Qed.

(** With a working bus and no signal, the whole count is sent. *)
Lemma sender_runs o id : infinite o = false -> verbose o = 0 ->
  (forall n, os_running os n = true) -> (forall n, os_write os n = WriteOk) ->
  forall f2 m k fuel sq wr s, (m < fuel)%nat -> Z.of_nat m < 2 ^ 31 -> rev (cw_sent (dev s)) = numbered id k ->
  runs (while_ fuel (mk_tx (frame_no id (Z.of_nat k)) sq wr (Z.of_nat m)) (tx_round os (S f2) o)) s
    (fun v s' => v = 0 /\ rev (cw_sent (dev s')) = numbered id (k + m)).
Proof.
  intros Hinf Hvb Hrun Hwr f2. induction m as [|m IH]; intros k fuel sq wr s Hf Hm Hs;
    (destruct fuel as [|f]; [lia|]).
  all: apply runs_while; hide_post K; unfold tx_round, loop_test; rewrite Hinf; cbn [orb tx_loop].
  - change (truth (Z.of_nat 0)) with false. cbn [orb]. runs_steps. cbn [negb]. runs_steps.
    subst K. split; [done|]. by rewrite Nat.add_0_r.
  - assert (truth (Z.of_nat (S m)) = true) as -> by done.
    runs_steps. apply runs_test_running. intros s1 _ Hs1 _ _. rewrite Hrun. runs_steps. cbn [negb].
    rewrite Hvb. cbn [truth Z.eqb negb andb Z.ltb Z.compare when]. runs_steps. apply runs_while. runs_steps.
    apply runs_sock_write. intros s2 r -> _ _ Hs2. rewrite Hwr in *. runs_steps. subst K. cbv beta iota.
    replace (s32 (Z.of_nat (S m) - 1)) with (Z.of_nat m) by (symmetry; unfold s32; rewrite wraps_small; lia).
    cbn [tx_frame]. rewrite next_frame_no. replace (Z.of_nat k + 1) with (Z.of_nat (S k)) by lia.
    eapply runs_mono; [apply (IH (S k)); [lia|lia|]|].
    + rewrite Hs2, Hs1. cbn [rev tx_frame]. by rewrite Hs, numbered_S.
    + intros v s' [-> ->]. split; [done|]. f_equal. lia.
Qed.

(** ** Receiver *)

(** What a receiver that is not verbose does with the frames [l]. *)
Lemma receiver_runs o : infinite o = false -> verbose o = 0 -> (forall n, os_running os n = true) ->
  forall l x fuel s, (length l < fuel)%nat -> Z.of_nat (length l) < 2 ^ 31 ->
  rx_loop x = Z.of_nat (length l) ->
  (forall j f, l !! j = Some f -> os_read os (cw_reads (dev s) + j) = ReadFrame f) ->
  let ms := mismatches (if rx_init x then None else Some (rx_seq x)) (map data0 l) in
  runs (while_ fuel x (rx_round os o)) s (fun v s' =>
    if quit o then v = (match ms with [] => 0 | _ :: _ => 1 end) /\ out s' = map report (take 1 ms) ++ out s
    else v = 0 /\ out s' = rev (map report ms) ++ out s).
Proof.
  intros Hinf Hvb Hrun. induction l as [|f l IH]; intros x fuel s Hf Hl Hx Hrd;
    (destruct fuel as [|g]; [simpl in *; lia|]).
  all: apply runs_while; hide_post K; unfold rx_round, loop_test; rewrite Hinf, Hx; cbn [orb length].
  - change (truth (Z.of_nat 0)) with false. cbv iota. runs_steps. cbn [negb]. runs_steps.
    subst K. simpl. by destruct (quit o).
  - assert (truth (Z.of_nat (S (length l))) = true) as -> by done.
    runs_steps. apply runs_test_running. intros s1 Ho1 _ Hr1 _. rewrite Hrun. runs_steps. cbn [negb].
    runs_steps. apply runs_sock_read. intros s2 Ho2 _ Hr2.
    pose proof (Hrd 0%nat f eq_refl) as H0. rewrite Nat.add_0_r in H0. rewrite Hr1, H0. cbv iota zeta.
    rewrite Hvb. cbn [Z.ltb Z.compare when truth Z.eqb negb andb]. runs_steps.
    set (sq := if rx_init x then data0 f else rx_seq x).
    assert (os_read os (cw_reads (dev s2)) = os_read os (cw_reads (dev s) + 1)) as Hnext
      by (rewrite Hr2, Hr1; f_equal; lia).
    assert (forall s3, cw_reads (dev s3) = cw_reads (dev s2) ->
      forall j f, l !! j = Some f -> os_read os (cw_reads (dev s3) + j) = ReadFrame f) as Hrd'.
    { intros s3 E j f' Hj. rewrite E, Hr2, Hr1.
      replace (S (cw_reads (dev s)) + j)%nat with (cw_reads (dev s) + S j)%nat by lia. by apply Hrd. }
    assert (s32 (Z.of_nat (S (length l)) - 1) = Z.of_nat (length l)) as Hlc
      by (unfold s32; rewrite wraps_small; cbn [length] in Hl; lia).
    destruct (Z.eqb_spec (data0 f) sq) as [E|E]; cbn [negb when andb]; runs_steps.
    + subst K. cbv beta iota. eapply runs_mono; [apply IH; [simpl in *; lia|simpl in *; lia|simpl; lia|by apply Hrd']|].
      cbn [rx_init rx_seq]. intros v s3. rewrite <- E. cbn [map mismatches].
      subst sq. destruct (rx_init x); [|rewrite E, Z.eqb_refl]; rewrite Ho2, Ho1; exact id.
    + assert (rx_init x = false) as Hi by (subst sq; by destruct (rx_init x)).
      subst sq. rewrite Hi in *. cbn [map mismatches]. destruct (Z.eqb_spec (data0 f) (rx_seq x)); [done|].
      destruct (quit o) eqn:Hq; runs_steps.
      * subst K. cbv beta iota. rewrite ?Hi, ?Hq, Ho2, Ho1. cbn [map mismatches].
        by destruct (Z.eqb_spec (data0 f) (rx_seq x)).
      * subst K. cbv beta iota. eapply runs_mono; [apply IH; [simpl in *; lia|simpl in *; lia|simpl; lia|by apply Hrd']|].
        cbn [rx_init rx_seq out]. rewrite ?Hi, ?Hq. intros v s3 [-> ->]. split; [done|].
        cbn [map mismatches]. destruct (Z.eqb_spec (data0 f) (rx_seq x)); [done|].
        cbn [map rev]. rewrite Ho2, Ho1, <- app_assoc. done.
Qed.
End seq.

(** * candump: lemmas on filters and output lines *)

Import Dump.

(** The argument of [--filter] for a list of filters. *)
Definition colon (r : string) : string := String (chr 58) r.
Fixpoint filter_text (fs : list (Z * Z)) : string :=
  match fs with
  | [] => EmptyString
  | (i, m) :: fs' => dec i +:+ colon (dec m +:+ match fs' with [] => EmptyString | _ => colon (filter_text fs') end)
  end.

Definition u32_pair (f : Z * Z) : Prop := 0 <= f.1 < 2 ^ 32 /\ 0 <= f.2 < 2 ^ 32.

Lemma stops_colon r : stops (colon r).
Proof. by repeat split. Qed.

Section dump.
Context `{DM : DataModel} (os : dump_os).
Implicit Types s : st dump_w.

Lemma strtoul_dec_stop n r : 0 <= n < 2 ^ 32 -> stops r -> u32 (sv (strtoul 0 (dec n +:+ r))) = n.
Proof.
  intros Hn Hr. unfold strtoul. rewrite strtou_dec_app; [by apply wrapu_small| |done].
  assert (2 ^ 32 <= 2 ^ long_bits); [|lia]. apply Z.pow_le_mono_r; [lia|].
  destruct long_bits_cases as [-> | ->]; lia.
Qed.

(** The loop over the filter string, with enough rounds. *)
Lemma filter_loop fs : forall fuel s, fs <> [] -> Forall u32_pair fs -> (length fs <= fuel)%nat ->
  runs (while_ fuel (filter_text fs) (fun ptr =>
    let fid := u32 (sv (strtoul 0 ptr)) in
    match strchr ptr (chr 58) with
    | None => eprintf ("filter must be applied in the form id:mask[:id:mask]..." +:+ nl);; exit 1
    | Some p1 =>
        let p2 := str_tail p1 in
        let mask := u32 (sv (strtoul 0 p2)) in
        add_filter fid mask;;
        match strchr p2 (chr 58) with
        | None => mret (inr tt)
        | Some p3 => mret (inl (str_tail p3))
        end
    end)) s (fun _ s' => dw_filter (dev s') = dw_filter (dev s) ++ fs).
Proof.
  induction fs as [|[i m] fs IH]; intros fuel s Hne Hfs Hl; [done|].
  inversion_clear Hfs as [|? ? [Hi Hm] Hfs']. destruct fuel as [|f]; [simpl in Hl; lia|].
  apply runs_while. cbn [filter_text]. simpl in Hi, Hm.
  rewrite strtoul_dec_stop by (done || apply stops_colon).
  rewrite strchr_dec by (done || lia). cbn [strchr colon]. rewrite Ascii.eqb_refl. cbn [str_tail].
  destruct fs as [|f2 fs].
  - rewrite strtoul_dec_stop by (done || constructor). rewrite strchr_dec by (done || lia). cbn [strchr].
    unfold add_filter. by runs_steps.
  - rewrite strtoul_dec_stop by (done || apply stops_colon). rewrite strchr_dec by (done || lia).
    cbn [strchr colon]. rewrite Ascii.eqb_refl. cbn [str_tail]. unfold add_filter at 1. runs_steps.
    eapply runs_mono; [apply IH; [done|done|simpl in *; lia]|]. intros _ s' ->. simpl.
    by rewrite <- app_assoc.
Qed.

Lemma filter_text_length fs : (length fs <= String.length (filter_text fs))%nat.
Proof.
  enough (Z.of_nat (length fs) <= strlen (filter_text fs)) by (rewrite strlen_length in *; lia).
  induction fs as [|[i m] fs IH]; [done|]. cbn [filter_text length].
  rewrite strlen_app. unfold colon at 1. cbn [strlen]. rewrite strlen_app.
  pose proof (strlen_nonneg (dec i)). pose proof (strlen_nonneg (dec m)).
  destruct fs as [|g fs]; [simpl; lia|]. unfold colon at 1. cbn [strlen].
  fold (filter_text (g :: fs)). cbn [length] in *. lia.
Qed.

(** ** Output lines *)

Lemma data_str_some n : forall l, (n <= length l)%nat -> Forall is_byte l ->
  exists r, data_str n l = Some r /\ strlen r <= 9 * Z.of_nat n.
Proof.
  induction n as [|n IH]; intros l Hl Hb; [by eexists|].
  destruct l as [|b l]; [simpl in Hl; lia|]. inversion_clear Hb as [|? ? Hb1 Hb2].
  destruct (IH l) as (r & E & Hr); [simpl in Hl; lia | done|]. simpl. rewrite E. eexists. split; [done|].
  rewrite !strlen_app. unfold hex0. rewrite strlen_pad_left. unfold is_byte in Hb1.
  pose proof (strlen_fmt_base false 16 b 8 ltac:(change (2 ^ 8) with 256; lia) ltac:(lia)).
  unfold hex. cbn [strlen]. lia.
Qed.

(** A frame of at most eight bytes always has its line, and the line fits
    [buf[255]]. *)
Lemma frame_line_some f :
  0 <= can_dlc f <= 8 -> length (data f) = 8%nat -> Forall is_byte (data f) ->
  exists line, frame_line f = Some line /\ strlen line < 255.
Proof.
  intros Hd Hl Hb. unfold frame_line.
  destruct (data_str_some (Z.to_nat (can_dlc f)) (data f)) as (r & -> & Hr); [lia | done|].
  eexists. split; [done|]. rewrite !strlen_app.
  assert (forall k, 0 < k <= 32 -> strlen (hex0 8 (Z.land (can_id f) (Z.ones k))) <= 32) as Hh.
  { intros k Hk. unfold hex0. rewrite strlen_pad_left.
    rewrite Z.land_ones by lia. pose proof (Z.mod_pos_bound (can_id f) (2 ^ k) ltac:(lia)).
    pose proof (strlen_fmt_base false 16 (can_id f mod 2 ^ k) k ltac:(lia) ltac:(lia)). unfold hex. lia. }
  assert (strlen (hex0 3 (Z.land (can_id f) CAN_SFF_MASK)) <= 32) as H3.
  { unfold hex0. rewrite strlen_pad_left. change CAN_SFF_MASK with (Z.ones 11).
    rewrite Z.land_ones by lia. pose proof (Z.mod_pos_bound (can_id f) (2 ^ 11) ltac:(lia)).
    pose proof (strlen_fmt_base false 16 (can_id f mod 2 ^ 11) 11 ltac:(lia) ltac:(lia)). unfold hex. lia. }
  pose proof (Hh 29 ltac:(lia)) as H29. change (Z.ones 29) with CAN_EFF_MASK in H29.
  assert (strlen (dec (can_dlc f)) <= 4).
  { unfold dec. destruct (Z.ltb_spec (can_dlc f) 0); [lia|]. apply strlen_fmt_base; simpl; lia. }
  destruct (truth (Z.land (can_id f) CAN_EFF_FLAG)), (truth (Z.land (can_id f) CAN_RTR_FLAG));
    rewrite !strlen_app; cbn [strlen]; lia.
Qed.

Lemma runs_sock {A} (m : M can_w A) s (Q : A -> st dump_w -> Prop) :
  runs m (mkst (out s) (dw_can (dev s))) (fun a (s1 : st can_w) => Q a (mkst (out s1)
    (mk_dump (dev s1) (dw_filter (dev s)) (dw_receive_cnt (dev s)) (dw_file (dev s)) (dw_flushes (dev s)) (dw_opens (dev s))))) ->
  runs (sock m) s Q.
Proof.
  intros (a & s1 & E & HQ). exists a. eexists. unfold sock. rewrite E. split; [done | exact HQ].
Qed.

Definition dump_reads s : nat := cw_reads (dw_can (dev s)).

(** A round that reads a frame writes its line. *)
Lemma dump_round_frame o g f line s :
  optout o = None -> silent o = false ->
  (forall n, os_running (d_can os) n = true) -> (forall n, d_fflush os n = FlushOk) ->
  frame_line f = Some line -> os_read (d_can os) (dump_reads s) = ReadFrame f -> (0 < g)%nat ->
  runs (dump_round os g o) s (fun r s' => r = inl tt /\ dump_reads s' = S (dump_reads s) /\
    dw_receive_cnt (dev s') = u32 (dw_receive_cnt (dev s) + 1) /\ out s' = Stdout (line +:+ nl) :: out s).
Proof.
  intros Hout Hsil Hrun Hfl Hline Hrd Hg. destruct g as [|g]; [lia|]. unfold dump_round, dump_reads in *.
  apply runs_bind, runs_sock, runs_test_running. cbn [out dev]. intros s1 Ho1 _ Hr1 _. rewrite Hrun.
  cbn [negb]. apply runs_bind, runs_sock, runs_sock_read. cbn [out dev dw_can]. intros s2 Ho2 _ Hr2.
  rewrite Hr1, Hrd, Hsil, Hline. unfold count_frame, emit, flush_loop, fflush. rewrite Hout. runs_steps.
  apply runs_while. runs_steps. rewrite Hfl. cbn [fst]. runs_steps. simpl.
  split; [done|]. rewrite Hr2, Hr1, Ho2, Ho1. done.
Qed.

Lemma dump_round_error o g s :
  (forall n, os_running (d_can os) n = true) -> os_read (d_can os) (dump_reads s) = ReadErr ->
  runs (dump_round os g o) s (fun r s' => r = inr 1 /\ dw_receive_cnt (dev s') = dw_receive_cnt (dev s) /\
    out s' = Stderr ("read: " +:+ os_strerror (d_can os) +:+ nl) :: out s).
Proof.
  intros Hrun Hrd. unfold dump_round, dump_reads in *.
  apply runs_bind, runs_sock, runs_test_running. cbn [out dev]. intros s1 Ho1 _ Hr1 _. rewrite Hrun.
  cbn [negb]. apply runs_bind, runs_sock, runs_sock_read. cbn [out dev dw_can]. intros s2 Ho2 _ Hr2.
  rewrite Hr1, Hrd. unfold perror, can_perror. apply runs_bind, runs_sock. runs_steps. simpl.
  by rewrite Ho2, Ho1.
Qed.

(** The loop writes the line of every frame, in order. *)
Lemma dump_loop_lines o lines :
  optout o = None -> silent o = false ->
  (forall n, os_running (d_can os) n = true) -> (forall n, d_fflush os n = FlushOk) ->
  forall (l : list can_frame) fuel s, (length l < fuel)%nat ->
  Forall2 (fun f line => frame_line f = Some line) l lines ->
  (forall j f, l !! j = Some f -> os_read (d_can os) (dump_reads s + j) = ReadFrame f) ->
  os_read (d_can os) (dump_reads s + length l) = ReadErr ->
  0 <= dw_receive_cnt (dev s) < 2 ^ 32 ->
  runs (dump_loop os fuel o) s (fun v s' => v = 1 /\
    dw_receive_cnt (dev s') = u32 (dw_receive_cnt (dev s) + Z.of_nat (length l)) /\
    out s' = Stderr ("read: " +:+ os_strerror (d_can os) +:+ nl) :: rev (map (fun x => Stdout (x +:+ nl)) lines) ++ out s).
Proof.
  intros Hout Hsil Hrun Hfl l fuel s Hf Hlines. unfold dump_loop.
  assert (0 < fuel)%nat as Hpos by lia. revert Hpos. generalize fuel at 1 3 as g. intros g Hg.
  revert fuel s Hf. induction Hlines as [|f line l lines Hline Hlines IH]; intros fuel s Hf Hrd Herr Hcnt;
    (destruct fuel as [|fuel]; [simpl in Hf; lia|]); apply runs_while.
  - eapply runs_mono; [apply dump_round_error; [done|]|].
    { by rewrite Nat.add_0_r in Herr. }
    intros r s' (-> & -> & ->). split; [done|]. split; [|done].
    rewrite Z.add_0_r. symmetry. by apply wrapu_small.
  - eapply runs_mono; [apply (dump_round_frame o g f line); try done|].
    { pose proof (Hrd 0%nat f eq_refl) as H0. by rewrite Nat.add_0_r in H0. }
    intros r s1 (-> & Hr & Hc & Ho). eapply runs_mono; [apply IH|].
    + simpl in Hf. lia.
    + intros j f' Hj. rewrite Hr. replace (S (dump_reads s) + j)%nat with (dump_reads s + S j)%nat by lia. by apply Hrd.
    + rewrite <- Herr, Hr. f_equal. simpl. lia.
    + rewrite Hc. by apply wrapu_range.
    + intros v s2 (-> & -> & ->). split; [done|]. rewrite Hc, Ho. split.
      * unfold u32, wrapu. rewrite Z.add_mod_idemp_l by lia. f_equal. simpl length. lia.
      * simpl. by rewrite <- app_assoc.
Qed.
End dump.
