(* ===== verification/CanConfig.v ===== *)
(** * canconfig ([can_test/utilities/canconfig.c])

    Command line for the parameters of a CAN interface. The library
    libsocketcan and the floating-point conversions of sample points are the
    class [CanLib]; the program's [argc]/[argv] arithmetic is kept: [argv] is the
    list of words from the current one on, and reading past its end is a crash. *)

From stdpp Require Import base list strings numbers.
From Stdlib Require Import ZArith Lia.
From S2P Require Import Prelude CInt CLib.

Module Config.

Record can_bittiming := mk_bt {
  bitrate : Z; sample_point : Z; tq : Z; prop_seg : Z; phase_seg1 : Z; phase_seg2 : Z; sjw : Z; brp : Z
}.
Definition bt0 : can_bittiming := mk_bt 0 0 0 0 0 0 0 0.

Record can_bittiming_const := mk_btc {
  btc_name : string; tseg1_min : Z; tseg1_max : Z; tseg2_min : Z; tseg2_max : Z;
  sjw_max : Z; brp_min : Z; brp_max : Z; brp_inc : Z
}.
Record can_ctrlmode := mk_cm { cm_mask : Z; cm_flags : Z }.

(** Getters give [None] and setters a negative number on failure. *)
Class CanLib (D : Type) : Type := {
  can_get_bittiming : string -> D -> option can_bittiming;
  can_set_bittiming : string -> can_bittiming -> D -> Z * D;
  can_set_bitrate : string -> Z -> D -> Z * D;
  can_set_bitrate_samplepoint : string -> Z -> Z -> D -> Z * D;
  can_get_bittiming_const : string -> D -> option can_bittiming_const;
  can_get_state : string -> D -> option Z;
  can_get_clock : string -> D -> option Z;
  can_do_restart : string -> D -> Z * D;
  can_do_start : string -> D -> Z * D;
  can_do_stop : string -> D -> Z * D;
  can_get_ctrlmode : string -> D -> option can_ctrlmode;
  can_set_ctrlmode : string -> can_ctrlmode -> D -> Z * D;
  can_get_restart_ms : string -> D -> option Z;
  can_set_restart_ms : string -> Z -> D -> Z * D;
  can_get_berr_counter : string -> D -> option (Z * Z);
  (** [(__u32)(strtod(s, NULL) * 1000)] and the [%0.3f] of a sample point *)
  sample_permille : string -> Z;
  sample_text : Z -> string
}.

Definition CAN_CTRLMODE_LOOPBACK : Z := 0x01.
Definition CAN_CTRLMODE_LISTENONLY : Z := 0x02.
Definition CAN_CTRLMODE_3_SAMPLES : Z := 0x04.
Definition CAN_CTRLMODE_ONE_SHOT : Z := 0x08.
Definition CAN_CTRLMODE_BERR_REPORTING : Z := 0x10.

Definition can_states : list string :=
  ["ERROR-ACTIVE"; "ERROR-WARNING"; "ERROR-PASSIVE"; "BUS-OFF"; "STOPPED"; "SLEEPING"]%string.

Definition config_keywords : list string :=
  ["baudrate"; "bitrate"; "bittiming"; "ctrlmode"; "restart"; "start"; "stop"; "restart-ms"; "state";
   "clockfreq"; "bittiming-const"; "berr-counter"]%string.

Definition find_str (haystack : list string) (needle : string) : bool := existsb (streq needle) haystack.

Section canconfig.
Context `{DM : DataModel} {D : Type} `{CL : CanLib D} (version : string).
Abbreviation P := (M D).

Definition EXIT_FAILURE : Z := 1.
Definition EXIT_SUCCESS : Z := 0.

(** [*argv] *)
Definition deref (argv : list string) : P string := match argv with a :: _ => mret a | [] => crash end.
Definition ul_arg (a : string) : Z := u32 (sv (strtoul 0 a)).

(** [NEXT_ARG()]: the new [argc] and [argv]. *)
Definition NEXT_ARG (argc : Z) (argv : list string) : P (Z * list string) :=
  match argv with
  | [] => crash
  | _ :: argv' =>
      if argc - 1 <? 0 then
        a ← deref argv'; eprintf ("missing parameter for " +:+ a +:+ nl);; exit EXIT_FAILURE
      else mret (argc - 1, argv')
  end.

Definition get {A} (f : D -> option A) : P (option A) := devop (fun d => (f d, d)).

Definition help {A} : P A :=
  eprintf ("usage:" +:+ nl +:+ tab +:+
    "canconfig <dev> bitrate { BR } [sample-point { SP }]" +:+ nl +:+ tab +:+ tab +:+
    "BR := <bitrate in Hz>" +:+ nl +:+ tab +:+ tab +:+
    "SP := <sample-point {0...0.999}> (optional)" +:+ nl +:+ tab +:+
    "canconfig <dev> bittiming [ VALs ]" +:+ nl +:+ tab +:+ tab +:+
    "VALs := <tq | prop-seg | phase-seg1 | phase-seg2 | sjw>" +:+ nl +:+ tab +:+ tab +:+
    "tq <time quantum in ns>" +:+ nl +:+ tab +:+ tab +:+
    "prop-seg <no. in tq>" +:+ nl +:+ tab +:+ tab +:+
    "phase-seg1 <no. in tq>" +:+ nl +:+ tab +:+ tab +:+
    "phase-seg2 <no. in tq" +:+ nl +:+ tab +:+ tab +:+
    "sjw <no. in tq> (optional)" +:+ nl +:+ tab +:+
    "canconfig <dev> restart-ms { RESTART-MS }" +:+ nl +:+ tab +:+ tab +:+
    "RESTART-MS := <autorestart interval in ms>" +:+ nl +:+ tab +:+
    "canconfig <dev> ctrlmode { CTRLMODE }" +:+ nl +:+ tab +:+ tab +:+
    "CTRLMODE := <[loopback | listen-only | triple-sampling | berr-reporting] [on|off]>" +:+ nl +:+ tab +:+
    "canconfig <dev> {ACTION}" +:+ nl +:+ tab +:+ tab +:+
    "ACTION := <[start|stop|restart]>" +:+ nl +:+ tab +:+
    "canconfig <dev> clockfreq" +:+ nl +:+ tab +:+
    "canconfig <dev> bittiming-constants" +:+ nl +:+ tab +:+
    "canconfig <dev> berr-counter" +:+ nl);;
  exit EXIT_FAILURE.

(** ** bitrate *)

Definition do_show_bitrate (name : string) : P unit :=
  r ← get (can_get_bittiming name);
  match r with
  | None => eprintf (name +:+ ": failed to get bitrate" +:+ nl);; exit EXIT_FAILURE
  | Some bt => printf (name +:+ " bitrate: " +:+ dec (bitrate bt) +:+ ", sample-point: " +:+
                       sample_text (sample_point bt) +:+ nl)
  end.

(** [while (argc > 0)] of [do_set_bitrate]: the bit rate and sample point found.
    Every round lowers [argc]. *)
Definition br_round (x : Z * list string * Z * Z) : P (Z * list string * Z * Z + Z * Z) :=
  let '(argc, argv, br, sp) := x in
  if negb (0 <? argc) then mret (inr (br, sp))
  else
    a ← deref argv;
    x ← (if streq a "bitrate" then
           n ← NEXT_ARG argc argv; v ← deref n.2; mret (n, ul_arg v, sp)
         else if streq a "sample-point" then
           n ← NEXT_ARG argc argv; v ← deref n.2; mret (n, br, sample_permille v)
         else mret (argc, argv, br, sp));
    let '(argc, argv, br, sp) := x in
    mret (inl (argc - 1, tail argv, br, sp)).
Definition scan_bitrate (argc : Z) (argv : list string) : P (Z * Z) :=
  while_ (S (Z.to_nat argc)) (argc, argv, 0, 0) br_round.

Definition do_set_bitrate (argc : Z) (argv : list string) (name : string) : P unit :=
  x ← scan_bitrate argc argv;
  let '(br, sp) := x in
  err ← (if truth sp then devop (can_set_bitrate_samplepoint name br sp) else devop (can_set_bitrate name br));
  when (err <? 0)
    (eprintf ("failed to set bitrate of " +:+ name +:+ " to " +:+ dec br +:+ nl);; exit EXIT_FAILURE).

(** [show_only] as the commands with parameters compute it. *)
Definition show_only (argc : Z) (argv : list string) : P bool :=
  if 0 <? argc then a ← deref (tail argv); mret (find_str config_keywords a) else mret true.

Definition cmd_bitrate (argc : Z) (argv : list string) (name : string) : P unit :=
  so ← show_only argc argv;
  when (negb so) (do_set_bitrate argc argv name);;
  do_show_bitrate name.

(** ** bittiming *)

Definition set_tq bt v := mk_bt (bitrate bt) (sample_point bt) v (prop_seg bt) (phase_seg1 bt) (phase_seg2 bt) (sjw bt) (brp bt).
Definition set_prop_seg bt v := mk_bt (bitrate bt) (sample_point bt) (tq bt) v (phase_seg1 bt) (phase_seg2 bt) (sjw bt) (brp bt).
Definition set_phase_seg1 bt v := mk_bt (bitrate bt) (sample_point bt) (tq bt) (prop_seg bt) v (phase_seg2 bt) (sjw bt) (brp bt).
Definition set_phase_seg2 bt v := mk_bt (bitrate bt) (sample_point bt) (tq bt) (prop_seg bt) (phase_seg1 bt) v (sjw bt) (brp bt).
Definition set_sjw bt v := mk_bt (bitrate bt) (sample_point bt) (tq bt) (prop_seg bt) (phase_seg1 bt) (phase_seg2 bt) v (brp bt).

(** Which field a keyword sets, and by how much it raises [bt_par_count]. *)
Definition bt_keyword (a : string) : option ((can_bittiming -> Z -> can_bittiming) * Z) :=
  if streq a "tq" then Some (set_tq, 1)
  else if streq a "prop-seg" then Some (set_prop_seg, 1)
  else if streq a "phase-seg1" then Some (set_phase_seg1, 1)
  else if streq a "phase-seg2" then Some (set_phase_seg2, 1)
  else if streq a "sjw" then Some (set_sjw, 0)
  else None.

(** The [while] of [do_set_bittiming]; after a value [continue] looks at the
    value again. *)
Definition bt_round (x : Z * list string * can_bittiming * Z)
    : P (Z * list string * can_bittiming * Z + can_bittiming * Z) :=
  let '(argc, argv, bt, cnt) := x in
  if negb (0 <? argc) then mret (inr (bt, cnt))
  else
    a ← deref argv;
    match bt_keyword a with
    | Some (set, k) =>
        n ← NEXT_ARG argc argv; v ← deref n.2;
        mret (inl (n, set bt (ul_arg v), cnt + k))
    | None => mret (inl (argc - 1, tail argv, bt, cnt))
    end.
Definition scan_bittiming (argc : Z) (argv : list string) : P (can_bittiming * Z) :=
  while_ (S (Z.to_nat argc)) (argc, argv, bt0, 0) bt_round.

Definition do_set_bittiming (argc : Z) (argv : list string) (name : string) : P unit :=
  x ← scan_bittiming argc argv;
  let '(bt, cnt) := x in
  if cnt <? 4 then
    eprintf (name +:+ ": missing bittiming parameters, try help to figure out the correct format" +:+ nl);; exit 1
  else
    err ← devop (can_set_bittiming name bt);
    when (err <? 0) (eprintf (name +:+ ": unable to set bittiming" +:+ nl);; exit EXIT_FAILURE).

Definition do_show_bittiming (name : string) : P unit :=
  r ← get (can_get_bittiming name);
  match r with
  | None => eprintf (name +:+ ": failed to get bittiming" +:+ nl);; exit EXIT_FAILURE
  | Some bt => printf (name +:+ " bittiming:" +:+ nl +:+ tab +:+ "tq: " +:+ dec (tq bt) +:+ ", prop-seq: " +:+
                       dec (prop_seg bt) +:+ " phase-seq1: " +:+ dec (phase_seg1 bt) +:+ " phase-seq2: " +:+
                       dec (phase_seg2 bt) +:+ " sjw: " +:+ dec (sjw bt) +:+ ", brp: " +:+ dec (brp bt) +:+ nl)
  end.

Definition cmd_bittiming (argc : Z) (argv : list string) (name : string) : P unit :=
  so ← show_only argc argv;
  when (negb so) (do_set_bittiming argc argv name);;
  do_show_bittiming name;;
  do_show_bitrate name.

Definition do_show_bittiming_const (name : string) : P unit :=
  r ← get (can_get_bittiming_const name);
  match r with
  | None => eprintf (name +:+ ": failed to get bittiming_const" +:+ nl);; exit EXIT_FAILURE
  | Some btc => printf (name +:+ " bittiming-constants: name " +:+ btc_name btc +:+ "," +:+ nl +:+ tab +:+
      "tseg1-min: " +:+ dec (tseg1_min btc) +:+ ", tseg1-max: " +:+ dec (tseg1_max btc) +:+
      ", tseg2-min: " +:+ dec (tseg2_min btc) +:+ ", tseg2-max: " +:+ dec (tseg2_max btc) +:+ "," +:+ nl +:+ tab +:+
      "sjw-max " +:+ dec (sjw_max btc) +:+ ", brp-min: " +:+ dec (brp_min btc) +:+
      ", brp-max: " +:+ dec (brp_max btc) +:+ ", brp-inc: " +:+ dec (brp_inc btc) +:+ "," +:+ nl)
  end.
Definition cmd_bittiming_const (name : string) : P unit := do_show_bittiming_const name.

(** ** state, clock, start and stop *)

Definition do_show_state (name : string) : P unit :=
  r ← get (can_get_state name);
  match r with
  | None => eprintf (name +:+ ": failed to get state " +:+ nl);; exit EXIT_FAILURE
  | Some state =>
      match (if 0 <=? state then can_states !! Z.to_nat state else None) with
      | Some text => printf (name +:+ " state: " +:+ text +:+ nl)
      | None => eprintf (name +:+ ": unknown state" +:+ nl)
      end
  end.
Definition cmd_state (name : string) : P unit := do_show_state name.

Definition do_show_clockfreq (name : string) : P unit :=
  r ← get (can_get_clock name);
  match r with
  | None => eprintf (name +:+ ": failed to get clock parameters" +:+ nl);; exit EXIT_FAILURE
  | Some freq => printf (name +:+ " clock freq: " +:+ dec freq +:+ nl)
  end.
Definition cmd_clockfreq (name : string) : P unit := do_show_clockfreq name.

Definition do_restart (name : string) : P unit :=
  err ← devop (can_do_restart name);
  if err <? 0 then eprintf (name +:+ ": failed to restart" +:+ nl);; exit EXIT_FAILURE
  else printf (name +:+ " restarted" +:+ nl).
Definition cmd_restart (name : string) : P unit := do_restart name.

Definition do_start (name : string) : P unit :=
  err ← devop (can_do_start name);
  if err <? 0 then eprintf (name +:+ ": failed to start" +:+ nl);; exit EXIT_FAILURE
  else do_show_state name.
Definition cmd_start (name : string) : P unit := do_start name.

Definition do_stop (name : string) : P unit :=
  err ← devop (can_do_stop name);
  if err <? 0 then eprintf (name +:+ ": failed to stop" +:+ nl);; exit EXIT_FAILURE
  else do_show_state name.
Definition cmd_stop (name : string) : P unit := do_stop name.

(** ** ctrlmode *)

Definition on_off (flags bit : Z) : string := if truth (Z.land flags bit) then "ON" else "OFF".
Definition print_ctrlmode (cm_flags : Z) : P unit :=
  printf ("loopback[" +:+ on_off cm_flags CAN_CTRLMODE_LOOPBACK +:+ "], listen-only[" +:+
          on_off cm_flags CAN_CTRLMODE_LISTENONLY +:+ "], tripple-sampling[" +:+
          on_off cm_flags CAN_CTRLMODE_3_SAMPLES +:+ "],one-shot[" +:+
          on_off cm_flags CAN_CTRLMODE_ONE_SHOT +:+ "], berr-reporting[" +:+
          on_off cm_flags CAN_CTRLMODE_BERR_REPORTING +:+ "]" +:+ nl).

Definition do_show_ctrlmode (name : string) : P unit :=
  r ← get (can_get_ctrlmode name);
  match r with
  | None => eprintf (name +:+ ": failed to get controlmode" +:+ nl);; exit EXIT_FAILURE
  | Some cm => printf (name +:+ " ctrlmode: ");; print_ctrlmode (cm_flags cm)
  end.

Definition set_ctrlmode (name arg : string) (cm : can_ctrlmode) (flags : Z) : P can_ctrlmode :=
  f ← (if streq arg "on" then mret (Z.lor (cm_flags cm) flags)
       else if streq arg "off" then mret (cm_flags cm)
       else eprintf ("Error: argument of " +:+ dq +:+ name +:+ dq +:+ " must be " +:+ dq +:+ "on" +:+ dq +:+
                     " or " +:+ dq +:+ "off" +:+ dq +:+ " " +:+ arg +:+ nl);; exit EXIT_FAILURE);
  mret (mk_cm (Z.lor (cm_mask cm) flags) f).

Definition cm_keyword (a : string) : option Z :=
  if streq a "loopback" then Some CAN_CTRLMODE_LOOPBACK
  else if streq a "listen-only" then Some CAN_CTRLMODE_LISTENONLY
  else if streq a "triple-sampling" then Some CAN_CTRLMODE_3_SAMPLES
  else if streq a "one-shot" then Some CAN_CTRLMODE_ONE_SHOT
  else if streq a "berr-reporting" then Some CAN_CTRLMODE_BERR_REPORTING
  else None.

Definition cm_round (x : Z * list string * can_ctrlmode) : P (Z * list string * can_ctrlmode + can_ctrlmode) :=
  let '(argc, argv, cm) := x in
  if negb (0 <? argc) then mret (inr cm)
  else
    a ← deref argv;
    x ← (match cm_keyword a with
         | Some flags => n ← NEXT_ARG argc argv; v ← deref n.2; cm ← set_ctrlmode a v cm flags; mret (n, cm)
         | None => mret (argc, argv, cm)
         end);
    let '(argc, argv, cm) := x in
    mret (inl (argc - 1, tail argv, cm)).
Definition scan_ctrlmode (argc : Z) (argv : list string) : P can_ctrlmode :=
  while_ (S (Z.to_nat argc)) (argc, argv, mk_cm 0 0) cm_round.

Definition do_set_ctrlmode (argc : Z) (argv : list string) (name : string) : P unit :=
  cm ← scan_ctrlmode argc argv;
  err ← devop (can_set_ctrlmode name cm);
  when (err <? 0) (eprintf (name +:+ ": failed to set ctrlmode" +:+ nl);; exit EXIT_FAILURE).

Definition cmd_ctrlmode (argc : Z) (argv : list string) (name : string) : P unit :=
  so ← show_only argc argv;
  when (negb so) (do_set_ctrlmode argc argv name);;
  do_show_ctrlmode name.

(** ** restart-ms, error counters *)

Definition do_show_restart_ms (name : string) : P unit :=
  r ← get (can_get_restart_ms name);
  match r with
  | None => eprintf (name +:+ ": failed to get restart_ms" +:+ nl);; exit EXIT_FAILURE
  | Some ms => printf (name +:+ " restart-ms: " +:+ dec ms +:+ nl)
  end.

Definition do_set_restart_ms (argv : list string) (name : string) : P unit :=
  a ← deref (tail argv);
  err ← devop (can_set_restart_ms name (u32 (sv (strtoul 10 a))));
  when (err <? 0)
    (eprintf ("failed to set restart_ms of " +:+ name +:+ " to " +:+ dec (sv (strtoul 10 a)) +:+ nl);;
     exit EXIT_FAILURE).

Definition cmd_restart_ms (argc : Z) (argv : list string) (name : string) : P unit :=
  so ← show_only argc argv;
  when (negb so) (do_set_restart_ms argv name);;
  do_show_restart_ms name.

Definition do_show_berr_counter (name : string) : P unit :=
  r ← get (can_get_ctrlmode name);
  match r with
  | None => eprintf (name +:+ ": failed to get controlmode" +:+ nl);; exit EXIT_FAILURE
  | Some cm =>
      when (truth (Z.land (cm_flags cm) CAN_CTRLMODE_BERR_REPORTING))
        (b ← get (can_get_berr_counter name);
         match b with
         | None => eprintf (name +:+ ": failed to get berr counters" +:+ nl);; exit EXIT_FAILURE
         | Some (txerr, rxerr) => printf (name +:+ " txerr: " +:+ dec txerr +:+ " rxerr: " +:+ dec rxerr +:+ nl)
         end)
  end.
Definition cmd_berr_counter (name : string) : P unit := do_show_berr_counter name.

Definition cmd_baudrate {A} (name : string) : P A :=
  eprintf (name +:+ ": baudrate is deprecated, pleae use bitrate" +:+ nl);; exit EXIT_FAILURE.

Definition cmd_show_interface {A} (name : string) : P A :=
  do_show_bitrate name;;
  do_show_bittiming name;;
  do_show_state name;;
  do_show_restart_ms name;;
  do_show_ctrlmode name;;
  do_show_clockfreq name;;
  do_show_bittiming_const name;;
  do_show_berr_counter name;;
  exit EXIT_SUCCESS.

(** ** main *)

(** The sequence of [if]s for the word [argv[0]]. *)
Definition dispatch (argc : Z) (argv : list string) (name a : string) : P unit :=
  when (streq a "baudrate") (cmd_baudrate name);;
  when (streq a "bitrate") (cmd_bitrate argc argv name);;
  when (streq a "bittiming") (cmd_bittiming argc argv name);;
  when (streq a "ctrlmode") (cmd_ctrlmode argc argv name);;
  when (streq a "restart") (cmd_restart name);;
  when (streq a "start") (cmd_start name);;
  when (streq a "stop") (cmd_stop name);;
  when (streq a "restart-ms") (cmd_restart_ms argc argv name);;
  when (streq a "state") (cmd_state name);;
  when (streq a "clockfreq") (cmd_clockfreq name);;
  when (streq a "bittiming-constants") (cmd_bittiming_const name);;
  when (streq a "berr-counter") (cmd_berr_counter name).

(** [while (argc-- > 0)] *)
Definition main_loop (argc : Z) (argv : list string) (name : string) : P unit :=
  while_ (S (Z.to_nat argc)) (argc, argv) (fun '(argc, argv) =>
    if negb (0 <? argc) then mret (inr tt)
    else
      a ← deref argv;
      dispatch (argc - 1) argv name a;;
      mret (inl (argc - 1, tail argv))).

(** [args] are all the words, [argv[0]] included. *)
Definition main (args : list string) : P unit :=
  let argc := Z.of_nat (length args) in
  match args with
  | _ :: name :: _ =>
      when (streq name "--help") help;;
      when (streq name "--version") (printf ("Version: " +:+ version +:+ nl);; exit EXIT_SUCCESS);;
      when (argc <? 3) (cmd_show_interface name);;
      main_loop argc args name;;
      exit EXIT_SUCCESS
  | _ => help
  end.
End canconfig.
End Config.
