(* ===== verification/CanConfigOk.v ===== *)
(** * canconfig: lemmas

    Runs that end by returning or by [exit] ([ok]), and what the scans of the
    command line find. *)

From stdpp Require Import base list strings numbers.
From Stdlib Require Import ZArith Lia Ascii.
From S2P Require Import Prelude CInt CLib CLibOk CanConfig.
Import Config.

(** The run returns a value with [P] or calls [exit]; it neither crashes nor
    runs out of fuel. *)
Definition ok {W A} (m : M W A) (s : st W) (P : A -> Prop) : Prop :=
  wp m s (fun r _ => match r with Ret a => P a | Exit _ => True | _ => False end).

Section ok.
Context {W : Type}.
Implicit Types s : st W.

Lemma ok_ret {A} (a : A) s (P : A -> Prop) : P a -> ok (mret a) s P.
Proof. done. Qed.

Lemma ok_bind {A B} (m : M W A) (f : A -> M W B) s (P : A -> Prop) (Q : B -> Prop) :
  ok m s P -> (forall a s', P a -> ok (f a) s' Q) -> ok (m ≫= f) s Q.
Proof.
  intros Hm Hf. unfold ok, wp, mbind, M_bind in *. destruct (m s) as [[] s']; simpl in *; try done.
  by apply Hf.
Qed.

Lemma ok_devop {A} (f : W -> A * W) s : ok (devop f) s (fun _ => True).
Proof. unfold ok, wp, devop. by destruct (f (dev s)). Qed.

Lemma ok_when (b : bool) (m : M W unit) s : (b = true -> ok m s (fun _ => True)) -> ok (when b m) s (fun _ => True).
Proof. destruct b; [auto | by intros _]. Qed.

(** Loops whose measure decreases. *)
Lemma ok_while {S R} (I : S -> Prop) (mu : S -> nat) (P : R -> Prop) (body : S -> M W (S + R)) :
  (forall a s, I a -> ok (body a) s (fun r => match r with
     | inl a' => I a' /\ (mu a' < mu a)%nat | inr v => P v end)) ->
  forall fuel a s, I a -> (mu a < fuel)%nat -> ok (while_ fuel a body) s P.
Proof.
  intros Hb. induction fuel as [|f IH]; intros a s HI Hf; [lia|]. simpl.
  eapply ok_bind; [by apply Hb|]. intros [a'|v] s'; [|done]. intros [HI' Hmu]. apply IH; [done | lia].
Qed.
End ok.

(** Straight-line code that prints, calls the library and exits. *)
Ltac ok_tac := repeat match goal with
  | |- ok (mret _) _ _ => apply ok_ret
  | |- ok (_ ≫= _) _ _ => eapply (ok_bind _ _ _ (fun _ => True)); [|intros]
  | |- ok (printf _) _ _ => exact I
  | |- ok (eprintf _) _ _ => exact I
  | |- ok (exit _) _ _ => exact I
  | |- ok (devop _) _ _ => apply ok_devop
  | |- ok (get _) _ _ => apply ok_devop
  | |- ok (when _ _) _ _ => apply ok_when; intros
  | |- ok (match ?x with _ => _ end) _ _ => destruct x
  | |- True => exact I
  end.

Section canconfig.
Context `{DM : DataModel} {D : Type} `{CL : CanLib D}.
Implicit Types s : st D.

(** [argc] counts the words after the current one. *)
Definition at_words (argc : Z) (argv : list string) : Prop := argc = Z.of_nat (length argv) - 1.

Lemma deref_ok argv s : argv <> [] -> ok (W := D) (deref argv) s (fun _ => True).
Proof. by destruct argv. Qed.

Lemma next_arg_ok argc argv s : at_words argc argv -> 0 < argc ->
  ok (W := D) (NEXT_ARG argc argv) s (fun n => at_words n.1 n.2 /\ n.1 = argc - 1 /\ n.2 <> []).
Proof.
  unfold at_words. intros Ha Hc. destruct argv as [|a [|b argv]]; simpl in *; [lia|lia|].
  destruct (Z.ltb_spec (argc - 1) 0); [lia|]. unfold ok, wp. simpl. split; [lia | done].
Qed.

Lemma at_words_tail argc argv : at_words argc argv -> at_words (argc - 1) (tail argv) \/ argc - 1 <= 0.
Proof. unfold at_words. destruct argv; simpl; lia. Qed.

(** The invariant of the scans: the words are in step, or the scan is over. *)
Definition in_step (argc : Z) (argv : list string) : Prop := at_words argc argv \/ argc <= 0.

Lemma in_step_words argc argv : in_step argc argv -> 0 < argc -> at_words argc argv /\ argv <> [].
Proof.
  intros [H|H] Hc; [|lia]. split; [done|]. unfold at_words in H. destruct argv; [simpl in H; lia | done].
Qed.

(** A keyword and its value. *)
Lemma value_ok {B} argc argv (f : Z * list string -> string -> M D B) s (Q : B -> Prop) :
  at_words argc argv -> 0 < argc ->
  (forall n v s, in_step n.1 n.2 -> n.1 = argc - 1 -> ok (f n v) s Q) ->
  ok (n ← NEXT_ARG argc argv; v ← deref n.2; f n v) s Q.
Proof.
  intros Hw Hc Hf. eapply ok_bind; [by apply next_arg_ok|]. intros n s2 (H1 & H2 & H3).
  eapply ok_bind; [by apply deref_ok|]. intros v s3 _. apply Hf; [by left | done].
Qed.

Lemma in_step_tail argc argv : in_step argc argv -> in_step (argc - 1) (tail argv).
Proof. intros [H|H]; [|right; lia]. by destruct (at_words_tail _ _ H); [left | right]. Qed.

Lemma scan_bitrate_ok argc argv s : in_step argc argv -> ok (W := D) (scan_bitrate argc argv) s (fun _ => True).
Proof.
  intros H. apply (ok_while (fun x => in_step x.1.1.1 x.1.1.2) (fun x => Z.to_nat x.1.1.1)); [|done|simpl; lia].
  clear. intros [[[argc argv] br] sp] s Hs. unfold br_round. simpl. destruct (Z.ltb_spec 0 argc) as [Hc|]; simpl; [|done].
  destruct (in_step_words _ _ Hs Hc) as [Hw Hne].
  eapply ok_bind; [by apply deref_ok|]. intros a s1 _.
  eapply (ok_bind _ _ _ (fun x => in_step x.1.1.1 x.1.1.2 /\ 0 <= x.1.1.1 <= argc)).
  - destruct (streq a "bitrate"); [|destruct (streq a "sample-point")].
    1,2: apply value_ok; [done|done|]; intros n v s2 Hn En; apply ok_ret; simpl; split; [done | lia].
    apply ok_ret. simpl. split; [done | lia].
  - intros [[[argc' argv'] br'] sp'] s2. simpl. intros [Hs' Hle]. apply ok_ret. simpl. split; [|lia].
    by apply in_step_tail.
Qed.

Lemma scan_bittiming_ok argc argv s : in_step argc argv -> ok (W := D) (scan_bittiming argc argv) s (fun _ => True).
Proof.
  intros H. apply (ok_while (fun x => in_step x.1.1.1 x.1.1.2) (fun x => Z.to_nat x.1.1.1)); [|done|simpl; lia].
  clear. intros [[[argc argv] bt] cnt] s Hs. unfold bt_round. simpl. destruct (Z.ltb_spec 0 argc) as [Hc|]; simpl; [|done].
  destruct (in_step_words _ _ Hs Hc) as [Hw Hne].
  eapply ok_bind; [by apply deref_ok|]. intros a s1 _.
  destruct (bt_keyword a) as [[set k]|].
  - apply value_ok; [done|done|]. intros n v s2 Hn En. apply ok_ret. simpl. split; [done | lia].
  - apply ok_ret. simpl. split; [by apply in_step_tail | lia].
Qed.

Lemma set_ctrlmode_ok name arg cm flags s : ok (W := D) (set_ctrlmode name arg cm flags) s (fun _ => True).
Proof. unfold set_ctrlmode. ok_tac. Qed.

Lemma scan_ctrlmode_ok argc argv s : in_step argc argv -> ok (W := D) (scan_ctrlmode argc argv) s (fun _ => True).
Proof.
  intros H. apply (ok_while (fun x => in_step x.1.1 x.1.2) (fun x => Z.to_nat x.1.1)); [|done|simpl; lia].
  clear. intros [[argc argv] cm] s Hs. unfold cm_round. simpl. destruct (Z.ltb_spec 0 argc) as [Hc|]; simpl; [|done].
  destruct (in_step_words _ _ Hs Hc) as [Hw Hne].
  eapply ok_bind; [by apply deref_ok|]. intros a s1 _.
  eapply (ok_bind _ _ _ (fun x => in_step x.1.1 x.1.2 /\ 0 <= x.1.1 <= argc)).
  - destruct (cm_keyword a) as [flags|]; [|apply ok_ret; simpl; split; [done | lia]].
    apply value_ok; [done|done|]. intros n v s2 Hn En.
    eapply ok_bind; [apply set_ctrlmode_ok|]. intros cm' s3 _. apply ok_ret. simpl. split; [done | lia].
  - intros [[argc' argv'] cm'] s2. simpl. intros [Hs' Hle]. apply ok_ret. simpl. split; [|lia].
    by apply in_step_tail.
Qed.

(** The commands, called with [argc] words after the command word. *)
Lemma show_only_ok argc argv s : at_words argc argv -> ok (W := D) (show_only argc argv) s (fun b => b = false -> 0 < argc).
Proof.
  intros Hw. unfold show_only. destruct (Z.ltb_spec 0 argc) as [Hc|]; [|by apply ok_ret].
  eapply ok_bind; [apply deref_ok|].
  - unfold at_words in Hw. destruct argv as [|a [|b argv]]; simpl in *; [lia|lia|done].
  - intros a s' _. by apply ok_ret.
Qed.

Lemma set_show_ok argc argv (set show : M D unit) s :
  at_words argc argv -> (forall s, 0 < argc -> ok set s (fun _ => True)) -> (forall s, ok show s (fun _ => True)) ->
  ok (so ← show_only argc argv; when (negb so) set;; show) s (fun _ => True).
Proof.
  intros Hw Hset Hshow. eapply ok_bind; [by apply show_only_ok|]. intros so s1 Hso.
  eapply (ok_bind _ _ _ (fun _ => True)); [|intros; apply Hshow].
  apply ok_when. intros Hb. apply Hset, Hso. by destruct so.
Qed.

Lemma do_set_bitrate_ok argc argv name s : at_words argc argv -> ok (do_set_bitrate argc argv name) s (fun _ => True).
Proof. intros Hw. unfold do_set_bitrate. eapply ok_bind; [apply scan_bitrate_ok; by left|]. intros [br sp] s' _. ok_tac. Qed.

Lemma do_set_bittiming_ok argc argv name s : at_words argc argv -> ok (do_set_bittiming argc argv name) s (fun _ => True).
Proof. intros Hw. unfold do_set_bittiming. eapply ok_bind; [apply scan_bittiming_ok; by left|]. intros [bt c] s' _. ok_tac. Qed.

Lemma do_set_ctrlmode_ok argc argv name s : at_words argc argv -> ok (do_set_ctrlmode argc argv name) s (fun _ => True).
Proof. intros Hw. unfold do_set_ctrlmode. eapply ok_bind; [apply scan_ctrlmode_ok; by left|]. intros cm s' _. ok_tac. Qed.

Lemma do_set_restart_ms_ok argc argv name s : at_words argc argv -> 0 < argc -> ok (do_set_restart_ms argv name) s (fun _ => True).
Proof.
  intros Hw Hc. unfold do_set_restart_ms. eapply ok_bind; [apply deref_ok|intros; ok_tac].
  unfold at_words in Hw. destruct argv as [|a [|b argv]]; simpl in *; [lia|lia|done].
Qed.

Lemma show_ok name s :
  ok (do_show_bitrate name) s (fun _ => True) /\ ok (do_show_bittiming name) s (fun _ => True) /\
  ok (do_show_bittiming_const name) s (fun _ => True) /\ ok (do_show_state name) s (fun _ => True) /\
  ok (do_show_clockfreq name) s (fun _ => True) /\ ok (do_show_ctrlmode name) s (fun _ => True) /\
  ok (do_show_restart_ms name) s (fun _ => True) /\ ok (do_show_berr_counter name) s (fun _ => True).
Proof.
  unfold do_show_bitrate, do_show_bittiming, do_show_bittiming_const, do_show_state, do_show_clockfreq,
    do_show_ctrlmode, do_show_restart_ms, do_show_berr_counter, print_ctrlmode.
  repeat split; ok_tac.
Qed.

Lemma dispatch_ok argc argv name a s : at_words argc argv -> ok (dispatch argc argv name a) s (fun _ => True).
Proof.
  intros Hw. unfold dispatch.
  repeat (eapply (ok_bind _ _ _ (fun _ => True)); [apply ok_when; intros _|clear s; intros _ s _]);
    [..|apply ok_when; intros _].
  - unfold cmd_baudrate. ok_tac.
  - apply set_show_ok; [done|by intros; apply do_set_bitrate_ok|intros; apply show_ok].
  - apply set_show_ok; [done|by intros; apply do_set_bittiming_ok|].
    intros s'. eapply (ok_bind _ _ _ (fun _ => True)); [apply show_ok | intros; apply show_ok].
  - apply set_show_ok; [done|by intros; apply do_set_ctrlmode_ok|intros; apply show_ok].
  - unfold cmd_restart, do_restart. ok_tac.
  - unfold cmd_start, do_start. eapply ok_bind; [apply ok_devop|]. intros err s' _.
    destruct (err <? 0); [ok_tac | apply show_ok].
  - unfold cmd_stop, do_stop. eapply ok_bind; [apply ok_devop|]. intros err s' _.
    destruct (err <? 0); [ok_tac | apply show_ok].
  - apply set_show_ok; [done|by intros; eapply do_set_restart_ms_ok|intros; apply show_ok].
  - apply show_ok.
  - apply show_ok.
  - apply show_ok.
  - apply show_ok.
Qed.

Lemma main_loop_ok args name s :
  ok (main_loop (Z.of_nat (length args)) args name) s (fun _ => True).
Proof.
  apply (ok_while (fun x => x.1 = Z.of_nat (length x.2)) (fun x => Z.to_nat x.1)); [|done|simpl; lia].
  clear. intros [argc argv] s Hw. simpl in *. destruct (Z.ltb_spec 0 argc) as [Hc|]; simpl; [|done].
  destruct argv as [|a argv]; [simpl in *; lia|].
  eapply ok_bind; [by apply deref_ok|]. intros a' s1 _.
  eapply ok_bind; [apply dispatch_ok; unfold at_words; lia|]. intros [] s2 _. apply ok_ret. simpl in *.
  split; lia.
Qed.

Lemma show_interface_ok {A} name s : ok (cmd_show_interface (A := A) name) s (fun _ => False).
Proof.
  unfold cmd_show_interface.
  do 8 (eapply (ok_bind _ _ _ (fun _ => True)); [apply show_ok|intros ? ? _]). done.
Qed.

(** ** What the scans find *)

(** Words of keyword and number pairs, and what they do to the parameters. *)
Definition bt_words (kvs : list (string * Z)) : list string := kvs ≫= (fun kv => [kv.1; dec kv.2]).
Definition bt_apply (acc : can_bittiming * Z) (kv : string * Z) : can_bittiming * Z :=
  match bt_keyword kv.1 with
  | Some (set, k) => (set acc.1 kv.2, acc.2 + k)
  | None => acc
  end.
Definition bt_valid (kv : string * Z) : Prop := is_Some (bt_keyword kv.1) /\ 0 <= kv.2 < 2 ^ 32.

Lemma bt_keyword_dec n : 0 <= n -> bt_keyword (dec n) = None.
Proof. intros. unfold bt_keyword. rewrite !streq_dec by (done || reflexivity). done. Qed.

Lemma ul_arg_dec n : 0 <= n < 2 ^ 32 -> ul_arg (dec n) = n.
Proof.
  intros Hn. unfold ul_arg, strtoul. rewrite strtou_dec; [by apply wrapu_small|].
  assert (2 ^ 32 <= 2 ^ long_bits); [|lia]. apply Z.pow_le_mono_r; [lia|].
  destruct long_bits_cases as [-> | ->]; lia.
Qed.

Lemma bt_words_length kvs : length (bt_words kvs) = (2 * length kvs)%nat.
Proof. induction kvs as [|kv kvs IH]; [done|]. cbn. unfold bt_words in IH. cbn in IH. lia. Qed.

Lemma next_arg_value argc w v r s (Q : Z * list string -> st D -> Prop) :
  0 < argc -> Q (argc - 1, v :: r) s -> runs (NEXT_ARG argc (w :: v :: r)) s Q.
Proof. intros Hc HQ. unfold NEXT_ARG. destruct (Z.ltb_spec (argc - 1) 0); [lia|]. by runs_steps. Qed.

Lemma bt_round_end argc argv bt cnt s : argc <= 0 ->
  runs (W := D) (bt_round (argc, argv, bt, cnt)) s (fun x s' => s' = s /\ x = inr (bt, cnt)).
Proof. intros. unfold bt_round. destruct (Z.ltb_spec 0 argc); [lia|]. cbn [negb]. by runs_steps. Qed.

Lemma bt_round_keyword argc w v r bt cnt set k s : 0 < argc -> bt_keyword w = Some (set, k) ->
  runs (W := D) (bt_round (argc, w :: v :: r, bt, cnt)) s
    (fun x s' => s' = s /\ x = inl (argc - 1, v :: r, set bt (ul_arg v), cnt + k)).
Proof.
  intros Hc Hk. unfold bt_round. destruct (Z.ltb_spec 0 argc); [|lia]. cbn [negb deref]. runs_steps.
  rewrite Hk. apply runs_bind, next_arg_value; [done|]. cbn [snd deref]. by runs_steps.
Qed.

Lemma bt_round_other argc w r bt cnt s : 0 < argc -> bt_keyword w = None ->
  runs (W := D) (bt_round (argc, w :: r, bt, cnt)) s (fun x s' => s' = s /\ x = inl (argc - 1, r, bt, cnt)).
Proof.
  intros Hc Hk. unfold bt_round. destruct (Z.ltb_spec 0 argc); [|lia]. cbn [negb deref]. runs_steps.
  rewrite Hk. by runs_steps.
Qed.

(** Two rounds for each pair but the last, which takes one. *)
Lemma bt_scan_pairs kvs : forall fuel bt cnt s, kvs <> [] -> Forall bt_valid kvs -> (2 * length kvs <= fuel)%nat ->
  runs (W := D) (while_ fuel (2 * Z.of_nat (length kvs) - 1, bt_words kvs, bt, cnt) bt_round) s
    (fun x s' => s' = s /\ x = fold_left bt_apply kvs (bt, cnt)).
Proof.
  induction kvs as [|[w v] kvs IH]; intros fuel bt cnt s Hne Hv Hf; [done|].
  destruct fuel as [|[|f]]; [simpl in Hf; lia..|].
  inversion_clear Hv as [|? ? [[[set k] Hk] Hn] Hv']. simpl in Hk, Hn.
  assert (bt_apply (bt, cnt) (w, v) = (set bt v, cnt + k)) as Ha by (unfold bt_apply; simpl; by rewrite Hk).
  change (bt_words ((w, v) :: kvs)) with (w :: dec v :: bt_words kvs). cbn [fold_left length]. rewrite Ha.
  apply runs_while. eapply runs_mono; [apply (bt_round_keyword _ _ _ _ _ _ set k); [lia|done]|].
  intros ? ? [-> ->]. rewrite ul_arg_dec by done. apply runs_while.
  destruct (decide (kvs = [])) as [->|Hne'].
  - eapply runs_mono; [apply bt_round_end; simpl; lia|]. by intros ? ? [-> ->].
  - assert (0 < length kvs)%nat by (destruct kvs; [done | simpl; lia]).
    eapply runs_mono; [apply bt_round_other; [lia | apply bt_keyword_dec; lia]|]. intros ? ? [-> ->].
    replace (2 * Z.of_nat (S (length kvs)) - 1 - 1 - 1) with (2 * Z.of_nat (length kvs) - 1) by lia.
    apply IH; [done | done | simpl in Hf; lia].
Qed.

Lemma scan_bittiming_pairs kvs s : Forall bt_valid kvs ->
  runs (scan_bittiming (D := D) (Z.of_nat (length (bt_words kvs))) ("bittiming"%string :: bt_words kvs)) s
    (fun x s' => s' = s /\ x = fold_left bt_apply kvs (bt0, 0)).
Proof.
  intros Hv. unfold scan_bittiming. rewrite bt_words_length, Nat2Z.id. apply runs_while.
  destruct (decide (kvs = [])) as [->|Hne].
  { eapply runs_mono; [by apply bt_round_end|]. by intros ? ? [-> ->]. }
  assert (0 < length kvs)%nat by (destruct kvs; [done | simpl; lia]).
  eapply runs_mono; [apply bt_round_other; [lia|done]|]. intros ? ? [-> ->].
  replace (Z.of_nat (2 * length kvs) - 1) with (2 * Z.of_nat (length kvs) - 1) by lia.
  by apply bt_scan_pairs.
Qed.

(** Modes with [on] or [off]. *)
Definition cm_words (ms : list (string * bool)) : list string :=
  ms ≫= (fun m : string * bool => [m.1; (if m.2 then "on" else "off")%string]).
Definition cm_apply (cm : can_ctrlmode) (m : string * bool) : can_ctrlmode :=
  match cm_keyword m.1 with
  | Some fl => mk_cm (Z.lor (cm_mask cm) fl) (if m.2 then Z.lor (cm_flags cm) fl else cm_flags cm)
  | None => cm
  end.

Lemma cm_words_length ms : length (cm_words ms) = (2 * length ms)%nat.
Proof. induction ms as [|m ms IH]; [done|]. cbn. unfold cm_words in IH. cbn in IH. lia. Qed.

Lemma cm_round_mode argc w (on : bool) r cm s : 0 < argc -> is_Some (cm_keyword w) ->
  runs (W := D) (cm_round (argc, w :: (if on then "on" else "off")%string :: r, cm)) s
    (fun x s' => s' = s /\ x = inl (argc - 1 - 1, r, cm_apply cm (w, on))).
Proof.
  intros Hc [fl Hk]. unfold cm_round. destruct (Z.ltb_spec 0 argc); [|lia]. cbn [negb deref]. runs_steps.
  unfold cm_apply. cbn [fst snd]. rewrite Hk. apply runs_bind, next_arg_value; [done|]. cbn [snd deref].
  unfold set_ctrlmode. destruct on; runs_steps.
  - change (streq "on" "on") with true. cbv iota. by runs_steps.
  - change (streq "off" "on") with false. change (streq "off" "off") with true. cbv iota. by runs_steps.
Qed.

Lemma cm_scan_pairs ms : forall fuel cm s, Forall (fun m : string * bool => is_Some (cm_keyword m.1)) ms -> (length ms < fuel)%nat ->
  runs (W := D) (while_ fuel (2 * Z.of_nat (length ms) - 1, cm_words ms, cm) cm_round) s
    (fun x s' => s' = s /\ x = fold_left cm_apply ms cm).
Proof.
  induction ms as [|[w on] ms IH]; intros fuel cm s Hv Hf; (destruct fuel as [|f]; [simpl in Hf; lia|]); apply runs_while.
  - unfold cm_round. simpl. by runs_steps.
  - inversion_clear Hv as [|? ? Hk Hv']. simpl in Hk.
    change (cm_words ((w, on) :: ms)) with (w :: (if on then "on" else "off")%string :: cm_words ms). cbn [length].
    eapply runs_mono; [apply cm_round_mode; [lia|done]|]. intros ? ? [-> ->].
    replace (2 * Z.of_nat (S (length ms)) - 1 - 1 - 1) with (2 * Z.of_nat (length ms) - 1) by lia.
    apply IH; [done | simpl in Hf; lia].
Qed.

Lemma scan_ctrlmode_pairs ms s : Forall (fun m : string * bool => is_Some (cm_keyword m.1)) ms ->
  runs (scan_ctrlmode (D := D) (Z.of_nat (length (cm_words ms))) ("ctrlmode"%string :: cm_words ms)) s
    (fun x s' => s' = s /\ x = fold_left cm_apply ms (mk_cm 0 0)).
Proof.
  intros Hv. unfold scan_ctrlmode. rewrite cm_words_length, Nat2Z.id. apply runs_while.
  unfold cm_round at 1. destruct (Z.ltb_spec 0 (Z.of_nat (2 * length ms))) as [H|H]; cbn [negb deref]; runs_steps.
  - change (cm_keyword "ctrlmode") with (@None Z). cbv iota. runs_steps. cbn [tail].
    replace (Z.of_nat (2 * length ms) - 1) with (2 * Z.of_nat (length ms) - 1) by lia.
    apply cm_scan_pairs; [done | lia].
  - destruct ms; [done | simpl in H; lia].
Qed.

(** The result: the mask collects every mode named, the flags those switched on. *)
Lemma cm_fold_testbit ms i : 0 <= i -> forall cm,
  Z.testbit (cm_mask (fold_left cm_apply ms cm)) i =
    (Z.testbit (cm_mask cm) i || existsb (fun m : string * bool => Z.testbit (default 0 (cm_keyword m.1)) i) ms)%bool /\
  Z.testbit (cm_flags (fold_left cm_apply ms cm)) i =
    (Z.testbit (cm_flags cm) i || existsb (fun m : string * bool => m.2 && Z.testbit (default 0 (cm_keyword m.1)) i) ms)%bool.
Proof.
  intros Hi. induction ms as [|[w on] ms IH]; intros cm; simpl; [by rewrite !orb_false_r|].
  destruct (IH (cm_apply cm (w, on))) as [-> ->]. unfold cm_apply. simpl.
  destruct (cm_keyword w) as [fl|], on; cbn [cm_mask cm_flags default andb orb];
    rewrite ?Z.lor_spec, ?Z.bits_0, ?orb_false_l, ?orb_assoc; done.
Qed.
End canconfig.
