(* ===== verification/CanClaims.v ===== *)
(** * CAN utilities: properties *)

From stdpp Require Import base list strings numbers.
From Stdlib Require Import ZArith Lia Ascii.
From S2P Require Import Prelude CInt CLib CLibOk CanSocket CanTools CanOk CanConfig CanConfigOk.

(** An operating system on which everything works, that delivers [frames]. *)
Definition good_os (frames : list can_frame) : can_os := {|
  os_socket := fun _ _ _ => true; os_ifindex := fun _ => true; os_bind := true; os_setsockopt := fun _ => true;
  os_read := fun n => match frames !! n with Some f => ReadFrame f | None => ReadErr end;
  os_write := fun _ => WriteOk; os_poll := fun _ => None; os_running := fun _ => true;
  os_strerror := "errno"; os_version := "4.0.6"; os_prg := "prg"
|}.

(** ** cansequence *)

Section cansequence.
Context `{DM : DataModel} (os : can_os).
Implicit Types o : Seq.opts.

(** C35: whatever the bus and the system do (full queues, interrupted calls,
    errors, signals), the frames a sender has put on the bus are numbered 0, 1,
    2, ... modulo 256: none is skipped and none is sent twice. *)
Theorem sender_numbers_frames fuel o id text :
  wp (Seq.sender os fuel o (Seq.first_frame id)) (mkst text can_w0)
    (fun _ s' => exists n, rev (cw_sent (dev s')) = numbered id n).
Proof. by apply sender_wp. Qed.

(** With a count, no signal and a bus that takes every frame, the sender
    sends exactly that many frames and exits with 0. *)
Theorem sender_sends_count (n fuel : nat) o id text :
  Seq.infinite o = false -> Seq.verbose o = 0 -> Seq.loopcount o = Z.of_nat n ->
  (forall k, os_running os k = true) -> (forall k, os_write os k = WriteOk) ->
  Z.of_nat n < 2 ^ 31 -> (n < fuel)%nat ->
  runs (Seq.sender os fuel o (Seq.first_frame id)) (mkst text can_w0)
    (fun v s' => v = 0 /\ rev (cw_sent (dev s')) = numbered id n).
Proof.
  intros Hinf Hvb Hlc Hrun Hwr Hn Hf. unfold Seq.sender. rewrite Hlc, first_frame_no.
  destruct fuel as [|f]; [lia|].
  by apply (sender_runs os o id Hinf Hvb Hrun Hwr f n 0 (S f)).
Qed.

(** A receiver with a count reports, in order, exactly the frames whose
    number is not the successor modulo 256 of the one before, with the number it
    expected and the number it got. *)
Theorem receiver_reports o (l : list can_frame) fuel frame s :
  Seq.infinite o = false -> Seq.verbose o = 0 -> Seq.quit o = false ->
  Seq.loopcount o = Z.of_nat (length l) -> Z.of_nat (length l) < 2 ^ 31 -> (length l < fuel)%nat ->
  (forall n, os_running os n = true) ->
  (forall j f, l !! j = Some f -> os_read os (cw_reads (dev s) + j) = ReadFrame f) ->
  runs (Seq.receiver os fuel o frame) s (fun v s' =>
    v = 0 /\ out s' = rev (map report (mismatches None (map Seq.data0 l))) ++ out s).
Proof.
  intros Hinf Hvb Hq Hlc Hl Hf Hrun Hrd.
  eapply runs_mono; [by apply (receiver_runs os o Hinf Hvb Hrun l)|].
  simpl. by rewrite Hq.
Qed.

(** C12: end to end, a receiver with -q that gets the frames number [idx] of a
    sender exits with 0 exactly when each of these numbers follows the one
    before modulo 256. So up to 255 frames lost in a row are noticed, and so
    are repeated and reordered frames at a distance that is not 1 modulo 256. *)
Theorem sequence_link_detects_gaps o id (idx : list Z) fuel frame s :
  Seq.infinite o = false -> Seq.verbose o = 0 -> Seq.quit o = true ->
  Seq.loopcount o = Z.of_nat (length idx) -> Z.of_nat (length idx) < 2 ^ 31 -> (length idx < fuel)%nat ->
  (forall n, os_running os n = true) ->
  (forall j k, idx !! j = Some k -> os_read os (cw_reads (dev s) + j) = ReadFrame (frame_no id k)) ->
  runs (Seq.receiver os fuel o frame) s (fun v _ => v = if gapless idx then 0 else 1).
Proof.
  intros Hinf Hvb Hq Hlc Hl Hf Hrun Hrd.
  eapply runs_mono; [apply (receiver_runs os o Hinf Hvb Hrun (map (frame_no id) idx));
    rewrite ?length_map; try done|].
  - intros j f Hj. apply list_lookup_fmap_Some in Hj as (k & -> & Hk). by apply Hrd.
  - rewrite Hq. simpl. intros v s' [-> _].
    rewrite map_map. change (fun x => Seq.data0 (frame_no id x)) with (fun x => x mod 256).
    destruct idx as [|a idx]; [done|]. cbn [map mismatches].
    pose proof (mismatches_indices idx a) as Hm. destruct (mismatches _ _).
    + by rewrite (proj1 Hm eq_refl).
    + destruct (gapless (a :: idx)); [by discriminate (proj2 Hm eq_refl) | done].
Qed.

(** With -p, a sender whose queue is full and whose wait is interrupted by
    a signal gives up, although the code means to go on after [EINTR]: [errno]
    is compared with [-EINTR]. *)
Theorem poll_interrupted_aborts o f s fuel :
  Seq.use_poll o = true -> os_write os (cw_writes (dev s)) = WriteErr ENOBUFS ->
  os_poll os (cw_polls (dev s)) = Some EINTR -> (0 < fuel)%nat ->
  exists s', Seq.send_frame os fuel o f s = (Exit 1, s') /\ cw_sent (dev s') = cw_sent (dev s).
Proof.
  intros Hp Hw Hpoll Hf. destruct fuel as [|g]; [lia|]. unfold Seq.send_frame, while_, mbind, M_bind, sock_write.
  simpl. rewrite Hw. simpl. rewrite Hp. simpl. unfold mbind, M_bind, sock_poll. simpl. rewrite Hpoll. simpl.
  by eexists.
Qed.
End cansequence.

Definition demo_opts (n : Z) (q : bool) : Seq.opts := Seq.mk_opts false true q false 0 n false 2.

Lemma sender_sends_count_witness :
  runs (Seq.sender (good_os []) 5 (demo_opts 3 false) (Seq.first_frame 2)) (mkst [] can_w0)
    (fun v s' => v = 0 /\ rev (cw_sent (dev s')) = [frame_no 2 0; frame_no 2 1; frame_no 2 2]).
Proof.
  apply (sender_sends_count (good_os []) 3 5 (demo_opts 3 false) 2 []); try done. lia.
Defined.

Lemma receiver_reports_witness :
  runs (Seq.receiver (good_os [frame_no 2 7; frame_no 2 9; frame_no 2 10]) 5 (demo_opts 3 false) (Seq.first_frame 2))
    (mkst [] can_w0) (fun v s' => v = 0 /\ out s' = [report (8, 9)]).
Proof.
  apply (receiver_reports (good_os [frame_no 2 7; frame_no 2 9; frame_no 2 10]) (demo_opts 3 false)
    [frame_no 2 7; frame_no 2 9; frame_no 2 10] 5 (Seq.first_frame 2) (mkst [] can_w0)); try done.
  - simpl. lia.
  - intros j f Hj. cbn [dev can_w0 cw_reads Nat.add]. unfold good_os. cbn [os_read]. by rewrite Hj.
Defined.

(** A lost frame, then 256 lost frames in a row. *)
Lemma sequence_link_detects_gaps_witness :
  runs (Seq.receiver (good_os [frame_no 2 0; frame_no 2 2]) 5 (demo_opts 2 true) (Seq.first_frame 2))
    (mkst [] can_w0) (fun v _ => v = 1) /\
  runs (Seq.receiver (good_os [frame_no 2 0; frame_no 2 257]) 5 (demo_opts 2 true) (Seq.first_frame 2))
    (mkst [] can_w0) (fun v _ => v = 0).
Proof.
  split.
  - apply (sequence_link_detects_gaps (good_os [frame_no 2 0; frame_no 2 2]) (demo_opts 2 true) 2 [0; 2] 5
      (Seq.first_frame 2) (mkst [] can_w0)); try done; [simpl; lia|].
    intros [|[|j]] k [= <-]; done.
  - apply (sequence_link_detects_gaps (good_os [frame_no 2 0; frame_no 2 257]) (demo_opts 2 true) 2 [0; 257] 5
      (Seq.first_frame 2) (mkst [] can_w0)); try done; [simpl; lia|].
    intros [|[|j]] k [= <-]; done.
Defined.

Definition full_os : can_os := {|
  os_socket := fun _ _ _ => true; os_ifindex := fun _ => true; os_bind := true; os_setsockopt := fun _ => true;
  os_read := fun n => ReadErr; os_write := fun _ => WriteErr ENOBUFS; os_poll := fun _ => Some EINTR;
  os_running := fun _ => true; os_strerror := "errno"; os_version := "4.0.6"; os_prg := "prg"
|}.

Lemma poll_interrupted_aborts_witness :
  exists s', Seq.send_frame full_os 1 (demo_opts 1 false) (frame_no 2 0) (mkst [] can_w0) = (Exit 1, s') /\
    cw_sent (dev s') = [].
Proof.
  apply (poll_interrupted_aborts full_os (demo_opts 1 false) (frame_no 2 0) (mkst [] can_w0) 1); try done. lia.
Defined.

(** ** cansend *)

Section cansend.
Context `{DM : DataModel} (os : can_os) (junk : Z).
Implicit Types o : Send.opts.

Lemma fill_data_spec args : forall dlc buf,
  0 <= dlc < 8 -> length buf = 8%nat ->
  let '(n, l) := Send.fill_data args dlc buf in
  n = Z.min 8 (dlc + Z.of_nat (length args)) /\ length l = 8%nat /\
  take (Z.to_nat n) l = take (Z.to_nat dlc) buf ++ map (fun a => u8 (sv (strtoul 0 a))) (take (Z.to_nat (8 - dlc)) args).
Proof.
  induction args as [|a args IH]; intros dlc buf Hd Hb; simpl.
  - split; [lia|]. split; [done|]. rewrite take_nil. simpl. by rewrite app_nil_r.
  - set (b := u8 (sv (strtoul 0 a))).
    assert (take (Z.to_nat (dlc + 1)) (<[Z.to_nat dlc := b]> buf) = take (Z.to_nat dlc) buf ++ [b]) as Ht.
    { replace (Z.to_nat (dlc + 1)) with (S (Z.to_nat dlc)) by lia.
      rewrite (take_S_r _ _ b) by (apply list_lookup_insert_eq; lia).
      by rewrite take_insert_ge by lia. }
    replace (Z.to_nat (8 - dlc)) with (S (Z.to_nat (8 - (dlc + 1)))) by lia. simpl.
    destruct (Z.eqb_spec (dlc + 1) 8) as [E|E].
    + split; [lia|]. split; [by rewrite length_insert|]. rewrite Ht. rewrite E. simpl. done.
    + specialize (IH (dlc + 1) (<[Z.to_nat dlc := b]> buf)).
      destruct (Send.fill_data args (dlc + 1) (<[Z.to_nat dlc := b]> buf)) as [n l].
      destruct IH as (-> & Hl & Hcont); [lia | by rewrite length_insert|].
      split; [lia|]. split; [done|]. rewrite Hcont, Ht, <- app_assoc. done.
Qed.

(** The frame cansend builds has a length of at most 8, its payload is the
    arguments in order, each reduced to a byte, arguments after the eighth are
    ignored, and its identifier fits the frame format: 29 bits and the extended
    flag, or 11 bits, with the remote flag as asked. *)
Theorem build_frame_correct o (args : list string) :
  let f := Send.build_frame o args in
  can_dlc f = Z.min 8 (Z.of_nat (length args)) /\ length (data f) = 8%nat /\
  take (Z.to_nat (can_dlc f)) (data f) = map (fun a => u8 (sv (strtoul 0 a))) (take 8 args) /\
  Z.testbit (can_id f) 30 = Send.rtr o /\ Z.testbit (can_id f) 31 = Send.extended o /\
  forall i, 0 <= i -> i <> 30 -> i <> 31 ->
    Z.testbit (can_id f) i = ((i <? (if Send.extended o then 29 else 11)) && Z.testbit (Send.id o) i)%bool.
Proof.
  unfold Send.build_frame. pose proof (fill_data_spec args 0 (replicate 8 0) ltac:(lia) eq_refl) as H.
  destruct (Send.fill_data args 0 (replicate 8 0)) as [n l]. destruct H as (-> & Hl & Hc).
  cbn [can_dlc can_id data]. split; [done|]. split; [done|]. split; [exact Hc|].
  unfold Send.frame_id. change CAN_EFF_MASK with (Z.ones 29). change CAN_SFF_MASK with (Z.ones 11).
  change CAN_EFF_FLAG with (2 ^ 31). change CAN_RTR_FLAG with (2 ^ 30).
  assert (forall n i, 0 <= n -> 0 <= i -> Z.testbit (Z.ones n) i = (i <? n)) as Hones.
  { intros m i Hm Hi. destruct (Z.ltb_spec i m); [apply Z.ones_spec_low; lia | apply Z.ones_spec_high; lia]. }
  destruct (Send.extended o), (Send.rtr o);
    (split; [|split]; [..|intros i Hi H30 H31]);
    rewrite ?Z.lor_spec, ?Z.land_spec, ?Hones, ?Z.pow2_bits_eqb by lia.
  all: try (destruct (Z.eqb_spec 31 i); [lia|]); try (destruct (Z.eqb_spec 30 i); [lia|]).
  all: rewrite ?orb_false_r; try apply andb_comm; cbn; by rewrite ?andb_false_r, ?orb_false_r.
Qed.

(** An interface name of 16 or more characters overflows [ifr_name]. *)
Theorem cansend_ifname_overflow fuel interface text :
  16 <= strlen interface -> char_at0 interface <> 45 -> os_socket os PF_CAN SOCK_RAW CAN_RAW = true ->
  (Send.main os junk fuel [interface] (mkst text can_w0)).1 = Crash.
Proof.
  intros Hl Hc Hs. destruct interface as [|c0 [|c1 r]]; [simpl in Hl; lia|simpl in Hl; lia|].
  unfold Send.main. cbn [getopt_long]. cbn [char_at0] in Hc.
  destruct (Z.eqb_spec (cc c0) 45); [done|]. cbn [negb]. unfold Send.do_options, mbind, M_bind, mret, M_ret.
  cbn [Send.family Send.type Send.proto Send.opts0]. unfold printf. rewrite Hs. cbn [negb].
  unfold Send.copy_ifname. destruct (Z.ltb_spec (strlen (String c0 (String c1 r))) IFNAMSIZ) as [H|]; [|done].
  unfold IFNAMSIZ in H. lia.
Qed.
End cansend.

Lemma cansend_ifname_overflow_witness :
  (@Send.main LP64 (good_os []) 0 5 ["can-interface-00"%string] (mkst [] can_w0)).1 = Crash.
Proof. apply (@cansend_ifname_overflow LP64 (good_os []) 0 5 "can-interface-00" []); [vm_compute; discriminate | vm_compute; discriminate | reflexivity]. Defined.

(** ** candump *)

Section candump.
Context `{DM : DataModel} (os : Dump.dump_os).

(** The argument of [--filter] is read back: the filters written as
    [id:mask:id:mask...] with 32-bit numbers are the ones candump installs, in
    order. *)
Theorem filter_roundtrip (fs : list (Z * Z)) (s : st Dump.dump_w) :
  fs <> [] -> Forall u32_pair fs ->
  runs (Dump.parse_filter (filter_text fs)) s
    (fun _ s' => Dump.dw_filter (dev s') = Dump.dw_filter (dev s) ++ fs).
Proof.
  intros Hne Hfs. apply filter_loop; [done | done |]. pose proof (filter_text_length fs). lia.
Qed.

(** Every frame that fits the bus (at most eight bytes) has an output line,
    and the line fits candump's buffer of 255 characters. *)
Theorem frame_line_fits (f : can_frame) :
  0 <= can_dlc f <= 8 -> length (data f) = 8%nat -> Forall is_byte (data f) ->
  exists line, Dump.frame_line f = Some line /\ strlen line < 255.
Proof. apply frame_line_some. Qed.

(** Candump writes one line for each frame it receives, in the order of
    arrival, counts them modulo 2^32, and returns 1 when reading fails. *)
Theorem dump_writes_all o (l : list can_frame) lines fuel s :
  Dump.optout o = None -> Dump.silent o = false ->
  (forall n, os_running (Dump.d_can os) n = true) -> (forall n, Dump.d_fflush os n = Dump.FlushOk) ->
  (length l < fuel)%nat -> Forall2 (fun f line => Dump.frame_line f = Some line) l lines ->
  (forall j f, l !! j = Some f -> os_read (Dump.d_can os) (dump_reads s + j) = ReadFrame f) ->
  os_read (Dump.d_can os) (dump_reads s + length l) = ReadErr ->
  0 <= Dump.dw_receive_cnt (dev s) < 2 ^ 32 ->
  runs (Dump.dump_loop os fuel o) s (fun v s' => v = 1 /\
    Dump.dw_receive_cnt (dev s') = u32 (Dump.dw_receive_cnt (dev s) + Z.of_nat (length l)) /\
    out s' = Stderr ("read: " +:+ os_strerror (Dump.d_can os) +:+ nl) ::
             rev (map (fun x => Stdout (x +:+ nl)) lines) ++ out s).
Proof. intros. by apply dump_loop_lines. Qed.
End candump.

Lemma filter_roundtrip_witness :
  runs (@Dump.parse_filter LP64 "291:2047:5:0") (mkst [] Dump.dump_w0)
    (fun _ s' => Dump.dw_filter (dev s') = [(291, 2047); (5, 0)]).
Proof.
  apply (@filter_roundtrip LP64 [(291, 2047); (5, 0)] (mkst [] Dump.dump_w0)); [done|].
  repeat constructor; simpl; lia.
Defined.

Definition demo_frame : can_frame := mk_frame 0x123 2 [0xde; 0xad; 0; 0; 0; 0; 0; 0].

Lemma demo_frame_bytes : Forall is_byte (data demo_frame).
Proof. unfold is_byte. simpl. repeat (constructor; [lia|]). constructor. Qed.

Lemma frame_line_fits_witness : exists line, Dump.frame_line demo_frame = Some line /\ strlen line < 255.
Proof. apply (frame_line_fits demo_frame); [simpl; lia | reflexivity | apply demo_frame_bytes]. Defined.

Lemma dump_writes_all_witness :
  runs (Dump.dump_loop {| Dump.d_can := good_os [demo_frame]; Dump.d_fflush := fun _ => Dump.FlushOk; Dump.d_fopen := fun _ => true |}
          3 Dump.opts0) (mkst [] Dump.dump_w0)
    (fun v s' => v = 1 /\ Dump.dw_receive_cnt (dev s') = 1 /\
       out s' = [Stderr ("read: errno" +:+ nl); Stdout ("<0x123> [2] de ad " +:+ nl)]).
Proof.
  apply (dump_writes_all {| Dump.d_can := good_os [demo_frame]; Dump.d_fflush := fun _ => Dump.FlushOk; Dump.d_fopen := fun _ => true |}
    Dump.opts0 [demo_frame] ["<0x123> [2] de ad "%string] 3 (mkst [] Dump.dump_w0)); try done.
  - simpl. lia.
  - by repeat constructor.
  - by intros [|j] f [= <-].
Defined.

(** ** canconfig *)

Section canconfig.
Context `{DM : DataModel} {D : Type} `{CL : Config.CanLib D}.

(** Whatever its arguments and whatever the CAN library answers, canconfig
    ends by calling [exit]: its scans of the command line terminate and never
    read past the last word. *)
Theorem canconfig_always_exits (version : string) (args : list string) (s : st D) :
  exists code s', Config.main version args s = (Exit code, s').
Proof.
  enough (ok (Config.main version args) s (fun _ => False)) as H.
  { unfold ok, wp in H. destruct (Config.main version args s) as [[]]; try done. by do 2 eexists. }
  assert (forall A s, ok (Config.help (D := D) (A := A)) s (fun _ => False)) as Hh by done.
  unfold Config.main. destruct args as [|prog [|name args]]; [apply Hh..|].
  eapply (ok_bind _ _ _ (fun _ => True)); [apply ok_when; intros _; by unfold ok, wp|]. intros _ s1 _.
  eapply (ok_bind _ _ _ (fun _ => True)); [apply ok_when; intros _; ok_tac|]. intros _ s2 _.
  eapply (ok_bind _ _ _ (fun _ => True)).
  { apply ok_when; intros _. eapply wp_mono; [apply show_interface_ok|]. by intros [] ?. }
  intros _ s3 _. eapply ok_bind; [apply main_loop_ok|]. by intros.
Qed.

(** C35: [canconfig dev bittiming tq N prop-seg N ...] hands the library exactly
    the values named, in any order of the keywords; with fewer than four of the
    four required ones it exits with 1 and does not touch the interface. *)
Theorem bittiming_sets_values (kvs : list (string * Z)) (name : string) (s : st D) :
  Forall bt_valid kvs ->
  let '(bt, cnt) := fold_left bt_apply kvs (Config.bt0, 0) in
  let r := Config.do_set_bittiming (Z.of_nat (length (bt_words kvs))) ("bittiming"%string :: bt_words kvs) name s in
  if cnt <? 4 then r.1 = Exit 1 /\ dev r.2 = dev s
  else dev r.2 = (Config.can_set_bittiming name bt (dev s)).2.
Proof.
  intros Hv. destruct (fold_left bt_apply kvs (Config.bt0, 0)) as [bt cnt] eqn:E.
  destruct (scan_bittiming_pairs kvs s Hv) as (x & s' & Es & -> & ->). cbv zeta.
  unfold Config.do_set_bittiming. rewrite (bind_ret_run _ _ _ _ _ Es). rewrite E.
  destruct (cnt <? 4); [done|]. unfold mbind, M_bind, devop.
  destruct (Config.can_set_bittiming name bt (dev s)) as [err d']. by destruct (err <? 0).
Qed.

(** A repeated keyword is counted again: four values for [tq] and none for
    the other required parameters pass the check, and the interface is given
    zero for them. *)
Theorem bittiming_accepts_repeats (a b c d : Z) (name : string) (s : st D) :
  0 <= a < 2 ^ 32 -> 0 <= b < 2 ^ 32 -> 0 <= c < 2 ^ 32 -> 0 <= d < 2 ^ 32 ->
  dev (Config.do_set_bittiming 8
         ["bittiming"; "tq"; dec a; "tq"; dec b; "tq"; dec c; "tq"; dec d]%string name s).2 =
  (Config.can_set_bittiming name (Config.mk_bt 0 0 d 0 0 0 0 0) (dev s)).2.
Proof.
  intros Ha Hb Hc Hd. set (kvs := [("tq", a); ("tq", b); ("tq", c); ("tq", d)]%string).
  assert (Forall bt_valid kvs) as Hv by (repeat constructor; simpl; try (by eexists); lia).
  destruct (scan_bittiming_pairs kvs s Hv) as (x & s' & Es & -> & ->).
  unfold Config.do_set_bittiming. rewrite (bind_ret_run _ _ _ _ _ Es). simpl.
  unfold mbind, M_bind, devop.
  destruct (Config.can_set_bittiming name _ (dev s)) as [err d']. by destruct (err <? 0).
Qed.

(** [canconfig dev ctrlmode mode on|off ...] asks the library for a change
    whose mask names exactly the modes on the command line and whose flags are
    those given with [on]. *)
Theorem ctrlmode_sets_modes (ms : list (string * bool)) (name : string) (s : st D) :
  Forall (fun m : string * bool => is_Some (Config.cm_keyword m.1)) ms ->
  exists cm,
    dev (Config.do_set_ctrlmode (Z.of_nat (length (cm_words ms))) ("ctrlmode"%string :: cm_words ms) name s).2 =
      (Config.can_set_ctrlmode name cm (dev s)).2 /\
    forall i, 0 <= i ->
      Z.testbit (Config.cm_mask cm) i =
        existsb (fun m : string * bool => Z.testbit (default 0 (Config.cm_keyword m.1)) i) ms /\
      Z.testbit (Config.cm_flags cm) i =
        existsb (fun m : string * bool => m.2 && Z.testbit (default 0 (Config.cm_keyword m.1)) i)%bool ms.
Proof.
  intros Hv. destruct (scan_ctrlmode_pairs ms s Hv) as (x & s' & Es & -> & ->).
  exists (fold_left cm_apply ms (Config.mk_cm 0 0)). split.
  - unfold Config.do_set_ctrlmode. rewrite (bind_ret_run _ _ _ _ _ Es). unfold mbind, M_bind, devop.
    destruct (Config.can_set_ctrlmode name _ (dev s)) as [err d']. by destruct (err <? 0).
  - intros i Hi. destruct (cm_fold_testbit ms i Hi (Config.mk_cm 0 0)) as [-> ->]. simpl.
    by rewrite !Z.bits_0.
Qed.
End canconfig.

(** A library for one interface: its bit timing and its mode. *)
Definition iface : Type := Config.can_bittiming * Config.can_ctrlmode.
Definition demo_lib : Config.CanLib iface := {|
  Config.can_get_bittiming := fun _ d => Some d.1;
  Config.can_set_bittiming := fun _ bt d => (0, (bt, d.2));
  Config.can_set_bitrate := fun _ br d => (0, d);
  Config.can_set_bitrate_samplepoint := fun _ br sp d => (0, d);
  Config.can_get_bittiming_const := fun _ _ => None;
  Config.can_get_state := fun _ _ => Some 0;
  Config.can_get_clock := fun _ _ => Some 8000000;
  Config.can_do_restart := fun _ d => (0, d);
  Config.can_do_start := fun _ d => (0, d);
  Config.can_do_stop := fun _ d => (0, d);
  Config.can_get_ctrlmode := fun _ d => Some d.2;
  Config.can_set_ctrlmode := fun _ cm d =>
    (0, (d.1, Config.mk_cm (Config.cm_mask cm) (Z.lor (Z.land (Config.cm_flags d.2) (Z.lnot (Config.cm_mask cm))) (Config.cm_flags cm))));
  Config.can_get_restart_ms := fun _ _ => Some 0;
  Config.can_set_restart_ms := fun _ _ d => (0, d);
  Config.can_get_berr_counter := fun _ _ => None;
  Config.sample_permille := fun _ => 875;
  Config.sample_text := fun _ => "0.875"%string
|}.
Definition demo_iface : iface := (Config.bt0, Config.mk_cm 0 0).

Lemma demo_bt_valid :
  Forall bt_valid [("tq", 125); ("prop-seg", 6); ("phase-seg1", 7); ("phase-seg2", 2)]%string.
Proof. repeat constructor; simpl; try (by eexists); lia. Qed.

Lemma bittiming_sets_values_witness :
  dev (@Config.do_set_bittiming LP64 iface demo_lib 8
         ["bittiming"; "tq"; "125"; "prop-seg"; "6"; "phase-seg1"; "7"; "phase-seg2"; "2"]%string "can0"
         (mkst [] demo_iface)).2 = (Config.mk_bt 0 0 125 6 7 2 0 0, Config.mk_cm 0 0).
Proof.
  exact (@bittiming_sets_values LP64 iface demo_lib
    [("tq", 125); ("prop-seg", 6); ("phase-seg1", 7); ("phase-seg2", 2)]%string "can0" (mkst [] demo_iface)
    demo_bt_valid).
Defined.

Lemma bittiming_accepts_repeats_witness :
  dev (@Config.do_set_bittiming LP64 iface demo_lib 8
         ["bittiming"; "tq"; dec 1; "tq"; dec 2; "tq"; dec 3; "tq"; dec 4]%string "can0" (mkst [] demo_iface)).2 =
  (Config.mk_bt 0 0 4 0 0 0 0 0, Config.mk_cm 0 0).
Proof.
  apply (@bittiming_accepts_repeats LP64 iface demo_lib 1 2 3 4 "can0" (mkst [] demo_iface)); lia.
Defined.

Lemma ctrlmode_sets_modes_witness :
  exists cm, dev (@Config.do_set_ctrlmode iface demo_lib 4
      ["ctrlmode"; "loopback"; "on"; "one-shot"; "off"]%string "can0" (mkst [] demo_iface)).2 =
    (Config.can_set_ctrlmode (CanLib := demo_lib) "can0" cm demo_iface).2 /\
    Z.testbit (Config.cm_flags cm) 0 = true /\ Z.testbit (Config.cm_mask cm) 3 = true.
Proof.
  destruct (@ctrlmode_sets_modes iface demo_lib [("loopback", true); ("one-shot", false)]%string "can0" (mkst [] demo_iface))
    as (cm & Hd & Hb).
  - repeat constructor; by eexists.
  - exists cm. split; [exact Hd|]. split; [apply (Hb 0); lia | apply (Hb 3); lia].
Defined.
