(* ===== verification/UbTest.v ===== *)
(** * The U-Boot tests ([preloader-uboot])

    [host-tools/creatf.c] writes a file of pseudo-random bytes on the host; the
    board loads it over TFTP and [tftp-test/tftp-test.c] checks it against the
    generator of [test-lib/myrand.c], which both sides link. The start-up code
    and the helpers of the stand-alone U-Boot programs are in
    [uboot-api/crtinit.c].

    The U-Boot programs are built for 32-bit ARM, where [int], [unsigned long]
    and pointers have 32 bits; creatf runs on hosts of both data models. *)

From stdpp Require Import base list strings numbers.
From Stdlib Require Import ZArith Lia Ascii.
From S2P Require Import Prelude CInt CLib Memory.

Module Ub.

(** ** test-lib/myrand.c *)

Definition MYRAND_MAX : Z := wrapu 32 (Z.shiftl 1 31) - 1.

(** Programs that link the generator have its static variable [rseed]. *)
Class HasSeed (W : Type) : Type := {
  rseed : W -> Z;
  set_rseed : Z -> W -> W;
  rseed_set : forall x w, rseed (set_rseed x w) = x
}.

(** The value the generator takes after [x]: the product is an [int], the mask
    is unsigned. *)
Definition myrand_next (x : Z) : Z := s32 (Z.land (u32 (s32 (x * 1103515245 + 12345))) MYRAND_MAX).

Section myrand.
Context {W : Type} `{HS : HasSeed W}.

Definition smyrand (x : Z) : M W unit := setdev (set_rseed x).
Definition myrand : M W Z :=
  devop (fun w => let v := myrand_next (rseed w) in (v, set_rseed v w)).
End myrand.

(** ** host-tools/creatf.c *)

(** [cf_accepted] is what [fwrite] took since [fopen], [cf_file] what is in the
    file once the stream is closed. *)
Record cf_w := mk_cf { cf_rseed : Z; cf_calls : nat; cf_accepted : list Z; cf_file : list Z }.

#[export, refine] Instance cf_HasSeed : HasSeed cf_w := {|
  rseed := cf_rseed;
  set_rseed := fun x w => mk_cf x (cf_calls w) (cf_accepted w) (cf_file w)
|}.
Proof. done. Defined.

(** The host: whether [fopen] succeeds, how many bytes the n-th [fwrite] takes,
    what reaches the file when the stream is closed, the descriptor [open] gives
    and the size [fstat] reports ([None]: it fails). *)
Record cf_os := {
  os_fopen : string -> bool;
  os_fwrite : nat -> list Z -> Z;
  os_flush : list Z -> list Z;
  os_open : string -> Z;
  os_fstat : Z -> list Z -> option Z
}.

Section creatf.
Context `{DM : DataModel} (os : cf_os) (prg : string).
Abbreviation P := (M cf_w).

Definition help : P unit := printf ("Usage: " +:+ prg +:+ " seed size filename" +:+ nl).

(** [fwrite(p, 1, n, ofile)]: the number of bytes taken. *)
Definition fwrite (l : list Z) : P Z := devop (fun w =>
  let n := os_fwrite os (cf_calls w) l in
  (n, mk_cf (cf_rseed w) (S (cf_calls w)) (cf_accepted w ++ take (Z.to_nat n) l) (cf_file w))).

Definition fclose : P unit :=
  setdev (fun w => mk_cf (cf_rseed w) (cf_calls w) [] (os_flush os (cf_accepted w))).

(** [exit] closes the open streams. *)
Definition exit_flush {A} (c : Z) : P A := fclose;; exit c.

Definition write_data (fsize : Z) : P unit :=
  for_ (Z.to_nat fsize) 0 (fun _ =>
    v ← myrand;
    n ← fwrite [u8 v];
    when (negb (n =? 1)) (printf ("cannot write file!" +:+ nl);; fclose;; exit 1)).

Definition creatf_main (args : list string) : P Z :=
  match args with
  | a1 :: a2 :: a3 :: _ =>
      let lseed := atoi a1 in
      smyrand lseed;;
      let fsize := atoi a2 in
      if negb (os_fopen os a3) then printf ("cannot open file for writing!" +:+ nl);; exit 1
      else
        n ← fwrite (le_bytes 4 fsize);
        when (negb (n =? 4)) (printf ("cannot write size" +:+ nl);; exit_flush 1);;
        n ← fwrite (le_bytes 4 lseed);
        when (negb (n =? 4)) (printf ("cannot write seed value" +:+ nl);; exit_flush 1);;
        write_data fsize;;
        fclose;;
        let fileno := os_open os a3 in
        when (fileno <? -1) (printf ("cannot open and stat file!" +:+ nl);; exit 1);;
        w ← getdev;
        match os_fstat os fileno (cf_file w) with
        | None => printf ("cannot open and stat file!" +:+ nl);; exit 1
        | Some size =>
            printf ("Wrote " +:+ dec size +:+ " bytes to file " +:+ a3 +:+ " using seed " +:+ dec lseed +:+
                    ", fsize " +:+ dec fsize +:+ nl);;
            mret 0
        end
  | _ => help;; exit 1
  end.
End creatf.

(** ** uboot-api/crtinit.c *)

(** What a stand-alone program works on: the memory of the board and [rseed]. *)
Record ub_w (Mem : Type) := mk_ub { ub_mem : Mem; ub_rseed : Z }.
Arguments mk_ub {Mem}.
Arguments ub_mem {Mem}.
Arguments ub_rseed {Mem}.

#[export, refine] Instance ub_HasSeed Mem : HasSeed (ub_w Mem) := {|
  rseed := ub_rseed;
  set_rseed := fun x w => mk_ub (ub_mem w) x
|}.
Proof. done. Defined.

(** U-Boot and the processor: [printf("%s", NULL)], the environment, the
    identification registers and the ABI versions. *)
Record ub_os := {
  os_null : string;
  os_getenv : string -> option string;
  os_cpuid : Z;
  os_xf_version : Z;
  os_get_version : Z
}.

(** [for (x = den; x < num; x += den);] *)
Definition uidiv_round {W} (num den x : Z) : M W (Z + Z) :=
  if x <? num then mret (inl (u32 (x + den))) else mret (inr x).
Definition aeabi_uidiv {W} (fuel : nat) (num den : Z) : M W Z :=
  while_ fuel den (uidiv_round num den).

Section crtinit.
Context {Mem : Type} `{HM : Memory Mem}.
Abbreviation P := (M (ub_w Mem)).

Definition hex_case (c : ascii) : option Z :=
  match cc c with
  | 48 => Some 0 | 49 => Some 1 | 50 => Some 2 | 51 => Some 3 | 52 => Some 4
  | 53 => Some 5 | 54 => Some 6 | 55 => Some 7 | 56 => Some 8 | 57 => Some 9
  | 97 | 65 => Some 10 | 98 | 66 => Some 11 | 99 | 67 => Some 12
  | 100 | 68 => Some 13 | 101 | 69 => Some 14 | 102 | 70 => Some 15
  | _ => None
  end.

(** The loop from the character [str[i]] on. *)
Fixpoint hex2dec_from (str : string) (val : Z) : P Z :=
  match str with
  | EmptyString => mret val
  | String c str' =>
      let val := s32 (val * 16) in
      match hex_case c with
      | None => printf ("unexpected digit!" +:+ nl);; mret (-1)
      | Some digit => hex2dec_from str' (s32 (val + digit))
      end
  end.
Definition hex2dec (str : string) : P Z := hex2dec_from str 0.

(** Accesses through a pointer: outside the 32-bit address space is a crash. *)
Definition in_space (a n : Z) : bool := ((0 <=? a) && (a + n <=? 2 ^ 32))%bool.
Definition ld8 (a : Z) : P Z :=
  if in_space a 1 then w ← getdev; mret (loadb (ub_mem w) a) else crash.
Definition st8 (a v : Z) : P unit :=
  if in_space a 1 then setdev (fun w => mk_ub (storeb (ub_mem w) a v) (ub_rseed w)) else crash.
Definition ld32 (a : Z) : P Z :=
  if in_space a 4 then w ← getdev; mret (le_val (load_bytes (ub_mem w) a 4)) else crash.

(** [crt_startup]: clear [[bss_start, end)] and run the program. *)
Definition zero_bss (bss_start bss_end : Z) : P unit :=
  for_ (Z.to_nat (bss_end - bss_start)) bss_start (fun cp => st8 cp 0).
Definition crt_startup (bss_start bss_end : Z) (uboot_app_main : list string -> P Z) (argv : list string) : P Z :=
  zero_bss bss_start bss_end;; uboot_app_main argv.

(** ** tftp-test/tftp-test.c *)

Definition memcpy (dst src sz : Z) : P Z :=
  printf ("d " +:+ hex dst +:+ ", s " +:+ hex src +:+ ", sz " +:+ dec (s32 sz) +:+ nl);;
  for_ (Z.to_nat sz) 0 (fun i => v ← ld8 (src + i); st8 (dst + i) v);;
  mret dst.

Section tftp.
Context (os : ub_os).

(** [argv[0], ..., argv[argc]], the last being the null pointer. *)
Definition print_args (argv : list string) : P unit :=
  for_ (S (length argv)) 0 (fun i =>
    printf ("argv[" +:+ dec i +:+ "] = " +:+ dq +:+ default "<NULL>"%string (argv !! Z.to_nat i) +:+ dq +:+ nl)).

(** One byte of the comparison; [inr] leaves the function. *)
Definition check_byte (fsize pdata i : Z) : P (unit + Z) :=
  v ← myrand;
  let expch := u8 v in
  actual ← ld8 (pdata + i);
  if negb (expch =? actual) then
    printf ("fail, offs " +:+ dec (s32 (fsize + 8)) +:+ ", exp " +:+ hex expch +:+ ", actual " +:+ hex actual +:+ nl);;
    mret (inr 0)
  else
    printf ("i " +:+ dec i +:+ ", expch " +:+ hex expch +:+ ", actual " +:+ hex actual +:+ nl);;
    mret (inl tt).

Definition check_data (fsize pdata : Z) : P Z :=
  r ← for_acc 10 0 tt (fun i _ => check_byte fsize pdata i);
  match r with
  | inr v => mret v
  | inl _ => printf ("pass!" +:+ nl);; mret 0
  end.

Definition tftp_main (argv : list string) : P Z :=
  printf ("serverip : " +:+ default (os_null os) (os_getenv os "serverip") +:+ nl);;
  match argv !! 1%nat with
  | None => printf ("need load address of tftp file image!" +:+ nl);; mret 1
  | Some a1 =>
      h ← hex2dec a1;
      let loadaddr := u32 h in
      printf ("load addr " +:+ hex loadaddr +:+ nl);;
      s ← ld32 (u32 (loadaddr + 4));
      let seed := s32 s in
      f ← ld32 loadaddr;
      let fsize := s32 f in
      printf ("fsize " +:+ dec fsize +:+ nl);;
      printf ("seed  " +:+ hex (u32 seed) +:+ nl);;
      printf ("CPU ID " +:+ hex (os_cpuid os) +:+ nl);;
      printf ("Example expects ABI version " +:+ dec (os_xf_version os) +:+ nl);;
      printf ("Actual U-Boot ABI version " +:+ dec (s32 (os_get_version os)) +:+ nl);;
      printf ("argc = " +:+ dec (Z.of_nat (length argv)) +:+ nl);;
      print_args argv;;
      smyrand seed;;
      check_data fsize (u32 (loadaddr + 8))
  end.

(** ** sdram-test/sdram-test.c: what is before the unconditional [return] *)
Definition sdram_main (argv : list string) : P Z :=
  printf ("CPU ID " +:+ hex (os_cpuid os) +:+ nl);;
  mret 0.
End tftp.
End crtinit.
End Ub.
