(* ===== verification/UbClaims.v ===== *)
(** * U-Boot tests: lemmas and properties of [UbTest] *)

From stdpp Require Import base list strings numbers gmap.
From Stdlib Require Import ZArith Lia Ascii.
From S2P Require Import Prelude CInt CLib CLibOk Memory UbTest.
Import Ub.

(** ** The generator *)

(** The bytes the generator gives from [x] on. *)
Fixpoint rand_bytes (n : nat) (x : Z) : list Z :=
  match n with
  | O => []
  | S n' => u8 (myrand_next x) :: rand_bytes n' (myrand_next x)
  end.

(** The state of the generator after [n] calls. *)
Definition rand_after (n : nat) (x : Z) : Z := Nat.iter n myrand_next x.

Lemma rand_after_S n x : rand_after n (myrand_next x) = myrand_next (rand_after n x).
Proof. unfold rand_after. by rewrite <- Nat.iter_succ, Nat.iter_succ_r. Qed.

Lemma rand_bytes_snoc n x : rand_bytes (S n) x = rand_bytes n x ++ [u8 (myrand_next (rand_after n x))].
Proof.
  revert x. induction n as [|n IH]; intros x; [done|].
  cbn [rand_bytes] in *. by rewrite IH, rand_after_S.
Qed.

Lemma rand_bytes_length n x : length (rand_bytes n x) = n.
Proof. revert x. induction n; intros; simpl; [done|]. by rewrite IHn. Qed.

Lemma rand_bytes_is_byte n x : Forall is_byte (rand_bytes n x).
Proof. revert x. induction n; intros; simpl; constructor; [apply (wrapu_range 8); lia|done]. Qed.

Lemma rand_bytes_prefix n k x : (n <= k)%nat -> take n (rand_bytes k x) = rand_bytes n x.
Proof.
  revert n x. induction k as [|k IH]; intros [|n] x Hle; try done; [lia|]. cbn [rand_bytes take].
  f_equal. apply IH. lia.
Qed.

Lemma rand_bytes_lookup n k x : (k < n)%nat -> rand_bytes n x !! k = Some (u8 (myrand_next (rand_after k x))).
Proof.
  revert k x. induction n as [|n IH]; intros [|k] x Hk; try lia; [done|]. cbn [rand_bytes lookup].
  change (rand_bytes n (myrand_next x) !! k = Some (u8 (myrand_next (rand_after (S k) x)))).
  rewrite IH by lia. by rewrite rand_after_S.
Qed.

Lemma runs_myrand {W} `{HasSeed W} (s : st W) (Q : Z -> st W -> Prop) :
  Q (myrand_next (rseed (dev s))) (mkst (out s) (set_rseed (myrand_next (rseed (dev s))) (dev s))) ->
  runs myrand s Q.
Proof. intros HQ. by apply runs_devop. Qed.

(** ** creatf *)

(** The file for a seed and a size: both as 4 bytes, then the data. *)
Definition file_of (lseed fsize : Z) : list Z :=
  le_bytes 4 fsize ++ le_bytes 4 lseed ++ rand_bytes (Z.to_nat fsize) lseed.

Lemma file_of_length lseed fsize : length (file_of lseed fsize) = (8 + Z.to_nat fsize)%nat.
Proof. unfold file_of. by rewrite !length_app, !le_bytes_length, rand_bytes_length. Qed.

Lemma file_of_is_byte lseed fsize : Forall is_byte (file_of lseed fsize).
Proof. unfold file_of. rewrite !Forall_app. eauto using le_bytes_is_byte, rand_bytes_is_byte. Qed.

(** A host on which every call succeeds. *)
Record good_host (os : cf_os) (fname : string) : Prop := {
  gh_fopen : os_fopen os fname = true;
  gh_fwrite : forall n l, os_fwrite os n l = Z.of_nat (length l);
  gh_flush : forall l, os_flush os l = l;
  gh_open : 0 <= os_open os fname;
  gh_fstat : forall l, os_fstat os (os_open os fname) l = Some (Z.of_nat (length l))
}.

Section creatf_ok.
Context `{DM : DataModel} (os : cf_os) (prg fname : string) (HG : good_host os fname).

Lemma runs_fwrite (l : list Z) (s : st cf_w) (Q : Z -> st cf_w -> Prop) :
  (forall c, Q (Z.of_nat (length l)) (mkst (out s) (mk_cf (cf_rseed (dev s)) c (cf_accepted (dev s) ++ l) (cf_file (dev s))))) ->
  runs (fwrite os l) s Q.
Proof.
  intros HQ. unfold fwrite. apply runs_devop. cbn [fst snd].
  rewrite (gh_fwrite _ _ HG), Nat2Z.id, take_ge by lia. apply HQ.
Qed.

Lemma write_data_ok fsize (s : st cf_w) :
  runs (write_data os fsize) s (fun _ s' =>
    cf_accepted (dev s') = cf_accepted (dev s) ++ rand_bytes (Z.to_nat fsize) (cf_rseed (dev s))).
Proof.
  unfold write_data. eapply runs_mono.
  - apply (runs_for_ (fun k s' => cf_rseed (dev s') = rand_after (Z.to_nat k) (cf_rseed (dev s)) /\
      cf_accepted (dev s') = cf_accepted (dev s) ++ rand_bytes (Z.to_nat k) (cf_rseed (dev s)))).
    + by rewrite app_nil_r.
    + intros k s' Hk [Hs Ha]. apply runs_bind, runs_myrand. cbn [dev out rseed set_rseed cf_HasSeed].
      apply runs_bind, runs_fwrite. intros c. apply runs_when; intros Hc; [done|].
      cbn [dev cf_rseed cf_accepted]. replace (Z.to_nat (k + 1)) with (S (Z.to_nat k)) by lia.
      rewrite Hs, Ha, rand_bytes_snoc, app_assoc. by split.
  - intros _ s' [_ ->]. by rewrite Z.add_0_l, Nat2Z.id.
Qed.

Lemma creatf_writes (a1 a2 : string) (rest : list string) (s : st cf_w) :
  cf_accepted (dev s) = [] ->
  runs (creatf_main os prg (a1 :: a2 :: fname :: rest)) s (fun r s' =>
    r = 0 /\ cf_file (dev s') = file_of (atoi a1) (atoi a2)).
Proof.
  intros Hs. unfold creatf_main. rewrite (gh_fopen _ _ HG). cbn [negb].
  unfold smyrand. runs_steps. apply runs_fwrite. intros c1. runs_steps.
  apply runs_when; intros Hn; [by rewrite le_bytes_length in Hn|]. runs_steps.
  apply runs_fwrite. intros c2. runs_steps.
  apply runs_when; intros Hn'; [by rewrite le_bytes_length in Hn'|]. runs_steps.
  eapply runs_mono; [apply write_data_ok|]. cbn. intros _ s1 Ha. unfold fclose. runs_steps.
  pose proof (gh_open _ _ HG). apply runs_when; intros Ho; [apply Z.ltb_lt in Ho; lia|]. runs_steps.
  cbn [cf_file]. rewrite (gh_fstat _ _ HG). runs_steps. split; [done|].
  cbn [cf_file dev]. rewrite (gh_flush _ _ HG), Ha, Hs. done.
Qed.
End creatf_ok.

(** ** hex2dec *)

Lemma hex_case_digit c : hex_case c = digit_in 16 c.
Proof. by destruct c as [[] [] [] [] [] [] [] []]. Qed.

Lemma s32_cong x y : x mod 2 ^ 32 = y mod 2 ^ 32 -> s32 x = s32 y.
Proof.
  intros E. unfold s32, wraps. by rewrite <- (Z.add_mod_idemp_l x), <- (Z.add_mod_idemp_l y), E by done.
Qed.

Lemma s32_mod x : s32 x mod 2 ^ 32 = x mod 2 ^ 32.
Proof.
  unfold s32, wraps. rewrite Zminus_mod_idemp_l. f_equal. lia.
Qed.

Lemma u32_s32 x : u32 (s32 x) = u32 x.
Proof. apply s32_mod. Qed.

Lemma s32_step acc d : s32 (s32 (s32 acc * 16) + d) = s32 (acc * 16 + d).
Proof.
  apply s32_cong. rewrite <- Z.add_mod_idemp_l, s32_mod, <- Z.mul_mod_idemp_l, s32_mod by done.
  rewrite Z.mul_mod_idemp_l by done. by rewrite Z.add_mod_idemp_l.
Qed.

(** ** Memory accesses of the board *)

Section board.
Context {Mem : Type} `{HM : Memory Mem}.
Implicit Types s : st (ub_w Mem).

(** What hex2dec gives: the value when the whole word is digits. *)
Definition hex_result (str : string) (acc : Z) (any : bool) : option Z :=
  match scan_digits 16 str acc any with
  | (v, _, EmptyString) => Some v
  | _ => None
  end.

Lemma hex2dec_from_ok str : forall acc any s,
  hex2dec_from str (s32 acc) s =
  match hex_result str acc any with
  | Some v => (Ret (s32 v), s)
  | None => (Ret (-1), mkst (Stdout ("unexpected digit!" +:+ nl) :: out s) (dev s))
  end.
Proof.
  unfold hex_result. induction str as [|c str IH]; intros acc any s; [done|].
  cbn [hex2dec_from scan_digits]. rewrite hex_case_digit.
  destruct (digit_in 16 c) as [d|]; [|done]. rewrite s32_step. apply IH.
Qed.

Lemma runs_ld8 a s (Q : Z -> st (ub_w Mem) -> Prop) :
  0 <= a -> a + 1 <= 2 ^ 32 -> Q (loadb (ub_mem (dev s)) a) s -> runs (ld8 a) s Q.
Proof.
  intros H1 H2 HQ. unfold ld8, in_space.
  rewrite (proj2 (Z.leb_le _ _) H1), (proj2 (Z.leb_le _ _) H2). cbn [andb]. by runs_steps.
Qed.

Lemma runs_ld32 a s (Q : Z -> st (ub_w Mem) -> Prop) :
  0 <= a -> a + 4 <= 2 ^ 32 -> Q (le_val (load_bytes (ub_mem (dev s)) a 4)) s -> runs (ld32 a) s Q.
Proof.
  intros H1 H2 HQ. unfold ld32, in_space.
  rewrite (proj2 (Z.leb_le _ _) H1), (proj2 (Z.leb_le _ _) H2). cbn [andb]. by runs_steps.
Qed.

Lemma runs_st8 a v s (Q : unit -> st (ub_w Mem) -> Prop) :
  0 <= a -> a + 1 <= 2 ^ 32 ->
  Q tt (mkst (out s) (mk_ub (storeb (ub_mem (dev s)) a v) (ub_rseed (dev s)))) -> runs (st8 a v) s Q.
Proof.
  intros H1 H2 HQ. unfold st8, in_space.
  rewrite (proj2 (Z.leb_le _ _) H1), (proj2 (Z.leb_le _ _) H2). cbn [andb]. by apply runs_setdev.
Qed.

(** ** The comparison *)

(** The last thing written is the pass message. *)
Definition says_pass s : Prop := head (out s) = Some (Stdout ("pass!" +:+ nl)).

Lemma check_byte_ok fsize pdata i s :
  0 <= i -> 0 <= pdata -> pdata + i + 1 <= 2 ^ 32 ->
  let e := u8 (myrand_next (ub_rseed (dev s))) in
  let v := loadb (ub_mem (dev s)) (pdata + i) in
  runs (check_byte fsize pdata i) s (fun r s' =>
    ub_mem (dev s') = ub_mem (dev s) /\ ub_rseed (dev s') = myrand_next (ub_rseed (dev s)) /\
    ((r = inl tt /\ e = v) \/ (r = inr 0 /\ e <> v /\ ~ says_pass s'))).
Proof.
  intros Hi Hp Hr e v. unfold check_byte. apply runs_bind, runs_myrand, runs_bind, runs_ld8; [lia..|].
  cbn [out dev set_rseed ub_HasSeed ub_mem rseed]. fold v e.
  destruct (Z.eqb_spec e v); cbn [negb]; runs_steps; cbn [ub_mem ub_rseed]; (do 2 (split; [done|])).
  - by left.
  - right. by repeat split.
Qed.

Lemma check_data_ok fsize pdata s :
  0 <= pdata -> pdata + 10 <= 2 ^ 32 ->
  runs (check_data fsize pdata) s (fun r s' =>
    r = 0 /\ (says_pass s' <-> load_bytes (ub_mem (dev s)) pdata 10 = rand_bytes 10 (ub_rseed (dev s)))).
Proof.
  intros Hp Hr. unfold check_data. apply runs_bind. eapply runs_mono.
  - apply (runs_for_acc
      (fun k _ s' => ub_mem (dev s') = ub_mem (dev s) /\ ub_rseed (dev s') = rand_after (Z.to_nat k) (ub_rseed (dev s)) /\
         load_bytes (ub_mem (dev s)) pdata (Z.to_nat k) = rand_bytes (Z.to_nat k) (ub_rseed (dev s)))
      (fun (v : Z) s' => v = 0 /\ ~ says_pass s' /\
         load_bytes (ub_mem (dev s)) pdata 10 <> rand_bytes 10 (ub_rseed (dev s)))); [done|].
    intros k [] s' Hk (Hm & Hs & Heq). change (Z.of_nat 10) with 10 in Hk.
    eapply runs_mono; [apply check_byte_ok; lia|].
    rewrite Hm, Hs. intros r s2 (Hm2 & Hs2 & Hr2).
    replace (Z.to_nat (k + 1)) with (S (Z.to_nat k)) by lia.
    assert (pdata + Z.of_nat (Z.to_nat k) = pdata + k) as Hkk by lia.
    destruct Hr2 as [[-> Hev]|(-> & Hne & Hnp)].
    + by rewrite Hm2, Hs2, rand_bytes_snoc, load_bytes_snoc, Heq, Hkk, Hev.
    + do 2 (split; [done|]). intros H10. apply Hne.
      apply (f_equal (fun l : list Z => l !! Z.to_nat k)) in H10.
      rewrite rand_bytes_lookup, load_bytes_lookup, Hkk in H10 by lia.
      by injection H10.
  - intros [[]|v] s'.
    + intros (_ & _ & Heq). runs_steps. split; [done|]. split; [intros _; exact Heq|done].
    + intros (-> & Hnp & Hne). runs_steps. split; [done|]. split; [by intros ?%Hnp|by intros ?%Hne].
Qed.

Lemma runs_hex2dec n s (Q : Z -> st (ub_w Mem) -> Prop) :
  0 <= n -> Q (s32 n) s -> runs (hex2dec (hex n)) s Q.
Proof.
  intros Hn HQ. unfold hex2dec. eexists _, _. split; [|exact HQ].
  change 0 with (s32 0). rewrite (hex2dec_from_ok _ 0 false).
  unfold hex_result, hex. by rewrite scan_fmt_base by lia.
Qed.

Lemma runs_print_args argv s (Q : unit -> st (ub_w Mem) -> Prop) :
  (forall o, Q tt (mkst o (dev s))) -> runs (print_args argv) s Q.
Proof.
  intros HQ. unfold print_args. eapply runs_mono.
  - apply (runs_for_ (fun _ s' => dev s' = dev s)); [done|]. intros k s' _ <-. by runs_steps.
  - intros [] [o w] Hd. cbn [dev] in Hd. subst w. apply HQ.
Qed.

(** The whole program on an address in range. *)
Lemma tftp_main_ok (os : ub_os) (prg : string) base (rest : list string) s :
  0 <= base -> base + 18 <= 2 ^ 32 ->
  runs (tftp_main os (prg :: hex base :: rest)) s (fun r s' =>
    r = 0 /\ (says_pass s' <-> load_bytes (ub_mem (dev s)) (base + 8) 10 =
                               rand_bytes 10 (s32 (le_val (load_bytes (ub_mem (dev s)) (base + 4) 4))))).
Proof.
  intros H1 H2. unfold tftp_main. runs_steps. cbn [lookup list_lookup]. apply runs_bind, runs_hex2dec; [done|].
  assert (forall k, 0 <= k <= 8 -> u32 (u32 (s32 base) + k) = base + k) as Hu.
  { intros k Hk. rewrite u32_s32. unfold u32. rewrite (wrapu_small 32 base), wrapu_small; lia. }
  assert (u32 (s32 base) = base) as Hb by (rewrite u32_s32; apply wrapu_small; lia).
  rewrite !Hu, Hb by lia. runs_steps. apply runs_ld32; [lia..|]. runs_steps. apply runs_ld32; [lia..|].
  runs_steps. apply runs_print_args. intros o. cbn [dev]. unfold smyrand. runs_steps.
  eapply runs_mono; [apply check_data_ok; lia|]. done.
Qed.

Context {HG : GoodMemory Mem}.

Lemma zero_bss_ok b0 b1 s :
  0 <= b0 -> b1 <= 2 ^ 32 ->
  runs (zero_bss b0 b1) s (fun _ s' =>
    (forall a, b0 <= a < b1 -> loadb (ub_mem (dev s')) a = 0) /\
    (forall a, ~ (b0 <= a < b1) -> loadb (ub_mem (dev s')) a = loadb (ub_mem (dev s)) a)).
Proof.
  intros H0 H1. unfold zero_bss. eapply runs_mono.
  - apply (runs_for_ (fun k s' =>
      (forall a, b0 <= a < k -> loadb (ub_mem (dev s')) a = 0) /\
      (forall a, ~ (b0 <= a < k) -> loadb (ub_mem (dev s')) a = loadb (ub_mem (dev s)) a))).
    + split; [intros; lia|done].
    + intros k s' Hk [Hz Ho]. apply runs_st8; [lia..|]. cbn [dev ub_mem]. split; intros a Ha.
      * destruct (decide (k = a)) as [->|]; [by rewrite loadb_storeb_eq|]. rewrite loadb_storeb_ne by done. apply Hz. lia.
      * rewrite loadb_storeb_ne by lia. apply Ho. lia.
  - intros _ s' [Hz Ho]. split; intros a Ha; [apply Hz|apply Ho]; lia.
Qed.
End board.

(** ** From the file to the board *)

Lemma file_seed lseed fsize : take 4 (drop 4 (file_of lseed fsize)) = le_bytes 4 lseed.
Proof. done. Qed.

Lemma file_data lseed fsize : drop 8 (file_of lseed fsize) = rand_bytes (Z.to_nat fsize) lseed.
Proof. done. Qed.

Lemma le_val_int x : s32 x = x -> s32 (le_val (le_bytes 4 x)) = x.
Proof. intros Hx. rewrite le_val_bytes. rewrite <- Hx at 2. apply s32_cong. by rewrite Z.mod_mod. Qed.

Lemma s32_idem x : s32 (s32 x) = s32 x.
Proof. apply s32_cong, s32_mod. Qed.

(** ** Properties *)

(** C13: a file written by creatf passes the TFTP test: when the host takes
    every write, creatf returns 0 and leaves the size, the seed and the data in
    the file; and when that file has at least ten bytes of data and is loaded at
    any address where it fits, outside the BSS of the test, the test started
    with that address in hexadecimal returns 0 and ends with the pass message. *)
Theorem creatf_tftp_roundtrip `{DM : DataModel} {Mem : Type} `{HM : Memory Mem} {HG : GoodMemory Mem}
    (os : cf_os) (prg fname a1 a2 : string) (rest : list string) (s : st cf_w) :
  good_host os fname -> cf_accepted (dev s) = [] -> 10 <= atoi a2 ->
  runs (creatf_main os prg (a1 :: a2 :: fname :: rest)) s (fun r s1 =>
    r = 0 /\ cf_file (dev s1) = file_of (atoi a1) (atoi a2) /\
    forall (uos : ub_os) (m : Mem) (rseed0 base b0 b1 : Z) (o : list msg) (app : string),
      let last := base + 8 + atoi a2 in
      0 <= base -> last <= 2 ^ 32 -> 0 <= b0 -> b1 <= 2 ^ 32 -> (b1 <= base \/ last <= b0) ->
      runs (crt_startup b0 b1 (tftp_main uos) [app; hex base])
           (mkst o (mk_ub (store_bytes m base (cf_file (dev s1))) rseed0))
           (fun r2 s2 => r2 = 0 /\ says_pass s2)).
Proof.
  intros Hh Hs Hn. eapply runs_mono; [by apply creatf_writes|]. intros r s1 [-> Hf].
  do 2 (split; [done|]). intros uos m rs base b0 b1 o app last H1 H2 H3 H4 Hd.
  unfold crt_startup. apply runs_bind. eapply runs_mono; [by apply zero_bss_ok|].
  intros _ s2 [_ Ho]. cbn [dev ub_mem] in Ho. rewrite Hf in Ho.
  set (f := file_of (atoi a1) (atoi a2)) in *.
  assert (Z.of_nat (length f) = 8 + atoi a2) as Hlen by (unfold f; rewrite file_of_length; lia).
  assert (load_bytes (ub_mem (dev s2)) base (length f) = f) as Himg.
  { rewrite <- (load_store_bytes m base f) at 2 by apply file_of_is_byte.
    apply load_bytes_ext. intros i Hi. apply Ho. lia. }
  eapply runs_mono; [apply tftp_main_ok; lia|]. intros r s3 [-> Hp]. split; [done|]. apply Hp.
  rewrite (load_bytes_slice _ 4 4 (length f)), (load_bytes_slice _ 8 10 (length f)), Himg by lia.
  unfold f. rewrite file_seed, file_data, le_val_int by apply s32_idem. apply rand_bytes_prefix. lia.
Qed.

Definition demo_host : cf_os := {|
  os_fopen := fun _ => true; os_fwrite := fun _ l => Z.of_nat (length l); os_flush := fun l => l;
  os_open := fun _ => 3; os_fstat := fun _ l => Some (Z.of_nat (length l)) |}.

Lemma creatf_tftp_roundtrip_witness :
  runs (@creatf_main LP64 demo_host "creatf" ["7"; "16"; "tfile.bin"]%string) (mkst [] (mk_cf 0 0 [] []))
    (fun r s1 => r = 0 /\
       runs (crt_startup 0x1000 0x1010 (tftp_main (Build_ub_os "" (fun _ => None) 0 0 0)) ["tftp"; hex 0x100000]%string)
         (mkst [] (mk_ub (store_bytes (∅ : ram) 0x100000 (cf_file (dev s1))) 0)) (fun r2 s2 => r2 = 0 /\ says_pass s2)).
Proof.
  eapply runs_mono; [apply (@creatf_tftp_roundtrip LP64 ram _ _ demo_host "creatf" "tfile.bin" "7" "16" [])|].
  - by split.
  - done.
  - by vm_compute.
  - cbn beta. intros r s1 (-> & _ & H). split; [done|]. apply H; first [by vm_compute | left; by vm_compute].
Defined.

(** The TFTP test accepts an image exactly when its first ten data bytes
    are the ones the generator gives for the seed in the image; the size in the
    image and everything after the tenth byte do not matter, and the return
    value is 0 whether the test passes or fails. *)
Theorem tftp_pass_iff {Mem : Type} `{HM : Memory Mem} (os : ub_os) (prg : string) (base : Z) (s : st (ub_w Mem)) :
  0 <= base -> base + 18 <= 2 ^ 32 ->
  runs (tftp_main os [prg; hex base]) s (fun r s' =>
    r = 0 /\
    (says_pass s' <-> load_bytes (ub_mem (dev s)) (base + 8) 10 =
                      rand_bytes 10 (s32 (le_val (load_bytes (ub_mem (dev s)) (base + 4) 4))))).
Proof. apply tftp_main_ok. Qed.

Lemma tftp_pass_iff_witness :
  runs (tftp_main (Build_ub_os "" (fun _ => None) 0 0 0) ["tftp"; hex 0]%string)
    (mkst [] (mk_ub (∅ : ram) 0)) (fun r s' => r = 0 /\ ~ says_pass s').
Proof.
  eapply runs_mono; [apply (tftp_pass_iff (Build_ub_os "" (fun _ => None) 0 0 0) "tftp" 0); by vm_compute|].
  cbn beta. intros r s' [-> H]. split; [done|]. intros Hp. apply H in Hp. by vm_compute in Hp.
Defined.

(** Hex2dec agrees with the conversion of hexadecimal digits: on a word of
    digits of either case (the empty word is 0) it gives their value reduced to
    an [int] without output, and on any other word -1 and the message. *)
Theorem hex2dec_spec {Mem : Type} `{HM : Memory Mem} (str : string) (s : st (ub_w Mem)) :
  hex2dec str s =
  match scan_digits 16 str 0 false with
  | (v, _, EmptyString) => (Ret (s32 v), s)
  | _ => (Ret (-1), mkst (Stdout ("unexpected digit!" +:+ nl) :: out s) (dev s))
  end.
Proof.
  unfold hex2dec. change 0 with (s32 0) at 1. rewrite (hex2dec_from_ok _ 0 false). unfold hex_result.
  by destruct (scan_digits 16 str 0 false) as [[v b] [|c r]].
Qed.

Lemma uidiv_loop {W} num den (s : st W) : 0 < den -> num + den <= 2 ^ 32 ->
  forall fuel k, 0 < k -> k * den < num + den -> num <= (k - 1 + Z.of_nat fuel) * den ->
  runs (while_ fuel (k * den) (uidiv_round num den)) s (fun x s' =>
    s' = s /\ exists j, x = j * den /\ k <= j /\ num <= x /\ (x < num + den \/ j = k)).
Proof.
  intros Hd Hr. induction fuel as [|fuel IH]; intros k Hk Hlt Hf; [nia|].
  apply runs_while. unfold uidiv_round. destruct (Z.ltb_spec (k * den) num); apply runs_ret.
  - unfold u32. rewrite wrapu_small by nia. replace (k * den + den) with ((k + 1) * den) by lia.
    eapply runs_mono; [apply IH; nia|]. intros x s' (-> & j & -> & Hj & Hn & Hx). split; [done|].
    exists j. split; [done|]. split; [lia|]. split; [done|]. left. destruct Hx as [Hx | ->]; nia.
  - split; [done|]. exists k. split; [done|]. split; [lia|]. split; [lia|]. by right.
Qed.

(** The division routine of the U-Boot programs does not divide: it gives
    the denominator times the quotient rounded up (at least the denominator
    itself), that is the least multiple of the denominator that is positive and
    not below the numerator. *)
Theorem uidiv_gives_multiple {W : Type} (num den : Z) (fuel : nat) (s : st W) :
  0 < den -> 0 <= num -> num + den <= 2 ^ 32 -> num / den + 1 < Z.of_nat fuel ->
  runs (aeabi_uidiv fuel num den) s (fun x s' => s' = s /\ x = den * Z.max 1 ((num + den - 1) / den)).
Proof.
  intros Hd Hn Hr Hf. unfold aeabi_uidiv. pose proof (Z.div_mod num den ltac:(lia)).
  pose proof (Z.mod_pos_bound num den Hd).
  destruct (decide (num = 0)) as [->|Hn0].
  - rewrite (Z.div_small (0 + den - 1)) by lia. destruct fuel as [|fuel]; [rewrite Z.div_0_l in Hf; lia|].
    apply runs_while. unfold uidiv_round. destruct (Z.ltb_spec den 0); [lia|]. apply runs_ret. split; [done|lia].
  - assert (num <= (1 - 1 + Z.of_nat fuel) * den) as Hb.
    { transitivity ((num / den + 1) * den); [lia|]. apply Z.mul_le_mono_nonneg_r; lia. }
    pose proof (uidiv_loop num den s Hd Hr fuel 1 ltac:(lia) ltac:(lia) Hb) as HL.
    rewrite Z.mul_1_l in HL. eapply runs_mono; [exact HL|].
    intros x s' (-> & j & -> & Hj & Hge & Hx). split; [done|].
    pose proof (Z.div_mod (num + den - 1) den ltac:(lia)). pose proof (Z.mod_pos_bound (num + den - 1) den Hd).
    set (q := (num + den - 1) / den) in *. assert (1 <= q) by nia. rewrite Z.max_r by lia.
    rewrite Z.mul_comm. f_equal. destruct Hx as [Hx | ->]; nia.
Qed.

Lemma uidiv_gives_multiple_witness :
  runs (aeabi_uidiv 10 100 30) (mkst [] tt) (fun x s' => s' = mkst [] tt /\ x = 120) /\ 100 / 30 = 3.
Proof.
  split; [|done]. eapply runs_mono; [apply (uidiv_gives_multiple 100 30 10 (mkst [] tt)); by vm_compute|].
  intros x s' [-> ->]. by vm_compute.
Defined.
