(* ===== verification/BoardTools.v ===== *)
(** * Tools of the board: memtool, watchdog test, SPI loopback test *)

From stdpp Require Import base list strings numbers.
From Stdlib Require Import ZArith Lia Ascii.
From S2P Require Import Prelude CInt CLib Memory.

(** ** memtool ([memtool/memtool.c])

    Reads and writes physical memory through a mapping of [/dev/mem]. The
    program is for 32-bit targets (it converts the mapped address to
    [uint32_t]), so [unsigned long] and pointers have 32 bits here. *)

Module Tool.

Record globals := mk_g { g_size : Z; g_paddr : Z; g_is_write : bool; g_value : Z; g_count : Z }.
Definition globals0 : globals := mk_g 4 0 false 0 1.

Definition set_size (x : Z) (g : globals) : globals := mk_g x (g_paddr g) (g_is_write g) (g_value g) (g_count g).
Definition set_paddr (x : Z) (g : globals) : globals := mk_g (g_size g) x (g_is_write g) (g_value g) (g_count g).
Definition set_write (g : globals) : globals := mk_g (g_size g) (g_paddr g) true (g_value g) (g_count g).
Definition set_value (x : Z) (g : globals) : globals := mk_g (g_size g) (g_paddr g) (g_is_write g) x (g_count g).
Definition set_count (x : Z) (g : globals) : globals := mk_g (g_size g) (g_paddr g) (g_is_write g) (g_value g) x.

(** [strtoul(s, NULL, 16)] *)
Definition hexarg (s : string) : Z := sv (strtou 32 16 s).

(** The width option, if there is one: [cur_arg] becomes the rest of [argv]. *)
Definition parse_width (a1 : string) (rest : list string) (g : globals) : globals * list string :=
  if streq a1 "-8" then (set_size 1 g, rest)
  else if streq a1 "-16" then (set_size 2 g, rest)
  else if streq a1 "-32" then (set_size 4 g, rest)
  else (g, a1 :: rest).

(** From [if (++cur_arg >= argc)] on. *)
Definition parse_operand (args : list string) (g : globals) : Z * globals :=
  match args with
  | [] => (-1, g)
  | b :: rest =>
      if char_at0 b =? 61 then
        let g := set_write g in
        if 1 <? strlen b then (0, set_value (hexarg (str_tail b)) g)
        else match rest with
             | [] => (-1, g)
             | c :: _ => (0, set_value (hexarg c) g)
             end
      else if g_is_write g then (0, set_value (hexarg b) g)
      else (0, set_count (hexarg b) g)
  end.

(** The value returned and the globals. *)
Definition parse_cmdline (argv : list string) (g : globals) : Z * globals :=
  match argv with
  | _ :: a1 :: rest =>
      let '(g, args) := parse_width a1 rest g in
      match args with
      | [] => (-1, g)
      | a :: rest =>
          let g := set_paddr (hexarg a) g in
          if negb (truth (g_paddr g)) then (-1, g)
          else match strchr a (chr 61) with
               | Some str =>
                   let g := set_write g in
                   if 1 <? strlen str then (0, set_value (hexarg (str_tail str)) g)
                   else parse_operand rest g
               | None => parse_operand rest g
               end
      end
  | _ => (-1, g)
  end.

(** The machine: physical memory and the mapping (virtual start, length,
    physical start). *)
Record mt_w (Mem : Type) := mk_w { w_mem : Mem; w_map : option (Z * Z * Z) }.
Arguments mk_w {Mem}.
Arguments w_mem {Mem}.
Arguments w_map {Mem}.

(** Whether [/dev/mem] can be opened, and the address [mmap] gives for a length
    and a physical address ([None] is [MAP_FAILED]). *)
Record mt_os := { os_opens : bool; os_mmap : Z -> Z -> option Z }.
Definition MAP_FAILED : Z := 2 ^ 32 - 1.

Section memtool.
Context {Mem : Type} `{HM : Memory Mem} (os : mt_os).
Abbreviation P := (M (mt_w Mem)).

(** The physical address of an access of [n] bytes; outside the mapping is a
    crash. *)
Definition translate (v n : Z) : P Z :=
  w ← getdev;
  match w_map w with
  | Some (va, len, pa) => if ((va <=? v) && (v + n <=? va + len))%bool then mret (pa + (v - va)) else crash
  | None => crash
  end.
Definition ld (v n : Z) : P Z :=
  p ← translate v n; w ← getdev; mret (le_val (load_bytes (w_mem w) p (Z.to_nat n))).
Definition sto (v n x : Z) : P unit :=
  p ← translate v n;
  setdev (fun w => mk_w (store_bytes (w_mem w) p (le_bytes (Z.to_nat n) x)) (w_map w)).

(** One cell of a dump with [cols] cells of [size] bytes per line; [g_paddr]
    is the address shown. *)
Definition read_cell (addr size cols digits paddr0 i : Z) : P unit :=
  when (i mod cols =? 0) (printf (nl +:+ "0x" +:+ hexU0 8 (u32 (paddr0 + size * i)) +:+ ": "));;
  v ← ld (addr + size * i) size;
  printf (" " +:+ hexU0 digits v).

Definition read_mem (addr count size paddr0 : Z) : P unit :=
  match size with
  | 1 => for_ (Z.to_nat count) 0 (read_cell addr 1 16 2 paddr0)
  | 2 => for_ (Z.to_nat count) 0 (read_cell addr 2 8 4 paddr0)
  | 4 => for_ (Z.to_nat count) 0 (read_cell addr 4 4 8 paddr0)
  | _ => mret tt
  end;;
  printf (nl +:+ nl).

Definition write_mem (addr value size : Z) : P unit :=
  match size with
  | 1 => sto addr 1 value
  | 2 => sto addr 2 value
  | 4 => sto addr 4 value
  | _ => mret tt
  end.

Definition usage : P unit :=
  printf ("Usage:" +:+ nl +:+ nl +:+
    "Read memory: memtool [-8 | -16 | -32] <phys addr> <count>" +:+ nl +:+
    "Write memory: memtool [-8 | -16 | -32] <phys addr>=<value>" +:+ nl +:+ nl +:+
    "Default access size is 32-bit." +:+ nl +:+ nl +:+ "Address, count and value are all in hex." +:+ nl).

(** [aligned_paddr], [aligned_size] for an address that is aligned to the
    access size. *)
Definition page_mask : Z := u32 (Z.lnot (4096 - 1)).
Definition aligned_paddr (paddr : Z) : Z := Z.land paddr page_mask.
Definition aligned_size (paddr count size : Z) : Z :=
  Z.land (u32 (u32 (paddr - aligned_paddr paddr + u32 (count * size)) + 4096 - 1)) page_mask.

Definition main (argv : list string) : P Z :=
  let '(r, g) := parse_cmdline argv globals0 in
  if truth r then usage;; mret 1
  else
    let paddr := Z.land (g_paddr g) (u32 (Z.lnot (g_size g - 1))) in
    let asize := aligned_size paddr (g_count g) (g_size g) in
    (if g_is_write g
     then printf ("Writing " +:+ dec (g_size g * 8) +:+ "-bit value 0x" +:+ hexU (g_value g) +:+
                  " to address 0x" +:+ hexU0 8 paddr +:+ nl)
     else printf ("Reading 0x" +:+ hexU (g_count g) +:+ " count starting at address 0x" +:+ hexU0 8 paddr +:+ nl));;
    if negb (os_opens os) then mret 1
    else
      let va := os_mmap os asize (aligned_paddr paddr) in
      let aligned_vaddr := default MAP_FAILED va in
      setdev (fun w => mk_w (w_mem w)
        match va with Some v => Some (v, asize, aligned_paddr paddr) | None => None end);;
      if aligned_vaddr =? 0 then printf ("Error mapping address" +:+ nl);; mret 1
      else
        let mem := u32 (aligned_vaddr + (paddr - aligned_paddr paddr)) in
        (if g_is_write g then write_mem mem (g_value g) (g_size g)
         else read_mem mem (g_count g) (g_size g) paddr);;
        setdev (fun w => mk_w (w_mem w) None);;
        mret 0.
End memtool.
End Tool.

(** ** The watchdog test ([watchdog/watchdog-test.c])

    Opens the watchdog device, which starts it, sets and shows its interval and
    kicks it on request until the user asks to leave. *)

Module Wd.

(** What the driver sees, newest first in the log. *)
Inductive wd_op : Type :=
| Open (dev : string)
| SetTimeout (interval : Z)
| GetTimeout
| GetBootStatus
| KeepAlive
| Write (s : string)
| Close.

#[export] Instance wd_op_eq_dec : EqDecision wd_op.
Proof. solve_decision. Defined.

(** The log of the driver and the characters left on the standard input. *)
Record wd_w := mk_wd { wd_log : list wd_op; wd_stdin : list Z }.

(** The answers of the driver: [open] (an error text on failure) and the ioctls. *)
Record wd_os := {
  os_prg : string;
  os_open : string -> option string;
  os_settimeout : Z -> bool;
  os_gettimeout : option Z;
  os_bootstatus : option Z
}.

Definition WATCHDOGDEV : string := "/dev/watchdog".
Definition short_options : string := "hd:i:".
Definition long_options : list longopt :=
  [mk_longopt "help" false 104; mk_longopt "dev" true 100; mk_longopt "interval" true 105]%string.

Section watchdog.
Context `{DM : DataModel} (os : wd_os).
Abbreviation P := (M wd_w).

Definition op (x : wd_op) : P unit := setdev (fun w => mk_wd (x :: wd_log w) (wd_stdin w)).

Definition usage_text : string :=
  "Usage: " +:+ os_prg os +:+ " [options]" +:+ nl +:+
  " -h  --help                Display this usage information." +:+ nl +:+
  " -d  --dev <device_file>   Use <device_file> as watchdog device file." +:+ nl +:+
  "                           The default device file is '/dev/watchdog'" +:+ nl +:+
  " -i  --interval <interval> Change the watchdog interval time" +:+ nl.

Definition print_usage {A} (err : bool) (exit_code : Z) : P A :=
  (if err then eprintf usage_text else printf usage_text);; exit exit_code.

(** [dev] and [interval] after the options. *)
Fixpoint do_options (evs : list optev) (dev : string) (interval : Z) : P (string * Z) :=
  match evs with
  | [] => mret (dev, interval)
  | (next_option, optarg) :: evs' =>
      match next_option, optarg with
      | 104, _ => print_usage false 0                                   (* h *)
      | 100, Some a => do_options evs' a interval                       (* d *)
      | 105, Some a => do_options evs' dev (atoi a)                     (* i *)
      | 63, _ => print_usage true 1                                     (* ? *)
      | _, _ => abort
      end
  end.

(** [getchar()]: -1 at the end of the input. *)
Definition getchar : P Z := devop (fun w =>
  match wd_stdin w with
  | [] => (-1, w)
  | c :: l => (c, mk_wd (wd_log w) l)
  end).

(** One round of the command loop; [inr] leaves it. [kick_watchdog] is a
    [char]. *)
Definition command : P (unit + unit) :=
  c ← getchar;
  match u8 c with
  | 119 => op (Write "w");; printf ("Kick watchdog through writing over device file" +:+ nl);; mret (inl tt)   (* w *)
  | 105 => op KeepAlive;; printf ("Kick watchdog through IOCTL" +:+ nl);; mret (inl tt)                        (* i *)
  | 120 => printf ("Goodbye !" +:+ nl);; mret (inr tt)                                                         (* x *)
  | _ => printf ("Unknown command" +:+ nl);; mret (inl tt)
  end.

Definition command_loop (fuel : nat) : P unit := while_ fuel tt (fun _ => command).

(** The device is opened, configured and its state shown. *)
Definition setup (dev : string) (interval : Z) : P unit :=
  op (Open dev);;
  match os_open os dev with
  | Some err => eprintf ("Error: " +:+ err +:+ nl);; exit 1
  | None => mret tt
  end;;
  when (truth interval)
    (printf ("Set watchdog interval to " +:+ dec interval +:+ nl);;
     op (SetTimeout interval);;
     when (negb (os_settimeout os interval)) (eprintf ("Error: Set watchdog interval failed" +:+ nl);; exit 1));;
  op GetTimeout;;
  match os_gettimeout os with
  | Some i => printf ("Current watchdog interval is " +:+ dec i +:+ nl)
  | None => eprintf ("Error: Cannot read watchdog interval" +:+ nl);; exit 1
  end;;
  op GetBootStatus;;
  match os_bootstatus os with
  | Some b => printf ("Last boot is caused by : " +:+ (if truth b then "Watchdog" else "Power-On-Reset") +:+ nl)
  | None => eprintf ("Error: Cannot read watchdog status" +:+ nl);; exit 1
  end;;
  printf ("Use:" +:+ nl +:+ " <w> to kick through writing over device file" +:+ nl +:+
          " <i> to kick through IOCTL" +:+ nl +:+ " <x> to exit the program" +:+ nl).

Definition main (fuel : nat) (args : list string) : P Z :=
  x ← do_options (fst (getopt_long short_options long_options args)) WATCHDOGDEV 0;
  let '(dev, interval) := x in
  setup dev interval;;
  command_loop fuel;;
  op (Write "V");;
  op Close;;
  mret 0.
End watchdog.
End Wd.

(** ** The SPI loopback test ([spi_test/spi-test-loopback.c])

    Sends a file, or a default pattern, through a spidev device and stores what
    came back in a file, which a script compares with what was sent. *)

Module Spi.

Definition SPI_ARRAY_SIZE : Z := 1024.

(** Mode bits of [linux/spi/spidev.h]. *)
Definition SPI_CPHA : Z := 0x01.
Definition SPI_CPOL : Z := 0x02.
Definition SPI_CS_HIGH : Z := 0x04.
Definition SPI_LSB_FIRST : Z := 0x08.
Definition SPI_3WIRE : Z := 0x10.
Definition SPI_LOOP : Z := 0x20.
Definition SPI_NO_CS : Z := 0x40.
Definition SPI_READY : Z := 0x80.

(** The static variables of the program, and the files it wrote (newest
    first). *)
Record spi_w := mk_spi {
  device : string; mode : Z; bits : Z; speed : Z; delay : Z; verbose : Z; fsize : Z;
  tx : list Z; rx : list Z; rfilename : string; files : list (string * list Z)
}.

Definition set_device x w := mk_spi x (mode w) (bits w) (speed w) (delay w) (verbose w) (fsize w) (tx w) (rx w) (rfilename w) (files w).
Definition set_mode x w := mk_spi (device w) x (bits w) (speed w) (delay w) (verbose w) (fsize w) (tx w) (rx w) (rfilename w) (files w).
Definition set_bits x w := mk_spi (device w) (mode w) x (speed w) (delay w) (verbose w) (fsize w) (tx w) (rx w) (rfilename w) (files w).
Definition set_speed x w := mk_spi (device w) (mode w) (bits w) x (delay w) (verbose w) (fsize w) (tx w) (rx w) (rfilename w) (files w).
Definition set_delay x w := mk_spi (device w) (mode w) (bits w) (speed w) x (verbose w) (fsize w) (tx w) (rx w) (rfilename w) (files w).
Definition set_verbose x w := mk_spi (device w) (mode w) (bits w) (speed w) (delay w) x (fsize w) (tx w) (rx w) (rfilename w) (files w).
Definition set_fsize x w := mk_spi (device w) (mode w) (bits w) (speed w) (delay w) (verbose w) x (tx w) (rx w) (rfilename w) (files w).
Definition set_tx x w := mk_spi (device w) (mode w) (bits w) (speed w) (delay w) (verbose w) (fsize w) x (rx w) (rfilename w) (files w).
Definition set_rx x w := mk_spi (device w) (mode w) (bits w) (speed w) (delay w) (verbose w) (fsize w) (tx w) x (rfilename w) (files w).
Definition set_rfilename x w := mk_spi (device w) (mode w) (bits w) (speed w) (delay w) (verbose w) (fsize w) (tx w) (rx w) x (files w).
Definition add_file x w := mk_spi (device w) (mode w) (bits w) (speed w) (delay w) (verbose w) (fsize w) (tx w) (rx w) (rfilename w) (x :: files w).

(** The variables before [main]. *)
Definition spi0 : spi_w := mk_spi "/dev/spidev0.0" 0 8 500000 0 0 SPI_ARRAY_SIZE [] [] "spi_read_loopback_data.bin" [].

(** The three settings that are written to the driver and read back. *)
Inductive setting : Type := Mode | Bits | Speed.

(** The system: allocation, the files that can be read, the answers of the
    driver ([None] is -1), the value of the message ioctl and the bytes received
    (for the bytes sent), whether a file can be created and how much of it can
    be written; [os_errtext] is the text of [errno]. *)
Record spi_os := {
  os_prg : string;
  os_malloc : bool;
  os_garbage : list Z;
  os_file : string -> option (list Z);
  os_open : string -> bool;
  os_set : setting -> Z -> bool;
  os_get : setting -> Z -> option Z;
  os_message : spi_w -> list Z -> Z * list Z;
  os_create : string -> bool;
  os_fwrite : list Z -> Z;
  os_errtext : string
}.

Definition long_options : list longopt := [
  mk_longopt "device" true 68; mk_longopt "speed" true 115; mk_longopt "delay" true 100; mk_longopt "bpw" true 98;
  mk_longopt "wfile" true 119; mk_longopt "rfile" true 114; mk_longopt "loop" false 108; mk_longopt "cpha" false 72;
  mk_longopt "cpol" false 79; mk_longopt "lsb" false 76; mk_longopt "cs-high" false 67; mk_longopt "3wire" false 51;
  mk_longopt "no-cs" false 78; mk_longopt "ready" false 82; mk_longopt "verbose" false 118; mk_longopt "help" false 104
]%string.

Section spi.
Context `{DM : DataModel} (os : spi_os).
Abbreviation P := (M spi_w).

Definition pabort {A} (s : string) : P A := eprintf (s +:+ ": " +:+ os_errtext os +:+ nl);; abort.

(** [buf[i]] of the hexadecimal dumps, six per line. *)
Definition dump_byte (buf : list Z) (i : Z) : P unit :=
  when (i mod 6 =? 0) (printf nl);;
  match buf !! Z.to_nat i with
  | Some b => printf (hexU0 2 b +:+ " ")
  | None => crash
  end.
Definition dump_buf (buf : list Z) (n : Z) : P unit :=
  for_ (Z.to_nat n) 0 (dump_byte buf);; printf nl.

(** Writing [l] at the front of a buffer of [SPI_ARRAY_SIZE] bytes. *)
Definition fill (buf l : list Z) : list Z := l ++ drop (length l) buf.

Definition transfer : P Z :=
  w ← getdev;
  let '(ret, got) := os_message os w (take (Z.to_nat (fsize w)) (tx w)) in
  setdev (fun w => set_rx (fill (rx w) got) w);;
  when (ret <? 1) (pabort "can't send spi message");;
  w ← getdev;
  when (truth (verbose w)) (dump_buf (rx w) (fsize w));;
  if negb (os_create os (rfilename w)) then crash
  else
    let data := take (Z.to_nat (fsize w)) (rx w) in
    let ret := os_fwrite os data in
    setdev (add_file (rfilename w, take (Z.to_nat ret) data));;
    if negb (ret =? fsize w) then
      printf ("File Read Error - only " +:+ dec ret +:+ " instead of " +:+ dec (fsize w) +:+ " bytes read");; mret ret
    else mret 0.

Definition print_usage {A} : P A :=
  printf ("Usage: " +:+ os_prg os +:+ " [-DsbdlHOLC3vwrh]" +:+ nl);;
  printf ("  -D --device   device to use (default /dev/spidev0.0)" +:+ nl +:+
          "  -s --speed    max speed (Hz)" +:+ nl +:+
          "  -d --delay    delay (usec)" +:+ nl +:+
          "  -b --bpw      bits per word " +:+ nl +:+
          "  -l --loop     loopback" +:+ nl +:+
          "  -H --cpha     clock phase" +:+ nl +:+
          "  -O --cpol     clock polarity" +:+ nl +:+
          "  -L --lsb      least significant bit first" +:+ nl +:+
          "  -C --cs-high  chip select active high" +:+ nl +:+
          "  -3 --3wire    SI/SO signals shared" +:+ nl +:+
          "  -v --verbose  Run in verbose mode" +:+ nl +:+
          "  -w --wfile    filename of data to write out to SPI" +:+ nl +:+
          "  -r --rfile    filename to save SPI read data into" +:+ nl +:+
          "  -h --help     Print this Usage message" +:+ nl +:+ nl);;
  exit 1.

(** [case 'w']: a file that cannot be opened is passed over; [fread] past the
    buffer is a crash. *)
Definition read_wfile (name : string) : P unit :=
  match os_file os name with
  | None => mret tt
  | Some content =>
      let size := s32 (Z.of_nat (length content)) in
      w ← getdev;
      when (truth (verbose w)) (printf ("Filesize to write is " +:+ dec size +:+ " bytes" +:+ nl));;
      let size := if SPI_ARRAY_SIZE <? size then SPI_ARRAY_SIZE else size in
      let got := take (Z.to_nat (ulong size)) content in
      if SPI_ARRAY_SIZE <? Z.of_nat (length got) then crash
      else setdev (fun w => set_tx (fill (tx w) got) (set_fsize size w))
  end.

Definition or_mode (b : Z) : P unit := setdev (fun w => set_mode (u8 (Z.lor (mode w) b)) w).

Definition do_option (ev : optev) : P unit :=
  match ev with
  | (68, Some a) => setdev (set_device a)                          (* D *)
  | (115, Some a) => setdev (set_speed (u32 (atoi a)))             (* s *)
  | (100, Some a) => setdev (set_delay (u16 (atoi a)))             (* d *)
  | (114, Some a) => setdev (set_rfilename a)                      (* r *)
  | (119, Some a) => read_wfile a                                  (* w *)
  | (98, Some a) => setdev (set_bits (u8 (atoi a)))                (* b *)
  | (108, _) => or_mode SPI_LOOP                                   (* l *)
  | (72, _) => or_mode SPI_CPHA                                    (* H *)
  | (79, _) => or_mode SPI_CPOL                                    (* O *)
  | (76, _) => or_mode SPI_LSB_FIRST                               (* L *)
  | (67, _) => or_mode SPI_CS_HIGH                                 (* C *)
  | (51, _) => or_mode SPI_3WIRE                                   (* 3 *)
  | (78, _) => or_mode SPI_NO_CS                                   (* N *)
  | (82, _) => or_mode SPI_READY                                   (* R *)
  | (118, _) => setdev (set_verbose 1)                             (* v *)
  | _ => print_usage
  end.

Fixpoint do_options (evs : list optev) : P unit :=
  match evs with
  | [] => mret tt
  | ev :: evs' => do_option ev;; do_options evs'
  end.

Definition parse_opts (args : list string) : P unit :=
  do_options (fst (getopt_long "D:s:d:b:w:r:vlHOLC3NRh" long_options args)).

(** A setting is written, then read back into the same variable. *)
Definition configure (k : setting) (get : spi_w -> Z) (set : Z -> spi_w -> spi_w) (name : string) : P unit :=
  w ← getdev;
  when (negb (os_set os k (get w))) (pabort ("can't set " +:+ name));;
  match os_get os k (get w) with
  | Some v => setdev (set v)
  | None => pabort ("can't get " +:+ name)
  end.

(** [main] after the options. *)
Definition run_device : P Z :=
  w ← getdev;
  when (truth (verbose w)) (dump_buf (tx w) (fsize w));;
  if negb (os_open os (device w)) then pabort "can't open device"
  else
    configure Mode mode set_mode "spi mode";;
    configure Bits bits set_bits "bits per word";;
    configure Speed speed set_speed "max speed hz";;
    w ← getdev;
    printf ("spi mode: " +:+ dec (mode w) +:+ nl);;
    printf ("bits per word: " +:+ dec (bits w) +:+ nl);;
    printf ("max speed: " +:+ dec (s32 (speed w)) +:+ " Hz (" +:+ dec (speed w / 1000) +:+ " KHz)" +:+ nl);;
    transfer.

Definition main (args : list string) : P Z :=
  if negb (os_malloc os) then pabort "Can't allocate buffers"
  else
    setdev (fun w => set_rx (os_garbage os) (set_tx (u8 <$> seqZ 0 SPI_ARRAY_SIZE) w));;
    parse_opts args;;
    run_device.
End spi.
End Spi.
