(* ===== verification/ToolClaims.v ===== *)
(** * The properties of memtool, the watchdog test and the SPI loopback test *)

From stdpp Require Import base list strings numbers gmap.
From Stdlib Require Import ZArith Lia Ascii.
From S2P Require Import Prelude CInt CLib CLibOk Memory BoardTools.

(** * memtool: lemmas and properties of [Tool] *)

Import Tool.

(** ** Alignment *)

(** [x & ~(2^k - 1)] on 32-bit values. *)
Lemma land_align k x : 0 <= k <= 32 -> 0 <= x < 2 ^ 32 -> Z.land x (u32 (Z.lnot (2 ^ k - 1))) = x - x mod 2 ^ k.
Proof.
  intros Hk Hx. transitivity (Z.shiftl (Z.shiftr x k) k).
  - apply Z.bits_inj'. intros i Hi. unfold u32. rewrite Z.land_spec, wrapu_testbit, Z.lnot_spec by lia.
    replace (2 ^ k - 1) with (Z.ones k) by (rewrite Z.ones_equiv; lia).
    rewrite Z.shiftl_spec by done. destruct (Z.lt_ge_cases i k).
    + rewrite Z.ones_spec_low, (Z.testbit_neg_r _ (i - k)) by lia. by rewrite !andb_false_r.
    + rewrite Z.ones_spec_high, Z.shiftr_spec by lia. replace (i - k + k) with i by lia.
      rewrite andb_true_r. destruct (Z.ltb_spec i 32); [by rewrite andb_true_r|].
      rewrite (testbit_high 32 x) by lia. done.
  - rewrite Z.shiftl_mul_pow2, Z.shiftr_div_pow2 by lia. pose proof (Z.div_mod x (2 ^ k)). lia.
Qed.

Lemma page_align x : 0 <= x < 2 ^ 32 -> Z.land x page_mask = x - x mod 4096.
Proof. apply (land_align 12). lia. Qed.

(** The options that set the width, with the access size they give. *)
Definition widths : list (list string * Z) :=
  [([], 4); (["-8"], 1); (["-16"], 2); (["-32"], 4)]%string.

Lemma widths_inv wa size : (wa, size) ∈ widths ->
  (wa = [] /\ size = 4) \/ (wa = ["-8"%string] /\ size = 1) \/ (wa = ["-16"%string] /\ size = 2) \/
  (wa = ["-32"%string] /\ size = 4).
Proof.
  unfold widths. rewrite !elem_of_cons, elem_of_nil.
  intros [[= -> ->] | [[= -> ->] | [[= -> ->] | [[= -> ->] | []]]]]; auto.
Qed.

Lemma widths_align wa size x : (wa, size) ∈ widths -> 0 <= x < 2 ^ 32 ->
  Z.land x (u32 (Z.lnot (size - 1))) = x - x mod size.
Proof.
  intros Hw Hx. assert (size = 2 ^ 0 \/ size = 2 ^ 1 \/ size = 2 ^ 2) as [-> | [-> | ->]].
  { apply widths_inv in Hw. destruct Hw as [[_ ->] | [[_ ->] | [[_ ->] | [_ ->]]]]; auto. }
  all: apply land_align; lia.
Qed.

Lemma widths_cases wa size : (wa, size) ∈ widths -> size = 1 \/ size = 2 \/ size = 4.
Proof. intros [[_ ->] | [[_ ->] | [[_ ->] | [_ ->]]]]%widths_inv; auto. Qed.

(** Without wrap-around the mapping covers all cells. *)
Lemma window_covers paddr count size :
  0 <= paddr < 2 ^ 32 -> 0 <= count * size -> paddr mod 4096 + count * size + 4095 < 2 ^ 32 ->
  let len := aligned_size paddr count size in
  aligned_paddr paddr = paddr - paddr mod 4096 /\ paddr mod 4096 + count * size <= len <= paddr mod 4096 + count * size + 4095.
Proof.
  intros Hp Hc Hr len. pose proof (Z.mod_pos_bound paddr 4096 ltac:(lia)).
  unfold len, aligned_size, aligned_paddr. rewrite page_align by done. split; [done|].
  unfold u32. rewrite (wrapu_small 32 (count * size)) by lia.
  replace (paddr - (paddr - paddr mod 4096) + count * size) with (paddr mod 4096 + count * size) by lia.
  rewrite (wrapu_small 32 (paddr mod 4096 + count * size)), wrapu_small, page_align by lia.
  set (x := paddr mod 4096 + count * size) in *. pose proof (Z.mod_pos_bound (x + 4096 - 1) 4096 ltac:(lia)). lia.
Qed.

Lemma aligned_size_range paddr count size : 0 <= aligned_size paddr count size < 2 ^ 32.
Proof.
  unfold aligned_size, page_mask. apply land_range; [lia| |]; apply (wrapu_range 32); lia.
Qed.

(** ** The command line *)

(** The four ways to write a value. *)
Definition write_forms (p v : Z) : list (list string) :=
  [[hex p +:+ "=" +:+ hex v]; [hex p +:+ "="; hex v]; [hex p; "=" +:+ hex v]; [hex p; "="; hex v]]%string.

Lemma stops_nil : stops "".
Proof. done. Qed.
Lemma stops_eq r : stops (String (chr 61) r).
Proof. done. Qed.

Lemma hexarg_app n r : 0 <= n < 2 ^ 32 -> stops r -> hexarg (hex n +:+ r) = n.
Proof. intros. unfold hexarg. by rewrite strtou_hex_app. Qed.

Lemma hexarg_hex n : 0 <= n < 2 ^ 32 -> hexarg (hex n) = n.
Proof. intros. rewrite <- (str_app_nil_r (hex n)). by apply hexarg_app. Qed.

Lemma strchr_hex_none n : 0 <= n -> strchr (hex n) (chr 61) = None.
Proof. intros. rewrite <- (str_app_nil_r (hex n)). by rewrite strchr_hex. Qed.

Lemma hex_not_eq n : 0 <= n -> (char_at0 (hex n) =? 61) = false.
Proof.
  intros Hn. destruct (hex_head n Hn) as (d & q & -> & Hd). cbn [char_at0].
  destruct (digit_chr_facts d Hd) as [Hx _]. apply Z.eqb_neq. intros E. unfold digit_val in Hx. by rewrite E in Hx.
Qed.

(** A width option, or none, before a word that starts with a number. *)
Lemma parse_width_ok prg wa size p r rest :
  (wa, size) ∈ widths -> 0 < p < 2 ^ 32 -> stops r ->
  parse_cmdline (prg :: wa ++ (hex p +:+ r)%string :: rest) globals0 =
  match strchr r (chr 61) with
  | Some str => if 1 <? strlen str then (0, mk_g size p true (hexarg (str_tail str)) 1)
                else parse_operand rest (mk_g size p true 0 1)
  | None => parse_operand rest (mk_g size p false 0 1)
  end.
Proof.
  intros Hw Hp Hr.
  assert (forall g, parse_width (hex p +:+ r) rest g = (g, (hex p +:+ r)%string :: rest)) as Hd.
  { intros g. unfold parse_width. by rewrite !streq_hex_app by (done || lia). }
  assert (truth p = true) as Ht by (apply negb_true_iff, Z.eqb_neq; lia).
  apply widths_inv in Hw. destruct Hw as [[-> ->] | [[-> ->] | [[-> ->] | [-> ->]]]].
  all: cbn [parse_cmdline app]; rewrite ?Hd; unfold parse_width, set_paddr; cbn [streq String.eqb Ascii.eqb Bool.eqb].
  all: rewrite hexarg_app by (done || lia); cbn [g_paddr g_size g_is_write g_value g_count globals0 set_size];
    rewrite Ht; cbn [negb]; rewrite strchr_hex by (done || lia).
  all: by destruct (strchr r (chr 61)).
Qed.

Lemma parse_write prg wa size p v args :
  (wa, size) ∈ widths -> args ∈ write_forms p v -> 0 < p < 2 ^ 32 -> 0 <= v < 2 ^ 32 ->
  parse_cmdline (prg :: wa ++ args) globals0 = (0, mk_g size p true v 1).
Proof.
  intros Hw Ha Hp Hv. destruct (hex_head v ltac:(lia)) as (d & q & Eq & Hd).
  assert ((1 <? 1 + strlen (hex v)) = true) as Hlen.
  { rewrite Eq. cbn [strlen]. pose proof (strlen_nonneg q). apply Z.ltb_lt. lia. }
  pose proof (hex_not_eq v ltac:(lia)) as Hne.
  unfold write_forms in Ha. rewrite !elem_of_cons, elem_of_nil in Ha. destruct Ha as [-> | [-> | [-> | [-> | []]]]].
  - change ("=" +:+ hex v) with (String (chr 61) (hex v)). rewrite (parse_width_ok _ _ size) by done.
    change (strchr (String (chr 61) (hex v)) (chr 61)) with (Some (String (chr 61) (hex v))). cbn [str_tail].
    change (strlen (String (chr 61) (hex v))) with (1 + strlen (hex v)). rewrite Hlen, hexarg_hex by done. done.
  - rewrite (parse_width_ok _ _ size) by done. cbn [strchr]. cbn [parse_operand].
    change (1 <? strlen "=") with false. cbv iota. rewrite Hne. cbn [g_is_write]. by rewrite hexarg_hex.
  - rewrite <- (str_app_nil_r (hex p)), (parse_width_ok _ _ size) by done. cbn [strchr parse_operand].
    change (char_at0 ("=" +:+ hex v) =? 61) with true. cbv iota.
    change (strlen ("=" +:+ hex v)) with (1 + strlen (hex v)). rewrite Hlen.
    change (str_tail ("=" +:+ hex v)) with (hex v). by rewrite hexarg_hex.
  - rewrite <- (str_app_nil_r (hex p)), (parse_width_ok _ _ size) by done. cbn [strchr parse_operand].
    by rewrite hexarg_hex.
Qed.

Lemma parse_read prg wa size p n :
  (wa, size) ∈ widths -> 0 < p < 2 ^ 32 -> 0 <= n < 2 ^ 32 ->
  parse_cmdline (prg :: wa ++ [hex p; hex n]) globals0 = (0, mk_g size p false 0 n).
Proof.
  intros Hw Hp Hn. rewrite <- (str_app_nil_r (hex p)), (parse_width_ok _ _ size) by done.
  cbn [strchr parse_operand]. rewrite (hex_not_eq n) by lia.
  cbn [g_is_write]. by rewrite hexarg_hex.
Qed.

(** ** Runs *)

(** The text of a dump of [n] cells. *)
Definition dump_cell {Mem : Type} `{Memory Mem} (m : Mem) (paddr size cols digits i : Z) : list string :=
  (if i mod cols =? 0 then [nl +:+ "0x" +:+ hexU0 8 (u32 (paddr + size * i)) +:+ ": "]%string else []) ++
  [" " +:+ hexU0 digits (le_val (load_bytes m (paddr + size * i) (Z.to_nat size)))]%string.
Definition dump {Mem : Type} `{Memory Mem} (m : Mem) (paddr size n : Z) : list string :=
  mjoin (dump_cell m paddr size (16 / size) (2 * size) <$> seqZ 0 n).

(** A system that maps every request of at most [lim] bytes. *)
Record good_map (os : mt_os) (lim : Z) : Prop := {
  gm_open : os_opens os = true;
  gm_mmap : forall len pa, 0 < len <= lim -> exists va, os_mmap os len pa = Some va /\ 0 < va /\ va + len <= 2 ^ 32
}.

Section runs.
Context {Mem : Type} `{HM : Memory Mem} (os : mt_os).
Implicit Types s : st (mt_w Mem).

Lemma runs_translate va len pa v n s (Q : Z -> st (mt_w Mem) -> Prop) :
  w_map (dev s) = Some (va, len, pa) -> va <= v -> v + n <= va + len ->
  Q (pa + (v - va)) s -> runs (translate v n) s Q.
Proof.
  intros Hw H1 H2 HQ. unfold translate. runs_steps. rewrite Hw.
  rewrite (proj2 (Z.leb_le _ _) H1), (proj2 (Z.leb_le _ _) H2). cbn [andb]. by runs_steps.
Qed.

Lemma read_cell_ok va len pa addr size cols digits paddr i s :
  w_map (dev s) = Some (va, len, pa) -> va <= addr + size * i -> addr + size * i + size <= va + len ->
  pa + (addr - va) = paddr ->
  runs (read_cell addr size cols digits paddr i) s (fun _ s' => dev s' = dev s /\
    out s' = reverse (Stdout <$> dump_cell (w_mem (dev s)) paddr size cols digits i) ++ out s).
Proof.
  intros Hw H1 H2 Hp. unfold read_cell, dump_cell. runs_steps.
  apply runs_when; intros ->; runs_steps; unfold ld; runs_steps; (eapply runs_translate; [done..|]); runs_steps;
    (split; [by destruct s|]); cbn [out dev];
    replace (pa + (addr + size * i - va)) with (paddr + size * i) by lia; done.
Qed.

Lemma read_loop_ok va len pa addr size cols digits paddr n s :
  w_map (dev s) = Some (va, len, pa) -> va <= addr -> 0 <= size -> addr + size * n <= va + len -> 0 <= n ->
  pa + (addr - va) = paddr ->
  runs (for_ (Z.to_nat n) 0 (read_cell addr size cols digits paddr)) s (fun _ s' => dev s' = dev s /\
    out s' = reverse (Stdout <$> mjoin (dump_cell (w_mem (dev s)) paddr size cols digits <$> seqZ 0 n)) ++ out s).
Proof.
  intros Hw H1 Hs H2 Hn Hp. eapply runs_mono.
  - apply (runs_for_ (fun k s' => dev s' = dev s /\ 0 <= k /\
      out s' = reverse (Stdout <$> mjoin (dump_cell (w_mem (dev s)) paddr size cols digits <$> seqZ 0 k)) ++ out s)); [done|].
    intros k s' Hk (Hd & Hk0 & Ho). eapply runs_mono; [eapply (read_cell_ok va len pa); [by rewrite Hd|nia|nia|done]|].
    intros _ s2 [Hd2 Ho2]. rewrite Hd2, Ho2, Ho, Hd. split; [done|]. split; [lia|].
    rewrite (seqZ_app 0 k 1), Z.add_0_l by lia. change (seqZ k 1) with [0 + k]. rewrite Z.add_0_l.
    rewrite fmap_app, join_app, !fmap_app, reverse_app, app_assoc.
    cbn [fmap list_fmap mjoin list_join]. by rewrite app_nil_r.
  - intros _ s' (Hd & _ & Ho). by replace (0 + Z.of_nat (Z.to_nat n)) with n in Ho by lia.
Qed.

(** ** The mapping the program makes *)

Lemma main_maps lim argv p size wr v n s (Q : Z -> st (mt_w Mem) -> Prop) :
  parse_cmdline argv globals0 = (0, mk_g size p wr v n) ->
  size = 1 \/ size = 2 \/ size = 4 -> 0 <= p < 2 ^ 32 -> 0 < n -> good_map os lim -> lim < 2 ^ 32 ->
  let paddr := p - p mod size in
  Z.land p (u32 (Z.lnot (size - 1))) = paddr ->
  paddr mod 4096 + n * size + 4095 <= lim ->
  (forall va len mem o, va <= mem -> mem + n * size <= va + len -> aligned_paddr paddr + (mem - va) = paddr ->
     runs (if wr then write_mem mem v size else read_mem mem n size paddr)
          (mkst (Stdout o :: out s) (mk_w (w_mem (dev s)) (Some (va, len, aligned_paddr paddr))))
          (fun _ s' => Q 0 (mkst (out s') (mk_w (w_mem (dev s')) None)))) ->
  runs (main os argv) s Q.
Proof.
  intros Hp Hs Hr Hn [Ho Hm] Hlm paddr Hal Hlim HQ. unfold main. rewrite Hp. cbn [g_size g_paddr g_is_write g_value g_count].
  change (truth 0) with false. cbv iota. rewrite Hal, Ho. cbn [negb].
  assert (0 <= paddr < 2 ^ 32) as Hpr.
  { unfold paddr. pose proof (Z.mod_pos_bound p size ltac:(lia)). pose proof (Z.mod_le p size ltac:(lia)) as Hle.
    specialize (Hle ltac:(lia)). lia. }
  pose proof (Z.mod_pos_bound paddr 4096 ltac:(lia)) as Hmod.
  assert (0 < n * size) as Hns by (apply Z.mul_pos_pos; lia).
  destruct (window_covers paddr n size Hpr ltac:(lia) ltac:(lia)) as [Hap Hcov].
  set (len := aligned_size paddr n size) in *.
  destruct (Hm len (aligned_paddr paddr) ltac:(lia)) as (va & -> & Hva & Hend).
  change (default MAP_FAILED (Some va)) with va.
  destruct (Z.eqb_spec va 0); [lia|].
  assert (u32 (va + (paddr - aligned_paddr paddr)) = va + (paddr - aligned_paddr paddr)) as -> by (apply wrapu_small; lia).
  apply runs_bind. destruct wr; runs_steps;
    (eapply runs_mono; [apply HQ; lia|]); intros ? s' Hs'; by runs_steps.
Qed.
End runs.

(** ** Properties *)

(** All four ways to write a value store it, cut to the access size, in the
    cell at the address aligned to that size, change nothing else, and the
    program returns 0 and undoes the mapping. *)
Theorem memtool_writes {Mem : Type} `{HM : Memory Mem} (os : mt_os) (prg : string) (wa args : list string)
    (size p v : Z) (s : st (mt_w Mem)) :
  (wa, size) ∈ widths -> args ∈ write_forms p v -> 0 < p < 2 ^ 32 -> 0 <= v < 2 ^ 32 -> good_map os 0x4000 ->
  runs (main os (prg :: wa ++ args)) s (fun r s' => r = 0 /\ w_map (dev s') = None /\
    w_mem (dev s') = store_bytes (w_mem (dev s)) (p - p mod size) (le_bytes (Z.to_nat size) v)).
Proof.
  intros Hw Ha Hp Hv Hg. pose proof (widths_cases _ _ Hw) as Hs.
  pose proof (Z.mod_pos_bound (p - p mod size) 4096 ltac:(lia)).
  eapply (main_maps os 0x4000); [by apply (parse_write prg wa size p v)|done|lia|lia|done|lia|..].
  - by apply (widths_align wa); [|lia].
  - lia.
  - intros va len mem o H1 H2 H3.
    destruct Hs as [-> | [-> | ->]]; unfold write_mem, sto; runs_steps;
      (eapply runs_translate; [done|lia|lia|]); runs_steps; rewrite H3; done.
Qed.

Definition demo_map : mt_os := {| os_opens := true; os_mmap := fun _ _ => Some 0x40000000 |}.

Lemma demo_map_good lim : lim <= 2 ^ 30 -> good_map demo_map lim.
Proof. intros Hl. split; [done|]. intros len pa H. exists 0x40000000. split; [done|]. lia. Qed.

Lemma memtool_writes_witness :
  runs (main demo_map ["memtool"; "-16"; hex 0xff200013 +:+ "="; hex 0x12345]%string) (mkst [] (mk_w (∅ : ram) None))
    (fun r s' => r = 0 /\ load_bytes (w_mem (dev s')) 0xff200010 6 = [0; 0; 0x45; 0x23; 0; 0]).
Proof.
  eapply runs_mono; [apply (memtool_writes demo_map "memtool" ["-16"%string] [hex 0xff200013 +:+ "="; hex 0x12345]%string
    2 0xff200013 0x12345)|].
  - right. right. left.
  - right. left.
  - by split.
  - by split.
  - by apply demo_map_good.
  - intros r s' (-> & _ & Hm). split; [done|]. rewrite Hm. by vm_compute.
Defined.

(** A read shows the cells asked for: when the mapping does not exceed what
    the system maps, the program returns 0, leaves the memory as it was and
    writes the addresses and values of the cells from the aligned address on, a
    new line every 16 bytes. *)
Theorem memtool_reads {Mem : Type} `{HM : Memory Mem} (os : mt_os) (prg : string) (wa : list string)
    (lim size p n : Z) (s : st (mt_w Mem)) :
  (wa, size) ∈ widths -> 0 < p < 2 ^ 32 -> 0 < n < 2 ^ 32 -> good_map os lim -> lim < 2 ^ 32 ->
  let paddr := p - p mod size in
  paddr mod 4096 + n * size + 4095 <= lim ->
  runs (main os (prg :: wa ++ [hex p; hex n])) s (fun r s' => r = 0 /\
    w_mem (dev s') = w_mem (dev s) /\
    exists l, out s' = reverse (Stdout <$> l :: dump (w_mem (dev s)) paddr size n ++ [nl +:+ nl]%string) ++ out s).
Proof.
  intros Hw Hp Hn Hg Hl paddr Hlim. pose proof (widths_cases _ _ Hw) as Hs.
  eapply (main_maps os lim); [by apply (parse_read prg wa size p n); [|lia|lia]|done|lia|lia|done|done|..].
  - by apply (widths_align wa); [|lia].
  - done.
  - intros va len mem o H1 H2 H3. unfold read_mem. fold paddr in H3 |- *. apply runs_bind.
    apply (runs_mono _ _ (fun _ s' => dev s' = mk_w (w_mem (dev s)) (Some (va, len, aligned_paddr paddr)) /\
      out s' = reverse (Stdout <$> dump (w_mem (dev s)) paddr size n) ++ Stdout o :: out s)).
    + destruct Hs as [-> | [-> | ->]]; (eapply runs_mono; [by eapply read_loop_ok; [done|..]; lia|]);
        intros _ s' [Hd Ho]; done.
    + intros _ s' [Hd Ho]. runs_steps. rewrite Hd. split; [done|]. split; [done|].
      exists o. rewrite Ho, fmap_cons, fmap_app, reverse_cons, reverse_app. cbn. by rewrite <- app_assoc.
Qed.

Lemma memtool_reads_witness :
  runs (main demo_map ["memtool"; "-8"; hex 0x1000; hex 0x12]%string)
       (mkst [] (mk_w (store_bytes (∅ : ram) 0x1000 [0xca; 0xfe]) None)) (fun r s' => r = 0 /\ length (out s') = 22%nat).
Proof.
  eapply runs_mono; [apply (memtool_reads demo_map "memtool" ["-8"%string] 0x8000 1 0x1000 0x12)|].
  - right. left.
  - by split.
  - by split.
  - by apply demo_map_good.
  - done.
  - done.
  - cbn beta. intros r s' (-> & _ & l & Ho). split; [done|]. rewrite Ho, app_nil_r, length_reverse, length_fmap. by vm_compute.
Defined.

(** A cell that can be read lies in the mapping. *)
Lemma read_cell_window {Mem : Type} `{HM : Memory Mem} addr size cols digits paddr i (s : st (mt_w Mem)) :
  wp (read_cell addr size cols digits paddr i) s (fun r s' => r = Crash \/
    (r = Ret tt /\ dev s' = dev s /\ exists va len pa, w_map (dev s) = Some (va, len, pa) /\
       va <= addr + size * i /\ addr + size * i + size <= va + len)).
Proof.
  unfold read_cell. apply wp_bind, wp_when; intros _; cbn; apply wp_bind; unfold ld, translate, wp, mbind, M_bind; cbn;
    (destruct (w_map (dev s)) as [[[va len] pa]|] eqn:E; [|by left]);
    (destruct (Z.leb_spec va (addr + size * i)); [|by left]);
    (destruct (Z.leb_spec (addr + size * i + size) (va + len)); [|by left]);
    right; cbn; (split; [done|]); (split; [by destruct s|]); by exists va, len, pa.
Qed.

(** Reading more cells than the mapping holds fails. *)
Lemma read_loop_crashes {Mem : Type} `{HM : Memory Mem} addr size cols digits paddr n (s : st (mt_w Mem)) :
  0 < n -> (forall va len pa, w_map (dev s) = Some (va, len, pa) -> len < n * size) ->
  wp (for_ (Z.to_nat n) 0 (read_cell addr size cols digits paddr)) s (fun r _ => r = Crash).
Proof.
  intros Hn Hw. apply (wp_for_ (fun k s' => dev s' = dev s /\ (0 < k -> exists va len pa,
    w_map (dev s) = Some (va, len, pa) /\ va <= addr /\ addr + size * k <= va + len))).
  - split; [done|lia].
  - intros k s' Hk [Hd Hprev]. eapply wp_mono; [apply read_cell_window|].
    intros r s2 [-> | (-> & Hd2 & va & len & pa & Hwm & H1 & H2)]; [done|].
    rewrite Hd2, Hd in *. split; [done|]. intros _. exists va, len, pa. split; [done|].
    destruct (decide (k = 0)) as [->|]; [lia|]. destruct (Hprev ltac:(lia)) as (va' & l' & pa' & E & H3 & H4).
    rewrite E in Hwm. injection Hwm as -> -> ->. lia.
  - rewrite Z.add_0_l, Z2Nat.id by lia. intros s' [_ Hend].
    destruct (Hend Hn) as (va & len & pa & E & H1 & H2). apply Hw in E. lia.
Qed.

(** A count whose size in bytes does not fit 32 bits makes the program read
    outside its mapping: the size of the mapping is computed modulo 2^32, so for
    every address and every answer of mmap that maps, or refuses, what was asked
    for, the read ends in an access that is not allowed. *)
Theorem memtool_count_wraps {Mem : Type} `{HM : Memory Mem} (os : mt_os) (prg : string) (wa : list string)
    (size p n : Z) (s : st (mt_w Mem)) :
  (wa, size) ∈ widths -> 0 < p < 2 ^ 32 -> 0 < n < 2 ^ 32 -> 2 ^ 32 <= n * size ->
  os_opens os = true -> (forall len pa, os_mmap os len pa <> Some 0) ->
  wp (main os (prg :: wa ++ [hex p; hex n])) s (fun r _ => r = Crash).
Proof.
  intros Hw Hp Hn Hbig Ho Hm. pose proof (widths_cases _ _ Hw) as Hs.
  unfold main. rewrite (parse_read prg wa size p n) by (done || lia).
  cbn [g_size g_paddr g_is_write g_value g_count]. change (truth 0) with false. cbv iota. rewrite Ho. cbn [negb].
  set (paddr := Z.land p _). set (len := aligned_size paddr n size).
  pose proof (aligned_size_range paddr n size) as Hlen. fold len in Hlen.
  apply wp_bind, wp_printf, wp_bind. unfold wp at 1. cbn [setdev devop fst snd out dev w_mem].
  destruct (Z.eqb_spec (default MAP_FAILED (os_mmap os len (aligned_paddr paddr))) 0) as [E|_].
  { exfalso. destruct (os_mmap os len (aligned_paddr paddr)) as [va|] eqn:Em; [|done].
    cbn in E. subst va. by apply Hm in Em. }
  set (mem := u32 _). unfold read_mem. do 2 apply wp_bind.
  enough (forall cols digits o, wp (for_ (Z.to_nat n) 0 (read_cell mem size cols digits paddr))
            (mkst o (mk_w (w_mem (dev s)) match os_mmap os len (aligned_paddr paddr) with
                      | Some v => Some (v, len, aligned_paddr paddr) | None => None end)) (fun r _ => r = Crash)) as Hloop.
  { destruct Hs as [-> | [-> | ->]]; [lia|..]; (eapply wp_mono; [apply Hloop|]); by intros r s' ->. }
  intros cols digits o. apply read_loop_crashes; [lia|]. cbn [dev w_map]. intros va l pa E.
  destruct (os_mmap os len (aligned_paddr paddr)); [|done]. injection E as _ <- _. lia.
Qed.

Lemma memtool_count_wraps_witness :
  wp (main demo_map ["memtool"; hex 0x1000; hex 0x40000001]%string) (mkst [] (mk_w (∅ : ram) None)) (fun r _ => r = Crash).
Proof.
  apply (memtool_count_wraps demo_map "memtool" [] 4 0x1000 0x40000001).
  - left.
  - by split.
  - by split.
  - done.
  - done.
  - done.
Defined.

(** * The watchdog test: lemmas and properties of [Wd] *)

Import Wd.

(** The kick a command character asks for. *)
Definition kick (c : Z) : option wd_op :=
  if c =? 119 then Some (Write "w") else if c =? 105 then Some KeepAlive else None.
Definition kicks (l : list Z) : list wd_op := omap kick l.

(** What the driver sees before the first command. *)
Definition setup_ops (d : string) (i : Z) : list wd_op :=
  Open d :: (if truth i then [SetTimeout i] else []) ++ [GetTimeout; GetBootStatus].

(** A driver that accepts the device file [d] and the interval [i]. *)
Record good_driver (os : wd_os) (d : string) (i : Z) : Prop := {
  gd_open : os_open os d = None;
  gd_set : truth i = true -> os_settimeout os i = true;
  gd_get : is_Some (os_gettimeout os);
  gd_boot : is_Some (os_bootstatus os)
}.

Section watchdog_ok.
Context `{DM : DataModel} (os : wd_os).
Implicit Types s : st wd_w.

Lemma runs_op x s (Q : unit -> st wd_w -> Prop) :
  Q tt (mkst (out s) (mk_wd (x :: wd_log (dev s)) (wd_stdin (dev s)))) -> runs (op x) s Q.
Proof. intros. by apply runs_setdev. Qed.

Lemma setup_ok d i s : good_driver os d i ->
  runs (setup os d i) s (fun _ s' => wd_stdin (dev s') = wd_stdin (dev s) /\
    wd_log (dev s') = reverse (setup_ops d i) ++ wd_log (dev s)).
Proof.
  intros [Ho Hs [t Ht] [b Hb]]. unfold setup, setup_ops. rewrite Ho, Ht, Hb.
  runs_steps. apply runs_op. runs_steps.
  apply runs_when; intros Hi; rewrite Hi; runs_steps.
  - apply runs_op. rewrite (Hs Hi). cbn [negb when]. runs_steps.
    apply runs_op. runs_steps. apply runs_op. runs_steps. done.
  - apply runs_op. runs_steps. apply runs_op. runs_steps. done.
Qed.

(** One command. *)
Lemma command_ok c l s : is_byte c -> wd_stdin (dev s) = c :: l ->
  runs command s (fun r s' => r = (if c =? 120 then inr tt else inl tt) /\ wd_stdin (dev s') = l /\
    wd_log (dev s') = reverse (kicks [c]) ++ wd_log (dev s)).
Proof.
  intros Hc Hs. unfold command. apply runs_bind. unfold getchar. apply runs_devop. rewrite Hs. cbn [fst snd].
  assert (u8 c = c) as -> by (apply wrapu_small; exact Hc).
  unfold kicks. cbn [omap list_omap]. unfold kick.
  destruct (decide (c = 119)) as [->|H1]; [runs_steps; apply runs_op; by runs_steps|].
  destruct (decide (c = 105)) as [->|H2]; [runs_steps; apply runs_op; by runs_steps|].
  destruct (decide (c = 120)) as [->|H3]; [by runs_steps|].
  rewrite (proj2 (Z.eqb_neq c 119) H1), (proj2 (Z.eqb_neq c 105) H2), (proj2 (Z.eqb_neq c 120) H3).
  unfold is_byte in Hc. repeat case_match; try lia; by runs_steps.
Qed.

Lemma command_eof s : wd_stdin (dev s) = [] ->
  runs command s (fun r s' => r = inl tt /\ dev s' = dev s).
Proof.
  intros Hs. unfold command, getchar. apply runs_bind, runs_devop. rewrite Hs. cbn [fst snd].
  change (u8 (-1)) with 255. cbv iota. runs_steps. split; [done|]. by destruct s.
Qed.

Lemma kicks_cons c l : kicks (c :: l) = kicks [c] ++ kicks l.
Proof. unfold kicks. cbn. by destruct (kick c). Qed.

Lemma kicks_no_V l : Write "V" ∉ kicks l.
Proof.
  unfold kicks. rewrite list_elem_of_omap. intros (c & _ & E). revert E. unfold kick.
  destruct (c =? 119), (c =? 105); discriminate.
Qed.

(** Commands up to the first x. *)
Lemma command_loop_ok l r : forall fuel s,
  Forall is_byte l -> 120 ∉ l -> wd_stdin (dev s) = l ++ 120 :: r -> (length l < fuel)%nat ->
  runs (command_loop fuel) s (fun _ s' => wd_stdin (dev s') = r /\
    wd_log (dev s') = reverse (kicks l) ++ wd_log (dev s)).
Proof.
  induction l as [|c l IH]; intros [|fuel] s Hb Hx Hs Hf; try (simpl in Hf; lia); apply runs_while.
  - eapply runs_mono; [by apply (command_ok 120 r)|]. by intros ? s' (-> & Hr & Hl).
  - apply list.Forall_cons in Hb as [Hc Hb]. rewrite not_elem_of_cons in Hx. destruct Hx as [Hc' Hx].
    eapply runs_mono; [by apply (command_ok c (l ++ 120 :: r))|]. intros ? s' (-> & Hr & Hl).
    destruct (Z.eqb_spec c 120); [congruence|].
    eapply runs_mono; [apply IH; [done|done|done|simpl in Hf; lia]|]. intros _ s'' [Hr' Hl'].
    split; [done|]. by rewrite Hl', Hl, (kicks_cons c l), reverse_app, app_assoc.
Qed.

(** Without an x in the input the loop does not end. *)
Lemma command_loop_spins fuel : forall s,
  Forall is_byte (wd_stdin (dev s)) -> 120 ∉ wd_stdin (dev s) ->
  wp (command_loop fuel) s (fun r s' => r = OutOfFuel /\
    exists ops, wd_log (dev s') = ops ++ wd_log (dev s) /\ Write "V" ∉ ops).
Proof.
  induction fuel as [|fuel IH]; intros s Hb Hx.
  { split; [done|]. exists []. split; [done|apply not_elem_of_nil]. }
  unfold command_loop. cbn [while_]. apply wp_bind. destruct (wd_stdin (dev s)) as [|c l] eqn:E.
  - eapply wp_mono; [apply wp_runs, command_eof; exact E|]. intros ? s' (a & -> & -> & Hd).
    rewrite <- Hd. apply IH; rewrite Hd, E; [done|apply not_elem_of_nil].
  - apply list.Forall_cons in Hb as [Hc Hb]. rewrite not_elem_of_cons in Hx. destruct Hx as [Hc' Hx].
    eapply wp_mono; [apply wp_runs; by apply (command_ok c l)|]. intros ? s' (a & -> & -> & Hr & Hl).
    destruct (Z.eqb_spec c 120); [congruence|].
    eapply wp_mono; [apply IH; by rewrite Hr|]. intros ? s'' (-> & ops & Ho & Hv). split; [done|].
    exists (ops ++ reverse (kicks [c])). rewrite Ho, Hl, app_assoc. split; [done|].
    apply not_elem_of_app. split; [done|]. rewrite elem_of_reverse. apply kicks_no_V.
Qed.
End watchdog_ok.

(** ** Properties *)

(** A session with a working driver: the options give a device file and an
    interval, the input up to the first x gives the kicks; the driver sees the
    device opened, the interval set when one was given, the two queries, exactly
    the kicks asked for in their order, then the magic character V that allows
    it to stop, and the close; the program returns. *)
Theorem watchdog_session `{DM : DataModel} (os : wd_os) (args : list string) (fuel : nat) (d : string) (i : Z)
    (l r : list Z) (s : st wd_w) :
  do_options os (fst (getopt_long short_options long_options args)) WATCHDOGDEV 0 s = (Ret (d, i), s) ->
  good_driver os d i -> wd_stdin (dev s) = l ++ 120 :: r -> Forall is_byte l -> 120 ∉ l -> (length l < fuel)%nat ->
  runs (main os fuel args) s (fun v s' => v = 0 /\ wd_stdin (dev s') = r /\
    wd_log (dev s') = reverse (setup_ops d i ++ kicks l ++ [Write "V"; Close]) ++ wd_log (dev s)).
Proof.
  intros Ho Hg Hs Hb Hx Hf. unfold main. apply runs_bind. eexists _, _. split; [exact Ho|]. cbv beta iota.
  apply runs_bind. eapply runs_mono; [by apply setup_ok|]. intros _ s1 [Hs1 Hl1].
  apply runs_bind. eapply runs_mono; [apply (command_loop_ok l r); [done|done|by rewrite Hs1|done]|].
  intros _ s2 [Hs2 Hl2]. apply runs_bind, runs_op, runs_bind, runs_op, runs_ret. cbn [dev wd_stdin wd_log].
  split; [done|]. split; [done|]. rewrite Hl2, Hl1, !reverse_app, <- !app_assoc. done.
Qed.

Definition demo_wd : wd_os := {| os_prg := "watchdog-test"; os_open := fun _ => None; os_settimeout := fun _ => true;
  os_gettimeout := Some 30; os_bootstatus := Some 0 |}.

Lemma watchdog_session_witness :
  runs (@main LP64 demo_wd 5 ["-i"; "30"]%string) (mkst [] (mk_wd [] [119; 10; 105; 120; 10]))
    (fun v s' => v = 0 /\ wd_log (dev s') = [Close; Write "V"; KeepAlive; Write "w"; GetBootStatus; GetTimeout;
                                             SetTimeout 30; Open "/dev/watchdog"]).
Proof.
  eapply runs_mono; [apply (@watchdog_session LP64 demo_wd ["-i"; "30"]%string 5 "/dev/watchdog" 30 [119; 10; 105] [10])|].
  - by vm_compute.
  - by repeat split.
  - done.
  - repeat (constructor; [by split|]). constructor.
  - rewrite !elem_of_cons, elem_of_nil. intuition discriminate.
  - simpl. lia.
  - intros v s' (-> & _ & Hl). split; [done|]. by rewrite Hl.
Defined.

(** When the input ends without an x the program never leaves its command
    loop, whatever number of rounds it is given, and never writes the character
    that lets the driver stop the watchdog: the end of the input reads as an
    unknown command over and over. *)
Theorem watchdog_eof_spins `{DM : DataModel} (os : wd_os) (args : list string) (fuel : nat) (d : string) (i : Z)
    (s : st wd_w) :
  do_options os (fst (getopt_long short_options long_options args)) WATCHDOGDEV 0 s = (Ret (d, i), s) ->
  good_driver os d i -> Forall is_byte (wd_stdin (dev s)) -> 120 ∉ wd_stdin (dev s) ->
  wp (main os fuel args) s (fun v s' => v = OutOfFuel /\
    exists ops, wd_log (dev s') = ops ++ wd_log (dev s) /\ Write "V" ∉ ops).
Proof.
  intros Ho Hg Hb Hx. unfold main. apply wp_bind. unfold wp at 1. rewrite Ho. cbn [fst snd].
  apply wp_bind. eapply wp_mono; [by apply wp_runs, setup_ok|]. intros ? s1 (? & -> & Hs1 & Hl1).
  apply wp_bind. eapply wp_mono; [apply command_loop_spins; by rewrite Hs1|].
  intros ? s2 (-> & ops & Ho2 & Hv). split; [done|]. exists (ops ++ reverse (setup_ops d i)).
  rewrite Ho2, Hl1, app_assoc. split; [done|]. apply not_elem_of_app. split; [done|]. rewrite elem_of_reverse.
  unfold setup_ops. destruct (truth i); cbn [app]; rewrite !elem_of_cons, elem_of_nil; intuition discriminate.
Qed.

Lemma watchdog_eof_spins_witness :
  wp (@main LP64 demo_wd 1000 []) (mkst [] (mk_wd [] [119; 10]))
    (fun v s' => v = OutOfFuel /\ exists ops, wd_log (dev s') = ops ++ [] /\ Write "V" ∉ ops).
Proof.
  apply (@watchdog_eof_spins LP64 demo_wd [] 1000 "/dev/watchdog" 0 (mkst [] (mk_wd [] [119; 10]))).
  - by vm_compute.
  - by repeat split.
  - repeat (constructor; [by split|]). constructor.
  - cbn [dev wd_stdin]. rewrite !elem_of_cons, elem_of_nil. intuition discriminate.
Defined.

(** * The SPI loopback test: lemmas and properties of [Spi] *)

Import Spi.

(** A system on which every call succeeds and the device returns the bytes it is
    given, in the default configuration. *)
Record loopback (os : spi_os) (r : string) : Prop := {
  lb_malloc : os_malloc os = true;
  lb_garbage : length (os_garbage os) = Z.to_nat SPI_ARRAY_SIZE;
  lb_open : os_open os (device spi0) = true;
  lb_set : forall k v, os_set os k v = true;
  lb_get : forall k v, os_get os k v = Some v;
  lb_message : forall w l, 1 <= (os_message os w l).1 /\ (os_message os w l).2 = l;
  lb_create : os_create os r = true;
  lb_fwrite : forall l, os_fwrite os l = Z.of_nat (length l)
}.

(** The pattern sent without a file, and the data sent for a file name. *)
Definition pattern : list Z := u8 <$> seqZ 0 SPI_ARRAY_SIZE.
Definition sent (os : spi_os) (name : string) : list Z :=
  match os_file os name with
  | Some l => take (Z.to_nat SPI_ARRAY_SIZE) l
  | None => pattern
  end.

Lemma pattern_length : length pattern = Z.to_nat SPI_ARRAY_SIZE.
Proof. unfold pattern. by rewrite length_fmap, length_seqZ. Qed.

Lemma sent_length os name : (length (sent os name) <= Z.to_nat SPI_ARRAY_SIZE)%nat.
Proof.
  unfold sent. destruct (os_file os name) as [l|].
  - rewrite length_take. lia.
  - by rewrite pattern_length.
Qed.

Lemma take_fill buf l : take (length l) (fill buf l) = l.
Proof. unfold fill. by rewrite take_app_length. Qed.

Section spi_ok.
Context `{DM : DataModel} (os : spi_os).
Implicit Types s : st spi_w.

(** Reading the file leaves the data to send at the front of the buffer. *)
Lemma read_wfile_ok name s :
  (forall l, os_file os name = Some l -> Z.of_nat (length l) < 2 ^ 31) ->
  tx (dev s) = pattern -> fsize (dev s) = SPI_ARRAY_SIZE ->
  runs (read_wfile os name) s (fun _ s' =>
    exists t, dev s' = set_tx t (set_fsize (Z.of_nat (length (sent os name))) (dev s)) /\
      take (length (sent os name)) t = sent os name).
Proof.
  intros Hl Ht Hf. unfold read_wfile, sent. destruct (os_file os name) as [l|] eqn:E.
  - specialize (Hl l eq_refl). set (n := Z.of_nat (length l)) in *.
    assert (s32 n = n) as -> by (apply wraps_small; lia). runs_steps.
    set (size := if SPI_ARRAY_SIZE <? n then SPI_ARRAY_SIZE else n).
    assert (size = Z.of_nat (length (take (Z.to_nat SPI_ARRAY_SIZE) l)) /\ 0 <= size <= 1024) as [Hsz Hr].
    { rewrite length_take. unfold size, SPI_ARRAY_SIZE. destruct (Z.ltb_spec 1024 n); lia. }
    assert (ulong size = size) as Hu by (apply ulong_small; destruct long_bits_cases as [-> | ->]; lia).
    assert (take (Z.to_nat (ulong size)) l = take (Z.to_nat SPI_ARRAY_SIZE) l) as Hg.
    { rewrite Hu. unfold size, SPI_ARRAY_SIZE. destruct (Z.ltb_spec 1024 n); [done|]. rewrite !take_ge; [done|lia..]. }
    apply runs_when; intros _; runs_steps; rewrite Hg, <- Hsz;
      (destruct (Z.ltb_spec SPI_ARRAY_SIZE size); [unfold SPI_ARRAY_SIZE in *; lia|]);
      apply runs_setdev; cbn [dev]; eexists; (split; [reflexivity|]); apply take_fill.
  - apply runs_ret. exists pattern. split; [|by rewrite take_ge].
    rewrite pattern_length, Z2Nat.id by done. rewrite <- Ht, <- Hf. by destruct (dev s).
Qed.

Lemma configure_ok k get set name r s : loopback os r -> set (get (dev s)) (dev s) = dev s ->
  runs (configure os k get set name) s (fun _ s' => dev s' = dev s).
Proof.
  intros Hl Hs. unfold configure. runs_steps. rewrite (lb_set _ _ Hl), (lb_get _ _ Hl). cbn [negb when].
  by runs_steps.
Qed.

Lemma transfer_ok data r s : loopback os r ->
  fsize (dev s) = Z.of_nat (length data) -> take (length data) (tx (dev s)) = data ->
  verbose (dev s) = 0 -> rfilename (dev s) = r ->
  runs (transfer os) s (fun v s' => v = 0 /\ files (dev s') = (r, data) :: files (dev s)).
Proof.
  intros Hl Hf Ht Hv Hr. unfold transfer. runs_steps. rewrite Hf, Nat2Z.id, Ht.
  destruct (lb_message _ _ Hl (dev s) data) as [Hret Hgot].
  destruct (os_message os (dev s) data) as [ret got]. cbn [fst snd] in Hret, Hgot. subst got. runs_steps.
  apply runs_when; intros Hlt; [apply Z.ltb_lt in Hlt; lia|]. runs_steps.
  cbn [verbose set_rx fsize rx rfilename]. rewrite Hv, Hf, Hr, Nat2Z.id, take_fill. cbn [truth Z.eqb negb when].
  rewrite (lb_create _ _ Hl), (lb_fwrite _ _ Hl), Nat2Z.id, take_ge by done. cbn [negb]. runs_steps.
  rewrite Z.eqb_refl. cbn [negb]. runs_steps. done.
Qed.
(** What follows the options, for any variables that send [data]. *)
Lemma after_options data r (w : spi_w) s : loopback os r -> dev s = w ->
  fsize w = Z.of_nat (length data) -> take (length data) (tx w) = data -> verbose w = 0 -> rfilename w = r ->
  device w = device spi0 ->
  runs (run_device os) s (fun v s' => v = 0 /\ files (dev s') = (r, data) :: files w).
Proof.
  intros Hl Hs Hf Ht Hv Hr Hd. unfold run_device. runs_steps. rewrite Hs, Hv. cbn [truth Z.eqb negb when]. runs_steps.
  rewrite Hd, (lb_open _ _ Hl). cbn [negb].
  apply runs_bind; eapply runs_mono; [apply (configure_ok _ _ _ _ r); [done|by destruct (dev s)]|]. intros ? s1 H1.
  apply runs_bind; eapply runs_mono; [apply (configure_ok _ _ _ _ r); [done|by destruct (dev s1)]|]. intros ? s2 H2.
  apply runs_bind; eapply runs_mono; [apply (configure_ok _ _ _ _ r); [done|by destruct (dev s2)]|]. intros ? s3 H3.
  assert (dev s3 = w) as Hw by congruence. runs_steps.
  eapply runs_mono; [apply (transfer_ok data r); cbn [dev]; rewrite ?Hw; done|].
  cbn [dev]. by rewrite Hw.
Qed.
End spi_ok.

(** ** Properties *)

(** With a device that returns what it is given, the file named with -r
    gets exactly the data sent: the first 1024 bytes of the file named with -w,
    or the whole default pattern when that file cannot be opened, and the program
    returns 0. *)
Theorem spi_loopback_roundtrip `{DM : DataModel} (os : spi_os) (wname rname : string) (s : st spi_w) :
  loopback os rname -> dev s = spi0 ->
  (forall l, os_file os wname = Some l -> Z.of_nat (length l) < 2 ^ 31) ->
  runs (main os ["-w"; wname; "-r"; rname]%string) s (fun v s' =>
    v = 0 /\ files (dev s') = [(rname, sent os wname)]).
Proof.
  intros Hl Hs Hsz. unfold main. rewrite (lb_malloc _ _ Hl). cbn [negb]. runs_steps. rewrite Hs.
  change (parse_opts os ["-w"; wname; "-r"; rname]%string) with
    (read_wfile os wname;; (setdev (set_rfilename rname);; mret tt) : M spi_w unit).
  apply runs_bind. eapply runs_mono; [apply read_wfile_ok; [done|reflexivity|reflexivity]|].
  intros _ s1 (t & Hd & Ht). runs_steps.
  eapply runs_mono; [apply (after_options os (sent os wname) rname (set_rfilename rname (dev s1))); rewrite ?Hd; done|].
  rewrite Hd. done.
Qed.

Definition demo_spi : spi_os := {|
  os_prg := "spi-test"; os_malloc := true; os_garbage := replicate 1024 0;
  os_file := fun n => if String.eqb n "data.bin" then Some [1; 2; 3] else None;
  os_open := fun _ => true; os_set := fun _ _ => true; os_get := fun _ v => Some v;
  os_message := fun _ l => (1, l); os_create := fun _ => true; os_fwrite := fun l => Z.of_nat (length l);
  os_errtext := "error" |}.

Lemma spi_loopback_roundtrip_witness :
  runs (@main LP64 demo_spi ["-w"; "data.bin"; "-r"; "back.bin"]%string) (mkst [] spi0) (fun v s' =>
    v = 0 /\ files (dev s') = [("back.bin"%string, [1; 2; 3])]).
Proof.
  apply (@spi_loopback_roundtrip LP64 demo_spi "data.bin" "back.bin").
  - by split.
  - done.
  - intros l [= <-]. by vm_compute.
Defined.
