(* ===== verification/Ping.v ===== *)
(** * ping ([ethernet_test/ping/ping.c])

    The echo client of the Ethernet tests: composition of requests with their
    checksum, matching of replies (duplicates, round-trip times, contents),
    display of other ICMP messages and IP options, statistics, the command line
    and the main loop.

    Network, clock, name service and signals answer through [ping_os]. A signal
    is taken where the program waits for a packet. Packets are byte sequences;
    16-bit fields of the ICMP header are in the byte order of the (little-endian)
    host, as the program reads and writes them. *)

From stdpp Require Import base list strings numbers gmap.
From Stdlib Require Import ZArith Lia Ascii.
From S2P Require Import Prelude CInt CLib Memory.

Module Ping.

Definition DEFDATALEN : Z := 64 - 8.
Definition MAXIPLEN : Z := 60.
Definition MAXICMPLEN : Z := 76.
Definition MAXPACKET : Z := 65536 - 60 - 8.
Definition MAXWAIT : Z := 10.
Definition NROUTES : Z := 9.
Definition MAX_DUP_CHK : Z := 8 * 128.

Definition F_FLOOD : Z := 0x001.
Definition F_INTERVAL : Z := 0x002.
Definition F_NUMERIC : Z := 0x004.
Definition F_PINGFILLED : Z := 0x008.
Definition F_QUIET : Z := 0x010.
Definition F_RROUTE : Z := 0x020.
Definition F_SO_DEBUG : Z := 0x040.
Definition F_SO_DONTROUTE : Z := 0x080.
Definition F_VERBOSE : Z := 0x100.
Definition F_SO_DF : Z := 0x200.
Definition MULTICAST_NOLOOP : Z := 0x001.
Definition MULTICAST_TTL : Z := 0x002.
Definition MULTICAST_IF : Z := 0x004.

(** Constants of the system headers. *)
Definition ICMP_MINLEN : Z := 8.
Definition MAX_IPOPTLEN : Z := 40.
Definition IPOPT_MINOFF : Z := 4.
Definition sizeof_iphdr : Z := 20.
Definition sizeof_icmp : Z := 28.
Definition sizeof_timeval `{DataModel} : Z := 2 * sizeof_ul.
Definition slong `{DataModel} (x : Z) : Z := wraps long_bits x.
Definition LONG_MAX `{DataModel} : Z := 2 ^ (long_bits - 1) - 1.

(** ** State *)

(** What the options and [main] set. *)
Record cfg := mk_cfg {
  options : Z; moptions : Z; datalen : Z; npackets : Z; interval : Z; timing : bool; ident : Z;
  hostname : string; packlen : Z
}.
(** Counters and times. *)
Record stats := mk_stats {
  nreceived : Z; nrepeats : Z; ntransmitted : Z; tmin : Z; tmax : Z; tsum : Z
}.
(** Buffers: [outpack], the table of numbers received, the packet last received
    and the last recorded route. *)
Record bufs := mk_bufs {
  outpack : ram; rcvd_tbl : list Z; packet : ram; old_rrlen : Z; old_rr : list Z
}.

(** Socket options, with the bytes given to the kernel where they matter. *)
Inductive sockopt : Type :=
| SoDF | SoDebug | SoDontroute | SoBroadcast | SoOptions (rspace : list Z) | SoRcvbuf (n : Z)
| SoMcLoop (v : Z) | SoMcTtl (v : Z) | SoMcIf (addr : list Z).

(** What the rest of the world saw, newest first, how often it was asked, and
    whether SIGALRM ends the program. *)
Record io := mk_io {
  sent : list (list Z); sockopts : list sockopt; alarms : list Z; alarm_finish : bool;
  n_clock : nat; n_event : nat; n_select : nat
}.

Record ping_w := mk_w { cf : cfg; sta : stats; buf : bufs; iow : io }.

Definition set_options x c := mk_cfg x (moptions c) (datalen c) (npackets c) (interval c) (timing c) (ident c) (hostname c) (packlen c).
Definition set_moptions x c := mk_cfg (options c) x (datalen c) (npackets c) (interval c) (timing c) (ident c) (hostname c) (packlen c).
Definition set_datalen x c := mk_cfg (options c) (moptions c) x (npackets c) (interval c) (timing c) (ident c) (hostname c) (packlen c).
Definition set_npackets x c := mk_cfg (options c) (moptions c) (datalen c) x (interval c) (timing c) (ident c) (hostname c) (packlen c).
Definition set_interval x c := mk_cfg (options c) (moptions c) (datalen c) (npackets c) x (timing c) (ident c) (hostname c) (packlen c).
Definition set_timing x c := mk_cfg (options c) (moptions c) (datalen c) (npackets c) (interval c) x (ident c) (hostname c) (packlen c).
Definition set_ident x c := mk_cfg (options c) (moptions c) (datalen c) (npackets c) (interval c) (timing c) x (hostname c) (packlen c).
Definition set_hostname x c := mk_cfg (options c) (moptions c) (datalen c) (npackets c) (interval c) (timing c) (ident c) x (packlen c).
Definition set_packlen x c := mk_cfg (options c) (moptions c) (datalen c) (npackets c) (interval c) (timing c) (ident c) (hostname c) x.
Definition set_outpack x b := mk_bufs x (rcvd_tbl b) (packet b) (old_rrlen b) (old_rr b).
Definition set_tbl x b := mk_bufs (outpack b) x (packet b) (old_rrlen b) (old_rr b).
Definition set_packet x b := mk_bufs (outpack b) (rcvd_tbl b) x (old_rrlen b) (old_rr b).
Definition set_old_rr n l b := mk_bufs (outpack b) (rcvd_tbl b) (packet b) n l.

Definition cfg0 : cfg := mk_cfg 0 0 DEFDATALEN 0 1 false 0 "" 0.
Definition stats0 `{DataModel} : stats := mk_stats 0 0 0 LONG_MAX 0 0.
Definition bufs0 : bufs := mk_bufs ∅ (replicate 128 0) ∅ 0 (replicate 40 0).
Definition io0 : io := mk_io [] [] [] false 0 0 0.
Definition ping0 `{DataModel} : ping_w := mk_w cfg0 stats0 bufs0 io0.

(** What happens while the program waits for a packet: one arrives from an
    address, a signal, or an error. *)
Inductive event : Type :=
| EvPacket (bytes from : list Z)
| EvAlarm
| EvInterrupt
| EvError.

Record ping_os := {
  os_root : bool;
  os_proto : bool;
  os_socket : bool;
  os_eperm : bool;
  os_strerror : string;
  os_pid : Z;
  os_malloc : Z -> bool;
  os_clock : nat -> Z * Z;
  os_sendto : nat -> list Z -> Z;
  os_event : nat -> event;
  os_select : nat -> bool;
  os_setsockopt : sockopt -> bool;
  os_aton : string -> option (list Z);
  (** family is AF_INET, name and address *)
  os_byname : string -> option (bool * string * list Z);
  os_byaddr : list Z -> option string
}.

(** ** in_cksum *)

(** The words of the buffer are added in the byte order of the host; the odd
    byte at the end is the low byte of a word. *)
Fixpoint cksum_words (l : list Z) (sum : Z) : Z :=
  match l with
  | b0 :: b1 :: l' => cksum_words l' (s32 (sum + (b0 + 256 * b1)))
  | [b] => s32 (sum + b)
  | [] => sum
  end.

Definition in_cksum (l : list Z) : Z :=
  let sum := cksum_words l 0 in
  let sum := s32 (Z.shiftr sum 16 + Z.land sum 0xffff) in
  let sum := s32 (sum + Z.shiftr sum 16) in
  u16 (Z.lnot sum).

(** ** The table of numbers received *)

Definition bit_byte (bit : Z) : nat := Z.to_nat (Z.shiftr bit 3).
Definition bit_mask (bit : Z) : Z := Z.shiftl 1 (Z.land bit 7).
Definition tbl_set (t : list Z) (bit : Z) : list Z := alter (fun b => Z.lor b (bit_mask bit)) (bit_byte bit) t.
Definition tbl_clr (t : list Z) (bit : Z) : list Z := alter (fun b => Z.land b (notu 8 (bit_mask bit))) (bit_byte bit) t.
Definition tbl_tst (t : list Z) (bit : Z) : bool :=
  match t !! bit_byte bit with Some b => truth (Z.land b (bit_mask bit)) | None => false end.

(** [struct timeval] subtraction. *)
Definition tvsub `{DataModel} (out inn : Z * Z) : Z * Z :=
  let '(osec, ousec) := out in
  let '(isec, iusec) := inn in
  let usec := slong (ousec - iusec) in
  if usec <? 0 then (slong (slong (osec - 1) - isec), slong (usec + 1000000))
  else (slong (osec - isec), usec).

Section ping.
Context `{DM : DataModel} (os : ping_os).
Abbreviation P := (M ping_w).

Definition opt (w : ping_w) (f : Z) : bool := truth (Z.land (options (cf w)) f).
Definition perror (s : string) : P unit := eprintf (s +:+ ": " +:+ os_strerror os +:+ nl).
Definition upd_cf (f : cfg -> cfg) : P unit := setdev (fun w => mk_w (f (cf w)) (sta w) (buf w) (iow w)).
Definition upd_sta (f : stats -> stats) : P unit := setdev (fun w => mk_w (cf w) (f (sta w)) (buf w) (iow w)).
Definition upd_buf (f : bufs -> bufs) : P unit := setdev (fun w => mk_w (cf w) (sta w) (f (buf w)) (iow w)).
Definition upd_io (f : io -> io) : P unit := setdev (fun w => mk_w (cf w) (sta w) (buf w) (f (iow w))).

(** [gettimeofday] *)
Definition gettime : P (Z * Z) := devop (fun w =>
  let i := iow w in
  (os_clock os (n_clock i),
   mk_w (cf w) (sta w) (buf w)
     (mk_io (sent i) (sockopts i) (alarms i) (alarm_finish i) (S (n_clock i)) (n_event i) (n_select i)))).

(** Stores to [outpack], [MAXPACKET] bytes. *)
Definition out_store (i : Z) (l : list Z) : P unit :=
  if ((0 <=? i) && (i + Z.of_nat (length l) <=? MAXPACKET))%bool
  then upd_buf (fun b => set_outpack (store_bytes (outpack b) i l) b) else crash.
Definition out_load (i : Z) (n : nat) : P (list Z) :=
  if ((0 <=? i) && (i + Z.of_nat n <=? MAXPACKET))%bool
  then w ← getdev; mret (load_bytes (outpack (buf w)) i n) else crash.

(** ** pinger *)

Definition sendto (l : list Z) : P Z := devop (fun w =>
  let i := iow w in
  (os_sendto os (length (sent i)) l,
   mk_w (cf w) (sta w) (buf w)
     (mk_io (l :: sent i) (sockopts i) (alarms i) (alarm_finish i) (n_clock i) (n_event i) (n_select i)))).

(** Checksum and transmission, once the rest of the packet is in place. *)
Definition pinger_send (w : ping_w) : P unit :=
  let cc := datalen (cf w) + 8 in
  pkt ← out_load 0 (Z.to_nat cc);
  out_store 2 (le_bytes 2 (in_cksum pkt));;
  pkt ← out_load 0 (Z.to_nat cc);
  i ← sendto pkt;
  when ((i <? 0) || negb (i =? cc))%bool
    (when (i <? 0) (perror "ping: sendto");;
     printf ("ping: wrote " +:+ hostname (cf w) +:+ " " +:+ dec cc +:+ " chars, ret=" +:+ dec i +:+ nl));;
  when (negb (opt w F_QUIET) && opt w F_FLOOD)%bool (printf ".").

Definition pinger : P unit :=
  w ← getdev;
  let seq := u16 (ntransmitted (sta w)) in
  out_store 0 ([8; 0] ++ le_bytes 2 0);;
  upd_sta (fun t => mk_stats (nreceived t) (nrepeats t) (slong (ntransmitted t + 1)) (tmin t) (tmax t) (tsum t));;
  out_store 6 (le_bytes 2 seq);;
  out_store 4 (le_bytes 2 (ident (cf w)));;
  upd_buf (fun b => set_tbl (tbl_clr (rcvd_tbl b) (seq mod MAX_DUP_CHK)) b);;
  when (timing (cf w))
    (tv ← gettime;
     out_store 8 (le_bytes (Z.to_nat sizeof_ul) (fst tv) ++ le_bytes (Z.to_nat sizeof_ul) (snd tv)));;
  pinger_send w.

(** ** catcher and finish *)

Definition set_alarm (secs : Z) (fin : bool) : P unit :=
  upd_io (fun i => mk_io (sent i) (sockopts i) (secs :: alarms i) fin (n_clock i) (n_event i) (n_select i)).

Definition catcher : P unit :=
  pinger;;
  w ← getdev;
  let c := cf w in
  let t := sta w in
  if ((npackets c =? 0) || (ntransmitted t <? npackets c))%bool then set_alarm (u32 (interval c)) false
  else
    let waittime :=
      if truth (nreceived t) then
        let x := s32 (Z.quot (slong (2 * tmax t)) 1000) in
        let x := if x =? 0 then 1 else x in
        if MAXWAIT <? x then MAXWAIT else x
      else MAXWAIT in
    set_alarm (u32 waittime) true.

(** The average in tenths of a millisecond: [tsum] and the division are
    unsigned. *)
Definition avg (t : stats) : Z := tsum t / ulong (nreceived t + nrepeats t).

Definition finish {A} : P A :=
  printf nl;;
  w ← getdev;
  let t := sta w in
  printf ("--- " +:+ hostname (cf w) +:+ " ping statistics ---" +:+ nl);;
  printf (dec (ntransmitted t) +:+ " packets transmitted, ");;
  printf (dec (nreceived t) +:+ " packets received, ");;
  when (truth (nrepeats t)) (printf ("+" +:+ dec (nrepeats t) +:+ " duplicates, "));;
  when (truth (ntransmitted t))
    (if ntransmitted t <? nreceived t then printf "-- somebody's printing up packets!"
     else printf (dec (s32 (Z.quot (slong (slong (ntransmitted t - nreceived t) * 100)) (ntransmitted t))) +:+
                  "% packet loss"));;
  printf nl;;
  when (truth (nreceived t) && timing (cf w))%bool
    (if ulong (nreceived t + nrepeats t) =? 0 then crash
     else printf ("round-trip min/avg/max = " +:+ dec (Z.quot (tmin t) 10) +:+ "." +:+ dec (Z.rem (tmin t) 10) +:+ "/" +:+
                  dec (avg t / 10) +:+ "." +:+ dec (avg t mod 10) +:+ "/" +:+
                  dec (Z.quot (tmax t) 10) +:+ "." +:+ dec (Z.rem (tmax t) 10) +:+ " ms" +:+ nl));;
  if nreceived t =? 0 then exit 1 else exit 0.

(** ** Display *)

Definition inet_ntoa (a : list Z) : string := inet_ntop4 a.

Definition pr_addr (a : list Z) : P string :=
  w ← getdev;
  match (if opt w F_NUMERIC then None else os_byaddr os a) with
  | None => mret (inet_ntoa a)
  | Some name => mret (String.substring 0 255 (name +:+ " (" +:+ inet_ntoa a +:+ ")"))
  end.

(** A byte of the packet received; the buffer has [packlen] bytes. *)
Definition pk (i : Z) : P Z :=
  w ← getdev;
  if ((0 <=? i) && (i <? packlen (cf w)))%bool then mret (loadb (packet (buf w)) i) else crash.
Definition pk16 (i : Z) : P Z := a ← pk i; b ← pk (i + 1); mret (a + 256 * b).
Definition pk4 (i : Z) : P (list Z) :=
  a ← pk i; b ← pk (i + 1); c ← pk (i + 2); d ← pk (i + 3); mret [a; b; c; d].
Fixpoint pk_bytes (i : Z) (n : nat) : P (list Z) :=
  match n with
  | O => mret []
  | S n' => b ← pk i; l ← pk_bytes (i + 1) n'; mret (b :: l)
  end.
Definition pk_long (i : Z) : P Z := l ← pk_bytes i (Z.to_nat sizeof_ul); mret (slong (le_val l)).

Definition pr_iph (ip : Z) : P unit :=
  b0 ← pk ip;
  let hl := Z.land b0 15 in
  printf ("Vr HL TOS  Len   ID Flg  off TTL Pro  cks      Src      Dst Data" +:+ nl);;
  tos ← pk (ip + 1); len ← pk16 (ip + 2); id ← pk16 (ip + 4);
  printf (" " +:+ hex (Z.shiftr b0 4) +:+ "  " +:+ hex hl +:+ "  " +:+ hex0 2 tos +:+ " " +:+ hex0 4 len +:+ " " +:+ hex0 4 id);;
  off ← pk16 (ip + 6);
  printf ("   " +:+ hex (Z.shiftr (Z.land off 0xe000) 13) +:+ " " +:+ hex0 4 (Z.land off 0x1fff));;
  ttl ← pk (ip + 8); p ← pk (ip + 9); sum ← pk16 (ip + 10);
  printf ("  " +:+ hex0 2 ttl +:+ "  " +:+ hex0 2 p +:+ " " +:+ hex0 4 sum);;
  src ← pk4 (ip + 12);
  printf (" " +:+ inet_ntoa src +:+ " ");;
  dst ← pk4 (ip + 16);
  printf (" " +:+ inet_ntoa dst +:+ " ");;
  for_ (Z.to_nat (Z.shiftl hl 2 - 20)) (ip + 20) (fun cp => b ← pk cp; printf (hex0 2 b));;
  printf nl.

Definition pr_ports (proto : string) (cp : Z) : P unit :=
  a ← pk cp; b ← pk (cp + 1); c ← pk (cp + 2); d ← pk (cp + 3);
  printf (proto +:+ ": from port " +:+ dec (a * 256 + b) +:+ ", to port " +:+ dec (c * 256 + d) +:+ " (decimal)" +:+ nl).

Definition pr_retip (ip : Z) : P unit :=
  pr_iph ip;;
  b0 ← pk ip;
  let cp := ip + Z.shiftl (Z.land b0 15) 2 in
  p ← pk (ip + 9);
  if p =? 6 then pr_ports "TCP" cp
  else if p =? 17 then pr_ports "UDP" cp
  else mret tt.

Definition unreach_text (code : Z) : string :=
  match code with
  | 0 => "Destination Net Unreachable" | 1 => "Destination Host Unreachable"
  | 2 => "Destination Protocol Unreachable" | 3 => "Destination Port Unreachable"
  | 4 => "frag needed and DF set" | 5 => "Source Route Failed"
  | 6 => "Network Unknown" | 7 => "Host Unknown" | 8 => "Host Isolated"
  | 11 => "Destination Network Unreachable At This TOS"
  | 12 => "Destination Host Unreachable At This TOS"
  | 13 => "Packet Filtered" | 14 => "Precedence Violation" | 15 => "Precedence Cutoff"
  | _ => "Dest Unreachable, Unknown Code: " +:+ dec code
  end%string +:+ nl.

Definition redirect_text (code : Z) : string :=
  match code with
  | 0 => "Redirect Network" | 1 => "Redirect Host"
  | 2 => "Redirect Type of Service and Network" | 3 => "Redirect Type of Service and Host"
  | _ => "Redirect, Bad Code: " +:+ dec code
  end%string.

Definition exceeded_text (code : Z) : string :=
  match code with
  | 0 => "Time to live exceeded" | 1 => "Frag reassembly time exceeded"
  | _ => "Time exceeded, Bad Code: " +:+ dec code
  end%string +:+ nl.

(** [icp] is the offset of the ICMP header; the returned IP header follows its
    8 bytes. *)
Definition pr_icmph (icp : Z) : P unit :=
  type ← pk icp;
  match type with
  | 0 => printf ("Echo Reply" +:+ nl)
  | 3 => code ← pk (icp + 1); printf (unreach_text code);; pr_retip (icp + 8)
  | 4 => printf ("Source Quench" +:+ nl);; pr_retip (icp + 8)
  | 5 => code ← pk (icp + 1);
         printf (redirect_text code);;
         gw ← pk4 (icp + 4);
         printf ("(New addr: " +:+ inet_ntoa gw +:+ ")" +:+ nl);;
         pr_retip (icp + 8)
  | 8 => printf ("Echo Request" +:+ nl)
  | 11 => code ← pk (icp + 1); printf (exceeded_text code);; pr_retip (icp + 8)
  | 12 => gw ← pk4 (icp + 4);
          printf ("Parameter problem: IP address = " +:+ inet_ntoa gw +:+ nl);;
          pr_retip (icp + 8)
  | 13 => printf ("Timestamp" +:+ nl)
  | 14 => printf ("Timestamp Reply" +:+ nl)
  | 15 => printf ("Information Request" +:+ nl)
  | 16 => printf ("Information Reply" +:+ nl)
  | 17 => printf ("Address Mask Request" +:+ nl)
  | 18 => printf ("Address Mask Reply" +:+ nl)
  | _ => printf ("Bad ICMP type: " +:+ dec type +:+ nl)
  end.

(** ** IP options *)

(** The addresses of a route from [cp] on; [n] counts down by 4 until it is at
    most [lim]. Gives [cp] and [hlen]. *)
Definition route_round (lim : Z) (x : Z * Z * Z) : P (Z * Z * Z + Z * Z) :=
  let '(cp, hlen, n) := x in
  b0 ← pk (cp + 1); b1 ← pk (cp + 2); b2 ← pk (cp + 3); b3 ← pk (cp + 4);
  (if (b0 =? 0) && (b1 =? 0) && (b2 =? 0) && (b3 =? 0) then printf (tab +:+ "0.0.0.0")
   else a ← pr_addr [b0; b1; b2; b3]; printf (tab +:+ a))%bool;;
  let hlen := hlen - 4 in
  let n := n - 4 in
  if n <=? lim then mret (inr (cp + 4, hlen))
  else printf nl;; mret (inl (cp + 4, hlen, n)).
(** [n] is at most 255 and falls by 4, so 64 rounds are enough. *)
Definition route_loop (lim cp hlen n : Z) : P (Z * Z) := while_ 64 (cp, hlen, n) (route_round lim).

Definition lsrr (cp hlen : Z) : P (Z * Z) :=
  printf (nl +:+ "LSRR: ");;
  let hlen := hlen - 2 in
  j ← pk (cp + 1);
  if IPOPT_MINOFF <? j then route_loop IPOPT_MINOFF (cp + 2) hlen j else mret (cp + 2, hlen).

(** A recorded route; the same route as in the packet before is not repeated.
    [old_rr] has [MAX_IPOPTLEN] bytes. *)
Definition record_route (cp hlen : Z) : P (Z * Z) :=
  j ← pk (cp + 1);
  i ← pk (cp + 2);
  let cp := cp + 2 in
  let hlen := hlen - 2 in
  let i := (if j <? i then j else i) - IPOPT_MINOFF in
  if i <=? 0 then mret (cp, hlen)
  else
    w ← getdev;
    same ← (if ((i =? old_rrlen (buf w)) && (cp =? sizeof_iphdr + 2))%bool then
              l ← pk_bytes cp (Z.to_nat i);
              mret (bool_decide (l = take (Z.to_nat i) (old_rr (buf w))))
            else mret false);
    if (same && negb (opt w F_FLOOD))%bool then
      printf (tab +:+ "(same route)");;
      let i := Z.quot (i + 3) 4 * 4 in
      mret (cp + i, hlen - i)
    else
      l ← pk_bytes cp (Z.to_nat i);
      if MAX_IPOPTLEN <? i then crash
      else
        upd_buf (fun b => set_old_rr i (l ++ drop (Z.to_nat i) (old_rr b)) b);;
        printf (nl +:+ "RR: ");;
        route_loop 0 cp hlen i.

(** One round of the loop over the options; [inr] ends it. *)
Definition option_round (x : Z * Z) : P (Z * Z + unit) :=
  let '(hlen, cp) := x in
  if negb (sizeof_iphdr <? hlen) then mret (inr tt)
  else
    b ← pk cp;
    y ← match b with
        | 0 => mret (cp, 0)
        | 131 => lsrr cp hlen
        | 7 => record_route cp hlen
        | 1 => printf (nl +:+ "NOP");; mret (cp, hlen)
        | _ => printf (nl +:+ "unknown option " +:+ hex b);; mret (cp, hlen)
        end;
    let '(cp, hlen) := y in
    mret (inl (hlen - 1, cp + 1)).
(** [hlen] is at most 60 and falls in each round. *)
Definition show_options (hlen : Z) : P unit := while_ 64 (hlen, sizeof_iphdr) option_round.

(** ** pr_pack *)

(** Round-trip time of a reply whose data starts at [data]. *)
Definition time_reply (data : Z) (tv : Z * Z) : P Z :=
  w ← getdev;
  if timing (cf w) then
    sec ← pk_long data;
    usec ← pk_long (data + sizeof_ul);
    let '(s, u) := tvsub tv (sec, usec) in
    let triptime := slong (slong (s * 10000) + Z.quot u 100) in
    upd_sta (fun t => mk_stats (nreceived t) (nrepeats t) (ntransmitted t)
      (if triptime <? tmin t then triptime else tmin t)
      (if tmax t <? triptime then triptime else tmax t)
      (ulong (tsum t + triptime)));;
    mret triptime
  else mret 0.

(** Whether the number was received before; the counters and the table. *)
Definition check_dup (seq : Z) : P bool :=
  w ← getdev;
  if tbl_tst (rcvd_tbl (buf w)) (seq mod MAX_DUP_CHK) then
    upd_sta (fun t => mk_stats (slong (nreceived t - 1)) (slong (nrepeats t + 1)) (ntransmitted t) (tmin t) (tmax t) (tsum t));;
    mret true
  else
    upd_buf (fun b => set_tbl (tbl_set (rcvd_tbl b) (seq mod MAX_DUP_CHK)) b);;
    mret false.

(** The dump after a wrong byte starts after a whole [struct icmp]. *)
Definition dump_data (icp dlen : Z) : P unit :=
  for_ (Z.to_nat (dlen - 8)) 8 (fun i =>
    when (Z.rem i 32 =? 8) (printf (nl +:+ tab));;
    b ← pk (icp + sizeof_icmp + (i - 8));
    printf (hex b +:+ " ")).

(** Comparison of the data with what was sent. *)
Definition check_data (icp dlen : Z) : P unit :=
  r ← for_acc (Z.to_nat (dlen - 8)) 8 tt (fun i _ =>
    c ← pk (icp + 8 + 8 + (i - 8));
    d ← out_load (8 + sizeof_timeval + (i - 8)) 1;
    let d := le_val d in
    if negb (c =? d) then
      printf (nl +:+ "wrong data byte #" +:+ dec i +:+ " should be 0x" +:+ hex d +:+ " but was 0x" +:+ hex c);;
      dump_data icp dlen;;
      mret (inr tt)
    else mret (inl tt));
  mret tt.

(** The line for a reply; [true] when the packet is not shown. *)
Definition show_reply (w : ping_w) (icp cc ttl : Z) (from : list Z) (triptime seq : Z) (dupflag : bool) : P bool :=
  if opt w F_QUIET then mret true
  else if opt w F_FLOOD then printf bs;; mret false
  else
    printf (dec cc +:+ " bytes from " +:+ inet_ntoa from +:+ ": icmp_seq=" +:+ dec seq);;
    printf (" ttl=" +:+ dec ttl);;
    when (timing (cf w)) (printf (" time=" +:+ dec (Z.quot triptime 10) +:+ "." +:+ dec (Z.rem triptime 10) +:+ " ms"));;
    when dupflag (printf " (DUP!)");;
    check_data icp (datalen (cf w));;
    mret false.

Definition echo_reply (icp cc ttl : Z) (from : list Z) (tv : Z * Z) : P bool :=
  w ← getdev;
  id ← pk16 (icp + 4);
  if negb (id =? ident (cf w)) then mret true
  else
    upd_sta (fun t => mk_stats (slong (nreceived t + 1)) (nrepeats t) (ntransmitted t) (tmin t) (tmax t) (tsum t));;
    triptime ← time_reply (icp + 8) tv;
    seq ← pk16 (icp + 6);
    dupflag ← check_dup seq;
    show_reply w icp cc ttl from triptime seq dupflag.

Definition pr_pack (cc : Z) (from : list Z) : P unit :=
  tv ← gettime;
  w ← getdev;
  b0 ← pk 0;
  let hlen := Z.shiftl (Z.land b0 15) 2 in
  if cc <? datalen (cf w) + ICMP_MINLEN then
    when (opt w F_VERBOSE)
      (eprintf ("ping: packet too short (" +:+ dec cc +:+ " bytes) from " +:+ inet_ntoa from +:+ nl))
  else
    let cc := cc - hlen in
    let icp := hlen in
    type ← pk icp;
    done ← (if type =? 0 then ttl ← pk 8; echo_reply icp cc ttl from tv
            else if negb (opt w F_VERBOSE) then mret true
            else a ← pr_addr from;
                 printf (dec cc +:+ " bytes from " +:+ a +:+ ": ");;
                 pr_icmph icp;;
                 mret false);
    if done : bool then mret tt
    else
      show_options hlen;;
      when (negb (opt w F_FLOOD)) (printf nl).

(** ** fill: the pattern of [-p] *)

Definition isxdigit (c : ascii) : bool := match digit_in 16 c with Some _ => true | None => false end.
Fixpoint all_xdigits (s : string) : bool :=
  match s with EmptyString => true | String c s' => (isxdigit c && all_xdigits s')%bool end.
(** [sscanf] with [k] conversions [%2x]. *)
Fixpoint scan_pat (k : nat) (s : string) : list Z :=
  match k with
  | O => []
  | S k' => match scan_hex2 s with
            | Some (v, rest) => v :: scan_pat k' rest
            | None => []
            end
  end.

(** [bp[jj + kk] = pat[jj]] while [kk <= MAXPACKET - (8 + ii)]. *)
Definition fill_round (bp : Z) (pat : list Z) (kk : Z) : P (Z + unit) :=
  let ii := Z.of_nat (length pat) in
  if kk <=? MAXPACKET - (8 + ii) then out_store (bp + kk) (u8 <$> pat);; mret (inl (kk + ii))
  else mret (inr tt).
Definition fill (bp : Z) (patp : string) : P unit :=
  if negb (all_xdigits patp) then
    eprintf ("ping: patterns must be specified as hex digits." +:+ nl);; exit 2
  else
    let pat := scan_pat 16 patp in
    when (0 <? Z.of_nat (length pat)) (while_ (Z.to_nat MAXPACKET) 0 (fill_round bp pat));;
    w ← getdev;
    when (negb (opt w F_QUIET))
      (printf "PATTERN: 0x";;
       for_ (length pat) 0 (fun jj => b ← out_load (bp + jj) 1; printf (hex0 2 (le_val b)));;
       printf nl).

Definition usage {A} : P A :=
  eprintf ("usage: ping [-LRdfnqrv] [-c count] [-i wait] [-l preload]" +:+ nl +:+ tab +:+
           "[-p pattern] [-s packetsize] [-t ttl] [-I interface address] host" +:+ nl);;
  exit 2.

(** ** The command line *)

(** The locals of [main] the options set. *)
Record locals := mk_loc { preload : Z; loop : Z; ttl : Z; ifaddr : list Z }.
Definition locals0 : locals := mk_loc 0 0 0 [0; 0; 0; 0].

Definition or_opt (f : Z) : P unit := upd_cf (fun c => set_options (Z.lor (options c) f) c).
Definition or_mopt (f : Z) : P unit := upd_cf (fun c => set_moptions (Z.lor (moptions c) f) c).
Definition fail2 {A} (s : string) : P A := eprintf ("ping: " +:+ s +:+ nl);; exit 2.

(** [sscanf] of [%u] conversions separated by dots: the values, and what is
    left after the last. *)
Fixpoint scan_u_dots (k : nat) (s : string) : list Z * string :=
  match strto_scan 10 s with
  | None => ([], s)
  | Some _ =>
      let r := strtou long_bits 10 s in
      match k, send r with
      | S k', String c rest => if cc c =? 46 then let '(l, e) := scan_u_dots k' rest in (s32 (sv r) :: l, e)
                               else ([s32 (sv r)], send r)
      | _, e => ([s32 (sv r)], e)
      end
  end.
(** The address of [-I], when exactly four numbers were converted. *)
Definition scan_ifaddr (s : string) : option (list Z) :=
  match scan_u_dots 3 s with
  | ([i1; i2; i3; i4], EmptyString) =>
      Some (rev (le_bytes 4 (Z.lor (Z.lor (Z.lor (s32 (Z.shiftl i1 24)) (s32 (Z.shiftl i2 16))) (s32 (Z.shiftl i3 8))) i4)))
  | _ => None
  end.

Definition do_option (l : locals) (ev : optev) : P locals :=
  match ev with
  | (99, Some a) => let n := atoi a in                                                   (* c *)
      upd_cf (set_npackets n);;
      if n <=? 0 then fail2 "bad number of packets to transmit." else mret l
  | (100, _) => or_opt F_SO_DEBUG;; mret l                                               (* d *)
  | (77, _) => or_opt F_SO_DF;; mret l                                                   (* M *)
  | (102, _) => if negb (os_root os) then fail2 (os_strerror os) else or_opt F_FLOOD;; mret l   (* f *)
  | (105, Some a) => let n := atoi a in                                                  (* i *)
      upd_cf (set_interval n);;
      if n <=? 0 then fail2 "bad timing interval." else or_opt F_INTERVAL;; mret l
  | (108, Some a) =>                                                                     (* l *)
      if negb (os_root os) then fail2 (os_strerror os)
      else let n := atoi a in
           if n <? 0 then fail2 "bad preload value." else mret (mk_loc n (loop l) (ttl l) (ifaddr l))
  | (110, _) => or_opt F_NUMERIC;; mret l                                                (* n *)
  | (112, Some a) => or_opt F_PINGFILLED;; fill (8 + sizeof_timeval) a;; mret l          (* p *)
  | (113, _) => or_opt F_QUIET;; mret l                                                  (* q *)
  | (82, _) => or_opt F_RROUTE;; mret l                                                  (* R *)
  | (114, _) => or_opt F_SO_DONTROUTE;; mret l                                           (* r *)
  | (115, Some a) => let n := atoi a in                                                  (* s *)
      upd_cf (set_datalen n);;
      if MAXPACKET <? n then fail2 "packet size too large."
      else if n <=? 0 then fail2 "illegal packet size." else mret l
  | (118, _) => or_opt F_VERBOSE;; mret l                                                (* v *)
  | (76, _) => or_mopt MULTICAST_NOLOOP;; mret (mk_loc (preload l) 0 (ttl l) (ifaddr l)) (* L *)
  | (116, Some a) => or_mopt MULTICAST_TTL;;                                             (* t *)
      let i := atoi a in
      if ((i <? 0) || (255 <? i))%bool then printf ("ttl " +:+ dec (u32 i) +:+ " out of range" +:+ nl);; exit 2
      else mret (mk_loc (preload l) (loop l) i (ifaddr l))
  | (73, Some a) => or_mopt MULTICAST_IF;;                                               (* I *)
      match scan_ifaddr a with
      | None => printf ("bad interface address '" +:+ a +:+ "'" +:+ nl);; exit 2
      | Some addr => mret (mk_loc (preload l) (loop l) (ttl l) addr)
      end
  | _ => usage
  end.

Fixpoint do_options (l : locals) (evs : list optev) : P locals :=
  match evs with
  | [] => mret l
  | ev :: evs' => l' ← do_option l ev; do_options l' evs'
  end.

(** ** main *)

(** The target: whether its family is AF_INET and its address; [hnamebuf] has
    64 bytes. *)
Definition resolve (target : string) : P (bool * list Z) :=
  match os_aton os target with
  | Some a => upd_cf (set_hostname target);; mret (true, a)
  | None => match os_byname os target with
            | None => eprintf ("ping: unknown host " +:+ target +:+ nl);; exit 2
            | Some (inet, name, a) =>
                upd_cf (set_hostname (String.substring 0 63 name));; mret (inet, take 4 a)
            end
  end.

Definition setsockopt (o : sockopt) : P bool := devop (fun w =>
  let i := iow w in
  (os_setsockopt os o,
   mk_w (cf w) (sta w) (buf w)
     (mk_io (sent i) (o :: sockopts i) (alarms i) (alarm_finish i) (n_clock i) (n_event i) (n_select i)))).
Definition must_set (o : sockopt) (msg : string) (code : Z) : P unit :=
  ok ← setsockopt o; when (negb ok) (perror msg;; exit code).

(** [rspace]: type, length and pointer of the record route option. *)
Definition rspace : list Z :=
  [7; 3 + 4 * NROUTES; IPOPT_MINOFF] ++ replicate (Z.to_nat (4 * NROUTES + 1)) 0.

Definition set_options_socket (l : locals) : P unit :=
  w ← getdev;
  let mopt f := truth (Z.land (moptions (cf w)) f) in
  when (opt w F_SO_DF) (_ ← setsockopt SoDF; mret tt);;
  when (opt w F_SO_DEBUG) (_ ← setsockopt SoDebug; mret tt);;
  when (opt w F_SO_DONTROUTE) (_ ← setsockopt SoDontroute; mret tt);;
  _ ← setsockopt SoBroadcast;
  when (opt w F_RROUTE) (must_set (SoOptions rspace) "ping: record route" 2);;
  _ ← setsockopt (SoRcvbuf (48 * 1024));
  when (mopt MULTICAST_NOLOOP) (must_set (SoMcLoop (loop l)) "can't disable multicast loopback" 92);;
  when (mopt MULTICAST_TTL) (must_set (SoMcTtl (ttl l)) "can't set multicast time-to-live" 93);;
  when (mopt MULTICAST_IF) (must_set (SoMcIf (ifaddr l)) "can't set multicast source interface" 94).

(** [for (i = 8; i < datalen; ++i) *datap++ = i;] *)
Definition fill_default (dlen : Z) : P unit :=
  for_ (Z.to_nat (dlen - 8)) 8 (fun i => out_store (8 + sizeof_timeval + (i - 8)) [u8 i]).

Definition next_event : P event := devop (fun w =>
  let i := iow w in
  (os_event os (n_event i),
   mk_w (cf w) (sta w) (buf w)
     (mk_io (sent i) (sockopts i) (alarms i) (alarm_finish i) (n_clock i) (S (n_event i)) (n_select i)))).
Definition select_ready : P bool := devop (fun w =>
  let i := iow w in
  (os_select os (n_select i),
   mk_w (cf w) (sta w) (buf w)
     (mk_io (sent i) (sockopts i) (alarms i) (alarm_finish i) (n_clock i) (n_event i) (S (n_select i))))).

(** A packet of at most [packlen] bytes is stored and shown; [inr] when enough
    were received. *)
Definition receive (bytes from : list Z) : P (unit + unit) :=
  w ← getdev;
  let got := take (Z.to_nat (packlen (cf w))) bytes in
  upd_buf (fun b => set_packet (store_bytes (packet b) 0 got) b);;
  pr_pack (Z.of_nat (length got)) from;;
  w ← getdev;
  if (truth (npackets (cf w)) && (npackets (cf w) <=? nreceived (sta w)))%bool then mret (inr tt) else mret (inl tt).

(** One round of [for (;;)]. *)
Definition main_round (_ : unit) : P (unit + unit) :=
  w ← getdev;
  go ← (if opt w F_FLOOD then pinger;; select_ready else mret true);
  if negb go then mret (inl tt)
  else
    ev ← next_event;
    match ev with
    | EvAlarm => w ← getdev; (if alarm_finish (iow w) then finish else catcher);; mret (inl tt)
    | EvInterrupt => finish
    | EvError => perror "ping: recvfrom";; mret (inl tt)
    | EvPacket bytes from => receive bytes from
    end.

Definition main_loop (fuel : nat) : P unit := while_ fuel tt main_round.

Definition main (fuel : nat) (args : list string) : P Z :=
  when (negb (os_proto os)) (eprintf ("ping: unknown protocol icmp." +:+ nl);; exit 2);;
  when (negb (os_socket os))
    ((if os_eperm os then eprintf ("ping: ping must run as root" +:+ nl) else perror "ping: socket");; exit 2);;
  let '(evs, operands) := getopt "I:LRc:dfh:i:l:np:qrs:t:vM" args in
  l ← do_options locals0 evs;
  match operands with
  | [target] =>
      x ← resolve target;
      let '(inet, addr) := x in
      w ← getdev;
      when (opt w F_FLOOD && opt w F_INTERVAL)%bool (fail2 "-f and -i incompatible options.");;
      let dlen := datalen (cf w) in
      when (sizeof_timeval <=? dlen) (upd_cf (set_timing true));;
      let plen := dlen + MAXIPLEN + MAXICMPLEN in
      upd_cf (set_packlen plen);;
      when (negb (os_malloc os plen)) (fail2 "out of memory.");;
      when (negb (opt w F_PINGFILLED)) (fill_default dlen);;
      upd_cf (set_ident (Z.land (os_pid os) 0xFFFF));;
      set_options_socket l;;
      w ← getdev;
      printf ("PING " +:+ hostname (cf w) +:+ (if inet : bool then " (" +:+ inet_ntoa addr +:+ ")" else "") +:+ ": " +:+
              dec dlen +:+ " data bytes" +:+ nl);;
      for_ (Z.to_nat (preload l)) 0 (fun _ => pinger);;
      when (negb (opt w F_FLOOD)) catcher;;
      main_loop fuel;;
      finish
  | _ => usage
  end.
End ping.
End Ping.
