(* ===== verification/PingOk.v ===== *)
(** * ping: lemmas on the checksum, the packets sent and the table *)

From stdpp Require Import base list strings numbers gmap.
From Stdlib Require Import ZArith Lia Ascii.
From S2P Require Import Prelude CInt CLib Memory Ping.
Import Ping.

(** ** The Internet checksum *)

(** The sum of the 16-bit words, an odd byte counting as a word of its own. *)
Fixpoint word_sum (l : list Z) : Z :=
  match l with
  | b0 :: b1 :: l' => b0 + 256 * b1 + word_sum l'
  | [b] => b
  | [] => 0
  end.

(** One's complement value of a sum: 0 only for 0, otherwise the representative
    of the sum modulo 65535 between 1 and 65535. *)
Definition onec (x : Z) : Z := if x =? 0 then 0 else (x - 1) mod 65535 + 1.

(** Induction over pairs of bytes. *)
Lemma pairs_ind (Q : list Z -> Prop) :
  Q [] -> (forall b, Q [b]) -> (forall a b l, Q l -> Q (a :: b :: l)) -> forall l, Q l.
Proof.
  intros H0 H1 H2. assert (forall n l, (length l <= n)%nat -> Q l) as H.
  { induction n as [|n IH]; intros [|a [|b l]] Hn; simpl in Hn; auto; try lia. apply H2, IH. lia. }
  intros l. by apply (H (length l)).
Qed.

Lemma word_sum_range l : Forall is_byte l -> 0 <= word_sum l /\ 2 * word_sum l <= 65535 * (Z.of_nat (length l) + 1).
Proof.
  induction l as [|b|a b l IH] using pairs_ind; intros H; cbn [word_sum length].
  - lia.
  - apply list.Forall_cons in H as [Hb _]. unfold is_byte in Hb. lia.
  - apply list.Forall_cons in H as [Ha H]. apply list.Forall_cons in H as [Hb H]. unfold is_byte in Ha, Hb.
    specialize (IH H). lia.
Qed.

Lemma s32_small x : 0 <= x < 2 ^ 31 -> s32 x = x.
Proof. intros. apply wraps_small; lia. Qed.

(** The accumulator does not overflow on packets of up to 65536 bytes. *)
Lemma cksum_words_sum l : forall sum,
  Forall is_byte l -> 0 <= sum -> 2 * sum + 65535 * (Z.of_nat (length l) + 1) < 2 ^ 32 ->
  cksum_words l sum = sum + word_sum l.
Proof.
  induction l as [|b|a b l IH] using pairs_ind; intros sum Hl Hs Hb; cbn [cksum_words word_sum length] in *.
  - lia.
  - apply list.Forall_cons in Hl as [Hx _]. unfold is_byte in Hx. rewrite s32_small; lia.
  - apply list.Forall_cons in Hl as [Hx Hl]. apply list.Forall_cons in Hl as [Hy Hl]. unfold is_byte in Hx, Hy.
    rewrite s32_small by lia. rewrite IH by (done || lia). lia.
Qed.

Lemma onec_range x : 0 <= x -> 0 <= onec x <= 65535.
Proof. intros. unfold onec. destruct (x =? 0); [lia|]. pose proof (Z.mod_pos_bound (x - 1) 65535). lia. Qed.

(** The value is determined by its class modulo 65535. *)
Lemma onec_unique x y : 0 < x -> 0 < y <= 65535 -> (x - y) mod 65535 = 0 -> onec x = y.
Proof.
  intros Hx Hy Hm. unfold onec. destruct (Z.eqb_spec x 0); [lia|].
  apply Z.mod_divide in Hm as [k Hk]; [|lia].
  replace (x - 1) with (y - 1 + k * 65535) by lia. rewrite Z.mod_add, Z.mod_small by lia. lia.
Qed.

Lemma in_cksum_spec l :
  Forall is_byte l -> Z.of_nat (length l) <= 65536 -> in_cksum l = 65535 - onec (word_sum l).
Proof.
  intros Hl Hn. pose proof (word_sum_range l Hl) as Hr. unfold in_cksum.
  rewrite cksum_words_sum by (done || lia). rewrite Z.add_0_l. set (x := word_sum l) in *.
  rewrite Z.shiftr_div_pow2 by lia. change 0xffff with (Z.ones 16). rewrite Z.land_ones by lia.
  pose proof (Z.div_mod x (2 ^ 16) ltac:(lia)) as Hd. pose proof (Z.mod_pos_bound x (2 ^ 16) ltac:(lia)) as Hm.
  set (hi := x / 2 ^ 16) in *. set (lo := x mod 2 ^ 16) in *.
  assert (0 <= hi < 32768) as Hhi by (unfold hi; split; [apply Z.div_pos; lia|apply Z.div_lt_upper_bound; lia]).
  rewrite (s32_small (hi + lo)) by lia. rewrite Z.shiftr_div_pow2 by lia.
  assert (forall c, 0 <= c <= 1 -> (hi + lo) / 2 ^ 16 = c -> 0 <= hi + lo + c - c * 65536 <= 65535 ->
    (x > 0 -> 0 < hi + lo - c * 65535) ->
    u16 (Z.lnot (s32 (hi + lo + (hi + lo) / 2 ^ 16))) = 65535 - onec x) as Hgo.
  { intros c Hc -> Hcr Hpos. rewrite s32_small by lia. unfold u16, wrapu, Z.lnot.
    destruct (Z.eq_dec x 0) as [E|Hx].
    - assert (hi = 0 /\ lo = 0) as [-> ->] by lia. assert (c = 0) as -> by lia. rewrite E. reflexivity.
    - rewrite (onec_unique x (hi + lo - c * 65535)); [|lia|lia|].
      + symmetry. apply Z.mod_unique_pos with (- 1 - c); lia.
      + replace (x - (hi + lo - c * 65535)) with ((hi + c) * 65535) by lia. apply Z.mod_mul. lia. }
  destruct (Z.lt_ge_cases (hi + lo) (2 ^ 16)).
  - apply (Hgo 0); [lia|apply Z.div_small; lia|lia|lia].
  - apply (Hgo 1); [lia| |lia|lia]. symmetry. apply Z.div_unique_pos with (hi + lo - 65536); lia.
Qed.

(** A packet with its checksum in bytes 2 and 3 has checksum 0. *)
Lemma cksum_verifies (h0 h1 : Z) (l : list Z) :
  let x := h0 :: h1 :: 0 :: 0 :: l in
  Forall is_byte x -> Z.of_nat (length x) <= 65536 ->
  in_cksum (h0 :: h1 :: le_bytes 2 (in_cksum x) ++ l) = 0.
Proof.
  intros x Hx Hn. pose proof (word_sum_range x Hx) as Hr. pose proof (in_cksum_spec x Hx Hn) as Hc.
  pose proof (onec_range (word_sum x) ltac:(lia)) as Ho.
  set (c := in_cksum x) in *.
  assert (Forall is_byte (h0 :: h1 :: le_bytes 2 c ++ l)) as Hb.
  { unfold x in Hx. rewrite !list.Forall_cons in Hx. rewrite !list.Forall_cons, Forall_app.
    pose proof (le_bytes_is_byte 2 c). tauto. }
  rewrite in_cksum_spec; [|done|unfold x in Hn; cbn [length le_bytes app] in *; lia].
  assert (word_sum (h0 :: h1 :: le_bytes 2 c ++ l) = word_sum x + c) as ->.
  { pose proof (le_val_bytes 2 c) as Hv. cbn [le_bytes le_val] in Hv.
    change (256 ^ Z.of_nat 2) with 65536 in Hv. rewrite (Z.mod_small c 65536) in Hv by lia. unfold x. cbn [le_bytes app word_sum]. lia. }
  rewrite Hc. unfold onec at 2. destruct (Z.eqb_spec (word_sum x) 0) as [->|Hne]; [reflexivity|].
  pose proof (Z.mod_pos_bound (word_sum x - 1) 65535 ltac:(lia)).
  rewrite (onec_unique _ 65535); [lia|lia|lia|].
  pose proof (Z.div_mod (word_sum x - 1) 65535 ltac:(lia)) as Hd.
  replace (word_sum x + (65535 - ((word_sum x - 1) mod 65535 + 1)) - 65535)
    with ((word_sum x - 1) / 65535 * 65535) by lia.
  apply Z.mod_mul. lia.
Qed.

(** ** The table of numbers received *)

Lemma bit_split k : 0 <= k -> k = 8 * Z.shiftr k 3 + Z.land k 7 /\ 0 <= Z.land k 7 < 8 /\ 0 <= Z.shiftr k 3.
Proof.
  intros Hk. change 7 with (Z.ones 3). rewrite Z.shiftr_div_pow2, Z.land_ones by lia.
  pose proof (Z.div_mod k (2 ^ 3)). pose proof (Z.mod_pos_bound k (2 ^ 3)). pose proof (Z.div_pos k (2 ^ 3)). lia.
Qed.

Definition tbl_ok (t : list Z) : Prop := length t = 128%nat /\ Forall is_byte t.

Lemma bit_byte_lt k : 0 <= k < MAX_DUP_CHK -> (bit_byte k < 128)%nat.
Proof. intros Hk. unfold bit_byte, MAX_DUP_CHK in *. destruct (bit_split k); lia. Qed.

Lemma tbl_byte t k : tbl_ok t -> 0 <= k < MAX_DUP_CHK ->
  exists b, t !! bit_byte k = Some b /\ is_byte b /\ tbl_tst t k = Z.testbit b (Z.land k 7).
Proof.
  intros [Hl Hb] Hk. pose proof (bit_byte_lt k Hk).
  destruct (lookup_lt_is_Some_2 t (bit_byte k)) as [b E]; [lia|]. exists b. split; [done|].
  split; [by eapply Forall_lookup_1|]. unfold tbl_tst, bit_mask. rewrite E, Z.shiftl_1_l.
  apply land_pow2_testbit. destruct (bit_split k); lia.
Qed.

(** Same bit, or another byte, or another bit of the same byte. *)
Lemma bit_cases k k' : 0 <= k -> 0 <= k' -> k <> k' ->
  bit_byte k <> bit_byte k' \/ Z.land k 7 <> Z.land k' 7.
Proof.
  intros Hk Hk' Hne. unfold bit_byte. destruct (bit_split k Hk) as (E1 & ? & ?), (bit_split k' Hk') as (E2 & ? & ?).
  destruct (Z.eq_dec (Z.land k 7) (Z.land k' 7)); [left|by right]. intros E. apply Hne.
  assert (Z.shiftr k 3 = Z.shiftr k' 3) by lia. lia.
Qed.

Lemma mask_byte k : 0 <= k -> is_byte (bit_mask k).
Proof.
  intros Hk. unfold bit_mask, is_byte. rewrite Z.shiftl_1_l. destruct (bit_split k Hk) as (_ & ? & _).
  pose proof (Z.pow_pos_nonneg 2 (Z.land k 7) ltac:(lia) ltac:(lia)).
  pose proof (Z.pow_lt_mono_r 2 (Z.land k 7) 8 ltac:(lia) ltac:(lia) ltac:(lia)). lia.
Qed.

(** Both operations change the byte of the bit by a function of that byte. *)
Lemma alter_ok (f : Z -> Z) (v : bool) t k :
  tbl_ok t -> 0 <= k < MAX_DUP_CHK -> (forall b, is_byte b -> is_byte (f b)) ->
  (forall b i, is_byte b -> 0 <= i < 8 ->
     Z.testbit (f b) i = if decide (i = Z.land k 7) then v else Z.testbit b i) ->
  let t' := alter f (bit_byte k) t in
  tbl_ok t' /\ tbl_tst t' k = v /\ forall k', 0 <= k' < MAX_DUP_CHK -> k' <> k -> tbl_tst t' k' = tbl_tst t k'.
Proof.
  intros Ht Hk Hf Hbits t'. destruct (tbl_byte t k Ht Hk) as (b & E & Hb & _).
  assert (tbl_ok t') as Ht'.
  { destruct Ht as [Hl Ha]. split; [by unfold t'; rewrite length_alter|]. unfold t'.
    apply Forall_alter; [done|]. intros x Ex _. apply Hf. by eapply Forall_lookup_1. }
  destruct (bit_split k ltac:(lia)) as (_ & Hb7 & _).
  split; [done|]. split.
  - destruct (tbl_byte t' k Ht' Hk) as (b' & E' & _ & ->). unfold t' in E'. rewrite list_lookup_alter_eq, E in E'.
    injection E' as <-. rewrite Hbits by done. by rewrite decide_True.
  - intros k' Hk' Hne. destruct (tbl_byte t k' Ht Hk') as (c & Ec & Hc & ->).
    destruct (tbl_byte t' k' Ht' Hk') as (c' & Ec' & _ & ->). unfold t' in Ec'.
    destruct (bit_split k' ltac:(lia)) as (_ & Hb7' & _).
    destruct (decide (bit_byte k = bit_byte k')) as [Eb|Eb].
    + rewrite <- Eb, list_lookup_alter_eq in Ec'. rewrite Eb, Ec in Ec'. injection Ec' as <-. rewrite Hbits by done.
      destruct (bit_cases k k') as [?|?]; [lia|lia|done|done|]. by rewrite decide_False.
    + rewrite list_lookup_alter_ne in Ec' by done. congruence.
Qed.

Lemma tbl_set_ok t k : tbl_ok t -> 0 <= k < MAX_DUP_CHK ->
  tbl_ok (tbl_set t k) /\ tbl_tst (tbl_set t k) k = true /\
  forall k', 0 <= k' < MAX_DUP_CHK -> k' <> k -> tbl_tst (tbl_set t k) k' = tbl_tst t k'.
Proof.
  intros Ht Hk. apply alter_ok; [done..| |].
  - intros b Hb. unfold is_byte. apply (lor_range 8); [lia|exact Hb|]. apply mask_byte. lia.
  - intros b i Hb Hi. unfold bit_mask. rewrite Z.lor_spec, Z.shiftl_1_l. destruct (bit_split k ltac:(lia)) as (_ & ? & _).
    rewrite Z.pow2_bits_eqb by lia. case_decide as E.
    + subst i. by rewrite Z.eqb_refl, orb_true_r.
    + rewrite (proj2 (Z.eqb_neq _ _)) by congruence. apply orb_false_r.
Qed.

Lemma tbl_clr_ok t k : tbl_ok t -> 0 <= k < MAX_DUP_CHK ->
  tbl_ok (tbl_clr t k) /\ tbl_tst (tbl_clr t k) k = false /\
  forall k', 0 <= k' < MAX_DUP_CHK -> k' <> k -> tbl_tst (tbl_clr t k) k' = tbl_tst t k'.
Proof.
  intros Ht Hk. apply alter_ok; [done..| |].
  - intros b Hb. unfold is_byte. apply (land_range 8); [lia|exact Hb|]. apply (wrapu_range 8). lia.
  - intros b i Hb Hi. unfold bit_mask. destruct (bit_split k ltac:(lia)) as (_ & ? & _).
    rewrite Z.land_spec, notu_testbit, Z.shiftl_1_l, Z.pow2_bits_eqb by lia.
    destruct (Z.ltb_spec i 8); [|lia]. cbn [andb]. case_decide as E.
    + subst i. rewrite Z.eqb_refl. apply andb_false_r.
    + rewrite (proj2 (Z.eqb_neq _ _)) by congruence. apply andb_true_r.
Qed.
