(* ===== verification/PingRun.v ===== *)
(** * ping: runs of its functions

    What [pinger] sends, which parts of the state the display functions leave
    alone, and what the handling of a packet does to the counters. *)

From stdpp Require Import base list strings numbers gmap.
From Stdlib Require Import ZArith Lia Ascii.
From S2P Require Import Prelude CInt CLib Memory Ping PingOk.

Import Ping.

(** ** Echo requests *)

Definition echo_header (id seq : Z) (c : list Z) : list Z := [8; 0] ++ c ++ le_bytes 2 id ++ le_bytes 2 seq.
(** The request with its checksum. *)
Definition echo_request (id seq : Z) (body : list Z) : list Z :=
  echo_header id seq (le_bytes 2 (in_cksum (echo_header id seq [0; 0] ++ body))) ++ body.

Lemma echo_request_cksum id seq body :
  Forall is_byte body -> Z.of_nat (length body) <= 65528 -> in_cksum (echo_request id seq body) = 0.
Proof.
  intros Hb Hl. unfold echo_request, echo_header. cbn [app le_bytes].
  apply (cksum_verifies 8 0 (id mod 256 :: id / 256 mod 256 :: seq mod 256 :: seq / 256 mod 256 :: body)).
  - repeat (apply list.Forall_cons; split; [try done; apply Z.mod_pos_bound; lia|]). done.
  - cbn [length]. lia.
Qed.

Lemma header_splices id seq (x : list Z) : (8 <= length x)%nat ->
  splice 4 (le_bytes 2 id) (splice 6 (le_bytes 2 seq) (splice 0 ([8; 0] ++ le_bytes 2 0) x)) =
  echo_header id seq [0; 0] ++ drop 8 x.
Proof.
  intros Hx. do 8 (destruct x as [|? x]; [simpl in Hx; lia|]). reflexivity.
Qed.

Lemma time_splice h t (x : list Z) : length h = 8%nat ->
  splice 8 t (h ++ x) = h ++ t ++ drop (length t) x.
Proof.
  intros Hh. unfold splice. rewrite take_app_length', drop_app_ge by lia. do 3 f_equal. lia.
Qed.

Section runs.
Context `{DM : DataModel} (os : ping_os).
Implicit Types s : st ping_w.

Lemma runs_out_store i l s (Q : unit -> st ping_w -> Prop) :
  0 <= i -> i + Z.of_nat (length l) <= MAXPACKET ->
  Q tt (mkst (out s) (mk_w (cf (dev s)) (sta (dev s)) (set_outpack (store_bytes (outpack (buf (dev s))) i l) (buf (dev s)))
                           (iow (dev s)))) ->
  runs (out_store i l) s Q.
Proof.
  intros H1 H2 HQ. unfold out_store. rewrite (proj2 (Z.leb_le _ _) H1), (proj2 (Z.leb_le _ _) H2).
  by apply runs_setdev.
Qed.

Lemma runs_out_load i n s (Q : list Z -> st ping_w -> Prop) :
  0 <= i -> i + Z.of_nat n <= MAXPACKET -> Q (load_bytes (outpack (buf (dev s))) i n) s -> runs (out_load i n) s Q.
Proof.
  intros H1 H2 HQ. unfold out_load. rewrite (proj2 (Z.leb_le _ _) H1), (proj2 (Z.leb_le _ _) H2).
  cbn [andb]. by runs_steps.
Qed.

Definition cfg_ok (c : cfg) : Prop :=
  0 < datalen c /\ datalen c + 8 <= MAXPACKET /\ 0 <= ident c < 65536 /\
  (timing c = true -> sizeof_timeval <= datalen c).

(** The time stamp at the front of the data. *)
Definition stamp (c : cfg) (tv : Z * Z) : list Z :=
  if timing c then le_bytes (Z.to_nat sizeof_ul) (fst tv) ++ le_bytes (Z.to_nat sizeof_ul) (snd tv) else [].

Lemma stamp_length c tv : Z.of_nat (length (stamp c tv)) = if timing c then sizeof_timeval else 0.
Proof.
  unfold stamp. destruct (timing c); [|done]. rewrite length_app, !le_bytes_length. unfold sizeof_timeval.
  pose proof sizeof_ul_pos. lia.
Qed.

(** The data of the request: what the buffer holds after the time stamp. *)
Definition request_body (w : ping_w) : list Z :=
  let t := stamp (cf w) (os_clock os (n_clock (iow w))) in
  t ++ load_bytes (outpack (buf w)) (8 + Z.of_nat (length t)) (Z.to_nat (datalen (cf w)) - length t).

Definition sent_one (t : stats) : stats :=
  mk_stats (nreceived t) (nrepeats t) (slong (ntransmitted t + 1)) (tmin t) (tmax t) (tsum t).

Lemma runs_upd_sta f s (Q : unit -> st ping_w -> Prop) :
  Q tt (mkst (out s) (mk_w (cf (dev s)) (f (sta (dev s))) (buf (dev s)) (iow (dev s)))) -> runs (upd_sta f) s Q.
Proof. intros. by apply runs_setdev. Qed.
Lemma runs_upd_buf f s (Q : unit -> st ping_w -> Prop) :
  Q tt (mkst (out s) (mk_w (cf (dev s)) (sta (dev s)) (f (buf (dev s))) (iow (dev s)))) -> runs (upd_buf f) s Q.
Proof. intros. by apply runs_setdev. Qed.

(** How many events were taken and how often [select] was asked. *)
Definition polls (i : io) : nat * nat := (n_event i, n_select i).

(** What [pinger] leaves behind. *)
Definition pinger_post (w w' : ping_w) : Prop :=
  let seq := u16 (ntransmitted (sta w)) in
  cf w' = cf w /\ sta w' = sent_one (sta w) /\
  sent (iow w') = echo_request (ident (cf w)) seq (request_body w) :: sent (iow w) /\
  rcvd_tbl (buf w') = tbl_clr (rcvd_tbl (buf w)) (seq mod MAX_DUP_CHK) /\
  (forall i, 8 + (if timing (cf w) then sizeof_timeval else 0) <= i ->
     loadb (outpack (buf w')) i = loadb (outpack (buf w)) i) /\
  packet (buf w') = packet (buf w) /\ alarms (iow w') = alarms (iow w) /\
  alarm_finish (iow w') = alarm_finish (iow w) /\ polls (iow w') = polls (iow w).

Lemma pinger_send_ok w s h body :
  cfg_ok (cf w) -> length body = Z.to_nat (datalen (cf w)) -> length h = 8%nat ->
  load_bytes (outpack (buf (dev s))) 0 (Z.to_nat (datalen (cf w) + 8)) = h ++ body ->
  runs (pinger_send os w) s (fun _ s' =>
    cf (dev s') = cf (dev s) /\ sta (dev s') = sta (dev s) /\
    sent (iow (dev s')) = splice 2 (le_bytes 2 (in_cksum (h ++ body))) (h ++ body) :: sent (iow (dev s)) /\
    buf (dev s') = set_outpack (store_bytes (outpack (buf (dev s))) 2 (le_bytes 2 (in_cksum (h ++ body)))) (buf (dev s)) /\
    alarms (iow (dev s')) = alarms (iow (dev s)) /\ alarm_finish (iow (dev s')) = alarm_finish (iow (dev s)) /\
    polls (iow (dev s')) = polls (iow (dev s))).
Proof.
  intros (Hd & Hm & _) Hb Hh Hx. unfold pinger_send. apply runs_bind, runs_out_load; [lia|lia|]. rewrite Hx.
  apply runs_bind, runs_out_store; [lia|rewrite le_bytes_length; unfold MAXPACKET; lia|].
  apply runs_bind, runs_out_load; [lia|lia|]. cbn [dev buf outpack set_outpack].
  rewrite (load_bytes_splice _ 0 _ 2 _ (le_bytes_is_byte 2 _)) by (rewrite le_bytes_length; lia). rewrite Hx.
  apply runs_bind. unfold sendto. apply runs_devop. cbn [fst snd]. apply runs_bind.
  apply runs_when; intros _; [apply runs_bind; apply runs_when; intros _; unfold perror; runs_steps|];
    apply runs_when; intros _; runs_steps; cbn; repeat split; reflexivity.
Qed.

(** The optional time stamp. *)
Lemma stamp_ok c s : cfg_ok c ->
  runs (when (timing c) (tv ← gettime os;
          out_store 8 (le_bytes (Z.to_nat sizeof_ul) (fst tv) ++ le_bytes (Z.to_nat sizeof_ul) (snd tv)))) s (fun _ s' =>
    let t := stamp c (os_clock os (n_clock (iow (dev s)))) in
    exists k, out s' = out s /\ dev s' = mk_w (cf (dev s)) (sta (dev s))
      (set_outpack (store_bytes (outpack (buf (dev s))) 8 t) (buf (dev s)))
      (mk_io (sent (iow (dev s))) (sockopts (iow (dev s))) (alarms (iow (dev s))) (alarm_finish (iow (dev s))) k
         (n_event (iow (dev s))) (n_select (iow (dev s))))).
Proof.
  intros (Hd & Hm & _ & Ht). unfold stamp. apply runs_when; intros E; rewrite E.
  - pose proof sizeof_ul_pos. specialize (Ht E). unfold sizeof_timeval in Ht.
    apply runs_bind. unfold gettime. apply runs_devop. cbn [fst snd].
    apply runs_out_store; [lia|rewrite length_app, !le_bytes_length; lia|]. by eexists.
  - exists (n_clock (iow (dev s))). split; [done|]. destruct s as [o [c' t' b i]], b, i. done.
Qed.

Lemma request_body_length w : cfg_ok (cf w) -> length (request_body w) = Z.to_nat (datalen (cf w)).
Proof.
  intros (Hd & Hm & _ & Ht). unfold request_body. rewrite length_app, load_bytes_length.
  pose proof (stamp_length (cf w) (os_clock os (n_clock (iow w)))) as Hl.
  destruct (timing (cf w)); [specialize (Ht eq_refl)|]; lia.
Qed.

Lemma pinger_ok s : cfg_ok (cf (dev s)) -> runs (pinger os) s (fun _ s' => pinger_post (dev s) (dev s')).
Proof.
  intros Hc. pose proof Hc as (Hd & Hm & Hi & Ht). unfold pinger. set (w := dev s) in *. runs_steps. fold w.
  set (seq := u16 (ntransmitted (sta w))). set (n := Z.to_nat (datalen (cf w) + 8)).
  apply runs_out_store; [lia|unfold MAXPACKET; cbn [length app le_bytes]; lia|]. apply runs_bind, runs_upd_sta.
  apply runs_bind, runs_out_store; [lia|rewrite le_bytes_length; unfold MAXPACKET; lia|].
  apply runs_bind, runs_out_store; [lia|rewrite le_bytes_length; unfold MAXPACKET; lia|].
  apply runs_bind, runs_upd_buf. cbn [dev out cf sta buf iow outpack set_outpack set_tbl rcvd_tbl packet old_rrlen old_rr].
  fold w. set (m3 := store_bytes _ 4 _).
  set (x := load_bytes (outpack (buf w)) 0 n).
  assert (load_bytes m3 0 n = echo_header (ident (cf w)) seq [0; 0] ++ drop 8 x) as Hx.
  { unfold m3, x, n. rewrite <- header_splices by (rewrite load_bytes_length; lia).
    rewrite (load_bytes_splice _ 0 _ 4), (load_bytes_splice _ 0 _ 6), (load_bytes_splice _ 0 _ 0);
      [reflexivity|..]; try apply le_bytes_is_byte; try (by repeat constructor); rewrite ?le_bytes_length; cbn [length app le_bytes]; lia. }
  apply runs_bind. eapply runs_mono; [by apply stamp_ok|]. cbn [dev out cf sta buf iow outpack sent alarms n_clock].
  intros [] s5 (k & _ & Hs5). set (t := stamp _ _) in Hs5.
  pose proof (stamp_length (cf w) (os_clock os (n_clock (iow w)))) as Hlt. fold t in Hlt.
  assert (Z.of_nat (length t) <= datalen (cf w)) as Htn
    by (rewrite Hlt; destruct (timing (cf w)); [by apply Ht|lia]).
  assert (Forall is_byte t) as Hbt.
  { unfold t, stamp. destruct (timing (cf w)); [|constructor]. apply Forall_app; split; apply le_bytes_is_byte. }
  assert (load_bytes (store_bytes m3 8 t) 0 n = echo_header (ident (cf w)) seq [0; 0] ++ request_body w) as Hl.
  { rewrite (load_bytes_splice m3 0 t 8 n Hbt) by (unfold n; lia). rewrite Hx, time_splice by done.
    unfold request_body. fold t. do 2 f_equal. rewrite drop_drop. unfold x, n.
    replace (Z.to_nat (datalen (cf w) + 8)) with ((8 + length t) + (Z.to_nat (datalen (cf w)) - length t))%nat by lia.
    rewrite load_bytes_drop. f_equal. lia. }
  eapply runs_mono.
  { eapply (pinger_send_ok w s5 (echo_header (ident (cf w)) seq [0; 0]) (request_body w));
      [done|by apply request_body_length|done|]. rewrite Hs5. cbn [buf outpack set_outpack]. exact Hl. }
  intros [] s6 (E1 & E2 & E3 & E4 & E5 & E6 & E7). rewrite Hs5 in *. cbn [cf sta buf iow sent alarms alarm_finish] in *. cbn [polls n_event n_select] in E7.
  unfold pinger_post. fold w seq. split; [done|]. split; [done|]. split; [rewrite E3; reflexivity|].
  rewrite E4. cbn [rcvd_tbl set_outpack packet outpack]. split; [done|]. split; [|done].
  intros i Hge. cbn [outpack set_tbl set_outpack]. unfold m3. rewrite !loadb_store_bytes_out; [done|..];
    rewrite ?le_bytes_length; cbn [length app le_bytes]; rewrite <- Hlt in Hge; lia.
Qed.
End runs.

(** * ping: the display functions

    They write text and remember the last recorded route; counters, table,
    packets and clock stay as they are, and their loops end. *)

Import Ping.

(** Everything but the remembered route. *)
Definition view (w : ping_w) : cfg * stats * ram * list Z * ram * io :=
  (cf w, sta w, outpack (buf w), rcvd_tbl (buf w), packet (buf w), iow w).

(** [frm m Q]: [m] returns a value with [Q] or makes an access that is not
    allowed, and keeps the view. *)
Definition frm {A} (m : M ping_w A) (Q : A -> Prop) : Prop :=
  forall s, wp m s (fun r s' => view (dev s') = view (dev s) /\
    match r with Ret a => Q a | Crash => True | _ => False end).

Section frm.
Context {A B : Type}.

Lemma frm_ret (a : A) (Q : A -> Prop) : Q a -> frm (mret a) Q.
Proof. intros H s. by split. Qed.

Lemma frm_crash (Q : A -> Prop) : frm crash Q.
Proof. intros s. by split. Qed.

Lemma frm_mono (m : M ping_w A) (P Q : A -> Prop) : frm m P -> (forall a, P a -> Q a) -> frm m Q.
Proof. intros H HPQ s. eapply wp_mono; [apply H|]. intros [] s' [Hv Hr]; auto. Qed.

Lemma frm_bind (m : M ping_w A) (f : A -> M ping_w B) (P : A -> Prop) (Q : B -> Prop) :
  frm m P -> (forall a, P a -> frm (f a) Q) -> frm (m ≫= f) Q.
Proof.
  intros Hm Hf s. apply wp_bind. eapply wp_mono; [apply Hm|]. intros [a| | | |] s' [Hv Hr]; try done.
  eapply wp_mono; [by apply Hf|]. intros r s2 [Hv2 Hr2]. split; [congruence|done].
Qed.
End frm.

Section rules.
Lemma frm_printf x (Q : unit -> Prop) : Q tt -> frm (printf x) Q.
Proof. intros H s. by split. Qed.

Lemma frm_getdev (Q : ping_w -> Prop) : (forall w, Q w) -> frm getdev Q.
Proof. intros H s. split; [done|apply H]. Qed.

Lemma frm_when (b : bool) m (Q : unit -> Prop) : frm m Q -> Q tt -> frm (when b m) Q.
Proof. destruct b; [done|]. intros _ H. by apply frm_ret. Qed.

Lemma frm_for n (body : Z -> M ping_w unit) : (forall i, frm (body i) (fun _ => True)) ->
  forall i, frm (for_ n i body) (fun _ => True).
Proof.
  intros Hb. induction n as [|n IH]; intros i; [by apply frm_ret|]. cbn [for_].
  eapply frm_bind; [apply Hb|]. intros _ _. apply IH.
Qed.

Lemma frm_for_acc {S R} n (body : Z -> S -> M ping_w (S + R)) : (forall i a, frm (body i a) (fun _ => True)) ->
  forall i a, frm (for_acc n i a body) (fun _ => True).
Proof.
  intros Hb. induction n as [|n IH]; intros i a; [by apply frm_ret|]. cbn [for_acc].
  eapply frm_bind; [apply Hb|]. intros [a'|v] _; [apply IH|by apply frm_ret].
Qed.

(** A loop whose measure falls. *)
Lemma frm_while {S R} (I : S -> Prop) (mu : S -> Z) (body : S -> M ping_w (S + R)) (Q : R -> Prop) :
  (forall a, I a -> frm (body a) (fun r =>
     match r with inl a' => I a' /\ 0 <= mu a' < mu a | inr v => Q v end)) ->
  forall fuel a, I a -> mu a < Z.of_nat fuel -> (0 < fuel)%nat -> frm (while_ fuel a body) Q.
Proof.
  intros Hb. induction fuel as [|f IH]; intros a HI Hm Hf; [lia|]. cbn [while_].
  eapply frm_bind; [by apply Hb|]. intros [a'|v] H; [|by apply frm_ret].
  destruct H as [HI' H]. apply IH; [done|lia|lia].
Qed.

Lemma frm_pk i : frm (pk i) is_byte.
Proof.
  unfold pk. eapply frm_bind; [by apply (frm_getdev (fun _ => True))|]. intros w _.
  destruct (_ && _)%bool; [|apply frm_crash]. apply frm_ret, loadb_byte.
Qed.
End rules.

(** Straight-line code. *)
Ltac frm_step :=
  match goal with
  | |- frm (mret _) _ => apply frm_ret
  | |- frm crash _ => apply frm_crash
  | |- frm (printf _) _ => apply frm_printf
  | |- frm getdev _ => apply (frm_getdev (fun _ => True)); intros
  | |- frm (pk _) _ => eapply frm_mono; [apply frm_pk|]
  | |- frm (when _ _) _ => apply frm_when
  | |- frm (for_ _ _ _) _ => apply frm_for; intros
  | |- frm (for_acc _ _ _ _) _ => apply frm_for_acc; intros
  | |- frm (_ ≫= _) _ => eapply (frm_bind _ _ (fun _ => True)); [|intros]
  | |- frm (match ?x with _ => _ end) _ => destruct x
  end; try done.
Ltac frm_steps := repeat frm_step.

Section display.
Context `{DM : DataModel} (os : ping_os).

Lemma frm_pr_addr a : frm (pr_addr os a) (fun _ => True).
Proof. unfold pr_addr. frm_steps. Qed.

Lemma frm_pk_bytes n : forall i, frm (pk_bytes i n) (fun _ => True).
Proof. induction n as [|n IH]; intros i; cbn [pk_bytes]; frm_steps. Qed.

Lemma frm_pr_retip ip : frm (pr_retip ip) (fun _ => True).
Proof. unfold pr_retip, pr_iph, pr_ports, pk16, pk4. frm_steps. Qed.

Lemma frm_pr_icmph icp : frm (pr_icmph icp) (fun _ => True).
Proof.
  unfold pr_icmph. eapply frm_bind; [apply frm_pk|]. intros type _.
  repeat case_match; unfold pk4; frm_steps; apply frm_pr_retip.
Qed.

Lemma frm_route_loop lim cp hlen n : 0 <= lim -> n <= 255 ->
  frm (route_loop os lim cp hlen n) (fun x => snd x <= hlen).
Proof.
  intros Hl Hn. unfold route_loop.
  apply (frm_while (fun x : Z * Z * Z => snd (fst x) <= hlen) (fun x => snd x / 4)); [|cbn; lia| |lia].
  - intros [[c h] k] Hh. cbn [fst snd] in *. unfold route_round.
    do 4 (eapply frm_bind; [apply frm_pk|intros ? _]).
    eapply (frm_bind _ _ (fun _ => True)); [|intros _ _].
    + frm_step; frm_steps. apply frm_pr_addr.
    + destruct (Z.leb_spec (k - 4) lim); [apply frm_ret; cbn; lia|].
      eapply (frm_bind _ _ (fun _ => True)); [by apply frm_printf|]. intros _ _. apply frm_ret. cbn [fst snd].
      replace k with (k - 4 + 1 * 4) at 3 by lia. rewrite Z.div_add by lia.
      pose proof (Z.div_pos (k - 4) 4). lia.
  - cbn [snd]. apply Z.div_lt_upper_bound; lia.
Qed.

Lemma frm_lsrr cp hlen : frm (lsrr os cp hlen) (fun x => snd x <= hlen).
Proof.
  unfold lsrr. eapply (frm_bind _ _ (fun _ => True)); [by apply frm_printf|]. intros _ _.
  eapply frm_bind; [apply frm_pk|]. intros j Hj. unfold is_byte in Hj.
  destruct (_ <? j); [|apply frm_ret; cbn; lia].
  eapply frm_mono; [apply frm_route_loop; [unfold IPOPT_MINOFF; lia|lia]|]. intros x. cbn. lia.
Qed.

Lemma frm_set_old_rr n l : frm (upd_buf (fun b => set_old_rr n (l b) b)) (fun _ => True).
Proof. intros s. by split. Qed.

Lemma frm_record_route cp hlen : frm (record_route os cp hlen) (fun x => snd x <= hlen).
Proof.
  unfold record_route. eapply frm_bind; [apply frm_pk|]. intros j Hj. eapply frm_bind; [apply frm_pk|]. intros i Hi.
  unfold is_byte in *. set (k := (if j <? i then j else i) - IPOPT_MINOFF).
  assert (k <= 251) by (unfold k, IPOPT_MINOFF; destruct (j <? i); lia).
  destruct (Z.leb_spec k 0); [apply frm_ret; cbn; lia|].
  eapply (frm_bind _ _ (fun _ => True)); [by apply frm_getdev|]. intros w _.
  eapply (frm_bind _ _ (fun _ => True)).
  { frm_step; frm_steps. apply frm_pk_bytes. }
  intros same _. destruct (same && _)%bool.
  - eapply (frm_bind _ _ (fun _ => True)); [by apply frm_printf|]. intros _ _. apply frm_ret. cbn [snd].
    pose proof (Z.quot_pos (k + 3) 4). lia.
  - eapply frm_bind; [apply frm_pk_bytes|]. intros l _. destruct (_ <? k); [apply frm_crash|].
    eapply frm_bind; [apply frm_set_old_rr|]. intros _ _.
    eapply (frm_bind _ _ (fun _ => True)); [by apply frm_printf|]. intros _ _.
    eapply frm_mono; [apply frm_route_loop; lia|]. intros x. cbn. lia.
Qed.

Lemma frm_show_options hlen : hlen <= 60 -> frm (show_options os hlen) (fun _ => True).
Proof.
  intros Hh. unfold show_options.
  apply (frm_while (fun _ => True) (fun x : Z * Z => Z.max 0 (fst x - 20))); [|done|cbn; lia|lia].
  intros [h cp] _. unfold option_round, sizeof_iphdr. cbn [fst].
  destruct (Z.ltb_spec 20 h); cbn [negb]; [|by apply frm_ret].
  eapply frm_bind; [apply frm_pk|]. intros b _.
  eapply (frm_bind _ _ (fun y => snd y <= h)).
  - assert (forall x, frm (printf x;; mret (cp, h)) (fun y => snd y <= h)) as Hp.
    { intros x. eapply (frm_bind _ _ (fun _ => True)); [by apply frm_printf|]. intros _ _. apply frm_ret. cbn. lia. }
    repeat case_match; first [apply Hp | apply frm_lsrr | apply frm_record_route | apply frm_ret; cbn; lia].
  - intros [c h'] Hs. cbn [snd] in Hs. apply frm_ret. cbn [fst]. lia.
Qed.

Lemma frm_out_load i n : frm (out_load i n) (fun _ => True).
Proof. unfold out_load. frm_steps. Qed.

Lemma frm_check_data icp dlen : frm (check_data icp dlen) (fun _ => True).
Proof. unfold check_data, dump_data. frm_steps. apply frm_out_load. Qed.
End display.
