(* ===== verification/PingLoop.v ===== *)
(** * ping: an abstract machine for its counters, and the refinement

    Abstractly ping counts requests and replies and remembers which numbers,
    modulo the size of its table, were answered since they were last used. The
    labels of a run are determined by the packets and alarms that arrive. *)

From stdpp Require Import base list strings numbers gmap.
From Stdlib Require Import ZArith Lia Ascii.
From S2P Require Import Prelude CInt CLib Memory Ping PingOk PingRun.

Import Ping.

(** ** The abstract machine *)

Record spec_st := mk_sp { sp_sent : Z; sp_seen : gset Z; sp_received : Z; sp_repeats : Z }.
Inductive label : Type := Send | Reply (seq : Z).

Definition slot (seq : Z) : Z := seq mod MAX_DUP_CHK.

Inductive sp_step : spec_st -> label -> spec_st -> Prop :=
| step_send n seen rc rp :
    sp_step (mk_sp n seen rc rp) Send (mk_sp (n + 1) (seen ∖ {[slot n]}) rc rp)
| step_new n seen rc rp seq : slot seq ∉ seen ->
    sp_step (mk_sp n seen rc rp) (Reply seq) (mk_sp n ({[slot seq]} ∪ seen) (rc + 1) rp)
| step_dup n seen rc rp seq : slot seq ∈ seen ->
    sp_step (mk_sp n seen rc rp) (Reply seq) (mk_sp n seen rc (rp + 1)).

Inductive sp_steps : spec_st -> list label -> spec_st -> Prop :=
| steps_nil x : sp_steps x [] x
| steps_cons x l y ls z : sp_step x l y -> sp_steps y ls z -> sp_steps x (l :: ls) z.

Lemma steps_app x ls y ls' z : sp_steps x ls y -> sp_steps y ls' z -> sp_steps x (ls ++ ls') z.
Proof. induction 1; [done|]. intros. econstructor; eauto. Qed.

Lemma steps_one x l y : sp_step x l y -> sp_steps x [l] y.
Proof. intros. econstructor; [done|constructor]. Qed.

Definition sp_init : spec_st := mk_sp 0 ∅ 0 0.

(** Every reply answers a request sent before it: its number is that of the
    request in 16 bits. *)
Fixpoint answers (sent : Z) (ls : list label) : Prop :=
  match ls with
  | [] => True
  | Send :: ls' => answers (sent + 1) ls'
  | Reply seq :: ls' => (exists i, 0 <= i < sent /\ seq = i mod 65536) /\ answers sent ls'
  end.

(** The slots used by the first [n] requests. *)
Definition slots (n : Z) : gset Z := list_to_set (slot <$> seqZ 0 n).

(** A slot that is used and not answered stands for a request without a reply. *)
Definition sp_inv (x : spec_st) : Prop :=
  0 <= sp_sent x /\ 0 <= sp_received x /\
  sp_received x + Z.of_nat (size (slots (sp_sent x) ∖ sp_seen x)) <= sp_sent x.

Lemma slots_S n : 0 <= n -> slots (n + 1) = slots n ∪ {[slot n]}.
Proof.
  intros Hn. unfold slots. rewrite seqZ_app, Z.add_0_l by lia. change (seqZ n 1) with [0 + n].
  rewrite Z.add_0_l, fmap_app, list_to_set_app_L. cbn. set_solver.
Qed.

Lemma slot_answer i : 0 <= i -> slot (i mod 65536) = slot i.
Proof. intros Hi. unfold slot, MAX_DUP_CHK. apply Z.mod_mod_divide. by exists 64. Qed.

Lemma elem_of_slots i n : 0 <= i < n -> slot i ∈ slots n.
Proof.
  intros Hi. unfold slots. apply elem_of_list_to_set, list_elem_of_fmap. exists i. split; [done|].
  apply elem_of_seqZ. lia.
Qed.

Lemma sp_inv_step x l y : sp_inv x -> sp_step x l y ->
  match l with Send => True | Reply seq => exists i, 0 <= i < sp_sent x /\ seq = i mod 65536 end ->
  sp_inv y /\ sp_sent y = (match l with Send => sp_sent x + 1 | _ => sp_sent x end).
Proof.
  intros (H1 & H2 & H3) Hstep Hv. destruct Hstep as [n seen rc rp|n seen rc rp seq Hn|n seen rc rp seq Hn]; cbn in *.
  - split; [|done]. split; [cbn; lia|]. split; [done|]. cbn [sp_sent sp_seen sp_received]. rewrite slots_S by done.
    assert (size ((slots n ∪ {[slot n]}) ∖ (seen ∖ {[slot n]})) <= size (slots n ∖ seen) + 1)%nat; [|lia].
    transitivity (size ({[slot n]} ∪ slots n ∖ seen)).
    { apply subseteq_size. intros k. rewrite elem_of_difference, !elem_of_union, !elem_of_difference, !elem_of_singleton.
      destruct (decide (k = slot n)); tauto. }
    rewrite size_union_alt, size_singleton. pose proof (subseteq_size ((slots n ∖ seen) ∖ {[slot n]}) (slots n ∖ seen)).
    assert (size ((slots n ∖ seen) ∖ {[slot n]}) <= size (slots n ∖ seen))%nat by (apply subseteq_size; set_solver). lia.
  - split; [|done]. destruct Hv as (i & Hi & ->). rewrite slot_answer in * by lia. pose proof (elem_of_slots i n Hi) as He.
    split; [done|]. split; [cbn; lia|]. cbn [sp_sent sp_seen sp_received].
    assert (slots n ∖ seen = {[slot i]} ∪ slots n ∖ ({[slot i]} ∪ seen)) as E.
    { apply set_eq. intros k. rewrite !elem_of_difference, !elem_of_union, !elem_of_difference, elem_of_union, !elem_of_singleton.
      destruct (decide (k = slot i)) as [->|]; [tauto|]. tauto. }
    rewrite E, size_union, size_singleton in H3 by set_solver. lia.
  - by repeat split.
Qed.

Lemma sp_inv_steps x ls y : sp_steps x ls y -> sp_inv x -> answers (sp_sent x) ls -> sp_inv y.
Proof.
  induction 1 as [|x l y ls z Hs Hss IH]; [done|]. intros Hi Ha.
  destruct (sp_inv_step x l y Hi Hs) as [Hy Hn]; [by destruct l; [|apply Ha]|].
  apply IH; [done|]. rewrite Hn. by destruct l; [|apply Ha].
Qed.

Lemma sp_inv_init : sp_inv sp_init.
Proof. by repeat split. Qed.

(** ** The relation *)

(** What the machine abstracts, and what else the loop depends on. *)
Definition core (w : ping_w) : Z * Z * Z * list Z :=
  (nreceived (sta w), nrepeats (sta w), ntransmitted (sta w), rcvd_tbl (buf w)).
Definition amb (w : ping_w) : cfg * ram * ram * list (list Z) * bool * (nat * nat) :=
  (cf w, outpack (buf w), packet (buf w), sent (iow w), alarm_finish (iow w), polls (iow w)).

Section refine.
Context `{DM : DataModel} (os : ping_os).
Implicit Types s : st ping_w.

(** Counters agree up to the width of [long], the table with the set. *)
Definition R (x : Z * Z * Z * list Z) (sp : spec_st) : Prop :=
  let '(rc, rp, n, t) := x in
  rc = slong (sp_received sp) /\ rp = slong (sp_repeats sp) /\ n = slong (sp_sent sp) /\ tbl_ok t /\
  forall k, 0 <= k < MAX_DUP_CHK -> tbl_tst t k = bool_decide (k ∈ sp_seen sp).

Lemma slong_add x d : slong (slong x + d) = slong (x + d).
Proof.
  assert (2 ^ long_bits <> 0) by (apply Z.pow_nonzero; [lia|pose proof long_bits_pos; lia]).
  unfold slong, wraps. set (h := 2 ^ (long_bits - 1)). set (B := 2 ^ long_bits) in *.
  replace ((x + h) mod B - h + d + h) with ((x + h) mod B + d) by lia.
  rewrite Z.add_mod_idemp_l by done. do 2 f_equal. lia.
Qed.

(** Unsigned arithmetic does not see the wrap of its operands. *)
Lemma ulong_slong_add x y : ulong (slong x + slong y) = ulong (x + y).
Proof.
  assert (2 ^ long_bits <> 0) by (apply Z.pow_nonzero; [lia|pose proof long_bits_pos; lia]).
  unfold ulong, wrapu, slong, wraps. set (h := 2 ^ (long_bits - 1)). set (B := 2 ^ long_bits) in *.
  replace ((x + h) mod B - h + ((y + h) mod B - h)) with ((x + h) mod B + ((y + h) mod B - 2 * h)) by lia.
  rewrite Z.add_mod_idemp_l by done.
  replace (x + h + ((y + h) mod B - 2 * h)) with ((y + h) mod B + (x - h)) by lia.
  rewrite Z.add_mod_idemp_l by done. f_equal. lia.
Qed.

Lemma u16_slong x : u16 (slong x) = x mod 65536.
Proof.
  unfold u16, wrapu, slong, wraps. change (2 ^ 16) with 65536.
  assert (exists q, 2 ^ long_bits = q * 65536 /\ 0 < q) as (q & Hq & Hq0).
  { destruct long_bits_cases as [-> | ->]; [by exists (2 ^ 16)|by exists (2 ^ 48)]. }
  rewrite Hq. set (y := x + 2 ^ (long_bits - 1)).
  rewrite Zminus_mod, (Z.mod_mod_divide y (q * 65536) 65536), <- Zminus_mod by (by exists q).
  unfold y. f_equal. lia.
Qed.

Lemma slot_range n : 0 <= slot n < MAX_DUP_CHK.
Proof. apply Z.mod_pos_bound. unfold MAX_DUP_CHK. lia. Qed.

(** Sending clears the slot. *)
Lemma R_send rc rp n t sp : R (rc, rp, n, t) sp ->
  exists sp', sp_step sp Send sp' /\ R (rc, rp, slong (n + 1), tbl_clr t (u16 n mod MAX_DUP_CHK)) sp'.
Proof.
  intros (H1 & H2 & H3 & H4 & H5). destruct sp as [k seen a b]; cbn in *. eexists. split; [constructor|].
  assert (u16 n mod MAX_DUP_CHK = slot k) as ->.
  { rewrite H3, u16_slong. apply Z.mod_mod_divide. by exists 64. }
  destruct (tbl_clr_ok t (slot k) H4 (slot_range k)) as (T1 & T2 & T3).
  split; [done|]. split; [done|]. split; [by rewrite H3, slong_add|]. split; [done|]. intros j Hj. cbn [sp_seen].
  destruct (decide (j = slot k)) as [->|Hne].
  - rewrite T2. symmetry. apply bool_decide_eq_false. set_solver.
  - rewrite T3, H5 by done. apply bool_decide_ext. set_solver.
Qed.

(** A reply is new or a duplicate. *)
Lemma R_reply rc rp n t sp seq : R (rc, rp, n, t) sp ->
  exists sp', sp_step sp (Reply seq) sp' /\
    R (if tbl_tst t (slot seq) then (slong (slong (rc + 1) - 1), slong (rp + 1), n, t)
       else (slong (rc + 1), rp, n, tbl_set t (slot seq))) sp'.
Proof.
  intros (H1 & H2 & H3 & H4 & H5). destruct sp as [k seen a b]; cbn in *.
  rewrite H5 by apply slot_range. case_bool_decide as E.
  - eexists. split; [by apply step_dup|]. split; [|by rewrite H2, slong_add].
    cbn. change (slong (rc + 1) - 1) with (slong (rc + 1) + (-1)). rewrite slong_add, H1.
    replace (slong a + 1 + -1) with (slong a + 0) by lia. rewrite slong_add. f_equal. lia.
  - eexists. split; [by apply step_new|]. destruct (tbl_set_ok t (slot seq) H4 (slot_range seq)) as (T1 & T2 & T3).
    split; [by rewrite H1, slong_add|]. split; [done|]. split; [done|]. split; [done|]. intros j Hj. cbn [sp_seen].
    destruct (decide (j = slot seq)) as [->|Hne].
    + rewrite T2. symmetry. apply bool_decide_eq_true. set_solver.
    + rewrite T3, H5 by done. apply bool_decide_ext. set_solver.
Qed.
End refine.

(** * ping: the main loop refines the abstract machine *)

Import Ping.

(** ** Packets and their labels *)

Definition at_ (b : list Z) (i : Z) : Z := default 0 (b !! Z.to_nat i).
(** Length of the IP header. *)
Definition ip_hlen (b : list Z) : Z := Z.shiftl (Z.land (at_ b 0) 15) 2.

(** A packet counts when it is long enough and an echo reply with our
    identifier. *)
Definition packet_label (c : cfg) (b : list Z) : list label :=
  let h := ip_hlen b in
  if Z.of_nat (length b) <? datalen c + ICMP_MINLEN then []
  else if negb (at_ b h =? 0) then []
  else if negb (at_ b (h + 4) + 256 * at_ b (h + 5) =? ident c) then []
  else [Reply (at_ b (h + 6) + 256 * at_ b (h + 7))].

Definition event_label (c : cfg) (ev : event) : list label :=
  match ev with
  | EvPacket b _ => packet_label c b
  | EvAlarm => [Send]
  | _ => []
  end.

(** The kernel delivers whole IP headers with at least an ICMP header. *)
Definition wf_event (ev : event) : Prop :=
  match ev with
  | EvPacket b _ => Forall is_byte b /\ ip_hlen b + 8 <= Z.of_nat (length b)
  | _ => True
  end.

Lemma ip_hlen_range b : 0 <= ip_hlen b <= 60.
Proof.
  unfold ip_hlen. rewrite Z.shiftl_mul_pow2 by lia. change 15 with (Z.ones 4). rewrite Z.land_ones by lia.
  pose proof (Z.mod_pos_bound (at_ b 0) (2 ^ 4)). lia.
Qed.

Section loop.
Context `{DM : DataModel} (os : ping_os).
Implicit Types s : st ping_w.

(** Functions that touch neither the abstracted state nor what the loop
    depends on. *)
Definition keeps {A} (m : M ping_w A) : Prop := forall s, wp m s (fun r s' =>
  core (dev s') = core (dev s) /\ amb (dev s') = amb (dev s) /\
  match r with Ret _ | Crash => True | _ => False end).

Lemma frm_keeps {A} (m : M ping_w A) Q : frm m Q -> keeps m.
Proof.
  intros H s. eapply wp_mono; [apply H|]. intros r s' [Hv Hr]. unfold view in Hv. unfold core, amb.
  injection Hv as -> -> -> -> -> ->. split; [done|]. split; [done|]. by destruct r.
Qed.

Lemma keeps_bind {A B} (m : M ping_w A) (f : A -> M ping_w B) :
  keeps m -> (forall a, keeps (f a)) -> keeps (m ≫= f).
Proof.
  intros Hm Hf s. apply wp_bind. eapply wp_mono; [apply Hm|]. intros [a| | | |] s' (H1 & H2 & H3); try done.
  eapply wp_mono; [apply Hf|]. intros r s2 (H4 & H5 & H6). by rewrite H4, H5.
Qed.

Lemma keeps_time_reply data tv : keeps (time_reply data tv).
Proof.
  unfold time_reply. apply keeps_bind; [apply (frm_keeps _ (fun _ => True)); frm_steps|]. intros w.
  destruct (timing (cf w)); [|by intros s].
  unfold pk_long. apply keeps_bind; [apply keeps_bind; [eapply frm_keeps, frm_pk_bytes|by intros l s]|]. intros sec.
  apply keeps_bind; [apply keeps_bind; [eapply frm_keeps, frm_pk_bytes|by intros l s]|]. intros usec.
  destruct (tvsub tv (sec, usec)) as [a b]. apply keeps_bind; [by intros s|by intros x s].
Qed.

(** What handling a packet does, for labels [ls] and any way to end. *)
Definition packet_post {A} s (sp : spec_st) (ls : list label) (r : res A) (s' : st ping_w) : Prop :=
  r = Crash \/ ((exists a, r = Ret a) /\ amb (dev s') = amb (dev s) /\
    exists sp', sp_steps sp ls sp' /\ R (core (dev s')) sp').

(** Once the labels are done only parts that keep may follow. *)
Lemma keeps_post {A} (m : M ping_w A) s s0 sp ls sp' :
  keeps m -> amb (dev s) = amb (dev s0) -> sp_steps sp ls sp' -> R (core (dev s)) sp' ->
  wp m s (packet_post s0 sp ls).
Proof.
  intros Hk Ha Hs HR. eapply wp_mono; [apply Hk|]. intros r s' (H1 & H2 & H3). destruct r as [a| | | |]; try done.
  - right. split; [by eexists|]. split; [congruence|]. exists sp'. by rewrite H1.
  - by left.
Qed.

Lemma wp_pk i s (Q : res Z -> st ping_w -> Prop) :
  (0 <= i < packlen (cf (dev s)) -> Q (Ret (loadb (packet (buf (dev s))) i)) s) -> Q Crash s -> wp (pk i) s Q.
Proof.
  intros H1 H2. unfold pk. apply wp_bind. unfold wp at 1. cbn [getdev devop fst snd]. destruct s as [o w]. cbn [dev out] in *.
  destruct (Z.leb_spec 0 i), (Z.ltb_spec i (packlen (cf w))); cbn [andb]; try exact H2. apply wp_ret, H1. lia.
Qed.

(** The buffer starts with the packet [b]. *)
Definition holds (w : ping_w) (b : list Z) : Prop :=
  forall i, 0 <= i < Z.of_nat (length b) -> loadb (packet (buf w)) i = at_ b i.

Lemma holds_store w t i b g : Forall is_byte g ->
  holds (mk_w w t (set_packet (store_bytes (packet b) 0 g) b) i) g.
Proof.
  intros Hb k Hk. cbn [buf packet set_packet]. unfold at_.
  pose proof (load_bytes_lookup (store_bytes (packet b) 0 g) (length g) (Z.to_nat k) 0 ltac:(lia)) as Hl.
  rewrite load_store_bytes in Hl by done. rewrite Hl. replace k with (0 + Z.of_nat (Z.to_nat k)) at 1 by lia. done.
Qed.

Lemma wp_pk16 b i s (Q : res Z -> st ping_w -> Prop) :
  holds (dev s) b -> 0 <= i -> i + 1 < Z.of_nat (length b) ->
  Q (Ret (at_ b i + 256 * at_ b (i + 1))) s -> Q Crash s -> wp (pk16 i) s Q.
Proof.
  intros Hh H0 H1 HQ HC. unfold pk16. apply wp_bind, wp_pk; [|done]. intros _. apply wp_bind, wp_pk; [|done]. intros _.
  apply wp_ret. rewrite !Hh by lia. done.
Qed.

(** [check_dup] after the reply was counted. *)
Lemma check_dup_ok seq rc s s0 sp ls :
  0 <= seq -> R (rc, nrepeats (sta (dev s)), ntransmitted (sta (dev s)), rcvd_tbl (buf (dev s))) sp ->
  nreceived (sta (dev s)) = slong (rc + 1) -> amb (dev s) = amb (dev s0) -> ls = [Reply seq] ->
  runs (check_dup seq) s (fun _ s' => amb (dev s') = amb (dev s0) /\
    exists sp', sp_steps sp ls sp' /\ R (core (dev s')) sp').
Proof.
  intros Hs HR Hrc Ha ->. destruct (R_reply _ _ _ _ _ seq HR) as (sp' & Hst & HR').
  unfold check_dup. runs_steps. fold (slot seq).
  destruct (tbl_tst (rcvd_tbl (buf (dev s))) (slot seq)).
  - apply runs_bind, runs_upd_sta, runs_ret. split; [exact Ha|]. exists sp'. split; [by apply steps_one|].
    unfold core. cbn [dev sta buf nreceived nrepeats ntransmitted]. by rewrite Hrc.
  - apply runs_bind, runs_upd_buf, runs_ret. split; [exact Ha|]. exists sp'. split; [by apply steps_one|].
    unfold core. cbn [dev sta buf rcvd_tbl set_tbl]. by rewrite Hrc.
Qed.

Lemma frm_show_reply w icp cc ttl from triptime seq dupflag :
  frm (show_reply w icp cc ttl from triptime seq dupflag) (fun _ => True).
Proof. unfold show_reply. frm_steps; apply frm_check_data. Qed.

Lemma echo_reply_ok b icp cc ttl from tv s sp :
  R (core (dev s)) sp -> holds (dev s) b -> Forall is_byte b -> 0 <= icp -> icp + 8 <= Z.of_nat (length b) ->
  let id := at_ b (icp + 4) + 256 * at_ b (icp + 5) in
  let seq := at_ b (icp + 6) + 256 * at_ b (icp + 7) in
  wp (echo_reply icp cc ttl from tv) s
    (packet_post s sp (if negb (id =? ident (cf (dev s))) then [] else [Reply seq])).
Proof.
  intros HR Hh Hb H0 H8 id seq. unfold echo_reply. apply wp_bind. unfold wp at 1. cbn [getdev devop fst snd].
  set (w := dev s) in *. assert (mkst (out s) w = s) as -> by (unfold w; by destruct s).
  apply wp_bind, (wp_pk16 b); [done|lia|lia| |by left]. replace (icp + 4 + 1) with (icp + 5) by lia. fold id.
  destruct (id =? ident (cf w)); cbn [negb]; [|by apply (keeps_post _ _ _ _ _ sp); [intros ?|..|constructor|]].
  apply wp_bind. unfold wp at 1. cbn [upd_sta setdev devop fst snd]. fold w.
  set (s1 := mkst _ _). apply wp_bind. eapply wp_mono; [apply keeps_time_reply|].
  intros [trip| | | |] s2 (E1 & E2 & E3); try done; [|by left].
  unfold core, s1 in E1. cbn [dev sta buf nreceived nrepeats ntransmitted rcvd_tbl] in E1.
  injection E1 as F1 F2 F3 F4.
  assert (amb (dev s2) = amb w) as Ha2 by (rewrite E2; reflexivity).
  apply wp_bind, (wp_pk16 b); [|lia|lia| |by left].
  { intros i Hi. rewrite <- (Hh i Hi). f_equal. unfold amb in Ha2. injection Ha2. congruence. }
  replace (icp + 6 + 1) with (icp + 7) by lia. fold seq. apply wp_bind.
  eapply wp_mono; [apply wp_runs, (check_dup_ok seq (nreceived (sta w)) s2 s sp [Reply seq])|].
  - unfold seq, at_. assert (forall i, 0 <= default 0 (b !! i)) as Hp.
    { intros i. destruct (b !! i) as [x|] eqn:E; [|done]. by destruct (Forall_lookup_1 _ _ _ _ Hb E). }
    pose proof (Hp (Z.to_nat (icp + 6))). pose proof (Hp (Z.to_nat (icp + 7))). lia.
  - by rewrite F2, F3, F4.
  - done.
  - done.
  - done.
  - intros ? s3 (dup & -> & Ha3 & sp' & Hst & HR3). eapply keeps_post; [eapply frm_keeps, frm_show_reply|done|done|done].
Qed.

Lemma keeps_gettime : keeps (gettime os).
Proof. by intros s. Qed.

Lemma holds_amb w w' b : amb w' = amb w -> holds w b -> holds w' b.
Proof. intros Ha Hh i Hi. rewrite <- (Hh i Hi). f_equal. unfold amb in Ha. injection Ha. congruence. Qed.

Lemma amb_cf w w' : amb w' = amb w -> cf w' = cf w.
Proof. unfold amb. intros E. injection E. congruence. Qed.

Lemma pr_pack_ok b from s sp :
  R (core (dev s)) sp -> holds (dev s) b -> Forall is_byte b -> ip_hlen b + 8 <= Z.of_nat (length b) ->
  wp (pr_pack os (Z.of_nat (length b)) from) s (packet_post s sp (packet_label (cf (dev s)) b)).
Proof.
  intros HR Hh Hb Hlen. pose proof (ip_hlen_range b) as Hr. unfold pr_pack.
  apply wp_bind. eapply wp_mono; [apply keeps_gettime|]. intros [tv| | | |] s1 (C1 & A1 & Hx); try done; [|by left].
  apply wp_bind. unfold wp at 1. cbn [getdev devop fst snd].
  assert (mkst (out s1) (dev s1) = s1) as -> by (by destruct s1).
  pose proof (holds_amb _ _ b A1 Hh) as Hh1. pose proof (amb_cf _ _ A1) as Hcf. rewrite <- Hcf.
  apply wp_bind, wp_pk; [intros _|by left]. rewrite (Hh1 0) by lia.
  change (Z.shiftl (Z.land (at_ b 0) 15) 2) with (ip_hlen b). cbv zeta. unfold packet_label.
  destruct (_ <? _).
  { apply (keeps_post _ _ _ _ _ sp); [|done|constructor|by rewrite C1].
    intros s2. apply wp_when; intros _; by repeat split. }
  apply wp_bind, wp_pk; [intros _|by left]. rewrite (Hh1 (ip_hlen b)) by lia. set (w1 := dev s1).
  assert (forall hl (d : bool), hl = ip_hlen b ->
    keeps (if d then mret tt else show_options os hl;; when (negb (opt w1 F_FLOOD)) (printf nl))) as Hend.
  { intros hl d ->. apply (frm_keeps _ (fun _ => True)). frm_steps. apply frm_show_options. lia. }
  apply wp_bind. destruct (Z.eqb_spec (at_ b (ip_hlen b)) 0); cbn [negb].
  - apply wp_bind, wp_pk; [intros _|by left].
    eapply wp_mono; [eapply (echo_reply_ok b); [by rewrite C1|done|done|lia|lia]|].
    intros ? s2 [-> | ((d & ->) & A2 & sp' & Hst & HR2)]; [by left|]. fold w1 in A2, Hst |- *.
    eapply keeps_post; [by apply Hend|exact (eq_trans A2 A1)|exact Hst|done].
  - eapply wp_mono.
    { eapply (fun H => frm_keeps _ (fun _ => True) H s1). frm_steps; [apply frm_pr_addr|apply frm_pr_icmph]. }
    intros [d| | | |] s2 (C2 & A2 & H2); try done; [|by left].
    eapply keeps_post; [by apply Hend|exact (eq_trans A2 A1)|constructor|by rewrite C2, C1].
Qed.

(** ** Receiving *)

Lemma at_take n b i : 0 <= i < Z.of_nat n -> at_ (take n b) i = at_ b i.
Proof. intros Hi. unfold at_. by rewrite lookup_take_lt by lia. Qed.

Lemma packet_label_take c n b : Z.of_nat n = datalen c + 136 -> 0 < datalen c ->
  packet_label c (take n b) = packet_label c b.
Proof.
  intros Hn Hd. pose proof (ip_hlen_range b) as Hr.
  assert (ip_hlen (take n b) = ip_hlen b) as Hh by (unfold ip_hlen; by rewrite at_take by lia).
  unfold packet_label. rewrite Hh, !at_take by lia. unfold ICMP_MINLEN. rewrite length_take.
  destruct (Z.ltb_spec (Z.of_nat (length b)) (datalen c + 8)),
    (Z.ltb_spec (Z.of_nat (n `min` length b)) (datalen c + 8)); try lia; done.
Qed.

(** The configurations the loop runs with. *)
Definition loop_cfg (c : cfg) : Prop :=
  cfg_ok c /\ packlen c = datalen c + MAXIPLEN + MAXICMPLEN.

Lemma receive_ok b from s sp :
  R (core (dev s)) sp -> loop_cfg (cf (dev s)) -> wf_event (EvPacket b from) ->
  wp (receive os b from) s (fun r s' => r = Crash \/ ((exists a, r = Ret a) /\ cf (dev s') = cf (dev s) /\
    polls (iow (dev s')) = polls (iow (dev s)) /\
    exists sp', sp_steps sp (packet_label (cf (dev s)) b) sp' /\ R (core (dev s')) sp')).
Proof.
  intros HR (Hc & Hpl) [Hb Hlen]. pose proof (ip_hlen_range b) as Hr. destruct Hc as (Hd & _).
  unfold receive. apply wp_bind. unfold wp at 1. cbn [getdev devop fst snd]. apply wp_bind. unfold wp at 1.
  cbn [upd_buf setdev devop fst snd dev out]. set (n := Z.to_nat (packlen (cf (dev s)))).
  assert (Z.of_nat n = datalen (cf (dev s)) + 136) as Hn by (unfold n, MAXIPLEN, MAXICMPLEN in *; lia).
  set (g := take n b). set (s1 := mkst _ _).
  assert (ip_hlen g = ip_hlen b) as Hh by (unfold ip_hlen, g; by rewrite at_take by lia).
  assert (Forall is_byte g) as Hbg by (by apply Forall_take).
  apply wp_bind. eapply wp_mono; [apply (pr_pack_ok g from s1 sp)|].
  - exact HR.
  - by apply holds_store.
  - done.
  - rewrite Hh. unfold g. rewrite length_take. lia.
  - intros ? s2 [-> | ((a & ->) & A2 & sp' & Hst & HR2)]; [by left|].
    unfold s1 in A2, Hst. cbn [dev cf] in Hst. unfold g in Hst. rewrite packet_label_take in Hst by done.
    apply wp_bind. unfold wp at 1. cbn [getdev devop fst snd].
    unfold amb in A2. cbn [dev cf buf iow] in A2. injection A2 as B1 _ _ _ _ B2 B3.
    destruct (_ && _)%bool; right; cbn; (split; [by eexists|]); (split; [done|]); (split; [by apply pair_eq|]); by exists sp'.
Qed.

(** ** The loop *)

Lemma catcher_ok s sp : R (core (dev s)) sp -> cfg_ok (cf (dev s)) ->
  runs (catcher os) s (fun _ s' => cf (dev s') = cf (dev s) /\ polls (iow (dev s')) = polls (iow (dev s)) /\
    exists sp', sp_step sp Send sp' /\ R (core (dev s')) sp').
Proof.
  intros HR Hc. unfold catcher. apply runs_bind. eapply runs_mono; [by apply pinger_ok|].
  intros [] s1 (H1 & H2 & H3 & H4 & _ & _ & _ & _ & H9). runs_steps.
  assert (exists sp', sp_step sp Send sp' /\ R (core (dev s1)) sp') as HR1.
  { unfold core in *. rewrite H2, H4. cbn [sent_one nreceived nrepeats ntransmitted]. by apply R_send. }
  destruct (_ || _)%bool; unfold set_alarm, upd_io; runs_steps; by repeat split.
Qed.

Lemma finish_ok {A} s : wp (finish (A := A)) s (fun r s' => dev s' = dev s /\ (r = Crash \/ exists c, r = Exit c)).
Proof.
  unfold finish. apply wp_bind, wp_printf, wp_bind. unfold wp at 1. cbn [getdev devop fst snd dev out].
  do 3 (apply wp_bind, wp_printf). cbn [dev].
  apply wp_bind, wp_when; intros _; [apply wp_printf|]; apply wp_bind, wp_when; intros _;
    try (destruct (_ <? _); apply wp_printf); apply wp_bind, wp_printf; apply wp_bind, wp_when; intros _;
    try (destruct (_ =? 0); [split; [done|by left]|apply wp_printf]);
    (destruct (_ =? 0); (split; [done|right; by eexists])).
Qed.


(** In flood mode a round begins with a request and takes an event only when
    [select] finds one. *)
Definition flood (c : cfg) : bool := truth (Z.land (options c) F_FLOOD).
Definition before_event (c : cfg) : list label := if flood c then [Send] else [].
Definition takes_event (c : cfg) (p : nat * nat) : bool := if flood c then os_select os (snd p) else true.
Definition round_labels (c : cfg) (p : nat * nat) : list label :=
  before_event c ++ (if takes_event c p then event_label c (os_event os (fst p)) else []).
Definition round_polls (c : cfg) (p : nat * nat) : nat * nat :=
  ((if takes_event c p then S (fst p) else fst p), (if flood c then S (snd p) else snd p)).

(** The labels of [k] rounds, and the events and polls they take. *)
Fixpoint labels (c : cfg) (p : nat * nat) (k : nat) : list label :=
  match k with O => [] | S k' => round_labels c p ++ labels c (round_polls c p) k' end.
Definition polls_after (c : cfg) (p : nat * nat) (k : nat) : nat * nat := Nat.iter k (round_polls c) p.
(** A round that ends the program has sent its request. *)
Definition ending {A} (c : cfg) (r : res A) : list label := match r with Exit _ => before_event c | _ => [] end.
Definition end_polls {A} (c : cfg) (r : res A) (p : nat * nat) : nat * nat := match r with Exit _ => round_polls c p | _ => p end.

Lemma labels_S c p k : labels c p (S k) = round_labels c p ++ labels c (round_polls c p) k.
Proof. done. Qed.
Lemma polls_after_S c p k : polls_after c p (S k) = polls_after c (round_polls c p) k.
Proof. apply Nat.iter_succ_r. Qed.

(** After a run: the labels of its rounds. *)
Definition loop_post {A} s (sp : spec_st) (r : res A) (s' : st ping_w) : Prop :=
  let c := cf (dev s) in let p := polls (iow (dev s)) in
  r = Crash \/ exists k sp', sp_steps sp (labels c p k ++ ending c r) sp' /\ R (core (dev s')) sp' /\
    polls (iow (dev s')) = end_polls c r (polls_after c p k).

(** The part of a round before an event is taken. *)
Definition before (w : ping_w) : M ping_w bool := if opt w F_FLOOD then pinger os;; select_ready os else mret true.
Lemma before_ok s sp : R (core (dev s)) sp -> cfg_ok (cf (dev s)) ->
  runs (before (dev s)) s (fun go s' => go = takes_event (cf (dev s)) (polls (iow (dev s))) /\ cf (dev s') = cf (dev s) /\
    n_event (iow (dev s')) = n_event (iow (dev s)) /\
    n_select (iow (dev s')) = (if flood (cf (dev s)) then S (n_select (iow (dev s))) else n_select (iow (dev s))) /\
    exists sp', sp_steps sp (before_event (cf (dev s))) sp' /\ R (core (dev s')) sp' /\
      sp_received sp' = sp_received sp /\ sp_repeats sp' = sp_repeats sp).
Proof.
  intros HR Hc. unfold before, opt, takes_event, before_event, flood. destruct (truth _).
  - apply runs_bind. eapply runs_mono; [by apply pinger_ok|]. intros [] s1 (H1 & H2 & _ & H4 & _ & _ & _ & _ & H9).
    injection H9 as N1 N2. apply runs_devop. cbn [fst snd dev iow cf sta buf n_event n_select polls].
    split; [by rewrite N2|]. split; [done|]. split; [done|]. split; [by rewrite N2|].
    assert (exists sp', sp_step sp Send sp' /\ R (core (dev s1)) sp') as (sp' & Hst & HR1).
    { unfold core in *. rewrite H2, H4. cbn [sent_one nreceived nrepeats ntransmitted]. by apply R_send. }
    exists sp'. split; [by apply steps_one|]. split; [exact HR1|]. by inversion Hst.
  - apply runs_ret. split_and!; try done. exists sp. split_and!; try done. constructor.
Qed.

(** One round. *)
Lemma main_round_ok s sp :
  R (core (dev s)) sp -> loop_cfg (cf (dev s)) -> (forall n, wf_event (os_event os n)) ->
  wp (main_round os tt) s (fun r s' => let c := cf (dev s) in let p := polls (iow (dev s)) in
    r = Crash \/
    ((exists z, r = Exit z) /\ polls (iow (dev s')) = round_polls c p /\
     exists sp', sp_steps sp (before_event c) sp' /\ R (core (dev s')) sp') \/
    ((exists a, r = Ret a) /\ cf (dev s') = c /\ polls (iow (dev s')) = round_polls c p /\
     exists sp', sp_steps sp (round_labels c p) sp' /\ R (core (dev s')) sp')).
Proof.
  intros HR0 Hc0 Hwf. pose proof Hc0 as (Hok0 & _). unfold main_round. apply wp_bind. unfold wp at 1.
  cbn [getdev devop fst snd]. fold (before (dev s)). assert (mkst (out s) (dev s) = s) as -> by (by destruct s).
  apply wp_bind. eapply wp_mono; [apply wp_runs, (before_ok s sp HR0 Hok0)|].
  intros ? s0 (go & -> & Hgo & F0 & N0 & M0 & sp0 & Hst0 & HR & _ & _). cbv zeta. set (c := cf (dev s)) in *.
  set (p := polls (iow (dev s))) in *. assert (snd p = n_select (iow (dev s)) /\ fst p = n_event (iow (dev s))) as [P2 P1] by done.
  assert (round_labels c p = before_event c ++ (if go then event_label c (os_event os (fst p)) else [])) as -> by (by rewrite Hgo).
  assert (round_polls c p = ((if go then S (fst p) else fst p), n_select (iow (dev s0)))) as ->.
  { unfold round_polls. by rewrite <- Hgo, M0. }
  destruct go; cbn [negb].
  2: { apply wp_ret. right; right. split; [by eexists|]. split; [done|]. split; [unfold polls; by rewrite N0, P1|].
       exists sp0. by rewrite app_nil_r. }
  apply wp_bind. unfold next_event, wp at 1. cbn [devop fst snd]. set (s1 := mkst _ _).
  assert (core (dev s1) = core (dev s0) /\ cf (dev s1) = c /\ polls (iow (dev s1)) = (S (fst p), n_select (iow (dev s0)))) as (C1 & F1 & N1).
  { split; [done|]. split; [done|]. unfold polls at 1, s1. cbn [dev iow n_event n_select]. by rewrite N0, P1. }
  rewrite N0, <- P1. specialize (Hwf (fst p)). rewrite <- C1 in HR. rewrite <- F1 in Hok0, Hc0. clearbody s1.
  destruct (os_event os (fst p)) as [b from| | |]; cbn [event_label].
  - eapply wp_mono; [by apply (receive_ok b from s1 sp0)|].
    intros r s2 [-> | (Ha & Hcf & Hn & sp' & Hst & HR2)]; [by left|]. right; right.
    split; [done|]. split; [by rewrite Hcf, F1|]. split; [by rewrite Hn, N1|]. exists sp'. split; [|done].
    eapply steps_app; [exact Hst0|]. by rewrite <- F1.
  - apply wp_bind. unfold wp at 1. cbn [getdev devop fst snd]. destruct (alarm_finish (iow (dev s1))).
    + apply wp_bind. eapply wp_mono; [apply finish_ok|]. intros ? s2 [Hd [-> | (z & ->)]]; [by left|].
      right; left. split; [by eexists|]. rewrite Hd. cbn [dev]. split; [done|]. by exists sp0.
    + apply wp_bind. eapply wp_mono; [apply wp_runs; by apply (catcher_ok _ sp0)|].
      intros ? s2 (a & -> & Hcf & Hn & sp' & Hst & HR2). apply wp_ret. right; right. cbn [dev cf iow] in Hcf, Hn.
      split; [by eexists|]. split; [by rewrite Hcf, <- F1|]. split; [by rewrite Hn, <- N1|]. exists sp'.
      split; [eapply steps_app; [exact Hst0|by apply steps_one]|done].
  - eapply wp_mono; [apply finish_ok|]. intros ? s2 [Hd [-> | (z & ->)]]; [by left|].
    right; left. split; [by eexists|]. rewrite Hd. split; [done|]. by exists sp0.
  - apply wp_bind, wp_eprintf, wp_ret. right; right. split; [by eexists|]. split; [done|]. split; [done|].
    exists sp0. by rewrite app_nil_r.
Qed.

Lemma ping_loop_ok fuel : forall s sp,
  R (core (dev s)) sp -> loop_cfg (cf (dev s)) -> (forall n, wf_event (os_event os n)) ->
  wp (main_loop os fuel) s (loop_post s sp).
Proof.
  induction fuel as [|fuel IH]; intros s sp HR Hc Hwf.
  { right. exists 0%nat, sp. by split; [constructor|]. }
  unfold main_loop. cbn [while_]. apply wp_bind. eapply wp_mono; [by apply (main_round_ok s sp)|]. cbv zeta.
  intros ? s1 [-> | [((z & ->) & N1 & sp1 & Hst & HR1) | ((a & ->) & F1 & N1 & sp1 & Hst & HR1)]].
  - by left.
  - right. exists 0%nat, sp1. by split.
  - destruct a as [[]|[]].
    + eapply wp_mono; [apply (IH s1 sp1); by rewrite ?F1|]. intros r s2 [-> | (k & sp' & Hk & HR2 & Hn)]; [by left|].
      right. exists (S k), sp'. rewrite labels_S, polls_after_S, <- app_assoc. rewrite F1, N1 in Hk, Hn.
      split; [by eapply steps_app|]. by split.
    + right. exists 1%nat, sp1. cbn [labels ending end_polls polls_after Nat.iter]. rewrite !app_nil_r. by split.
Qed.
End loop.
