(* ===== verification/PingSafe.v ===== *)
(** * ping: no access outside its buffers

    A packet without IP options is handled inside the receive buffer, whatever
    its type and contents; the accesses that are not checked are those of the
    option display. *)

From stdpp Require Import base list strings numbers gmap.
From Stdlib Require Import ZArith Lia Ascii.
From S2P Require Import Prelude CInt CLib Memory Ping PingOk PingRun PingLoop.
Import Ping.

(** [safe c m Q]: under configuration [c], [m] makes no access that is not
    allowed, keeps [c], and returns only values with [Q]. *)
Definition safe {A} (c : cfg) (m : M ping_w A) (Q : A -> Prop) : Prop :=
  forall s, cf (dev s) = c -> wp m s (fun r s' => cf (dev s') = c /\
    match r with Ret a => Q a | Crash => False | _ => True end).

Section rules.
Context (c : cfg).

Lemma safe_ret {A} (a : A) (Q : A -> Prop) : Q a -> safe c (mret a) Q.
Proof. intros H s Hs. by split. Qed.

Lemma safe_mono {A} (m : M ping_w A) (P Q : A -> Prop) : safe c m P -> (forall a, P a -> Q a) -> safe c m Q.
Proof. intros H HPQ s Hs. eapply wp_mono; [by apply H|]. intros [] s' [Hv Hr]; auto. Qed.

Lemma safe_bind {A B} (m : M ping_w A) (f : A -> M ping_w B) (P : A -> Prop) (Q : B -> Prop) :
  safe c m P -> (forall a, P a -> safe c (f a) Q) -> safe c (m ≫= f) Q.
Proof.
  intros Hm Hf s Hs. apply wp_bind. eapply wp_mono; [by apply Hm|]. intros [a| | | |] s' [Hv Hr]; try done.
  by apply Hf.
Qed.

Lemma safe_getdev : safe c getdev (fun w => cf w = c).
Proof. intros s Hs. by split. Qed.

Lemma safe_printf x (Q : unit -> Prop) : Q tt -> safe c (printf x) Q.
Proof. intros H s Hs. by split. Qed.

Lemma safe_when (b : bool) m (Q : unit -> Prop) : safe c m Q -> Q tt -> safe c (when b m) Q.
Proof. destruct b; [done|]. intros _ H. by apply safe_ret. Qed.

Lemma safe_upd_sta f (Q : unit -> Prop) : Q tt -> safe c (upd_sta f) Q.
Proof. intros H s Hs. by split. Qed.
Lemma safe_upd_buf f (Q : unit -> Prop) : Q tt -> safe c (upd_buf f) Q.
Proof. intros H s Hs. by split. Qed.

Lemma safe_for (body : Z -> M ping_w unit) n : forall i,
  (forall j, i <= j < i + Z.of_nat n -> safe c (body j) (fun _ => True)) -> safe c (for_ n i body) (fun _ => True).
Proof.
  induction n as [|n IH]; intros i Hb; [by apply safe_ret|]. cbn [for_].
  eapply safe_bind; [apply Hb; lia|]. intros _ _. apply IH. intros j Hj. apply Hb. lia.
Qed.

Lemma safe_for_acc {S R} (body : Z -> S -> M ping_w (S + R)) n : forall i a,
  (forall j b, i <= j < i + Z.of_nat n -> safe c (body j b) (fun _ => True)) ->
  safe c (for_acc n i a body) (fun _ => True).
Proof.
  induction n as [|n IH]; intros i a Hb; [by apply safe_ret|]. cbn [for_acc].
  eapply safe_bind; [apply Hb; lia|]. intros [a'|v] _; [|by apply safe_ret]. apply IH. intros j b Hj. apply Hb. lia.
Qed.

Lemma safe_pk i : 0 <= i < packlen c -> safe c (pk i) is_byte.
Proof.
  intros Hi s <-. unfold pk. apply wp_bind. unfold wp at 1. cbn [getdev devop fst snd].
  rewrite (proj2 (Z.leb_le _ _)), (proj2 (Z.ltb_lt _ _)) by lia. by split; [|apply loadb_byte].
Qed.

Lemma safe_out_load i n : 0 <= i -> i + Z.of_nat n <= MAXPACKET -> safe c (out_load i n) (fun _ => True).
Proof. intros H1 H2 s Hs. eapply wp_mono; [apply wp_runs, (runs_out_load _ _ _ (fun _ s' => cf (dev s') = c)); done|].
  by intros r s' (a & -> & H). Qed.
End rules.

(** Straight-line code; offsets are left to arithmetic. *)
Ltac safe_step :=
  match goal with
  | |- safe _ (mret _) _ => apply safe_ret
  | |- safe _ (printf _) _ => apply safe_printf
  | |- safe _ (pk _) _ => eapply safe_mono; [apply safe_pk; lia|]
  | |- safe _ (when _ _) _ => apply safe_when
  | |- safe _ (upd_sta _) _ => apply safe_upd_sta
  | |- safe _ (upd_buf _) _ => apply safe_upd_buf
  | |- safe _ (for_ _ _ _) _ => apply safe_for; intros
  | |- safe _ (for_acc _ _ _ _) _ => apply safe_for_acc; intros
  | |- safe _ (getdev ≫= _) _ => eapply safe_bind; [apply safe_getdev|intros ? ?]
  | |- safe _ (pk _ ≫= _) _ => eapply safe_bind; [apply safe_pk; lia|intros ? ?]
  | |- safe _ (_ ≫= _) _ => eapply (safe_bind _ _ _ (fun _ => True)); [|intros ? ?]
  | |- safe _ (match ?x with _ => _ end) _ => destruct x
  end; try done.
Ltac safe_steps := repeat safe_step.

Section display.
Context `{DM : DataModel} (os : ping_os).

Lemma safe_pk_bytes c n : forall i, 0 <= i -> i + Z.of_nat n <= packlen c -> safe c (pk_bytes i n) (fun _ => True).
Proof. induction n as [|n IH]; intros i H0 Hn; cbn [pk_bytes]; safe_steps. apply IH; lia. Qed.

(** An IP header of at most 60 bytes and the ports after it. *)
Lemma safe_pr_retip c ip : 0 <= ip -> ip + 64 <= packlen c -> safe c (pr_retip ip) (fun _ => True).
Proof.
  intros H0 H1. unfold pr_retip, pr_iph, pr_ports, pk16, pk4.
  assert (forall b, is_byte b -> 0 <= Z.shiftl (Z.land b 15) 2 <= 60) as Hh.
  { intros b _. rewrite Z.shiftl_mul_pow2 by lia. change 15 with (Z.ones 4). rewrite Z.land_ones by lia.
    pose proof (Z.mod_pos_bound b (2 ^ 4)). lia. }
  safe_steps; repeat match goal with H : is_byte ?b |- _ => pose proof (Hh b H); clear H end; safe_steps.
Qed.

Lemma safe_pr_icmph c icp : 0 <= icp -> icp + 72 <= packlen c -> safe c (pr_icmph icp) (fun _ => True).
Proof.
  intros H0 H1. unfold pr_icmph. eapply safe_bind; [apply safe_pk; lia|]. intros type _.
  repeat case_match; unfold pk4; safe_steps; apply safe_pr_retip; lia.
Qed.

Lemma safe_check_data c icp dlen : 0 <= icp -> icp + 20 + dlen <= packlen c -> sizeof_timeval + dlen <= MAXPACKET ->
  safe c (check_data icp dlen) (fun _ => True).
Proof.
  intros H0 H1 H2. pose proof sizeof_ul_pos. unfold check_data, dump_data, sizeof_timeval, sizeof_icmp in *.
  safe_steps. apply safe_out_load; lia.
Qed.

Lemma safe_time_reply c data tv : 0 <= data -> data + 16 <= packlen c -> safe c (time_reply data tv) (fun _ => True).
Proof.
  intros H0 H1. pose proof sizeof_ul_pos. assert (sizeof_ul <= 8) by (unfold sizeof_ul; by destruct long_bits_cases as [-> | ->]).
  unfold time_reply, pk_long. do 2 safe_step.
  eapply (safe_bind _ _ _ (fun _ => True)); [|intros sec _].
  { eapply safe_bind; [apply safe_pk_bytes; lia|]. intros. by apply safe_ret. }
  eapply (safe_bind _ _ _ (fun _ => True)); [|intros usec _].
  { eapply safe_bind; [apply safe_pk_bytes; lia|]. intros. by apply safe_ret. }
  safe_steps.
Qed.

(** The configurations in which data and stamp fit the buffer. *)
Definition fits_cfg (c : cfg) : Prop :=
  loop_cfg c /\ sizeof_timeval + datalen c <= MAXPACKET.

Lemma safe_echo_reply c icp cc ttl from tv : fits_cfg c -> 0 <= icp <= 60 ->
  safe c (echo_reply icp cc ttl from tv) (fun _ => True).
Proof.
  intros [((Hd & _) & Hp) Hf] Hi. unfold MAXIPLEN, MAXICMPLEN in Hp.
  unfold echo_reply, show_reply, pk16, check_dup. safe_step.
  safe_steps; try apply safe_time_reply; try apply safe_check_data; cbv beta in *; subst c; lia.
Qed.

(** A packet without options. *)
Definition plain (ev : event) : Prop :=
  match ev with EvPacket b _ => ip_hlen b <= 20 | _ => True end.

Lemma safe_show_options c h : h <= 20 -> safe c (show_options os h) (fun _ => True).
Proof.
  intros Hh. unfold show_options. cbn [while_]. unfold option_round, sizeof_iphdr. rewrite (proj2 (Z.ltb_ge 20 h) Hh).
  intros s Hs. by split.
Qed.

Lemma safe_pr_addr c a : safe c (pr_addr os a) (fun _ => True).
Proof. unfold pr_addr. safe_steps. Qed.

Lemma safe_gettime c : safe c (gettime os) (fun _ => True).
Proof. intros s Hs. by split. Qed.

Lemma pr_pack_safe b from s : fits_cfg (cf (dev s)) -> holds (dev s) b -> b <> [] -> ip_hlen b <= 20 ->
  wp (pr_pack os (Z.of_nat (length b)) from) s (fun r _ => r <> Crash).
Proof.
  intros Hc Hh Hb Hl. pose proof Hc as [((Hd & _) & Hp) Hf]. unfold MAXIPLEN, MAXICMPLEN in Hp.
  pose proof (ip_hlen_range b) as Hr. assert (0 < Z.of_nat (length b)) by (destruct b; [done|cbn; lia]).
  set (c := cf (dev s)) in *. unfold pr_pack. apply wp_bind. unfold wp at 1. cbn [gettime devop fst snd].
  apply wp_bind. unfold wp at 1. cbn [getdev devop fst snd dev]. set (w := mk_w _ _ _ _).
  assert (cf w = c) as Hw by done. assert (holds w b) as Hhw by exact Hh. clearbody w.
  set (s1 := mkst _ _). assert (dev s1 = w) as E by done. clearbody s1. subst w.
  apply wp_bind. unfold pk at 1. apply wp_bind. unfold wp at 1. cbn [getdev devop fst snd].
  rewrite Hw, (proj2 (Z.ltb_lt 0 _)) by lia. cbn [Z.leb Z.compare andb]. apply wp_ret.
  rewrite (Hhw 0) by lia. change (Z.shiftl (Z.land (at_ b 0) 15) 2) with (ip_hlen b). cbv zeta.
  set (s2 := mkst _ _). assert (cf (dev s2) = c) as Hs2 by exact Hw. clearbody s2. set (opts := opt (dev s1)). clearbody opts.
  set (h := ip_hlen b) in *. set (n := Z.of_nat (length b)) in *. clearbody h n. destruct (_ <? _).
  { apply wp_when; intros _; [by apply wp_eprintf|done]. }
  assert (forall m : M ping_w unit, safe c m (fun _ => True) -> wp m s2 (fun r _ => r <> Crash)) as Hsafe.
  { intros m Hm. eapply wp_mono; [by apply Hm|]. by intros [] s' [_ ?]. }
  apply Hsafe. safe_step. eapply (safe_bind _ _ _ (fun _ => True)); [|intros d _].
  - safe_steps; first [apply safe_echo_reply; [done|lia] | apply safe_pr_addr | apply safe_pr_icmph; lia].
  - safe_steps. by apply safe_show_options.
Qed.

Lemma receive_safe b from s : fits_cfg (cf (dev s)) -> wf_event (EvPacket b from) -> plain (EvPacket b from) ->
  wp (receive os b from) s (fun r _ => r <> Crash).
Proof.
  intros Hc [Hb Hlen] Hpl. pose proof Hc as [((Hd & _) & Hp) Hf]. pose proof (ip_hlen_range b) as Hr.
  unfold receive. apply wp_bind. unfold wp at 1. cbn [getdev devop fst snd]. apply wp_bind. unfold wp at 1.
  cbn [upd_buf setdev devop fst snd dev out]. set (n := Z.to_nat (packlen (cf (dev s)))).
  assert (Z.of_nat n = datalen (cf (dev s)) + 136) as Hn by (unfold n, MAXIPLEN, MAXICMPLEN in *; lia).
  set (g := take n b). set (s1 := mkst _ _).
  assert (ip_hlen g = ip_hlen b) as Hh by (unfold ip_hlen, g; by rewrite at_take by lia).
  apply wp_bind. eapply wp_mono; [apply (pr_pack_safe g from s1)|].
  - exact Hc.
  - by apply holds_store, Forall_take.
  - intros E. apply (f_equal length) in E. unfold g in E. rewrite length_take in E. cbn in E. lia.
  - by rewrite Hh.
  - intros [[]| | | |] s2 H; try done. apply wp_bind. unfold wp at 1. cbn [getdev devop fst snd].
    by destruct (_ && _)%bool.
Qed.

(** The division of the average has a divisor while the counters are in range. *)
Lemma finish_safe {A} s sp : R (core (dev s)) sp -> 0 <= sp_received sp -> 0 <= sp_repeats sp ->
  sp_received sp + sp_repeats sp < 2 ^ long_bits -> wp (finish (A := A)) s (fun r _ => r <> Crash).
Proof.
  intros (H1 & H2 & _) Ha Hb Hlt.
  assert (truth (nreceived (sta (dev s))) = true -> ulong (nreceived (sta (dev s)) + nrepeats (sta (dev s))) <> 0) as Hz.
  { rewrite H1, H2. intros Ht E.
    rewrite ulong_slong_add in E. unfold ulong in E. rewrite wrapu_small in E by lia.
    assert (sp_received sp = 0) as E0 by lia. rewrite E0 in Ht.
    unfold slong in Ht. rewrite wraps_small in Ht; [done|apply long_bits_pos|].
    destruct long_bits_cases as [-> | ->]; lia. }
  unfold finish. apply wp_bind, wp_printf, wp_bind. unfold wp at 1. cbn [getdev devop fst snd dev out].
  do 3 (apply wp_bind, wp_printf). cbn [dev]. set (t := sta (dev s)) in *.
  apply wp_bind, wp_when; intros _; [apply wp_printf|]; apply wp_bind, wp_when; intros _;
    try (destruct (_ <? _); apply wp_printf); apply wp_bind, wp_printf; apply wp_bind, wp_when; intros Ht;
    try (apply andb_prop in Ht as [Ht _]; apply Hz, Z.eqb_neq in Ht; rewrite Ht; apply wp_printf);
    (destruct (nreceived t =? 0); intros E; discriminate E).
Qed.

Lemma wp_and {A} (m : M ping_w A) s (P Q : res A -> st ping_w -> Prop) :
  wp m s P -> wp m s Q -> wp m s (fun r s' => P r s' /\ Q r s').
Proof. by split. Qed.

(** [k] more replies keep the counters in range. *)
Definition in_range (sp : spec_st) (k : nat) : Prop :=
  0 <= sp_received sp /\ 0 <= sp_repeats sp /\ sp_received sp + sp_repeats sp + Z.of_nat k < 2 ^ long_bits.

Lemma in_range_step sp l sp' k : in_range sp (S k) -> sp_step sp l sp' -> in_range sp' k.
Proof. unfold in_range. intros H Hs. destruct Hs; cbn in *; lia. Qed.

Lemma in_range_less sp k : in_range sp (S k) -> in_range sp k.
Proof. unfold in_range. lia. Qed.

(** A round has at most one reply. *)
Lemma in_range_event c ev sp sp' k : in_range sp (S k) -> sp_steps sp (event_label c ev) sp' -> in_range sp' k.
Proof.
  intros Hr Hs. assert (length (event_label c ev) <= 1)%nat as Hl.
  { destruct ev; cbn; try lia. unfold packet_label. repeat case_match; cbn; lia. }
  inversion Hs as [x E1 E2|x l y ls z Hst Hss E1 E2 E3]; subst; [by apply in_range_less|].
  destruct ls; [|rewrite <- E2 in Hl; cbn in Hl; lia]. inversion Hss; subst. by eapply in_range_step.
Qed.
Lemma in_range_round c p sp sp' k : in_range sp (S k) -> sp_steps sp (round_labels os c p) sp' -> in_range sp' k.
Proof.
  unfold round_labels, before_event. intros Hr Hs.
  assert (exists sp0, in_range sp0 (S k) /\ sp_steps sp0 (if takes_event os c p then event_label c (os_event os p.1) else []) sp') as (sp0 & H0 & Hs0).
  { destruct (flood c); [|by exists sp]. inversion Hs as [|x l y ls z Hst Hss]; subst. exists y. split; [|exact Hss].
    unfold in_range in *. inversion Hst; subst; cbn in *; lia. }
  destruct (takes_event os c p); [by eapply in_range_event|]. inversion Hs0; subst. by apply in_range_less.
Qed.

Lemma main_round_safe s sp : R (core (dev s)) sp -> in_range sp 1 -> fits_cfg (cf (dev s)) ->
  let ev := os_event os (n_event (iow (dev s))) in wf_event ev -> plain ev ->
  wp (main_round os tt) s (fun r _ => r <> Crash).
Proof.
  intros HR0 Hin Hc0 ev Hwf Hp. pose proof Hc0 as [(Hok & _) _]. unfold main_round. apply wp_bind. unfold wp at 1.
  cbn [getdev devop fst snd]. fold (before os (dev s)). assert (mkst (out s) (dev s) = s) as -> by (by destruct s).
  apply wp_bind. eapply wp_mono; [apply wp_runs, (before_ok os s sp HR0 Hok)|].
  intros ? s0 (go & -> & _ & F0 & N0 & _ & sp0 & _ & HR & Hrc & Hrp). destruct go; cbn [negb]; [|done].
  apply wp_bind. unfold next_event, wp at 1. cbn [devop fst snd]. rewrite N0. fold ev. set (s1 := mkst _ _).
  assert (core (dev s1) = core (dev s0) /\ cf (dev s1) = cf (dev s)) as (C1 & F1) by done.
  assert (forall A, wp (finish (A := A)) s1 (fun r _ => r <> Crash)) as Hfin.
  { intros A. destruct Hin as (I1 & I2 & I3). apply (finish_safe s1 sp0); [by rewrite C1|lia..]. }
  destruct ev as [b from| | |].
  - apply receive_safe; by rewrite ?F1.
  - apply wp_bind. unfold wp at 1. cbn [getdev devop fst snd].
    assert (mkst (out s1) (dev s1) = s1) as -> by done. destruct (alarm_finish (iow (dev s1))).
    + apply wp_bind. eapply wp_mono; [apply Hfin|]. by intros [].
    + apply wp_bind. eapply wp_mono; [apply wp_runs, (catcher_ok os s1 sp0); by rewrite ?C1, ?F1|].
      by intros ? s2 (a & -> & _).
  - apply Hfin.
  - by apply wp_bind, wp_eprintf, wp_ret.
Qed.

(** A run ends badly only in a packet with options. *)
Definition safe_post {A} s (sp : spec_st) (r : res A) (s' : st ping_w) : Prop :=
  (r = Crash /\ exists n, ~ plain (os_event os n)) \/ (r <> Crash /\ loop_post os s sp r s').

Lemma plain_dec ev : {plain ev} + {~ plain ev}.
Proof. destruct ev; [apply Z_le_dec|by left..]. Defined.

Lemma main_loop_safe fuel : forall s sp,
  R (core (dev s)) sp -> in_range sp fuel -> fits_cfg (cf (dev s)) -> (forall n, wf_event (os_event os n)) ->
  wp (main_loop os fuel) s (safe_post s sp).
Proof.
  intros s sp HR Hin Hc Hwf. enough (wp (main_loop os fuel) s (fun r _ => r = Crash -> exists n, ~ plain (os_event os n))) as H.
  { eapply wp_mono; [apply wp_and; [apply H|apply (ping_loop_ok os fuel s sp HR); [apply Hc|done]]|].
    intros r s' [H1 H2]. destruct r; try (right; by split). left. split; [done|by apply H1]. }
  revert s sp HR Hin Hc. induction fuel as [|fuel IH]; intros s sp HR Hin Hc; [done|].
  unfold main_loop. cbn [while_]. apply wp_bind.
  destruct (plain_dec (os_event os (n_event (iow (dev s))))) as [Hp|Hp].
  - eapply wp_mono; [apply wp_and; [apply (main_round_safe s sp)|apply (main_round_ok os s sp HR)]|]; try done.
    { destruct Hin as (I1 & I2 & I3). unfold in_range. lia. }
    { apply Hc. }
    cbv zeta. intros r s1 [H1 [-> | [((c & ->) & _) | ((a & ->) & F1 & N1 & sp1 & Hst & HR1)]]]; [done|done|].
    destruct a as [[]|[]]; [|done]. apply (IH s1 sp1); [done|by eapply in_range_round|by rewrite F1].
  - eapply wp_mono; [apply (main_round_ok os s sp HR); [apply Hc|done]|].
    cbv zeta. intros r s1 [-> | [((c & ->) & _) | ((a & ->) & F1 & N1 & sp1 & Hst & HR1)]]; [by intros _; eexists|done|].
    destruct a as [[]|[]]; [|done]. apply (IH s1 sp1); [done|by eapply in_range_round|by rewrite F1].
Qed.
End display.
