(* ===== verification/PingTimes.v ===== *)
(** * ping: data, pattern and times of the replies *)

From stdpp Require Import base list strings numbers gmap.
From Stdlib Require Import ZArith Lia Ascii.
From S2P Require Import Prelude CInt CLib Memory Ping PingOk PingRun PingLoop PingSafe.

Import Ping.

Section data.
Context `{DM : DataModel} (os : ping_os).
Implicit Types s : st ping_w.

Lemma runs_pk i s (Q : Z -> st ping_w -> Prop) :
  0 <= i < packlen (cf (dev s)) -> Q (loadb (packet (buf (dev s))) i) s -> runs (pk i) s Q.
Proof.
  intros Hi HQ. unfold pk. runs_steps. rewrite (proj2 (Z.leb_le _ _)), (proj2 (Z.ltb_lt _ _)) by lia.
  by apply runs_ret.
Qed.

(** ** Comparison of the data *)

(** Byte [i] of the reply at [icp] is not the one the program compares it
    with. *)
Definition differs (w : ping_w) (icp i : Z) : Prop :=
  loadb (packet (buf w)) (icp + 8 + i) <> loadb (outpack (buf w)) (sizeof_timeval + i).

Definition wrong_data (w : ping_w) (icp i : Z) : string :=
  nl +:+ "wrong data byte #" +:+ dec i +:+ " should be 0x" +:+ hex (loadb (outpack (buf w)) (sizeof_timeval + i)) +:+
  " but was 0x" +:+ hex (loadb (packet (buf w)) (icp + 8 + i)).

Definition check_post (w : ping_w) (icp dlen : Z) (o o' : list msg) : Prop :=
  (o' = o /\ forall i, 8 <= i < dlen -> ~ differs w icp i) \/
  (exists i l, 8 <= i < dlen /\ differs w icp i /\ (forall j, 8 <= j < i -> ~ differs w icp j) /\
     o' = l ++ Stdout (wrong_data w icp i) :: o).

Lemma dump_data_ok icp dlen s :
  0 <= icp -> icp + 20 + dlen <= packlen (cf (dev s)) ->
  runs (dump_data icp dlen) s (fun _ s' => dev s' = dev s /\ exists l, out s' = l ++ out s).
Proof.
  intros H0 H1. unfold dump_data, sizeof_icmp.
  eapply (runs_mono _ _ (fun _ => fun s' => dev s' = dev s /\ exists l, out s' = l ++ out s)); [|done].
  apply (runs_for_ (fun _ s' => dev s' = dev s /\ exists l, out s' = l ++ out s)).
  - split; [done|by exists []].
  - intros k s' Hk [Hd [l Hl]]. apply runs_bind, runs_when; intros _; [apply runs_printf|];
      (apply runs_bind, runs_pk; [cbn [dev]; rewrite Hd; lia|]; apply runs_printf; cbn [dev out]; split; [done|]; rewrite Hl).
    + eexists (_ :: _ :: l). reflexivity.
    + eexists (_ :: l). reflexivity.
Qed.

Lemma reply_data_ok icp dlen s :
  0 <= icp -> icp + 20 + dlen <= packlen (cf (dev s)) -> sizeof_timeval + dlen <= MAXPACKET ->
  runs (check_data icp dlen) s (fun _ s' => dev s' = dev s /\ check_post (dev s) icp dlen (out s) (out s')).
Proof.
  intros H0 H1 H2. pose proof sizeof_ul_pos. assert (0 <= sizeof_timeval) by (unfold sizeof_timeval; lia).
  unfold check_data. apply runs_bind. eapply runs_mono.
  - eapply (runs_for_acc (fun k (_ : unit) s' => s' = s /\ forall j, 8 <= j < k -> ~ differs (dev s) icp j)
      (fun _ s' => dev s' = dev s /\ check_post (dev s) icp dlen (out s) (out s'))).
    + split; [done|]. lia.
    + intros k [] s' Hk [-> Hs]. apply runs_bind, runs_pk; [lia|]. apply runs_bind, runs_out_load; [lia|lia|].
      cbn [load_bytes le_val]. replace (icp + 8 + 8 + (k - 8)) with (icp + 8 + k) by lia.
      replace (8 + sizeof_timeval + (k - 8)) with (sizeof_timeval + k) by lia. rewrite Z.mul_0_r, Z.add_0_r.
      destruct (Z.eqb_spec (loadb (packet (buf (dev s))) (icp + 8 + k)) (loadb (outpack (buf (dev s))) (sizeof_timeval + k)))
        as [E|E]; cbn [negb].
      * apply runs_ret. split; [done|]. intros j Hj. destruct (decide (j = k)) as [->|]; [|apply Hs; lia]. by intros [].
      * apply runs_bind, runs_printf, runs_bind. eapply runs_mono; [apply dump_data_ok; cbn [dev]; lia|].
        cbn [dev out]. intros [] s' [Hd [l Hl]]. apply runs_ret. split; [done|]. right. exists k, l. by repeat split; try lia.
  - intros [[]|[]] s' H'; apply runs_ret; [|done]. destruct H' as [-> Hn]. split; [done|]. left. split; [done|].
    intros i Hi. apply Hn. lia.
Qed.

(** ** The default data *)

Definition with_packet (m : ram) s : st ping_w :=
  mkst (out s) (mk_w (cf (dev s)) (sta (dev s)) (set_packet m (buf (dev s))) (iow (dev s))).

Lemma fill_default_ok dlen s : sizeof_timeval + dlen <= MAXPACKET ->
  runs (fill_default dlen) s (fun _ s' => cf (dev s') = cf (dev s) /\
    forall j, 8 <= j < dlen -> loadb (outpack (buf (dev s'))) (sizeof_timeval + j) = u8 j).
Proof.
  intros Hf. pose proof sizeof_ul_pos. assert (0 <= sizeof_timeval) by (unfold sizeof_timeval; lia).
  eapply runs_mono; [apply (runs_for_ (fun k s' => cf (dev s') = cf (dev s) /\
    forall j, 8 <= j < k -> loadb (outpack (buf (dev s'))) (sizeof_timeval + j) = u8 j))|].
  - split; [done|lia].
  - intros k s' Hk [Hc Hj]. apply runs_out_store; [lia|cbn [length]; lia|].
    split; [done|]. intros j Hj'. cbn [dev buf outpack set_outpack store_bytes].
    destruct (decide (j = k)) as [->|].
    + replace (8 + sizeof_timeval + (k - 8)) with (sizeof_timeval + k) by lia.
      rewrite loadb_storeb_eq. apply Z.mod_small. apply (wrapu_range 8). lia.
    + rewrite loadb_storeb_ne by lia. apply Hj. lia.
  - intros [] s' [Hc Hj]. split; [done|]. intros j Hj'. apply Hj. lia.
Qed.

(** ** The pattern of -p *)

Lemma fill_round_ok bp pat kk s : kk <= MAXPACKET - (8 + Z.of_nat (length pat)) ->
  wp (fill_round bp pat kk) s (fun r _ => r = Crash \/
    (r = Ret (inl (kk + Z.of_nat (length pat))) /\ bp + kk + Z.of_nat (length pat) <= MAXPACKET)).
Proof.
  intros Hle. unfold fill_round. rewrite (proj2 (Z.leb_le _ _)) by lia. apply wp_bind. unfold out_store.
  rewrite length_fmap. destruct (_ && _)%bool eqn:E; [|by left]. apply andb_prop in E as [_ E]. apply Z.leb_le in E.
  by right.
Qed.

(** As long as the pattern is not longer than a [struct timeval] the last copy
    ends behind the buffer. *)
Lemma fill_loop_crashes pat : (0 < length pat)%nat -> Z.of_nat (length pat) <= sizeof_timeval ->
  forall fuel kk s, 0 <= kk -> kk <= MAXPACKET - (8 + Z.of_nat (length pat)) -> MAXPACKET - 8 - kk < Z.of_nat fuel ->
  wp (while_ fuel kk (fill_round (8 + sizeof_timeval) pat)) s (fun r _ => r = Crash).
Proof.
  intros Hp Hs. induction fuel as [|fuel IH]; intros kk s Hk Hle Hf; [unfold MAXPACKET in *; lia|].
  cbn [while_]. apply wp_bind. eapply wp_mono; [by apply fill_round_ok|].
  intros r s' [-> | [-> E]]; [done|]. apply IH; lia.
Qed.

Lemma fill_crashes patp s : all_xdigits patp = true -> (0 < length (scan_pat 16 patp))%nat ->
  Z.of_nat (length (scan_pat 16 patp)) <= sizeof_timeval -> wp (fill (8 + sizeof_timeval) patp) s (fun r _ => r = Crash).
Proof.
  intros Hx Hp Hs. unfold fill. rewrite Hx. cbn [negb]. set (pat := scan_pat 16 patp) in *.
  assert (sizeof_timeval <= 16) by (unfold sizeof_timeval, sizeof_ul; by destruct long_bits_cases as [-> | ->]).
  rewrite (proj2 (Z.ltb_lt _ _)) by lia. apply wp_bind. unfold when.
  apply (wp_mono _ _ (fun r _ => r = Crash)); [|by intros r s' ->]. apply fill_loop_crashes; try done; unfold MAXPACKET; lia.
Qed.
End data.

(** * ping: round-trip times *)

Import Ping.

(** A time in microseconds. *)
Definition usecs (tv : Z * Z) : Z := fst tv * 1000000 + snd tv.
Definition tv_ok `{DataModel} (tv : Z * Z) : Prop := 0 <= fst tv <= LONG_MAX /\ 0 <= snd tv < 1000000.

(** The statistics of the trip times [ts]. *)
Definition rtt `{DataModel} (t : stats) (ts : list Z) : Prop :=
  Forall (fun x => 0 <= x <= LONG_MAX) ts /\ 0 <= nreceived t /\ 0 <= nrepeats t /\
  nreceived t + nrepeats t = Z.of_nat (length ts) /\
  tmin t = foldr Z.min LONG_MAX ts /\ tmax t = foldr Z.max 0 ts /\ tsum t = foldr Z.add 0 ts.

Section times.
Context `{DM : DataModel} (os : ping_os).
Implicit Types s : st ping_w.

Lemma slong_small x : - LONG_MAX - 1 <= x <= LONG_MAX -> slong x = x.
Proof. unfold LONG_MAX. intros Hx. apply wraps_small; [apply long_bits_pos|lia]. Qed.

Lemma LONG_MAX_big : 1000000 < LONG_MAX.
Proof. unfold LONG_MAX. by destruct long_bits_cases as [-> | ->]. Qed.

Lemma tvsub_ok a b : tv_ok a -> tv_ok b -> usecs b <= usecs a ->
  tvsub a b = ((usecs a - usecs b) / 1000000, (usecs a - usecs b) mod 1000000).
Proof.
  destruct a as [s u], b as [s' u']. unfold tv_ok, usecs. cbn [fst snd]. intros [Hs Hu] [Hs' Hu'] Hle.
  pose proof LONG_MAX_big. unfold tvsub. rewrite (slong_small (u - u')) by lia. destruct (Z.ltb_spec (u - u') 0).
  - rewrite (slong_small (s - 1)), !slong_small by lia. f_equal.
    + apply (Z.div_unique _ _ _ (u - u' + 1000000)); lia.
    + apply (Z.mod_unique _ _ (s - 1 - s')); lia.
  - rewrite !slong_small by lia. f_equal.
    + apply (Z.div_unique _ _ _ (u - u')); lia.
    + apply (Z.mod_unique _ _ (s - s')); lia.
Qed.

(** Tenths of a millisecond. *)
Definition trip (a b : Z * Z) : Z := (usecs a - usecs b) / 100.

Lemma triptime_ok a b : tv_ok a -> tv_ok b -> usecs b <= usecs a -> trip a b <= LONG_MAX ->
  (let '(s, u) := tvsub a b in slong (slong (s * 10000) + Z.quot u 100)) = trip a b /\ 0 <= trip a b.
Proof.
  intros Ha Hb Hle Hmax. rewrite tvsub_ok by done. unfold trip in *. set (d := usecs a - usecs b) in *.
  assert (0 <= d) by (unfold d; lia). rewrite Z.quot_div_nonneg by (pose proof (Z.mod_pos_bound d 1000000); lia).
  pose proof (Z.div_mod d 1000000 ltac:(lia)) as Hd. pose proof (Z.mod_pos_bound d 1000000 ltac:(lia)) as Hm.
  set (q := d / 1000000) in *. set (r := d mod 1000000) in *.
  assert (d / 100 = q * 10000 + r / 100) as E.
  { rewrite Hd. replace (1000000 * q + r) with (r + q * 10000 * 100) by lia. rewrite Z.div_add by lia. lia. }
  assert (0 <= q) by (apply Z.div_pos; lia). assert (0 <= r / 100) by (apply Z.div_pos; lia).
  rewrite (slong_small (q * 10000)), slong_small by lia. lia.
Qed.

Lemma runs_pk_bytes n : forall i s (Q : list Z -> st ping_w -> Prop), 0 <= i -> i + Z.of_nat n <= packlen (cf (dev s)) ->
  Q (load_bytes (packet (buf (dev s))) i n) s -> runs (pk_bytes i n) s Q.
Proof.
  induction n as [|n IH]; intros i s Q H0 H1 HQ; cbn [pk_bytes]; [by apply runs_ret|].
  apply runs_bind, runs_pk; [lia|]. apply runs_bind, IH; [lia|lia|]. by apply runs_ret.
Qed.

(** The packet carries the time [tv] at [data]. *)
Definition stamped (w : ping_w) (data : Z) (tv : Z * Z) : Prop :=
  load_bytes (packet (buf w)) data (Z.to_nat sizeof_ul) = le_bytes (Z.to_nat sizeof_ul) (fst tv) /\
  load_bytes (packet (buf w)) (data + sizeof_ul) (Z.to_nat sizeof_ul) = le_bytes (Z.to_nat sizeof_ul) (snd tv).

Lemma slong_ulong x : 0 <= x <= LONG_MAX -> slong (ulong x) = x.
Proof.
  intros Hx. unfold ulong. rewrite wrapu_small; [apply slong_small; lia|]. unfold LONG_MAX in Hx.
  assert (2 ^ (long_bits - 1) <= 2 ^ long_bits) by (apply Z.pow_le_mono_r; lia). lia.
Qed.

Lemma time_reply_ok data now tv s : timing (cf (dev s)) = true -> stamped (dev s) data tv -> tv_ok now -> tv_ok tv ->
  usecs tv <= usecs now -> trip now tv <= LONG_MAX -> 0 <= data -> data + 16 <= packlen (cf (dev s)) ->
  runs (time_reply data now) s (fun r s' => r = trip now tv /\ out s' = out s /\
    dev s' = mk_w (cf (dev s)) (let t := sta (dev s) in mk_stats (nreceived t) (nrepeats t) (ntransmitted t)
      (Z.min (trip now tv) (tmin t)) (Z.max (trip now tv) (tmax t)) (ulong (tsum t + trip now tv))) (buf (dev s)) (iow (dev s))).
Proof.
  intros Ht [S1 S2] Hn Htv Hle Hmax H0 H1. pose proof sizeof_ul_pos.
  assert (sizeof_ul <= 8) by (unfold sizeof_ul; by destruct long_bits_cases as [-> | ->]). pose proof LONG_MAX_big.
  pose proof (triptime_ok now tv Hn Htv Hle Hmax) as [E Hp].
  unfold time_reply, pk_long. runs_steps. rewrite Ht. apply runs_bind, runs_bind, runs_pk_bytes; [lia|lia|].
  apply runs_ret, runs_bind, runs_bind, runs_pk_bytes; [lia|lia|]. apply runs_ret. rewrite S1, S2, !le_bytes_ul.
  destruct Htv as [Hs Hu]. rewrite !slong_ulong by lia. rewrite <- surjective_pairing.
  destruct (tvsub now tv) as [a b]. apply runs_bind, runs_upd_sta, runs_ret. rewrite E. split; [done|]. split; [done|].
  cbn [dev]. do 2 f_equal.
  - destruct (Z.ltb_spec (trip now tv) (tmin (sta (dev s)))); lia.
  - destruct (Z.ltb_spec (tmax (sta (dev s))) (trip now tv)); lia.
Qed.

Lemma rtt_bounds ts : Forall (fun x => 0 <= x <= LONG_MAX) ts ->
  Z.of_nat (length ts) * foldr Z.min LONG_MAX ts <= foldr Z.add 0 ts <= Z.of_nat (length ts) * foldr Z.max 0 ts /\
  0 <= foldr Z.min LONG_MAX ts /\ 0 <= foldr Z.add 0 ts.
Proof.
  pose proof LONG_MAX_big. induction 1 as [|x l Hx Hl IH]; cbn [foldr length]; [lia|]. rewrite Nat2Z.inj_succ. nia.
Qed.

(** The average lies between the extremes. *)
Lemma rtt_avg t ts : rtt t ts -> ts <> [] -> Z.of_nat (length ts) <= LONG_MAX -> tmin t <= avg t <= tmax t.
Proof.
  intros (H1 & H2 & H3 & H4 & -> & -> & H5) Hne Hl. pose proof (rtt_bounds ts H1) as (Hb & _).
  assert (0 < Z.of_nat (length ts)) by (destruct ts; [done|cbn; lia]).
  unfold avg. rewrite H4, H5. unfold ulong. rewrite wrapu_small.
  - split; [apply Z.div_le_lower_bound; lia|]. apply Z.div_le_upper_bound; lia.
  - unfold LONG_MAX in Hl. assert (2 ^ (long_bits - 1) <= 2 ^ long_bits) by (apply Z.pow_le_mono_r; lia). lia.
Qed.

(** The packet is a reply to us, with time stamp [tv]. *)
Definition our_reply (w : ping_w) (icp : Z) (tv : Z * Z) : Prop :=
  loadb (packet (buf w)) (icp + 4) + 256 * loadb (packet (buf w)) (icp + 4 + 1) = ident (cf w) /\ stamped w (icp + 8) tv.

(** Counting a duplicate as one moves it from one counter to the other. *)
Lemma check_dup_rtt seq ts s : rtt (sta (dev s)) ts -> Z.of_nat (length ts) <= LONG_MAX -> 0 < nreceived (sta (dev s)) ->
  runs (check_dup seq) s (fun _ s' => cf (dev s') = cf (dev s) /\ rtt (sta (dev s')) ts).
Proof.
  intros (H1 & H2 & H3 & H4 & H5) Hl Hp. unfold check_dup. runs_steps. destruct (tbl_tst _ _).
  - apply runs_bind, runs_upd_sta, runs_ret. split; [done|]. unfold rtt. cbn [dev sta nreceived nrepeats tmin tmax tsum].
    pose proof LONG_MAX_big. rewrite !slong_small by lia. repeat split; try done; try lia.
  - by apply runs_bind, runs_upd_buf, runs_ret.
Qed.

Lemma rtt_cons t ts x : rtt t ts -> 0 <= x <= LONG_MAX -> Z.of_nat (length ts) < LONG_MAX ->
  foldr Z.add 0 ts + x < 2 ^ long_bits ->
  rtt (mk_stats (slong (nreceived t + 1)) (nrepeats t) (ntransmitted t) (Z.min x (tmin t)) (Z.max x (tmax t))
         (ulong (tsum t + x))) (x :: ts) /\ 0 < slong (nreceived t + 1).
Proof.
  intros (H1 & H2 & H3 & H4 & H5 & H6 & H7) Hx Hl Hs. pose proof (rtt_bounds ts H1) as (_ & _ & Hp).
  rewrite slong_small by lia. split; [|lia].
  split; [by constructor|]. cbn [nreceived nrepeats tmin tmax tsum length foldr]. split; [lia|]. split; [done|].
  split; [lia|]. split; [by rewrite H5|]. split; [by rewrite H6|]. rewrite H7. unfold ulong. rewrite wrapu_small; lia.
Qed.

Lemma echo_reply_rtt icp cc ttl from now tv ts s : fits_cfg (cf (dev s)) -> timing (cf (dev s)) = true -> 0 <= icp <= 60 ->
  our_reply (dev s) icp tv -> tv_ok now -> tv_ok tv -> usecs tv <= usecs now -> trip now tv <= LONG_MAX ->
  rtt (sta (dev s)) ts -> Z.of_nat (length ts) < LONG_MAX -> foldr Z.add 0 ts + trip now tv < 2 ^ long_bits ->
  runs (echo_reply icp cc ttl from now) s (fun _ s' => rtt (sta (dev s')) (trip now tv :: ts)).
Proof.
  intros Hc Ht Hi [Hid Hst] Hn Htv Hle Hmax Hr Hl Hs. pose proof Hc as [((Hd & _) & Hp) Hf].
  unfold MAXIPLEN, MAXICMPLEN in Hp. pose proof (triptime_ok now tv Hn Htv Hle Hmax) as [_ H0].
  unfold echo_reply, pk16. runs_steps. apply runs_pk; [lia|]. apply runs_bind, runs_pk; [lia|]. apply runs_ret.
  rewrite Hid, Z.eqb_refl. cbn [negb]. apply runs_bind, runs_upd_sta, runs_bind.
  eapply runs_mono; [eapply (time_reply_ok _ _ tv); cbn [dev cf]; [done|exact Hst|done..|lia|lia]|].
  cbn [dev cf sta buf iow nreceived nrepeats ntransmitted tmin tmax tsum]. intros ? s1 (-> & _ & Hd1).
  apply runs_bind, runs_bind, runs_pk; [rewrite Hd1; cbn [cf]; lia|]. apply runs_bind, runs_pk; [rewrite Hd1; cbn [cf]; lia|].
  apply runs_ret, runs_bind. destruct (rtt_cons _ _ _ Hr (conj H0 Hmax) Hl Hs) as [Hr1 Hpos].
  eapply runs_mono; [apply (check_dup_rtt _ (trip now tv :: ts) s1); rewrite ?Hd1; cbn [sta nreceived length]; [done|lia|done]|].
  rewrite Hd1. cbn [cf]. intros dup s2 [Hc2 Hr2].
  set (m := show_reply _ _ _ _ _ _ _ _). assert (safe (cf (dev s)) m (fun _ => True)) as Hsafe.
  { unfold m, show_reply. safe_steps. apply safe_check_data; lia. }
  assert (frm m (fun _ => True)) as Hfrm by apply frm_show_reply.
  apply wp_runs. eapply wp_mono; [apply wp_and; [by apply Hsafe|apply Hfrm]|].
  intros [a| | | |] s3 [[_ Hx] [Hv Hy]]; try done. exists a. split; [done|]. unfold view in Hv. by injection Hv as _ -> _ _ _ _.
Qed.
End times.
