(* ===== verification/PingClaims.v ===== *)
(** * ping: the properties of the program *)

From stdpp Require Import base list strings numbers gmap.
From Stdlib Require Import ZArith Lia Ascii.
From S2P Require Import Prelude CInt CLib Memory Ping PingOk PingRun PingLoop PingSafe PingTimes.
Import Ping.

(** ** A small system for the witnesses *)

Definition demo_ping (ev : nat -> event) : ping_os := {|
  os_root := true; os_proto := true; os_socket := true; os_eperm := false; os_strerror := "error"; os_pid := 77;
  os_malloc := fun _ => true; os_clock := fun n => (100 + Z.of_nat n, 500000);
  os_sendto := fun _ l => Z.of_nat (length l); os_event := ev; os_select := fun _ => true;
  os_setsockopt := fun _ => true; os_aton := fun _ => Some [10; 0; 0; 1]; os_byname := fun _ => None;
  os_byaddr := fun _ => None |}.

(** 32 bytes of data, answers from 10.0.0.1. *)
Definition demo_cfg (tm : bool) : cfg := mk_cfg 0 0 32 0 1 tm 77 "10.0.0.1" (32 + 136).
Definition demo_st `{DataModel} (tm : bool) : st ping_w := mkst [] (mk_w (demo_cfg tm) stats0 bufs0 io0).
(** An echo reply with number [seq] behind a plain IP header. *)
Definition demo_reply (seq : Z) : list Z :=
  [0x45] ++ replicate 19 0 ++ [0; 0; 0; 0] ++ le_bytes 2 77 ++ le_bytes 2 seq ++ replicate 32 0.

Lemma demo_cfg_ok `{DataModel} tm : cfg_ok (demo_cfg tm).
Proof.
  split; [done|]. split; [done|]. split; [done|]. intros _. unfold sizeof_timeval, sizeof_ul.
  by destruct long_bits_cases as [-> | ->].
Qed.

Lemma tbl0_tst k : tbl_tst (replicate 128 0) k = false.
Proof.
  unfold tbl_tst. destruct (replicate 128 0 !! bit_byte k) as [b|] eqn:E; [|done].
  apply lookup_replicate in E as [-> _]. done.
Qed.

Lemma R_init `{DataModel} tm : R (core (dev (demo_st tm))) sp_init.
Proof.
  assert (slong 0 = 0) as E.
  { apply wraps_small; [apply long_bits_pos|]. destruct long_bits_cases as [-> | ->]; lia. }
  change (core (dev (demo_st tm))) with (0, 0, 0, replicate 128 0).
  split; [done|]. split; [done|]. split; [done|]. split.
  - split; [done|]. by apply Forall_replicate.
  - intros k _. rewrite tbl0_tst. symmetry. apply bool_decide_eq_false. set_solver.
Qed.

(** ** Refinement *)

(** C5: the main loop refines the abstract machine, in flood mode or not. The
    configuration is one [main] sets up with 1 byte of data or more, as many as
    fit into the outgoing packet behind a time stamp (larger amounts, which [-s]
    allows, leave the buffers); the packets have a whole IP header and 8 bytes
    behind it, and the counters have room for the rounds. Then for every sequence
    of packets, alarms, interrupts, errors and answers of [select], and any
    number of rounds, the run makes no access outside its buffers unless a packet
    with IP options arrives, and its counters and table are those of the machine
    after the labels of its rounds. An alarm and the beginning of a flooding
    round stand for a request, an accepted echo reply for a reply; a round takes
    one event, in flood mode only when [select] finds one. *)
Theorem ping_refines `{DM : DataModel} (os : ping_os) (fuel : nat) (s : st ping_w) (sp : spec_st) :
  R (core (dev s)) sp -> in_range sp fuel -> fits_cfg (cf (dev s)) -> (forall n, wf_event (os_event os n)) ->
  wp (main_loop os fuel) s (fun r s' => let c := cf (dev s) in let p := polls (iow (dev s)) in
    (r = Crash /\ exists n, ~ plain (os_event os n)) \/
    (r <> Crash /\ exists k sp',
      sp_steps sp (labels os c p k ++ ending c r) sp' /\ R (core (dev s')) sp' /\
      polls (iow (dev s')) = end_polls os c r (polls_after os c p k))).
Proof.
  intros HR Hin Hc Hwf. eapply wp_mono; [by apply main_loop_safe|].
  intros r s' [H | [H1 [H2 | H2]]]; [by left|done|by right].
Qed.

Definition demo_events (n : nat) : event :=
  match n with
  | 0%nat | 2%nat => EvAlarm
  | 1%nat | 3%nat => EvPacket (demo_reply 0) [10; 0; 0; 1]
  | _ => EvInterrupt
  end.

Lemma demo_events_wf n : wf_event (demo_events n).
Proof.
  destruct n as [|[|[|[|n]]]]; try done; (split; [|by vm_compute]); unfold demo_reply;
    repeat (apply Forall_app; split); try apply le_bytes_is_byte; try (by apply Forall_replicate); by repeat constructor.
Qed.

Lemma demo_fits tm : @fits_cfg LP64 (demo_cfg tm).
Proof. split; [split; [apply demo_cfg_ok|done]|done]. Qed.

Lemma demo_plain n : plain (demo_events n).
Proof. by destruct n as [|[|[|[|n]]]]; vm_compute. Qed.

(** The labels of the demonstration: two requests, the same reply to each. *)
Lemma demo_labels k :
  exists j, labels (demo_ping demo_events) (demo_cfg false) (0, 0)%nat k = take j [Send; Reply 0; Send; Reply 0].
Proof.
  assert (forall n k, (4 <= n)%nat -> labels (demo_ping demo_events) (demo_cfg false) (n, 0%nat) k = []) as Hend.
  { intros n j. revert n. induction j as [|j IH]; intros n Hn; [done|]. rewrite labels_S.
    change (round_polls (demo_ping demo_events) (demo_cfg false) (n, 0%nat)) with (S n, 0%nat). rewrite IH by lia.
    by destruct n as [|[|[|[|n]]]]; try lia. }
  assert (forall n, round_labels (demo_ping demo_events) (demo_cfg false) (n, 0%nat) =
    match n with 0%nat | 2%nat => [Send] | 1%nat | 3%nat => [Reply 0] | _ => [] end) as Hl.
  { intros n. by destruct n as [|[|[|[|n]]]]; vm_compute. }
  assert (forall n, round_polls (demo_ping demo_events) (demo_cfg false) (n, 0%nat) = (S n, 0%nat)) as Hp by done.
  destruct k as [|[|[|[|k]]]]; rewrite ?labels_S, ?Hp, ?labels_S, ?Hp, ?labels_S, ?Hp, ?labels_S, ?Hp, ?Hl;
    [exists 0%nat|exists 1%nat|exists 2%nat|exists 3%nat|exists 4%nat]; try rewrite (Hend 4%nat) by lia; reflexivity.
Qed.

Lemma demo_answers k : answers 0 (labels (demo_ping demo_events) (demo_cfg false) (0, 0)%nat k).
Proof.
  destruct (demo_labels k) as [j ->]. destruct j as [|[|[|[|j]]]]; cbn [take answers]; repeat split;
    try (exists 0; split; [lia|done]). rewrite take_nil. done.
Qed.

(** A request that ends a run answers nothing. *)
Lemma answers_ending {A} c (r : res A) ls : forall n, answers n ls -> answers n (ls ++ ending c r).
Proof.
  induction ls as [|[|seq] ls IH]; intros n; cbn [answers app].
  - intros _. unfold ending, before_event. destruct r; try done. by destruct (flood c).
  - apply IH.
  - intros [H1 H2]. split; [done|by apply IH].
Qed.

Lemma ping_refines_witness :
  wp (@main_loop LP64 (demo_ping demo_events) 9) (@demo_st LP64 false) (fun r s' => exists k sp',
    sp_steps sp_init (labels (demo_ping demo_events) (demo_cfg false) (0, 0)%nat k ++ ending (demo_cfg false) r) sp' /\
    @R LP64 (core (dev s')) sp').
Proof.
  eapply wp_mono; [apply (@ping_refines LP64 (demo_ping demo_events) 9 (@demo_st LP64 false) sp_init)|].
  - apply R_init.
  - by repeat split.
  - apply demo_fits.
  - apply demo_events_wf.
  - intros r s' [[_ [n Hn]] | [_ (k & sp' & H1 & H2 & _)]]; [destruct Hn; apply demo_plain|by exists k, sp'].
Defined.

(** C24: when every accepted reply carries the number of a request sent before
    it, ping never counts more packets received than transmitted, whatever is
    duplicated, reordered or lost: the two counters are the numbers of requests
    and of first replies, in the width of [long], and the second is at most the
    first. This holds with [-f] and without, when no packet carries IP options
    and, as for the refinement, packets have whole headers, the data has at least
    1 byte and fits into the outgoing packet behind a time stamp (with larger
    amounts, which [-s] allows, ping leaves its buffers) and the counters have
    room for the rounds. *)
Theorem ping_counts `{DM : DataModel} (os : ping_os) (fuel : nat) (s : st ping_w) (ls0 : list label) (sp : spec_st) :
  sp_steps sp_init ls0 sp -> answers 0 ls0 -> R (core (dev s)) sp -> in_range sp fuel -> fits_cfg (cf (dev s)) ->
  (forall n, wf_event (os_event os n)) -> (forall n, plain (os_event os n)) ->
  (forall k, answers (sp_sent sp) (labels os (cf (dev s)) (polls (iow (dev s))) k)) ->
  wp (main_loop os fuel) s (fun r s' => r <> Crash /\ exists sent received,
    ntransmitted (sta (dev s')) = slong sent /\ nreceived (sta (dev s')) = slong received /\ 0 <= received <= sent /\
    (sent < 2 ^ (long_bits - 1) -> nreceived (sta (dev s')) <= ntransmitted (sta (dev s')))).
Proof.
  intros H0 Ha0 HR Hin Hc Hwf Hpl Ha. eapply wp_mono; [by apply main_loop_safe|].
  intros r s' [[_ [n []]] | [Hr [? | (k & sp' & Hst & HR' & _)]]]; [apply Hpl|done|]. split; [done|].
  pose proof (sp_inv_steps _ _ _ H0 sp_inv_init Ha0) as Hi. pose proof (sp_inv_steps _ _ _ Hst Hi (answers_ending _ r _ _ (Ha k))) as (H1 & H2 & H3).
  destruct HR' as (E1 & _ & E3 & _). exists (sp_sent sp'), (sp_received sp'). split; [done|]. split; [done|].
  split; [lia|]. intros Hlt. rewrite E1, E3. pose proof long_bits_pos.
  unfold slong. rewrite !wraps_small by lia. lia.
Qed.

Lemma ping_counts_witness :
  wp (@main_loop LP64 (demo_ping demo_events) 9) (@demo_st LP64 false) (fun r s' => r <> Crash /\ exists sent received,
    ntransmitted (sta (dev s')) = @slong LP64 sent /\ nreceived (sta (dev s')) = @slong LP64 received /\ 0 <= received <= sent /\
    (sent < 2 ^ 63 -> nreceived (sta (dev s')) <= ntransmitted (sta (dev s')))).
Proof.
  apply (@ping_counts LP64 (demo_ping demo_events) 9 (@demo_st LP64 false) [] sp_init).
  - constructor.
  - done.
  - apply R_init.
  - by repeat split.
  - apply demo_fits.
  - apply demo_events_wf.
  - apply demo_plain.
  - apply demo_answers.
Defined.

(** ** Requests *)

(** C33: the checksum routine computes the Internet checksum: for up to 65536
    bytes the 32-bit accumulator does not overflow and the result is the one's
    complement of the one's complement sum of the words; with the result stored
    in bytes 2 and 3 of a packet that had zeros there, the checksum of the
    packet is 0. *)
Theorem in_cksum_correct (l : list Z) :
  Forall is_byte l -> Z.of_nat (length l) <= 65536 ->
  in_cksum l = 65535 - onec (word_sum l) /\
  (take 2 (drop 2 l) = [0; 0] -> in_cksum (splice 2 (le_bytes 2 (in_cksum l)) l) = 0).
Proof.
  intros Hb Hn. split; [by apply in_cksum_spec|]. intros Hz.
  destruct l as [|h0 [|h1 [|z0 [|z1 l]]]]; try done. cbn [drop take] in Hz. injection Hz as -> ->.
  unfold splice. rewrite le_bytes_length. cbn [take drop Nat.add app]. by apply cksum_verifies.
Qed.

Lemma in_cksum_correct_witness :
  in_cksum [8; 0; 0; 0; 1; 2; 3] = 65535 - onec (word_sum [8; 0; 0; 0; 1; 2; 3]) /\
  (take 2 (drop 2 [8; 0; 0; 0; 1; 2; 3]) = [0; 0] ->
   in_cksum (splice 2 (le_bytes 2 (in_cksum [8; 0; 0; 0; 1; 2; 3])) [8; 0; 0; 0; 1; 2; 3]) = 0).
Proof.
  apply (in_cksum_correct [8; 0; 0; 0; 1; 2; 3]).
  - by repeat constructor.
  - done.
Defined.

(** C31: every request is a valid echo request: type 8, code 0, the identifier
    of the process, the number of requests sent before in 16 bits, the time
    stamp when there is room for one, then the data of the buffer, and a
    checksum that verifies; the counter goes up by one and the slot of the
    number is cleared. *)
Theorem pinger_sends_request `{DM : DataModel} (os : ping_os) (s : st ping_w) :
  cfg_ok (cf (dev s)) ->
  runs (pinger os) s (fun _ s' =>
    let c := cf (dev s) in
    let seq := u16 (ntransmitted (sta (dev s))) in
    let pkt := echo_request (ident c) seq (request_body os (dev s)) in
    sent (iow (dev s')) = pkt :: sent (iow (dev s)) /\ length pkt = Z.to_nat (datalen c + 8) /\
    in_cksum pkt = 0 /\ take 2 pkt = [8; 0] /\ le_val (take 2 (drop 4 pkt)) = ident c /\
    le_val (take 2 (drop 6 pkt)) = seq /\
    drop 8 pkt = request_body os (dev s) /\
    ntransmitted (sta (dev s')) = slong (ntransmitted (sta (dev s)) + 1) /\
    rcvd_tbl (buf (dev s')) = tbl_clr (rcvd_tbl (buf (dev s))) (seq mod MAX_DUP_CHK)).
Proof.
  intros Hc. pose proof (request_body_length os (dev s) Hc) as Hl. pose proof Hc as (Hd & Hm & Hi & Ht).
  eapply runs_mono; [by apply pinger_ok|]. intros _ s' (_ & H2 & H3 & H4 & _). cbv zeta.
  set (seq := u16 _) in *. set (body := request_body os (dev s)) in *.
  assert (Forall is_byte body) as Hb.
  { unfold body, request_body. apply Forall_app. split; [|apply load_bytes_is_byte].
    unfold stamp. destruct (timing _); [|constructor]. apply Forall_app; split; apply le_bytes_is_byte. }
  assert (0 <= seq < 65536) as Hseq by (apply (wrapu_range 16); lia).
  split; [done|]. split; [unfold echo_request, echo_header; rewrite !length_app, !le_bytes_length; cbn [length]; lia|].
  split; [apply echo_request_cksum; [done|unfold MAXPACKET in Hm; lia]|]. split; [done|].
  split; [|split; [|split; [done|by rewrite H2]]].
  - change (le_val (le_bytes 2 (ident (cf (dev s)))) = ident (cf (dev s))). rewrite le_val_bytes.
    apply Z.mod_small. exact Hi.
  - change (le_val (le_bytes 2 seq) = seq). rewrite le_val_bytes. apply Z.mod_small. exact Hseq.
Qed.

Lemma pinger_sends_request_witness :
  runs (@pinger LP64 (demo_ping (fun _ => EvError))) (@demo_st LP64 true) (fun _ s' =>
    match sent (iow (dev s')) with [p] => in_cksum p = 0 /\ length p = 40%nat | _ => False end).
Proof.
  eapply runs_mono; [apply (@pinger_sends_request LP64 (demo_ping (fun _ => EvError)) (@demo_st LP64 true))|].
  - apply demo_cfg_ok.
  - cbv zeta. intros _ s' (-> & Hl & Hc & _). cbn [sent iow dev demo_st io0]. by split.
Defined.

(** ** Replies *)

(** The round-trip statistics: a reply to us that carries the time of its
    request adds the time since then, in tenths of a millisecond, to a set of
    statistics that are the minimum, the maximum and the sum of the trip times
    so far, whether it is a duplicate or not, and whatever else is in it; the
    average that is shown at the end lies between the extremes. *)
Theorem rtt_statistics `{DM : DataModel} (icp cc ttl : Z) (from : list Z) (now tv : Z * Z) (ts : list Z) (s : st ping_w) :
  fits_cfg (cf (dev s)) -> timing (cf (dev s)) = true -> 0 <= icp <= 60 -> our_reply (dev s) icp tv ->
  tv_ok now -> tv_ok tv -> usecs tv <= usecs now -> trip now tv <= LONG_MAX ->
  rtt (sta (dev s)) ts -> Z.of_nat (length ts) < LONG_MAX -> foldr Z.add 0 ts + trip now tv < 2 ^ long_bits ->
  runs (echo_reply icp cc ttl from now) s (fun _ s' =>
    rtt (sta (dev s')) ((usecs now - usecs tv) / 100 :: ts) /\
    tmin (sta (dev s')) <= avg (sta (dev s')) <= tmax (sta (dev s'))).
Proof.
  intros. eapply runs_mono; [by apply (echo_reply_rtt _ _ _ _ _ tv ts)|].
  intros b s' Hr. split; [exact Hr|]. apply (rtt_avg _ (trip now tv :: ts)); [exact Hr|done|]. cbn [length]. lia.
Qed.

(** A reply 23.4 ms after the request, received in [packet]. *)
Definition demo_echo : list Z :=
  [0; 0; 0; 0] ++ le_bytes 2 77 ++ le_bytes 2 0 ++ le_bytes 8 100 ++ le_bytes 8 500000 ++ replicate 16 0.
Definition demo_stamped `{DataModel} : st ping_w :=
  mkst [] (mk_w (demo_cfg true) stats0 (set_packet (store_bytes ∅ 20 demo_echo) bufs0) io0).

Lemma rtt_statistics_witness :
  runs (@echo_reply LP64 20 40 64 [10; 0; 0; 1] (100, 523400)) (@demo_stamped LP64) (fun _ s' =>
    @rtt LP64 (sta (dev s')) [234]).
Proof.
  eapply runs_mono; [apply (@rtt_statistics LP64 20 40 64 [10; 0; 0; 1] (100, 523400) (100, 500000) [] (@demo_stamped LP64))|].
  - apply demo_fits.
  - done.
  - lia.
  - split; [|split]; by vm_compute.
  - by vm_compute.
  - by vm_compute.
  - by vm_compute.
  - by vm_compute.
  - by repeat split.
  - by vm_compute.
  - by vm_compute.
  - intros b s' [H _]. exact H.
Defined.

(** Where [struct timeval] has 8 bytes, the comparison of the data is
    exact: a reply is shown without a complaint if and only if every byte after
    the time stamp is the one that was sent. *)
Theorem data_check_exact (icp dlen : Z) (s : st ping_w) :
  0 <= icp -> icp + 20 + dlen <= packlen (cf (dev s)) -> 8 + dlen <= MAXPACKET ->
  runs (@check_data ILP32 icp dlen) s (fun _ s' =>
    out s' = out s <->
    forall i, 8 <= i < dlen -> loadb (packet (buf (dev s))) (icp + 8 + i) = loadb (outpack (buf (dev s))) (8 + i)).
Proof.
  intros H0 H1 H2. eapply runs_mono; [by apply (@reply_data_ok ILP32)|].
  intros [] s' [_ [[-> H] | (i & l & Hi & Hd & _ & Ho)]].
  - split; [|done]. intros _ i Hi. destruct (decide (loadb (packet (buf (dev s))) (icp + 8 + i) =
      loadb (outpack (buf (dev s))) (8 + i))) as [E|E]; [done|]. by destruct (H i Hi).
  - split; [|by intros H; destruct Hd; apply H]. rewrite Ho. intros E. apply (f_equal length) in E.
    rewrite length_app in E. cbn in E. lia.
Qed.

Lemma data_check_exact_witness :
  runs (@check_data ILP32 20 32) (@demo_st ILP32 true) (fun _ s' =>
    out s' = [] <-> forall i, 8 <= i < 32 -> @loadb ram _ ∅ (28 + i) = @loadb ram _ ∅ (8 + i)).
Proof. apply (data_check_exact 20 32 (@demo_st ILP32 true)); by vm_compute. Defined.

(** Where [struct timeval] has 16 bytes, the comparison is off by 8: with
    the default data and more than 16 bytes of it, a reply that returns every
    byte of the request is reported as wrong. *)
Theorem data_check_shifted (os : ping_os) (icp : Z) (s : st ping_w) :
  @fits_cfg LP64 (cf (dev s)) -> 0 <= icp <= 60 -> 16 < datalen (cf (dev s)) -> timing (cf (dev s)) = true ->
  runs (@fill_default LP64 (datalen (cf (dev s)));; @pinger LP64 os) s (fun _ s1 =>
    forall m : ram, (forall i, 0 <= i < datalen (cf (dev s)) + 8 -> loadb m (icp + i) = loadb (outpack (buf (dev s1))) i) ->
    runs (@check_data LP64 icp (datalen (cf (dev s)))) (with_packet m s1) (fun _ s2 =>
      exists i l, out s2 = l ++ Stdout (@wrong_data LP64 (dev s2) icp i) :: out s1)).
Proof.
  intros [(Hok & Hp) Hf] Hi Hlen Ht. unfold MAXIPLEN, MAXICMPLEN in Hp. set (dlen := datalen (cf (dev s))) in *.
  change (@sizeof_timeval LP64) with 16 in Hf.
  apply runs_bind. eapply runs_mono; [by apply (@fill_default_ok LP64)|]. intros [] s0 [Hc0 Hj].
  eapply runs_mono; [apply (@pinger_ok LP64 os s0); by rewrite Hc0|].
  intros [] s1 (Hc1 & _ & _ & _ & Hout & _) m Hm. rewrite Hc0, Ht in Hout. change (@sizeof_timeval LP64) with 16 in Hout, Hj.
  eapply runs_mono; [apply (@reply_data_ok LP64); unfold with_packet; cbn [dev cf]; rewrite ?Hc1, ?Hc0|]; [lia|lia|done|].
  intros [] s2 [Hd2 [[_ Hno] | (i & l & _ & _ & _ & Ho)]].
  - destruct (Hno 16); [lia|]. unfold differs, with_packet. cbn [dev buf packet set_packet outpack].
    change (@sizeof_timeval LP64) with 16. replace (icp + 8 + 16) with (icp + 24) by lia.
    rewrite Hm, !Hout by lia. change (16 + 16) with (16 + 16). rewrite (Hj 16) by lia. change 24 with (16 + 8) at 1.
    rewrite (Hj 8) by lia. by vm_compute.
  - exists i, l. by rewrite Ho, Hd2.
Qed.

Lemma data_check_shifted_witness :
  runs (@fill_default LP64 32;; @pinger LP64 (demo_ping (fun _ => EvError))) (@demo_st LP64 true) (fun _ s1 =>
    forall m : ram, (forall i, 0 <= i < 32 + 8 -> loadb m (20 + i) = loadb (outpack (buf (dev s1))) i) ->
    runs (@check_data LP64 20 32) (with_packet m s1) (fun _ s2 =>
      exists i l, out s2 = l ++ Stdout (@wrong_data LP64 (dev s2) 20 i) :: out s1)).
Proof.
  apply (data_check_shifted (demo_ping (fun _ => EvError)) 20 (@demo_st LP64 true)).
  - apply demo_fits.
  - lia.
  - done.
  - done.
Defined.

(** Every pattern of [-p] that is not longer than a [struct timeval] is
    copied past the end of the packet buffer: the loop leaves room for the
    header only, and starts behind the time stamp. *)
Theorem fill_overflows `{DM : DataModel} (patp : string) (s : st ping_w) :
  all_xdigits patp = true -> (0 < length (scan_pat 16 patp))%nat ->
  Z.of_nat (length (scan_pat 16 patp)) <= sizeof_timeval -> wp (fill (8 + sizeof_timeval) patp) s (fun r _ => r = Crash).
Proof. apply fill_crashes. Qed.

Lemma fill_overflows_witness : wp (fill 24 "ff00") (@demo_st LP64 true) (fun r _ => r = Crash).
Proof. apply (@fill_overflows LP64); [done|vm_compute; lia|done]. Defined.
