(* ===== verification/EtCmd.v ===== *)
(** * ethtool: command-line parameters and option letters ([ethernet_test/ethtool/ethtool.c], first part)

    The generic parameter parser fills variables it knows by address; a handler's
    variables and the fields of its ioctl structures are cells of a [store],
    named as in the C source. A cell holds what was written to it; reading it at
    another type converts. *)

From stdpp Require Import base list strings gmap numbers.
From Stdlib Require Import ZArith Lia Ascii.
From S2P Require Import Prelude CInt CLib RxSpec RxParse.

Module Et.

Inductive cmdline_type_t : Type :=
| CMDL_NONE | CMDL_BOOL | CMDL_S32 | CMDL_U8 | CMDL_U16 | CMDL_U32 | CMDL_U64 | CMDL_BE16 | CMDL_IP4
| CMDL_STR | CMDL_FLAG | CMDL_MAC.

#[export] Instance cmdline_type_eq_dec : EqDecision cmdline_type_t.
Proof. solve_decision. Defined.

(** Contents of a cell. *)
Inductive cval : Type :=
| VInt (z : Z)
| VStr (s : string)
| VBytes (l : list Z).

Abbreviation store := (gmap string cval).
Definition rd (m : store) (x : string) : Z := match m !! x with Some (VInt z) => z | _ => 0 end.
Definition wr (m : store) (x : string) (z : Z) : store := <[x := VInt z]> m.
Definition rd_str (m : store) (x : string) : option string := match m !! x with Some (VStr s) => Some s | _ => None end.

(** [wanted_val], [ioctl_val] and [seen_val] are cells; [""] is NULL. *)
Record cmdline_info := mk_ci {
  ci_name : string; ci_type : cmdline_type_t; wanted_val : string; ioctl_val : string; flag_val : Z; seen_val : string
}.

Record flag_info := mk_flag { fl_name : string; fl_value : Z }.
Definition flags_msglvl : list flag_info := [
  mk_flag "drv" 0x0001; mk_flag "probe" 0x0002; mk_flag "link" 0x0004; mk_flag "timer" 0x0008;
  mk_flag "ifdown" 0x0010; mk_flag "ifup" 0x0020; mk_flag "rx_err" 0x0040; mk_flag "tx_err" 0x0080;
  mk_flag "tx_queued" 0x0100; mk_flag "intr" 0x0200; mk_flag "tx_done" 0x0400; mk_flag "rx_status" 0x0800;
  mk_flag "pktdata" 0x1000; mk_flag "hw" 0x2000; mk_flag "wol" 0x4000 ].

(** ** [inet_aton] *)

(** The numbers of a dotted address; a number may be decimal, octal or
    hexadecimal, and white space ends the address. *)
Fixpoint aton_parts (k : nat) (s : string) : option (list Z) :=
  match s with
  | String c0 _ =>
      if negb (isdigit c0) then None
      else
        let r := strtou 64 0 s in
        if serange r || (0xffffffff <? sv r) then None
        else match send r with
             | EmptyString => Some [sv r]
             | String c rest =>
                 if cc c =? 46 then
                   match k with
                   | O => None
                   | S k' => if 255 <? sv r then None else cons (sv r) <$> aton_parts k' rest
                   end
                 else if isspace c then Some [sv r] else None
             end
  | EmptyString => None
  end%bool.

(** [in.s_addr]: the bytes of the address in memory, read on a little-endian
    host. *)
Definition inet_aton (s : string) : option Z :=
  match aton_parts 3 s with
  | Some [a] => Some (htonl a)
  | Some [a; b] => if 0xffffff <? b then None else Some (htonl (Z.shiftl a 24 + b))
  | Some [a; b; c] => if 0xffff <? c then None else Some (htonl (Z.shiftl a 24 + Z.shiftl b 16 + c))
  | Some [a; b; c; d] => if 0xff <? d then None else Some (htonl (Z.shiftl a 24 + Z.shiftl b 16 + Z.shiftl c 8 + d))
  | _ => None
  end.

Section cmdline.
Context {W : Type}.
Abbreviation P := (M W).

Definition exit_bad_args {A} : P A :=
  eprintf ("ethtool: bad command line argument(s)" +:+ nl +:+ "For more information run ethtool -h" +:+ nl);; exit 1.

(** [None] is NULL. *)
Definition get_int_range (str : option string) (base min max : Z) : P Z :=
  match str with
  | None => exit_bad_args
  | Some str =>
      let r := strtoll base str in
      if (serange r || truth (char_at0 (send r)) || (sv r <? min) || (max <? sv r))%bool then exit_bad_args
      else mret (sv r)
  end.
Definition get_uint_range (str : option string) (base max : Z) : P Z :=
  match str with
  | None => exit_bad_args
  | Some str =>
      let r := strtoull base str in
      if (serange r || truth (char_at0 (send r)) || (max <? sv r))%bool then exit_bad_args else mret (sv r)
  end.
Definition get_int (str : option string) (base : Z) : P Z := get_int_range str base (- 2 ^ 31) (2 ^ 31 - 1).
Definition get_u32 (str : option string) (base : Z) : P Z := get_uint_range str base 0xffffffff.
Definition get_mac_addr (src : string) : P (list Z) :=
  let buf := scan_hex_colon 5 src in
  if negb (Z.of_nat (length buf) =? 6) then exit_bad_args else mret (u8 <$> buf).

(** The [switch] on the type of a parameter. *)
Definition set_wanted (ci : cmdline_info) (arg : string) (m : store) : P store :=
  let p := wanted_val ci in
  match ci_type ci with
  | CMDL_BOOL => if streq arg "on" then mret (wr m p 1) else if streq arg "off" then mret (wr m p 0) else exit_bad_args
  | CMDL_S32 => v ← get_int_range (Some arg) 0 (- 0x80000000) 0x7fffffff; mret (wr m p v)
  | CMDL_U8 => v ← get_uint_range (Some arg) 0 0xff; mret (wr m p v)
  | CMDL_U16 => v ← get_uint_range (Some arg) 0 0xffff; mret (wr m p v)
  | CMDL_U32 => v ← get_uint_range (Some arg) 0 0xffffffff; mret (wr m p v)
  | CMDL_U64 => v ← get_uint_range (Some arg) 0 0xffffffffffffffff; mret (wr m p v)
  | CMDL_BE16 => v ← get_uint_range (Some arg) 0 0xffff; mret (wr m p (cpu_to_be16 v))
  | CMDL_IP4 => match inet_aton arg with None => exit_bad_args | Some v => mret (wr m p v) end
  | CMDL_MAC => l ← get_mac_addr arg; mret (<[p := VBytes l]> m)
  | CMDL_FLAG =>
      let m := wr m (seen_val ci) (Z.lor (rd m (seen_val ci)) (flag_val ci)) in
      if streq arg "on" then mret (wr m p (Z.lor (rd m p) (flag_val ci)))
      else if negb (streq arg "off") then exit_bad_args else mret m
  | CMDL_STR => mret (<[p := VStr arg]> m)
  | CMDL_NONE => exit_bad_args
  end.

Definition find_info (info : list cmdline_info) (name : string) : option cmdline_info :=
  List.find (fun ci => streq (ci_name ci) name) info.

(** [*changed] and the cells after the arguments [args]. *)
Fixpoint parse_generic_cmdline (info : list cmdline_info) (args : list string) (changed : Z) (m : store) : P (Z * store) :=
  match args with
  | [] => mret (changed, m)
  | arg :: rest =>
      match find_info info arg with
      | None => exit_bad_args
      | Some ci =>
          let m := if (negb (bool_decide (ci_type ci = CMDL_FLAG)) && negb (streq (seen_val ci) ""))%bool
                   then wr m (seen_val ci) 1 else m in
          match rest with
          | [] => exit_bad_args
          | v :: rest' => m ← set_wanted ci v m; parse_generic_cmdline info rest' 1 m
          end
      end
  end.

Definition flag_to_cmdline_info (name : string) (value : Z) (wanted mask : string) : cmdline_info :=
  mk_ci name CMDL_FLAG wanted "" value mask.

(** The names of the flags set, the rest in hexadecimal. *)
Fixpoint print_flags (info : list flag_info) (value : Z) (sep : string) : P unit :=
  match info with
  | [] => when (truth value) (printf (sep +:+ "0x" +:+ hex value))
  | f :: info' =>
      if truth (Z.land value (fl_value f)) then
        printf (sep +:+ fl_name f);; print_flags info' (Z.land value (notu 32 (fl_value f))) " "
      else print_flags info' value sep
  end.

(** ** do_generic_set *)

(** Both cells are read as [int]. *)
Definition do_generic_set1 (info : cmdline_info) (changed_out : Z) (m : store) : P (Z * store) :=
  let wanted := s32 (rd m (wanted_val info)) in
  if wanted <? 0 then mret (changed_out, m)
  else if wanted =? s32 (rd m (ioctl_val info)) then
    eprintf (ci_name info +:+ " unmodified, ignoring" +:+ nl);; mret (changed_out, m)
  else mret (1, wr m (ioctl_val info) wanted).

Fixpoint do_generic_set (info : list cmdline_info) (changed_out : Z) (m : store) : P (Z * store) :=
  match info with
  | [] => mret (changed_out, m)
  | ci :: info' => x ← do_generic_set1 ci changed_out m; do_generic_set info' x.1 x.2
  end.
End cmdline.

(** ** Flow types and option letters *)

Definition AH_ESP_V4_FLOW : Z := 0x04.
Definition AH_ESP_V6_FLOW : Z := 0x08.
Definition rxflow_str_to_type (str : string) : Z :=
  if streq str "tcp4" then TCP_V4_FLOW
  else if streq str "udp4" then UDP_V4_FLOW
  else if (streq str "ah4" || streq str "esp4")%bool then AH_ESP_V4_FLOW
  else if streq str "sctp4" then SCTP_V4_FLOW
  else if streq str "tcp6" then TCP_V6_FLOW
  else if streq str "udp6" then UDP_V6_FLOW
  else if (streq str "ah6" || streq str "esp6")%bool then AH_ESP_V6_FLOW
  else if streq str "sctp6" then SCTP_V6_FLOW
  else if streq str "ether" then ETHER_FLOW
  else 0.

Definition WAKE_PHY : Z := 0x01.
Definition WAKE_UCAST : Z := 0x02.
Definition WAKE_MCAST : Z := 0x04.
Definition WAKE_BCAST : Z := 0x08.
Definition WAKE_ARP : Z := 0x10.
Definition WAKE_MAGIC : Z := 0x20.
Definition WAKE_MAGICSECURE : Z := 0x40.

Definition wol_letter (c : ascii) (data : Z) : option Z :=
  match c with
  | "p" => Some (Z.lor data WAKE_PHY)
  | "u" => Some (Z.lor data WAKE_UCAST)
  | "m" => Some (Z.lor data WAKE_MCAST)
  | "b" => Some (Z.lor data WAKE_BCAST)
  | "a" => Some (Z.lor data WAKE_ARP)
  | "g" => Some (Z.lor data WAKE_MAGIC)
  | "s" => Some (Z.lor data WAKE_MAGICSECURE)
  | "d" => Some 0
  | _ => None
  end%char.
Fixpoint parse_letters (f : ascii -> Z -> option Z) (s : string) (data : Z) : option Z :=
  match s with
  | EmptyString => Some data
  | String c s' => match f c data with Some d => parse_letters f s' d | None => None end
  end.
(** [None] is the result -1. *)
Definition parse_wolopts (optstr : string) : option Z := parse_letters wol_letter optstr 0.

(** [*p++ = c] into a buffer of 16 characters. *)
Definition put_if (b : bool) (c : ascii) (s : string) : string := if b then s +:+ String c EmptyString else s.
Definition unparse_wolopts (wolopts : Z) : string :=
  if truth wolopts then
    put_if (truth (Z.land wolopts WAKE_MAGICSECURE)) "s" (put_if (truth (Z.land wolopts WAKE_MAGIC)) "g"
    (put_if (truth (Z.land wolopts WAKE_ARP)) "a" (put_if (truth (Z.land wolopts WAKE_BCAST)) "b"
    (put_if (truth (Z.land wolopts WAKE_MCAST)) "m" (put_if (truth (Z.land wolopts WAKE_UCAST)) "u"
    (put_if (truth (Z.land wolopts WAKE_PHY)) "p" EmptyString))))))
  else "d".

Definition RXH_L2DA : Z := 0x02.
Definition RXH_VLAN : Z := 0x04.
Definition RXH_L3_PROTO : Z := 0x08.
Definition RXH_IP_SRC : Z := 0x10.
Definition RXH_IP_DST : Z := 0x20.
Definition RXH_L4_B_0_1 : Z := 0x40.
Definition RXH_L4_B_2_3 : Z := 0x80.
Definition RXH_DISCARD : Z := 0x80000000.

Definition rxfh_letter (c : ascii) (data : Z) : option Z :=
  match c with
  | "m" => Some (Z.lor data RXH_L2DA)
  | "v" => Some (Z.lor data RXH_VLAN)
  | "t" => Some (Z.lor data RXH_L3_PROTO)
  | "s" => Some (Z.lor data RXH_IP_SRC)
  | "d" => Some (Z.lor data RXH_IP_DST)
  | "f" => Some (Z.lor data RXH_L4_B_0_1)
  | "n" => Some (Z.lor data RXH_L4_B_2_3)
  | "r" => Some (Z.lor data RXH_DISCARD)
  | _ => None
  end%char.
Definition parse_rxfhashopts (optstr : string) : option Z := parse_letters rxfh_letter optstr 0.

Definition if_str (b : bool) (s : string) : string := if b then s else "".
Definition unparse_rxfhashopts (opts : Z) : string :=
  let has f := truth (Z.land opts f) in
  if truth opts then
    if_str (has RXH_L2DA) ("L2DA" +:+ nl) +:+ if_str (has RXH_VLAN) ("VLAN tag" +:+ nl) +:+
    if_str (has RXH_L3_PROTO) ("L3 proto" +:+ nl) +:+ if_str (has RXH_IP_SRC) ("IP SA" +:+ nl) +:+
    if_str (has RXH_IP_DST) ("IP DA" +:+ nl) +:+
    if_str (has RXH_L4_B_0_1) ("L4 bytes 0 & 1 [TCP/UDP src port]" +:+ nl) +:+
    if_str (has RXH_L4_B_2_3) ("L4 bytes 2 & 3 [TCP/UDP dst port]" +:+ nl)
  else "None".
End Et.
