(* ===== verification/EtSet.v ===== *)
(** * ethtool: the parameter commands ([ethernet_test/ethtool/ethtool.c])

    Pause, ring, channel, coalesce and EEE parameters: the display commands and
    the commands that read the current values, apply the arguments and write
    them back. The kernel is any [EtDevice]. *)

From stdpp Require Import base list strings gmap numbers.
From Stdlib Require Import ZArith Lia Ascii.
From S2P Require Import Prelude CInt CLib RxSpec RxRules RxParse EtCmd.
Import Et.

(** ** The ioctl interface *)

(** A structure given to [SIOCETHTOOL]: the command, the scalar fields by name
    and the bytes or words of its array, if it has one. *)
Record ereq := mk_ereq { rq_cmd : Z; rq_f : gmap string Z; rq_arr : list Z }.

(** Result, [errno], the structure as the kernel left it, and the device. *)
Class EtDevice (D : Type) : Type := et_ioctl : ereq -> D -> Z * Z * ereq * D.

(** What the C library and the environment contribute: the rule commands'
    environment, error texts, contents of uninitialised fields, and whether an
    allocation succeeds. *)
Record et_env := { ee_rx : rx_env; ee_strerror : Z -> string; ee_junk : string -> Z; ee_malloc : Z -> bool }.

Module EtS.

Definition ETHTOOL_GCOALESCE : Z := 0x0e.
Definition ETHTOOL_SCOALESCE : Z := 0x0f.
Definition ETHTOOL_GRINGPARAM : Z := 0x10.
Definition ETHTOOL_SRINGPARAM : Z := 0x11.
Definition ETHTOOL_GPAUSEPARAM : Z := 0x12.
Definition ETHTOOL_SPAUSEPARAM : Z := 0x13.
Definition ETHTOOL_GCHANNELS : Z := 0x3c.
Definition ETHTOOL_SCHANNELS : Z := 0x3d.
Definition ETHTOOL_GEEE : Z := 0x44.
Definition ETHTOOL_SEEE : Z := 0x45.
Definition ETHTOOL_GSET : Z := 0x01.
Definition ADVERTISED_Pause : Z := 0x2000.
Definition ADVERTISED_Asym_Pause : Z := 0x4000.

(** A structure variable: its name and its fields. *)
Record cstruct := mk_cs { cs_name : string; cs_fields : list string }.
Definition cell (s : cstruct) (f : string) : string := cs_name s +:+ "." +:+ f.

Definition epause : cstruct := mk_cs "epause" ["autoneg"; "rx_pause"; "tx_pause"].
Definition ering : cstruct := mk_cs "ering"
  ["rx_max_pending"; "rx_mini_max_pending"; "rx_jumbo_max_pending"; "tx_max_pending";
   "rx_pending"; "rx_mini_pending"; "rx_jumbo_pending"; "tx_pending"].
Definition echannels : cstruct := mk_cs "echannels"
  ["max_rx"; "max_tx"; "max_other"; "max_combined"; "rx_count"; "tx_count"; "other_count"; "combined_count"].
Definition ecoal : cstruct := mk_cs "ecoal"
  ["rx_coalesce_usecs"; "rx_max_coalesced_frames"; "rx_coalesce_usecs_irq"; "rx_max_coalesced_frames_irq";
   "tx_coalesce_usecs"; "tx_max_coalesced_frames"; "tx_coalesce_usecs_irq"; "tx_max_coalesced_frames_irq";
   "stats_block_coalesce_usecs"; "use_adaptive_rx_coalesce"; "use_adaptive_tx_coalesce"; "pkt_rate_low";
   "rx_coalesce_usecs_low"; "rx_max_coalesced_frames_low"; "tx_coalesce_usecs_low"; "tx_max_coalesced_frames_low";
   "pkt_rate_high"; "rx_coalesce_usecs_high"; "rx_max_coalesced_frames_high"; "tx_coalesce_usecs_high";
   "tx_max_coalesced_frames_high"; "rate_sample_interval"].
Definition eeecmd : cstruct := mk_cs "eeecmd"
  ["supported"; "advertised"; "lp_advertised"; "eee_active"; "eee_enabled"; "tx_lpi_enabled"; "tx_lpi_timer"].
(** [struct ethtool_cmd] *)
Definition ecmd : cstruct := mk_cs "ecmd"
  ["supported"; "advertising"; "speed"; "duplex"; "port"; "phy_address"; "transceiver"; "autoneg"; "mdio_support";
   "maxtxpkt"; "maxrxpkt"; "speed_hi"; "eth_tp_mdix"; "eth_tp_mdix_ctrl"; "lp_advertising"].

(** The fields of a structure in memory, and their values after the call. *)
Definition pack (s : cstruct) (m : store) : gmap string Z :=
  list_to_map ((fun f => (f, rd m (cell s f))) <$> cs_fields s).
Definition unpack_fields (s : cstruct) (fs : list string) (r : gmap string Z) (m : store) : store :=
  foldr (fun f m => wr m (cell s f) (default 0 (r !! f))) m fs.
Definition unpack (s : cstruct) (r : gmap string Z) (m : store) : store := unpack_fields s (cs_fields s) r m.

Section set.
Context {D : Type} `{ED : EtDevice D} (env : et_env).
Abbreviation P := (M D).

Definition perror (x : string) (errno : Z) : P unit := eprintf (x +:+ ": " +:+ ee_strerror env errno +:+ nl).
Definition send_ioctl (q : ereq) : P (Z * Z * ereq) :=
  devop (fun d => let '(err, en, r, d') := et_ioctl q d in ((err, en, r), d')).
(** A structure that is uninitialised. *)
Definition junk (s : cstruct) (m : store) : store :=
  foldr (fun f m => wr m (cell s f) (ee_junk env (cell s f))) m (cs_fields s).
(** [s.cmd = cmd; err = send_ioctl(ctx, &s);] *)
Definition send_struct (s : cstruct) (cmd : Z) (m : store) : P (Z * Z * store) :=
  x ← send_ioctl (mk_ereq cmd (pack s m) []);
  let '(err, en, r) := x in mret (err, en, unpack s (rq_f r) m).

(** ** Display *)

Definition onoff (z : Z) : string := if truth z then "on" else "off".

Definition dump_pause (m : store) (advertising lp_advertising : Z) : P Z :=
  let v f := rd m (cell epause f) in
  printf ("Autonegotiate:" +:+ tab +:+ onoff (v "autoneg") +:+ nl +:+
          "RX:" +:+ tab +:+ tab +:+ onoff (v "rx_pause") +:+ nl +:+
          "TX:" +:+ tab +:+ tab +:+ onoff (v "tx_pause") +:+ nl);;
  when (truth lp_advertising)
    (let both := Z.land advertising lp_advertising in
     let '(an_rx, an_tx) :=
       if truth (Z.land both ADVERTISED_Pause) then (1, 1)
       else if truth (Z.land both ADVERTISED_Asym_Pause) then
         if truth (Z.land advertising ADVERTISED_Pause) then (1, 0)
         else if truth (Z.land lp_advertising ADVERTISED_Pause) then (0, 1)
         else (0, 0)
       else (0, 0) in
     printf ("RX negotiated:" +:+ tab +:+ onoff an_rx +:+ nl +:+ "TX negotiated:" +:+ tab +:+ onoff an_tx +:+ nl));;
  printf nl;;
  mret 0.

(** Lines of a label and an unsigned number. *)
Definition lines (m : store) (s : cstruct) (l : list (string * string)) : string :=
  foldr (fun '(label, f) acc => label +:+ dec (rd m (cell s f)) +:+ nl +:+ acc) "" l.

Definition dump_ring (m : store) : P Z :=
  printf ("Pre-set maximums:" +:+ nl +:+ lines m ering
    [("RX:" +:+ tab +:+ tab, "rx_max_pending"); ("RX Mini:" +:+ tab, "rx_mini_max_pending");
     ("RX Jumbo:" +:+ tab, "rx_jumbo_max_pending"); ("TX:" +:+ tab +:+ tab, "tx_max_pending")]);;
  printf ("Current hardware settings:" +:+ nl +:+ lines m ering
    [("RX:" +:+ tab +:+ tab, "rx_pending"); ("RX Mini:" +:+ tab, "rx_mini_pending");
     ("RX Jumbo:" +:+ tab, "rx_jumbo_pending"); ("TX:" +:+ tab +:+ tab, "tx_pending")]);;
  printf nl;;
  mret 0.

Definition dump_channels (m : store) : P Z :=
  printf ("Pre-set maximums:" +:+ nl +:+ lines m echannels
    [("RX:" +:+ tab +:+ tab, "max_rx"); ("TX:" +:+ tab +:+ tab, "max_tx");
     ("Other:" +:+ tab +:+ tab, "max_other"); ("Combined:" +:+ tab, "max_combined")]);;
  printf ("Current hardware settings:" +:+ nl +:+ lines m echannels
    [("RX:" +:+ tab +:+ tab, "rx_count"); ("TX:" +:+ tab +:+ tab, "tx_count");
     ("Other:" +:+ tab +:+ tab, "other_count"); ("Combined:" +:+ tab, "combined_count")]);;
  printf nl;;
  mret 0.

Definition dump_coalesce (m : store) : P Z :=
  printf ("Adaptive RX: " +:+ onoff (rd m (cell ecoal "use_adaptive_rx_coalesce")) +:+
          "  TX: " +:+ onoff (rd m (cell ecoal "use_adaptive_tx_coalesce")) +:+ nl);;
  printf (lines m ecoal
    [("stats-block-usecs: ", "stats_block_coalesce_usecs"); ("sample-interval: ", "rate_sample_interval");
     ("pkt-rate-low: ", "pkt_rate_low"); ("pkt-rate-high: ", "pkt_rate_high")] +:+ nl +:+ lines m ecoal
    [("rx-usecs: ", "rx_coalesce_usecs"); ("rx-frames: ", "rx_max_coalesced_frames");
     ("rx-usecs-irq: ", "rx_coalesce_usecs_irq"); ("rx-frames-irq: ", "rx_max_coalesced_frames_irq")] +:+ nl +:+ lines m ecoal
    [("tx-usecs: ", "tx_coalesce_usecs"); ("tx-frames: ", "tx_max_coalesced_frames");
     ("tx-usecs-irq: ", "tx_coalesce_usecs_irq"); ("tx-frames-irq: ", "tx_max_coalesced_frames_irq")] +:+ nl +:+ lines m ecoal
    [("rx-usecs-low: ", "rx_coalesce_usecs_low"); ("rx-frame-low: ", "rx_max_coalesced_frames_low");
     ("tx-usecs-low: ", "tx_coalesce_usecs_low"); ("tx-frame-low: ", "tx_max_coalesced_frames_low")] +:+ nl +:+ lines m ecoal
    [("rx-usecs-high: ", "rx_coalesce_usecs_high"); ("rx-frame-high: ", "rx_max_coalesced_frames_high");
     ("tx-usecs-high: ", "tx_coalesce_usecs_high"); ("tx-frame-high: ", "tx_max_coalesced_frames_high")] +:+ nl);;
  mret 0.

Definition do_gpause (devname : string) (args : list string) : P Z :=
  if truth (Z.of_nat (length args)) then exit_bad_args
  else
    printf ("Pause parameters for " +:+ devname +:+ ":" +:+ nl);;
    x ← send_struct epause ETHTOOL_GPAUSEPARAM (junk epause ∅);
    let '(err, en, m) := x in
    if truth err then perror "Cannot get device pause settings" en;; mret 76
    else if truth (rd m (cell epause "autoneg")) then
      y ← send_struct ecmd ETHTOOL_GSET (junk ecmd m);
      let '(err, en, m) := y in
      if truth err then perror "Cannot get device settings" en;; mret 1
      else _ ← dump_pause m (rd m (cell ecmd "advertising")) (rd m (cell ecmd "lp_advertising")); mret 0
    else _ ← dump_pause m 0 0; mret 0.

(** The shape of the other display commands. *)
Definition show_struct (title : string) (s : cstruct) (cmd : Z) (dump : store -> P Z) (msg : string) (code : Z)
    (devname : string) (args : list string) : P Z :=
  if truth (Z.of_nat (length args)) then exit_bad_args
  else
    printf (title +:+ " parameters for " +:+ devname +:+ ":" +:+ nl);;
    x ← send_struct s cmd (junk s ∅);
    let '(err, en, m) := x in
    if err =? 0 then err ← dump m; if truth err then mret err else mret 0
    else perror msg en;; mret code.
Definition do_gring := show_struct "Ring" ering ETHTOOL_GRINGPARAM dump_ring "Cannot get device ring settings" 76.
Definition do_gchannels :=
  show_struct "Channel" echannels ETHTOOL_GCHANNELS dump_channels ("Cannot get device channel parameters" +:+ nl) 1.
Definition do_gcoalesce :=
  show_struct "Coalesce" ecoal ETHTOOL_GCOALESCE dump_coalesce "Cannot get device coalesce settings" 82.

(** ** Parameter tables *)

(** A parameter of type [t] whose variable starts at -1. *)
Definition param (name : string) (t : cmdline_type_t) (wanted : string) (s : cstruct) (f : string) : cmdline_info :=
  mk_ci name t wanted (cell s f) 0 "".
Definition cmdline_pause : list cmdline_info := [
  param "autoneg" CMDL_BOOL "pause_autoneg_wanted" epause "autoneg";
  param "rx" CMDL_BOOL "pause_rx_wanted" epause "rx_pause";
  param "tx" CMDL_BOOL "pause_tx_wanted" epause "tx_pause" ].
Definition cmdline_ring : list cmdline_info := [
  param "rx" CMDL_S32 "ring_rx_wanted" ering "rx_pending";
  param "rx-mini" CMDL_S32 "ring_rx_mini_wanted" ering "rx_mini_pending";
  param "rx-jumbo" CMDL_S32 "ring_rx_jumbo_wanted" ering "rx_jumbo_pending";
  param "tx" CMDL_S32 "ring_tx_wanted" ering "tx_pending" ].
Definition cmdline_channels : list cmdline_info := [
  param "rx" CMDL_S32 "channels_rx_wanted" echannels "rx_count";
  param "tx" CMDL_S32 "channels_tx_wanted" echannels "tx_count";
  param "other" CMDL_S32 "channels_other_wanted" echannels "other_count";
  param "combined" CMDL_S32 "channels_combined_wanted" echannels "combined_count" ].
Definition cmdline_coalesce : list cmdline_info := [
  param "adaptive-rx" CMDL_BOOL "coal_adaptive_rx_wanted" ecoal "use_adaptive_rx_coalesce";
  param "adaptive-tx" CMDL_BOOL "coal_adaptive_tx_wanted" ecoal "use_adaptive_tx_coalesce";
  param "sample-interval" CMDL_S32 "coal_sample_rate_wanted" ecoal "rate_sample_interval";
  param "stats-block-usecs" CMDL_S32 "coal_stats_wanted" ecoal "stats_block_coalesce_usecs";
  param "pkt-rate-low" CMDL_S32 "coal_pkt_rate_low_wanted" ecoal "pkt_rate_low";
  param "pkt-rate-high" CMDL_S32 "coal_pkt_rate_high_wanted" ecoal "pkt_rate_high";
  param "rx-usecs" CMDL_S32 "coal_rx_usec_wanted" ecoal "rx_coalesce_usecs";
  param "rx-frames" CMDL_S32 "coal_rx_frames_wanted" ecoal "rx_max_coalesced_frames";
  param "rx-usecs-irq" CMDL_S32 "coal_rx_usec_irq_wanted" ecoal "rx_coalesce_usecs_irq";
  param "rx-frames-irq" CMDL_S32 "coal_rx_frames_irq_wanted" ecoal "rx_max_coalesced_frames_irq";
  param "tx-usecs" CMDL_S32 "coal_tx_usec_wanted" ecoal "tx_coalesce_usecs";
  param "tx-frames" CMDL_S32 "coal_tx_frames_wanted" ecoal "tx_max_coalesced_frames";
  param "tx-usecs-irq" CMDL_S32 "coal_tx_usec_irq_wanted" ecoal "tx_coalesce_usecs_irq";
  param "tx-frames-irq" CMDL_S32 "coal_tx_frames_irq_wanted" ecoal "tx_max_coalesced_frames_irq";
  param "rx-usecs-low" CMDL_S32 "coal_rx_usec_low_wanted" ecoal "rx_coalesce_usecs_low";
  param "rx-frames-low" CMDL_S32 "coal_rx_frames_low_wanted" ecoal "rx_max_coalesced_frames_low";
  param "tx-usecs-low" CMDL_S32 "coal_tx_usec_low_wanted" ecoal "tx_coalesce_usecs_low";
  param "tx-frames-low" CMDL_S32 "coal_tx_frames_low_wanted" ecoal "tx_max_coalesced_frames_low";
  param "rx-usecs-high" CMDL_S32 "coal_rx_usec_high_wanted" ecoal "rx_coalesce_usecs_high";
  param "rx-frames-high" CMDL_S32 "coal_rx_frames_high_wanted" ecoal "rx_max_coalesced_frames_high";
  param "tx-usecs-high" CMDL_S32 "coal_tx_usec_high_wanted" ecoal "tx_coalesce_usecs_high";
  param "tx-frames-high" CMDL_S32 "coal_tx_frames_high_wanted" ecoal "tx_max_coalesced_frames_high" ].
Definition cmdline_eee : list cmdline_info := [
  param "advertise" CMDL_U32 "adv_c" eeecmd "advertised";
  param "tx-lpi" CMDL_BOOL "lpi_c" eeecmd "tx_lpi_enabled";
  param "tx-timer" CMDL_U32 "lpi_time_c" eeecmd "tx_lpi_timer";
  param "eee" CMDL_BOOL "eee_c" eeecmd "eee_enabled" ].

(** The variables of a handler: -1 each, and the uninitialised structure. *)
Definition locals (info : list cmdline_info) (s : cstruct) : store :=
  foldr (fun ci m => wr m (wanted_val ci) (-1)) (junk s ∅) info.

(** ** The set commands *)

(** Their common shape: parse, get, apply, set. [unchanged] is what happens
    when no parameter changes. *)
Definition set_params (info : list cmdline_info) (s : cstruct) (get set : Z) (gmsg : string) (gcode : Z)
    (unchanged : store -> P Z) (smsg : string) (scode : Z) (args : list string) : P Z :=
  x ← parse_generic_cmdline info args 0 (locals info s);
  y ← send_struct s get x.2;
  let '(err, en, m) := y in
  if truth err then perror gmsg en;; mret gcode
  else
    z ← do_generic_set info 0 m;
    if z.1 =? 0 then unchanged z.2
    else
      y ← send_struct s set z.2;
      let '(err, en, m) := y in
      if truth err then perror smsg en;; mret scode else mret 0.

Definition do_spause : list string -> P Z :=
  set_params cmdline_pause epause ETHTOOL_GPAUSEPARAM ETHTOOL_SPAUSEPARAM "Cannot get device pause settings" 77
    (fun _ => eprintf ("no pause parameters changed, aborting" +:+ nl);; mret 78)
    "Cannot set device pause parameters" 79.
Definition do_sring : list string -> P Z :=
  set_params cmdline_ring ering ETHTOOL_GRINGPARAM ETHTOOL_SRINGPARAM "Cannot get device ring settings" 76
    (fun _ => eprintf ("no ring parameters changed, aborting" +:+ nl);; mret 80)
    "Cannot set device ring parameters" 81.
Definition do_schannels : list string -> P Z :=
  set_params cmdline_channels echannels ETHTOOL_GCHANNELS ETHTOOL_SCHANNELS "Cannot get device channel parameters" 1
    (fun m =>
       let v f := dec (rd m (cell echannels f)) in
       eprintf ("no channel parameters changed, aborting" +:+ nl);;
       eprintf ("current values: tx " +:+ v "rx_count" +:+ " rx " +:+ v "tx_count" +:+ " other " +:+ v "other_count" +:+
                "combined " +:+ v "combined_count" +:+ nl);;
       mret 1)
    "Cannot set device channel parameters" 1.
Definition do_scoalesce : list string -> P Z :=
  set_params cmdline_coalesce ecoal ETHTOOL_GCOALESCE ETHTOOL_SCOALESCE "Cannot get device coalesce settings" 76
    (fun _ => eprintf ("no coalesce parameters changed, aborting" +:+ nl);; mret 80)
    "Cannot set device coalesce parameters" 81.
Definition do_seee (args : list string) : P Z :=
  if Z.of_nat (length args) =? 0 then exit_bad_args
  else set_params cmdline_eee eeecmd ETHTOOL_GEEE ETHTOOL_SEEE "Cannot get EEE settings" 1 (fun _ => mret 0)
         "Cannot set EEE settings" 1 args.
End set.
End EtS.
