(* ===== verification/EtSetOk.v ===== *)
(** * ethtool: what the parameter commands do

    A specification of a command line as a map from structure fields to values,
    and lemmas that the generic parser and the generic setter implement it. *)

From stdpp Require Import base list strings gmap numbers.
From Stdlib Require Import ZArith Lia Ascii.
From S2P Require Import Prelude CInt CLib RxSpec RxRules RxParse EtCmd EtSet.
Import Et EtS.

(** ** Specification of a command line *)

(** The value of an argument for a parameter of type [t]. *)
Definition arg_value (t : cmdline_type_t) (arg : string) : option Z :=
  match t with
  | CMDL_BOOL => if streq arg "on" then Some 1 else if streq arg "off" then Some 0 else None
  | CMDL_S32 => let r := strtoll 0 arg in
      if (serange r || truth (char_at0 (send r)) || (sv r <? - 0x80000000) || (0x7fffffff <? sv r))%bool then None else Some (sv r)
  | CMDL_U32 => let r := strtoull 0 arg in
      if (serange r || truth (char_at0 (send r)) || (0xffffffff <? sv r))%bool then None else Some (sv r)
  | _ => None
  end.

(** The last value given for each field; [None] when the line is not a sequence
    of known names with values. *)
Fixpoint spec_args (info : list cmdline_info) (args : list string) : option (gmap string Z) :=
  match args with
  | [] => Some ∅
  | [_] => None
  | name :: arg :: rest =>
      match find_info info name with
      | None => None
      | Some ci =>
          match arg_value (ci_type ci) arg, spec_args info rest with
          | Some v, Some m => Some (m ∪ {[ioctl_val ci := v]})
          | _, _ => None
          end
      end
  end.

(** A value applies when it is not negative as an [int]. *)
Definition new_val (vals : gmap string Z) (x : string) (cur : Z) : Z :=
  match vals !! x with
  | Some v => if 0 <=? s32 v then s32 v else cur
  | None => cur
  end.

(** ** Tables *)

Definition plain_type (t : cmdline_type_t) : bool :=
  match t with CMDL_BOOL | CMDL_S32 | CMDL_U32 => true | _ => false end.

(** Variables and fields are distinct, and each field belongs to the
    structure. *)
Definition table_ok (info : list cmdline_info) (s : cstruct) : bool :=
  bool_decide (NoDup (wanted_val <$> info)) && bool_decide (NoDup (ioctl_val <$> info)) &&
  bool_decide (NoDup (cell s <$> cs_fields s)) &&
  forallb (fun ci => plain_type (ci_type ci) && streq (seen_val ci) "" &&
    bool_decide (ioctl_val ci ∈ cell s <$> cs_fields s) && bool_decide (wanted_val ci ∉ cell s <$> cs_fields s)) info.

Lemma tables_ok :
  table_ok cmdline_pause epause && table_ok cmdline_ring ering && table_ok cmdline_channels echannels &&
  table_ok cmdline_coalesce ecoal && table_ok cmdline_eee eeecmd = true.
Proof. by vm_compute. Qed.

Lemma rd_wr m x z : rd (wr m x z) x = z.
Proof. unfold rd, wr. by rewrite lookup_insert_eq. Qed.
Lemma rd_wr_ne m x y z : x <> y -> rd (wr m x z) y = rd m y.
Proof. intros H. unfold rd, wr. by rewrite lookup_insert_ne. Qed.

Section table.
Context (info : list cmdline_info) (s : cstruct).
Hypothesis Hok : table_ok info s = true.

Lemma table_facts : NoDup (wanted_val <$> info) /\ NoDup (ioctl_val <$> info) /\ NoDup (cell s <$> cs_fields s).
Proof.
  unfold table_ok in Hok. rewrite !andb_true_iff in Hok. destruct Hok as [[[H1 H2] H3] _].
  by rewrite !bool_decide_eq_true in *.
Qed.

Lemma table_entry ci : ci ∈ info -> plain_type (ci_type ci) = true /\ seen_val ci = "" /\
  ioctl_val ci ∈ cell s <$> cs_fields s /\ wanted_val ci ∉ cell s <$> cs_fields s.
Proof.
  intros Hin. unfold table_ok in Hok. rewrite !andb_true_iff in Hok. destruct Hok as [_ H].
  rewrite forallb_forall in H. specialize (H ci). rewrite !andb_true_iff, !bool_decide_eq_true in H.
  destruct H as [[[H1 H2] H3] H4]; [by apply list_elem_of_In|]. split; [done|]. split; [by apply String.eqb_eq|done].
Qed.

Lemma fmap_inj_in {A B} (f : A -> B) (l : list A) x y : NoDup (f <$> l) -> x ∈ l -> y ∈ l -> f x = f y -> x = y.
Proof.
  intros Hn Hx Hy E. apply list_elem_of_lookup in Hx as [i Hi]. apply list_elem_of_lookup in Hy as [j Hj].
  assert (i = j) as ->; [|congruence].
  apply (NoDup_lookup (f <$> l) i j (f x)); [done|by rewrite list_lookup_fmap, Hi|rewrite list_lookup_fmap, Hj; cbn; congruence].
Qed.

Lemma find_info_in name ci : find_info info name = Some ci -> ci ∈ info.
Proof. intros H. apply find_some in H as [H _]. by apply list_elem_of_In. Qed.
End table.

(** ** The parser *)

Section parse.
Context {W : Type}.

(** The parser stores the value or ends the program. *)
Lemma set_wanted_ok ci arg m (st0 : st W) : plain_type (ci_type ci) = true ->
  wp (set_wanted ci arg m) st0 (fun r st' => dev st' = dev st0 /\
    match arg_value (ci_type ci) arg with
    | Some v => r = Ret (wr m (wanted_val ci) v)
    | None => r = Exit 1
    end).
Proof.
  intros Ht. unfold set_wanted, arg_value. destruct (ci_type ci); try done.
  - by repeat case_match.
  - unfold get_int_range. by destruct (_ || _)%bool.
  - unfold get_uint_range. by destruct (_ || _)%bool.
Qed.

Definition parsed (info : list cmdline_info) (vals : gmap string Z) (m m' : store) : Prop :=
  (forall ci, ci ∈ info -> rd m' (wanted_val ci) = default (rd m (wanted_val ci)) (vals !! ioctl_val ci)) /\
  (forall x, x ∉ wanted_val <$> info -> m' !! x = m !! x).

Lemma parsed_step info s ci v vals m m' : table_ok info s = true -> ci ∈ info ->
  parsed info vals (wr m (wanted_val ci) v) m' -> parsed info (vals ∪ {[ioctl_val ci := v]}) m m'.
Proof.
  intros Hok Hci [H1 H2]. pose proof (table_facts _ _ Hok) as (N1 & N2 & _). split.
  - intros cj Hj. rewrite H1 by done. rewrite lookup_union.
    destruct (decide (ioctl_val cj = ioctl_val ci)) as [E|E].
    + assert (cj = ci) as -> by (by apply (fmap_inj_in ioctl_val info)). rewrite rd_wr, lookup_singleton_eq.
      by destruct (vals !! _).
    + rewrite lookup_singleton_ne by done. rewrite rd_wr_ne.
      * by destruct (vals !! _).
      * intros E'. destruct E. f_equal. by apply (fmap_inj_in wanted_val info).
  - intros x Hx. rewrite H2 by done. apply lookup_insert_ne. intros <-. apply Hx. by apply list_elem_of_fmap_2.
Qed.

Lemma parse_ok info s n : table_ok info s = true -> forall args m ch (st0 : st W), (length args <= n)%nat ->
  wp (parse_generic_cmdline info args ch m) st0 (fun r st' => dev st' = dev st0 /\
    match spec_args info args with
    | None => r = Exit 1
    | Some vals => exists ch' m', r = Ret (ch', m') /\ parsed info vals m m'
    end).
Proof.
  intros Hok. induction n as [|n IH]; intros args m ch st0 Hn.
  - destruct args; [|cbn in Hn; lia]. split; [done|]. exists ch, m. by split.
  - destruct args as [|name [|arg rest]].
    + split; [done|]. exists ch, m. by split.
    + cbn [parse_generic_cmdline spec_args]. by destruct (find_info info name).
    + cbn [parse_generic_cmdline spec_args]. destruct (find_info info name) as [ci|] eqn:Ef; [|done].
      pose proof (find_info_in _ _ _ Ef) as Hin. destruct (table_entry _ _ Hok ci Hin) as (Ht & Hs & _).
      assert ((negb (bool_decide (ci_type ci = CMDL_FLAG)) && negb (streq (seen_val ci) ""))%bool = false) as ->
        by (rewrite Hs; by destruct (negb _)).
      apply wp_bind. eapply wp_mono; [by apply set_wanted_ok|]. intros r st1 [Hd Hr].
      destruct (arg_value _ _) as [v|]; [|by rewrite Hr]. rewrite Hr. clear r Hr.
      eapply wp_mono; [apply IH; cbn in Hn; lia|]. intros r st2 [Hd2 Hr]. split; [congruence|].
      destruct (spec_args info rest) as [vals|]; [|done]. destruct Hr as (ch' & m' & -> & Hp).
      exists ch', m'. split; [done|]. by eapply parsed_step.
Qed.
End parse.

(** ** The setter *)

Lemma forallb_ext_in {A} (f g : A -> bool) l : (forall x, x ∈ l -> f x = g x) -> forallb f l = forallb g l.
Proof.
  induction l as [|x l IH]; intros H; [done|]. cbn [forallb]. rewrite H by constructor.
  f_equal. apply IH. intros y Hy. apply H. by constructor.
Qed.

Section setter.
Context {W : Type}.

Definition is_u32 (z : Z) : Prop := 0 <= z < 2 ^ 32.

Lemma s32_range z : - 2 ^ 31 <= s32 z < 2 ^ 31.
Proof. by apply (wraps_range 32). Qed.

(** A value that is not negative is equal to a field when both are. *)
Lemma s32_eq w z : is_u32 z -> 0 <= s32 w -> s32 w = s32 z <-> s32 w = z.
Proof.
  intros Hz Hw. pose proof (s32_range w). split.
  - intros E. rewrite E. unfold is_u32 in Hz. destruct (Z.lt_ge_cases z (2 ^ 31)).
    + apply wraps_small; lia.
    + assert (s32 z = z - 2 ^ 32) as E2; [|lia]. unfold s32, wraps. change (32 - 1) with 31.
      rewrite <- (Z.mod_add _ (-1)) by lia. rewrite Z.mod_small by lia. lia.
  - intros E. rewrite <- E. symmetry. apply wraps_small; lia.
Qed.

(** What one entry does to its field. *)
Definition set_val (w cur : Z) : Z := if 0 <=? s32 w then s32 w else cur.

Definition is_set (l : list cmdline_info) (m m' : store) : Prop :=
  (forall ci, ci ∈ l -> rd m' (ioctl_val ci) = set_val (rd m (wanted_val ci)) (rd m (ioctl_val ci))) /\
  (forall x, x ∉ ioctl_val <$> l -> rd m' x = rd m x).

Lemma do_generic_set1_ok ci ch m (st0 : st W) : is_u32 (rd m (ioctl_val ci)) ->
  runs (do_generic_set1 ci ch m) st0 (fun r st' => dev st' = dev st0 /\
    rd r.2 (ioctl_val ci) = set_val (rd m (wanted_val ci)) (rd m (ioctl_val ci)) /\
    (forall x, x <> ioctl_val ci -> rd r.2 x = rd m x) /\
    r.1 = if rd r.2 (ioctl_val ci) =? rd m (ioctl_val ci) then ch else 1).
Proof.
  intros Hu. unfold do_generic_set1, set_val. set (w := rd m (wanted_val ci)). set (cur := rd m (ioctl_val ci)) in *.
  destruct (Z.ltb_spec (s32 w) 0).
  { apply runs_ret. cbn [fst snd]. rewrite Z.eqb_refl. rewrite (proj2 (Z.leb_gt 0 (s32 w))) by done. done. }
  rewrite (proj2 (Z.leb_le 0 (s32 w))) by done. pose proof (s32_eq w cur Hu H) as Heq.
  destruct (Z.eqb_spec (s32 w) (s32 cur)) as [E|E].
  - apply runs_bind, runs_eprintf, runs_ret. cbn [fst snd]. rewrite Z.eqb_refl. apply Heq in E. done.
  - apply runs_ret. cbn [fst snd]. rewrite rd_wr. split; [done|]. split; [done|].
    split; [intros x Hx; by apply rd_wr_ne|]. rewrite (proj2 (Z.eqb_neq _ _)); [done|]. tauto.
Qed.

Lemma do_generic_set_ok l : NoDup (ioctl_val <$> l) ->
  (forall ci cj, ci ∈ l -> cj ∈ l -> wanted_val ci <> ioctl_val cj) ->
  forall ch m (st0 : st W), (forall ci, ci ∈ l -> is_u32 (rd m (ioctl_val ci))) ->
  runs (do_generic_set l ch m) st0 (fun r st' => dev st' = dev st0 /\ is_set l m r.2 /\
    r.1 = if forallb (fun ci => rd r.2 (ioctl_val ci) =? rd m (ioctl_val ci)) l then ch else 1).
Proof.
  induction l as [|ci l IH]; intros Hn Hd ch m st0 Hu.
  { apply runs_ret. split; [done|]. split; [|done]. split; [intros ? []%not_elem_of_nil|done]. }
  cbn [do_generic_set]. rewrite fmap_cons in Hn. apply list.NoDup_cons in Hn as [Hni Hn].
  apply runs_bind. eapply runs_mono; [apply do_generic_set1_ok; apply Hu; constructor|].
  intros [c1 m1] st1 (Hd1 & H1 & H2 & H3). cbn [fst snd] in *.
  assert (forall cj, cj ∈ l -> ioctl_val cj <> ioctl_val ci) as Hne.
  { intros cj Hj E. apply Hni. rewrite <- E. by apply list_elem_of_fmap_2. }
  eapply runs_mono; [apply IH; [done| |]|].
  - intros a b Ha Hb. apply Hd; by constructor.
  - intros cj Hj. rewrite H2 by (by apply Hne). apply Hu. by constructor.
  - intros [c2 m2] st2 (Hd2 & [H4 H5] & H6). cbn [fst snd] in *.
    assert (rd m2 (ioctl_val ci) = rd m1 (ioctl_val ci)) as Hci by (by apply H5).
    split; [congruence|]. split; [split|].
    + intros cj Hj. apply elem_of_cons in Hj as [->|Hj]; [by rewrite Hci|].
      rewrite H4 by done. rewrite !H2; [done|by apply Hne|]. apply Hd; by constructor.
    + intros x Hx. rewrite fmap_cons, not_elem_of_cons in Hx. rewrite H5, H2 by tauto. done.
    + cbn [forallb]. rewrite Hci, H6, H3.
      assert (forallb (fun cj => rd m2 (ioctl_val cj) =? rd m1 (ioctl_val cj)) l =
              forallb (fun cj => rd m2 (ioctl_val cj) =? rd m (ioctl_val cj)) l) as ->.
      { apply forallb_ext_in. intros cj Hj. rewrite H2; [done|]. by apply Hne. }
      clear H6. destruct (forallb (fun cj => rd m2 (ioctl_val cj) =? rd m (ioctl_val cj)) l); by destruct (_ =? _).
Qed.
End setter.

(** ** A set command *)

Lemma unpack_other s fs r m x : x ∉ cell s <$> fs -> rd (unpack_fields s fs r m) x = rd m x.
Proof.
  induction fs as [|f fs IH]; intros Hx; [done|]. rewrite fmap_cons, not_elem_of_cons in Hx. cbn [unpack_fields foldr].
  rewrite rd_wr_ne by (intros E; by apply (proj1 Hx)). apply IH, Hx.
Qed.

Lemma unpack_field s fs r m f : NoDup (cell s <$> fs) -> f ∈ fs -> rd (unpack_fields s fs r m) (cell s f) = default 0 (r !! f).
Proof.
  induction fs as [|g fs IH]; intros Hn Hf; [by apply not_elem_of_nil in Hf|].
  rewrite fmap_cons in Hn. apply list.NoDup_cons in Hn as [Hg Hn].
  cbn [unpack_fields foldr]. destruct (decide (f = g)) as [->|Hne]; [apply rd_wr|].
  apply elem_of_cons in Hf as [?|Hf]; [done|]. rewrite rd_wr_ne; [by apply IH|].
  intros E. apply Hg. rewrite E. by apply list_elem_of_fmap_2.
Qed.

Lemma pack_ext s m (g : string -> Z) : (forall f, f ∈ cs_fields s -> rd m (cell s f) = g f) ->
  pack s m = list_to_map ((fun f => (f, g f)) <$> cs_fields s).
Proof.
  intros H. unfold pack. f_equal. induction (cs_fields s) as [|f l IH]; [done|]. rewrite !fmap_cons.
  f_equal; [by rewrite H by constructor|]. apply IH. intros h Hh. apply H. by constructor.
Qed.

Lemma spec_args_keys info n : forall args vals x v, (length args <= n)%nat -> spec_args info args = Some vals ->
  vals !! x = Some v -> x ∈ ioctl_val <$> info.
Proof.
  induction n as [|n IH]; intros args vals x v Hn.
  { destruct args; [|cbn in Hn; lia]. by intros [= <-]. }
  destruct args as [|name [|arg rest]]; [by intros [= <-]|done|]. cbn [spec_args].
  destruct (find_info info name) as [ci|] eqn:Ef; [|done]. destruct (arg_value _ _) as [z|]; [|done].
  destruct (spec_args info rest) as [vals'|] eqn:Es; [|done]. intros [= <-]. rewrite lookup_union_Some_raw.
  intros [H|[_ H]]; [eapply (IH rest); [cbn in Hn; lia|done|done]|].
  apply lookup_singleton_Some in H as [<- _]. apply list_elem_of_fmap_2. by eapply find_info_in.
Qed.

Section params.
Context {D : Type} `{ED : EtDevice D} (env : et_env) (cur : D -> string -> Z).

Lemma wp_send_ioctl q (st0 : st D) (Q : res (Z * Z * ereq) -> st D -> Prop) :
  (let '(err, en, r, d') := et_ioctl q (dev st0) in Q (Ret (err, en, r)) (mkst (out st0) d')) -> wp (send_ioctl q) st0 Q.
Proof. unfold wp, send_ioctl, devop. by destruct (et_ioctl q (dev st0)) as [[[err en] r] d']. Qed.

(** The get command leaves the device alone and gives the current values. *)
Definition reads (get : Z) (s : cstruct) : Prop := forall q d, rq_cmd q = get ->
  exists en r, et_ioctl q d = (0, en, r, d) /\
    forall f, f ∈ cs_fields s -> rq_f r !! f = Some (cur d f) /\ is_u32 (cur d f).

(** The structure the set command is given. *)
Definition new_fields (s : cstruct) (vals : gmap string Z) (d : D) : gmap string Z :=
  list_to_map ((fun f => (f, new_val vals (cell s f) (cur d f))) <$> cs_fields s).
Definition no_change (s : cstruct) (vals : gmap string Z) (d : D) : bool :=
  forallb (fun f => new_val vals (cell s f) (cur d f) =? cur d f) (cs_fields s).

Lemma locals_wanted info s ci : NoDup (wanted_val <$> info) -> ci ∈ info -> rd (locals env info s) (wanted_val ci) = -1.
Proof.
  unfold locals. induction info as [|cj l IH]; intros Hn Hi; [by apply not_elem_of_nil in Hi|].
  rewrite fmap_cons in Hn. apply list.NoDup_cons in Hn as [Hj Hn]. cbn [foldr].
  destruct (decide (wanted_val ci = wanted_val cj)) as [->|Hne]; [apply rd_wr|].
  apply elem_of_cons in Hi as [->|Hi]; [done|]. rewrite rd_wr_ne by done. by apply IH.
Qed.

(** The store before the set command: the fields have their new values. *)
Lemma apply_ok info s args vals m m' r d (st0 : st D) : table_ok info s = true -> spec_args info args = Some vals ->
  parsed info vals (locals env info s) m ->
  (forall f, f ∈ cs_fields s -> rq_f r !! f = Some (cur d f) /\ is_u32 (cur d f)) -> m' = unpack s (rq_f r) m ->
  runs (do_generic_set info 0 m') st0 (fun x st' => dev st' = dev st0 /\
    (forall f, f ∈ cs_fields s -> rd x.2 (cell s f) = new_val vals (cell s f) (cur d f)) /\
    x.1 = if no_change s vals d then 0 else 1).
Proof.
  intros Hok Hs [Hp _] Hr ->. pose proof (table_facts _ _ Hok) as (N1 & N2 & N3).
  assert (forall f, f ∈ cs_fields s -> rd (unpack s (rq_f r) m) (cell s f) = cur d f) as Hcur.
  { intros f Hf. unfold unpack. rewrite unpack_field by done. by destruct (Hr f Hf) as [-> _]. }
  assert (forall ci, ci ∈ info -> exists f, f ∈ cs_fields s /\ ioctl_val ci = cell s f) as Hfield.
  { intros ci Hi. destruct (table_entry _ _ Hok ci Hi) as (_ & _ & H & _). apply list_elem_of_fmap in H as (f & E & Hf).
    by exists f. }
  assert (forall ci, ci ∈ info -> rd (unpack s (rq_f r) m) (wanted_val ci) = default (-1) (vals !! ioctl_val ci)) as Hw.
  { intros ci Hi. destruct (table_entry _ _ Hok ci Hi) as (_ & _ & _ & H). unfold unpack. rewrite unpack_other by done.
    rewrite Hp by done. by rewrite locals_wanted. }
  eapply runs_mono; [apply do_generic_set_ok; [done| |]|].
  - intros ci cj Hi Hj E. destruct (table_entry _ _ Hok ci Hi) as (_ & _ & _ & H).
    destruct (table_entry _ _ Hok cj Hj) as (_ & _ & H' & _). by rewrite E in H.
  - intros ci Hi. destruct (Hfield ci Hi) as (f & Hf & ->). rewrite Hcur by done. by apply Hr.
  - intros [c2 m2] st' (Hd & [H1 H2] & H3). cbn [fst snd] in *. split; [done|].
    assert (forall f, f ∈ cs_fields s -> rd m2 (cell s f) = new_val vals (cell s f) (cur d f)) as Hnew.
    { intros f Hf. unfold new_val. destruct (decide (cell s f ∈ ioctl_val <$> info)) as [Hin|Hin].
      - apply list_elem_of_fmap in Hin as (ci & E & Hi). rewrite E, H1, Hw by done. rewrite <- E, Hcur by done.
        unfold set_val. destruct (vals !! cell s f) as [v|]; [done|]. by change (default (-1) None) with (-1).
      - rewrite H2, Hcur by done. destruct (vals !! cell s f) eqn:Ev; [|done].
        destruct Hin. by eapply (spec_args_keys info (length args) args vals). }
    split; [done|]. rewrite H3. assert (forallb (fun ci => rd m2 (ioctl_val ci) =? rd (unpack s (rq_f r) m) (ioctl_val ci)) info
      = no_change s vals d) as ->; [|done].
    apply Bool.eq_iff_eq_true. unfold no_change. rewrite !forallb_forall. split.
    + intros H f Hf. apply list_elem_of_In in Hf. destruct (decide (cell s f ∈ ioctl_val <$> info)) as [Hin|Hin].
      * apply list_elem_of_fmap in Hin as (ci & E & Hi). apply list_elem_of_In in Hi. specialize (H ci Hi).
        by rewrite <- E, Hnew, Hcur in H.
      * rewrite <- Hnew, H2, Hcur by done. apply Z.eqb_refl.
    + intros H ci Hi. apply list_elem_of_In in Hi. destruct (Hfield ci Hi) as (f & Hf & ->).
      rewrite Hnew, Hcur by done. apply H. by apply list_elem_of_In.
Qed.

Lemma set_params_ok info s get set gmsg gcode unchanged smsg scode args (st0 : st D) :
  table_ok info s = true -> reads get s ->
  wp (set_params env info s get set gmsg gcode unchanged smsg scode args) st0 (fun r st' =>
    match spec_args info args with
    | None => r = Exit 1 /\ dev st' = dev st0
    | Some vals =>
        if no_change s vals (dev st0)
        then exists m st1, dev st1 = dev st0 /\ unchanged m st1 = (r, st') /\
               forall f, f ∈ cs_fields s -> rd m (cell s f) = cur (dev st0) f
        else let '(err, _, _, d') := et_ioctl (mk_ereq set (new_fields s vals (dev st0)) []) (dev st0) in
             dev st' = d' /\ r = Ret (if truth err then scode else 0)
    end).
Proof.
  intros Hok Hread. unfold set_params. apply wp_bind. eapply wp_mono; [by apply (parse_ok info s (length args) Hok)|].
  intros r0 st1 [Hd1 Hr0]. destruct (spec_args info args) as [vals|] eqn:Es; [|by rewrite Hr0].
  destruct Hr0 as (ch & m & -> & Hp). cbn [fst snd]. apply wp_bind. unfold send_struct. apply wp_bind, wp_send_ioctl.
  destruct (Hread (mk_ereq get (pack s m) []) (dev st1) eq_refl) as (en & r & -> & Hr).
  apply wp_ret. change (truth 0) with false. cbn [negb]. set (st2 := mkst _ _). apply wp_bind.
  eapply wp_mono; [apply wp_runs, (apply_ok info s args vals m _ r (dev st1) st2 Hok Es Hp Hr eq_refl)|].
  intros ? st3 ([c m3] & -> & Hd3 & Hf & Hc). cbn [fst snd] in *. rewrite Hc, Hd1. rewrite Hd1 in Hf.
  destruct (no_change s vals (dev st0)) eqn:En; cbn [Z.eqb].
  - unfold wp. exists m3, st3. split; [rewrite Hd3; exact Hd1|]. split; [by destruct (unchanged m3 st3)|].
    intros f Hin. rewrite Hf by done. unfold no_change in En. rewrite forallb_forall in En.
    by apply Z.eqb_eq, En, list_elem_of_In.
  - apply wp_bind, wp_bind, wp_send_ioctl.
    assert (pack s m3 = new_fields s vals (dev st0)) as -> by (by apply pack_ext).
    assert (dev st3 = dev st0) as -> by (rewrite Hd3; exact Hd1).
    destruct (et_ioctl _ _) as [[[err en'] q'] d']. apply wp_ret. by destruct (truth err).
Qed.
End params.
