(* ===== verification/EtLink.v ===== *)
(** * ethtool: link settings ([ethernet_test/ethtool/ethtool.c])

    [do_gset] shows link, wake-on-LAN and message settings, [do_sset] changes
    them. The variables of [do_sset] are cells of the store, as in [EtSet]. *)

From stdpp Require Import base list strings gmap numbers.
From Stdlib Require Import ZArith Lia Ascii.
From S2P Require Import Prelude CInt CLib RxSpec RxRules RxParse EtCmd EtSet.
Import Et EtS.

Module EtL.

Definition ETHTOOL_SSET : Z := 0x02.
Definition ETHTOOL_GWOL : Z := 0x05.
Definition ETHTOOL_SWOL : Z := 0x06.
Definition ETHTOOL_GMSGLVL : Z := 0x07.
Definition ETHTOOL_SMSGLVL : Z := 0x08.
Definition ETHTOOL_GLINK : Z := 0x0a.
Definition EOPNOTSUPP : Z := 95.
Definition SOPASS_MAX : Z := 6.

(** ** Link modes *)

Definition bit (n : Z) : Z := Z.shiftl 1 n.
Definition ADVERTISED_10baseT_Half : Z := bit 0.
Definition ADVERTISED_10baseT_Full : Z := bit 1.
Definition ADVERTISED_100baseT_Half : Z := bit 2.
Definition ADVERTISED_100baseT_Full : Z := bit 3.
Definition ADVERTISED_1000baseT_Half : Z := bit 4.
Definition ADVERTISED_1000baseT_Full : Z := bit 5.
Definition ADVERTISED_Autoneg : Z := bit 6.
Definition ADVERTISED_TP : Z := bit 7.
Definition ADVERTISED_AUI : Z := bit 8.
Definition ADVERTISED_MII : Z := bit 9.
Definition ADVERTISED_FIBRE : Z := bit 10.
Definition ADVERTISED_BNC : Z := bit 11.
Definition ADVERTISED_10000baseT_Full : Z := bit 12.
Definition ADVERTISED_2500baseX_Full : Z := bit 15.
Definition ADVERTISED_Backplane : Z := bit 16.
Definition ADVERTISED_1000baseKX_Full : Z := bit 17.
Definition ADVERTISED_10000baseKX4_Full : Z := bit 18.
Definition ADVERTISED_10000baseKR_Full : Z := bit 19.
Definition ADVERTISED_10000baseR_FEC : Z := bit 20.
Definition ADVERTISED_20000baseMLD2_Full : Z := bit 21.
Definition ADVERTISED_20000baseKR2_Full : Z := bit 22.
Definition ADVERTISED_40000baseKR4_Full : Z := bit 23.
Definition ADVERTISED_40000baseCR4_Full : Z := bit 24.
Definition ADVERTISED_40000baseSR4_Full : Z := bit 25.
Definition ADVERTISED_40000baseLR4_Full : Z := bit 26.

Definition lor_all (l : list Z) : Z := foldr Z.lor 0 l.
Definition ALL_ADVERTISED_MODES : Z := lor_all [
  ADVERTISED_10baseT_Half; ADVERTISED_10baseT_Full; ADVERTISED_100baseT_Half; ADVERTISED_100baseT_Full;
  ADVERTISED_1000baseT_Half; ADVERTISED_1000baseT_Full; ADVERTISED_2500baseX_Full; ADVERTISED_10000baseKX4_Full;
  ADVERTISED_10000baseKR_Full; ADVERTISED_10000baseR_FEC; ADVERTISED_20000baseMLD2_Full;
  ADVERTISED_20000baseKR2_Full; ADVERTISED_40000baseKR4_Full; ADVERTISED_40000baseCR4_Full;
  ADVERTISED_40000baseSR4_Full; ADVERTISED_40000baseLR4_Full ].
Definition ALL_ADVERTISED_FLAGS : Z := lor_all [
  ADVERTISED_10baseT_Half; ADVERTISED_10baseT_Full; ADVERTISED_100baseT_Half; ADVERTISED_100baseT_Full;
  ADVERTISED_1000baseT_Half; ADVERTISED_1000baseT_Full; ADVERTISED_Autoneg; ADVERTISED_TP; ADVERTISED_AUI;
  ADVERTISED_MII; ADVERTISED_FIBRE; ADVERTISED_BNC; ADVERTISED_10000baseT_Full; ADVERTISED_Pause;
  ADVERTISED_Asym_Pause; ADVERTISED_2500baseX_Full; ADVERTISED_Backplane; ADVERTISED_1000baseKX_Full;
  ADVERTISED_10000baseKX4_Full; ADVERTISED_10000baseKR_Full; ADVERTISED_10000baseR_FEC;
  ADVERTISED_20000baseMLD2_Full; ADVERTISED_20000baseKR2_Full; ADVERTISED_40000baseKR4_Full;
  ADVERTISED_40000baseCR4_Full; ADVERTISED_40000baseSR4_Full; ADVERTISED_40000baseLR4_Full ].

Definition SPEED_10 : Z := 10.
Definition SPEED_100 : Z := 100.
Definition SPEED_1000 : Z := 1000.
Definition SPEED_2500 : Z := 2500.
Definition SPEED_10000 : Z := 10000.
Definition DUPLEX_HALF : Z := 0.
Definition DUPLEX_FULL : Z := 1.
Definition PORT_TP : Z := 0.
Definition PORT_AUI : Z := 1.
Definition PORT_MII : Z := 2.
Definition PORT_FIBRE : Z := 3.
Definition PORT_BNC : Z := 4.
Definition PORT_DA : Z := 5.
Definition PORT_NONE : Z := 0xef.
Definition PORT_OTHER : Z := 0xff.
Definition XCVR_INTERNAL : Z := 0.
Definition XCVR_EXTERNAL : Z := 1.
Definition AUTONEG_DISABLE : Z := 0.
Definition AUTONEG_ENABLE : Z := 1.
Definition ETH_TP_MDI_INVALID : Z := 0.
Definition ETH_TP_MDI : Z := 1.
Definition ETH_TP_MDI_X : Z := 2.
Definition ETH_TP_MDI_AUTO : Z := 3.

(** [mode_defs] of [dump_link_caps]: whether a mode is on the line of the one
    before, its bit and its name. *)
Definition mode_defs : list (bool * Z * string) := [
  (false, ADVERTISED_10baseT_Half, "10baseT/Half"); (true, ADVERTISED_10baseT_Full, "10baseT/Full");
  (false, ADVERTISED_100baseT_Half, "100baseT/Half"); (true, ADVERTISED_100baseT_Full, "100baseT/Full");
  (false, ADVERTISED_1000baseT_Half, "1000baseT/Half"); (true, ADVERTISED_1000baseT_Full, "1000baseT/Full");
  (false, ADVERTISED_1000baseKX_Full, "1000baseKX/Full"); (false, ADVERTISED_2500baseX_Full, "2500baseX/Full");
  (false, ADVERTISED_10000baseT_Full, "10000baseT/Full"); (false, ADVERTISED_10000baseKX4_Full, "10000baseKX4/Full");
  (false, ADVERTISED_20000baseMLD2_Full, "20000baseMLD2/Full");
  (false, ADVERTISED_40000baseKR4_Full, "40000baseKR4/Full"); (false, ADVERTISED_40000baseCR4_Full, "40000baseCR4/Full");
  (false, ADVERTISED_40000baseSR4_Full, "40000baseSR4/Full"); (false, ADVERTISED_40000baseLR4_Full, "40000baseLR4/Full") ].

Definition wolinfo : cstruct := mk_cs "wolinfo" ["supported"; "wolopts"].
Definition edata : cstruct := mk_cs "edata" ["data"].

Section link.
Context {D : Type} `{ED : EtDevice D} (env : et_env).
Abbreviation P := (M D).

(** ** Display *)

Definition spaces (n : Z) : string := nchars (Z.to_nat n) (chr 32).

(** The loop over the modes; the result is [did1]. *)
Fixpoint dump_modes (l : list (bool * Z * string)) (mask indent did1 : Z) (new_line_pend : bool) : P Z :=
  match l with
  | [] => mret did1
  | (same_line, value, name) :: l' =>
      let pend := (new_line_pend || (truth did1 && negb same_line))%bool in
      if truth (Z.land mask value) then
        when pend (printf nl;; printf (tab +:+ spaces indent));;
        printf (name +:+ " ");;
        dump_modes l' mask indent (did1 + 1) false
      else dump_modes l' mask indent did1 pend
  end.

Definition dump_link_caps (prefix an_prefix : string) (mask link_mode_only : Z) : P unit :=
  let indent := if strlen prefix + 14 <? 24 then 24 else strlen prefix + 14 in
  printf (tab +:+ prefix +:+ " link modes:" +:+ spaces (indent - strlen prefix - 12));;
  did1 ← dump_modes mode_defs mask indent 0 false;
  when (did1 =? 0) (printf "Not reported");;
  printf nl;;
  when (negb (truth link_mode_only))
    (printf (tab +:+ prefix +:+ " pause frame use: ");;
     (if truth (Z.land mask ADVERTISED_Pause) then
        printf "Symmetric";;
        when (truth (Z.land mask ADVERTISED_Asym_Pause)) (printf " Receive-only");;
        printf nl
      else if truth (Z.land mask ADVERTISED_Asym_Pause) then printf ("Transmit-only" +:+ nl) else printf ("No" +:+ nl));;
     printf (tab +:+ an_prefix +:+ " auto-negotiation: ");;
     (if truth (Z.land mask ADVERTISED_Autoneg) then printf ("Yes" +:+ nl) else printf ("No" +:+ nl))).

Definition dump_supported (mask : Z) : P unit :=
  printf (tab +:+ "Supported ports: [ ");;
  when (truth (Z.land mask ADVERTISED_TP)) (printf "TP ");;
  when (truth (Z.land mask ADVERTISED_AUI)) (printf "AUI ");;
  when (truth (Z.land mask ADVERTISED_BNC)) (printf "BNC ");;
  when (truth (Z.land mask ADVERTISED_MII)) (printf "MII ");;
  when (truth (Z.land mask ADVERTISED_FIBRE)) (printf "FIBRE ");;
  printf ("]" +:+ nl);;
  dump_link_caps "Supported" "Supports" mask 0.

Definition ethtool_cmd_speed (m : store) : Z :=
  u32 (Z.lor (Z.shiftl (rd m (cell ecmd "speed_hi")) 16) (rd m (cell ecmd "speed"))).
Definition ethtool_cmd_speed_set (m : store) (speed : Z) : store :=
  wr (wr m (cell ecmd "speed") (u16 speed)) (cell ecmd "speed_hi") (u16 (Z.shiftr (u32 speed) 16)).

Definition duplex_name (z : Z) : string :=
  if z =? DUPLEX_HALF then "Half" else if z =? DUPLEX_FULL then "Full" else "Unknown! (" +:+ dec z +:+ ")".
Definition port_name (z : Z) : string :=
  if z =? PORT_TP then "Twisted Pair" else if z =? PORT_AUI then "AUI" else if z =? PORT_BNC then "BNC"
  else if z =? PORT_MII then "MII" else if z =? PORT_FIBRE then "FIBRE" else if z =? PORT_DA then "Direct Attach Copper"
  else if z =? PORT_NONE then "None" else if z =? PORT_OTHER then "Other" else "Unknown! (" +:+ dec z +:+ ")".
Definition xcvr_name (z : Z) : string :=
  if z =? XCVR_INTERNAL then "internal" else if z =? XCVR_EXTERNAL then "external" else "Unknown!".

Definition dump_mdix (m : store) : P unit :=
  let ctrl := rd m (cell ecmd "eth_tp_mdix_ctrl") in
  let st := rd m (cell ecmd "eth_tp_mdix") in
  printf (tab +:+ "MDI-X: ");;
  if ctrl =? ETH_TP_MDI then printf ("off (forced)" +:+ nl)
  else if ctrl =? ETH_TP_MDI_X then printf ("on (forced)" +:+ nl)
  else
    printf (if st =? ETH_TP_MDI then "off" else if st =? ETH_TP_MDI_X then "on" else "Unknown");;
    when (ctrl =? ETH_TP_MDI_AUTO) (printf " (auto)");;
    printf nl.

Definition dump_ecmd (m : store) : P Z :=
  let v f := rd m (cell ecmd f) in
  dump_supported (v "supported");;
  dump_link_caps "Advertised" "Advertised" (v "advertising") 0;;
  when (truth (v "lp_advertising"))
    (dump_link_caps "Link partner advertised" "Link partner advertised" (v "lp_advertising") 0);;
  printf (tab +:+ "Speed: ");;
  (let speed := ethtool_cmd_speed m in
   if ((speed =? 0) || (speed =? 0xffff) || (speed =? 0xffffffff))%bool then printf ("Unknown!" +:+ nl)
   else printf (dec speed +:+ "Mb/s" +:+ nl));;
  printf (tab +:+ "Duplex: ");; printf (duplex_name (v "duplex") +:+ nl);;
  printf (tab +:+ "Port: ");; printf (port_name (v "port") +:+ nl);;
  printf (tab +:+ "PHYAD: " +:+ dec (v "phy_address") +:+ nl);;
  printf (tab +:+ "Transceiver: ");; printf (xcvr_name (v "transceiver") +:+ nl);;
  printf (tab +:+ "Auto-negotiation: " +:+ (if v "autoneg" =? AUTONEG_DISABLE then "off" else "on") +:+ nl);;
  when (v "port" =? PORT_TP) (dump_mdix m);;
  mret 0.

(** The password with colons between its bytes. *)
Definition sopass_text (l : list Z) : string := String.concat ":" (hex0 2 <$> l).

Definition dump_wol (m : store) (sopass : list Z) : P Z :=
  let supported := rd m (cell wolinfo "supported") in
  printf (tab +:+ "Supports Wake-on: " +:+ unparse_wolopts supported +:+ nl);;
  printf (tab +:+ "Wake-on: " +:+ unparse_wolopts (rd m (cell wolinfo "wolopts")) +:+ nl);;
  when (truth (Z.land supported WAKE_MAGICSECURE))
    (printf ("        SecureOn password: ");; printf (sopass_text sopass);; printf nl);;
  mret 0.

(** [wol.cmd = cmd; err = send_ioctl(ctx, &wol);] *)
Definition send_wol (cmd : Z) (m : store) (sopass : list Z) : P (Z * Z * store * list Z) :=
  x ← send_ioctl (mk_ereq cmd (pack wolinfo m) sopass);
  let '(err, en, r) := x in mret (err, en, unpack wolinfo (rq_f r) m, rq_arr r).
Definition junk_sopass : list Z :=
  (fun i => ee_junk env ("wolinfo.sopass" +:+ dec i)) <$> seqZ 0 SOPASS_MAX.

(** One of the four parts of [do_gset]: what is shown on success, else a
    message unless the driver does not support the request. *)
Definition gset_part (err en : Z) (show : P unit) (msg : string) (allfail : Z) : P Z :=
  if err =? 0 then show;; mret 0
  else when (negb (en =? EOPNOTSUPP)) (perror env msg en);; mret allfail.

Definition do_gset (devname : string) (args : list string) : P Z :=
  if truth (Z.of_nat (length args)) then exit_bad_args
  else
    printf ("Settings for " +:+ devname +:+ ":" +:+ nl);;
    x ← send_struct ecmd ETHTOOL_GSET (junk env ecmd ∅);
    let '(err, en, m) := x in
    allfail ← gset_part err en (_ ← dump_ecmd m; mret tt) "Cannot get device settings" 1;
    y ← send_wol ETHTOOL_GWOL (junk env wolinfo ∅) junk_sopass;
    let '(err, en, m, sopass) := y in
    allfail ← gset_part err en (_ ← dump_wol m sopass; mret tt) "Cannot get wake-on-lan settings" allfail;
    x ← send_struct edata ETHTOOL_GMSGLVL (junk env edata ∅);
    let '(err, en, m) := x in
    let lvl := rd m (cell edata "data") in
    allfail ← gset_part err en
      (printf (tab +:+ "Current message level: 0x" +:+ hex0 8 lvl +:+ " (" +:+ dec (s32 lvl) +:+ ")" +:+ nl +:+
               tab +:+ tab +:+ tab +:+ "       ");;
       print_flags flags_msglvl lvl "";;
       printf nl) "Cannot get message level" allfail;
    x ← send_struct edata ETHTOOL_GLINK m;
    let '(err, en, m) := x in
    allfail ← gset_part err en
      (printf (tab +:+ "Link detected: " +:+ (if truth (rd m (cell edata "data")) then "yes" else "no") +:+ nl))
      "Cannot get link status" allfail;
    if truth allfail then printf ("No data available" +:+ nl);; mret 75 else mret 0.

(** ** Arguments of [do_sset] *)

Definition cmdline_msglvl : list cmdline_info :=
  (fun f => flag_to_cmdline_info (fl_name f) (fl_value f) "msglvl_wanted" "msglvl_mask") <$> flags_msglvl.

(** The initial values of the variables. *)
Definition sset_locals : store :=
  foldr (fun x m => wr m x (-1)) ∅
    ["speed_wanted"; "duplex_wanted"; "port_wanted"; "mdix_wanted"; "autoneg_wanted"; "phyad_wanted"; "xcvr_wanted";
     "full_advertising_wanted"; "advertising_wanted"].

(** A value that is one of a few words. *)
Definition choice (v : string) (l : list (string * Z)) : P Z :=
  match List.find (fun p => streq v p.1) l with Some p => mret p.2 | None => exit_bad_args end.

(** One parameter with its value [v]. *)
Definition sset_param (key v : string) (m : store) : P store :=
  let gset x z := mret (wr (wr m "gset_changed" 1) x z) in
  if streq key "speed" then z ← get_int (Some v) 10; gset "speed_wanted" z
  else if streq key "duplex" then z ← choice v [("half", DUPLEX_HALF); ("full", DUPLEX_FULL)]; gset "duplex_wanted" z
  else if streq key "port" then
    z ← choice v [("tp", PORT_TP); ("aui", PORT_AUI); ("bnc", PORT_BNC); ("mii", PORT_MII); ("fibre", PORT_FIBRE)];
    gset "port_wanted" z
  else if streq key "mdix" then
    z ← choice v [("auto", ETH_TP_MDI_AUTO); ("on", ETH_TP_MDI_X); ("off", ETH_TP_MDI)]; gset "mdix_wanted" z
  else if streq key "autoneg" then
    z ← choice v [("on", AUTONEG_ENABLE); ("off", AUTONEG_DISABLE)]; gset "autoneg_wanted" z
  else if streq key "advertise" then z ← get_int (Some v) 16; gset "full_advertising_wanted" z
  else if streq key "phyad" then z ← get_int (Some v) 0; gset "phyad_wanted" z
  else if streq key "xcvr" then
    z ← choice v [("internal", XCVR_INTERNAL); ("external", XCVR_EXTERNAL)]; gset "xcvr_wanted" z
  else if streq key "wol" then
    match parse_wolopts v with
    | None => exit_bad_args
    | Some z => mret (wr (wr (wr m "gwol_changed" 1) "wol_wanted" z) "wol_change" 1)
    end
  else if streq key "sopass" then
    l ← get_mac_addr v; mret (wr (<["sopass_wanted" := VBytes l]> (wr m "gwol_changed" 1)) "sopass_change" 1)
  else if streq key "msglvl" then
    z ← get_uint_range (Some v) 0 0xffffffff;
    mret (wr (wr (wr m "msglvl_changed" 1) "msglvl_mask" 0xffffffff) "msglvl_wanted" z)
  else exit_bad_args.

(** The message flags after [msglvl], unless it is followed by a number. *)
Definition msglvl_names (key v : string) : bool :=
  (streq key "msglvl" && negb (match v with String c _ => isdigit c | EmptyString => false end))%bool.

(** A name without a value and an unknown name end alike. *)
Fixpoint sset_args (args : list string) (m : store) : P store :=
  match args with
  | [] => mret m
  | key :: rest =>
      match rest with
      | [] => exit_bad_args
      | v :: rest' =>
          if msglvl_names key v then
            x ← parse_generic_cmdline cmdline_msglvl rest (rd m "msglvl_changed") m;
            mret (wr x.2 "msglvl_changed" x.1)
          else m ← sset_param key v m; sset_args rest' m
      end
  end.

(** The mode that a speed and a duplex name; 0 is to negotiate. *)
Definition advertising_of (speed duplex : Z) : Z :=
  if (speed =? SPEED_10) && (duplex =? DUPLEX_HALF) then ADVERTISED_10baseT_Half
  else if (speed =? SPEED_10) && (duplex =? DUPLEX_FULL) then ADVERTISED_10baseT_Full
  else if (speed =? SPEED_100) && (duplex =? DUPLEX_HALF) then ADVERTISED_100baseT_Half
  else if (speed =? SPEED_100) && (duplex =? DUPLEX_FULL) then ADVERTISED_100baseT_Full
  else if (speed =? SPEED_1000) && (duplex =? DUPLEX_HALF) then ADVERTISED_1000baseT_Half
  else if (speed =? SPEED_1000) && (duplex =? DUPLEX_FULL) then ADVERTISED_1000baseT_Full
  else if (speed =? SPEED_2500) && (duplex =? DUPLEX_FULL) then ADVERTISED_2500baseX_Full
  else if (speed =? SPEED_10000) && (duplex =? DUPLEX_FULL) then ADVERTISED_10000baseT_Full
  else 0.
Definition set_advertising_wanted (m : store) : store :=
  if rd m "full_advertising_wanted" <? 0
  then wr m "advertising_wanted" (advertising_of (rd m "speed_wanted") (rd m "duplex_wanted")) else m.

(** ** Application *)

Definition given (m : store) (x : string) : bool := negb (rd m x =? -1).
(** [if (x != -1) ecmd.f = x], for a field of 8 bits. *)
Definition put_given (x f : string) (m : store) : store :=
  if given m x then wr m (cell ecmd f) (u8 (rd m x)) else m.

Definition set_mdix (m : store) : P store :=
  if given m "mdix_wanted" then
    if negb (rd m (cell ecmd "eth_tp_mdix_ctrl") =? ETH_TP_MDI_INVALID) then
      mret (wr m (cell ecmd "eth_tp_mdix_ctrl") (u8 (rd m "mdix_wanted")))
    else eprintf ("setting MDI not supported" +:+ nl);; mret m
  else mret m.

Definition warn_advertise (m : store) : P unit :=
  when ((given m "speed_wanted" || given m "duplex_wanted") && truth (rd m (cell ecmd "autoneg")) &&
        (rd m "advertising_wanted" =? 0))%bool
    (eprintf "Cannot advertise";;
     when (0 <=? rd m "speed_wanted") (eprintf (" speed " +:+ dec (rd m "speed_wanted")));;
     when (0 <=? rd m "duplex_wanted")
       (eprintf (" duplex " +:+ (if truth (rd m "duplex_wanted") then "full" else "half")));;
     eprintf nl).

Definition set_advertising (m : store) : P store :=
  let adv := rd m (cell ecmd "advertising") in
  let supported := rd m (cell ecmd "supported") in
  let others := Z.land adv (notu 32 ALL_ADVERTISED_MODES) in
  if ((rd m "autoneg_wanted" =? AUTONEG_ENABLE) && (rd m "advertising_wanted" =? 0))%bool then
    when (negb (Z.land supported ALL_ADVERTISED_FLAGS =? supported))
      (eprintf ("Driver supports one or more unknown flags" +:+ nl));;
    mret (wr m (cell ecmd "advertising") (Z.lor others (Z.land ALL_ADVERTISED_MODES supported)))
  else if 0 <? rd m "advertising_wanted" then
    mret (wr m (cell ecmd "advertising") (Z.lor others (rd m "advertising_wanted")))
  else if 0 <? rd m "full_advertising_wanted" then
    mret (wr m (cell ecmd "advertising") (rd m "full_advertising_wanted"))
  else mret m.

(** "Change everything the user specified." *)
Definition sset_apply (m : store) : P store :=
  let m := if given m "speed_wanted" then ethtool_cmd_speed_set m (rd m "speed_wanted") else m in
  let m := put_given "duplex_wanted" "duplex" m in
  let m := put_given "port_wanted" "port" m in
  m ← set_mdix m;
  let m := put_given "autoneg_wanted" "autoneg" m in
  let m := put_given "phyad_wanted" "phy_address" m in
  let m := put_given "xcvr_wanted" "transceiver" m in
  warn_advertise m;;
  set_advertising m.

Definition not_setting (m : store) (x what : string) : P unit :=
  when (given m x) (eprintf ("  not setting " +:+ what +:+ nl)).
Definition sset_failed (m : store) : P unit :=
  not_setting m "speed_wanted" "speed";;
  not_setting m "duplex_wanted" "duplex";;
  not_setting m "port_wanted" "port";;
  not_setting m "autoneg_wanted" "autoneg";;
  not_setting m "phyad_wanted" "phy_address";;
  not_setting m "xcvr_wanted" "transceiver";;
  not_setting m "mdix_wanted" "mdix".

Definition sset_link (m : store) : P unit :=
  x ← send_struct ecmd ETHTOOL_GSET (junk env ecmd m);
  let '(err, en, m) := x in
  y ← (if err <? 0 then perror env "Cannot get current device settings" en;; mret (err, m)
       else
         m ← sset_apply m;
         x ← send_struct ecmd ETHTOOL_SSET m;
         let '(err, en, m) := x in
         when (err <? 0) (perror env "Cannot set new settings" en);;
         mret (err, m));
  when (y.1 <? 0) (sset_failed y.2).

Definition sopass_wanted (m : store) : list Z := match m !! "sopass_wanted" with Some (VBytes l) => l | _ => [] end.
Definition sset_wol (m : store) : P unit :=
  x ← send_wol ETHTOOL_GWOL (junk env wolinfo m) junk_sopass;
  let '(err, en, m, sopass) := x in
  y ← (if err <? 0 then perror env "Cannot get current wake-on-lan settings" en;; mret err
       else
         let m := if truth (rd m "wol_change") then wr m (cell wolinfo "wolopts") (rd m "wol_wanted") else m in
         let sopass := if truth (rd m "sopass_change") then sopass_wanted m else sopass in
         x ← send_wol ETHTOOL_SWOL m sopass;
         let '(err, en, _, _) := x in
         when (err <? 0) (perror env "Cannot set new wake-on-lan settings" en);;
         mret err);
  when (y <? 0)
    (when (truth (rd m "wol_change")) (eprintf ("  not setting wol" +:+ nl));;
     when (truth (rd m "sopass_change")) (eprintf ("  not setting sopass" +:+ nl))).

Definition sset_msglvl (m : store) : P unit :=
  x ← send_struct edata ETHTOOL_GMSGLVL (junk env edata m);
  let '(err, en, m) := x in
  if err <? 0 then perror env "Cannot get msglvl" en
  else
    let m := wr m (cell edata "data")
               (Z.lor (Z.land (rd m (cell edata "data")) (notu 32 (rd m "msglvl_mask"))) (rd m "msglvl_wanted")) in
    x ← send_struct edata ETHTOOL_SMSGLVL m;
    let '(err, en, _) := x in
    when (err <? 0) (perror env "Cannot set new msglvl" en).

Definition do_sset (args : list string) : P Z :=
  m ← sset_args args sset_locals;
  let m := set_advertising_wanted m in
  when (truth (rd m "gset_changed")) (sset_link m);;
  when (truth (rd m "gwol_changed")) (sset_wol m);;
  when (truth (rd m "msglvl_changed")) (sset_msglvl m);;
  mret 0.
End link.
End EtL.
