(* ===== verification/EtLinkOk.v ===== *)
(** * ethtool: what a change of link settings does

    The specification of the arguments of [-s] as a map from variables to
    values and of the structure that is written back, and the lemmas that
    [do_sset] implements it. *)

From stdpp Require Import base list strings gmap numbers.
From Stdlib Require Import ZArith Lia Ascii.
From S2P Require Import Prelude CInt CLib RxSpec RxRules RxParse EtCmd EtSet EtSetOk EtLink.
Import Et EtS EtL.

(** ** Specification *)

Definition int_value (base : Z) (v : string) : option Z :=
  let r := strtoll base v in
  if (serange r || truth (char_at0 (send r)) || (sv r <? - 2 ^ 31) || (2 ^ 31 - 1 <? sv r))%bool then None else Some (sv r).
Definition word_value (v : string) (l : list (string * Z)) : option Z := snd <$> List.find (fun p => streq v p.1) l.

(** The link parameters: the variable of each and its value. *)
Definition link_arg (key v : string) : option (string * Z) :=
  if streq key "speed" then pair "speed_wanted" <$> int_value 10 v
  else if streq key "duplex" then pair "duplex_wanted" <$> word_value v [("half", 0); ("full", 1)]
  else if streq key "port" then
    pair "port_wanted" <$> word_value v [("tp", 0); ("aui", 1); ("bnc", 4); ("mii", 2); ("fibre", 3)]
  else if streq key "mdix" then pair "mdix_wanted" <$> word_value v [("auto", 3); ("on", 2); ("off", 1)]
  else if streq key "autoneg" then pair "autoneg_wanted" <$> word_value v [("on", 1); ("off", 0)]
  else if streq key "advertise" then pair "full_advertising_wanted" <$> int_value 16 v
  else if streq key "phyad" then pair "phyad_wanted" <$> int_value 0 v
  else if streq key "xcvr" then pair "xcvr_wanted" <$> word_value v [("internal", 0); ("external", 1)]
  else None.

(** The last value given for each variable. *)
Fixpoint link_args (args : list string) : option (gmap string Z) :=
  match args with
  | [] => Some ∅
  | [_] => None
  | key :: v :: rest =>
      match link_arg key v, link_args rest with
      | Some (x, z), Some m => Some (m ∪ {[x := z]})
      | _, _ => None
      end
  end.
Definition wants (vals : gmap string Z) (x : string) : Z := default (-1) (vals !! x).

(** The mode of a speed and a duplex. *)
Definition mode_bits : list (Z * Z * Z) :=
  [(10, 0, 0); (10, 1, 1); (100, 0, 2); (100, 1, 3); (1000, 0, 4); (1000, 1, 5); (2500, 1, 15); (10000, 1, 12)].
Definition mode_of (speed duplex : Z) : option Z :=
  (fun p => 2 ^ p.2) <$> List.find (fun p => (p.1.1 =? speed) && (p.1.2 =? duplex))%bool mode_bits.

(** The modes after the change: as given; the mode that speed and duplex name;
    all supported ones when negotiation is asked for; or as they were. Bits that
    are not modes stay in the second and third case. *)
Definition new_advertising (w cur : string -> Z) : Z :=
  let others := Z.ldiff (cur "advertising") ALL_ADVERTISED_MODES in
  if 0 <=? w "full_advertising_wanted" then
    if w "full_advertising_wanted" =? 0 then cur "advertising" else w "full_advertising_wanted"
  else match mode_of (w "speed_wanted") (w "duplex_wanted") with
       | Some mode => Z.lor others mode
       | None => if w "autoneg_wanted" =? 1 then Z.lor others (Z.land ALL_ADVERTISED_MODES (cur "supported"))
                 else cur "advertising"
       end.

(** Each field after the change; -1 is a value not given. *)
Definition link_field (w cur : string -> Z) (f : string) : Z :=
  let upd x z := if w x =? -1 then cur f else z in
  if streq f "speed" then upd "speed_wanted" (w "speed_wanted" mod 2 ^ 16)
  else if streq f "speed_hi" then upd "speed_wanted" (w "speed_wanted" mod 2 ^ 32 / 2 ^ 16)
  else if streq f "duplex" then upd "duplex_wanted" (w "duplex_wanted" mod 2 ^ 8)
  else if streq f "port" then upd "port_wanted" (w "port_wanted" mod 2 ^ 8)
  else if streq f "phy_address" then upd "phyad_wanted" (w "phyad_wanted" mod 2 ^ 8)
  else if streq f "transceiver" then upd "xcvr_wanted" (w "xcvr_wanted" mod 2 ^ 8)
  else if streq f "autoneg" then upd "autoneg_wanted" (w "autoneg_wanted" mod 2 ^ 8)
  else if streq f "eth_tp_mdix_ctrl" then
    if cur f =? 0 then cur f else upd "mdix_wanted" (w "mdix_wanted" mod 2 ^ 8)
  else if streq f "advertising" then new_advertising w cur
  else cur f.
Definition link_fields (w cur : string -> Z) : gmap string Z :=
  list_to_map ((fun f => (f, link_field w cur f)) <$> cs_fields ecmd).

(** ** Arguments *)

Definition link_vars : list string :=
  ["speed_wanted"; "duplex_wanted"; "port_wanted"; "mdix_wanted"; "autoneg_wanted"; "phyad_wanted"; "xcvr_wanted";
   "full_advertising_wanted"].

Lemma link_arg_var key v x z : link_arg key v = Some (x, z) -> x ∈ link_vars /\ streq key "msglvl" = false.
Proof.
  unfold link_arg. intros H.
  repeat match type of H with
  | (if streq ?a ?b then _ else _) = _ => destruct (String.eqb_spec a b) as [->|]; unfold streq in H at 1;
      [rewrite String.eqb_refl in H|rewrite (proj2 (String.eqb_neq a b)) in H by done]
  end; try done;
  (split; [|reflexivity]); unfold link_vars;
  match type of H with (pair _ <$> ?o) = _ => destruct o; [|done] end; injection H as <- _; set_solver.
Qed.

Section args.
Context {W : Type}.

Lemma get_int_ok base v z (s : st W) : int_value base v = Some z -> get_int (Some v) base s = (Ret z, s).
Proof. unfold int_value, get_int, get_int_range. destruct (_ || _)%bool; [done|]. by intros [= <-]. Qed.

Lemma choice_ok v l z (s : st W) : word_value v l = Some z -> choice v l s = (Ret z, s).
Proof. unfold word_value, choice. destruct (List.find _ l) as [p|]; [|done]. by intros [= <-]. Qed.

Lemma sset_param_ok key v m x z (s : st W) : link_arg key v = Some (x, z) ->
  sset_param key v m s = (Ret (wr (wr m "gset_changed" 1) x z), s).
Proof.
  unfold link_arg, sset_param. intros H.
  repeat match goal with
  | |- context [if streq key ?b then _ else _] => destruct (streq key b);
      [match type of H with (pair _ <$> ?o) = _ => destruct o as [z'|] eqn:E; [|done] end; injection H as <- <-;
       erewrite bind_ret_run; [reflexivity|first [by apply get_int_ok | by apply choice_ok]]|]
  end; done.
Qed.

(** The variables after the arguments. *)
Definition link_parsed (vals : gmap string Z) (m m' : store) : Prop :=
  (forall x, x ∈ link_vars -> rd m' x = default (rd m x) (vals !! x)) /\
  (forall x, x ∉ link_vars -> x <> "gset_changed" -> m' !! x = m !! x).

Lemma sset_args_ok n : forall args vals m (s : st W), (length args <= n)%nat -> link_args args = Some vals ->
  exists m', sset_args args m s = (Ret m', s) /\ link_parsed vals m m' /\
    rd m' "gset_changed" = match args with [] => rd m "gset_changed" | _ => 1 end.
Proof.
  induction n as [|n IH]; intros args vals m s Hn H.
  { destruct args; [|cbn in Hn; lia]. injection H as <-. by exists m. }
  destruct args as [|key [|v rest]]; [injection H as <-; by exists m|done|].
  cbn [link_args] in H. destruct (link_arg key v) as [[x z]|] eqn:Ea; [|done].
  destruct (link_args rest) as [vals'|] eqn:Er; [|done]. injection H as <-.
  destruct (link_arg_var _ _ _ _ Ea) as [Hx Hk].
  destruct (IH rest vals' (wr (wr m "gset_changed" 1) x z) s) as (m' & Em & [H1 H2] & H3); [cbn in Hn; lia|done|].
  exists m'. cbn [sset_args]. unfold msglvl_names. rewrite Hk. cbn [andb].
  rewrite (bind_ret_run _ _ _ _ _ (sset_param_ok key v m x z s Ea)). split; [done|].
  assert (x <> "gset_changed") as Hg by (intros ->; revert Hx; clear; set_solver).
  assert (rd m' "gset_changed" = 1) as ->.
  { rewrite H3. rewrite rd_wr_ne, rd_wr by done. by destruct rest. }
  split; [split|done].
  - intros y Hy. rewrite H1 by done. rewrite lookup_union. destruct (decide (y = x)) as [->|Hne].
    + rewrite lookup_singleton_eq, rd_wr. by destruct (vals' !! x).
    + rewrite lookup_singleton_ne by done. rewrite rd_wr_ne by done.
      rewrite rd_wr_ne by (intros <-; revert Hy; clear; set_solver). by destruct (vals' !! y).
  - intros y Hy Hyg. rewrite H2 by done. unfold wr. rewrite !lookup_insert_ne; [done|done|]. by intros ->.
Qed.
End args.

(** ** Application *)

Lemma rd_wr_if m x z y : rd (wr m x z) y = if streq x y then z else rd m y.
Proof.
  unfold streq. destruct (String.eqb_spec x y) as [->|H]; [apply rd_wr|by apply rd_wr_ne].
Qed.

Lemma rd_put_given x f m y : rd (put_given x f m) y =
  if streq (cell ecmd f) y then (if rd m x =? -1 then rd m y else u8 (rd m x)) else rd m y.
Proof.
  unfold put_given, given. destruct (rd m x =? -1); cbn [negb]; [by destruct (streq _ y)|]. apply rd_wr_if.
Qed.

Definition put_speed (m : store) : store :=
  if given m "speed_wanted" then ethtool_cmd_speed_set m (rd m "speed_wanted") else m.
Lemma rd_put_speed m y : rd (put_speed m) y =
  if streq (cell ecmd "speed_hi") y then
    if rd m "speed_wanted" =? -1 then rd m y else u16 (Z.shiftr (u32 (rd m "speed_wanted")) 16)
  else if streq (cell ecmd "speed") y then if rd m "speed_wanted" =? -1 then rd m y else u16 (rd m "speed_wanted")
  else rd m y.
Proof.
  unfold put_speed, given, ethtool_cmd_speed_set. destruct (rd m "speed_wanted" =? -1); cbn [negb].
  - by repeat case_match.
  - by rewrite !rd_wr_if.
Qed.

(** Decides comparisons of literal names. *)
Ltac names :=
  repeat match goal with
  | |- context [streq ?a ?b] => let r := eval vm_compute in (streq a b) in
      match r with true => idtac | false => idtac end; change (streq a b) with r; cbv iota
  end.
(** Reads of a store that was written at literal names. *)
Ltac reads_of := repeat (first [rewrite rd_put_given | rewrite rd_put_speed | rewrite rd_wr_if]; names).

Lemma mode_of_ok speed duplex :
  advertising_of speed duplex = default 0 (mode_of speed duplex) /\
  (forall mode, mode_of speed duplex = Some mode -> 0 < mode).
Proof.
  unfold advertising_of, mode_of, mode_bits, SPEED_10, SPEED_100, SPEED_1000, SPEED_2500, SPEED_10000, DUPLEX_HALF,
    DUPLEX_FULL. cbn [List.find fst snd]. rewrite !(Z.eqb_sym _ speed), !(Z.eqb_sym _ duplex).
  split.
  - repeat match goal with |- context [if ?b then _ else _] => destruct b; [reflexivity|] end. done.
  - intros mode. repeat match goal with |- context [if ?b then _ else _] => destruct b; [by intros [= <-]|] end. done.
Qed.

Lemma land_notu_ldiff w x y : 0 <= w -> 0 <= x < 2 ^ w -> Z.land x (notu w y) = Z.ldiff x y.
Proof.
  intros Hw Hx. apply Z.bits_inj'. intros i Hi. rewrite Z.land_spec, Z.ldiff_spec, notu_testbit by lia.
  destruct (Z.ltb_spec i w); [done|]. by rewrite (testbit_high w x i).
Qed.

Section apply.
Context {W : Type}.
Abbreviation P := (M W).

(** The result of a stage: no effect on the device and the store [m'] up to
    reads. *)
Lemma set_mdix_ok m (s : st W) :
  runs (set_mdix m) s (fun m' s' => dev s' = dev s /\ forall y, rd m' y =
    if streq (cell ecmd "eth_tp_mdix_ctrl") y then
      if rd m y =? 0 then rd m y else if rd m "mdix_wanted" =? -1 then rd m y else u8 (rd m "mdix_wanted")
    else rd m y).
Proof.
  unfold set_mdix, given.
  assert (forall y, streq (cell ecmd "eth_tp_mdix_ctrl") y = true -> y = cell ecmd "eth_tp_mdix_ctrl") as Hy
    by (intros y Hy; symmetry; by apply String.eqb_eq).
  destruct (rd m "mdix_wanted" =? -1) eqn:E1; cbn [negb].
  { apply runs_ret. split; [done|]. intros y. by repeat case_match. }
  destruct (rd m (cell ecmd "eth_tp_mdix_ctrl") =? ETH_TP_MDI_INVALID) eqn:E2; cbn [negb].
  - apply runs_bind, runs_eprintf, runs_ret. split; [done|]. intros y.
    destruct (streq _ y) eqn:E; [|done]. rewrite (Hy y E). unfold ETH_TP_MDI_INVALID in E2. by rewrite E2.
  - apply runs_ret. split; [done|]. intros y. rewrite rd_wr_if. destruct (streq _ y) eqn:E; [|done].
    rewrite (Hy y E). unfold ETH_TP_MDI_INVALID in E2. by rewrite E2.
Qed.

Lemma warn_advertise_ok m (s : st W) : runs (warn_advertise m) s (fun _ s' => dev s' = dev s).
Proof.
  unfold warn_advertise. apply runs_when; intros _; [|done]. apply runs_bind, runs_eprintf.
  do 2 (apply runs_bind, runs_when; intros _; [apply runs_eprintf|]); by apply runs_eprintf.
Qed.

(** The new modes, when [advertising_wanted] was set by
    [set_advertising_wanted]. *)
Lemma set_advertising_ok m w cur (s : st W) :
  is_u32 (cur "advertising") ->
  rd m "full_advertising_wanted" = w "full_advertising_wanted" -> rd m "autoneg_wanted" = w "autoneg_wanted" ->
  rd m "advertising_wanted" =
    (if w "full_advertising_wanted" <? 0 then advertising_of (w "speed_wanted") (w "duplex_wanted") else -1) ->
  rd m (cell ecmd "advertising") = cur "advertising" -> rd m (cell ecmd "supported") = cur "supported" ->
  runs (set_advertising m) s (fun m' s' => dev s' = dev s /\ forall y, rd m' y =
    if streq (cell ecmd "advertising") y then new_advertising w cur else rd m y).
Proof.
  intros Hu Ef Ea Ew Ec Es. unfold set_advertising, new_advertising. rewrite Ef, Ea, Ew, Ec, Es.
  rewrite land_notu_ldiff by done. destruct (mode_of_ok (w "speed_wanted") (w "duplex_wanted")) as [Em Hm].
  assert (forall y, streq (cell ecmd "advertising") y = true -> rd m y = cur "advertising") as Hy
    by (intros y Hy; apply String.eqb_eq in Hy; by rewrite <- Hy).
  assert (forall z s1, dev s1 = dev s -> runs (mret (wr m (cell ecmd "advertising") z) : P store) s1 (fun m' s' => dev s' = dev s /\
    forall y, rd m' y = if streq (cell ecmd "advertising") y then z else rd m y)) as Hput.
  { intros z s1 Hs1. apply runs_ret. split; [done|]. intros y. apply rd_wr_if. }
  assert (runs (mret m : P store) s (fun m' s' => dev s' = dev s /\
    forall y, rd m' y = if streq (cell ecmd "advertising") y then cur "advertising" else rd m y)) as Hkeep.
  { apply runs_ret. split; [done|]. intros y. destruct (streq _ y) eqn:E; [by apply Hy|done]. }
  destruct (Z.ltb_spec (w "full_advertising_wanted") 0) as [Hneg|Hpos].
  - rewrite (proj2 (Z.leb_gt 0 _)) by done. rewrite Em. unfold AUTONEG_ENABLE.
    destruct (mode_of _ _) as [mode|]; cbn [from_option id].
    + pose proof (Hm _ eq_refl). rewrite (proj2 (Z.eqb_neq mode 0)), andb_false_r, (proj2 (Z.ltb_lt 0 mode)) by lia.
      by apply Hput.
    + destruct (w "autoneg_wanted" =? 1); cbn [andb Z.eqb Z.ltb Z.compare].
      * apply runs_bind, runs_when; intros _; [apply runs_eprintf|]; by apply Hput.
      * rewrite (proj2 (Z.ltb_ge 0 (w "full_advertising_wanted"))) by lia. apply Hkeep.
  - rewrite (proj2 (Z.leb_le 0 _)) by done. rewrite andb_false_r. cbn [Z.ltb Z.compare].
    destruct (Z.eqb_spec (w "full_advertising_wanted") 0) as [->|Hz]; [apply Hkeep|].
    rewrite (proj2 (Z.ltb_lt 0 _)) by lia. by apply Hput.
Qed.
End apply.

(** All fields after [sset_apply]. *)
Section fields.
Context {D : Type} `{ED : EtDevice D} (env : et_env).

Lemma sset_apply_ok m w cur (s : st D) :
  is_u32 (cur "advertising") -> (forall x, x ∈ link_vars -> rd m x = w x) ->
  (forall f, f ∈ cs_fields ecmd -> rd m (cell ecmd f) = cur f) ->
  rd m "advertising_wanted" =
    (if w "full_advertising_wanted" <? 0 then advertising_of (w "speed_wanted") (w "duplex_wanted") else -1) ->
  runs (sset_apply m) s (fun m' s' => dev s' = dev s /\
    forall f, f ∈ cs_fields ecmd -> rd m' (cell ecmd f) = link_field w cur f).
Proof.
  intros Hu Hw Hc Ha. unfold sset_apply. fold (put_speed m). apply runs_bind. eapply runs_mono; [apply set_mdix_ok|].
  intros m1 s1 [Hd1 H1]. apply runs_bind. eapply runs_mono; [apply warn_advertise_ok|]. intros [] s2 Hd2.
  eapply runs_mono; [apply (set_advertising_ok _ w cur)|]; try done.
  all: try (reads_of; rewrite H1; reads_of; first [apply Hw; unfold link_vars; set_solver | exact Ha | apply Hc; cbn; set_solver]).
  intros m3 s3 [Hd3 H3]. split; [congruence|].
  intros f Hf. rewrite H3. pose proof (Hc f Hf) as Hcf. cbn [ecmd cs_fields] in Hf. unfold link_field.
  repeat (apply elem_of_cons in Hf as [->|Hf]; [names; try done; reads_of; rewrite ?H1; reads_of; rewrite ?Hcf;
    rewrite ?Hw by (unfold link_vars; set_solver); try reflexivity|]); [|by apply not_elem_of_nil in Hf].
  destruct (w "speed_wanted" =? -1); [done|]. rewrite Z.shiftr_div_pow2 by lia. apply (wrapu_small 16).
  assert (0 <= u32 (w "speed_wanted") < 2 ^ 32) as Hr by (by apply (wrapu_range 32)).
  split; [apply Z.div_pos; [apply Hr|done]|]. apply Z.div_lt_upper_bound; [done|apply Hr].
Qed.

Lemma ecmd_cells : NoDup (cell ecmd <$> cs_fields ecmd) /\
  forall x, x ∈ "advertising_wanted" :: link_vars -> x ∉ cell ecmd <$> cs_fields ecmd.
Proof.
  split; [by apply (bool_decide_unpack _); vm_compute|].
  intros x Hx. unfold link_vars in Hx.
  repeat (apply elem_of_cons in Hx as [->|Hx]; [by apply (bool_decide_unpack _); vm_compute|]). by apply not_elem_of_nil in Hx.
Qed.

Lemma junk_other (s : cstruct) m x : x ∉ cell s <$> cs_fields s -> rd (junk env s m) x = rd m x.
Proof.
  unfold junk. generalize (cs_fields s) as l. induction l as [|f l IH]; intros Hx; [done|].
  rewrite fmap_cons, not_elem_of_cons in Hx. cbn [foldr]. rewrite rd_wr_ne by (intros E; by apply (proj1 Hx)). by apply IH, Hx.
Qed.

Lemma sset_failed_ok m (s : st D) : runs (sset_failed m) s (fun _ s' => dev s' = dev s).
Proof.
  unfold sset_failed, not_setting.
  do 6 (apply runs_bind, runs_when; intros _; [apply runs_eprintf|]); by (apply runs_when; intros _; [apply runs_eprintf|]).
Qed.

(** The link stage: one read, one write of the structure specified. *)
Lemma sset_link_ok (cur : D -> string -> Z) m w (s : st D) :
  reads cur ETHTOOL_GSET ecmd -> (forall x, x ∈ link_vars -> rd m x = w x) ->
  rd m "advertising_wanted" =
    (if w "full_advertising_wanted" <? 0 then advertising_of (w "speed_wanted") (w "duplex_wanted") else -1) ->
  runs (sset_link env m) s (fun _ s' =>
    dev s' = (et_ioctl (mk_ereq ETHTOOL_SSET (link_fields w (cur (dev s))) []) (dev s)).2).
Proof.
  intros Hread Hw Ha. pose proof ecmd_cells as [Hnd Hother]. unfold sset_link. apply runs_bind. unfold send_struct at 1.
  apply runs_bind, runs_devop. set (q := mk_ereq _ _ _). destruct (Hread q (dev s) eq_refl) as (en & r & -> & Hr).
  cbn [fst snd]. apply runs_ret. change (0 <? 0) with false. cbv iota. apply runs_bind, runs_bind.
  eapply runs_mono; [apply (sset_apply_ok _ w (cur (dev s)))|].
  - apply Hr. cbn. set_solver.
  - intros x Hx. unfold unpack. rewrite unpack_other by (apply Hother; by constructor).
    rewrite junk_other by (apply Hother; by constructor). by apply Hw.
  - intros f Hf. unfold unpack. rewrite unpack_field by done. by rewrite (proj1 (Hr f Hf)).
  - unfold unpack. rewrite unpack_other by (apply Hother; constructor). rewrite junk_other by (apply Hother; constructor). done.
  - intros m1 s1 [Hd1 Hf1]. apply runs_bind. unfold send_struct. apply runs_bind, runs_devop.
    rewrite Hd1. cbn [dev]. rewrite (pack_ext ecmd m1 _ Hf1). fold (link_fields w (cur (dev s))).
    destruct (et_ioctl _ (dev s)) as [[[err en'] q'] d'] eqn:E. cbn [fst snd]. apply runs_ret.
    apply runs_bind, runs_when; intros Hb; [apply runs_eprintf|]; apply runs_ret; cbn [fst snd];
      (apply runs_when; intros _; [|done]); (eapply runs_mono; [apply sset_failed_ok|]); by intros ? ? ->.
Qed.

Lemma do_sset_ok (cur : D -> string -> Z) args vals (s : st D) :
  reads cur ETHTOOL_GSET ecmd -> link_args args = Some vals -> args <> [] ->
  runs (do_sset env args) s (fun r s' => r = 0 /\
    dev s' = (et_ioctl (mk_ereq ETHTOOL_SSET (link_fields (wants vals) (cur (dev s))) []) (dev s)).2).
Proof.
  intros Hread Hargs Hne. unfold do_sset.
  destruct (sset_args_ok (length args) args vals sset_locals s (le_n _) Hargs) as (m & Em & [H1 H2] & H3).
  apply runs_bind. exists m, s. split; [exact Em|]. set (m1 := set_advertising_wanted m).
  assert (rd m "gset_changed" = 1) as Hg by (rewrite H3; by destruct args).
  assert (forall x, x ∉ link_vars -> x <> "gset_changed" -> rd m x = rd sset_locals x) as H2'
    by (intros x Hx Hx'; unfold rd; by rewrite H2).
  assert (forall x, x <> "advertising_wanted" -> rd m1 x = rd m x) as Hm1.
  { intros x Hx. unfold m1, set_advertising_wanted. destruct (_ <? 0); [|done]. rewrite rd_wr_ne; [done|]. by intros <-. }
  assert (forall x, x ∈ link_vars -> rd m1 x = wants vals x) as Hw.
  { intros x Hx. rewrite Hm1 by (intros ->; revert Hx; clear; set_solver). rewrite H1 by done. unfold wants. f_equal.
    unfold link_vars in Hx. repeat (apply elem_of_cons in Hx as [->|Hx]; [done|]). by apply not_elem_of_nil in Hx. }
  rewrite !Hm1, Hg, !H2' by first [done | unfold link_vars; set_solver].
  change (truth 1) with true. apply runs_bind. cbn [when].
  eapply runs_mono; [apply (sset_link_ok cur m1 (wants vals) s Hread Hw)|].
  - unfold m1, set_advertising_wanted. rewrite !(H1 "full_advertising_wanted") by (unfold link_vars; set_solver).
    rewrite (H1 "speed_wanted"), (H1 "duplex_wanted") by (unfold link_vars; set_solver). unfold wants.
    change (rd sset_locals "full_advertising_wanted") with (-1). change (rd sset_locals "speed_wanted") with (-1).
    change (rd sset_locals "duplex_wanted") with (-1). destruct (_ <? 0); [apply rd_wr|].
    rewrite H2' by first [done | unfold link_vars; set_solver]. done.
  - intros [] s1 Hd. repeat apply runs_bind, runs_ret. apply runs_ret. done.
Qed.
End fields.

(** [ALL_ADVERTISED_MODES] lacks 10000baseT/Full: a card that advertises it goes
    on doing so when another mode is asked for. *)
Lemma keeps_10g w cur mode : Z.testbit (cur "advertising") 12 = true -> w "full_advertising_wanted" < 0 ->
  mode_of (w "speed_wanted") (w "duplex_wanted") = Some mode -> Z.testbit (link_field w cur "advertising") 12 = true.
Proof.
  intros Hb Hf Hm. change (link_field w cur "advertising") with (new_advertising w cur). unfold new_advertising.
  rewrite (proj2 (Z.leb_gt 0 _)) by done. rewrite Hm, Z.lor_spec, Z.ldiff_spec, Hb. done.
Qed.
