(* ===== verification/EtFeat.v ===== *)
(** * ethtool: string sets, private flags and offload features ([ethernet_test/ethtool/ethtool.c])

    Names the driver gives to flags and features, the private flags of a
    driver, and the offload features with their older flag equivalents. *)

From stdpp Require Import base list strings gmap numbers.
From Stdlib Require Import ZArith Lia Ascii.
From S2P Require Import Prelude CInt CLib RxSpec RxRules RxParse EtCmd EtSet.
Import Et EtS.

Module EtF.

Definition ETHTOOL_GDRVINFO : Z := 0x03.
Definition ETHTOOL_GSTRINGS : Z := 0x1b.
Definition ETHTOOL_GFLAGS : Z := 0x25.
Definition ETHTOOL_SFLAGS : Z := 0x26.
Definition ETHTOOL_GPFLAGS : Z := 0x27.
Definition ETHTOOL_SPFLAGS : Z := 0x28.
Definition ETHTOOL_GSSET_INFO : Z := 0x37.
Definition ETHTOOL_GFEATURES : Z := 0x3a.
Definition ETHTOOL_SFEATURES : Z := 0x3b.
Definition ETH_SS_PRIV_FLAGS : Z := 2.
Definition ETH_SS_FEATURES : Z := 4.
Definition ETH_GSTRING_LEN : Z := 32.
Definition EPERM : Z := 1.
Definition ENOMEM : Z := 12.
Definition EINVAL : Z := 22.
Definition EOPNOTSUPP : Z := 95.

Definition ETH_FLAG_RXCSUM : Z := 0x01.
Definition ETH_FLAG_TXCSUM : Z := 0x02.
Definition ETH_FLAG_SG : Z := 0x04.
Definition ETH_FLAG_TSO : Z := 0x08.
Definition ETH_FLAG_UFO : Z := 0x10.
Definition ETH_FLAG_GSO : Z := 0x20.
Definition ETH_FLAG_GRO : Z := 0x40.
Definition ETH_FLAG_TXVLAN : Z := 0x80.
Definition ETH_FLAG_RXVLAN : Z := 0x100.
Definition ETH_FLAG_LRO : Z := 0x8000.
Definition ETH_FLAG_NTUPLE : Z := 0x8000000.
Definition ETH_FLAG_RXHASH : Z := 0x10000000.
Definition ETH_FLAG_EXT_MASK : Z :=
  Z.lor (Z.lor (Z.lor (Z.lor ETH_FLAG_LRO ETH_FLAG_RXVLAN) ETH_FLAG_TXVLAN) ETH_FLAG_NTUPLE) ETH_FLAG_RXHASH.

(** A flag of the older interface and the features it stands for. *)
Record off_flag := mk_off {
  short_name : string; long_name : string; kernel_name : string; get_cmd : Z; set_cmd : Z; off_value : Z
}.
Definition off_flag_def : list off_flag := [
  mk_off "rx" "rx-checksumming" "rx-checksum" 0x14 0x15 ETH_FLAG_RXCSUM;
  mk_off "tx" "tx-checksumming" "tx-checksum-*" 0x16 0x17 ETH_FLAG_TXCSUM;
  mk_off "sg" "scatter-gather" "tx-scatter-gather*" 0x18 0x19 ETH_FLAG_SG;
  mk_off "tso" "tcp-segmentation-offload" "tx-tcp*-segmentation" 0x1e 0x1f ETH_FLAG_TSO;
  mk_off "ufo" "udp-fragmentation-offload" "tx-udp-fragmentation" 0x21 0x22 ETH_FLAG_UFO;
  mk_off "gso" "generic-segmentation-offload" "tx-generic-segmentation" 0x23 0x24 ETH_FLAG_GSO;
  mk_off "gro" "generic-receive-offload" "rx-gro" 0x2b 0x2c ETH_FLAG_GRO;
  mk_off "lro" "large-receive-offload" "rx-lro" 0 0 ETH_FLAG_LRO;
  mk_off "rxvlan" "rx-vlan-offload" "rx-vlan-hw-parse" 0 0 ETH_FLAG_RXVLAN;
  mk_off "txvlan" "tx-vlan-offload" "tx-vlan-hw-insert" 0 0 ETH_FLAG_TXVLAN;
  mk_off "ntuple" "ntuple-filters" "rx-ntuple-filter" 0 0 ETH_FLAG_NTUPLE;
  mk_off "rxhash" "receive-hashing" "rx-hashing" 0 0 ETH_FLAG_RXHASH ].

(** ** Names *)

(** Whether a feature name matches a pattern; [*] skips to a suffix as long as
    the rest of the pattern. *)
Fixpoint match_name (pattern name : string) : bool :=
  match pattern with
  | EmptyString => match name with EmptyString => true | _ => false end
  | String c p =>
      if cc c =? 42 then
        if strlen name <? strlen p then false
        else match_name p (String.substring (Z.to_nat (strlen name - strlen p)) (String.length p) name)
      else match name with
           | String d n => if Ascii.eqb c d then match_name p n else false
           | EmptyString => false
           end
  end.

(** The first flag whose pattern matches, or -1. *)
Fixpoint off_index (defs : list off_flag) (j : Z) (name : string) : Z :=
  match defs with
  | [] => -1
  | d :: defs' => if match_name (kernel_name d) name then j else off_index defs' (j + 1) name
  end.

(** Names with the index of their flag, and how many features each flag has. *)
Record feature_defs := mk_defs { fd_def : list (string * Z); off_flag_matched : list Z }.
Definition n_features (d : feature_defs) : Z := Z.of_nat (length (fd_def d)).
Definition make_defs (names : list string) : feature_defs :=
  let def := (fun n => (n, off_index off_flag_def 0 n)) <$> names in
  mk_defs def ((fun i => Z.of_nat (length (filter (fun d => d.2 = i) def))) <$> seqZ 0 (Z.of_nat (length off_flag_def))).

(** ** Feature words *)

Definition FEATURE_BITS_TO_BLOCKS (n : Z) : Z := (n + 31) / 32.
Definition FEATURE_FIELD_FLAG (index : Z) : Z := Z.shiftl 1 (index mod 32).
Inductive gfield := Available | Requested | Active | NeverChanged.
Definition gfield_off (f : gfield) : Z := match f with Available => 0 | Requested => 1 | Active => 2 | NeverChanged => 3 end.
(** The word of [struct ethtool_get_features_block] for a feature. *)
Definition gword (features : list Z) (block : Z) (f : gfield) : Z :=
  default 0 (features !! Z.to_nat (4 * block + gfield_off f)).
Definition is_set (features : list Z) (index : Z) (f : gfield) : bool :=
  truth (Z.land (gword features (index / 32) f) (FEATURE_FIELD_FLAG index)).

Record feature_state := mk_fstate { off_flags : Z; features : list Z }.

(** The cells of [efeatures]. *)
Definition req_cell (block : Z) : string := "efeatures.requested." +:+ dec block.
Definition valid_cell (block : Z) : string := "efeatures.valid." +:+ dec block.

Section feat.
Context {D : Type} `{ED : EtDevice D} (env : et_env).
Abbreviation P := (M D).
Context `{DataModel}.
(** The contents of a file, when it can be opened and read. *)
Context (sysfs : string -> option string).

Definition fld (r : ereq) (f : string) : Z := default 0 (rq_f r !! f).
Definition send_value (cmd data : Z) : P (Z * Z * Z) :=
  x ← send_ioctl (mk_ereq cmd {["data" := data]} []);
  let '(err, en, r) := x in mret (err, en, fld r "data").

(** The strings of a set, or [errno]. *)
Definition get_stringset (set_id : Z) (drvinfo_field : option string) (null_terminate : bool) : P (Z + list string) :=
  x ← send_ioctl (mk_ereq ETHTOOL_GSSET_INFO (list_to_map [("reserved", 0); ("sset_mask", Z.shiftl 1 set_id)])
                    [ee_junk env "sset_info.buf"]);
  let '(err, en, sset_info) := x in
  y ← (if err =? 0 then
         mret (inr (if truth (fld sset_info "sset_mask") then default 0 (rq_arr sset_info !! 0%nat) else 0))
       else match drvinfo_field with
            | Some f =>
                if en =? EOPNOTSUPP then
                  x ← send_ioctl (mk_ereq ETHTOOL_GDRVINFO ∅ []);
                  let '(err, en, drvinfo) := x in
                  if truth err then mret (inl en) else mret (inr (fld drvinfo f))
                else mret (inl en)
            | None => mret (inl en)
            end);
  match y with
  | inl en => mret (inl en)
  | inr len =>
      if negb (ee_malloc env (12 + u32 (len * ETH_GSTRING_LEN))) then mret (inl ENOMEM)
      else
        z ← (if truth len then
               x ← send_ioctl (mk_ereq ETHTOOL_GSTRINGS (list_to_map [("string_set", set_id); ("len", len)])
                                 (replicate (Z.to_nat (len * ETH_GSTRING_LEN)) 0));
               let '(err, en, strings) := x in
               if truth err then mret (inl en) else mret (inr (rq_arr strings))
             else mret (inr []));
        match z with
        | inl en => mret (inl en)
        | inr data =>
            mret (inr ((fun i =>
              let s := take 32 (drop (32 * i) data) in
              cstr (if null_terminate then take 31 s else s)) <$> seq 0 (Z.to_nat len)))
        end
  end.

(** ** Private flags *)

Definition show_priv_flag (flags : Z) (x : nat * string) : P unit :=
  printf (snd x +:+ ": " +:+ onoff (Z.land flags (Z.shiftl 1 (Z.of_nat (fst x)))) +:+ nl).

Fixpoint show_priv_flags (flags : Z) (i : nat) (l : list string) : P unit :=
  match l with
  | [] => mret tt
  | s :: l' => show_priv_flag flags (i, s);; show_priv_flags flags (S i) l'
  end.

Definition do_gprivflags (devname : string) (args : list string) : P Z :=
  if truth (Z.of_nat (length args)) then exit_bad_args
  else
    x ← get_stringset ETH_SS_PRIV_FLAGS (Some "n_priv_flags") true;
    match x with
    | inl en => perror env "Cannot get private flag names" en;; mret 1
    | inr strings =>
        if (length strings =? 0)%nat then eprintf ("No private flags defined" +:+ nl);; mret 1
        else
          when (32 <? Z.of_nat (length strings)) (eprintf ("Only showing first 32 private flags" +:+ nl));;
          let strings := take 32 strings in
          y ← send_value ETHTOOL_GPFLAGS (ee_junk env "flags.data");
          let '(err, en, flags) := y in
          if truth err then perror env "Cannot get private flags" en;; mret 1
          else
            printf ("Private flags for " +:+ devname +:+ ":" +:+ nl);;
            show_priv_flags flags 0 strings;;
            mret 0
    end.

Fixpoint priv_info (i : nat) (l : list string) : list cmdline_info :=
  match l with
  | [] => []
  | s :: l' => mk_ci s CMDL_FLAG "wanted_flags" "" (Z.shiftl 1 (Z.of_nat i)) "seen_flags" :: priv_info (S i) l'
  end.
Definition do_sprivflags (args : list string) : P Z :=
  x ← get_stringset ETH_SS_PRIV_FLAGS (Some "n_priv_flags") true;
  match x with
  | inl en => perror env "Cannot get private flag names" en;; mret 1
  | inr strings =>
      if (length strings =? 0)%nat then eprintf ("No private flags defined" +:+ nl);; mret 1
      else
        when (32 <? Z.of_nat (length strings)) (eprintf ("Only setting first 32 private flags" +:+ nl));;
        let cmdline := priv_info 0 (take 32 strings) in
        if negb (ee_malloc env (Z.of_nat (length cmdline))) then perror env "Cannot parse arguments" ENOMEM;; mret 1
        else
          y ← parse_generic_cmdline cmdline args (ee_junk env "any_changed") (wr (wr ∅ "wanted_flags" 0) "seen_flags" 0);
          let m := y.2 in
          z ← send_value ETHTOOL_GPFLAGS (ee_junk env "flags.data");
          let '(err, en, flags) := z in
          if truth err then perror env "Cannot get private flags" en;; mret 1
          else
            z ← send_value ETHTOOL_SPFLAGS (Z.lor (Z.land flags (notu 32 (rd m "seen_flags"))) (rd m "wanted_flags"));
            let '(err, en, _) := z in
            if truth err then perror env "Cannot set private flags" en;; mret 1 else mret 0
  end.

(** ** Features *)

(** [None] when the names cannot be read; a kernel without named features has
    none. *)
Definition get_feature_defs : P (Z + feature_defs) :=
  x ← get_stringset ETH_SS_FEATURES None true;
  match x with
  | inr names => if ee_malloc env (Z.of_nat (length names)) then mret (inr (make_defs names)) else mret (inl ENOMEM)
  | inl en =>
      if ((en =? EOPNOTSUPP) || (en =? EINVAL) || (en =? EPERM))%bool then mret (inr (make_defs []))
      else mret (inl en)
  end.

(** One flag of the older interface; gives [allfail] and the flags. *)
Definition get_off_flag (d : off_flag) (x : Z * Z) : P (Z * Z) :=
  let '(allfail, flags) := x in
  if get_cmd d =? 0 then mret x
  else
    y ← send_value (get_cmd d) (ee_junk env "eval.data");
    let '(err, en, data) := y in
    if truth err then
      eprintf ("Cannot get device " +:+ long_name d +:+ " settings: " +:+ ee_strerror env en +:+ nl);; mret x
    else mret (0, if truth data then Z.lor flags (off_value d) else flags).
Fixpoint get_off_flags (l : list off_flag) (x : Z * Z) : P (Z * Z) :=
  match l with
  | [] => mret x
  | d :: l' => y ← get_off_flag d x; get_off_flags l' y
  end.

(** The first [buf_len - 1] bytes of an attribute; [None] is a negative result. *)
Definition get_netdev_attr (devname name : string) (buf_len : Z) : P (option string) :=
  let path := "/sys/class/net/" +:+ devname +:+ "/" +:+ name in
  if strlen path <? 40 + 16 then mret (String.substring 0 (Z.to_nat (buf_len - 1)) <$> sysfs path) else abort.

Definition get_features (devname : string) (defs : feature_defs) : P (option feature_state) :=
  let blocks := FEATURE_BITS_TO_BLOCKS (n_features defs) in
  if negb (ee_malloc env (8 + blocks * 16)) then mret None
  else
    x ← get_off_flags off_flag_def (1, 0);
    let '(allfail, flags) := x in
    y ← send_value ETHTOOL_GFLAGS (ee_junk env "eval.data");
    let '(err, en, data) := y in
    z ← (if truth err then perror env "Cannot get device flags" en;; mret (allfail, flags)
         else mret (0, Z.lor flags (Z.land data ETH_FLAG_EXT_MASK)));
    let '(allfail, flags) := z in
    let junk := replicate (Z.to_nat (blocks * 4)) (ee_junk env "state.features") in
    w ← (if negb (n_features defs =? 0) then
           x ← send_ioctl (mk_ereq ETHTOOL_GFEATURES {["size" := blocks]} junk);
           let '(err, en, r) := x in
           if truth err then perror env "Cannot get device generic features" en;; mret (allfail, flags, junk)
           else mret (0, flags, rq_arr r)
         else
           buf ← get_netdev_attr devname "features" 20;
           match buf with
           | Some buf => if 0 <? strlen buf
                         then mret (allfail, Z.lor flags (Z.land (sv (strtoul 0 buf)) (Z.lor ETH_FLAG_RXVLAN ETH_FLAG_TXVLAN)), junk)
                         else mret (allfail, flags, junk)
           | None => mret (allfail, flags, junk)
           end);
    let '(allfail, flags, words) := w in
    if truth allfail then mret None else mret (Some (mk_fstate flags words)).

Definition dump_one_feature (indent name : string) (state : feature_state) (ref_state : option feature_state) (index : Z) : P unit :=
  let f := features state in
  let same := match ref_state with
              | Some r => Bool.eqb (is_set f index Active) (is_set (features r) index Active)
              | None => false
              end in
  if same then mret tt
  else
    printf (indent +:+ name +:+ ": " +:+ (if is_set f index Active then "on" else "off") +:+
      (if (negb (is_set f index Available) || is_set f index NeverChanged)%bool then " [fixed]"
       else if xorb (is_set f index Requested) (is_set f index Active) then
         (if is_set f index Requested then " [requested on]" else " [requested off]")
       else "") +:+ nl).

(** The features of flag [i] with index from [j] on. *)
Fixpoint dump_matching (i j matched : Z) (indent flagname : string) (defs : list (string * Z)) (state : feature_state)
    (ref_state : option feature_state) : P unit :=
  match defs with
  | [] => mret tt
  | (name, k) :: defs' =>
      (if k =? i then
         if negb (matched =? 1) then dump_one_feature indent name state ref_state j
         else dump_one_feature "" flagname state ref_state j
       else mret tt);;
      dump_matching i (j + 1) matched indent flagname defs' state ref_state
  end.
Definition dump_flag (defs : feature_defs) (state : feature_state) (ref_state : option feature_state) (i : Z) (d : off_flag) : P unit :=
  let value := off_value d in
  let matched := default 0 (off_flag_matched defs !! Z.to_nat i) in
  let changed := match ref_state with
                 | Some r => truth (Z.land (Z.lxor (off_flags state) (off_flags r)) value)
                 | None => true
                 end in
  let show := (negb (matched =? 1) && changed)%bool in
  when show (printf (long_name d +:+ ": " +:+ onoff (Z.land (off_flags state) value) +:+ nl));;
  dump_matching i 0 matched (if show then tab else "") (long_name d) (fd_def defs) state ref_state.
Fixpoint dump_flags (defs : feature_defs) (state : feature_state) (ref_state : option feature_state) (i : Z) (l : list off_flag) : P unit :=
  match l with
  | [] => mret tt
  | d :: l' => dump_flag defs state ref_state i d;; dump_flags defs state ref_state (i + 1) l'
  end.
Fixpoint dump_unmatched (j : Z) (defs : list (string * Z)) (state : feature_state) (ref_state : option feature_state) : P unit :=
  match defs with
  | [] => mret tt
  | (name, k) :: defs' =>
      when ((k <? 0) && negb (streq name ""))%bool (dump_one_feature "" name state ref_state j);;
      dump_unmatched (j + 1) defs' state ref_state
  end.
Definition dump_features (defs : feature_defs) (state : feature_state) (ref_state : option feature_state) : P unit :=
  dump_flags defs state ref_state 0 off_flag_def;;
  dump_unmatched 0 (fd_def defs) state ref_state.

Definition do_gfeatures (devname : string) (args : list string) : P Z :=
  if truth (Z.of_nat (length args)) then exit_bad_args
  else
    x ← get_feature_defs;
    match x with
    | inl en => perror env "Cannot get device feature names" en;; mret 1
    | inr defs =>
        printf ("Features for " +:+ devname +:+ ":" +:+ nl);;
        y ← get_features devname defs;
        match y with
        | None => printf ("no feature info available" +:+ nl);; mret 1
        | Some st => dump_features defs st None;; mret 0
        end
    end.

(** The parameters: the flags of the older interface, then the named features. *)
Fixpoint feature_info (i : Z) (defs : list (string * Z)) : list cmdline_info :=
  match defs with
  | [] => []
  | (name, _) :: defs' =>
      flag_to_cmdline_info name (FEATURE_FIELD_FLAG i) (req_cell (i / 32)) (valid_cell (i / 32)) :: feature_info (i + 1) defs'
  end.
Definition cmdline_features (defs : feature_defs) : list cmdline_info :=
  ((fun d => flag_to_cmdline_info (short_name d) (off_value d) "off_flags_wanted" "off_flags_mask") <$> off_flag_def) ++
  feature_info 0 (fd_def defs).

(** The features of a flag the user gave: those that can be changed and were
    not given by name follow the flag. Gives [fixed] and the cells. *)
Fixpoint follow_flag (i : Z) (wanted : bool) (old : list Z) (j : Z) (defs : list (string * Z)) (x : bool * store) : bool * store :=
  match defs with
  | [] => x
  | (_, k) :: defs' =>
      let '(fixed, m) := x in
      let b := j / 32 in
      let flag := FEATURE_FIELD_FLAG j in
      let x :=
        if (negb (k =? i) || negb (is_set old j Available) || is_set old j NeverChanged)%bool then x
        else if truth (Z.land (rd m (valid_cell b)) flag) then (false, m)
        else
          let m := wr m (valid_cell b) (Z.lor (rd m (valid_cell b)) flag) in
          (false, if wanted then wr m (req_cell b) (Z.lor (rd m (req_cell b)) flag) else m) in
      follow_flag i wanted old (j + 1) defs' x
  end.
Fixpoint follow_flags (old : list Z) (defs : feature_defs) (i : Z) (l : list off_flag) (m : store) : P store :=
  match l with
  | [] => mret m
  | d :: l' =>
      if negb (truth (Z.land (rd m "off_flags_mask") (off_value d))) then follow_flags old defs (i + 1) l' m
      else
        let '(fixed, m) := follow_flag i (truth (Z.land (rd m "off_flags_wanted") (off_value d))) old 0 (fd_def defs) (true, m) in
        when fixed (eprintf ("Cannot change " +:+ long_name d +:+ nl));;
        follow_flags old defs (i + 1) l' m
  end.

(** The older interface: one command per flag. [Some] is an early return. *)
Fixpoint set_off_flags (l : list off_flag) (m : store) : P (option Z) :=
  match l with
  | [] => mret None
  | d :: l' =>
      if ((set_cmd d =? 0) || negb (truth (Z.land (rd m "off_flags_mask") (off_value d))))%bool then set_off_flags l' m
      else
        x ← send_value (set_cmd d) (if truth (Z.land (rd m "off_flags_wanted") (off_value d)) then 1 else 0);
        let '(err, en, _) := x in
        if truth err then
          eprintf ("Cannot set device " +:+ long_name d +:+ " settings: " +:+ ee_strerror env en +:+ nl);; mret (Some 1)
        else set_off_flags l' m
  end.

(** The request for the named features: pairs of [valid] and [requested]. *)
Definition efeatures (blocks : Z) (m : store) : list Z :=
  mjoin ((fun b => [rd m (valid_cell b); rd m (req_cell b)]) <$> seqZ 0 blocks).

Definition apply_features (defs : feature_defs) (old : feature_state) (m : store) : P (store * option Z) :=
  if negb (n_features defs =? 0) then
    m ← follow_flags (features old) defs 0 off_flag_def m;
    let blocks := FEATURE_BITS_TO_BLOCKS (n_features defs) in
    x ← send_ioctl (mk_ereq ETHTOOL_SFEATURES {["size" := blocks]} (efeatures blocks m));
    let '(err, en, _) := x in
    if err <? 0 then perror env "Cannot set device feature settings" en;; mret (m, Some 1) else mret (m, None)
  else
    r ← set_off_flags off_flag_def m;
    match r with
    | Some c => mret (m, Some c)
    | None =>
        let mask := rd m "off_flags_mask" in
        if negb (truth (Z.land mask ETH_FLAG_EXT_MASK)) then mret (m, None)
        else
          x ← send_value ETHTOOL_SFLAGS
                (Z.lor (Z.land (Z.land (off_flags old) (notu 32 mask)) ETH_FLAG_EXT_MASK)
                       (Z.land (rd m "off_flags_wanted") ETH_FLAG_EXT_MASK));
          let '(err, en, _) := x in
          if truth err then perror env "Cannot set device flag settings" en;; mret (m, Some 92) else mret (m, None)
    end.

(** Whether anything changed, and whether it is what was asked for. *)
Definition compare_states (defs : feature_defs) (old new : feature_state) (m : store) : bool * bool :=
  let blocks := seqZ 0 (FEATURE_BITS_TO_BLOCKS (n_features defs)) in
  let wanted b := Z.lor (Z.land (gword (features old) b Active) (notu 32 (rd m (valid_cell b)))) (rd m (req_cell b)) in
  let flags_wanted := Z.lor (Z.land (off_flags old) (notu 32 (rd m "off_flags_mask"))) (rd m "off_flags_wanted") in
  ((negb (off_flags new =? off_flags old) ||
    existsb (fun b => negb (gword (features new) b Active =? gword (features old) b Active)) blocks)%bool,
   (negb (off_flags new =? flags_wanted) ||
    existsb (fun b => negb (gword (features new) b Active =? wanted b)) blocks)%bool).

Definition do_sfeatures (devname : string) (args : list string) : P Z :=
  x ← get_feature_defs;
  match x with
  | inl en => perror env "Cannot get device feature names" en;; mret 1
  | inr defs =>
      let blocks := FEATURE_BITS_TO_BLOCKS (n_features defs) in
      if (negb (n_features defs =? 0) && negb (ee_malloc env (8 + blocks * 8)))%bool then
        perror env "Cannot parse arguments" ENOMEM;; mret 1
      else if negb (ee_malloc env (Z.of_nat (length (cmdline_features defs)))) then
        perror env "Cannot parse arguments" ENOMEM;; mret 1
      else
        y ← parse_generic_cmdline (cmdline_features defs) args 0 ∅;
        if fst y =? 0 then printf ("no features changed" +:+ nl);; mret 0
        else
          o ← get_features devname defs;
          match o with
          | None => mret 1
          | Some old =>
              z ← apply_features defs old (snd y);
              match z with
              | (_, Some c) => mret c
              | (m, None) =>
                  n ← get_features devname defs;
                  match n with
                  | None => mret 1
                  | Some new =>
                      let '(any_changed, any_mismatch) := compare_states defs old new m in
                      if negb any_mismatch then mret 0
                      else if negb any_changed then eprintf ("Could not change any device features" +:+ nl);; mret 1
                      else printf ("Actual changes:" +:+ nl);; dump_features defs new (Some old);; mret 0
                  end
              end
          end
  end.
End feat.
End EtF.
