(* ===== verification/EtFeatOk.v ===== *)
(** * ethtool: flags and features on the command line

    What a list of flag names with [on] and [off] does to the words the flags
    live in, and which features follow a flag of the older interface. *)

From stdpp Require Import base list strings gmap numbers.
From Stdlib Require Import ZArith Lia Ascii.
From S2P Require Import Prelude CInt CLib CLibOk RxSpec RxRules RxParse EtCmd EtSet EtSetOk EtLinkOk EtFeat.
Import Et EtS EtF.

(** ** Command lines of flags *)

(** Names with whether they are turned on. *)
Fixpoint flag_pairs (args : list string) : list (string * bool) :=
  match args with
  | name :: rest => match rest with v :: rest' => (name, streq v "on") :: flag_pairs rest' | [] => [] end
  | [] => []
  end.
(** Every name is known and has a value. *)
Fixpoint flags_ok (info : list cmdline_info) (args : list string) : bool :=
  match args with
  | [] => true
  | name :: rest =>
      match rest with
      | [] => false
      | v :: rest' => match find_info info name with
                      | Some _ => (streq v "on" || streq v "off") && flags_ok info rest'
                      | None => false
                      end
      end
  end%bool.
Definition named (ps : list (string * bool)) (name : string) : bool := existsb (fun p => streq p.1 name) ps.
Definition turned_on (ps : list (string * bool)) (name : string) : bool := existsb (fun p => streq p.1 name && p.2)%bool ps.

Definition entry_bits (info : list cmdline_info) (x : string) (p : string * bool) : Z :=
  match find_info info p.1 with
  | Some ci => Z.lor (if streq (seen_val ci) x then flag_val ci else 0)
                     (if streq (wanted_val ci) x && p.2 then flag_val ci else 0)%bool
  | None => 0
  end.
Definition all_bits (info : list cmdline_info) (x : string) (ps : list (string * bool)) : Z :=
  foldr (fun p acc => Z.lor (entry_bits info x p) acc) 0 ps.

Lemma all_bits_testbit info x ps k :
  Z.testbit (all_bits info x ps) k = existsb (fun p => Z.testbit (entry_bits info x p) k) ps.
Proof.
  induction ps as [|p ps IH]; [apply Z.bits_0|]. cbn [all_bits foldr existsb]. rewrite Z.lor_spec. f_equal. exact IH.
Qed.

Section flags.
Context (info : list cmdline_info).
Hypothesis Hflags : Forall (fun ci => ci_type ci = CMDL_FLAG) info.

Lemma parse_flags_ok {W} n : forall args ch m (s : st W), (length args <= n)%nat ->
  wp (parse_generic_cmdline info args ch m) s (fun r s' => dev s' = dev s /\
    if flags_ok info args
    then exists m', r = Ret (match args with [] => ch | _ => 1 end, m') /\
           forall x, rd m' x = Z.lor (rd m x) (all_bits info x (flag_pairs args))
    else r = Exit 1).
Proof.
  induction n as [|n IH]; intros args ch m s Hn.
  { destruct args; [|cbn in Hn; lia]. split; [done|]. exists m. split; [done|]. intros x. by rewrite Z.lor_0_r. }
  destruct args as [|name [|v rest]].
  - split; [done|]. exists m. split; [done|]. intros x. by rewrite Z.lor_0_r.
  - cbn [parse_generic_cmdline flags_ok]. by destruct (find_info info name).
  - cbn [parse_generic_cmdline flags_ok]. destruct (find_info info name) as [ci|] eqn:Ef; [|done].
    assert (ci_type ci = CMDL_FLAG) as Ht by (apply (proj1 (list.Forall_forall _ _) Hflags), (find_info_in _ _ _ Ef)).
    rewrite Ht. cbn [negb andb]. change (bool_decide (CMDL_FLAG = CMDL_FLAG)) with true. cbn [negb andb].
    apply wp_bind. unfold set_wanted. rewrite Ht.
    assert (forall m1, (forall x, rd m1 x = Z.lor (rd m x) (entry_bits info x (name, streq v "on"))) ->
      wp (parse_generic_cmdline info rest 1 m1) s (fun r s' => dev s' = dev s /\
        if flags_ok info rest
        then exists m', r = Ret (1, m') /\ forall x, rd m' x = Z.lor (rd m x) (all_bits info x (flag_pairs (name :: v :: rest)))
        else r = Exit 1)) as Hrest.
    { intros m1 H1. eapply wp_mono; [apply IH; cbn in Hn; lia|]. intros r s' [Hd Hr]. split; [done|].
      destruct (flags_ok info rest); [|done]. destruct Hr as (m' & -> & Hm'). exists m'. split; [by destruct rest|].
      intros x. cbn [flag_pairs all_bits foldr]. by rewrite Hm', H1, Z.lor_assoc. }
    unfold entry_bits in Hrest. cbn [fst snd] in Hrest. rewrite Ef in Hrest.
    destruct (streq v "on") eqn:Eon; cbn [orb andb].
    + apply wp_ret. apply Hrest. intros x. rewrite !rd_wr_if, andb_true_r.
      destruct (String.eqb_spec (wanted_val ci) x) as [<-|Hne].
      * assert (streq (wanted_val ci) (wanted_val ci) = true) as -> by apply String.eqb_refl.
        destruct (streq (seen_val ci) (wanted_val ci)) eqn:Es; [|by rewrite Z.lor_0_l].
        apply String.eqb_eq in Es. rewrite Es. by rewrite <- Z.lor_assoc.
      * assert (streq (wanted_val ci) x = false) as -> by (by apply String.eqb_neq). rewrite Z.lor_0_r.
        destruct (String.eqb_spec (seen_val ci) x) as [<-|Hs]; unfold streq; [by rewrite String.eqb_refl|].
        rewrite (proj2 (String.eqb_neq _ _) Hs). by rewrite Z.lor_0_r.
    + destruct (streq v "off"); cbn [negb]; [|done]. apply wp_ret. apply Hrest. intros x.
      rewrite rd_wr_if, andb_false_r, Z.lor_0_r. destruct (String.eqb_spec (seen_val ci) x) as [<-|Hs]; unfold streq;
        [by rewrite String.eqb_refl|]. rewrite (proj2 (String.eqb_neq _ _) Hs). by rewrite Z.lor_0_r.
Qed.

(** Bit [k] of the words of [ci] belongs to no other entry. *)
Definition owns (ci : cmdline_info) (k : Z) : Prop :=
  Z.testbit (flag_val ci) k = true /\ forall cj, cj ∈ info ->
    (Z.testbit (flag_val cj) k = true -> seen_val cj = seen_val ci \/ wanted_val cj = wanted_val ci -> cj = ci) /\
    wanted_val cj <> seen_val ci /\ seen_val cj <> wanted_val ci.

Hypothesis Hnames : NoDup (ci_name <$> info).

Lemma find_info_iff ci name : ci ∈ info -> find_info info name = Some ci <-> name = ci_name ci.
Proof.
  intros Hci. split.
  - intros H. apply find_some in H as [_ H]. symmetry. by apply String.eqb_eq.
  - intros ->. destruct (find_info info (ci_name ci)) as [cj|] eqn:E.
    + f_equal. pose proof (find_info_in _ _ _ E) as Hj. apply find_some in E as [_ E]. apply String.eqb_eq in E.
      by apply (fmap_inj_in ci_name info).
    + apply List.find_none with (x := ci) in E; [|by apply list_elem_of_In].
      unfold streq in E. by rewrite String.eqb_refl in E.
Qed.

Lemma existsb_ext {A} (f g : A -> bool) l : (forall x, f x = g x) -> existsb f l = existsb g l.
Proof. intros H. induction l as [|x l IH]; [done|]. cbn [existsb]. by rewrite H, IH. Qed.

(** The words say what was named and what was turned on. *)
Lemma word_bits ci k ps : ci ∈ info -> owns ci k ->
  Z.testbit (all_bits info (seen_val ci) ps) k = named ps (ci_name ci) /\
  Z.testbit (all_bits info (wanted_val ci) ps) k = turned_on ps (ci_name ci).
Proof.
  intros Hci [Hk Ho]. rewrite !all_bits_testbit. unfold named, turned_on.
  assert (forall p, Z.testbit (entry_bits info (seen_val ci) p) k = streq p.1 (ci_name ci) /\
    Z.testbit (entry_bits info (wanted_val ci) p) k = (streq p.1 (ci_name ci) && p.2)%bool) as H.
  { intros [name b]. unfold entry_bits. cbn [fst snd]. destruct (Ho ci Hci) as (_ & Hws & Hsw).
    pose proof (find_info_iff ci name Hci) as Hfind. unfold streq.
    destruct (String.eqb_spec name (ci_name ci)) as [En|En].
    - rewrite (proj2 Hfind En), !String.eqb_refl, (proj2 (String.eqb_neq _ _) Hws), (proj2 (String.eqb_neq _ _) Hsw).
      cbn [andb]. rewrite Z.lor_0_r, Z.lor_0_l. split; [exact Hk|]. destruct b; [exact Hk|apply Z.bits_0].
    - destruct (find_info info name) as [cj|] eqn:E; [|by rewrite Z.bits_0].
      assert (cj <> ci) as Hne by (intros ->; by apply En, Hfind).
      destruct (Ho cj (find_info_in _ _ _ E)) as (Hu & H1 & H2).
      rewrite (proj2 (String.eqb_neq _ _) H1), (proj2 (String.eqb_neq _ _) H2). cbn [andb].
      rewrite Z.lor_0_r, Z.lor_0_l. split.
      + destruct (String.eqb_spec (seen_val cj) (seen_val ci)) as [Es|]; [|apply Z.bits_0].
        destruct (Z.testbit (flag_val cj) k) eqn:Eb; [|done]. exfalso. apply Hne, Hu; [done|by left].
      + destruct (String.eqb_spec (wanted_val cj) (wanted_val ci)) as [Es|]; [|apply Z.bits_0]. cbn [andb].
        destruct b; [|apply Z.bits_0].
        destruct (Z.testbit (flag_val cj) k) eqn:Eb; [|done]. exfalso. apply Hne, Hu; [done|by right]. }
  split; apply existsb_ext; intros p; apply H.
Qed.
End flags.

(** ** Private flags *)

Lemma shiftl1_testbit i k : 0 <= i -> Z.testbit (Z.shiftl 1 i) k = (k =? i).
Proof.
  intros Hi. rewrite Z.shiftl_1_l. destruct (Z.eqb_spec k i) as [->|H]; [by apply Z.pow2_bits_true|].
  apply Z.pow2_bits_false; lia.
Qed.

Lemma priv_info_lookup l : forall i k ci, priv_info i l !! k = Some ci <->
  exists s, l !! k = Some s /\ ci = mk_ci s CMDL_FLAG "wanted_flags" "" (Z.shiftl 1 (Z.of_nat (i + k))) "seen_flags".
Proof.
  induction l as [|s l IH]; intros i k ci; cbn [priv_info].
  - rewrite !lookup_nil. split; [done|]. by intros (? & ? & _).
  - destruct k as [|k]; cbn [lookup list_lookup].
    + rewrite Nat.add_0_r. split; [intros [= <-]; by exists s|]. intros (s' & [= <-] & ->). done.
    + rewrite IH. by replace (S i + k)%nat with (i + S k)%nat by lia.
Qed.

Lemma priv_info_names l i : ci_name <$> priv_info i l = l.
Proof. revert i. induction l as [|s l IH]; intros i; [done|]. cbn [priv_info]. rewrite fmap_cons. by rewrite IH. Qed.

Lemma priv_info_flags l i : Forall (fun ci => ci_type ci = CMDL_FLAG) (priv_info i l).
Proof. revert i. induction l as [|s l IH]; intros i; constructor; [done|apply IH]. Qed.

Lemma priv_word_bits l ps k : NoDup l -> 0 <= k ->
  Z.testbit (all_bits (priv_info 0 l) "seen_flags" ps) k = (if l !! Z.to_nat k is Some s then named ps s else false) /\
  Z.testbit (all_bits (priv_info 0 l) "wanted_flags" ps) k = (if l !! Z.to_nat k is Some s then turned_on ps s else false).
Proof.
  intros Hn Hk. destruct (l !! Z.to_nat k) as [s|] eqn:El.
  - pose proof (proj2 (priv_info_lookup l 0 (Z.to_nat k) _) (ex_intro _ s (conj El eq_refl))) as Hci.
    set (ci := mk_ci s _ _ _ _ _) in Hci. cbn [Nat.add] in ci.
    apply (word_bits (priv_info 0 l)) with (ci := ci) (k := k) (ps := ps).
    + by rewrite priv_info_names.
    + by apply list_elem_of_lookup_2 in Hci.
    + split; [cbn [ci flag_val]; rewrite shiftl1_testbit by lia; apply Z.eqb_eq; lia|].
      intros cj Hj. apply list_elem_of_lookup in Hj as [j Hj]. pose proof Hj as Hj'.
      apply priv_info_lookup in Hj as (s' & Hs' & ->). cbn [Nat.add flag_val seen_val wanted_val] in *.
      split; [|done]. intros Hb _. rewrite shiftl1_testbit in Hb by lia. apply Z.eqb_eq in Hb.
      assert (Z.to_nat k = j) as Ej by lia. rewrite Ej in Hci. congruence.
  - assert (forall x p, Z.testbit (entry_bits (priv_info 0 l) x p) k = false) as H.
    { intros x p. unfold entry_bits. destruct (find_info _ _) as [cj|] eqn:E; [|apply Z.bits_0].
      apply find_info_in in E. apply list_elem_of_lookup in E as [j Hj].
      apply priv_info_lookup in Hj as (s' & Hs' & ->). cbn [flag_val seen_val wanted_val Nat.add].
      assert (Z.testbit (Z.shiftl 1 (Z.of_nat j)) k = false) as Hb.
      { rewrite shiftl1_testbit by lia. apply Z.eqb_neq. intros ->. rewrite Nat2Z.id in El. congruence. }
      rewrite Z.lor_spec. by repeat case_match; rewrite ?Hb, ?Z.bits_0. }
    rewrite !all_bits_testbit. split; apply not_true_is_false; rewrite existsb_exists; intros (p & _ & Hp);
      by rewrite H in Hp.
Qed.

Section priv.
Context {D : Type} `{ED : EtDevice D} (env : et_env).

(** The driver has these flags, now with these values. *)
Definition has_names (set : Z) (field : option string) (names : list string) : Prop := forall s : st D,
  exists s', get_stringset env set field true s = (Ret (inr names), s') /\ dev s' = dev s.
Definition reads_value (cmd : Z) (cur : D -> Z) : Prop := forall q d, rq_cmd q = cmd ->
  exists en r, et_ioctl q d = (0, en, r, d) /\ fld r "data" = cur d /\ is_u32 (cur d).

Lemma do_sprivflags_ok names cur args (s : st D) :
  has_names ETH_SS_PRIV_FLAGS (Some "n_priv_flags") names -> names <> [] -> NoDup (take 32 names) ->
  (forall n, ee_malloc env n = true) -> reads_value ETHTOOL_GPFLAGS cur ->
  wp (do_sprivflags env args) s (fun r s' =>
    if flags_ok (priv_info 0 (take 32 names)) args then
      exists v, (forall k, 0 <= k -> Z.testbit v k = match take 32 names !! Z.to_nat k with
                   | Some n => if turned_on (flag_pairs args) n then true
                               else if named (flag_pairs args) n then false else Z.testbit (cur (dev s)) k
                   | None => Z.testbit (cur (dev s)) k
                   end) /\
        let '(err, _, _, d') := et_ioctl (mk_ereq ETHTOOL_SPFLAGS {["data" := v]} []) (dev s) in
        dev s' = d' /\ r = Ret (if truth err then 1 else 0)
    else r = Exit 1 /\ dev s' = dev s).
Proof.
  intros Hnames Hne Hnd Hm Hr. unfold do_sprivflags. apply wp_bind. destruct (Hnames s) as (s1 & E1 & Hd1).
  unfold wp at 1. rewrite E1. cbn [fst snd]. rewrite (proj2 (Nat.eqb_neq (length names) 0)) by (by destruct names).
  apply wp_bind.
  apply (wp_mono _ _ (fun r s0 => r = Ret tt /\ dev s0 = dev s)).
  { apply wp_when; intros _; [apply wp_eprintf|]; done. }
  intros r0 s0 [-> Hs0]. rewrite Hm. cbn [negb]. apply wp_bind.
  eapply wp_mono; [by apply (parse_flags_ok _ (priv_info_flags _ 0) (length args))|].
  intros r s2 [Hd2 Hr2]. rewrite Hs0 in Hd2. destruct (flags_ok _ args); [|by subst r].
  destruct Hr2 as (m & -> & Hw). cbn [snd]. apply wp_bind, wp_bind, wp_send_ioctl.
  destruct (Hr (mk_ereq ETHTOOL_GPFLAGS {["data" := ee_junk env "flags.data"]} []) (dev s2) eq_refl)
    as (en & q & -> & Hq & Hu). apply wp_ret. change (truth 0) with false. cbv iota. rewrite Hq, Hd2.
  set (v := Z.lor _ _). apply wp_bind, wp_bind, wp_send_ioctl. cbn [dev].
  destruct (et_ioctl _ (dev s)) as [[[err en'] q'] d'] eqn:E. apply wp_ret. cbv beta iota.
  apply (wp_mono _ _ (fun r s' => dev s' = d' /\ r = Ret (if truth err then 1 else 0))); [by destruct (truth err)|].
  intros r s' Hrs. exists v. rewrite E. split; [|exact Hrs]. unfold v. clear r s' Hrs E.
  rewrite Hd2 in Hu. intros k Hk. rewrite !Hw, Z.lor_spec, land_notu_ldiff, Z.ldiff_spec by done.
  destruct (priv_word_bits (take 32 names) (flag_pairs args) k Hnd Hk) as [Hseen Hwant].
  change (rd (wr (wr ∅ "wanted_flags" 0) "seen_flags" 0) "wanted_flags") with 0.
  change (rd (wr (wr ∅ "wanted_flags" 0) "seen_flags" 0) "seen_flags") with 0.
  rewrite !Z.lor_0_l, Hseen, Hwant. destruct (take 32 names !! Z.to_nat k) as [n|]; [|by rewrite orb_false_r, andb_true_r].
  destruct (turned_on _ n); [by rewrite orb_true_r|]. rewrite orb_false_r. destruct (named _ n); [by rewrite andb_false_r|].
  by rewrite andb_true_r.
Qed.
End priv.

(** ** Features *)

Lemma dec_inj a b : 0 <= a -> 0 <= b -> dec a = dec b -> a = b.
Proof. intros Ha Hb E. pose proof (strto_scan_dec a Ha) as H. rewrite E, (strto_scan_dec b Hb) in H. congruence. Qed.

Lemma cell_inj a b : 0 <= a -> 0 <= b ->
  (req_cell a = req_cell b -> a = b) /\ (valid_cell a = valid_cell b -> a = b) /\ req_cell a <> valid_cell b.
Proof.
  intros Ha Hb. unfold req_cell, valid_cell. split; [|split]; [| |done];
    intros E; cbn [String.append] in E; injection E as E; by apply dec_inj.
Qed.

(** Bit [j] of the request: [valid] and [requested]. *)
Definition vbit (m : store) (j : Z) : bool := Z.testbit (rd m (valid_cell (j / 32))) (j mod 32).
Definition rbit (m : store) (j : Z) : bool := Z.testbit (rd m (req_cell (j / 32))) (j mod 32).
Definition changeable (old : list Z) (j : Z) : bool := is_set old j Available && negb (is_set old j NeverChanged).

Lemma same_bit i j : 0 <= i -> 0 <= j -> i / 32 = j / 32 -> i mod 32 = j mod 32 -> i = j.
Proof. intros. rewrite (Z.div_mod i 32), (Z.div_mod j 32) by lia. lia. Qed.

Lemma field_flag_testbit i k : Z.testbit (FEATURE_FIELD_FLAG i) k = (k =? i mod 32).
Proof. unfold FEATURE_FIELD_FLAG. apply shiftl1_testbit. apply Z.mod_pos_bound. lia. Qed.

(** Writing a word that gains bit [i]. *)
Definition set_bit_in (cell_of : Z -> string) (m : store) (i : Z) : store :=
  wr m (cell_of (i / 32)) (Z.lor (rd m (cell_of (i / 32))) (FEATURE_FIELD_FLAG i)).

Lemma set_bit_in_ok (cell_of : Z -> string) m i j :
  (forall a b, 0 <= a -> 0 <= b -> cell_of a = cell_of b -> a = b) -> 0 <= i -> 0 <= j ->
  Z.testbit (rd (set_bit_in cell_of m i) (cell_of (j / 32))) (j mod 32) =
  (Z.testbit (rd m (cell_of (j / 32))) (j mod 32) || (j =? i))%bool.
Proof.
  intros Hinj Hi Hj. unfold set_bit_in. rewrite rd_wr_if. unfold streq.
  assert (0 <= i / 32 /\ 0 <= j / 32) as [Hi' Hj'] by (split; apply Z.div_pos; lia).
  destruct (String.eqb_spec (cell_of (i / 32)) (cell_of (j / 32))) as [E|E].
  - rewrite Z.lor_spec, field_flag_testbit, E. f_equal. apply Hinj in E; [|done|done].
    destruct (Z.eqb_spec (j mod 32) (i mod 32)), (Z.eqb_spec j i); try done; [|by subst].
    by destruct n; apply same_bit.
  - destruct (Z.eqb_spec j i) as [->|]; [done|]. by rewrite orb_false_r.
Qed.

Lemma set_bit_in_other cell_of m i x : cell_of (i / 32) <> x -> rd (set_bit_in cell_of m i) x = rd m x.
Proof. intros H. by apply rd_wr_ne. Qed.

Lemma vbit_set m i j : 0 <= i -> 0 <= j -> vbit (set_bit_in valid_cell m i) j = (vbit m j || (j =? i))%bool.
Proof. apply set_bit_in_ok. intros a b Ha Hb. by apply cell_inj. Qed.
Lemma rbit_set m i j : 0 <= i -> 0 <= j -> rbit (set_bit_in req_cell m i) j = (rbit m j || (j =? i))%bool.
Proof. apply set_bit_in_ok. intros a b Ha Hb. by apply cell_inj. Qed.
Lemma rbit_set_valid m i j : 0 <= i -> 0 <= j -> rbit (set_bit_in valid_cell m i) j = rbit m j.
Proof. intros. unfold rbit. rewrite set_bit_in_other; [done|]. apply not_eq_sym, cell_inj; apply Z.div_pos; lia. Qed.
Lemma vbit_set_req m i j : 0 <= i -> 0 <= j -> vbit (set_bit_in req_cell m i) j = vbit m j.
Proof. intros. unfold vbit. rewrite set_bit_in_other; [done|]. apply cell_inj; apply Z.div_pos; lia. Qed.

(** Whether feature [j] of [defs] (numbered from [j0]) belongs to flag [i]. *)
Definition of_flag (defs : list (string * Z)) (j0 i j : Z) : bool :=
  ((j0 <=? j) && match defs !! Z.to_nat (j - j0) with Some (_, k) => k =? i | None => false end)%bool.

Lemma of_flag_cons n k defs j0 i j : of_flag ((n, k) :: defs) j0 i j =
  (((j =? j0) && (k =? i)) || of_flag defs (j0 + 1) i j)%bool.
Proof.
  unfold of_flag. destruct (Z.eqb_spec j j0) as [->|Hne].
  - rewrite Z.leb_refl, Z.sub_diag. rewrite (proj2 (Z.leb_gt (j0 + 1) j0)) by lia. cbn. by rewrite orb_false_r.
  - cbn [andb orb]. destruct (Z.leb_spec j0 j), (Z.leb_spec (j0 + 1) j); try lia; cbn [andb]; try done.
    replace (Z.to_nat (j - j0)) with (S (Z.to_nat (j - (j0 + 1)))) by lia. done.
Qed.

(** The store after one flag. *)
Definition followed (sel : Z -> bool) (wanted : bool) (m m' : store) : Prop :=
  (forall j, 0 <= j -> vbit m' j = (vbit m j || sel j)%bool /\
                       rbit m' j = (rbit m j || (sel j && negb (vbit m j) && wanted))%bool) /\
  rd m' "off_flags_mask" = rd m "off_flags_mask" /\ rd m' "off_flags_wanted" = rd m "off_flags_wanted".

Lemma followed_trans (s1 s2 s3 : Z -> bool) w m1 m2 m3 :
  followed s1 w m1 m2 -> followed s2 w m2 m3 -> (forall j, 0 <= j -> s3 j = (s1 j || s2 j)%bool) -> followed s3 w m1 m3.
Proof.
  intros (H1 & H2 & H3) (H4 & H5 & H6) Hs. split; [|split; congruence].
  intros j Hj. rewrite Hs by done. destruct (H4 j Hj) as [-> ->]. destruct (H1 j Hj) as [-> ->].
  by destruct (vbit m1 j), (rbit m1 j), (s1 j), (s2 j), w.
Qed.
Lemma followed_refl (sel : Z -> bool) w m : (forall j, 0 <= j -> sel j = false) -> followed sel w m m.
Proof. intros H. split; [|done]. intros j Hj. rewrite H by done. by rewrite !orb_false_r. Qed.

Lemma vbit_land m j : 0 <= j -> truth (Z.land (rd m (valid_cell (j / 32))) (FEATURE_FIELD_FLAG j)) = vbit m j.
Proof.
  intros Hj. unfold vbit, FEATURE_FIELD_FLAG. rewrite Z.shiftl_1_l. apply land_pow2_testbit. apply Z.mod_pos_bound. lia.
Qed.

Lemma follow_flag_ok i wanted old : forall defs j0 fixed m, 0 <= j0 ->
  followed (fun j => of_flag defs j0 i j && changeable old j)%bool wanted m (follow_flag i wanted old j0 defs (fixed, m)).2.
Proof.
  induction defs as [|[n k] defs IH]; intros j0 fixed m Hj0.
  { apply followed_refl. intros j _. unfold of_flag. rewrite lookup_nil. by rewrite andb_false_r. }
  cbn [follow_flag].
  assert (forall b m1, followed (fun j => (j =? j0) && (k =? i) && changeable old j)%bool wanted m m1 ->
    followed (fun j => of_flag ((n, k) :: defs) j0 i j && changeable old j)%bool wanted m
      (follow_flag i wanted old (j0 + 1) defs (b, m1)).2) as Hstep.
  { intros b m1 H1. eapply followed_trans; [exact H1|apply IH; lia|]. intros j _. rewrite of_flag_cons.
    by destruct (j =? j0), (k =? i), (of_flag defs (j0 + 1) i j), (changeable old j). }
  rewrite vbit_land by done. unfold changeable in *.
  destruct (k =? i); cbn [negb orb]; [|apply Hstep, followed_refl; intros j _; by rewrite andb_false_r].
  destruct (is_set old j0 Available) eqn:Ea; cbn [negb orb];
    [|apply Hstep, followed_refl; intros j _; destruct (Z.eqb_spec j j0) as [->|]; [by rewrite Ea|done]].
  destruct (is_set old j0 NeverChanged) eqn:En;
    [apply Hstep, followed_refl; intros j _; destruct (Z.eqb_spec j j0) as [->|]; [by rewrite Ea, En|done]|].
  destruct (vbit m j0) eqn:Ev; apply Hstep.
  - split; [|done]. intros j Hj. destruct (Z.eqb_spec j j0) as [->|]; cbn [andb]; [|by rewrite !orb_false_r].
    rewrite Ea, En, Ev. by rewrite orb_false_r.
  - fold (set_bit_in valid_cell m j0). set (m1 := set_bit_in valid_cell m j0). fold (set_bit_in req_cell m1 j0).
    assert (forall x, valid_cell (j0 / 32) <> x -> req_cell (j0 / 32) <> x ->
      rd (if wanted then set_bit_in req_cell m1 j0 else m1) x = rd m x) as Hx.
    { intros x Hv Hr. destruct wanted; [rewrite set_bit_in_other by done|]; by apply set_bit_in_other. }
    split; [|split; by apply Hx]. intros j Hj.
    assert (vbit m1 j = (vbit m j || (j =? j0))%bool) as V1 by (by apply vbit_set).
    assert (rbit m1 j = rbit m j) as R1 by (by apply rbit_set_valid).
    assert (((j =? j0) && true && (is_set old j Available && negb (is_set old j NeverChanged)))%bool = (j =? j0)) as ->.
    { destruct (Z.eqb_spec j j0) as [->|]; [by rewrite Ea, En|done]. }
    destruct wanted.
    + rewrite vbit_set_req, rbit_set, V1, R1 by done. split; [done|].
      destruct (Z.eqb_spec j j0) as [->|]; [by rewrite Ev|done].
    + rewrite V1, R1. by rewrite andb_false_r, orb_false_r.
Qed.

(** The flag a feature belongs to, among the flags [l] numbered from [i0]. *)
Definition flag_of (defs : list (string * Z)) (l : list off_flag) (i0 j : Z) : option off_flag :=
  match defs !! Z.to_nat j with
  | Some (_, k) => if i0 <=? k then l !! Z.to_nat (k - i0) else None
  | None => None
  end.
Definition flag_in (m : store) (x : string) (o : option off_flag) : bool :=
  match o with Some d => truth (Z.land (rd m x) (off_value d)) | None => false end.

Lemma flag_of_cons defs d l i0 j : 0 <= j ->
  flag_of defs (d :: l) i0 j = if of_flag defs 0 i0 j then Some d else flag_of defs l (i0 + 1) j.
Proof.
  intros Hj. unfold flag_of, of_flag. rewrite (proj2 (Z.leb_le 0 j)), Z.sub_0_r by done. cbn [andb].
  destruct (defs !! Z.to_nat j) as [[n k]|]; [|done]. destruct (Z.eqb_spec k i0) as [->|Hne].
  - by rewrite Z.leb_refl, Z.sub_diag.
  - destruct (Z.leb_spec i0 k), (Z.leb_spec (i0 + 1) k); try lia; [|done].
    replace (Z.to_nat (k - i0)) with (S (Z.to_nat (k - (i0 + 1)))) by lia. done.
Qed.

Lemma of_flag_excl defs l i0 j : of_flag defs 0 i0 j = true -> flag_of defs l (i0 + 1) j = None.
Proof.
  unfold of_flag, flag_of. rewrite Z.sub_0_r. destruct (defs !! Z.to_nat j) as [[n k]|]; [|by rewrite andb_false_r].
  intros H. rewrite (proj2 (Z.leb_gt (i0 + 1) k)) by lia. done.
Qed.

Section follow.
Context {W : Type} (old : list Z) (defs : feature_defs).

(** The request after all flags: a feature that can be changed, was not given by
    name and belongs to a flag that was given follows the flag. *)
Definition all_followed (l : list off_flag) (i0 : Z) (m m' : store) : Prop := forall j, 0 <= j ->
  let o := flag_of (fd_def defs) l i0 j in
  vbit m' j = (vbit m j || (flag_in m "off_flags_mask" o && changeable old j))%bool /\
  rbit m' j = (rbit m j || (flag_in m "off_flags_mask" o && changeable old j && negb (vbit m j) &&
                            flag_in m "off_flags_wanted" o))%bool.

Lemma follow_flags_ok : forall l i0 m (s : st W),
  runs (follow_flags old defs i0 l m) s (fun m' s' => dev s' = dev s /\ all_followed l i0 m m').
Proof.
  induction l as [|d l IH]; intros i0 m s.
  { apply runs_ret. split; [done|]. intros j Hj. unfold flag_of.
    assert (match fd_def defs !! Z.to_nat j with Some (_, k) => if i0 <=? k then [] !! Z.to_nat (k - i0) else None | None => None end
      = (None : option off_flag)) as -> by (by repeat case_match). cbn. by rewrite !orb_false_r. }
  cbn [follow_flags]. destruct (truth (Z.land (rd m "off_flags_mask") (off_value d))) eqn:Eg; cbn [negb].
  - pose proof (follow_flag_ok i0 (truth (Z.land (rd m "off_flags_wanted") (off_value d))) old (fd_def defs) 0 true m
      (Z.le_refl 0)) as Hf.
    destruct (follow_flag _ _ _ _ _ _) as [fixed m1]. cbn [snd] in Hf. destruct Hf as (Hb & Hmask & Hwant).
    assert (forall s1, dev s1 = dev s -> runs (follow_flags old defs (i0 + 1) l m1) s1
      (fun m' s' => dev s' = dev s /\ all_followed (d :: l) i0 m m')) as Hrest.
    { intros s1 Hs1. eapply runs_mono; [apply IH|]. intros m' s' [Hd Ha]. split; [congruence|]. intros j Hj.
      destruct (Ha j Hj) as [Hv Hr]. destruct (Hb j Hj) as [Hv1 Hr1]. rewrite Hv, Hr, Hv1, Hr1. rewrite flag_of_cons by done.
      unfold flag_in. rewrite Hmask, Hwant.
      destruct (of_flag (fd_def defs) 0 i0 j) eqn:Eo; cbn [andb].
      - rewrite (of_flag_excl _ l _ _ Eo), Eg. cbn [andb]. by rewrite !orb_false_r.
      - rewrite !orb_false_r. done. }
    apply runs_bind, runs_when; intros _; [apply runs_eprintf|]; by apply Hrest.
  - eapply runs_mono; [apply IH|]. intros m' s' [Hd Ha]. split; [done|]. intros j Hj.
    destruct (Ha j Hj) as [Hv Hr]. rewrite Hv, Hr, flag_of_cons by done.
    destruct (of_flag (fd_def defs) 0 i0 j) eqn:Eo; [|done].
    rewrite (of_flag_excl _ l _ _ Eo). unfold flag_in. rewrite Eg. done.
Qed.
End follow.

(** ** The words of the command line *)

Lemma feature_info_lookup defs : forall i j ci, 0 <= i -> feature_info i defs !! j = Some ci <->
  exists n k, defs !! j = Some (n, k) /\
    ci = flag_to_cmdline_info n (FEATURE_FIELD_FLAG (i + Z.of_nat j)) (req_cell ((i + Z.of_nat j) / 32)) (valid_cell ((i + Z.of_nat j) / 32)).
Proof.
  induction defs as [|[n k] defs IH]; intros i j ci Hi; cbn [feature_info].
  - rewrite !lookup_nil. split; [done|]. by intros (? & ? & ? & _).
  - destruct j as [|j]; cbn [lookup list_lookup].
    + rewrite Z.add_0_r. split; [intros [= <-]; by exists n, k|]. intros (? & ? & [= <- <-] & ->). done.
    + rewrite IH by lia. by replace (i + 1 + Z.of_nat j) with (i + Z.of_nat (S j)) by lia.
Qed.

Lemma cmdline_features_in defs ci : ci ∈ cmdline_features defs ->
  (exists d, d ∈ off_flag_def /\ ci = flag_to_cmdline_info (short_name d) (off_value d) "off_flags_wanted" "off_flags_mask") \/
  (exists j n k, fd_def defs !! j = Some (n, k) /\
     ci = flag_to_cmdline_info n (FEATURE_FIELD_FLAG (Z.of_nat j)) (req_cell (Z.of_nat j / 32)) (valid_cell (Z.of_nat j / 32))).
Proof.
  unfold cmdline_features. intros [H|H]%elem_of_app.
  - left. apply list_elem_of_fmap in H as (d & -> & Hd). by exists d.
  - right. apply list_elem_of_lookup in H as [j Hj]. apply feature_info_lookup in Hj as (n & k & H1 & ->); [|done].
    exists j, n, k. by rewrite Z.add_0_l.
Qed.

Lemma cmdline_features_flags defs : Forall (fun ci => ci_type ci = CMDL_FLAG) (cmdline_features defs).
Proof.
  apply list.Forall_forall. intros ci H. apply cmdline_features_in in H as [(d & _ & ->)|(j & n & k & _ & ->)]; done.
Qed.

(** Each flag has a bit of its own. *)
Lemma off_bits d : d ∈ off_flag_def -> exists k, 0 <= k /\ off_value d = 2 ^ k /\
  forall d', d' ∈ off_flag_def -> Z.testbit (off_value d') k = true -> d' = d.
Proof.
  intros Hd. exists (Z.log2 (off_value d)).
  assert (forallb (fun d => (off_value d =? 2 ^ Z.log2 (off_value d)) && forallb (fun d' =>
    negb (Z.testbit (off_value d') (Z.log2 (off_value d))) || streq (short_name d') (short_name d)) off_flag_def) off_flag_def = true)%bool
    as Hall by (by vm_compute).
  rewrite forallb_forall in Hall. specialize (Hall d). rewrite andb_true_iff, forallb_forall in Hall.
  destruct Hall as [Hp Hu]; [by apply list_elem_of_In|]. split; [apply Z.log2_nonneg|]. split; [by apply Z.eqb_eq|].
  intros d' Hd' Hb. specialize (Hu d'). rewrite Hb in Hu. cbn [negb orb] in Hu.
  assert (NoDup (short_name <$> off_flag_def)) as Hnd by (by apply (bool_decide_unpack _); vm_compute).
  apply (fmap_inj_in short_name off_flag_def); [done|done|done|]. by apply String.eqb_eq, Hu, list_elem_of_In.
Qed.

Section words.
Context (defs : feature_defs).
Hypothesis Hnames : NoDup (ci_name <$> cmdline_features defs).

Lemma feature_word j n k ps : fd_def defs !! j = Some (n, k) ->
  Z.testbit (all_bits (cmdline_features defs) (valid_cell (Z.of_nat j / 32)) ps) (Z.of_nat j mod 32) = named ps n /\
  Z.testbit (all_bits (cmdline_features defs) (req_cell (Z.of_nat j / 32)) ps) (Z.of_nat j mod 32) = turned_on ps n.
Proof.
  intros Hj. set (ci := flag_to_cmdline_info n (FEATURE_FIELD_FLAG (Z.of_nat j)) (req_cell (Z.of_nat j / 32))
    (valid_cell (Z.of_nat j / 32))).
  apply (word_bits (cmdline_features defs) Hnames ci).
  - apply elem_of_app. right. apply (list_elem_of_lookup_2 _ j), feature_info_lookup; [done|]. exists n, k.
    by rewrite Z.add_0_l.
  - split; [cbn [ci flag_to_cmdline_info flag_val]; rewrite field_flag_testbit; lia|].
    assert (forall i : nat, 0 <= Z.of_nat i / 32) as Hpos by (intros i; apply Z.div_pos; lia).
    intros cj H. apply cmdline_features_in in H as [(d & _ & ->)|(j' & n' & k' & Hj' & ->)];
      cbn [ci flag_to_cmdline_info flag_val seen_val wanted_val]; (split; [|split]).
    + by intros _ [H|H].
    + done.
    + done.
    + rewrite field_flag_testbit. intros Hb%Z.eqb_eq Hc. assert (Z.of_nat j' / 32 = Z.of_nat j / 32) as Eb.
      { destruct (cell_inj _ _ (Hpos j') (Hpos j)) as (I1 & I2 & _). destruct Hc; auto. }
      assert (j' = j) as -> by (apply Nat2Z.inj, same_bit; lia). rewrite Hj in Hj'. by injection Hj' as <- <-.
    + by apply cell_inj.
    + apply not_eq_sym. by apply cell_inj.
Qed.

Lemma off_word d ps : d ∈ off_flag_def ->
  truth (Z.land (all_bits (cmdline_features defs) "off_flags_mask" ps) (off_value d)) = named ps (short_name d) /\
  truth (Z.land (all_bits (cmdline_features defs) "off_flags_wanted" ps) (off_value d)) = turned_on ps (short_name d).
Proof.
  intros Hd. destruct (off_bits d Hd) as (b & Hb & Ev & Hu). rewrite Ev, !land_pow2_testbit by done.
  set (ci := flag_to_cmdline_info (short_name d) (off_value d) "off_flags_wanted" "off_flags_mask").
  apply (word_bits (cmdline_features defs) Hnames ci).
  - apply elem_of_app. left. by apply (list_elem_of_fmap_2 (fun d => flag_to_cmdline_info (short_name d) (off_value d) "off_flags_wanted" "off_flags_mask")).
  - split; [cbn [ci flag_to_cmdline_info flag_val]; rewrite Ev; by apply Z.pow2_bits_true|].
    intros cj H. apply cmdline_features_in in H as [(d' & Hd' & ->)|(j' & n' & k' & Hj' & ->)];
      cbn [ci flag_to_cmdline_info flag_val seen_val wanted_val]; (split; [|done]).
    + intros Hbit _. by rewrite (Hu d' Hd' Hbit).
    + by intros _ [H|H].
Qed.
End words.

(** ** The request *)

(** Whether feature [j] is to be changed, and whether to be turned on: it was
    given by name, or it can be changed and its flag was given. *)
Definition feature_asked (ps : list (string * bool)) (old : list Z) (defs : feature_defs) (j : nat) : bool * bool :=
  match fd_def defs !! j with
  | Some (n, _) =>
      let fl f := match flag_of (fd_def defs) off_flag_def 0 (Z.of_nat j) with Some d => f ps (short_name d) | None => false end in
      let follows := negb (named ps n) && fl named && changeable old (Z.of_nat j) in
      (named ps n || follows, turned_on ps n || (follows && fl turned_on))
  | None => (false, false)
  end%bool.

Lemma asked_bits defs old args m m' j :
  NoDup (ci_name <$> cmdline_features defs) -> (j < length (fd_def defs))%nat ->
  (forall x, rd m x = all_bits (cmdline_features defs) x (flag_pairs args)) ->
  all_followed old defs off_flag_def 0 m m' ->
  (vbit m' (Z.of_nat j), rbit m' (Z.of_nat j)) = feature_asked (flag_pairs args) old defs j.
Proof.
  intros Hnd Hlt Hm Ha. destruct (Ha (Z.of_nat j) (Nat2Z.is_nonneg j)) as [-> ->]. unfold feature_asked.
  destruct (lookup_lt_is_Some_2 _ _ Hlt) as [[n k] Hj]. rewrite Hj. unfold vbit, rbit. rewrite !Hm.
  destruct (feature_word defs Hnd j n k (flag_pairs args) Hj) as [-> ->].
  destruct (flag_of _ _ _ _) as [d|] eqn:Ed; cbn [flag_in].
  - rewrite !Hm. destruct (off_word defs Hnd d (flag_pairs args)) as [-> ->].
    + unfold flag_of in Ed. rewrite Nat2Z.id, Hj in Ed. destruct (0 <=? k); [|done]. by apply list_elem_of_lookup_2 in Ed.
    + by destruct (named _ n), (turned_on _ n), (named _ (short_name d)), (turned_on _ (short_name d)), (changeable old _).
  - by destruct (named _ n), (turned_on _ n), (changeable old _).
Qed.

Lemma efeatures_lookup m b n : (b < n)%nat ->
  efeatures (Z.of_nat n) m !! (2 * b)%nat = Some (rd m (valid_cell (Z.of_nat b))) /\
  efeatures (Z.of_nat n) m !! (2 * b + 1)%nat = Some (rd m (req_cell (Z.of_nat b))).
Proof.
  intros Hb. unfold efeatures, seqZ. rewrite Nat2Z.id.
  assert (forall k i, (b < k)%nat ->
    mjoin ((fun b => [rd m (valid_cell b); rd m (req_cell b)]) <$> ((fun i => Z.of_nat i + 0) <$> seq i k)) !! (2 * b)%nat =
      Some (rd m (valid_cell (Z.of_nat (i + b)))) /\
    mjoin ((fun b => [rd m (valid_cell b); rd m (req_cell b)]) <$> ((fun i => Z.of_nat i + 0) <$> seq i k)) !! (2 * b + 1)%nat =
      Some (rd m (req_cell (Z.of_nat (i + b))))) as H.
  { clear n Hb. induction b as [|b IH]; intros k i Hk; destruct k as [|k]; try lia.
    - cbn. by rewrite Z.add_0_r, Nat.add_0_r.
    - destruct (IH k (S i) ltac:(lia)) as [H1 H2]. replace (i + S b)%nat with (S i + b)%nat by lia.
      rewrite <- H1, <- H2. replace (2 * S b)%nat with (S (S (2 * b))) by lia. done. }
  apply (H n 0%nat Hb).
Qed.

Lemma cmdline_names names : ci_name <$> cmdline_features (make_defs names) = (short_name <$> off_flag_def) ++ names.
Proof.
  unfold cmdline_features. rewrite fmap_app. f_equal. cbn [make_defs fd_def].
  generalize (off_index off_flag_def 0) as f. intros f. generalize 0 as i.
  induction names as [|n names IH]; intros i; [done|]. cbn [fmap list_fmap feature_info]. f_equal. apply IH.
Qed.

(** Showing features only prints. *)
Section show.
Context {W : Type}.
Definition prints (m : M W unit) : Prop := forall s, runs m s (fun _ s' => dev s' = dev s).

Lemma prints_printf x : prints (printf x).
Proof. intros s. by apply runs_printf. Qed.
Lemma prints_ret : prints (mret tt).
Proof. intros s. by apply runs_ret. Qed.
Lemma prints_when b m : prints m -> prints (when b m).
Proof. intros H s. apply runs_when; intros _; [apply H|done]. Qed.
Lemma prints_seq m1 m2 : prints m1 -> prints m2 -> prints (m1;; m2).
Proof.
  intros H1 H2 s. apply runs_bind. eapply runs_mono; [apply H1|]. intros [] s1 E1.
  eapply runs_mono; [apply H2|]. intros [] s2 E2. congruence.
Qed.
Hint Resolve prints_printf prints_ret prints_when prints_seq : linuxtest.

Lemma prints_one indent name st0 r j : prints (dump_one_feature indent name st0 r j).
Proof. unfold dump_one_feature. case_match; auto with linuxtest. Qed.
Hint Resolve prints_one : linuxtest.

Lemma prints_matching i mt ind fn st0 r : forall defs j, prints (dump_matching i j mt ind fn defs st0 r).
Proof.
  induction defs as [|[n k] defs IH]; intros j; cbn [dump_matching]; [auto with linuxtest|].
  apply prints_seq; [|apply IH]. by repeat case_match; auto with linuxtest.
Qed.
Lemma prints_unmatched st0 r : forall defs j, prints (dump_unmatched j defs st0 r).
Proof. induction defs as [|[n k] defs IH]; intros j; cbn [dump_unmatched]; auto with linuxtest. Qed.
Lemma prints_flags defs st0 r : forall l i, prints (dump_flags defs st0 r i l).
Proof.
  induction l as [|d l IH]; intros i; cbn [dump_flags]; [auto with linuxtest|]. apply prints_seq; [|apply IH].
  unfold dump_flag. apply prints_seq; [auto with linuxtest|]. apply prints_matching.
Qed.
Lemma dump_features_prints defs st0 r : prints (dump_features defs st0 r).
Proof. apply prints_seq; [apply prints_flags|apply prints_unmatched]. Qed.
End show.

Section sfeatures.
Context {D : Type} `{ED : EtDevice D} `{DataModel} (env : et_env) (sysfs : string -> option string) (devname : string).

(** The features can be read, and reading leaves the device alone. *)
Definition reads_features (defs : feature_defs) (cur : D -> feature_state) : Prop := forall s : st D,
  exists s', get_features env sysfs devname defs s = (Ret (Some (cur (dev s))), s') /\ dev s' = dev s.

Lemma do_sfeatures_ok names cur args (s : st D) :
  has_names env ETH_SS_FEATURES None names -> names <> [] -> NoDup ((short_name <$> off_flag_def) ++ names) ->
  (forall n, ee_malloc env n = true) -> reads_features (make_defs names) cur -> args <> [] ->
  wp (do_sfeatures env sysfs devname args) s (fun r s' =>
    if flags_ok (cmdline_features (make_defs names)) args then
      exists req, (forall j, (j < length names)%nat -> exists v w,
          req !! (2 * (j / 32))%nat = Some v /\ req !! (2 * (j / 32) + 1)%nat = Some w /\
          (Z.testbit v (Z.of_nat (j mod 32)), Z.testbit w (Z.of_nat (j mod 32))) =
          feature_asked (flag_pairs args) (features (cur (dev s))) (make_defs names) j) /\
        let blocks := FEATURE_BITS_TO_BLOCKS (Z.of_nat (length names)) in
        let '(err, _, _, d') := et_ioctl (mk_ereq ETHTOOL_SFEATURES {["size" := blocks]} req) (dev s) in
        dev s' = d' /\ if err <? 0 then r = Ret 1 else r = Ret 0 \/ r = Ret 1
    else r = Exit 1 /\ dev s' = dev s).
Proof.
  intros Hn Hne Hnd Hm Hf Hargs. unfold do_sfeatures. apply wp_bind. unfold get_feature_defs. apply wp_bind.
  destruct (Hn s) as (s1 & E1 & Hd1). unfold wp at 1. rewrite E1. cbn [fst snd]. rewrite Hm. apply wp_ret.
  rewrite !Hm. cbn [negb]. rewrite andb_false_r. apply wp_bind. set (defs := make_defs names).
  eapply wp_mono; [by apply (parse_flags_ok _ (cmdline_features_flags defs) (length args))|].
  intros r s2 [Hd2 Hr2]. rewrite Hd1 in Hd2. destruct (flags_ok _ args); [|by subst r]. destruct Hr2 as (m & -> & Hw).
  cbn [fst snd]. assert ((match args with [] => 0 | _ => 1 end =? 0) = false) as -> by (by destruct args).
  apply wp_bind. destruct (Hf s2) as (s3 & E3 & Hd3). unfold wp at 1. fold defs in E3. rewrite E3. cbn [fst snd].
  set (blocks := FEATURE_BITS_TO_BLOCKS (Z.of_nat (length names))).
  assert (n_features defs = Z.of_nat (length names)) as En
    by (unfold n_features, defs; cbn [make_defs fd_def]; by rewrite length_fmap).
  apply (wp_mono _ _ (fun r s' => exists m', all_followed (features (cur (dev s))) defs off_flag_def 0 m m' /\
    let '(err, _, _, d') := et_ioctl (mk_ereq ETHTOOL_SFEATURES {["size" := blocks]} (efeatures blocks m')) (dev s) in
    dev s' = d' /\ if err <? 0 then r = Ret 1 else r = Ret 0 \/ r = Ret 1)).
  - apply wp_bind. unfold apply_features.
    rewrite En. rewrite (proj2 (Z.eqb_neq _ 0)) by (destruct names; [done|cbn [length]; lia]). cbn [negb]. apply wp_bind.
    eapply wp_mono; [apply wp_runs, follow_flags_ok|]. intros ? s4 (m' & -> & Hd4 & Hall). cbv beta iota.
    rewrite Hd2 in Hall. apply wp_bind, wp_send_ioctl. fold blocks. assert (dev s4 = dev s) as -> by congruence.
    destruct (et_ioctl _ (dev s)) as [[[err en'] q'] d'] eqn:E. destruct (err <? 0) eqn:Ee.
    + apply wp_bind, wp_eprintf, wp_ret, wp_ret. exists m'. rewrite E, Ee. done.
    + apply wp_ret, wp_bind. destruct (Hf (mkst (out s4) d')) as (s5 & E5 & Hd5). unfold wp at 1. fold defs in E5. rewrite E5.
      cbn [fst snd dev]. assert (forall r s', dev s' = d' -> r = Ret 0 \/ r = Ret 1 -> exists m', all_followed
        (features (cur (dev s))) defs off_flag_def 0 m m' /\
        let '(err, _, _, d') := et_ioctl (mk_ereq ETHTOOL_SFEATURES {["size" := blocks]} (efeatures blocks m')) (dev s) in
        dev s' = d' /\ if err <? 0 then r = Ret 1 else r = Ret 0 \/ r = Ret 1) as Hend.
      { intros r s' Hs Hr. exists m'. rewrite E, Ee. done. }
      destruct (compare_states _ _ _ _) as [[] []]; cbn [negb].
      * apply wp_bind, wp_printf, wp_bind. eapply wp_mono; [apply wp_runs, dump_features_prints|].
        intros ? s6 (? & -> & H6). apply wp_ret, Hend; [by rewrite H6|by left].
      * apply wp_ret, Hend; [done|by left].
      * apply wp_bind, wp_eprintf, wp_ret, Hend; [done|by right].
      * apply wp_ret, Hend; [done|by left].
  - intros r s' (m' & Hall & Hend). exists (efeatures blocks m'). split; [|exact Hend].
    intros j Hj. assert (blocks = Z.of_nat ((length names + 31) / 32)) as Eb
      by (unfold blocks, FEATURE_BITS_TO_BLOCKS; rewrite Nat2Z.inj_div, Nat2Z.inj_add; done).
    destruct (efeatures_lookup m' (j / 32) ((length names + 31) / 32)) as [L1 L2].
    { apply Nat.Div0.div_lt_upper_bound. pose proof (Nat.div_mod_eq (length names + 31) 32).
      pose proof (Nat.mod_upper_bound (length names + 31) 32). lia. }
    rewrite Eb. do 2 eexists. split; [exact L1|]. split; [exact L2|].
    rewrite <- (asked_bits defs (features (cur (dev s))) args m m' j).
    + unfold vbit, rbit. by rewrite Nat2Z.inj_div, Nat2Z.inj_mod.
    + unfold defs. by rewrite cmdline_names.
    + unfold defs. cbn [make_defs fd_def]. by rewrite length_fmap.
    + exact Hw.
    + exact Hall.
Qed.
End sfeatures.
