(* ===== verification/EtIndir.v ===== *)
(** * ethtool: the receive flow hash indirection table ([ethernet_test/ethtool/ethtool.c], [-x] and [-X])

    Model of [do_grxfhindir] and [do_srxfhindir], and the lemmas on the loop
    that spreads weights over the table. *)

From stdpp Require Import base list strings gmap numbers.
From Stdlib Require Import ZArith Lia Ascii.
From S2P Require Import Prelude CInt CLib RxSpec RxRules RxParse EtCmd EtSet.
Import Et EtS.

Module EtI.

Definition ETHTOOL_GRXRINGS : Z := 0x2d.
Definition ETHTOOL_GRXFHINDIR : Z := 0x38.
Definition ETHTOOL_SRXFHINDIR : Z := 0x39.
Definition INT_MAX : Z := 0x7fffffff.
(** The bytes of the header and of [size] entries. *)
Definition sizeof_indir (size : Z) : Z := 8 + size * 4.

Section indir.
Context {D : Type} `{ED : EtDevice D} (env : et_env).
Abbreviation P := (M D).

Definition fld (r : ereq) (f : string) : Z := default 0 (rq_f r !! f).

(** Entry [i] of the table as the kernel filled it. *)
Definition show_entry (r : ereq) (i : Z) : P unit :=
  when (i mod 8 =? 0) (printf (decw 5 i +:+ ": "));;
  printf (" " +:+ decw 5 (default 0 (rq_arr r !! Z.to_nat i)));;
  when (i mod 8 =? 7) (printf nl).

Definition do_grxfhindir (devname : string) (args : list string) : P Z :=
  x ← send_ioctl (mk_ereq ETHTOOL_GRXRINGS {["data" := ee_junk env "ring_count.data"]} []);
  let '(err, en, ring_count) := x in
  if err <? 0 then perror env "Cannot get RX ring count" en;; mret 102
  else
    x ← send_ioctl (mk_ereq ETHTOOL_GRXFHINDIR {["size" := 0]} []);
    let '(err, en, indir_head) := x in
    if err <? 0 then perror env "Cannot get RX flow hash indirection table size" en;; mret 103
    else
      let size := fld indir_head "size" in
      if negb (ee_malloc env (sizeof_indir size)) then crash
      else
        x ← send_ioctl (mk_ereq ETHTOOL_GRXFHINDIR {["size" := size]} (replicate (Z.to_nat size) (ee_junk env "indir")));
        let '(err, en, indir) := x in
        if err <? 0 then perror env "Cannot get RX flow hash indirection table" en;; mret 103
        else
          printf ("RX flow hash indirection table for " +:+ devname +:+ " with " +:+ dec (fld ring_count "data") +:+
                  " RX ring(s):" +:+ nl);;
          for_ (Z.to_nat (fld indir "size")) 0 (show_entry indir);;
          mret 0.

(** [for (j = 0; rxfhindir_weight[j]; j++) sum += get_u32(...)] *)
Fixpoint sum_weights (ws : list string) (sum : Z) : P Z :=
  match ws with
  | [] => mret sum
  | w :: ws' => weight ← get_u32 (Some w) 0; sum_weights ws' (u32 (sum + weight))
  end.

(** One round of [while (i >= size * partial / sum)] over [(j, partial)]. *)
Definition next_ring (ws : list string) (size sum i : Z) (x : Z * Z) : P (Z * Z + Z * Z) :=
  let '(j, partial) := x in
  if u32 (size * partial) / sum <=? i then
    let j := u32 (j + 1) in
    weight ← get_u32 (ws !! Z.to_nat j) 0;
    mret (inl (j, u32 (partial + weight)))
  else mret (inr (j, partial)).
(** Each round moves to the next weight, and the end of the arguments ends the
    program. *)
Definition ring_loop (ws : list string) (size sum i : Z) (x : Z * Z) : P (Z * Z) :=
  while_ (2 + length ws) x (next_ring ws size sum i).

(** The entries for [i] up to [size]: the rings chosen, in order. *)
Fixpoint spread (ws : list string) (size sum : Z) (n : nat) (i : Z) (x : Z * Z) : P (list Z) :=
  match n with
  | O => mret []
  | S n' => x ← ring_loop ws size sum i x; l ← spread ws size sum n' (i + 1) x; mret (fst x :: l)
  end.

Definition weight_table (ws : list string) (size : Z) : P (list Z) :=
  sum ← sum_weights ws 0;
  if sum =? 0 then eprintf ("At least one weight must be non-zero" +:+ nl);; exit 1
  else if size <? sum then
    eprintf ("Total weight exceeds the size of the indirection table" +:+ nl);; exit 1
  else spread ws size sum (Z.to_nat size) 0 (u32 (-1), 0).

Definition equal_table (n size : Z) : list Z := (fun i => i mod n) <$> seqZ 0 size.

(** Whether the table is an equal spread over [n] rings or follows weights. *)
Definition parse_mode (args : list string) : P (Z + list string) :=
  match args with
  | kw :: (a :: more) as rest =>
      if streq kw "equal" then
        if negb (Z.of_nat (length more) =? 0) then exit_bad_args
        else n ← get_int_range (Some a) 0 1 INT_MAX; mret (inl n)
      else if streq kw "weight" then mret (inr rest)
      else exit_bad_args
  | _ => exit_bad_args
  end.

Definition do_srxfhindir (args : list string) : P Z :=
  mode ← parse_mode args;
  x ← send_ioctl (mk_ereq ETHTOOL_GRXFHINDIR {["size" := 0]} []);
  let '(err, en, indir_head) := x in
  if err <? 0 then perror env "Cannot get RX flow hash indirection table size" en;; mret 104
  else
    let size := fld indir_head "size" in
    if negb (ee_malloc env (sizeof_indir size)) then crash
    else
      table ← match mode with
              | inl n => mret (equal_table n size)
              | inr ws => weight_table ws size
              end;
      x ← send_ioctl (mk_ereq ETHTOOL_SRXFHINDIR {["size" := size]} table);
      let '(err, en, _) := x in
      if err <? 0 then perror env "Cannot set RX flow hash indirection table" en;; mret 105
      else mret 0.
End indir.
End EtI.
Import EtI.

(** ** The weights *)

Section weights.
Context {W : Type}.

(** [w] is the number an argument stands for. *)
Definition weighs (arg : string) (w : Z) : Prop := 0 <= w < 2 ^ 32 /\ forall st0 : st W, get_u32 (Some arg) 0 st0 = (Ret w, st0).

Definition total (l : list Z) : Z := foldr Z.add 0 l.
(** The sum of the weights before ring [j]. *)
Definition before (l : list Z) (j : nat) : Z := total (take j l).

Lemma total_nonneg l : Forall (fun w => 0 <= w) l -> 0 <= total l.
Proof. unfold total. induction 1; cbn [foldr] in *; lia. Qed.

Lemma total_snoc l w : total (l ++ [w]) = total l + w.
Proof. unfold total. induction l as [|x l IH]; cbn [foldr app] in *; lia. Qed.

Lemma before_S l j w : l !! j = Some w -> before l (S j) = before l j + w.
Proof. intros E. unfold before. by rewrite (take_S_r _ _ _ E), total_snoc. Qed.

Lemma before_le l j k : Forall (fun w => 0 <= w) l -> (j <= k)%nat -> before l j <= before l k.
Proof.
  intros Hl Hjk. induction Hjk as [|k Hjk IH]; [lia|]. destruct (l !! k) as [w|] eqn:E.
  - rewrite (before_S _ _ _ E). pose proof (Forall_lookup_1 _ _ _ _ Hl E) as Hw. cbn in Hw. lia.
  - apply lookup_ge_None_1 in E. unfold before in *. rewrite (take_ge l k) in IH by lia. rewrite (take_ge l (S k)) by lia. done.
Qed.

Lemma before_all l : before l (length l) = total l.
Proof. unfold before. by rewrite take_ge. Qed.

Lemma sum_weights_ok ws l : Forall2 weighs ws l -> forall sum (st0 : st W), 0 <= sum -> sum + total l < 2 ^ 32 ->
  sum_weights ws sum st0 = (Ret (sum + total l), st0).
Proof.
  induction 1 as [|a w ws l [Hw Ha] Hl IH]; intros sum st0 H0 Ht; cbn [sum_weights total foldr] in *.
  - rewrite Z.add_0_r. done.
  - assert (0 <= total l) by (apply total_nonneg; clear -Hl; induction Hl as [|???? [??]]; constructor; [lia|done]).
    unfold total in *. rewrite (bind_ret_run _ _ _ w st0) by apply Ha. unfold u32. rewrite wrapu_small by lia.
    rewrite IH by lia. do 2 f_equal. lia.
Qed.

Lemma weighs_nonneg ws l : Forall2 weighs ws l -> Forall (fun w => 0 <= w) l.
Proof. induction 1 as [|???? [??]]; constructor; [lia|done]. Qed.

Section spread.
Context (ws : list string) (l : list Z) (size : Z).
Hypothesis (Hws : Forall2 weighs ws l) (Hlen : Z.of_nat (length l) < 2 ^ 32).
Hypothesis (Hpos : 0 < total l) (Hfit : size * total l < 2 ^ 32) (Hsize : 0 <= size).

(** Where the entries of ring [k] begin. *)
Definition start (k : nat) : Z := size * before l k / total l.

Lemma before_range k : 0 <= before l k <= total l.
Proof.
  pose proof (weighs_nonneg _ _ Hws) as Hn. split.
  - apply (before_le l 0 k Hn). lia.
  - rewrite <- before_all. destruct (decide (k <= length l)%nat); [by apply before_le|].
    unfold before. rewrite !take_ge by lia. lia.
Qed.

Lemma start_0 : start 0 = 0.
Proof. unfold start, before. cbn. by rewrite Z.mul_0_r. Qed.
Lemma start_end : start (length l) = size.
Proof. unfold start. rewrite before_all. apply Z.div_mul. lia. Qed.

(** The loop state when [k] weights have been used. *)
Definition at_ring (k : nat) : Z * Z := (u32 (Z.of_nat k - 1), before l k).

Lemma next_ring_ok i k (st0 : st W) : (k <= length l)%nat -> 0 <= i < size ->
  next_ring ws size (total l) i (at_ring k) st0 =
  (Ret (if start k <=? i then inl (at_ring (S k)) else inr (at_ring k)), st0).
Proof.
  intros Hk Hi. pose proof (before_range k) as Hb. unfold next_ring, at_ring.
  assert (u32 (size * before l k) = size * before l k) as ->.
  { apply wrapu_small. split; [lia|]. apply Z.le_lt_trans with (size * total l); [|done]. apply Z.mul_le_mono_nonneg_l; lia. }
  fold (start k). destruct (Z.leb_spec (start k) i) as [H|H]; [|done].
  destruct (decide (k = length l)) as [->|Hne]; [rewrite start_end in H; lia|].
  destruct (lookup_lt_is_Some_2 l k) as [w Hw]; [lia|].
  destruct (Forall2_lookup_r _ _ _ _ _ Hws Hw) as (a & Ha & [Hr Hg]).
  assert (u32 (u32 (Z.of_nat k - 1) + 1) = Z.of_nat k) as ->.
  { unfold u32, wrapu. rewrite Z.add_mod_idemp_l by done. rewrite Z.mod_small; lia. }
  rewrite Nat2Z.id, Ha. rewrite (bind_ret_run _ _ _ w st0) by apply Hg. unfold mret, M_ret.
  rewrite (before_S _ _ _ Hw). pose proof (before_range (S k)) as Hb'. rewrite (before_S _ _ _ Hw) in Hb'.
  assert (total l < 2 ^ 32) by nia. unfold u32 at 2. rewrite wrapu_small by lia.
  replace (Z.of_nat (S k) - 1) with (Z.of_nat k) by lia. unfold u32. rewrite wrapu_small by lia. done.
Qed.

Lemma ring_loop_ok i fuel : 0 <= i < size -> forall k (st0 : st W), (k <= length l)%nat -> (length l - k < fuel)%nat ->
  exists k', while_ fuel (at_ring k) (next_ring ws size (total l) i) st0 = (Ret (at_ring k'), st0) /\
    (k <= k' <= length l)%nat /\ i < start k' /\ (k' = k \/ start (pred k') <= i).
Proof.
  intros Hi. induction fuel as [|fuel IH]; intros k st0 Hk Hf; [lia|]. cbn [while_].
  rewrite (bind_ret_run _ _ _ _ _ (next_ring_ok i k st0 Hk Hi)). destruct (Z.leb_spec (start k) i) as [H|H].
  - assert (k <> length l) by (intros ->; rewrite start_end in H; lia).
    destruct (IH (S k) st0) as (k' & -> & Hk' & Hlt & Hor); [lia|lia|]. exists k'. split; [done|]. split; [lia|].
    split; [done|]. right. destruct Hor as [->|?]; [exact H|done].
  - exists k. split; [done|]. split; [lia|]. split; [lia|by left].
Qed.

(** Entry [i] of the table is the ring whose share covers [i]. *)
Definition covers_entry (i : Z) (j : Z) : Prop :=
  exists k, j = Z.of_nat k /\ (k < length l)%nat /\ start k <= i < start (S k).

Lemma spread_ok n : forall i k (st0 : st W), 0 <= i -> i + Z.of_nat n <= size -> (k <= length l)%nat ->
  (k = 0%nat \/ start (pred k) <= i) ->
  exists T, spread ws size (total l) n i (at_ring k) st0 = (Ret T, st0) /\ length T = n /\
    forall p j, T !! p = Some j -> covers_entry (i + Z.of_nat p) j.
Proof.
  induction n as [|n IH]; intros i k st0 Hi Hn Hk Hprev; cbn [spread]; [by exists []|].
  unfold ring_loop. destruct (ring_loop_ok i (2 + length ws) ltac:(lia) k st0 Hk) as (k' & E & Hk' & Hlt & Hor).
  { pose proof (list.Forall2_length _ _ _ Hws). lia. }
  rewrite (bind_ret_run _ _ _ _ _ E).
  assert (k' <> 0%nat) as Hk0 by (intros ->; rewrite start_0 in Hlt; lia).
  assert (start (pred k') <= i) as Hlow.
  { destruct Hor as [->|]; [|done]. destruct Hprev as [->|]; [done|done]. }
  destruct (IH (i + 1) k' st0) as (T & ET & HT & Hc); [lia|lia|lia|right; lia|].
  rewrite (bind_ret_run _ _ _ _ _ ET). exists (fst (at_ring k') :: T). split; [done|]. split; [cbn; lia|].
  intros [|p] j Hp.
  - injection Hp as <-. exists (pred k'). split.
    + unfold at_ring, u32. cbn [fst]. rewrite wrapu_small by lia. lia.
    + split; [lia|]. replace (S (pred k')) with k' by lia. lia.
  - apply Hc in Hp. replace (i + Z.of_nat (S p)) with (i + 1 + Z.of_nat p) by lia. done.
Qed.
End spread.

Lemma weight_table_ok ws l size (st0 : st W) : Forall2 weighs ws l -> Z.of_nat (length l) < 2 ^ 32 ->
  total l < 2 ^ 32 -> 0 <= size < 65536 ->
  wp (weight_table ws size) st0 (fun r st' => dev st' = dev st0 /\
    if ((total l =? 0) || (size <? total l))%bool then r = Exit 1
    else exists T, r = Ret T /\ length T = Z.to_nat size /\ forall p j, T !! p = Some j -> covers_entry l size (Z.of_nat p) j).
Proof.
  intros Hws Hlen Ht Hs. pose proof (total_nonneg l (weighs_nonneg _ _ Hws)) as Hn. unfold weight_table.
  apply wp_bind. unfold wp at 1. rewrite (sum_weights_ok ws l Hws 0 st0) by lia. cbn [fst snd]. rewrite Z.add_0_l.
  destruct (Z.eqb_spec (total l) 0); [done|]. destruct (Z.ltb_spec size (total l)); [done|]. cbn [orb].
  destruct (spread_ok ws l size Hws Hlen ltac:(lia) ltac:(nia) ltac:(lia) (Z.to_nat size) 0 0 st0) as (T & E & HT & Hc);
    [lia|lia|lia|by left|].
  change (u32 (-1), 0) with (at_ring l 0). unfold wp. rewrite E. cbn [fst snd]. split; [done|]. by exists T.
Qed.
End weights.
