(* ===== verification/EtRx.v ===== *)
(** * ethtool: receive classification commands ([ethernet_test/ethtool/ethtool.c], [-n] and [-N])

    The commands around the rule manager of [rxclass.c]: flow hash options, the
    conversion of a rule to the older n-tuple form, insertion, deletion and
    display of rules. A device answers the rule ioctls ([RxDevice]) and all
    others ([EtDevice]). *)

From stdpp Require Import base list strings gmap numbers.
From Stdlib Require Import ZArith Lia Ascii.
From S2P Require Import Prelude CInt CLib RxSpec RxRules RxParse EtCmd EtSet.
Import Et EtS.

Module EtR.

Definition ETHTOOL_GFLAGS : Z := 0x25.
Definition ETHTOOL_GRXFH : Z := 0x29.
Definition ETHTOOL_SRXFH : Z := 0x2a.
Definition ETHTOOL_GRXRINGS : Z := 0x2d.
Definition ETHTOOL_SRXNTUPLE : Z := 0x35.
Definition ETH_FLAG_NTUPLE : Z := Z.shiftl 1 27.
Definition EOPNOTSUPP : Z := 95.
Definition INT_MAX : Z := 0x7fffffff.

(** [struct ethtool_rx_ntuple_flow_spec]; the unions have 72 bytes. *)
Record ntuple := mk_ntuple {
  nt_flow_type : Z; nt_h_u : list Z; nt_m_u : list Z; nt_vlan_tag : Z; nt_vlan_tag_mask : Z;
  nt_data : Z; nt_data_mask : Z; nt_action : Z
}.

(** [None] is the result -1. *)
Definition flow_spec_to_ntuple (fsp : spec) : option ntuple :=
  let ext := truth (Z.land (getf fsp flow_type) FLOW_EXT) in
  let cookie := getf fsp ring_cookie in
  let mdata := (truth (getf fsp (m_ext flow_ext.data0)) || truth (getf fsp (m_ext flow_ext.data1)))%bool in
  let metype := getf fsp (m_ext flow_ext.vlan_etype) in
  if negb (getf fsp location =? RX_CLS_LOC_ANY) then None
  else if ((INT_MAX <? cookie) && (cookie <? 2 ^ 64 - 2))%bool then None
  else if (ext && mdata && truth metype)%bool then None
  else
    let h := get_bytes fsp 4 (Z.to_nat sizeof_flow_union) ++ replicate 12 255 in
    let m := map (fun b => Z.lxor b 255) (get_bytes fsp 76 (Z.to_nat sizeof_flow_union)) ++ replicate 12 255 in
    let ft := Z.land (getf fsp flow_type) (notu 32 FLOW_EXT) in
    let action := s32 cookie in
    if negb ext then Some (mk_ntuple ft h m 0xffff 0xffff (2 ^ 64 - 1) (2 ^ 64 - 1) action)
    else
      let tag := ntohs (getf fsp (h_ext flow_ext.vlan_tci)) in
      let tagm := notu 16 (ntohs (getf fsp (m_ext flow_ext.vlan_tci))) in
      if truth metype then
        if mdata then None
        else Some (mk_ntuple ft h m tag tagm (ntohl (getf fsp (h_ext flow_ext.vlan_etype))) (notu 64 (ntohl metype)) action)
      else
        Some (mk_ntuple ft h m tag tagm
          (Z.lor (Z.shiftl (ntohl (getf fsp (h_ext flow_ext.data0))) 32) (ntohl (getf fsp (h_ext flow_ext.data1))))
          (Z.lor (Z.shiftl (ntohl (notu 32 (getf fsp (m_ext flow_ext.data0)))) 32)
                 (ntohl (notu 32 (getf fsp (m_ext flow_ext.data1)))))
          action).

(** The structure given to [ETHTOOL_SRXNTUPLE]. *)
Definition ntuple_req (nt : ntuple) : ereq :=
  mk_ereq ETHTOOL_SRXNTUPLE
    (list_to_map [("flow_type", nt_flow_type nt); ("vlan_tag", nt_vlan_tag nt); ("vlan_tag_mask", nt_vlan_tag_mask nt);
                  ("data", nt_data nt); ("data_mask", nt_data_mask nt); ("action", nt_action nt)])
    (nt_h_u nt ++ nt_m_u nt).

Section rx.
Context `{DM : DataModel} {D : Type} `{RD : RxDevice D} `{ED : EtDevice D} (env : et_env).
Abbreviation P := (M D).

Definition do_srxntuple (fsp : spec) : P Z :=
  match flow_spec_to_ntuple fsp with
  | None => mret (-1)
  | Some nt =>
      x ← send_ioctl (mk_ereq ETHTOOL_GFLAGS {["data" := ee_junk env "eval.data"]} []);
      let '(err, en, eval) := x in
      if (truth err || negb (truth (Z.land (default 0 (rq_f eval !! "data")) ETH_FLAG_NTUPLE)))%bool then mret (-1)
      else
        x ← send_ioctl (ntuple_req nt);
        let '(err, en, _) := x in
        if err <? 0 then when (negb (en =? EOPNOTSUPP)) (perror env "Cannot add new rule via N-tuple" en);; mret (-1)
        else mret 0
  end.

(** The name of a flow type, then the fields used. [RXH_DISCARD] is a negative
    [int], so it stands for bits 31 to 63 of [val]. *)
Definition flow_title (fhash : Z) : string :=
  if fhash =? TCP_V4_FLOW then "TCP over IPV4 flows"
  else if fhash =? UDP_V4_FLOW then "UDP over IPV4 flows"
  else if fhash =? SCTP_V4_FLOW then "SCTP over IPV4 flows"
  else if ((fhash =? AH_ESP_V4_FLOW) || (fhash =? AH_V4_FLOW) || (fhash =? ESP_V4_FLOW))%bool then "IPSEC AH/ESP over IPV4 flows"
  else if fhash =? TCP_V6_FLOW then "TCP over IPV6 flows"
  else if fhash =? UDP_V6_FLOW then "UDP over IPV6 flows"
  else if fhash =? SCTP_V6_FLOW then "SCTP over IPV6 flows"
  else if ((fhash =? AH_ESP_V6_FLOW) || (fhash =? AH_V6_FLOW) || (fhash =? ESP_V6_FLOW))%bool then "IPSEC AH/ESP over IPV6 flows"
  else "".
Definition dump_rxfhash (fhash val : Z) : P Z :=
  when (negb (streq (flow_title fhash) "")) (printf (flow_title fhash));;
  if truth (Z.land val 0xffffffff80000000) then
    printf (" - All matching flows discarded on RX" +:+ nl);; mret 0
  else
    printf (" use these fields for computing Hash flow key:" +:+ nl);;
    printf (unparse_rxfhashopts val +:+ nl);;
    mret 0.

(** [rx-flow-hash] with a flow type and option letters. *)
Definition set_flow_hash (name opts : string) : P Z :=
  let rx_fhash_set := rxflow_str_to_type name in
  if negb (truth rx_fhash_set) then exit_bad_args
  else
    match parse_rxfhashopts opts with
    | None => exit_bad_args
    | Some val =>
        x ← send_ioctl (mk_ereq ETHTOOL_SRXFH (list_to_map [("flow_type", rx_fhash_set); ("data", val)]) []);
        let '(err, en, _) := x in
        when (err <? 0) (perror env "Cannot change RX network flow hashing options" en);;
        mret 0
    end.

Definition add_rule (args : list string) : P Z :=
  x ← rxclass_parse_ruleopts args (nfc_fs (env_junk (ee_rx env)));
  let '(err, fsp) := x in
  if err <? 0 then exit_bad_args
  else
    err ← do_srxntuple fsp;
    if err =? 0 then mret 0
    else
      err ← rxclass_rule_ins (ee_rx env) fsp;
      if err <? 0 then eprintf ("Cannot insert classification rule" +:+ nl);; mret 1 else mret 0.

Definition delete_rule (arg : string) : P Z :=
  loc ← get_uint_range (Some arg) 0 INT_MAX;
  err ← rxclass_rule_del (ee_rx env) loc;
  if err <? 0 then eprintf ("Cannot delete classification rule" +:+ nl);; mret 1 else mret 0.

Definition do_srxclass (args : list string) : P Z :=
  match args with
  | a0 :: a1 :: rest =>
      match rest, streq a0 "rx-flow-hash" with
      | [a2], true => set_flow_hash a1 a2
      | _, _ => if streq a0 "flow-type" then add_rule (a1 :: rest)
                else if streq a0 "delete" then delete_rule a1
                else exit_bad_args
      end
  | _ => exit_bad_args
  end.

Definition do_grxclass (args : list string) : P Z :=
  err ← match args with
        | [a0; a1] =>
            if streq a0 "rx-flow-hash" then
              let rx_fhash_get := rxflow_str_to_type a1 in
              if negb (truth rx_fhash_get) then exit_bad_args
              else
                x ← send_ioctl (mk_ereq ETHTOOL_GRXFH
                      (list_to_map [("flow_type", rx_fhash_get); ("data", ee_junk env "nfccmd.data")]) []);
                let '(err, en, r) := x in
                (if err <? 0 then perror env "Cannot get RX network flow hashing options" en
                 else _ ← dump_rxfhash rx_fhash_get (default 0 (rq_f r !! "data")); mret tt);;
                mret err
            else if streq a0 "rule" then
              loc ← get_uint_range (Some a1) 0 INT_MAX;
              err ← rxclass_rule_get (ee_rx env) loc;
              when (err <? 0) (eprintf ("Cannot get RX classification rule" +:+ nl));;
              mret err
            else exit_bad_args
        | [] =>
            x ← send_ioctl (mk_ereq ETHTOOL_GRXRINGS {["data" := ee_junk env "nfccmd.data"]} []);
            let '(err, en, r) := x in
            (if err <? 0 then perror env "Cannot get RX rings" en
             else printf (dec (s32 (default 0 (rq_f r !! "data"))) +:+ " RX rings available" +:+ nl));;
            err ← rxclass_rule_getall (ee_rx env);
            when (err <? 0) (eprintf ("RX classification rule retrieval failed" +:+ nl));;
            mret err
        | _ => exit_bad_args
        end;
  if truth err then mret 1 else mret 0.
End rx.
End EtR.
