(* ===== verification/EtRxOk.v ===== *)
(** * ethtool: rules and their n-tuple form match the same packets *)

From stdpp Require Import base list strings gmap numbers.
From Stdlib Require Import ZArith Lia Ascii.
From S2P Require Import Prelude CInt CLib RxSpec RxRules RxRulesOk RxInsert RxParse RxParseOk EtCmd EtSet EtRx.
Import Et EtS EtR.

(** ** Byte order and complement *)

Lemma be16_testbit v i : 0 <= v < 2 ^ 16 -> 0 <= i ->
  Z.testbit (cpu_to_be16 v) i = if i <? 8 then Z.testbit v (i + 8) else if i <? 16 then Z.testbit v (i - 8) else false.
Proof.
  intros Hv Hi. unfold cpu_to_be16, u16. rewrite wrapu_testbit, Z.lor_spec, Z.shiftr_spec, Z.shiftl_spec by lia.
  destruct (Z.ltb_spec i 8), (Z.ltb_spec i 16); try lia; cbn [andb].
  - rewrite (Z.testbit_neg_r v (i - 8)) by lia. apply orb_false_r.
  - by rewrite (testbit_high 16 v (i + 8)) by lia.
Qed.

Lemma be32_testbit v i : 0 <= v < 2 ^ 32 -> 0 <= i ->
  Z.testbit (cpu_to_be32 v) i =
  if i <? 8 then Z.testbit v (i + 24) else if i <? 16 then Z.testbit v (i + 8)
  else if i <? 24 then Z.testbit v (i - 8) else if i <? 32 then Z.testbit v (i - 24) else false.
Proof.
  intros Hv Hi. unfold cpu_to_be32.
  assert (0 <= Z.shiftr v 16 < 2 ^ 16) as Hs.
  { rewrite Z.shiftr_div_pow2 by lia. split; [apply Z.div_pos; lia|]. apply Z.div_lt_upper_bound; lia. }
  assert (0 <= u16 v < 2 ^ 16) as Hu by (by apply (wrapu_range 16)).
  rewrite Z.lor_spec, Z.shiftl_spec, be16_testbit by done. destruct (Z.lt_ge_cases i 16).
  - rewrite (Z.testbit_neg_r _ (i - 16)), orb_false_r by lia.
    destruct (Z.ltb_spec i 8), (Z.ltb_spec i 16), (Z.ltb_spec i 24), (Z.ltb_spec i 32); try lia;
      rewrite Z.shiftr_spec by lia; f_equal; lia.
  - rewrite be16_testbit by lia. unfold u16. rewrite !wrapu_testbit by lia.
    destruct (Z.ltb_spec i 8), (Z.ltb_spec i 16), (Z.ltb_spec i 24), (Z.ltb_spec i 32),
      (Z.ltb_spec (i - 16) 8), (Z.ltb_spec (i - 16) 16), (Z.ltb_spec (i - 16 + 8) 16), (Z.ltb_spec (i - 16 - 8) 16);
      try (exfalso; lia); cbn [orb andb]; try reflexivity; f_equal; lia.
Qed.

Lemma ntohl_notu a : 0 <= a < 2 ^ 32 -> ntohl (notu 32 a) = notu 32 (ntohl a).
Proof.
  intros Ha. apply Z.bits_inj'. intros i Hi. unfold ntohl, htonl, u32.
  assert (0 <= notu 32 a < 2 ^ 32) as Hn by (by apply (wrapu_range 32)).
  rewrite !wrapu_small by done. rewrite notu_testbit by lia. rewrite !be32_testbit by done.
  destruct (Z.ltb_spec i 8), (Z.ltb_spec i 16), (Z.ltb_spec i 24), (Z.ltb_spec i 32); try (exfalso; lia); cbn [andb];
    rewrite ?notu_testbit by lia; try done; by rewrite (proj2 (Z.ltb_lt _ _)) by lia.
Qed.

Lemma ntohl_range a : 0 <= ntohl a < 2 ^ 32.
Proof.
  unfold ntohl, htonl. assert (0 <= u32 a < 2 ^ 32) as Hu by (by apply (wrapu_range 32)).
  assert (0 <= cpu_to_be32 (u32 a)) as H0.
  { unfold cpu_to_be32. apply Z.lor_nonneg. split; [|apply Z.shiftl_nonneg]; by apply (wrapu_range 16). }
  split; [done|]. apply bits_zero_range; [lia| |done]. intros i Hi. rewrite be32_testbit by lia.
  by repeat match goal with |- context [?x <? ?y] => destruct (Z.ltb_spec x y); try (exfalso; lia) end.
Qed.

(** The complement of two words side by side. *)
Lemma notu_words x y : 0 <= x < 2 ^ 32 -> 0 <= y < 2 ^ 32 ->
  notu 64 (Z.lor (Z.shiftl (notu 32 x) 32) (notu 32 y)) = Z.lor (Z.shiftl x 32) y.
Proof.
  intros Hx Hy. apply Z.bits_inj'. intros i Hi.
  rewrite notu_testbit, !Z.lor_spec, !Z.shiftl_spec by lia. rewrite (notu_testbit 32 y) by lia.
  destruct (Z.lt_ge_cases i 32).
  - rewrite !(Z.testbit_neg_r _ (i - 32)) by lia. rewrite (proj2 (Z.ltb_lt i 64)), (proj2 (Z.ltb_lt i 32)) by lia.
    cbn [orb andb]. apply negb_involutive.
  - rewrite notu_testbit, (testbit_high 32 y i) by lia. rewrite (proj2 (Z.ltb_ge i 32)) by lia. cbn [orb andb].
    rewrite orb_false_r. destruct (Z.ltb_spec i 64); cbn [andb].
    + rewrite (proj2 (Z.ltb_lt (i - 32) 32)) by lia. rewrite orb_false_r. apply negb_involutive.
    + by rewrite (testbit_high 32 x (i - 32)) by lia.
Qed.

Lemma notu_flip b : is_byte b -> notu 8 (Z.lxor b 255) = b.
Proof.
  intros Hb. apply Z.bits_inj'. intros i Hi. rewrite notu_testbit, Z.lxor_spec by lia. change 255 with (Z.ones 8).
  destruct (Z.ltb_spec i 8); cbn [andb].
  - rewrite Z.ones_spec_low by lia. by destruct (Z.testbit b i).
  - by rewrite (testbit_high 8 b i) by (unfold is_byte in Hb; lia).
Qed.

(** ** Matching *)

(** [p] agrees with [h] in the bits [care]. *)
Definition agrees (p h care : Z) : Prop := Z.land (Z.lxor p h) care = 0.

(** What the card knows of a packet: the kind of its flow (a flow type without
    [FLOW_EXT]), the bytes of its headers, the VLAN tag and type, and the user
    data. *)
Record packet := mk_packet { pk_kind : Z; pk_hdr : list Z; pk_tag : Z; pk_etype : Z; pk_data : Z }.

(** A packet against a rule: the kind is the rule's, without the flag in bit 31;
    of the rest a bit counts when it is set in the mask, and tag, type and user
    data only count in a rule with the flag. *)
Definition user_data (p : spec) (f : field -> field) : Z :=
  Z.lor (Z.shiftl (ntohl (getf p (f flow_ext.data0))) 32) (ntohl (getf p (f flow_ext.data1))).
Definition nfc_match (fsp : spec) (p : packet) : Prop :=
  pk_kind p = getf fsp flow_type mod 2 ^ 31 /\
  (forall i x, (i < 60)%nat -> pk_hdr p !! i = Some x ->
     agrees x (default 0 ((fsp : list Z) !! (4 + i)%nat)) (default 0 ((fsp : list Z) !! (76 + i)%nat))) /\
  (Z.testbit (getf fsp flow_type) 31 = true ->
     agrees (pk_tag p) (ntohs (getf fsp (h_ext flow_ext.vlan_tci))) (ntohs (getf fsp (m_ext flow_ext.vlan_tci))) /\
     agrees (pk_etype p) (ntohs (getf fsp (h_ext flow_ext.vlan_etype))) (ntohs (getf fsp (m_ext flow_ext.vlan_etype))) /\
     agrees (pk_data p) (user_data fsp h_ext) (user_data fsp m_ext)).

(** A packet against an n-tuple without a VLAN type, which knows no flag: the
    kind is its flow type, and a bit counts when it is clear in the mask. *)
Definition ntuple_match (nt : ntuple) (p : packet) : Prop :=
  pk_kind p = nt_flow_type nt /\
  (forall i x, pk_hdr p !! i = Some x -> agrees x (default 0 (nt_h_u nt !! i)) (notu 8 (default 0 (nt_m_u nt !! i)))) /\
  agrees (pk_tag p) (nt_vlan_tag nt) (notu 16 (nt_vlan_tag_mask nt)) /\
  agrees (pk_data p) (nt_data nt) (notu 64 (nt_data_mask nt)).

(** The action: the queue of the rule, or one of the two negative codes. *)
Definition rule_action (cookie : Z) : Z := if cookie <? 2 ^ 63 then cookie else cookie - 2 ^ 64.

Lemma agrees_none p h w : 0 <= w -> agrees p h (notu w (2 ^ w - 1)).
Proof.
  intros Hw. unfold agrees. rewrite notu_eq by lia. replace (2 ^ w - 1 - (2 ^ w - 1)) with 0 by lia. apply Z.land_0_r.
Qed.

Lemma union_lookup (p : list Z) off i : wf_spec p -> 0 <= off -> off + 60 <= 168 -> (i < 60)%nat ->
  get_bytes p off 60 !! i = p !! (Z.to_nat off + i)%nat.
Proof. intros [Hl _] H0 H1 Hi. unfold get_bytes. rewrite lookup_take_lt by done. apply lookup_drop. Qed.

Section convert.
Context (fsp : spec) (Hwf : wf_spec fsp).

Lemma spec_byte i : (i < 168)%nat -> exists b, (fsp : list Z) !! i = Some b /\ is_byte b.
Proof.
  destruct Hwf as [Hl Hb]. intros Hi. destruct (lookup_lt_is_Some_2 (fsp : list Z) i) as [b E].
  - rewrite Hl. exact Hi.
  - exists b. split; [done|]. by eapply Forall_lookup_1.
Qed.

Lemma h_u_lookup i : (i < 60)%nat ->
  default 0 ((get_bytes fsp 4 (Z.to_nat sizeof_flow_union) ++ replicate 12 255) !! i) = default 0 ((fsp : list Z) !! (4 + i)%nat).
Proof.
  intros Hi. pose proof Hwf as [Hl _]. change (Z.to_nat sizeof_flow_union) with 60%nat.
  rewrite lookup_app_l by (unfold get_bytes; rewrite length_take, length_drop, Hl; unfold sizeof_flow_spec; lia).
  by rewrite union_lookup by (done || lia).
Qed.

Lemma m_u_lookup i : (i < 72)%nat ->
  notu 8 (default 0 ((map (fun b => Z.lxor b 255) (get_bytes fsp 76 (Z.to_nat sizeof_flow_union)) ++ replicate 12 255) !! i)) =
  if (i <? 60)%nat then default 0 ((fsp : list Z) !! (76 + i)%nat) else 0.
Proof.
  intros Hi. pose proof Hwf as [Hl _]. change (Z.to_nat sizeof_flow_union) with 60%nat.
  assert (length (map (fun b => Z.lxor b 255) (get_bytes fsp 76 60)) = 60%nat) as Hlen.
  { rewrite length_map. unfold get_bytes. rewrite length_take, length_drop, Hl. unfold sizeof_flow_spec. lia. }
  destruct (Nat.ltb_spec i 60).
  - rewrite lookup_app_l by lia. change (map ?f ?l) with (f <$> l). rewrite list_lookup_fmap, union_lookup by (done || lia).
    destruct (spec_byte (76 + i)) as (b & E & Hb); [lia|]. change (Z.to_nat 76 + i)%nat with (76 + i)%nat. rewrite E.
    by apply notu_flip.
  - rewrite lookup_app_r, Hlen by lia. rewrite lookup_replicate_2 by lia. done.
Qed.

Lemma header_match hdr : length hdr = 72%nat ->
  (forall i x, hdr !! i = Some x ->
     agrees x (default 0 ((get_bytes fsp 4 (Z.to_nat sizeof_flow_union) ++ replicate 12 255) !! i))
       (notu 8 (default 0 ((map (fun b => Z.lxor b 255) (get_bytes fsp 76 (Z.to_nat sizeof_flow_union)) ++ replicate 12 255) !! i)))) <->
  (forall i x, (i < 60)%nat -> hdr !! i = Some x ->
     agrees x (default 0 ((fsp : list Z) !! (4 + i)%nat)) (default 0 ((fsp : list Z) !! (76 + i)%nat))).
Proof.
  intros Hlen. split; intros H i x.
  - intros Hi Hx. specialize (H i x Hx). rewrite h_u_lookup, m_u_lookup in H by lia.
    by rewrite (proj2 (Nat.ltb_lt i 60) Hi) in H.
  - intros Hx. assert (i < 72)%nat as Hi by (rewrite <- Hlen; by eapply lookup_lt_Some). rewrite m_u_lookup by done.
    destruct (Nat.ltb_spec i 60); [rewrite h_u_lookup by done; by apply H|]. apply Z.land_0_r.
Qed.

Lemma ntohs_range a : 0 <= ntohs a < 2 ^ 16.
Proof. by apply (wrapu_range 16). Qed.

Lemma getf32 f : in_spec f -> f_len f = 4%nat -> 0 <= getf fsp f < 2 ^ 32.
Proof. intros Hf Hl. pose proof (getf_range fsp f Hwf Hf) as H. by rewrite Hl in H. Qed.

Lemma ext_bit : truth (Z.land (getf fsp flow_type) FLOW_EXT) = Z.testbit (getf fsp flow_type) 31.
Proof. by apply (land_pow2_testbit _ 31). Qed.

Lemma clear_ext : Z.land (getf fsp flow_type) (notu 32 FLOW_EXT) = getf fsp flow_type mod 2 ^ 31.
Proof. change (notu 32 FLOW_EXT) with (Z.ones 31). by rewrite Z.land_ones. Qed.

Lemma action_ok : (INT_MAX <? getf fsp ring_cookie) && (getf fsp ring_cookie <? 2 ^ 64 - 2) = false ->
  s32 (getf fsp ring_cookie) = rule_action (getf fsp ring_cookie).
Proof.
  assert (0 <= getf fsp ring_cookie < 2 ^ 64) as Hr by (by apply (getf_range fsp ring_cookie)).
  unfold rule_action. intros Hc. apply andb_false_iff in Hc. destruct Hc as [Hc|Hc].
  - apply Z.ltb_ge in Hc. unfold INT_MAX in Hc. rewrite (proj2 (Z.ltb_lt _ (2 ^ 63))) by lia. apply wraps_small; lia.
  - apply Z.ltb_ge in Hc. rewrite (proj2 (Z.ltb_ge _ (2 ^ 63))) by lia.
    assert (getf fsp ring_cookie = 2 ^ 64 - 1 \/ getf fsp ring_cookie = 2 ^ 64 - 2) as [-> | ->] by lia; done.
Qed.

(** The n-tuple matches the packets the rule matches, and does the same with
    them. *)
Lemma ntuple_match_ok nt p : flow_spec_to_ntuple fsp = Some nt ->
  (Z.testbit (getf fsp flow_type) 31 = true -> getf fsp (m_ext flow_ext.vlan_etype) = 0) ->
  length (pk_hdr p) = 72%nat ->
  (ntuple_match nt p <-> nfc_match fsp p) /\ nt_action nt = rule_action (getf fsp ring_cookie).
Proof.
  intros Hc Het Hlen. unfold flow_spec_to_ntuple in Hc. unfold nfc_match, ntuple_match. rewrite ext_bit, clear_ext in Hc.
  destruct (negb (_ =? RX_CLS_LOC_ANY)); [done|]. destruct (_ && (_ <? _))%bool eqn:Ea in Hc; [done|].
  rewrite (action_ok Ea) in Hc. destruct (Z.testbit (getf fsp flow_type) 31) eqn:Eext; cbn [andb negb] in Hc.
  - rewrite (Het eq_refl) in *. change (truth 0) with false in Hc. rewrite andb_false_r in Hc. injection Hc as <-.
    cbn [nt_flow_type nt_h_u nt_m_u nt_vlan_tag nt_vlan_tag_mask nt_data nt_data_mask nt_action]. split; [|done].
    rewrite (header_match (pk_hdr p) Hlen), notu_involutive by (lia || apply ntohs_range).
    rewrite !ntohl_notu by (by apply getf32). rewrite notu_words by apply ntohl_range.
    fold (user_data fsp h_ext) (user_data fsp m_ext).
    assert (forall x h, agrees x h (ntohs 0)) as H0 by (intros; apply Z.land_0_r).
    pose proof (H0 (pk_etype p) (ntohs (getf fsp (h_ext flow_ext.vlan_etype)))). tauto.
  - injection Hc as <-. cbn [nt_flow_type nt_h_u nt_m_u nt_vlan_tag nt_vlan_tag_mask nt_data nt_data_mask nt_action].
    split; [|done]. rewrite (header_match (pk_hdr p) Hlen). change 0xffff with (2 ^ 16 - 1).
    pose proof (agrees_none (pk_tag p) (2 ^ 16 - 1) 16 ltac:(lia)).
    pose proof (agrees_none (pk_data p) (2 ^ 64 - 1) 64 ltac:(lia)).
    split; [intros (? & ? & _); by split_and!|]. intros (? & ? & _). by split_and!.
Qed.
End convert.

(** A rule with a VLAN type: the 16-bit field is swapped as a 32-bit word, so its
    value is in the upper half. *)
Lemma ntuple_etype fsp nt : flow_spec_to_ntuple fsp = Some nt ->
  truth (Z.land (getf fsp flow_type) FLOW_EXT) = true -> getf fsp (m_ext flow_ext.vlan_etype) <> 0 ->
  nt_data nt = ntohl (getf fsp (h_ext flow_ext.vlan_etype)).
Proof.
  intros Hc He Hm. unfold flow_spec_to_ntuple in Hc. rewrite He in Hc.
  assert (truth (getf fsp (m_ext flow_ext.vlan_etype)) = true) as Ht by (unfold truth; by rewrite (proj2 (Z.eqb_neq _ _) Hm)).
  rewrite Ht in Hc. destruct (negb (_ =? RX_CLS_LOC_ANY)); [done|]. destruct (_ && (_ <? _))%bool; [done|].
  cbn [andb negb] in Hc. destruct (truth _ || truth _)%bool; [done|]. by injection Hc as <-.
Qed.

(** ** Adding a rule *)

Section add.
Context `{DM : DataModel} {D : Type} `{RD : RxDevice D, !RxDriver D} `{ED : EtDevice D} (env : et_env).

(** The device has no n-tuple filters. *)
Definition no_ntuple (d : D) : Prop := forall q, rq_cmd q = ETHTOOL_GFLAGS ->
  exists err en r, et_ioctl q d = (err, en, r, d) /\
    (err = 0 -> truth (Z.land (default 0 (rq_f r !! "data")) ETH_FLAG_NTUPLE) = false).

Lemma srxntuple_refused fsp (s : st D) : no_ntuple (dev s) ->
  runs (do_srxntuple env fsp) s (fun r s' => r = -1 /\ s' = s).
Proof.
  intros Hn. unfold do_srxntuple. destruct (flow_spec_to_ntuple fsp) as [nt|]; [|by apply runs_ret].
  apply runs_bind. unfold EtS.send_ioctl. set (q := mk_ereq _ _ _). destruct (Hn q eq_refl) as (err & en & r & E & Hf).
  unfold runs, devop. rewrite E. do 2 eexists. split; [reflexivity|]. cbv beta iota.
  assert ((truth err || negb (truth (Z.land (default 0 (rq_f r !! "data")) ETH_FLAG_NTUPLE)))%bool = true) as ->.
  { unfold truth at 1. destruct (Z.eqb_spec err 0) as [H0|H0]; cbn [negb orb]; [by rewrite Hf|done]. }
  apply runs_ret. split; [done|]. by destruct s.
Qed.

(** A rule with a location of its own goes to the driver as it is. *)
Lemma rule_ins_at fsp (s : st D) : truth (Z.land (getf fsp location) RX_CLS_LOC_SPECIAL) = false ->
  runs (rxclass_rule_ins (ee_rx env) fsp) s (fun r s' => r = 0 /\
    exists q, nfc_cmd q = ETHTOOL_SRXCLSRLINS /\ nfc_fs q = fsp /\ dev s' = (RxSpec.send_ioctl q (dev s)).2).
Proof.
  intros Hsp. unfold rxclass_rule_ins. rewrite Hsp. apply runs_bind, runs_ret. cbn [andb]. apply runs_bind.
  apply runs_devop. set (q := mk_rxnfc _ _ _ _ _). destruct (RxSpec.send_ioctl q (dev s)) as [[err r] d'] eqn:E. cbn [fst snd].
  destruct (err <? 0); unfold RxRules.perror, when; runs_steps; (split; [done|]); exists q; by rewrite E.
Qed.

Definition add_post (args : list string) (s : st D) (r : res Z) (s' : st D) : Prop :=
  (r = Exit 1 /\ dev s' = dev s) \/
  exists p c, rule_of args p /\ r = Ret c /\
    if truth (Z.land (getf p location) RX_CLS_LOC_SPECIAL)
    then rules (dev s') = rules (dev s) \/
         (c = 0 /\ exists loc, 0 <= loc < table_size (dev s) /\ rules (dev s) !! loc = None /\
            rules (dev s') = <[loc := setf p location loc]> (rules (dev s)))
    else c = 0 /\ exists q, nfc_cmd q = ETHTOOL_SRXCLSRLINS /\ nfc_fs q = p /\ dev s' = (RxSpec.send_ioctl q (dev s)).2.

Lemma add_rule_ok args (s : st D) : no_ntuple (dev s) -> selects (dev s) = false ->
  wp (add_rule env args) s (add_post args s).
Proof.
  intros Hn Hsel. unfold add_rule. apply wp_bind.
  eapply wp_mono; [apply wp_runs, parse_ruleopts_spec|]. intros ? s1 ([err p] & -> & Hd & Hor & Hok).
  destruct Hor as [-> | ->]; [|by left]. change (0 <? 0) with false. cbv iota. specialize (Hok eq_refl).
  rewrite <- Hd in Hn, Hsel. apply wp_bind. eapply wp_mono; [apply wp_runs, (srxntuple_refused p s1 Hn)|].
  intros ? s2 (? & -> & -> & ->). change (-1 =? 0) with false. cbv iota. apply wp_bind.
  assert (wf_spec p) as Hwf by (destruct Hok as (?&?&?&?&?&?&?&?&_); done).
  destruct (truth (Z.land (getf p location) RX_CLS_LOC_SPECIAL)) eqn:Esp.
  - eapply wp_mono; [by apply wp_runs, rule_ins_spec|]. intros ? s2 (c & -> & Hc). rewrite Hd in Hc.
    unfold add_post. destruct (Z.ltb_spec c 0).
    + apply wp_bind, wp_eprintf, wp_ret. right. exists p, 1. rewrite Esp. split; [done|]. split; [done|]. left.
      destruct Hc as [Hc|[-> _]]; [done|lia].
    + apply wp_ret. right. exists p, 0. rewrite Esp. split; [done|]. split; [done|]. destruct Hc as [Hc|[-> Hc]]; [by left|by right].
  - eapply wp_mono; [by apply wp_runs, rule_ins_at|]. intros ? s2 (c & -> & -> & Hq). rewrite Hd in Hq.
    apply wp_ret. right. exists p, 0. by rewrite Esp.
Qed.
End add.
