(* ===== verification/EtSfp.v ===== *)
(** * ethtool: contents of a plug-in module ([ethernet_test/ethtool/sfpid.c])

    The decoder of SFF-8079 data. A read behind the end of the data is a crash. *)

From stdpp Require Import base list strings gmap numbers.
From Stdlib Require Import ZArith Lia Ascii.
From S2P Require Import Prelude CInt CLib.

Module EtSfp.

(** The values with a name; the rest is reserved or unknown. *)
Definition identifiers : list (Z * string) := [
  (0x00, "no module present, unknown, or unspecified"); (0x01, "GBIC"); (0x02, "module soldered to motherboard");
  (0x03, "SFP") ].
Definition connectors : list (Z * string) := [
  (0x00, "unknown or unspecified"); (0x01, "SC"); (0x02, "Fibre Channel Style 1 copper");
  (0x03, "Fibre Channel Style 2 copper"); (0x04, "BNC/TNC"); (0x05, "Fibre Channel coaxial headers");
  (0x06, "FibreJack"); (0x07, "LC"); (0x08, "MT-RJ"); (0x09, "MU"); (0x0a, "SG"); (0x0b, "Optical pigtail");
  (0x0c, "MPO Parallel Optic"); (0x20, "HSSDC II"); (0x21, "Copper pigtail"); (0x22, "RJ45") ].
Definition encodings : list (Z * string) := [
  (0x00, "unspecified"); (0x01, "8B/10B"); (0x02, "4B/5B"); (0x03, "NRZ"); (0x04, "Manchester");
  (0x05, "SONET Scrambled"); (0x06, "64B/66B") ].
Definition rate_identifiers : list (Z * string) := [
  (0x00, "unspecified"); (0x01, "4/2/1G Rate_Select & AS0/AS1"); (0x02, "8/4/2G Rx Rate_Select only");
  (0x03, "8/4/2G Independent Rx & Tx Rate_Select"); (0x04, "8/4/2G Tx Rate_Select only") ].

(** Byte, bit and meaning of the transceiver codes. *)
Definition transceiver_codes : list (Z * Z * string) := [
  (3, 7, "10G Ethernet: 10G Base-ER [SFF-8472 rev10.4 only]"); (3, 6, "10G Ethernet: 10G Base-LRM");
  (3, 5, "10G Ethernet: 10G Base-LR"); (3, 4, "10G Ethernet: 10G Base-SR"); (3, 3, "Infiniband: 1X SX");
  (3, 2, "Infiniband: 1X LX"); (3, 1, "Infiniband: 1X Copper Active"); (3, 0, "Infiniband: 1X Copper Passive");
  (4, 7, "ESCON: ESCON MMF, 1310nm LED"); (4, 6, "ESCON: ESCON SMF, 1310nm Laser");
  (4, 5, "SONET: OC-192, short reach"); (4, 4, "SONET: SONET reach specifier bit 1");
  (4, 3, "SONET: SONET reach specifier bit 2"); (4, 2, "SONET: OC-48, long reach");
  (4, 1, "SONET: OC-48, intermediate reach"); (4, 0, "SONET: OC-48, short reach");
  (5, 6, "SONET: OC-12, single mode, long reach"); (5, 5, "SONET: OC-12, single mode, inter. reach");
  (5, 4, "SONET: OC-12, short reach"); (5, 2, "SONET: OC-3, single mode, long reach");
  (5, 1, "SONET: OC-3, single mode, inter. reach"); (5, 0, "SONET: OC-3, short reach"); (6, 7, "Ethernet: BASE-PX");
  (6, 6, "Ethernet: BASE-BX10"); (6, 5, "Ethernet: 100BASE-FX"); (6, 4, "Ethernet: 100BASE-LX/LX10");
  (6, 3, "Ethernet: 1000BASE-T"); (6, 2, "Ethernet: 1000BASE-CX"); (6, 1, "Ethernet: 1000BASE-LX");
  (6, 0, "Ethernet: 1000BASE-SX"); (7, 7, "FC: very long distance (V)"); (7, 6, "FC: short distance (S)");
  (7, 5, "FC: intermediate distance (I)"); (7, 4, "FC: long distance (L)"); (7, 3, "FC: medium distance (M)");
  (7, 2, "FC: Shortwave laser, linear Rx (SA)"); (7, 1, "FC: Longwave laser (LC)");
  (7, 0, "FC: Electrical inter-enclosure (EL)"); (8, 7, "FC: Electrical intra-enclosure (EL)");
  (8, 6, "FC: Shortwave laser w/o OFC (SN)"); (8, 5, "FC: Shortwave laser with OFC (SL)");
  (8, 4, "FC: Longwave laser (LL)"); (8, 3, "FC: Copper Active"); (8, 2, "FC: Copper Passive");
  (8, 1, "FC: Copper FC-BaseT"); (9, 7, "FC: Twin Axial Pair (TW)"); (9, 6, "FC: Twisted Pair (TP)");
  (9, 5, "FC: Miniature Coax (MI)"); (9, 4, "FC: Video Coax (TV)"); (9, 3, "FC: Multimode, 62.5um (M6)");
  (9, 2, "FC: Multimode, 50um (M5)"); (9, 0, "FC: Single Mode (SM)"); (10, 7, "FC: 1200 MBytes/sec");
  (10, 6, "FC: 800 MBytes/sec"); (10, 4, "FC: 400 MBytes/sec"); (10, 2, "FC: 200 MBytes/sec");
  (10, 0, "FC: 100 MBytes/sec") ].

Section sfp.
Context {W : Type} (id : list Z).
Abbreviation P := (M W).

(** [id[k]] *)
Definition byte (k : Z) : P Z := match id !! Z.to_nat k with Some b => mret b | None => crash end.

Definition name_of (l : list (Z * string)) (v : Z) (other : string) : string :=
  match List.find (fun p => fst p =? v) l with Some p => snd p | None => other end.
(** A byte and its name. *)
Definition show_code (label : string) (k : Z) (l : list (Z * string)) : P unit :=
  v ← byte k;
  printf (tab +:+ pad_right 20 label +:+ ": 0x" +:+ hex0 2 v);;
  printf (" (" +:+ name_of l v "reserved or unknown" +:+ ")" +:+ nl).
Definition sff8079_show_identifier : P unit := show_code "Identifier" 0 identifiers.
Definition sff8079_show_connector : P unit := show_code "Connector" 2 connectors.
Definition sff8079_show_encoding : P unit := show_code "Encoding" 11 encodings.
Definition sff8079_show_rate_identifier : P unit := show_code "Rate identifier" 13 rate_identifiers.

Definition sff8079_show_ext_identifier : P unit :=
  v ← byte 1;
  printf (tab +:+ "Extended identifier : 0x" +:+ hex0 2 v);;
  printf (if v =? 0 then " (GBIC not specified / not MOD_DEF compliant)" +:+ nl
          else if v =? 4 then " (GBIC/SFP defined by 2-wire interface ID)" +:+ nl
          else if v <=? 7 then " (GBIC compliant with MOD_DEF " +:+ dec v +:+ ")" +:+ nl
          else " (unknown)" +:+ nl).

(** The third and the fourth code have no space between them. *)
Definition show_code_bytes : P unit :=
  b3 ← byte 3; b4 ← byte 4; b5 ← byte 5; b6 ← byte 6; b7 ← byte 7; b8 ← byte 8; b9 ← byte 9; b10 ← byte 10;
  let h b := "0x" +:+ hex0 2 b in
  printf (tab +:+ "Transceiver codes   : " +:+ h b3 +:+ " " +:+ h b4 +:+ " " +:+ h b5 +:+ h b6 +:+ " " +:+ h b7 +:+ " " +:+
          h b8 +:+ " " +:+ h b9 +:+ " " +:+ h b10 +:+ nl).
Fixpoint show_codes (l : list (Z * Z * string)) : P unit :=
  match l with
  | [] => mret tt
  | (k, bit, text) :: l' =>
      v ← byte k;
      when (truth (Z.land v (Z.shiftl 1 bit))) (printf (tab +:+ "                    :  => " +:+ text +:+ nl));;
      show_codes l'
  end.
Definition sff8079_show_transceiver : P unit := show_code_bytes;; show_codes transceiver_codes.

Definition sff8079_show_oui : P unit :=
  a ← byte 37; b ← byte 38; c ← byte 39;
  printf (tab +:+ "Vendor OUI          : " +:+ hex0 2 a +:+ ":" +:+ hex0 2 b +:+ ":" +:+ hex0 2 c +:+ nl).

Definition show_cu (label : string) (l : list (Z * string)) : P unit :=
  v ← byte 60;
  printf (tab +:+ label +:+ " : 0x" +:+ hex0 2 v);;
  printf (" (" +:+ name_of l v "unknown" +:+ ")");;
  printf (" [SFF-8472 rev10.4 only]" +:+ nl).
Definition sff8079_show_wavelength_or_copper_compliance : P unit :=
  v ← byte 8;
  if truth (Z.land v 4) then show_cu "Passive Cu cmplnce." [(0, "unspecified"); (1, "SFF-8431 appendix E")]
  else if truth (Z.land v 8) then
    show_cu "Active Cu cmplnce. " [(0, "unspecified"); (1, "SFF-8431 appendix E"); (4, "SFF-8431 limiting")]
  else
    a ← byte 60; b ← byte 61;
    printf (tab +:+ "Laser wavelength    : " +:+ dec (Z.lor (Z.shiftl a 8) b) +:+ "nm" +:+ nl).

Definition sff8079_show_value_with_unit (reg : Z) (name : string) (mult : Z) (unit : string) : P Datatypes.unit :=
  v ← byte reg;
  printf (tab +:+ pad_right 20 name +:+ ": " +:+ dec (u32 (v * mult)) +:+ unit +:+ nl).

(** [reg] from [first] on, [n] registers. *)
Definition printable (v : Z) : Z := if ((32 <=? v) && (v <=? 126))%bool then v else 95.
Fixpoint show_chars (first : Z) (n : nat) : P unit :=
  match n with
  | O => mret tt
  | S n' => v ← byte first; printf (String (chr (printable v)) EmptyString);; show_chars (first + 1) n'
  end.
Definition sff8079_show_ascii (first last : Z) (name : string) : P unit :=
  printf (tab +:+ pad_right 20 name +:+ ": ");; show_chars first (Z.to_nat (last - first + 1));; printf nl.

Definition sff8079_show_all : P unit :=
  sff8079_show_identifier;;
  a ← byte 0;
  b ← (if a =? 3 then byte 1 else mret 0);
  when ((a =? 3) && (b =? 4))%bool
    (sff8079_show_ext_identifier;;
     sff8079_show_connector;;
     sff8079_show_transceiver;;
     sff8079_show_encoding;;
     sff8079_show_value_with_unit 12 "BR, Nominal" 100 "MBd";;
     sff8079_show_rate_identifier;;
     sff8079_show_value_with_unit 14 "Length (SMF,km)" 1 "km";;
     sff8079_show_value_with_unit 15 "Length (SMF)" 100 "m";;
     sff8079_show_value_with_unit 16 "Length (50um)" 10 "m";;
     sff8079_show_value_with_unit 17 "Length (62.5um)" 10 "m";;
     sff8079_show_value_with_unit 18 "Length (Copper)" 1 "m";;
     sff8079_show_value_with_unit 19 "Length (OM3)" 10 "m";;
     sff8079_show_wavelength_or_copper_compliance;;
     sff8079_show_ascii 20 35 "Vendor name";;
     sff8079_show_oui;;
     sff8079_show_ascii 40 55 "Vendor PN";;
     sff8079_show_ascii 56 59 "Vendor rev").
End sfp.
End EtSfp.
