(* ===== verification/EtDev.v ===== *)
(** * ethtool: driver information, memories, tests and statistics ([ethernet_test/ethtool/ethtool.c])

    The commands that transfer blocks of data between a card and the user. The
    decoders of single drivers ([<driver>_dump_regs], [natsemi_dump_eeprom],
    [tg3_dump_eeprom]) are arguments; EtRegsAll.v gives them. *)

From stdpp Require Import base list strings gmap numbers.
From Stdlib Require Import ZArith Lia Ascii.
From S2P Require Import Prelude CInt CLib RxSpec RxRules RxParse EtCmd EtSet EtLink EtFeat EtSfp.
Import Et EtS EtL EtF.

(** The file a firmware dump is written to: [errno] of the opening, the number of
    bytes written, [errno] of the closing. *)
Class EtFiles (D : Type) : Type := et_fwrite : string -> list Z -> D -> option Z * Z * option Z * D.

Module EtDv.

Definition ETHTOOL_GREGS : Z := 0x04.
Definition ETHTOOL_NWAY_RST : Z := 0x09.
Definition ETHTOOL_GEEPROM : Z := 0x0b.
Definition ETHTOOL_SEEPROM : Z := 0x0c.
Definition ETHTOOL_TEST : Z := 0x1a.
Definition ETHTOOL_PHYS_ID : Z := 0x1c.
Definition ETHTOOL_GSTATS : Z := 0x1d.
Definition ETHTOOL_GPERMADDR : Z := 0x20.
Definition ETHTOOL_FLASHDEV : Z := 0x33.
Definition ETHTOOL_SET_DUMP : Z := 0x3e.
Definition ETHTOOL_GET_DUMP_FLAG : Z := 0x3f.
Definition ETHTOOL_GET_DUMP_DATA : Z := 0x40.
Definition ETHTOOL_GET_TS_INFO : Z := 0x41.
Definition ETHTOOL_GMODULEINFO : Z := 0x42.
Definition ETHTOOL_GMODULEEEPROM : Z := 0x43.
Definition ETH_SS_TEST : Z := 0.
Definition ETH_SS_STATS : Z := 1.
Definition ETH_TEST_FL_OFFLINE : Z := 1.
Definition ETH_TEST_FL_FAILED : Z := 2.
Definition ETH_TEST_FL_EXTERNAL_LB : Z := 4.
Definition ETH_TEST_FL_EXTERNAL_LB_DONE : Z := 8.
Definition ETHTOOL_FLASH_MAX_FILENAME : Z := 128.
Definition ETHTOOL_FLASH_ALL_REGIONS : Z := 0.
Definition MAX_ADDR_LEN : Z := 32.
Definition ETH_MODULE_SFF_8079 : Z := 1.
Definition ETH_MODULE_SFF_8472 : Z := 2.

(** The character arrays of [struct ethtool_drvinfo], 32 bytes each. *)
Definition drv_text (info : ereq) (i : nat) : string := cstr (take 32 (drop (32 * i) (rq_arr info))).
Definition driver (info : ereq) : string := drv_text info 0.

(** Bytes written as they are. *)
Definition raw (l : list Z) : string := String.string_of_list_ascii (chr <$> l).

(** The names of [driver_list]. *)
Definition driver_list : list string :=
  ["8139cp"; "8139too"; "r8169"; "de2104x"; "e1000"; "e1000e"; "igb"; "ixgb"; "ixgbe"; "natsemi"; "e100"; "amd8111e";
   "pcnet32"; "fec_8xx"; "ibm_emac"; "tg3"; "skge"; "sky2"; "vioc"; "smsc911x"; "at76c50x-usb"; "sfc"; "st_mac100";
   "st_gmac"].

Section dev.
Context {D : Type} `{ED : EtDevice D, EF : EtFiles D} `{DataModel} (env : et_env).
Abbreviation P := (M D).
(** Decoders of a driver's registers and EEPROM. *)
Context (regs_func eeprom_func : string -> ereq -> ereq -> P Z).
(** Files that can be read, and the standard input. *)
Context (files : string -> Z + list Z) (stdin : list Z).

Definition yesno (z : Z) : string := if truth z then "yes" else "no".

Definition dump_drvinfo (info : ereq) : P Z :=
  printf ("driver: " +:+ drv_text info 0 +:+ nl +:+ "version: " +:+ drv_text info 1 +:+ nl +:+
          "firmware-version: " +:+ drv_text info 2 +:+ nl +:+ "bus-info: " +:+ drv_text info 3 +:+ nl +:+
          "supports-statistics: " +:+ yesno (fld info "n_stats") +:+ nl +:+
          "supports-test: " +:+ yesno (fld info "testinfo_len") +:+ nl +:+
          "supports-eeprom-access: " +:+ yesno (fld info "eedump_len") +:+ nl +:+
          "supports-register-dump: " +:+ yesno (fld info "regdump_len") +:+ nl +:+
          "supports-priv-flags: " +:+ yesno (fld info "n_priv_flags") +:+ nl);;
  mret 0.

Definition get_drvinfo : P (Z * Z * ereq) := send_ioctl (mk_ereq ETHTOOL_GDRVINFO ∅ []).

Definition do_gdrv (args : list string) : P Z :=
  if truth (Z.of_nat (length args)) then exit_bad_args
  else
    x ← get_drvinfo;
    let '(err, en, drvinfo) := x in
    if err <? 0 then perror env "Cannot get driver information" en;; mret 71 else dump_drvinfo drvinfo.

(** ** Dumps *)

(** [n] more bytes of the block; a byte behind its end is an access outside. *)
Fixpoint hex_lines (n : nat) (data : list Z) (i offset : Z) : P unit :=
  match n with
  | O => mret tt
  | S n' =>
      when (i mod 16 =? 0) (printf (nl +:+ "0x" +:+ hex0 4 (u32 (i + offset)) +:+ ":" +:+ tab +:+ tab));;
      match data with
      | [] => crash
      | b :: data' => printf (hex0 2 b +:+ " ");; hex_lines n' data' (i + 1) offset
      end
  end.
(** [int len]: a length of 2^31 and more counts as negative. *)
Definition dump_hex (data : list Z) (len offset : Z) : P unit :=
  printf ("Offset" +:+ tab +:+ tab +:+ "Values" +:+ nl);;
  printf ("------" +:+ tab +:+ tab +:+ "------");;
  hex_lines (Z.to_nat (s32 len)) data 0 offset;;
  printf nl.
(** [fwrite(data, len, 1, stdout)] *)
Definition dump_raw_bytes (data : list Z) (len : Z) : P unit :=
  if len <=? Z.of_nat (length data) then printf (raw (take (Z.to_nat len) data)) else crash.

(** The registers come from the driver or from a file. *)
Definition dump_regs (dump_raw dump_hex_ : Z) (file : option string) (info regs : ereq) : P Z :=
  if truth dump_raw then dump_raw_bytes (rq_arr regs) (fld regs "len");; mret 0
  else
    r ← match file with
        | None => mret (inr regs)
        | Some f => match files f with
                    | inl en => eprintf ("Can't open '" +:+ f +:+ "': " +:+ ee_strerror env en +:+ nl);; mret (inl tt)
                    | inr l => mret (inr (mk_ereq (rq_cmd regs) (<["len" := Z.of_nat (length l)]> (rq_f regs)) l))
                    end
        end;
    match r with
    | inl _ => mret (-1)
    | inr regs =>
        match (if truth dump_hex_ then None else List.find (fun n => streq n (driver info)) driver_list) with
        | Some n => regs_func n info regs
        | None => dump_hex (rq_arr regs) (fld regs "len") 0;; mret 0
        end
    end.

Definition cmdline_gregs : list cmdline_info := [
  mk_ci "raw" CMDL_BOOL "gregs_dump_raw" "" 0 ""; mk_ci "hex" CMDL_BOOL "gregs_dump_hex" "" 0 "";
  mk_ci "file" CMDL_STR "gregs_dump_file" "" 0 "" ].
Definition do_gregs (args : list string) : P Z :=
  y ← parse_generic_cmdline cmdline_gregs args 0 ∅;
  let m := snd y in
  x ← get_drvinfo;
  let '(err, en, drvinfo) := x in
  if err <? 0 then perror env "Cannot get driver information" en;; mret 72
  else
    let len := fld drvinfo "regdump_len" in
    if negb (ee_malloc env (12 + len)) then perror env "Cannot allocate memory for register dump" ENOMEM;; mret 73
    else
      x ← send_ioctl (mk_ereq ETHTOOL_GREGS (list_to_map [("version", 0); ("len", len)]) (replicate (Z.to_nat len) 0));
      let '(err, en, regs) := x in
      if err <? 0 then perror env "Cannot get register dump" en;; mret 74
      else
        r ← dump_regs (rd m "gregs_dump_raw") (rd m "gregs_dump_hex") (rd_str m "gregs_dump_file") drvinfo regs;
        if r <? 0 then perror env "Cannot dump registers" en;; mret 75 else mret 0.

Definition do_nway_rst (args : list string) : P Z :=
  if truth (Z.of_nat (length args)) then exit_bad_args
  else
    x ← send_value ETHTOOL_NWAY_RST (ee_junk env "edata.data");
    let '(err, en, _) := x in
    when (err <? 0) (perror env "Cannot restart autonegotiation" en);; mret err.

(** ** EEPROM *)

(** The length of a transfer: what was asked for (-1 is all), cut at the end of
    the memory, all in 32 bits. *)
Definition window (size offset length : Z) : Z :=
  let length := if length =? 0xffffffff then size else length in
  if size <? u32 (offset + length) then u32 (size - offset) else length.

Definition dump_eeprom (dump_raw : Z) (info ee : ereq) : P Z :=
  if truth dump_raw then dump_raw_bytes (rq_arr ee) (fld ee "len");; mret 0
  else if streq "natsemi" (driver info) then eeprom_func "natsemi" info ee
  else if streq "tg3" (driver info) then eeprom_func "tg3" info ee
  else dump_hex (rq_arr ee) (fld ee "len") (fld ee "offset");; mret 0.

Definition eeprom_req (cmd magic offset len : Z) (data : list Z) : ereq :=
  mk_ereq cmd (list_to_map [("magic", magic); ("offset", offset); ("len", len)]) data.

Definition cmdline_geeprom : list cmdline_info := [
  mk_ci "offset" CMDL_U32 "geeprom_offset" "" 0 ""; mk_ci "length" CMDL_U32 "geeprom_length" "" 0 "";
  mk_ci "raw" CMDL_BOOL "geeprom_dump_raw" "" 0 "" ].
Definition do_geeprom (args : list string) : P Z :=
  y ← parse_generic_cmdline cmdline_geeprom args 0 (wr ∅ "geeprom_length" 0xffffffff);
  let m := snd y in
  x ← get_drvinfo;
  let '(err, en, drvinfo) := x in
  if err <? 0 then perror env "Cannot get driver information" en;; mret 74
  else
    let offset := rd m "geeprom_offset" in
    let length := window (fld drvinfo "eedump_len") offset (rd m "geeprom_length") in
    if negb (ee_malloc env (16 + length)) then perror env "Cannot allocate memory for EEPROM data" ENOMEM;; mret 75
    else
      x ← send_ioctl (eeprom_req ETHTOOL_GEEPROM 0 offset length (replicate (Z.to_nat length) 0));
      let '(err, en, eeprom) := x in
      if err <? 0 then perror env "Cannot get EEPROM data" en;; mret 74
      else dump_eeprom (rd m "geeprom_dump_raw") drvinfo eeprom.

Definition cmdline_seeprom : list cmdline_info := [
  mk_ci "magic" CMDL_U32 "seeprom_magic" "" 0 ""; mk_ci "offset" CMDL_U32 "seeprom_offset" "" 0 "";
  mk_ci "length" CMDL_U32 "seeprom_length" "" 0 "";
  mk_ci "value" CMDL_U8 "seeprom_value" "" 0 "seeprom_value_seen" ].
(** [eeprom->data[0] = seeprom_value] needs a byte behind the header. *)
Definition do_seeprom (args : list string) : P Z :=
  y ← parse_generic_cmdline cmdline_seeprom args 0 (wr ∅ "seeprom_length" 0xffffffff);
  let m := snd y in
  x ← get_drvinfo;
  let '(err, en, drvinfo) := x in
  if err <? 0 then perror env "Cannot get driver information" en;; mret 74
  else
    let seen := truth (rd m "seeprom_value_seen") in
    let offset := rd m "seeprom_offset" in
    let length := window (fld drvinfo "eedump_len") offset (if seen then 1 else rd m "seeprom_length") in
    if negb (ee_malloc env (16 + length)) then perror env "Cannot allocate memory for EEPROM data" ENOMEM;; mret 75
    else if length =? 0 then crash
    else
      let data := rd m "seeprom_value" :: replicate (Z.to_nat (length - 1)) 0 in
      let input := take (Z.to_nat length) stdin in
      let data := if seen then data else input ++ drop (List.length input) data in
      let len := if seen then length else Z.of_nat (List.length input) in
      x ← send_ioctl (eeprom_req ETHTOOL_SEEPROM (rd m "seeprom_magic") offset len data);
      let '(err, en, _) := x in
      if err <? 0 then perror env "Cannot set EEPROM data" en;; mret 87 else mret err.

(** ** Self test, identification and statistics *)

Fixpoint test_lines (strings : list string) (data : list Z) : P unit :=
  match strings with
  | [] => mret tt
  | s :: strings' =>
      printf (s +:+ tab +:+ " " +:+ dec (s32 (default 0 (data !! 0%nat))) +:+ nl);;
      test_lines strings' (tail data)
  end.
Definition dump_test (test : ereq) (strings : list string) : P Z :=
  let flags := fld test "flags" in
  let rc := Z.land flags ETH_TEST_FL_FAILED in
  printf ("The test result is " +:+ (if truth rc then "FAIL" else "PASS") +:+ nl);;
  when (truth (Z.land flags ETH_TEST_FL_EXTERNAL_LB))
    (printf ("External loopback test was " +:+
       (if truth (Z.land flags ETH_TEST_FL_EXTERNAL_LB_DONE) then "" else "not ") +:+ "executed" +:+ nl));;
  when (truth (Z.of_nat (length strings))) (printf ("The test extra info:" +:+ nl));;
  test_lines strings (rq_arr test);;
  printf nl;;
  mret rc.

(** The flags of the test asked for. *)
Definition test_flags (args : list string) : P Z :=
  match args with
  | [] => mret ETH_TEST_FL_OFFLINE
  | [a] =>
      if streq a "online" then mret 0
      else if streq a "offline" then mret ETH_TEST_FL_OFFLINE
      else if streq a "external_lb" then mret (Z.lor ETH_TEST_FL_OFFLINE ETH_TEST_FL_EXTERNAL_LB)
      else exit_bad_args
  | _ => exit_bad_args
  end.
Definition do_test (args : list string) : P Z :=
  flags ← test_flags args;
  x ← get_stringset env ETH_SS_TEST (Some "testinfo_len") true;
  match x with
  | inl en => perror env "Cannot get strings" en;; mret 74
  | inr strings =>
      let len := Z.of_nat (length strings) in
      if negb (ee_malloc env (16 + len * 8)) then perror env "Cannot allocate memory for test info" ENOMEM;; mret 73
      else
        y ← send_ioctl (mk_ereq ETHTOOL_TEST (list_to_map [("flags", flags); ("reserved", 0); ("len", len)])
                          (replicate (length strings) 0));
        let '(err, en, test) := y in
        if err <? 0 then perror env "Cannot test" en;; mret 74 else dump_test test strings
  end.

Definition do_phys_id (args : list string) : P Z :=
  if (1 <? length args)%nat then exit_bad_args
  else
    t ← match args with a :: _ => get_int (Some a) 0 | [] => mret 0 end;
    x ← send_value ETHTOOL_PHYS_ID (u32 t);
    let '(err, en, _) := x in
    when (err <? 0) (perror env "Cannot identify NIC" en);; mret err.

Fixpoint stat_lines (strings : list string) (data : list Z) : P unit :=
  match strings with
  | [] => mret tt
  | s :: strings' =>
      printf ("     " +:+ s +:+ ": " +:+ dec (default 0 (data !! 0%nat)) +:+ nl);;
      stat_lines strings' (tail data)
  end.
Definition do_gstats (args : list string) : P Z :=
  if truth (Z.of_nat (length args)) then exit_bad_args
  else
    x ← get_stringset env ETH_SS_STATS (Some "n_stats") false;
    match x with
    | inl en => perror env "Cannot get stats strings information" en;; mret 96
    | inr strings =>
        let n_stats := Z.of_nat (length strings) in
        if n_stats <? 1 then eprintf ("no stats available" +:+ nl);; mret 94
        else if negb (ee_malloc env (u32 (n_stats * 8) + 8)) then eprintf ("no memory available" +:+ nl);; mret 95
        else
          y ← send_ioctl (mk_ereq ETHTOOL_GSTATS {["n_stats" := n_stats]} (replicate (length strings) 0));
          let '(err, en, stats) := y in
          if err <? 0 then perror env "Cannot get stats information" en;; mret 97
          else printf ("NIC statistics:" +:+ nl);; stat_lines strings (rq_arr stats);; mret 0
    end.

(** ** Firmware and addresses *)

Definition do_flash (args : list string) : P Z :=
  match args with
  | [] | _ :: _ :: _ :: _ => exit_bad_args
  | flash_file :: rest =>
      region ← match rest with
               | r :: _ => let z := s32 (sv (strtos long_bits 0 r)) in if z <? 0 then exit_bad_args else mret z
               | [] => mret (-1)
               end;
      if ETHTOOL_FLASH_MAX_FILENAME - 1 <? strlen flash_file then printf ("Filename too long" +:+ nl);; mret 99
      else
        x ← send_ioctl (mk_ereq ETHTOOL_FLASHDEV {["region" := if region <? 0 then ETHTOOL_FLASH_ALL_REGIONS else region]}
                          ((cc <$> String.list_ascii_of_string flash_file) ++ [0]));
        let '(err, en, _) := x in
        when (err <? 0) (perror env "Flashing failed" en);; mret err
  end.

Fixpoint addr_bytes (l : list Z) (sep : string) : P unit :=
  match l with
  | [] => mret tt
  | b :: l' => printf (sep +:+ hex0 2 b);; addr_bytes l' ":"
  end.
(** The result of [malloc] is not checked. *)
Definition do_permaddr (args : list string) : P Z :=
  if negb (ee_malloc env (8 + MAX_ADDR_LEN)) then crash
  else
    x ← send_ioctl (mk_ereq ETHTOOL_GPERMADDR {["size" := MAX_ADDR_LEN]} (replicate (Z.to_nat MAX_ADDR_LEN) (ee_junk env "epaddr.data")));
    let '(err, en, r) := x in
    (if err <? 0 then perror env "Cannot read permanent address" en
     else
       printf "Permanent address:";;
       (if fld r "size" <=? Z.of_nat (length (rq_arr r)) then addr_bytes (take (Z.to_nat (fld r "size")) (rq_arr r)) " " else crash);;
       printf nl);;
    mret err.

Definition do_writefwdump (dump : ereq) (dump_file : string) : P Z :=
  let data := take (Z.to_nat (fld dump "len")) (rq_arr dump) in
  x ← devop (fun d => let '(o, b, c, d') := et_fwrite dump_file data d in ((o, b, c), d'));
  let '(opened, bytes, closed) := x in
  match opened with
  | Some en => eprintf ("Can't open file " +:+ dump_file +:+ ": " +:+ ee_strerror env en +:+ nl);; mret 1
  | None =>
      when (Z.of_nat (length (rq_arr dump)) <? fld dump "len") crash;;
      when (negb (bytes =? fld dump "len")) (eprintf ("Can not write all of dump data" +:+ nl));;
      let err := if bytes =? fld dump "len" then 0 else 1 in
      match closed with
      | Some en => eprintf ("Can't close file " +:+ dump_file +:+ ": " +:+ ee_strerror env en +:+ nl);; mret 1
      | None => mret err
      end
  end.

Definition do_getfwdump (args : list string) : P Z :=
  dump_file ← match args with
              | [] => mret None
              | [a; f] => if streq a "data" then mret (Some f) else exit_bad_args
              | _ => exit_bad_args
              end;
  x ← send_ioctl (mk_ereq ETHTOOL_GET_DUMP_FLAG ∅ []);
  let '(err, en, edata) := x in
  if err <? 0 then perror env ("Can not get dump level" +:+ nl) en;; mret 1
  else
    match dump_file with
    | None =>
        printf ("flag: " +:+ dec (fld edata "flag") +:+ ", version: " +:+ dec (fld edata "version") +:+ ", length: " +:+
                dec (fld edata "len") +:+ nl);;
        mret 0
    | Some f =>
        let len := fld edata "len" in
        if negb (ee_malloc env (16 + len)) then perror env ("Can not allocate enough memory" +:+ nl) ENOMEM;; mret 1
        else
          x ← send_ioctl (mk_ereq ETHTOOL_GET_DUMP_DATA (list_to_map [("flag", 0); ("version", 0); ("len", len)])
                            (replicate (Z.to_nat len) 0));
          let '(err, en, data) := x in
          if err <? 0 then perror env ("Can not get dump data" +:+ nl) en;; mret 1 else do_writefwdump data f
    end.

Definition do_setfwdump (args : list string) : P Z :=
  match args with
  | [a] =>
      dump_flag ← get_u32 (Some a) 0;
      x ← send_ioctl (mk_ereq ETHTOOL_SET_DUMP {["flag" := dump_flag]} []);
      let '(err, en, _) := x in
      if err <? 0 then perror env ("Can not set dump level" +:+ nl) en;; mret 1 else mret 0
  | _ => exit_bad_args
  end.

(** ** Energy-efficient Ethernet and time stamps *)

Definition dump_eeecmd (m : store) : P unit :=
  let v f := rd m (cell eeecmd f) in
  printf (tab +:+ "EEE status: ");;
  if negb (truth (v "supported")) then printf ("not supported" +:+ nl)
  else
    (if negb (truth (v "eee_enabled")) then printf ("disabled" +:+ nl)
     else
       printf "enabled - ";;
       if truth (v "eee_active") then printf ("active" +:+ nl) else printf ("inactive" +:+ nl));;
    printf (tab +:+ "Tx LPI:");;
    (if truth (v "tx_lpi_enabled") then printf (" " +:+ dec (s32 (v "tx_lpi_timer")) +:+ " (us)" +:+ nl)
     else printf (" disabled" +:+ nl));;
    dump_link_caps "Supported EEE" "" (v "supported") 1;;
    dump_link_caps "Advertised EEE" "" (v "advertised") 1;;
    dump_link_caps "Link partner advertised EEE" "" (v "lp_advertised") 1.
Definition do_geee (devname : string) (args : list string) : P Z :=
  if truth (Z.of_nat (length args)) then exit_bad_args
  else
    x ← send_struct eeecmd ETHTOOL_GEEE (junk env eeecmd ∅);
    let '(err, en, m) := x in
    if truth err then perror env "Cannot get EEE settings" en;; mret 1
    else printf ("EEE Settings for " +:+ devname +:+ ":" +:+ nl);; dump_eeecmd m;; mret 0.

Definition so_timestamping_labels : list string := [
  "hardware-transmit     (SOF_TIMESTAMPING_TX_HARDWARE)"; "software-transmit     (SOF_TIMESTAMPING_TX_SOFTWARE)";
  "hardware-receive      (SOF_TIMESTAMPING_RX_HARDWARE)"; "software-receive      (SOF_TIMESTAMPING_RX_SOFTWARE)";
  "software-system-clock (SOF_TIMESTAMPING_SOFTWARE)"; "hardware-legacy-clock (SOF_TIMESTAMPING_SYS_HARDWARE)";
  "hardware-raw-clock    (SOF_TIMESTAMPING_RAW_HARDWARE)" ].
Definition tx_type_labels : list string := [
  "off                   (HWTSTAMP_TX_OFF)"; "on                    (HWTSTAMP_TX_ON)";
  "one-step-sync         (HWTSTAMP_TX_ONESTEP_SYNC)" ].
Definition rx_filter_labels : list string := [
  "none                  (HWTSTAMP_FILTER_NONE)"; "all                   (HWTSTAMP_FILTER_ALL)";
  "some                  (HWTSTAMP_FILTER_SOME)"; "ptpv1-l4-event        (HWTSTAMP_FILTER_PTP_V1_L4_EVENT)";
  "ptpv1-l4-sync         (HWTSTAMP_FILTER_PTP_V1_L4_SYNC)"; "ptpv1-l4-delay-req    (HWTSTAMP_FILTER_PTP_V1_L4_DELAY_REQ)";
  "ptpv2-l4-event        (HWTSTAMP_FILTER_PTP_V2_L4_EVENT)"; "ptpv2-l4-sync         (HWTSTAMP_FILTER_PTP_V2_L4_SYNC)";
  "ptpv2-l4-delay-req    (HWTSTAMP_FILTER_PTP_V2_L4_DELAY_REQ)"; "ptpv2-l2-event        (HWTSTAMP_FILTER_PTP_V2_L2_EVENT)";
  "ptpv2-l2-sync         (HWTSTAMP_FILTER_PTP_V2_L2_SYNC)"; "ptpv2-l2-delay-req    (HWTSTAMP_FILTER_PTP_V2_L2_DELAY_REQ)";
  "ptpv2-event           (HWTSTAMP_FILTER_PTP_V2_EVENT)"; "ptpv2-sync            (HWTSTAMP_FILTER_PTP_V2_SYNC)";
  "ptpv2-delay-req       (HWTSTAMP_FILTER_PTP_V2_DELAY_REQ)" ].

(** The labels of the bits that are set. *)
Fixpoint show_labels (mask : Z) (i : Z) (l : list string) : P unit :=
  match l with
  | [] => mret tt
  | s :: l' => when (truth (Z.land mask (Z.shiftl 1 i))) (printf (tab +:+ s +:+ nl));; show_labels mask (i + 1) l'
  end.
Definition dump_tsinfo (info : ereq) : P Z :=
  let phc := s32 (fld info "phc_index") in
  printf ("Capabilities:" +:+ nl);;
  show_labels (fld info "so_timestamping") 0 so_timestamping_labels;;
  printf "PTP Hardware Clock: ";;
  (if phc <? 0 then printf ("none" +:+ nl) else printf (dec phc +:+ nl));;
  printf "Hardware Transmit Timestamp Modes:";;
  (if negb (truth (fld info "tx_types")) then printf (" none" +:+ nl) else printf nl);;
  show_labels (fld info "tx_types") 0 tx_type_labels;;
  printf "Hardware Receive Filter Modes:";;
  (if negb (truth (fld info "rx_filters")) then printf (" none" +:+ nl) else printf nl);;
  show_labels (fld info "rx_filters") 0 rx_filter_labels;;
  mret 0.
Definition do_tsinfo (devname : string) (args : list string) : P Z :=
  if truth (Z.of_nat (length args)) then exit_bad_args
  else
    printf ("Time stamping parameters for " +:+ devname +:+ ":" +:+ nl);;
    x ← send_ioctl (mk_ereq ETHTOOL_GET_TS_INFO ∅ []);
    let '(err, en, info) := x in
    if truth err then perror env "Cannot get device time stamping settings" en;; mret (-1)
    else _ ← dump_tsinfo info; mret 0.

(** ** Plug-in modules *)

Definition cmdline_module : list cmdline_info := [
  mk_ci "offset" CMDL_U32 "geeprom_offset" "" 0 ""; mk_ci "length" CMDL_U32 "geeprom_length" "" 0 "";
  mk_ci "raw" CMDL_BOOL "geeprom_dump_raw" "" 0 ""; mk_ci "hex" CMDL_BOOL "geeprom_dump_hex" "" 0 "" ].
Definition do_getmodule (args : list string) : P Z :=
  y ← parse_generic_cmdline cmdline_module args 0 (wr ∅ "geeprom_length" 0xffffffff);
  let m := snd y in
  let dump_raw := truth (rd m "geeprom_dump_raw") in
  let dump_hex_ := truth (rd m "geeprom_dump_hex") in
  if (dump_raw && dump_hex_)%bool then printf ("Hex and raw dump cannot be specified together" +:+ nl);; mret 1
  else
    x ← send_ioctl (mk_ereq ETHTOOL_GMODULEINFO ∅ []);
    let '(err, en, modinfo) := x in
    if err <? 0 then perror env "Cannot get module EEPROM information" en;; mret 1
    else
      let size := fld modinfo "eeprom_len" in
      let offset := rd m "geeprom_offset" in
      let length := window size offset (rd m "geeprom_length") in
      if negb (ee_malloc env (16 + length)) then perror env "Cannot allocate memory for Module EEPROM data" ENOMEM;; mret 1
      else
        x ← send_ioctl (eeprom_req ETHTOOL_GMODULEEEPROM 0 offset length (replicate (Z.to_nat length) 0));
        let '(err, en, ee) := x in
        if err <? 0 then perror env "Cannot get Module EEPROM data" en;; mret 1
        else
          let hexdump := dump_hex (rq_arr ee) (fld ee "len") (fld ee "offset") in
          (if dump_raw then dump_raw_bytes (rq_arr ee) (fld ee "len")
           else if (negb (fld ee "offset" =? 0) || negb (fld ee "len" =? size))%bool then hexdump
           else if dump_hex_ then hexdump
           else if ((fld modinfo "type" =? ETH_MODULE_SFF_8079) || (fld modinfo "type" =? ETH_MODULE_SFF_8472))%bool
           then EtSfp.sff8079_show_all (rq_arr ee)
           else hexdump);;
          mret 0.
End dev.
End EtDv.
