(* ===== verification/EtMain.v ===== *)
(** * ethtool: command table and entry point ([ethernet_test/ethtool/ethtool.c], last part)

    [main] looks its first argument up in the table of options, checks the
    device name, opens the control socket and runs the command. *)

From stdpp Require Import base list strings gmap numbers.
From Stdlib Require Import ZArith Lia Ascii.
From S2P Require Import Prelude CInt CLib RxSpec RxRules RxInsert RxParse EtCmd EtSet EtLink EtFeat EtIndir EtRx EtDev.
Import Et EtS EtL EtF EtI EtR EtDv.

Module EtM.

Definition IFNAMSIZ : Z := 16.

(** The functions of the table. *)
Inductive cmd : Type :=
| C_do_sset | C_do_gpause | C_do_spause | C_do_gcoalesce | C_do_scoalesce | C_do_gring
| C_do_sring | C_do_gfeatures | C_do_sfeatures | C_do_gdrv | C_do_gregs | C_do_geeprom
| C_do_seeprom | C_do_nway_rst | C_do_phys_id | C_do_test | C_do_gstats | C_do_grxclass
| C_do_srxclass | C_do_tsinfo | C_do_grxfhindir | C_do_srxfhindir | C_do_flash | C_do_permaddr
| C_do_getfwdump | C_do_setfwdump | C_do_gchannels | C_do_schannels | C_do_gprivflags | C_do_sprivflags
| C_do_getmodule | C_do_geee | C_do_seee | C_show_usage | C_do_version.

#[export] Instance cmd_eq_dec : EqDecision cmd.
Proof. solve_decision. Defined.

(** A line of help: two tabs, three tabs or fifteen spaces before the text. *)
Definition t2 (s : string) : string := tab +:+ tab +:+ s +:+ nl.
Definition t3 (s : string) : string := tab +:+ tab +:+ tab +:+ s +:+ nl.
Definition spc (s : string) : string := "               " +:+ s +:+ nl.

(** [struct option]; no lines of help is NULL. *)
Record option_ := mk_opt { opts : string; want_device : bool; func : cmd; help : string; opthelp : list string }.
Definition args_table : list option_ := [
  mk_opt "-s|--change" true C_do_sset "Change generic options"
    [t2 "[ speed %d ]"; t2 "[ duplex half|full ]"; t2 "[ port tp|aui|bnc|mii|fibre ]"; t2 "[ mdix auto|on|off ]";
     t2 "[ autoneg on|off ]"; t2 "[ advertise %x ]"; t2 "[ phyad %d ]"; t2 "[ xcvr internal|external ]";
     t2 "[ wol p|u|m|b|a|g|s|d... ]"; t2 "[ sopass %x:%x:%x:%x:%x:%x ]"; t2 "[ msglvl %d | msglvl type on|off ... ]"];
  mk_opt "-a|--show-pause" true C_do_gpause "Show pause options" [];
  mk_opt "-A|--pause" true C_do_spause "Set pause options"
    [t2 "[ autoneg on|off ]"; t2 "[ rx on|off ]"; t2 "[ tx on|off ]"];
  mk_opt "-c|--show-coalesce" true C_do_gcoalesce "Show coalesce options" [];
  mk_opt "-C|--coalesce" true C_do_scoalesce "Set coalesce options"
    [t2 "[adaptive-rx on|off]"; t2 "[adaptive-tx on|off]"; t2 "[rx-usecs N]"; t2 "[rx-frames N]";
     t2 "[rx-usecs-irq N]"; t2 "[rx-frames-irq N]"; t2 "[tx-usecs N]"; t2 "[tx-frames N]"; t2 "[tx-usecs-irq N]";
     t2 "[tx-frames-irq N]"; t2 "[stats-block-usecs N]"; t2 "[pkt-rate-low N]"; t2 "[rx-usecs-low N]";
     t2 "[rx-frames-low N]"; t2 "[tx-usecs-low N]"; t2 "[tx-frames-low N]"; t2 "[pkt-rate-high N]";
     t2 "[rx-usecs-high N]"; t2 "[rx-frames-high N]"; t2 "[tx-usecs-high N]"; t2 "[tx-frames-high N]";
     t2 "[sample-interval N]"];
  mk_opt "-g|--show-ring" true C_do_gring "Query RX/TX ring parameters" [];
  mk_opt "-G|--set-ring" true C_do_sring "Set RX/TX ring parameters"
    [t2 "[ rx N ]"; t2 "[ rx-mini N ]"; t2 "[ rx-jumbo N ]"; t2 "[ tx N ]"];
  mk_opt "-k|--show-features|--show-offload" true C_do_gfeatures "Get state of protocol offload and other features" [];
  mk_opt "-K|--features|--offload" true C_do_sfeatures "Set protocol offload and other features"
    [t2 "FEATURE on|off ..."];
  mk_opt "-i|--driver" true C_do_gdrv "Show driver information" [];
  mk_opt "-d|--register-dump" true C_do_gregs "Do a register dump"
    [t2 "[ raw on|off ]"; t2 "[ file FILENAME ]"];
  mk_opt "-e|--eeprom-dump" true C_do_geeprom "Do a EEPROM dump"
    [t2 "[ raw on|off ]"; t2 "[ offset N ]"; t2 "[ length N ]"];
  mk_opt "-E|--change-eeprom" true C_do_seeprom "Change bytes in device EEPROM"
    [t2 "[ magic N ]"; t2 "[ offset N ]"; t2 "[ length N ]"; t2 "[ value N ]"];
  mk_opt "-r|--negotiate" true C_do_nway_rst "Restart N-WAY negotiation" [];
  mk_opt "-p|--identify" true C_do_phys_id "Show visible port identification (e.g. blinking)"
    [spc "[ TIME-IN-SECONDS ]"];
  mk_opt "-t|--test" true C_do_test "Execute adapter self test"
    [spc "[ online | offline | external_lb ]"];
  mk_opt "-S|--statistics" true C_do_gstats "Show adapter statistics" [];
  mk_opt "-n|-u|--show-nfc|--show-ntuple" true C_do_grxclass "Show Rx network flow classification options or rules"
    [t2 "[ rx-flow-hash tcp4|udp4|ah4|esp4|sctp4|tcp6|udp6|ah6|esp6|sctp6 |"; t2 "  rule %d ]"];
  mk_opt "-N|-U|--config-nfc|--config-ntuple" true C_do_srxclass "Configure Rx network flow classification options or rules"
    [t2 "rx-flow-hash tcp4|udp4|ah4|esp4|sctp4|tcp6|udp6|ah6|esp6|sctp6 m|v|t|s|d|f|n|r... |";
     t2 "flow-type ether|ip4|tcp4|udp4|sctp4|ah4|esp4"; t3 "[ src %x:%x:%x:%x:%x:%x [m %x:%x:%x:%x:%x:%x] ]";
     t3 "[ dst %x:%x:%x:%x:%x:%x [m %x:%x:%x:%x:%x:%x] ]"; t3 "[ proto %d [m %x] ]";
     t3 "[ src-ip %d.%d.%d.%d [m %d.%d.%d.%d] ]"; t3 "[ dst-ip %d.%d.%d.%d [m %d.%d.%d.%d] ]";
     t3 "[ tos %d [m %x] ]"; t3 "[ l4proto %d [m %x] ]"; t3 "[ src-port %d [m %x] ]"; t3 "[ dst-port %d [m %x] ]";
     t3 "[ spi %d [m %x] ]"; t3 "[ vlan-etype %x [m %x] ]"; t3 "[ vlan %x [m %x] ]"; t3 "[ user-def %x [m %x] ]";
     t3 "[ action %d ]"; t3 "[ loc %d]] |"; t2 "delete %d"];
  mk_opt "-T|--show-time-stamping" true C_do_tsinfo "Show time stamping capabilities" [];
  mk_opt "-x|--show-rxfh-indir" true C_do_grxfhindir "Show Rx flow hash indirection" [];
  mk_opt "-X|--set-rxfh-indir" true C_do_srxfhindir "Set Rx flow hash indirection"
    [t2 "equal N | weight W0 W1 ..."];
  mk_opt "-f|--flash" true C_do_flash "Flash firmware image from the specified file to a region on the device"
    [spc "FILENAME [ REGION-NUMBER-TO-FLASH ]"];
  mk_opt "-P|--show-permaddr" true C_do_permaddr "Show permanent hardware address" [];
  mk_opt "-w|--get-dump" true C_do_getfwdump "Get dump flag, data"
    [t2 "[ data FILENAME ]"];
  mk_opt "-W|--set-dump" true C_do_setfwdump "Set dump flag of the device"
    [t2 "N"];
  mk_opt "-l|--show-channels" true C_do_gchannels "Query Channels" [];
  mk_opt "-L|--set-channels" true C_do_schannels "Set Channels"
    [spc "[ rx N ]"; spc "[ tx N ]"; spc "[ other N ]"; spc "[ combined N ]"];
  mk_opt "--show-priv-flags" true C_do_gprivflags "Query private flags" [];
  mk_opt "--set-priv-flags" true C_do_sprivflags "Set private flags"
    [t2 "FLAG on|off ..."];
  mk_opt "-m|--dump-module-eeprom" true C_do_getmodule "Qeuery/Decode Module EEPROM information"
    [t2 "[ raw on|off ]"; t2 "[ hex on|off ]"; t2 "[ offset N ]"; t2 "[ length N ]"];
  mk_opt "--show-eee" true C_do_geee "Show EEE settings" [];
  mk_opt "--set-eee" true C_do_seee "Set EEE settings"
    [t2 "[ eee on|off ]"; t2 "[ advertise %x ]"; t2 "[ tx-lpi on|off ]"; t2 "[ tx-timer %d ]"];
  mk_opt "-h|--help" false C_show_usage "Show this help" [];
  mk_opt "--version" false C_do_version "Show version number" [] ].

(** [strcspn(opt, "|")] and what follows the separator. *)
Fixpoint split_bar (s cur : string) : list string :=
  match s with
  | EmptyString => [cur]
  | String c s' => if cc c =? 124 then cur :: split_bar s' EmptyString else split_bar s' (cur +:+ String c EmptyString)
  end.
(** The alternatives of an entry. *)
Definition alternatives (o : option_) : list string := split_bar (opts o) EmptyString.
Definition find_option (arg : string) : option option_ :=
  List.find (fun o => existsb (streq arg) (alternatives o)) args_table.

Section main.
Context `{DM : DataModel} {D : Type} `{RD : RxDevice D} `{ED : EtDevice D} `{EF : EtFiles D} (env : et_env).
Abbreviation P := (M D).
Context (regs_func eeprom_func : string -> ereq -> ereq -> P Z).
Context (files : string -> Z + list Z) (stdin : list Z) (sysfs : string -> option string).
(** [PACKAGE] and [VERSION] of the build, and [errno] when there is no socket. *)
Context (PACKAGE VERSION : string) (socket : option Z).

Definition do_version : P Z := printf (PACKAGE +:+ " version " +:+ VERSION +:+ nl);; mret 0.

Fixpoint show_options (l : list option_) : P unit :=
  match l with
  | [] => mret tt
  | o :: l' =>
      printf "        ethtool ";;
      printf (opts o +:+ " " +:+ (if want_device o then "DEVNAME" else tab) +:+ tab +:+ help o +:+ nl);;
      when (negb (length (opthelp o) =? 0)%nat) (printf (String.concat "" (opthelp o)));;
      show_options l'
  end.
Definition show_usage : P Z :=
  printf (PACKAGE +:+ " version " +:+ VERSION +:+ nl);;
  printf ("Usage:" +:+ nl +:+ "        ethtool DEVNAME" +:+ tab +:+ "Display standard information about device" +:+ nl);;
  show_options args_table;;
  mret 0.

Definition run_cmd (c : cmd) (devname : string) (args : list string) : P Z :=
  match c with
  | C_do_sset => do_sset env args
  | C_do_gpause => do_gpause env devname args
  | C_do_spause => do_spause env args
  | C_do_gcoalesce => do_gcoalesce env devname args
  | C_do_scoalesce => do_scoalesce env args
  | C_do_gring => do_gring env devname args
  | C_do_sring => do_sring env args
  | C_do_gfeatures => do_gfeatures env sysfs devname args
  | C_do_sfeatures => do_sfeatures env sysfs devname args
  | C_do_gdrv => do_gdrv env args
  | C_do_gregs => do_gregs env regs_func files args
  | C_do_geeprom => do_geeprom env eeprom_func args
  | C_do_seeprom => do_seeprom env stdin args
  | C_do_nway_rst => do_nway_rst env args
  | C_do_phys_id => do_phys_id env args
  | C_do_test => do_test env args
  | C_do_gstats => do_gstats env args
  | C_do_grxclass => do_grxclass env args
  | C_do_srxclass => do_srxclass env args
  | C_do_tsinfo => do_tsinfo env devname args
  | C_do_grxfhindir => do_grxfhindir env devname args
  | C_do_srxfhindir => do_srxfhindir env args
  | C_do_flash => do_flash env args
  | C_do_permaddr => do_permaddr env args
  | C_do_getfwdump => do_getfwdump env args
  | C_do_setfwdump => do_setfwdump env args
  | C_do_gchannels => do_gchannels env devname args
  | C_do_schannels => do_schannels env args
  | C_do_gprivflags => do_gprivflags env devname args
  | C_do_sprivflags => do_sprivflags env args
  | C_do_getmodule => do_getmodule env args
  | C_do_geee => do_geee env devname args
  | C_do_seee => do_seee env args
  | C_show_usage => show_usage
  | C_do_version => do_version
  end.

(** The device name, the control socket and the command. *)
Definition with_device (f : string -> list string -> P Z) (args : list string) : P Z :=
  match args with
  | [] => exit_bad_args
  | devname :: rest =>
      if IFNAMSIZ <=? strlen devname then exit_bad_args
      else match socket with
           | Some en => perror env "Cannot get control socket" en;; mret 70
           | None => f devname rest
           end
  end.

Definition main (args : list string) : P Z :=
  match args with
  | [] => exit_bad_args
  | a :: rest =>
      match find_option a with
      | Some o => if want_device o then with_device (run_cmd (func o)) rest else run_cmd (func o) "" rest
      | None => if char_at0 a =? 45 then exit_bad_args else with_device (do_gset env) args
      end
  end.
End main.
End EtM.
