(* ===== verification/EtClaims.v ===== *)
(** * ethtool: the properties of the command layer *)

From stdpp Require Import base list strings gmap numbers.
From Stdlib Require Import ZArith Lia Ascii.
From S2P Require Import Prelude CInt CLib RxSpec RxRules RxRulesOk RxInsert RxParse RxParseOk EtCmd EtSet EtSetOk EtLink EtLinkOk EtFeat EtFeatOk EtIndir EtRx EtRxOk.
Import Et EtS EtL EtI EtR.

Definition demo_rx_env : rx_env :=
  {| env_junk := mk_rxnfc 0 0 zero_spec 0 []; env_calloc := fun _ => true; env_errno := "errno" |}.
Definition demo_et_env : et_env :=
  {| ee_rx := demo_rx_env; ee_strerror := fun _ => "error"; ee_junk := fun _ => 0; ee_malloc := fun _ => true |}.

(** ** Parameters *)

(** The commands that change parameters. *)
Inductive param_cmd : Type := CPause | CRing | CChannels | CCoalesce | CEee.

Definition cmd_info (c : param_cmd) : list cmdline_info :=
  match c with
  | CPause => cmdline_pause | CRing => cmdline_ring | CChannels => cmdline_channels | CCoalesce => cmdline_coalesce
  | CEee => cmdline_eee
  end.
Definition cmd_struct (c : param_cmd) : cstruct :=
  match c with CPause => epause | CRing => ering | CChannels => echannels | CCoalesce => ecoal | CEee => eeecmd end.
Definition cmd_get (c : param_cmd) : Z :=
  match c with
  | CPause => ETHTOOL_GPAUSEPARAM | CRing => ETHTOOL_GRINGPARAM | CChannels => ETHTOOL_GCHANNELS
  | CCoalesce => ETHTOOL_GCOALESCE | CEee => ETHTOOL_GEEE
  end.
Definition cmd_set (c : param_cmd) : Z :=
  match c with
  | CPause => ETHTOOL_SPAUSEPARAM | CRing => ETHTOOL_SRINGPARAM | CChannels => ETHTOOL_SCHANNELS
  | CCoalesce => ETHTOOL_SCOALESCE | CEee => ETHTOOL_SEEE
  end.
(** Results when nothing changes and when the kernel refuses. *)
Definition cmd_same (c : param_cmd) : Z := match c with CPause => 78 | CRing | CCoalesce => 80 | CChannels => 1 | CEee => 0 end.
Definition cmd_fail (c : param_cmd) : Z := match c with CPause => 79 | CRing | CCoalesce => 81 | CChannels | CEee => 1 end.

Section params.
Context {D : Type} `{ED : EtDevice D} (env : et_env).

Definition cmd_run (c : param_cmd) : list string -> M D Z :=
  match c with
  | CPause => do_spause env | CRing => do_sring env | CChannels => do_schannels env | CCoalesce => do_scoalesce env
  | CEee => do_seee env
  end.

(** C16: a set command changes what the command line asks for and nothing else.
    A line that is not a sequence of known names with values ends the program
    with 1 and the device untouched. Otherwise the last value given for each
    parameter applies, unless it is negative; when all of them are the current
    values the device is untouched, and otherwise it receives exactly one set
    request with all other fields as they were read. *)
Theorem set_command_applies (cur : D -> string -> Z) (c : param_cmd) (args : list string) (s : st D) :
  reads cur (cmd_get c) (cmd_struct c) -> args <> [] ->
  wp (cmd_run c args) s (fun r s' =>
    match spec_args (cmd_info c) args with
    | None => r = Exit 1 /\ dev s' = dev s
    | Some vals =>
        if no_change cur (cmd_struct c) vals (dev s) then r = Ret (cmd_same c) /\ dev s' = dev s
        else let '(err, _, _, d') := et_ioctl (mk_ereq (cmd_set c) (new_fields cur (cmd_struct c) vals (dev s)) []) (dev s) in
             dev s' = d' /\ r = Ret (if truth err then cmd_fail c else 0)
    end).
Proof.
  intros Hr Hargs. pose proof tables_ok as Ht. rewrite !andb_true_iff in Ht. destruct Ht as [[[[T1 T2] T3] T4] T5].
  assert (cmd_run CEee args = set_params env cmdline_eee eeecmd ETHTOOL_GEEE ETHTOOL_SEEE "Cannot get EEE settings" 1
    (fun _ => mret 0) "Cannot set EEE settings" 1 args) as Eee.
  { cbn [cmd_run]. unfold do_seee. by destruct args. }
  destruct c; [| | | |rewrite Eee]; (eapply wp_mono; [eapply set_params_ok; [eassumption|exact Hr]|]);
    intros r s' H; (destruct (spec_args _ args) as [vals|]; [|done]); (destruct (no_change _ _ _ _); [|exact H]);
    destruct H as (m & s1 & Hd & E & _); injection E as <- <-; (split; [done|exact Hd]).
Qed.
End params.

(** A card that keeps its pause parameters. *)
Definition pause_card (q : ereq) (d : gmap string Z) : Z * Z * ereq * gmap string Z :=
  if rq_cmd q =? ETHTOOL_SPAUSEPARAM then (0, 0, q, rq_f q)
  else (0, 0, mk_ereq (rq_cmd q) (list_to_map ((fun f => (f, u32 (default 0 (d !! f)))) <$> cs_fields epause)) [], d).
Definition pause_cur (d : gmap string Z) (f : string) : Z := u32 (default 0 (d !! f)).

Lemma set_command_applies_witness :
  wp (@cmd_run _ pause_card demo_et_env CPause ["rx"; "on"; "tx"; "off"]) (mkst [] {["tx_pause" := 1]}) (fun r s' =>
    r = Ret 0 /\ dev s' !! "rx_pause" = Some 1 /\ dev s' !! "tx_pause" = Some 0).
Proof.
  eapply wp_mono; [apply (@set_command_applies _ pause_card demo_et_env pause_cur CPause ["rx"; "on"; "tx"; "off"])|].
  - intros q d Hq. exists 0. eexists. split; [unfold et_ioctl, pause_card; by rewrite Hq|].
    intros f Hf. cbn [rq_f cmd_struct epause cs_fields] in *.
    repeat (apply elem_of_cons in Hf as [->|Hf]; [split; [reflexivity|by apply (wrapu_range 32)]|]).
    by apply not_elem_of_nil in Hf.
  - done.
  - intros r [o w] H. vm_compute in H. destruct H as [-> ->]. by vm_compute.
Defined.

(** ** Link settings *)

(** C17: changing link settings: when the arguments of [-s] are link parameters,
    the settings are read once and written back once, and the structure written
    is the one read with the last value given for each parameter in its field;
    the advertised modes become the ones given, or the mode that speed and
    duplex name, or all supported modes of the program's list when negotiation is
    turned on, or stay; every other field stays. *)
Theorem sset_applies {D : Type} `{ED : EtDevice D} (env : et_env) (cur : D -> string -> Z) (args : list string)
    (vals : gmap string Z) (s : st D) :
  reads cur ETHTOOL_GSET ecmd -> link_args args = Some vals -> args <> [] ->
  runs (do_sset env args) s (fun r s' => r = 0 /\
    dev s' = (et_ioctl (mk_ereq ETHTOOL_SSET (link_fields (wants vals) (cur (dev s))) []) (dev s)).2).
Proof. apply do_sset_ok. Qed.

(** A card that keeps its link settings. *)
Definition link_card (q : ereq) (d : gmap string Z) : Z * Z * ereq * gmap string Z :=
  if rq_cmd q =? ETHTOOL_SSET then (0, 0, q, rq_f q)
  else (0, 0, mk_ereq (rq_cmd q) (list_to_map ((fun f => (f, u32 (default 0 (d !! f)))) <$> cs_fields ecmd)) [], d).

Lemma sset_applies_witness :
  runs (@do_sset _ link_card demo_et_env ["speed"; "1000"; "duplex"; "full"]) (mkst [] {["advertising" := 0x1003]})
    (fun r s' => r = 0 /\ dev s' !! "speed" = Some 1000 /\ dev s' !! "duplex" = Some 1 /\ dev s' !! "advertising" = Some 0x1020).
Proof.
  eapply runs_mono; [apply (@sset_applies _ link_card demo_et_env pause_cur ["speed"; "1000"; "duplex"; "full"]
    {["speed_wanted" := 1000; "duplex_wanted" := 1]})|].
  - intros q d Hq. exists 0. eexists. split; [unfold et_ioctl, link_card; by rewrite Hq|].
    intros f Hf. cbn [rq_f ecmd cs_fields] in *.
    repeat (apply elem_of_cons in Hf as [->|Hf]; [split; [reflexivity|by apply (wrapu_range 32)]|]).
    by apply not_elem_of_nil in Hf.
  - by vm_compute.
  - done.
  - intros r [o w] [-> E]. cbn [dev] in E. rewrite E. by vm_compute.
Defined.

(** ** Flags and features *)

(** C38: private flags: a line in which every name is a flag of the driver and has
    a value of on or off leads to one set request, in which a flag is on when it
    was turned on anywhere in the line, off when it was only turned off, and as it
    was when it was not named; any other line ends the program with 1 and the
    device untouched. *)
Theorem sprivflags_sets {D : Type} `{ED : EtDevice D} (env : et_env) (names : list string) (cur : D -> Z)
    (args : list string) (s : st D) :
  has_names env EtF.ETH_SS_PRIV_FLAGS (Some "n_priv_flags") names -> names <> [] -> NoDup (take 32 names) ->
  (forall n, ee_malloc env n = true) -> reads_value EtF.ETHTOOL_GPFLAGS cur ->
  wp (EtF.do_sprivflags env args) s (fun r s' =>
    if flags_ok (EtF.priv_info 0 (take 32 names)) args then
      exists v, (forall k, 0 <= k -> Z.testbit v k = match take 32 names !! Z.to_nat k with
                   | Some n => if turned_on (flag_pairs args) n then true
                               else if named (flag_pairs args) n then false else Z.testbit (cur (dev s)) k
                   | None => Z.testbit (cur (dev s)) k
                   end) /\
        let '(err, _, _, d') := et_ioctl (mk_ereq EtF.ETHTOOL_SPFLAGS {["data" := v]} []) (dev s) in
        dev s' = d' /\ r = Ret (if truth err then 1 else 0)
    else r = Exit 1 /\ dev s' = dev s).
Proof. apply do_sprivflags_ok. Qed.

(** A card with private flags. *)
Definition str_bytes (s : string) : list Z :=
  (cc <$> String.list_ascii_of_string s) ++ replicate (32 - String.length s) 0.
Definition flag_card (names : list string) (q : ereq) (d : Z) : Z * Z * ereq * Z :=
  if rq_cmd q =? EtF.ETHTOOL_GSSET_INFO then (0, 0, mk_ereq (rq_cmd q) (rq_f q) [Z.of_nat (length names)], d)
  else if rq_cmd q =? EtF.ETHTOOL_GSTRINGS then (0, 0, mk_ereq (rq_cmd q) (rq_f q) (mjoin (str_bytes <$> names)), d)
  else if rq_cmd q =? EtF.ETHTOOL_SPFLAGS then (0, 0, q, default 0 (rq_f q !! "data"))
  else if rq_cmd q =? EtF.ETHTOOL_GPFLAGS then (0, 0, mk_ereq (rq_cmd q) {["data" := u32 d]} [], d)
  else (0, 0, mk_ereq (rq_cmd q) {["data" := 0]} [], d).

Lemma sprivflags_sets_witness :
  wp (@EtF.do_sprivflags _ (flag_card ["led"; "eco"]) demo_et_env ["eco"; "on"; "led"; "off"]) (mkst [] 5) (fun r s' =>
    r = Ret 0 /\ Z.testbit (dev s') 0 = false /\ Z.testbit (dev s') 1 = true /\ Z.testbit (dev s') 2 = true).
Proof.
  eapply wp_mono; [apply (@sprivflags_sets _ (flag_card ["led"; "eco"]) demo_et_env ["led"; "eco"] u32
    ["eco"; "on"; "led"; "off"])|].
  - intros [o d]. eexists. split; [reflexivity|reflexivity].
  - done.
  - by apply (bool_decide_unpack _); vm_compute.
  - done.
  - intros q d Hq. exists 0. eexists. unfold et_ioctl, flag_card. rewrite Hq.
    split; [reflexivity|]. split; [reflexivity|by apply (wrapu_range 32)].
  - intros r [o w] H. change (flags_ok _ _) with true in H. cbv iota in H. destruct H as (v & Hv & Hd & ->).
    cbn [dev] in *. assert (w = v) as -> by exact Hd. split; [done|].
    rewrite (Hv 0), (Hv 1), (Hv 2) by done. by vm_compute.
Defined.

(** C18: offload features: when every name of the line is a feature or a flag of
    the older interface with a value, the kernel receives one request, in which a
    feature is marked for change exactly when it was named, or its flag was named
    and the driver lets it change; a feature that was named is turned on when it
    was turned on by name, another one when its flag was. Any other line ends the
    program with 1 and the device untouched. *)
Theorem sfeatures_request {D : Type} `{ED : EtDevice D} `{DM : DataModel} (env : et_env) (sysfs : string -> option string)
    (devname : string) (names : list string) (cur : D -> EtF.feature_state) (args : list string) (s : st D) :
  has_names env EtF.ETH_SS_FEATURES None names -> names <> [] ->
  NoDup ((EtF.short_name <$> EtF.off_flag_def) ++ names) -> (forall n, ee_malloc env n = true) ->
  reads_features env sysfs devname (EtF.make_defs names) cur -> args <> [] ->
  wp (EtF.do_sfeatures env sysfs devname args) s (fun r s' =>
    if flags_ok (EtF.cmdline_features (EtF.make_defs names)) args then
      exists req, (forall j, (j < length names)%nat -> exists v w,
          req !! (2 * (j / 32))%nat = Some v /\ req !! (2 * (j / 32) + 1)%nat = Some w /\
          (Z.testbit v (Z.of_nat (j mod 32)), Z.testbit w (Z.of_nat (j mod 32))) =
          feature_asked (flag_pairs args) (EtF.features (cur (dev s))) (EtF.make_defs names) j) /\
        let blocks := EtF.FEATURE_BITS_TO_BLOCKS (Z.of_nat (length names)) in
        let '(err, _, _, d') := et_ioctl (mk_ereq EtF.ETHTOOL_SFEATURES {["size" := blocks]} req) (dev s) in
        dev s' = d' /\ if err <? 0 then r = Ret 1 else r = Ret 0 \/ r = Ret 1
    else r = Exit 1 /\ dev s' = dev s).
Proof. apply do_sfeatures_ok. Qed.

(** A card with features that can all be changed; it keeps the words requested. *)
Definition feature_card (names : list string) (q : ereq) (d : list Z) : Z * Z * ereq * list Z :=
  if rq_cmd q =? EtF.ETHTOOL_GSSET_INFO then (0, 0, mk_ereq (rq_cmd q) (rq_f q) [Z.of_nat (length names)], d)
  else if rq_cmd q =? EtF.ETHTOOL_GSTRINGS then (0, 0, mk_ereq (rq_cmd q) (rq_f q) (mjoin (str_bytes <$> names)), d)
  else if rq_cmd q =? EtF.ETHTOOL_SFEATURES then (0, 0, q, rq_arr q)
  else if rq_cmd q =? EtF.ETHTOOL_GFEATURES then (0, 0, mk_ereq (rq_cmd q) (rq_f q) (3 :: d), d)
  else (0, 0, mk_ereq (rq_cmd q) {["data" := 0]} [], d).

Lemma sfeatures_request_witness :
  wp (@EtF.do_sfeatures _ (feature_card ["rx-checksum"; "tx-tcp-segmentation"]) demo_et_env LP64 (fun _ => None) "eth0" ["tso"; "on"])
    (mkst [] [0; 0; 0]) (fun r s' => (r = Ret 0 \/ r = Ret 1) /\ exists w, dev s' !! 1%nat = Some w /\
       Z.testbit w 0 = false /\ Z.testbit w 1 = true).
Proof.
  eapply wp_mono; [apply (@sfeatures_request _ (feature_card ["rx-checksum"; "tx-tcp-segmentation"]) LP64 demo_et_env (fun _ => None)
    "eth0" ["rx-checksum"; "tx-tcp-segmentation"] (fun d => EtF.mk_fstate 0 (3 :: d)) ["tso"; "on"])|].
  - intros [o d]. eexists. split; [reflexivity|reflexivity].
  - done.
  - by apply (bool_decide_unpack _); vm_compute.
  - done.
  - intros [o d]. exists (mkst o d). split; [vm_compute; reflexivity|reflexivity].
  - done.
  - intros r [o w] H. change (flags_ok _ _) with true in H. cbv iota in H. destruct H as (req & Hr & Hd & He). cbn [dev] in *.
    assert (w = req) as -> by exact Hd. split; [exact He|].
    destruct (Hr 0%nat ltac:(cbn; lia)) as (v0 & w0 & _ & E0 & B0). destruct (Hr 1%nat ltac:(cbn; lia)) as (v1 & w1 & _ & E1 & B1).
    change (2 * (0 / 32) + 1)%nat with 1%nat in E0. change (2 * (1 / 32) + 1)%nat with 1%nat in E1. rewrite E0 in E1. injection E1 as <-.
    exists w0. split; [exact E0|].
    assert (forall a b c d e : bool, (a, b) = (c, d) -> d = e -> b = e) as Hsnd by (intros; congruence).
    split; [by apply (Hsnd _ _ _ _ _ B0); vm_compute|by apply (Hsnd _ _ _ _ _ B1); vm_compute].
Defined.

(** ** Option letters *)

Lemma wol_letter_range c d v : 0 <= d < 2 ^ 7 -> wol_letter c d = Some v -> 0 <= v < 2 ^ 7.
Proof.
  intros Hd. unfold wol_letter. repeat case_match; intros [= <-]; try (by split); by apply lor_range.
Qed.

Lemma parse_wol_range s : forall d v, 0 <= d < 2 ^ 7 -> parse_letters wol_letter s d = Some v -> 0 <= v < 2 ^ 7.
Proof.
  induction s as [|c s IH]; intros d v Hd; cbn [parse_letters]; [by intros [= <-]|].
  destruct (wol_letter c d) as [d'|] eqn:E; [|done]. apply IH. by eapply wol_letter_range.
Qed.

Lemma wol_all : forallb (fun w => bool_decide (parse_wolopts (unparse_wolopts w) = Some w) && (strlen (unparse_wolopts w) <? 16))%bool
  (seqZ 0 128) = true.
Proof. by vm_compute. Qed.

(** The wake-on-LAN letters: a set of options is printed in letters that are
    read back as the same set, whichever way they were first given, and the text
    fits its buffer of 16 characters. *)
Theorem wolopts_roundtrip (s : string) (w : Z) :
  parse_wolopts s = Some w ->
  parse_wolopts (unparse_wolopts w) = Some w /\ strlen (unparse_wolopts w) < 16.
Proof.
  intros H. apply parse_wol_range in H; [|done]. pose proof wol_all as Ha. rewrite forallb_forall in Ha.
  specialize (Ha w). rewrite andb_true_iff, bool_decide_eq_true, Z.ltb_lt in Ha. apply Ha.
  apply list_elem_of_In, elem_of_seqZ. lia.
Qed.

Lemma wolopts_roundtrip_witness : parse_wolopts (unparse_wolopts 0x23) = Some 0x23 /\ strlen (unparse_wolopts 0x23) < 16.
Proof. apply (wolopts_roundtrip "gpu" 0x23). by vm_compute. Defined.

(** ** The indirection table *)

(** C28: the weights of [-X] are spread over the indirection table as asked: when
    they are not all zero and fit the table, entry [i] of the one table sent to
    the device is the ring whose share of the table covers [i], the shares being
    consecutive and proportional to the weights, rounded down at their ends;
    otherwise the program ends with 1 and the device is untouched. *)
Theorem indir_weights {D : Type} `{ED : EtDevice D} (env : et_env) (ws : list string) (l : list Z) (size : Z) (s : st D) :
  (forall q d, rq_cmd q = ETHTOOL_GRXFHINDIR -> exists en r, et_ioctl q d = (0, en, r, d) /\ fld r "size" = size) ->
  0 <= size < 65536 -> (forall n, ee_malloc env n = true) -> ws <> [] -> Forall2 (@weighs D) ws l ->
  Z.of_nat (length l) < 2 ^ 32 -> total l < 2 ^ 32 ->
  wp (do_srxfhindir env ("weight" :: ws)) s (fun r s' =>
    if ((total l =? 0) || (size <? total l))%bool then r = Exit 1 /\ dev s' = dev s
    else exists T, length T = Z.to_nat size /\
      (forall i j, T !! i = Some j -> exists k, j = Z.of_nat k /\ (k < length l)%nat /\
         size * before l k / total l <= Z.of_nat i < size * before l (S k) / total l) /\
      let '(err, _, _, d') := et_ioctl (mk_ereq ETHTOOL_SRXFHINDIR {["size" := size]} T) (dev s) in
      dev s' = d' /\ r = Ret (if err <? 0 then 105 else 0)).
Proof.
  intros Hget Hs Hm Hne Hws Hlen Ht. unfold do_srxfhindir. destruct ws as [|a more]; [done|].
  apply wp_bind, wp_ret, wp_bind, wp_send_ioctl.
  destruct (Hget (mk_ereq ETHTOOL_GRXFHINDIR {["size" := 0]} []) (dev s) eq_refl) as (en & r & -> & Er).
  change (0 <? 0) with false. cbv iota. rewrite Er, Hm. cbn [negb]. apply wp_bind.
  eapply wp_mono; [by apply (weight_table_ok (a :: more) l size)|]. intros r1 s1 [Hd Hr]. cbn [dev] in Hd.
  destruct (_ || _)%bool; [by rewrite Hr|]. destruct Hr as (T & -> & HT & Hc). apply wp_bind, wp_send_ioctl.
  rewrite Hd. destruct (et_ioctl _ (dev s)) as [[[err en'] r'] d'] eqn:E.
  destruct (err <? 0) eqn:Ee; [apply wp_bind, wp_eprintf, wp_ret|apply wp_ret]; (exists T; split; [done|]; split; [exact Hc|]);
    rewrite E, Ee; done.
Qed.

(** A card with a table of 8 entries. *)
Definition indir_card (q : ereq) (d : list Z) : Z * Z * ereq * list Z :=
  if rq_cmd q =? ETHTOOL_SRXFHINDIR then (0, 0, q, rq_arr q) else (0, 0, mk_ereq (rq_cmd q) {["size" := 8]} d, d).

Lemma indir_weights_witness :
  wp (@do_srxfhindir _ indir_card demo_et_env ["weight"; "1"; "0"; "2"]) (mkst [] []) (fun r s' =>
    exists T, length T = 8%nat /\ dev s' = T /\ r = Ret 0 /\ forall i j, T !! i = Some j -> exists k, j = Z.of_nat k /\ (k < 3)%nat /\
      8 * before [1; 0; 2] k / 3 <= Z.of_nat i < 8 * before [1; 0; 2] (S k) / 3).
Proof.
  eapply wp_mono; [apply (@indir_weights _ indir_card demo_et_env ["1"; "0"; "2"] [1; 0; 2] 8)|].
  - intros q d Hq. exists 0. eexists. unfold et_ioctl, indir_card. rewrite Hq. by split.
  - done.
  - done.
  - done.
  - by repeat (constructor; [by split|]).
  - done.
  - done.
  - intros r s' (T & H1 & H2 & H3 & H4). exists T. split; [exact H1|]. split; [exact H3|]. split; [exact H4|exact H2].
Defined.

(** ** Receive classification *)

(** C32: a rule and its n-tuple form treat packets alike: whenever a rule
    that does not compare a VLAN type is converted, the n-tuple (whose mask bits
    mean the opposite, and which knows no [FLOW_EXT]) matches exactly the packets
    the rule matches, in the flow type, the headers, the VLAN tag and the user
    data, and its action is the rule's. (The conversion of a rule that compares a
    VLAN type is wrong.) *)
Theorem ntuple_same_match (fsp : spec) (nt : ntuple) (p : packet) :
  wf_spec fsp -> flow_spec_to_ntuple fsp = Some nt ->
  (Z.testbit (getf fsp flow_type) 31 = true -> getf fsp (m_ext flow_ext.vlan_etype) = 0) ->
  length (pk_hdr p) = 72%nat ->
  (ntuple_match nt p <-> nfc_match fsp p) /\ nt_action nt = rule_action (getf fsp ring_cookie).
Proof. intros Hwf. by apply ntuple_match_ok. Qed.

(** TCP over IPv4 with a VLAN tag, to queue 3. *)
Definition tcp_rule : spec :=
  setf (setf (setf (setf (setf zero_spec location RX_CLS_LOC_ANY) flow_type (TCP_V4_FLOW + FLOW_EXT))
    (h_ext flow_ext.vlan_tci) 5) (m_ext flow_ext.vlan_tci) 0xff) ring_cookie 3.

Lemma wf_tcp_rule : wf_spec tcp_rule.
Proof. repeat apply wf_setf; try apply wf_zero_spec; by vm_compute. Qed.

Lemma ntuple_same_match_witness :
  exists nt, flow_spec_to_ntuple tcp_rule = Some nt /\ nt_action nt = 3 /\
    (ntuple_match nt (mk_packet TCP_V4_FLOW (replicate 72 7) (ntohs 5) 0 6) <->
     nfc_match tcp_rule (mk_packet TCP_V4_FLOW (replicate 72 7) (ntohs 5) 0 6)).
Proof.
  destruct (flow_spec_to_ntuple tcp_rule) as [nt|] eqn:E; [|by vm_compute in E]. exists nt. split; [reflexivity|].
  destruct (ntuple_same_match tcp_rule nt (mk_packet TCP_V4_FLOW (replicate 72 7) (ntohs 5) 0 6)) as [H1 H2].
  - exact wf_tcp_rule.
  - exact E.
  - intros _. vm_compute. reflexivity.
  - reflexivity.
  - split; [|exact H1]. rewrite H2. vm_compute. reflexivity.
Defined.

(** C20: adding a rule, from the command line to the table: on a driver without
    n-tuple filters that lets the program choose locations, the command ends
    with a usage error and no change, or the arguments describe a rule in which
    every option given is present and nothing else is set; a rule without a
    location then leaves the table as it is or is added at a location that was
    free, and a rule with a location is given to the driver as it is. *)
Theorem srxclass_adds_rule `{DM : DataModel} {D : Type} `{RD : RxDevice D, !RxDriver D} `{ED : EtDevice D} (env : et_env)
    (name : string) (rest : list string) (s : st D) :
  no_ntuple (dev s) -> selects (dev s) = false ->
  wp (do_srxclass env ("flow-type" :: name :: rest)) s (fun r s' =>
    (r = Exit 1 /\ dev s' = dev s) \/
    exists p c, rule_of (name :: rest) p /\ r = Ret c /\
      if truth (Z.land (getf p location) RX_CLS_LOC_SPECIAL)
      then rules (dev s') = rules (dev s) \/
           (c = 0 /\ exists loc, 0 <= loc < table_size (dev s) /\ rules (dev s) !! loc = None /\
              rules (dev s') = <[loc := setf p location loc]> (rules (dev s)))
      else c = 0 /\ exists q, nfc_cmd q = ETHTOOL_SRXCLSRLINS /\ nfc_fs q = p /\ dev s' = (RxSpec.send_ioctl q (dev s)).2).
Proof.
  intros Hn Hsel. assert (do_srxclass env ("flow-type" :: name :: rest) = add_rule env (name :: rest)) as ->
    by (by destruct rest as [|? [|]]).
  by apply add_rule_ok.
Qed.

Definition no_filters (q : ereq) (d : tbl) : Z * Z * ereq * tbl := (0, 0, mk_ereq (rq_cmd q) {["data" := 0]} [], d).
Definition demo_rules : tbl := mk_tbl {[ 9 := zero_spec; 8 := zero_spec ]} 10 false.

Lemma srxclass_adds_rule_witness :
  wp (@do_srxclass LP64 tbl _ no_filters demo_et_env ["flow-type"; "tcp4"; "dst-port"; "80"; "action"; "2"]) (mkst [] demo_rules)
    (fun r s' => (r = Exit 1 /\ dev s' = demo_rules) \/
      exists p c, rule_of ["tcp4"; "dst-port"; "80"; "action"; "2"] p /\ r = Ret c).
Proof.
  eapply wp_mono; [apply (@srxclass_adds_rule LP64 tbl _ _ no_filters demo_et_env "tcp4" ["dst-port"; "80"; "action"; "2"])|].
  - intros q Hq. exists 0, 0. eexists. split; [reflexivity|done].
  - done.
  - intros r s' [H | (p & c & H1 & H2 & _)]; [by left|]. right. by exists p, c.
Defined.
