(* ===== verification/CFmt.v ===== *)
(** * Format strings of [printf] and reads from a block of memory

    [sprintf] interprets a format as it is written in the source, escape
    sequences included; a conversion without an argument of its kind is a crash
    of [fprintf]. [fmt_ok] decides from the kinds of the arguments that this
    cannot happen. [ld] reads a little-endian value from a block; a read outside
    the block is a crash. [shows] is the specification of code that only writes
    text. *)

From stdpp Require Import base list strings option numbers.
From Stdlib Require Import ZArith Lia Ascii.
From S2P Require Import Prelude CInt CLib.

(** ** Formats *)

(** An argument of [printf]: an integer or a string. *)
Inductive parg : Type := PI (z : Z) | PS (s : string).
Definition is_int (a : parg) : bool := match a with PI _ => true | PS _ => false end.

(** A conversion being read: flags [-] and [0], field width, and the bits of the
    argument ([None]: as it is, after [l] or [z]). *)
Record conv := mk_conv { c_left : bool; c_zero : bool; c_width : Z; c_bits : option Z }.
Definition conv0 : conv := mk_conv false false 0 (Some 32).

Inductive fmt_mode : Type := Text | Escape | Conv (c : conv).

Definition escape (c : ascii) : ascii :=
  match c with "n"%char => chr 10 | "t"%char => chr 9 | _ => c end.

Definition padded (cv : conv) (s : string) : string :=
  if c_left cv then pad_right (c_width cv) s else pad_left (chr 32) (c_width cv) s.
Definition fmt_num (cv : conv) (neg : bool) (digits : string) : string :=
  let sign := if neg then String (chr 45) EmptyString else EmptyString in
  if (c_zero cv && negb (c_left cv))%bool then sign +:+ pad_left (chr 48) (c_width cv - strlen sign) digits
  else padded cv (sign +:+ digits).
Definition unsigned_arg (cv : conv) (z : Z) : Z := match c_bits cv with Some w => wrapu w z | None => z end.
Definition signed_arg (cv : conv) (z : Z) : Z := match c_bits cv with Some w => wraps w z | None => z end.

(** What the character after [%] and its flags asks for. *)
Inductive conv_kind : Type := KFlag | KPercent | KStar | KInt | KStr | KBad.
Definition kind_of (c : ascii) : conv_kind :=
  match c with
  | "%"%char => KPercent
  | "*"%char => KStar
  | "-"%char | "l"%char | "z"%char | "h"%char => KFlag
  | "d"%char | "i"%char | "u"%char | "x"%char | "X"%char | "c"%char => KInt
  | "s"%char => KStr
  | _ => if isdigit c then KFlag else KBad
  end.
Definition flag (cv : conv) (c : ascii) : conv :=
  match c with
  | "-"%char => mk_conv true (c_zero cv) (c_width cv) (c_bits cv)
  | "l"%char | "z"%char => mk_conv (c_left cv) (c_zero cv) (c_width cv) None
  | "h"%char => mk_conv (c_left cv) (c_zero cv) (c_width cv) (Some 16)
  | _ => if ((cc c =? 48) && (c_width cv =? 0))%bool then mk_conv (c_left cv) true 0 (c_bits cv)
         else mk_conv (c_left cv) (c_zero cv) (c_width cv * 10 + (cc c - 48)) (c_bits cv)
  end.
Definition int_text (cv : conv) (c : ascii) (z : Z) : string :=
  match c with
  | "d"%char | "i"%char => let v := signed_arg cv z in fmt_num cv (v <? 0) (dec (Z.abs v))
  | "u"%char => fmt_num cv false (dec (unsigned_arg cv z))
  | "x"%char => fmt_num cv false (hex (unsigned_arg cv z))
  | "X"%char => fmt_num cv false (hexU (unsigned_arg cv z))
  | _ => padded cv (String (chr (u8 z)) EmptyString)
  end.

(** A width given as an argument; a negative one asks for the left. *)
Definition star_width (cv : conv) (z : Z) : conv :=
  mk_conv (c_left cv || (z <? 0))%bool (c_zero cv) (Z.abs z) (c_bits cv).

Fixpoint fmt (m : fmt_mode) (f : string) (args : list parg) : option string :=
  match f with
  | EmptyString => match m with Text => Some EmptyString | _ => None end
  | String c f' =>
      match m with
      | Text =>
          if cc c =? 37 then fmt (Conv conv0) f' args
          else if cc c =? 92 then fmt Escape f' args
          else String c <$> fmt Text f' args
      | Escape => String (escape c) <$> fmt Text f' args
      | Conv cv =>
          match kind_of c, args with
          | KFlag, _ => fmt (Conv (flag cv c)) f' args
          | KPercent, _ => String c <$> fmt Text f' args
          | KStar, PI z :: args' => fmt (Conv (star_width cv z)) f' args'
          | KInt, PI z :: args' => String.append (int_text cv c z) <$> fmt Text f' args'
          | KStr, PS x :: args' => String.append (padded cv x) <$> fmt Text f' args'
          | _, _ => None
          end
      end
  end.
Definition sprintf (f : string) (args : list parg) : option string := fmt Text f args.

(** The text of a string literal. *)
Definition lit (s : string) : string := default EmptyString (fmt Text s []).

(** ** Checking formats *)

(** The format asks for exactly these kinds of arguments ([true]: an integer). *)
Fixpoint fmt_ok_in (m : fmt_mode) (f : string) (ks : list bool) : bool :=
  match f with
  | EmptyString => match m, ks with Text, [] => true | _, _ => false end
  | String c f' =>
      match m with
      | Text => if cc c =? 37 then fmt_ok_in (Conv conv0) f' ks
                else if cc c =? 92 then fmt_ok_in Escape f' ks else fmt_ok_in Text f' ks
      | Escape => fmt_ok_in Text f' ks
      | Conv cv =>
          match kind_of c, ks with
          | KFlag, _ => fmt_ok_in (Conv cv) f' ks
          | KPercent, _ => fmt_ok_in Text f' ks
          | KStar, true :: ks' => fmt_ok_in (Conv cv) f' ks'
          | KInt, true :: ks' => fmt_ok_in Text f' ks'
          | KStr, false :: ks' => fmt_ok_in Text f' ks'
          | _, _ => false
          end
      end
  end.
Definition fmt_ok (f : string) (ks : list bool) : bool := fmt_ok_in Text f ks.

(** What a format asks for does not depend on flags and widths. *)
Definition same_mode (m m' : fmt_mode) : Prop :=
  match m, m' with
  | Text, Text | Escape, Escape | Conv _, Conv _ => True
  | _, _ => False
  end.

Lemma fmt_total f : forall m m' args, same_mode m m' -> fmt_ok_in m' f (is_int <$> args) = true ->
  is_Some (fmt m f args).
Proof.
  induction f as [|c f IH]; intros m m' args Hm Hok; [destruct m, m'; try done; by exists EmptyString|].
  destruct m as [| |cv], m' as [| |cv']; try done; cbn [fmt fmt_ok_in] in *.
  - destruct (cc c =? 37); [by eapply (IH (Conv conv0) (Conv conv0))|].
    destruct (cc c =? 92); [by eapply (IH Escape Escape)|]. apply fmap_is_Some. by eapply (IH Text Text).
  - apply fmap_is_Some. by eapply (IH Text Text).
  - destruct (kind_of c); try done;
      [by eapply (IH _ (Conv cv'))|apply fmap_is_Some; by eapply (IH Text Text)|..];
      destruct args as [|[z|s] args]; try done; cbn in Hok;
      [by eapply (IH _ (Conv cv'))|..]; apply fmap_is_Some; by eapply (IH Text Text).
Qed.

Lemma fmt_ok_sound f args : fmt_ok f (is_int <$> args) = true -> is_Some (sprintf f args).
Proof. intros H. by apply (fmt_total f Text Text). Qed.

(** ** Writing and reading *)

Section io.
Context {W : Type}.

Definition fprintf (f : string) (args : list parg) : M W unit :=
  match sprintf f args with Some x => printf x | None => crash end.
Definition efprintf (f : string) (args : list parg) : M W unit :=
  match sprintf f args with Some x => eprintf x | None => crash end.

(** [n] bytes at an offset of a block, as an unsigned number. *)
Definition ld (n : nat) (data : list Z) (off : Z) : M W Z :=
  if ((0 <=? off) && (off + Z.of_nat n <=? Z.of_nat (length data)))%bool
  then mret (le_val (take n (drop (Z.to_nat off) data))) else crash.

(** An element of a constant array. *)
Definition elem {A} (l : list A) (i : Z) : M W A :=
  if i <? 0 then crash else match l !! Z.to_nat i with Some a => mret a | None => crash end.

(** Code that returns and does nothing but write text. *)
Definition shows {A} (m : M W A) (Q : A -> Prop) : Prop := forall s, runs m s (fun a s' => dev s' = dev s /\ Q a).

Lemma shows_mono {A} (m : M W A) (P Q : A -> Prop) : shows m P -> (forall a, P a -> Q a) -> shows m Q.
Proof. intros H HPQ s. eapply runs_mono; [apply H|]. naive_solver. Qed.

Lemma shows_ret {A} (a : A) (Q : A -> Prop) : Q a -> shows (mret a) Q.
Proof. intros H s. by apply runs_ret. Qed.

Lemma shows_bind {A B} (m : M W A) (f : A -> M W B) (P : A -> Prop) (Q : B -> Prop) :
  shows m P -> (forall a, P a -> shows (f a) Q) -> shows (m ≫= f) Q.
Proof.
  intros Hm Hf s. apply runs_bind. eapply runs_mono; [apply Hm|]. intros a s' [E Pa].
  eapply runs_mono; [by apply Hf|]. intros b s'' [E' Qb]. by rewrite E', E.
Qed.

(** The common case: a command followed by the rest. *)
Lemma shows_seq {A B} (m : M W A) (k : A -> M W B) (Q : B -> Prop) :
  shows m (fun _ => True) -> (forall a, shows (k a) Q) -> shows (m ≫= k) Q.
Proof. intros Hm Hk. eapply shows_bind; [done|]. intros a _. apply Hk. Qed.

Lemma shows_printf x (Q : unit -> Prop) : Q tt -> shows (printf x) Q.
Proof. intros H s. by apply runs_printf. Qed.

Lemma shows_eprintf x (Q : unit -> Prop) : Q tt -> shows (eprintf x) Q.
Proof. intros H s. by apply runs_eprintf. Qed.

Lemma shows_fprintf f args (Q : unit -> Prop) : fmt_ok f (is_int <$> args) = true -> Q tt -> shows (fprintf f args) Q.
Proof. intros H HQ. unfold fprintf. destruct (fmt_ok_sound f args H) as [x ->]. by apply shows_printf. Qed.

Lemma shows_efprintf f args (Q : unit -> Prop) : fmt_ok f (is_int <$> args) = true -> Q tt -> shows (efprintf f args) Q.
Proof. intros H HQ. unfold efprintf. destruct (fmt_ok_sound f args H) as [x ->]. by apply shows_eprintf. Qed.

Lemma shows_ld n data off (Q : Z -> Prop) :
  0 <= off -> off + Z.of_nat n <= Z.of_nat (length data) -> (forall v, Q v) -> shows (ld n data off) Q.
Proof.
  intros Ho Hl HQ. unfold ld. rewrite (proj2 (Z.leb_le _ _) Ho), (proj2 (Z.leb_le _ _) Hl). by apply shows_ret.
Qed.

Lemma shows_elem {A} (l : list A) i (Q : A -> Prop) :
  0 <= i < Z.of_nat (length l) -> (forall a, Q a) -> shows (elem l i) Q.
Proof.
  intros Hi HQ. unfold elem. rewrite (proj2 (Z.ltb_ge i 0)) by lia.
  destruct (lookup_lt_is_Some_2 l (Z.to_nat i)) as [a ->]; [lia|]. by apply shows_ret.
Qed.

Lemma shows_if {A} (b : bool) (m1 m2 : M W A) (Q : A -> Prop) :
  shows m1 Q -> shows m2 Q -> shows (if b then m1 else m2) Q.
Proof. by destruct b. Qed.

Lemma shows_when (b : bool) (m : M W unit) (Q : unit -> Prop) : shows m Q -> Q tt -> shows (when b m) Q.
Proof. destruct b; [done|]. intros _. by apply shows_ret. Qed.

Lemma shows_for n i (body : Z -> M W unit) :
  (forall k, i <= k < i + Z.of_nat n -> shows (body k) (fun _ => True)) -> shows (for_ n i body) (fun _ => True).
Proof.
  revert i. induction n as [|n IH]; intros i Hb; cbn [for_]; [by apply shows_ret|].
  apply shows_seq; [apply Hb; lia|]. intros _. apply IH. intros k Hk. apply Hb. lia.
Qed.

(** Code that shows something leaves the device alone and returns. *)
Lemma shows_runs {A} (m : M W A) (Q : A -> Prop) s :
  shows m Q -> exists a s', m s = (Ret a, s') /\ dev s' = dev s /\ Q a.
Proof. intros H. destruct (H s) as (a & s' & E & Ed & HQ). by exists a, s'. Qed.
End io.

(** A bit field is in range of a table of its size. *)
Lemma land_lt x n : 0 <= n -> 0 <= Z.land x (Z.ones n) < 2 ^ n.
Proof. intros Hn. rewrite Z.land_ones by done. apply Z.mod_pos_bound. by apply Z.pow_pos_nonneg. Qed.

(** Lemmas that some code shows something, found by the name of the code. *)
Create HintDb shows discriminated.
#[export] Hint Constants Opaque : shows.

(** One step of a proof of [shows]. *)
Ltac shows_step :=
  lazymatch goal with
  | |- shows (mbind _ (fprintf _ _)) _ => apply shows_seq; [apply shows_fprintf; [vm_compute; reflexivity|exact I]|intros _]
  | |- shows (mbind _ (ld _ _ _)) _ => apply shows_seq; [apply shows_ld; [lia|lia|done]|intros ?]
  | |- shows (mbind _ (mbind _ _)) _ => apply shows_seq; [|intros ?]
  | |- shows (mbind _ _) _ => apply shows_seq; [|intros ?]
  | |- shows (fprintf _ _) _ => apply shows_fprintf; [vm_compute; reflexivity|done]
  | |- shows (efprintf _ _) _ => apply shows_efprintf; [vm_compute; reflexivity|done]
  | |- shows (ld _ _ _) _ => apply shows_ld; [lia|lia|done]
  | |- shows (mret _) _ => apply shows_ret; done
  | |- shows (printf _) _ => apply shows_printf; done
  | |- shows (eprintf _) _ => apply shows_eprintf; done
  | |- shows (when _ _) _ => apply shows_when; [|done]
  | |- shows (if _ then _ else _) _ => apply shows_if
  | |- shows (let _ := _ in _) _ => intro
  | |- shows (for_ _ _ _) _ => apply shows_for; intros ? ?
  end.
Ltac shows_all := repeat (shows_step || (progress cbv beta zeta)); auto with shows.

Example sprintf_ex1 : sprintf "0x%04x\t%-6s|%3d%%|%*s\n" [PI 0x2b; PS "ab"; PI 4294967295; PI 3; PS "x"] =
  Some ("0x002b" +:+ String (chr 9) "ab    | -1%|  x" +:+ String (chr 10) "").
Proof. vm_compute. reflexivity. Qed.
