(* ===== verification/EtRegs.v ===== *)
(** * ethtool: register dumps, common part ([ethernet_test/ethtool/internal.h])

    What the decoders of single drivers share: the registers are a block of
    bytes behind [struct ethtool_regs], seen as 8-, 16- or 32-bit words. A
    decoder that only shows them satisfies [dumps]. *)

From stdpp Require Import base list strings gmap numbers.
From Stdlib Require Import ZArith Lia.
From S2P Require Import Prelude CInt CLib CFmt EtCmd EtSet.
Import Et EtS.

(** [a & b] as a condition. *)
Notation "a &? b" := (truth (Z.land a b)) (at level 50).

Section words.
Context {D : Type}.

(** [regs->data] as an array of 8-, 16- and 32-bit words. *)
Definition data8 (regs : ereq) (i : Z) : M D Z := ld 1 (rq_arr regs) i.
Definition data16 (regs : ereq) (i : Z) : M D Z := ld 2 (rq_arr regs) (2 * i).
Definition regs_buff (regs : ereq) (i : Z) : M D Z := ld 4 (rq_arr regs) (4 * i).

Lemma shows_data8 regs i (Q : Z -> Prop) :
  0 <= i -> i + 1 <= Z.of_nat (length (rq_arr regs)) -> (forall v, Q v) -> shows (data8 regs i) Q.
Proof. intros. apply shows_ld; [lia|lia|done]. Qed.

Lemma shows_data16 regs i (Q : Z -> Prop) :
  0 <= i -> 2 * i + 2 <= Z.of_nat (length (rq_arr regs)) -> (forall v, Q v) -> shows (data16 regs i) Q.
Proof. intros. apply shows_ld; [lia|lia|done]. Qed.

Lemma shows_regs_buff regs i (Q : Z -> Prop) :
  0 <= i -> 4 * i + 4 <= Z.of_nat (length (rq_arr regs)) -> (forall v, Q v) -> shows (regs_buff regs i) Q.
Proof. intros. apply shows_ld; [lia|lia|done]. Qed.

(** The bound checked by computation, for a constant index. *)
Lemma shows_regs_buff_at n regs i (Q : Z -> Prop) :
  n <= Z.of_nat (length (rq_arr regs)) -> ((0 <=? i) && (4 * i + 4 <=? n))%bool = true -> (forall v, Q v) -> shows (regs_buff regs i) Q.
Proof. intros Hl Hi HQ. apply shows_regs_buff; [lia|lia|done]. Qed.

(** With [n] bytes of registers the decoder shows them, or refuses them with a
    negative result; nothing else happens. *)
Definition dumps (n : Z) (f : ereq -> ereq -> M D Z) : Prop :=
  forall info regs, n <= Z.of_nat (length (rq_arr regs)) -> shows (f info regs) (fun _ => True).
End words.

(** A bit field [(x >> k) & m] as an index. *)
Lemma land_below x m n : 0 <= m -> m < n -> 0 <= Z.land x m < n.
Proof.
  intros Hm Hn. split; [apply Z.land_nonneg; by right|].
  assert (Z.ldiff m x + Z.land x m = m) as E.
  { rewrite Z.add_nocarry_lxor; apply Z.bits_inj'; intros k _;
      rewrite ?Z.lxor_spec, ?Z.land_spec, ?Z.ldiff_spec, ?Z.land_spec, ?Z.bits_0; by destruct (Z.testbit m k), (Z.testbit x k). }
  pose proof (proj2 (Z.ldiff_nonneg m x) (or_introl Hm)). lia.
Qed.

Ltac regs_word :=
  first [eapply shows_regs_buff_at; [eassumption|vm_compute; reflexivity|done]
        |apply shows_regs_buff; [lia|lia|done]].
Ltac regs_step :=
  lazymatch goal with
  | |- shows (mbind _ (regs_buff _ _)) _ => apply shows_seq; [regs_word|intros ?]
  | |- shows (mbind _ (data8 _ _)) _ => apply shows_seq; [apply shows_data8; [lia|lia|done]|intros ?]
  | |- shows (mbind _ (data16 _ _)) _ => apply shows_seq; [apply shows_data16; [lia|lia|done]|intros ?]
  | |- shows (mbind _ (elem _ (Z.land _ _))) _ =>
      apply shows_seq; [apply shows_elem; [apply land_below; vm_compute; congruence || reflexivity|done]|intros ?]
  | |- shows (regs_buff _ _) _ => regs_word
  | |- shows (data16 _ _) _ => apply shows_data16; [lia|lia|done]
  | |- shows (data8 _ _) _ => apply shows_data8; [lia|lia|done]
  | |- _ => shows_step
  end.
Ltac regs_all := repeat (regs_step || (progress cbv beta zeta)); auto with shows.
