(* ===== verification/EtIgb.v ===== *)
(** * ethtool: registers of the igb driver ([ethernet_test/ethtool/igb.c]) *)

From stdpp Require Import base list strings gmap numbers.
From Stdlib Require Import ZArith Lia.
From S2P Require Import Prelude CInt CLib CFmt EtCmd EtSet EtFeat EtRegs.
Import Et EtS EtF.

Module EtIgb.

Definition E1000_CTRL_ILOS : Z := 0x00000080.
Definition E1000_CTRL_RFCE : Z := 0x08000000.
Definition E1000_CTRL_TFCE : Z := 0x10000000.
Definition E1000_CTRL_VME : Z := 0x40000000.
Definition E1000_CTRL_SLU : Z := 0x00000040.
Definition E1000_CTRL_ADVD3WUC : Z := 0x00100000.
Definition E1000_CTRL_ASDE : Z := 0x00000020.
Definition E1000_CTRL_SPD_SEL : Z := 0x00000300.
Definition E1000_CTRL_SPD_1000 : Z := 0x00000200.
Definition E1000_CTRL_SPD_100 : Z := 0x00000100.
Definition E1000_CTRL_SPD_10 : Z := 0x00000000.
Definition E1000_CTRL_FRCSPD : Z := 0x00000800.
Definition E1000_CTRL_FRCDPX : Z := 0x00001000.
Definition E1000_STATUS_FD : Z := 0x00000001.
Definition E1000_STATUS_LU : Z := 0x00000002.
Definition E1000_STATUS_TXOFF : Z := 0x00000010.
Definition E1000_STATUS_DMA_CGEN : Z := 0x80000000.
Definition E1000_STATUS_TBIMODE : Z := 0x00000020.
Definition E1000_STATUS_SPEED_MASK : Z := 0x000000c0.
Definition E1000_STATUS_SPEED_1000 : Z := 0x00000080.
Definition E1000_STATUS_SPEED_100 : Z := 0x00000040.
Definition E1000_STATUS_SPEED_10 : Z := 0x00000000.
Definition E1000_RCTL_EN : Z := 0x00000002.
Definition E1000_RCTL_SBP : Z := 0x00000004.
Definition E1000_RCTL_UPE : Z := 0x00000008.
Definition E1000_RCTL_MPE : Z := 0x00000010.
Definition E1000_RCTL_LPE : Z := 0x00000020.
Definition E1000_RCTL_RDMTS : Z := 0x00000300.
Definition E1000_RCTL_RDMTS_EIGTH : Z := 0x00000200.
Definition E1000_RCTL_RDMTS_QUAT : Z := 0x00000100.
Definition E1000_RCTL_RDMTS_HALF : Z := 0x00000000.
Definition E1000_RCTL_BAM : Z := 0x00008000.
Definition E1000_RCTL_VFE : Z := 0x00040000.
Definition E1000_RCTL_CFIEN : Z := 0x00080000.
Definition E1000_RCTL_DPF : Z := 0x00400000.
Definition E1000_RCTL_PMCF : Z := 0x00800000.
Definition E1000_RCTL_LBM_MASK : Z := 0x000000c0.
Definition E1000_RCTL_LBM_SERDES : Z := 0x000000c0.
Definition E1000_RCTL_LBM_MAC : Z := 0x00000040.
Definition E1000_RCTL_LBM_NORM : Z := 0x00000000.
Definition E1000_RCTL_BSIZE : Z := 0x00030000.
Definition E1000_RCTL_BSIZE_512 : Z := 0x00020000.
Definition E1000_RCTL_BSIZE_1024 : Z := 0x00010000.
Definition E1000_RCTL_BSIZE_2048 : Z := 0x00000000.
Definition E1000_TCTL_EN : Z := 0x00000002.
Definition E1000_TCTL_PSP : Z := 0x00000008.
Definition E1000_TCTL_SWXOFF : Z := 0x00400000.
Definition E1000_TCTL_RTLC : Z := 0x01000000.

Section regs.
Context {D : Type}.
Abbreviation P := (M D).

Definition igb_dump_regs_1 (regs : ereq) : P unit :=
  reg ← regs_buff regs 0;
  fprintf ("0x00000: CTRL (Device control register)               0x%08X\n" +:+
     "       Invert Loss-Of-Signal:                         %s\n" +:+
     "       Receive flow control:                          %s\n" +:+
     "       Transmit flow control:                         %s\n" +:+
     "       VLAN mode:                                     %s\n" +:+
     "       Set link up:                                   %s\n" +:+
     "       D3COLD WakeUp capability advertisement:        %s\n") [
     PI reg; PS (if reg &? E1000_CTRL_ILOS then "yes" else "no");
     PS (if reg &? E1000_CTRL_RFCE then "enabled" else "disabled");
     PS (if reg &? E1000_CTRL_TFCE then "enabled" else "disabled");
     PS (if reg &? E1000_CTRL_VME then "enabled" else "disabled");
     PS (if reg &? E1000_CTRL_SLU then "1" else "0");
     PS (if reg &? E1000_CTRL_ADVD3WUC then "enabled" else "disabled")];;
  fprintf ("       Auto speed detect:                             %s\n" +:+
     "       Speed select:                                  %s\n" +:+
     "       Force speed:                                   %s\n" +:+
     "       Force duplex:                                  %s\n") [
     PS (if reg &? E1000_CTRL_ASDE then "enabled" else "disabled");
     PS (if (Z.land reg E1000_CTRL_SPD_SEL) =? E1000_CTRL_SPD_10 then "10Mb/s" else
         if (Z.land reg E1000_CTRL_SPD_SEL) =? E1000_CTRL_SPD_100 then "100Mb/s" else
         if (Z.land reg E1000_CTRL_SPD_SEL) =? E1000_CTRL_SPD_1000 then "1000Mb/s" else "not used");
     PS (if reg &? E1000_CTRL_FRCSPD then "yes" else "no");
     PS (if reg &? E1000_CTRL_FRCDPX then "yes" else "no")];;
  reg ← regs_buff regs 1;
  fprintf ("0x00008: STATUS (Device status register)              0x%08X\n" +:+
     "       Duplex:                                        %s\n" +:+
     "       Link up:                                       %s\n" +:+
     "       Transmission:                                  %s\n" +:+
     "       DMA clock gating:                              %s\n") [
     PI reg; PS (if reg &? E1000_STATUS_FD then "full" else "half");
     PS (if reg &? E1000_STATUS_LU then "link config" else "no link config");
     PS (if reg &? E1000_STATUS_TXOFF then "paused" else "on");
     PS (if reg &? E1000_STATUS_DMA_CGEN then "enabled" else "disabled")];;
  fprintf ("       TBI mode:                                      %s\n" +:+
     "       Link speed:                                    %s\n" +:+
     "       Bus type:                                      %s\n") [
     PS (if reg &? E1000_STATUS_TBIMODE then "enabled" else "disabled");
     PS (if (Z.land reg E1000_STATUS_SPEED_MASK) =? E1000_STATUS_SPEED_10 then "10Mb/s" else
         if (Z.land reg E1000_STATUS_SPEED_MASK) =? E1000_STATUS_SPEED_100 then "100Mb/s" else
         if (Z.land reg E1000_STATUS_SPEED_MASK) =? E1000_STATUS_SPEED_1000 then "1000Mb/s" else "not used");
     PS "PCI Express"];;
  reg ← regs_buff regs 32;
  fprintf ("0x00100: RCTL (Receive control register)              0x%08X\n" +:+
     "       Receiver:                                      %s\n" +:+
     "       Store bad packets:                             %s\n" +:+
     "       Unicast promiscuous:                           %s\n" +:+
     "       Multicast promiscuous:                         %s\n" +:+
     "       Long packet:                                   %s\n" +:+
     "       Descriptor minimum threshold size:             %s\n" +:+
     "       Broadcast accept mode:                         %s\n" +:+
     "       VLAN filter:                                   %s\n" +:+
     "       Cononical form indicator:                      %s\n" +:+
     "       Discard pause frames:                          %s\n" +:+
     "       Pass MAC control frames:                       %s\n" +:+
     "       Loopback mode:                                 %s\n") [
     PI reg; PS (if reg &? E1000_RCTL_EN then "enabled" else "disabled");
     PS (if reg &? E1000_RCTL_SBP then "enabled" else "disabled");
     PS (if reg &? E1000_RCTL_UPE then "enabled" else "disabled");
     PS (if reg &? E1000_RCTL_MPE then "enabled" else "disabled");
     PS (if reg &? E1000_RCTL_LPE then "enabled" else "disabled");
     PS (if (Z.land reg E1000_RCTL_RDMTS) =? E1000_RCTL_RDMTS_HALF then "1/2" else
         if (Z.land reg E1000_RCTL_RDMTS) =? E1000_RCTL_RDMTS_QUAT then "1/4" else
         if (Z.land reg E1000_RCTL_RDMTS) =? E1000_RCTL_RDMTS_EIGTH then "1/8" else "reserved");
     PS (if reg &? E1000_RCTL_BAM then "accept" else "ignore");
     PS (if reg &? E1000_RCTL_VFE then "enabled" else "disabled");
     PS (if reg &? E1000_RCTL_CFIEN then "enabled" else "disabled");
     PS (if reg &? E1000_RCTL_DPF then "ignored" else "filtered");
     PS (if reg &? E1000_RCTL_PMCF then "pass" else "don't pass");
     PS (if (Z.land reg E1000_RCTL_LBM_MASK) =? E1000_RCTL_LBM_NORM then "normal" else
         if (Z.land reg E1000_RCTL_LBM_MASK) =? E1000_RCTL_LBM_MAC then "MAC" else
         if (Z.land reg E1000_RCTL_LBM_MASK) =? E1000_RCTL_LBM_SERDES then "SERDES" else "undefined")];;
  fprintf "       Receive buffer size:                           %s\n" [
     PS (if (Z.land reg E1000_RCTL_BSIZE) =? E1000_RCTL_BSIZE_2048 then "2048" else
         if (Z.land reg E1000_RCTL_BSIZE) =? E1000_RCTL_BSIZE_1024 then "1024" else
         if (Z.land reg E1000_RCTL_BSIZE) =? E1000_RCTL_BSIZE_512 then "512" else "256")].

Definition igb_dump_regs_2 (regs : ereq) : P unit :=
  x0 ← regs_buff regs 137;
  fprintf "0x02808: RDLEN  (Receive desc length)                 0x%08X\n" [PI x0];;
  x0 ← regs_buff regs 141;
  fprintf "0x02810: RDH    (Receive desc head)                   0x%08X\n" [PI x0];;
  x0 ← regs_buff regs 145;
  fprintf "0x02818: RDT    (Receive desc tail)                   0x%08X\n" [PI x0];;
  reg ← regs_buff regs 38;
  fprintf ("0x00400: TCTL (Transmit ctrl register)                0x%08X\n" +:+
     "       Transmitter:                                   %s\n" +:+
     "       Pad short packets:                             %s\n" +:+
     "       Software XOFF Transmission:                    %s\n") [
     PI reg; PS (if reg &? E1000_TCTL_EN then "enabled" else "disabled");
     PS (if reg &? E1000_TCTL_PSP then "enabled" else "disabled");
     PS (if reg &? E1000_TCTL_SWXOFF then "enabled" else "disabled")];;
  fprintf "       Re-transmit on late collision:                 %s\n" [
     PS (if reg &? E1000_TCTL_RTLC then "enabled" else "disabled")];;
  x0 ← regs_buff regs 219;
  fprintf "0x03808: TDLEN       (Transmit desc length)           0x%08X\n" [PI x0];;
  x0 ← regs_buff regs 223;
  fprintf "0x03810: TDH         (Transmit desc head)             0x%08X\n" [PI x0];;
  x0 ← regs_buff regs 227;
  fprintf "0x03818: TDT         (Transmit desc tail)             0x%08X\n" [PI x0];;
  x0 ← regs_buff regs 2;
  fprintf "0x00018: CTRL_EXT    (Extended device control)        0x%08X\n" [PI x0];;
  x0 ← regs_buff regs 3;
  fprintf "0x00018: MDIC        (MDI control)                    0x%08X\n" [PI x0];;
  x0 ← regs_buff regs 4;
  fprintf "0x00024: SCTL        (SERDES ANA)                     0x%08X\n" [PI x0];;
  x0 ← regs_buff regs 5;
  fprintf "0x00034: CONNSW      (Copper/Fiber switch control)    0x%08X\n" [PI x0];;
  x0 ← regs_buff regs 6;
  fprintf "0x00038: VET         (VLAN Ether type)                0x%08X\n" [PI x0];;
  x0 ← regs_buff regs 7;
  fprintf "0x00E00: LEDCTL      (LED control)                    0x%08X\n" [PI x0].

Definition igb_dump_regs_3 (regs : ereq) : P unit :=
  x0 ← regs_buff regs 8;
  fprintf "0x01000: PBA         (Packet buffer allocation)       0x%08X\n" [PI x0];;
  x0 ← regs_buff regs 9;
  fprintf "0x01008: PBS         (Packet buffer size)             0x%08X\n" [PI x0];;
  x0 ← regs_buff regs 10;
  fprintf "0x01048: FRTIMER     (Free running timer)             0x%08X\n" [PI x0];;
  x0 ← regs_buff regs 11;
  fprintf "0x0104C: TCPTIMER    (TCP timer)                      0x%08X\n" [PI x0];;
  x0 ← regs_buff regs 12;
  fprintf "0x00010: EEC         (EEPROM/FLASH control)           0x%08X\n" [PI x0];;
  x0 ← regs_buff regs 13;
  fprintf "0x01580: EICR        (Extended interrupt cause)       0x%08X\n" [PI x0];;
  x0 ← regs_buff regs 14;
  fprintf "0x01520: EICS        (Extended interrupt cause set)   0x%08X\n" [PI x0];;
  x0 ← regs_buff regs 15;
  fprintf "0x01524: EIMS        (Extended interrup set/read)     0x%08X\n" [PI x0];;
  x0 ← regs_buff regs 16;
  fprintf "0x01528: EIMC        (Extended interrupt mask clear)  0x%08X\n" [PI x0];;
  x0 ← regs_buff regs 17;
  fprintf "0x0152C: EIAC        (Extended interrupt auto clear)  0x%08X\n" [PI x0];;
  x0 ← regs_buff regs 18;
  fprintf "0x01530: EIAM        (Extended interrupt auto mask)   0x%08X\n" [PI x0];;
  x0 ← regs_buff regs 19;
  fprintf "0x01500: ICR         (Interrupt cause read)           0x%08X\n" [PI x0];;
  x0 ← regs_buff regs 20;
  fprintf "0x01504: ICS         (Interrupt cause set)            0x%08X\n" [PI x0];;
  x0 ← regs_buff regs 21;
  fprintf "0x01508: IMS         (Interrupt mask set/read)        0x%08X\n" [PI x0];;
  x0 ← regs_buff regs 22;
  fprintf "0x0150C: IMC         (Interrupt mask clear)           0x%08X\n" [PI x0].

Definition igb_dump_regs_4 (regs : ereq) : P unit :=
  x0 ← regs_buff regs 23;
  fprintf "0x04100: IAC         (Interrupt assertion count)      0x%08X\n" [PI x0];;
  x0 ← regs_buff regs 24;
  fprintf "0x01510: IAM         (Interr acknowledge auto-mask)   0x%08X\n" [PI x0];;
  x0 ← regs_buff regs 25;
  fprintf "0x05AC0: IMIRVP      (Immed interr rx VLAN priority)  0x%08X\n" [PI x0];;
  x0 ← regs_buff regs 26;
  fprintf "0x00028: FCAL        (Flow control address low)       0x%08X\n" [PI x0];;
  x0 ← regs_buff regs 27;
  fprintf "0x0002C: FCAH        (Flow control address high)      0x%08X\n" [PI x0];;
  x0 ← regs_buff regs 28;
  fprintf "0x00170: FCTTV       (Flow control tx timer value)    0x%08X\n" [PI x0];;
  x0 ← regs_buff regs 29;
  fprintf "0x02160: FCRTL       (Flow control rx threshold low)  0x%08X\n" [PI x0];;
  x0 ← regs_buff regs 30;
  fprintf "0x02168: FCRTH       (Flow control rx threshold high) 0x%08X\n" [PI x0];;
  x0 ← regs_buff regs 31;
  fprintf "0x02460: FCRTV       (Flow control refresh threshold) 0x%08X\n" [PI x0];;
  x0 ← regs_buff regs 33;
  fprintf "0x05000: RXCSUM      (Receive checksum control)       0x%08X\n" [PI x0];;
  x0 ← regs_buff regs 34;
  fprintf "0x05004: RLPML       (Receive long packet max length) 0x%08X\n" [PI x0];;
  x0 ← regs_buff regs 35;
  fprintf "0x05008: RFCTL       (Receive filter control)         0x%08X\n" [PI x0];;
  x0 ← regs_buff regs 36;
  fprintf "0x05818: MRQC        (Multiple rx queues command)     0x%08X\n" [PI x0];;
  x0 ← regs_buff regs 37;
  fprintf "0x0581C: VMD_CTL     (VMDq control)                   0x%08X\n" [PI x0];;
  x0 ← regs_buff regs 39;
  fprintf "0x00404: TCTL_EXT    (Transmit control extended)      0x%08X\n" [PI x0].

Definition igb_dump_regs_5 (regs : ereq) : P unit :=
  x0 ← regs_buff regs 40;
  fprintf "0x00410: TIPG        (Transmit IPG)                   0x%08X\n" [PI x0];;
  x0 ← regs_buff regs 41;
  fprintf "0x03590: DTXCTL      (DMA tx control)                 0x%08X\n" [PI x0];;
  x0 ← regs_buff regs 42;
  fprintf "0x05800: WUC         (Wake up control)                0x%08X\n" [PI x0];;
  x0 ← regs_buff regs 43;
  fprintf "0x05808: WUFC        (Wake up filter control)         0x%08X\n" [PI x0];;
  x0 ← regs_buff regs 44;
  fprintf "0x05810: WUS         (Wake up status)                 0x%08X\n" [PI x0];;
  x0 ← regs_buff regs 45;
  fprintf "0x05838: IPAV        (IP address valid)               0x%08X\n" [PI x0];;
  x0 ← regs_buff regs 46;
  fprintf "0x05900: WUPL        (Wake up packet length)          0x%08X\n" [PI x0];;
  x0 ← regs_buff regs 47;
  fprintf "0x04200: PCS_CFG     (PCS configuration 0)            0x%08X\n" [PI x0];;
  x0 ← regs_buff regs 48;
  fprintf "0x04208: PCS_LCTL    (PCS link control)               0x%08X\n" [PI x0];;
  x0 ← regs_buff regs 49;
  fprintf "0x0420C: PCS_LSTS    (PCS link status)                0x%08X\n" [PI x0];;
  x0 ← regs_buff regs 50;
  fprintf "0x04218: PCS_ANADV   (AN advertisement)               0x%08X\n" [PI x0];;
  x0 ← regs_buff regs 51;
  fprintf "0x0421C: PCS_LPAB    (Link partner ability)           0x%08X\n" [PI x0];;
  x0 ← regs_buff regs 52;
  fprintf "0x04220: PCS_NPTX    (Next Page transmit)             0x%08X\n" [PI x0];;
  x0 ← regs_buff regs 53;
  fprintf "0x04224: PCS_LPABNP  (Link partner ability Next Page) 0x%08X\n" [PI x0];;
  x0 ← regs_buff regs 54;
  fprintf "0x04000: CRCERRS     (CRC error count)                0x%08X\n" [PI x0].

Definition igb_dump_regs_6 (regs : ereq) : P unit :=
  x0 ← regs_buff regs 55;
  fprintf "0x04004: ALGNERRC    (Alignment error count)          0x%08X\n" [PI x0];;
  x0 ← regs_buff regs 56;
  fprintf "0x04008: SYMERRS     (Symbol error count)             0x%08X\n" [PI x0];;
  x0 ← regs_buff regs 57;
  fprintf "0x0400C: RXERRC      (RX error count)                 0x%08X\n" [PI x0];;
  x0 ← regs_buff regs 58;
  fprintf "0x04010: MPC         (Missed packets count)           0x%08X\n" [PI x0];;
  x0 ← regs_buff regs 59;
  fprintf "0x04014: SCC         (Single collision count)         0x%08X\n" [PI x0];;
  x0 ← regs_buff regs 60;
  fprintf "0x04018: ECOL        (Excessive collisions count)     0x%08X\n" [PI x0];;
  x0 ← regs_buff regs 61;
  fprintf "0x0401C: MCC         (Multiple collision count)       0x%08X\n" [PI x0];;
  x0 ← regs_buff regs 62;
  fprintf "0x04020: LATECOL     (Late collisions count)          0x%08X\n" [PI x0];;
  x0 ← regs_buff regs 63;
  fprintf "0x04028: COLC        (Collision count)                0x%08X\n" [PI x0];;
  x0 ← regs_buff regs 64;
  fprintf "0x04030: DC          (Defer count)                    0x%08X\n" [PI x0];;
  x0 ← regs_buff regs 65;
  fprintf "0x04034: TNCRS       (Transmit with no CRS)           0x%08X\n" [PI x0];;
  x0 ← regs_buff regs 66;
  fprintf "0x04038: SEC         (Sequence error count)           0x%08X\n" [PI x0];;
  x0 ← regs_buff regs 67;
  fprintf "0x0403C: HTDPMC      (Host tx discrd pkts MAC count)  0x%08X\n" [PI x0];;
  x0 ← regs_buff regs 68;
  fprintf "0x04040: RLEC        (Receive length error count)     0x%08X\n" [PI x0];;
  x0 ← regs_buff regs 69;
  fprintf "0x04048: XONRXC      (XON received count)             0x%08X\n" [PI x0].

Definition igb_dump_regs_7 (regs : ereq) : P unit :=
  x0 ← regs_buff regs 70;
  fprintf "0x0404C: XONTXC      (XON transmitted count)          0x%08X\n" [PI x0];;
  x0 ← regs_buff regs 71;
  fprintf "0x04050: XOFFRXC     (XOFF received count)            0x%08X\n" [PI x0];;
  x0 ← regs_buff regs 72;
  fprintf "0x04054: XOFFTXC     (XOFF transmitted count)         0x%08X\n" [PI x0];;
  x0 ← regs_buff regs 73;
  fprintf "0x04058: FCRUC       (FC received unsupported count)  0x%08X\n" [PI x0];;
  x0 ← regs_buff regs 74;
  fprintf "0x0405C: PRC64       (Packets rx (64 B) count)        0x%08X\n" [PI x0];;
  x0 ← regs_buff regs 75;
  fprintf "0x04060: PRC127      (Packets rx (65-127 B) count)    0x%08X\n" [PI x0];;
  x0 ← regs_buff regs 76;
  fprintf "0x04064: PRC255      (Packets rx (128-255 B) count)   0x%08X\n" [PI x0];;
  x0 ← regs_buff regs 77;
  fprintf "0x04068: PRC511      (Packets rx (256-511 B) count)   0x%08X\n" [PI x0];;
  x0 ← regs_buff regs 78;
  fprintf "0x0406C: PRC1023     (Packets rx (512-1023 B) count)  0x%08X\n" [PI x0];;
  x0 ← regs_buff regs 79;
  fprintf "0x04070: PRC1522     (Packets rx (1024-max B) count)  0x%08X\n" [PI x0];;
  x0 ← regs_buff regs 80;
  fprintf "0x04074: GPRC        (Good packets received count)    0x%08X\n" [PI x0];;
  x0 ← regs_buff regs 81;
  fprintf "0x04078: BPRC        (Broadcast packets rx count)     0x%08X\n" [PI x0];;
  x0 ← regs_buff regs 82;
  fprintf "0x0407C: MPRC        (Multicast packets rx count)     0x%08X\n" [PI x0];;
  x0 ← regs_buff regs 83;
  fprintf "0x04080: GPTC        (Good packets tx count)          0x%08X\n" [PI x0];;
  x0 ← regs_buff regs 84;
  fprintf "0x04088: GORCL       (Good octets rx count lower)     0x%08X\n" [PI x0].

Definition igb_dump_regs_8 (regs : ereq) : P unit :=
  x0 ← regs_buff regs 85;
  fprintf "0x0408C: GORCH       (Good octets rx count upper)     0x%08X\n" [PI x0];;
  x0 ← regs_buff regs 86;
  fprintf "0x04090: GOTCL       (Good octets tx count lower)     0x%08X\n" [PI x0];;
  x0 ← regs_buff regs 87;
  fprintf "0x04094: GOTCH       (Good octets tx count upper)     0x%08X\n" [PI x0];;
  x0 ← regs_buff regs 88;
  fprintf "0x040A0: RNBC        (Receive no buffers count)       0x%08X\n" [PI x0];;
  x0 ← regs_buff regs 89;
  fprintf "0x040A4: RUC         (Receive undersize count)        0x%08X\n" [PI x0];;
  x0 ← regs_buff regs 90;
  fprintf "0x040A8: RFC         (Receive fragment count)         0x%08X\n" [PI x0];;
  x0 ← regs_buff regs 91;
  fprintf "0x040AC: ROC         (Receive oversize count)         0x%08X\n" [PI x0];;
  x0 ← regs_buff regs 92;
  fprintf "0x040B0: RJC         (Receive jabber count)           0x%08X\n" [PI x0];;
  x0 ← regs_buff regs 93;
  fprintf "0x040B4: MGPRC       (Management packets rx count)    0x%08X\n" [PI x0];;
  x0 ← regs_buff regs 94;
  fprintf "0x040B8: MGPDC       (Management pkts dropped count)  0x%08X\n" [PI x0];;
  x0 ← regs_buff regs 95;
  fprintf "0x040BC: MGPTC       (Management packets tx count)    0x%08X\n" [PI x0];;
  x0 ← regs_buff regs 96;
  fprintf "0x040C0: TORL        (Total octets received lower)    0x%08X\n" [PI x0];;
  x0 ← regs_buff regs 97;
  fprintf "0x040C4: TORH        (Total octets received upper)    0x%08X\n" [PI x0];;
  x0 ← regs_buff regs 98;
  fprintf "0x040C8: TOTL        (Total octets transmitted lower) 0x%08X\n" [PI x0];;
  x0 ← regs_buff regs 99;
  fprintf "0x040CC: TOTH        (Total octets transmitted upper) 0x%08X\n" [PI x0].

Definition igb_dump_regs_9 (regs : ereq) : P unit :=
  x0 ← regs_buff regs 100;
  fprintf "0x040D0: TPR         (Total packets received)         0x%08X\n" [PI x0];;
  x0 ← regs_buff regs 101;
  fprintf "0x040D4: TPT         (Total packets transmitted)      0x%08X\n" [PI x0];;
  x0 ← regs_buff regs 102;
  fprintf "0x040D8: PTC64       (Packets tx (64 B) count)        0x%08X\n" [PI x0];;
  x0 ← regs_buff regs 103;
  fprintf "0x040DC: PTC127      (Packets tx (65-127 B) count)    0x%08X\n" [PI x0];;
  x0 ← regs_buff regs 104;
  fprintf "0x040E0: PTC255      (Packets tx (128-255 B) count)   0x%08X\n" [PI x0];;
  x0 ← regs_buff regs 105;
  fprintf "0x040E4: PTC511      (Packets tx (256-511 B) count)   0x%08X\n" [PI x0];;
  x0 ← regs_buff regs 106;
  fprintf "0x040E8: PTC1023     (Packets tx (512-1023 B) count)  0x%08X\n" [PI x0];;
  x0 ← regs_buff regs 107;
  fprintf "0x040EC: PTC1522     (Packets tx (> 1024 B) count)    0x%08X\n" [PI x0];;
  x0 ← regs_buff regs 108;
  fprintf "0x040F0: MPTC        (Multicast packets tx count)     0x%08X\n" [PI x0];;
  x0 ← regs_buff regs 109;
  fprintf "0x040F4: BPTC        (Broadcast packets tx count)     0x%08X\n" [PI x0];;
  x0 ← regs_buff regs 110;
  fprintf "0x040F8: TSCTC       (TCP segment context tx count)   0x%08X\n" [PI x0];;
  x0 ← regs_buff regs 111;
  fprintf "0x04100: IAC         (Interrupt assertion count)      0x%08X\n" [PI x0];;
  x0 ← regs_buff regs 112;
  fprintf "0x04104: RPTHC       (Rx packets to host count)       0x%08X\n" [PI x0];;
  x0 ← regs_buff regs 113;
  fprintf "0x04118: HGPTC       (Host good packets tx count)     0x%08X\n" [PI x0];;
  x0 ← regs_buff regs 114;
  fprintf "0x04128: HGORCL      (Host good octets rx cnt lower)  0x%08X\n" [PI x0].

Definition igb_dump_regs_10 (regs : ereq) : P unit :=
  x0 ← regs_buff regs 115;
  fprintf "0x0412C: HGORCH      (Host good octets rx cnt upper)  0x%08X\n" [PI x0];;
  x0 ← regs_buff regs 116;
  fprintf "0x04130: HGOTCL      (Host good octets tx cnt lower)  0x%08X\n" [PI x0];;
  x0 ← regs_buff regs 117;
  fprintf "0x04134: HGOTCH      (Host good octets tx cnt upper)  0x%08X\n" [PI x0];;
  x0 ← regs_buff regs 118;
  fprintf "0x04138: LENNERS     (Length error count)             0x%08X\n" [PI x0];;
  x0 ← regs_buff regs 119;
  fprintf "0x04228: SCVPC       (SerDes/SGMII code viol pkt cnt) 0x%08X\n" [PI x0];;
  x0 ← regs_buff regs 120;
  fprintf "0x0A018: HRMPC       (Header redir missed pkt count)  0x%08X\n" [PI x0];;
  for_ 4%nat 0 (fun i =>
    x0 ← regs_buff regs (121 + i);
    fprintf "0x0%02X: SRRCTL%d     (Split and replic rx ctl%d)       0x%08X\n" [
       PI (0x0280c + (0x100 * i)); PI i; PI i; PI x0]);;
  for_ 4%nat 0 (fun i =>
    x0 ← regs_buff regs (125 + i);
    fprintf "0x0%02X: PSRTYPE%d    (Packet split receive type%d)     0x%08X\n" [
       PI (0x05480 + (0x4 * i)); PI i; PI i; PI x0]);;
  for_ 4%nat 0 (fun i =>
    x0 ← regs_buff regs (129 + i);
    fprintf "0x0%02X: RDBAL%d      (Rx desc base addr low%d)         0x%08X\n" [
       PI (0x02800 + (0x100 * i)); PI i; PI i; PI x0]);;
  for_ 4%nat 0 (fun i =>
    x0 ← regs_buff regs (133 + i);
    fprintf "0x0%02X: RDBAH%d      (Rx desc base addr high%d)        0x%08X\n" [
       PI (0x02804 + (0x100 * i)); PI i; PI i; PI x0]);;
  for_ 4%nat 0 (fun i =>
    x0 ← regs_buff regs (137 + i);
    fprintf "0x0%02X: RDLEN%d      (Rx descriptor length%d)          0x%08X\n" [
       PI (0x02808 + (0x100 * i)); PI i; PI i; PI x0]);;
  for_ 4%nat 0 (fun i =>
    x0 ← regs_buff regs (141 + i);
    fprintf "0x0%02X: RDH%d        (Rx descriptor head%d)            0x%08X\n" [
       PI (0x02810 + (0x100 * i)); PI i; PI i; PI x0]);;
  for_ 4%nat 0 (fun i =>
    x0 ← regs_buff regs (145 + i);
    fprintf "0x0%02X: RDT%d        (Rx descriptor tail%d)            0x%08X\n" [
       PI (0x02818 + (0x100 * i)); PI i; PI i; PI x0]);;
  for_ 4%nat 0 (fun i =>
    x0 ← regs_buff regs (149 + i);
    fprintf "0x0%02X: RXDCTL%d     (Rx descriptor control%d)         0x%08X\n" [
       PI (0x02828 + (0x100 * i)); PI i; PI i; PI x0]).

Definition igb_dump_regs_11 (regs : ereq) : P unit :=
  for_ 10%nat 0 (fun i =>
    x0 ← regs_buff regs (153 + i);
    fprintf "0x0%02X: EITR%d       (Interrupt throttle%d)            0x%08X\n" [
       PI (0x01680 + (0x4 * i)); PI i; PI i; PI x0]);;
  for_ 8%nat 0 (fun i =>
    x0 ← regs_buff regs (163 + i);
    fprintf "0x0%02X: IMIR%d       (Immediate interrupt Rx%d)        0x%08X\n" [
       PI (0x05a80 + (0x4 * i)); PI i; PI i; PI x0]);;
  for_ 8%nat 0 (fun i =>
    x0 ← regs_buff regs (171 + i);
    fprintf "0x0%02X: IMIREXT%d    (Immediate interr Rx extended%d)  0x%08X\n" [
       PI (0x05aa0 + (0x4 * i)); PI i; PI i; PI x0]);;
  for_ 16%nat 0 (fun i =>
    x0 ← regs_buff regs (179 + i);
    fprintf "0x0%02X: RAL%02d       (Receive address low%02d)          0x%08X\n" [
       PI (0x05400 + (0x8 * i)); PI i; PI i; PI x0]);;
  for_ 16%nat 0 (fun i =>
    x0 ← regs_buff regs (195 + i);
    fprintf "0x0%02X: RAH%02d       (Receive address high%02d)         0x%08X\n" [
       PI (0x05404 + (0x8 * i)); PI i; PI i; PI x0]);;
  for_ 4%nat 0 (fun i =>
    x0 ← regs_buff regs (211 + i);
    fprintf "0x0%02X: TDBAL%d      (Tx desc base address low%d)      0x%08X\n" [
       PI (0x03800 + (0x100 * i)); PI i; PI i; PI x0]);;
  for_ 4%nat 0 (fun i =>
    x0 ← regs_buff regs (215 + i);
    fprintf "0x0%02X: TDBAH%d      (Tx desc base address high%d)     0x%08X\n" [
       PI (0x03804 + (0x100 * i)); PI i; PI i; PI x0]);;
  for_ 4%nat 0 (fun i =>
    x0 ← regs_buff regs (219 + i);
    fprintf "0x0%02X: TDLEN%d      (Tx descriptor length%d)          0x%08X\n" [
       PI (0x03808 + (0x100 * i)); PI i; PI i; PI x0]);;
  for_ 4%nat 0 (fun i =>
    x0 ← regs_buff regs (223 + i);
    fprintf "0x0%02X: TDH%d        (Transmit descriptor head%d)      0x%08X\n" [
       PI (0x03810 + (0x100 * i)); PI i; PI i; PI x0]);;
  for_ 4%nat 0 (fun i =>
    x0 ← regs_buff regs (227 + i);
    fprintf "0x0%02X: TDT%d        (Transmit descriptor tail%d)      0x%08X\n" [
       PI (0x03818 + (0x100 * i)); PI i; PI i; PI x0]);;
  for_ 4%nat 0 (fun i =>
    x0 ← regs_buff regs (231 + i);
    fprintf "0x0%02X: TXDCTL%d     (Transmit descriptor control%d)   0x%08X\n" [
       PI (0x03828 + (0x100 * i)); PI i; PI i; PI x0]);;
  for_ 4%nat 0 (fun i =>
    x0 ← regs_buff regs (235 + i);
    fprintf "0x0%02X: TDWBAL%d     (Tx desc complete wb addr low%d)  0x%08X\n" [
       PI (0x03838 + (0x100 * i)); PI i; PI i; PI x0]).

Definition igb_dump_regs_12 (regs : ereq) : P unit :=
  for_ 4%nat 0 (fun i =>
    x0 ← regs_buff regs (239 + i);
    fprintf "0x0%02X: TDWBAH%d     (Tx desc complete wb addr hi%d)   0x%08X\n" [
       PI (0x0383c + (0x100 * i)); PI i; PI i; PI x0]);;
  for_ 4%nat 0 (fun i =>
    x0 ← regs_buff regs (243 + i);
    fprintf "0x0%02X: DCA_TXCTRL%d (Tx DCA control%d)                0x%08X\n" [
       PI (0x03814 + (0x100 * i)); PI i; PI i; PI x0]);;
  for_ 4%nat 0 (fun i =>
    x0 ← regs_buff regs (247 + i);
    fprintf "0x0%02X: IP4AT%d      (IPv4 address table%d)            0x%08X\n" [
       PI (0x05840 + (0x8 * i)); PI i; PI i; PI x0]);;
  for_ 4%nat 0 (fun i =>
    x0 ← regs_buff regs (251 + i);
    fprintf "0x0%02X: IP6AT%d      (IPv6 address table%d)            0x%08X\n" [
       PI (0x05880 + (0x4 * i)); PI i; PI i; PI x0]);;
  for_ 32%nat 0 (fun i =>
    x0 ← regs_buff regs (255 + i);
    fprintf "0x0%02X: WUPM%02d      (Wake up packet memory%02d)        0x%08X\n" [
       PI (0x05a00 + (0x4 * i)); PI i; PI i; PI x0]);;
  for_ 128%nat 0 (fun i =>
    x0 ← regs_buff regs (287 + i);
    fprintf "0x0%02X: FFMT%03d     (Flexible filter mask table%03d)  0x%08X\n" [
       PI (0x09000 + (0x8 * i)); PI i; PI i; PI x0]);;
  for_ 128%nat 0 (fun i =>
    x0 ← regs_buff regs (415 + i);
    fprintf "0x0%02X: FFVT%03d     (Flexible filter value table%03d) 0x%08X\n" [
       PI (0x09800 + (0x8 * i)); PI i; PI i; PI x0]);;
  for_ 4%nat 0 (fun i =>
    x0 ← regs_buff regs (543 + i);
    fprintf "0x0%02X: FFLT%d       (Flexible filter length table%d)  0x%08X\n" [
       PI (0x05f00 + (0x8 * i)); PI i; PI i; PI x0]);;
  x0 ← regs_buff regs 547;
  fprintf "0x03410: TDFH        (Tx data FIFO head)              0x%08X\n" [PI x0];;
  x0 ← regs_buff regs 548;
  fprintf "0x03418: TDFT        (Tx data FIFO tail)              0x%08X\n" [PI x0];;
  x0 ← regs_buff regs 549;
  fprintf "0x03420: TDFHS       (Tx data FIFO head saved)        0x%08X\n" [PI x0];;
  x0 ← regs_buff regs 550;
  fprintf "0x03430: TDFPC       (Tx data FIFO packet count)      0x%08X\n" [PI x0].

Definition igb_dump_regs (info regs : ereq) : P Z :=
  let version := u8 (Z.shiftr (fld regs "version") 24) in
  if negb (version =? 1) then mret (-1)
  else
    igb_dump_regs_1 regs;;
    igb_dump_regs_2 regs;;
    igb_dump_regs_3 regs;;
    igb_dump_regs_4 regs;;
    igb_dump_regs_5 regs;;
    igb_dump_regs_6 regs;;
    igb_dump_regs_7 regs;;
    igb_dump_regs_8 regs;;
    igb_dump_regs_9 regs;;
    igb_dump_regs_10 regs;;
    igb_dump_regs_11 regs;;
    igb_dump_regs_12 regs;;
    mret 0.

Lemma igb_dump_regs_1_shows regs : 2204 <= Z.of_nat (length (rq_arr regs)) -> shows (igb_dump_regs_1 regs) (fun _ => True).
Proof. intros Hl. unfold igb_dump_regs_1. regs_all. Qed.

Lemma igb_dump_regs_2_shows regs : 2204 <= Z.of_nat (length (rq_arr regs)) -> shows (igb_dump_regs_2 regs) (fun _ => True).
Proof. intros Hl. unfold igb_dump_regs_2. regs_all. Qed.

Lemma igb_dump_regs_3_shows regs : 2204 <= Z.of_nat (length (rq_arr regs)) -> shows (igb_dump_regs_3 regs) (fun _ => True).
Proof. intros Hl. unfold igb_dump_regs_3. regs_all. Qed.

Lemma igb_dump_regs_4_shows regs : 2204 <= Z.of_nat (length (rq_arr regs)) -> shows (igb_dump_regs_4 regs) (fun _ => True).
Proof. intros Hl. unfold igb_dump_regs_4. regs_all. Qed.

Lemma igb_dump_regs_5_shows regs : 2204 <= Z.of_nat (length (rq_arr regs)) -> shows (igb_dump_regs_5 regs) (fun _ => True).
Proof. intros Hl. unfold igb_dump_regs_5. regs_all. Qed.

Lemma igb_dump_regs_6_shows regs : 2204 <= Z.of_nat (length (rq_arr regs)) -> shows (igb_dump_regs_6 regs) (fun _ => True).
Proof. intros Hl. unfold igb_dump_regs_6. regs_all. Qed.

Lemma igb_dump_regs_7_shows regs : 2204 <= Z.of_nat (length (rq_arr regs)) -> shows (igb_dump_regs_7 regs) (fun _ => True).
Proof. intros Hl. unfold igb_dump_regs_7. regs_all. Qed.

Lemma igb_dump_regs_8_shows regs : 2204 <= Z.of_nat (length (rq_arr regs)) -> shows (igb_dump_regs_8 regs) (fun _ => True).
Proof. intros Hl. unfold igb_dump_regs_8. regs_all. Qed.

Lemma igb_dump_regs_9_shows regs : 2204 <= Z.of_nat (length (rq_arr regs)) -> shows (igb_dump_regs_9 regs) (fun _ => True).
Proof. intros Hl. unfold igb_dump_regs_9. regs_all. Qed.

Lemma igb_dump_regs_10_shows regs : 2204 <= Z.of_nat (length (rq_arr regs)) -> shows (igb_dump_regs_10 regs) (fun _ => True).
Proof. intros Hl. unfold igb_dump_regs_10. regs_all. Qed.

Lemma igb_dump_regs_11_shows regs : 2204 <= Z.of_nat (length (rq_arr regs)) -> shows (igb_dump_regs_11 regs) (fun _ => True).
Proof. intros Hl. unfold igb_dump_regs_11. regs_all. Qed.

Lemma igb_dump_regs_12_shows regs : 2204 <= Z.of_nat (length (rq_arr regs)) -> shows (igb_dump_regs_12 regs) (fun _ => True).
Proof. intros Hl. unfold igb_dump_regs_12. regs_all. Qed.

#[local] Hint Resolve igb_dump_regs_1_shows igb_dump_regs_2_shows igb_dump_regs_3_shows igb_dump_regs_4_shows igb_dump_regs_5_shows igb_dump_regs_6_shows igb_dump_regs_7_shows igb_dump_regs_8_shows igb_dump_regs_9_shows igb_dump_regs_10_shows igb_dump_regs_11_shows igb_dump_regs_12_shows : shows.

Lemma igb_dumps : dumps 2204 igb_dump_regs.
Proof. intros info regs Hl. unfold igb_dump_regs. regs_all. Qed.
End regs.
End EtIgb.
