(* ===== verification/EtIxgbe.v ===== *)
(** * ethtool: registers of the ixgbe driver ([ethernet_test/ethtool/ixgbe.c]) *)

From stdpp Require Import base list strings gmap numbers.
From Stdlib Require Import ZArith Lia.
From S2P Require Import Prelude CInt CLib CFmt EtCmd EtSet EtFeat EtRegs.
Import Et EtS EtF.

Module EtIxgbe.

Definition ixgbe_mac_unknown : Z := 0.
Definition ixgbe_mac_82598EB : Z := ixgbe_mac_unknown + 1.
Definition IXGBE_DEV_ID_82598 : Z := 0x10b6.
Definition IXGBE_DEV_ID_82598_BX : Z := 0x1508.
Definition IXGBE_DEV_ID_82598AF_DUAL_PORT : Z := 0x10c6.
Definition IXGBE_DEV_ID_82598AF_SINGLE_PORT : Z := 0x10c7.
Definition IXGBE_DEV_ID_82598EB_SFP_LOM : Z := 0x10db.
Definition IXGBE_DEV_ID_82598AT : Z := 0x10c8.
Definition IXGBE_DEV_ID_82598AT2 : Z := 0x150b.
Definition IXGBE_DEV_ID_82598EB_CX4 : Z := 0x10dd.
Definition IXGBE_DEV_ID_82598_CX4_DUAL_PORT : Z := 0x10ec.
Definition IXGBE_DEV_ID_82598_DA_DUAL_PORT : Z := 0x10f1.
Definition IXGBE_DEV_ID_82598_SR_DUAL_PORT_EM : Z := 0x10e1.
Definition IXGBE_DEV_ID_82598EB_XF_LR : Z := 0x10f4.
Definition ixgbe_mac_82599EB : Z := ixgbe_mac_82598EB + 1.
Definition IXGBE_DEV_ID_82599_KX4 : Z := 0x10f7.
Definition IXGBE_DEV_ID_82599_KX4_MEZZ : Z := 0x1514.
Definition IXGBE_DEV_ID_82599_KR : Z := 0x1517.
Definition IXGBE_DEV_ID_82599_T3_LOM : Z := 0x151c.
Definition IXGBE_DEV_ID_82599_CX4 : Z := 0x10f9.
Definition IXGBE_DEV_ID_82599_SFP : Z := 0x10fb.
Definition IXGBE_DEV_ID_82599_BACKPLANE_FCOE : Z := 0x152a.
Definition IXGBE_DEV_ID_82599_SFP_FCOE : Z := 0x1529.
Definition IXGBE_SUBDEV_ID_82599_SFP : Z := 0x11a9.
Definition IXGBE_DEV_ID_82599_SFP_EM : Z := 0x1507.
Definition IXGBE_DEV_ID_82599_SFP_SF2 : Z := 0x154d.
Definition IXGBE_DEV_ID_82599EN_SFP : Z := 0x1557.
Definition IXGBE_DEV_ID_82599_XAUI_LOM : Z := 0x10fc.
Definition IXGBE_DEV_ID_82599_COMBO_BACKPLANE : Z := 0x10f8.
Definition IXGBE_SUBDEV_ID_82599_KX4_KR_MEZZ : Z := 0x000c.
Definition IXGBE_DEV_ID_82599_LS : Z := 0x154f.
Definition ixgbe_mac_X540 : Z := ixgbe_mac_82599EB + 1.
Definition IXGBE_DEV_ID_X540T : Z := 0x1528.
Definition IXGBE_LINKS_UP : Z := 0x40000000.
Definition IXGBE_LINKS_SPEED : Z := 0x20000000.
Definition IXGBE_FCTRL_BAM : Z := 0x00000400.
Definition IXGBE_FCTRL_UPE : Z := 0x00000200.
Definition IXGBE_FCTRL_MPE : Z := 0x00000100.
Definition IXGBE_FCTRL_SBP : Z := 0x00000002.
Definition IXGBE_FCTRL_RFCE : Z := 0x00008000.
Definition IXGBE_FCTRL_RPFCE : Z := 0x00004000.
Definition IXGBE_FCTRL_DPF : Z := 0x00002000.
Definition IXGBE_FCTRL_PMCF : Z := 0x00001000.
Definition IXGBE_MFLCN_RFCE : Z := 0x00000008.
Definition IXGBE_VLNCTRL_VME : Z := 0x80000000.
Definition IXGBE_VLNCTRL_VFE : Z := 0x40000000.
Definition IXGBE_SRRCTL_BSIZEPKT_MASK : Z := 0x0000007f.
Definition IXGBE_RMCS_TFCE_802_3X : Z := 0x00000008.
Definition IXGBE_RMCS_TFCE_PRIORITY : Z := 0x00000010.
Definition IXGBE_HLREG0_TXCRCEN : Z := 0x00000001.
Definition IXGBE_HLREG0_RXCRCSTRP : Z := 0x00000002.
Definition IXGBE_HLREG0_JUMBOEN : Z := 0x00000004.
Definition IXGBE_HLREG0_TXPADEN : Z := 0x00000400.
Definition IXGBE_HLREG0_LPBK : Z := 0x00008000.

Definition ixgbe_get_mac_type (device_id : Z) : Z :=
  if ((device_id =? IXGBE_DEV_ID_82598) || (device_id =? IXGBE_DEV_ID_82598_BX) ||
      (device_id =? IXGBE_DEV_ID_82598AF_DUAL_PORT) || (device_id =? IXGBE_DEV_ID_82598AF_SINGLE_PORT) ||
      (device_id =? IXGBE_DEV_ID_82598EB_SFP_LOM) || (device_id =? IXGBE_DEV_ID_82598AT) ||
      (device_id =? IXGBE_DEV_ID_82598AT2) || (device_id =? IXGBE_DEV_ID_82598EB_CX4) ||
      (device_id =? IXGBE_DEV_ID_82598_CX4_DUAL_PORT) || (device_id =? IXGBE_DEV_ID_82598_DA_DUAL_PORT) ||
      (device_id =? IXGBE_DEV_ID_82598_SR_DUAL_PORT_EM) || (device_id =? IXGBE_DEV_ID_82598EB_XF_LR))%bool then ixgbe_mac_82598EB else
  if ((device_id =? IXGBE_DEV_ID_82599_KX4) || (device_id =? IXGBE_DEV_ID_82599_KX4_MEZZ) ||
      (device_id =? IXGBE_DEV_ID_82599_KR) || (device_id =? IXGBE_DEV_ID_82599_T3_LOM) ||
      (device_id =? IXGBE_DEV_ID_82599_CX4) || (device_id =? IXGBE_DEV_ID_82599_SFP) ||
      (device_id =? IXGBE_DEV_ID_82599_BACKPLANE_FCOE) || (device_id =? IXGBE_DEV_ID_82599_SFP_FCOE) ||
      (device_id =? IXGBE_SUBDEV_ID_82599_SFP) || (device_id =? IXGBE_DEV_ID_82599_SFP_EM) ||
      (device_id =? IXGBE_DEV_ID_82599_SFP_SF2) || (device_id =? IXGBE_DEV_ID_82599EN_SFP) ||
      (device_id =? IXGBE_DEV_ID_82599_XAUI_LOM) || (device_id =? IXGBE_DEV_ID_82599_COMBO_BACKPLANE) ||
      (device_id =? IXGBE_SUBDEV_ID_82599_KX4_KR_MEZZ) || (device_id =? IXGBE_DEV_ID_82599_LS))%bool then ixgbe_mac_82599EB else
  if device_id =? IXGBE_DEV_ID_X540T then ixgbe_mac_X540 else
  ixgbe_mac_82598EB.

Section regs.
Context {D : Type}.
Abbreviation P := (M D).

Definition ixgbe_dump_regs_1 (regs : ereq) (mac_type : Z) : P unit :=
  reg ← regs_buff regs 1065;
  fprintf ("0x042A4: LINKS (Link Status register)                 0x%08X\n" +:+
     "       Link Status:                                   %s\n" +:+
     "       Link Speed:                                    %s\n") [
     PI reg; PS (if reg &? IXGBE_LINKS_UP then "up" else "down");
     PS (if reg &? IXGBE_LINKS_SPEED then "10G" else "1G")];;
  reg ← regs_buff regs 515;
  fprintf ("0x05080: FCTRL (Filter Control register)              0x%08X\n" +:+
     "       Broadcast Accept:                              %s\n" +:+
     "       Unicast Promiscuous:                           %s\n" +:+
     "       Multicast Promiscuous:                         %s\n" +:+
     "       Store Bad Packets:                             %s\n") [
     PI reg; PS (if reg &? IXGBE_FCTRL_BAM then "enabled" else "disabled");
     PS (if reg &? IXGBE_FCTRL_UPE then "enabled" else "disabled");
     PS (if reg &? IXGBE_FCTRL_MPE then "enabled" else "disabled");
     PS (if reg &? IXGBE_FCTRL_SBP then "enabled" else "disabled")];;
  when (mac_type =? ixgbe_mac_82598EB)
    (fprintf ("       Receive Flow Control Packets:                  %s\n" +:+
       "       Receive Priority Flow Control Packets:         %s\n" +:+
       "       Discard Pause Frames:                          %s\n" +:+
       "       Pass MAC Control Frames:                       %s\n") [
       PS (if reg &? IXGBE_FCTRL_RFCE then "enabled" else "disabled");
       PS (if reg &? IXGBE_FCTRL_RPFCE then "enabled" else "disabled");
       PS (if reg &? IXGBE_FCTRL_DPF then "enabled" else "disabled");
       PS (if reg &? IXGBE_FCTRL_PMCF then "enabled" else "disabled")]);;
  reg ← regs_buff regs 1128;
  when (ixgbe_mac_82599EB <=? mac_type)
    (fprintf ("0x04294: MFLCN (TabMAC Flow Control register)         0x%08X\n" +:+
       "       Receive Flow Control Packets:                  %s\n" +:+
       "       Discard Pause Frames:                          %s\n" +:+
       "       Pass MAC Control Frames:                       %s\n" +:+
       "       Receive Priority Flow Control Packets:         %s\n") [
       PI reg; PS (if reg &? IXGBE_MFLCN_RFCE then "enabled" else "disabled");
       PS (if reg &? IXGBE_FCTRL_DPF then "enabled" else "disabled");
       PS (if reg &? IXGBE_FCTRL_PMCF then "enabled" else "disabled");
       PS (if reg &? IXGBE_FCTRL_RPFCE then "enabled" else "disabled")]);;
  reg ← regs_buff regs 516;
  fprintf ("0x05088: VLNCTRL (VLAN Control register)              0x%08X\n" +:+
     "       VLAN Mode:                                     %s\n" +:+
     "       VLAN Filter:                                   %s\n") [
     PI reg; PS (if reg &? IXGBE_VLNCTRL_VME then "enabled" else "disabled");
     PS (if reg &? IXGBE_VLNCTRL_VFE then "enabled" else "disabled")];;
  reg ← regs_buff regs 437;
  fprintf ("0x02100: SRRCTL0 (Split and Replic Rx Control 0)      0x%08X\n" +:+
     "       Receive Buffer Size:                           %uKB\n") [
     PI reg;
     PI (if ((Z.land reg IXGBE_SRRCTL_BSIZEPKT_MASK) <=? 0x10) then (Z.land reg IXGBE_SRRCTL_BSIZEPKT_MASK) else 0x10)].

Definition ixgbe_dump_regs_2 (regs : ereq) : P unit :=
  reg ← regs_buff regs 829;
  fprintf ("0x03D00: RMCS (Receive Music Control register)        0x%08X\n" +:+
     "       Transmit Flow Control:                         %s\n" +:+
     "       Priority Flow Control:                         %s\n") [
     PI reg; PS (if reg &? IXGBE_RMCS_TFCE_802_3X then "enabled" else "disabled");
     PS (if reg &? IXGBE_RMCS_TFCE_PRIORITY then "enabled" else "disabled")];;
  reg ← regs_buff regs 1047;
  fprintf ("0x04250: HLREG0 (Highlander Control 0 register)       0x%08X\n" +:+
     "       Transmit CRC:                                  %s\n" +:+
     "       Receive CRC Strip:                             %s\n" +:+
     "       Jumbo Frames:                                  %s\n" +:+
     "       Pad Short Frames:                              %s\n" +:+
     "       Loopback:                                      %s\n") [
     PI reg; PS (if reg &? IXGBE_HLREG0_TXCRCEN then "enabled" else "disabled");
     PS (if reg &? IXGBE_HLREG0_RXCRCSTRP then "enabled" else "disabled");
     PS (if reg &? IXGBE_HLREG0_JUMBOEN then "enabled" else "disabled");
     PS (if reg &? IXGBE_HLREG0_TXPADEN then "enabled" else "disabled");
     PS (if reg &? IXGBE_HLREG0_LPBK then "enabled" else "disabled")];;
  x0 ← regs_buff regs 0;
  fprintf "0x00000: CTRL        (Device Control)                 0x%08X\n" [PI x0];;
  x0 ← regs_buff regs 1;
  fprintf "0x00008: STATUS      (Device Status)                  0x%08X\n" [PI x0];;
  x0 ← regs_buff regs 2;
  fprintf "0x00018: CTRL_EXT    (Extended Device Control)        0x%08X\n" [PI x0];;
  x0 ← regs_buff regs 3;
  fprintf "0x00020: ESDP        (Extended SDP Control)           0x%08X\n" [PI x0];;
  x0 ← regs_buff regs 4;
  fprintf "0x00028: EODSDP      (Extended OD SDP Control)        0x%08X\n" [PI x0];;
  x0 ← regs_buff regs 5;
  fprintf "0x00200: LEDCTL      (LED Control)                    0x%08X\n" [PI x0];;
  x0 ← regs_buff regs 6;
  fprintf "0x00048: FRTIMER     (Free Running Timer)             0x%08X\n" [PI x0];;
  x0 ← regs_buff regs 7;
  fprintf "0x0004C: TCPTIMER    (TCP Timer)                      0x%08X\n" [PI x0];;
  x0 ← regs_buff regs 8;
  fprintf "0x10010: EEC         (EEPROM/Flash Control)           0x%08X\n" [PI x0].

Definition ixgbe_dump_regs_3 (regs : ereq) : P unit :=
  x0 ← regs_buff regs 9;
  fprintf "0x10014: EERD        (EEPROM Read)                    0x%08X\n" [PI x0];;
  x0 ← regs_buff regs 10;
  fprintf "0x1001C: FLA         (Flash Access)                   0x%08X\n" [PI x0];;
  x0 ← regs_buff regs 11;
  fprintf "0x10110: EEMNGCTL    (Manageability EEPROM Control)   0x%08X\n" [PI x0];;
  x0 ← regs_buff regs 12;
  fprintf "0x10114: EEMNGDATA   (Manageability EEPROM R/W Data)  0x%08X\n" [PI x0];;
  x0 ← regs_buff regs 13;
  fprintf "0x10110: FLMNGCTL    (Manageability Flash Control)    0x%08X\n" [PI x0];;
  x0 ← regs_buff regs 14;
  fprintf "0x1011C: FLMNGDATA   (Manageability Flash Read Data)  0x%08X\n" [PI x0];;
  x0 ← regs_buff regs 15;
  fprintf "0x10120: FLMNGCNT    (Manageability Flash Read Count) 0x%08X\n" [PI x0];;
  x0 ← regs_buff regs 16;
  fprintf "0x1013C: FLOP        (Flash Opcode)                   0x%08X\n" [PI x0];;
  x0 ← regs_buff regs 17;
  fprintf "0x10200: GRC         (General Receive Control)        0x%08X\n" [PI x0];;
  x0 ← regs_buff regs 18;
  fprintf "0x00800: EICR        (Extended Interrupt Cause)       0x%08X\n" [PI x0];;
  x0 ← regs_buff regs 19;
  fprintf "0x00808: EICS        (Extended Interrupt Cause Set)   0x%08X\n" [PI x0];;
  x0 ← regs_buff regs 20;
  fprintf "0x00880: EIMS        (Extended Interr. Mask Set/Read) 0x%08X\n" [PI x0];;
  x0 ← regs_buff regs 21;
  fprintf "0x00888: EIMC        (Extended Interrupt Mask Clear)  0x%08X\n" [PI x0];;
  x0 ← regs_buff regs 22;
  fprintf "0x00810: EIAC        (Extended Interrupt Auto Clear)  0x%08X\n" [PI x0];;
  x0 ← regs_buff regs 23;
  fprintf "0x00890: EIAM        (Extended Interr. Auto Mask EN)  0x%08X\n" [PI x0].

Definition ixgbe_dump_regs_4 (regs : ereq) : P unit :=
  x0 ← regs_buff regs 24;
  fprintf "0x00820: EITR0       (Extended Interrupt Throttle 0)  0x%08X\n" [PI x0];;
  x0 ← regs_buff regs 25;
  fprintf "0x00900: IVAR0       (Interrupt Vector Allocation 0)  0x%08X\n" [PI x0];;
  x0 ← regs_buff regs 26;
  fprintf "0x00000: MSIXT       (MSI-X Table)                    0x%08X\n" [PI x0];;
  x0 ← regs_buff regs 27;
  fprintf "0x02000: MSIXPBA     (MSI-X Pending Bit Array)        0x%08X\n" [PI x0];;
  x0 ← regs_buff regs 28;
  fprintf "0x11068: PBACL       (MSI-X PBA Clear)                0x%08X\n" [PI x0];;
  x0 ← regs_buff regs 29;
  fprintf "0x00898: GPIE        (General Purpose Interrupt EN)   0x%08X\n" [PI x0];;
  x0 ← regs_buff regs 30;
  fprintf "0x03008: PFCTOP      (Priority Flow Ctrl Type Opcode) 0x%08X\n" [PI x0];;
  for_ 4%nat 0 (fun i =>
    x0 ← regs_buff regs (31 + i);
    fprintf "0x%05X: FCCTV%d      (Flow Ctrl Tx Timer Value %d)     0x%08X\n" [
       PI (0x03200 + (4 * i)); PI i; PI i; PI x0]);;
  for_ 8%nat 0 (fun i =>
    x0 ← regs_buff regs (35 + i);
    fprintf "0x%05X: FCRTL%d      (Flow Ctrl Rx Threshold low %d)   0x%08X\n" [
       PI (0x3220 + (8 * i)); PI i; PI i; PI x0]);;
  for_ 8%nat 0 (fun i =>
    x0 ← regs_buff regs (43 + i);
    fprintf "0x%05X: FCRTH%d      (Flow Ctrl Rx Threshold High %d)  0x%08X\n" [
       PI (0x3260 + (8 * i)); PI i; PI i; PI x0]);;
  x0 ← regs_buff regs 51;
  fprintf "0x032A0: FCRTV       (Flow Control Refresh Threshold) 0x%08X\n" [PI x0];;
  x0 ← regs_buff regs 52;
  fprintf "0x0CE00: TFCS        (Transmit Flow Control Status)   0x%08X\n" [PI x0];;
  for_ 64%nat 0 (fun i =>
    x0 ← regs_buff regs (53 + i);
    fprintf "0x%05X: RDBAL%02d     (Rx Desc Base Addr Low %02d)       0x%08X\n" [
       PI (0x01000 + (0x40 * i)); PI i; PI i; PI x0]);;
  for_ 64%nat 0 (fun i =>
    x0 ← regs_buff regs (117 + i);
    fprintf "0x%05X: RDBAH%02d     (Rx Desc Base Addr High %02d)      0x%08X\n" [
       PI (0x01004 + (0x40 * i)); PI i; PI i; PI x0]).

Definition ixgbe_dump_regs_5 (regs : ereq) : P unit :=
  for_ 64%nat 0 (fun i =>
    x0 ← regs_buff regs (181 + i);
    fprintf "0x%05X: RDLEN%02d     (Receive Descriptor Length %02d)   0x%08X\n" [
       PI (0x01008 + (0x40 * i)); PI i; PI i; PI x0]);;
  for_ 64%nat 0 (fun i =>
    x0 ← regs_buff regs (245 + i);
    fprintf "0x%05X: RDH%02d       (Receive Descriptor Head %02d)     0x%08X\n" [
       PI (0x01010 + (0x40 * i)); PI i; PI i; PI x0]);;
  for_ 64%nat 0 (fun i =>
    x0 ← regs_buff regs (309 + i);
    fprintf "0x%05X: RDT%02d       (Receive Descriptor Tail %02d)     0x%08X\n" [
       PI (0x01018 + (0x40 * i)); PI i; PI i; PI x0]);;
  for_ 64%nat 0 (fun i =>
    x0 ← regs_buff regs (373 + i);
    fprintf "0x%05X: RXDCTL%02d    (Receive Descriptor Control %02d)  0x%08X\n" [
       PI (0x01028 + (0x40 * i)); PI i; PI i; PI x0]);;
  for_ 16%nat 0 (fun i =>
    x0 ← regs_buff regs (437 + i);
    fprintf "0x%05X: SRRCTL%02d    (Split and Replic Rx Control %02d) 0x%08X\n" [
       PI (0x02100 + (4 * i)); PI i; PI i; PI x0]);;
  for_ 16%nat 0 (fun i =>
    x0 ← regs_buff regs (453 + i);
    fprintf "0x%05X: DCA_RXCTRL%02d (Rx DCA Control %02d)             0x%08X\n" [
       PI (0x02200 + (4 * i)); PI i; PI i; PI x0]);;
  x0 ← regs_buff regs 469;
  fprintf "0x02F00: RDRXCTL     (Receive DMA Control)            0x%08X\n" [PI x0];;
  for_ 8%nat 0 (fun i =>
    x0 ← regs_buff regs (470 + i);
    fprintf "0x%05X: RXPBSIZE%d   (Receive Packet Buffer Size %d)   0x%08X\n" [
       PI (0x3c00 + (4 * i)); PI i; PI i; PI x0]);;
  x0 ← regs_buff regs 478;
  fprintf "0x03000: RXCTRL      (Receive Control)                0x%08X\n" [PI x0];;
  x0 ← regs_buff regs 479;
  fprintf "0x03D04: DROPEN      (Drop Enable Control)            0x%08X\n" [PI x0];;
  x0 ← regs_buff regs 480;
  fprintf "0x05000: RXCSUM      (Receive Checksum Control)       0x%08X\n" [PI x0];;
  x0 ← regs_buff regs 481;
  fprintf "0x05008: RFCTL       (Receive Filter Control)         0x%08X\n" [PI x0];;
  for_ 16%nat 0 (fun i =>
    x0 ← regs_buff regs (482 + i);
    fprintf "0x%05X: RAL%02d       (Receive Address Low%02d)          0x%08X\n" [
       PI (0x05400 + (8 * i)); PI i; PI i; PI x0]).

Definition ixgbe_dump_regs_6 (regs : ereq) : P unit :=
  for_ 16%nat 0 (fun i =>
    x0 ← regs_buff regs (498 + i);
    fprintf "0x%05X: RAH%02d       (Receive Address High %02d)        0x%08X\n" [
       PI (0x05404 + (8 * i)); PI i; PI i; PI x0]);;
  x0 ← regs_buff regs 514;
  fprintf "0x05480: PSRTYPE     (Packet Split Receive Type)      0x%08X\n" [PI x0];;
  x0 ← regs_buff regs 517;
  fprintf "0x05090: MCSTCTRL    (Multicast Control)              0x%08X\n" [PI x0];;
  x0 ← regs_buff regs 518;
  fprintf "0x05818: MRQC        (Multiple Rx Queues Command)     0x%08X\n" [PI x0];;
  x0 ← regs_buff regs 519;
  fprintf "0x0581C: VMD_CTL     (VMDq Control)                   0x%08X\n" [PI x0];;
  for_ 8%nat 0 (fun i =>
    x0 ← regs_buff regs (520 + i);
    fprintf "0x%05X: IMIR%d       (Immediate Interrupt Rx %d)       0x%08X\n" [
       PI (0x05a80 + (4 * i)); PI i; PI i; PI x0]);;
  for_ 8%nat 0 (fun i =>
    x0 ← regs_buff regs (528 + i);
    fprintf "0x%05X: IMIREXT%d    (Immed. Interr. Rx Extended %d)   0x%08X\n" [
       PI (0x05aa0 + (4 * i)); PI i; PI i; PI x0]);;
  x0 ← regs_buff regs 536;
  fprintf "0x05AC0: IMIRVP      (Immed. Interr. Rx VLAN Prior.)  0x%08X\n" [PI x0];;
  for_ 32%nat 0 (fun i =>
    x0 ← regs_buff regs (537 + i);
    fprintf "0x%05X: TDBAL%02d     (Tx Desc Base Addr Low %02d)       0x%08X\n" [
       PI (0x06000 + (0x40 * i)); PI i; PI i; PI x0]);;
  for_ 32%nat 0 (fun i =>
    x0 ← regs_buff regs (569 + i);
    fprintf "0x%05X: TDBAH%02d     (Tx Desc Base Addr High %02d)      0x%08X\n" [
       PI (0x06004 + (0x40 * i)); PI i; PI i; PI x0]);;
  for_ 32%nat 0 (fun i =>
    x0 ← regs_buff regs (601 + i);
    fprintf "0x%05X: TDLEN%02d     (Tx Descriptor Length %02d)        0x%08X\n" [
       PI (0x06008 + (0x40 * i)); PI i; PI i; PI x0]);;
  for_ 32%nat 0 (fun i =>
    x0 ← regs_buff regs (633 + i);
    fprintf "0x%05X: TDH%02d       (Transmit Descriptor Head %02d)    0x%08X\n" [
       PI (0x06010 + (0x40 * i)); PI i; PI i; PI x0]);;
  for_ 32%nat 0 (fun i =>
    x0 ← regs_buff regs (665 + i);
    fprintf "0x%05X: TDT%02d       (Transmit Descriptor Tail %02d)    0x%08X\n" [
       PI (0x06018 + (0x40 * i)); PI i; PI i; PI x0]).

Definition ixgbe_dump_regs_7 (regs : ereq) : P unit :=
  for_ 32%nat 0 (fun i =>
    x0 ← regs_buff regs (697 + i);
    fprintf "0x%05X: TXDCTL%02d    (Tx Descriptor Control %02d)       0x%08X\n" [
       PI (0x06028 + (0x40 * i)); PI i; PI i; PI x0]);;
  for_ 32%nat 0 (fun i =>
    x0 ← regs_buff regs (729 + i);
    fprintf "0x%05X: TDWBAL%02d    (Tx Desc Compl. WB Addr low %02d)  0x%08X\n" [
       PI (0x06038 + (0x40 * i)); PI i; PI i; PI x0]);;
  for_ 32%nat 0 (fun i =>
    x0 ← regs_buff regs (761 + i);
    fprintf "0x%05X: TDWBAH%02d    (Tx Desc Compl. WB Addr High %02d) 0x%08X\n" [
       PI (0x0603c + (0x40 * i)); PI i; PI i; PI x0]);;
  x0 ← regs_buff regs 793;
  fprintf "0x07E00: DTXCTL      (DMA Tx Control)                 0x%08X\n" [PI x0];;
  for_ 16%nat 0 (fun i =>
    x0 ← regs_buff regs (794 + i);
    fprintf "0x%05X: DCA_TXCTRL%02d (Tx DCA Control %02d)             0x%08X\n" [
       PI (0x07200 + (4 * i)); PI i; PI i; PI x0]);;
  x0 ← regs_buff regs 810;
  fprintf "0x0CB00: TIPG        (Transmit IPG Control)           0x%08X\n" [PI x0];;
  for_ 8%nat 0 (fun i =>
    x0 ← regs_buff regs (811 + i);
    fprintf "0x%05X: TXPBSIZE%d   (Transmit Packet Buffer Size %d)  0x%08X\n" [
       PI (0x0cc00 + (4 * i)); PI i; PI i; PI x0]);;
  x0 ← regs_buff regs 819;
  fprintf "0x0CD10: MNGTXMAP    (Manageability Tx TC Mapping)    0x%08X\n" [PI x0];;
  x0 ← regs_buff regs 820;
  fprintf "0x05800: WUC         (Wake up Control)                0x%08X\n" [PI x0];;
  x0 ← regs_buff regs 821;
  fprintf "0x05808: WUFC        (Wake Up Filter Control)         0x%08X\n" [PI x0];;
  x0 ← regs_buff regs 822;
  fprintf "0x05810: WUS         (Wake Up Status)                 0x%08X\n" [PI x0];;
  x0 ← regs_buff regs 823;
  fprintf "0x05838: IPAV        (IP Address Valid)               0x%08X\n" [PI x0];;
  x0 ← regs_buff regs 824;
  fprintf "0x05840: IP4AT       (IPv4 Address Table)             0x%08X\n" [PI x0];;
  x0 ← regs_buff regs 825;
  fprintf "0x05880: IP6AT       (IPv6 Address Table)             0x%08X\n" [PI x0].

Definition ixgbe_dump_regs_8 (regs : ereq) : P unit :=
  x0 ← regs_buff regs 826;
  fprintf "0x05900: WUPL        (Wake Up Packet Length)          0x%08X\n" [PI x0];;
  x0 ← regs_buff regs 827;
  fprintf "0x05A00: WUPM        (Wake Up Packet Memory)          0x%08X\n" [PI x0];;
  x0 ← regs_buff regs 828;
  fprintf "0x09000: FHFT        (Flexible Host Filter Table)     0x%08X\n" [PI x0];;
  x0 ← regs_buff regs 830;
  fprintf "0x07F40: DPMCS       (Desc. Plan Music Ctrl Status)   0x%08X\n" [PI x0];;
  x0 ← regs_buff regs 831;
  fprintf "0x0CD00: PDPMCS      (Pkt Data Plan Music ctrl Stat)  0x%08X\n" [PI x0];;
  x0 ← regs_buff regs 832;
  fprintf "0x050A0: RUPPBMR     (Rx User Prior to Pkt Buff Map)  0x%08X\n" [PI x0];;
  for_ 8%nat 0 (fun i =>
    x0 ← regs_buff regs (833 + i);
    fprintf "0x%05X: RT2CR%d      (Receive T2 Configure %d)         0x%08X\n" [
       PI (0x03c20 + (4 * i)); PI i; PI i; PI x0]);;
  for_ 8%nat 0 (fun i =>
    x0 ← regs_buff regs (841 + i);
    fprintf "0x%05X: RT2SR%d      (Recieve T2 Status %d)            0x%08X\n" [
       PI (0x03c40 + (4 * i)); PI i; PI i; PI x0]);;
  for_ 8%nat 0 (fun i =>
    x0 ← regs_buff regs (849 + i);
    fprintf "0x%05X: TDTQ2TCCR%d  (Tx Desc TQ2 TC Config %d)        0x%08X\n" [
       PI (0x0602c + (0x40 * i)); PI i; PI i; PI x0]);;
  for_ 8%nat 0 (fun i =>
    x0 ← regs_buff regs (857 + i);
    fprintf "0x%05X: TDTQ2TCSR%d  (Tx Desc TQ2 TC Status %d)        0x%08X\n" [
       PI (0x0622c + (0x40 * i)); PI i; PI i; PI x0]);;
  for_ 8%nat 0 (fun i =>
    x0 ← regs_buff regs (865 + i);
    fprintf "0x%05X: TDPT2TCCR%d  (Tx Data Plane T2 TC Config %d)   0x%08X\n" [
       PI (0x0cd20 + (4 * i)); PI i; PI i; PI x0]);;
  for_ 8%nat 0 (fun i =>
    x0 ← regs_buff regs (873 + i);
    fprintf "0x%05X: TDPT2TCSR%d  (Tx Data Plane T2 TC Status %d)   0x%08X\n" [
       PI (0x0cd40 + (4 * i)); PI i; PI i; PI x0]);;
  x0 ← regs_buff regs 881;
  fprintf "0x04000: crcerrs     (CRC Error Count)                0x%08X\n" [PI x0].

Definition ixgbe_dump_regs_9 (regs : ereq) : P unit :=
  x0 ← regs_buff regs 882;
  fprintf "0x04004: illerrc     (Illegal Byte Error Count)       0x%08X\n" [PI x0];;
  x0 ← regs_buff regs 883;
  fprintf "0x04008: errbc       (Error Byte Count)               0x%08X\n" [PI x0];;
  x0 ← regs_buff regs 884;
  fprintf "0x04010: mspdc       (MAC Short Packet Discard Count) 0x%08X\n" [PI x0];;
  for_ 8%nat 0 (fun i =>
    x0 ← regs_buff regs (885 + i);
    fprintf "0x%05X: mpc%d        (Missed Packets Count %d)         0x%08X\n" [
       PI (0x03fa0 + (4 * i)); PI i; PI i; PI x0]);;
  x0 ← regs_buff regs 893;
  fprintf "0x04034: mlfc        (MAC Local Fault Count)          0x%08X\n" [PI x0];;
  x0 ← regs_buff regs 894;
  fprintf "0x04038: mrfc        (MAC Remote Fault Count)         0x%08X\n" [PI x0];;
  x0 ← regs_buff regs 895;
  fprintf "0x04040: rlec        (Receive Length Error Count)     0x%08X\n" [PI x0];;
  x0 ← regs_buff regs 896;
  fprintf "0x03F60: lxontxc     (Link XON Transmitted Count)     0x%08X\n" [PI x0];;
  x0 ← regs_buff regs 897;
  fprintf "0x0CF60: lxonrxc     (Link XON Received Count)        0x%08X\n" [PI x0];;
  x0 ← regs_buff regs 898;
  fprintf "0x03F68: lxofftxc    (Link XOFF Transmitted Count)    0x%08X\n" [PI x0];;
  x0 ← regs_buff regs 899;
  fprintf "0x0CF68: lxoffrxc    (Link XOFF Received Count)       0x%08X\n" [PI x0];;
  for_ 8%nat 0 (fun i =>
    x0 ← regs_buff regs (900 + i);
    fprintf "0x%05X: pxontxc%d    (Priority XON Tx Count %d)        0x%08X\n" [
       PI (0x03f00 + (4 * i)); PI i; PI i; PI x0]);;
  for_ 8%nat 0 (fun i =>
    x0 ← regs_buff regs (908 + i);
    fprintf "0x%05X: pxonrxc%d    (Priority XON Received Count %d)  0x%08X\n" [
       PI (0x0cf00 + (4 * i)); PI i; PI i; PI x0]);;
  for_ 8%nat 0 (fun i =>
    x0 ← regs_buff regs (916 + i);
    fprintf "0x%05X: pxofftxc%d   (Priority XOFF Tx Count %d)       0x%08X\n" [
       PI (0x03f20 + (4 * i)); PI i; PI i; PI x0]).

Definition ixgbe_dump_regs_10 (regs : ereq) : P unit :=
  for_ 8%nat 0 (fun i =>
    x0 ← regs_buff regs (924 + i);
    fprintf "0x%05X: pxoffrxc%d   (Priority XOFF Received Count %d) 0x%08X\n" [
       PI (0x0cf20 + (4 * i)); PI i; PI i; PI x0]);;
  x0 ← regs_buff regs 932;
  fprintf "0x0405C: prc64       (Packets Received (64B) Count)   0x%08X\n" [PI x0];;
  x0 ← regs_buff regs 933;
  fprintf "0x04060: prc127      (Packets Rx (65-127B) Count)     0x%08X\n" [PI x0];;
  x0 ← regs_buff regs 934;
  fprintf "0x04064: prc255      (Packets Rx (128-255B) Count)    0x%08X\n" [PI x0];;
  x0 ← regs_buff regs 935;
  fprintf "0x04068: prc511      (Packets Rx (256-511B) Count)    0x%08X\n" [PI x0];;
  x0 ← regs_buff regs 936;
  fprintf "0x0406C: prc1023     (Packets Rx (512-1023B) Count)   0x%08X\n" [PI x0];;
  x0 ← regs_buff regs 937;
  fprintf "0x04070: prc1522     (Packets Rx (1024-Max) Count)    0x%08X\n" [PI x0];;
  x0 ← regs_buff regs 938;
  fprintf "0x04074: gprc        (Good Packets Received Count)    0x%08X\n" [PI x0];;
  x0 ← regs_buff regs 939;
  fprintf "0x04078: bprc        (Broadcast Packets Rx Count)     0x%08X\n" [PI x0];;
  x0 ← regs_buff regs 940;
  fprintf "0x0407C: mprc        (Multicast Packets Rx Count)     0x%08X\n" [PI x0];;
  x0 ← regs_buff regs 941;
  fprintf "0x04080: gptc        (Good Packets Transmitted Count) 0x%08X\n" [PI x0];;
  x0 ← regs_buff regs 942;
  fprintf "0x04088: gorcl       (Good Octets Rx Count Low)       0x%08X\n" [PI x0];;
  x0 ← regs_buff regs 943;
  fprintf "0x0408C: gorch       (Good Octets Rx Count High)      0x%08X\n" [PI x0];;
  x0 ← regs_buff regs 944;
  fprintf "0x04090: gotcl       (Good Octets Tx Count Low)       0x%08X\n" [PI x0];;
  x0 ← regs_buff regs 945;
  fprintf "0x04094: gotch       (Good Octets Tx Count High)      0x%08X\n" [PI x0].

Definition ixgbe_dump_regs_11 (regs : ereq) : P unit :=
  for_ 8%nat 0 (fun i =>
    x0 ← regs_buff regs (946 + i);
    fprintf "0x%05X: rnbc%d       (Receive No Buffers Count %d)     0x%08X\n" [
       PI (0x03fc0 + (4 * i)); PI i; PI i; PI x0]);;
  x0 ← regs_buff regs 954;
  fprintf "0x040A4: ruc         (Receive Undersize count)        0x%08X\n" [PI x0];;
  x0 ← regs_buff regs 955;
  fprintf "0x040A8: rfc         (Receive Fragment Count)         0x%08X\n" [PI x0];;
  x0 ← regs_buff regs 956;
  fprintf "0x040AC: roc         (Receive Oversize Count)         0x%08X\n" [PI x0];;
  x0 ← regs_buff regs 957;
  fprintf "0x040B0: rjc         (Receive Jabber Count)           0x%08X\n" [PI x0];;
  x0 ← regs_buff regs 958;
  fprintf "0x040B4: mngprc      (Management Packets Rx Count)    0x%08X\n" [PI x0];;
  x0 ← regs_buff regs 959;
  fprintf "0x040B8: mngpdc      (Management Pkts Dropped Count)  0x%08X\n" [PI x0];;
  x0 ← regs_buff regs 960;
  fprintf "0x0CF90: mngptc      (Management Packets Tx Count)    0x%08X\n" [PI x0];;
  x0 ← regs_buff regs 961;
  fprintf "0x040C0: torl        (Total Octets Rx Count Low)      0x%08X\n" [PI x0];;
  x0 ← regs_buff regs 962;
  fprintf "0x040C4: torh        (Total Octets Rx Count High)     0x%08X\n" [PI x0];;
  x0 ← regs_buff regs 963;
  fprintf "0x040D0: tpr         (Total Packets Received)         0x%08X\n" [PI x0];;
  x0 ← regs_buff regs 964;
  fprintf "0x040D4: tpt         (Total Packets Transmitted)      0x%08X\n" [PI x0];;
  x0 ← regs_buff regs 965;
  fprintf "0x040D8: ptc64       (Packets Tx (64B) Count)         0x%08X\n" [PI x0];;
  x0 ← regs_buff regs 966;
  fprintf "0x040DC: ptc127      (Packets Tx (65-127B) Count)     0x%08X\n" [PI x0];;
  x0 ← regs_buff regs 967;
  fprintf "0x040E0: ptc255      (Packets Tx (128-255B) Count)    0x%08X\n" [PI x0].

Definition ixgbe_dump_regs_12 (regs : ereq) : P unit :=
  x0 ← regs_buff regs 968;
  fprintf "0x040E4: ptc511      (Packets Tx (256-511B) Count)    0x%08X\n" [PI x0];;
  x0 ← regs_buff regs 969;
  fprintf "0x040E8: ptc1023     (Packets Tx (512-1023B) Count)   0x%08X\n" [PI x0];;
  x0 ← regs_buff regs 970;
  fprintf "0x040EC: ptc1522     (Packets Tx (1024-Max) Count)    0x%08X\n" [PI x0];;
  x0 ← regs_buff regs 971;
  fprintf "0x040F0: mptc        (Multicast Packets Tx Count)     0x%08X\n" [PI x0];;
  x0 ← regs_buff regs 972;
  fprintf "0x040F4: bptc        (Broadcast Packets Tx Count)     0x%08X\n" [PI x0];;
  x0 ← regs_buff regs 973;
  fprintf "0x04120: xec         (XSUM Error Count)               0x%08X\n" [PI x0];;
  for_ 16%nat 0 (fun i =>
    x0 ← regs_buff regs (974 + i);
    fprintf "0x%05X: qprc%02d      (Queue Packets Rx Count %02d)      0x%08X\n" [
       PI (0x01030 + (0x40 * i)); PI i; PI i; PI x0]);;
  for_ 16%nat 0 (fun i =>
    x0 ← regs_buff regs (990 + i);
    fprintf "0x%05X: qptc%02d      (Queue Packets Tx Count %02d)      0x%08X\n" [
       PI (0x06030 + (0x40 * i)); PI i; PI i; PI x0]);;
  for_ 16%nat 0 (fun i =>
    x0 ← regs_buff regs (1006 + i);
    fprintf "0x%05X: qbrc%02d      (Queue Bytes Rx Count %02d)        0x%08X\n" [
       PI (0x01034 + (0x40 * i)); PI i; PI i; PI x0]);;
  for_ 16%nat 0 (fun i =>
    x0 ← regs_buff regs (1022 + i);
    fprintf "0x%05X: qbtc%02d      (Queue Bytes Tx Count %02d)        0x%08X\n" [
       PI (0x06034 + (0x40 * i)); PI i; PI i; PI x0]);;
  x0 ← regs_buff regs 1038;
  fprintf "0x04200: PCS1GCFIG   (PCS_1G Gloabal Config 1)        0x%08X\n" [PI x0];;
  x0 ← regs_buff regs 1039;
  fprintf "0x04208: PCS1GLCTL   (PCS_1G Link Control)            0x%08X\n" [PI x0];;
  x0 ← regs_buff regs 1040;
  fprintf "0x0420C: PCS1GLSTA   (PCS_1G Link Status)             0x%08X\n" [PI x0];;
  x0 ← regs_buff regs 1041;
  fprintf "0x04210: PCS1GDBG0   (PCS_1G Debug 0)                 0x%08X\n" [PI x0].

Definition ixgbe_dump_regs_13 (regs : ereq) : P unit :=
  x0 ← regs_buff regs 1042;
  fprintf "0x04214: PCS1GDBG1   (PCS_1G Debug 1)                 0x%08X\n" [PI x0];;
  x0 ← regs_buff regs 1043;
  fprintf "0x04218: PCS1GANA    (PCS-1G Auto Neg. Adv.)          0x%08X\n" [PI x0];;
  x0 ← regs_buff regs 1044;
  fprintf "0x0421C: PCS1GANLP   (PCS-1G AN LP Ability)           0x%08X\n" [PI x0];;
  x0 ← regs_buff regs 1045;
  fprintf "0x04220: PCS1GANNP   (PCS_1G Auto Neg Next Page Tx)   0x%08X\n" [PI x0];;
  x0 ← regs_buff regs 1046;
  fprintf "0x04224: PCS1GANLPNP (PCS_1G Auto Neg LPs Next Page)  0x%08X\n" [PI x0];;
  x0 ← regs_buff regs 1048;
  fprintf "0x04244: HLREG1      (Highlander Status 1)            0x%08X\n" [PI x0];;
  x0 ← regs_buff regs 1049;
  fprintf "0x04248: PAP         (Pause and Pace)                 0x%08X\n" [PI x0];;
  x0 ← regs_buff regs 1050;
  fprintf "0x0424C: MACA        (MDI Auto-Scan Command and Addr) 0x%08X\n" [PI x0];;
  x0 ← regs_buff regs 1051;
  fprintf "0x04250: APAE        (Auto-Scan PHY Address Enable)   0x%08X\n" [PI x0];;
  x0 ← regs_buff regs 1052;
  fprintf "0x04254: ARD         (Auto-Scan Read Data)            0x%08X\n" [PI x0];;
  x0 ← regs_buff regs 1053;
  fprintf "0x04258: AIS         (Auto-Scan Interrupt Status)     0x%08X\n" [PI x0];;
  x0 ← regs_buff regs 1054;
  fprintf "0x0425C: MSCA        (MDI Single Command and Addr)    0x%08X\n" [PI x0];;
  x0 ← regs_buff regs 1055;
  fprintf "0x04260: MSRWD       (MDI Single Read and Write Data) 0x%08X\n" [PI x0];;
  x0 ← regs_buff regs 1056;
  fprintf "0x04264: MLADD       (MAC Address Low)                0x%08X\n" [PI x0];;
  x0 ← regs_buff regs 1057;
  fprintf "0x04268: MHADD       (MAC Addr High/Max Frame size)   0x%08X\n" [PI x0].

Definition ixgbe_dump_regs_14 (regs : ereq) : P unit :=
  x0 ← regs_buff regs 1058;
  fprintf "0x0426C: TREG        (Test Register)                  0x%08X\n" [PI x0];;
  x0 ← regs_buff regs 1059;
  fprintf "0x04288: PCSS1       (XGXS Status 1)                  0x%08X\n" [PI x0];;
  x0 ← regs_buff regs 1060;
  fprintf "0x0428C: PCSS2       (XGXS Status 2)                  0x%08X\n" [PI x0];;
  x0 ← regs_buff regs 1061;
  fprintf "0x04290: XPCSS       (10GBASE-X PCS Status)           0x%08X\n" [PI x0];;
  x0 ← regs_buff regs 1062;
  fprintf "0x04298: SERDESC     (SERDES Interface Control)       0x%08X\n" [PI x0];;
  x0 ← regs_buff regs 1063;
  fprintf "0x0429C: MACS        (FIFO Status/CNTL Report)        0x%08X\n" [PI x0];;
  x0 ← regs_buff regs 1064;
  fprintf "0x042A0: AUTOC       (Auto Negotiation Control)       0x%08X\n" [PI x0];;
  x0 ← regs_buff regs 1066;
  fprintf "0x042A8: AUTOC2      (Auto Negotiation Control 2)     0x%08X\n" [PI x0];;
  x0 ← regs_buff regs 1067;
  fprintf "0x042AC: AUTOC3      (Auto Negotiation Control 3)     0x%08X\n" [PI x0];;
  x0 ← regs_buff regs 1068;
  fprintf "0x042B0: ANLP1       (Auto Neg Lnk Part. Ctrl Word 1) 0x%08X\n" [PI x0];;
  x0 ← regs_buff regs 1069;
  fprintf "0x042B0: ANLP2       (Auto Neg Lnk Part. Ctrl Word 2) 0x%08X\n" [PI x0];;
  x0 ← regs_buff regs 1070;
  fprintf "0x04800: ATLASCTL    (Atlas Analog Configuration)     0x%08X\n" [PI x0];;
  x0 ← regs_buff regs 1071;
  fprintf "0x02C20: RDSTATCTL   (Rx DMA Statistic Control)       0x%08X\n" [PI x0];;
  for_ 8%nat 0 (fun i =>
    x0 ← regs_buff regs (1072 + i);
    fprintf "0x%05X: RDSTAT%d     (Rx DMA Statistics %d)            0x%08X\n" [
       PI (0x02c00 + (4 * i)); PI i; PI i; PI x0]);;
  x0 ← regs_buff regs 1080;
  fprintf "0x02F08: RDHMPN      (Rx Desc Handler Mem Page num)   0x%08X\n" [PI x0].

Definition ixgbe_dump_regs_15 (regs : ereq) : P unit :=
  x0 ← regs_buff regs 1081;
  fprintf "0x02F10: RIC_DW0     (Rx Desc Hand. Mem Read Data 0)  0x%08X\n" [PI x0];;
  x0 ← regs_buff regs 1082;
  fprintf "0x02F14: RIC_DW1     (Rx Desc Hand. Mem Read Data 1)  0x%08X\n" [PI x0];;
  x0 ← regs_buff regs 1083;
  fprintf "0x02F18: RIC_DW2     (Rx Desc Hand. Mem Read Data 2)  0x%08X\n" [PI x0];;
  x0 ← regs_buff regs 1084;
  fprintf "0x02F1C: RIC_DW3     (Rx Desc Hand. Mem Read Data 3)  0x%08X\n" [PI x0];;
  x0 ← regs_buff regs 1085;
  fprintf "0x02F20: RDPROBE     (Rx Probe Mode Status)           0x%08X\n" [PI x0];;
  x0 ← regs_buff regs 1086;
  fprintf "0x07C20: TDSTATCTL   (Tx DMA Statistic Control)       0x%08X\n" [PI x0];;
  for_ 8%nat 0 (fun i =>
    x0 ← regs_buff regs (1087 + i);
    fprintf "0x%05X: TDSTAT%d     (Tx DMA Statistics %d)            0x%08X\n" [
       PI (0x07c00 + (4 * i)); PI i; PI i; PI x0]);;
  x0 ← regs_buff regs 1095;
  fprintf "0x07F08: TDHMPN      (Tx Desc Handler Mem Page Num)   0x%08X\n" [PI x0];;
  x0 ← regs_buff regs 1096;
  fprintf "0x07F10: TIC_DW0     (Tx Desc Hand. Mem Read Data 0)  0x%08X\n" [PI x0];;
  x0 ← regs_buff regs 1097;
  fprintf "0x07F14: TIC_DW1     (Tx Desc Hand. Mem Read Data 1)  0x%08X\n" [PI x0];;
  x0 ← regs_buff regs 1098;
  fprintf "0x07F18: TIC_DW2     (Tx Desc Hand. Mem Read Data 2)  0x%08X\n" [PI x0];;
  x0 ← regs_buff regs 1099;
  fprintf "0x07F1C: TIC_DW3     (Tx Desc Hand. Mem Read Data 3)  0x%08X\n" [PI x0];;
  x0 ← regs_buff regs 1100;
  fprintf "0x07F20: TDPROBE     (Tx Probe Mode Status)           0x%08X\n" [PI x0];;
  x0 ← regs_buff regs 1101;
  fprintf "0x0C600: TXBUFCTRL   (TX Buffer Access Control)       0x%08X\n" [PI x0];;
  x0 ← regs_buff regs 1102;
  fprintf "0x0C610: TXBUFDATA0  (TX Buffer DATA 0)               0x%08X\n" [PI x0].

Definition ixgbe_dump_regs_16 (regs : ereq) : P unit :=
  x0 ← regs_buff regs 1103;
  fprintf "0x0C614: TXBUFDATA1  (TX Buffer DATA 1)               0x%08X\n" [PI x0];;
  x0 ← regs_buff regs 1104;
  fprintf "0x0C618: TXBUFDATA2  (TX Buffer DATA 2)               0x%08X\n" [PI x0];;
  x0 ← regs_buff regs 1105;
  fprintf "0x0C61C: TXBUFDATA3  (TX Buffer DATA 3)               0x%08X\n" [PI x0];;
  x0 ← regs_buff regs 1106;
  fprintf "0x03600: RXBUFCTRL   (RX Buffer Access Control)       0x%08X\n" [PI x0];;
  x0 ← regs_buff regs 1107;
  fprintf "0x03610: RXBUFDATA0  (RX Buffer DATA 0)               0x%08X\n" [PI x0];;
  x0 ← regs_buff regs 1108;
  fprintf "0x03614: RXBUFDATA1  (RX Buffer DATA 1)               0x%08X\n" [PI x0];;
  x0 ← regs_buff regs 1109;
  fprintf "0x03618: RXBUFDATA2  (RX Buffer DATA 2)               0x%08X\n" [PI x0];;
  x0 ← regs_buff regs 1110;
  fprintf "0x0361C: RXBUFDATA3  (RX Buffer DATA 3)               0x%08X\n" [PI x0];;
  for_ 8%nat 0 (fun i =>
    x0 ← regs_buff regs (1111 + i);
    fprintf "0x%05X: PCIE_DIAG%d  (PCIe Diagnostic %d)              0x%08X\n" [
       PI (0x11090 + (4 * i)); PI i; PI i; PI x0]);;
  x0 ← regs_buff regs 1119;
  fprintf "0x050A4: RFVAL       (Receive Filter Validation)      0x%08X\n" [PI x0];;
  x0 ← regs_buff regs 1120;
  fprintf "0x042B8: MDFTC1      (MAC DFT Control 1)              0x%08X\n" [PI x0];;
  x0 ← regs_buff regs 1121;
  fprintf "0x042C0: MDFTC2      (MAC DFT Control 2)              0x%08X\n" [PI x0];;
  x0 ← regs_buff regs 1122;
  fprintf "0x042C4: MDFTFIFO1   (MAC DFT FIFO 1)                 0x%08X\n" [PI x0];;
  x0 ← regs_buff regs 1123;
  fprintf "0x042C8: MDFTFIFO2   (MAC DFT FIFO 2)                 0x%08X\n" [PI x0];;
  x0 ← regs_buff regs 1124;
  fprintf "0x042CC: MDFTS       (MAC DFT Status)                 0x%08X\n" [PI x0].

Definition ixgbe_dump_regs_17 (regs : ereq) : P unit :=
  x0 ← regs_buff regs 1125;
  fprintf "0x1106C: PCIEECCCTL  (PCIe ECC Control)               0x%08X\n" [PI x0];;
  x0 ← regs_buff regs 1126;
  fprintf "0x0C300: PBTXECC     (Packet Buffer Tx ECC)           0x%08X\n" [PI x0];;
  x0 ← regs_buff regs 1127;
  fprintf "0x03300: PBRXECC     (Packet Buffer Rx ECC)           0x%08X\n" [PI x0].

Definition ixgbe_dump_regs (info regs : ereq) : P Z :=
  let hw_device_id := u16 (fld regs "version") in
  let version := u8 (Z.shiftr (fld regs "version") 24) in
  if negb (version =? 1) then mret (-1)
  else
    let mac_type := ixgbe_get_mac_type hw_device_id in
    ixgbe_dump_regs_1 regs mac_type;;
    ixgbe_dump_regs_2 regs;;
    ixgbe_dump_regs_3 regs;;
    ixgbe_dump_regs_4 regs;;
    ixgbe_dump_regs_5 regs;;
    ixgbe_dump_regs_6 regs;;
    ixgbe_dump_regs_7 regs;;
    ixgbe_dump_regs_8 regs;;
    ixgbe_dump_regs_9 regs;;
    ixgbe_dump_regs_10 regs;;
    ixgbe_dump_regs_11 regs;;
    ixgbe_dump_regs_12 regs;;
    ixgbe_dump_regs_13 regs;;
    ixgbe_dump_regs_14 regs;;
    ixgbe_dump_regs_15 regs;;
    ixgbe_dump_regs_16 regs;;
    ixgbe_dump_regs_17 regs;;
    mret 0.

Lemma ixgbe_dump_regs_1_shows regs mac_type : 4516 <= Z.of_nat (length (rq_arr regs)) -> shows (ixgbe_dump_regs_1 regs mac_type) (fun _ => True).
Proof. intros Hl. unfold ixgbe_dump_regs_1. regs_all. Qed.

Lemma ixgbe_dump_regs_2_shows regs : 4516 <= Z.of_nat (length (rq_arr regs)) -> shows (ixgbe_dump_regs_2 regs) (fun _ => True).
Proof. intros Hl. unfold ixgbe_dump_regs_2. regs_all. Qed.

Lemma ixgbe_dump_regs_3_shows regs : 4516 <= Z.of_nat (length (rq_arr regs)) -> shows (ixgbe_dump_regs_3 regs) (fun _ => True).
Proof. intros Hl. unfold ixgbe_dump_regs_3. regs_all. Qed.

Lemma ixgbe_dump_regs_4_shows regs : 4516 <= Z.of_nat (length (rq_arr regs)) -> shows (ixgbe_dump_regs_4 regs) (fun _ => True).
Proof. intros Hl. unfold ixgbe_dump_regs_4. regs_all. Qed.

Lemma ixgbe_dump_regs_5_shows regs : 4516 <= Z.of_nat (length (rq_arr regs)) -> shows (ixgbe_dump_regs_5 regs) (fun _ => True).
Proof. intros Hl. unfold ixgbe_dump_regs_5. regs_all. Qed.

Lemma ixgbe_dump_regs_6_shows regs : 4516 <= Z.of_nat (length (rq_arr regs)) -> shows (ixgbe_dump_regs_6 regs) (fun _ => True).
Proof. intros Hl. unfold ixgbe_dump_regs_6. regs_all. Qed.

Lemma ixgbe_dump_regs_7_shows regs : 4516 <= Z.of_nat (length (rq_arr regs)) -> shows (ixgbe_dump_regs_7 regs) (fun _ => True).
Proof. intros Hl. unfold ixgbe_dump_regs_7. regs_all. Qed.

Lemma ixgbe_dump_regs_8_shows regs : 4516 <= Z.of_nat (length (rq_arr regs)) -> shows (ixgbe_dump_regs_8 regs) (fun _ => True).
Proof. intros Hl. unfold ixgbe_dump_regs_8. regs_all. Qed.

Lemma ixgbe_dump_regs_9_shows regs : 4516 <= Z.of_nat (length (rq_arr regs)) -> shows (ixgbe_dump_regs_9 regs) (fun _ => True).
Proof. intros Hl. unfold ixgbe_dump_regs_9. regs_all. Qed.

Lemma ixgbe_dump_regs_10_shows regs : 4516 <= Z.of_nat (length (rq_arr regs)) -> shows (ixgbe_dump_regs_10 regs) (fun _ => True).
Proof. intros Hl. unfold ixgbe_dump_regs_10. regs_all. Qed.

Lemma ixgbe_dump_regs_11_shows regs : 4516 <= Z.of_nat (length (rq_arr regs)) -> shows (ixgbe_dump_regs_11 regs) (fun _ => True).
Proof. intros Hl. unfold ixgbe_dump_regs_11. regs_all. Qed.

Lemma ixgbe_dump_regs_12_shows regs : 4516 <= Z.of_nat (length (rq_arr regs)) -> shows (ixgbe_dump_regs_12 regs) (fun _ => True).
Proof. intros Hl. unfold ixgbe_dump_regs_12. regs_all. Qed.

Lemma ixgbe_dump_regs_13_shows regs : 4516 <= Z.of_nat (length (rq_arr regs)) -> shows (ixgbe_dump_regs_13 regs) (fun _ => True).
Proof. intros Hl. unfold ixgbe_dump_regs_13. regs_all. Qed.

Lemma ixgbe_dump_regs_14_shows regs : 4516 <= Z.of_nat (length (rq_arr regs)) -> shows (ixgbe_dump_regs_14 regs) (fun _ => True).
Proof. intros Hl. unfold ixgbe_dump_regs_14. regs_all. Qed.

Lemma ixgbe_dump_regs_15_shows regs : 4516 <= Z.of_nat (length (rq_arr regs)) -> shows (ixgbe_dump_regs_15 regs) (fun _ => True).
Proof. intros Hl. unfold ixgbe_dump_regs_15. regs_all. Qed.

Lemma ixgbe_dump_regs_16_shows regs : 4516 <= Z.of_nat (length (rq_arr regs)) -> shows (ixgbe_dump_regs_16 regs) (fun _ => True).
Proof. intros Hl. unfold ixgbe_dump_regs_16. regs_all. Qed.

Lemma ixgbe_dump_regs_17_shows regs : 4516 <= Z.of_nat (length (rq_arr regs)) -> shows (ixgbe_dump_regs_17 regs) (fun _ => True).
Proof. intros Hl. unfold ixgbe_dump_regs_17. regs_all. Qed.

#[local] Hint Resolve ixgbe_dump_regs_1_shows ixgbe_dump_regs_2_shows ixgbe_dump_regs_3_shows ixgbe_dump_regs_4_shows ixgbe_dump_regs_5_shows ixgbe_dump_regs_6_shows ixgbe_dump_regs_7_shows ixgbe_dump_regs_8_shows ixgbe_dump_regs_9_shows ixgbe_dump_regs_10_shows ixgbe_dump_regs_11_shows ixgbe_dump_regs_12_shows ixgbe_dump_regs_13_shows ixgbe_dump_regs_14_shows ixgbe_dump_regs_15_shows ixgbe_dump_regs_16_shows ixgbe_dump_regs_17_shows : shows.

Lemma ixgbe_dumps : dumps 4516 ixgbe_dump_regs.
Proof. intros info regs Hl. unfold ixgbe_dump_regs. regs_all. Qed.
End regs.
End EtIxgbe.
