(* ===== verification/EtE1000.v ===== *)
(** * ethtool: registers of the e1000 and e1000e drivers ([ethernet_test/ethtool/e1000.c]) *)

From stdpp Require Import base list strings gmap numbers.
From Stdlib Require Import ZArith Lia.
From S2P Require Import Prelude CInt CLib CFmt EtCmd EtSet EtFeat EtRegs.
Import Et EtS EtF.

Module EtE1000.

Definition e1000_undefined : Z := 0.
Definition e1000_82542 : Z := e1000_undefined + 1.
Definition E1000_DEV_ID_82542 : Z := 0x1000.
Definition e1000_82543 : Z := e1000_82542 + 1.
Definition E1000_DEV_ID_82543GC_FIBER : Z := 0x1001.
Definition E1000_DEV_ID_82543GC_COPPER : Z := 0x1004.
Definition e1000_82544 : Z := e1000_82543 + 1.
Definition E1000_DEV_ID_82544EI_COPPER : Z := 0x1008.
Definition E1000_DEV_ID_82544EI_FIBER : Z := 0x1009.
Definition E1000_DEV_ID_82544GC_COPPER : Z := 0x100c.
Definition E1000_DEV_ID_82544GC_LOM : Z := 0x100d.
Definition e1000_82540 : Z := e1000_82544 + 1.
Definition E1000_DEV_ID_82540EM : Z := 0x100e.
Definition E1000_DEV_ID_82540EM_LOM : Z := 0x1015.
Definition E1000_DEV_ID_82540EP : Z := 0x1017.
Definition E1000_DEV_ID_82540EP_LOM : Z := 0x1016.
Definition E1000_DEV_ID_82540EP_LP : Z := 0x101e.
Definition e1000_82545 : Z := e1000_82540 + 1.
Definition E1000_DEV_ID_82545EM_COPPER : Z := 0x100f.
Definition E1000_DEV_ID_82545EM_FIBER : Z := 0x1011.
Definition e1000_82545_rev_3 : Z := e1000_82545 + 1.
Definition E1000_DEV_ID_82545GM_COPPER : Z := 0x1026.
Definition E1000_DEV_ID_82545GM_FIBER : Z := 0x1027.
Definition E1000_DEV_ID_82545GM_SERDES : Z := 0x1028.
Definition e1000_82546 : Z := e1000_82545_rev_3 + 1.
Definition E1000_DEV_ID_82546EB_COPPER : Z := 0x1010.
Definition E1000_DEV_ID_82546EB_FIBER : Z := 0x1012.
Definition E1000_DEV_ID_82546EB_QUAD_COPPER : Z := 0x101d.
Definition e1000_82546_rev_3 : Z := e1000_82546 + 1.
Definition E1000_DEV_ID_82546GB_COPPER : Z := 0x1079.
Definition E1000_DEV_ID_82546GB_FIBER : Z := 0x107a.
Definition E1000_DEV_ID_82546GB_SERDES : Z := 0x107b.
Definition E1000_DEV_ID_82546GB_PCIE : Z := 0x108a.
Definition E1000_DEV_ID_82546GB_QUAD_COPPER : Z := 0x1099.
Definition E1000_DEV_ID_82546GB_QUAD_COPPER_KSP3 : Z := 0x10b5.
Definition e1000_82541 : Z := e1000_82546_rev_3 + 1.
Definition E1000_DEV_ID_82541EI : Z := 0x1013.
Definition E1000_DEV_ID_82541EI_MOBILE : Z := 0x1018.
Definition E1000_DEV_ID_82541ER_LOM : Z := 0x1014.
Definition e1000_82541_rev_2 : Z := e1000_82541 + 1.
Definition E1000_DEV_ID_82541ER : Z := 0x1078.
Definition E1000_DEV_ID_82541GI : Z := 0x1076.
Definition E1000_DEV_ID_82541GI_LF : Z := 0x107c.
Definition E1000_DEV_ID_82541GI_MOBILE : Z := 0x1077.
Definition e1000_82547 : Z := e1000_82541_rev_2 + 1.
Definition E1000_DEV_ID_82547EI : Z := 0x1019.
Definition E1000_DEV_ID_82547EI_MOBILE : Z := 0x101a.
Definition e1000_82547_rev_2 : Z := e1000_82547 + 1.
Definition E1000_DEV_ID_82547GI : Z := 0x1075.
Definition e1000_82571 : Z := e1000_82547_rev_2 + 1.
Definition E1000_DEV_ID_82571EB_COPPER : Z := 0x105e.
Definition E1000_DEV_ID_82571EB_FIBER : Z := 0x105f.
Definition E1000_DEV_ID_82571EB_SERDES : Z := 0x1060.
Definition E1000_DEV_ID_82571EB_QUAD_COPPER : Z := 0x10a4.
Definition E1000_DEV_ID_82571EB_QUAD_FIBER : Z := 0x10a5.
Definition E1000_DEV_ID_82571EB_QUAD_COPPER_LP : Z := 0x10bc.
Definition e1000_82572 : Z := e1000_82571 + 1.
Definition E1000_DEV_ID_82572EI : Z := 0x10b9.
Definition E1000_DEV_ID_82572EI_COPPER : Z := 0x107d.
Definition E1000_DEV_ID_82572EI_FIBER : Z := 0x107e.
Definition E1000_DEV_ID_82572EI_SERDES : Z := 0x107f.
Definition e1000_82573 : Z := e1000_82572 + 1.
Definition E1000_DEV_ID_82573E : Z := 0x108b.
Definition E1000_DEV_ID_82573E_IAMT : Z := 0x108c.
Definition E1000_DEV_ID_82573L : Z := 0x109a.
Definition e1000_80003es2lan : Z := e1000_82573 + 1.
Definition E1000_DEV_ID_80003ES2LAN_COPPER_DPT : Z := 0x1096.
Definition E1000_DEV_ID_80003ES2LAN_SERDES_DPT : Z := 0x1098.
Definition E1000_DEV_ID_80003ES2LAN_COPPER_SPT : Z := 0x10ba.
Definition E1000_DEV_ID_80003ES2LAN_SERDES_SPT : Z := 0x10bb.
Definition e1000_ich8lan : Z := e1000_80003es2lan + 1.
Definition E1000_DEV_ID_ICH8_IFE : Z := 0x104c.
Definition E1000_DEV_ID_ICH8_IFE_GT : Z := 0x10c4.
Definition E1000_DEV_ID_ICH8_IFE_G : Z := 0x10c5.
Definition E1000_DEV_ID_ICH8_IGP_M : Z := 0x104d.
Definition E1000_DEV_ID_ICH8_IGP_M_AMT : Z := 0x1049.
Definition E1000_DEV_ID_ICH8_IGP_AMT : Z := 0x104a.
Definition E1000_DEV_ID_ICH8_IGP_C : Z := 0x104b.
Definition E1000_CTRL_BEM : Z := 0x00000002.
Definition E1000_CTRL_LRST : Z := 0x00000008.
Definition E1000_CTRL_SLU : Z := 0x00000040.
Definition E1000_CTRL_ILOS : Z := 0x00000080.
Definition E1000_CTRL_RFCE : Z := 0x08000000.
Definition E1000_CTRL_TFCE : Z := 0x10000000.
Definition E1000_CTRL_VME : Z := 0x40000000.
Definition E1000_CTRL_ASDE : Z := 0x00000020.
Definition E1000_CTRL_SPD_SEL : Z := 0x00000300.
Definition E1000_CTRL_SPD_1000 : Z := 0x00000200.
Definition E1000_CTRL_SPD_100 : Z := 0x00000100.
Definition E1000_CTRL_SPD_10 : Z := 0x00000000.
Definition E1000_CTRL_FRCSPD : Z := 0x00000800.
Definition E1000_CTRL_FRCDPX : Z := 0x00001000.
Definition E1000_STATUS_FD : Z := 0x00000001.
Definition E1000_STATUS_LU : Z := 0x00000002.
Definition E1000_STATUS_TBIMODE : Z := 0x00000020.
Definition E1000_STATUS_SPEED_MASK : Z := 0x000000c0.
Definition E1000_STATUS_SPEED_1000 : Z := 0x00000080.
Definition E1000_STATUS_SPEED_100 : Z := 0x00000040.
Definition E1000_STATUS_SPEED_10 : Z := 0x00000000.
Definition E1000_STATUS_FUNC_MASK : Z := 0x0000000c.
Definition E1000_STATUS_PCIX_MODE : Z := 0x00002000.
Definition E1000_STATUS_PCI66 : Z := 0x00000800.
Definition E1000_STATUS_PCIX_SPEED_100 : Z := 0x00004000.
Definition E1000_STATUS_PCIX_SPEED_133 : Z := 0x00008000.
Definition E1000_STATUS_BUS64 : Z := 0x00001000.
Definition E1000_RCTL_EN : Z := 0x00000002.
Definition E1000_RCTL_SBP : Z := 0x00000004.
Definition E1000_RCTL_UPE : Z := 0x00000008.
Definition E1000_RCTL_MPE : Z := 0x00000010.
Definition E1000_RCTL_LPE : Z := 0x00000020.
Definition E1000_RCTL_RDMTS : Z := 0x00000300.
Definition E1000_RCTL_RDMTS_EIGTH : Z := 0x00000200.
Definition E1000_RCTL_RDMTS_QUAT : Z := 0x00000100.
Definition E1000_RCTL_RDMTS_HALF : Z := 0x00000000.
Definition E1000_RCTL_BAM : Z := 0x00008000.
Definition E1000_RCTL_VFE : Z := 0x00040000.
Definition E1000_RCTL_CFIEN : Z := 0x00080000.
Definition E1000_RCTL_DPF : Z := 0x00400000.
Definition E1000_RCTL_PMCF : Z := 0x00800000.
Definition E1000_RCTL_SZ : Z := 0x00030000.
Definition E1000_RCTL_SZ_512 : Z := 0x00020000.
Definition E1000_RCTL_SZ_1024 : Z := 0x00010000.
Definition E1000_RCTL_SZ_2048 : Z := 0x00000000.
Definition E1000_RCTL_BSEX : Z := 0x02000000.
Definition E1000_RCTL_SZ_4096 : Z := 0x00030000.
Definition E1000_RCTL_SZ_8192 : Z := 0x00020000.
Definition E1000_RCTL_SZ_16384 : Z := 0x00010000.
Definition E1000_TCTL_EN : Z := 0x00000002.
Definition E1000_TCTL_PSP : Z := 0x00000008.
Definition E1000_TCTL_SWXOFF : Z := 0x00400000.
Definition E1000_TCTL_RTLC : Z := 0x01000000.
Definition M88_PSSR_JABBER : Z := 0x0001.
Definition M88_PSSR_REV_POLARITY : Z := 0x0002.
Definition M88_PSSR_DOWNSHIFT : Z := 0x0020.
Definition M88_PSSR_MDIX : Z := 0x0040.
Definition M88_PSSR_CABLE_LENGTH : Z := 0x0380.
Definition M88_PSSR_CL_140_PLUS : Z := Z.shiftl 4 7.
Definition M88_PSSR_CL_110_140 : Z := Z.shiftl 3 7.
Definition M88_PSSR_CL_80_110 : Z := Z.shiftl 2 7.
Definition M88_PSSR_CL_50_80 : Z := Z.shiftl 1 7.
Definition M88_PSSR_CL_0_50 : Z := Z.shiftl 0 7.
Definition M88_PSSR_LINK : Z := 0x0400.
Definition M88_PSSR_SPD_DPLX_RESOLVED : Z := 0x0800.
Definition M88_PSSR_PAGE_RCVD : Z := 0x1000.
Definition M88_PSSR_DPLX : Z := 0x2000.
Definition M88_PSSR_SPEED : Z := 0xc000.
Definition M88_PSSR_1000MBS : Z := 0x8000.
Definition M88_PSSR_100MBS : Z := 0x4000.
Definition M88_PSSR_10MBS : Z := 0x0000.
Definition M88_PSCR_JABBER_DISABLE : Z := 0x0001.
Definition M88_PSCR_POLARITY_REVERSAL : Z := 0x0002.
Definition M88_PSCR_SQE_TEST : Z := 0x0004.
Definition M88_PSCR_CLK125_DISABLE : Z := 0x0010.
Definition M88_PSCR_MDI_MASK : Z := 0x0060.
Definition M88_PSCR_AUTO_X_MODE : Z := 0x0060.
Definition M88_PSCR_AUTO_X_1000T : Z := 0x0040.
Definition M88_PSCR_MDIX_MANUAL_MODE : Z := 0x0020.
Definition M88_PSCR_MDI_MANUAL_MODE : Z := 0x0000.
Definition M88_PSCR_10BT_EXT_DIST_ENABLE : Z := 0x0080.
Definition M88_PSCR_MII_5BIT_ENABLE : Z := 0x0100.
Definition M88_PSCR_SCRAMBLER_DISABLE : Z := 0x0200.
Definition M88_PSCR_FORCE_LINK_GOOD : Z := 0x0400.
Definition M88_PSCR_ASSERT_CRS_ON_TX : Z := 0x0800.

Definition e1000_get_mac_type (device_id : Z) (revision_id : Z) : Z :=
  if device_id =? E1000_DEV_ID_82542 then e1000_82542 else
  if ((device_id =? E1000_DEV_ID_82543GC_FIBER) || (device_id =? E1000_DEV_ID_82543GC_COPPER))%bool then e1000_82543 else
  if ((device_id =? E1000_DEV_ID_82544EI_COPPER) || (device_id =? E1000_DEV_ID_82544EI_FIBER) ||
      (device_id =? E1000_DEV_ID_82544GC_COPPER) || (device_id =? E1000_DEV_ID_82544GC_LOM))%bool then e1000_82544 else
  if ((device_id =? E1000_DEV_ID_82540EM) || (device_id =? E1000_DEV_ID_82540EM_LOM) ||
      (device_id =? E1000_DEV_ID_82540EP) || (device_id =? E1000_DEV_ID_82540EP_LOM) ||
      (device_id =? E1000_DEV_ID_82540EP_LP))%bool then e1000_82540 else
  if ((device_id =? E1000_DEV_ID_82545EM_COPPER) || (device_id =? E1000_DEV_ID_82545EM_FIBER))%bool then e1000_82545 else
  if ((device_id =? E1000_DEV_ID_82545GM_COPPER) || (device_id =? E1000_DEV_ID_82545GM_FIBER) ||
      (device_id =? E1000_DEV_ID_82545GM_SERDES))%bool then e1000_82545_rev_3 else
  if ((device_id =? E1000_DEV_ID_82546EB_COPPER) || (device_id =? E1000_DEV_ID_82546EB_FIBER) ||
      (device_id =? E1000_DEV_ID_82546EB_QUAD_COPPER))%bool then e1000_82546 else
  if ((device_id =? E1000_DEV_ID_82546GB_COPPER) || (device_id =? E1000_DEV_ID_82546GB_FIBER) ||
      (device_id =? E1000_DEV_ID_82546GB_SERDES) || (device_id =? E1000_DEV_ID_82546GB_PCIE) ||
      (device_id =? E1000_DEV_ID_82546GB_QUAD_COPPER) || (device_id =? E1000_DEV_ID_82546GB_QUAD_COPPER_KSP3))%bool then e1000_82546_rev_3 else
  if ((device_id =? E1000_DEV_ID_82541EI) || (device_id =? E1000_DEV_ID_82541EI_MOBILE) ||
      (device_id =? E1000_DEV_ID_82541ER_LOM))%bool then e1000_82541 else
  if ((device_id =? E1000_DEV_ID_82541ER) || (device_id =? E1000_DEV_ID_82541GI) ||
      (device_id =? E1000_DEV_ID_82541GI_LF) || (device_id =? E1000_DEV_ID_82541GI_MOBILE))%bool then e1000_82541_rev_2 else
  if ((device_id =? E1000_DEV_ID_82547EI) || (device_id =? E1000_DEV_ID_82547EI_MOBILE))%bool then e1000_82547 else
  if device_id =? E1000_DEV_ID_82547GI then e1000_82547_rev_2 else
  if ((device_id =? E1000_DEV_ID_82571EB_COPPER) || (device_id =? E1000_DEV_ID_82571EB_FIBER) ||
      (device_id =? E1000_DEV_ID_82571EB_SERDES) || (device_id =? E1000_DEV_ID_82571EB_QUAD_COPPER) ||
      (device_id =? E1000_DEV_ID_82571EB_QUAD_FIBER) || (device_id =? E1000_DEV_ID_82571EB_QUAD_COPPER_LP))%bool then e1000_82571 else
  if ((device_id =? E1000_DEV_ID_82572EI) || (device_id =? E1000_DEV_ID_82572EI_COPPER) ||
      (device_id =? E1000_DEV_ID_82572EI_FIBER) || (device_id =? E1000_DEV_ID_82572EI_SERDES))%bool then e1000_82572 else
  if ((device_id =? E1000_DEV_ID_82573E) || (device_id =? E1000_DEV_ID_82573E_IAMT) ||
      (device_id =? E1000_DEV_ID_82573L))%bool then e1000_82573 else
  if ((device_id =? E1000_DEV_ID_80003ES2LAN_COPPER_DPT) ||
      (device_id =? E1000_DEV_ID_80003ES2LAN_SERDES_DPT) ||
      (device_id =? E1000_DEV_ID_80003ES2LAN_COPPER_SPT) || (device_id =? E1000_DEV_ID_80003ES2LAN_SERDES_SPT))%bool then e1000_80003es2lan else
  if ((device_id =? E1000_DEV_ID_ICH8_IFE) || (device_id =? E1000_DEV_ID_ICH8_IFE_GT) ||
      (device_id =? E1000_DEV_ID_ICH8_IFE_G) || (device_id =? E1000_DEV_ID_ICH8_IGP_M) ||
      (device_id =? E1000_DEV_ID_ICH8_IGP_M_AMT) || (device_id =? E1000_DEV_ID_ICH8_IGP_AMT) ||
      (device_id =? E1000_DEV_ID_ICH8_IGP_C))%bool then e1000_ich8lan else
  e1000_82543.

Section regs.
Context {D : Type}.
Abbreviation P := (M D).

Definition e1000_dump_regs_1 (regs : ereq) (mac_type : Z) : P unit :=
  fprintf "MAC Registers\n" [];;
  fprintf "-------------\n" [];;
  reg ← regs_buff regs 0;
  fprintf ("0x00000: CTRL (Device control register)  0x%08X\n" +:+
     "      Endian mode (buffers):             %s\n" +:+
     "      Link reset:                        %s\n" +:+
     "      Set link up:                       %s\n" +:+
     "      Invert Loss-Of-Signal:             %s\n" +:+
     "      Receive flow control:              %s\n" +:+
     "      Transmit flow control:             %s\n" +:+
     "      VLAN mode:                         %s\n") [
     PI reg; PS (if reg &? E1000_CTRL_BEM then "big" else "little");
     PS (if reg &? E1000_CTRL_LRST then "reset" else "normal");
     PS (if reg &? E1000_CTRL_SLU then "1" else "0");
     PS (if reg &? E1000_CTRL_ILOS then "yes" else "no");
     PS (if reg &? E1000_CTRL_RFCE then "enabled" else "disabled");
     PS (if reg &? E1000_CTRL_TFCE then "enabled" else "disabled");
     PS (if reg &? E1000_CTRL_VME then "enabled" else "disabled")];;
  when (e1000_82543 <=? mac_type)
    (fprintf ("      Auto speed detect:                 %s\n" +:+
       "      Speed select:                      %s\n" +:+
       "      Force speed:                       %s\n" +:+
       "      Force duplex:                      %s\n") [
       PS (if reg &? E1000_CTRL_ASDE then "enabled" else "disabled");
       PS (if (Z.land reg E1000_CTRL_SPD_SEL) =? E1000_CTRL_SPD_10 then "10Mb/s" else
           if (Z.land reg E1000_CTRL_SPD_SEL) =? E1000_CTRL_SPD_100 then "100Mb/s" else
           if (Z.land reg E1000_CTRL_SPD_SEL) =? E1000_CTRL_SPD_1000 then "1000Mb/s" else "not used");
       PS (if reg &? E1000_CTRL_FRCSPD then "yes" else "no");
       PS (if reg &? E1000_CTRL_FRCDPX then "yes" else "no")]);;
  reg ← regs_buff regs 1;
  fprintf ("0x00008: STATUS (Device status register) 0x%08X\n" +:+
     "      Duplex:                            %s\n" +:+
     "      Link up:                           %s\n") [
     PI reg; PS (if reg &? E1000_STATUS_FD then "full" else "half");
     PS (if reg &? E1000_STATUS_LU then "link config" else "no link config")];;
  (if (e1000_82571 <=? mac_type) then
    fprintf ("      TBI mode:                          %s\n" +:+
       "      Link speed:                        %s\n" +:+
       "      Bus type:                          %s\n" +:+
       "      Port number:                       %s\n") [
       PS (if reg &? E1000_STATUS_TBIMODE then "enabled" else "disabled");
       PS (if (Z.land reg E1000_STATUS_SPEED_MASK) =? E1000_STATUS_SPEED_10 then "10Mb/s" else
           if (Z.land reg E1000_STATUS_SPEED_MASK) =? E1000_STATUS_SPEED_100 then "100Mb/s" else
           if (Z.land reg E1000_STATUS_SPEED_MASK) =? E1000_STATUS_SPEED_1000 then "1000Mb/s" else "not used");
       PS "PCI Express"; PS (if (Z.land reg E1000_STATUS_FUNC_MASK) =? 0 then "0" else "1")]
  else
    when (e1000_82543 <=? mac_type)
      (fprintf ("      TBI mode:                          %s\n" +:+
         "      Link speed:                        %s\n" +:+
         "      Bus type:                          %s\n" +:+
         "      Bus speed:                         %s\n" +:+
         "      Bus width:                         %s\n") [
         PS (if reg &? E1000_STATUS_TBIMODE then "enabled" else "disabled");
         PS (if (Z.land reg E1000_STATUS_SPEED_MASK) =? E1000_STATUS_SPEED_10 then "10Mb/s" else
             if (Z.land reg E1000_STATUS_SPEED_MASK) =? E1000_STATUS_SPEED_100 then "100Mb/s" else
             if (Z.land reg E1000_STATUS_SPEED_MASK) =? E1000_STATUS_SPEED_1000 then "1000Mb/s" else "not used");
         PS (if reg &? E1000_STATUS_PCIX_MODE then "PCI-X" else "PCI");
         PS (if reg &? E1000_STATUS_PCIX_MODE then (if reg &? E1000_STATUS_PCIX_SPEED_133 then "133MHz" else
             if reg &? E1000_STATUS_PCIX_SPEED_100 then "100MHz" else "66MHz") else
             if reg &? E1000_STATUS_PCI66 then "66MHz" else "33MHz");
         PS (if reg &? E1000_STATUS_BUS64 then "64-bit" else "32-bit")])).

Definition e1000_dump_regs_2 (regs : ereq) (mac_type : Z) : P unit :=
  reg ← regs_buff regs 2;
  fprintf ("0x00100: RCTL (Receive control register) 0x%08X\n" +:+
     "      Receiver:                          %s\n" +:+
     "      Store bad packets:                 %s\n" +:+
     "      Unicast promiscuous:               %s\n" +:+
     "      Multicast promiscuous:             %s\n" +:+
     "      Long packet:                       %s\n" +:+
     "      Descriptor minimum threshold size: %s\n" +:+
     "      Broadcast accept mode:             %s\n" +:+
     "      VLAN filter:                       %s\n" +:+
     "      Canonical form indicator:          %s\n" +:+
     "      Discard pause frames:              %s\n" +:+
     "      Pass MAC control frames:           %s\n") [
     PI reg; PS (if reg &? E1000_RCTL_EN then "enabled" else "disabled");
     PS (if reg &? E1000_RCTL_SBP then "enabled" else "disabled");
     PS (if reg &? E1000_RCTL_UPE then "enabled" else "disabled");
     PS (if reg &? E1000_RCTL_MPE then "enabled" else "disabled");
     PS (if reg &? E1000_RCTL_LPE then "enabled" else "disabled");
     PS (if (Z.land reg E1000_RCTL_RDMTS) =? E1000_RCTL_RDMTS_HALF then "1/2" else
         if (Z.land reg E1000_RCTL_RDMTS) =? E1000_RCTL_RDMTS_QUAT then "1/4" else
         if (Z.land reg E1000_RCTL_RDMTS) =? E1000_RCTL_RDMTS_EIGTH then "1/8" else "reserved");
     PS (if reg &? E1000_RCTL_BAM then "accept" else "ignore");
     PS (if reg &? E1000_RCTL_VFE then "enabled" else "disabled");
     PS (if reg &? E1000_RCTL_CFIEN then "enabled" else "disabled");
     PS (if reg &? E1000_RCTL_DPF then "ignored" else "filtered");
     PS (if reg &? E1000_RCTL_PMCF then "pass" else "don't pass")];;
  (if (e1000_82543 <=? mac_type) then
    fprintf "      Receive buffer size:               %s\n" [
       PS (if reg &? E1000_RCTL_BSEX then (if (Z.land reg E1000_RCTL_SZ) =? E1000_RCTL_SZ_16384 then "16384" else
           if (Z.land reg E1000_RCTL_SZ) =? E1000_RCTL_SZ_8192 then "8192" else
           if (Z.land reg E1000_RCTL_SZ) =? E1000_RCTL_SZ_4096 then "4096" else "reserved") else
           if (Z.land reg E1000_RCTL_SZ) =? E1000_RCTL_SZ_2048 then "2048" else
           if (Z.land reg E1000_RCTL_SZ) =? E1000_RCTL_SZ_1024 then "1024" else
           if (Z.land reg E1000_RCTL_SZ) =? E1000_RCTL_SZ_512 then "512" else "256")]
  else
    fprintf "      Receive buffer size:               %s\n" [
       PS (if (Z.land reg E1000_RCTL_SZ) =? E1000_RCTL_SZ_2048 then "2048" else
           if (Z.land reg E1000_RCTL_SZ) =? E1000_RCTL_SZ_1024 then "1024" else
           if (Z.land reg E1000_RCTL_SZ) =? E1000_RCTL_SZ_512 then "512" else "256")]);;
  x0 ← regs_buff regs 3;
  fprintf "0x02808: RDLEN (Receive desc length)     0x%08X\n" [PI x0];;
  x0 ← regs_buff regs 4;
  fprintf "0x02810: RDH   (Receive desc head)       0x%08X\n" [PI x0];;
  x0 ← regs_buff regs 5;
  fprintf "0x02818: RDT   (Receive desc tail)       0x%08X\n" [PI x0].

Definition e1000_dump_regs_3 (regs : ereq) (mac_type : Z) : P unit :=
  x0 ← regs_buff regs 6;
  fprintf "0x02820: RDTR  (Receive delay timer)     0x%08X\n" [PI x0];;
  reg ← regs_buff regs 7;
  fprintf ("0x00400: TCTL (Transmit ctrl register)   0x%08X\n" +:+
     "      Transmitter:                       %s\n" +:+
     "      Pad short packets:                 %s\n" +:+
     "      Software XOFF Transmission:        %s\n") [
     PI reg; PS (if reg &? E1000_TCTL_EN then "enabled" else "disabled");
     PS (if reg &? E1000_TCTL_PSP then "enabled" else "disabled");
     PS (if reg &? E1000_TCTL_SWXOFF then "enabled" else "disabled")];;
  when (e1000_82543 <=? mac_type)
    (fprintf "      Re-transmit on late collision:     %s\n" [
       PS (if reg &? E1000_TCTL_RTLC then "enabled" else "disabled")]);;
  x0 ← regs_buff regs 8;
  fprintf "0x03808: TDLEN (Transmit desc length)    0x%08X\n" [PI x0];;
  x0 ← regs_buff regs 9;
  fprintf "0x03810: TDH   (Transmit desc head)      0x%08X\n" [PI x0];;
  x0 ← regs_buff regs 10;
  fprintf "0x03818: TDT   (Transmit desc tail)      0x%08X\n" [PI x0];;
  x0 ← regs_buff regs 11;
  fprintf "0x03820: TIDV  (Transmit delay timer)    0x%08X\n" [PI x0];;
  x0 ← regs_buff regs 12;
  fprintf "PHY type:                                %s\n" [
     PS (if x0 =? 0 then "M88" else if x0 =? 1 then "IGP" else if x0 =? 2 then "IGP2" else "unknown")];;
  x0 ← regs_buff regs 12;
  when (0 =? x0)
    (reg ← regs_buff regs 13;
    fprintf ("M88 PHY STATUS REGISTER:                 0x%08X\n" +:+
       "      Jabber:                            %s\n" +:+
       "      Polarity:                          %s\n" +:+
       "      Downshifted:                       %s\n" +:+
       "      MDI/MDIX:                          %s\n" +:+
       "      Cable Length Estimate:             %s meters\n" +:+
       "      Link State:                        %s\n" +:+
       "      Speed & Duplex Resolved:           %s\n" +:+
       "      Page Received:                     %s\n" +:+
       "      Duplex:                            %s\n" +:+
       "      Speed:                             %s mbps\n") [
       PI reg; PS (if reg &? M88_PSSR_JABBER then "yes" else "no");
       PS (if reg &? M88_PSSR_REV_POLARITY then "reverse" else "normal");
       PS (if reg &? M88_PSSR_DOWNSHIFT then "yes" else "no");
       PS (if reg &? M88_PSSR_MDIX then "MDIX" else "MDI");
       PS (if (Z.land reg M88_PSSR_CABLE_LENGTH) =? M88_PSSR_CL_0_50 then "0-50" else
           if (Z.land reg M88_PSSR_CABLE_LENGTH) =? M88_PSSR_CL_50_80 then "50-80" else
           if (Z.land reg M88_PSSR_CABLE_LENGTH) =? M88_PSSR_CL_80_110 then "80-110" else
           if (Z.land reg M88_PSSR_CABLE_LENGTH) =? M88_PSSR_CL_110_140 then "110-140" else
           if (Z.land reg M88_PSSR_CABLE_LENGTH) =? M88_PSSR_CL_140_PLUS then "140+" else "unknown");
       PS (if reg &? M88_PSSR_LINK then "Up" else "Down");
       PS (if reg &? M88_PSSR_SPD_DPLX_RESOLVED then "Yes" else "No");
       PS (if reg &? M88_PSSR_PAGE_RCVD then "Yes" else "No");
       PS (if reg &? M88_PSSR_DPLX then "Full" else "Half");
       PS (if (Z.land reg M88_PSSR_SPEED) =? M88_PSSR_10MBS then "10" else
           if (Z.land reg M88_PSSR_SPEED) =? M88_PSSR_100MBS then "100" else
           if (Z.land reg M88_PSSR_SPEED) =? M88_PSSR_1000MBS then "1000" else "unknown")];;
    reg ← regs_buff regs 17;
    fprintf ("M88 PHY CONTROL REGISTER:                0x%08X\n" +:+
       "      Jabber funtion:                    %s\n" +:+
       "      Auto-polarity:                     %s\n" +:+
       "      SQE Test:                          %s\n" +:+
       "      CLK125:                            %s\n" +:+
       "      Auto-MDIX:                         %s\n" +:+
       "      Extended 10Base-T Distance:        %s\n" +:+
       "      100Base-TX Interface:              %s\n" +:+
       "      Scrambler:                         %s\n" +:+
       "      Force Link Good:                   %s\n" +:+
       "      Assert CRS on Transmit:            %s\n") [
       PI reg; PS (if reg &? M88_PSCR_JABBER_DISABLE then "disabled" else "enabled");
       PS (if reg &? M88_PSCR_POLARITY_REVERSAL then "enabled" else "disabled");
       PS (if reg &? M88_PSCR_SQE_TEST then "enabled" else "disabled");
       PS (if reg &? M88_PSCR_CLK125_DISABLE then "disabled" else "enabled");
       PS (if (Z.land reg M88_PSCR_MDI_MASK) =? M88_PSCR_MDI_MANUAL_MODE then "force MDI" else
           if (Z.land reg M88_PSCR_MDI_MASK) =? M88_PSCR_MDIX_MANUAL_MODE then "force MDIX" else
           if (Z.land reg M88_PSCR_MDI_MASK) =? M88_PSCR_AUTO_X_1000T then "1000 auto, 10/100 MDI" else
           if (Z.land reg M88_PSCR_MDI_MASK) =? M88_PSCR_AUTO_X_MODE then "auto" else "wtf");
       PS (if reg &? M88_PSCR_10BT_EXT_DIST_ENABLE then "enabled" else "disabled");
       PS (if reg &? M88_PSCR_MII_5BIT_ENABLE then "5-bit" else "MII");
       PS (if reg &? M88_PSCR_SCRAMBLER_DISABLE then "disabled" else "enabled");
       PS (if reg &? M88_PSCR_FORCE_LINK_GOOD then "forced" else "disabled");
       PS (if reg &? M88_PSCR_ASSERT_CRS_ON_TX then "enabled" else "disabled")]).

Definition e1000_dump_regs (info regs : ereq) : P Z :=
  let hw_device_id := u16 (fld regs "version") in
  let hw_revision_id := u8 (Z.shiftr (fld regs "version") 16) in
  let version := u8 (Z.shiftr (fld regs "version") 24) in
  if negb (version =? 1) then mret (-1)
  else
    let mac_type := e1000_get_mac_type hw_device_id hw_revision_id in
    if mac_type =? e1000_undefined then mret (-1)
    else
      e1000_dump_regs_1 regs mac_type;;
      e1000_dump_regs_2 regs mac_type;;
      e1000_dump_regs_3 regs mac_type;;
      mret 0.

Lemma e1000_dump_regs_1_shows regs mac_type : 72 <= Z.of_nat (length (rq_arr regs)) -> shows (e1000_dump_regs_1 regs mac_type) (fun _ => True).
Proof. intros Hl. unfold e1000_dump_regs_1. regs_all. Qed.

Lemma e1000_dump_regs_2_shows regs mac_type : 72 <= Z.of_nat (length (rq_arr regs)) -> shows (e1000_dump_regs_2 regs mac_type) (fun _ => True).
Proof. intros Hl. unfold e1000_dump_regs_2. regs_all. Qed.

Lemma e1000_dump_regs_3_shows regs mac_type : 72 <= Z.of_nat (length (rq_arr regs)) -> shows (e1000_dump_regs_3 regs mac_type) (fun _ => True).
Proof. intros Hl. unfold e1000_dump_regs_3. regs_all. Qed.

#[local] Hint Resolve e1000_dump_regs_1_shows e1000_dump_regs_2_shows e1000_dump_regs_3_shows : shows.

Lemma e1000_dumps : dumps 72 e1000_dump_regs.
Proof. intros info regs Hl. unfold e1000_dump_regs. regs_all. Qed.
End regs.
End EtE1000.
