(* ===== verification/EtNatsemi.v ===== *)
(** * ethtool: registers and EEPROM of the natsemi driver ([ethernet_test/ethtool/natsemi.c]) *)

From stdpp Require Import base list strings gmap numbers.
From Stdlib Require Import ZArith Lia.
From S2P Require Import Prelude CInt CLib CFmt EtCmd EtSet EtFeat EtRegs.
Import Et EtS EtF.

Module EtNatsemi.

Definition REG_CR : Z := 0.
Definition BIT_CR_TXE : Z := Z.shiftl 1 0.
Definition BIT_CR_RXE : Z := Z.shiftl 1 2.
Definition BIT_CR_RST : Z := Z.shiftl 1 8.
Definition REG_CFG : Z := 1.
Definition BIT_CFG_BEM : Z := Z.shiftl 1 0.
Definition BIT_CFG_BROM_DIS : Z := Z.shiftl 1 2.
Definition BIT_CFG_PHY_DIS : Z := Z.shiftl 1 9.
Definition BIT_CFG_PHY_RST : Z := Z.shiftl 1 10.
Definition BIT_CFG_EXT_PHY : Z := Z.shiftl 1 12.
Definition BIT_CFG_ANEG_EN : Z := Z.shiftl 1 13.
Definition BIT_CFG_ANEG_100 : Z := Z.shiftl 1 14.
Definition BIT_CFG_ANEG_FDUP : Z := Z.shiftl 1 15.
Definition BIT_CFG_PINT_ACEN : Z := Z.shiftl 1 17.
Definition BIT_CFG_PHY_CFG : Z := Z.shiftl 0x3f 18.
Definition BIT_CFG_ANEG_DN : Z := Z.shiftl 1 27.
Definition BIT_CFG_POL : Z := Z.shiftl 1 28.
Definition BIT_CFG_FDUP : Z := Z.shiftl 1 29.
Definition BIT_CFG_SPEED100 : Z := Z.shiftl 1 30.
Definition BIT_CFG_LNKSTS : Z := Z.shiftl 1 31.
Definition REG_MEAR : Z := 2.
Definition REG_PTSCR : Z := 3.
Definition BIT_PTSCR_EEBIST_FAIL : Z := Z.shiftl 1 0.
Definition BIT_PTSCR_RBIST_RXFFAIL : Z := Z.shiftl 1 3.
Definition BIT_PTSCR_RBIST_TXFAIL : Z := Z.shiftl 1 4.
Definition BIT_PTSCR_RBIST_RXFAIL : Z := Z.shiftl 1 5.
Definition BIT_PTSCR_EELOAD_EN : Z := Z.shiftl 1 2.
Definition REG_ISR : Z := 4.
Definition REG_IMR : Z := 5.
Definition REG_IER : Z := 6.
Definition BIT_IER_IE : Z := Z.shiftl 1 0.
Definition REG_TXDP : Z := 8.
Definition REG_TXCFG : Z := 9.
Definition BIT_TXCFG_MXDMA : Z := Z.shiftl 0x7 20.
Definition BIT_TXCFG_DRTH : Z := Z.shiftl 0x3f 0.
Definition BIT_TXCFG_FLTH : Z := Z.shiftl 0x3f 8.
Definition BIT_TXCFG_ATP : Z := Z.shiftl 1 28.
Definition BIT_TXCFG_MLB : Z := Z.shiftl 1 29.
Definition BIT_TXCFG_HBI : Z := Z.shiftl 1 30.
Definition BIT_TXCFG_CSI : Z := Z.shiftl 1 31.
Definition REG_RXDP : Z := 12.
Definition REG_RXCFG : Z := 13.
Definition BIT_RXCFG_MXDMA : Z := Z.shiftl 0x7 20.
Definition BIT_RXCFG_DRTH : Z := Z.shiftl 0x1f 1.
Definition BIT_RXCFG_ALP : Z := Z.shiftl 1 27.
Definition BIT_RXCFG_ATX : Z := Z.shiftl 1 28.
Definition BIT_RXCFG_ARP : Z := Z.shiftl 1 30.
Definition BIT_RXCFG_AEP : Z := Z.shiftl 1 31.
Definition REG_CCSR : Z := 15.
Definition BIT_CCSR_CLKRUN_EN : Z := Z.shiftl 1 0.
Definition BIT_CCSR_PMEEN : Z := Z.shiftl 1 8.
Definition BIT_CCSR_PMESTS : Z := Z.shiftl 1 15.
Definition REG_WCSR : Z := 16.
Definition BIT_WCSR_WKPHY : Z := Z.shiftl 1 0.
Definition BIT_WCSR_WKUCP : Z := Z.shiftl 1 1.
Definition BIT_WCSR_WKMCP : Z := Z.shiftl 1 2.
Definition BIT_WCSR_WKBCP : Z := Z.shiftl 1 3.
Definition BIT_WCSR_WKARP : Z := Z.shiftl 1 4.
Definition BIT_WCSR_WKPAT0 : Z := Z.shiftl 1 5.
Definition BIT_WCSR_WKPAT1 : Z := Z.shiftl 1 6.
Definition BIT_WCSR_WKPAT2 : Z := Z.shiftl 1 7.
Definition BIT_WCSR_WKPAT3 : Z := Z.shiftl 1 8.
Definition BIT_WCSR_WKMAG : Z := Z.shiftl 1 9.
Definition BIT_WCSR_MPSOE : Z := Z.shiftl 1 10.
Definition BIT_WCSR_SOHACK : Z := Z.shiftl 1 20.
Definition BIT_WCSR_PHYINT : Z := Z.shiftl 1 22.
Definition BIT_WCSR_UCASTR : Z := Z.shiftl 1 23.
Definition BIT_WCSR_MCASTR : Z := Z.shiftl 1 24.
Definition BIT_WCSR_BCASTR : Z := Z.shiftl 1 25.
Definition BIT_WCSR_ARPR : Z := Z.shiftl 1 26.
Definition BIT_WCSR_PATM0 : Z := Z.shiftl 1 27.
Definition BIT_WCSR_PATM1 : Z := Z.shiftl 1 28.
Definition BIT_WCSR_PATM2 : Z := Z.shiftl 1 29.
Definition BIT_WCSR_PATM3 : Z := Z.shiftl 1 30.
Definition BIT_WCSR_MPR : Z := Z.shiftl 1 31.
Definition REG_PCR : Z := 17.
Definition BIT_PCR_PAUSE_CNT : Z := Z.shiftl 0xffff 0.
Definition BIT_PCR_PSNEG : Z := Z.shiftl 1 21.
Definition BIT_PCR_PS_DA : Z := Z.shiftl 1 29.
Definition BIT_PCR_PSMCAST : Z := Z.shiftl 1 30.
Definition BIT_PCR_PSEN : Z := Z.shiftl 1 31.
Definition BIT_PCR_PS_RCVD : Z := Z.shiftl 1 22.
Definition REG_RFCR : Z := 18.
Definition BIT_RFCR_UHEN : Z := Z.shiftl 1 20.
Definition BIT_RFCR_MHEN : Z := Z.shiftl 1 21.
Definition BIT_RFCR_AARP : Z := Z.shiftl 1 22.
Definition BIT_RFCR_APAT0 : Z := Z.shiftl 1 23.
Definition BIT_RFCR_APAT1 : Z := Z.shiftl 1 24.
Definition BIT_RFCR_APAT2 : Z := Z.shiftl 1 25.
Definition BIT_RFCR_APAT3 : Z := Z.shiftl 1 26.
Definition BIT_RFCR_APM : Z := Z.shiftl 1 27.
Definition BIT_RFCR_AAU : Z := Z.shiftl 1 28.
Definition BIT_RFCR_AAM : Z := Z.shiftl 1 29.
Definition BIT_RFCR_AAB : Z := Z.shiftl 1 30.
Definition BIT_RFCR_RFEN : Z := Z.shiftl 1 31.
Definition REG_RFDR : Z := 19.
Definition REG_PMATCH0 : Z := 68.
Definition REG_PMATCH1 : Z := 69.
Definition REG_PMATCH2 : Z := 70.
Definition REG_PCOUNT0 : Z := 71.
Definition REG_PCOUNT1 : Z := 72.
Definition REG_SOPASS0 : Z := 73.
Definition REG_SOPASS1 : Z := 74.
Definition REG_SOPASS2 : Z := 75.
Definition REG_BRAR : Z := 20.
Definition BIT_BRAR_AUTOINC : Z := Z.shiftl 1 31.
Definition REG_BRDR : Z := 21.
Definition REG_SRR : Z := 22.
Definition REG_MIBC : Z := 23.
Definition BIT_MIBC_WRN : Z := Z.shiftl 1 0.
Definition BIT_MIBC_FRZ : Z := Z.shiftl 1 1.
Definition REG_MIB0 : Z := 24.
Definition REG_MIB1 : Z := 25.
Definition REG_MIB2 : Z := 26.
Definition REG_MIB3 : Z := 27.
Definition REG_MIB4 : Z := 28.
Definition REG_MIB5 : Z := 29.
Definition REG_MIB6 : Z := 30.
Definition REG_BMCR : Z := 32.
Definition BIT_BMCR_FDUP : Z := Z.shiftl 1 8.
Definition BIT_BMCR_PDOWN : Z := Z.shiftl 1 11.
Definition BIT_BMCR_ANEN : Z := Z.shiftl 1 12.
Definition BIT_BMCR_SPEED : Z := Z.shiftl 1 13.
Definition BIT_BMCR_ANRST : Z := Z.shiftl 1 9.
Definition BIT_BMCR_ISOL : Z := Z.shiftl 1 10.
Definition BIT_BMCR_LOOP : Z := Z.shiftl 1 14.
Definition BIT_BMCR_RST : Z := Z.shiftl 1 15.
Definition REG_BMSR : Z := 33.
Definition BIT_BMSR_LNK : Z := Z.shiftl 1 2.
Definition BIT_BMSR_ANCAP : Z := Z.shiftl 1 3.
Definition BIT_BMSR_ANDONE : Z := Z.shiftl 1 5.
Definition BIT_BMSR_PREAMBLE : Z := Z.shiftl 1 6.
Definition BIT_BMSR_10HCAP : Z := Z.shiftl 1 11.
Definition BIT_BMSR_10FCAP : Z := Z.shiftl 1 12.
Definition BIT_BMSR_100HCAP : Z := Z.shiftl 1 13.
Definition BIT_BMSR_100FCAP : Z := Z.shiftl 1 14.
Definition BIT_BMSR_100T4CAP : Z := Z.shiftl 1 15.
Definition BIT_BMSR_JABBER : Z := Z.shiftl 1 1.
Definition BIT_BMSR_RFAULT : Z := Z.shiftl 1 4.
Definition REG_PHYIDR1 : Z := 34.
Definition REG_PHYIDR2 : Z := 35.
Definition BIT_PHYIDR2_MODEL : Z := Z.shiftl 0x3f 4.
Definition BIT_PHYIDR2_REV : Z := 0xf.
Definition REG_ANAR : Z := 36.
Definition BIT_ANAR_PROTO : Z := Z.shiftl 0x1f 0.
Definition BIT_ANAR_10 : Z := Z.shiftl 1 5.
Definition BIT_ANAR_10_FD : Z := Z.shiftl 1 6.
Definition BIT_ANAR_TX : Z := Z.shiftl 1 7.
Definition BIT_ANAR_TXFD : Z := Z.shiftl 1 8.
Definition BIT_ANAR_T4 : Z := Z.shiftl 1 9.
Definition BIT_ANAR_PAUSE : Z := Z.shiftl 1 10.
Definition BIT_ANAR_RF : Z := Z.shiftl 1 13.
Definition BIT_ANAR_NP : Z := Z.shiftl 1 15.
Definition REG_ANLPAR : Z := 37.
Definition BIT_ANLPAR_PROTO : Z := Z.shiftl 0x1f 0.
Definition BIT_ANLPAR_10 : Z := Z.shiftl 1 5.
Definition BIT_ANLPAR_10_FD : Z := Z.shiftl 1 6.
Definition BIT_ANLPAR_TX : Z := Z.shiftl 1 7.
Definition BIT_ANLPAR_TXFD : Z := Z.shiftl 1 8.
Definition BIT_ANLPAR_T4 : Z := Z.shiftl 1 9.
Definition BIT_ANLPAR_PAUSE : Z := Z.shiftl 1 10.
Definition BIT_ANLPAR_RF : Z := Z.shiftl 1 13.
Definition BIT_ANLPAR_ACK : Z := Z.shiftl 1 14.
Definition BIT_ANLPAR_NP : Z := Z.shiftl 1 15.
Definition REG_ANER : Z := 38.
Definition BIT_ANER_LP_AN_ENABLE : Z := Z.shiftl 1 0.
Definition BIT_ANER_PAGE_RX : Z := Z.shiftl 1 1.
Definition BIT_ANER_NP_ABLE : Z := Z.shiftl 1 2.
Definition BIT_ANER_LP_NP_ABLE : Z := Z.shiftl 1 3.
Definition BIT_ANER_PDF : Z := Z.shiftl 1 4.
Definition REG_ANNPTR : Z := 39.
Definition REG_PHYSTS : Z := 48.
Definition BIT_PHYSTS_LNK : Z := Z.shiftl 1 0.
Definition BIT_PHYSTS_SPD10 : Z := Z.shiftl 1 1.
Definition BIT_PHYSTS_FDUP : Z := Z.shiftl 1 2.
Definition BIT_PHYSTS_ANDONE : Z := Z.shiftl 1 4.
Definition BIT_PHYSTS_POL : Z := Z.shiftl 1 12.
Definition BIT_PHYSTS_LOOP : Z := Z.shiftl 1 3.
Definition BIT_PHYSTS_JABBER : Z := Z.shiftl 1 5.
Definition BIT_PHYSTS_RF : Z := Z.shiftl 1 6.
Definition BIT_PHYSTS_MINT : Z := Z.shiftl 1 7.
Definition BIT_PHYSTS_FC : Z := Z.shiftl 1 11.
Definition BIT_PHYSTS_RXERR : Z := Z.shiftl 1 13.
Definition REG_MICR : Z := 49.
Definition BIT_MICR_INTEN : Z := Z.shiftl 1 1.
Definition REG_MISR : Z := 50.
Definition BIT_MISR_MSK_RHF : Z := Z.shiftl 1 9.
Definition BIT_MISR_MSK_FHF : Z := Z.shiftl 1 10.
Definition BIT_MISR_MSK_ANC : Z := Z.shiftl 1 11.
Definition BIT_MISR_MSK_RF : Z := Z.shiftl 1 12.
Definition BIT_MISR_MSK_JAB : Z := Z.shiftl 1 13.
Definition BIT_MISR_MSK_LNK : Z := Z.shiftl 1 14.
Definition BIT_MISR_MINT : Z := Z.shiftl 1 15.
Definition REG_PGSEL : Z := 51.
Definition REG_FCSCR : Z := 52.
Definition REG_RECR : Z := 53.
Definition REG_PCSR : Z := 54.
Definition BIT_PCSR_NRZI : Z := Z.shiftl 1 2.
Definition BIT_PCSR_SDOPT : Z := Z.shiftl 1 8.
Definition BIT_PCSR_SDFORCE : Z := Z.shiftl 1 9.
Definition BIT_PCSR_TQM : Z := Z.shiftl 1 10.
Definition BIT_PCSR_CLK : Z := Z.shiftl 1 11.
Definition BIT_PCSR_4B5B : Z := Z.shiftl 1 12.
Definition BIT_PCSR_FORCE_100 : Z := Z.shiftl 1 5.
Definition REG_PHYCR : Z := 57.
Definition BIT_PHYCR_PHYADDR : Z := Z.shiftl 0x1f 0.
Definition BIT_PHYCR_PAUSE_STS : Z := Z.shiftl 1 7.
Definition BIT_PHYCR_STRETCH : Z := Z.shiftl 1 8.
Definition BIT_PHYCR_BIST_STAT : Z := Z.shiftl 1 10.
Definition BIT_PHYCR_BIST : Z := Z.shiftl 1 9.
Definition BIT_PHYCR_PSR15 : Z := Z.shiftl 1 11.
Definition REG_TBTSCR : Z := 58.
Definition BIT_TBTSCR_JAB : Z := Z.shiftl 1 0.
Definition BIT_TBTSCR_BEAT : Z := Z.shiftl 1 1.
Definition BIT_TBTSCR_AUTOPOL : Z := Z.shiftl 1 3.
Definition BIT_TBTSCR_POL : Z := Z.shiftl 1 4.
Definition BIT_TBTSCR_FPOL : Z := Z.shiftl 1 5.
Definition BIT_TBTSCR_PULSE : Z := Z.shiftl 1 7.
Definition BIT_TBTSCR_LOOP : Z := Z.shiftl 1 8.
Definition BIT_TBTSCR_FORCE_10 : Z := Z.shiftl 1 6.
Definition REG_PMDCSR : Z := 64.
Definition REG_DSPCFG : Z := 66.
Definition REG_SDCFG : Z := 67.
Definition REG_TSTDAT : Z := 65.
Definition PCI_VENDOR_NATSEMI : Z := 0x100b.
Definition PCI_DEVICE_DP83815 : Z := 0x0020.
Definition NATSEMI_MAGIC : Z := Z.lor PCI_VENDOR_NATSEMI (Z.shiftl PCI_DEVICE_DP83815 16).
Definition BIT_INTR_RXOK : Z := Z.shiftl 1 0.
Definition BIT_INTR_RXDESC : Z := Z.shiftl 1 1.
Definition BIT_INTR_RXERR : Z := Z.shiftl 1 2.
Definition BIT_INTR_RXEARLY : Z := Z.shiftl 1 3.
Definition BIT_INTR_RXIDLE : Z := Z.shiftl 1 4.
Definition BIT_INTR_RXORN : Z := Z.shiftl 1 5.
Definition BIT_INTR_TXOK : Z := Z.shiftl 1 6.
Definition BIT_INTR_TXDESC : Z := Z.shiftl 1 7.
Definition BIT_INTR_TXERR : Z := Z.shiftl 1 8.
Definition BIT_INTR_TXIDLE : Z := Z.shiftl 1 9.
Definition BIT_INTR_TXURN : Z := Z.shiftl 1 10.
Definition BIT_INTR_MIB : Z := Z.shiftl 1 11.
Definition BIT_INTR_SWI : Z := Z.shiftl 1 12.
Definition BIT_INTR_PME : Z := Z.shiftl 1 13.
Definition BIT_INTR_PHY : Z := Z.shiftl 1 14.
Definition BIT_INTR_HIBERR : Z := Z.shiftl 1 15.
Definition BIT_INTR_RXSOVR : Z := Z.shiftl 1 16.
Definition BIT_INTR_RTABT : Z := Z.shiftl 1 20.
Definition BIT_INTR_RMABT : Z := Z.shiftl 1 20.
Definition BIT_INTR_SSERR : Z := Z.shiftl 1 20.
Definition BIT_INTR_DPERR : Z := Z.shiftl 1 20.
Definition BIT_INTR_RXRCMP : Z := Z.shiftl 1 20.
Definition BIT_INTR_TXRCMP : Z := Z.shiftl 1 20.
Definition NAME_INTR_RXOK : string := "Rx Complete".
Definition NAME_INTR_RXDESC : string := "Rx Descriptor".
Definition NAME_INTR_RXERR : string := "Rx Packet Error".
Definition NAME_INTR_RXEARLY : string := "Rx Early Threshold".
Definition NAME_INTR_RXIDLE : string := "Rx Idle".
Definition NAME_INTR_RXORN : string := "Rx Overrun".
Definition NAME_INTR_TXOK : string := "Tx Packet OK".
Definition NAME_INTR_TXDESC : string := "Tx Descriptor".
Definition NAME_INTR_TXERR : string := "Tx Packet Error".
Definition NAME_INTR_TXIDLE : string := "Tx Idle".
Definition NAME_INTR_TXURN : string := "Tx Underrun".
Definition NAME_INTR_MIB : string := "MIB Service".
Definition NAME_INTR_SWI : string := "Software".
Definition NAME_INTR_PME : string := "Power Management Event".
Definition NAME_INTR_PHY : string := "Phy".
Definition NAME_INTR_HIBERR : string := "High Bits Error".
Definition NAME_INTR_RXSOVR : string := "Rx Status FIFO Overrun".
Definition NAME_INTR_RTABT : string := "Received Target Abort".
Definition NAME_INTR_RMABT : string := "Received Master Abort".
Definition NAME_INTR_SSERR : string := "Signaled System Error".
Definition NAME_INTR_DPERR : string := "Detected Parity Error".
Definition NAME_INTR_RXRCMP : string := "Rx Reset Complete".
Definition NAME_INTR_TXRCMP : string := "Tx Reset Complete".

Section regs.
Context {D : Type}.
Abbreviation P := (M D).

(** [PRINT_INTR] *)
Definition print_intr (d intr : Z) (name s1 : string) (s2 : option string) : P unit :=
  if d &? intr then fprintf "      %s Interrupt: %s\n" [PS name; PS s1]
  else match s2 with
       | Some s => fprintf "      %s Interrupt: %s\n" [PS name; PS s]
       | None => mret tt
       end.

Definition PRINT_INTRS (d : Z) (s1 : string) (s2 : option string) : P unit :=
  print_intr d BIT_INTR_RXOK NAME_INTR_RXOK s1 s2;;
  print_intr d BIT_INTR_RXDESC NAME_INTR_RXDESC s1 s2;;
  print_intr d BIT_INTR_RXERR NAME_INTR_RXERR s1 s2;;
  print_intr d BIT_INTR_RXEARLY NAME_INTR_RXEARLY s1 s2;;
  print_intr d BIT_INTR_RXIDLE NAME_INTR_RXIDLE s1 s2;;
  print_intr d BIT_INTR_RXORN NAME_INTR_RXORN s1 s2;;
  print_intr d BIT_INTR_TXOK NAME_INTR_TXOK s1 s2;;
  print_intr d BIT_INTR_TXDESC NAME_INTR_TXDESC s1 s2;;
  print_intr d BIT_INTR_TXERR NAME_INTR_TXERR s1 s2;;
  print_intr d BIT_INTR_TXIDLE NAME_INTR_TXIDLE s1 s2;;
  print_intr d BIT_INTR_TXURN NAME_INTR_TXURN s1 s2;;
  print_intr d BIT_INTR_MIB NAME_INTR_MIB s1 s2;;
  print_intr d BIT_INTR_SWI NAME_INTR_SWI s1 s2;;
  print_intr d BIT_INTR_PME NAME_INTR_PME s1 s2;;
  print_intr d BIT_INTR_PHY NAME_INTR_PHY s1 s2;;
  print_intr d BIT_INTR_HIBERR NAME_INTR_HIBERR s1 s2;;
  print_intr d BIT_INTR_RXSOVR NAME_INTR_RXSOVR s1 s2;;
  print_intr d BIT_INTR_RTABT NAME_INTR_RTABT s1 s2;;
  print_intr d BIT_INTR_RMABT NAME_INTR_RMABT s1 s2;;
  print_intr d BIT_INTR_SSERR NAME_INTR_SSERR s1 s2;;
  print_intr d BIT_INTR_DPERR NAME_INTR_DPERR s1 s2;;
  print_intr d BIT_INTR_RXRCMP NAME_INTR_RXRCMP s1 s2;;
  print_intr d BIT_INTR_TXRCMP NAME_INTR_TXRCMP s1 s2.

Definition natsemi_dump_regs_1 (regs : ereq) : P unit :=
  fprintf "Mac/BIU Registers\n" [];;
  fprintf "-----------------\n" [];;
  x0 ← regs_buff regs REG_CR;
  fprintf "0x00: CR (Command):                      0x%08x\n" [PI x0];;
  x0 ← regs_buff regs REG_CR;
  fprintf ("      Transmit %s\n" +:+
     "      Receive %s\n") [
     PS (if x0 &? BIT_CR_TXE then "Active" else "Idle");
     PS (if x0 &? BIT_CR_RXE then "Active" else "Idle")];;
  x0 ← regs_buff regs REG_CR;
  when (x0 &? BIT_CR_RST)
    (fprintf "      Reset In Progress\n" []);;
  x0 ← regs_buff regs REG_CFG;
  fprintf "0x04: CFG (Configuration):               0x%08x\n" [PI x0];;
  x0 ← regs_buff regs REG_CFG;
  fprintf ("      %s Endian\n" +:+
     "      Boot ROM %s\n" +:+
     "      Internal Phy %s\n" +:+
     "      Phy Reset %s\n" +:+
     "      External Phy %s\n" +:+
     "      Default Auto-Negotiation %s, %s %s Mb %s Duplex\n" +:+
     "      Phy Interrupt %sAuto-Cleared\n" +:+
     "      Phy Configuration = 0x%02x\n" +:+
     "      Auto-Negotiation %s\n" +:+
     "      %s Polarity\n" +:+
     "      %s Duplex\n" +:+
     "      %d Mb/s\n" +:+
     "      Link %s\n") [
     PS (if x0 &? BIT_CFG_BEM then "Big" else "Little");
     PS (if x0 &? BIT_CFG_BROM_DIS then "Disabled" else "Enabled");
     PS (if x0 &? BIT_CFG_PHY_DIS then "Disabled" else "Enabled");
     PS (if x0 &? BIT_CFG_PHY_RST then "In Progress" else "Idle");
     PS (if x0 &? BIT_CFG_EXT_PHY then "Enabled" else "Disabled");
     PS (if x0 &? BIT_CFG_ANEG_EN then "Enabled" else "Disabled");
     PS (if x0 &? BIT_CFG_ANEG_EN then "Advertise" else "Force");
     PS (if x0 &? BIT_CFG_ANEG_100 then (if x0 &? BIT_CFG_ANEG_EN then "10/100" else "100") else "10");
     PS (if x0 &? BIT_CFG_ANEG_FDUP then (if x0 &? BIT_CFG_ANEG_EN then "Half/Full" else "Full") else "Half");
     PS (if x0 &? BIT_CFG_PINT_ACEN then "" else "Not "); PI (Z.land x0 (Z.shiftr BIT_CFG_PHY_CFG 18));
     PS (if x0 &? BIT_CFG_ANEG_DN then "Done" else "Not Done");
     PS (if x0 &? BIT_CFG_POL then "Reversed" else "Normal");
     PS (if x0 &? BIT_CFG_FDUP then "Full" else "Half");
     PI (if (x0 &? BIT_CFG_SPEED100) then 100 else 10);
     PS (if x0 &? BIT_CFG_LNKSTS then "Up" else "Down")];;
  x0 ← regs_buff regs REG_MEAR;
  fprintf "0x08: MEAR (EEPROM Access):              0x%08x\n" [PI x0];;
  x0 ← regs_buff regs REG_PTSCR;
  fprintf "0x0c: PTSCR (PCI Test Control):          0x%08x\n" [PI x0].

Definition natsemi_dump_regs_2 (regs : ereq) : P unit :=
  x0 ← regs_buff regs REG_PTSCR;
  fprintf ("      EEPROM Self Test %s\n" +:+
     "      Rx Filter Self Test %s\n" +:+
     "      Tx FIFO Self Test %s\n" +:+
     "      Rx FIFO Self Test %s\n") [
     PS (if x0 &? BIT_PTSCR_EEBIST_FAIL then "Failed" else "Passed");
     PS (if x0 &? BIT_PTSCR_RBIST_RXFFAIL then "Failed" else "Passed");
     PS (if x0 &? BIT_PTSCR_RBIST_TXFAIL then "Failed" else "Passed");
     PS (if x0 &? BIT_PTSCR_RBIST_RXFAIL then "Failed" else "Passed")];;
  x0 ← regs_buff regs REG_PTSCR;
  when (x0 &? BIT_PTSCR_EELOAD_EN)
    (fprintf "      EEPROM Reload In Progress\n" []);;
  x0 ← regs_buff regs REG_ISR;
  fprintf "0x10: ISR (Interrupt Status):            0x%08x\n" [PI x0];;
  x0 ← regs_buff regs REG_ISR;
  (if (truth x0) then
    x0 ← regs_buff regs REG_ISR;
    PRINT_INTRS x0 "Active" None
  else
    fprintf "      No Interrupts Active\n" []);;
  x0 ← regs_buff regs REG_IMR;
  fprintf "0x14: IMR (Interrupt Mask):              0x%08x\n" [PI x0];;
  x0 ← regs_buff regs REG_IMR;
  PRINT_INTRS x0 "Enabled" (Some "Masked");;
  x0 ← regs_buff regs REG_IER;
  fprintf "0x18: IER (Interrupt Enable):            0x%08x\n" [PI x0];;
  x0 ← regs_buff regs REG_IER;
  fprintf "      Interrupts %s\n" [PS (if x0 &? BIT_IER_IE then "Enabled" else "Disabled")];;
  x0 ← regs_buff regs REG_TXDP;
  fprintf "0x20: TXDP (Tx Descriptor Pointer):      0x%08x\n" [PI x0];;
  x0 ← regs_buff regs REG_TXCFG;
  fprintf "0x24: TXCFG (Tx Config):                 0x%08x\n" [PI x0];;
  x0 ← regs_buff regs REG_TXCFG;
  let tmp := (Z.shiftr (Z.land x0 BIT_TXCFG_MXDMA) 20) in
  x0 ← regs_buff regs REG_TXCFG;
  fprintf ("      Drain Threshhold = %d bytes (%d)\n" +:+
     "      Fill Threshhold = %d bytes (%d)\n" +:+
     "      Max DMA Burst per Tx = %d bytes\n" +:+
     "      Automatic Tx Padding %s\n" +:+
     "      Mac Loopback %s\n" +:+
     "      Heartbeat Ignore %s\n" +:+
     "      Carrier Sense Ignore %s\n") [
     PI (u32 ((Z.land x0 BIT_TXCFG_DRTH) * 32)); PI (Z.land x0 BIT_TXCFG_DRTH);
     PI (u32 ((Z.shiftr (Z.land x0 BIT_TXCFG_FLTH) 8) * 32)); PI (Z.land x0 BIT_TXCFG_FLTH);
     PI (if (truth tmp) then (u32 ((Z.shiftl 1 (u32 (tmp - 1))) * 4)) else 512);
     PS (if x0 &? BIT_TXCFG_ATP then "Enabled" else "Disabled");
     PS (if x0 &? BIT_TXCFG_MLB then "Enabled" else "Disabled");
     PS (if x0 &? BIT_TXCFG_HBI then "Enabled" else "Disabled");
     PS (if x0 &? BIT_TXCFG_CSI then "Enabled" else "Disabled")].

Definition natsemi_dump_regs_3 (regs : ereq) : P unit :=
  x0 ← regs_buff regs REG_RXDP;
  fprintf "0x30: RXDP (Rx Descriptor Pointer):      0x%08x\n" [PI x0];;
  x0 ← regs_buff regs REG_RXCFG;
  fprintf "0x34: RXCFG (Rx Config):                 0x%08x\n" [PI x0];;
  x0 ← regs_buff regs REG_RXCFG;
  let tmp := (Z.shiftr (Z.land x0 BIT_RXCFG_MXDMA) 20) in
  x0 ← regs_buff regs REG_RXCFG;
  fprintf ("      Drain Threshhold = %d bytes (%d)\n" +:+
     "      Max DMA Burst per Rx = %d bytes\n" +:+
     "      Long Packets %s\n" +:+
     "      Tx Packets %s\n" +:+
     "      Runt Packets %s\n" +:+
     "      Error Packets %s\n") [
     PI (u32 ((Z.shiftr (Z.land x0 BIT_RXCFG_DRTH) 1) * 8)); PI (Z.shiftr (Z.land x0 BIT_RXCFG_DRTH) 1);
     PI (if (truth tmp) then (u32 ((Z.shiftl 1 (u32 (tmp - 1))) * 4)) else 512);
     PS (if x0 &? BIT_RXCFG_ALP then "Accepted" else "Rejected");
     PS (if x0 &? BIT_RXCFG_ATX then "Accepted" else "Rejected");
     PS (if x0 &? BIT_RXCFG_ARP then "Accepted" else "Rejected");
     PS (if x0 &? BIT_RXCFG_AEP then "Accepted" else "Rejected")];;
  x0 ← regs_buff regs REG_CCSR;
  fprintf "0x3c: CCSR (CLKRUN Control/Status):      0x%08x\n" [PI x0];;
  x0 ← regs_buff regs REG_CCSR;
  fprintf ("      CLKRUNN %s\n" +:+
     "      Power Management %s\n") [
     PS (if x0 &? BIT_CCSR_CLKRUN_EN then "Enabled" else "Disabled");
     PS (if x0 &? BIT_CCSR_PMEEN then "Enabled" else "Disabled")];;
  x0 ← regs_buff regs REG_CCSR;
  when (x0 &? BIT_CCSR_PMESTS)
    (fprintf "      Power Management Event Pending\n" []);;
  x0 ← regs_buff regs REG_WCSR;
  fprintf "0x40: WCSR (Wake-on-LAN Control/Status): 0x%08x\n" [PI x0];;
  x0 ← regs_buff regs REG_WCSR;
  when (x0 &? BIT_WCSR_WKPHY)
    (fprintf "      Wake on Phy Interrupt Enabled\n" []);;
  x0 ← regs_buff regs REG_WCSR;
  when (x0 &? BIT_WCSR_WKUCP)
    (fprintf "      Wake on Unicast Packet Enabled\n" []);;
  x0 ← regs_buff regs REG_WCSR;
  when (x0 &? BIT_WCSR_WKMCP)
    (fprintf "      Wake on Multicast Packet Enabled\n" []);;
  x0 ← regs_buff regs REG_WCSR;
  when (x0 &? BIT_WCSR_WKBCP)
    (fprintf "      Wake on Broadcast Packet Enabled\n" []);;
  x0 ← regs_buff regs REG_WCSR;
  when (x0 &? BIT_WCSR_WKARP)
    (fprintf "      Wake on Arp Enabled\n" []);;
  x0 ← regs_buff regs REG_WCSR;
  when (x0 &? BIT_WCSR_WKPAT0)
    (fprintf "      Wake on Pattern 0 Match Enabled\n" []);;
  x0 ← regs_buff regs REG_WCSR;
  when (x0 &? BIT_WCSR_WKPAT1)
    (fprintf "      Wake on Pattern 1 Match Enabled\n" []);;
  x0 ← regs_buff regs REG_WCSR;
  when (x0 &? BIT_WCSR_WKPAT2)
    (fprintf "      Wake on Pattern 2 Match Enabled\n" []);;
  x0 ← regs_buff regs REG_WCSR;
  when (x0 &? BIT_WCSR_WKPAT3)
    (fprintf "      Wake on Pattern 3 Match Enabled\n" []).

Definition natsemi_dump_regs_4 (regs : ereq) : P unit :=
  x0 ← regs_buff regs REG_WCSR;
  when (x0 &? BIT_WCSR_WKMAG)
    (fprintf "      Wake on Magic Packet Enabled\n" []);;
  x0 ← regs_buff regs REG_WCSR;
  when (x0 &? BIT_WCSR_MPSOE)
    (fprintf "      Magic Packet SecureOn Enabled\n" []);;
  x0 ← regs_buff regs REG_WCSR;
  when (x0 &? BIT_WCSR_SOHACK)
    (fprintf "      SecureOn Hack Detected\n" []);;
  x0 ← regs_buff regs REG_WCSR;
  when (x0 &? BIT_WCSR_PHYINT)
    (fprintf "      Phy Interrupt Received\n" []);;
  x0 ← regs_buff regs REG_WCSR;
  when (x0 &? BIT_WCSR_UCASTR)
    (fprintf "      Unicast Packet Received\n" []);;
  x0 ← regs_buff regs REG_WCSR;
  when (x0 &? BIT_WCSR_MCASTR)
    (fprintf "      Multicast Packet Received\n" []);;
  x0 ← regs_buff regs REG_WCSR;
  when (x0 &? BIT_WCSR_BCASTR)
    (fprintf "      Broadcast Packet Received\n" []);;
  x0 ← regs_buff regs REG_WCSR;
  when (x0 &? BIT_WCSR_ARPR)
    (fprintf "      Arp Received\n" []);;
  x0 ← regs_buff regs REG_WCSR;
  when (x0 &? BIT_WCSR_PATM0)
    (fprintf "      Pattern 0 Received\n" []);;
  x0 ← regs_buff regs REG_WCSR;
  when (x0 &? BIT_WCSR_PATM1)
    (fprintf "      Pattern 1 Received\n" []);;
  x0 ← regs_buff regs REG_WCSR;
  when (x0 &? BIT_WCSR_PATM2)
    (fprintf "      Pattern 2 Received\n" []);;
  x0 ← regs_buff regs REG_WCSR;
  when (x0 &? BIT_WCSR_PATM3)
    (fprintf "      Pattern 3 Received\n" []);;
  x0 ← regs_buff regs REG_WCSR;
  when (x0 &? BIT_WCSR_MPR)
    (fprintf "      Magic Packet Received\n" []);;
  x0 ← regs_buff regs REG_PCR;
  fprintf "0x44: PCR (Pause Control/Status):        0x%08x\n" [PI x0];;
  x0 ← regs_buff regs REG_PCR;
  fprintf ("      Pause Counter = %d\n" +:+
     "      Pause %sNegotiated\n" +:+
     "      Pause on DA %s\n" +:+
     "      Pause on Mulitcast %s\n" +:+
     "      Pause %s\n") [
     PI (Z.land x0 BIT_PCR_PAUSE_CNT); PS (if x0 &? BIT_PCR_PSNEG then "" else "Not ");
     PS (if x0 &? BIT_PCR_PS_DA then "Enabled" else "Disabled");
     PS (if x0 &? BIT_PCR_PSMCAST then "Enabled" else "Disabled");
     PS (if x0 &? BIT_PCR_PSEN then "Enabled" else "Disabled")];;
  x0 ← regs_buff regs REG_PCR;
  when (x0 &? BIT_PCR_PS_RCVD)
    (fprintf "      PS_RCVD: Pause Frame Received\n" []);;
  x0 ← regs_buff regs REG_RFCR;
  fprintf "0x48: RFCR (Rx Filter Control):          0x%08x\n" [PI x0];;
  x0 ← regs_buff regs REG_RFCR;
  fprintf ("      Unicast Hash %s\n" +:+
     "      Multicast Hash %s\n" +:+
     "      Arp %s\n" +:+
     "      Pattern 0 Match %s\n" +:+
     "      Pattern 1 Match %s\n" +:+
     "      Pattern 2 Match %s\n" +:+
     "      Pattern 3 Match %s\n" +:+
     "      Perfect Match %s\n" +:+
     "      All Unicast %s\n" +:+
     "      All Multicast %s\n" +:+
     "      All Broadcast %s\n" +:+
     "      Rx Filter %s\n") [
     PS (if x0 &? BIT_RFCR_UHEN then "Enabled" else "Disabled");
     PS (if x0 &? BIT_RFCR_MHEN then "Enabled" else "Disabled");
     PS (if x0 &? BIT_RFCR_AARP then "Accepted" else "Rejected");
     PS (if x0 &? BIT_RFCR_APAT0 then "Accepted" else "Rejected");
     PS (if x0 &? BIT_RFCR_APAT1 then "Accepted" else "Rejected");
     PS (if x0 &? BIT_RFCR_APAT2 then "Accepted" else "Rejected");
     PS (if x0 &? BIT_RFCR_APAT3 then "Accepted" else "Rejected");
     PS (if x0 &? BIT_RFCR_APM then "Accepted" else "Rejected");
     PS (if x0 &? BIT_RFCR_AAU then "Accepted" else "Rejected");
     PS (if x0 &? BIT_RFCR_AAM then "Accepted" else "Rejected");
     PS (if x0 &? BIT_RFCR_AAB then "Accepted" else "Rejected");
     PS (if x0 &? BIT_RFCR_RFEN then "Enabled" else "Disabled")].

Definition natsemi_dump_regs_5 (regs : ereq) : P unit :=
  x0 ← regs_buff regs REG_RFDR;
  fprintf "0x4c: RFDR (Rx Filter Data):             0x%08x\n" [PI x0];;
  when (1 <=? (fld regs "version"))
    (x0 ← regs_buff regs REG_PMATCH0;
    x1 ← regs_buff regs REG_PMATCH1;
    x2 ← regs_buff regs REG_PMATCH2;
    x3 ← regs_buff regs REG_PCOUNT0;
    x4 ← regs_buff regs REG_PCOUNT1;
    x5 ← regs_buff regs REG_SOPASS0;
    x6 ← regs_buff regs REG_SOPASS1;
    x7 ← regs_buff regs REG_SOPASS2;
    fprintf ("      PMATCH 1-0 = 0x%08x\n" +:+
       "      PMATCH 3-2 = 0x%08x\n" +:+
       "      PMATCH 5-4 = 0x%08x\n" +:+
       "      PCOUNT 1-0 = 0x%08x\n" +:+
       "      PCOUNT 3-2 = 0x%08x\n" +:+
       "      SOPASS 1-0 = 0x%08x\n" +:+
       "      SOPASS 3-2 = 0x%08x\n" +:+
       "      SOPASS 5-4 = 0x%08x\n") [
       PI x0; PI x1; PI x2; PI x3; PI x4; PI x5; PI x6; PI x7]);;
  x0 ← regs_buff regs REG_BRAR;
  fprintf "0x50: BRAR (Boot ROM Address):           0x%08x\n" [PI x0];;
  x0 ← regs_buff regs REG_BRAR;
  when (x0 &? BIT_BRAR_AUTOINC)
    (fprintf "      Automatically Increment Address\n" []);;
  x0 ← regs_buff regs REG_BRDR;
  fprintf "0x54: BRDR (Boot ROM Data):              0x%08x\n" [PI x0];;
  x0 ← regs_buff regs REG_SRR;
  fprintf "0x58: SRR (Silicon Revision):            0x%08x\n" [PI x0];;
  x0 ← regs_buff regs REG_MIBC;
  fprintf "0x5c: MIBC (Mgmt Info Base Control):     0x%08x\n" [PI x0];;
  x0 ← regs_buff regs REG_MIBC;
  when (x0 &? BIT_MIBC_WRN)
    (fprintf "      Counter Overflow Warning\n" []);;
  x0 ← regs_buff regs REG_MIBC;
  when (x0 &? BIT_MIBC_FRZ)
    (fprintf "      Counters Frozen\n" []);;
  x0 ← regs_buff regs REG_MIB0;
  fprintf "0x60: MIB[0] (Rx Errored Packets):       0x%04x\n" [PI x0];;
  x0 ← regs_buff regs REG_MIB0;
  fprintf "      Value = %d\n" [PI x0];;
  x0 ← regs_buff regs REG_MIB1;
  fprintf "0x64: MIB[1] (Rx Frame Sequence Errors): 0x%02x\n" [PI x0];;
  x0 ← regs_buff regs REG_MIB1;
  fprintf "      Value = %d\n" [PI x0];;
  x0 ← regs_buff regs REG_MIB2;
  fprintf "0x68: MIB[2] (Rx Missed Packets):        0x%02x\n" [PI x0];;
  x0 ← regs_buff regs REG_MIB2;
  fprintf "      Value = %d\n" [PI x0];;
  x0 ← regs_buff regs REG_MIB3;
  fprintf "0x6c: MIB[3] (Rx Alignment Errors):      0x%02x\n" [PI x0].

Definition natsemi_dump_regs_6 (regs : ereq) : P unit :=
  x0 ← regs_buff regs REG_MIB3;
  fprintf "      Value = %d\n" [PI x0];;
  x0 ← regs_buff regs REG_MIB4;
  fprintf "0x70: MIB[4] (Rx Symbol Errors):         0x%02x\n" [PI x0];;
  x0 ← regs_buff regs REG_MIB4;
  fprintf "      Value = %d\n" [PI x0];;
  x0 ← regs_buff regs REG_MIB5;
  fprintf "0x74: MIB[5] (Rx Long Frame Errors):     0x%02x\n" [PI x0];;
  x0 ← regs_buff regs REG_MIB5;
  fprintf "      Value = %d\n" [PI x0];;
  x0 ← regs_buff regs REG_MIB6;
  fprintf "0x78: MIB[6] (Tx Heartbeat Errors):      0x%02x\n" [PI x0];;
  x0 ← regs_buff regs REG_MIB6;
  fprintf "      Value = %d\n" [PI x0];;
  fprintf "\n" [];;
  fprintf "Internal Phy Registers\n" [];;
  fprintf "----------------------\n" [];;
  x0 ← regs_buff regs REG_BMCR;
  fprintf "0x80: BMCR (Basic Mode Control):         0x%04x\n" [PI x0];;
  x0 ← regs_buff regs REG_BMCR;
  fprintf ("      %s Duplex\n" +:+
     "      Port is Powered %s\n" +:+
     "      Auto-Negotiation %s\n" +:+
     "      %d Mb/s\n") [
     PS (if x0 &? BIT_BMCR_FDUP then "Full" else "Half");
     PS (if x0 &? BIT_BMCR_PDOWN then "Down" else "Up");
     PS (if x0 &? BIT_BMCR_ANEN then "Enabled" else "Disabled");
     PI (if (x0 &? BIT_BMCR_SPEED) then 100 else 10)];;
  x0 ← regs_buff regs REG_BMCR;
  when (x0 &? BIT_BMCR_ANRST)
    (fprintf "      Auto-Negotiation Restarting\n" []);;
  x0 ← regs_buff regs REG_BMCR;
  when (x0 &? BIT_BMCR_ISOL)
    (fprintf "      Port Isolated\n" []);;
  x0 ← regs_buff regs REG_BMCR;
  when (x0 &? BIT_BMCR_LOOP)
    (fprintf "      Loopback Enabled\n" []);;
  x0 ← regs_buff regs REG_BMCR;
  when (x0 &? BIT_BMCR_RST)
    (fprintf "      Reset In Progress\n" []);;
  x0 ← regs_buff regs REG_BMSR;
  fprintf "0x84: BMSR (Basic Mode Status):          0x%04x\n" [PI x0];;
  x0 ← regs_buff regs REG_BMSR;
  fprintf ("      Link %s\n" +:+
     "      %sCapable of Auto-Negotiation\n" +:+
     "      Auto-Negotiation %sComplete\n" +:+
     "      %sCapable of Preamble Suppression\n" +:+
     "      %sCapable of 10Base-T Half Duplex\n" +:+
     "      %sCapable of 10Base-T Full Duplex\n" +:+
     "      %sCapable of 100Base-TX Half Duplex\n" +:+
     "      %sCapable of 100Base-TX Full Duplex\n" +:+
     "      %sCapable of 100Base-T4\n") [
     PS (if x0 &? BIT_BMSR_LNK then "Up" else "Down"); PS (if x0 &? BIT_BMSR_ANCAP then "" else "Not ");
     PS (if x0 &? BIT_BMSR_ANDONE then "" else "Not ");
     PS (if x0 &? BIT_BMSR_PREAMBLE then "" else "Not ");
     PS (if x0 &? BIT_BMSR_10HCAP then "" else "Not ");
     PS (if x0 &? BIT_BMSR_10FCAP then "" else "Not ");
     PS (if x0 &? BIT_BMSR_100HCAP then "" else "Not ");
     PS (if x0 &? BIT_BMSR_100FCAP then "" else "Not ");
     PS (if x0 &? BIT_BMSR_100T4CAP then "" else "Not ")].

Definition natsemi_dump_regs_7 (regs : ereq) : P unit :=
  x0 ← regs_buff regs REG_BMSR;
  when (x0 &? BIT_BMSR_JABBER)
    (fprintf "      Jabber Condition Detected\n" []);;
  x0 ← regs_buff regs REG_BMSR;
  when (x0 &? BIT_BMSR_RFAULT)
    (fprintf "      Remote Fault Detected\n" []);;
  x0 ← regs_buff regs REG_PHYIDR1;
  fprintf "0x88: PHYIDR1 (PHY ID #1):               0x%04x\n" [PI x0];;
  x0 ← regs_buff regs REG_PHYIDR2;
  fprintf "0x8c: PHYIDR2 (PHY ID #2):               0x%04x\n" [PI x0];;
  x0 ← regs_buff regs REG_PHYIDR1;
  x1 ← regs_buff regs REG_PHYIDR2;
  fprintf ("      OUI = 0x%06x\n" +:+
     "      Model = 0x%02x (%d)\n" +:+
     "      Revision = 0x%01x (%d)\n") [
     PI (Z.lor (Z.shiftl x0 6) (Z.shiftr x1 10));
     PI (Z.land (Z.shiftr (Z.land x1 BIT_PHYIDR2_MODEL) 4) 0x3f);
     PI (Z.land (Z.shiftr (Z.land x1 BIT_PHYIDR2_MODEL) 4) 0x3f); PI (Z.land x1 BIT_PHYIDR2_REV);
     PI (Z.land x1 BIT_PHYIDR2_REV)];;
  x0 ← regs_buff regs REG_ANAR;
  fprintf "0x90: ANAR (Autoneg Advertising):        0x%04x\n" [PI x0];;
  x0 ← regs_buff regs REG_ANAR;
  fprintf "      Protocol Selector = 0x%02x (%d)\n" [PI (Z.land x0 BIT_ANAR_PROTO); PI (Z.land x0 BIT_ANAR_PROTO)];;
  x0 ← regs_buff regs REG_ANAR;
  when (x0 &? BIT_ANAR_10)
    (fprintf "      Advertising 10Base-T Half Duplex\n" []);;
  x0 ← regs_buff regs REG_ANAR;
  when (x0 &? BIT_ANAR_10_FD)
    (fprintf "      Advertising 10Base-T Full Duplex\n" []);;
  x0 ← regs_buff regs REG_ANAR;
  when (x0 &? BIT_ANAR_TX)
    (fprintf "      Advertising 100Base-TX Half Duplex\n" []);;
  x0 ← regs_buff regs REG_ANAR;
  when (x0 &? BIT_ANAR_TXFD)
    (fprintf "      Advertising 100Base-TX Full Duplex\n" []);;
  x0 ← regs_buff regs REG_ANAR;
  when (x0 &? BIT_ANAR_T4)
    (fprintf "      Advertising 100Base-T4\n" []);;
  x0 ← regs_buff regs REG_ANAR;
  when (x0 &? BIT_ANAR_PAUSE)
    (fprintf "      Advertising Pause\n" []);;
  x0 ← regs_buff regs REG_ANAR;
  when (x0 &? BIT_ANAR_RF)
    (fprintf "      Indicating Remote Fault\n" []);;
  x0 ← regs_buff regs REG_ANAR;
  when (x0 &? BIT_ANAR_NP)
    (fprintf "      Next Page Desired\n" []);;
  x0 ← regs_buff regs REG_ANLPAR;
  fprintf "0x94: ANLPAR (Autoneg Partner):          0x%04x\n" [PI x0];;
  x0 ← regs_buff regs REG_ANLPAR;
  fprintf "      Protocol Selector = 0x%02x (%d)\n" [PI (Z.land x0 BIT_ANLPAR_PROTO); PI (Z.land x0 BIT_ANLPAR_PROTO)];;
  x0 ← regs_buff regs REG_ANLPAR;
  when (x0 &? BIT_ANLPAR_10)
    (fprintf "      Supports 10Base-T Half Duplex\n" []);;
  x0 ← regs_buff regs REG_ANLPAR;
  when (x0 &? BIT_ANLPAR_10_FD)
    (fprintf "      Supports 10Base-T Full Duplex\n" []);;
  x0 ← regs_buff regs REG_ANLPAR;
  when (x0 &? BIT_ANLPAR_TX)
    (fprintf "      Supports 100Base-TX Half Duplex\n" []).

Definition natsemi_dump_regs_8 (regs : ereq) : P unit :=
  x0 ← regs_buff regs REG_ANLPAR;
  when (x0 &? BIT_ANLPAR_TXFD)
    (fprintf "      Supports 100Base-TX Full Duplex\n" []);;
  x0 ← regs_buff regs REG_ANLPAR;
  when (x0 &? BIT_ANLPAR_T4)
    (fprintf "      Supports 100Base-T4\n" []);;
  x0 ← regs_buff regs REG_ANLPAR;
  when (x0 &? BIT_ANLPAR_PAUSE)
    (fprintf "      Supports Pause\n" []);;
  x0 ← regs_buff regs REG_ANLPAR;
  when (x0 &? BIT_ANLPAR_RF)
    (fprintf "      Indicates Remote Fault\n" []);;
  x0 ← regs_buff regs REG_ANLPAR;
  when (x0 &? BIT_ANLPAR_ACK)
    (fprintf "      Indicates Acknowledgement\n" []);;
  x0 ← regs_buff regs REG_ANLPAR;
  when (x0 &? BIT_ANLPAR_NP)
    (fprintf "      Next Page Desired\n" []);;
  x0 ← regs_buff regs REG_ANER;
  fprintf "0x98: ANER (Autoneg Expansion):          0x%04x\n" [PI x0];;
  x0 ← regs_buff regs REG_ANER;
  fprintf ("      Link Partner Can %sAuto-Negotiate\n" +:+
     "      Link Code Word %sReceived\n" +:+
     "      Next Page %sSupported\n" +:+
     "      Link Partner Next Page %sSupported\n") [
     PS (if x0 &? BIT_ANER_LP_AN_ENABLE then "" else "Not ");
     PS (if x0 &? BIT_ANER_PAGE_RX then "" else "Not ");
     PS (if x0 &? BIT_ANER_NP_ABLE then "" else "Not ");
     PS (if x0 &? BIT_ANER_LP_NP_ABLE then "" else "Not ")];;
  x0 ← regs_buff regs REG_ANER;
  when (x0 &? BIT_ANER_PDF)
    (fprintf "      Parallel Detection Fault\n" []);;
  x0 ← regs_buff regs REG_ANNPTR;
  fprintf "0x9c: ANNPTR (Autoneg Next Page Tx):     0x%04x\n" [PI x0];;
  x0 ← regs_buff regs REG_PHYSTS;
  fprintf "0xc0: PHYSTS (Phy Status):               0x%04x\n" [PI x0];;
  x0 ← regs_buff regs REG_PHYSTS;
  fprintf ("      Link %s\n" +:+
     "      %d Mb/s\n" +:+
     "      %s Duplex\n" +:+
     "      Auto-Negotiation %sComplete\n" +:+
     "      %s Polarity\n") [
     PS (if x0 &? BIT_PHYSTS_LNK then "Up" else "Down");
     PI (if (x0 &? BIT_PHYSTS_SPD10) then 10 else 100);
     PS (if x0 &? BIT_PHYSTS_FDUP then "Full" else "Half");
     PS (if x0 &? BIT_PHYSTS_ANDONE then "" else "Not ");
     PS (if x0 &? BIT_PHYSTS_POL then "Reverse" else "Normal")];;
  x0 ← regs_buff regs REG_PHYSTS;
  when (x0 &? BIT_PHYSTS_LOOP)
    (fprintf "      Loopback Enabled\n" []);;
  x0 ← regs_buff regs REG_PHYSTS;
  when (x0 &? BIT_PHYSTS_JABBER)
    (fprintf "      Jabber Condition Detected\n" []);;
  x0 ← regs_buff regs REG_PHYSTS;
  when (x0 &? BIT_PHYSTS_RF)
    (fprintf "      Remote Fault Detected\n" []);;
  x0 ← regs_buff regs REG_PHYSTS;
  when (x0 &? BIT_PHYSTS_MINT)
    (fprintf "      MII Interrupt Detected\n" []);;
  x0 ← regs_buff regs REG_PHYSTS;
  when (x0 &? BIT_PHYSTS_FC)
    (fprintf "      False Carrier Detected\n" []);;
  x0 ← regs_buff regs REG_PHYSTS;
  when (x0 &? BIT_PHYSTS_RXERR)
    (fprintf "      Rx Error Detected\n" []).

Definition natsemi_dump_regs_9 (regs : ereq) : P unit :=
  x0 ← regs_buff regs REG_MICR;
  fprintf "0xc4: MICR (MII Interrupt Control):      0x%04x\n" [PI x0];;
  x0 ← regs_buff regs REG_MICR;
  fprintf "      MII Interrupts %s\n" [PS (if x0 &? BIT_MICR_INTEN then "Enabled" else "Disabled")];;
  x0 ← regs_buff regs REG_MISR;
  fprintf "0xc8: MISR (MII Interrupt Status):       0x%04x\n" [PI x0];;
  x0 ← regs_buff regs REG_MISR;
  fprintf ("      Rx Error Counter Half-Full Interrupt %s\n" +:+
     "      False Carrier Counter Half-Full Interrupt %s\n" +:+
     "      Auto-Negotiation Complete Interrupt %s\n" +:+
     "      Remote Fault Interrupt %s\n" +:+
     "      Jabber Interrupt %s\n" +:+
     "      Link Change Interrupt %s\n") [
     PS (if x0 &? BIT_MISR_MSK_RHF then "Masked" else "Enabled");
     PS (if x0 &? BIT_MISR_MSK_FHF then "Masked" else "Enabled");
     PS (if x0 &? BIT_MISR_MSK_ANC then "Masked" else "Enabled");
     PS (if x0 &? BIT_MISR_MSK_RF then "Masked" else "Enabled");
     PS (if x0 &? BIT_MISR_MSK_JAB then "Masked" else "Enabled");
     PS (if x0 &? BIT_MISR_MSK_LNK then "Masked" else "Enabled")];;
  x0 ← regs_buff regs REG_MISR;
  when (x0 &? BIT_MISR_MINT)
    (fprintf "      MII Interrupt Pending\n" []);;
  x0 ← regs_buff regs REG_PGSEL;
  fprintf "0xcc: PGSEL (Phy Register Page Select):  0x%04x\n" [PI x0];;
  x0 ← regs_buff regs REG_FCSCR;
  fprintf "0xd0: FCSCR (False Carrier Counter):     0x%04x\n" [PI x0];;
  x0 ← regs_buff regs REG_FCSCR;
  fprintf "      Value = %d\n" [PI (Z.land x0 0xff)];;
  x0 ← regs_buff regs REG_RECR;
  fprintf "0xd4: RECR (Rx Error Counter):           0x%04x\n" [PI x0];;
  x0 ← regs_buff regs REG_RECR;
  fprintf "      Value = %d\n" [PI (Z.land x0 0xff)];;
  x0 ← regs_buff regs REG_PCSR;
  fprintf "0xd8: PCSR (100Mb/s PCS Config/Status):  0x%04x\n" [PI x0];;
  x0 ← regs_buff regs REG_PCSR;
  fprintf ("      NRZI Bypass %s\n" +:+
     "      %s Signal Detect Algorithm\n" +:+
     "      %s Signal Detect Operation\n" +:+
     "      True Quiet Mode %s\n" +:+
     "      Rx Clock is %s\n" +:+
     "      4B/5B Operation %s\n") [
     PS (if x0 &? BIT_PCSR_NRZI then "Enabled" else "Disabled");
     PS (if x0 &? BIT_PCSR_SDOPT then "Enhanced" else "Reduced");
     PS (if x0 &? BIT_PCSR_SDFORCE then "Forced" else "Normal");
     PS (if x0 &? BIT_PCSR_TQM then "Enabled" else "Disabled");
     PS (if x0 &? BIT_PCSR_CLK then "Free-Running" else "Phase-Adjusted");
     PS (if x0 &? BIT_PCSR_4B5B then "Bypassed" else "Normal")].

Definition natsemi_dump_regs_10 (regs : ereq) : P unit :=
  x0 ← regs_buff regs REG_PCSR;
  when (x0 &? BIT_PCSR_FORCE_100)
    (fprintf "      Forced 100 Mb/s Good Link\n" []);;
  x0 ← regs_buff regs REG_PHYCR;
  fprintf "0xe4: PHYCR (Phy Control):               0x%04x\n" [PI x0];;
  x0 ← regs_buff regs REG_PHYCR;
  fprintf ("      Phy Address = 0x%x (%d)\n" +:+
     "      %sPause Compatible with Link Partner\n" +:+
     "      LED Stretching %s\n" +:+
     "      Phy Self Test %s\n" +:+
     "      Self Test Sequence = PSR%d\n") [
     PI (Z.land x0 BIT_PHYCR_PHYADDR); PI (Z.land x0 BIT_PHYCR_PHYADDR);
     PS (if x0 &? BIT_PHYCR_PAUSE_STS then "" else "Not ");
     PS (if x0 &? BIT_PHYCR_STRETCH then "Bypassed" else "Enabled");
     PS (if x0 &? BIT_PHYCR_BIST then "In Progress" else
         if x0 &? BIT_PHYCR_BIST_STAT then "Passed" else "Failed or Not Run");
     PI (if (x0 &? BIT_PHYCR_PSR15) then 15 else 9)];;
  x0 ← regs_buff regs REG_TBTSCR;
  fprintf "0xe8: TBTSCR (10Base-T Status/Control):  0x%04x\n" [PI x0];;
  x0 ← regs_buff regs REG_TBTSCR;
  fprintf ("      Jabber %s\n" +:+
     "      Heartbeat %s\n" +:+
     "      Polarity Auto-Sense/Correct %s\n" +:+
     "      %s Polarity %s\n" +:+
     "      Normal Link Pulse %s\n" +:+
     "      10 Mb/s Loopback %s\n") [
     PS (if x0 &? BIT_TBTSCR_JAB then "Disabled" else "Enabled");
     PS (if x0 &? BIT_TBTSCR_BEAT then "Disabled" else "Enabled");
     PS (if x0 &? BIT_TBTSCR_AUTOPOL then "Disabled" else "Enabled");
     PS (if x0 &? BIT_TBTSCR_AUTOPOL then (if x0 &? BIT_TBTSCR_FPOL then "Reverse" else "Normal") else
         if x0 &? BIT_TBTSCR_POL then "Reverse" else "Normal");
     PS (if x0 &? BIT_TBTSCR_AUTOPOL then "Forced" else "Detected");
     PS (if x0 &? BIT_TBTSCR_PULSE then "Disabled" else "Enabled");
     PS (if x0 &? BIT_TBTSCR_LOOP then "Enabled" else "Disabled")];;
  x0 ← regs_buff regs REG_TBTSCR;
  when (x0 &? BIT_TBTSCR_FORCE_10)
    (fprintf "      Forced 10 Mb/s Good Link\n" []);;
  fprintf "\n" [];;
  fprintf "'Magic' Phy Registers\n" [];;
  fprintf "---------------------\n" [];;
  x0 ← regs_buff regs REG_PMDCSR;
  fprintf "0xe4: PMDCSR:                            0x%04x\n" [PI x0];;
  x0 ← regs_buff regs REG_DSPCFG;
  fprintf "0xf4: DSPCFG:                            0x%04x\n" [PI x0];;
  x0 ← regs_buff regs REG_SDCFG;
  fprintf "0xf8: SDCFG:                             0x%04x\n" [PI x0];;
  x0 ← regs_buff regs REG_TSTDAT;
  fprintf "0xfc: TSTDAT:                            0x%04x\n" [PI x0].

Definition natsemi_dump_regs (info regs : ereq) : P Z :=
  natsemi_dump_regs_1 regs;;
  natsemi_dump_regs_2 regs;;
  natsemi_dump_regs_3 regs;;
  natsemi_dump_regs_4 regs;;
  natsemi_dump_regs_5 regs;;
  natsemi_dump_regs_6 regs;;
  natsemi_dump_regs_7 regs;;
  natsemi_dump_regs_8 regs;;
  natsemi_dump_regs_9 regs;;
  natsemi_dump_regs_10 regs;;
  mret 0.

Definition natsemi_dump_eeprom (info ee : ereq) : P Z :=
  if negb (fld ee "magic" =? NATSEMI_MAGIC) then
    efprintf "Magic number 0x%08x does not match 0x%08x\n" [PI (fld ee "magic"); PI NATSEMI_MAGIC];;
    mret (-1)
  else
    fprintf "Address\tData\n" [];;
    fprintf "-------\t------\n" [];;
    for_ (Z.to_nat (fld ee "len" / 2)) 0 (fun i =>
      x ← data16 ee i;
      fprintf "0x%02x   \t0x%04x\n" [PI (i + fld ee "offset"); PI x]);;
    mret 0.

Lemma print_intr_shows d intr name s1 s2 : shows (print_intr d intr name s1 s2) (fun _ => True).
Proof. unfold print_intr. destruct s2; regs_all. Qed.

#[local] Hint Resolve print_intr_shows : shows.

Lemma PRINT_INTRS_shows d s1 s2 : shows (PRINT_INTRS d s1 s2) (fun _ => True).
Proof. unfold PRINT_INTRS. regs_all. Qed.

#[local] Hint Resolve PRINT_INTRS_shows : shows.

Lemma natsemi_dump_regs_1_shows regs : 304 <= Z.of_nat (length (rq_arr regs)) -> shows (natsemi_dump_regs_1 regs) (fun _ => True).
Proof. intros Hl. unfold natsemi_dump_regs_1. regs_all. Qed.

Lemma natsemi_dump_regs_2_shows regs : 304 <= Z.of_nat (length (rq_arr regs)) -> shows (natsemi_dump_regs_2 regs) (fun _ => True).
Proof. intros Hl. unfold natsemi_dump_regs_2. regs_all. Qed.

Lemma natsemi_dump_regs_3_shows regs : 304 <= Z.of_nat (length (rq_arr regs)) -> shows (natsemi_dump_regs_3 regs) (fun _ => True).
Proof. intros Hl. unfold natsemi_dump_regs_3. regs_all. Qed.

Lemma natsemi_dump_regs_4_shows regs : 304 <= Z.of_nat (length (rq_arr regs)) -> shows (natsemi_dump_regs_4 regs) (fun _ => True).
Proof. intros Hl. unfold natsemi_dump_regs_4. regs_all. Qed.

Lemma natsemi_dump_regs_5_shows regs : 304 <= Z.of_nat (length (rq_arr regs)) -> shows (natsemi_dump_regs_5 regs) (fun _ => True).
Proof. intros Hl. unfold natsemi_dump_regs_5. regs_all. Qed.

Lemma natsemi_dump_regs_6_shows regs : 304 <= Z.of_nat (length (rq_arr regs)) -> shows (natsemi_dump_regs_6 regs) (fun _ => True).
Proof. intros Hl. unfold natsemi_dump_regs_6. regs_all. Qed.

Lemma natsemi_dump_regs_7_shows regs : 304 <= Z.of_nat (length (rq_arr regs)) -> shows (natsemi_dump_regs_7 regs) (fun _ => True).
Proof. intros Hl. unfold natsemi_dump_regs_7. regs_all. Qed.

Lemma natsemi_dump_regs_8_shows regs : 304 <= Z.of_nat (length (rq_arr regs)) -> shows (natsemi_dump_regs_8 regs) (fun _ => True).
Proof. intros Hl. unfold natsemi_dump_regs_8. regs_all. Qed.

Lemma natsemi_dump_regs_9_shows regs : 304 <= Z.of_nat (length (rq_arr regs)) -> shows (natsemi_dump_regs_9 regs) (fun _ => True).
Proof. intros Hl. unfold natsemi_dump_regs_9. regs_all. Qed.

Lemma natsemi_dump_regs_10_shows regs : 304 <= Z.of_nat (length (rq_arr regs)) -> shows (natsemi_dump_regs_10 regs) (fun _ => True).
Proof. intros Hl. unfold natsemi_dump_regs_10. regs_all. Qed.

#[local] Hint Resolve natsemi_dump_regs_1_shows natsemi_dump_regs_2_shows natsemi_dump_regs_3_shows natsemi_dump_regs_4_shows natsemi_dump_regs_5_shows natsemi_dump_regs_6_shows natsemi_dump_regs_7_shows natsemi_dump_regs_8_shows natsemi_dump_regs_9_shows natsemi_dump_regs_10_shows : shows.

Lemma natsemi_dumps : dumps 304 natsemi_dump_regs.
Proof. intros info regs Hl. unfold natsemi_dump_regs. regs_all. Qed.

Lemma natsemi_eeprom_shows info ee : 0 <= fld ee "len" <= Z.of_nat (length (rq_arr ee)) ->
  shows (natsemi_dump_eeprom info ee) (fun _ => True).
Proof.
  intros Hl. unfold natsemi_dump_eeprom.
  pose proof (Z.mul_div_le (fld ee "len") 2). regs_all.
Qed.
End regs.
End EtNatsemi.
