(* ===== verification/EtDe2104x.v ===== *)
(** * ethtool: registers of the de2104x driver ([ethernet_test/ethtool/de2104x.c]) *)

From stdpp Require Import base list strings gmap numbers.
From Stdlib Require Import ZArith Lia.
From S2P Require Import Prelude CInt CLib CFmt EtCmd EtSet EtFeat EtRegs.
Import Et EtS EtF.

Module EtDe2104x.

Definition csr0_tap : list string := ["No transmit automatic polling";
  "Transmit automatic polling every 200 seconds";
  "Transmit automatic polling every 800 seconds";
  "Transmit automatic polling every 1.6 milliseconds"].
Definition csr0_cache_al : list string := ["not used";
  "8-longword boundary alignment";
  "16-longword boundary alignment";
  "32-longword boundary alignment"].
Definition csr5_buserr : list string := ["      Bus error: parity";
  "      Bus error: master abort";
  "      Bus error: target abort";
  "      Bus error: (unknown code, reserved)";
  "      Bus error: (unknown code, reserved)";
  "      Bus error: (unknown code, reserved)";
  "      Bus error: (unknown code, reserved)";
  "      Bus error: (unknown code, reserved)"].
Definition csr6_tx_thresh : list Z := [72;
  96;
  128;
  160].
Definition csr6_om : list string := ["normal";
  "internal loopback";
  "external loopback";
  "unknown (not used)"].
Definition csr5_tx_state : list string := ["stopped";
  "running: fetch desc";
  "running: wait xmit end";
  "running: read buf";
  "unknown (reserved)";
  "running: setup packet";
  "suspended";
  "running: close desc"].
Definition csr5_rx_state : list string := ["stopped";
  "running: fetch desc";
  "running: chk pkt end";
  "running: wait for pkt";
  "suspended";
  "running: close";
  "running: flush";
  "running: queue"].
Definition csr12_nway_state : list string := ["Autonegotiation disable";
  "Transmit disable";
  "Ability detect";
  "Acknowledge detect";
  "Complete acknowledge";
  "FLP link good, nway complete";
  "Link check";
  "unknown (reserved)"].
Definition csr14_tp_comp : list string := ["Compensation Disabled Mode";
  "Compensation Disabled Mode";
  "High Power Mode";
  "Normal Compensation Mode"].

Section regs.
Context {D : Type}.
Abbreviation P := (M D).

Definition print_ring_addresses (csr3 csr4 : Z) : P unit :=
  fprintf ("0x18: CSR3 (Rx Ring Base Address)        0x%08x\n" +:+
     "0x20: CSR4 (Tx Ring Base Address)        0x%08x\n") [PI csr3; PI csr4].

Definition print_rx_missed (csr8 : Z) : P unit :=
  fprintf "0x40: CSR8 (Missed Frames Counter)       0x%08x\n" [PI csr8];;
  if csr8 &? Z.shiftl 1 16 then fprintf "      Counter overflow\n" []
  else
    let rx_missed := Z.land csr8 0xffff in
    if negb (truth rx_missed) then fprintf "      No missed frames\n" []
    else fprintf "      %u missed frames\n" [PI rx_missed].

Definition de21040_dump_regs_1 (regs : ereq) : P unit :=
  fprintf "21040 Registers\n" [];;
  fprintf "---------------\n" [];;
  v ← regs_buff regs 0;
  x0 ← elem csr0_tap (Z.land (Z.shiftr v 17) 3);
  x1 ← elem csr0_cache_al (Z.land (Z.shiftr v 14) 3);
  fprintf ("0x00: CSR0 (Bus Mode)                    0x%08x\n" +:+
     "      %s\n" +:+
     "      %s address space\n" +:+
     "      Cache alignment: %s\n") [
     PI v; PS x0; PS (if v &? (Z.shiftl 1 16) then "Diagnostic" else "Standard"); PS x1];;
  let tmp := (Z.land (Z.shiftr v 8) 0x3f) in
  (if (tmp =? 0) then
    fprintf "      Programmable burst length unlimited\n" []
  else
    fprintf "      Programmable burst length %d longwords\n" [PI tmp]);;
  fprintf ("      %s endian data buffers\n" +:+
     "      Descriptor skip length %d longwords\n" +:+
     "      %s bus arbitration scheme\n") [
     PS (if v &? (Z.shiftl 1 7) then "Big" else "Little"); PI (Z.land (Z.shiftr v 2) 0x1f);
     PS (if v &? (Z.shiftl 1 1) then "Round-robin" else "RX-has-priority")];;
  when (v &? (Z.shiftl 1 0))
    (fprintf "      Software reset asserted\n" []);;
  x0 ← regs_buff regs 3;
  x1 ← regs_buff regs 4;
  print_ring_addresses x0 x1;;
  v ← regs_buff regs 5;
  x0 ← elem csr5_buserr (Z.land (Z.shiftr v 23) 0x7);
  x1 ← elem csr5_tx_state (Z.land (Z.shiftr v 20) 0x7);
  x2 ← elem csr5_rx_state (Z.land (Z.shiftr v 17) 0x7);
  fprintf ("0x28: CSR5 (Status)                      0x%08x\n" +:+
     "%s" +:+
     "      Transmit process %s\n" +:+
     "      Receive process %s\n" +:+
     "      Link %s\n") [
     PI v; PS (if v &? (Z.shiftl 1 13) then x0 else ""); PS x1; PS x2;
     PS (if v &? (Z.shiftl 1 12) then "fail" else "OK")];;
  when (v &? (Z.shiftl 1 16))
    (fprintf "      Normal interrupts: %s%s%s\n" [PS (if v &? (Z.shiftl 1 0) then "TxOK " else "");
       PS (if v &? (Z.shiftl 1 2) then "TxNoBufs " else "");
       PS (if v &? (Z.shiftl 1 6) then "RxOK" else "")]);;
  when (v &? (Z.shiftl 1 15))
    (fprintf "      Abnormal intr: %s%s%s%s%s%s%s%s\n" [PS (if v &? (Z.shiftl 1 1) then "TxStop " else "");
       PS (if v &? (Z.shiftl 1 3) then "TxJabber " else "");
       PS (if v &? (Z.shiftl 1 5) then "TxUnder " else "");
       PS (if v &? (Z.shiftl 1 7) then "RxNoBufs " else "");
       PS (if v &? (Z.shiftl 1 8) then "RxStopped " else "");
       PS (if v &? (Z.shiftl 1 9) then "RxTimeout " else "");
       PS (if v &? (Z.shiftl 1 10) then "AUI_TP " else "");
       PS (if v &? (Z.shiftl 1 11) then "FD_Short " else "")]).

Definition de21040_dump_regs_2 (regs : ereq) : P unit :=
  v ← regs_buff regs 6;
  x0 ← elem csr6_tx_thresh (Z.land (Z.shiftr v 14) 3);
  x1 ← elem csr6_om (Z.land (Z.shiftr v 10) 3);
  fprintf ("0x30: CSR6 (Operating Mode)              0x%08x\n" +:+
     "%s" +:+
     "%s" +:+
     "      Transmit threshold %d bytes\n" +:+
     "      Transmit DMA %sabled\n" +:+
     "%s" +:+
     "      Operating mode: %s\n" +:+
     "      %s duplex\n" +:+
     "%s" +:+
     "%s" +:+
     "%s" +:+
     "%s" +:+
     "%s" +:+
     "%s" +:+
     "%s" +:+
     "      Receive DMA %sabled\n" +:+
     "      %s filtering mode\n") [
     PI v; PS (if v &? (Z.shiftl 1 17) then (lit "      Capture effect enabled\n") else "");
     PS (if v &? (Z.shiftl 1 16) then (lit "      Back pressure enabled\n") else ""); PI x0;
     PS (if v &? (Z.shiftl 1 13) then "en" else "dis");
     PS (if v &? (Z.shiftl 1 12) then (lit "      Forcing collisions\n") else ""); PS x1;
     PS (if v &? (Z.shiftl 1 9) then "Full" else "Half");
     PS (if v &? (Z.shiftl 1 8) then (lit "      Flaky oscillator disable\n") else "");
     PS (if v &? (Z.shiftl 1 7) then (lit "      Pass All Multicast\n") else "");
     PS (if v &? (Z.shiftl 1 6) then (lit "      Promisc Mode\n") else "");
     PS (if v &? (Z.shiftl 1 5) then (lit "      Start/Stop Backoff Counter\n") else "");
     PS (if v &? (Z.shiftl 1 4) then (lit "      Inverse Filtering\n") else "");
     PS (if v &? (Z.shiftl 1 3) then (lit "      Pass Bad Frames\n") else "");
     PS (if v &? (Z.shiftl 1 2) then (lit "      Hash-only Filtering\n") else "");
     PS (if v &? (Z.shiftl 1 1) then "en" else "dis");
     PS (if v &? (Z.shiftl 1 0) then "Hash" else "Perfect")];;
  v ← regs_buff regs 7;
  fprintf ("0x38: CSR7 (Interrupt Mask)              0x%08x\n" +:+
     "%s" +:+
     "%s" +:+
     "%s" +:+
     "%s" +:+
     "%s" +:+
     "%s" +:+
     "%s" +:+
     "%s" +:+
     "%s" +:+
     "%s" +:+
     "%s" +:+
     "%s" +:+
     "%s" +:+
     "%s" +:+
     "%s") [
     PI v; PS (if v &? (Z.shiftl 1 16) then (lit "      Normal interrupt summary\n") else "");
     PS (if v &? (Z.shiftl 1 15) then (lit "      Abnormal interrupt summary\n") else "");
     PS (if v &? (Z.shiftl 1 13) then (lit "      System error\n") else "");
     PS (if v &? (Z.shiftl 1 12) then (lit "      Link fail\n") else "");
     PS (if v &? (Z.shiftl 1 11) then (lit "      Full duplex\n") else "");
     PS (if v &? (Z.shiftl 1 10) then (lit "      AUI_TP pin\n") else "");
     PS (if v &? (Z.shiftl 1 9) then (lit "      Receive watchdog timeout\n") else "");
     PS (if v &? (Z.shiftl 1 8) then (lit "      Receive stopped\n") else "");
     PS (if v &? (Z.shiftl 1 7) then (lit "      Receive buffer unavailable\n") else "");
     PS (if v &? (Z.shiftl 1 6) then (lit "      Receive interrupt\n") else "");
     PS (if v &? (Z.shiftl 1 5) then (lit "      Transmit underflow\n") else "");
     PS (if v &? (Z.shiftl 1 3) then (lit "      Transmit jabber timeout\n") else "");
     PS (if v &? (Z.shiftl 1 2) then (lit "      Transmit buffer unavailable\n") else "");
     PS (if v &? (Z.shiftl 1 1) then (lit "      Transmit stopped\n") else "");
     PS (if v &? (Z.shiftl 1 0) then (lit "      Transmit interrupt\n") else "")].

Definition de21040_dump_regs_3 (regs : ereq) : P unit :=
  x0 ← regs_buff regs 8;
  print_rx_missed x0;;
  v ← regs_buff regs 9;
  fprintf "0x48: CSR9 (Ethernet Address ROM)        0x%08x\n" [PI v];;
  v ← regs_buff regs 11;
  fprintf "0x58: CSR11 (Full Duplex Autoconfig)     0x%08x\n" [PI v];;
  v ← regs_buff regs 12;
  fprintf ("0x60: CSR12 (SIA Status)                 0x%08x\n" +:+
     "%s" +:+
     "%s" +:+
     "%s" +:+
     "%s" +:+
     "%s" +:+
     "%s" +:+
     "%s" +:+
     "      AUI_TP pin: %s\n") [
     PI v; PS (if v &? (Z.shiftl 1 7) then (lit "      PLL sampler high\n") else "");
     PS (if v &? (Z.shiftl 1 6) then (lit "      PLL sampler low\n") else "");
     PS (if v &? (Z.shiftl 1 5) then (lit "      PLL self-test pass\n") else "");
     PS (if v &? (Z.shiftl 1 4) then (lit "      PLL self-test done\n") else "");
     PS (if v &? (Z.shiftl 1 3) then (lit "      Autopolarity state\n") else "");
     PS (if v &? (Z.shiftl 1 2) then (lit "      Link fail\n") else "");
     PS (if v &? (Z.shiftl 1 1) then (lit "      Network connection error\n") else "");
     PS (if v &? (Z.shiftl 1 0) then "AUI" else "TP")];;
  v ← regs_buff regs 13;
  fprintf ("0x68: CSR13 (SIA Connectivity)           0x%08x\n" +:+
     "%s" +:+
     "%s" +:+
     "%s" +:+
     "%s" +:+
     "      External port output multiplexer select: %u%u%u%u\n" +:+
     "%s" +:+
     "%s" +:+
     "%s" +:+
     "%s" +:+
     "      %s interface selected\n" +:+
     "%s" +:+
     "%s" +:+
     "%s") [
     PI v; PS (if v &? (Z.shiftl 1 15) then (lit "      Enable pins 5, 6, 7\n") else "");
     PS (if v &? (Z.shiftl 1 14) then (lit "      Enable pins 2, 4\n") else "");
     PS (if v &? (Z.shiftl 1 13) then (lit "      Enable pins 1, 3\n") else "");
     PS (if v &? (Z.shiftl 1 12) then (lit "      Input enable\n") else "");
     PI (if (v &? (Z.shiftl 1 11)) then 1 else 0); PI (if (v &? (Z.shiftl 1 10)) then 1 else 0);
     PI (if (v &? (Z.shiftl 1 9)) then 1 else 0); PI (if (v &? (Z.shiftl 1 8)) then 1 else 0);
     PS (if v &? (Z.shiftl 1 7) then (lit "      APLL start\n") else "");
     PS (if v &? (Z.shiftl 1 6) then (lit "      Serial interface input multiplexer\n") else "");
     PS (if v &? (Z.shiftl 1 5) then (lit "      Encoder input multiplexer\n") else "");
     PS (if v &? (Z.shiftl 1 4) then (lit "      SIA PLL external input enable\n") else "");
     PS (if v &? (Z.shiftl 1 3) then "AUI" else "10base-T");
     PS (if v &? (Z.shiftl 1 2) then (lit "      CSR autoconfiguration\n") else "");
     PS (if v &? (Z.shiftl 1 1) then (lit "      AUI_TP pin autoconfiguration\n") else "");
     PS (if v &? (Z.shiftl 1 0) then (lit "      SIA reset\n") else "")].

Definition de21040_dump_regs_4 (regs : ereq) : P unit :=
  v ← regs_buff regs 14;
  x0 ← elem csr14_tp_comp (Z.land (Z.shiftr v 4) 0x3);
  fprintf ("0x70: CSR14 (SIA Transmit and Receive)   0x%08x\n" +:+
     "%s" +:+
     "%s" +:+
     "%s" +:+
     "%s" +:+
     "%s" +:+
     "%s" +:+
     "%s" +:+
     "      %s\n" +:+
     "%s" +:+
     "%s" +:+
     "%s" +:+
     "%s") [
     PI v; PS (if v &? (Z.shiftl 1 14) then (lit "      Set polarity plus\n") else "");
     PS (if v &? (Z.shiftl 1 13) then (lit "      Autopolarity enable\n") else "");
     PS (if v &? (Z.shiftl 1 12) then (lit "      Link test enable\n") else "");
     PS (if v &? (Z.shiftl 1 11) then (lit "      Heartbeat enable\n") else "");
     PS (if v &? (Z.shiftl 1 10) then (lit "      Collision detect enable\n") else "");
     PS (if v &? (Z.shiftl 1 9) then (lit "      Collision squelch enable\n") else "");
     PS (if v &? (Z.shiftl 1 8) then (lit "      Receive squelch enable\n") else ""); PS x0;
     PS (if v &? (Z.shiftl 1 3) then (lit "      Link pulse send enable\n") else "");
     PS (if v &? (Z.shiftl 1 2) then (lit "      Driver enable\n") else "");
     PS (if v &? (Z.shiftl 1 1) then (lit "      Loopback enable\n") else "");
     PS (if v &? (Z.shiftl 1 0) then (lit "      Encoder enable\n") else "")];;
  v ← regs_buff regs 15;
  fprintf ("0x78: CSR15 (SIA General)                0x%08x\n" +:+
     "%s" +:+
     "%s" +:+
     "%s" +:+
     "%s" +:+
     "%s" +:+
     "%s" +:+
     "%s" +:+
     "%s" +:+
     "%s" +:+
     "%s") [
     PI v; PS (if v &? (Z.shiftl 1 13) then (lit "      Force receiver low\n") else "");
     PS (if v &? (Z.shiftl 1 12) then (lit "      PLL self-test start\n") else "");
     PS (if v &? (Z.shiftl 1 11) then (lit "      Force link fail\n") else "");
     PS (if v &? (Z.shiftl 1 9) then (lit "      Force unsquelch\n") else "");
     PS (if v &? (Z.shiftl 1 8) then (lit "      Test clock\n") else "");
     PS (if v &? (Z.shiftl 1 5) then (lit "      Receive watchdog release\n") else "");
     PS (if v &? (Z.shiftl 1 4) then (lit "      Receive watchdog disable\n") else "");
     PS (if v &? (Z.shiftl 1 2) then (lit "      Jabber clock\n") else "");
     PS (if v &? (Z.shiftl 1 1) then (lit "      Host unjab\n") else "");
     PS (if v &? (Z.shiftl 1 0) then (lit "      Jabber disable\n") else "")].

Definition de21041_dump_regs_1 (regs : ereq) : P unit :=
  fprintf "21041 Registers\n" [];;
  fprintf "---------------\n" [];;
  v ← regs_buff regs 0;
  x0 ← elem csr0_tap (Z.land (Z.shiftr v 17) 3);
  x1 ← elem csr0_cache_al (Z.land (Z.shiftr v 14) 3);
  fprintf ("0x00: CSR0 (Bus Mode)                    0x%08x\n" +:+
     "      %s endian descriptors\n" +:+
     "      %s\n" +:+
     "      %s address space\n" +:+
     "      Cache alignment: %s\n") [
     PI v; PS (if v &? (Z.shiftl 1 20) then "Big" else "Little"); PS x0;
     PS (if v &? (Z.shiftl 1 16) then "Diagnostic" else "Standard"); PS x1];;
  let tmp := (Z.land (Z.shiftr v 8) 0x3f) in
  (if (tmp =? 0) then
    fprintf "      Programmable burst length unlimited\n" []
  else
    fprintf "      Programmable burst length %d longwords\n" [PI tmp]);;
  fprintf ("      %s endian data buffers\n" +:+
     "      Descriptor skip length %d longwords\n" +:+
     "      %s bus arbitration scheme\n") [
     PS (if v &? (Z.shiftl 1 7) then "Big" else "Little"); PI (Z.land (Z.shiftr v 2) 0x1f);
     PS (if v &? (Z.shiftl 1 1) then "Round-robin" else "RX-has-priority")];;
  when (v &? (Z.shiftl 1 0))
    (fprintf "      Software reset asserted\n" []);;
  x0 ← regs_buff regs 3;
  x1 ← regs_buff regs 4;
  print_ring_addresses x0 x1;;
  v ← regs_buff regs 5;
  x0 ← elem csr5_buserr (Z.land (Z.shiftr v 23) 0x7);
  x1 ← elem csr5_tx_state (Z.land (Z.shiftr v 20) 0x7);
  x2 ← elem csr5_rx_state (Z.land (Z.shiftr v 17) 0x7);
  fprintf ("0x28: CSR5 (Status)                      0x%08x\n" +:+
     "%s" +:+
     "      Transmit process %s\n" +:+
     "      Receive process %s\n" +:+
     "      Link %s\n") [
     PI v; PS (if v &? (Z.shiftl 1 13) then x0 else ""); PS x1; PS x2;
     PS (if v &? (Z.shiftl 1 12) then "fail" else "OK")];;
  when (v &? (Z.shiftl 1 16))
    (fprintf "      Normal interrupts: %s%s%s%s%s\n" [PS (if v &? (Z.shiftl 1 0) then "TxOK " else "");
       PS (if v &? (Z.shiftl 1 2) then "TxNoBufs " else "");
       PS (if v &? (Z.shiftl 1 6) then "RxOK" else "");
       PS (if v &? (Z.shiftl 1 11) then "TimerExp " else "");
       PS (if v &? (Z.shiftl 1 14) then "EarlyRx " else "")]);;
  when (v &? (Z.shiftl 1 15))
    (fprintf "      Abnormal intr: %s%s%s%s%s%s%s\n" [PS (if v &? (Z.shiftl 1 1) then "TxStop " else "");
       PS (if v &? (Z.shiftl 1 3) then "TxJabber " else "");
       PS (if v &? (Z.shiftl 1 4) then "ANC " else "");
       PS (if v &? (Z.shiftl 1 5) then "TxUnder " else "");
       PS (if v &? (Z.shiftl 1 7) then "RxNoBufs " else "");
       PS (if v &? (Z.shiftl 1 8) then "RxStopped " else "");
       PS (if v &? (Z.shiftl 1 9) then "RxTimeout " else "")]).

Definition de21041_dump_regs_2 (regs : ereq) : P unit :=
  v ← regs_buff regs 6;
  x0 ← elem csr6_tx_thresh (Z.land (Z.shiftr v 14) 3);
  x1 ← elem csr6_om (Z.land (Z.shiftr v 10) 3);
  fprintf ("0x30: CSR6 (Operating Mode)              0x%08x\n" +:+
     "%s" +:+
     "%s" +:+
     "      Transmit threshold %d bytes\n" +:+
     "      Transmit DMA %sabled\n" +:+
     "%s" +:+
     "      Operating mode: %s\n" +:+
     "      %s duplex\n" +:+
     "%s" +:+
     "%s" +:+
     "%s" +:+
     "%s" +:+
     "%s" +:+
     "%s" +:+
     "%s" +:+
     "      Receive DMA %sabled\n" +:+
     "      %s filtering mode\n") [
     PI v; PS (if v &? (Z.shiftl 1 31) then (lit "      Special capture effect enabled\n") else "");
     PS (if v &? (Z.shiftl 1 17) then (lit "      Capture effect enabled\n") else ""); PI x0;
     PS (if v &? (Z.shiftl 1 13) then "en" else "dis");
     PS (if v &? (Z.shiftl 1 12) then (lit "      Forcing collisions\n") else ""); PS x1;
     PS (if v &? (Z.shiftl 1 9) then "Full" else "Half");
     PS (if v &? (Z.shiftl 1 8) then (lit "      Flaky oscillator disable\n") else "");
     PS (if v &? (Z.shiftl 1 7) then (lit "      Pass All Multicast\n") else "");
     PS (if v &? (Z.shiftl 1 6) then (lit "      Promisc Mode\n") else "");
     PS (if v &? (Z.shiftl 1 5) then (lit "      Start/Stop Backoff Counter\n") else "");
     PS (if v &? (Z.shiftl 1 4) then (lit "      Inverse Filtering\n") else "");
     PS (if v &? (Z.shiftl 1 3) then (lit "      Pass Bad Frames\n") else "");
     PS (if v &? (Z.shiftl 1 2) then (lit "      Hash-only Filtering\n") else "");
     PS (if v &? (Z.shiftl 1 1) then "en" else "dis");
     PS (if v &? (Z.shiftl 1 0) then "Hash" else "Perfect")];;
  v ← regs_buff regs 7;
  fprintf ("0x38: CSR7 (Interrupt Mask)              0x%08x\n" +:+
     "%s" +:+
     "%s" +:+
     "%s" +:+
     "%s" +:+
     "%s" +:+
     "%s" +:+
     "%s" +:+
     "%s" +:+
     "%s" +:+
     "%s" +:+
     "%s" +:+
     "%s" +:+
     "%s" +:+
     "%s" +:+
     "%s" +:+
     "%s") [
     PI v; PS (if v &? (Z.shiftl 1 16) then (lit "      Normal interrupt summary\n") else "");
     PS (if v &? (Z.shiftl 1 15) then (lit "      Abnormal interrupt summary\n") else "");
     PS (if v &? (Z.shiftl 1 14) then (lit "      Early receive interrupt\n") else "");
     PS (if v &? (Z.shiftl 1 13) then (lit "      System error\n") else "");
     PS (if v &? (Z.shiftl 1 12) then (lit "      Link fail\n") else "");
     PS (if v &? (Z.shiftl 1 11) then (lit "      Timer expired\n") else "");
     PS (if v &? (Z.shiftl 1 9) then (lit "      Receive watchdog timeout\n") else "");
     PS (if v &? (Z.shiftl 1 8) then (lit "      Receive stopped\n") else "");
     PS (if v &? (Z.shiftl 1 7) then (lit "      Receive buffer unavailable\n") else "");
     PS (if v &? (Z.shiftl 1 6) then (lit "      Receive interrupt\n") else "");
     PS (if v &? (Z.shiftl 1 5) then (lit "      Transmit underflow\n") else "");
     PS (if v &? (Z.shiftl 1 4) then (lit "      Link pass\n") else "");
     PS (if v &? (Z.shiftl 1 3) then (lit "      Transmit jabber timeout\n") else "");
     PS (if v &? (Z.shiftl 1 2) then (lit "      Transmit buffer unavailable\n") else "");
     PS (if v &? (Z.shiftl 1 1) then (lit "      Transmit stopped\n") else "");
     PS (if v &? (Z.shiftl 1 0) then (lit "      Transmit interrupt\n") else "")].

Definition de21041_dump_regs_3 (regs : ereq) : P unit :=
  x0 ← regs_buff regs 8;
  print_rx_missed x0;;
  v ← regs_buff regs 9;
  fprintf ("0x48: CSR9 (Boot and Ethernet ROMs)      0x%08x\n" +:+
     "      Select bits: %s%s%s%s%s%s\n" +:+
     "      Data: %d%d%d%d%d%d%d%d\n") [
     PI v; PS (if v &? (Z.shiftl 1 15) then "Mode " else "");
     PS (if v &? (Z.shiftl 1 14) then "Read " else "");
     PS (if v &? (Z.shiftl 1 13) then "Write " else "");
     PS (if v &? (Z.shiftl 1 12) then "BootROM " else "");
     PS (if v &? (Z.shiftl 1 11) then "SROM " else "");
     PS (if v &? (Z.shiftl 1 10) then "ExtReg " else ""); PI (if (v &? (Z.shiftl 1 7)) then 1 else 0);
     PI (if (v &? (Z.shiftl 1 6)) then 1 else 0); PI (if (v &? (Z.shiftl 1 5)) then 1 else 0);
     PI (if (v &? (Z.shiftl 1 4)) then 1 else 0); PI (if (v &? (Z.shiftl 1 3)) then 1 else 0);
     PI (if (v &? (Z.shiftl 1 2)) then 1 else 0); PI (if (v &? (Z.shiftl 1 1)) then 1 else 0);
     PI (if (v &? (Z.shiftl 1 0)) then 1 else 0)];;
  v ← regs_buff regs 10;
  fprintf "0x50: CSR10 (Boot ROM Address)           0x%08x\n" [PI v];;
  v ← regs_buff regs 11;
  fprintf ("0x58: CSR11 (General Purpose Timer)      0x%08x\n" +:+
     "%s" +:+
     "      Timer value: %u cycles\n") [
     PI v; PS (if v &? (Z.shiftl 1 16) then (lit "      Continuous mode\n") else "");
     PI (Z.land v 0xffff)];;
  v ← regs_buff regs 12;
  x0 ← elem csr12_nway_state (Z.land (Z.shiftr v 12) 0x7);
  fprintf ("0x60: CSR12 (SIA Status)                 0x%08x\n" +:+
     "      Link partner code word 0x%04x\n" +:+
     "%s" +:+
     "      NWay state: %s\n" +:+
     "%s" +:+
     "%s" +:+
     "%s" +:+
     "%s" +:+
     "%s" +:+
     "%s" +:+
     "%s" +:+
     "%s" +:+
     "%s" +:+
     "%s" +:+
     "%s") [
     PI v; PI (Z.shiftr v 16);
     PS (if v &? (Z.shiftl 1 15) then (lit "      Link partner negotiable\n") else ""); PS x0;
     PS (if v &? (Z.shiftl 1 11) then (lit "      Transmit remote fault\n") else "");
     PS (if v &? (Z.shiftl 1 10) then (lit "      Unstable NLP detected\n") else "");
     PS (if v &? (Z.shiftl 1 9) then (lit "      Non-selected port receive activity\n") else "");
     PS (if v &? (Z.shiftl 1 8) then (lit "      Selected port receive activity\n") else "");
     PS (if v &? (Z.shiftl 1 7) then (lit "      PLL sampler high\n") else "");
     PS (if v &? (Z.shiftl 1 6) then (lit "      PLL sampler low\n") else "");
     PS (if v &? (Z.shiftl 1 5) then (lit "      PLL self-test pass\n") else "");
     PS (if v &? (Z.shiftl 1 4) then (lit "      PLL self-test done\n") else "");
     PS (if v &? (Z.shiftl 1 3) then (lit "      Autopolarity state\n") else "");
     PS (if v &? (Z.shiftl 1 2) then (lit "      Link fail\n") else "");
     PS (if v &? (Z.shiftl 1 1) then (lit "      Network connection error\n") else "")].

Definition de21041_dump_regs_4 (regs : ereq) : P unit :=
  v ← regs_buff regs 13;
  fprintf ("0x68: CSR13 (SIA Connectivity)           0x%08x\n" +:+
     "      SIA Diagnostic Mode 0x%04x\n" +:+
     "      %s\n" +:+
     "%s" +:+
     "%s") [
     PI v; PI (Z.land (Z.shiftr v 4) 0xfff);
     PS (if v &? (Z.shiftl 1 3) then "AUI/BNC port" else "10base-T port");
     PS (if v &? (Z.shiftl 1 2) then (lit "      CSR autoconfiguration enabled\n") else "");
     PS (if v &? (Z.shiftl 1 0) then (lit "      SIA register reset asserted\n") else "")];;
  v ← regs_buff regs 14;
  x0 ← elem csr14_tp_comp (Z.land (Z.shiftr v 4) 0x3);
  fprintf ("0x70: CSR14 (SIA Transmit and Receive)   0x%08x\n" +:+
     "%s" +:+
     "%s" +:+
     "%s" +:+
     "%s" +:+
     "%s" +:+
     "%s" +:+
     "%s" +:+
     "%s" +:+
     "%s" +:+
     "%s" +:+
     "      %s\n" +:+
     "%s" +:+
     "%s" +:+
     "%s" +:+
     "%s") [
     PI v; PS (if v &? (Z.shiftl 1 15) then (lit "      10base-T/AUI autosensing\n") else "");
     PS (if v &? (Z.shiftl 1 14) then (lit "      Set polarity plus\n") else "");
     PS (if v &? (Z.shiftl 1 13) then (lit "      Autopolarity enable\n") else "");
     PS (if v &? (Z.shiftl 1 12) then (lit "      Link test enable\n") else "");
     PS (if v &? (Z.shiftl 1 11) then (lit "      Heartbeat enable\n") else "");
     PS (if v &? (Z.shiftl 1 10) then (lit "      Collision detect enable\n") else "");
     PS (if v &? (Z.shiftl 1 9) then (lit "      Collision squelch enable\n") else "");
     PS (if v &? (Z.shiftl 1 8) then (lit "      Receive squelch enable\n") else "");
     PS (if v &? (Z.shiftl 1 7) then (lit "      Autonegotiation enable\n") else "");
     PS (if v &? (Z.shiftl 1 6) then (lit "      Must Be One\n") else ""); PS x0;
     PS (if v &? (Z.shiftl 1 3) then (lit "      Link pulse send enable\n") else "");
     PS (if v &? (Z.shiftl 1 2) then (lit "      Driver enable\n") else "");
     PS (if v &? (Z.shiftl 1 1) then (lit "      Loopback enable\n") else "");
     PS (if v &? (Z.shiftl 1 0) then (lit "      Encoder enable\n") else "")];;
  v ← regs_buff regs 15;
  fprintf ("0x78: CSR15 (SIA General)                0x%08x\n" +:+
     "%s" +:+
     "%s" +:+
     "%s" +:+
     "%s" +:+
     "%s" +:+
     "%s" +:+
     "%s" +:+
     "%s" +:+
     "%s" +:+
     "%s" +:+
     "%s" +:+
     "%s" +:+
     "      %s port selected\n" +:+
     "%s" +:+
     "%s" +:+
     "%s") [
     PI v; PS (if v &? (Z.shiftl 1 15) then (lit "      GP LED2 on\n") else "");
     PS (if v &? (Z.shiftl 1 14) then (lit "      GP LED2 enable\n") else "");
     PS (if v &? (Z.shiftl 1 13) then (lit "      Force receiver low\n") else "");
     PS (if v &? (Z.shiftl 1 12) then (lit "      PLL self-test start\n") else "");
     PS (if v &? (Z.shiftl 1 11) then (lit "      LED stretch disable\n") else "");
     PS (if v &? (Z.shiftl 1 10) then (lit "      Force link fail\n") else "");
     PS (if v &? (Z.shiftl 1 9) then (lit "      Force unsquelch\n") else "");
     PS (if v &? (Z.shiftl 1 8) then (lit "      Test clock\n") else "");
     PS (if v &? (Z.shiftl 1 7) then (lit "      GP LED1 on\n") else "");
     PS (if v &? (Z.shiftl 1 6) then (lit "      GP LED1 enable\n") else "");
     PS (if v &? (Z.shiftl 1 5) then (lit "      Receive watchdog release\n") else "");
     PS (if v &? (Z.shiftl 1 4) then (lit "      Receive watchdog disable\n") else "");
     PS (if v &? (Z.shiftl 1 3) then "AUI" else "BNC");
     PS (if v &? (Z.shiftl 1 2) then (lit "      Jabber clock\n") else "");
     PS (if v &? (Z.shiftl 1 1) then (lit "      Host unjab\n") else "");
     PS (if v &? (Z.shiftl 1 0) then (lit "      Jabber disable\n") else "")].

Definition de21040_dump_regs (info regs : ereq) : P unit :=
  de21040_dump_regs_1 regs;;
  de21040_dump_regs_2 regs;;
  de21040_dump_regs_3 regs;;
  de21040_dump_regs_4 regs.

Definition de21041_dump_regs (info regs : ereq) : P unit :=
  de21041_dump_regs_1 regs;;
  de21041_dump_regs_2 regs;;
  de21041_dump_regs_3 regs;;
  de21041_dump_regs_4 regs.

Definition de2104x_dump_regs (info regs : ereq) : P Z :=
  let de21040 := Z.land (fld regs "version") 1 in
  (if truth de21040 then de21040_dump_regs info regs else de21041_dump_regs info regs);;
  mret 0.

Lemma print_ring_addresses_shows csr3 csr4 : shows (print_ring_addresses csr3 csr4) (fun _ => True).
Proof. unfold print_ring_addresses. regs_all. Qed.

Lemma print_rx_missed_shows csr8 : shows (print_rx_missed csr8) (fun _ => True).
Proof. unfold print_rx_missed. regs_all. Qed.

#[local] Hint Resolve print_ring_addresses_shows print_rx_missed_shows : shows.

Lemma de21040_dump_regs_1_shows regs : 64 <= Z.of_nat (length (rq_arr regs)) -> shows (de21040_dump_regs_1 regs) (fun _ => True).
Proof. intros Hl. unfold de21040_dump_regs_1. regs_all. Qed.

Lemma de21040_dump_regs_2_shows regs : 64 <= Z.of_nat (length (rq_arr regs)) -> shows (de21040_dump_regs_2 regs) (fun _ => True).
Proof. intros Hl. unfold de21040_dump_regs_2. regs_all. Qed.

Lemma de21040_dump_regs_3_shows regs : 64 <= Z.of_nat (length (rq_arr regs)) -> shows (de21040_dump_regs_3 regs) (fun _ => True).
Proof. intros Hl. unfold de21040_dump_regs_3. regs_all. Qed.

Lemma de21040_dump_regs_4_shows regs : 64 <= Z.of_nat (length (rq_arr regs)) -> shows (de21040_dump_regs_4 regs) (fun _ => True).
Proof. intros Hl. unfold de21040_dump_regs_4. regs_all. Qed.

Lemma de21041_dump_regs_1_shows regs : 64 <= Z.of_nat (length (rq_arr regs)) -> shows (de21041_dump_regs_1 regs) (fun _ => True).
Proof. intros Hl. unfold de21041_dump_regs_1. regs_all. Qed.

Lemma de21041_dump_regs_2_shows regs : 64 <= Z.of_nat (length (rq_arr regs)) -> shows (de21041_dump_regs_2 regs) (fun _ => True).
Proof. intros Hl. unfold de21041_dump_regs_2. regs_all. Qed.

Lemma de21041_dump_regs_3_shows regs : 64 <= Z.of_nat (length (rq_arr regs)) -> shows (de21041_dump_regs_3 regs) (fun _ => True).
Proof. intros Hl. unfold de21041_dump_regs_3. regs_all. Qed.

Lemma de21041_dump_regs_4_shows regs : 64 <= Z.of_nat (length (rq_arr regs)) -> shows (de21041_dump_regs_4 regs) (fun _ => True).
Proof. intros Hl. unfold de21041_dump_regs_4. regs_all. Qed.

#[local] Hint Resolve de21040_dump_regs_1_shows de21040_dump_regs_2_shows de21040_dump_regs_3_shows de21040_dump_regs_4_shows de21041_dump_regs_1_shows de21041_dump_regs_2_shows de21041_dump_regs_3_shows de21041_dump_regs_4_shows : shows.

Lemma de2104x_dumps : dumps 64 de2104x_dump_regs.
Proof. intros info regs Hl. unfold de2104x_dump_regs, de21040_dump_regs, de21041_dump_regs. regs_all. Qed.
End regs.
End EtDe2104x.
