(* ===== verification/EtRealtek.v ===== *)
(** * ethtool: registers of the realtek drivers ([ethernet_test/ethtool/realtek.c]) *)

From stdpp Require Import base list strings gmap numbers.
From Stdlib Require Import ZArith Lia.
From S2P Require Import Prelude CInt CLib CFmt EtCmd EtSet EtFeat EtRegs.
Import Et EtS EtF.

Module EtRealtek.

Definition RTLNONE : Z := 0.
Definition RTL8139 : Z := RTLNONE + 1.
Definition RTL8139_K : Z := RTL8139 + 1.
Definition RTL8139A : Z := RTL8139_K + 1.
Definition RTL8139A_G : Z := RTL8139A + 1.
Definition RTL8139B : Z := RTL8139A_G + 1.
Definition RTL8130 : Z := RTL8139B + 1.
Definition RTL8139C : Z := RTL8130 + 1.
Definition RTL8100 : Z := RTL8139C + 1.
Definition RTL8100B_8139D : Z := RTL8100 + 1.
Definition RTL8139Cp : Z := RTL8100B_8139D + 1.
Definition RTL8101 : Z := RTL8139Cp + 1.
Definition RTL8169 : Z := RTL8101 + 1.
Definition RTL8169S : Z := RTL8169 + 1.
Definition RTL8110S : Z := RTL8169S + 1.
Definition RTL8169_8110SB : Z := RTL8110S + 1.
Definition RTL8169_8110SCd : Z := RTL8169_8110SB + 1.
Definition RTL8169_8110SCe : Z := RTL8169_8110SCd + 1.
Definition RTL8168_8111Bb : Z := RTL8169_8110SCe + 1.
Definition RTL8168_8111Bef : Z := RTL8168_8111Bb + 1.

Definition HW_REVID (b31 b30 b29 b28 b27 b26 b23 b22 : Z) : Z :=
  fold_right Z.lor 0 [Z.shiftl b31 31; Z.shiftl b30 30; Z.shiftl b29 29; Z.shiftl b28 28;
    Z.shiftl b27 27; Z.shiftl b26 26; Z.shiftl b23 23; Z.shiftl b22 22].
Definition chip_type_mask : Z := HW_REVID 1 1 1 1 1 1 1 1.

(** Name and mask; the entry without a name that ends the array is left out. *)
Definition rtl_info_tbl : list (string * Z) := [
  ("RTL-8139", HW_REVID 0 1 0 0 0 0 0 0);
  ("RTL-8139-K", HW_REVID 0 1 1 0 0 0 0 0);
  ("RTL-8139A", HW_REVID 0 1 1 1 0 0 0 0);
  ("RTL-8139A-G", HW_REVID 0 1 1 1 0 0 1 0);
  ("RTL-8139B", HW_REVID 0 1 1 1 1 0 0 0);
  ("RTL-8130", HW_REVID 0 1 1 1 1 1 0 0);
  ("RTL-8139C", HW_REVID 0 1 1 1 0 1 0 0);
  ("RTL-8100", HW_REVID 0 1 1 1 1 0 1 0);
  ("RTL-8100B/8139D", HW_REVID 0 1 1 1 0 1 0 1);
  ("RTL-8139C+", HW_REVID 0 1 1 1 0 1 1 0);
  ("RTL-8101", HW_REVID 0 1 1 1 0 1 1 1);
  ("RTL-8169", HW_REVID 0 0 0 0 0 0 0 0);
  ("RTL-8169S", HW_REVID 0 0 0 0 0 0 1 0);
  ("RTL-8110S", HW_REVID 0 0 0 0 0 1 0 0);
  ("RTL-8169/8110SB", HW_REVID 0 0 0 1 0 0 0 0);
  ("RTL-8169/8110SCd", HW_REVID 0 0 0 1 1 0 0 0);
  ("RTL-8169/8110SCe", HW_REVID 1 0 0 1 1 0 0 0);
  ("RTL-8168/8111Bb", HW_REVID 0 0 1 1 0 0 0 0);
  ("RTL-8168/8111Bef", HW_REVID 0 0 1 1 1 0 0 0);
  ("RTL-8101Ebc", HW_REVID 0 0 1 1 0 1 0 0);
  ("RTL-8100E(1)", HW_REVID 0 0 1 1 0 0 1 0);
  ("RTL-8100E(2)", HW_REVID 0 0 1 1 1 0 1 0)].

Section regs.
Context {D : Type}.
Abbreviation P := (M D).

Definition print_intr_bits (mask : Z) : P unit :=
  fprintf "      %s%s%s%s%s%s%s%s%s%s%s\n" [PS (if mask &? (Z.shiftl 1 15) then "SERR " else "");
     PS (if mask &? (Z.shiftl 1 14) then "TimeOut " else "");
     PS (if mask &? (Z.shiftl 1 8) then "SWInt " else "");
     PS (if mask &? (Z.shiftl 1 7) then "TxNoBuf " else "");
     PS (if mask &? (Z.shiftl 1 6) then "RxFIFO " else "");
     PS (if mask &? (Z.shiftl 1 5) then "LinkChg " else "");
     PS (if mask &? (Z.shiftl 1 4) then "RxNoBuf " else "");
     PS (if mask &? (Z.shiftl 1 3) then "TxErr " else "");
     PS (if mask &? (Z.shiftl 1 2) then "TxOK " else "");
     PS (if mask &? (Z.shiftl 1 1) then "RxErr " else "");
     PS (if mask &? (Z.shiftl 1 0) then "RxOK " else "")].

Definition realtek_dump_regs_1 (regs : ereq) (board_type : Z) : P unit :=
  x0 ← data8 regs 0x00;
  x1 ← data8 regs 0x01;
  x2 ← data8 regs 0x02;
  x3 ← data8 regs 0x03;
  x4 ← data8 regs 0x04;
  x5 ← data8 regs 0x05;
  fprintf "0x00: MAC Address                      %02x:%02x:%02x:%02x:%02x:%02x\n" [
     PI x0; PI x1; PI x2; PI x3; PI x4; PI x5];;
  x0 ← regs_buff regs (Z.shiftr 0x08 2);
  x1 ← regs_buff regs (Z.shiftr 0x0c 2);
  fprintf "0x08: Multicast Address Filter     0x%08x 0x%08x\n" [PI x0; PI x1];;
  (if ((board_type =? RTL8139Cp) || (RTL8169 <=? board_type))%bool then
    x0 ← regs_buff regs (Z.shiftr 0x10 2);
    x1 ← regs_buff regs (Z.shiftr 0x14 2);
    fprintf "0x10: Dump Tally Counter Command   0x%08x 0x%08x\n" [PI x0; PI x1];;
    x0 ← regs_buff regs (Z.shiftr 0x20 2);
    x1 ← regs_buff regs (Z.shiftr 0x24 2);
    fprintf "0x20: Tx Normal Priority Ring Addr 0x%08x 0x%08x\n" [PI x0; PI x1];;
    x0 ← regs_buff regs (Z.shiftr 0x28 2);
    x1 ← regs_buff regs (Z.shiftr 0x2c 2);
    fprintf "0x28: Tx High Priority Ring Addr   0x%08x 0x%08x\n" [PI x0; PI x1]
  else
    x0 ← regs_buff regs (Z.shiftr 0x10 2);
    x1 ← regs_buff regs (Z.shiftr 0x14 2);
    x2 ← regs_buff regs (Z.shiftr 0x18 2);
    x3 ← regs_buff regs (Z.shiftr 0x1c 2);
    fprintf ("0x10: Transmit Status Desc 0                  0x%08x\n" +:+
       "0x14: Transmit Status Desc 1                  0x%08x\n" +:+
       "0x18: Transmit Status Desc 2                  0x%08x\n" +:+
       "0x1C: Transmit Status Desc 3                  0x%08x\n") [
       PI x0; PI x1; PI x2; PI x3];;
    x0 ← regs_buff regs (Z.shiftr 0x20 2);
    x1 ← regs_buff regs (Z.shiftr 0x24 2);
    x2 ← regs_buff regs (Z.shiftr 0x28 2);
    x3 ← regs_buff regs (Z.shiftr 0x2c 2);
    fprintf ("0x20: Transmit Start Addr  0                  0x%08x\n" +:+
       "0x24: Transmit Start Addr  1                  0x%08x\n" +:+
       "0x28: Transmit Start Addr  2                  0x%08x\n" +:+
       "0x2C: Transmit Start Addr  3                  0x%08x\n") [
       PI x0; PI x1; PI x2; PI x3]);;
  when ((negb (board_type =? RTL8168_8111Bb)) && (negb (board_type =? RTL8168_8111Bef)))%bool
    ((if (RTL8169 <=? board_type) then
      x0 ← regs_buff regs (Z.shiftr 0x30 2);
      fprintf "0x30: Flash memory read/write                 0x%08x\n" [PI x0]
    else
      x0 ← regs_buff regs (Z.shiftr 0x30 2);
      fprintf "0x30: Rx buffer addr (C mode)                 0x%08x\n" [PI x0])).

Definition realtek_dump_regs_2 (regs : ereq) (board_type : Z) : P unit :=
  v ← data8 regs 0x36;
  x0 ← regs_buff regs (Z.shiftr 0x34 2);
  fprintf ("0x34: Early Rx Byte Count                       %8u\n" +:+
     "0x36: Early Rx Status                               0x%02x\n") [
     PI (Z.land x0 0xffff); PI v];;
  when (v &? 0xf)
    (fprintf "      %s%s%s%s\n" [PS (if v &? (Z.shiftl 1 3) then "ERxGood " else "");
       PS (if v &? (Z.shiftl 1 2) then "ERxBad " else "");
       PS (if v &? (Z.shiftl 1 1) then "ERxOverWrite " else "");
       PS (if v &? (Z.shiftl 1 0) then "ERxOK " else "")]);;
  v ← data8 regs 0x37;
  x0 ← data8 regs 0x37;
  fprintf ("0x37: Command                                       0x%02x\n" +:+
     "      Rx %s, Tx %s%s\n") [
     PI x0; PS (if v &? (Z.shiftl 1 3) then "on" else "off");
     PS (if v &? (Z.shiftl 1 2) then "on" else "off"); PS (if v &? (Z.shiftl 1 4) then ", RESET" else "")];;
  when (board_type <? RTL8169)
    (x0 ← regs_buff regs (Z.shiftr 0x38 2);
    fprintf ("0x38: Current Address of Packet Read (C mode)     0x%04x\n" +:+
       "0x3A: Current Rx buffer address (C mode)          0x%04x\n") [
       PI (Z.land x0 0xffff); PI (Z.shiftr x0 16)]);;
  x0 ← regs_buff regs (Z.shiftr 0x3c 2);
  fprintf "0x3C: Interrupt Mask                              0x%04x\n" [PI (Z.land x0 0xffff)];;
  x0 ← regs_buff regs (Z.shiftr 0x3c 2);
  print_intr_bits (Z.land x0 0xffff);;
  x0 ← regs_buff regs (Z.shiftr 0x3c 2);
  fprintf "0x3E: Interrupt Status                            0x%04x\n" [PI (Z.shiftr x0 16)];;
  x0 ← regs_buff regs (Z.shiftr 0x3c 2);
  print_intr_bits (Z.shiftr x0 16);;
  x0 ← regs_buff regs (Z.shiftr 0x40 2);
  x1 ← regs_buff regs (Z.shiftr 0x44 2);
  x2 ← regs_buff regs (Z.shiftr 0x48 2);
  x3 ← regs_buff regs (Z.shiftr 0x4c 2);
  fprintf ("0x40: Tx Configuration                        0x%08x\n" +:+
     "0x44: Rx Configuration                        0x%08x\n" +:+
     "0x48: Timer count                             0x%08x\n" +:+
     "0x4C: Missed packet counter                     0x%06x\n") [
     PI x0; PI x1; PI x2; PI (Z.land x3 0xffffff)];;
  x0 ← data8 regs 0x50;
  x1 ← data8 regs 0x51;
  x2 ← data8 regs 0x52;
  fprintf ("0x50: EEPROM Command                                0x%02x\n" +:+
     "0x51: Config 0                                      0x%02x\n" +:+
     "0x52: Config 1                                      0x%02x\n") [
     PI x0; PI x1; PI x2];;
  (if (RTL8169 <=? board_type) then
    x0 ← data8 regs 0x53;
    x1 ← data8 regs 0x54;
    x2 ← data8 regs 0x55;
    x3 ← data8 regs 0x56;
    fprintf ("0x53: Config 2                                      0x%02x\n" +:+
       "0x54: Config 3                                      0x%02x\n" +:+
       "0x55: Config 4                                      0x%02x\n" +:+
       "0x56: Config 5                                      0x%02x\n") [
       PI x0; PI x1; PI x2; PI x3];;
    x0 ← regs_buff regs (Z.shiftr 0x58 2);
    fprintf "0x58: Timer interrupt                         0x%08x\n" [PI x0]
  else
    when (RTL8139A <=? board_type)
      (x0 ← regs_buff regs (Z.shiftr 0x54 2);
      fprintf "0x54: Timer interrupt                         0x%08x\n" [PI x0]);;
    x0 ← data8 regs 0x58;
    fprintf "0x58: Media status                                  0x%02x\n" [PI x0];;
    when (RTL8139A <=? board_type)
      (x0 ← data8 regs 0x59;
      fprintf "0x59: Config 3                                      0x%02x\n" [PI x0]);;
    when (RTL8139B <=? board_type)
      (x0 ← data8 regs 0x5a;
      fprintf "0x5A: Config 4                                      0x%02x\n" [PI x0]));;
  x0 ← regs_buff regs (Z.shiftr 0x5c 2);
  fprintf "0x5C: Multiple Interrupt Select                   0x%04x\n" [PI (Z.land x0 0xffff)];;
  (if (RTL8169 <=? board_type) then
    x0 ← regs_buff regs (Z.shiftr 0x60 2);
    fprintf "0x60: PHY access                              0x%08x\n" [PI x0];;
    when ((negb (board_type =? RTL8168_8111Bb)) && (negb (board_type =? RTL8168_8111Bef)))%bool
      (x0 ← regs_buff regs (Z.shiftr 0x64 2);
      fprintf "0x64: TBI control and status                  0x%08x\n" [PI x0];;
      x0 ← regs_buff regs (Z.shiftr 0x68 2);
      fprintf ("0x68: TBI Autonegotiation advertisement (ANAR)    0x%04x\n" +:+
         "0x6A: TBI Link partner ability (LPAR)             0x%04x\n") [
         PI (Z.land x0 0xffff); PI (Z.shiftr x0 16)]);;
    x0 ← data8 regs 0x6c;
    fprintf "0x6C: PHY status                                    0x%02x\n" [PI x0];;
    x0 ← regs_buff regs (Z.shiftr 0x84 2);
    x1 ← regs_buff regs (Z.shiftr 0x88 2);
    x2 ← regs_buff regs (Z.shiftr 0x8c 2);
    x3 ← regs_buff regs (Z.shiftr 0x90 2);
    fprintf ("0x84: PM wakeup frame 0            0x%08x 0x%08x\n" +:+
       "0x8C: PM wakeup frame 1            0x%08x 0x%08x\n") [
       PI x0; PI x1; PI x2; PI x3];;
    x0 ← regs_buff regs (Z.shiftr 0x94 2);
    x1 ← regs_buff regs (Z.shiftr 0x98 2);
    x2 ← regs_buff regs (Z.shiftr 0x9c 2);
    x3 ← regs_buff regs (Z.shiftr 0xa0 2);
    fprintf ("0x94: PM wakeup frame 2 (low)      0x%08x 0x%08x\n" +:+
       "0x9C: PM wakeup frame 2 (high)     0x%08x 0x%08x\n") [
       PI x0; PI x1; PI x2; PI x3];;
    x0 ← regs_buff regs (Z.shiftr 0xa4 2);
    x1 ← regs_buff regs (Z.shiftr 0xa8 2);
    x2 ← regs_buff regs (Z.shiftr 0xac 2);
    x3 ← regs_buff regs (Z.shiftr 0xb0 2);
    fprintf ("0xA4: PM wakeup frame 3 (low)      0x%08x 0x%08x\n" +:+
       "0xAC: PM wakeup frame 3 (high)     0x%08x 0x%08x\n") [
       PI x0; PI x1; PI x2; PI x3];;
    x0 ← regs_buff regs (Z.shiftr 0xb4 2);
    x1 ← regs_buff regs (Z.shiftr 0xb8 2);
    x2 ← regs_buff regs (Z.shiftr 0xbc 2);
    x3 ← regs_buff regs (Z.shiftr 0xc0 2);
    fprintf ("0xB4: PM wakeup frame 4 (low)      0x%08x 0x%08x\n" +:+
       "0xBC: PM wakeup frame 4 (high)     0x%08x 0x%08x\n") [
       PI x0; PI x1; PI x2; PI x3];;
    x0 ← regs_buff regs (Z.shiftr 0xc4 2);
    x1 ← regs_buff regs (Z.shiftr 0xc8 2);
    x2 ← regs_buff regs (Z.shiftr 0xcc 2);
    fprintf ("0xC4: Wakeup frame 0 CRC                          0x%04x\n" +:+
       "0xC6: Wakeup frame 1 CRC                          0x%04x\n" +:+
       "0xC8: Wakeup frame 2 CRC                          0x%04x\n" +:+
       "0xCA: Wakeup frame 3 CRC                          0x%04x\n" +:+
       "0xCC: Wakeup frame 4 CRC                          0x%04x\n") [
       PI (Z.land x0 0xffff); PI (Z.shiftr x0 16); PI (Z.land x1 0xffff); PI (Z.shiftr x1 16);
       PI (Z.land x2 0xffff)];;
    x0 ← regs_buff regs (Z.shiftr 0xd8 2);
    fprintf "0xDA: RX packet maximum size                      0x%04x\n" [PI (Z.shiftr x0 16)]
  else
    x0 ← data8 regs 0x5e;
    fprintf "0x5E: PCI revision id                               0x%02x\n" [PI x0];;
    x0 ← regs_buff regs (Z.shiftr 0x60 2);
    fprintf ("0x60: Transmit Status of All Desc (C mode)        0x%04x\n" +:+
       "0x62: MII Basic Mode Control Register             0x%04x\n") [
       PI (Z.land x0 0xffff); PI (Z.shiftr x0 16)];;
    x0 ← regs_buff regs (Z.shiftr 0x64 2);
    fprintf ("0x64: MII Basic Mode Status Register              0x%04x\n" +:+
       "0x66: MII Autonegotiation Advertising             0x%04x\n") [
       PI (Z.land x0 0xffff); PI (Z.shiftr x0 16)];;
    x0 ← regs_buff regs (Z.shiftr 0x68 2);
    fprintf ("0x68: MII Link Partner Ability                    0x%04x\n" +:+
       "0x6A: MII Expansion                               0x%04x\n") [
       PI (Z.land x0 0xffff); PI (Z.shiftr x0 16)];;
    x0 ← regs_buff regs (Z.shiftr 0x6c 2);
    fprintf ("0x6C: MII Disconnect counter                      0x%04x\n" +:+
       "0x6E: MII False carrier sense counter             0x%04x\n") [
       PI (Z.land x0 0xffff); PI (Z.shiftr x0 16)];;
    x0 ← regs_buff regs (Z.shiftr 0x70 2);
    fprintf ("0x70: MII Nway test                               0x%04x\n" +:+
       "0x72: MII RX_ER counter                           0x%04x\n") [
       PI (Z.land x0 0xffff); PI (Z.shiftr x0 16)];;
    x0 ← regs_buff regs (Z.shiftr 0x74 2);
    fprintf "0x74: MII CS configuration                        0x%04x\n" [PI (Z.land x0 0xffff)];;
    when (RTL8139_K <=? board_type)
      (x0 ← regs_buff regs (Z.shiftr 0x78 2);
      x1 ← regs_buff regs (Z.shiftr 0x7c 2);
      fprintf ("0x78: PHY parameter 1                         0x%08x\n" +:+
         "0x7C: Twister parameter                       0x%08x\n") [
         PI x0; PI x1];;
      when (RTL8139A <=? board_type)
        (x0 ← data8 regs 0x80;
        fprintf "0x80: PHY parameter 2                               0x%02x\n" [PI x0]));;
    (if (board_type =? RTL8139Cp) then
      x0 ← regs_buff regs (Z.shiftr 0x80 2);
      fprintf "0x82: Low addr of a Tx Desc w/ Tx DMA OK          0x%04x\n" [PI (Z.shiftr x0 16)]
    else
      when (board_type =? RTL8130)
        (x0 ← data8 regs 0x82;
        fprintf "0x82: MII register                                  0x%02x\n" [PI x0]));;
    when (RTL8139A <=? board_type)
      (x0 ← data8 regs 0x84;
      x1 ← data8 regs 0x85;
      x2 ← data8 regs 0x86;
      x3 ← data8 regs 0x87;
      x4 ← data8 regs 0x88;
      x5 ← data8 regs 0x89;
      x6 ← data8 regs 0x8a;
      x7 ← data8 regs 0x8b;
      fprintf ("0x84: PM CRC for wakeup frame 0                     0x%02x\n" +:+
         "0x85: PM CRC for wakeup frame 1                     0x%02x\n" +:+
         "0x86: PM CRC for wakeup frame 2                     0x%02x\n" +:+
         "0x87: PM CRC for wakeup frame 3                     0x%02x\n" +:+
         "0x88: PM CRC for wakeup frame 4                     0x%02x\n" +:+
         "0x89: PM CRC for wakeup frame 5                     0x%02x\n" +:+
         "0x8A: PM CRC for wakeup frame 6                     0x%02x\n" +:+
         "0x8B: PM CRC for wakeup frame 7                     0x%02x\n") [
         PI x0; PI x1; PI x2; PI x3; PI x4; PI x5; PI x6; PI x7];;
      x0 ← regs_buff regs (Z.shiftr 0x8c 2);
      x1 ← regs_buff regs (Z.shiftr 0x90 2);
      x2 ← regs_buff regs (Z.shiftr 0x94 2);
      x3 ← regs_buff regs (Z.shiftr 0x98 2);
      x4 ← regs_buff regs (Z.shiftr 0x9c 2);
      x5 ← regs_buff regs (Z.shiftr 0xa0 2);
      x6 ← regs_buff regs (Z.shiftr 0xa4 2);
      x7 ← regs_buff regs (Z.shiftr 0xa8 2);
      x8 ← regs_buff regs (Z.shiftr 0xac 2);
      x9 ← regs_buff regs (Z.shiftr 0xb0 2);
      x10 ← regs_buff regs (Z.shiftr 0xb4 2);
      x11 ← regs_buff regs (Z.shiftr 0xb8 2);
      x12 ← regs_buff regs (Z.shiftr 0xbc 2);
      x13 ← regs_buff regs (Z.shiftr 0xc0 2);
      x14 ← regs_buff regs (Z.shiftr 0xc4 2);
      x15 ← regs_buff regs (Z.shiftr 0xc8 2);
      fprintf ("0x8C: PM wakeup frame 0            0x%08x 0x%08x\n" +:+
         "0x94: PM wakeup frame 1            0x%08x 0x%08x\n" +:+
         "0x9C: PM wakeup frame 2            0x%08x 0x%08x\n" +:+
         "0xA4: PM wakeup frame 3            0x%08x 0x%08x\n" +:+
         "0xAC: PM wakeup frame 4            0x%08x 0x%08x\n" +:+
         "0xB4: PM wakeup frame 5            0x%08x 0x%08x\n" +:+
         "0xBC: PM wakeup frame 6            0x%08x 0x%08x\n" +:+
         "0xC4: PM wakeup frame 7            0x%08x 0x%08x\n") [
         PI x0; PI x1; PI x2; PI x3; PI x4; PI x5; PI x6; PI x7; PI x8; PI x9; PI x10; PI x11; PI x12;
         PI x13; PI x14; PI x15];;
      x0 ← data8 regs 0xcc;
      x1 ← data8 regs 0xcd;
      x2 ← data8 regs 0xce;
      x3 ← data8 regs 0xcf;
      x4 ← data8 regs 0xd0;
      x5 ← data8 regs 0xd1;
      x6 ← data8 regs 0xd2;
      x7 ← data8 regs 0xd3;
      fprintf ("0xCC: PM LSB CRC for wakeup frame 0                 0x%02x\n" +:+
         "0xCD: PM LSB CRC for wakeup frame 1                 0x%02x\n" +:+
         "0xCE: PM LSB CRC for wakeup frame 2                 0x%02x\n" +:+
         "0xCF: PM LSB CRC for wakeup frame 3                 0x%02x\n" +:+
         "0xD0: PM LSB CRC for wakeup frame 4                 0x%02x\n" +:+
         "0xD1: PM LSB CRC for wakeup frame 5                 0x%02x\n" +:+
         "0xD2: PM LSB CRC for wakeup frame 6                 0x%02x\n" +:+
         "0xD3: PM LSB CRC for wakeup frame 7                 0x%02x\n") [
         PI x0; PI x1; PI x2; PI x3; PI x4; PI x5; PI x6; PI x7]);;
    when (RTL8139B <=? board_type)
      (when (((negb (board_type =? RTL8100)) && (negb (board_type =? RTL8100B_8139D)))%bool && (negb (board_type =? RTL8101)))%bool
        (x0 ← regs_buff regs (Z.shiftr 0xd4 2);
        fprintf "0xD4: Flash memory read/write                 0x%08x\n" [PI x0]);;
      when (negb (board_type =? RTL8130))
        (x0 ← data8 regs 0xd8;
        fprintf "0xD8: Config 5                                      0x%02x\n" [PI x0])));;
  when ((board_type =? RTL8139Cp) || (RTL8169 <=? board_type))%bool
    (x0 ← regs_buff regs (Z.shiftr 0xe0 2);
    let v := (Z.land x0 0xffff) in
    fprintf "0xE0: C+ Command                                  0x%04x\n" [PI v];;
    when (v &? (Z.shiftl 1 9))
      (fprintf "      Big-endian mode\n" []);;
    when (v &? (Z.shiftl 1 8))
      (fprintf "      Home LAN enable\n" []);;
    when (v &? (Z.shiftl 1 6))
      (fprintf "      VLAN de-tagging\n" []);;
    when (v &? (Z.shiftl 1 5))
      (fprintf "      RX checksumming\n" []);;
    when (v &? (Z.shiftl 1 4))
      (fprintf "      PCI 64-bit DAC\n" []);;
    when (v &? (Z.shiftl 1 3))
      (fprintf "      PCI Multiple RW\n" []);;
    x0 ← regs_buff regs (Z.shiftr 0xe0 2);
    let v := (Z.shiftr x0 16) in
    fprintf ("0xE2: Interrupt Mitigation                        0x%04x\n" +:+
       "      TxTimer:       %u\n" +:+
       "      TxPackets:     %u\n" +:+
       "      RxTimer:       %u\n" +:+
       "      RxPackets:     %u\n") [
       PI v; PI (Z.shiftr v 12); PI (Z.land (Z.shiftr v 8) 0xf); PI (Z.land (Z.shiftr v 4) 0xf);
       PI (Z.land v 0xf)];;
    x0 ← regs_buff regs (Z.shiftr 0xe4 2);
    x1 ← regs_buff regs (Z.shiftr 0xe8 2);
    fprintf "0xE4: Rx Ring Addr                 0x%08x 0x%08x\n" [PI x0; PI x1];;
    x0 ← data8 regs 0xec;
    fprintf "0xEC: Early Tx threshold                            0x%02x\n" [PI x0];;
    (if (board_type =? RTL8139Cp) then
      x0 ← regs_buff regs (Z.shiftr 0xfc 2);
      fprintf "0xFC: External MII register                   0x%08x\n" [PI x0]
    else
      when (((RTL8169 <=? board_type) && (negb (board_type =? RTL8168_8111Bb)))%bool && (negb (board_type =? RTL8168_8111Bef)))%bool
        (x0 ← regs_buff regs (Z.shiftr 0xf0 2);
        x1 ← regs_buff regs (Z.shiftr 0xf4 2);
        x2 ← regs_buff regs (Z.shiftr 0xf8 2);
        x3 ← regs_buff regs (Z.shiftr 0xfc 2);
        fprintf ("0xF0: Func Event                              0x%08x\n" +:+
           "0xF4: Func Event Mask                         0x%08x\n" +:+
           "0xF8: Func Preset State                       0x%08x\n" +:+
           "0xFC: Func Force Event                        0x%08x\n") [
           PI x0; PI x1; PI x2; PI x3]))).

(** The chip with a mask: its name and its number in [enum chip_type]. *)
Fixpoint find_chip (v n : Z) (tbl : list (string * Z)) : option (string * Z) :=
  match tbl with
  | [] => None
  | (name, id_mask) :: tbl' => if v =? id_mask then Some (name, n) else find_chip v (n + 1) tbl'
  end.

(** The loop that looks for a chip also stops at the end of the array, whose mask
    is 0; a mask of 0 is found before. *)
Definition realtek_dump_regs (info regs : ereq) : P Z :=
  x ← regs_buff regs (Z.shiftr 0x40 2);
  let v := Z.land x chip_type_mask in
  match find_chip v (RTLNONE + 1) rtl_info_tbl with
  | None => efprintf "Unknown RealTek chip (mask: 0x%08x)\n" [PI v];; mret 91
  | Some (name, board_type) =>
      fprintf ("RealTek %s registers:\n" +:+
         "--------------------------------------------------------\n") [PS name];;
      realtek_dump_regs_1 regs board_type;;
      realtek_dump_regs_2 regs board_type;;
      mret 0
  end.

Lemma print_intr_bits_shows mask : shows (print_intr_bits mask) (fun _ => True).
Proof. unfold print_intr_bits. regs_all. Qed.

#[local] Hint Resolve print_intr_bits_shows : shows.

Lemma realtek_dump_regs_1_shows regs board_type : 256 <= Z.of_nat (length (rq_arr regs)) -> shows (realtek_dump_regs_1 regs board_type) (fun _ => True).
Proof. intros Hl. unfold realtek_dump_regs_1. regs_all. Qed.

Lemma realtek_dump_regs_2_shows regs board_type : 256 <= Z.of_nat (length (rq_arr regs)) -> shows (realtek_dump_regs_2 regs board_type) (fun _ => True).
Proof. intros Hl. unfold realtek_dump_regs_2. regs_all. Qed.

#[local] Hint Resolve realtek_dump_regs_1_shows realtek_dump_regs_2_shows : shows.

Lemma realtek_dumps : dumps 256 realtek_dump_regs.
Proof.
  intros info regs Hl. unfold realtek_dump_regs. regs_step. destruct (find_chip _ _ _) as [[name board_type]|]; regs_all.
Qed.
End regs.
End EtRealtek.
