(* ===== verification/EtPcnet32.v ===== *)
(** * ethtool: registers of the pcnet32 driver ([ethernet_test/ethtool/pcnet32.c]) *)

From stdpp Require Import base list strings gmap numbers.
From Stdlib Require Import ZArith Lia.
From S2P Require Import Prelude CInt CLib CFmt EtCmd EtSet EtFeat EtRegs.
Import Et EtS EtF.

Module EtPcnet32.

Definition BIT15 : Z := 0x8000.
Definition BIT14 : Z := 0x4000.
Definition BIT13 : Z := 0x2000.
Definition BIT12 : Z := 0x1000.
Definition BIT11 : Z := 0x0800.
Definition BIT10 : Z := 0x0400.
Definition BIT9 : Z := 0x0200.
Definition BIT8 : Z := 0x0100.
Definition BIT7 : Z := 0x0080.
Definition BIT6 : Z := 0x0040.
Definition BIT5 : Z := 0x0020.
Definition BIT4 : Z := 0x0010.
Definition BIT3 : Z := 0x0008.
Definition BIT2 : Z := 0x0004.
Definition BIT1 : Z := 0x0002.
Definition BIT0 : Z := 0x0001.

Section regs.
Context {D : Type}.
Abbreviation P := (M D).

(** Offsets of the control and bus registers. *)
Definition csr (regs : ereq) (i : Z) : P Z := data16 regs (8 + i).
Definition bcr (regs : ereq) (i : Z) : P Z := data16 regs (100 + i).

(** Words [first] up to [last], eight to a line. *)
Definition word_lines (regs : ereq) (title : string) (mask first last : Z) : P unit :=
  for_ (Z.to_nat (last - first)) first (fun i =>
    when (Z.land (i - first) 7 =? 0) (fprintf title [PI (Z.land (i - first) mask)]);;
    x ← data16 regs i;
    fprintf " %04x " [PI x];;
    when (Z.land (i - first) 7 =? 7) (fprintf "\n" []));;
  when (negb (Z.land (Z.max first last - first) 7 =? 7)) (fprintf "\n" []).

Definition pcnet32_csr_1 (regs : ereq) : P unit :=
  x0 ← csr regs 0;
  fprintf "CSR0:   Status and Control         0x%04x\n  " [PI x0];;
  x0 ← csr regs 0;
  let temp := (u16 x0) in
  when (temp &? BIT15)
    (fprintf "ERR " []);;
  when (temp &? BIT14)
    (fprintf "BABL " []);;
  when (temp &? BIT13)
    (fprintf "CERR " []);;
  when (temp &? BIT12)
    (fprintf "MISS " []);;
  when (temp &? BIT11)
    (fprintf "MERR " []);;
  when (temp &? BIT10)
    (fprintf "RINT " []);;
  when (temp &? BIT9)
    (fprintf "TINT " []);;
  when (temp &? BIT8)
    (fprintf "IDON " []);;
  when (temp &? BIT7)
    (fprintf "INTR " []);;
  when (temp &? BIT6)
    (fprintf "INT " []);;
  when (temp &? BIT5)
    (fprintf "RXON " []);;
  when (temp &? BIT4)
    (fprintf "TXON " []);;
  when (temp &? BIT3)
    (fprintf "TDMD " []);;
  when (temp &? BIT2)
    (fprintf "STOP " []);;
  when (temp &? BIT1)
    (fprintf "STRT " []);;
  when (temp &? BIT0)
    (fprintf "INIT " []);;
  fprintf "\n" [];;
  x0 ← csr regs 3;
  fprintf "CSR3:   Interrupt Mask             0x%04x\n  " [PI x0];;
  x0 ← csr regs 3;
  let temp := (u16 x0) in
  when (temp &? BIT14)
    (fprintf "BABLM " []);;
  when (temp &? BIT12)
    (fprintf "MISSM " []);;
  when (temp &? BIT11)
    (fprintf "MERRM " []);;
  when (temp &? BIT10)
    (fprintf "RINTM " []);;
  when (temp &? BIT9)
    (fprintf "TINTM " []);;
  when (temp &? BIT8)
    (fprintf "IDONM " []);;
  when (temp &? BIT6)
    (fprintf "DXSUFLO " []);;
  when (temp &? BIT5)
    (fprintf "LAPPEN " []);;
  when (temp &? BIT4)
    (fprintf "DXMT2PD " []);;
  when (temp &? BIT3)
    (fprintf "EMBA " []);;
  when (temp &? BIT2)
    (fprintf "BSWP " []);;
  fprintf "\n" [];;
  x0 ← csr regs 4;
  fprintf "CSR4:   Test and Features          0x%04x\n  " [PI x0];;
  x0 ← csr regs 4;
  let temp := (u16 x0) in
  when (temp &? BIT15)
    (fprintf "EN124 " []);;
  when (temp &? BIT14)
    (fprintf "DMAPLUS " []);;
  when (temp &? BIT12)
    (fprintf "TXDPOLL " []);;
  when (temp &? BIT11)
    (fprintf "APAD_XMT " []);;
  when (temp &? BIT10)
    (fprintf "ASTRP_RCV " []);;
  when (temp &? BIT9)
    (fprintf "MFCO " []);;
  when (temp &? BIT8)
    (fprintf "MFCON " []);;
  when (temp &? BIT7)
    (fprintf "UINTCMD " []);;
  when (temp &? BIT6)
    (fprintf "UINT " []);;
  when (temp &? BIT5)
    (fprintf "RCVCCO " []);;
  when (temp &? BIT4)
    (fprintf "RCVCCOM " []);;
  when (temp &? BIT3)
    (fprintf "TXSTRT " []);;
  when (temp &? BIT2)
    (fprintf "TXSTRTM " []);;
  when (temp &? BIT1)
    (fprintf "JAB " []);;
  when (temp &? BIT0)
    (fprintf "JABM " []).

Definition pcnet32_csr_2 (regs : ereq) : P unit :=
  fprintf "\n" [];;
  x0 ← csr regs 5;
  fprintf "CSR5:   Ext Control and Int 1      0x%04x\n  " [PI x0];;
  x0 ← csr regs 5;
  let temp := (u16 x0) in
  when (temp &? BIT15)
    (fprintf "TOKINTD " []);;
  when (temp &? BIT14)
    (fprintf "LTINTEN " []);;
  when (temp &? BIT11)
    (fprintf "SINT " []);;
  when (temp &? BIT10)
    (fprintf "SINTE " []);;
  when (temp &? BIT9)
    (fprintf "SLPINT " []);;
  when (temp &? BIT8)
    (fprintf "SLPINTE " []);;
  when (temp &? BIT7)
    (fprintf "EXDINT " []);;
  when (temp &? BIT6)
    (fprintf "EXDINTE " []);;
  when (temp &? BIT5)
    (fprintf "MPPLBA " []);;
  when (temp &? BIT4)
    (fprintf "MPINT " []);;
  when (temp &? BIT3)
    (fprintf "MPINTE " []);;
  when (temp &? BIT2)
    (fprintf "MPEN " []);;
  when (temp &? BIT1)
    (fprintf "MPMODE " []);;
  when (temp &? BIT0)
    (fprintf "SPND " []);;
  fprintf "\n" [];;
  x0 ← csr regs 7;
  fprintf "CSR7:   Ext Control and Int 2      0x%04x\n  " [PI x0];;
  x0 ← csr regs 7;
  let temp := (u16 x0) in
  when (temp &? BIT15)
    (fprintf "FASTSPNDE " []);;
  when (temp &? BIT14)
    (fprintf "RXFRTG " []);;
  when (temp &? BIT13)
    (fprintf "RDMD " []);;
  when (temp &? BIT12)
    (fprintf "RXDPOLL " []);;
  when (temp &? BIT11)
    (fprintf "STINT " []);;
  when (temp &? BIT10)
    (fprintf "STINTE " []);;
  when (temp &? BIT9)
    (fprintf "MREINT " []);;
  when (temp &? BIT8)
    (fprintf "MREINTE " []);;
  when (temp &? BIT7)
    (fprintf "MAPINT " []);;
  when (temp &? BIT6)
    (fprintf "MAPINTE " []);;
  when (temp &? BIT5)
    (fprintf "MCCINT " []);;
  when (temp &? BIT4)
    (fprintf "MCCINTE " []);;
  when (temp &? BIT3)
    (fprintf "MCCIINT " []);;
  when (temp &? BIT2)
    (fprintf "MCCIINTE " []);;
  when (temp &? BIT1)
    (fprintf "MIIPDTINT " []);;
  when (temp &? BIT0)
    (fprintf "MIIPDTINTE " []);;
  fprintf "\n" [];;
  x0 ← csr regs 15;
  fprintf "CSR15:  Mode                       0x%04x\n" [PI x0].

Definition pcnet32_csr_3 (regs : ereq) : P unit :=
  x0 ← csr regs 40;
  fprintf "CSR40:  Current RX Byte Count      0x%04x\n" [PI x0];;
  x0 ← csr regs 41;
  fprintf "CSR41:  Current RX Status          0x%04x\n" [PI x0];;
  x0 ← csr regs 42;
  fprintf "CSR42:  Current TX Byte Count      0x%04x\n" [PI x0];;
  x0 ← csr regs 43;
  fprintf "CSR43:  Current TX Status          0x%04x\n" [PI x0];;
  x0 ← csr regs 88;
  fprintf "CSR88:  Chip ID Lower              0x%04x\n" [PI x0];;
  x0 ← csr regs 89;
  x1 ← csr regs 88;
  let temp := (u16 (Z.land (Z.shiftr (Z.lor (Z.shiftl x0 16) x1) 12) 0xffff)) in
  (let k := temp in
   if (k =? 0x2420) then fprintf "  PCnet/PCI 79C970\n" [] else
   if (k =? 0x2621) then fprintf "  PCnet/PCI II 79C970A\n" [] else
   if (k =? 0x2623) then fprintf "  PCnet/FAST 79C971\n" [] else
   if (k =? 0x2624) then fprintf "  PCnet/FAST+ 79C972\n" [] else
   if (k =? 0x2625) then fprintf "  PCnet/FAST III 79C973\n" [] else
   if (k =? 0x2626) then fprintf "  PCnet/Home 79C978\n" [] else
   if (k =? 0x2627) then fprintf "  PCnet/FAST III 79C975\n" [] else
   if (k =? 0x2628) then fprintf "  PCnet/PRO 79C976\n" [] else
   mret tt);;
  x0 ← csr regs 89;
  fprintf "CSR89:  Chip ID Upper              0x%04x\n  " [PI x0];;
  x0 ← csr regs 89;
  let temp := (u16 x0) in
  fprintf "VER: %04x  PARTIDU: %04x\n" [PI (Z.shiftr temp 12); PI (Z.land temp 0x00000fff)];;
  x0 ← csr regs 90;
  fprintf "CSR112: Missed Frame Count         0x%04x\n" [PI x0];;
  x0 ← csr regs 91;
  fprintf "CSR114: RX Collision Count         0x%04x\n" [PI x0];;
  fprintf "\n" [].

Definition pcnet32_bcr (regs : ereq) : P unit :=
  x0 ← bcr regs 2;
  fprintf "BCR2:   Misc. Configuration        0x%04x\n  " [PI x0];;
  x0 ← bcr regs 2;
  let temp := (u16 x0) in
  when (temp &? BIT14)
    (fprintf "TMAULOOP " []);;
  when (temp &? BIT12)
    (fprintf "LEDPE " []);;
  when (temp &? BIT8)
    (fprintf "APROMWE " []);;
  when (temp &? BIT7)
    (fprintf "INTLEVEL " []);;
  when (temp &? BIT3)
    (fprintf "EADISEL " []);;
  when (temp &? BIT2)
    (fprintf "AWAKE " []);;
  when (temp &? BIT1)
    (fprintf "ASEL " []);;
  when (temp &? BIT0)
    (fprintf "XMAUSEL " []);;
  fprintf "\n" [];;
  x0 ← bcr regs 9;
  fprintf "BCR9:   Full-Duplex Control        0x%04x\n" [PI x0];;
  x0 ← bcr regs 18;
  fprintf "BCR18:  Burst and Bus Control      0x%04x\n" [PI x0];;
  x0 ← bcr regs 19;
  fprintf "BCR19:  EEPROM Control and Status  0x%04x\n  " [PI x0];;
  x0 ← bcr regs 19;
  let temp := (u16 x0) in
  when (temp &? BIT15)
    (fprintf "PVALID " []);;
  when (temp &? BIT13)
    (fprintf "EEDET " []);;
  fprintf "\n" [];;
  x0 ← bcr regs 23;
  fprintf "BCR23:  PCI Subsystem Vendor ID    0x%04x\n" [PI x0];;
  x0 ← bcr regs 24;
  fprintf "BCR24:  PCI Subsystem ID           0x%04x\n" [PI x0];;
  x0 ← bcr regs 31;
  fprintf "BCR31:  Software Timer             0x%04x\n" [PI x0];;
  x0 ← bcr regs 32;
  fprintf "BCR32:  MII Control and Status     0x%04x\n" [PI x0];;
  x0 ← bcr regs 35;
  fprintf "BCR35:  PCI Vendor ID              0x%04x\n" [PI x0].

(** Driver and version are character arrays of [struct ethtool_drvinfo]. *)
Definition info_text (info : ereq) (i : nat) : string := cstr (take 32 (drop (32 * i) (rq_arr info))).

Definition pcnet32_dump_regs (info regs : ereq) : P Z :=
  let len := fld regs "len" / 2 in
  fprintf "Driver:  %s\n" [PS (info_text info 0)];;
  fprintf "Version: %s\n" [PS (info_text info 1)];;
  fprintf "APROM:  " [];;
  for_ 8%nat 0 (fun i => x ← data16 regs i; fprintf " %04x " [PI x]);;
  fprintf "\n" [];;
  word_lines regs "CSR%02d:  " (-1) 8 100;;
  word_lines regs "BCR%02d:  " (-1) 100 136;;
  word_lines regs "MII%02d:  " 0x1f 136 len;;
  fprintf "\n" [];;
  pcnet32_csr_1 regs;;
  pcnet32_csr_2 regs;;
  pcnet32_csr_3 regs;;
  pcnet32_bcr regs;;
  mret 0.

Lemma shows_csr regs i : 272 <= Z.of_nat (length (rq_arr regs)) -> 0 <= i < 92 -> shows (csr regs i) (fun _ => True).
Proof. intros. apply shows_data16; [lia|lia|done]. Qed.

Lemma shows_bcr regs i : 272 <= Z.of_nat (length (rq_arr regs)) -> 0 <= i < 36 -> shows (bcr regs i) (fun _ => True).
Proof. intros. apply shows_data16; [lia|lia|done]. Qed.

#[local] Hint Extern 1 (shows (csr _ _) _) => apply shows_csr; [assumption|lia] : shows.
#[local] Hint Extern 1 (shows (bcr _ _) _) => apply shows_bcr; [assumption|lia] : shows.

Lemma word_lines_shows regs title mask first last :
  fmt_ok title [true] = true -> 0 <= first -> 2 * last <= Z.of_nat (length (rq_arr regs)) ->
  shows (word_lines regs title mask first last) (fun _ => True).
Proof.
  intros Ht Hf Hl. unfold word_lines. regs_step; [|regs_all]. regs_step. regs_step.
  - regs_step. by apply shows_fprintf.
  - regs_all.
Qed.

Lemma pcnet32_csr_1_shows regs : 272 <= Z.of_nat (length (rq_arr regs)) -> shows (pcnet32_csr_1 regs) (fun _ => True).
Proof. intros Hl. unfold pcnet32_csr_1. regs_all. Qed.

Lemma pcnet32_csr_2_shows regs : 272 <= Z.of_nat (length (rq_arr regs)) -> shows (pcnet32_csr_2 regs) (fun _ => True).
Proof. intros Hl. unfold pcnet32_csr_2. regs_all. Qed.

Lemma pcnet32_csr_3_shows regs : 272 <= Z.of_nat (length (rq_arr regs)) -> shows (pcnet32_csr_3 regs) (fun _ => True).
Proof. intros Hl. unfold pcnet32_csr_3. regs_all. Qed.

Lemma pcnet32_bcr_shows regs : 272 <= Z.of_nat (length (rq_arr regs)) -> shows (pcnet32_bcr regs) (fun _ => True).
Proof. intros Hl. unfold pcnet32_bcr. regs_all. Qed.

#[local] Hint Resolve pcnet32_csr_1_shows pcnet32_csr_2_shows pcnet32_csr_3_shows pcnet32_bcr_shows : shows.

Lemma pcnet32_shows info regs : 272 <= Z.of_nat (length (rq_arr regs)) -> fld regs "len" <= Z.of_nat (length (rq_arr regs)) ->
  shows (pcnet32_dump_regs info regs) (fun _ => True).
Proof.
  intros Hl Hn. unfold pcnet32_dump_regs. pose proof (Z.mul_div_le (fld regs "len") 2).
  regs_all; apply word_lines_shows; solve [vm_compute; reflexivity|lia].
Qed.
End regs.
End EtPcnet32.
