(* ===== verification/EtRegMisc.v ===== *)
(** * ethtool: registers of the tg3, vioc, at76c50x, stmmac, fec_8xx and smsc911x drivers

    Files of [ethernet_test/ethtool] with the names of the drivers. *)

From stdpp Require Import base list strings gmap numbers.
From Stdlib Require Import ZArith Lia.
From S2P Require Import Prelude CInt CLib CFmt EtCmd EtSet EtFeat EtRegs.

Import Et EtS EtF.

Module EtRegMisc.

Definition TG3_MAGIC : Z := 0x669955aa.

Definition hw_versions : list string := [
  "503_ISL3861"; "503_ISL3863"; "        503"; "    503_ACC"; "        505"; "   505_2958"; "       505A"; "     505AMX"].

(** [struct fec]: the fields and how many words each has. *)
Definition fec : list (string * Z) := [
  ("addr_low", 1); ("addr_high", 1); ("hash_table_high", 1); ("hash_table_low", 1); ("r_des_start", 1);
  ("x_des_start", 1); ("r_buff_size", 1); ("res2", 9); ("ecntrl", 1); ("ievent", 1); ("imask", 1);
  ("ivec", 1); ("r_des_active", 1); ("x_des_active", 1); ("res3", 10); ("mii_data", 1); ("mii_speed", 1);
  ("res4", 17); ("r_bound", 1); ("r_fstart", 1); ("res5", 6); ("x_fstart", 1); ("res6", 17); ("fun_code", 1);
  ("res7", 3); ("r_cntrl", 1); ("r_hash", 1); ("res8", 14); ("x_cntrl", 1); ("res9", 30)].

(** [offsetof]: the words of the fields before. *)
Fixpoint offsetof (l : list (string * Z)) (x : string) (off : Z) : option Z :=
  match l with
  | [] => None
  | (f, n) :: l' => if streq f x then Some off else offsetof l' x (off + 4 * n)
  end.

Definition smsc911x_csrs : list string := [
  "offset 0x50, ID_REV       = 0x%08X\n";
  "offset 0x54, INT_CFG      = 0x%08X\n";
  "offset 0x58, INT_STS      = 0x%08X\n";
  "offset 0x5C, INT_EN       = 0x%08X\n";
  "offset 0x60, RESERVED     = 0x%08X\n";
  "offset 0x64, BYTE_TEST    = 0x%08X\n";
  "offset 0x68, FIFO_INT     = 0x%08X\n";
  "offset 0x6C, RX_CFG       = 0x%08X\n";
  "offset 0x70, TX_CFG       = 0x%08X\n";
  "offset 0x74, HW_CFG       = 0x%08X\n";
  "offset 0x78, RX_DP_CTRL   = 0x%08X\n";
  "offset 0x7C, RX_FIFO_INF  = 0x%08X\n";
  "offset 0x80, TX_FIFO_INF  = 0x%08X\n";
  "offset 0x84, PMT_CTRL     = 0x%08X\n";
  "offset 0x88, GPIO_CFG     = 0x%08X\n";
  "offset 0x8C, GPT_CFG      = 0x%08X\n";
  "offset 0x90, GPT_CNT      = 0x%08X\n";
  "offset 0x94, FPGA_REV     = 0x%08X\n";
  "offset 0x98, ENDIAN       = 0x%08X\n";
  "offset 0x9C, FREE_RUN     = 0x%08X\n";
  "offset 0xA0, RX_DROP      = 0x%08X\n";
  "offset 0xA4, MAC_CSR_CMD  = 0x%08X\n";
  "offset 0xA8, MAC_CSR_DATA = 0x%08X\n";
  "offset 0xAC, AFC_CFG      = 0x%08X\n";
  "offset 0xB0, E2P_CMD      = 0x%08X\n";
  "offset 0xB4, E2P_DATA     = 0x%08X\n"].
Definition smsc911x_mac_regs : list string := [
  "index 1, MAC_CR   = 0x%08X\n";
  "index 2, ADDRH    = 0x%08X\n";
  "index 3, ADDRL    = 0x%08X\n";
  "index 4, HASHH    = 0x%08X\n";
  "index 5, HASHL    = 0x%08X\n";
  "index 6, MII_ACC  = 0x%08X\n";
  "index 7, MII_DATA = 0x%08X\n";
  "index 8, FLOW     = 0x%08X\n";
  "index 9, VLAN1    = 0x%08X\n";
  "index A, VLAN2    = 0x%08X\n";
  "index B, WUFF     = 0x%08X\n";
  "index C, WUCSR    = 0x%08X\n"].
Definition smsc911x_phy_regs : list string := [
  "index 0, Basic Control Reg = 0x%04X\n";
  "index 1, Basic Status Reg  = 0x%04X\n";
  "index 2, PHY identifier 1  = 0x%04X\n";
  "index 3, PHY identifier 2  = 0x%04X\n";
  "index 4, Auto Negotiation Advertisement Reg = 0x%04X\n";
  "index 5, Auto Negotiation Link Partner Ability Reg = 0x%04X\n";
  "index 6, Auto Negotiation Expansion Register = 0x%04X\n";
  "index 7, Reserved = 0x%04X\n";
  "index 8, Reserved = 0x%04X\n";
  "index 9, Reserved = 0x%04X\n";
  "index 10, Reserved = 0x%04X\n";
  "index 11, Reserved = 0x%04X\n";
  "index 12, Reserved = 0x%04X\n";
  "index 13, Reserved = 0x%04X\n";
  "index 14, Reserved = 0x%04X\n";
  "index 15, Reserved = 0x%04X\n";
  "index 16, Silicon Revision Reg = 0x%04X\n";
  "index 17, Mode Control/Status Reg = 0x%04X\n";
  "index 18, Special Modes = 0x%04X\n";
  "index 19, Reserved = 0x%04X\n";
  "index 20, TSTCNTL = 0x%04X\n";
  "index 21, TSTREAD1 = 0x%04X\n";
  "index 22, TSTREAD2 = 0x%04X\n";
  "index 23, TSTWRITE = 0x%04X\n";
  "index 24, Reserved = 0x%04X\n";
  "index 25, Reserved = 0x%04X\n";
  "index 26, Reserved = 0x%04X\n";
  "index 27, Control/Status Indication = 0x%04X\n";
  "index 28, Special internal testability = 0x%04X\n";
  "index 29, Interrupt Source Register = 0x%04X\n";
  "index 30, Interrupt Mask Register = 0x%04X\n";
  "index 31, PHY Special Control/Status Register = 0x%04X\n"].

Section regs.
Context {D : Type}.
Abbreviation P := (M D).

(** ** tg3 *)

Definition tg3_dump_eeprom (info ee : ereq) : P Z :=
  if negb (fld ee "magic" =? TG3_MAGIC) then
    efprintf "Magic number 0x%08x does not match 0x%08x\n" [PI (fld ee "magic"); PI TG3_MAGIC];;
    mret (-1)
  else
    fprintf "Address   \tData\n" [];;
    fprintf "----------\t----\n" [];;
    for_ (Z.to_nat (fld ee "len")) 0 (fun i =>
      x ← data8 ee i;
      fprintf "0x%08x\t0x%02x\n" [PI (i + fld ee "offset"); PI x]);;
    mret 0.

(** [i] goes up by four; the last word can end behind [len]. *)
Definition tg3_dump_regs (info regs : ereq) : P Z :=
  fprintf "Offset\tValue\n" [];;
  fprintf "------\t----------\n" [];;
  for_ (Z.to_nat ((fld regs "len" + 3) / 4)) 0 (fun k =>
    let i := 4 * k in
    reg ← ld 4 (rq_arr regs) i;
    when (truth reg) (fprintf "0x%04x\t0x%08x\n" [PI i; PI reg]));;
  fprintf "\n" [];;
  mret 0.

(** ** vioc *)

(** A line of the dump is an address and a value ([struct regs_line]). *)
Definition vioc_dump_regs (info regs : ereq) : P Z :=
  fprintf ("ethtool_regs\n" +:+
     "%-20s = %04x\n" +:+
     "%-20s = %04x\n") [PS "cmd"; PI (rq_cmd regs); PS "version"; PI (fld regs "version")];;
  let num_regs := fld regs "len" / 8 in
  for_ (Z.to_nat num_regs) 0 (fun i =>
    addr ← regs_buff regs (2 * i);
    data ← regs_buff regs (2 * i + 1);
    fprintf "%08x = %08x\n" [PI addr; PI data]);;
  mret 0.

(** ** at76c50x-usb *)

(** The revision is not compared with the number of names. *)
Definition at76c50x_usb_dump_regs (info regs : ereq) : P Z :=
  let version := u8 (Z.shiftr (fld regs "version") 24) in
  let rev_id := u8 (fld regs "version") in
  if negb (version =? 0) then mret (-1)
  else
    ver_string ← elem hw_versions rev_id;
    fprintf "Hardware Version                    %s\n" [PS ver_string];;
    mret 0.

(** ** stmmac *)

(** Registers shown one after the other, each with its format, from word [k]. *)
Fixpoint show_regs (regs : ereq) (k : Z) (formats : list string) : P unit :=
  match formats with
  | [] => mret tt
  | f :: formats' => x ← regs_buff regs k; fprintf f [PI x];; show_regs regs (k + 1) formats'
  end.

Definition st_mac100_dump_regs (info regs : ereq) : P Z :=
  fprintf "ST MAC 10/100 Registers\n" [];;
  show_regs regs 0 ["control reg  0x%08X\n"; "addr HI 0x%08X\n"; "addr LO 0x%08X\n"; "multicast hash HI 0x%08X\n";
    "multicast hash LO 0x%08X\n"; "MII addr 0x%08X\n"; "MII data %08X\n"; "flow control 0x%08X\n";
    "VLAN1 tag 0x%08X\n"; "VLAN2 tag 0x%08X\n"; "mac wakeup frame 0x%08X\n"; "mac wakeup crtl 0x%08X\n"];;
  fprintf "\n" [];;
  fprintf "DMA Registers\n" [];;
  for_ 9%nat 0 (fun i => x ← regs_buff regs (12 + i); fprintf "CSR%d  0x%08X\n" [PI i; PI x]);;
  show_regs regs 21 ["DMA cur tx buf addr 0x%08X\n"; "DMA cur rx buf addr 0x%08X\n"];;
  fprintf "\n" [];;
  mret 0.

Definition st_gmac_dump_regs (info regs : ereq) : P Z :=
  fprintf "ST GMAC Registers\n" [];;
  fprintf "GMAC Registers\n" [];;
  for_ 55%nat 0 (fun i => x ← regs_buff regs i; fprintf "Reg%d  0x%08X\n" [PI i; PI x]);;
  fprintf "\n" [];;
  fprintf "DMA Registers\n" [];;
  for_ 22%nat 0 (fun i => x ← regs_buff regs (55 + i); fprintf "Reg%d  0x%08X\n" [PI i; PI x]);;
  mret 0.

(** ** fec_8xx *)

Definition DUMP_REG (regs : ereq) (x : string) : P unit :=
  match offsetof fec x 0 with
  | None => crash
  | Some off => v ← ld 4 (rq_arr regs) off; fprintf "0x%04lx: %-16s 0x%08x\n" [PI off; PS x; PI v]
  end.

Definition fec_8xx_dump_regs (info regs : ereq) : P Z :=
  fprintf "Descriptor Registers\n" [];;
  fprintf "---------------------\n" [];;
  DUMP_REG regs "addr_low";;
  DUMP_REG regs "addr_high";;
  DUMP_REG regs "hash_table_high";;
  DUMP_REG regs "hash_table_low";;
  DUMP_REG regs "r_des_start";;
  DUMP_REG regs "x_des_start";;
  DUMP_REG regs "r_buff_size";;
  DUMP_REG regs "ecntrl";;
  DUMP_REG regs "ievent";;
  DUMP_REG regs "imask";;
  DUMP_REG regs "ivec";;
  DUMP_REG regs "r_des_active";;
  DUMP_REG regs "x_des_active";;
  DUMP_REG regs "mii_data";;
  DUMP_REG regs "mii_speed";;
  DUMP_REG regs "r_bound";;
  DUMP_REG regs "r_fstart";;
  DUMP_REG regs "x_fstart";;
  DUMP_REG regs "fun_code";;
  DUMP_REG regs "r_cntrl";;
  DUMP_REG regs "r_hash";;
  DUMP_REG regs "x_cntrl";;
  mret 0.

(** ** smsc911x *)

Definition smsc911x_dump_regs (info regs : ereq) : P Z :=
  fprintf "LAN911x Registers\n" [];;
  show_regs regs 0 smsc911x_csrs;;
  fprintf "\n" [];;
  fprintf "MAC Registers\n" [];;
  show_regs regs 26 smsc911x_mac_regs;;
  fprintf "\n" [];;
  fprintf "PHY Registers\n" [];;
  show_regs regs 38 smsc911x_phy_regs;;
  fprintf "\n" [];;
  mret 0.

(** ** They show the registers and nothing else *)

Lemma show_regs_shows regs formats : forall k,
  forallb (fun f => fmt_ok f [true]) formats = true -> 0 <= k ->
  4 * (k + Z.of_nat (length formats)) <= Z.of_nat (length (rq_arr regs)) -> shows (show_regs regs k formats) (fun _ => True).
Proof.
  induction formats as [|f formats IH]; intros k Hf Hk Hl; cbn [show_regs]; [by apply shows_ret|].
  cbn [forallb length] in Hf, Hl. apply andb_true_iff in Hf as [Hf1 Hf2].
  regs_step. apply shows_seq; [by apply shows_fprintf|]. intros _. apply IH; [done|lia|lia].
Qed.

Lemma tg3_shows info regs : fld regs "len" + 3 <= Z.of_nat (length (rq_arr regs)) -> shows (tg3_dump_regs info regs) (fun _ => True).
Proof.
  intros Hl. unfold tg3_dump_regs. pose proof (Z.mul_div_le (fld regs "len" + 3) 4). regs_all.
Qed.

Lemma tg3_eeprom_shows info ee : fld ee "len" <= Z.of_nat (length (rq_arr ee)) -> shows (tg3_dump_eeprom info ee) (fun _ => True).
Proof. intros Hl. unfold tg3_dump_eeprom. regs_all. Qed.

Lemma vioc_shows info regs : fld regs "len" <= Z.of_nat (length (rq_arr regs)) -> shows (vioc_dump_regs info regs) (fun _ => True).
Proof. intros Hl. unfold vioc_dump_regs. pose proof (Z.mul_div_le (fld regs "len") 8). regs_all. Qed.

Lemma st_mac100_dumps : dumps 92 st_mac100_dump_regs.
Proof. intros info regs Hl. unfold st_mac100_dump_regs. regs_all; apply show_regs_shows; try done; cbn; lia. Qed.

Lemma st_gmac_dumps : dumps 308 st_gmac_dump_regs.
Proof. intros info regs Hl. unfold st_gmac_dump_regs. regs_all. Qed.

Lemma DUMP_REG_shows regs x off :
  offsetof fec x 0 = Some off -> 0 <= off -> off + 4 <= Z.of_nat (length (rq_arr regs)) -> shows (DUMP_REG regs x) (fun _ => True).
Proof. intros E Ho Hl. unfold DUMP_REG. rewrite E. regs_all. Qed.

(** The dump ends with [x_cntrl]; the reserved words behind it are not read. *)
Lemma fec_8xx_dumps : dumps 392 fec_8xx_dump_regs.
Proof.
  intros info regs Hl. unfold fec_8xx_dump_regs. regs_all; (eapply DUMP_REG_shows; [vm_compute; reflexivity|lia|lia]).
Qed.

Lemma smsc911x_dumps : dumps 280 smsc911x_dump_regs.
Proof. intros info regs Hl. unfold smsc911x_dump_regs. regs_all; apply show_regs_shows; try done; cbn; lia. Qed.
End regs.
End EtRegMisc.

(** * ethtool: registers of the ixgb driver ([ethernet_test/ethtool/ixgb.c]) *)

Import Et EtS EtF.

Module EtIxgb.

Definition IXGB_CTRL0_LRST : Z := 0x00000008.
Definition IXGB_CTRL0_VME : Z := 0x40000000.
Definition IXGB_STATUS_LU : Z := 0x00000002.
Definition IXGB_STATUS_PCIX_MODE : Z := 0x00002000.
Definition IXGB_STATUS_PCIX_SPD_100 : Z := 0x00004000.
Definition IXGB_STATUS_PCIX_SPD_133 : Z := 0x00008000.
Definition IXGB_STATUS_BUS64 : Z := 0x00001000.
Definition IXGB_RCTL_RXEN : Z := 0x00000002.
Definition IXGB_RCTL_SBP : Z := 0x00000004.
Definition IXGB_RCTL_UPE : Z := 0x00000008.
Definition IXGB_RCTL_MPE : Z := 0x00000010.
Definition IXGB_RCTL_RDMTS_MASK : Z := 0x00000300.
Definition IXGB_RCTL_RDMTS_1_8 : Z := 0x00000200.
Definition IXGB_RCTL_RDMTS_1_4 : Z := 0x00000100.
Definition IXGB_RCTL_RDMTS_1_2 : Z := 0x00000000.
Definition IXGB_RCTL_BAM : Z := 0x00008000.
Definition IXGB_RCTL_VFE : Z := 0x00040000.
Definition IXGB_RCTL_CFIEN : Z := 0x00080000.
Definition IXGB_RCTL_BSIZE_MASK : Z := 0x00030000.
Definition IXGB_RCTL_BSIZE_4096 : Z := 0x00010000.
Definition IXGB_RCTL_BSIZE_8192 : Z := 0x00020000.
Definition IXGB_RCTL_BSIZE_16384 : Z := 0x00030000.
Definition IXGB_TCTL_TXEN : Z := 0x00000002.

Section regs.
Context {D : Type}.
Abbreviation P := (M D).

Definition ixgb_dump_regs_1 (regs : ereq) : P unit :=
  fprintf "MAC Registers\n" [];;
  fprintf "-------------\n" [];;
  reg ← regs_buff regs 0;
  fprintf ("0x00000: CTRL0 (Device control register) 0x%08X\n" +:+
     "      Link reset:                        %s\n" +:+
     "      VLAN mode:                         %s\n") [
     PI reg; PS (if reg &? IXGB_CTRL0_LRST then "reset" else "normal");
     PS (if reg &? IXGB_CTRL0_VME then "enabled" else "disabled")];;
  reg ← regs_buff regs 2;
  fprintf ("0x00010: STATUS (Device status register) 0x%08X\n" +:+
     "      Link up:                           %s\n" +:+
     "      Bus type:                          %s\n" +:+
     "      Bus speed:                         %s\n" +:+
     "      Bus width:                         %s\n") [
     PI reg; PS (if reg &? IXGB_STATUS_LU then "link config" else "no link config");
     PS (if reg &? IXGB_STATUS_PCIX_MODE then "PCI-X" else "PCI");
     PS (if reg &? IXGB_STATUS_PCIX_SPD_133 then "133MHz" else
         if reg &? IXGB_STATUS_PCIX_SPD_100 then "100MHz" else "66MHz");
     PS (if reg &? IXGB_STATUS_BUS64 then "64-bit" else "32-bit")];;
  reg ← regs_buff regs 9;
  fprintf ("0x00100: RCTL (Receive control register) 0x%08X\n" +:+
     "      Receiver:                          %s\n" +:+
     "      Store bad packets:                 %s\n" +:+
     "      Unicast promiscuous:               %s\n" +:+
     "      Multicast promiscuous:             %s\n" +:+
     "      Descriptor minimum threshold size: %s\n" +:+
     "      Broadcast accept mode:             %s\n" +:+
     "      VLAN filter:                       %s\n" +:+
     "      Cononical form indicator:          %s\n") [
     PI reg; PS (if reg &? IXGB_RCTL_RXEN then "enabled" else "disabled");
     PS (if reg &? IXGB_RCTL_SBP then "enabled" else "disabled");
     PS (if reg &? IXGB_RCTL_UPE then "enabled" else "disabled");
     PS (if reg &? IXGB_RCTL_MPE then "enabled" else "disabled");
     PS (if (Z.land reg IXGB_RCTL_RDMTS_MASK) =? IXGB_RCTL_RDMTS_1_2 then "1/2" else
         if (Z.land reg IXGB_RCTL_RDMTS_MASK) =? IXGB_RCTL_RDMTS_1_4 then "1/4" else
         if (Z.land reg IXGB_RCTL_RDMTS_MASK) =? IXGB_RCTL_RDMTS_1_8 then "1/8" else "reserved");
     PS (if reg &? IXGB_RCTL_BAM then "accept" else "ignore");
     PS (if reg &? IXGB_RCTL_VFE then "enabled" else "disabled");
     PS (if reg &? IXGB_RCTL_CFIEN then "enabled" else "disabled")];;
  fprintf "      Receive buffer size:               %s\n" [
     PS (if (Z.land reg IXGB_RCTL_BSIZE_MASK) =? IXGB_RCTL_BSIZE_16384 then "16384" else
         if (Z.land reg IXGB_RCTL_BSIZE_MASK) =? IXGB_RCTL_BSIZE_8192 then "8192" else
         if (Z.land reg IXGB_RCTL_BSIZE_MASK) =? IXGB_RCTL_BSIZE_4096 then "4096" else "2048")];;
  x0 ← regs_buff regs 14;
  fprintf "0x00120: RDLEN (Receive desc length)     0x%08X\n" [PI x0].

Definition ixgb_dump_regs_2 (regs : ereq) : P unit :=
  x0 ← regs_buff regs 15;
  fprintf "0x00128: RDH   (Receive desc head)       0x%08X\n" [PI x0];;
  x0 ← regs_buff regs 16;
  fprintf "0x00130: RDT   (Receive desc tail)       0x%08X\n" [PI x0];;
  x0 ← regs_buff regs 17;
  fprintf "0x00138: RDTR  (Receive delay timer)     0x%08X\n" [PI x0];;
  reg ← regs_buff regs 53;
  fprintf ("0x00600: TCTL (Transmit ctrl register)   0x%08X\n" +:+
     "      Transmitter:                       %s\n") [
     PI reg; PS (if reg &? IXGB_TCTL_TXEN then "enabled" else "disabled")];;
  x0 ← regs_buff regs 56;
  fprintf "0x00610: TDLEN (Transmit desc length)    0x%08X\n" [PI x0];;
  x0 ← regs_buff regs 57;
  fprintf "0x00618: TDH   (Transmit desc head)      0x%08X\n" [PI x0];;
  x0 ← regs_buff regs 58;
  fprintf "0x00620: TDT   (Transmit desc tail)      0x%08X\n" [PI x0];;
  x0 ← regs_buff regs 59;
  fprintf "0x00628: TIDV  (Transmit delay timer)    0x%08X\n" [PI x0].

Definition ixgb_dump_regs (info regs : ereq) : P Z :=
  let version := u8 (Z.shiftr (fld regs "version") 24) in
  if negb (version =? 1) then mret (-1)
  else
    ixgb_dump_regs_1 regs;;
    ixgb_dump_regs_2 regs;;
    mret 0.

Lemma ixgb_dump_regs_1_shows regs : 240 <= Z.of_nat (length (rq_arr regs)) -> shows (ixgb_dump_regs_1 regs) (fun _ => True).
Proof. intros Hl. unfold ixgb_dump_regs_1. regs_all. Qed.

Lemma ixgb_dump_regs_2_shows regs : 240 <= Z.of_nat (length (rq_arr regs)) -> shows (ixgb_dump_regs_2 regs) (fun _ => True).
Proof. intros Hl. unfold ixgb_dump_regs_2. regs_all. Qed.

#[local] Hint Resolve ixgb_dump_regs_1_shows ixgb_dump_regs_2_shows : shows.

Lemma ixgb_dumps : dumps 240 ixgb_dump_regs.
Proof. intros info regs Hl. unfold ixgb_dump_regs. regs_all. Qed.
End regs.
End EtIxgb.

(** * ethtool: registers of the e100 driver ([ethernet_test/ethtool/e100.c]) *)

Import Et EtS EtF.

Module EtE100.

Definition RU_STATUS : Z := 0x003c.
Definition CU_STATUS : Z := 0x00c0.
Definition FCP_INT_PENDING : Z := 0x0100.
Definition ER_INT_PENDING : Z := 0x0200.
Definition SWI_INT_PENDING : Z := 0x0400.
Definition MDI_INT_PENDING : Z := 0x0800.
Definition RNR_INT_PENDING : Z := 0x1000.
Definition CNA_INT_PENDING : Z := 0x2000.
Definition FR_INT_PENDING : Z := 0x4000.
Definition CX_INT_PENDING : Z := 0x8000.
Definition RU_CMD : Z := 0x0007.
Definition CU_CMD : Z := 0x00f0.
Definition SOFT_INT : Z := 0x0200.
Definition ALL_INT_MASK : Z := 0x0100.
Definition FCP_INT_MASK : Z := 0x0400.
Definition ER_INT_MASK : Z := 0x0800.
Definition RNR_INT_MASK : Z := 0x1000.
Definition CNA_INT_MASK : Z := 0x2000.
Definition FR_INT_MASK : Z := 0x4000.
Definition CX_INT_MASK : Z := 0x8000.
Definition D102_REV_ID : Z := 12.
Definition MDI_MDIX_CONFIG_IS_OK : Z := 0x0010.
Definition MDI_MDIX_STATUS : Z := 0x0020.

Section regs.
Context {D : Type}.
Abbreviation P := (M D).

Definition e100_scb (regs : ereq) (reg : Z) : P unit :=
  let scb_status := (u16 (Z.land reg 0x0000ffff)) in
  let scb_cmd := (u16 (Z.shiftr reg 16)) in
  fprintf "SCB Status Word (Lower Word)             0x%04X\n" [PI scb_status];;
  (let k := (Z.shiftr (Z.land scb_status RU_STATUS) 2) in
   if (k =? 0) then fprintf "      RU Status:               Idle\n" [] else
   if (k =? 1) then fprintf "      RU Status:               Suspended\n" [] else
   if (k =? 2) then fprintf "      RU Status:               No Resources\n" [] else
   if (k =? 4) then fprintf "      RU Status:               Ready\n" [] else
   if (k =? 9) then fprintf "      RU Status:               Suspended with no more RBDs\n" [] else
   if (k =? 10) then fprintf "      RU Status:               No Resources due to no more RBDs\n" [] else
   if (k =? 12) then fprintf "      RU Status:               Ready with no RBDs present\n" [] else
   fprintf "      RU Status:               Unknown State\n" []);;
  (let k := (Z.shiftr (Z.land scb_status CU_STATUS) 6) in
   if (k =? 0) then fprintf "      CU Status:               Idle\n" [] else
   if (k =? 1) then fprintf "      CU Status:               Suspended\n" [] else
   if (k =? 2) then fprintf "      CU Status:              Active\n" [] else
   fprintf "      CU Status:               Unknown State\n" []);;
  fprintf ("      ---- Interrupts Pending ----\n" +:+
     "      Flow Control Pause:                %s\n" +:+
     "      Early Receive:                     %s\n" +:+
     "      Software Generated Interrupt:      %s\n" +:+
     "      MDI Done:                          %s\n" +:+
     "      RU Not In Ready State:             %s\n" +:+
     "      CU Not in Active State:            %s\n" +:+
     "      RU Received Frame:                 %s\n" +:+
     "      CU Completed Command:              %s\n") [
     PS (if scb_status &? FCP_INT_PENDING then "yes" else "no");
     PS (if scb_status &? ER_INT_PENDING then "yes" else "no");
     PS (if scb_status &? SWI_INT_PENDING then "yes" else "no");
     PS (if scb_status &? MDI_INT_PENDING then "yes" else "no");
     PS (if scb_status &? RNR_INT_PENDING then "yes" else "no");
     PS (if scb_status &? CNA_INT_PENDING then "yes" else "no");
     PS (if scb_status &? FR_INT_PENDING then "yes" else "no");
     PS (if scb_status &? CX_INT_PENDING then "yes" else "no")];;
  fprintf "SCB Command Word (Upper Word)            0x%04X\n" [PI scb_cmd];;
  (let k := (Z.land scb_cmd RU_CMD) in
   if (k =? 0) then fprintf "      RU Command:              No Command\n" [] else
   if (k =? 1) then fprintf "      RU Command:              RU Start\n" [] else
   if (k =? 2) then fprintf "      RU Command:              RU Resume\n" [] else
   if (k =? 4) then fprintf "      RU Command:              RU Abort\n" [] else
   if (k =? 6) then fprintf "      RU Command:              Load RU Base\n" [] else
   fprintf "      RU Command:              Unknown\n" []);;
  (let k := (Z.shiftr (Z.land scb_cmd CU_CMD) 4) in
   if (k =? 0) then fprintf "      CU Command:              No Command\n" [] else
   if (k =? 1) then fprintf "      CU Command:              CU Start\n" [] else
   if (k =? 2) then fprintf "      CU Command:              CU Resume\n" [] else
   if (k =? 4) then fprintf "      CU Command:              Load Dump Counters Address\n" [] else
   if (k =? 5) then fprintf "      CU Command:              Dump Counters\n" [] else
   if (k =? 6) then fprintf "      CU Command:              Load CU Base\n" [] else
   if (k =? 7) then fprintf "      CU Command:              Dump & Reset Counters\n" [] else
   fprintf "      CU Command:              Unknown\n" []);;
  fprintf "      Software Generated Interrupt:      %s\n" [PS (if scb_cmd &? SOFT_INT then "yes" else "no")];;
  fprintf ("      ---- Interrupts Masked ----\n" +:+
     "      ALL Interrupts:                    %s\n" +:+
     "      Flow Control Pause:                %s\n" +:+
     "      Early Receive:                     %s\n" +:+
     "      RU Not In Ready State:             %s\n" +:+
     "      CU Not in Active State:            %s\n" +:+
     "      RU Received Frame:                 %s\n" +:+
     "      CU Completed Command:              %s\n") [
     PS (if scb_cmd &? ALL_INT_MASK then "yes" else "no");
     PS (if scb_cmd &? FCP_INT_MASK then "yes" else "no");
     PS (if scb_cmd &? ER_INT_MASK then "yes" else "no");
     PS (if scb_cmd &? RNR_INT_MASK then "yes" else "no");
     PS (if scb_cmd &? CNA_INT_MASK then "yes" else "no");
     PS (if scb_cmd &? FR_INT_MASK then "yes" else "no");
     PS (if scb_cmd &? CX_INT_MASK then "yes" else "no")].

Definition e100_mdi (regs : ereq) (regs_len : Z) (rev_id : Z) : P unit :=
  when (1 <? regs_len)
    (fprintf "MDI/MDI-X Status:                        " [];;
    (if (rev_id <? D102_REV_ID) then
      fprintf "MDI\n" []
    else
      x0 ← regs_buff regs 1;
      let ctrl_reg := (u16 x0) in
      (if (ctrl_reg &? MDI_MDIX_CONFIG_IS_OK) then
        (if (ctrl_reg &? MDI_MDIX_STATUS) then
          fprintf "MDI-X\n" []
        else
          fprintf "MDI\n" [])
      else
        fprintf "Unknown\n" []))).

(** The length in words is kept in 8 bits. *)
Definition e100_dump_regs (info regs : ereq) : P Z :=
  let version := u8 (Z.shiftr (fld regs "version") 24) in
  let rev_id := u8 (fld regs "version") in
  let regs_len := u8 (fld regs "len" / 4) in
  if negb (version =? 1) then mret (-1)
  else
    reg ← regs_buff regs 0;
    e100_scb regs reg;;
    e100_mdi regs regs_len rev_id;;
    mret 0.

Lemma e100_scb_shows regs reg : 8 <= Z.of_nat (length (rq_arr regs)) -> shows (e100_scb regs reg) (fun _ => True).
Proof. intros Hl. unfold e100_scb. regs_all. Qed.

Lemma e100_mdi_shows regs regs_len rev_id : 8 <= Z.of_nat (length (rq_arr regs)) -> shows (e100_mdi regs regs_len rev_id) (fun _ => True).
Proof. intros Hl. unfold e100_mdi. regs_all. Qed.

#[local] Hint Resolve e100_scb_shows e100_mdi_shows : shows.

Lemma e100_dumps : dumps 8 e100_dump_regs.
Proof. intros info regs Hl. unfold e100_dump_regs. regs_all. Qed.
End regs.
End EtE100.

(** * ethtool: registers of the amd8111e driver ([ethernet_test/ethtool/amd8111e.c]) *)

Import Et EtS EtF.

Module EtAmd.

Definition INTREN : Z := Z.shiftl 1 1.
Definition RUN : Z := Z.shiftl 1 0.
Definition PROM : Z := Z.shiftl 1 16.
Definition REX_UFLO : Z := Z.shiftl 1 1.
Definition JUMBO : Z := Z.shiftl 1 21.
Definition VLONLY : Z := Z.shiftl 1 19.
Definition VL_TAG_DEL : Z := Z.shiftl 1 18.
Definition INTR : Z := Z.shiftl 1 31.
Definition LCINT : Z := Z.shiftl 1 27.
Definition APINT0 : Z := Z.shiftl 1 20.
Definition TINT0 : Z := Z.shiftl 1 8.
Definition STINT : Z := Z.shiftl 1 4.
Definition RINT0 : Z := Z.shiftl 1 0.
Definition LCINTEN : Z := Z.shiftl 1 27.
Definition APINT0EN : Z := Z.shiftl 1 20.
Definition TINTEN0 : Z := Z.shiftl 1 8.
Definition STINTEN : Z := Z.shiftl 1 4.
Definition RINTEN0 : Z := Z.shiftl 1 0.
Definition LINK_STATS : Z := Z.shiftl 1 5.
Definition AUTONEG_COMPLETE : Z := Z.shiftl 1 4.
Definition FULL_DPLX : Z := Z.shiftl 1 6.
Definition SPEED_MASK : Z := Z.lor (Z.lor (Z.shiftl 1 9) (Z.shiftl 1 8)) (Z.shiftl 1 7).
Definition PHY_SPEED_10 : Z := 0x2.

Section regs.
Context {D : Type}.
Abbreviation P := (M D).

Definition amd8111e_dump_regs_1 (regs : ereq) : P unit :=
  fprintf "Descriptor Registers\n" [];;
  fprintf "---------------------\n" [];;
  reg ← regs_buff regs 0;
  fprintf "0x00100: Transmit descriptor base address register %08X\n" [PI reg];;
  reg ← regs_buff regs 1;
  fprintf "0x00140: Transmit descriptor length register 0x%08X\n" [PI reg];;
  reg ← regs_buff regs 2;
  fprintf "0x00120: Receive descriptor base address register %08X\n" [PI reg];;
  reg ← regs_buff regs 3;
  fprintf "0x00150: Receive descriptor length register 0x%08X\n" [PI reg];;
  fprintf "\n" [];;
  fprintf "Command Registers\n" [];;
  fprintf "-------------------\n" [];;
  reg ← regs_buff regs 4;
  fprintf ("0x00048: Command 0 register  0x%08X\n" +:+
     "	Interrupts:				%s\n" +:+
     "	Device:					%s\n") [
     PI reg; PS (if reg &? INTREN then "Enabled" else "Disabled");
     PS (if reg &? RUN then "Running" else "Stopped")];;
  reg ← regs_buff regs 5;
  fprintf ("0x00050: Command 2 register  0x%08X\n" +:+
     "	Promiscuous mode:			%s\n" +:+
     "	Retransmit on underflow:		%s\n") [
     PI reg; PS (if reg &? PROM then "Enabled" else "Disabled");
     PS (if reg &? REX_UFLO then "Enabled" else "Disabled")];;
  reg ← regs_buff regs 6;
  fprintf ("0x00054: Command 3 register  0x%08X\n" +:+
     "	Jumbo frame:				%s\n" +:+
     "	Admit only VLAN frame:	 		%s\n" +:+
     "	Delete VLAN tag:			%s\n") [
     PI reg; PS (if reg &? JUMBO then "Enabled" else "Disabled");
     PS (if reg &? VLONLY then "Yes" else "No"); PS (if reg &? VL_TAG_DEL then "Yes" else "No")];;
  reg ← regs_buff regs 7;
  fprintf "0x00064: Command 7 register  0x%08X\n" [PI reg].

Definition amd8111e_dump_regs_2 (regs : ereq) : P unit :=
  fprintf "\n" [];;
  fprintf "Interrupt Registers\n" [];;
  fprintf "-------------------\n" [];;
  reg ← regs_buff regs 8;
  fprintf ("0x00038: Interrupt register  0x%08X\n" +:+
     "	Any interrupt is set: 			%s\n" +:+
     "	Link change interrupt:	  		%s\n" +:+
     "	Register 0 auto-poll interrupt:		%s\n" +:+
     "	Transmit interrupt:			%s\n" +:+
     "	Software timer interrupt:		%s\n" +:+
     "	Receive interrupt:			%s\n") [
     PI reg; PS (if reg &? INTR then "Yes" else "No"); PS (if reg &? LCINT then "Yes" else "No");
     PS (if reg &? APINT0 then "Yes" else "No"); PS (if reg &? TINT0 then "Yes" else "No");
     PS (if reg &? STINT then "Yes" else "No"); PS (if reg &? RINT0 then "Yes" else "No")];;
  reg ← regs_buff regs 9;
  fprintf ("0x00040: Interrupt enable register  0x%08X\n" +:+
     "	Link change interrupt:	  		%s\n" +:+
     "	Register 0 auto-poll interrupt:		%s\n" +:+
     "	Transmit interrupt:			%s\n" +:+
     "	Software timer interrupt:		%s\n" +:+
     "	Receive interrupt:			%s\n") [
     PI reg; PS (if reg &? LCINTEN then "Enabled" else "Disabled");
     PS (if reg &? APINT0EN then "Enabled" else "Disabled");
     PS (if reg &? TINTEN0 then "Enabled" else "Disabled");
     PS (if reg &? STINTEN then "Enabled" else "Disabled");
     PS (if reg &? RINTEN0 then "Enabled" else "Disabled")];;
  fprintf "\n" [];;
  fprintf "Logical Address Filter Register\n" [];;
  fprintf "-------------------\n" [];;
  x0 ← regs_buff regs 11;
  x1 ← regs_buff regs 10;
  fprintf "0x00168: Logical address filter register  0x%08X%08X\n" [PI x0; PI x1];;
  fprintf "\n" [];;
  fprintf "Link status Register\n" [];;
  fprintf "-------------------\n" [];;
  reg ← regs_buff regs 12;
  (if (reg &? LINK_STATS) then
    fprintf ("0x00030: Link status register  0x%08X\n" +:+
       "	Link status:	  		%s\n" +:+
       "	Auto negotiation complete	%s\n" +:+
       "	Duplex				%s\n" +:+
       "	Speed				%s\n") [
       PI reg; PS (if reg &? LINK_STATS then "Valid" else "Invalid");
       PS (if reg &? AUTONEG_COMPLETE then "Yes" else "No");
       PS (if reg &? FULL_DPLX then "Full" else "Half");
       PS (if (Z.shiftr (Z.land reg SPEED_MASK) 7) =? PHY_SPEED_10 then "10Mbits/ Sec" else "100Mbits/Sec")]
  else
    fprintf ("0x00030: Link status register  0x%08X\n" +:+
       "	Link status:	  		%s\n") [
       PI reg; PS (if reg &? LINK_STATS then "Valid" else "Invalid")]).

Definition amd8111e_dump_regs (info regs : ereq) : P Z :=
  amd8111e_dump_regs_1 regs;;
  amd8111e_dump_regs_2 regs;;
  mret 0.

Lemma amd8111e_dump_regs_1_shows regs : 52 <= Z.of_nat (length (rq_arr regs)) -> shows (amd8111e_dump_regs_1 regs) (fun _ => True).
Proof. intros Hl. unfold amd8111e_dump_regs_1. regs_all. Qed.

Lemma amd8111e_dump_regs_2_shows regs : 52 <= Z.of_nat (length (rq_arr regs)) -> shows (amd8111e_dump_regs_2 regs) (fun _ => True).
Proof. intros Hl. unfold amd8111e_dump_regs_2. regs_all. Qed.

#[local] Hint Resolve amd8111e_dump_regs_1_shows amd8111e_dump_regs_2_shows : shows.

Lemma amd8111e_dumps : dumps 52 amd8111e_dump_regs.
Proof. intros info regs Hl. unfold amd8111e_dump_regs. regs_all. Qed.
End regs.
End EtAmd.

(** * ethtool: registers of the skge and sky2 drivers ([ethernet_test/ethtool/marvell.c])

    A pointer into the dump is an offset; a field of a structure is read at its
    offset. *)

Import Et EtS EtF.

Module EtMarvell.

(** The names of the registers of a GMAC FIFO. *)
Definition gmac_fifo_regs : list string := [
  "End Address"; "Almost Full Thresh"; "Control/Test"; "FIFO Flush Mask"; "FIFO Flush Threshold"; "Truncation Threshold";
  "Upper Pause Threshold"; "Lower Pause Threshold"; "VLAN Tag"; "FIFO Write Pointer"; "FIFO Write Level";
  "FIFO Read Pointer"; "FIFO Read Level"].

Definition chip_name (id : Z) : string :=
  if id =? 0x0a then "Genesis"
  else if id =? 0xb0 then "Yukon"
  else if id =? 0xb1 then "Yukon-Lite"
  else if id =? 0xb2 then "Yukon-LP"
  else if id =? 0xb3 then "Yukon-2 XL"
  else if id =? 0xb5 then "Yukon Extreme"
  else if id =? 0xb4 then "Yukon-2 EC Ultra"
  else if id =? 0xb6 then "Yukon-2 EC"
  else if id =? 0xb7 then "Yukon-2 FE"
  else if id =? 0xb8 then "Yukon-2 FE Plus"
  else if id =? 0xb9 then "Yukon Supreme"
  else if id =? 0xba then "Yukon Ultra 2"
  else if id =? 0xbc then "Yukon Optima"
  else "(Unknown)".

Section regs.
Context {D : Type}.
Abbreviation P := (M D).
(** The registers ([regs->data]). *)
Context (data : list Z).

Definition b8 (off : Z) : P Z := ld 1 data off.
Definition h16 (off : Z) : P Z := ld 2 data off.
Definition w32 (off : Z) : P Z := ld 4 data off.

Definition dump_addr (n a : Z) : P unit :=
  fprintf "Addr %d            " [PI n];;
  for_ 6%nat 0 (fun i => x ← b8 (a + i); fprintf "%02X%c" [PI x; PI (if i =? 5 then 10 else 32)]).

Definition dump_timer (name : string) (p : Z) : P unit :=
  fprintf "%s\n" [PS name];;
  r0 ← w32 p; r1 ← w32 (p + 4);
  fprintf "\tInit 0x%08X Value 0x%08X\n" [PI r0; PI r1];;
  a8 ← b8 (p + 8); a9 ← b8 (p + 9);
  fprintf "\tTest 0x%02X       Control 0x%02X\n" [PI a8; PI a9].

(** [struct desc]: ctl 0, next 4, data_lo 8, data_hi 12, status 16, timestamp 20,
    csum2 24, csum1 26, csum2_start 28, csum1_start 30, addr_lo 32, addr_hi 36,
    count_lo 40, count_hi 44, byte_count 48, csr 52, flag 56. *)
Definition dump_queue (name : string) (a rx : Z) : P unit :=
  ctl ← w32 a;
  if negb (ctl &? 2) then fprintf "\n%s (disabled)\n" [PS name]
  else
    fprintf "\n%s\n" [PS name];;
    fprintf "---------------\n" [];;
    addr_hi ← w32 (a + 36); addr_lo ← w32 (a + 32);
    fprintf "Descriptor Address       0x%08X%08X\n" [PI addr_hi; PI addr_lo];;
    count_hi ← w32 (a + 44); count_lo ← w32 (a + 40);
    fprintf "Address Counter          0x%08X%08X\n" [PI count_hi; PI count_lo];;
    byte_count ← w32 (a + 48);
    fprintf "Current Byte Counter             %d\n" [PI byte_count];;
    csr ← w32 (a + 52);
    fprintf "BMU Control/Status               0x%08X\n" [PI csr];;
    flag ← w32 (a + 56);
    fprintf "Flag & FIFO Address              0x%08X\n" [PI flag];;
    fprintf "\n" [];;
    fprintf "Control                          0x%08X\n" [PI ctl];;
    next ← w32 (a + 4);
    fprintf "Next                             0x%08X\n" [PI next];;
    data_hi ← w32 (a + 12); data_lo ← w32 (a + 8);
    fprintf "Data                     0x%08X%08X\n" [PI data_hi; PI data_lo];;
    status ← w32 (a + 16);
    fprintf "Status                           0x%08X\n" [PI status];;
    timestamp ← w32 (a + 20);
    fprintf "Timestamp                        0x%08X\n" [PI timestamp];;
    csum2 ← h16 (a + 24); csum1 ← h16 (a + 26); csum2_start ← h16 (a + 28); csum1_start ← h16 (a + 30);
    if truth rx then
      fprintf "Csum1      Offset %4d Position  %d\n" [PI csum1; PI csum1_start];;
      fprintf "Csum2      Offset %4d Position  %d\n" [PI csum2; PI csum2_start]
    else fprintf "Csum Start 0x%04X Pos %4d Write %d\n" [PI csum1; PI csum2_start; PI csum1_start].

(** Words shown one after the other from offset [p], each with its format. *)
Fixpoint show_words (p : Z) (formats : list string) : P unit :=
  match formats with
  | [] => mret tt
  | f :: formats' => x ← w32 p; fprintf f [PI x];; show_words (p + 4) formats'
  end.

Definition dump_ram (name : string) (p : Z) : P unit :=
  r10 ← w32 (p + 40);
  if negb (r10 &? 2) then fprintf "\n%s (disabled)\n" [PS name]
  else
    fprintf "\n%s\n" [PS name];;
    fprintf "---------------\n" [];;
    show_words p ["Start Address                    0x%08X\n"; "End Address                      0x%08X\n";
      "Write Pointer                    0x%08X\n"; "Read Pointer                     0x%08X\n"];;
    when (char_at0 name =? 82)
      (show_words (p + 16) ["Upper Threshold/Pause Packets    0x%08X\n"; "Lower Threshold/Pause Packets    0x%08X\n";
         "Upper Threshold/High Priority    0x%08X\n"; "Lower Threshold/High Priority    0x%08X\n"]);;
    show_words (p + 32) ["Packet Counter                   0x%08X\n"; "Level                            0x%08X\n";
      "Control                          0x%08X\n"].

Definition dump_fifo (name : string) (p : Z) : P unit :=
  fprintf "\n%s\n" [PS name];;
  fprintf "---------------\n" [];;
  show_words p ["End Address                      0x%08X\n"; "Write Pointer                    0x%08X\n";
    "Read Pointer                     0x%08X\n"; "Packet Counter                   0x%08X\n";
    "Level                            0x%08X\n"; "Control                          0x%08X\n";
    "Control/Test                     0x%08X\n"];;
  dump_timer "LED" (p + 0x20).

Fixpoint show_named (p : Z) (names : list string) : P unit :=
  match names with
  | [] => mret tt
  | n :: names' => x ← w32 p; fprintf "%-32s 0x%08X\n" [PS n; PI x];; show_named (p + 4) names'
  end.
Definition dump_gmac_fifo (name : string) (p : Z) : P unit :=
  fprintf "\n%s\n" [PS name];;
  show_named p gmac_fifo_regs.

Definition dump_mac (r : Z) : P unit :=
  fprintf "\nMAC Addresses\n" [];;
  fprintf "---------------\n" [];;
  dump_addr 1 (r + 0x100);;
  dump_addr 2 (r + 0x108);;
  dump_addr 3 (r + 0x110);;
  fprintf "\n" [];;
  x118 ← b8 (r + 0x118);
  fprintf "Connector type               0x%02X (%c)\n" [PI x118; PI x118];;
  x119 ← b8 (r + 0x119);
  fprintf "PMD type                     0x%02X (%c)\n" [PI x119; PI x119];;
  x11d ← b8 (r + 0x11d);
  fprintf "PHY type                     0x%02X\n" [PI x11d];;
  id ← b8 (r + 0x11b);
  fprintf "Chip Id                      0x%02X " [PI id];;
  printf (chip_name id);;
  x11a ← b8 (r + 0x11a);
  fprintf " (rev %d)\n" [PI (Z.shiftr (Z.land x11a 0xf0) 4)];;
  x11c ← b8 (r + 0x11c);
  fprintf "Ram Buffer                   0x%02X\n" [PI x11c].

Definition dump_gma (name : string) (r : Z) : P unit :=
  fprintf "%12s address: " [PS name];;
  for_ 3%nat 0 (fun i =>
    a ← h16 (r + i * 4);
    fprintf " %02X %02X" [PI (Z.land a 0xff); PI (Z.land (Z.shiftr a 8) 0xff)]);;
  fprintf "\n" [].

Definition dump_gmac (name : string) (r : Z) : P unit :=
  fprintf "\n%s\n" [PS name];;
  x ← h16 r; fprintf "Status                       0x%04X\n" [PI x];;
  x ← h16 (r + 4); fprintf "Control                      0x%04X\n" [PI x];;
  x ← h16 (r + 8); fprintf "Transmit                     0x%04X\n" [PI x];;
  x ← h16 (r + 0xc); fprintf "Receive                      0x%04X\n" [PI x];;
  x ← h16 (r + 0x10); fprintf "Transmit flow control        0x%04X\n" [PI x];;
  x ← h16 (r + 0x14); fprintf "Transmit parameter           0x%04X\n" [PI x];;
  x ← h16 (r + 0x18); fprintf "Serial mode                  0x%04X\n" [PI x];;
  dump_gma "Source" (r + 0x1c);;
  dump_gma "Physical" (r + 0x28).

Definition dump_pci (cfg : Z) : P unit :=
  fprintf "\nPCI config\n----------\n" [];;
  for_ (Z.to_nat 0x80) 0 (fun i =>
    when (negb (i &? 15)) (fprintf "%02x:" [PI i]);;
    x ← b8 (cfg + i);
    fprintf " %02x" [PI x];;
    when (Z.land i 15 =? 15) (fprintf "\n" []));;
  fprintf "\n" [].

Definition dump_control (r : Z) : P unit :=
  fprintf "Control Registers\n" [];;
  fprintf "-----------------\n" [];;
  x ← b8 r; fprintf "Register Access Port             0x%02X\n" [PI x];;
  x ← w32 (r + 4); fprintf "LED Control/Status               0x%08X\n" [PI x];;
  x ← w32 (r + 8); fprintf "Interrupt Source                 0x%08X\n" [PI x];;
  x ← w32 (r + 0xc); fprintf "Interrupt Mask                   0x%08X\n" [PI x];;
  x ← w32 (r + 0x10); fprintf "Interrupt Hardware Error Source  0x%08X\n" [PI x];;
  x ← w32 (r + 0x14); fprintf "Interrupt Hardware Error Mask    0x%08X\n" [PI x];;
  x ← w32 (r + 0x2c); fprintf "Interrupt Control                0x%08X\n" [PI x];;
  x ← w32 (r + 0x14c); fprintf "Interrupt Moderation Mask        0x%08X\n" [PI x];;
  x ← w32 (r + 0x150); fprintf "Hardware Moderation Mask         0x%08X\n" [PI x];;
  dump_timer "Moderation Timer" (r + 0x140);;
  x ← w32 (r + 0x15c); fprintf "General Purpose  I/O             0x%08X\n" [PI x].

(** The bus management unit: the words of the first link, and of the second. *)
Definition dump_bmu : P unit :=
  fprintf "\nBus Management Unit\n" [];;
  fprintf "-------------------\n" [];;
  x ← w32 (4 * 24); fprintf "CSR Receive Queue 1              0x%08X\n" [PI x];;
  x ← w32 (4 * 26); fprintf "CSR Sync Queue 1                 0x%08X\n" [PI x];;
  x ← w32 (4 * 27); fprintf "CSR Async Queue 1                0x%08X\n" [PI x].
Definition dump_bmu2 : P unit :=
  x ← w32 (4 * 25); fprintf "CSR Receive Queue 2              0x%08X\n" [PI x];;
  x ← w32 (4 * 29); fprintf "CSR Async Queue 2                0x%08X\n" [PI x];;
  x ← w32 (4 * 28); fprintf "CSR Sync Queue 2                 0x%08X\n" [PI x].

(** ** skge *)

Definition skge_dual : P unit :=
  dump_gmac "GMAC 1" 0x2800;;
  dump_queue "Receive Queue 2" 0x480 1;;
  dump_queue "Async Transmit Queue 2" 0x780 0;;
  dump_queue "Sync Transmit Queue 2" 0x700 0;;
  dump_ram "Receive RAMbuffer 2" 0x880;;
  dump_ram "Sync Transmit RAMbuffer 2" 0xb00;;
  dump_ram "Async Transmit RAMbuffer 21" 0xb80;;
  dump_fifo "Receive MAC FIFO 2" 0xc80;;
  dump_fifo "Transmit MAC FIFO 2" 0xd80.

Definition skge_dump : P Z :=
  x ← b8 0x11a;
  let dual := negb (x &? 1) in
  dump_pci 0x380;;
  dump_control 0;;
  dump_bmu;;
  when dual dump_bmu2;;
  dump_mac 0;;
  dump_gmac "GMAC 1" 0x2800;;
  dump_timer "Timer" 0x130;;
  dump_timer "Blink Source" 0x170;;
  dump_queue "Receive Queue 1" 0x400 1;;
  dump_queue "Sync Transmit Queue 1" 0x600 0;;
  dump_queue "Async Transmit Queue 1" 0x680 0;;
  dump_ram "Receive RAMbuffer 1" 0x800;;
  dump_ram "Sync Transmit RAMbuffer 1" 0xa00;;
  dump_ram "Async Transmit RAMbuffer 1" 0xa80;;
  dump_fifo "Receive MAC FIFO 1" 0xc00;;
  dump_fifo "Transmit MAC FIFO 1" 0xd00;;
  when dual skge_dual;;
  dump_timer "Descriptor Poll" 0xe00;;
  mret 0.

(** ** sky2 *)

(** [struct sky2_queue]: buf_control 0, byte_count 2, rss 4, addr_lo 8, addr_hi
    12, status 16, timestamp 20, csum1 24, csum2 26, csum1_start 28, csum2_start
    30, length 32, vlan 34, rsvd1 36, done 38, req_lo 40, req_hi 44, rsvd2 48,
    req_count 50, csr 52. *)
Definition dump_queue2 (name : string) (a rx : Z) : P unit :=
  fprintf "\n%s\n" [PS name];;
  fprintf "---------------\n" [];;
  buf_control ← h16 a;
  fprintf "Buffer control                   0x%04X\n" [PI buf_control];;
  byte_count ← h16 (a + 2);
  fprintf "Byte Counter                     %d\n" [PI byte_count];;
  addr_hi ← w32 (a + 12); addr_lo ← w32 (a + 8);
  fprintf "Descriptor Address               0x%08X%08X\n" [PI addr_hi; PI addr_lo];;
  status ← w32 (a + 16);
  fprintf "Status                           0x%08X\n" [PI status];;
  timestamp ← w32 (a + 20);
  fprintf "Timestamp                        0x%08X\n" [PI timestamp];;
  csr ← w32 (a + 52);
  fprintf "BMU Control/Status               0x%08X\n" [PI csr];;
  done ← h16 (a + 38);
  fprintf "Done                             0x%04X\n" [PI done];;
  req_hi ← w32 (a + 44); req_lo ← w32 (a + 40);
  fprintf "Request                          0x%08X%08X\n" [PI req_hi; PI req_lo];;
  csum1 ← h16 (a + 24); csum2 ← h16 (a + 26); csum1_start ← h16 (a + 28); csum2_start ← h16 (a + 30);
  if truth rx then
    fprintf "Csum1      Offset %4d Position  %d\n" [PI csum1; PI csum1_start];;
    fprintf "Csum2      Offset %4d Position  %d\n" [PI csum2; PI csum2_start]
  else fprintf "Csum Start 0x%04X Pos %4d Write %d\n" [PI csum1; PI csum2_start; PI csum1_start].

Definition dump_prefetch (name : string) (r : Z) : P unit :=
  fprintf "\n%s Prefetch\n" [PS name];;
  show_words r ["Control               0x%08X\n"; "Last Index            %u\n"];;
  reg3 ← w32 (r + 12); reg2 ← w32 (r + 8);
  fprintf "Start Address         0x%08x%08x\n" [PI reg3; PI reg2];;
  if char_at0 name =? 83 then
    show_words (r + 16) ["TX1 report            %u\n"; "TX2 report            %u\n"; "TX threshold          %u\n";
      "Put Index             %u\n"]
  else show_words (r + 16) ["Get Index             %u\n"; "Put Index             %u\n"].

Definition sky2_status_fifo : P unit :=
  fprintf "\nStatus FIFO\n" [];;
  x ← b8 0xea0; fprintf "\tWrite Pointer            0x%02X\n" [PI x];;
  x ← b8 0xea4; fprintf "\tRead Pointer             0x%02X\n" [PI x];;
  x ← b8 0xea8; fprintf "\tLevel                    0x%02X\n" [PI x];;
  x ← b8 0xeac; fprintf "\tWatermark                0x%02X\n" [PI x];;
  x ← b8 0xead; fprintf "\tISR Watermark            0x%02X\n" [PI x].

Definition sky2_link : P unit :=
  x ← w32 0xf00; fprintf "\nGMAC control             0x%04X\n" [PI x];;
  x ← w32 0xf04; fprintf "GPHY control             0x%04X\n" [PI x];;
  x ← h16 0xf10; fprintf "LINK control             0x%02hX\n" [PI x].

Definition sky2_dual : P unit :=
  dump_ram "Receive RAMbuffer 2" 0x880;;
  dump_ram "Sync Transmit RAMbuffer 2" 0xb00;;
  dump_ram "Async Transmit RAMbuffer 21" 0xb80;;
  dump_gmac "GMAC 2" 0x3800;;
  dump_gmac_fifo "Rx GMAC 2" (0xc40 + 128);;
  dump_gmac_fifo "Tx GMAC 2" (0xd40 + 128).

Definition sky2_dump : P Z :=
  dump_pci 0x1c00;;
  dump_control 0;;
  dump_bmu;;
  x ← b8 0x11e;
  let dual := x &? 2 in
  when dual dump_bmu2;;
  dump_mac 0;;
  dump_prefetch "Status" 0xe80;;
  dump_prefetch "Receive 1" 0x450;;
  dump_prefetch "Transmit 1" (0x450 + 0x280);;
  when dual (dump_prefetch "Receive 2" (0x450 + 0x80);; dump_prefetch "Transmit 2" (0x450 + 0x380));;
  sky2_status_fifo;;
  dump_timer "Status level" 0xeb0;;
  dump_timer "TX status" 0xec0;;
  dump_timer "ISR" 0xed0;;
  sky2_link;;
  dump_gmac "GMAC 1" 0x2800;;
  dump_gmac_fifo "Rx GMAC 1" 0xc40;;
  dump_gmac_fifo "Tx GMAC 1" 0xd40;;
  dump_queue2 "Receive Queue 1" 0x400 1;;
  dump_queue "Sync Transmit Queue 1" 0x600 0;;
  dump_queue2 "Async Transmit Queue 1" 0x680 0;;
  dump_ram "Receive RAMbuffer 1" 0x800;;
  dump_ram "Sync Transmit RAMbuffer 1" 0xa00;;
  dump_ram "Async Transmit RAMbuffer 1" 0xa80;;
  when dual sky2_dual;;
  mret 0.

(** ** The blocks are read inside the dump *)

Definition inside (off n : Z) : Prop := 0 <= off /\ off + n <= Z.of_nat (length data).

Ltac marvell :=
  repeat (shows_step || (progress cbv beta zeta) || (unfold b8, h16, w32; apply shows_ld; [lia|lia|done])); auto with shows.

Lemma dump_addr_shows n a : inside a 6 -> shows (dump_addr n a) (fun _ => True).
Proof. intros [??]. unfold dump_addr. marvell. Qed.

Lemma dump_timer_shows name p : inside p 10 -> shows (dump_timer name p) (fun _ => True).
Proof. intros [??]. unfold dump_timer. marvell. Qed.

Lemma dump_queue_shows name a rx : inside a 60 -> shows (dump_queue name a rx) (fun _ => True).
Proof. intros [??]. unfold dump_queue. marvell. Qed.

Lemma dump_queue2_shows name a rx : inside a 56 -> shows (dump_queue2 name a rx) (fun _ => True).
Proof. intros [??]. unfold dump_queue2. marvell. Qed.

Lemma show_words_shows p formats : forallb (fun f => fmt_ok f [true]) formats = true ->
  inside p (4 * Z.of_nat (length formats)) -> shows (show_words p formats) (fun _ => True).
Proof.
  revert p. induction formats as [|f formats IH]; intros p Hf [Hp Hl]; cbn [show_words]; [by apply shows_ret|].
  cbn [forallb length] in Hf, Hl. apply andb_true_iff in Hf as [Hf1 Hf2].
  apply shows_seq; [apply shows_ld; [lia|lia|done]|]. intros x. apply shows_seq; [by apply shows_fprintf|]. intros _.
  apply IH; [done|split; lia].
Qed.

Lemma show_named_shows p names : inside p (4 * Z.of_nat (length names)) -> shows (show_named p names) (fun _ => True).
Proof.
  revert p. induction names as [|n names IH]; intros p [Hp Hl]; cbn [show_named]; [by apply shows_ret|].
  cbn [length] in Hl. apply shows_seq; [apply shows_ld; [lia|lia|done]|]. intros x.
  apply shows_seq; [by apply shows_fprintf|]. intros _. apply IH. split; lia.
Qed.

Ltac words := apply show_words_shows; [vm_compute; reflexivity|split; cbn; lia].

Lemma dump_ram_shows name p : inside p 44 -> shows (dump_ram name p) (fun _ => True).
Proof. intros [??]. unfold dump_ram. marvell; words. Qed.

Lemma dump_fifo_shows name p : inside p 42 -> shows (dump_fifo name p) (fun _ => True).
Proof. intros [??]. unfold dump_fifo. marvell; [words|apply dump_timer_shows; split; lia]. Qed.

Lemma dump_gmac_fifo_shows name p : inside p 52 -> shows (dump_gmac_fifo name p) (fun _ => True).
Proof. intros [??]. unfold dump_gmac_fifo. marvell. apply show_named_shows. split; cbn; lia. Qed.

Lemma dump_prefetch_shows name r : inside r 32 -> shows (dump_prefetch name r) (fun _ => True).
Proof. intros [??]. unfold dump_prefetch. marvell; words. Qed.

Lemma dump_gma_shows name r : inside r 10 -> shows (dump_gma name r) (fun _ => True).
Proof. intros [??]. unfold dump_gma. marvell. Qed.

Lemma dump_gmac_shows name r : inside r 50 -> shows (dump_gmac name r) (fun _ => True).
Proof. intros [??]. unfold dump_gmac. marvell; apply dump_gma_shows; split; lia. Qed.

Lemma dump_pci_shows cfg : inside cfg 128 -> shows (dump_pci cfg) (fun _ => True).
Proof. intros [??]. unfold dump_pci. marvell. Qed.

Lemma dump_mac_shows r : inside r 0x11e -> shows (dump_mac r) (fun _ => True).
Proof. intros [??]. unfold dump_mac. marvell; apply dump_addr_shows; split; lia. Qed.

Lemma dump_control_shows r : inside r 0x160 -> shows (dump_control r) (fun _ => True).
Proof. intros [??]. unfold dump_control. marvell; apply dump_timer_shows; split; lia. Qed.

#[local] Hint Extern 1 (inside _ _) => split; [lia|lia] : shows.
#[local] Hint Resolve dump_timer_shows dump_queue_shows dump_queue2_shows dump_ram_shows dump_fifo_shows dump_gmac_fifo_shows
  dump_prefetch_shows dump_gmac_shows dump_pci_shows dump_mac_shows dump_control_shows : shows.

Lemma skge_shows : 0x2832 <= Z.of_nat (length data) -> shows skge_dump (fun _ => True).
Proof. intros Hl. unfold skge_dump, skge_dual, dump_bmu, dump_bmu2. marvell. Qed.

Lemma sky2_shows : 0x3832 <= Z.of_nat (length data) -> shows sky2_dump (fun _ => True).
Proof. intros Hl. unfold sky2_dump, sky2_dual, sky2_status_fifo, sky2_link, dump_bmu, dump_bmu2. marvell. Qed.
End regs.

Definition skge_dump_regs {D} (info regs : ereq) : M D Z := skge_dump (rq_arr regs).
Definition sky2_dump_regs {D} (info regs : ereq) : M D Z := sky2_dump (rq_arr regs).

Lemma skge_dumps {D} : dumps (D := D) 0x2832 skge_dump_regs.
Proof. intros info regs Hl. by apply skge_shows. Qed.

Lemma sky2_dumps {D} : dumps (D := D) 0x3832 sky2_dump_regs.
Proof. intros info regs Hl. by apply sky2_shows. Qed.
End EtMarvell.

(** * ethtool: registers of the ibm_emac driver ([ethernet_test/ethtool/ibm_emac.c])

    The dump is a sequence of blocks, each behind a header of two words; which
    optional blocks follow is said by the first word. A pointer into the dump is
    an offset. *)

Import Et EtS EtF.

Module EtEmac.

Definition EMAC_ETHTOOL_REGS_ZMII : Z := 0x00000001.
Definition EMAC_ETHTOOL_REGS_RGMII : Z := 0x00000002.
Definition EMAC_ETHTOOL_REGS_TAH : Z := 0x00000004.

(** The words of the structures, in order. *)
Definition emac_regs : list string := [
  "mr0"; "mr1"; "tmr0"; "tmr1"; "rmr"; "isr"; "iser"; "iahr"; "ialr"; "vtpid"; "vtci"; "ptr"; "iaht1"; "iaht2"; "iaht3";
  "iaht4"; "gaht1"; "gaht2"; "gaht3"; "gaht4"; "lsah"; "lsal"; "ipgvr"; "stacr"; "trtr"; "rwmr"; "octx"; "ocrx"; "ipcr"].
Definition mal_regs : list string := [
  "tx_count"; "rx_count"; "cfg"; "esr"; "ier"; "tx_casr"; "tx_carr"; "tx_eobisr"; "tx_deir"; "rx_casr"; "rx_carr";
  "rx_eobisr"; "rx_deir"].
(** Behind [mal_regs]: [tx_ctpr], [rx_ctpr] and [rcbs], 32 words each. *)
Definition tx_ctpr : Z := 13.
Definition rx_ctpr : Z := tx_ctpr + 32.
Definition rcbs : Z := rx_ctpr + 32.
Definition sizeof_mal_regs : Z := 4 * (rcbs + 32).
Definition zmii_regs : list string := ["fer"; "ssr"; "smiisr"].
Definition rgmii_regs : list string := ["fer"; "ssr"].
Definition tah_regs : list string := [
  "revid"; "pad"; "pad"; "pad"; "mr"; "ssr0"; "ssr1"; "ssr2"; "ssr3"; "ssr4"; "ssr5"; "tsr"].

(** The position of a field. *)
Fixpoint word_of (l : list string) (x : string) : Z :=
  match l with
  | [] => 0
  | f :: l' => if streq f x then 0 else 1 + word_of l' x
  end.

Section regs.
Context {D : Type}.
Abbreviation P := (M D).
Context (data : list Z).

(** Field [x] of a structure at [p]. *)
Definition get (l : list string) (p : Z) (x : string) : P Z := ld 4 data (p + 4 * word_of l x).
Fixpoint get_all (l : list string) (p : Z) (xs : list string) : P (list parg) :=
  match xs with
  | [] => mret []
  | x :: xs' => v ← get l p x; vs ← get_all l p xs'; mret (PI v :: vs)
  end.
Definition hdr_version (buf : Z) : P Z := ld 4 data buf.
Definition hdr_index (buf : Z) : P Z := ld 4 data (buf + 4).

Definition print_emac_regs (buf : Z) : P Z :=
  let p := buf + 8 in
  let res := p + 4 * Z.of_nat (length emac_regs) in
  index ← hdr_index buf;
  fprintf "EMAC%d Registers\n" [PI index];;
  fprintf "-----------------\n" [];;
  a ← get_all emac_regs p ["mr0"; "mr1"; "rmr"; "isr"; "iser"; "tmr0"; "tmr1"; "trtr"; "rwmr"; "iahr"; "ialr"; "lsah"; "lsal";
        "iaht1"; "iaht2"; "iaht3"; "iaht4"; "gaht1"; "gaht2"; "gaht3"; "gaht4"; "vtpid"; "vtci"; "ipgvr"; "stacr"; "octx";
        "ocrx"];
  fprintf ("MR0   = 0x%08x MR1  = 0x%08x RMR = 0x%08x\n" +:+
     "ISR   = 0x%08x ISER = 0x%08x\n" +:+
     "TMR0  = 0x%08x TMR1 = 0x%08x\n" +:+
     "TRTR  = 0x%08x RWMR = 0x%08x\n" +:+
     "IAR   = %04x%08x\n" +:+
     "LSA   = %04x%08x\n" +:+
     "IAHT  = 0x%04x 0x%04x 0x%04x 0x%04x\n" +:+
     "GAHT  = 0x%04x 0x%04x 0x%04x 0x%04x\n" +:+
     "VTPID = 0x%04x VTCI = 0x%04x\n" +:+
     "IPGVR = 0x%04x STACR = 0x%08x\n" +:+
     "OCTX  = 0x%08x OCRX = 0x%08x\n") a;;
  version ← hdr_version buf;
  if truth version then
    ipcr ← get emac_regs p "ipcr";
    fprintf " IPCR = 0x%08x\n\n" [PI ipcr];;
    mret res
  else
    fprintf "\n\n" [];;
    mret (res - 4).

(** A row of channel registers; [cols] of them to a line. *)
Definition channel_row (n cols : Z) (f : Z -> P unit) : P unit :=
  for_ (Z.to_nat n) 0 (fun i =>
    when (truth i && negb (truth (i mod cols)))%bool (fprintf "\n   " []);;
    f i).

(** The counts come from the dump and are not compared with the size of the
    arrays. *)
Definition print_mal_regs (buf : Z) : P Z :=
  let p := buf + 8 in
  index ← hdr_index buf;
  fprintf "MAL%d Registers\n" [PI index];;
  fprintf "-----------------\n" [];;
  a ← get_all mal_regs p ["cfg"; "esr"; "ier"; "tx_casr"; "tx_carr"; "tx_eobisr"; "tx_deir"; "rx_casr"; "rx_carr"; "rx_eobisr";
        "rx_deir"];
  fprintf ("CFG = 0x%08x ESR = 0x%08x IER = 0x%08x\n" +:+
     "TX|CASR = 0x%08x CARR = 0x%08x EOBISR = 0x%08x DEIR = 0x%08x\n" +:+
     "RX|CASR = 0x%08x CARR = 0x%08x EOBISR = 0x%08x DEIR = 0x%08x\n") a;;
  fprintf "TX|" [];;
  tx_count ← get mal_regs p "tx_count";
  rx_count ← get mal_regs p "rx_count";
  channel_row tx_count 4 (fun i => x ← ld 4 data (p + 4 * (tx_ctpr + i)); fprintf "CTP%d = 0x%08x " [PI i; PI x]);;
  fprintf "\nRX|" [];;
  channel_row rx_count 4 (fun i => x ← ld 4 data (p + 4 * (rx_ctpr + i)); fprintf "CTP%d = 0x%08x " [PI i; PI x]);;
  fprintf "\n   " [];;
  channel_row rx_count 3 (fun i =>
    r ← ld 4 data (p + 4 * (rcbs + i)); fprintf "RCBS%d = 0x%08x (%d) " [PI i; PI r; PI (u32 (r * 16))]);;
  fprintf "\n\n" [];;
  mret (p + sizeof_mal_regs).

Definition print_zmii_regs (buf : Z) : P Z :=
  let p := buf + 8 in
  index ← hdr_index buf;
  fprintf "ZMII%d Registers\n" [PI index];;
  fprintf "-----------------\n" [];;
  a ← get_all zmii_regs p ["fer"; "ssr"; "smiisr"];
  fprintf ("FER    = %08x SSR = %08x\n" +:+ "SMIISR = %08x\n\n") a;;
  mret (p + 4 * Z.of_nat (length zmii_regs)).

Definition print_rgmii_regs (buf : Z) : P Z :=
  let p := buf + 8 in
  index ← hdr_index buf;
  fprintf "RGMII%d Registers\n" [PI index];;
  fprintf "-----------------\n" [];;
  a ← get_all rgmii_regs p ["fer"; "ssr"];
  fprintf "FER    = %08x SSR = %08x\n\n" a;;
  mret (p + 4 * Z.of_nat (length rgmii_regs)).

Definition print_tah_regs (buf : Z) : P Z :=
  let p := buf + 8 in
  index ← hdr_index buf;
  fprintf "TAH%d Registers\n" [PI index];;
  fprintf "-----------------\n" [];;
  a ← get_all tah_regs p ["revid"; "mr"; "tsr"; "ssr0"; "ssr1"; "ssr2"; "ssr3"; "ssr4"; "ssr5"];
  fprintf ("REVID = %08x MR = %08x TSR = %08x\n" +:+
     "SSR0  = %08x SSR1 = %08x SSR2 = %08x\n" +:+
     "SSR3  = %08x SSR4 = %08x SSR5 = %08x\n\n") a;;
  mret (p + 4 * Z.of_nat (length tah_regs)).

Definition ibm_emac_dump : P Z :=
  components ← ld 4 data 0;
  buf ← print_mal_regs 4;
  buf ← print_emac_regs buf;
  buf ← (if components &? EMAC_ETHTOOL_REGS_ZMII then print_zmii_regs buf else mret buf);
  buf ← (if components &? EMAC_ETHTOOL_REGS_RGMII then print_rgmii_regs buf else mret buf);
  (if components &? EMAC_ETHTOOL_REGS_TAH then (_ ← print_tah_regs buf; mret tt) else mret tt);;
  mret 0.

(** ** A complete dump is read inside its bounds *)

(** A read whose value is known. *)
Lemma shows_ld_eq n off (Q : Z -> Prop) :
  0 <= off -> off + Z.of_nat n <= Z.of_nat (length data) -> Q (le_val (take n (drop (Z.to_nat off) data))) ->
  shows (W := D) (ld n data off) Q.
Proof.
  intros Ho Hl HQ. unfold ld. rewrite (proj2 (Z.leb_le _ _) Ho), (proj2 (Z.leb_le _ _) Hl). by apply shows_ret.
Qed.

Lemma word_of_le l x : 0 <= word_of l x <= Z.of_nat (length l).
Proof. induction l as [|f l IH]; cbn; [lia|]. destruct (streq f x); lia. Qed.

Lemma word_of_In l x : x ∈ l -> 0 <= word_of l x < Z.of_nat (length l).
Proof.
  induction l as [|f l IH]; [by rewrite list_elem_of_In|]. intros Hx. cbn [word_of length].
  destruct (String.eqb_spec f x) as [->|Hne]; unfold streq; [rewrite String.eqb_refl; lia|].
  rewrite (proj2 (String.eqb_neq f x) Hne). apply list_elem_of_In in Hx as [->|Hx]; [done|]. apply list_elem_of_In in Hx. specialize (IH Hx). lia.
Qed.

(** The words of [xs], all integers. *)
Lemma get_all_shows l p xs :
  0 <= p -> forallb (fun x => bool_decide (x ∈ l)) xs = true -> p + 4 * Z.of_nat (length l) <= Z.of_nat (length data) ->
  shows (get_all l p xs) (fun a => is_int <$> a = replicate (length xs) true).
Proof.
  intros Hp. induction xs as [|x xs IH]; intros Hx Hl; cbn [get_all]; [by apply shows_ret|].
  cbn [forallb] in Hx. apply andb_true_iff in Hx as [Hx%bool_decide_eq_true Hxs]. pose proof (word_of_In l x Hx).
  apply shows_seq; [apply shows_ld; [lia|lia|done]|]. intros v. eapply shows_bind; [by apply IH|].
  intros vs Hvs. apply shows_ret. cbn. by rewrite Hvs.
Qed.

(** Words read and shown with one format. *)
Lemma shows_get_print {B} l p xs f (k : unit -> P B) (Q : B -> Prop) :
  0 <= p -> forallb (fun x => bool_decide (x ∈ l)) xs = true -> p + 4 * Z.of_nat (length l) <= Z.of_nat (length data) ->
  fmt_ok f (replicate (length xs) true) = true -> (forall u, shows (k u) Q) ->
  shows (get_all l p xs ≫= (fun a => fprintf f a ≫= k)) Q.
Proof.
  intros Hp Hx Hl Hf Hk. eapply shows_bind; [by apply get_all_shows|]. intros a Ha.
  apply shows_seq; [|done]. apply shows_fprintf; [by rewrite Ha|done].
Qed.

Lemma channel_row_shows n cols f :
  (forall i, 0 <= i < n -> shows (f i) (fun _ => True)) -> shows (channel_row n cols f) (fun _ => True).
Proof. intros Hf. unfold channel_row. shows_all. apply Hf. lia. Qed.

Ltac get_print := apply shows_get_print; [lia|vm_compute; reflexivity|cbn; lia|vm_compute; reflexivity|intros _].
Ltac emac_all := repeat first [get_print | apply shows_ld; [cbn; lia|cbn; lia|done] | shows_step | progress cbv beta zeta].

(** The offset behind a block. *)
Lemma print_emac_shows buf : 0 <= buf -> buf + 124 <= Z.of_nat (length data) ->
  shows (print_emac_regs buf) (fun r => buf + 120 <= r <= buf + 124).
Proof.
  intros Hb Hl. unfold print_emac_regs, hdr_index, hdr_version. emac_all. all: apply shows_ret; cbn; lia.
Qed.

Lemma print_mal_shows buf : 0 <= buf -> buf + 8 + sizeof_mal_regs <= Z.of_nat (length data) ->
  le_val (take 4 (drop (Z.to_nat (buf + 8)) data)) <= 32 -> le_val (take 4 (drop (Z.to_nat (buf + 12)) data)) <= 32 ->
  shows (print_mal_regs buf) (fun r => r = buf + 8 + sizeof_mal_regs).
Proof.
  intros Hb Hl Ht Hr. unfold print_mal_regs, hdr_index. change sizeof_mal_regs with 436 in *. cbv beta zeta.
  apply shows_seq; [apply shows_ld; [lia|lia|done]|]. intros index. do 2 shows_step.
  get_print. shows_step.
  eapply shows_bind; [apply (shows_ld_eq 4 _ (fun v => v <= 32)); cbn; [lia|lia|by rewrite Z.add_0_r]|].
  intros tx_count Htx. cbv beta in Htx.
  eapply shows_bind; [apply (shows_ld_eq 4 _ (fun v => v <= 32)); cbn; [lia|lia|by replace (buf + 8 + 4 * (1 + 0)) with (buf + 12) by lia]|].
  intros rx_count Hrx. cbv beta in Hrx.
  repeat (apply shows_seq; [first [apply channel_row_shows; intros i Hi; apply shows_seq;
    [apply shows_ld; [unfold rcbs, rx_ctpr, tx_ctpr; lia|unfold rcbs, rx_ctpr, tx_ctpr; lia|done]|intros x; by apply shows_fprintf]
    |by apply shows_fprintf]|intros _]).
  by apply shows_ret.
Qed.

Lemma print_zmii_shows buf : 0 <= buf -> buf + 20 <= Z.of_nat (length data) ->
  shows (print_zmii_regs buf) (fun r => r = buf + 20).
Proof. intros Hb Hl. unfold print_zmii_regs, hdr_index. emac_all. apply shows_ret. cbn. lia. Qed.

Lemma print_rgmii_shows buf : 0 <= buf -> buf + 16 <= Z.of_nat (length data) ->
  shows (print_rgmii_regs buf) (fun r => r = buf + 16).
Proof. intros Hb Hl. unfold print_rgmii_regs, hdr_index. emac_all. apply shows_ret. cbn. lia. Qed.

Lemma print_tah_shows buf : 0 <= buf -> buf + 56 <= Z.of_nat (length data) ->
  shows (print_tah_regs buf) (fun _ => True).
Proof. intros Hb Hl. unfold print_tah_regs, hdr_index. emac_all. Qed.

(** 664 bytes hold all blocks; the channel counts must not exceed the arrays. *)
Lemma ibm_emac_shows : 664 <= Z.of_nat (length data) ->
  le_val (take 4 (drop 12 data)) <= 32 -> le_val (take 4 (drop 16 data)) <= 32 -> shows ibm_emac_dump (fun _ => True).
Proof.
  intros Hl Ht Hr. unfold ibm_emac_dump. apply shows_seq; [apply shows_ld; [lia|lia|done]|]. intros components.
  eapply shows_bind; [apply print_mal_shows; [lia|unfold sizeof_mal_regs, rcbs, rx_ctpr, tx_ctpr; lia|done|done]|]. intros b0 ->.
  change (4 + 8 + sizeof_mal_regs) with 448.
  eapply shows_bind; [apply print_emac_shows; lia|]. intros b1 Hb1. cbv beta in Hb1.
  eapply (shows_bind _ _ (fun b => 0 <= b <= b1 + 20)).
  { apply shows_if; [|apply shows_ret; lia]. eapply shows_mono; [apply print_zmii_shows; lia|]. cbn. lia. }
  intros b2 Hb2. cbv beta in Hb2. eapply (shows_bind _ _ (fun b => 0 <= b <= b2 + 16)).
  { apply shows_if; [|apply shows_ret; lia]. eapply shows_mono; [apply print_rgmii_shows; lia|]. cbn. lia. }
  intros b3 Hb3. cbv beta in Hb3. apply shows_seq; [|intros _; by apply shows_ret].
  apply shows_if; [|by apply shows_ret]. apply shows_seq; [apply print_tah_shows; lia|]. intros _. by apply shows_ret.
Qed.
End regs.

Definition ibm_emac_dump_regs {D} (info regs : ereq) : M D Z := ibm_emac_dump (rq_arr regs).
End EtEmac.
