(* ===== verification/EtSfcTab.v ===== *)
(** * ethtool: register tables of the sfc driver ([ethernet_test/ethtool/sfc.c], lines 18 to 3683)

    The macros with the address, position and width of registers and fields, and
    the tables of registers and fields built from them. A macro name made by
    pasting tokens is looked up among the definitions. *)

From stdpp Require Import base list strings numbers.
From Stdlib Require Import ZArith Lia.
From S2P Require Import Prelude CInt CLib.

Module EtSfcTab.

(** A definition [FRF_<revisions>_<name>_LBN] with its [_WIDTH], or
    [FR_<name>]. *)
Inductive regs_macro : Type :=
| FRF (revs name : string) (lbn width : Z)
| FR (name : string) (value : Z).

Definition FR_AZ_ADR_REGION : list regs_macro := [
  FR "AZ_ADR_REGION" 0x00000000; FRF "AZ" "ADR_REGION3" 96 18; FRF "AZ" "ADR_REGION2" 64 18;
  FRF "AZ" "ADR_REGION1" 32 18; FRF "AZ" "ADR_REGION0" 0 18].
Definition FR_AZ_INT_EN_KER : list regs_macro := [
  FR "AZ_INT_EN_KER" 0x00000010; FRF "AZ" "KER_INT_LEVE_SEL" 8 6; FRF "AZ" "KER_INT_CHAR" 4 1;
  FRF "AZ" "KER_INT_KER" 3 1; FRF "AZ" "DRV_INT_EN_KER" 0 1].
Definition FR_BZ_INT_EN_CHAR : list regs_macro := [
  FR "BZ_INT_EN_CHAR" 0x00000020; FRF "BZ" "CHAR_INT_LEVE_SEL" 8 6; FRF "BZ" "CHAR_INT_CHAR" 4 1;
  FRF "BZ" "CHAR_INT_KER" 3 1; FRF "BZ" "DRV_INT_EN_CHAR" 0 1].
Definition FR_AZ_INT_ADR_KER : list regs_macro := [
  FR "AZ_INT_ADR_KER" 0x00000030; FRF "AZ" "NORM_INT_VEC_DIS_KER" 64 1; FRF "AZ" "INT_ADR_KER" 0 64].
Definition FR_BZ_INT_ADR_CHAR : list regs_macro := [
  FR "BZ_INT_ADR_CHAR" 0x00000040; FRF "BZ" "NORM_INT_VEC_DIS_CHAR" 64 1; FRF "BZ" "INT_ADR_CHAR" 0 64].
Definition FR_AA_INT_ACK_KER : list regs_macro := [
  FR "AA_INT_ACK_KER" 0x00000050; FRF "AA" "INT_ACK_KER_FIELD" 0 32].
Definition FR_BZ_INT_ISR0 : list regs_macro := [
  FR "BZ_INT_ISR0" 0x00000090; FRF "BZ" "INT_ISR_REG" 0 64].
Definition FR_AZ_HW_INIT : list regs_macro := [
  FR "AZ_HW_INIT" 0x000000c0; FRF "BB" "BDMRD_CPLF_FULL" 124 1; FRF "BB" "PCIE_CPL_TIMEOUT_CTRL" 121 3;
  FRF "CZ" "TX_MRG_TAGS" 120 1; FRF "AB" "TRGT_MASK_ALL" 100 1; FRF "AZ" "DOORBELL_DROP" 92 8;
  FRF "AB" "TX_RREQ_MASK_EN" 76 1; FRF "AB" "PE_EIDLE_DIS" 75 1; FRF "AA" "FC_BLOCKING_EN" 45 1;
  FRF "BZ" "B2B_REQ_EN" 45 1; FRF "AA" "B2B_REQ_EN" 44 1; FRF "BB" "FC_BLOCKING_EN" 44 1;
  FRF "AZ" "POST_WR_MASK" 40 4; FRF "AZ" "TLP_TC" 34 3; FRF "AZ" "TLP_ATTR" 32 2; FRF "AB" "INTB_VEC" 24 5;
  FRF "AB" "INTA_VEC" 16 5; FRF "AZ" "WD_TIMER" 8 8; FRF "AZ" "US_DISABLE" 5 1; FRF "AZ" "TLP_EP" 4 1;
  FRF "AZ" "ATTR_SEL" 3 1; FRF "AZ" "TD_SEL" 1 1; FRF "AZ" "TLP_TD" 0 1].
Definition FR_AB_EE_SPI_HCMD : list regs_macro := [
  FR "AB_EE_SPI_HCMD" 0x00000100; FRF "AB" "EE_SPI_HCMD_CMD_EN" 31 1; FRF "AB" "EE_WR_TIMER_ACTIVE" 28 1;
  FRF "AB" "EE_SPI_HCMD_SF_SEL" 24 1; FRF "AB" "EE_SPI_HCMD_DABCNT" 16 5; FRF "AB" "EE_SPI_HCMD_READ" 15 1;
  FRF "AB" "EE_SPI_HCMD_DUBCNT" 12 2; FRF "AB" "EE_SPI_HCMD_ADBCNT" 8 2; FRF "AB" "EE_SPI_HCMD_ENC" 0 8].
Definition FR_CZ_USR_EV_CFG : list regs_macro := [
  FR "CZ_USR_EV_CFG" 0x00000100; FRF "CZ" "USREV_DIS" 16 1; FRF "CZ" "DFLT_EVQ" 0 10].
Definition FR_AB_EE_SPI_HADR : list regs_macro := [
  FR "AB_EE_SPI_HADR" 0x00000110; FRF "AB" "EE_SPI_HADR_DUBYTE" 24 8; FRF "AB" "EE_SPI_HADR_ADR" 0 24].
Definition FR_AB_EE_SPI_HDATA : list regs_macro := [
  FR "AB_EE_SPI_HDATA" 0x00000120; FRF "AB" "EE_SPI_HDATA3" 96 32; FRF "AB" "EE_SPI_HDATA2" 64 32;
  FRF "AB" "EE_SPI_HDATA1" 32 32; FRF "AB" "EE_SPI_HDATA0" 0 32].
Definition FR_AB_EE_BASE_PAGE : list regs_macro := [
  FR "AB_EE_BASE_PAGE" 0x00000130; FRF "AB" "EE_EXPROM_MASK" 16 13; FRF "AB" "EE_EXP_ROM_WINDOW_BASE" 0 13].
Definition FR_AB_EE_VPD_CFG0 : list regs_macro := [
  FR "AB_EE_VPD_CFG0" 0x00000140; FRF "AB" "EE_SF_FASTRD_EN" 127 1; FRF "AB" "EE_SF_CLOCK_DIV" 120 7;
  FRF "AB" "EE_VPD_WIP_POLL" 119 1; FRF "AB" "EE_EE_CLOCK_DIV" 112 7; FRF "AB" "EE_EE_WR_TMR_VALUE" 96 16;
  FRF "AB" "EE_VPDW_LENGTH" 80 15; FRF "AB" "EE_VPDW_BASE" 64 15; FRF "AB" "EE_VPD_WR_CMD_EN" 56 8;
  FRF "AB" "EE_VPD_BASE" 32 24; FRF "AB" "EE_VPD_LENGTH" 16 15; FRF "AB" "EE_VPD_AD_SIZE" 8 5;
  FRF "AB" "EE_VPD_ACCESS_ON" 5 1; FRF "AB" "EE_VPD_ACCESS_BLOCK" 4 1; FRF "AB" "EE_VPD_DEV_SF_SEL" 2 1;
  FRF "AB" "EE_VPD_EN_AD9_MODE" 1 1; FRF "AB" "EE_VPD_EN" 0 1].
Definition FR_AB_EE_VPD_SW_CNTL : list regs_macro := [
  FR "AB_EE_VPD_SW_CNTL" 0x00000150; FRF "AB" "EE_VPD_CYCLE_PENDING" 31 1; FRF "AB" "EE_VPD_CYC_WRITE" 28 1;
  FRF "AB" "EE_VPD_CYC_ADR" 0 15].
Definition FR_AB_EE_VPD_SW_DATA : list regs_macro := [
  FR "AB_EE_VPD_SW_DATA" 0x00000160; FRF "AB" "EE_VPD_CYC_DAT" 0 32].
Definition FR_CZ_PBMX_DBG_IADDR : list regs_macro := [
  FR "CZ_PBMX_DBG_IADDR" 0x000001f0; FRF "CZ" "PBMX_DBG_IADDR" 0 32].
Definition FR_BB_PCIE_CORE_INDIRECT : list regs_macro := [
  FR "BB_PCIE_CORE_INDIRECT" 0x000001f0; FRF "BB" "PCIE_CORE_TARGET_DATA" 32 32;
  FRF "BB" "PCIE_CORE_INDIRECT_ACCESS_DIR" 15 1; FRF "BB" "PCIE_CORE_TARGET_REG_ADRS" 0 12].
Definition FR_CZ_PBMX_DBG_IDATA : list regs_macro := [
  FR "CZ_PBMX_DBG_IDATA" 0x000001f8; FRF "CZ" "PBMX_DBG_IDATA" 0 64].
Definition FR_AB_NIC_STAT : list regs_macro := [
  FR "AB_NIC_STAT" 0x00000200; FRF "BB" "AER_DIS" 34 1; FRF "BB" "EE_STRAP_EN" 31 1; FRF "BB" "EE_STRAP" 24 4;
  FRF "BB" "REVISION_ID" 17 7; FRF "AB" "ONCHIP_SRAM" 16 1; FRF "AB" "SF_PRST" 9 1; FRF "AB" "EE_PRST" 8 1;
  FRF "AB" "ATE_MODE" 3 1; FRF "AB" "STRAP_PINS" 0 3].
Definition FR_AB_GPIO_CTL : list regs_macro := [
  FR "AB_GPIO_CTL" 0x00000210; FRF "AB" "GPIO_OUT3" 112 16; FRF "AB" "GPIO_IN3" 104 8;
  FRF "AB" "GPIO_PWRUP_VALUE3" 96 8; FRF "AB" "GPIO_OUT2" 80 16; FRF "AB" "GPIO_IN2" 72 8;
  FRF "AB" "GPIO_PWRUP_VALUE2" 64 8; FRF "AB" "GPIO15_OEN" 63 1; FRF "AB" "GPIO14_OEN" 62 1;
  FRF "AB" "GPIO13_OEN" 61 1; FRF "AB" "GPIO12_OEN" 60 1; FRF "AB" "GPIO11_OEN" 59 1; FRF "AB" "GPIO10_OEN" 58 1;
  FRF "AB" "GPIO9_OEN" 57 1; FRF "AB" "GPIO8_OEN" 56 1; FRF "AB" "GPIO15_OUT" 55 1; FRF "AB" "GPIO14_OUT" 54 1;
  FRF "AB" "GPIO13_OUT" 53 1; FRF "AB" "GPIO12_OUT" 52 1; FRF "AB" "GPIO11_OUT" 51 1; FRF "AB" "GPIO10_OUT" 50 1;
  FRF "AB" "GPIO9_OUT" 49 1; FRF "AB" "GPIO8_OUT" 48 1; FRF "AB" "GPIO15_IN" 47 1; FRF "AB" "GPIO14_IN" 46 1;
  FRF "AB" "GPIO13_IN" 45 1; FRF "AB" "GPIO12_IN" 44 1; FRF "AB" "GPIO11_IN" 43 1; FRF "AB" "GPIO10_IN" 42 1;
  FRF "AB" "GPIO9_IN" 41 1; FRF "AB" "GPIO8_IN" 40 1; FRF "AB" "GPIO15_PWRUP_VALUE" 39 1;
  FRF "AB" "GPIO14_PWRUP_VALUE" 38 1; FRF "AB" "GPIO13_PWRUP_VALUE" 37 1; FRF "AB" "GPIO12_PWRUP_VALUE" 36 1;
  FRF "AB" "GPIO11_PWRUP_VALUE" 35 1; FRF "AB" "GPIO10_PWRUP_VALUE" 34 1; FRF "AB" "GPIO9_PWRUP_VALUE" 33 1;
  FRF "AB" "GPIO8_PWRUP_VALUE" 32 1; FRF "AB" "CLK156_OUT_EN" 31 1; FRF "AB" "USE_NIC_CLK" 30 1;
  FRF "AB" "GPIO5_OEN" 29 1; FRF "AB" "GPIO4_OEN" 28 1; FRF "AB" "GPIO3_OEN" 27 1; FRF "AB" "GPIO2_OEN" 26 1;
  FRF "AB" "GPIO1_OEN" 25 1; FRF "AB" "GPIO0_OEN" 24 1; FRF "AB" "GPIO7_OUT" 23 1; FRF "AB" "GPIO6_OUT" 22 1;
  FRF "AB" "GPIO5_OUT" 21 1; FRF "AB" "GPIO4_OUT" 20 1; FRF "AB" "GPIO3_OUT" 19 1; FRF "AB" "GPIO2_OUT" 18 1;
  FRF "AB" "GPIO1_OUT" 17 1; FRF "AB" "GPIO0_OUT" 16 1; FRF "AB" "GPIO7_IN" 15 1; FRF "AB" "GPIO6_IN" 14 1;
  FRF "AB" "GPIO5_IN" 13 1; FRF "AB" "GPIO4_IN" 12 1; FRF "AB" "GPIO3_IN" 11 1; FRF "AB" "GPIO2_IN" 10 1;
  FRF "AB" "GPIO1_IN" 9 1; FRF "AB" "GPIO0_IN" 8 1; FRF "AB" "GPIO7_PWRUP_VALUE" 7 1;
  FRF "AB" "GPIO6_PWRUP_VALUE" 6 1; FRF "AB" "GPIO5_PWRUP_VALUE" 5 1; FRF "AB" "GPIO4_PWRUP_VALUE" 4 1;
  FRF "AB" "GPIO3_PWRUP_VALUE" 3 1; FRF "AB" "GPIO2_PWRUP_VALUE" 2 1; FRF "AB" "GPIO1_PWRUP_VALUE" 1 1;
  FRF "AB" "GPIO0_PWRUP_VALUE" 0 1].
Definition FR_AB_GLB_CTL : list regs_macro := [
  FR "AB_GLB_CTL" 0x00000220; FRF "AB" "EXT_PHY_RST_CTL" 63 1; FRF "AB" "XAUI_SD_RST_CTL" 62 1;
  FRF "AB" "PCIE_SD_RST_CTL" 61 1; FRF "AA" "PCIX_RST_CTL" 60 1; FRF "BB" "BIU_RST_CTL" 60 1;
  FRF "AB" "PCIE_STKY_RST_CTL" 59 1; FRF "AB" "PCIE_NSTKY_RST_CTL" 58 1; FRF "AB" "PCIE_CORE_RST_CTL" 57 1;
  FRF "AB" "XGRX_RST_CTL" 56 1; FRF "AB" "XGTX_RST_CTL" 55 1; FRF "AB" "EM_RST_CTL" 54 1; FRF "AB" "EV_RST_CTL" 53 1;
  FRF "AB" "SR_RST_CTL" 52 1; FRF "AB" "RX_RST_CTL" 51 1; FRF "AB" "TX_RST_CTL" 50 1; FRF "AB" "EE_RST_CTL" 49 1;
  FRF "AB" "CS_RST_CTL" 48 1; FRF "AB" "HOT_RST_CTL" 40 2; FRF "AB" "RST_EXT_PHY" 31 1; FRF "AB" "RST_XAUI_SD" 30 1;
  FRF "AB" "RST_PCIE_SD" 29 1; FRF "AA" "RST_PCIX" 28 1; FRF "BB" "RST_BIU" 28 1; FRF "AB" "RST_PCIE_STKY" 27 1;
  FRF "AB" "RST_PCIE_NSTKY" 26 1; FRF "AB" "RST_PCIE_CORE" 25 1; FRF "AB" "RST_XGRX" 24 1; FRF "AB" "RST_XGTX" 23 1;
  FRF "AB" "RST_EM" 22 1; FRF "AB" "RST_EV" 21 1; FRF "AB" "RST_SR" 20 1; FRF "AB" "RST_RX" 19 1;
  FRF "AB" "RST_TX" 18 1; FRF "AB" "RST_SF" 17 1; FRF "AB" "RST_CS" 16 1; FRF "AB" "INT_RST_DUR" 4 3;
  FRF "AB" "EXT_PHY_RST_DUR" 1 3; FRF "AB" "SWRST" 0 1].
Definition FR_AZ_FATAL_INTR_KER : list regs_macro := [
  FR "AZ_FATAL_INTR_KER" 0x00000230; FRF "CZ" "SRAM_PERR_INT_P_KER_EN" 44 1; FRF "AB" "PCI_BUSERR_INT_KER_EN" 43 1;
  FRF "CZ" "MBU_PERR_INT_KER_EN" 43 1; FRF "AZ" "SRAM_OOB_INT_KER_EN" 42 1; FRF "AZ" "BUFID_OOB_INT_KER_EN" 41 1;
  FRF "AZ" "MEM_PERR_INT_KER_EN" 40 1; FRF "AZ" "RBUF_OWN_INT_KER_EN" 39 1; FRF "AZ" "TBUF_OWN_INT_KER_EN" 38 1;
  FRF "AZ" "RDESCQ_OWN_INT_KER_EN" 37 1; FRF "AZ" "TDESCQ_OWN_INT_KER_EN" 36 1; FRF "AZ" "EVQ_OWN_INT_KER_EN" 35 1;
  FRF "AZ" "EVF_OFLO_INT_KER_EN" 34 1; FRF "AZ" "ILL_ADR_INT_KER_EN" 33 1; FRF "AZ" "SRM_PERR_INT_KER_EN" 32 1;
  FRF "CZ" "SRAM_PERR_INT_P_KER" 12 1; FRF "AB" "PCI_BUSERR_INT_KER" 11 1; FRF "CZ" "MBU_PERR_INT_KER" 11 1;
  FRF "AZ" "SRAM_OOB_INT_KER" 10 1; FRF "AZ" "BUFID_DC_OOB_INT_KER" 9 1; FRF "AZ" "MEM_PERR_INT_KER" 8 1;
  FRF "AZ" "RBUF_OWN_INT_KER" 7 1; FRF "AZ" "TBUF_OWN_INT_KER" 6 1; FRF "AZ" "RDESCQ_OWN_INT_KER" 5 1;
  FRF "AZ" "TDESCQ_OWN_INT_KER" 4 1; FRF "AZ" "EVQ_OWN_INT_KER" 3 1; FRF "AZ" "EVF_OFLO_INT_KER" 2 1;
  FRF "AZ" "ILL_ADR_INT_KER" 1 1; FRF "AZ" "SRM_PERR_INT_KER" 0 1].
Definition FR_BZ_FATAL_INTR_CHAR : list regs_macro := [
  FR "BZ_FATAL_INTR_CHAR" 0x00000240; FRF "CZ" "SRAM_PERR_INT_P_CHAR_EN" 44 1;
  FRF "BB" "PCI_BUSERR_INT_CHAR_EN" 43 1; FRF "CZ" "MBU_PERR_INT_CHAR_EN" 43 1; FRF "BZ" "SRAM_OOB_INT_CHAR_EN" 42 1;
  FRF "BZ" "BUFID_OOB_INT_CHAR_EN" 41 1; FRF "BZ" "MEM_PERR_INT_CHAR_EN" 40 1; FRF "BZ" "RBUF_OWN_INT_CHAR_EN" 39 1;
  FRF "BZ" "TBUF_OWN_INT_CHAR_EN" 38 1; FRF "BZ" "RDESCQ_OWN_INT_CHAR_EN" 37 1;
  FRF "BZ" "TDESCQ_OWN_INT_CHAR_EN" 36 1; FRF "BZ" "EVQ_OWN_INT_CHAR_EN" 35 1; FRF "BZ" "EVF_OFLO_INT_CHAR_EN" 34 1;
  FRF "BZ" "ILL_ADR_INT_CHAR_EN" 33 1; FRF "BZ" "SRM_PERR_INT_CHAR_EN" 32 1; FRF "CZ" "SRAM_PERR_INT_P_CHAR" 12 1;
  FRF "BB" "PCI_BUSERR_INT_CHAR" 11 1; FRF "CZ" "MBU_PERR_INT_CHAR" 11 1; FRF "BZ" "SRAM_OOB_INT_CHAR" 10 1;
  FRF "BZ" "BUFID_DC_OOB_INT_CHAR" 9 1; FRF "BZ" "MEM_PERR_INT_CHAR" 8 1; FRF "BZ" "RBUF_OWN_INT_CHAR" 7 1;
  FRF "BZ" "TBUF_OWN_INT_CHAR" 6 1; FRF "BZ" "RDESCQ_OWN_INT_CHAR" 5 1; FRF "BZ" "TDESCQ_OWN_INT_CHAR" 4 1;
  FRF "BZ" "EVQ_OWN_INT_CHAR" 3 1; FRF "BZ" "EVF_OFLO_INT_CHAR" 2 1; FRF "BZ" "ILL_ADR_INT_CHAR" 1 1;
  FRF "BZ" "SRM_PERR_INT_CHAR" 0 1].
Definition FR_BZ_DP_CTRL : list regs_macro := [
  FR "BZ_DP_CTRL" 0x00000250; FRF "BZ" "FLS_EVQ_ID" 0 12].
Definition FR_AZ_MEM_STAT : list regs_macro := [
  FR "AZ_MEM_STAT" 0x00000260; FRF "AB" "MEM_PERR_VEC" 53 38; FRF "AB" "MBIST_CORR" 38 15; FRF "AB" "MBIST_ERR" 0 40;
  FRF "CZ" "MEM_PERR_VEC" 0 35].
Definition FR_AZ_CS_DEBUG : list regs_macro := [
  FR "AZ_CS_DEBUG" 0x00000270; FRF "AB" "GLB_DEBUG2_SEL" 50 3; FRF "AB" "DEBUG_BLK_SEL2" 47 3;
  FRF "AB" "DEBUG_BLK_SEL1" 44 3; FRF "AB" "DEBUG_BLK_SEL0" 41 3; FRF "CZ" "CS_PORT_NUM" 40 2;
  FRF "AB" "MISC_DEBUG_ADDR" 36 5; FRF "AB" "SERDES_DEBUG_ADDR" 31 5; FRF "CZ" "CS_PORT_FPE" 1 35;
  FRF "AB" "EM_DEBUG_ADDR" 26 5; FRF "AB" "SR_DEBUG_ADDR" 21 5; FRF "AB" "EV_DEBUG_ADDR" 16 5;
  FRF "AB" "RX_DEBUG_ADDR" 11 5; FRF "AB" "TX_DEBUG_ADDR" 6 5; FRF "AB" "CS_BIU_DEBUG_ADDR" 1 5;
  FRF "AZ" "CS_DEBUG_EN" 0 1].
Definition FR_AZ_DRIVER : list regs_macro := [
  FR "AZ_DRIVER" 0x00000280; FR "AZ_DRIVER_STEP" 16; FR "AZ_DRIVER_ROWS" 8; FRF "AZ" "DRIVER_DW0" 0 32].
Definition FR_AZ_ALTERA_BUILD : list regs_macro := [
  FR "AZ_ALTERA_BUILD" 0x00000300; FRF "AZ" "ALTERA_BUILD_VER" 0 32].
Definition FR_AZ_CSR_SPARE : list regs_macro := [
  FR "AZ_CSR_SPARE" 0x00000310; FRF "AB" "MEM_PERR_EN" 64 38; FRF "CZ" "MEM_PERR_EN" 64 35;
  FRF "AB" "MEM_PERR_EN_TX_DATA" 72 2; FRF "AZ" "CSR_SPARE_BITS" 0 32].
Definition FR_AB_PCIE_SD_CTL0123 : list regs_macro := [
  FR "AB_PCIE_SD_CTL0123" 0x00000320; FRF "AB" "PCIE_TESTSIG_H" 96 19; FRF "AB" "PCIE_TESTSIG_L" 64 19;
  FRF "AB" "PCIE_OFFSET" 56 8; FRF "AB" "PCIE_OFFSETEN_H" 55 1; FRF "AB" "PCIE_OFFSETEN_L" 54 1;
  FRF "AB" "PCIE_HIVMODE_H" 53 1; FRF "AB" "PCIE_HIVMODE_L" 52 1; FRF "AB" "PCIE_PARRESET_H" 51 1;
  FRF "AB" "PCIE_PARRESET_L" 50 1; FRF "AB" "PCIE_LPBKWDRV_H" 49 1; FRF "AB" "PCIE_LPBKWDRV_L" 48 1;
  FRF "AB" "PCIE_LPBK" 40 8; FRF "AB" "PCIE_PARLPBK" 32 8; FRF "AB" "PCIE_RXTERMADJ_H" 30 2;
  FRF "AB" "PCIE_RXTERMADJ_L" 28 2; FRF "AB" "PCIE_TXTERMADJ_H" 26 2; FRF "AB" "PCIE_TXTERMADJ_L" 24 2;
  FRF "AB" "PCIE_RXEQCTL_H" 18 2; FRF "AB" "PCIE_RXEQCTL_L" 16 2; FRF "AB" "PCIE_HIDRV" 8 8; FRF "AB" "PCIE_LODRV" 0 8].
Definition FR_AB_PCIE_SD_CTL45 : list regs_macro := [
  FR "AB_PCIE_SD_CTL45" 0x00000330; FRF "AB" "PCIE_DTX7" 60 4; FRF "AB" "PCIE_DTX6" 56 4; FRF "AB" "PCIE_DTX5" 52 4;
  FRF "AB" "PCIE_DTX4" 48 4; FRF "AB" "PCIE_DTX3" 44 4; FRF "AB" "PCIE_DTX2" 40 4; FRF "AB" "PCIE_DTX1" 36 4;
  FRF "AB" "PCIE_DTX0" 32 4; FRF "AB" "PCIE_DEQ7" 28 4; FRF "AB" "PCIE_DEQ6" 24 4; FRF "AB" "PCIE_DEQ5" 20 4;
  FRF "AB" "PCIE_DEQ4" 16 4; FRF "AB" "PCIE_DEQ3" 12 4; FRF "AB" "PCIE_DEQ2" 8 4; FRF "AB" "PCIE_DEQ1" 4 4;
  FRF "AB" "PCIE_DEQ0" 0 4].
Definition FR_AB_PCIE_PCS_CTL_STAT : list regs_macro := [
  FR "AB_PCIE_PCS_CTL_STAT" 0x00000340; FRF "AB" "PCIE_PRBSERRCOUNT0_H" 52 4; FRF "AB" "PCIE_PRBSERRCOUNT0_L" 48 4;
  FRF "AB" "PCIE_PRBSERR" 40 8; FRF "AB" "PCIE_PRBSERRH0" 32 8; FRF "AB" "PCIE_FASTINIT_H" 15 1;
  FRF "AB" "PCIE_FASTINIT_L" 14 1; FRF "AB" "PCIE_CTCDISABLE_H" 13 1; FRF "AB" "PCIE_CTCDISABLE_L" 12 1;
  FRF "AB" "PCIE_PRBSSYNC_H" 11 1; FRF "AB" "PCIE_PRBSSYNC_L" 10 1; FRF "AB" "PCIE_PRBSERRACK_H" 9 1;
  FRF "AB" "PCIE_PRBSERRACK_L" 8 1; FRF "AB" "PCIE_PRBSSEL" 0 8].
Definition FR_BB_DEBUG_DATA_OUT : list regs_macro := [
  FR "BB_DEBUG_DATA_OUT" 0x00000350; FRF "BB" "DEBUG2_PORT" 25 15; FRF "BB" "DEBUG1_PORT" 0 25].
Definition FR_BZ_EVQ_RPTR_P0 : list regs_macro := [
  FR "BZ_EVQ_RPTR_P0" 0x00000400; FR "BZ_EVQ_RPTR_P0_STEP" 8192; FR "BZ_EVQ_RPTR_P0_ROWS" 1024].
Definition FR_AA_EVQ_RPTR_KER : list regs_macro := [
  FR "AA_EVQ_RPTR_KER" 0x00011b00; FR "AA_EVQ_RPTR_KER_STEP" 4; FR "AA_EVQ_RPTR_KER_ROWS" 4].
Definition FR_BZ_EVQ_RPTR : list regs_macro := [
  FR "BZ_EVQ_RPTR" 0x00fa0000; FR "BZ_EVQ_RPTR_STEP" 16; FR "BB_EVQ_RPTR_ROWS" 4096; FR "CZ_EVQ_RPTR_ROWS" 1024].
Definition FR_BB_EVQ_RPTR_P123 : list regs_macro := [
  FR "BB_EVQ_RPTR_P123" 0x01000400; FR "BB_EVQ_RPTR_P123_STEP" 8192; FR "BB_EVQ_RPTR_P123_ROWS" 3072;
  FRF "AZ" "EVQ_RPTR_VLD" 15 1; FRF "AZ" "EVQ_RPTR" 0 15].
Definition FR_BZ_TIMER_COMMAND_P0 : list regs_macro := [
  FR "BZ_TIMER_COMMAND_P0" 0x00000420; FR "BZ_TIMER_COMMAND_P0_STEP" 8192; FR "BZ_TIMER_COMMAND_P0_ROWS" 1024].
Definition FR_AA_TIMER_COMMAND_KER : list regs_macro := [
  FR "AA_TIMER_COMMAND_KER" 0x00000420; FR "AA_TIMER_COMMAND_KER_STEP" 8192; FR "AA_TIMER_COMMAND_KER_ROWS" 4].
Definition FR_BB_TIMER_COMMAND_P123 : list regs_macro := [
  FR "BB_TIMER_COMMAND_P123" 0x01000420; FR "BB_TIMER_COMMAND_P123_STEP" 8192; FR "BB_TIMER_COMMAND_P123_ROWS" 3072;
  FRF "CZ" "TC_TIMER_MODE" 14 2; FRF "AB" "TC_TIMER_MODE" 12 2; FRF "CZ" "TC_TIMER_VAL" 0 14;
  FRF "AB" "TC_TIMER_VAL" 0 12].
Definition FR_AZ_DRV_EV : list regs_macro := [
  FR "AZ_DRV_EV" 0x00000440; FRF "AZ" "DRV_EV_QID" 64 12; FRF "AZ" "DRV_EV_DATA" 0 64].
Definition FR_AZ_EVQ_CTL : list regs_macro := [
  FR "AZ_EVQ_CTL" 0x00000450; FRF "CZ" "RX_EVQ_WAKEUP_MASK" 15 10; FRF "BB" "RX_EVQ_WAKEUP_MASK" 15 6;
  FRF "AZ" "EVQ_OWNERR_CTL" 14 1; FRF "AZ" "EVQ_FIFO_AF_TH" 7 7; FRF "AZ" "EVQ_FIFO_NOTAF_TH" 0 7].
Definition FR_AZ_EVQ_CNT1 : list regs_macro := [
  FR "AZ_EVQ_CNT1" 0x00000460; FRF "AZ" "EVQ_CNT_PRE_FIFO" 120 7; FRF "AZ" "EVQ_CNT_TOBIU" 100 20;
  FRF "AZ" "EVQ_TX_REQ_CNT" 80 20; FRF "AZ" "EVQ_RX_REQ_CNT" 60 20; FRF "AZ" "EVQ_EM_REQ_CNT" 40 20;
  FRF "AZ" "EVQ_CSR_REQ_CNT" 20 20; FRF "AZ" "EVQ_ERR_REQ_CNT" 0 20].
Definition FR_AZ_EVQ_CNT2 : list regs_macro := [
  FR "AZ_EVQ_CNT2" 0x00000470; FRF "AZ" "EVQ_UPD_REQ_CNT" 104 20; FRF "AZ" "EVQ_CLR_REQ_CNT" 84 20;
  FRF "AZ" "EVQ_RDY_CNT" 80 4; FRF "AZ" "EVQ_WU_REQ_CNT" 60 20; FRF "AZ" "EVQ_WET_REQ_CNT" 40 20;
  FRF "AZ" "EVQ_INIT_REQ_CNT" 20 20; FRF "AZ" "EVQ_TM_REQ_CNT" 0 20].
Definition FR_CZ_USR_EV : list regs_macro := [
  FR "CZ_USR_EV" 0x00000540; FR "CZ_USR_EV_STEP" 8192; FR "CZ_USR_EV_ROWS" 1024; FRF "CZ" "USR_EV_DATA" 0 32].
Definition FR_AZ_BUF_TBL_CFG : list regs_macro := [
  FR "AZ_BUF_TBL_CFG" 0x00000600; FRF "AZ" "BUF_TBL_MODE" 3 1].
Definition FR_AZ_SRM_RX_DC_CFG : list regs_macro := [
  FR "AZ_SRM_RX_DC_CFG" 0x00000610; FRF "AZ" "SRM_CLK_TMP_EN" 21 1; FRF "AZ" "SRM_RX_DC_BASE_ADR" 0 21].
Definition FR_AZ_SRM_TX_DC_CFG : list regs_macro := [
  FR "AZ_SRM_TX_DC_CFG" 0x00000620; FRF "AZ" "SRM_TX_DC_BASE_ADR" 0 21].
Definition FR_AZ_SRM_CFG : list regs_macro := [
  FR "AZ_SRM_CFG" 0x00000630; FRF "AZ" "SRM_OOB_ADR_INTEN" 5 1; FRF "AZ" "SRM_OOB_BUF_INTEN" 4 1;
  FRF "AZ" "SRM_INIT_EN" 3 1; FRF "AZ" "SRM_NUM_BANK" 2 1; FRF "AZ" "SRM_BANK_SIZE" 0 2].
Definition FR_AZ_BUF_TBL_UPD : list regs_macro := [
  FR "AZ_BUF_TBL_UPD" 0x00000650; FRF "AZ" "BUF_UPD_CMD" 63 1; FRF "AZ" "BUF_CLR_CMD" 62 1;
  FRF "AZ" "BUF_CLR_END_ID" 32 20; FRF "AZ" "BUF_CLR_START_ID" 0 20].
Definition FR_AZ_SRM_UPD_EVQ : list regs_macro := [
  FR "AZ_SRM_UPD_EVQ" 0x00000660; FRF "AZ" "SRM_UPD_EVQ_ID" 0 12].
Definition FR_AZ_SRAM_PARITY : list regs_macro := [
  FR "AZ_SRAM_PARITY" 0x00000670; FRF "CZ" "BYPASS_ECC" 3 1; FRF "CZ" "SEC_INT" 2 1;
  FRF "CZ" "FORCE_SRAM_DOUBLE_ERR" 1 1; FRF "AB" "FORCE_SRAM_PERR" 0 1; FRF "CZ" "FORCE_SRAM_SINGLE_ERR" 0 1].
Definition FR_AZ_RX_CFG : list regs_macro := [
  FR "AZ_RX_CFG" 0x00000800; FRF "CZ" "RX_MIN_KBUF_SIZE" 72 14; FRF "CZ" "RX_HDR_SPLIT_EN" 71 1;
  FRF "CZ" "RX_HDR_SPLIT_PLD_BUF_SIZE" 62 9; FRF "CZ" "RX_HDR_SPLIT_HDR_BUF_SIZE" 53 9;
  FRF "CZ" "RX_PRE_RFF_IPG" 49 4; FRF "BZ" "RX_TCP_SUP" 48 1; FRF "BZ" "RX_INGR_EN" 47 1; FRF "BZ" "RX_IP_HASH" 46 1;
  FRF "BZ" "RX_HASH_ALG" 45 1; FRF "BZ" "RX_HASH_INSRT_HDR" 44 1; FRF "BZ" "RX_DESC_PUSH_EN" 43 1;
  FRF "BZ" "RX_RDW_PATCH_EN" 42 1; FRF "BB" "RX_PCI_BURST_SIZE" 39 3; FRF "BZ" "RX_OWNERR_CTL" 38 1;
  FRF "BZ" "RX_XON_TX_TH" 33 5; FRF "AA" "RX_DESC_PUSH_EN" 35 1; FRF "AA" "RX_RDW_PATCH_EN" 34 1;
  FRF "AA" "RX_PCI_BURST_SIZE" 31 3; FRF "BZ" "RX_XOFF_TX_TH" 28 5; FRF "AA" "RX_OWNERR_CTL" 30 1;
  FRF "AA" "RX_XON_TX_TH" 25 5; FRF "BZ" "RX_USR_BUF_SIZE" 19 9; FRF "AA" "RX_XOFF_TX_TH" 20 5;
  FRF "AA" "RX_USR_BUF_SIZE" 11 9; FRF "BZ" "RX_XON_MAC_TH" 10 9; FRF "AA" "RX_XON_MAC_TH" 6 5;
  FRF "BZ" "RX_XOFF_MAC_TH" 1 9; FRF "AA" "RX_XOFF_MAC_TH" 1 5; FRF "AZ" "RX_XOFF_MAC_EN" 0 1].
Definition FR_BZ_RX_FILTER_CTL : list regs_macro := [
  FR "BZ_RX_FILTER_CTL" 0x00000810; FRF "CZ" "ETHERNET_WILDCARD_SEARCH_LIMIT" 94 8;
  FRF "CZ" "ETHERNET_FULL_SEARCH_LIMIT" 86 8; FRF "CZ" "RX_FILTER_ALL_VLAN_ETHERTYPES" 85 1;
  FRF "CZ" "RX_VLAN_MATCH_ETHERTYPE" 69 16; FRF "CZ" "MULTICAST_NOMATCH_Q_ID" 57 12;
  FRF "CZ" "MULTICAST_NOMATCH_RSS_ENABLED" 56 1; FRF "CZ" "MULTICAST_NOMATCH_IP_OVERRIDE" 55 1;
  FRF "CZ" "UNICAST_NOMATCH_Q_ID" 43 12; FRF "CZ" "UNICAST_NOMATCH_RSS_ENABLED" 42 1;
  FRF "CZ" "UNICAST_NOMATCH_IP_OVERRIDE" 41 1; FRF "BZ" "SCATTER_ENBL_NO_MATCH_Q" 40 1;
  FRF "BZ" "UDP_FULL_SRCH_LIMIT" 32 8; FRF "BZ" "NUM_KER" 24 2; FRF "BZ" "UDP_WILD_SRCH_LIMIT" 16 8;
  FRF "BZ" "TCP_WILD_SRCH_LIMIT" 8 8; FRF "BZ" "TCP_FULL_SRCH_LIMIT" 0 8].
Definition FR_AZ_RX_FLUSH_DESCQ : list regs_macro := [
  FR "AZ_RX_FLUSH_DESCQ" 0x00000820; FRF "AZ" "RX_FLUSH_DESCQ_CMD" 24 1; FRF "AZ" "RX_FLUSH_DESCQ" 0 12].
Definition FR_BZ_RX_DESC_UPD_P0 : list regs_macro := [
  FR "BZ_RX_DESC_UPD_P0" 0x00000830; FR "BZ_RX_DESC_UPD_P0_STEP" 8192; FR "BZ_RX_DESC_UPD_P0_ROWS" 1024].
Definition FR_AA_RX_DESC_UPD_KER : list regs_macro := [
  FR "AA_RX_DESC_UPD_KER" 0x00000830; FR "AA_RX_DESC_UPD_KER_STEP" 8192; FR "AA_RX_DESC_UPD_KER_ROWS" 4].
Definition FR_BB_RX_DESC_UPD_P123 : list regs_macro := [
  FR "BB_RX_DESC_UPD_P123" 0x01000830; FR "BB_RX_DESC_UPD_P123_STEP" 8192; FR "BB_RX_DESC_UPD_P123_ROWS" 3072;
  FRF "AZ" "RX_DESC_WPTR" 96 12; FRF "AZ" "RX_DESC_PUSH_CMD" 95 1; FRF "AZ" "RX_DESC" 0 64].
Definition FR_AZ_RX_DC_CFG : list regs_macro := [
  FR "AZ_RX_DC_CFG" 0x00000840; FRF "AB" "RX_MAX_PF" 2 2; FRF "AZ" "RX_DC_SIZE" 0 2].
Definition FR_AZ_RX_DC_PF_WM : list regs_macro := [
  FR "AZ_RX_DC_PF_WM" 0x00000850; FRF "AZ" "RX_DC_PF_HWM" 6 6; FRF "AZ" "RX_DC_PF_LWM" 0 6].
Definition FR_BZ_RX_RSS_TKEY : list regs_macro := [
  FR "BZ_RX_RSS_TKEY" 0x00000860; FRF "BZ" "RX_RSS_TKEY_HI" 64 64; FRF "BZ" "RX_RSS_TKEY_LO" 0 64].
Definition FR_AZ_RX_NODESC_DROP : list regs_macro := [
  FR "AZ_RX_NODESC_DROP" 0x00000880; FRF "CZ" "RX_NODESC_DROP_CNT" 0 32; FRF "AB" "RX_NODESC_DROP_CNT" 0 16].
Definition FR_AA_RX_SELF_RST : list regs_macro := [
  FR "AA_RX_SELF_RST" 0x00000890; FRF "AA" "RX_ISCSI_DIS" 17 1; FRF "AA" "RX_SW_RST_REG" 16 1;
  FRF "AA" "RX_NODESC_WAIT_DIS" 9 1; FRF "AA" "RX_SELF_RST_EN" 8 1; FRF "AA" "RX_MAX_PF_LAT" 4 4;
  FRF "AA" "RX_MAX_LU_LAT" 0 4].
Definition FR_AZ_RX_DEBUG : list regs_macro := [
  FR "AZ_RX_DEBUG" 0x000008a0; FRF "AZ" "RX_DEBUG" 0 64].
Definition FR_AZ_RX_PUSH_DROP : list regs_macro := [
  FR "AZ_RX_PUSH_DROP" 0x000008b0; FRF "AZ" "RX_PUSH_DROP_CNT" 0 32].
Definition FR_CZ_RX_RSS_IPV6_REG1 : list regs_macro := [
  FR "CZ_RX_RSS_IPV6_REG1" 0x000008d0; FRF "CZ" "RX_RSS_IPV6_TKEY_LO" 0 128].
Definition FR_CZ_RX_RSS_IPV6_REG2 : list regs_macro := [
  FR "CZ_RX_RSS_IPV6_REG2" 0x000008e0; FRF "CZ" "RX_RSS_IPV6_TKEY_MID" 0 128].
Definition FR_CZ_RX_RSS_IPV6_REG3 : list regs_macro := [
  FR "CZ_RX_RSS_IPV6_REG3" 0x000008f0; FRF "CZ" "RX_RSS_IPV6_THASH_ENABLE" 66 1;
  FRF "CZ" "RX_RSS_IPV6_IP_THASH_ENABLE" 65 1; FRF "CZ" "RX_RSS_IPV6_TCP_SUPPRESS" 64 1;
  FRF "CZ" "RX_RSS_IPV6_TKEY_HI" 0 64].
Definition FR_AZ_TX_FLUSH_DESCQ : list regs_macro := [
  FR "AZ_TX_FLUSH_DESCQ" 0x00000a00; FRF "AZ" "TX_FLUSH_DESCQ_CMD" 12 1; FRF "AZ" "TX_FLUSH_DESCQ" 0 12].
Definition FR_BZ_TX_DESC_UPD_P0 : list regs_macro := [
  FR "BZ_TX_DESC_UPD_P0" 0x00000a10; FR "BZ_TX_DESC_UPD_P0_STEP" 8192; FR "BZ_TX_DESC_UPD_P0_ROWS" 1024].
Definition FR_AA_TX_DESC_UPD_KER : list regs_macro := [
  FR "AA_TX_DESC_UPD_KER" 0x00000a10; FR "AA_TX_DESC_UPD_KER_STEP" 8192; FR "AA_TX_DESC_UPD_KER_ROWS" 8].
Definition FR_BB_TX_DESC_UPD_P123 : list regs_macro := [
  FR "BB_TX_DESC_UPD_P123" 0x01000a10; FR "BB_TX_DESC_UPD_P123_STEP" 8192; FR "BB_TX_DESC_UPD_P123_ROWS" 3072;
  FRF "AZ" "TX_DESC_WPTR" 96 12; FRF "AZ" "TX_DESC_PUSH_CMD" 95 1; FRF "AZ" "TX_DESC" 0 95].
Definition FR_AZ_TX_DC_CFG : list regs_macro := [
  FR "AZ_TX_DC_CFG" 0x00000a20; FRF "AZ" "TX_DC_SIZE" 0 2].
Definition FR_AA_TX_CHKSM_CFG : list regs_macro := [
  FR "AA_TX_CHKSM_CFG" 0x00000a30; FRF "AA" "TX_Q_CHKSM_DIS_96_127" 96 32; FRF "AA" "TX_Q_CHKSM_DIS_64_95" 64 32;
  FRF "AA" "TX_Q_CHKSM_DIS_32_63" 32 32; FRF "AA" "TX_Q_CHKSM_DIS_0_31" 0 32].
Definition FR_AZ_TX_CFG : list regs_macro := [
  FR "AZ_TX_CFG" 0x00000a50; FRF "CZ" "TX_CONT_LOOKUP_THRESH_RANGE" 114 8; FRF "CZ" "TX_FILTER_TEST_MODE_BIT" 113 1;
  FRF "CZ" "TX_ETH_FILTER_WILD_SEARCH_RANGE" 105 8; FRF "CZ" "TX_ETH_FILTER_FULL_SEARCH_RANGE" 97 8;
  FRF "CZ" "TX_UDPIP_FILTER_WILD_SEARCH_RANGE" 89 8; FRF "CZ" "TX_UDPIP_FILTER_FULL_SEARCH_RANGE" 81 8;
  FRF "CZ" "TX_TCPIP_FILTER_WILD_SEARCH_RANGE" 73 8; FRF "CZ" "TX_TCPIP_FILTER_FULL_SEARCH_RANGE" 65 8;
  FRF "CZ" "TX_FILTER_ALL_VLAN_ETHERTYPES_BIT" 64 1; FRF "CZ" "TX_VLAN_MATCH_ETHERTYPE_RANGE" 48 16;
  FRF "CZ" "TX_FILTER_EN_BIT" 47 1; FRF "AZ" "TX_IP_ID_P0_OFS" 16 15; FRF "AZ" "TX_NO_EOP_DISC_EN" 5 1;
  FRF "AZ" "TX_P1_PRI_EN" 4 1; FRF "AZ" "TX_OWNERR_CTL" 2 1; FRF "AA" "TX_NON_IP_DROP_DIS" 1 1;
  FRF "AZ" "TX_IP_ID_REP_EN" 0 1].
Definition FR_AZ_TX_PUSH_DROP : list regs_macro := [
  FR "AZ_TX_PUSH_DROP" 0x00000a60; FRF "AZ" "TX_PUSH_DROP_CNT" 0 32].
Definition FR_AZ_TX_RESERVED : list regs_macro := [
  FR "AZ_TX_RESERVED" 0x00000a80; FRF "AZ" "TX_EVT_CNT" 121 7; FRF "AZ" "TX_PREF_AGE_CNT" 119 2;
  FRF "AZ" "TX_RD_COMP_TMR" 96 23; FRF "AZ" "TX_PUSH_EN" 89 1; FRF "AZ" "TX_PUSH_CHK_DIS" 88 1;
  FRF "AZ" "TX_D_FF_FULL_P0" 85 1; FRF "AZ" "TX_DMAR_ST_P0" 81 1; FRF "AZ" "TX_DMAQ_ST" 78 1;
  FRF "AZ" "TX_RX_SPACER" 64 8; FRF "AZ" "TX_DROP_ABORT_EN" 60 1; FRF "AZ" "TX_SOFT_EVT_EN" 59 1;
  FRF "AZ" "TX_PS_EVT_DIS" 58 1; FRF "AZ" "TX_RX_SPACER_EN" 57 1; FRF "AZ" "TX_XP_TIMER" 52 5;
  FRF "AZ" "TX_PREF_SPACER" 44 8; FRF "AZ" "TX_PREF_WD_TMR" 22 22; FRF "AZ" "TX_ONLY1TAG" 21 1;
  FRF "AZ" "TX_PREF_THRESHOLD" 19 2; FRF "AZ" "TX_ONE_PKT_PER_Q" 18 1; FRF "AZ" "TX_DIS_NON_IP_EV" 17 1;
  FRF "AA" "TX_DMA_FF_THR" 16 1; FRF "AZ" "TX_DMA_SPACER" 8 8; FRF "AA" "TX_TCP_DIS" 7 1;
  FRF "BZ" "TX_FLUSH_MIN_LEN_EN" 7 1; FRF "AA" "TX_IP_DIS" 6 1; FRF "AZ" "TX_MAX_CPL" 2 2; FRF "AZ" "TX_MAX_PREF" 0 2].
Definition FR_BZ_TX_PACE : list regs_macro := [
  FR "BZ_TX_PACE" 0x00000a90; FRF "BZ" "TX_PACE_SB_NOT_AF" 19 10; FRF "BZ" "TX_PACE_SB_AF" 9 10;
  FRF "BZ" "TX_PACE_FB_BASE" 5 4; FRF "BZ" "TX_PACE_BIN_TH" 0 5].
Definition FR_BZ_TX_PACE_DROP_QID : list regs_macro := [
  FR "BZ_TX_PACE_DROP_QID" 0x00000aa0; FRF "BZ" "TX_PACE_QID_DRP_CNT" 0 16].
Definition FR_BB_TX_VLAN : list regs_macro := [
  FR "BB_TX_VLAN" 0x00000ae0; FRF "BB" "TX_VLAN_EN" 127 1; FRF "BB" "TX_VLAN7_PORT1_EN" 125 1;
  FRF "BB" "TX_VLAN7_PORT0_EN" 124 1; FRF "BB" "TX_VLAN7" 112 12; FRF "BB" "TX_VLAN6_PORT1_EN" 109 1;
  FRF "BB" "TX_VLAN6_PORT0_EN" 108 1; FRF "BB" "TX_VLAN6" 96 12; FRF "BB" "TX_VLAN5_PORT1_EN" 93 1;
  FRF "BB" "TX_VLAN5_PORT0_EN" 92 1; FRF "BB" "TX_VLAN5" 80 12; FRF "BB" "TX_VLAN4_PORT1_EN" 77 1;
  FRF "BB" "TX_VLAN4_PORT0_EN" 76 1; FRF "BB" "TX_VLAN4" 64 12; FRF "BB" "TX_VLAN3_PORT1_EN" 61 1;
  FRF "BB" "TX_VLAN3_PORT0_EN" 60 1; FRF "BB" "TX_VLAN3" 48 12; FRF "BB" "TX_VLAN2_PORT1_EN" 45 1;
  FRF "BB" "TX_VLAN2_PORT0_EN" 44 1; FRF "BB" "TX_VLAN2" 32 12; FRF "BB" "TX_VLAN1_PORT1_EN" 29 1;
  FRF "BB" "TX_VLAN1_PORT0_EN" 28 1; FRF "BB" "TX_VLAN1" 16 12; FRF "BB" "TX_VLAN0_PORT1_EN" 13 1;
  FRF "BB" "TX_VLAN0_PORT0_EN" 12 1; FRF "BB" "TX_VLAN0" 0 12].
Definition FR_BZ_TX_IPFIL_PORTEN : list regs_macro := [
  FR "BZ_TX_IPFIL_PORTEN" 0x00000af0; FRF "BZ" "TX_MADR0_FIL_EN" 64 1; FRF "BB" "TX_IPFIL31_PORT_EN" 62 1;
  FRF "BB" "TX_IPFIL30_PORT_EN" 60 1; FRF "BB" "TX_IPFIL29_PORT_EN" 58 1; FRF "BB" "TX_IPFIL28_PORT_EN" 56 1;
  FRF "BB" "TX_IPFIL27_PORT_EN" 54 1; FRF "BB" "TX_IPFIL26_PORT_EN" 52 1; FRF "BB" "TX_IPFIL25_PORT_EN" 50 1;
  FRF "BB" "TX_IPFIL24_PORT_EN" 48 1; FRF "BB" "TX_IPFIL23_PORT_EN" 46 1; FRF "BB" "TX_IPFIL22_PORT_EN" 44 1;
  FRF "BB" "TX_IPFIL21_PORT_EN" 42 1; FRF "BB" "TX_IPFIL20_PORT_EN" 40 1; FRF "BB" "TX_IPFIL19_PORT_EN" 38 1;
  FRF "BB" "TX_IPFIL18_PORT_EN" 36 1; FRF "BB" "TX_IPFIL17_PORT_EN" 34 1; FRF "BB" "TX_IPFIL16_PORT_EN" 32 1;
  FRF "BB" "TX_IPFIL15_PORT_EN" 30 1; FRF "BB" "TX_IPFIL14_PORT_EN" 28 1; FRF "BB" "TX_IPFIL13_PORT_EN" 26 1;
  FRF "BB" "TX_IPFIL12_PORT_EN" 24 1; FRF "BB" "TX_IPFIL11_PORT_EN" 22 1; FRF "BB" "TX_IPFIL10_PORT_EN" 20 1;
  FRF "BB" "TX_IPFIL9_PORT_EN" 18 1; FRF "BB" "TX_IPFIL8_PORT_EN" 16 1; FRF "BB" "TX_IPFIL7_PORT_EN" 14 1;
  FRF "BB" "TX_IPFIL6_PORT_EN" 12 1; FRF "BB" "TX_IPFIL5_PORT_EN" 10 1; FRF "BB" "TX_IPFIL4_PORT_EN" 8 1;
  FRF "BB" "TX_IPFIL3_PORT_EN" 6 1; FRF "BB" "TX_IPFIL2_PORT_EN" 4 1; FRF "BB" "TX_IPFIL1_PORT_EN" 2 1;
  FRF "BB" "TX_IPFIL0_PORT_EN" 0 1].
Definition FR_BB_TX_IPFIL_TBL : list regs_macro := [
  FR "BB_TX_IPFIL_TBL" 0x00000b00; FR "BB_TX_IPFIL_TBL_STEP" 16; FR "BB_TX_IPFIL_TBL_ROWS" 16;
  FRF "BB" "TX_IPFIL_MASK_1" 96 32; FRF "BB" "TX_IP_SRC_ADR_1" 64 32; FRF "BB" "TX_IPFIL_MASK_0" 32 32;
  FRF "BB" "TX_IP_SRC_ADR_0" 0 32].
Definition FR_AB_MD_TXD : list regs_macro := [
  FR "AB_MD_TXD" 0x00000c00; FRF "AB" "MD_TXD" 0 16].
Definition FR_AB_MD_RXD : list regs_macro := [
  FR "AB_MD_RXD" 0x00000c10; FRF "AB" "MD_RXD" 0 16].
Definition FR_AB_MD_CS : list regs_macro := [
  FR "AB_MD_CS" 0x00000c20; FRF "AB" "MD_RD_EN_CMD" 15 1; FRF "AB" "MD_WR_EN_CMD" 14 1; FRF "AB" "MD_ADDR_CMD" 13 1;
  FRF "AB" "MD_PT" 7 3; FRF "AB" "MD_PL" 6 1; FRF "AB" "MD_INT_CLR" 5 1; FRF "AB" "MD_GC" 4 1;
  FRF "AB" "MD_PRSP" 3 1; FRF "AB" "MD_RIC" 2 1; FRF "AB" "MD_RDC" 1 1; FRF "AB" "MD_WRC" 0 1].
Definition FR_AB_MD_PHY_ADR : list regs_macro := [
  FR "AB_MD_PHY_ADR" 0x00000c30; FRF "AB" "MD_PHY_ADR" 0 16].
Definition FR_AB_MD_ID : list regs_macro := [
  FR "AB_MD_ID" 0x00000c40; FRF "AB" "MD_PRT_ADR" 11 5; FRF "AB" "MD_DEV_ADR" 6 5].
Definition FR_AB_MD_STAT : list regs_macro := [
  FR "AB_MD_STAT" 0x00000c50; FRF "AB" "MD_PINT" 4 1; FRF "AB" "MD_DONE" 3 1; FRF "AB" "MD_BSERR" 2 1;
  FRF "AB" "MD_LNFL" 1 1; FRF "AB" "MD_BSY" 0 1].
Definition FR_AB_MAC_STAT_DMA : list regs_macro := [
  FR "AB_MAC_STAT_DMA" 0x00000c60; FRF "AB" "MAC_STAT_DMA_CMD" 48 1; FRF "AB" "MAC_STAT_DMA_ADR" 0 48].
Definition FR_AB_MAC_CTRL : list regs_macro := [
  FR "AB_MAC_CTRL" 0x00000c80; FRF "AB" "MAC_XOFF_VAL" 16 16; FRF "BB" "TXFIFO_DRAIN_EN" 7 1;
  FRF "AB" "MAC_XG_DISTXCRC" 5 1; FRF "AB" "MAC_BCAD_ACPT" 4 1; FRF "AB" "MAC_UC_PROM" 3 1;
  FRF "AB" "MAC_LINK_STATUS" 2 1; FRF "AB" "MAC_SPEED" 0 2].
Definition FR_BB_GEN_MODE : list regs_macro := [
  FR "BB_GEN_MODE" 0x00000c90; FRF "BB" "XFP_PHY_INT_POL_SEL" 3 1; FRF "BB" "XG_PHY_INT_POL_SEL" 2 1;
  FRF "BB" "XFP_PHY_INT_MASK" 1 1; FRF "BB" "XG_PHY_INT_MASK" 0 1].
Definition FR_AB_MAC_MC_HASH_REG0 : list regs_macro := [
  FR "AB_MAC_MC_HASH_REG0" 0x00000ca0; FRF "AB" "MAC_MCAST_HASH0" 0 128].
Definition FR_AB_MAC_MC_HASH_REG1 : list regs_macro := [
  FR "AB_MAC_MC_HASH_REG1" 0x00000cb0; FRF "AB" "MAC_MCAST_HASH1" 0 128].
Definition FR_AB_GM_CFG1 : list regs_macro := [
  FR "AB_GM_CFG1" 0x00000e00; FRF "AB" "GM_SW_RST" 31 1; FRF "AB" "GM_SIM_RST" 30 1;
  FRF "AB" "GM_RST_RX_MAC_CTL" 19 1; FRF "AB" "GM_RST_TX_MAC_CTL" 18 1; FRF "AB" "GM_RST_RX_FUNC" 17 1;
  FRF "AB" "GM_RST_TX_FUNC" 16 1; FRF "AB" "GM_LOOP" 8 1; FRF "AB" "GM_RX_FC_EN" 5 1; FRF "AB" "GM_TX_FC_EN" 4 1;
  FRF "AB" "GM_SYNC_RXEN" 3 1; FRF "AB" "GM_RX_EN" 2 1; FRF "AB" "GM_SYNC_TXEN" 1 1; FRF "AB" "GM_TX_EN" 0 1].
Definition FR_AB_GM_CFG2 : list regs_macro := [
  FR "AB_GM_CFG2" 0x00000e10; FRF "AB" "GM_PAMBL_LEN" 12 4; FRF "AB" "GM_IF_MODE" 8 2; FRF "AB" "GM_HUGE_FRM_EN" 5 1;
  FRF "AB" "GM_LEN_CHK" 4 1; FRF "AB" "GM_PAD_CRC_EN" 2 1; FRF "AB" "GM_CRC_EN" 1 1; FRF "AB" "GM_FD" 0 1].
Definition FR_AB_GM_IPG : list regs_macro := [
  FR "AB_GM_IPG" 0x00000e20; FRF "AB" "GM_NONB2B_IPG1" 24 7; FRF "AB" "GM_NONB2B_IPG2" 16 7;
  FRF "AB" "GM_MIN_IPG_ENF" 8 8; FRF "AB" "GM_B2B_IPG" 0 7].
Definition FR_AB_GM_HD : list regs_macro := [
  FR "AB_GM_HD" 0x00000e30; FRF "AB" "GM_ALT_BOFF_VAL" 20 4; FRF "AB" "GM_ALT_BOFF_EN" 19 1;
  FRF "AB" "GM_BP_NO_BOFF" 18 1; FRF "AB" "GM_DIS_BOFF" 17 1; FRF "AB" "GM_EXDEF_TX_EN" 16 1;
  FRF "AB" "GM_RTRY_LIMIT" 12 4; FRF "AB" "GM_COL_WIN" 0 10].
Definition FR_AB_GM_MAX_FLEN : list regs_macro := [
  FR "AB_GM_MAX_FLEN" 0x00000e40; FRF "AB" "GM_MAX_FLEN" 0 16].
Definition FR_AB_GM_TEST : list regs_macro := [
  FR "AB_GM_TEST" 0x00000e70; FRF "AB" "GM_MAX_BOFF" 3 1; FRF "AB" "GM_REG_TX_FLOW_EN" 2 1;
  FRF "AB" "GM_TEST_PAUSE" 1 1; FRF "AB" "GM_SHORT_SLOT" 0 1].
Definition FR_AB_GM_ADR1 : list regs_macro := [
  FR "AB_GM_ADR1" 0x00000f00; FRF "AB" "GM_ADR_B0" 24 8; FRF "AB" "GM_ADR_B1" 16 8; FRF "AB" "GM_ADR_B2" 8 8;
  FRF "AB" "GM_ADR_B3" 0 8].
Definition FR_AB_GM_ADR2 : list regs_macro := [
  FR "AB_GM_ADR2" 0x00000f10; FRF "AB" "GM_ADR_B4" 24 8; FRF "AB" "GM_ADR_B5" 16 8].
Definition FR_AB_GMF_CFG0 : list regs_macro := [
  FR "AB_GMF_CFG0" 0x00000f20; FRF "AB" "GMF_FTFENRPLY" 20 1; FRF "AB" "GMF_STFENRPLY" 19 1;
  FRF "AB" "GMF_FRFENRPLY" 18 1; FRF "AB" "GMF_SRFENRPLY" 17 1; FRF "AB" "GMF_WTMENRPLY" 16 1;
  FRF "AB" "GMF_FTFENREQ" 12 1; FRF "AB" "GMF_STFENREQ" 11 1; FRF "AB" "GMF_FRFENREQ" 10 1;
  FRF "AB" "GMF_SRFENREQ" 9 1; FRF "AB" "GMF_WTMENREQ" 8 1; FRF "AB" "GMF_HSTRSTFT" 4 1; FRF "AB" "GMF_HSTRSTST" 3 1;
  FRF "AB" "GMF_HSTRSTFR" 2 1; FRF "AB" "GMF_HSTRSTSR" 1 1; FRF "AB" "GMF_HSTRSTWT" 0 1].
Definition FR_AB_GMF_CFG1 : list regs_macro := [
  FR "AB_GMF_CFG1" 0x00000f30; FRF "AB" "GMF_CFGFRTH" 16 5; FRF "AB" "GMF_CFGXOFFRTX" 0 16].
Definition FR_AB_GMF_CFG2 : list regs_macro := [
  FR "AB_GMF_CFG2" 0x00000f40; FRF "AB" "GMF_CFGHWM" 16 6; FRF "AB" "GMF_CFGLWM" 0 6].
Definition FR_AB_GMF_CFG3 : list regs_macro := [
  FR "AB_GMF_CFG3" 0x00000f50; FRF "AB" "GMF_CFGHWMFT" 16 6; FRF "AB" "GMF_CFGFTTH" 0 6].
Definition FR_AB_GMF_CFG4 : list regs_macro := [
  FR "AB_GMF_CFG4" 0x00000f60; FRF "AB" "GMF_HSTFLTRFRM" 0 18].
Definition FR_AB_GMF_CFG5 : list regs_macro := [
  FR "AB_GMF_CFG5" 0x00000f70; FRF "AB" "GMF_CFGHDPLX" 22 1; FRF "AB" "GMF_SRFULL" 21 1;
  FRF "AB" "GMF_HSTSRFULLCLR" 20 1; FRF "AB" "GMF_CFGBYTMODE" 19 1; FRF "AB" "GMF_HSTDRPLT64" 18 1;
  FRF "AB" "GMF_HSTFLTRFRMDC" 0 18].
Definition FR_BB_TX_SRC_MAC_TBL : list regs_macro := [
  FR "BB_TX_SRC_MAC_TBL" 0x00001000; FR "BB_TX_SRC_MAC_TBL_STEP" 16; FR "BB_TX_SRC_MAC_TBL_ROWS" 16;
  FRF "BB" "TX_SRC_MAC_ADR_1" 64 48; FRF "BB" "TX_SRC_MAC_ADR_0" 0 48].
Definition FR_BB_TX_SRC_MAC_CTL : list regs_macro := [
  FR "BB_TX_SRC_MAC_CTL" 0x00001100; FRF "BB" "TX_SRC_DROP_CTR" 16 16; FRF "BB" "TX_SRC_FLTR_EN" 15 1;
  FRF "BB" "TX_DROP_CTR_CLR" 12 1; FRF "BB" "TX_MAC_QID_SEL" 0 3].
Definition FR_AB_XM_ADR_LO : list regs_macro := [
  FR "AB_XM_ADR_LO" 0x00001200; FRF "AB" "XM_ADR_LO" 0 32].
Definition FR_AB_XM_ADR_HI : list regs_macro := [
  FR "AB_XM_ADR_HI" 0x00001210; FRF "AB" "XM_ADR_HI" 0 16].
Definition FR_AB_XM_GLB_CFG : list regs_macro := [
  FR "AB_XM_GLB_CFG" 0x00001220; FRF "AB" "XM_RMTFLT_GEN" 17 1; FRF "AB" "XM_DEBUG_MODE" 16 1;
  FRF "AB" "XM_RX_STAT_EN" 11 1; FRF "AB" "XM_TX_STAT_EN" 10 1; FRF "AB" "XM_RX_JUMBO_MODE" 6 1;
  FRF "AB" "XM_WAN_MODE" 5 1; FRF "AB" "XM_INTCLR_MODE" 3 1; FRF "AB" "XM_CORE_RST" 0 1].
Definition FR_AB_XM_TX_CFG : list regs_macro := [
  FR "AB_XM_TX_CFG" 0x00001230; FRF "AB" "XM_TX_PROG" 24 1; FRF "AB" "XM_IPG" 16 4; FRF "AB" "XM_FCNTL" 10 1;
  FRF "AB" "XM_TXCRC" 8 1; FRF "AB" "XM_EDRC" 6 1; FRF "AB" "XM_AUTO_PAD" 5 1; FRF "AB" "XM_TX_PRMBL" 2 1;
  FRF "AB" "XM_TXEN" 1 1; FRF "AB" "XM_TX_RST" 0 1].
Definition FR_AB_XM_RX_CFG : list regs_macro := [
  FR "AB_XM_RX_CFG" 0x00001240; FRF "AB" "XM_PASS_LENERR" 26 1; FRF "AB" "XM_PASS_CRC_ERR" 25 1;
  FRF "AB" "XM_PASS_PRMBLE_ERR" 24 1; FRF "AB" "XM_REJ_BCAST" 20 1; FRF "AB" "XM_ACPT_ALL_MCAST" 11 1;
  FRF "AB" "XM_ACPT_ALL_UCAST" 9 1; FRF "AB" "XM_AUTO_DEPAD" 8 1; FRF "AB" "XM_RXCRC" 3 1;
  FRF "AB" "XM_RX_PRMBL" 2 1; FRF "AB" "XM_RXEN" 1 1; FRF "AB" "XM_RX_RST" 0 1].
Definition FR_AB_XM_MGT_INT_MASK : list regs_macro := [
  FR "AB_XM_MGT_INT_MASK" 0x00001250; FRF "AB" "XM_MSK_STA_INTR" 16 1; FRF "AB" "XM_MSK_STAT_CNTR_HF" 9 1;
  FRF "AB" "XM_MSK_STAT_CNTR_OF" 8 1; FRF "AB" "XM_MSK_PRMBLE_ERR" 2 1; FRF "AB" "XM_MSK_RMTFLT" 1 1;
  FRF "AB" "XM_MSK_LCLFLT" 0 1].
Definition FR_AB_XM_FC : list regs_macro := [
  FR "AB_XM_FC" 0x00001270; FRF "AB" "XM_PAUSE_TIME" 16 16; FRF "AB" "XM_RX_MAC_STAT" 11 1;
  FRF "AB" "XM_TX_MAC_STAT" 10 1; FRF "AB" "XM_MCNTL_PASS" 8 2; FRF "AB" "XM_REJ_CNTL_UCAST" 6 1;
  FRF "AB" "XM_REJ_CNTL_MCAST" 5 1; FRF "AB" "XM_ZPAUSE" 2 1; FRF "AB" "XM_XMIT_PAUSE" 1 1;
  FRF "AB" "XM_DIS_FCNTL" 0 1].
Definition FR_AB_XM_PAUSE_TIME : list regs_macro := [
  FR "AB_XM_PAUSE_TIME" 0x00001290; FRF "AB" "XM_TX_PAUSE_CNT" 16 16; FRF "AB" "XM_RX_PAUSE_CNT" 0 16].
Definition FR_AB_XM_TX_PARAM : list regs_macro := [
  FR "AB_XM_TX_PARAM" 0x000012d0; FRF "AB" "XM_TX_JUMBO_MODE" 31 1; FRF "AB" "XM_MAX_TX_FRM_SIZE_HI" 19 11;
  FRF "AB" "XM_MAX_TX_FRM_SIZE_LO" 16 3; FRF "AB" "XM_PAD_CHAR" 0 8].
Definition FR_AB_XM_RX_PARAM : list regs_macro := [
  FR "AB_XM_RX_PARAM" 0x000012e0; FRF "AB" "XM_MAX_RX_FRM_SIZE_HI" 3 11; FRF "AB" "XM_MAX_RX_FRM_SIZE_LO" 0 3].
Definition FR_AB_XM_MGT_INT_MSK : list regs_macro := [
  FR "AB_XM_MGT_INT_MSK" 0x000012f0; FRF "AB" "XM_STAT_CNTR_OF" 9 1; FRF "AB" "XM_STAT_CNTR_HF" 8 1;
  FRF "AB" "XM_PRMBLE_ERR" 2 1; FRF "AB" "XM_RMTFLT" 1 1; FRF "AB" "XM_LCLFLT" 0 1].
Definition FR_AB_XX_PWR_RST : list regs_macro := [
  FR "AB_XX_PWR_RST" 0x00001300; FRF "AB" "XX_PWRDND_SIG" 31 1; FRF "AB" "XX_PWRDNC_SIG" 30 1;
  FRF "AB" "XX_PWRDNB_SIG" 29 1; FRF "AB" "XX_PWRDNA_SIG" 28 1; FRF "AB" "XX_SIM_MODE" 27 1;
  FRF "AB" "XX_RSTPLLCD_SIG" 25 1; FRF "AB" "XX_RSTPLLAB_SIG" 24 1; FRF "AB" "XX_RESETD_SIG" 23 1;
  FRF "AB" "XX_RESETC_SIG" 22 1; FRF "AB" "XX_RESETB_SIG" 21 1; FRF "AB" "XX_RESETA_SIG" 20 1;
  FRF "AB" "XX_RSTXGXSRX_SIG" 18 1; FRF "AB" "XX_RSTXGXSTX_SIG" 17 1; FRF "AB" "XX_SD_RST_ACT" 16 1;
  FRF "AB" "XX_PWRDND_EN" 15 1; FRF "AB" "XX_PWRDNC_EN" 14 1; FRF "AB" "XX_PWRDNB_EN" 13 1;
  FRF "AB" "XX_PWRDNA_EN" 12 1; FRF "AB" "XX_RSTPLLCD_EN" 9 1; FRF "AB" "XX_RSTPLLAB_EN" 8 1;
  FRF "AB" "XX_RESETD_EN" 7 1; FRF "AB" "XX_RESETC_EN" 6 1; FRF "AB" "XX_RESETB_EN" 5 1; FRF "AB" "XX_RESETA_EN" 4 1;
  FRF "AB" "XX_RSTXGXSRX_EN" 2 1; FRF "AB" "XX_RSTXGXSTX_EN" 1 1; FRF "AB" "XX_RST_XX_EN" 0 1].
Definition FR_AB_XX_SD_CTL : list regs_macro := [
  FR "AB_XX_SD_CTL" 0x00001310; FRF "AB" "XX_TERMADJ1" 17 1; FRF "AB" "XX_TERMADJ0" 16 1; FRF "AB" "XX_HIDRVD" 15 1;
  FRF "AB" "XX_LODRVD" 14 1; FRF "AB" "XX_HIDRVC" 13 1; FRF "AB" "XX_LODRVC" 12 1; FRF "AB" "XX_HIDRVB" 11 1;
  FRF "AB" "XX_LODRVB" 10 1; FRF "AB" "XX_HIDRVA" 9 1; FRF "AB" "XX_LODRVA" 8 1; FRF "AB" "XX_LPBKD" 3 1;
  FRF "AB" "XX_LPBKC" 2 1; FRF "AB" "XX_LPBKB" 1 1; FRF "AB" "XX_LPBKA" 0 1].
Definition FR_AB_XX_TXDRV_CTL : list regs_macro := [
  FR "AB_XX_TXDRV_CTL" 0x00001320; FRF "AB" "XX_DEQD" 28 4; FRF "AB" "XX_DEQC" 24 4; FRF "AB" "XX_DEQB" 20 4;
  FRF "AB" "XX_DEQA" 16 4; FRF "AB" "XX_DTXD" 12 4; FRF "AB" "XX_DTXC" 8 4; FRF "AB" "XX_DTXB" 4 4;
  FRF "AB" "XX_DTXA" 0 4].
Definition FR_AB_XX_PRBS_CTL : list regs_macro := [
  FR "AB_XX_PRBS_CTL" 0x00001330; FRF "AB" "XX_CH3_RX_PRBS_SEL" 30 2; FRF "AB" "XX_CH3_RX_PRBS_INV" 29 1;
  FRF "AB" "XX_CH3_RX_PRBS_CHKEN" 28 1; FRF "AB" "XX_CH2_RX_PRBS_SEL" 26 2; FRF "AB" "XX_CH2_RX_PRBS_INV" 25 1;
  FRF "AB" "XX_CH2_RX_PRBS_CHKEN" 24 1; FRF "AB" "XX_CH1_RX_PRBS_SEL" 22 2; FRF "AB" "XX_CH1_RX_PRBS_INV" 21 1;
  FRF "AB" "XX_CH1_RX_PRBS_CHKEN" 20 1; FRF "AB" "XX_CH0_RX_PRBS_SEL" 18 2; FRF "AB" "XX_CH0_RX_PRBS_INV" 17 1;
  FRF "AB" "XX_CH0_RX_PRBS_CHKEN" 16 1; FRF "AB" "XX_CH3_TX_PRBS_SEL" 14 2; FRF "AB" "XX_CH3_TX_PRBS_INV" 13 1;
  FRF "AB" "XX_CH3_TX_PRBS_CHKEN" 12 1; FRF "AB" "XX_CH2_TX_PRBS_SEL" 10 2; FRF "AB" "XX_CH2_TX_PRBS_INV" 9 1;
  FRF "AB" "XX_CH2_TX_PRBS_CHKEN" 8 1; FRF "AB" "XX_CH1_TX_PRBS_SEL" 6 2; FRF "AB" "XX_CH1_TX_PRBS_INV" 5 1;
  FRF "AB" "XX_CH1_TX_PRBS_CHKEN" 4 1; FRF "AB" "XX_CH0_TX_PRBS_SEL" 2 2; FRF "AB" "XX_CH0_TX_PRBS_INV" 1 1;
  FRF "AB" "XX_CH0_TX_PRBS_CHKEN" 0 1].
Definition FR_AB_XX_PRBS_CHK : list regs_macro := [
  FR "AB_XX_PRBS_CHK" 0x00001340; FRF "AB" "XX_REV_LB_EN" 16 1; FRF "AB" "XX_CH3_DEG_DET" 15 1;
  FRF "AB" "XX_CH3_LFSR_LOCK_IND" 14 1; FRF "AB" "XX_CH3_PRBS_FRUN" 13 1; FRF "AB" "XX_CH3_ERR_CHK" 12 1;
  FRF "AB" "XX_CH2_DEG_DET" 11 1; FRF "AB" "XX_CH2_LFSR_LOCK_IND" 10 1; FRF "AB" "XX_CH2_PRBS_FRUN" 9 1;
  FRF "AB" "XX_CH2_ERR_CHK" 8 1; FRF "AB" "XX_CH1_DEG_DET" 7 1; FRF "AB" "XX_CH1_LFSR_LOCK_IND" 6 1;
  FRF "AB" "XX_CH1_PRBS_FRUN" 5 1; FRF "AB" "XX_CH1_ERR_CHK" 4 1; FRF "AB" "XX_CH0_DEG_DET" 3 1;
  FRF "AB" "XX_CH0_LFSR_LOCK_IND" 2 1; FRF "AB" "XX_CH0_PRBS_FRUN" 1 1; FRF "AB" "XX_CH0_ERR_CHK" 0 1].
Definition FR_AB_XX_PRBS_ERR : list regs_macro := [
  FR "AB_XX_PRBS_ERR" 0x00001350; FRF "AB" "XX_CH3_PRBS_ERR_CNT" 24 8; FRF "AB" "XX_CH2_PRBS_ERR_CNT" 16 8;
  FRF "AB" "XX_CH1_PRBS_ERR_CNT" 8 8; FRF "AB" "XX_CH0_PRBS_ERR_CNT" 0 8].
Definition FR_AB_XX_CORE_STAT : list regs_macro := [
  FR "AB_XX_CORE_STAT" 0x00001360; FRF "AB" "XX_FORCE_SIG3" 31 1; FRF "AB" "XX_FORCE_SIG3_VAL" 30 1;
  FRF "AB" "XX_FORCE_SIG2" 29 1; FRF "AB" "XX_FORCE_SIG2_VAL" 28 1; FRF "AB" "XX_FORCE_SIG1" 27 1;
  FRF "AB" "XX_FORCE_SIG1_VAL" 26 1; FRF "AB" "XX_FORCE_SIG0" 25 1; FRF "AB" "XX_FORCE_SIG0_VAL" 24 1;
  FRF "AB" "XX_XGXS_LB_EN" 23 1; FRF "AB" "XX_XGMII_LB_EN" 22 1; FRF "AB" "XX_MATCH_FAULT" 21 1;
  FRF "AB" "XX_ALIGN_DONE" 20 1; FRF "AB" "XX_SYNC_STAT3" 19 1; FRF "AB" "XX_SYNC_STAT2" 18 1;
  FRF "AB" "XX_SYNC_STAT1" 17 1; FRF "AB" "XX_SYNC_STAT0" 16 1; FRF "AB" "XX_COMMA_DET_CH3" 15 1;
  FRF "AB" "XX_COMMA_DET_CH2" 14 1; FRF "AB" "XX_COMMA_DET_CH1" 13 1; FRF "AB" "XX_COMMA_DET_CH0" 12 1;
  FRF "AB" "XX_CGRP_ALIGN_CH3" 11 1; FRF "AB" "XX_CGRP_ALIGN_CH2" 10 1; FRF "AB" "XX_CGRP_ALIGN_CH1" 9 1;
  FRF "AB" "XX_CGRP_ALIGN_CH0" 8 1; FRF "AB" "XX_CHAR_ERR_CH3" 7 1; FRF "AB" "XX_CHAR_ERR_CH2" 6 1;
  FRF "AB" "XX_CHAR_ERR_CH1" 5 1; FRF "AB" "XX_CHAR_ERR_CH0" 4 1; FRF "AB" "XX_DISPERR_CH3" 3 1;
  FRF "AB" "XX_DISPERR_CH2" 2 1; FRF "AB" "XX_DISPERR_CH1" 1 1; FRF "AB" "XX_DISPERR_CH0" 0 1].
Definition FR_AA_RX_DESC_PTR_TBL_KER : list regs_macro := [
  FR "AA_RX_DESC_PTR_TBL_KER" 0x00011800; FR "AA_RX_DESC_PTR_TBL_KER_STEP" 16; FR "AA_RX_DESC_PTR_TBL_KER_ROWS" 4].
Definition FR_BZ_RX_DESC_PTR_TBL : list regs_macro := [
  FR "BZ_RX_DESC_PTR_TBL" 0x00f40000; FR "BZ_RX_DESC_PTR_TBL_STEP" 16; FR "BB_RX_DESC_PTR_TBL_ROWS" 4096;
  FR "CZ_RX_DESC_PTR_TBL_ROWS" 1024; FRF "CZ" "RX_HDR_SPLIT" 90 1; FRF "AA" "RX_RESET" 89 1;
  FRF "AZ" "RX_ISCSI_DDIG_EN" 88 1; FRF "AZ" "RX_ISCSI_HDIG_EN" 87 1; FRF "AZ" "RX_DESC_PREF_ACT" 86 1;
  FRF "AZ" "RX_DC_HW_RPTR" 80 6; FRF "AZ" "RX_DESCQ_HW_RPTR" 68 12; FRF "AZ" "RX_DESCQ_SW_WPTR" 56 12;
  FRF "AZ" "RX_DESCQ_BUF_BASE_ID" 36 20; FRF "AZ" "RX_DESCQ_EVQ_ID" 24 12; FRF "AZ" "RX_DESCQ_OWNER_ID" 10 14;
  FRF "AZ" "RX_DESCQ_LABEL" 5 5; FRF "AZ" "RX_DESCQ_SIZE" 3 2; FRF "AZ" "RX_DESCQ_TYPE" 2 1;
  FRF "AZ" "RX_DESCQ_JUMBO" 1 1; FRF "AZ" "RX_DESCQ_EN" 0 1].
Definition FR_AA_TX_DESC_PTR_TBL_KER : list regs_macro := [
  FR "AA_TX_DESC_PTR_TBL_KER" 0x00011900; FR "AA_TX_DESC_PTR_TBL_KER_STEP" 16; FR "AA_TX_DESC_PTR_TBL_KER_ROWS" 8].
Definition FR_BZ_TX_DESC_PTR_TBL : list regs_macro := [
  FR "BZ_TX_DESC_PTR_TBL" 0x00f50000; FR "BZ_TX_DESC_PTR_TBL_STEP" 16; FR "BB_TX_DESC_PTR_TBL_ROWS" 4096;
  FR "CZ_TX_DESC_PTR_TBL_ROWS" 1024; FRF "CZ" "TX_DPT_Q_MASK_WIDTH" 94 2; FRF "CZ" "TX_DPT_ETH_FILT_EN" 93 1;
  FRF "CZ" "TX_DPT_IP_FILT_EN" 92 1; FRF "BZ" "TX_NON_IP_DROP_DIS" 91 1; FRF "BZ" "TX_IP_CHKSM_DIS" 90 1;
  FRF "BZ" "TX_TCP_CHKSM_DIS" 89 1; FRF "AZ" "TX_DESCQ_EN" 88 1; FRF "AZ" "TX_ISCSI_DDIG_EN" 87 1;
  FRF "AZ" "TX_ISCSI_HDIG_EN" 86 1; FRF "AZ" "TX_DC_HW_RPTR" 80 6; FRF "AZ" "TX_DESCQ_HW_RPTR" 68 12;
  FRF "AZ" "TX_DESCQ_SW_WPTR" 56 12; FRF "AZ" "TX_DESCQ_BUF_BASE_ID" 36 20; FRF "AZ" "TX_DESCQ_EVQ_ID" 24 12;
  FRF "AZ" "TX_DESCQ_OWNER_ID" 10 14; FRF "AZ" "TX_DESCQ_LABEL" 5 5; FRF "AZ" "TX_DESCQ_SIZE" 3 2;
  FRF "AZ" "TX_DESCQ_TYPE" 1 2; FRF "AZ" "TX_DESCQ_FLUSH" 0 1].
Definition FR_AA_EVQ_PTR_TBL_KER : list regs_macro := [
  FR "AA_EVQ_PTR_TBL_KER" 0x00011a00; FR "AA_EVQ_PTR_TBL_KER_STEP" 16; FR "AA_EVQ_PTR_TBL_KER_ROWS" 4].
Definition FR_BZ_EVQ_PTR_TBL : list regs_macro := [
  FR "BZ_EVQ_PTR_TBL" 0x00f60000; FR "BZ_EVQ_PTR_TBL_STEP" 16; FR "CZ_EVQ_PTR_TBL_ROWS" 1024;
  FR "BB_EVQ_PTR_TBL_ROWS" 4096; FRF "BZ" "EVQ_RPTR_IGN" 40 1; FRF "AB" "EVQ_WKUP_OR_INT_EN" 39 1;
  FRF "CZ" "EVQ_DOS_PROTECT_EN" 39 1; FRF "AZ" "EVQ_NXT_WPTR" 24 15; FRF "AZ" "EVQ_EN" 23 1;
  FRF "AZ" "EVQ_SIZE" 20 3; FRF "AZ" "EVQ_BUF_BASE_ID" 0 20].
Definition FR_AA_BUF_HALF_TBL_KER : list regs_macro := [
  FR "AA_BUF_HALF_TBL_KER" 0x00018000; FR "AA_BUF_HALF_TBL_KER_STEP" 8; FR "AA_BUF_HALF_TBL_KER_ROWS" 4096].
Definition FR_BZ_BUF_HALF_TBL : list regs_macro := [
  FR "BZ_BUF_HALF_TBL" 0x00800000; FR "BZ_BUF_HALF_TBL_STEP" 8; FR "CZ_BUF_HALF_TBL_ROWS" 147456;
  FR "BB_BUF_HALF_TBL_ROWS" 524288; FRF "AZ" "BUF_ADR_HBUF_ODD" 44 20; FRF "AZ" "BUF_OWNER_ID_HBUF_ODD" 32 12;
  FRF "AZ" "BUF_ADR_HBUF_EVEN" 12 20; FRF "AZ" "BUF_OWNER_ID_HBUF_EVEN" 0 12].
Definition FR_AA_BUF_FULL_TBL_KER : list regs_macro := [
  FR "AA_BUF_FULL_TBL_KER" 0x00018000; FR "AA_BUF_FULL_TBL_KER_STEP" 8; FR "AA_BUF_FULL_TBL_KER_ROWS" 4096].
Definition FR_BZ_BUF_FULL_TBL : list regs_macro := [
  FR "BZ_BUF_FULL_TBL" 0x00800000; FR "BZ_BUF_FULL_TBL_STEP" 8; FR "CZ_BUF_FULL_TBL_ROWS" 147456;
  FR "BB_BUF_FULL_TBL_ROWS" 917504; FRF "AZ" "BUF_FULL_UNUSED" 51 13; FRF "AZ" "IP_DAT_BUF_SIZE" 50 1;
  FRF "AZ" "BUF_ADR_REGION" 48 2; FRF "AZ" "BUF_ADR_FBUF" 14 34; FRF "AZ" "BUF_OWNER_ID_FBUF" 0 14].
Definition FR_BZ_RX_FILTER_TBL0 : list regs_macro := [
  FR "BZ_RX_FILTER_TBL0" 0x00f00000; FR "BZ_RX_FILTER_TBL0_STEP" 32; FR "BZ_RX_FILTER_TBL0_ROWS" 8192].
Definition FR_BB_RX_FILTER_TBL1 : list regs_macro := [
  FR "BB_RX_FILTER_TBL1" 0x00f00010; FR "BB_RX_FILTER_TBL1_STEP" 32; FR "BB_RX_FILTER_TBL1_ROWS" 8192;
  FRF "BZ" "RSS_EN" 110 1; FRF "BZ" "SCATTER_EN" 109 1; FRF "BZ" "TCP_UDP" 108 1; FRF "BZ" "RXQ_ID" 96 12;
  FRF "BZ" "DEST_IP" 64 32; FRF "BZ" "DEST_PORT_TCP" 48 16; FRF "BZ" "SRC_IP" 16 32; FRF "BZ" "SRC_TCP_DEST_UDP" 0 16].
Definition FR_CZ_RX_MAC_FILTER_TBL0 : list regs_macro := [
  FR "CZ_RX_MAC_FILTER_TBL0" 0x00f00010; FR "CZ_RX_MAC_FILTER_TBL0_STEP" 32; FR "CZ_RX_MAC_FILTER_TBL0_ROWS" 512;
  FRF "CZ" "RMFT_RSS_EN" 75 1; FRF "CZ" "RMFT_SCATTER_EN" 74 1; FRF "CZ" "RMFT_IP_OVERRIDE" 73 1;
  FRF "CZ" "RMFT_RXQ_ID" 61 12; FRF "CZ" "RMFT_WILDCARD_MATCH" 60 1; FRF "CZ" "RMFT_DEST_MAC" 12 48;
  FRF "CZ" "RMFT_VLAN_ID" 0 12].
Definition FR_BZ_TIMER_TBL : list regs_macro := [
  FR "BZ_TIMER_TBL" 0x00f70000; FR "BZ_TIMER_TBL_STEP" 16; FR "CZ_TIMER_TBL_ROWS" 1024; FR "BB_TIMER_TBL_ROWS" 4096;
  FRF "CZ" "TIMER_Q_EN" 33 1; FRF "CZ" "INT_ARMD" 32 1; FRF "CZ" "INT_PEND" 31 1; FRF "CZ" "HOST_NOTIFY_MODE" 30 1;
  FRF "CZ" "RELOAD_TIMER_VAL" 16 14; FRF "CZ" "TIMER_MODE" 14 2; FRF "BB" "TIMER_MODE" 12 2;
  FRF "CZ" "TIMER_VAL" 0 14; FRF "BB" "TIMER_VAL" 0 12].
Definition FR_BZ_TX_PACE_TBL : list regs_macro := [
  FR "BZ_TX_PACE_TBL" 0x00f80000; FR "BZ_TX_PACE_TBL_STEP" 16; FR "CZ_TX_PACE_TBL_ROWS" 1024;
  FR "BB_TX_PACE_TBL_ROWS" 4096; FRF "BZ" "TX_PACE" 0 5].
Definition FR_BZ_RX_INDIRECTION_TBL : list regs_macro := [
  FR "BZ_RX_INDIRECTION_TBL" 0x00fb0000; FR "BZ_RX_INDIRECTION_TBL_STEP" 16; FR "BZ_RX_INDIRECTION_TBL_ROWS" 128;
  FRF "BZ" "IT_QUEUE" 0 6].
Definition FR_CZ_TX_FILTER_TBL0 : list regs_macro := [
  FR "CZ_TX_FILTER_TBL0" 0x00fc0000; FR "CZ_TX_FILTER_TBL0_STEP" 16; FR "CZ_TX_FILTER_TBL0_ROWS" 8192;
  FRF "CZ" "TIFT_TCP_UDP" 108 1; FRF "CZ" "TIFT_TXQ_ID" 96 12; FRF "CZ" "TIFT_DEST_IP" 64 32;
  FRF "CZ" "TIFT_DEST_PORT_TCP" 48 16; FRF "CZ" "TIFT_SRC_IP" 16 32; FRF "CZ" "TIFT_SRC_TCP_DEST_UDP" 0 16].
Definition FR_CZ_TX_MAC_FILTER_TBL0 : list regs_macro := [
  FR "CZ_TX_MAC_FILTER_TBL0" 0x00fe0000; FR "CZ_TX_MAC_FILTER_TBL0_STEP" 16; FR "CZ_TX_MAC_FILTER_TBL0_ROWS" 512;
  FRF "CZ" "TMFT_TXQ_ID" 61 12; FRF "CZ" "TMFT_WILDCARD_MATCH" 60 1; FRF "CZ" "TMFT_SRC_MAC" 12 48;
  FRF "CZ" "TMFT_VLAN_ID" 0 12].
Definition FR_CZ_MC_TREG_SMEM : list regs_macro := [
  FR "CZ_MC_TREG_SMEM" 0x00ff0000; FR "CZ_MC_TREG_SMEM_STEP" 4; FR "CZ_MC_TREG_SMEM_ROWS" 512;
  FRF "CZ" "MC_TREG_SMEM_ROW" 0 32].

Definition regs_h : list regs_macro := concat [
  FR_AZ_ADR_REGION; FR_AZ_INT_EN_KER; FR_BZ_INT_EN_CHAR; FR_AZ_INT_ADR_KER; FR_BZ_INT_ADR_CHAR; FR_AA_INT_ACK_KER;
  FR_BZ_INT_ISR0; FR_AZ_HW_INIT; FR_AB_EE_SPI_HCMD; FR_CZ_USR_EV_CFG; FR_AB_EE_SPI_HADR; FR_AB_EE_SPI_HDATA;
  FR_AB_EE_BASE_PAGE; FR_AB_EE_VPD_CFG0; FR_AB_EE_VPD_SW_CNTL; FR_AB_EE_VPD_SW_DATA; FR_CZ_PBMX_DBG_IADDR;
  FR_BB_PCIE_CORE_INDIRECT; FR_CZ_PBMX_DBG_IDATA; FR_AB_NIC_STAT; FR_AB_GPIO_CTL; FR_AB_GLB_CTL;
  FR_AZ_FATAL_INTR_KER; FR_BZ_FATAL_INTR_CHAR; FR_BZ_DP_CTRL; FR_AZ_MEM_STAT; FR_AZ_CS_DEBUG; FR_AZ_DRIVER;
  FR_AZ_ALTERA_BUILD; FR_AZ_CSR_SPARE; FR_AB_PCIE_SD_CTL0123; FR_AB_PCIE_SD_CTL45; FR_AB_PCIE_PCS_CTL_STAT;
  FR_BB_DEBUG_DATA_OUT; FR_BZ_EVQ_RPTR_P0; FR_AA_EVQ_RPTR_KER; FR_BZ_EVQ_RPTR; FR_BB_EVQ_RPTR_P123;
  FR_BZ_TIMER_COMMAND_P0; FR_AA_TIMER_COMMAND_KER; FR_BB_TIMER_COMMAND_P123; FR_AZ_DRV_EV; FR_AZ_EVQ_CTL;
  FR_AZ_EVQ_CNT1; FR_AZ_EVQ_CNT2; FR_CZ_USR_EV; FR_AZ_BUF_TBL_CFG; FR_AZ_SRM_RX_DC_CFG; FR_AZ_SRM_TX_DC_CFG;
  FR_AZ_SRM_CFG; FR_AZ_BUF_TBL_UPD; FR_AZ_SRM_UPD_EVQ; FR_AZ_SRAM_PARITY; FR_AZ_RX_CFG; FR_BZ_RX_FILTER_CTL;
  FR_AZ_RX_FLUSH_DESCQ; FR_BZ_RX_DESC_UPD_P0; FR_AA_RX_DESC_UPD_KER; FR_BB_RX_DESC_UPD_P123; FR_AZ_RX_DC_CFG;
  FR_AZ_RX_DC_PF_WM; FR_BZ_RX_RSS_TKEY; FR_AZ_RX_NODESC_DROP; FR_AA_RX_SELF_RST; FR_AZ_RX_DEBUG; FR_AZ_RX_PUSH_DROP;
  FR_CZ_RX_RSS_IPV6_REG1; FR_CZ_RX_RSS_IPV6_REG2; FR_CZ_RX_RSS_IPV6_REG3; FR_AZ_TX_FLUSH_DESCQ; FR_BZ_TX_DESC_UPD_P0;
  FR_AA_TX_DESC_UPD_KER; FR_BB_TX_DESC_UPD_P123; FR_AZ_TX_DC_CFG; FR_AA_TX_CHKSM_CFG; FR_AZ_TX_CFG;
  FR_AZ_TX_PUSH_DROP; FR_AZ_TX_RESERVED; FR_BZ_TX_PACE; FR_BZ_TX_PACE_DROP_QID; FR_BB_TX_VLAN; FR_BZ_TX_IPFIL_PORTEN;
  FR_BB_TX_IPFIL_TBL; FR_AB_MD_TXD; FR_AB_MD_RXD; FR_AB_MD_CS; FR_AB_MD_PHY_ADR; FR_AB_MD_ID; FR_AB_MD_STAT;
  FR_AB_MAC_STAT_DMA; FR_AB_MAC_CTRL; FR_BB_GEN_MODE; FR_AB_MAC_MC_HASH_REG0; FR_AB_MAC_MC_HASH_REG1; FR_AB_GM_CFG1;
  FR_AB_GM_CFG2; FR_AB_GM_IPG; FR_AB_GM_HD; FR_AB_GM_MAX_FLEN; FR_AB_GM_TEST; FR_AB_GM_ADR1; FR_AB_GM_ADR2;
  FR_AB_GMF_CFG0; FR_AB_GMF_CFG1; FR_AB_GMF_CFG2; FR_AB_GMF_CFG3; FR_AB_GMF_CFG4; FR_AB_GMF_CFG5;
  FR_BB_TX_SRC_MAC_TBL; FR_BB_TX_SRC_MAC_CTL; FR_AB_XM_ADR_LO; FR_AB_XM_ADR_HI; FR_AB_XM_GLB_CFG; FR_AB_XM_TX_CFG;
  FR_AB_XM_RX_CFG; FR_AB_XM_MGT_INT_MASK; FR_AB_XM_FC; FR_AB_XM_PAUSE_TIME; FR_AB_XM_TX_PARAM; FR_AB_XM_RX_PARAM;
  FR_AB_XM_MGT_INT_MSK; FR_AB_XX_PWR_RST; FR_AB_XX_SD_CTL; FR_AB_XX_TXDRV_CTL; FR_AB_XX_PRBS_CTL; FR_AB_XX_PRBS_CHK;
  FR_AB_XX_PRBS_ERR; FR_AB_XX_CORE_STAT; FR_AA_RX_DESC_PTR_TBL_KER; FR_BZ_RX_DESC_PTR_TBL; FR_AA_TX_DESC_PTR_TBL_KER;
  FR_BZ_TX_DESC_PTR_TBL; FR_AA_EVQ_PTR_TBL_KER; FR_BZ_EVQ_PTR_TBL; FR_AA_BUF_HALF_TBL_KER; FR_BZ_BUF_HALF_TBL;
  FR_AA_BUF_FULL_TBL_KER; FR_BZ_BUF_FULL_TBL; FR_BZ_RX_FILTER_TBL0; FR_BB_RX_FILTER_TBL1; FR_CZ_RX_MAC_FILTER_TBL0;
  FR_BZ_TIMER_TBL; FR_BZ_TX_PACE_TBL; FR_BZ_RX_INDIRECTION_TBL; FR_CZ_TX_FILTER_TBL0; FR_CZ_TX_MAC_FILTER_TBL0;
  FR_CZ_MC_TREG_SMEM].

(** The value of a macro; a macro that is not defined would be an error of the
    compiler. *)
Definition frf (revs name : string) : option (Z * Z) :=
  match List.find (fun m => match m with FRF r n _ _ => streq n name && streq r revs | FR _ _ => false end)%bool regs_h with
  | Some (FRF _ _ lbn width) => Some (lbn, width)
  | _ => None
  end.
Definition fr (name : string) : option Z :=
  match List.find (fun m => match m with FR n _ => streq n name | FRF _ _ _ _ => false end) regs_h with
  | Some (FR _ v) => Some v
  | _ => None
  end.

Definition REGISTER_REVISION_A : Z := 1.
Definition REGISTER_REVISION_B : Z := 2.
Definition REGISTER_REVISION_C : Z := 3.
Definition REGISTER_REVISION_Z : Z := 3.
Inductive rev : Type := A | B | C | Zz.
Definition REGISTER_REVISION (r : rev) : Z :=
  match r with A => REGISTER_REVISION_A | B => REGISTER_REVISION_B | C => REGISTER_REVISION_C | Zz => REGISTER_REVISION_Z end.
Definition rev_text (r : rev) : string := match r with A => "A" | B => "B" | C => "C" | Zz => "Z" end.

(** The numbers are bit fields: 7, 8, 2 and 2 bits. *)
Record efx_nic_reg_field := mk_field { f_name : string; lbn : Z; width : Z; f_min : Z; f_max : Z }.

Definition REGISTER_FIELD_RENAME (name display_name : string) (min_rev max_rev : rev) : efx_nic_reg_field :=
  let '(l, w) := default (0, 0) (frf (rev_text min_rev +:+ rev_text max_rev) name) in
  mk_field display_name (wrapu 7 l) (wrapu 8 w) (wrapu 2 (REGISTER_REVISION min_rev)) (wrapu 2 (REGISTER_REVISION max_rev)).
Definition REGISTER_FIELD (name : string) (min_rev max_rev : rev) : efx_nic_reg_field :=
  REGISTER_FIELD_RENAME name name min_rev max_rev.
Definition REGISTER_FIELD_AA (name : string) := REGISTER_FIELD name A A.
Definition REGISTER_FIELD_AB (name : string) := REGISTER_FIELD name A B.
Definition REGISTER_FIELD_AZ (name : string) := REGISTER_FIELD name A Zz.
Definition REGISTER_FIELD_BB (name : string) := REGISTER_FIELD name B B.
Definition REGISTER_FIELD_BZ (name : string) := REGISTER_FIELD name B Zz.
Definition REGISTER_FIELD_CZ (name : string) := REGISTER_FIELD name C Zz.
Definition REGISTER_FIELD_AZ_RENAME (name display_name : string) := REGISTER_FIELD_RENAME name display_name A Zz.
Definition REGISTER_FIELD_BZ_RENAME (name display_name : string) := REGISTER_FIELD_RENAME name display_name B Zz.
Definition REGISTER_FIELD_CZ_RENAME (name display_name : string) := REGISTER_FIELD_RENAME name display_name C Zz.

Definition efx_nic_reg_fields_ADR_REGION : list efx_nic_reg_field := [
  REGISTER_FIELD_AZ "ADR_REGION0"; REGISTER_FIELD_AZ "ADR_REGION1"; REGISTER_FIELD_AZ "ADR_REGION2";
  REGISTER_FIELD_AZ "ADR_REGION3"].
Definition efx_nic_reg_fields_INT_EN_KER : list efx_nic_reg_field := [
  REGISTER_FIELD_AZ "DRV_INT_EN_KER"; REGISTER_FIELD_AZ "KER_INT_KER"; REGISTER_FIELD_AZ "KER_INT_CHAR";
  REGISTER_FIELD_AZ "KER_INT_LEVE_SEL"].
Definition efx_nic_reg_fields_INT_EN_CHAR : list efx_nic_reg_field := [
  REGISTER_FIELD_BZ "DRV_INT_EN_CHAR"; REGISTER_FIELD_BZ "CHAR_INT_KER"; REGISTER_FIELD_BZ "CHAR_INT_CHAR";
  REGISTER_FIELD_BZ "CHAR_INT_LEVE_SEL"].
Definition efx_nic_reg_fields_INT_ADR_KER : list efx_nic_reg_field := [
  REGISTER_FIELD_AZ "INT_ADR_KER"; REGISTER_FIELD_AZ "NORM_INT_VEC_DIS_KER"].
Definition efx_nic_reg_fields_INT_ADR_CHAR : list efx_nic_reg_field := [
  REGISTER_FIELD_BZ "INT_ADR_CHAR"; REGISTER_FIELD_BZ "NORM_INT_VEC_DIS_CHAR"].
Definition efx_nic_reg_fields_HW_INIT : list efx_nic_reg_field := [
  REGISTER_FIELD_AZ "TLP_TD"; REGISTER_FIELD_AZ "TD_SEL"; REGISTER_FIELD_AZ "ATTR_SEL"; REGISTER_FIELD_AZ "TLP_EP";
  REGISTER_FIELD_AZ "US_DISABLE"; REGISTER_FIELD_AZ "WD_TIMER"; REGISTER_FIELD_AB "INTA_VEC";
  REGISTER_FIELD_AB "INTB_VEC"; REGISTER_FIELD_AZ "TLP_ATTR"; REGISTER_FIELD_AZ "TLP_TC";
  REGISTER_FIELD_AZ "POST_WR_MASK"; REGISTER_FIELD_BB "FC_BLOCKING_EN"; REGISTER_FIELD_AA "B2B_REQ_EN";
  REGISTER_FIELD_BZ "B2B_REQ_EN"; REGISTER_FIELD_AA "FC_BLOCKING_EN"; REGISTER_FIELD_AB "PE_EIDLE_DIS";
  REGISTER_FIELD_AB "TX_RREQ_MASK_EN"; REGISTER_FIELD_AZ "DOORBELL_DROP"; REGISTER_FIELD_AB "TRGT_MASK_ALL";
  REGISTER_FIELD_CZ "TX_MRG_TAGS"; REGISTER_FIELD_BB "PCIE_CPL_TIMEOUT_CTRL"; REGISTER_FIELD_BB "BDMRD_CPLF_FULL"].
Definition efx_nic_reg_fields_USR_EV_CFG : list efx_nic_reg_field := [
  REGISTER_FIELD_CZ "DFLT_EVQ"; REGISTER_FIELD_CZ "USREV_DIS"].
Definition efx_nic_reg_fields_EE_SPI_HCMD : list efx_nic_reg_field := [
  REGISTER_FIELD_AB "EE_SPI_HCMD_ENC"; REGISTER_FIELD_AB "EE_SPI_HCMD_ADBCNT";
  REGISTER_FIELD_AB "EE_SPI_HCMD_DUBCNT"; REGISTER_FIELD_AB "EE_SPI_HCMD_READ";
  REGISTER_FIELD_AB "EE_SPI_HCMD_DABCNT"; REGISTER_FIELD_AB "EE_SPI_HCMD_SF_SEL";
  REGISTER_FIELD_AB "EE_WR_TIMER_ACTIVE"; REGISTER_FIELD_AB "EE_SPI_HCMD_CMD_EN"].
Definition efx_nic_reg_fields_EE_SPI_HADR : list efx_nic_reg_field := [
  REGISTER_FIELD_AB "EE_SPI_HADR_ADR"; REGISTER_FIELD_AB "EE_SPI_HADR_DUBYTE"].
Definition efx_nic_reg_fields_EE_SPI_HDATA : list efx_nic_reg_field := [
  REGISTER_FIELD_AB "EE_SPI_HDATA0"; REGISTER_FIELD_AB "EE_SPI_HDATA1"; REGISTER_FIELD_AB "EE_SPI_HDATA2";
  REGISTER_FIELD_AB "EE_SPI_HDATA3"].
Definition efx_nic_reg_fields_EE_BASE_PAGE : list efx_nic_reg_field := [
  REGISTER_FIELD_AB "EE_EXP_ROM_WINDOW_BASE"; REGISTER_FIELD_AB "EE_EXPROM_MASK"].
Definition efx_nic_reg_fields_EE_VPD_CFG0 : list efx_nic_reg_field := [
  REGISTER_FIELD_AB "EE_VPD_EN"; REGISTER_FIELD_AB "EE_VPD_EN_AD9_MODE"; REGISTER_FIELD_AB "EE_VPD_DEV_SF_SEL";
  REGISTER_FIELD_AB "EE_VPD_ACCESS_BLOCK"; REGISTER_FIELD_AB "EE_VPD_ACCESS_ON"; REGISTER_FIELD_AB "EE_VPD_AD_SIZE";
  REGISTER_FIELD_AB "EE_VPD_LENGTH"; REGISTER_FIELD_AB "EE_VPD_BASE"; REGISTER_FIELD_AB "EE_VPD_WR_CMD_EN";
  REGISTER_FIELD_AB "EE_VPDW_BASE"; REGISTER_FIELD_AB "EE_VPDW_LENGTH"; REGISTER_FIELD_AB "EE_EE_WR_TMR_VALUE";
  REGISTER_FIELD_AB "EE_EE_CLOCK_DIV"; REGISTER_FIELD_AB "EE_VPD_WIP_POLL"; REGISTER_FIELD_AB "EE_SF_CLOCK_DIV";
  REGISTER_FIELD_AB "EE_SF_FASTRD_EN"].
Definition efx_nic_reg_fields_NIC_STAT : list efx_nic_reg_field := [
  REGISTER_FIELD_AB "STRAP_PINS"; REGISTER_FIELD_AB "ATE_MODE"; REGISTER_FIELD_AB "EE_PRST";
  REGISTER_FIELD_AB "SF_PRST"; REGISTER_FIELD_AB "ONCHIP_SRAM"; REGISTER_FIELD_BB "REVISION_ID";
  REGISTER_FIELD_BB "EE_STRAP"; REGISTER_FIELD_BB "EE_STRAP_EN"; REGISTER_FIELD_BB "AER_DIS"].
Definition efx_nic_reg_fields_GPIO_CTL : list efx_nic_reg_field := [
  REGISTER_FIELD_AB "GPIO0_PWRUP_VALUE"; REGISTER_FIELD_AB "GPIO1_PWRUP_VALUE";
  REGISTER_FIELD_AB "GPIO2_PWRUP_VALUE"; REGISTER_FIELD_AB "GPIO3_PWRUP_VALUE";
  REGISTER_FIELD_AB "GPIO4_PWRUP_VALUE"; REGISTER_FIELD_AB "GPIO5_PWRUP_VALUE";
  REGISTER_FIELD_AB "GPIO6_PWRUP_VALUE"; REGISTER_FIELD_AB "GPIO7_PWRUP_VALUE"; REGISTER_FIELD_AB "GPIO0_IN";
  REGISTER_FIELD_AB "GPIO1_IN"; REGISTER_FIELD_AB "GPIO2_IN"; REGISTER_FIELD_AB "GPIO3_IN";
  REGISTER_FIELD_AB "GPIO4_IN"; REGISTER_FIELD_AB "GPIO5_IN"; REGISTER_FIELD_AB "GPIO6_IN";
  REGISTER_FIELD_AB "GPIO7_IN"; REGISTER_FIELD_AB "GPIO0_OUT"; REGISTER_FIELD_AB "GPIO1_OUT";
  REGISTER_FIELD_AB "GPIO2_OUT"; REGISTER_FIELD_AB "GPIO3_OUT"; REGISTER_FIELD_AB "GPIO4_OUT";
  REGISTER_FIELD_AB "GPIO5_OUT"; REGISTER_FIELD_AB "GPIO6_OUT"; REGISTER_FIELD_AB "GPIO7_OUT";
  REGISTER_FIELD_AB "GPIO0_OEN"; REGISTER_FIELD_AB "GPIO1_OEN"; REGISTER_FIELD_AB "GPIO2_OEN";
  REGISTER_FIELD_AB "GPIO3_OEN"; REGISTER_FIELD_AB "GPIO4_OEN"; REGISTER_FIELD_AB "GPIO5_OEN";
  REGISTER_FIELD_AB "USE_NIC_CLK"; REGISTER_FIELD_AB "CLK156_OUT_EN"; REGISTER_FIELD_AB "GPIO8_PWRUP_VALUE";
  REGISTER_FIELD_AB "GPIO9_PWRUP_VALUE"; REGISTER_FIELD_AB "GPIO10_PWRUP_VALUE";
  REGISTER_FIELD_AB "GPIO11_PWRUP_VALUE"; REGISTER_FIELD_AB "GPIO12_PWRUP_VALUE";
  REGISTER_FIELD_AB "GPIO13_PWRUP_VALUE"; REGISTER_FIELD_AB "GPIO14_PWRUP_VALUE";
  REGISTER_FIELD_AB "GPIO15_PWRUP_VALUE"; REGISTER_FIELD_AB "GPIO8_IN"; REGISTER_FIELD_AB "GPIO9_IN";
  REGISTER_FIELD_AB "GPIO10_IN"; REGISTER_FIELD_AB "GPIO11_IN"; REGISTER_FIELD_AB "GPIO12_IN";
  REGISTER_FIELD_AB "GPIO13_IN"; REGISTER_FIELD_AB "GPIO14_IN"; REGISTER_FIELD_AB "GPIO15_IN";
  REGISTER_FIELD_AB "GPIO8_OUT"; REGISTER_FIELD_AB "GPIO9_OUT"; REGISTER_FIELD_AB "GPIO10_OUT";
  REGISTER_FIELD_AB "GPIO11_OUT"; REGISTER_FIELD_AB "GPIO12_OUT"; REGISTER_FIELD_AB "GPIO13_OUT";
  REGISTER_FIELD_AB "GPIO14_OUT"; REGISTER_FIELD_AB "GPIO15_OUT"; REGISTER_FIELD_AB "GPIO8_OEN";
  REGISTER_FIELD_AB "GPIO9_OEN"; REGISTER_FIELD_AB "GPIO10_OEN"; REGISTER_FIELD_AB "GPIO11_OEN";
  REGISTER_FIELD_AB "GPIO12_OEN"; REGISTER_FIELD_AB "GPIO13_OEN"; REGISTER_FIELD_AB "GPIO14_OEN";
  REGISTER_FIELD_AB "GPIO15_OEN"; REGISTER_FIELD_AB "GPIO_PWRUP_VALUE2"; REGISTER_FIELD_AB "GPIO_IN2";
  REGISTER_FIELD_AB "GPIO_OUT2"; REGISTER_FIELD_AB "GPIO_PWRUP_VALUE3"; REGISTER_FIELD_AB "GPIO_IN3";
  REGISTER_FIELD_AB "GPIO_OUT3"].
Definition efx_nic_reg_fields_GLB_CTL : list efx_nic_reg_field := [
  REGISTER_FIELD_AB "SWRST"; REGISTER_FIELD_AB "EXT_PHY_RST_DUR"; REGISTER_FIELD_AB "INT_RST_DUR";
  REGISTER_FIELD_AB "RST_CS"; REGISTER_FIELD_AB "RST_SF"; REGISTER_FIELD_AB "RST_TX"; REGISTER_FIELD_AB "RST_RX";
  REGISTER_FIELD_AB "RST_SR"; REGISTER_FIELD_AB "RST_EV"; REGISTER_FIELD_AB "RST_EM"; REGISTER_FIELD_AB "RST_XGTX";
  REGISTER_FIELD_AB "RST_XGRX"; REGISTER_FIELD_AB "RST_PCIE_CORE"; REGISTER_FIELD_AB "RST_PCIE_NSTKY";
  REGISTER_FIELD_AB "RST_PCIE_STKY"; REGISTER_FIELD_BB "RST_BIU"; REGISTER_FIELD_AA "RST_PCIX";
  REGISTER_FIELD_AB "RST_PCIE_SD"; REGISTER_FIELD_AB "RST_XAUI_SD"; REGISTER_FIELD_AB "RST_EXT_PHY";
  REGISTER_FIELD_AB "HOT_RST_CTL"; REGISTER_FIELD_AB "CS_RST_CTL"; REGISTER_FIELD_AB "EE_RST_CTL";
  REGISTER_FIELD_AB "TX_RST_CTL"; REGISTER_FIELD_AB "RX_RST_CTL"; REGISTER_FIELD_AB "SR_RST_CTL";
  REGISTER_FIELD_AB "EV_RST_CTL"; REGISTER_FIELD_AB "EM_RST_CTL"; REGISTER_FIELD_AB "XGTX_RST_CTL";
  REGISTER_FIELD_AB "XGRX_RST_CTL"; REGISTER_FIELD_AB "PCIE_CORE_RST_CTL"; REGISTER_FIELD_AB "PCIE_NSTKY_RST_CTL";
  REGISTER_FIELD_AB "PCIE_STKY_RST_CTL"; REGISTER_FIELD_BB "BIU_RST_CTL"; REGISTER_FIELD_AA "PCIX_RST_CTL";
  REGISTER_FIELD_AB "PCIE_SD_RST_CTL"; REGISTER_FIELD_AB "XAUI_SD_RST_CTL"; REGISTER_FIELD_AB "EXT_PHY_RST_CTL"].
Definition efx_nic_reg_fields_DP_CTRL : list efx_nic_reg_field := [
  REGISTER_FIELD_BZ "FLS_EVQ_ID"].
Definition efx_nic_reg_fields_MEM_STAT : list efx_nic_reg_field := [
  REGISTER_FIELD_CZ "MEM_PERR_VEC"; REGISTER_FIELD_AB "MBIST_ERR"; REGISTER_FIELD_AB "MBIST_CORR";
  REGISTER_FIELD_AB "MEM_PERR_VEC"].
Definition efx_nic_reg_fields_CS_DEBUG : list efx_nic_reg_field := [
  REGISTER_FIELD_AZ "CS_DEBUG_EN"; REGISTER_FIELD_CZ "CS_PORT_NUM"].
Definition efx_nic_reg_fields_ALTERA_BUILD : list efx_nic_reg_field := [
  REGISTER_FIELD_AZ "ALTERA_BUILD_VER"].
Definition efx_nic_reg_fields_CSR_SPARE : list efx_nic_reg_field := [
  REGISTER_FIELD_AZ "CSR_SPARE_BITS"; REGISTER_FIELD_AB "MEM_PERR_EN_TX_DATA"; REGISTER_FIELD_CZ "MEM_PERR_EN";
  REGISTER_FIELD_AB "MEM_PERR_EN"].
Definition efx_nic_reg_fields_PCIE_SD_CTL0123 : list efx_nic_reg_field := [
  REGISTER_FIELD_AB "PCIE_LODRV"; REGISTER_FIELD_AB "PCIE_HIDRV"; REGISTER_FIELD_AB "PCIE_RXEQCTL_L";
  REGISTER_FIELD_AB "PCIE_RXEQCTL_H"; REGISTER_FIELD_AB "PCIE_TXTERMADJ_L"; REGISTER_FIELD_AB "PCIE_TXTERMADJ_H";
  REGISTER_FIELD_AB "PCIE_RXTERMADJ_L"; REGISTER_FIELD_AB "PCIE_RXTERMADJ_H"; REGISTER_FIELD_AB "PCIE_PARLPBK";
  REGISTER_FIELD_AB "PCIE_LPBK"; REGISTER_FIELD_AB "PCIE_LPBKWDRV_L"; REGISTER_FIELD_AB "PCIE_LPBKWDRV_H";
  REGISTER_FIELD_AB "PCIE_PARRESET_L"; REGISTER_FIELD_AB "PCIE_PARRESET_H"; REGISTER_FIELD_AB "PCIE_HIVMODE_L";
  REGISTER_FIELD_AB "PCIE_HIVMODE_H"; REGISTER_FIELD_AB "PCIE_OFFSETEN_L"; REGISTER_FIELD_AB "PCIE_OFFSETEN_H";
  REGISTER_FIELD_AB "PCIE_OFFSET"; REGISTER_FIELD_AB "PCIE_TESTSIG_L"; REGISTER_FIELD_AB "PCIE_TESTSIG_H"].
Definition efx_nic_reg_fields_PCIE_SD_CTL45 : list efx_nic_reg_field := [
  REGISTER_FIELD_AB "PCIE_DEQ0"; REGISTER_FIELD_AB "PCIE_DEQ1"; REGISTER_FIELD_AB "PCIE_DEQ2";
  REGISTER_FIELD_AB "PCIE_DEQ3"; REGISTER_FIELD_AB "PCIE_DEQ4"; REGISTER_FIELD_AB "PCIE_DEQ5";
  REGISTER_FIELD_AB "PCIE_DEQ6"; REGISTER_FIELD_AB "PCIE_DEQ7"; REGISTER_FIELD_AB "PCIE_DTX0";
  REGISTER_FIELD_AB "PCIE_DTX1"; REGISTER_FIELD_AB "PCIE_DTX2"; REGISTER_FIELD_AB "PCIE_DTX3";
  REGISTER_FIELD_AB "PCIE_DTX4"; REGISTER_FIELD_AB "PCIE_DTX5"; REGISTER_FIELD_AB "PCIE_DTX6";
  REGISTER_FIELD_AB "PCIE_DTX7"].
Definition efx_nic_reg_fields_PCIE_PCS_CTL_STAT : list efx_nic_reg_field := [
  REGISTER_FIELD_AB "PCIE_PRBSSEL"; REGISTER_FIELD_AB "PCIE_PRBSERRACK_L"; REGISTER_FIELD_AB "PCIE_PRBSERRACK_H";
  REGISTER_FIELD_AB "PCIE_PRBSSYNC_L"; REGISTER_FIELD_AB "PCIE_PRBSSYNC_H"; REGISTER_FIELD_AB "PCIE_CTCDISABLE_L";
  REGISTER_FIELD_AB "PCIE_CTCDISABLE_H"; REGISTER_FIELD_AB "PCIE_FASTINIT_L"; REGISTER_FIELD_AB "PCIE_FASTINIT_H";
  REGISTER_FIELD_AB "PCIE_PRBSERRH0"; REGISTER_FIELD_AB "PCIE_PRBSERR"; REGISTER_FIELD_AB "PCIE_PRBSERRCOUNT0_L";
  REGISTER_FIELD_AB "PCIE_PRBSERRCOUNT0_H"].
Definition efx_nic_reg_fields_EVQ_CTL : list efx_nic_reg_field := [
  REGISTER_FIELD_AZ "EVQ_FIFO_NOTAF_TH"; REGISTER_FIELD_AZ "EVQ_FIFO_AF_TH"; REGISTER_FIELD_AZ "EVQ_OWNERR_CTL";
  REGISTER_FIELD_BB "RX_EVQ_WAKEUP_MASK"; REGISTER_FIELD_CZ "RX_EVQ_WAKEUP_MASK"].
Definition efx_nic_reg_fields_EVQ_CNT1 : list efx_nic_reg_field := [
  REGISTER_FIELD_AZ "EVQ_ERR_REQ_CNT"; REGISTER_FIELD_AZ "EVQ_CSR_REQ_CNT"; REGISTER_FIELD_AZ "EVQ_EM_REQ_CNT";
  REGISTER_FIELD_AZ "EVQ_RX_REQ_CNT"; REGISTER_FIELD_AZ "EVQ_TX_REQ_CNT"; REGISTER_FIELD_AZ "EVQ_CNT_TOBIU";
  REGISTER_FIELD_AZ "EVQ_CNT_PRE_FIFO"].
Definition efx_nic_reg_fields_EVQ_CNT2 : list efx_nic_reg_field := [
  REGISTER_FIELD_AZ "EVQ_TM_REQ_CNT"; REGISTER_FIELD_AZ "EVQ_INIT_REQ_CNT"; REGISTER_FIELD_AZ "EVQ_WET_REQ_CNT";
  REGISTER_FIELD_AZ "EVQ_WU_REQ_CNT"; REGISTER_FIELD_AZ "EVQ_RDY_CNT"; REGISTER_FIELD_AZ "EVQ_CLR_REQ_CNT";
  REGISTER_FIELD_AZ "EVQ_UPD_REQ_CNT"].
Definition efx_nic_reg_fields_BUF_TBL_CFG : list efx_nic_reg_field := [
  REGISTER_FIELD_AZ "BUF_TBL_MODE"].
Definition efx_nic_reg_fields_SRM_RX_DC_CFG : list efx_nic_reg_field := [
  REGISTER_FIELD_AZ "SRM_RX_DC_BASE_ADR"; REGISTER_FIELD_AZ "SRM_CLK_TMP_EN"].
Definition efx_nic_reg_fields_SRM_TX_DC_CFG : list efx_nic_reg_field := [
  REGISTER_FIELD_AZ "SRM_TX_DC_BASE_ADR"].
Definition efx_nic_reg_fields_SRM_CFG : list efx_nic_reg_field := [
  REGISTER_FIELD_AZ "SRM_BANK_SIZE"; REGISTER_FIELD_AZ "SRM_NUM_BANK"; REGISTER_FIELD_AZ "SRM_INIT_EN";
  REGISTER_FIELD_AZ "SRM_OOB_BUF_INTEN"; REGISTER_FIELD_AZ "SRM_OOB_ADR_INTEN"].
Definition efx_nic_reg_fields_SRM_UPD_EVQ : list efx_nic_reg_field := [
  REGISTER_FIELD_AZ "SRM_UPD_EVQ_ID"].
Definition efx_nic_reg_fields_SRAM_PARITY : list efx_nic_reg_field := [
  REGISTER_FIELD_CZ "FORCE_SRAM_SINGLE_ERR"; REGISTER_FIELD_AB "FORCE_SRAM_PERR";
  REGISTER_FIELD_CZ "FORCE_SRAM_DOUBLE_ERR"; REGISTER_FIELD_CZ "SEC_INT"; REGISTER_FIELD_CZ "BYPASS_ECC"].
Definition efx_nic_reg_fields_RX_CFG : list efx_nic_reg_field := [
  REGISTER_FIELD_AZ "RX_XOFF_MAC_EN"; REGISTER_FIELD_AA "RX_XOFF_MAC_TH"; REGISTER_FIELD_BZ "RX_XOFF_MAC_TH";
  REGISTER_FIELD_AA "RX_XON_MAC_TH"; REGISTER_FIELD_BZ "RX_XON_MAC_TH"; REGISTER_FIELD_AA "RX_USR_BUF_SIZE";
  REGISTER_FIELD_AA "RX_XOFF_TX_TH"; REGISTER_FIELD_BZ "RX_USR_BUF_SIZE"; REGISTER_FIELD_AA "RX_XON_TX_TH";
  REGISTER_FIELD_AA "RX_OWNERR_CTL"; REGISTER_FIELD_BZ "RX_XOFF_TX_TH"; REGISTER_FIELD_AA "RX_PCI_BURST_SIZE";
  REGISTER_FIELD_AA "RX_RDW_PATCH_EN"; REGISTER_FIELD_AA "RX_DESC_PUSH_EN"; REGISTER_FIELD_BZ "RX_XON_TX_TH";
  REGISTER_FIELD_BZ "RX_OWNERR_CTL"; REGISTER_FIELD_BB "RX_PCI_BURST_SIZE"; REGISTER_FIELD_BZ "RX_RDW_PATCH_EN";
  REGISTER_FIELD_BZ "RX_DESC_PUSH_EN"; REGISTER_FIELD_BZ "RX_HASH_INSRT_HDR"; REGISTER_FIELD_BZ "RX_HASH_ALG";
  REGISTER_FIELD_BZ "RX_IP_HASH"; REGISTER_FIELD_BZ "RX_INGR_EN"; REGISTER_FIELD_BZ "RX_TCP_SUP";
  REGISTER_FIELD_CZ "RX_PRE_RFF_IPG"; REGISTER_FIELD_CZ "RX_HDR_SPLIT_HDR_BUF_SIZE";
  REGISTER_FIELD_CZ "RX_HDR_SPLIT_PLD_BUF_SIZE"; REGISTER_FIELD_CZ "RX_HDR_SPLIT_EN";
  REGISTER_FIELD_CZ "RX_MIN_KBUF_SIZE"].
Definition efx_nic_reg_fields_RX_FILTER_CTL : list efx_nic_reg_field := [
  REGISTER_FIELD_BZ "TCP_FULL_SRCH_LIMIT"; REGISTER_FIELD_BZ "TCP_WILD_SRCH_LIMIT";
  REGISTER_FIELD_BZ "UDP_WILD_SRCH_LIMIT"; REGISTER_FIELD_BZ "NUM_KER"; REGISTER_FIELD_BZ "UDP_FULL_SRCH_LIMIT";
  REGISTER_FIELD_BZ "SCATTER_ENBL_NO_MATCH_Q"; REGISTER_FIELD_CZ "UNICAST_NOMATCH_IP_OVERRIDE";
  REGISTER_FIELD_CZ "UNICAST_NOMATCH_RSS_ENABLED"; REGISTER_FIELD_CZ "UNICAST_NOMATCH_Q_ID";
  REGISTER_FIELD_CZ "MULTICAST_NOMATCH_IP_OVERRIDE"; REGISTER_FIELD_CZ "MULTICAST_NOMATCH_RSS_ENABLED";
  REGISTER_FIELD_CZ "MULTICAST_NOMATCH_Q_ID"; REGISTER_FIELD_CZ "RX_VLAN_MATCH_ETHERTYPE";
  REGISTER_FIELD_CZ "RX_FILTER_ALL_VLAN_ETHERTYPES"; REGISTER_FIELD_CZ "ETHERNET_FULL_SEARCH_LIMIT";
  REGISTER_FIELD_CZ "ETHERNET_WILDCARD_SEARCH_LIMIT"].
Definition efx_nic_reg_fields_RX_DC_CFG : list efx_nic_reg_field := [
  REGISTER_FIELD_AZ "RX_DC_SIZE"; REGISTER_FIELD_AB "RX_MAX_PF"].
Definition efx_nic_reg_fields_RX_DC_PF_WM : list efx_nic_reg_field := [
  REGISTER_FIELD_AZ "RX_DC_PF_LWM"; REGISTER_FIELD_AZ "RX_DC_PF_HWM"].
Definition efx_nic_reg_fields_RX_RSS_TKEY : list efx_nic_reg_field := [
  REGISTER_FIELD_BZ "RX_RSS_TKEY_LO"; REGISTER_FIELD_BZ "RX_RSS_TKEY_HI"].
Definition efx_nic_reg_fields_RX_SELF_RST : list efx_nic_reg_field := [
  REGISTER_FIELD_AA "RX_MAX_LU_LAT"; REGISTER_FIELD_AA "RX_MAX_PF_LAT"; REGISTER_FIELD_AA "RX_SELF_RST_EN";
  REGISTER_FIELD_AA "RX_NODESC_WAIT_DIS"; REGISTER_FIELD_AA "RX_SW_RST_REG"; REGISTER_FIELD_AA "RX_ISCSI_DIS"].
Definition efx_nic_reg_fields_RX_RSS_IPV6_REG1 : list efx_nic_reg_field := [
  REGISTER_FIELD_CZ "RX_RSS_IPV6_TKEY_LO"].
Definition efx_nic_reg_fields_RX_RSS_IPV6_REG2 : list efx_nic_reg_field := [
  REGISTER_FIELD_CZ "RX_RSS_IPV6_TKEY_MID"].
Definition efx_nic_reg_fields_RX_RSS_IPV6_REG3 : list efx_nic_reg_field := [
  REGISTER_FIELD_CZ "RX_RSS_IPV6_TKEY_HI"; REGISTER_FIELD_CZ "RX_RSS_IPV6_TCP_SUPPRESS";
  REGISTER_FIELD_CZ "RX_RSS_IPV6_IP_THASH_ENABLE"; REGISTER_FIELD_CZ "RX_RSS_IPV6_THASH_ENABLE"].
Definition efx_nic_reg_fields_TX_DC_CFG : list efx_nic_reg_field := [
  REGISTER_FIELD_AZ "TX_DC_SIZE"].
Definition efx_nic_reg_fields_TX_CHKSM_CFG : list efx_nic_reg_field := [
  REGISTER_FIELD_AA "TX_Q_CHKSM_DIS_0_31"; REGISTER_FIELD_AA "TX_Q_CHKSM_DIS_32_63";
  REGISTER_FIELD_AA "TX_Q_CHKSM_DIS_64_95"; REGISTER_FIELD_AA "TX_Q_CHKSM_DIS_96_127"].
Definition efx_nic_reg_fields_TX_CFG : list efx_nic_reg_field := [
  REGISTER_FIELD_AZ "TX_IP_ID_REP_EN"; REGISTER_FIELD_AA "TX_NON_IP_DROP_DIS"; REGISTER_FIELD_AZ "TX_OWNERR_CTL";
  REGISTER_FIELD_AZ "TX_P1_PRI_EN"; REGISTER_FIELD_AZ "TX_NO_EOP_DISC_EN"; REGISTER_FIELD_AZ "TX_IP_ID_P0_OFS";
  REGISTER_FIELD_CZ "TX_FILTER_EN_BIT"; REGISTER_FIELD_CZ "TX_VLAN_MATCH_ETHERTYPE_RANGE";
  REGISTER_FIELD_CZ "TX_FILTER_ALL_VLAN_ETHERTYPES_BIT"; REGISTER_FIELD_CZ "TX_TCPIP_FILTER_FULL_SEARCH_RANGE";
  REGISTER_FIELD_CZ "TX_TCPIP_FILTER_WILD_SEARCH_RANGE"; REGISTER_FIELD_CZ "TX_UDPIP_FILTER_FULL_SEARCH_RANGE";
  REGISTER_FIELD_CZ "TX_UDPIP_FILTER_WILD_SEARCH_RANGE"; REGISTER_FIELD_CZ "TX_ETH_FILTER_FULL_SEARCH_RANGE";
  REGISTER_FIELD_CZ "TX_ETH_FILTER_WILD_SEARCH_RANGE"; REGISTER_FIELD_CZ "TX_FILTER_TEST_MODE_BIT";
  REGISTER_FIELD_CZ "TX_CONT_LOOKUP_THRESH_RANGE"].
Definition efx_nic_reg_fields_TX_RESERVED : list efx_nic_reg_field := [
  REGISTER_FIELD_AZ "TX_MAX_PREF"; REGISTER_FIELD_AZ "TX_MAX_CPL"; REGISTER_FIELD_AA "TX_IP_DIS";
  REGISTER_FIELD_BZ "TX_FLUSH_MIN_LEN_EN"; REGISTER_FIELD_AA "TX_TCP_DIS"; REGISTER_FIELD_AZ "TX_DMA_SPACER";
  REGISTER_FIELD_AA "TX_DMA_FF_THR"; REGISTER_FIELD_AZ "TX_DIS_NON_IP_EV"; REGISTER_FIELD_AZ "TX_ONE_PKT_PER_Q";
  REGISTER_FIELD_AZ "TX_PREF_THRESHOLD"; REGISTER_FIELD_AZ "TX_ONLY1TAG"; REGISTER_FIELD_AZ "TX_PREF_WD_TMR";
  REGISTER_FIELD_AZ "TX_PREF_SPACER"; REGISTER_FIELD_AZ "TX_XP_TIMER"; REGISTER_FIELD_AZ "TX_RX_SPACER_EN";
  REGISTER_FIELD_AZ "TX_PS_EVT_DIS"; REGISTER_FIELD_AZ "TX_SOFT_EVT_EN"; REGISTER_FIELD_AZ "TX_DROP_ABORT_EN";
  REGISTER_FIELD_AZ "TX_RX_SPACER"; REGISTER_FIELD_AZ "TX_DMAQ_ST"; REGISTER_FIELD_AZ "TX_DMAR_ST_P0";
  REGISTER_FIELD_AZ "TX_D_FF_FULL_P0"; REGISTER_FIELD_AZ "TX_PUSH_CHK_DIS"; REGISTER_FIELD_AZ "TX_PUSH_EN";
  REGISTER_FIELD_AZ "TX_RD_COMP_TMR"; REGISTER_FIELD_AZ "TX_PREF_AGE_CNT"; REGISTER_FIELD_AZ "TX_EVT_CNT"].
Definition efx_nic_reg_fields_TX_PACE : list efx_nic_reg_field := [
  REGISTER_FIELD_BZ "TX_PACE_BIN_TH"; REGISTER_FIELD_BZ "TX_PACE_FB_BASE"; REGISTER_FIELD_BZ "TX_PACE_SB_AF";
  REGISTER_FIELD_BZ "TX_PACE_SB_NOT_AF"].
Definition efx_nic_reg_fields_TX_PACE_DROP_QID : list efx_nic_reg_field := [
  REGISTER_FIELD_BZ "TX_PACE_QID_DRP_CNT"].
Definition efx_nic_reg_fields_TX_VLAN : list efx_nic_reg_field := [
  REGISTER_FIELD_BB "TX_VLAN0"; REGISTER_FIELD_BB "TX_VLAN0_PORT0_EN"; REGISTER_FIELD_BB "TX_VLAN0_PORT1_EN";
  REGISTER_FIELD_BB "TX_VLAN1"; REGISTER_FIELD_BB "TX_VLAN1_PORT0_EN"; REGISTER_FIELD_BB "TX_VLAN1_PORT1_EN";
  REGISTER_FIELD_BB "TX_VLAN2"; REGISTER_FIELD_BB "TX_VLAN2_PORT0_EN"; REGISTER_FIELD_BB "TX_VLAN2_PORT1_EN";
  REGISTER_FIELD_BB "TX_VLAN3"; REGISTER_FIELD_BB "TX_VLAN3_PORT0_EN"; REGISTER_FIELD_BB "TX_VLAN3_PORT1_EN";
  REGISTER_FIELD_BB "TX_VLAN4"; REGISTER_FIELD_BB "TX_VLAN4_PORT0_EN"; REGISTER_FIELD_BB "TX_VLAN4_PORT1_EN";
  REGISTER_FIELD_BB "TX_VLAN5"; REGISTER_FIELD_BB "TX_VLAN5_PORT0_EN"; REGISTER_FIELD_BB "TX_VLAN5_PORT1_EN";
  REGISTER_FIELD_BB "TX_VLAN6"; REGISTER_FIELD_BB "TX_VLAN6_PORT0_EN"; REGISTER_FIELD_BB "TX_VLAN6_PORT1_EN";
  REGISTER_FIELD_BB "TX_VLAN7"; REGISTER_FIELD_BB "TX_VLAN7_PORT0_EN"; REGISTER_FIELD_BB "TX_VLAN7_PORT1_EN";
  REGISTER_FIELD_BB "TX_VLAN_EN"].
Definition efx_nic_reg_fields_TX_IPFIL_PORTEN : list efx_nic_reg_field := [
  REGISTER_FIELD_BB "TX_IPFIL0_PORT_EN"; REGISTER_FIELD_BB "TX_IPFIL1_PORT_EN";
  REGISTER_FIELD_BB "TX_IPFIL2_PORT_EN"; REGISTER_FIELD_BB "TX_IPFIL3_PORT_EN";
  REGISTER_FIELD_BB "TX_IPFIL4_PORT_EN"; REGISTER_FIELD_BB "TX_IPFIL5_PORT_EN";
  REGISTER_FIELD_BB "TX_IPFIL6_PORT_EN"; REGISTER_FIELD_BB "TX_IPFIL7_PORT_EN";
  REGISTER_FIELD_BB "TX_IPFIL8_PORT_EN"; REGISTER_FIELD_BB "TX_IPFIL9_PORT_EN";
  REGISTER_FIELD_BB "TX_IPFIL10_PORT_EN"; REGISTER_FIELD_BB "TX_IPFIL11_PORT_EN";
  REGISTER_FIELD_BB "TX_IPFIL12_PORT_EN"; REGISTER_FIELD_BB "TX_IPFIL13_PORT_EN";
  REGISTER_FIELD_BB "TX_IPFIL14_PORT_EN"; REGISTER_FIELD_BB "TX_IPFIL15_PORT_EN";
  REGISTER_FIELD_BB "TX_IPFIL16_PORT_EN"; REGISTER_FIELD_BB "TX_IPFIL17_PORT_EN";
  REGISTER_FIELD_BB "TX_IPFIL18_PORT_EN"; REGISTER_FIELD_BB "TX_IPFIL19_PORT_EN";
  REGISTER_FIELD_BB "TX_IPFIL20_PORT_EN"; REGISTER_FIELD_BB "TX_IPFIL21_PORT_EN";
  REGISTER_FIELD_BB "TX_IPFIL22_PORT_EN"; REGISTER_FIELD_BB "TX_IPFIL23_PORT_EN";
  REGISTER_FIELD_BB "TX_IPFIL24_PORT_EN"; REGISTER_FIELD_BB "TX_IPFIL25_PORT_EN";
  REGISTER_FIELD_BB "TX_IPFIL26_PORT_EN"; REGISTER_FIELD_BB "TX_IPFIL27_PORT_EN";
  REGISTER_FIELD_BB "TX_IPFIL28_PORT_EN"; REGISTER_FIELD_BB "TX_IPFIL29_PORT_EN";
  REGISTER_FIELD_BB "TX_IPFIL30_PORT_EN"; REGISTER_FIELD_BB "TX_IPFIL31_PORT_EN"; REGISTER_FIELD_BZ "TX_MADR0_FIL_EN"].
Definition efx_nic_reg_fields_TX_IPFIL_TBL : list efx_nic_reg_field := [
  REGISTER_FIELD_BB "TX_IP_SRC_ADR_0"; REGISTER_FIELD_BB "TX_IPFIL_MASK_0"; REGISTER_FIELD_BB "TX_IP_SRC_ADR_1";
  REGISTER_FIELD_BB "TX_IPFIL_MASK_1"].
Definition efx_nic_reg_fields_MD_TXD : list efx_nic_reg_field := [
  REGISTER_FIELD_AB "MD_TXD"].
Definition efx_nic_reg_fields_MD_RXD : list efx_nic_reg_field := [
  REGISTER_FIELD_AB "MD_RXD"].
Definition efx_nic_reg_fields_MD_CS : list efx_nic_reg_field := [
  REGISTER_FIELD_AB "MD_WRC"; REGISTER_FIELD_AB "MD_RDC"; REGISTER_FIELD_AB "MD_RIC"; REGISTER_FIELD_AB "MD_PRSP";
  REGISTER_FIELD_AB "MD_GC"; REGISTER_FIELD_AB "MD_INT_CLR"; REGISTER_FIELD_AB "MD_PL"; REGISTER_FIELD_AB "MD_PT";
  REGISTER_FIELD_AB "MD_ADDR_CMD"; REGISTER_FIELD_AB "MD_WR_EN_CMD"; REGISTER_FIELD_AB "MD_RD_EN_CMD"].
Definition efx_nic_reg_fields_MD_PHY_ADR : list efx_nic_reg_field := [
  REGISTER_FIELD_AB "MD_PHY_ADR"].
Definition efx_nic_reg_fields_MD_ID : list efx_nic_reg_field := [
  REGISTER_FIELD_AB "MD_DEV_ADR"; REGISTER_FIELD_AB "MD_PRT_ADR"].
Definition efx_nic_reg_fields_MAC_STAT_DMA : list efx_nic_reg_field := [
  REGISTER_FIELD_AB "MAC_STAT_DMA_ADR"; REGISTER_FIELD_AB "MAC_STAT_DMA_CMD"].
Definition efx_nic_reg_fields_MAC_CTRL : list efx_nic_reg_field := [
  REGISTER_FIELD_AB "MAC_SPEED"; REGISTER_FIELD_AB "MAC_LINK_STATUS"; REGISTER_FIELD_AB "MAC_UC_PROM";
  REGISTER_FIELD_AB "MAC_BCAD_ACPT"; REGISTER_FIELD_AB "MAC_XG_DISTXCRC"; REGISTER_FIELD_BB "TXFIFO_DRAIN_EN";
  REGISTER_FIELD_AB "MAC_XOFF_VAL"].
Definition efx_nic_reg_fields_GEN_MODE : list efx_nic_reg_field := [
  REGISTER_FIELD_BB "XG_PHY_INT_MASK"; REGISTER_FIELD_BB "XFP_PHY_INT_MASK"; REGISTER_FIELD_BB "XG_PHY_INT_POL_SEL";
  REGISTER_FIELD_BB "XFP_PHY_INT_POL_SEL"].
Definition efx_nic_reg_fields_MAC_MC_HASH_REG0 : list efx_nic_reg_field := [
  REGISTER_FIELD_AB "MAC_MCAST_HASH0"].
Definition efx_nic_reg_fields_MAC_MC_HASH_REG1 : list efx_nic_reg_field := [
  REGISTER_FIELD_AB "MAC_MCAST_HASH1"].
Definition efx_nic_reg_fields_GM_CFG1 : list efx_nic_reg_field := [
  REGISTER_FIELD_AB "GM_TX_EN"; REGISTER_FIELD_AB "GM_SYNC_TXEN"; REGISTER_FIELD_AB "GM_RX_EN";
  REGISTER_FIELD_AB "GM_SYNC_RXEN"; REGISTER_FIELD_AB "GM_TX_FC_EN"; REGISTER_FIELD_AB "GM_RX_FC_EN";
  REGISTER_FIELD_AB "GM_LOOP"; REGISTER_FIELD_AB "GM_RST_TX_FUNC"; REGISTER_FIELD_AB "GM_RST_RX_FUNC";
  REGISTER_FIELD_AB "GM_RST_TX_MAC_CTL"; REGISTER_FIELD_AB "GM_RST_RX_MAC_CTL"; REGISTER_FIELD_AB "GM_SIM_RST";
  REGISTER_FIELD_AB "GM_SW_RST"].
Definition efx_nic_reg_fields_GM_CFG2 : list efx_nic_reg_field := [
  REGISTER_FIELD_AB "GM_FD"; REGISTER_FIELD_AB "GM_CRC_EN"; REGISTER_FIELD_AB "GM_PAD_CRC_EN";
  REGISTER_FIELD_AB "GM_LEN_CHK"; REGISTER_FIELD_AB "GM_HUGE_FRM_EN"; REGISTER_FIELD_AB "GM_IF_MODE";
  REGISTER_FIELD_AB "GM_PAMBL_LEN"].
Definition efx_nic_reg_fields_GM_MAX_FLEN : list efx_nic_reg_field := [
  REGISTER_FIELD_AB "GM_MAX_FLEN"].
Definition efx_nic_reg_fields_GM_ADR1 : list efx_nic_reg_field := [
  REGISTER_FIELD_AB "GM_ADR_B3"; REGISTER_FIELD_AB "GM_ADR_B2"; REGISTER_FIELD_AB "GM_ADR_B1";
  REGISTER_FIELD_AB "GM_ADR_B0"].
Definition efx_nic_reg_fields_GM_ADR2 : list efx_nic_reg_field := [
  REGISTER_FIELD_AB "GM_ADR_B5"; REGISTER_FIELD_AB "GM_ADR_B4"].
Definition efx_nic_reg_fields_GMF_CFG0 : list efx_nic_reg_field := [
  REGISTER_FIELD_AB "GMF_HSTRSTWT"; REGISTER_FIELD_AB "GMF_HSTRSTSR"; REGISTER_FIELD_AB "GMF_HSTRSTFR";
  REGISTER_FIELD_AB "GMF_HSTRSTST"; REGISTER_FIELD_AB "GMF_HSTRSTFT"; REGISTER_FIELD_AB "GMF_WTMENREQ";
  REGISTER_FIELD_AB "GMF_SRFENREQ"; REGISTER_FIELD_AB "GMF_FRFENREQ"; REGISTER_FIELD_AB "GMF_STFENREQ";
  REGISTER_FIELD_AB "GMF_FTFENREQ"; REGISTER_FIELD_AB "GMF_WTMENRPLY"; REGISTER_FIELD_AB "GMF_SRFENRPLY";
  REGISTER_FIELD_AB "GMF_FRFENRPLY"; REGISTER_FIELD_AB "GMF_STFENRPLY"; REGISTER_FIELD_AB "GMF_FTFENRPLY"].
Definition efx_nic_reg_fields_GMF_CFG1 : list efx_nic_reg_field := [
  REGISTER_FIELD_AB "GMF_CFGXOFFRTX"; REGISTER_FIELD_AB "GMF_CFGFRTH"].
Definition efx_nic_reg_fields_GMF_CFG2 : list efx_nic_reg_field := [
  REGISTER_FIELD_AB "GMF_CFGLWM"; REGISTER_FIELD_AB "GMF_CFGHWM"].
Definition efx_nic_reg_fields_GMF_CFG3 : list efx_nic_reg_field := [
  REGISTER_FIELD_AB "GMF_CFGFTTH"; REGISTER_FIELD_AB "GMF_CFGHWMFT"].
Definition efx_nic_reg_fields_GMF_CFG4 : list efx_nic_reg_field := [
  REGISTER_FIELD_AB "GMF_HSTFLTRFRM"].
Definition efx_nic_reg_fields_GMF_CFG5 : list efx_nic_reg_field := [
  REGISTER_FIELD_AB "GMF_HSTFLTRFRMDC"; REGISTER_FIELD_AB "GMF_HSTDRPLT64"; REGISTER_FIELD_AB "GMF_CFGBYTMODE";
  REGISTER_FIELD_AB "GMF_HSTSRFULLCLR"; REGISTER_FIELD_AB "GMF_SRFULL"; REGISTER_FIELD_AB "GMF_CFGHDPLX"].
Definition efx_nic_reg_fields_TX_SRC_MAC_TBL : list efx_nic_reg_field := [
  REGISTER_FIELD_BB "TX_SRC_MAC_ADR_0"; REGISTER_FIELD_BB "TX_SRC_MAC_ADR_1"].
Definition efx_nic_reg_fields_TX_SRC_MAC_CTL : list efx_nic_reg_field := [
  REGISTER_FIELD_BB "TX_MAC_QID_SEL"; REGISTER_FIELD_BB "TX_DROP_CTR_CLR"; REGISTER_FIELD_BB "TX_SRC_FLTR_EN";
  REGISTER_FIELD_BB "TX_SRC_DROP_CTR"].
Definition efx_nic_reg_fields_XM_ADR_LO : list efx_nic_reg_field := [
  REGISTER_FIELD_AB "XM_ADR_LO"].
Definition efx_nic_reg_fields_XM_ADR_HI : list efx_nic_reg_field := [
  REGISTER_FIELD_AB "XM_ADR_HI"].
Definition efx_nic_reg_fields_XM_GLB_CFG : list efx_nic_reg_field := [
  REGISTER_FIELD_AB "XM_CORE_RST"; REGISTER_FIELD_AB "XM_INTCLR_MODE"; REGISTER_FIELD_AB "XM_WAN_MODE";
  REGISTER_FIELD_AB "XM_RX_JUMBO_MODE"; REGISTER_FIELD_AB "XM_TX_STAT_EN"; REGISTER_FIELD_AB "XM_RX_STAT_EN";
  REGISTER_FIELD_AB "XM_DEBUG_MODE"; REGISTER_FIELD_AB "XM_RMTFLT_GEN"].
Definition efx_nic_reg_fields_XM_TX_CFG : list efx_nic_reg_field := [
  REGISTER_FIELD_AB "XM_TX_RST"; REGISTER_FIELD_AB "XM_TXEN"; REGISTER_FIELD_AB "XM_TX_PRMBL";
  REGISTER_FIELD_AB "XM_AUTO_PAD"; REGISTER_FIELD_AB "XM_EDRC"; REGISTER_FIELD_AB "XM_TXCRC";
  REGISTER_FIELD_AB "XM_FCNTL"; REGISTER_FIELD_AB "XM_IPG"; REGISTER_FIELD_AB "XM_TX_PROG"].
Definition efx_nic_reg_fields_XM_RX_CFG : list efx_nic_reg_field := [
  REGISTER_FIELD_AB "XM_RX_RST"; REGISTER_FIELD_AB "XM_RXEN"; REGISTER_FIELD_AB "XM_RX_PRMBL";
  REGISTER_FIELD_AB "XM_RXCRC"; REGISTER_FIELD_AB "XM_AUTO_DEPAD"; REGISTER_FIELD_AB "XM_ACPT_ALL_UCAST";
  REGISTER_FIELD_AB "XM_ACPT_ALL_MCAST"; REGISTER_FIELD_AB "XM_REJ_BCAST"; REGISTER_FIELD_AB "XM_PASS_PRMBLE_ERR";
  REGISTER_FIELD_AB "XM_PASS_CRC_ERR"; REGISTER_FIELD_AB "XM_PASS_LENERR"].
Definition efx_nic_reg_fields_XM_MGT_INT_MASK : list efx_nic_reg_field := [
  REGISTER_FIELD_AB "XM_MSK_LCLFLT"; REGISTER_FIELD_AB "XM_MSK_RMTFLT"; REGISTER_FIELD_AB "XM_MSK_PRMBLE_ERR";
  REGISTER_FIELD_AB "XM_MSK_STAT_CNTR_OF"; REGISTER_FIELD_AB "XM_MSK_STAT_CNTR_HF";
  REGISTER_FIELD_AB "XM_MSK_STA_INTR"].
Definition efx_nic_reg_fields_XM_FC : list efx_nic_reg_field := [
  REGISTER_FIELD_AB "XM_DIS_FCNTL"; REGISTER_FIELD_AB "XM_XMIT_PAUSE"; REGISTER_FIELD_AB "XM_ZPAUSE";
  REGISTER_FIELD_AB "XM_REJ_CNTL_MCAST"; REGISTER_FIELD_AB "XM_REJ_CNTL_UCAST"; REGISTER_FIELD_AB "XM_MCNTL_PASS";
  REGISTER_FIELD_AB "XM_TX_MAC_STAT"; REGISTER_FIELD_AB "XM_RX_MAC_STAT"; REGISTER_FIELD_AB "XM_PAUSE_TIME"].
Definition efx_nic_reg_fields_XM_PAUSE_TIME : list efx_nic_reg_field := [
  REGISTER_FIELD_AB "XM_RX_PAUSE_CNT"; REGISTER_FIELD_AB "XM_TX_PAUSE_CNT"].
Definition efx_nic_reg_fields_XM_TX_PARAM : list efx_nic_reg_field := [
  REGISTER_FIELD_AB "XM_PAD_CHAR"; REGISTER_FIELD_AB "XM_MAX_TX_FRM_SIZE_LO";
  REGISTER_FIELD_AB "XM_MAX_TX_FRM_SIZE_HI"; REGISTER_FIELD_AB "XM_TX_JUMBO_MODE"].
Definition efx_nic_reg_fields_XM_RX_PARAM : list efx_nic_reg_field := [
  REGISTER_FIELD_AB "XM_MAX_RX_FRM_SIZE_LO"; REGISTER_FIELD_AB "XM_MAX_RX_FRM_SIZE_HI"].
Definition efx_nic_reg_fields_XX_PWR_RST : list efx_nic_reg_field := [
  REGISTER_FIELD_AB "XX_RST_XX_EN"; REGISTER_FIELD_AB "XX_RSTXGXSTX_EN"; REGISTER_FIELD_AB "XX_RSTXGXSRX_EN";
  REGISTER_FIELD_AB "XX_RESETA_EN"; REGISTER_FIELD_AB "XX_RESETB_EN"; REGISTER_FIELD_AB "XX_RESETC_EN";
  REGISTER_FIELD_AB "XX_RESETD_EN"; REGISTER_FIELD_AB "XX_RSTPLLAB_EN"; REGISTER_FIELD_AB "XX_RSTPLLCD_EN";
  REGISTER_FIELD_AB "XX_PWRDNA_EN"; REGISTER_FIELD_AB "XX_PWRDNB_EN"; REGISTER_FIELD_AB "XX_PWRDNC_EN";
  REGISTER_FIELD_AB "XX_PWRDND_EN"; REGISTER_FIELD_AB "XX_SD_RST_ACT"; REGISTER_FIELD_AB "XX_RSTXGXSTX_SIG";
  REGISTER_FIELD_AB "XX_RSTXGXSRX_SIG"; REGISTER_FIELD_AB "XX_RESETA_SIG"; REGISTER_FIELD_AB "XX_RESETB_SIG";
  REGISTER_FIELD_AB "XX_RESETC_SIG"; REGISTER_FIELD_AB "XX_RESETD_SIG"; REGISTER_FIELD_AB "XX_RSTPLLAB_SIG";
  REGISTER_FIELD_AB "XX_RSTPLLCD_SIG"; REGISTER_FIELD_AB "XX_SIM_MODE"; REGISTER_FIELD_AB "XX_PWRDNA_SIG";
  REGISTER_FIELD_AB "XX_PWRDNB_SIG"; REGISTER_FIELD_AB "XX_PWRDNC_SIG"; REGISTER_FIELD_AB "XX_PWRDND_SIG"].
Definition efx_nic_reg_fields_XX_SD_CTL : list efx_nic_reg_field := [
  REGISTER_FIELD_AB "XX_LPBKA"; REGISTER_FIELD_AB "XX_LPBKB"; REGISTER_FIELD_AB "XX_LPBKC";
  REGISTER_FIELD_AB "XX_LPBKD"; REGISTER_FIELD_AB "XX_LODRVA"; REGISTER_FIELD_AB "XX_HIDRVA";
  REGISTER_FIELD_AB "XX_LODRVB"; REGISTER_FIELD_AB "XX_HIDRVB"; REGISTER_FIELD_AB "XX_LODRVC";
  REGISTER_FIELD_AB "XX_HIDRVC"; REGISTER_FIELD_AB "XX_LODRVD"; REGISTER_FIELD_AB "XX_HIDRVD";
  REGISTER_FIELD_AB "XX_TERMADJ0"; REGISTER_FIELD_AB "XX_TERMADJ1"].
Definition efx_nic_reg_fields_XX_TXDRV_CTL : list efx_nic_reg_field := [
  REGISTER_FIELD_AB "XX_DTXA"; REGISTER_FIELD_AB "XX_DTXB"; REGISTER_FIELD_AB "XX_DTXC"; REGISTER_FIELD_AB "XX_DTXD";
  REGISTER_FIELD_AB "XX_DEQA"; REGISTER_FIELD_AB "XX_DEQB"; REGISTER_FIELD_AB "XX_DEQC"; REGISTER_FIELD_AB "XX_DEQD"].
Definition efx_nic_reg_fields_RX_DESC_PTR_TBL : list efx_nic_reg_field := [
  REGISTER_FIELD_AZ_RENAME "RX_DESCQ_EN" "EN"; REGISTER_FIELD_AZ_RENAME "RX_DESCQ_JUMBO" "JUMBO";
  REGISTER_FIELD_AZ_RENAME "RX_DESCQ_TYPE" "TYPE"; REGISTER_FIELD_AZ_RENAME "RX_DESCQ_SIZE" "SIZE";
  REGISTER_FIELD_AZ_RENAME "RX_DESCQ_LABEL" "LABEL"; REGISTER_FIELD_AZ_RENAME "RX_DESCQ_OWNER_ID" "OWNER";
  REGISTER_FIELD_AZ_RENAME "RX_DESCQ_EVQ_ID" "EVQ"; REGISTER_FIELD_AZ_RENAME "RX_DESCQ_BUF_BASE_ID" "BUF_BASE";
  REGISTER_FIELD_AZ_RENAME "RX_DESCQ_SW_WPTR" "SW_WPTR"; REGISTER_FIELD_AZ_RENAME "RX_DESCQ_HW_RPTR" "HW_RPTR";
  REGISTER_FIELD_AZ_RENAME "RX_DC_HW_RPTR" "DC_HW_RPTR"; REGISTER_FIELD_AZ_RENAME "RX_DESC_PREF_ACT" "PREF_ACT";
  REGISTER_FIELD_AZ_RENAME "RX_ISCSI_HDIG_EN" "HDIG"; REGISTER_FIELD_AZ_RENAME "RX_ISCSI_DDIG_EN" "DDIG";
  REGISTER_FIELD_AA "RX_RESET"; REGISTER_FIELD_CZ_RENAME "RX_HDR_SPLIT" "HDR_SPLIT"].
Definition efx_nic_reg_fields_RX_DESC_PTR_TBL_KER := efx_nic_reg_fields_RX_DESC_PTR_TBL.
Definition efx_nic_reg_fields_TX_DESC_PTR_TBL : list efx_nic_reg_field := [
  REGISTER_FIELD_AZ_RENAME "TX_DESCQ_FLUSH" "FLUSH"; REGISTER_FIELD_AZ_RENAME "TX_DESCQ_TYPE" "TYPE";
  REGISTER_FIELD_AZ_RENAME "TX_DESCQ_SIZE" "SIZE"; REGISTER_FIELD_AZ_RENAME "TX_DESCQ_LABEL" "LABEL";
  REGISTER_FIELD_AZ_RENAME "TX_DESCQ_OWNER_ID" "OWNER"; REGISTER_FIELD_AZ_RENAME "TX_DESCQ_EVQ_ID" "EVQ";
  REGISTER_FIELD_AZ_RENAME "TX_DESCQ_BUF_BASE_ID" "BUF_BASE"; REGISTER_FIELD_AZ_RENAME "TX_DESCQ_SW_WPTR" "SW_WPTR";
  REGISTER_FIELD_AZ_RENAME "TX_DESCQ_HW_RPTR" "HW_RPTR"; REGISTER_FIELD_AZ_RENAME "TX_DC_HW_RPTR" "DC_HW_RPTR";
  REGISTER_FIELD_AZ_RENAME "TX_ISCSI_HDIG_EN" "HDIG"; REGISTER_FIELD_AZ_RENAME "TX_ISCSI_DDIG_EN" "DDIG";
  REGISTER_FIELD_AZ_RENAME "TX_DESCQ_EN" "EN"; REGISTER_FIELD_CZ_RENAME "TX_DPT_IP_FILT_EN" "IP_FILT";
  REGISTER_FIELD_CZ_RENAME "TX_DPT_ETH_FILT_EN" "ETH_FILT";
  REGISTER_FIELD_CZ_RENAME "TX_DPT_Q_MASK_WIDTH" "Q_MASK_WIDTH"].
Definition efx_nic_reg_fields_TX_DESC_PTR_TBL_KER := efx_nic_reg_fields_TX_DESC_PTR_TBL.
Definition efx_nic_reg_fields_EVQ_PTR_TBL : list efx_nic_reg_field := [
  REGISTER_FIELD_AZ "EVQ_BUF_BASE_ID"; REGISTER_FIELD_AZ "EVQ_SIZE"; REGISTER_FIELD_AZ "EVQ_EN";
  REGISTER_FIELD_AZ "EVQ_NXT_WPTR"; REGISTER_FIELD_CZ "EVQ_DOS_PROTECT_EN"; REGISTER_FIELD_AB "EVQ_WKUP_OR_INT_EN";
  REGISTER_FIELD_BZ "EVQ_RPTR_IGN"].
Definition efx_nic_reg_fields_EVQ_PTR_TBL_KER := efx_nic_reg_fields_EVQ_PTR_TBL.
Definition efx_nic_reg_fields_BUF_FULL_TBL : list efx_nic_reg_field := [
  REGISTER_FIELD_AZ "BUF_OWNER_ID_FBUF"; REGISTER_FIELD_AZ "BUF_ADR_FBUF"; REGISTER_FIELD_AZ "BUF_ADR_REGION";
  REGISTER_FIELD_AZ "IP_DAT_BUF_SIZE"; REGISTER_FIELD_AZ "BUF_FULL_UNUSED"].
Definition efx_nic_reg_fields_BUF_FULL_TBL_KER := efx_nic_reg_fields_BUF_FULL_TBL.
Definition efx_nic_reg_fields_RX_FILTER_TBL0 : list efx_nic_reg_field := [
  REGISTER_FIELD_BZ_RENAME "SRC_TCP_DEST_UDP" "SRC_PORT"; REGISTER_FIELD_BZ "SRC_IP";
  REGISTER_FIELD_BZ_RENAME "DEST_PORT_TCP" "DEST_PORT"; REGISTER_FIELD_BZ "DEST_IP"; REGISTER_FIELD_BZ "RXQ_ID";
  REGISTER_FIELD_BZ "TCP_UDP"; REGISTER_FIELD_BZ "SCATTER_EN"; REGISTER_FIELD_BZ "RSS_EN"].
Definition efx_nic_reg_fields_RX_FILTER_TBL1 := efx_nic_reg_fields_RX_FILTER_TBL0.
Definition efx_nic_reg_fields_RX_MAC_FILTER_TBL0 : list efx_nic_reg_field := [
  REGISTER_FIELD_CZ "RMFT_VLAN_ID"; REGISTER_FIELD_CZ "RMFT_DEST_MAC"; REGISTER_FIELD_CZ "RMFT_WILDCARD_MATCH";
  REGISTER_FIELD_CZ "RMFT_RXQ_ID"; REGISTER_FIELD_CZ "RMFT_IP_OVERRIDE"; REGISTER_FIELD_CZ "RMFT_SCATTER_EN";
  REGISTER_FIELD_CZ "RMFT_RSS_EN"].
Definition efx_nic_reg_fields_TIMER_TBL : list efx_nic_reg_field := [
  REGISTER_FIELD_BB "TIMER_VAL"; REGISTER_FIELD_CZ "TIMER_VAL"; REGISTER_FIELD_BB "TIMER_MODE";
  REGISTER_FIELD_CZ "TIMER_MODE"; REGISTER_FIELD_CZ "RELOAD_TIMER_VAL"; REGISTER_FIELD_CZ "HOST_NOTIFY_MODE";
  REGISTER_FIELD_CZ "INT_PEND"; REGISTER_FIELD_CZ "INT_ARMD"; REGISTER_FIELD_CZ "TIMER_Q_EN"].
Definition efx_nic_reg_fields_TX_PACE_TBL : list efx_nic_reg_field := [
  REGISTER_FIELD_BZ "TX_PACE"].
Definition efx_nic_reg_fields_RX_INDIRECTION_TBL : list efx_nic_reg_field := [
  REGISTER_FIELD_BZ "IT_QUEUE"].
Definition efx_nic_reg_fields_TX_MAC_FILTER_TBL0 : list efx_nic_reg_field := [
  REGISTER_FIELD_CZ "TMFT_VLAN_ID"; REGISTER_FIELD_CZ "TMFT_SRC_MAC"; REGISTER_FIELD_CZ "TMFT_WILDCARD_MATCH";
  REGISTER_FIELD_CZ "TMFT_TXQ_ID"].
Definition efx_nic_reg_fields_MC_TREG_SMEM : list efx_nic_reg_field := [
  REGISTER_FIELD_CZ "MC_TREG_SMEM_ROW"].

Record efx_nic_reg := mk_reg { r_name : string; r_fields : list efx_nic_reg_field; r_count : Z; r_min : Z; r_max : Z }.
(** The table of fields is named after the register. *)
Definition REGISTER (name : string) (fields : list efx_nic_reg_field) (min_rev max_rev : rev) : efx_nic_reg :=
  mk_reg name fields (wrapu 7 (Z.of_nat (length fields))) (wrapu 2 (REGISTER_REVISION min_rev)) (wrapu 2 (REGISTER_REVISION max_rev)).
Definition REGISTER_AA (name : string) fields := REGISTER name fields A A.
Definition REGISTER_AB (name : string) fields := REGISTER name fields A B.
Definition REGISTER_AZ (name : string) fields := REGISTER name fields A Zz.
Definition REGISTER_BB (name : string) fields := REGISTER name fields B B.
Definition REGISTER_BZ (name : string) fields := REGISTER name fields B Zz.
Definition REGISTER_CZ (name : string) fields := REGISTER name fields C Zz.

Definition efx_nic_regs : list efx_nic_reg := [
  REGISTER_AZ "ADR_REGION" efx_nic_reg_fields_ADR_REGION;
  REGISTER_AZ "INT_EN_KER" efx_nic_reg_fields_INT_EN_KER;
  REGISTER_BZ "INT_EN_CHAR" efx_nic_reg_fields_INT_EN_CHAR;
  REGISTER_AZ "INT_ADR_KER" efx_nic_reg_fields_INT_ADR_KER;
  REGISTER_BZ "INT_ADR_CHAR" efx_nic_reg_fields_INT_ADR_CHAR;
  REGISTER_AZ "HW_INIT" efx_nic_reg_fields_HW_INIT;
  REGISTER_CZ "USR_EV_CFG" efx_nic_reg_fields_USR_EV_CFG;
  REGISTER_AB "EE_SPI_HCMD" efx_nic_reg_fields_EE_SPI_HCMD;
  REGISTER_AB "EE_SPI_HADR" efx_nic_reg_fields_EE_SPI_HADR;
  REGISTER_AB "EE_SPI_HDATA" efx_nic_reg_fields_EE_SPI_HDATA;
  REGISTER_AB "EE_BASE_PAGE" efx_nic_reg_fields_EE_BASE_PAGE;
  REGISTER_AB "EE_VPD_CFG0" efx_nic_reg_fields_EE_VPD_CFG0;
  REGISTER_AB "NIC_STAT" efx_nic_reg_fields_NIC_STAT;
  REGISTER_AB "GPIO_CTL" efx_nic_reg_fields_GPIO_CTL;
  REGISTER_AB "GLB_CTL" efx_nic_reg_fields_GLB_CTL;
  REGISTER_BZ "DP_CTRL" efx_nic_reg_fields_DP_CTRL;
  REGISTER_AZ "MEM_STAT" efx_nic_reg_fields_MEM_STAT;
  REGISTER_AZ "CS_DEBUG" efx_nic_reg_fields_CS_DEBUG;
  REGISTER_AZ "ALTERA_BUILD" efx_nic_reg_fields_ALTERA_BUILD;
  REGISTER_AZ "CSR_SPARE" efx_nic_reg_fields_CSR_SPARE;
  REGISTER_AB "PCIE_SD_CTL0123" efx_nic_reg_fields_PCIE_SD_CTL0123;
  REGISTER_AB "PCIE_SD_CTL45" efx_nic_reg_fields_PCIE_SD_CTL45;
  REGISTER_AB "PCIE_PCS_CTL_STAT" efx_nic_reg_fields_PCIE_PCS_CTL_STAT;
  REGISTER_AZ "EVQ_CTL" efx_nic_reg_fields_EVQ_CTL;
  REGISTER_AZ "EVQ_CNT1" efx_nic_reg_fields_EVQ_CNT1;
  REGISTER_AZ "EVQ_CNT2" efx_nic_reg_fields_EVQ_CNT2;
  REGISTER_AZ "BUF_TBL_CFG" efx_nic_reg_fields_BUF_TBL_CFG;
  REGISTER_AZ "SRM_RX_DC_CFG" efx_nic_reg_fields_SRM_RX_DC_CFG;
  REGISTER_AZ "SRM_TX_DC_CFG" efx_nic_reg_fields_SRM_TX_DC_CFG;
  REGISTER_AZ "SRM_CFG" efx_nic_reg_fields_SRM_CFG;
  REGISTER_AZ "SRM_UPD_EVQ" efx_nic_reg_fields_SRM_UPD_EVQ;
  REGISTER_AZ "SRAM_PARITY" efx_nic_reg_fields_SRAM_PARITY;
  REGISTER_AZ "RX_CFG" efx_nic_reg_fields_RX_CFG;
  REGISTER_BZ "RX_FILTER_CTL" efx_nic_reg_fields_RX_FILTER_CTL;
  REGISTER_AZ "RX_DC_CFG" efx_nic_reg_fields_RX_DC_CFG;
  REGISTER_AZ "RX_DC_PF_WM" efx_nic_reg_fields_RX_DC_PF_WM;
  REGISTER_BZ "RX_RSS_TKEY" efx_nic_reg_fields_RX_RSS_TKEY;
  REGISTER_AA "RX_SELF_RST" efx_nic_reg_fields_RX_SELF_RST;
  REGISTER_CZ "RX_RSS_IPV6_REG1" efx_nic_reg_fields_RX_RSS_IPV6_REG1;
  REGISTER_CZ "RX_RSS_IPV6_REG2" efx_nic_reg_fields_RX_RSS_IPV6_REG2;
  REGISTER_CZ "RX_RSS_IPV6_REG3" efx_nic_reg_fields_RX_RSS_IPV6_REG3;
  REGISTER_AZ "TX_DC_CFG" efx_nic_reg_fields_TX_DC_CFG;
  REGISTER_AA "TX_CHKSM_CFG" efx_nic_reg_fields_TX_CHKSM_CFG;
  REGISTER_AZ "TX_CFG" efx_nic_reg_fields_TX_CFG;
  REGISTER_AZ "TX_RESERVED" efx_nic_reg_fields_TX_RESERVED;
  REGISTER_BZ "TX_PACE" efx_nic_reg_fields_TX_PACE;
  REGISTER_BB "TX_VLAN" efx_nic_reg_fields_TX_VLAN;
  REGISTER_BZ "TX_IPFIL_PORTEN" efx_nic_reg_fields_TX_IPFIL_PORTEN;
  REGISTER_AB "MD_TXD" efx_nic_reg_fields_MD_TXD;
  REGISTER_AB "MD_RXD" efx_nic_reg_fields_MD_RXD;
  REGISTER_AB "MD_CS" efx_nic_reg_fields_MD_CS;
  REGISTER_AB "MD_PHY_ADR" efx_nic_reg_fields_MD_PHY_ADR;
  REGISTER_AB "MD_ID" efx_nic_reg_fields_MD_ID;
  REGISTER_AB "MAC_STAT_DMA" efx_nic_reg_fields_MAC_STAT_DMA;
  REGISTER_AB "MAC_CTRL" efx_nic_reg_fields_MAC_CTRL;
  REGISTER_BB "GEN_MODE" efx_nic_reg_fields_GEN_MODE;
  REGISTER_AB "MAC_MC_HASH_REG0" efx_nic_reg_fields_MAC_MC_HASH_REG0;
  REGISTER_AB "MAC_MC_HASH_REG1" efx_nic_reg_fields_MAC_MC_HASH_REG1;
  REGISTER_AB "GM_CFG1" efx_nic_reg_fields_GM_CFG1;
  REGISTER_AB "GM_CFG2" efx_nic_reg_fields_GM_CFG2;
  REGISTER_AB "GM_MAX_FLEN" efx_nic_reg_fields_GM_MAX_FLEN;
  REGISTER_AB "GM_ADR1" efx_nic_reg_fields_GM_ADR1;
  REGISTER_AB "GM_ADR2" efx_nic_reg_fields_GM_ADR2;
  REGISTER_AB "GMF_CFG0" efx_nic_reg_fields_GMF_CFG0;
  REGISTER_AB "GMF_CFG1" efx_nic_reg_fields_GMF_CFG1;
  REGISTER_AB "GMF_CFG2" efx_nic_reg_fields_GMF_CFG2;
  REGISTER_AB "GMF_CFG3" efx_nic_reg_fields_GMF_CFG3;
  REGISTER_AB "GMF_CFG4" efx_nic_reg_fields_GMF_CFG4;
  REGISTER_AB "GMF_CFG5" efx_nic_reg_fields_GMF_CFG5;
  REGISTER_BB "TX_SRC_MAC_CTL" efx_nic_reg_fields_TX_SRC_MAC_CTL;
  REGISTER_AB "XM_ADR_LO" efx_nic_reg_fields_XM_ADR_LO;
  REGISTER_AB "XM_ADR_HI" efx_nic_reg_fields_XM_ADR_HI;
  REGISTER_AB "XM_GLB_CFG" efx_nic_reg_fields_XM_GLB_CFG;
  REGISTER_AB "XM_TX_CFG" efx_nic_reg_fields_XM_TX_CFG;
  REGISTER_AB "XM_RX_CFG" efx_nic_reg_fields_XM_RX_CFG;
  REGISTER_AB "XM_MGT_INT_MASK" efx_nic_reg_fields_XM_MGT_INT_MASK;
  REGISTER_AB "XM_FC" efx_nic_reg_fields_XM_FC;
  REGISTER_AB "XM_PAUSE_TIME" efx_nic_reg_fields_XM_PAUSE_TIME;
  REGISTER_AB "XM_TX_PARAM" efx_nic_reg_fields_XM_TX_PARAM;
  REGISTER_AB "XM_RX_PARAM" efx_nic_reg_fields_XM_RX_PARAM;
  REGISTER_AB "XX_PWR_RST" efx_nic_reg_fields_XX_PWR_RST;
  REGISTER_AB "XX_SD_CTL" efx_nic_reg_fields_XX_SD_CTL;
  REGISTER_AB "XX_TXDRV_CTL" efx_nic_reg_fields_XX_TXDRV_CTL].

Record efx_nic_reg_table := mk_table {
  t_name : string; t_fields : list efx_nic_reg_field; t_count : Z; t_min : Z; t_max : Z; step : Z; rows : Z }.
Definition REGISTER_TABLE_DIMENSIONS (name : string) (fields : list efx_nic_reg_field) (min_rev max_rev : rev)
    (step rows : option Z) : efx_nic_reg_table :=
  mk_table name fields (wrapu 7 (Z.of_nat (length fields))) (wrapu 2 (REGISTER_REVISION min_rev))
    (wrapu 2 (REGISTER_REVISION max_rev)) (wrapu 6 (default 0 step)) (wrapu 21 (default 0 rows)).
Definition REGISTER_TABLE (name : string) fields (min_rev max_rev : rev) : list efx_nic_reg_table :=
  let revs := rev_text min_rev +:+ rev_text max_rev in
  [REGISTER_TABLE_DIMENSIONS name fields min_rev max_rev (fr (revs +:+ "_" +:+ name +:+ "_STEP"))
     (fr (revs +:+ "_" +:+ name +:+ "_ROWS"))].
Definition REGISTER_TABLE_AA (name : string) fields := REGISTER_TABLE name fields A A.
Definition REGISTER_TABLE_BB (name : string) fields := REGISTER_TABLE name fields B B.
Definition REGISTER_TABLE_BZ (name : string) fields := REGISTER_TABLE name fields B Zz.
Definition REGISTER_TABLE_BB_CZ (name : string) fields : list efx_nic_reg_table :=
  [REGISTER_TABLE_DIMENSIONS name fields B B (fr ("BZ_" +:+ name +:+ "_STEP")) (fr ("BB_" +:+ name +:+ "_ROWS"));
   REGISTER_TABLE_DIMENSIONS name fields C Zz (fr ("BZ_" +:+ name +:+ "_STEP")) (fr ("CZ_" +:+ name +:+ "_ROWS"))].
Definition REGISTER_TABLE_CZ (name : string) fields := REGISTER_TABLE name fields C Zz.

Definition efx_nic_reg_tables : list efx_nic_reg_table := concat [
  REGISTER_TABLE_BB "TX_IPFIL_TBL" efx_nic_reg_fields_TX_IPFIL_TBL;
  REGISTER_TABLE_BB "TX_SRC_MAC_TBL" efx_nic_reg_fields_TX_SRC_MAC_TBL;
  REGISTER_TABLE_AA "RX_DESC_PTR_TBL_KER" efx_nic_reg_fields_RX_DESC_PTR_TBL_KER;
  REGISTER_TABLE_BB_CZ "RX_DESC_PTR_TBL" efx_nic_reg_fields_RX_DESC_PTR_TBL;
  REGISTER_TABLE_AA "TX_DESC_PTR_TBL_KER" efx_nic_reg_fields_TX_DESC_PTR_TBL_KER;
  REGISTER_TABLE_BB_CZ "TX_DESC_PTR_TBL" efx_nic_reg_fields_TX_DESC_PTR_TBL;
  REGISTER_TABLE_AA "EVQ_PTR_TBL_KER" efx_nic_reg_fields_EVQ_PTR_TBL_KER;
  REGISTER_TABLE_BB_CZ "EVQ_PTR_TBL" efx_nic_reg_fields_EVQ_PTR_TBL;
  [REGISTER_TABLE_DIMENSIONS "BUF_FULL_TBL_KER" efx_nic_reg_fields_BUF_FULL_TBL_KER A A (Some 8) (Some 1024)];
  [REGISTER_TABLE_DIMENSIONS "BUF_FULL_TBL" efx_nic_reg_fields_BUF_FULL_TBL B Zz (Some 8) (Some 1024)];
  REGISTER_TABLE_CZ "RX_MAC_FILTER_TBL0" efx_nic_reg_fields_RX_MAC_FILTER_TBL0;
  REGISTER_TABLE_BB_CZ "TIMER_TBL" efx_nic_reg_fields_TIMER_TBL;
  REGISTER_TABLE_BB_CZ "TX_PACE_TBL" efx_nic_reg_fields_TX_PACE_TBL;
  REGISTER_TABLE_BZ "RX_INDIRECTION_TBL" efx_nic_reg_fields_RX_INDIRECTION_TBL;
  REGISTER_TABLE_CZ "TX_MAC_FILTER_TBL0" efx_nic_reg_fields_TX_MAC_FILTER_TBL0;
  REGISTER_TABLE_CZ "MC_TREG_SMEM" efx_nic_reg_fields_MC_TREG_SMEM;
  REGISTER_TABLE_BZ "RX_FILTER_TBL0" efx_nic_reg_fields_RX_FILTER_TBL0].
End EtSfcTab.
