(* ===== verification/EtSfc.v ===== *)
(** * ethtool: registers of the sfc driver ([ethernet_test/ethtool/sfc.c], from line 3685)

    The decoder walks through the tables of [EtSfcTab] and through the dump; a
    pointer into the dump is an offset. *)

From stdpp Require Import base list strings gmap numbers.
From Stdlib Require Import ZArith Lia Ascii.
From S2P Require Import Prelude CInt CLib CFmt EtCmd EtSet EtFeat EtRegs EtSfcTab CLibOk.

Import Et EtS EtF EtSfcTab.

Module EtSfc.

Definition value_width (field : efx_nic_reg_field) : Z := Z.shiftr (width field + 3) 2.
Definition column_width (field : efx_nic_reg_field) : Z :=
  let name_width := strlen (f_name field) in
  if value_width field <? name_width then name_width else value_width field.
Definition column_padding (field : efx_nic_reg_field) : Z :=
  let name_width := strlen (f_name field) in
  if value_width field <? name_width then name_width - value_width field else 0.
Definition in_revision (revision lo hi : Z) : bool := ((lo <=? revision) && (revision <=? hi))%bool.
(** The bytes of a row in the dump. *)
Definition row_size (table : efx_nic_reg_table) : Z := if 16 <? step table then 16 else step table.

Section regs.
Context {D : Type}.
Abbreviation P := (M D).
Context (data : list Z).

(** The digits from the most significant one, which has [sig_bits] valid bits;
    [n] are left. *)
Fixpoint field_digits (n : nat) (right sig_bits buf : Z) : P unit :=
  match n with
  | O => mret tt
  | S n' =>
      let left := right + 4 * Z.of_nat n' in
      digit ← ld 1 data (buf + Z.shiftr left 3);
      digit ← (if 8 <? Z.land left 7 + sig_bits
               then (b ← ld 1 data (buf + Z.shiftr left 3 + 1); mret (Z.lor digit (Z.shiftl b 8)))
               else mret digit);
      let digit := Z.land (Z.shiftr digit (Z.land left 7)) (Z.shiftl 1 sig_bits - 1) in
      fprintf "%x" [PI digit];;
      field_digits n' right 4 buf
  end.
Definition print_field_value (field : efx_nic_reg_field) (buf : Z) : P unit :=
  let right := lbn field in
  let left := right + Z.land (width field + 3) (Z.lnot 3) in
  let sig_bits := if truth (Z.land (width field) 3) then Z.land (width field) 3 else 4 in
  field_digits (Z.to_nat ((left - right) / 4)) right sig_bits buf.

(** [indent] is 0 until the name of the register was written. *)
Fixpoint single_fields (revision : Z) (name : string) (fields : list efx_nic_reg_field) (indent buf : Z) : P unit :=
  match fields with
  | [] => mret tt
  | field :: fields' =>
      if in_revision revision (f_min field) (f_max field) then
        indent' ← (if indent =? 0 then (fprintf "%s: " [PS name];; mret (strlen name + 2))
                   else (fprintf "%*s" [PI indent; PS ""];; mret indent));
        fprintf "%s = " [PS (f_name field)];;
        print_field_value field buf;;
        fprintf "\n" [];;
        single_fields revision name fields' indent' buf
      else single_fields revision name fields' indent buf
  end.
Definition print_single_register (revision : Z) (reg : efx_nic_reg) (buf : Z) : P Z :=
  single_fields revision (r_name reg) (take (Z.to_nat (r_count reg)) (r_fields reg)) 0 buf;;
  mret (buf + 16).

Fixpoint simple_rows (field : efx_nic_reg_field) (column_count size : Z) (n : nat) (i buf : Z) : P Z :=
  match n with
  | O => mret buf
  | S n' =>
      when (i mod column_count =? 0) (when (truth i) (fprintf "\n" []);; fprintf "%4zu " [PI i]);;
      fprintf " " [];;
      print_field_value field buf;;
      simple_rows field column_count size n' (i + 1) (buf + size)
  end.
Definition print_simple_table (revision : Z) (table : efx_nic_reg_table) (buf : Z) : P Z :=
  field ← elem (t_fields table) 0;
  let column_count := 72 / (value_width field + 1) in
  buf ← simple_rows field column_count (row_size table) (Z.to_nat (rows table)) 0 buf;
  fprintf "\n" [];;
  mret buf.

(** Reads up to the first byte that is not 0. *)
Fixpoint buf_is_zero (buf : Z) (size : nat) : P bool :=
  match size with
  | O => mret true
  | S n => b ← ld 1 data buf; if truth b then mret false else buf_is_zero (buf + 1) n
  end.

Fixpoint each_field (revision : Z) (fields : list efx_nic_reg_field) (f : efx_nic_reg_field -> P unit) : P unit :=
  match fields with
  | [] => mret tt
  | field :: fields' => when (in_revision revision (f_min field) (f_max field)) (f field);; each_field revision fields' f
  end.
Fixpoint complex_rows (revision : Z) (fields : list efx_nic_reg_field) (size : Z) (n : nat) (j buf : Z) : P Z :=
  match n with
  | O => mret buf
  | S n' =>
      zero ← buf_is_zero buf (Z.to_nat size);
      when (negb zero)
        (fprintf "%4zu" [PI j];;
         each_field revision fields (fun field =>
           fprintf " %*s" [PI (column_padding field); PS ""];;
           print_field_value field buf);;
         fprintf "\n" []);;
      complex_rows revision fields size n' (j + 1) (buf + size)
  end.
Definition print_complex_table (revision : Z) (table : efx_nic_reg_table) (buf : Z) : P Z :=
  let fields := take (Z.to_nat (t_count table)) (t_fields table) in
  fprintf "Row " [];;
  each_field revision fields (fun field => fprintf " %-*s" [PI (column_width field); PS (f_name field)]);;
  fprintf "\n" [];;
  fprintf "----" [];;
  each_field revision fields (fun field =>
    fprintf " " [];; for_ (Z.to_nat (column_width field)) 0 (fun _ => fprintf "-" []));;
  fprintf "\n" [];;
  complex_rows revision fields (row_size table) (Z.to_nat (rows table)) 0 buf.

(** The loops over registers and over tables stop at the end of the dump. *)
Fixpoint dump_registers (revision end_ : Z) (regs : list efx_nic_reg) (buf : Z) : P Z :=
  match regs with
  | [] => mret buf
  | reg :: regs' =>
      if buf <? end_ then
        buf ← (if in_revision revision (r_min reg) (r_max reg) then print_single_register revision reg buf else mret buf);
        dump_registers revision end_ regs' buf
      else mret buf
  end.
Fixpoint dump_tables (revision end_ : Z) (tables : list efx_nic_reg_table) (buf : Z) : P Z :=
  match tables with
  | [] => mret buf
  | table :: tables' =>
      if buf <? end_ then
        buf ← (if in_revision revision (t_min table) (t_max table) then
                 fprintf "\n%s:\n" [PS (t_name table)];;
                 if t_count table =? 1 then print_simple_table revision table buf
                 else print_complex_table revision table buf
               else mret buf);
        dump_tables revision end_ tables' buf
      else mret buf
  end.
Definition sfc_dump (revision len : Z) : P Z :=
  if REGISTER_REVISION_Z <? revision then mret (-1)
  else
    buf ← dump_registers revision len efx_nic_regs 0;
    _ ← dump_tables revision len efx_nic_reg_tables buf;
    mret 0.
End regs.
Definition sfc_dump_regs {D} (info regs : ereq) : M D Z := sfc_dump (rq_arr regs) (fld regs "version") (fld regs "len").

(** ** The tables are well formed *)

(** A field of [bits] bits: found among the macros, not cut by the bit fields of
    the structure, with revisions in order, and inside its register. *)
Definition field_ok (bits : Z) (f : efx_nic_reg_field) : bool :=
  ((1 <=? width f) && (0 <=? lbn f) && (lbn f + width f <=? bits) && (1 <=? f_min f) && (f_min f <=? f_max f) && (f_max f <=? 3))%bool.
Definition reg_ok (r : efx_nic_reg) : bool :=
  ((r_count r =? Z.of_nat (length (r_fields r))) && (1 <=? r_min r) && (r_min r <=? r_max r) && (r_max r <=? 3) &&
   forallb (field_ok 128) (r_fields r))%bool.
Definition table_ok (t : efx_nic_reg_table) : bool :=
  ((t_count t =? Z.of_nat (length (t_fields t))) && (1 <=? t_count t) && (1 <=? t_min t) && (t_min t <=? t_max t) && (t_max t <=? 3) &&
   (1 <=? step t) && (1 <=? rows t) && forallb (field_ok (8 * row_size t)) (t_fields t))%bool.
(** Fields that a revision has do not share a bit. *)
Definition disjoint (f g : efx_nic_reg_field) : bool := ((lbn f + width f <=? lbn g) || (lbn g + width g <=? lbn f))%bool.
Fixpoint no_overlap (l : list efx_nic_reg_field) : bool :=
  match l with [] => true | f :: l' => (forallb (disjoint f) l' && no_overlap l')%bool end.
Definition fields_of (revision : Z) (l : list efx_nic_reg_field) : list efx_nic_reg_field :=
  List.filter (fun f => in_revision revision (f_min f) (f_max f)) l.

(** The bytes of the dump of a revision. *)
Definition regs_size (revision : Z) (l : list efx_nic_reg) : Z :=
  16 * Z.of_nat (length (List.filter (fun r => in_revision revision (r_min r) (r_max r)) l)).
Definition tables_size (revision : Z) (l : list efx_nic_reg_table) : Z :=
  fold_right Z.add 0 (List.map (fun t => rows t * row_size t)
    (List.filter (fun t => in_revision revision (t_min t) (t_max t)) l)).
Definition dump_size (revision : Z) : Z := regs_size revision efx_nic_regs + tables_size revision efx_nic_reg_tables.

Lemma regs_ok : forallb reg_ok efx_nic_regs = true.
Proof. vm_compute. reflexivity. Qed.

Lemma sfc_tables_ok : forallb table_ok efx_nic_reg_tables = true.
Proof. vm_compute. reflexivity. Qed.
End EtSfc.

(** * ethtool: what the sfc decoder shows

    The text of a field is read back as the field's value; a complete dump is
    read inside its bounds. *)

Import Et EtS EtF EtSfcTab EtSfc.

(** ** Text *)

(** The text of chunks written to the standard output, newest first. *)
Fixpoint shown (l : list msg) : string :=
  match l with
  | [] => EmptyString
  | Stdout t :: l' => shown l' +:+ t
  | Stderr _ :: l' => shown l'
  end.

Lemma string_app_nil (a : string) : a +:+ "" = a.
Proof. induction a as [|ch a IH]; [done|]. change (String ch (a +:+ "") = String ch a). by rewrite IH. Qed.

Lemma shown_app l1 l2 : shown (l1 ++ l2) = shown l2 +:+ shown l1.
Proof.
  induction l1 as [|[t|t] l1 IH]; cbn [shown app]; [by rewrite string_app_nil| |done]. by rewrite IH, str_app_assoc.
Qed.

(** Code that writes the text [t] and does nothing else. *)
Definition writes {D} (m : M D unit) (t : string) : Prop :=
  forall s, exists l, m s = (Ret tt, mkst (l ++ out s) (dev s)) /\ shown l = t.

Lemma writes_ret {D} : writes (mret tt : M D unit) "".
Proof. intros s. exists []. by destruct s. Qed.

Lemma writes_seq {D} (m1 m2 : M D unit) t1 t2 : writes m1 t1 -> writes m2 t2 -> writes (m1;; m2) (t1 +:+ t2).
Proof.
  intros H1 H2 s. destruct (H1 s) as (l1 & E1 & <-). destruct (H2 (mkst (l1 ++ out s) (dev s))) as (l2 & E2 & <-).
  exists (l2 ++ l1). rewrite (bind_ret_run _ _ _ _ _ E1), E2, shown_app. cbn [out dev]. by rewrite app_assoc.
Qed.

Lemma writes_bind {D A} (m : M D A) (f : A -> M D unit) a t :
  (forall s, m s = (Ret a, s)) -> writes (f a) t -> writes (m ≫= f) t.
Proof. intros Hm Hf s. destruct (Hf s) as (l & E & El). exists l. by rewrite (bind_ret_run _ _ _ _ _ (Hm s)). Qed.

Lemma writes_hex_digit {D} d : 0 <= d < 16 -> writes (fprintf "%x" [PI d] : M D unit) (String (digit_chr false d) "").
Proof.
  intros Hd s. exists [Stdout (String (digit_chr false d) "")]. split; [|done].
  assert (sprintf "%x" [PI d] = Some (String (digit_chr false d) "")) as E; [|by unfold fprintf; rewrite E].
  assert (forallb (fun d => match sprintf "%x" [PI d] with Some x => streq x (String (digit_chr false d) "") | None => false end)
            [0; 1; 2; 3; 4; 5; 6; 7; 8; 9; 10; 11; 12; 13; 14; 15] = true) as HF by (vm_compute; reflexivity).
  rewrite forallb_forall in HF. specialize (HF d). destruct (sprintf _ _) as [x|].
  - f_equal. apply String.eqb_eq, HF. cbn. lia.
  - discriminate HF. cbn. lia.
Qed.

(** ** Digits of a number *)

(** The last [n] hexadecimal digits of [v]. *)
Fixpoint hex_digits (n : nat) (v : Z) : string :=
  match n with
  | O => EmptyString
  | S n' => String (digit_chr false ((v / 16 ^ Z.of_nat n') mod 16)) (hex_digits n' v)
  end.

Lemma strlen_hex_digits n v : strlen (hex_digits n v) = Z.of_nat n.
Proof. induction n as [|n IH]; [done|]. cbn [hex_digits strlen]. rewrite IH. lia. Qed.

Lemma scan_hex_digits n : forall v acc any, 0 <= v ->
  scan_digits 16 (hex_digits n v) acc any =
  (acc * 16 ^ Z.of_nat n + v mod 16 ^ Z.of_nat n, (if decide (n = 0%nat) then any else true), EmptyString).
Proof.
  induction n as [|n IH]; intros v acc any Hv; cbn [hex_digits scan_digits].
  - rewrite Z.mul_1_r, Z.mod_1_r, Z.add_0_r. done.
  - pose proof (Z.mod_pos_bound (v / 16 ^ Z.of_nat n) 16 ltac:(lia)). rewrite digit_in_chr by lia.
    rewrite IH by done. rewrite (decide_False (P := S n = 0%nat)) by lia. f_equal. f_equal; [|by destruct (decide _)].
    rewrite Nat2Z.inj_succ, Z.pow_succ_r by lia. rewrite (Z.mul_comm 16 (16 ^ Z.of_nat n)).
    rewrite (Z.rem_mul_r v (16 ^ Z.of_nat n) 16) by (pose proof (Z.pow_pos_nonneg 16 (Z.of_nat n)); lia). ring.
Qed.

Lemma hex_digits_mod n w v : 4 * Z.of_nat n <= w -> hex_digits n (v mod 2 ^ w) = hex_digits n v.
Proof.
  induction n as [|n IH]; intros Hw; [done|]. cbn [hex_digits]. rewrite IH by lia. f_equal. f_equal.
  apply Z.bits_inj'. intros i Hi. change 16 with (2 ^ 4). rewrite <- Z.pow_mul_r by lia.
  destruct (Z.lt_ge_cases i 4); [|by rewrite !Z.mod_pow2_bits_high by lia].
  rewrite !Z.mod_pow2_bits_low, !Z.div_pow2_bits by lia. rewrite Z.mod_pow2_bits_low by lia. done.
Qed.

(** ** The value of a field *)

Section field.
Context {D : Type} (data : list Z) (Hdata : Forall is_byte data).

(** The register at [buf] as one number, and a field of it. *)
Definition reg_at (buf : Z) : Z := le_val (drop (Z.to_nat buf) data).
Definition field_value (f : efx_nic_reg_field) (buf : Z) : Z := Z.shiftr (reg_at buf) (lbn f) mod 2 ^ width f.

Lemma ld_byte (off : Z) (s : st D) : 0 <= off < Z.of_nat (length data) -> ld 1 data off s = (Ret (nth (Z.to_nat off) data 0), s).
Proof.
  intros Ho. unfold ld. rewrite (proj2 (Z.leb_le 0 off)), (proj2 (Z.leb_le _ _)) by lia. cbn [andb].
  destruct (drop (Z.to_nat off) data) as [|b r] eqn:E.
  - apply (f_equal length) in E. rewrite length_drop in E. cbn in E. lia.
  - cbn [take le_val]. rewrite Z.mul_0_r, Z.add_0_r. replace (nth (Z.to_nat off) data 0) with b; [done|].
    rewrite <- (Nat.add_0_r (Z.to_nat off)), <- (nth_skipn (Z.to_nat off)). change (skipn (Z.to_nat off) data) with (drop (Z.to_nat off) data).
    by rewrite E.
Qed.

Lemma reg_at_testbit buf k i : 0 <= buf -> 0 <= i < 8 -> 0 <= k ->
  Z.testbit (reg_at buf) (8 * k + i) = Z.testbit (nth (Z.to_nat (buf + k)) data 0) i.
Proof.
  intros Hb Hi Hk. unfold reg_at. rewrite <- (Z2Nat.id k) at 1 by done.
  rewrite le_val_testbit; [|by apply Forall_drop|done]. change (drop (Z.to_nat buf) data) with (skipn (Z.to_nat buf) data).
  rewrite nth_skipn, Z2Nat.inj_add by lia. done.
Qed.

(** The bits the decoder takes from one byte, or from two. *)
Definition digit_at (left sig buf : Z) : Z :=
  let b k := nth (Z.to_nat (buf + k)) data 0 in
  let d := if 8 <? Z.land left 7 + sig then Z.lor (b (Z.shiftr left 3)) (Z.shiftl (b (Z.shiftr left 3 + 1)) 8)
           else b (Z.shiftr left 3) in
  Z.land (Z.shiftr d (Z.land left 7)) (Z.shiftl 1 sig - 1).

Lemma byte_testbit_high k i : 8 <= i -> Z.testbit (nth k data 0) i = false.
Proof.
  intros Hi. apply testbit_high with 8; [lia| |lia]. destruct (Nat.lt_ge_cases k (length data)).
  - rewrite List.Forall_forall in Hdata. apply Hdata, nth_In. lia.
  - rewrite nth_overflow by lia. lia.
Qed.

Lemma digit_at_eq left sig buf : 0 <= left -> 1 <= sig <= 4 -> 0 <= buf ->
  digit_at left sig buf = Z.shiftr (reg_at buf) left mod 2 ^ sig.
Proof.
  intros Hl Hs Hb. unfold digit_at. rewrite Z.shiftl_1_l, Z.sub_1_r, <- Z.ones_equiv, Z.land_ones by lia.
  apply Z.bits_inj'. intros i Hi. destruct (Z.lt_ge_cases i sig); [|by rewrite !Z.mod_pow2_bits_high by lia].
  rewrite !Z.mod_pow2_bits_low, !Z.shiftr_spec by lia.
  assert (Z.shiftr left 3 = left / 8) as E3 by (by rewrite Z.shiftr_div_pow2 by lia).
  assert (Z.land left 7 = left mod 8) as E7 by (change 7 with (Z.ones 3); by rewrite Z.land_ones by lia).
  rewrite E3, E7. pose proof (Z.div_mod left 8 ltac:(lia)). pose proof (Z.mod_pos_bound left 8 ltac:(lia)).
  pose proof (Z.div_pos left 8 Hl ltac:(lia)).
  destruct (Z.lt_ge_cases (i + left mod 8) 8) as [Hlt|Hge].
  - replace (i + left) with (8 * (left / 8) + (i + left mod 8)) by lia. rewrite reg_at_testbit by lia.
    destruct (_ <? _); [|done]. rewrite Z.lor_spec, Z.shiftl_spec_low by lia. by rewrite orb_false_r.
  - rewrite (proj2 (Z.ltb_lt _ _)) by lia.
    replace (i + left) with (8 * (left / 8 + 1) + (i + left mod 8 - 8)) by lia. rewrite reg_at_testbit by lia.
    rewrite Z.lor_spec, Z.shiftl_spec by lia. rewrite byte_testbit_high by lia. done.
Qed.

(** [n] digits above [right], all with four bits but the first. *)
Lemma field_digits_writes n : forall right sig buf,
  0 <= right -> 1 <= sig <= 4 -> 0 <= buf -> ((0 < n)%nat -> 8 * buf + right + 4 * (Z.of_nat n - 1) + sig <= 8 * Z.of_nat (length data)) ->
  writes (field_digits (D := D) data n right sig buf)
    (hex_digits n (Z.shiftr (reg_at buf) right mod 2 ^ (4 * (Z.of_nat n - 1) + sig))).
Proof.
  induction n as [|n IH]; intros right sig buf Hr Hs Hb Hlen; cbn [field_digits hex_digits]; [apply writes_ret|].
  set (left := right + 4 * Z.of_nat n). specialize (Hlen ltac:(lia)).
  assert (Z.shiftr left 3 = left / 8) as E3 by (by rewrite Z.shiftr_div_pow2 by lia).
  assert (Z.land left 7 = left mod 8) as E7 by (change 7 with (Z.ones 3); by rewrite Z.land_ones by lia).
  pose proof (Z.div_mod left 8 ltac:(lia)). pose proof (Z.mod_pos_bound left 8 ltac:(lia)). pose proof (Z.div_pos left 8 ltac:(lia) ltac:(lia)).
  eapply writes_bind; [intros s; apply ld_byte; lia|].
  eapply writes_bind with (a := if 8 <? Z.land left 7 + sig then
      Z.lor (nth (Z.to_nat (buf + Z.shiftr left 3)) data 0) (Z.shiftl (nth (Z.to_nat (buf + (Z.shiftr left 3 + 1))) data 0) 8)
      else nth (Z.to_nat (buf + Z.shiftr left 3)) data 0).
  { intros s. destruct (Z.ltb_spec 8 (Z.land left 7 + sig)); [|done].
    rewrite <- Z.add_assoc, (bind_ret_run _ _ _ _ _ (ld_byte (buf + (Z.shiftr left 3 + 1)) s ltac:(lia))). done. }
  cbv zeta. fold (digit_at left sig buf). rewrite digit_at_eq by lia.
  set (v := Z.shiftr (reg_at buf) right mod 2 ^ (4 * (Z.of_nat (S n) - 1) + sig)).
  assert (2 ^ sig <= 2 ^ 4) by (apply Z.pow_le_mono_r; lia).
  pose proof (Z.mod_pos_bound (Z.shiftr (reg_at buf) left) (2 ^ sig) ltac:(apply Z.pow_pos_nonneg; lia)).
  assert ((v / 16 ^ Z.of_nat n) mod 16 = Z.shiftr (reg_at buf) left mod 2 ^ sig) as Ed.
  { change 16 with (2 ^ 4). rewrite <- Z.pow_mul_r by lia. apply Z.bits_inj'. intros i Hi.
    destruct (Z.lt_ge_cases i 4) as [H4|H4].
    - rewrite Z.mod_pow2_bits_low, Z.div_pow2_bits by lia. unfold v. destruct (Z.lt_ge_cases i sig).
      + rewrite !Z.mod_pow2_bits_low, !Z.shiftr_spec by lia. f_equal. lia.
      + rewrite !Z.mod_pow2_bits_high by lia. done.
    - rewrite !Z.mod_pow2_bits_high by lia. done. }
  rewrite Ed. change (String ?c ?r) with (String c "" +:+ r). apply writes_seq.
  - apply writes_hex_digit. lia.
  - replace (hex_digits n v) with (hex_digits n (Z.shiftr (reg_at buf) right mod 2 ^ (4 * (Z.of_nat n - 1) + 4))).
    + apply IH; lia.
    + unfold v. rewrite !hex_digits_mod by lia. done.
Qed.

(** A field is shown with as many digits as its width needs, and they are its
    value. *)
Lemma print_field_writes f buf : 1 <= width f -> 0 <= lbn f -> 0 <= buf ->
  8 * buf + lbn f + width f <= 8 * Z.of_nat (length data) ->
  writes (print_field_value (D := D) data f buf) (hex_digits (Z.to_nat (value_width f)) (field_value f buf)).
Proof.
  intros Hw Hl Hb Hlen. unfold print_field_value, field_value, value_width.
  set (sig := if truth (Z.land (width f) 3) then _ else _).
  assert (Z.land (width f) 3 = width f mod 4) as E3 by (change 3 with (Z.ones 2); by rewrite Z.land_ones by lia).
  assert (Z.land (width f + 3) (Z.lnot 3) = 4 * ((width f + 3) / 4)) as El.
  { change (Z.lnot 3) with (Z.lnot (Z.ones 2)). rewrite <- Z.ldiff_land, Z.ldiff_ones_r, Z.shiftr_div_pow2, Z.shiftl_mul_pow2 by lia.
    change (2 ^ 2) with 4. lia. }
  rewrite El, Z.shiftr_div_pow2 by lia. change (2 ^ 2) with 4.
  replace (lbn f + 4 * ((width f + 3) / 4) - lbn f) with ((width f + 3) / 4 * 4) by lia. rewrite Z.div_mul by lia.
  set (n := (width f + 3) / 4). pose proof (Z.div_mod (width f) 4 ltac:(lia)). pose proof (Z.mod_pos_bound (width f) 4 ltac:(lia)).
  assert (1 <= sig <= 4 /\ width f = 4 * (n - 1) + sig) as [Hs Ew].
  { unfold sig, n, truth. rewrite E3. destruct (Z.eqb_spec (width f mod 4) 0); cbn [negb]; split; try lia;
      pose proof (Z.div_mod (width f + 3) 4 ltac:(lia)); pose proof (Z.mod_pos_bound (width f + 3) 4 ltac:(lia)); lia. }
  rewrite Ew. replace n with (Z.of_nat (Z.to_nat n)) at 3 by lia. apply field_digits_writes; lia.
Qed.
End field.

(** ** A complete dump is read inside its bounds *)

Section bounds.
Context {D : Type} (data : list Z).
Abbreviation size := (Z.of_nat (length data)).

Lemma field_digits_shows n : forall right sig buf, 0 <= right -> 1 <= sig <= 4 -> 0 <= buf ->
  ((0 < n)%nat -> 8 * buf + right + 4 * (Z.of_nat n - 1) + sig <= 8 * size) ->
  shows (field_digits (D := D) data n right sig buf) (fun _ => True).
Proof.
  induction n as [|n IH]; intros right sig buf Hr Hs Hb Hlen; cbn [field_digits]; [by apply shows_ret|].
  set (left := right + 4 * Z.of_nat n). specialize (Hlen ltac:(lia)).
  assert (Z.shiftr left 3 = left / 8) as E3 by (by rewrite Z.shiftr_div_pow2 by lia).
  assert (Z.land left 7 = left mod 8) as E7 by (change 7 with (Z.ones 3); by rewrite Z.land_ones by lia).
  pose proof (Z.div_mod left 8 ltac:(lia)). pose proof (Z.mod_pos_bound left 8 ltac:(lia)). pose proof (Z.div_pos left 8 ltac:(lia) ltac:(lia)).
  apply shows_seq; [apply shows_ld; [lia|lia|done]|]. intros digit. apply shows_seq.
  { destruct (Z.ltb_spec 8 (Z.land left 7 + sig)); [|by apply shows_ret].
    apply shows_seq; [apply shows_ld; [lia|lia|done]|]. intros b. by apply shows_ret. }
  intros d. cbv zeta. shows_step. apply IH; lia.
Qed.

Lemma print_field_shows bits f buf : field_ok bits f = true -> 0 <= buf -> 8 * buf + bits <= 8 * size ->
  shows (print_field_value (D := D) data f buf) (fun _ => True).
Proof.
  intros Hf Hb Hl. unfold field_ok in Hf. unfold print_field_value. set (sig := if truth (Z.land (width f) 3) then _ else _).
  assert (Z.land (width f) 3 = width f mod 4) as E3 by (change 3 with (Z.ones 2); by rewrite Z.land_ones by lia).
  assert (Z.land (width f + 3) (Z.lnot 3) = 4 * ((width f + 3) / 4)) as El.
  { change (Z.lnot 3) with (Z.lnot (Z.ones 2)). rewrite <- Z.ldiff_land, Z.ldiff_ones_r, Z.shiftr_div_pow2, Z.shiftl_mul_pow2 by lia.
    change (2 ^ 2) with 4. lia. }
  rewrite El. replace (lbn f + 4 * ((width f + 3) / 4) - lbn f) with ((width f + 3) / 4 * 4) by lia. rewrite Z.div_mul by lia.
  set (n := (width f + 3) / 4). pose proof (Z.div_mod (width f) 4 ltac:(lia)). pose proof (Z.mod_pos_bound (width f) 4 ltac:(lia)).
  assert (1 <= sig <= 4 /\ width f = 4 * (n - 1) + sig) as [Hs Ew].
  { unfold sig, n, truth. rewrite E3. destruct (Z.eqb_spec (width f mod 4) 0); cbn [negb]; split; try lia;
      pose proof (Z.div_mod (width f + 3) 4 ltac:(lia)); pose proof (Z.mod_pos_bound (width f + 3) 4 ltac:(lia)); lia. }
  apply field_digits_shows; lia.
Qed.

Lemma single_fields_shows revision name fields : forall indent buf,
  forallb (field_ok 128) fields = true -> 0 <= buf -> buf + 16 <= size ->
  shows (single_fields (D := D) data revision name fields indent buf) (fun _ => True).
Proof.
  induction fields as [|f fields IH]; intros indent buf Hf Hb Hl; cbn [single_fields]; [by apply shows_ret|].
  cbn [forallb] in Hf. apply andb_true_iff in Hf as [Hf Hfs]. apply shows_if; [|by apply IH].
  apply shows_seq; [apply shows_if; shows_all|]. intros indent'. shows_step.
  apply shows_seq; [apply (print_field_shows 128); [done|lia|lia]|]. intros _. shows_step. by apply IH.
Qed.

Lemma forallb_take {A} (p : A -> bool) n l : forallb p l = true -> forallb p (take n l) = true.
Proof. rewrite !forallb_forall. intros H x Hx. apply H. rewrite <- (firstn_skipn n l). apply in_or_app. by left. Qed.

Lemma dump_registers_shows revision end_ regs : forall buf, forallb reg_ok regs = true -> 0 <= buf ->
  buf + regs_size revision regs <= size ->
  shows (dump_registers (D := D) data revision end_ regs buf) (fun r => buf <= r <= buf + regs_size revision regs).
Proof.
  induction regs as [|reg regs IH]; intros buf Hr Hb Hl; cbn [dump_registers]; [apply shows_ret; unfold regs_size; cbn; lia|].
  cbn [forallb] in Hr. apply andb_true_iff in Hr as [Hreg Hregs].
  unfold regs_size in *. cbn [List.filter] in *.
  destruct (in_revision revision (r_min reg) (r_max reg)) eqn:E; cbn [length] in *; (apply shows_if; [|apply shows_ret; lia]).
  - eapply shows_bind with (P := fun b => b = buf + 16).
    + unfold print_single_register. apply shows_seq; [|intros _; by apply shows_ret].
      unfold reg_ok in Hreg. rewrite !andb_true_iff in Hreg. apply single_fields_shows; [apply forallb_take; tauto|lia|lia].
    + intros b ->. eapply shows_mono; [apply IH; [done|lia|lia]|]. cbn. lia.
  - eapply shows_bind with (P := fun b => b = buf); [by apply shows_ret|].
    intros b ->. eapply shows_mono; [apply IH; [done|lia|lia]|]. cbn. lia.
Qed.

Lemma buf_is_zero_shows n : forall buf, 0 <= buf -> buf + Z.of_nat n <= size ->
  shows (buf_is_zero (D := D) data buf n) (fun _ => True).
Proof.
  induction n as [|n IH]; intros buf Hb Hl; cbn [buf_is_zero]; [by apply shows_ret|].
  apply shows_seq; [apply shows_ld; [lia|lia|done]|]. intros b. apply shows_if; [by apply shows_ret|]. apply IH; lia.
Qed.

Lemma each_field_shows revision fields (f : efx_nic_reg_field -> M D unit) :
  (forall x, In x fields -> shows (f x) (fun _ => True)) -> shows (each_field revision fields f) (fun _ => True).
Proof.
  induction fields as [|x fields IH]; intros Hf; cbn [each_field]; [by apply shows_ret|].
  apply shows_seq; [apply shows_when; [|done]; apply Hf; by left|]. intros _. apply IH. intros y Hy. apply Hf. by right.
Qed.

Lemma simple_rows_shows field cc sz n : forall i buf, field_ok (8 * sz) field = true -> 0 <= sz -> 0 <= buf ->
  buf + sz * Z.of_nat n <= size ->
  shows (simple_rows (D := D) data field cc sz n i buf) (fun r => r = buf + sz * Z.of_nat n).
Proof.
  induction n as [|n IH]; intros i buf Hf Hs Hb Hl; cbn [simple_rows]; [apply shows_ret; lia|].
  apply shows_seq; [shows_all|]. intros _. shows_step.
  apply shows_seq; [apply (print_field_shows (8 * sz)); [done|lia|nia]|]. intros _.
  eapply shows_mono; [apply IH; [done|done|lia|nia]|]. cbn. lia.
Qed.

Lemma complex_rows_shows revision fields sz n : forall j buf, forallb (field_ok (8 * sz)) fields = true -> 0 <= sz -> 0 <= buf ->
  buf + sz * Z.of_nat n <= size ->
  shows (complex_rows (D := D) data revision fields sz n j buf) (fun r => r = buf + sz * Z.of_nat n).
Proof.
  induction n as [|n IH]; intros j buf Hf Hs Hb Hl; cbn [complex_rows]; [apply shows_ret; lia|].
  apply shows_seq; [apply buf_is_zero_shows; nia|]. intros zero. apply shows_seq.
  - apply shows_when; [|done]. shows_step. apply shows_seq; [|intros _; shows_all].
    apply each_field_shows. intros f Hin. shows_step. apply (print_field_shows (8 * sz)); [|lia|nia].
    rewrite forallb_forall in Hf. by apply Hf.
  - intros _. eapply shows_mono; [apply IH; [done|done|lia|nia]|]. cbn. lia.
Qed.

Lemma print_table_shows revision table buf : table_ok table = true -> 0 <= buf -> buf + rows table * row_size table <= size ->
  shows (if t_count table =? 1 then print_simple_table (D := D) data revision table buf else print_complex_table data revision table buf)
    (fun r => r = buf + rows table * row_size table).
Proof.
  intros Ht Hb Hl. unfold table_ok in Ht. rewrite !andb_true_iff, !Z.leb_le, Z.eqb_eq in Ht.
  destruct Ht as [[[[[[[Hc Hc1] _] _] _] Hst] Hro] Hf].
  assert (0 <= row_size table) as Hs by (unfold row_size; destruct (16 <? step table); lia).
  apply shows_if; unfold print_simple_table, print_complex_table.
  - destruct (t_fields table) as [|f fs] eqn:E; [cbn in *; lia|].
    eapply shows_bind with (P := fun x => x = f); [by apply shows_ret|]. intros x ->. cbn [forallb] in Hf.
    apply andb_true_iff in Hf as [Hf _].
    eapply shows_bind; [apply simple_rows_shows; [done|lia|lia|lia]|]. intros b ->. shows_step. apply shows_ret. lia.
  - shows_step. apply shows_seq; [apply each_field_shows; intros f _; shows_all|]. intros _. do 2 shows_step.
    apply shows_seq; [apply each_field_shows; intros f _; shows_all|]. intros _. shows_step.
    eapply shows_mono; [apply complex_rows_shows; [by apply forallb_take|lia|lia|lia]|]. cbn. lia.
Qed.

Lemma table_bytes_nonneg t : table_ok t = true -> 0 <= rows t * row_size t.
Proof. unfold table_ok, row_size. rewrite !andb_true_iff, !Z.leb_le. intros H. destruct (Z.ltb_spec 16 (step t)); nia. Qed.

Lemma tables_size_nonneg revision tables : forallb table_ok tables = true -> 0 <= tables_size revision tables.
Proof.
  unfold tables_size. induction tables as [|t tables IH]; intros Ht; [done|].
  cbn [forallb] in Ht. apply andb_true_iff in Ht as [Ht Hts]. specialize (IH Hts). pose proof (table_bytes_nonneg t Ht).
  cbn [List.filter]. destruct (in_revision _ _ _); [|done]. cbn [List.map fold_right]. lia.
Qed.

Lemma dump_tables_shows revision end_ tables : forall buf, forallb table_ok tables = true -> 0 <= buf ->
  buf + tables_size revision tables <= size ->
  shows (dump_tables (D := D) data revision end_ tables buf) (fun _ => True).
Proof.
  induction tables as [|t tables IH]; intros buf Ht Hb Hl; cbn [dump_tables]; [by apply shows_ret|].
  cbn [forallb] in Ht. apply andb_true_iff in Ht as [Ht Hts].
  pose proof (table_bytes_nonneg t Ht). pose proof (tables_size_nonneg revision tables Hts).
  apply shows_if; [|by apply shows_ret]. unfold tables_size in *. cbn [List.filter] in Hl.
  destruct (in_revision revision (t_min t) (t_max t)) eqn:E; cbn [List.map fold_right] in Hl.
  - eapply shows_bind with (P := fun b => b = buf + rows t * row_size t).
    + shows_step. apply print_table_shows; [done|lia|lia].
    + intros b ->. apply IH; [done|lia|lia].
  - eapply shows_bind with (P := fun b => b = buf); [by apply shows_ret|]. intros b ->. by apply IH.
Qed.

Lemma walk_shows revision len regs tables : forallb reg_ok regs = true -> forallb table_ok tables = true ->
  regs_size revision regs + tables_size revision tables <= size ->
  shows (buf ← dump_registers (D := D) data revision len regs 0;
         _ ← dump_tables data revision len tables buf;
         mret 0) (fun _ => True).
Proof.
  intros Hr Ht Hl. pose proof (tables_size_nonneg revision tables Ht).
  eapply shows_bind; [apply dump_registers_shows; [done|lia|lia]|]. intros b Hb. cbv beta in Hb.
  apply shows_seq; [|intros _; by apply shows_ret]. apply dump_tables_shows; [done|lia|lia].
Qed.

#[local] Opaque efx_nic_regs efx_nic_reg_tables regs_size tables_size.

Lemma sfc_shows revision len : dump_size revision <= size -> shows (sfc_dump (D := D) data revision len) (fun _ => True).
Proof.
  intros Hl. unfold sfc_dump. unfold dump_size in Hl. apply shows_if; [by apply shows_ret|].
  exact (walk_shows revision len efx_nic_regs efx_nic_reg_tables regs_ok sfc_tables_ok Hl).
Qed.
End bounds.
