(* ===== verification/EtRegsAll.v ===== *)
(** * ethtool: the decoders of all drivers ([driver_list] of [ethernet_test/ethtool/ethtool.c])

    The decoders that the commands of [EtDev] take as arguments, and what each of
    them relies on: no decoder compares the length of the dump with what it
    reads. *)

From stdpp Require Import base list strings gmap numbers.
From Stdlib Require Import ZArith Lia Ascii.
From S2P Require Import Prelude CInt CLib CFmt RxSpec RxRules RxParse EtCmd EtSet EtSetOk EtLink EtFeat EtSfp EtDev EtRegs EtIgb EtIxgbe EtE1000 EtRegMisc EtNatsemi EtDe2104x EtRealtek EtPcnet32 EtSfcTab EtSfc.
Import Et EtS EtL EtF EtDv.
Import EtIgb EtIxgbe EtE1000 EtIxgb EtE100 EtAmd EtNatsemi EtDe2104x EtRealtek EtPcnet32 EtRegMisc EtMarvell EtEmac EtSfc.

Module EtRegsAll.

Section drivers.
Context {D : Type}.
Abbreviation P := (M D).

(** [driver_list]. *)
Definition driver_funcs : list (string * (ereq -> ereq -> P Z)) := [
  ("8139cp", realtek_dump_regs); ("8139too", realtek_dump_regs); ("r8169", realtek_dump_regs);
  ("de2104x", de2104x_dump_regs); ("e1000", e1000_dump_regs); ("e1000e", e1000_dump_regs); ("igb", igb_dump_regs);
  ("ixgb", ixgb_dump_regs); ("ixgbe", ixgbe_dump_regs); ("natsemi", natsemi_dump_regs); ("e100", e100_dump_regs);
  ("amd8111e", amd8111e_dump_regs); ("pcnet32", pcnet32_dump_regs); ("fec_8xx", fec_8xx_dump_regs);
  ("ibm_emac", ibm_emac_dump_regs); ("tg3", tg3_dump_regs); ("skge", skge_dump_regs); ("sky2", sky2_dump_regs);
  ("vioc", vioc_dump_regs); ("smsc911x", smsc911x_dump_regs); ("at76c50x-usb", at76c50x_usb_dump_regs);
  ("sfc", sfc_dump_regs); ("st_mac100", st_mac100_dump_regs); ("st_gmac", st_gmac_dump_regs)].

Definition regs_func (name : string) (info regs : ereq) : P Z :=
  match List.find (fun x => streq (fst x) name) driver_funcs with Some (_, f) => f info regs | None => crash end.
Definition eeprom_func (name : string) (info ee : ereq) : P Z :=
  if streq name "natsemi" then natsemi_dump_eeprom info ee else tg3_dump_eeprom info ee.
End drivers.

(** ** What a decoder needs *)

(** The bytes a decoder reads whatever they are, and the version it asks for. *)
Definition regs_min : list (string * (Z * Z)) := [
  ("8139cp", (256, 0)); ("8139too", (256, 0)); ("r8169", (256, 0)); ("de2104x", (64, 0)); ("e1000", (72, 0x01000000));
  ("e1000e", (72, 0x01000000)); ("igb", (2204, 0x01000000)); ("ixgb", (240, 0x01000000)); ("ixgbe", (4516, 0x01000000));
  ("natsemi", (304, 1)); ("e100", (8, 0x0100000c)); ("amd8111e", (52, 0)); ("pcnet32", (272, 0)); ("fec_8xx", (392, 0));
  ("ibm_emac", (664, 0)); ("skge", (0x2832, 0)); ("sky2", (0x3832, 0)); ("smsc911x", (280, 0)); ("st_mac100", (92, 0));
  ("st_gmac", (308, 0))].

(** A dump the decoder of [name] can show: as long as it says, as long as what is
    read without asking, and, where a decoder takes a count or an index from the
    dump, with that in range. *)
Definition dump_fits (name : string) (regs : ereq) : bool :=
  let data := rq_arr regs in
  let n := Z.of_nat (length data) in
  let word i := le_val (take 4 (drop i data)) in
  ((fld regs "len" <=? n) &&
   (match List.find (fun x => streq (fst x) name) regs_min with Some (_, (k, _)) => k <=? n | None => true end) &&
   (if streq name "ibm_emac" then (word 12%nat <=? 32) && (word 16%nat <=? 32)
    else if streq name "tg3" then fld regs "len" mod 4 =? 0
    else if streq name "at76c50x-usb" then negb (u8 (Z.shiftr (fld regs "version") 24) =? 0) || (u8 (fld regs "version") <? 8)
    else if streq name "sfc" then dump_size (fld regs "version") <=? n
    else true))%bool.

Lemma tg3_fits {D} info regs : fld regs "len" <= Z.of_nat (length (rq_arr regs)) -> fld regs "len" mod 4 = 0 ->
  shows (W := D) (tg3_dump_regs info regs) (fun _ => True).
Proof.
  intros Hl Hm. unfold tg3_dump_regs. pose proof (Z.div_mod (fld regs "len") 4 ltac:(lia)).
  assert ((fld regs "len" + 3) / 4 = fld regs "len" / 4) as ->.
  { rewrite H, Hm. replace (4 * (fld regs "len" / 4) + 0 + 3) with (3 + (fld regs "len" / 4) * 4) by lia.
    rewrite Z.div_add, Z.add_0_r, (Z.mul_comm 4), Z.div_mul by lia. done. }
  regs_all.
Qed.

Lemma at76_fits {D} info regs : negb (u8 (Z.shiftr (fld regs "version") 24) =? 0) = true \/ u8 (fld regs "version") < 8 ->
  shows (W := D) (at76c50x_usb_dump_regs info regs) (fun _ => True).
Proof.
  intros Hv. unfold at76c50x_usb_dump_regs. cbv zeta. destruct (_ =? 0); cbn [negb] in *; [|by apply shows_ret].
  destruct Hv as [|Hv]; [done|]. pose proof (wrapu_range 8 (fld regs "version") ltac:(lia)).
  apply shows_seq; [apply shows_elem; [cbn; unfold u8 in *; lia|done]|]. intros v. regs_all.
Qed.

Lemma fits_min name regs n v : dump_fits name regs = true -> List.find (fun x => streq (fst x) name) regs_min = Some (name, (n, v)) ->
  n <= Z.of_nat (length (rq_arr regs)).
Proof. intros Hf E. unfold dump_fits in Hf. rewrite E in Hf. rewrite !andb_true_iff, !Z.leb_le in Hf. tauto. Qed.

(** ** Every decoder shows a dump that fits *)

#[local] Opaque realtek_dump_regs de2104x_dump_regs e1000_dump_regs igb_dump_regs ixgb_dump_regs ixgbe_dump_regs natsemi_dump_regs
  e100_dump_regs amd8111e_dump_regs pcnet32_dump_regs fec_8xx_dump_regs ibm_emac_dump tg3_dump_regs skge_dump_regs
  sky2_dump_regs vioc_dump_regs smsc911x_dump_regs at76c50x_usb_dump_regs sfc_dump st_mac100_dump_regs st_gmac_dump_regs dump_size.

Lemma regs_func_shows {D} name info regs : name ∈ driver_list -> dump_fits name regs = true ->
  shows (W := D) (regs_func name info regs) (fun _ => True).
Proof.
  intros Hin Hf. pose proof (fits_min name regs) as Hmin. 
  assert (fld regs "len" <= Z.of_nat (length (rq_arr regs))) as Hlen.
  { unfold dump_fits in Hf. rewrite !andb_true_iff, Z.leb_le in Hf. tauto. }
  unfold driver_list in Hin. rewrite list_elem_of_In in Hin. cbn [In] in Hin.
  repeat (destruct Hin as [<-|Hin];
    [cbn [regs_func];
     first [apply realtek_dumps | apply de2104x_dumps | apply e1000_dumps | apply igb_dumps | apply ixgb_dumps | apply ixgbe_dumps
           |apply natsemi_dumps | apply e100_dumps | apply amd8111e_dumps | apply pcnet32_shows; [|done] | apply fec_8xx_dumps
           |apply ibm_emac_shows | apply skge_dumps | apply sky2_dumps | apply smsc911x_dumps | apply st_mac100_dumps | apply st_gmac_dumps
           |by apply vioc_shows | apply tg3_fits; [done|] | apply at76_fits | apply sfc_shows];
     try (eapply Hmin; [exact Hf|reflexivity])|]); try done.
  all: unfold dump_fits in Hf; cbn in Hf; rewrite ?andb_true_iff, ?orb_true_iff, ?Z.leb_le, ?Z.ltb_lt, ?Z.eqb_eq in Hf; try tauto.
Qed.
End EtRegsAll.
