(* ===== verification/EtMainClaims.v ===== *)
(** * ethtool: the properties of the entry point and of memory transfers *)

From stdpp Require Import base list strings gmap numbers.
From Stdlib Require Import ZArith Lia Ascii.
From S2P Require Import Prelude CInt CLib CLibOk RxSpec RxRules RxRulesOk RxInsert RxParse RxParseOk EtCmd EtSet EtSetOk EtLink EtLinkOk EtFeat EtFeatOk EtSfp EtIndir EtRx EtDev EtMain EtClaims CFmt EtRegs EtSfcTab EtSfc EtRegsAll.

Import Et EtS EtL EtF EtI EtR EtDv EtM.

(** ** The table of options *)

(** No two entries share an alternative. *)
Lemma alternatives_distinct : NoDup (args_table ≫= alternatives).
Proof. by apply (bool_decide_unpack _); vm_compute. Qed.

Lemma find_option_ok a o : o ∈ args_table -> a ∈ alternatives o -> find_option a = Some o.
Proof.
  unfold find_option. pose proof alternatives_distinct as Hn. revert Hn. induction args_table as [|o' l IH]; intros Hn Ho Ha.
  { by apply not_elem_of_nil in Ho. }
  cbn [List.find]. rewrite bind_cons in Hn. apply list.NoDup_app in Hn as (_ & Hd & Hn).
  destruct (existsb (streq a) (alternatives o')) eqn:E.
  - f_equal. apply elem_of_cons in Ho as [->|Ho]; [done|]. exfalso.
    apply existsb_exists in E as (x & Hx & Hax). apply String.eqb_eq in Hax as <-. apply list_elem_of_In in Hx.
    apply (Hd a Hx). apply list_elem_of_bind. by exists o.
  - apply elem_of_cons in Ho as [->|Ho]; [|by apply IH]. exfalso. apply not_true_iff_false in E. apply E.
    apply existsb_exists. exists a. split; [by apply list_elem_of_In|]. by apply String.eqb_refl.
Qed.

Lemma find_option_none a : (forall o, o ∈ args_table -> a ∉ alternatives o) -> find_option a = None.
Proof.
  unfold find_option. intros H. destruct (List.find _ args_table) as [o|] eqn:E; [|done]. exfalso.
  apply find_some in E as [Ho E]. apply existsb_exists in E as (x & Hx & Hax). apply String.eqb_eq in Hax as <-.
  apply (H o); by apply list_elem_of_In.
Qed.

Section main.
Context `{DM : DataModel} {D : Type} `{RD : RxDevice D} `{ED : EtDevice D} `{EF : EtFiles D} (env : et_env).
Context (regs_func eeprom_func : string -> ereq -> ereq -> M D Z) (files : string -> Z + list Z) (stdin : list Z)
  (sysfs : string -> option string) (PACKAGE VERSION : string).
Abbreviation ethtool := (main env regs_func eeprom_func files stdin sysfs PACKAGE VERSION None).
Abbreviation command := (run_cmd env regs_func eeprom_func files stdin sysfs PACKAGE VERSION).

(** C40: dispatch: an option in any of its spellings runs the command of its entry
    in the table, on the device that follows when the entry wants one; a name
    that is no option and does not start with a dash shows the settings of that
    device; everything else (no argument, an unknown option, a missing device
    name or one of 16 characters or more) ends the program with 1 and the device
    untouched. *)
Theorem main_dispatch (s : st D) (args : list string) :
  match args with
  | [] => wp (ethtool args) s (fun r s' => r = Exit 1 /\ dev s' = dev s)
  | a :: rest =>
      (forall o, o ∈ args_table -> a ∈ alternatives o ->
         if want_device o then
           match rest with
           | dn :: more => if 16 <=? strlen dn then wp (ethtool args) s (fun r s' => r = Exit 1 /\ dev s' = dev s)
                           else ethtool args s = command (func o) dn more s
           | [] => wp (ethtool args) s (fun r s' => r = Exit 1 /\ dev s' = dev s)
           end
         else ethtool args s = command (func o) "" rest s) /\
      ((forall o, o ∈ args_table -> a ∉ alternatives o) ->
         if ((char_at0 a =? 45) || (16 <=? strlen a))%bool then wp (ethtool args) s (fun r s' => r = Exit 1 /\ dev s' = dev s)
         else ethtool args s = do_gset env a rest s)
  end.
Proof.
  destruct args as [|a rest]; [done|]. split.
  - intros o Ho Ha. unfold main. rewrite (find_option_ok a o Ho Ha). destruct (want_device o); [|done].
    destruct rest as [|dn more]; [done|]. unfold with_device, IFNAMSIZ. by destruct (16 <=? strlen dn).
  - intros Hno. unfold main. rewrite (find_option_none a Hno). destruct (char_at0 a =? 45); cbn [orb]; [done|].
    unfold with_device, IFNAMSIZ. by destruct (16 <=? strlen a).
Qed.
End main.

(** ** Writing the EEPROM *)

Section seeprom.
Context {D : Type} `{ED : EtDevice D} (env : et_env) (stdin : list Z).

Lemma get_uint_dec n max (s : st D) : 0 <= n <= max -> max < 2 ^ 64 -> get_uint_range (Some (dec n)) 0 max s = (Ret n, s).
Proof.
  intros Hn Hw. unfold get_uint_range, strtoull. rewrite strtou_dec by lia. cbn [serange send sv char_at0 truth orb].
  change (truth 0) with false. cbn [orb]. by rewrite (proj2 (Z.ltb_ge max n)) by lia.
Qed.

Lemma window_one size offset : 0 <= size < 2 ^ 32 -> 0 <= offset < 2 ^ 32 - 1 ->
  window size offset 1 = if offset <? size then 1 else u32 (size - offset).
Proof.
  intros Hs Ho. unfold window. change (1 =? 0xffffffff) with false. cbv iota. rewrite (wrapu_small 32) by lia.
  destruct (Z.ltb_spec size (offset + 1)), (Z.ltb_spec offset size); lia || done.
Qed.

(** Writing one byte to the EEPROM: inside the memory the driver receives
    exactly the byte, at the offset and with the magic number given; at the end
    of the memory the program writes the byte behind its own buffer instead of
    refusing; and behind the end it sends a request whose length has wrapped
    around. *)
Theorem seeprom_one_byte (size magic offset v : Z) (s : st D) :
  (forall q d, rq_cmd q = ETHTOOL_GDRVINFO -> exists en r, et_ioctl q d = (0, en, r, d) /\ EtF.fld r "eedump_len" = size) ->
  (forall n, ee_malloc env n = true) ->
  0 <= size < 2 ^ 32 -> 0 <= magic < 2 ^ 32 -> 0 <= offset < 2 ^ 32 - 1 -> 0 <= v < 256 ->
  wp (do_seeprom env stdin ["magic"; dec magic; "offset"; dec offset; "value"; dec v]) s (fun r s' =>
    if offset =? size then r = Crash /\ dev s' = dev s
    else
      let len := if offset <? size then 1 else size - offset + 2 ^ 32 in
      let '(err, _, _, d') :=
        et_ioctl (eeprom_req ETHTOOL_SEEPROM magic offset len (v :: replicate (Z.to_nat (len - 1)) 0)) (dev s) in
      dev s' = d' /\ r = Ret (if err <? 0 then 87 else err)).
Proof.
  intros Hdrv Hm Hsize Hmagic Hoff Hv. unfold do_seeprom.
  set (m0 := wr ∅ "seeprom_length" 0xffffffff).
  assert (parse_generic_cmdline cmdline_seeprom ["magic"; dec magic; "offset"; dec offset; "value"; dec v] 0 m0 s =
    (Ret (1, wr (wr (wr (wr m0 "seeprom_magic" magic) "seeprom_offset" offset) "seeprom_value_seen" 1) "seeprom_value" v), s)) as Ep.
  { cbn [parse_generic_cmdline]. cbn -[dec get_uint_range wr]. unfold mbind, M_bind, set_wanted. cbn [ci_type wanted_val].
    rewrite get_uint_dec by lia. cbn -[dec get_uint_range wr]. rewrite get_uint_dec by lia. cbn -[dec get_uint_range wr].
    rewrite get_uint_dec by lia. done. }
  apply wp_bind. unfold wp at 1. rewrite Ep. cbn [fst snd]. clear Ep. set (m := wr _ "seeprom_value" v).
  assert (rd m "seeprom_value_seen" = 1 /\ rd m "seeprom_offset" = offset /\ rd m "seeprom_magic" = magic /\ rd m "seeprom_value" = v)
    as (-> & -> & -> & ->) by (unfold m; split; [|split; [|split]]; reads_of; done).
  change (truth 1) with true. apply wp_bind, wp_send_ioctl.
  destruct (Hdrv (mk_ereq ETHTOOL_GDRVINFO ∅ []) (dev s) eq_refl) as (en & r & -> & Er). rewrite Er.
  change (0 <? 0) with false. cbv iota. rewrite Hm. cbn [negb].
  rewrite (window_one size offset) by lia. destruct (Z.eqb_spec offset size) as [->|Hne].
  { rewrite (proj2 (Z.ltb_ge size size)) by lia. replace (size - size) with 0 by lia. done. }
  set (len := if offset <? size then 1 else u32 (size - offset)).
  assert (len = if offset <? size then 1 else size - offset + 2 ^ 32) as El.
  { unfold len. destruct (Z.ltb_spec offset size); [done|]. unfold u32, wrapu. rewrite <- (Z.mod_add _ 1) by lia. apply Z.mod_small. lia. }
  rewrite <- El. rewrite (proj2 (Z.eqb_neq len 0)) by (rewrite El; destruct (Z.ltb_spec offset size); lia).
  apply wp_bind, wp_send_ioctl. cbn [dev]. destruct (et_ioctl _ (dev s)) as [[[err en'] q'] d'] eqn:E.
  destruct (err <? 0) eqn:Ee; [apply wp_bind, wp_eprintf, wp_ret|apply wp_ret]; done.
Qed.
End seeprom.

Definition eeprom_card (q : ereq) (d : list Z) : Z * Z * ereq * list Z :=
  if rq_cmd q =? ETHTOOL_SEEPROM then (0, 0, q, rq_arr q) else (0, 0, mk_ereq (rq_cmd q) {["eedump_len" := 64]} [], d).

Lemma seeprom_one_byte_witness :
  wp (@do_seeprom _ eeprom_card demo_et_env [] ["magic"; dec 7; "offset"; dec 64; "value"; dec 9]) (mkst [] []) (fun r _ => r = Crash) /\
  wp (@do_seeprom _ eeprom_card demo_et_env [] ["magic"; dec 7; "offset"; dec 63; "value"; dec 9]) (mkst [] [])
    (fun r s' => r = Ret 0 /\ dev s' = [9]).
Proof.
  split; (eapply wp_mono; [apply (@seeprom_one_byte _ eeprom_card demo_et_env [] 64 7)|]); try lia; try done;
    try (intros q d Hq; exists 0; eexists; unfold et_ioctl, eeprom_card; rewrite Hq; split; reflexivity).
  - intros r s' [-> _]. done.
  - intros r [o w] H. vm_compute in H. destruct H as [-> ->]. done.
Defined.

(** * ethtool: the properties of the register dumps *)

Import Et EtS EtL EtF EtDv EtSfcTab EtSfc EtRegsAll.

(** ** The fields of the sfc driver *)

(** C29: a field of an sfc register reads back: printing it writes as many
    hexadecimal digits as its width needs and nothing else, and reading these
    digits as a number gives the bits of the register from the field's lowest
    bit on, for every width and position, on byte boundaries or across them. *)
Theorem sfc_field_roundtrip {D} (data : list Z) (f : efx_nic_reg_field) (buf : Z) (s : st D) :
  Forall is_byte data -> 1 <= width f -> 0 <= lbn f -> 0 <= buf ->
  8 * buf + lbn f + width f <= 8 * Z.of_nat (length data) ->
  exists l, print_field_value data f buf s = (Ret tt, mkst (l ++ out s) (dev s)) /\
    strlen (shown l) = value_width f /\
    scan_digits 16 (shown l) 0 false =
      (Z.shiftr (le_val (drop (Z.to_nat buf) data)) (lbn f) mod 2 ^ width f, true, EmptyString).
Proof.
  intros Hdata Hw Hl Hb Hlen. destruct (print_field_writes (D := D) data Hdata f buf Hw Hl Hb Hlen s) as (l & E & El).
  exists l. split; [done|]. rewrite El, strlen_hex_digits.
  assert (value_width f = (width f + 3) / 4) as Ev by (unfold value_width; by rewrite Z.shiftr_div_pow2 by lia).
  pose proof (Z.div_mod (width f + 3) 4 ltac:(lia)). pose proof (Z.mod_pos_bound (width f + 3) 4 ltac:(lia)).
  split; [lia|].
  assert (0 <= field_value data f buf < 2 ^ width f) as Hv.
  { unfold field_value. apply Z.mod_pos_bound. apply Z.pow_pos_nonneg; lia. }
  assert (2 ^ width f <= 2 ^ (4 * value_width f)) as Hp by (apply Z.pow_le_mono_r; lia).
  rewrite scan_hex_digits by lia. rewrite decide_False by lia. rewrite Z2Nat.id by lia.
  change 16 with (2 ^ 4). rewrite <- Z.pow_mul_r by lia. rewrite Z.mod_small by lia. done.
Qed.

Lemma sfc_field_roundtrip_witness : exists l,
  print_field_value [0x80; 0x5a; 0x01] (mk_field "F" 7 10 1 3) 0 (mkst [] ()) = (Ret tt, mkst l ()) /\
  scan_digits 16 (shown l) 0 false = (0x2b5, true, EmptyString).
Proof.
  destruct (sfc_field_roundtrip [0x80; 0x5a; 0x01] (mk_field "F" 7 10 1 3) 0 (mkst [] ())) as (l & E & _ & Es).
  - repeat constructor; unfold is_byte; lia.
  - cbn. lia.
  - cbn. lia.
  - lia.
  - cbn. lia.
  - exists l. rewrite app_nil_r in E. split; [exact E|]. rewrite Es. reflexivity.
Defined.

(** Registers whose fields of one revision share bits: a diagnostic counter that
    lies over the others, and a register of one word that also has a view as
    separate parts. *)
Definition overlapping : list string := ["MEM_STAT"; "CSR_SPARE"].

(** The position and width of a field fit the bit fields that hold them. *)
Definition macro_fits (m : regs_macro) : bool :=
  match m with FRF _ _ l w => ((0 <=? l) && (l <? 2 ^ 7) && (1 <=? w) && (w <? 2 ^ 8))%bool | FR _ _ => true end.

(** C36: the tables of the sfc driver are well typed: the bit fields of the
    structures cut no position or width of a field; every register and table
    names fields that exist and has its number of fields; the revisions are in order; every field lies inside its register of 128 bits or
    its row; and in each of the three revisions the fields of a register, or of
    a row, share no bit, except those of two registers where the driver shows two
    views of the same bits. *)
Theorem sfc_tables_typed :
  forallb macro_fits regs_h = true /\
  forallb reg_ok efx_nic_regs = true /\ forallb table_ok efx_nic_reg_tables = true /\
  (forall revision r, 1 <= revision <= 3 -> In r efx_nic_regs -> ~ In (r_name r) overlapping ->
     no_overlap (fields_of revision (r_fields r)) = true) /\
  (forall revision t, 1 <= revision <= 3 -> In t efx_nic_reg_tables -> no_overlap (fields_of revision (t_fields t)) = true).
Proof.
  assert (forallb (fun revision => forallb (fun r => existsb (streq (r_name r)) overlapping || no_overlap (fields_of revision (r_fields r)))%bool
    efx_nic_regs && forallb (fun t => no_overlap (fields_of revision (t_fields t))) efx_nic_reg_tables)%bool [1; 2; 3] = true) as H
    by (vm_compute; reflexivity).
  rewrite forallb_forall in H.
  assert (forall revision, 1 <= revision <= 3 -> In revision [1; 2; 3]) as Hrev by (intros; cbn; lia).
  split; [vm_compute; reflexivity|]. split; [exact regs_ok|]. split; [exact sfc_tables_ok|]. split; intros revision x Hr Hin.
  - intros Hno. specialize (H _ (Hrev _ Hr)). apply andb_true_iff in H as [H _]. rewrite forallb_forall in H.
    specialize (H x Hin). apply orb_true_iff in H as [H|H]; [|done]. destruct Hno.
    apply existsb_exists in H as (n & Hn & E). apply String.eqb_eq in E as <-. done.
  - specialize (H _ (Hrev _ Hr)). apply andb_true_iff in H as [_ H]. rewrite forallb_forall in H. by apply H.
Qed.

(** ** Register dumps *)

Section gregs.
Context {D : Type} `{ED : EtDevice D} (env : et_env) (files : string -> Z + list Z).






(** The requests of the command. *)
Definition drv_req : ereq := mk_ereq ETHTOOL_GDRVINFO ∅ [].

End gregs.



(** Decoders whose last registers depend on what the dump holds. *)
Definition varying : list string := ["e100"; "ibm_emac"; "sky2"].

(** The decoders of the table do not look at how many registers they were
    given: each shows a dump of
    zeros of the size and version in the table, and, unless its last registers
    depend on the others, reads behind the end of the block when it is one byte
    shorter, although the length it is told is the true one. *)
Theorem regs_min_needed (name : string) (n version : Z) (info : ereq) :
  (name, (n, version)) ∈ regs_min ->
  let zeros k := mk_ereq ETHTOOL_GREGS (list_to_map [("version", version); ("len", k)]) (replicate (Z.to_nat k) 0) in
  fst (regs_func name info (zeros n) (mkst [] ())) = Ret 0 /\
  (name ∉ varying -> fst (regs_func name info (zeros (n - 1)) (mkst [] ())) = Crash).
Proof.
  intros Hin. cbv zeta. rewrite list_elem_of_In in Hin. unfold regs_min in Hin. cbn [In] in Hin.
  repeat (destruct Hin as [Hin|Hin]; [injection Hin as <- <- <-; split;
    [vm_compute; reflexivity|intros Hv; first [vm_compute; reflexivity|destruct Hv; by apply (bool_decide_unpack _); vm_compute]]|]).
  done.
Qed.

Lemma regs_min_needed_witness :
  ("natsemi", (304, 1)) ∈ regs_min /\
  fst (regs_func "natsemi" drv_req (mk_ereq ETHTOOL_GREGS (list_to_map [("version", 1); ("len", 303)]) (replicate 303 0)) (mkst [] ())) = Crash.
Proof.
  split; [by apply (bool_decide_unpack _); vm_compute|].
  destruct (regs_min_needed "natsemi" 304 1 drv_req) as [_ H]; [by apply (bool_decide_unpack _); vm_compute|].
  apply H. by apply (bool_decide_unpack _); vm_compute.
Defined.
