(* ===== verification/Vlan.v ===== *)
(** * The VLAN tools ([ethernet_test/vlan])

    vconfig.c ([Vconfig]) hands one request to the 8021q module of the kernel,
    macvlan_config.c ([Macvlan]) has subcommands around the macvlan module. The
    kernel side is a class each; the numbers of requests are not part of the
    source, so the requests are constructors. *)

From stdpp Require Import base list strings numbers.
From Stdlib Require Import ZArith Lia Ascii.
From S2P Require Import Prelude CInt CLib CFmt.

Module Vconfig.

Inductive vlan_cmd : Type :=
| ADD_VLAN_CMD | DEL_VLAN_CMD | SET_VLAN_INGRESS_PRIORITY_CMD | SET_VLAN_EGRESS_PRIORITY_CMD
| SET_VLAN_NAME_TYPE_CMD | SET_VLAN_FLAG_CMD.
Inductive vlan_name_type : Type :=
| VLAN_NAME_TYPE_PLUS_VID | VLAN_NAME_TYPE_RAW_PLUS_VID
| VLAN_NAME_TYPE_PLUS_VID_NO_PAD | VLAN_NAME_TYPE_RAW_PLUS_VID_NO_PAD.

#[export] Instance vlan_cmd_eq_dec : EqDecision vlan_cmd.
Proof. solve_decision. Defined.

(** [struct vlan_ioctl_args]; [u] is the word shared by [VID], [skb_priority],
    [name_type] and [flag]. *)
Record vlan_ioctl_args := mk_args { a_cmd : vlan_cmd; device1 : string; u : Z; vlan_qos : Z }.

(** The kernel: [errno], or nothing when the request is carried out. *)
Class VlanKernel (D : Type) : Type := vlan_ioctl : vlan_ioctl_args -> D -> option Z * D.
Record vlan_env := {
  ve_name_type : vlan_name_type -> Z;
  ve_config : bool;
  ve_socket : bool;
  ve_strerror : Z -> string
}.

Section vconfig.
Context {D : Type} `{VK : VlanKernel D} `{DM : DataModel} (env : vlan_env).
Abbreviation P := (M D).

Definition ioctl (r : vlan_ioctl_args) : P (option Z) := devop (vlan_ioctl r).

Definition usage : string := lit
  ("\nUsage: add             [interface-name] [vlan_id]\n" +:+
   "       rem             [vlan-name]\n" +:+
   "       set_flag        [interface-name] [flag-num]       [0 | 1]\n" +:+
   "       set_egress_map  [vlan-name]      [skb_priority]   [vlan_qos]\n" +:+
   "       set_ingress_map [vlan-name]      [skb_priority]   [vlan_qos]\n" +:+
   "       set_name_type   [name-type]\n\n" +:+
   "* The [interface-name] is the name of the ethernet card that hosts\n" +:+
   "  the VLAN you are talking about.\n" +:+
   "* The vlan_id is the identifier (0-4095) of the VLAN you are operating on.\n" +:+
   "* skb_priority is the priority in the socket buffer (sk_buff).\n" +:+
   "* vlan_qos is the 3 bit priority in the VLAN header\n" +:+
   "* name-type:  VLAN_PLUS_VID (vlan0005), VLAN_PLUS_VID_NO_PAD (vlan5),\n" +:+
   "              DEV_PLUS_VID (eth0.0005), DEV_PLUS_VID_NO_PAD (eth0.5)\n" +:+
   "* bind-type:  PER_DEVICE  # Allows vlan 5 on eth0 and eth1 to be unique.\n" +:+
   "              PER_KERNEL  # Forces vlan 5 to be unique across all devices.\n" +:+
   "* FLAGS:  1 REORDER_HDR  When this is set, the VLAN device will move the\n" +:+
   "            ethernet header around to make it look exactly like a real\n" +:+
   "            ethernet device.  This may help programs such as DHCPd which\n" +:+
   "            read the raw ethernet packet and make assumptions about the\n" +:+
   "            location of bytes.  If you don't need it, don't turn it on, because\n" +:+
   "            there will be at least a small performance degradation.  Default\n" +:+
   "            is OFF.\n").
Definition show_usage : P unit := printf usage.

(** The bytes written to the buffer, whose length is not looked at; not called. *)
Fixpoint hex_to_bytes (hex_str : string) : list Z :=
  match hex_str with
  | String a (String b r) => u8 (sv (strtoul 16 (String a (String b EmptyString)))) :: hex_to_bytes r
  | _ => []
  end.

Definition name_type (s : string) : option vlan_name_type :=
  if strcasecmp s "VLAN_PLUS_VID" then Some VLAN_NAME_TYPE_PLUS_VID
  else if strcasecmp s "VLAN_PLUS_VID_NO_PAD" then Some VLAN_NAME_TYPE_PLUS_VID_NO_PAD
  else if strcasecmp s "DEV_PLUS_VID" then Some VLAN_NAME_TYPE_RAW_PLUS_VID
  else if strcasecmp s "DEV_PLUS_VID_NO_PAD" then Some VLAN_NAME_TYPE_RAW_PLUS_VID_NO_PAD
  else None.

(** The request made from the arguments, before [cmd] is set, and [vid]. *)
Definition prepare (args : list string) : P (vlan_ioctl_args * Z) :=
  let argc := 1 + Z.of_nat (length args) in
  let argv i := nth i args EmptyString in
  r ← (if strcasecmp (argv 0%nat) "set_name_type" then
         match name_type (argv 1%nat) with
         | Some t => mret (mk_args ADD_VLAN_CMD "" (ve_name_type env t) 0)
         | None => eprintf ("Invalid name type." +:+ nl);; show_usage;; exit 1
         end
       else if 15 <? strlen (argv 1%nat) then eprintf ("ERROR:  if_name must be 15 characters or less." +:+ nl);; exit 1
       else mret (mk_args ADD_VLAN_CMD (argv 1%nat) 0 0));
  let vid := if argc =? 4 then u32 (atoi (argv 2%nat)) else 0 in
  let r := if argc =? 4 then mk_args (a_cmd r) (device1 r) vid (vlan_qos r) else r in
  let r := if argc =? 5 then mk_args (a_cmd r) (device1 r) (u32 (atoi (argv 2%nat))) (u16 (atoi (argv 3%nat))) else r in
  mret (r, vid).

(** The request with its command; [ok] on success, [err] and exit code [code]
    when the kernel refuses. *)
Definition ask (r : vlan_ioctl_args) (cmd : vlan_cmd) (err : string -> P unit) (code : Z) (ok : P unit) : P Z :=
  e ← ioctl (mk_args cmd (device1 r) (u r) (vlan_qos r));
  match e with
  | Some en => err (ve_strerror env en);; exit code
  | None => ok;; mret 0
  end.
Definition run_cmd (cmd if_name : string) (vid : Z) (r : vlan_ioctl_args) : P Z :=
  if strcasecmp cmd "add" then
    ask r ADD_VLAN_CMD (fun e => efprintf "ERROR: trying to add VLAN #%u to IF -:%s:-  error: %s\n" [PI vid; PS if_name; PS e]) 3
      (fprintf "Added VLAN with VID == %u to IF -:%s:-\n" [PI vid; PS if_name];;
       when (vid =? 1)
         (fprintf "WARNING:  VLAN 1 does not work with many switches,\nconsider another number if you have problems.\n" []))
  else if strcasecmp cmd "rem" then
    ask r DEL_VLAN_CMD (fun e => efprintf "ERROR: trying to remove VLAN -:%s:- error: %s\n" [PS if_name; PS e]) 4
      (fprintf "Removed VLAN -:%s:-\n" [PS if_name])
  else if strcasecmp cmd "set_egress_map" then
    ask r SET_VLAN_EGRESS_PRIORITY_CMD
      (fun e => efprintf "ERROR: trying to set egress map on device -:%s:- error: %s\n" [PS if_name; PS e]) 5
      (fprintf "Set egress mapping on device -:%s:- Should be visible in /proc/net/vlan/%s\n" [PS if_name; PS if_name])
  else if strcasecmp cmd "set_ingress_map" then
    ask r SET_VLAN_INGRESS_PRIORITY_CMD
      (fun e => efprintf "ERROR: trying to set ingress map on device -:%s:- error: %s\n" [PS if_name; PS e]) 6
      (fprintf "Set ingress mapping on device -:%s:- Should be visible in /proc/net/vlan/%s\n" [PS if_name; PS if_name])
  else if strcasecmp cmd "set_flag" then
    ask r SET_VLAN_FLAG_CMD
      (fun e => efprintf "ERROR: trying to set flag on device -:%s:- error: %s\n" [PS if_name; PS e]) 7
      (fprintf "Set flag on device -:%s:- Should be visible in /proc/net/vlan/%s\n" [PS if_name; PS if_name])
  else if strcasecmp cmd "set_name_type" then
    ask r SET_VLAN_NAME_TYPE_CMD
      (fun e => efprintf "ERROR: trying to set name type for VLAN subsystem, error: %s\n" [PS e]) 8
      (fprintf "Set name-type for VLAN subsystem. Should be visible in /proc/net/vlan/config\n" [])
  else efprintf "Unknown command -:%s:-\n" [PS cmd];; show_usage;; exit 5.

(** The arguments behind the name of the program. *)
Definition main (args : list string) : P Z :=
  let argc := 1 + Z.of_nat (length args) in
  if ((argc <? 3) || (5 <? argc))%bool then
    fprintf "Expecting argc to be 3-5, inclusive.  Was: %d\n" [PI argc];; show_usage;; exit 1
  else
    x ← prepare args;
    let '(r, vid) := x in
    when (negb (ve_config env))
      (eprintf (lit "WARNING:  Could not open /proc/net/vlan/config.  Maybe you need to load the 8021q module, or maybe you are not using PROCFS??\n"));;
    if negb (ve_socket env) then eprintf (lit "FATAL:  Couldn't open a socket..go figure!\n");; exit 2
    else run_cmd (nth 0 args EmptyString) (nth 1 args EmptyString) vid r.
End vconfig.
End Vconfig.

Module Macvlan.

Inductive macvlan_cmd : Type :=
| MACVLAN_ENABLE | MACVLAN_DISABLE | MACVLAN_ADD | MACVLAN_DEL | MACVLAN_BIND | MACVLAN_UNBIND
| MACVLAN_GET_NUM_PORTS | MACVLAN_GET_PORT_NAME | MACVLAN_SET_PORT_FLAGS | MACVLAN_GET_PORT_FLAGS
| MACVLAN_GET_NUM_VLANS | MACVLAN_GET_VLAN_NAME | MACVLAN_GET_NUM_MACS | MACVLAN_GET_MAC_NAME.

#[export] Instance macvlan_cmd_eq_dec : EqDecision macvlan_cmd.
Proof. solve_decision. Defined.

(** [struct macvlan_ioctl] and [struct macvlan_ioctl_reply]. *)
Record macvlan_ioctl := mk_req {
  cmd : macvlan_cmd; ifname : string; portidx : Z; ifidx : Z; macaddridx : Z; macaddr : list Z }.
Record macvlan_ioctl_reply := mk_rep { num : Z; name : list Z }.

Definition set_cmd (c : macvlan_cmd) (q : macvlan_ioctl) : macvlan_ioctl :=
  mk_req c (ifname q) (portidx q) (ifidx q) (macaddridx q) (macaddr q).
Definition set_ifname (x : string) (q : macvlan_ioctl) : macvlan_ioctl :=
  mk_req (cmd q) x (portidx q) (ifidx q) (macaddridx q) (macaddr q).
Definition set_portidx (x : Z) (q : macvlan_ioctl) : macvlan_ioctl :=
  mk_req (cmd q) (ifname q) x (ifidx q) (macaddridx q) (macaddr q).
Definition set_ifidx (x : Z) (q : macvlan_ioctl) : macvlan_ioctl :=
  mk_req (cmd q) (ifname q) (portidx q) x (macaddridx q) (macaddr q).
Definition set_macaddridx (x : Z) (q : macvlan_ioctl) : macvlan_ioctl :=
  mk_req (cmd q) (ifname q) (portidx q) (ifidx q) x (macaddr q).
Definition set_macaddr (x : list Z) (q : macvlan_ioctl) : macvlan_ioctl :=
  mk_req (cmd q) (ifname q) (portidx q) (ifidx q) (macaddridx q) x.

(** The kernel: [errno] or nothing, and the reply as it is afterwards. [down] is
    the effect of [ifconfig NAME down]. *)
Class MacvlanKernel (D : Type) : Type := {
  mv_ioctl : macvlan_ioctl -> macvlan_ioctl_reply -> D -> option Z * macvlan_ioctl_reply * D;
  mv_down : string -> D -> D
}.
(** What is not initialised ([req], [rep], [err] of [main]), and the socket. *)
Record mv_env := {
  me_req : macvlan_ioctl;
  me_rep : macvlan_ioctl_reply;
  me_err : Z;
  me_socket : option Z;
  me_strerror : Z -> string
}.
Definition EEXIST : Z := 17.

Section macvlan.
Context {D : Type} `{MK : MacvlanKernel D} `{DM : DataModel} (env : mv_env).
Abbreviation P := (M D).

Definition perror (s : string) (en : Z) : P unit := eprintf (s +:+ ": " +:+ me_strerror env en +:+ nl).
Definition ioctl (q : macvlan_ioctl) (r : macvlan_ioctl_reply) : P (option Z * macvlan_ioctl_reply) :=
  devop (fun d => let '(e, r', d') := mv_ioctl q r d in ((e, r'), d')).
(** A request without a reply. *)
Definition ioctl_ (q : macvlan_ioctl) : P (option Z) := x ← ioctl q (me_rep env); mret (fst x).

(** The text in an array of characters; without an end it is read behind the
    array. *)
Fixpoint c_str (l : list Z) : P string :=
  match l with
  | [] => crash
  | b :: l' => if b =? 0 then mret EmptyString else s ← c_str l'; mret (String (chr b) s)
  end.
(** [strcpy] into an array of [n] characters. *)
Definition strcpy (n : Z) (l : list Z) : P string := s ← c_str l; if n <=? strlen s then crash else mret s.

Definition parseInt (s : string) : Z := s32 (sv (strtos long_bits 0 s)).

(** [socket], or the message and 1. *)
Definition with_socket (k : P Z) : P Z :=
  match me_socket env with Some en => perror "socket" en;; mret 1 | None => k end.

(** The arguments of a subcommand, its own name first. *)
Definition argv (args : list string) (i : nat) : string := nth i args EmptyString.
Definition argc (args : list string) : Z := Z.of_nat (length args).

Definition do_enable (args : list string) : P Z :=
  if argc args <? 2 then fprintf "usage: %s <ifname>\n" [PS (argv args 0)];; mret 1
  else with_socket (
    e ← ioctl_ (set_ifname (argv args 1) (set_cmd MACVLAN_ENABLE (me_req env)));
    match e with
    | None => mret 0
    | Some en =>
        if negb (en =? EEXIST) then
          perror "ioctl (SIOCGIFMACVLAN, MACVLAN_ENABLE)" en;; fprintf "errno: %i\n" [PI en];; mret 1
        else mret 0
    end).

Definition do_setflags (args : list string) : P Z :=
  if argc args <? 3 then fprintf "usage: %s <ifname> <flags>\n" [PS (argv args 0)];; mret 1
  else with_socket (
    e ← ioctl_ (set_ifidx (parseInt (argv args 2)) (set_ifname (argv args 1) (set_cmd MACVLAN_SET_PORT_FLAGS (me_req env))));
    match e with Some en => perror "ioctl (SIOCGIFMACVLAN, SET_PORT_FLAGS)" en;; mret 1 | None => mret 0 end).

Definition _do_disable (port : string) : P Z :=
  e ← ioctl_ (set_ifname port (set_cmd MACVLAN_DISABLE (me_req env)));
  match e with
  | Some en => perror "disable-port" en;; mret (-1)
  | None => fprintf "Disabled port: %s\n" [PS port];; mret 0
  end.
Definition do_disable (args : list string) : P Z :=
  if argc args <? 2 then fprintf "usage: %s <ifname>\n" [PS (argv args 0)];; mret 1
  else with_socket (_do_disable (argv args 1)).

Definition do_add (args : list string) : P Z :=
  if argc args <? 3 then fprintf "usage: %s <ifname> <index>\n" [PS (argv args 0)];; mret 1
  else with_socket (
    e ← ioctl_ (set_ifidx (parseInt (argv args 2)) (set_ifname (argv args 1) (set_cmd MACVLAN_ADD (me_req env))));
    match e with Some en => perror "ioctl (SIOCGIFMACVLAN, MACVLAN_ADD)" en;; mret 1 | None => mret 0 end).

Definition _do_del (ifn : string) : P Z :=
  e ← ioctl_ (set_ifname ifn (set_cmd MACVLAN_DEL (me_req env)));
  match e with
  | Some en => fprintf "failed to delete interface: %s\n" [PS ifn];; perror "ioctl (SIOCGIFMACVLAN, MACVLAN_DEL)" en;; mret (-1)
  | None => fprintf "Deleted interface: %s\n" [PS ifn];; mret 0
  end.
Definition do_del (args : list string) : P Z :=
  if argc args <? 2 then fprintf "usage: %s <ifname>\n" [PS (argv args 0)];; mret 1
  else with_socket (_do_del (argv args 1)).

Definition get_num_ports : P Z :=
  x ← ioctl (set_cmd MACVLAN_GET_NUM_PORTS (me_req env)) (me_rep env);
  match fst x with
  | Some en => perror "ioctl (SIOCGIFMACVLAN, GET_NUM_PORTS)" en;; mret (-1)
  | None => fprintf "Found: %i ports\n" [PI (num (snd x))];; mret (num (snd x))
  end.
Definition get_num_vlans (port : Z) : P Z :=
  x ← ioctl (set_portidx port (set_cmd MACVLAN_GET_NUM_VLANS (me_req env))) (me_rep env);
  match fst x with
  | Some en => perror "ioctl (GET_NUM_VLANS)" en;; mret (-1)
  | None => fprintf "Found: %i vlans for port: %i\n" [PI (num (snd x)); PI port];; mret (num (snd x))
  end.

(** Anything that is no hexadecimal digit counts as 0. *)
Definition hex_nibble (ch : ascii) : Z := match digit_in 16 ch with Some d => d | None => 0 end.
Fixpoint htoi_from (s : string) (i : Z) : Z :=
  match s with
  | EmptyString => i
  | String ch s' => htoi_from s' (s32 (s32 (Z.shiftl i 4) + hex_nibble ch))
  end.
Definition htoi (s : string) : Z := htoi_from s 0.

(** The six pieces of the address, once every third character is overwritten
    with an end of string. *)
Definition mac_bytes (s : string) : list Z := (fun k => u8 (htoi (String.substring (3 * k) 2 s))) <$> seq 0 6.
Definition do_mac (c : macvlan_cmd) (what : string) (args : list string) : P Z :=
  if argc args <? 3 then fprintf "usage: %s <ifname> <macaddr>\n" [PS (argv args 0)];; mret 1
  else with_socket (
    if negb (strlen (argv args 2) =? 17) then printf ("bad macaddr format: need aa:bb:cc:dd:ee:ff" +:+ nl);; mret 1
    else
      e ← ioctl_ (set_macaddr (mac_bytes (argv args 2)) (set_ifname (argv args 1) (set_cmd c (me_req env))));
      match e with Some en => perror what en;; mret 1 | None => mret 0 end).
Definition do_bind : list string -> P Z := do_mac MACVLAN_BIND "ioctl (MACVLAN_BIND)".
Definition do_unbind : list string -> P Z := do_mac MACVLAN_UNBIND "ioctl (MACVLAN_UNBIND)".

(** A step of [do_info]: a request whose failure ends the command with 1. *)
Definition ask (what : string) (q : macvlan_ioctl) (r : macvlan_ioctl_reply) : P (macvlan_ioctl_reply + Z) :=
  x ← ioctl q r;
  match fst x with
  | Some en => perror ("ioctl (" +:+ what +:+ ")") en;; mret (inr 1)
  | None => mret (inl (snd x))
  end.
Definition then_ {A} (x : P (macvlan_ioctl_reply + Z)) (k : macvlan_ioctl_reply -> P (A + Z)) : P (A + Z) :=
  r ← x; match r with inl rep => k rep | inr v => mret (inr v) end.

(** One MAC address, one VLAN and one device; the request and the reply are
    carried along. *)
Abbreviation info_state := (macvlan_ioctl * macvlan_ioctl_reply)%type.
Definition info_mac (port ifi mac : Z) (acc : info_state) : P (info_state + Z) :=
  let '(q, r) := acc in
  let q := set_macaddridx mac (set_ifidx ifi (set_portidx port (set_cmd MACVLAN_GET_MAC_NAME q))) in
  then_ (ask "GET_MAC_NAME" q r) (fun r =>
    p0 ← ld 1 (name r) 0; p1 ← ld 1 (name r) 1; p2 ← ld 1 (name r) 2;
    p3 ← ld 1 (name r) 3; p4 ← ld 1 (name r) 4; p5 ← ld 1 (name r) 5;
    fprintf " | |-%02x:%02x:%02x:%02x:%02x:%02x\n" [PI p0; PI p1; PI p2; PI p3; PI p4; PI p5];;
    mret (inl (q, r))).
Definition info_vlan (port ifi : Z) (acc : info_state) : P (info_state + Z) :=
  let '(q, r) := acc in
  let q := set_ifidx ifi (set_portidx port (set_cmd MACVLAN_GET_VLAN_NAME q)) in
  then_ (ask "GET_VLAN_NAME" q r) (fun r =>
    n ← c_str (name r);
    fprintf " |-%s\n" [PS n];;
    let q := set_ifidx ifi (set_portidx port (set_cmd MACVLAN_GET_NUM_MACS q)) in
    then_ (ask "GET_NUM_MACS" q r) (fun r =>
      for_acc (Z.to_nat (num r)) 0 (q, r) (info_mac port ifi))).
Definition info_port (port : Z) (acc : info_state) : P (info_state + Z) :=
  let '(q, r) := acc in
  let q := set_portidx port (set_cmd MACVLAN_GET_PORT_NAME q) in
  then_ (ask "GET_PORT_NAME" q r) (fun r =>
    n ← c_str (name r);
    fprintf "-%s\n" [PS n];;
    tmpifname ← strcpy 64 (name r);
    let q := set_ifname tmpifname (set_portidx port (set_cmd MACVLAN_GET_PORT_FLAGS q)) in
    then_ (ask "GET_PORT_FLAGS" q r) (fun r =>
      fprintf "-%s flag: 0x%x\n" [PS tmpifname; PI (num r)];;
      let q := set_portidx port (set_cmd MACVLAN_GET_NUM_VLANS q) in
      then_ (ask "GET_NUM_VLANS" q r) (fun r =>
        for_acc (Z.to_nat (num r)) 0 (q, r) (info_vlan port)))).
Definition do_info (args : list string) : P Z :=
  with_socket (
    let q := set_cmd MACVLAN_GET_NUM_PORTS (me_req env) in
    x ← then_ (ask "GET_NUM_PORTS" q (me_rep env)) (fun r => for_acc (Z.to_nat (num r)) 0 (q, r) info_port);
    match x with inl _ => mret 0 | inr v => mret v end).

(** ** [unload]: the inner loop removes the VLANs of the first device, the outer
    loop the devices. *)

Definition unload_vlan (acc : info_state) : P (info_state + (info_state + Z)) :=
  let '(q, r) := acc in
  n ← get_num_vlans 0;
  if negb (0 <? n) then mret (inr (inl (q, r)))
  else
    let q := set_ifidx 0 (set_portidx 0 (set_cmd MACVLAN_GET_VLAN_NAME q)) in
    x ← ioctl q r;
    match fst x with
    | Some en => perror "ioctl (GET_VLAN_NAME)" en;; mret (inr (inr 1))
    | None =>
        let r := snd x in
        vlan ← c_str (name r);
        fprintf "Configuring down interface: %s with ifconfig..." [PS vlan];;
        when (128 <=? 14 + strlen vlan) crash;;
        setdev (mv_down vlan);;
        _ ← _do_del vlan;
        mret (inl (q, r))
    end.
Definition unload_port (fuel : nat) (acc : info_state) : P (info_state + Z) :=
  let '(q, r) := acc in
  n ← get_num_ports;
  if negb (0 <? n) then mret (inr 0)
  else
    let q := set_portidx 0 (set_cmd MACVLAN_GET_PORT_NAME q) in
    x ← ioctl q r;
    match fst x with
    | Some en => perror "ioctl (GET_PORT_NAME)" en;; mret (inr 1)
    | None =>
        let r := snd x in
        port ← strcpy 64 (name r);
        y ← while_ fuel (q, r) unload_vlan;
        match y with
        | inr v => mret (inr v)
        | inl acc => _ ← _do_disable port; mret (inl acc)
        end
    end.
Definition do_unload (fuel : nat) (args : list string) : P Z :=
  with_socket (while_ fuel (me_req env, me_rep env) (unload_port fuel)).

(** ** Subcommands *)

Record command := mk_command { c_name : string; short_help : string; long_help : string }.
Definition q_ (s : string) : string := dq +:+ s +:+ dq.
Definition command_list : list command := [
  mk_command "help" "help on other commands" "help <command>";
  mk_command "enable" "enables mac based vlans over an ethernet device"
    ("enable <ifname>" +:+ nl +:+ " - enables mac based vlans over " +:+ q_ "ifname" +:+ nl +:+
     " - also creates a default vlan over " +:+ q_ "ifname" +:+ " called " +:+ q_ "ifname#0");
  mk_command "disable" "disables mac based vlans over an ethernet device" "disable <ifname>";
  mk_command "add" "creates new mac based vlan"
    ("add <ifname> <index>" +:+ nl +:+
     " - creates a new mac based vlan called " +:+ q_ "ifname#index" +:+ " layered over " +:+ q_ "ifname" +:+ nl +:+
     " - mac based vlans over " +:+ q_ "ifname" +:+ " must first be enabled with " +:+ q_ "enable" +:+ nl +:+
     " - " +:+ q_ "ifname#index" +:+ " is not mapped to any MAC address until " +:+ q_ "bind" +:+ " is called");
  mk_command "del" "destroys a mac based vlan"
    ("del <ifname>" +:+ nl +:+ " - deletes a mac base vlan called " +:+ q_ "ifname");
  mk_command "bind" "binds macaddr to vlan"
    ("bind  <ifname> <macaddr>" +:+ nl +:+ " - binds macaddr to vlan called " +:+ q_ "ifname");
  mk_command "unbind" "unbinds macaddr from vlan"
    ("unbind <ifname> <macaddr>" +:+ nl +:+ " - unbinds macaddr from vlan called " +:+ q_ "ifname");
  mk_command "unload" "Unconfigure all of the macvlan devices"
    "Unconfigure all of the macvlan devices so module can be unloaded";
  mk_command "setflags" "Set port flags on a port"
    ("setflags <ifname> <new_flags>" +:+ nl +:+ "0x01   Bind to Destination instead of source MAC");
  mk_command "info" "print state of mac based vlans" "info"].

Definition find_command (s : string) : option command := List.find (fun c => streq (c_name c) s) command_list.

Definition do_help (args : list string) : P Z :=
  if argc args <? 2 then mret (-1)
  else match find_command (argv args 1) with
       | None => mret (-1)
       | Some c => printf (long_help c +:+ nl);; mret 0
       end.

(** [command_list[cmd].fn]. *)
Definition run_command (fuel : nat) (c : string) (args : list string) : P Z :=
  if streq c "help" then do_help args
  else if streq c "enable" then do_enable args
  else if streq c "disable" then do_disable args
  else if streq c "add" then do_add args
  else if streq c "del" then do_del args
  else if streq c "bind" then do_bind args
  else if streq c "unbind" then do_unbind args
  else if streq c "unload" then do_unload fuel args
  else if streq c "setflags" then do_setflags args
  else do_info args.

Fixpoint show_commands (prog : string) (l : list command) : P unit :=
  match l with
  | [] => mret tt
  | c :: l' => fprintf "%s %s:\t%s\n" [PS prog; PS (c_name c); PS (short_help c)];; show_commands prog l'
  end.
Definition usage (prog : string) (err : Z) : P Z :=
  fprintf "\n%s subcommands:\n\n" [PS prog];; show_commands prog command_list;; mret err.

(** The whole argument vector. *)
Definition main (fuel : nat) (args : list string) : P Z :=
  let prog := argv args 0 in
  if argc args <? 2 then usage prog (me_err env)
  else match find_command (argv args 1) with
       | None => usage prog (me_err env)
       | Some c =>
           err ← run_command fuel (c_name c) (tail args);
           if truth err then usage prog err else mret 0
       end.
End macvlan.
End Macvlan.
