(* ===== verification/TestSuite.v ===== *)
(** * The C programs of the Ethernet test suite ([ethernet_test/test-suite])

    sendmc.c and recvmc.c send and count multicast datagrams, rawsend.c and
    rawrecv.c Ethernet frames, for a number of seconds; linkspeed.c shows the
    state of [eth0]. Modules [SendMc], [RecvMc], [RawSend], [RawRecv] and
    [LinkSpeed]. *)

From stdpp Require Import base list strings numbers.
From Stdlib Require Import ZArith Lia Ascii.
From S2P Require Import Prelude CInt CLib CFmt.

(** What the kernel is asked for: options, addresses (IPv4 address and port, or
    interface), frames, flags of an interface. *)
Inductive ts_op : Type :=
| MulticastLoop (on : Z)
| MulticastIf (addr : Z)
| ReuseAddr (on : Z)
| AddMembership (group interface : Z)
| BindPort (port : Z)
| BindInterface (index : Z)
| SendTo (addr port len : Z) (data : list Z)
| SendFrame (index : Z) (dst data : list Z)
| SetFlags (name : string) (flags : Z).

(** What was asked for, newest first; how often the clock and the socket were
    read. *)
Record ts_w := mk_ts { ts_log : list ts_op; ts_ticks : nat; ts_reads : nat }.

(** The answers: [errno] or success; readings of the clock in seconds, by number;
    [errno] or the data of a [read], by number. *)
Record ts_os := {
  os_socket : option Z;
  os_op : ts_op -> option Z;
  os_clock : nat -> Z;
  os_read : nat -> Z + list Z;
  os_nonblock : option Z;
  os_malloc : Z -> bool;
  os_junk : Z -> list Z;
  os_inet_addr : string -> Z;
  os_getflags : string -> Z + Z;
  os_ifindex : string -> Z + Z;
  os_strerror : Z -> string
}.

Definition EWOULDBLOCK : Z := 11.
Definition IFF_PROMISC : Z := 0x100.
Definition IFF_UP : Z := 0x1.
Definition IFF_RUNNING : Z := 0x40.
Definition IFNAMSIZ : Z := 16.

Section common.
Context (os : ts_os).
Abbreviation P := (M ts_w).

Definition op (x : ts_op) : P (option Z) :=
  devop (fun w => (os_op os x, match os_op os x with None => mk_ts (x :: ts_log w) (ts_ticks w) (ts_reads w) | Some _ => w end)).
Definition getseconds : P Z :=
  devop (fun w => (u64 (os_clock os (ts_ticks w)), mk_ts (ts_log w) (S (ts_ticks w)) (ts_reads w))).
Definition perror (s : string) (en : Z) : P unit := eprintf (s +:+ ": " +:+ os_strerror os en +:+ nl).
(** The message and [exit(1)] when a call fails. *)
Definition or_exit (what : string) (e : option Z) : P unit :=
  match e with Some en => perror what en;; exit 1 | None => mret tt end.
Definition argv (args : list string) (i : nat) : string := nth i args EmptyString.

(** [(getseconds() - starttime) < secs], in unsigned long long. *)
Definition more_time (starttime secs : Z) : P bool := now ← getseconds; mret (u64 (now - starttime) <? u64 secs).

(** [read] into a buffer of [size] bytes. *)
Definition read (size : Z) : P (Z + list Z) :=
  devop (fun w => (match os_read os (ts_reads w) with
                   | inl en => inl en
                   | inr l => inr (take (Z.to_nat size) l)
                   end, mk_ts (ts_log w) (ts_ticks w) (S (ts_reads w)))).
(** What the loops make of it: no data yet counts as 0 bytes. *)
Definition bytes_read (r : Z + list Z) : Z :=
  match r with inl en => if en =? EWOULDBLOCK then 0 else -1 | inr l => Z.of_nat (length l) end.
Definition show_total (totbytes : Z) : P unit :=
  if truth totbytes then fprintf "%dbytes\n" [PI totbytes] else fprintf "none\n" [].
End common.

Module SendMc.
Section sendmc.
Context `{DM : DataModel} (os : ts_os).
Abbreviation P := (M ts_w).

Definition send_loop (fuel : nat) (addr port msgsize starttime secs : Z) : P unit :=
  while_ fuel tt (fun _ =>
    e ← op os (SendTo addr port (ulong msgsize) (take (Z.to_nat msgsize) (os_junk os (msgsize + 16))));
    or_exit os "sending datagram message" e;;
    b ← more_time os starttime secs;
    mret (if b : bool then inl tt else inr tt)).

Definition main (fuel : nat) (args : list string) : P Z :=
  if Z.of_nat (length args) <? 6 then
    fprintf "Need at least 6 arguments - %s <localIP> <mcastIP> <portnu> <seconds> <msgsize>\n" [PS (argv args 0)];; exit 1
  else
    let portnu := atoi (argv args 3) in
    let secs := atoi (argv args 4) in
    let msgsize := atoi (argv args 5) in
    or_exit os "opening datagram socket" (os_socket os);;
    let addr := os_inet_addr os (argv args 2) in
    e ← op os (MulticastLoop 0); or_exit os "setting IP_MULTICAST_LOOP:" e;;
    e ← op os (MulticastIf (os_inet_addr os (argv args 1))); or_exit os "setting local interface" e;;
    if negb (os_malloc os (ulong (s32 (msgsize + 16)))) then fprintf "databuf allocation failed!\n" [];; exit 1
    else
      starttime ← getseconds os;
      send_loop fuel addr (u16 portnu) msgsize starttime secs;;
      mret 0.
End sendmc.
End SendMc.

Module RecvMc.
Section recvmc.
Context `{DM : DataModel} (os : ts_os).
Abbreviation P := (M ts_w).

Definition recv_loop (fuel : nat) (starttime secs : Z) : P Z :=
  while_ fuel 0 (fun totbytes =>
    r ← read os 1024;
    let bytesread := bytes_read r in
    let totbytes := s32 (totbytes + bytesread) in
    if bytesread <? 0 then mret (inr totbytes)
    else b ← more_time os starttime secs; mret (if b : bool then inl totbytes else inr totbytes)).

Definition main (fuel : nat) (args : list string) : P Z :=
  if Z.of_nat (length args) <? 5 then
    fprintf "Need at least 5 arguments - %s <localIP> <mcastIP> <portnu> <seconds>\n" [PS (argv args 0)];; exit 1
  else
    let portnu := atoi (argv args 3) in
    let secs := atoi (argv args 4) in
    or_exit os "opening datagram socket" (os_socket os);;
    e ← op os (ReuseAddr 1); or_exit os "setting SO_REUSEADDR" e;;
    e ← op os (BindPort (u16 portnu)); or_exit os "binding datagram socket" e;;
    e ← op os (AddMembership (os_inet_addr os (argv args 2)) (os_inet_addr os (argv args 1)));
    or_exit os "adding multicast group" e;;
    starttime ← getseconds os;
    totbytes ← recv_loop fuel (s32 starttime) secs;
    show_total totbytes;;
    mret 0.
End recvmc.
End RecvMc.

(** [argv[i]]; a missing argument is a null pointer that is read. *)
Definition need {A} (args : list string) (i : nat) (k : string -> M ts_w A) : M ts_w A :=
  match args !! i with Some a => k a | None => crash end.

Module RawSend.
Section rawsend.
Context `{DM : DataModel} (os : ts_os).
Abbreviation P := (M ts_w).

Definition initialize (device : string) (promisc : Z) : P Z :=
  let name := String.substring 0 (Z.to_nat IFNAMSIZ) device in
  match os_getflags os name with
  | inl en => perror os "SIOCGIFFLAGS" en;; mret (-1)
  | inr flags =>
      let flags := if truth promisc then Z.lor flags IFF_PROMISC else Z.land flags (notu 16 IFF_PROMISC) in
      e ← op os (SetFlags name (u16 flags));
      match e with
      | Some en => perror os "SIOCSIFFLAGS" en;; mret (-1)
      | None =>
          fprintf "Initialized device %s\n" [PS device];;
          match os_ifindex os name with
          | inl en => perror os "SIOCGIFINDEX" en;; mret (-1)
          | inr index => mret index
          end
      end
  end.

(** Not called. *)
Fixpoint print_rest (mac : list Z) : P unit :=
  match mac with [] => mret tt | b :: l => printf (":" +:+ hex0 2 b);; print_rest l end.
Definition printMAC (mac : list Z) : P unit :=
  match mac with [] => crash | b :: l => printf (hex0 2 b);; print_rest (take 5 l) end.

Definition startMAC : list Z := [0x00; 0x09; 0xBF; 0x0B; 0x79; 0xB0; 0; 0].
(** The first 14 of 2048 bytes are set. *)
Definition frame : list Z :=
  [0; 0xff; 0xee; 0xdd; 0xcc; 0xbb; 0x4; 0x4; 0x4; 0x4; 0x4; 0x4; 0x08; 0x70] ++ replicate 2034 0.

Definition send_loop (fuel : nat) (index starttime secs : Z) : P Z :=
  while_ fuel tt (fun _ =>
    e ← op os (SendFrame index startMAC (take 512 frame));
    match e with
    | Some _ => fprintf "Error in sending packet.\n" [];; mret (inr 1)
    | None => b ← more_time os starttime secs; mret (if b : bool then inl tt else inr 0)
    end).

Definition main (fuel : nat) (args : list string) : P Z :=
  match os_socket os with
  | Some _ => fprintf "Couldn't create packet socket :(\n" [];; mret 1
  | None =>
      need args 1 (fun device =>
        ethIndex ← initialize device 1;
        if ethIndex <? 0 then fprintf "Couldn't find adapter.\n" [];; mret 1
        else
          need args 2 (fun a2 =>
            let secs := atoi a2 in
            e ← op os (BindInterface ethIndex);
            match e with
            | Some _ => fprintf "Couldn't bind socket.\n" [];; mret 1
            | None => starttime ← getseconds os; send_loop fuel ethIndex (s32 starttime) secs
            end))
  end.
End rawsend.
End RawSend.

Module RawRecv.
Section rawrecv.
Context `{DM : DataModel} (os : ts_os).
Abbreviation P := (M ts_w).

Definition raw_init (device : string) (promis : Z) : P unit :=
  match os_socket os with
  | Some _ => fprintf "ERROR: Could not open socket, Got #?\n" [];; exit 1
  | None =>
      if IFNAMSIZ <=? strlen device then crash
      else match os_getflags os device with
           | inl en => perror os ("Error: Could not retrive the flags from the device." +:+ nl) en;; exit 1
           | inr flags =>
               let flags := if truth promis then Z.lor flags IFF_PROMISC else Z.land flags (notu 16 IFF_PROMISC) in
               e ← op os (SetFlags device (u16 flags));
               or_exit os "Error: Could not set flag IFF_PROMISC" e;;
               match os_ifindex os device with
               | inl en => perror os ("Error: Error getting the device index." +:+ nl) en;; exit 1
               | inr _ => mret tt
               end
           end
  end.

(** The buffer keeps what an earlier, longer frame left in it. *)
Definition into (r : Z + list Z) (recvbuf : list Z) : list Z :=
  match r with inl _ => recvbuf | inr l => l ++ drop (length l) recvbuf end.
(** The destination address [rawsend] uses. *)
Definition is_test_frame (recvbuf : list Z) : bool := bool_decide (take 6 recvbuf = [0x00; 0xff; 0xee; 0xdd; 0xcc; 0xbb]).

Definition recv_loop (fuel : nat) (starttime secs : Z) : P Z :=
  while_ fuel (replicate 4096 0, 0) (fun acc =>
    let '(recvbuf, totbytes) := acc in
    r ← read os 2048;
    let bytesread := bytes_read r in
    let recvbuf := into r recvbuf in
    let totbytes := if is_test_frame recvbuf then s32 (totbytes + bytesread) else totbytes in
    let totbytes := s32 (totbytes + bytesread) in
    if bytesread <? 0 then mret (inr totbytes)
    else b ← more_time os starttime secs; mret (if b : bool then inl (recvbuf, totbytes) else inr totbytes)).

Definition main (fuel : nat) (args : list string) : P Z :=
  need args 1 (fun device => need args 2 (fun promis =>
    raw_init device (atoi promis);;
    need args 3 (fun a3 =>
      let secs := atoi a3 in
      match os_nonblock os with
      | Some en => fprintf "ioctl to set non-blocking mode failed %s\n" [PS (os_strerror os en)];; exit 1
      | None =>
          starttime ← getseconds os;
          totbytes ← recv_loop fuel (s32 starttime) secs;
          show_total totbytes;;
          mret 0
      end))).
End rawrecv.
End RawRecv.

Module LinkSpeed.
(** The sockets of the three parts; the answers for [eth0]: its flags, the link
    state and the speed of ethtool, and word 3 of the MII data by request. *)
Record ls_os := {
  ls_socket_status : option Z; ls_socket_check : option Z; ls_socket : option Z;
  ls_flags : Z + Z;
  ls_link : Z + Z;
  ls_mii : Z -> option Z;
  ls_speed : Z + Z;
  ls_strerror : Z -> string
}.
Definition SIOCDEVPRIVATE : Z := 0x89F0.

Section linkspeed.
Context {D : Type} (os : ls_os).
Abbreviation P := (M D).

Definition perror (s : string) (en : Z) : P unit := eprintf (s +:+ ": " +:+ ls_strerror os en +:+ nl).

Definition linkcheck : P unit :=
  match ls_socket_check os with
  | Some _ => fprintf "error\n" [];; exit 1
  | None =>
      flags ← match ls_flags os with
              | inl en => fprintf "ioctl fail %d, %d\n" [PI (-1); PI en];; perror "linkcheck fail " en;; mret 0
              | inr flags => mret flags
              end;
      fprintf "linkstatus data %d %d\n" [PI (Z.land flags IFF_UP); PI (Z.land flags IFF_RUNNING)]
  end.

(** The request that reads MII registers, if one that finds the PHY succeeds. *)
Definition mii_request : option Z :=
  if bool_decide (is_Some (ls_mii os 0x8947)) then Some 0x8948
  else if bool_decide (is_Some (ls_mii os SIOCDEVPRIVATE)) then Some (SIOCDEVPRIVATE + 1)
  else None.
Definition linkstatus : P unit :=
  match ls_socket_status os with
  | Some _ => fprintf "error\n" [];; exit 1
  | None =>
      data ← match ls_link os with
             | inr data => mret data
             | inl en =>
                 fprintf "ioctl fail %d, %d\n" [PI (-1); PI en];; perror "ioctl fail " en;;
                 match mii_request with
                 | None => fprintf "couldnt detect mii interface!\n" []
                 | Some ctl =>
                     match ls_mii os ctl with
                     | Some data3 => fprintf "state %s\n" [PS (if truth (Z.land data3 0x4) then "conn" else "dis")]
                     | None => mret tt
                     end
                 end;;
                 mret 0
             end;
      fprintf "linkstatus data %d\n" [PI data]
  end.

Definition main : P Z :=
  linkstatus;;
  linkcheck;;
  match ls_socket os with
  | Some en => perror "socket" en;; exit 1
  | None =>
      match ls_speed os with
      | inl en => perror "ioctl" en;; exit 1
      | inr speed =>
          (if existsb (Z.eqb speed) [10; 100; 1000; 2500; 10000] then fprintf "%d\n" [PI speed]
           else fprintf "Speed returned is %d\n" [PI speed]);;
          mret 0
      end
  end.
End linkspeed.
End LinkSpeed.
