(* ===== verification/FloatTools.v ===== *)
(** * Programs that show floating-point values ([spi_adc], [latency])

    Floating-point numbers are those of the Standard Library's specification of
    IEEE 754 ([SpecFloat]): [float] has 24 bits of precision, [double] 53.
    [Adc] models LTC2422.c and spi-adc-test.c, [Latency] models latency.c. *)

From stdpp Require Import base list strings numbers.
From Stdlib Require Import ZArith Lia Ascii SpecFloat.
From S2P Require Import Prelude CInt CLib CLibOk CFmt.

(** ** Floating-point numbers *)

Definition of_Z (prec emax z : Z) : spec_float := binary_normalize prec emax z 0 false.
Definition float_of_Z : Z -> spec_float := of_Z 24 128.
Definition double_of_Z : Z -> spec_float := of_Z 53 1024.
Definition fmul : spec_float -> spec_float -> spec_float := SFmul 24 128.
Definition ddiv : spec_float -> spec_float -> spec_float := SFdiv 53 1024.
(** A [double] rounded to [float]; the other direction is exact. *)
Definition float_of_double (x : spec_float) : spec_float :=
  match x with
  | S754_finite s m e => binary_normalize 24 128 (if s then Z.neg m else Z.pos m) e s
  | _ => x
  end.

(** The integer nearest to [a / b], ties to the even one. *)
Definition div_nearest (a b : Z) : Z :=
  let q := a / b in
  let r := a mod b in
  if (2 * r <? b) || ((2 * r =? b) && Z.even q) then q else q + 1.

(** The magnitude of a number in units of [10^-p], rounded. *)
Definition scaled (p : Z) (m : positive) (e : Z) : Z :=
  if 0 <=? e then Z.pos m * 2 ^ e * 10 ^ p else div_nearest (Z.pos m * 10 ^ p) (2 ^ (- e)).
Definition fixed_text (p n : Z) : string :=
  dec (n / 10 ^ p) +:+ "." +:+ pad_left (chr 48) p (dec (n mod 10 ^ p)).

(** [%<w>.<p>f]. *)
Definition fmt_f (w p : Z) (x : spec_float) : string :=
  let sign (s : bool) := if s then "-" else "" in
  pad_left (chr 32) w
    match x with
    | S754_zero s => sign s +:+ fixed_text p 0
    | S754_infinity s => sign s +:+ "inf"
    | S754_nan => "nan"
    | S754_finite s m e => sign s +:+ fixed_text p (scaled p m e)
    end.

Example fmt_f_ex1 : fmt_f 6 4 (ddiv (double_of_Z 1) (double_of_Z 3)) = "0.3333". Proof. vm_compute. reflexivity. Qed.
Example fmt_f_ex2 : fmt_f 4 2 (ddiv (double_of_Z (-5)) (double_of_Z 8)) = "-0.62". Proof. vm_compute. reflexivity. Qed.

(** The rounding is off by at most half a unit. *)
Lemma div_nearest_close a b : 0 < b -> 2 * Z.abs (div_nearest a b * b - a) <= b.
Proof.
  intros Hb. unfold div_nearest. pose proof (Z.div_mod a b ltac:(lia)). pose proof (Z.mod_pos_bound a b Hb).
  destruct (Z.ltb_spec (2 * (a mod b)) b); cbn [orb]; [nia|]. destruct (_ && _)%bool eqn:E; [|nia].
  apply andb_true_iff in E as [E _]. apply Z.eqb_eq in E. nia.
Qed.

(** ** The SPI converter *)

Module Adc.

Definition SPI_DATA_CHANNEL_OFFSET : Z := 22.
Definition SPI_DATA_CHANNEL_MASK : Z := Z.shiftl 1 SPI_DATA_CHANNEL_OFFSET.

(** The device: the two bytes of the transfer by number, nothing when the device
    cannot be opened or the transfer fails. The values of the variables that are
    not initialised: channel, code and array. *)
Record adc_os := {
  os_spi : nat -> option (Z * Z);
  os_channel : Z;
  os_code : Z;
  os_array : list Z
}.

Section adc.
Context (os : adc_os).
Abbreviation P := (M nat).

(** [*adc_channel] and [*code] afterwards, when the read succeeds. *)
Definition LTC2422_read : P (option (Z * Z)) :=
  b ← devop (fun k => (os_spi os k, S k));
  match b with
  | None => mret None
  | Some (buffer0, buffer1) =>
      let value := Z.lor (Z.shiftl buffer1 16) (Z.shiftl buffer0 8) in
      mret (Some (if truth (Z.land value SPI_DATA_CHANNEL_MASK) then 1 else 0, value))
  end.

Definition LTC2422_voltage (adc_code : Z) (lsb : spec_float) : spec_float :=
  if truth (Z.land adc_code 0x200000) then
    let adc_code := Z.land adc_code 0xFFFFF in fmul (float_of_Z adc_code) lsb
  else
    let adc_code := Z.land adc_code 0xFFFFF in fmul (fmul (float_of_Z (-1)) (float_of_Z adc_code)) lsb.

(** [4.7683761E-6]: a [double] constant, converted. *)
Definition LTC2422_lsb : spec_float := float_of_double (ddiv (double_of_Z 47683761) (double_of_Z (10 ^ 13))).

Definition LTC2422_cal_voltage (LTC2422_reference_voltage : spec_float) : spec_float :=
  SFdiv 24 128 LTC2422_reference_voltage (float_of_Z 1048575).

(** The channel, the code and the status after a read. *)
Definition reading (old : Z * Z) (r : option (Z * Z)) : Z * Z * Z :=
  match r with Some (ch, code) => (ch, code, 0) | None => (old, 1) end.
(** [adc_code_array[adc_channel] = adc_code]. *)
Definition store (l : list Z) (ch code : Z) : P (list Z) :=
  if ((0 <=? ch) && (ch <? 2))%bool then mret (<[Z.to_nat ch := code]> l) else crash.

Definition spi_read_adc : P Z :=
  r ← LTC2422_read;
  let '(ch, code, _) := reading (os_channel os, os_code os) r in
  r ← LTC2422_read;
  let '(ch, code, _) := reading (ch, code) r in
  l ← store (os_array os) ch code;
  r ← LTC2422_read;
  let '(ch, code, return_code) := reading (ch, code) r in
  l ← store l ch code;
  a0 ← elem l 0; a1 ← elem l 1;
  fprintf "     ADC A (raw)): 0x%X\n" [PI a0];;
  fprintf "     ADC B (raw)): 0x%X\n" [PI a1];;
  fprintf "     ADC A : %s V\n" [PS (fmt_f 6 4 (LTC2422_voltage (u32 a1) LTC2422_lsb))];;
  fprintf "     ADC B : %s V\n" [PS (fmt_f 6 4 (LTC2422_voltage (u32 a0) LTC2422_lsb))];;
  mret return_code.

Definition print_usage {A} (prog : string) : P A :=
  fprintf "Usage: %s [-ch]\n" [PS prog];;
  printf (lit "  -c --continuous   Continuously sample ADC\n  -h --help         Print this Usage\n\n");;
  exit 1.
Definition long_options : list longopt := [mk_longopt "continuous" false 99; mk_longopt "help" false 104].
Fixpoint do_options (prog : string) (evs : list optev) (continuous_poll : bool) : P bool :=
  match evs with
  | [] => mret continuous_poll
  | (c, _) :: evs' => if c =? 99 then do_options prog evs' true else print_usage prog
  end.
Definition main (fuel : nat) (prog : string) (args : list string) : P Z :=
  continuous_poll ← do_options prog (fst (getopt_long ":ch" long_options args)) false;
  if continuous_poll : bool then while_ fuel tt (fun _ => _ ← spi_read_adc; mret (inl tt)) else spi_read_adc.
End adc.
End Adc.

(** ** Scheduling latency *)

Module Latency.

(** The first line of [/proc/<pid>/stat], the line of each opening of
    [/proc/<pid>/schedstat] by number: the file may be missing or empty. *)
Record lat_os := {
  os_stat : Z -> option (option string);
  os_schedstat : Z -> nat -> option (option string)
}.

Section latency.
Context `{DM : DataModel} (os : lat_os).
Abbreviation P := (M nat).

Definition usage {A} (prog : string) : P A := efprintf "Usage: %s [-s sleeptime ] <pid>\n" [PS prog];; exit (-1).

Definition get_stats (buf : string) : Z * Z * Z :=
  let ptr := skip_while isblank buf in
  let run_ticks := u32 (atoi ptr) in
  let ptr := skip_while isblank (skip_while isdigit ptr) in
  let wait_ticks := u32 (atoi ptr) in
  let ptr := skip_while isblank (skip_while isdigit ptr) in
  (run_ticks, wait_ticks, u32 (atoi ptr)).

(** The text up to the first closing parenthesis; without one the null pointer
    plus 1 is written to, and a text that is too long leaves its array. *)
Fixpoint upto (c : ascii) (s : string) : option string :=
  match s with
  | EmptyString => None
  | String c' s' => if Ascii.eqb c' c then Some (String c' EmptyString) else String c' <$> upto c s'
  end.
Definition get_id (buf : string) : P string :=
  match upto (chr 41) buf with
  | None => crash
  | Some id => if 32 <=? strlen id then crash else mret id
  end.

Definition open_schedstat (pid : Z) : P (option (option string)) := devop (fun k => (os_schedstat os pid k, S k)).

(** [nran - oran ? (double)x / (nran - oran) : 0]. *)
Definition average (x n : Z) : spec_float :=
  if truth n then ddiv (double_of_Z x) (double_of_Z n) else double_of_Z 0.

Definition show_stats (verbose : Z) (id : string) (new old : Z * Z * Z) : P unit :=
  let '(run_ticks, wait_ticks, nran) := new in
  let '(orun_ticks, owait_ticks, oran) := old in
  let dn := u32 (nran - oran) in
  let avgrun := fmt_f 4 2 (average (u32 (run_ticks - orun_ticks)) dn) in
  if truth verbose then
    let avgwait := fmt_f 4 2 (average (u32 (wait_ticks - owait_ticks)) dn) in
    fprintf "%s %d(%d) %d(%d) %d(%d) %s %s\n"
      [PS id; PI run_ticks; PI (run_ticks - orun_ticks); PI wait_ticks; PI (wait_ticks - owait_ticks);
       PI nran; PI (nran - oran); PS avgrun; PS avgwait]
  else
    let avgwait := fmt_f 4 2 (average (u32 (wait_ticks - owait_ticks)) dn) in
    fprintf "%s avgrun=%sms avgwait=%sms\n" [PS id; PS avgrun; PS avgwait].

(** The file is opened twice a round; only the first stream is read and closed. *)
Definition spin (fuel : nat) (pid verbose : Z) (id : string) : P unit :=
  while_ fuel (0, 0, 0) (fun old =>
    f ← open_schedstat pid;
    match f with
    | Some (Some procbuf) =>
        let new := get_stats procbuf in
        show_stats verbose id new old;;
        f ← open_schedstat pid;
        mret (match f with Some _ => inl new | None => inr tt end)
    | _ => mret (inr tt)
    end).

Fixpoint do_options (prog : string) (evs : list optev) (verbose : Z) : P Z :=
  match evs with
  | [] => mret verbose
  | (c, _) :: evs' =>
      if c =? 115 then do_options prog evs' verbose
      else if c =? 118 then do_options prog evs' (u32 (verbose + 1))
      else usage prog
  end.
Definition main (fuel : nat) (prog : string) (args : list string) : P Z :=
  let '(evs, operands) := getopt "s:v" args in
  verbose ← do_options prog evs 0;
  let pid := match operands with a :: _ => u32 (atoi a) | [] => 0 end in
  if negb (truth pid) then usage prog
  else
    id ← match os_stat os (s32 pid) with
         | Some (Some procbuf) => get_id procbuf
         | _ => mret EmptyString
         end;
    spin fuel (s32 pid) verbose id;;
    (if negb (strlen id =? 0) then fprintf "Process %s has exited.\n" [PS id]
     else fprintf "Process %d does not exist.\n" [PI pid]);;
    exit 0.
End latency.
End Latency.
