(* ===== verification/NetToolClaims.v ===== *)
(** * The properties of the VLAN tools, the Ethernet test suite, the SPI converter and the latency test *)

From stdpp Require Import base list strings numbers.
From Stdlib Require Import ZArith Lia Ascii.
From S2P Require Import Prelude CInt CLib CLibOk CFmt Vlan TestSuite FloatTools.

(** ** vconfig *)

Section vconfig.
Import Vconfig.
Context {D : Type} `{VK : VlanKernel D} `{DM : DataModel} (env : vlan_env).

(** The commands, their requests and the exit codes of a refusal. *)
Definition vlan_commands : list (string * (vlan_cmd * Z)) := [
  ("add", (ADD_VLAN_CMD, 3)); ("rem", (DEL_VLAN_CMD, 4)); ("set_egress_map", (SET_VLAN_EGRESS_PRIORITY_CMD, 5));
  ("set_ingress_map", (SET_VLAN_INGRESS_PRIORITY_CMD, 6)); ("set_flag", (SET_VLAN_FLAG_CMD, 7));
  ("set_name_type", (SET_VLAN_NAME_TYPE_CMD, 8))].
Definition name_types : list (string * vlan_name_type) := [
  ("VLAN_PLUS_VID", VLAN_NAME_TYPE_PLUS_VID); ("VLAN_PLUS_VID_NO_PAD", VLAN_NAME_TYPE_PLUS_VID_NO_PAD);
  ("DEV_PLUS_VID", VLAN_NAME_TYPE_RAW_PLUS_VID); ("DEV_PLUS_VID_NO_PAD", VLAN_NAME_TYPE_RAW_PLUS_VID_NO_PAD)].
Definition find_name {A} (l : list (string * A)) (s : string) : option A :=
  snd <$> List.find (fun x => strcasecmp s (fst x)) l.

(** What a command line means: an exit code, or a request with the exit code of
    its refusal. The word of the request is the last of name type, number and
    priority that is given. *)
Definition vlan_meaning (args : list string) : Z + (vlan_ioctl_args * Z) :=
  match args with
  | c :: a :: rest =>
      if (2 <? length rest)%nat then inl 1
      else
        let is_type := strcasecmp c "set_name_type" in
        if is_type && negb (bool_decide (is_Some (find_name name_types a))) || negb is_type && (15 <? strlen a) then inl 1
        else match find_name vlan_commands c with
             | None => inl 5
             | Some (cmd, code) =>
                 let word := match rest with
                             | [] => match find_name name_types a with Some t => if is_type then ve_name_type env t else 0 | None => 0 end
                             | n :: _ => u32 (atoi n)
                             end in
                 let qos := match rest with [_; n] => u16 (atoi n) | _ => 0 end in
                 inr (mk_args cmd (if is_type then EmptyString else a) word qos, code)
             end
  | _ => inl 1
  end%bool.

(** [m] writes text and goes on. *)
Lemma wp_shows {A B} (m : M D A) (k : A -> M D B) s (Q : res B -> st D -> Prop) :
  shows m (fun _ => True) -> (forall a s', dev s' = dev s -> wp (k a) s' Q) -> wp (m ≫= k) s Q.
Proof.
  intros Hm Hk. destruct (shows_runs m _ s Hm) as (a & s' & E & Ed & _). apply wp_bind. unfold wp at 1. rewrite E. by apply Hk.
Qed.

Lemma wp_exit {A} code s (Q : res A -> st D -> Prop) : Q (Exit code) s -> wp (exit code) s Q.
Proof. done. Qed.

Lemma ask_spec r cmd err code ok (s : st D) :
  (forall e, shows (W := D) (err e) (fun _ => True)) -> shows (W := D) ok (fun _ => True) ->
  wp (ask env r cmd err code ok) s (fun x s' =>
    let '(e, d') := vlan_ioctl (mk_args cmd (device1 r) (u r) (vlan_qos r)) (dev s) in
    dev s' = d' /\ x = match e with None => Ret 0 | Some _ => Exit code end).
Proof.
  intros He Hok. unfold ask, ioctl. apply wp_bind. unfold wp at 1, devop.
  destruct (vlan_ioctl _ (dev s)) as [e d'] eqn:E. cbn [fst snd]. destruct e as [en|].
  - apply wp_shows; [apply He|]. intros _ s' Hd. done.
  - apply wp_shows; [done|]. intros _ s' Hd. done.
Qed.

Lemma run_cmd_spec c a vid r (s : st D) :
  wp (run_cmd env c a vid r) s (fun x s' =>
    match find_name vlan_commands c with
    | Some (cmd, code) =>
        let '(e, d') := vlan_ioctl (mk_args cmd (device1 r) (u r) (vlan_qos r)) (dev s) in
        dev s' = d' /\ x = match e with None => Ret 0 | Some _ => Exit code end
    | None => x = Exit 5 /\ dev s' = dev s
    end).
Proof.
  unfold run_cmd, find_name, vlan_commands. cbn [List.find fst].
  repeat (destruct (strcasecmp c _); cbn [fmap option_fmap option_map snd]; [apply ask_spec; [intros e|]; shows_all|]).
  unfold show_usage. apply wp_shows; [shows_all|]. intros _ s1 H1. apply wp_shows; [shows_all|]. intros _ s2 H2.
  split; [done|]. by rewrite <- H1, <- H2.
Qed.

Lemma name_type_find a : name_type a = find_name name_types a.
Proof. unfold name_type, find_name, name_types. cbn [List.find fst]. by repeat destruct (strcasecmp a _). Qed.

(** Vconfig sends at most one request, and it is the one the command line
    means: the command in any case of letters, the name of the interface cut
    nowhere, and the numbers as [atoi] reads them, whatever their size; the exit
    code is 0 when the kernel carries it out and the code of the command when
    not. A line of the wrong length, a long name, an unknown name type or
    command, or a missing socket ends the program without a request. *)
Theorem vconfig_sends_request (args : list string) (s : st D) :
  wp (main env args) s (fun x s' =>
    match vlan_meaning args with
    | inl code => dev s' = dev s /\ (x = Exit code \/ ve_socket env = false /\ x = Exit 2)
    | inr (req, code) =>
        if ve_socket env then
          let '(e, d') := vlan_ioctl req (dev s) in
          dev s' = d' /\ x = match e with None => Ret 0 | Some _ => Exit code end
        else dev s' = dev s /\ x = Exit 2
    end).
Proof.
  unfold main. destruct ((_ <? 3) || _)%bool eqn:Hn.
  { apply wp_shows; [shows_all|]. intros _ s1 H1. apply wp_shows; [unfold show_usage; shows_all|]. intros _ s2 H2.
    assert (vlan_meaning args = inl 1) as ->.
    { apply orb_true_iff in Hn. rewrite !Z.ltb_lt in Hn. destruct args as [|c [|a rest]]; [done|done|]. cbn [length] in Hn.
      unfold vlan_meaning. rewrite (proj2 (Nat.ltb_lt _ _)) by lia. done. }
    apply wp_exit. split; [congruence|by left]. }
  apply orb_false_iff in Hn as [Hn1 Hn2]. rewrite Z.ltb_ge in Hn1, Hn2.
  destruct args as [|c [|a rest]]; [cbn in Hn1; lia|cbn in Hn1; lia|]. cbn [length] in Hn1, Hn2.
  unfold vlan_meaning. rewrite (proj2 (Nat.ltb_ge _ _)) by lia.
  apply wp_bind. unfold prepare. cbn [nth]. apply wp_bind. rewrite name_type_find.
  set (rest_spec := fun (r : vlan_ioctl_args) (vid : Z) (x : res Z) (s' : st D) =>
    match find_name vlan_commands c with
    | None => dev s' = dev s /\ (x = Exit 5 \/ ve_socket env = false /\ x = Exit 2)
    | Some (cmd, code) =>
        if ve_socket env then
          let '(e, d') := vlan_ioctl (mk_args cmd (device1 r) (u r) (vlan_qos r)) (dev s) in
          dev s' = d' /\ x = match e with None => Ret 0 | Some _ => Exit code end
        else dev s' = dev s /\ x = Exit 2
    end).
  assert (forall r vid, wp (when (negb (ve_config env)) (eprintf (lit "WARNING:  Could not open /proc/net/vlan/config.  Maybe you need to load the 8021q module, or maybe you are not using PROCFS??\n"));;
    if negb (ve_socket env) then eprintf (lit "FATAL:  Couldn't open a socket..go figure!\n");; exit 2
    else run_cmd env c a vid r) s (rest_spec r vid)) as Hrest.
  { intros r vid. apply wp_shows; [shows_all|]. intros _ s1 H1. unfold rest_spec. destruct (ve_socket env) eqn:Hs; cbn [negb].
    - eapply wp_mono; [apply run_cmd_spec|]. cbn beta. rewrite H1. intros x s'.
      destruct (find_name vlan_commands c) as [[cmd code]|]; [done|]. intros [-> ->]. split; [done|by left].
    - apply wp_shows; [shows_all|]. intros _ s2 H2. apply wp_exit. assert (dev s2 = dev s) by congruence.
      destruct (find_name vlan_commands c) as [[cmd code]|]; [done|split; [done|by right]]. }
  destruct (strcasecmp c "set_name_type"); cbn [negb andb orb].
  - destruct (find_name name_types a) as [t|] eqn:Ht.
    + rewrite bool_decide_true by done. cbn [negb orb andb]. apply wp_ret, wp_ret.
      eapply wp_mono; [apply Hrest|]. unfold rest_spec. intros x s'.
      destruct rest as [|n [|q [|]]]; cbn [length] in Hn2; [| | |lia]; destruct (find_name vlan_commands c) as [[cmd code]|]; done.
    + rewrite bool_decide_false by (by intros []). cbn [negb orb andb]. apply wp_bind, wp_eprintf.
      apply wp_shows; [unfold show_usage; shows_all|]. intros _ s2 H2. apply wp_exit. split; [done|by left].
  - destruct (15 <? strlen a); cbn [orb].
    + apply wp_bind, wp_eprintf, wp_exit. split; [done|by left].
    + apply wp_ret, wp_ret. eapply wp_mono; [apply Hrest|]. unfold rest_spec. intros x s'.
      destruct rest as [|n [|q [|]]]; cbn [length] in Hn2; [| | |lia];
        destruct (find_name vlan_commands c) as [[cmd code]|], (find_name name_types a); done.
Qed.
End vconfig.

(** ** macvlan_config *)

Import Macvlan.

(** A name in an array of characters. *)
Fixpoint name_bytes (s : string) : list Z :=
  match s with EmptyString => [] | String c s' => cc c :: name_bytes s' end.
Definition is_name (s : string) : Prop := Forall (fun b => b <> 0) (name_bytes s).

Lemma c_str_name {D} s r (w : st D) : is_name s -> c_str (name_bytes s ++ 0 :: r) w = (Ret s, w).
Proof.
  unfold is_name. induction s as [|ch s IH]; intros Hs; cbn [name_bytes app c_str]; [done|].
  inversion Hs as [|? ? Hc Hs']; subst. rewrite (proj2 (Z.eqb_neq _ _)) by done.
  rewrite (bind_ret_run _ _ _ _ _ (IH Hs')). unfold cc, chr. by rewrite N2Z.id, ascii_N_embedding.
Qed.

(** *** Binding an address *)

Definition mac_text (b0 b1 b2 b3 b4 b5 : Z) : string :=
  hex0 2 b0 +:+ ":" +:+ hex0 2 b1 +:+ ":" +:+ hex0 2 b2 +:+ ":" +:+ hex0 2 b3 +:+ ":" +:+ hex0 2 b4 +:+ ":" +:+ hex0 2 b5.

Lemma hex2_digits b : is_byte b -> exists c1 c2, hex0 2 b = String c1 (String c2 "") /\ u8 (htoi (String c1 (String c2 ""))) = b.
Proof.
  intros Hb. assert (forallb (fun b => match hex0 2 b with String c1 (String c2 "") => u8 (htoi (String c1 (String c2 ""))) =? b | _ => false end)
    (Z.of_nat <$> seq 0 256) = true) as H by (vm_compute; reflexivity).
  rewrite forallb_forall in H. specialize (H b). destruct (hex0 2 b) as [|c1 [|c2 [|]]].
  4: by specialize (H ltac:(apply list_elem_of_In, list_elem_of_fmap; exists (Z.to_nat b); unfold is_byte in Hb; split; [lia|apply elem_of_seq; lia])).
  3: { exists c1, c2. split; [done|]. apply Z.eqb_eq, H. apply list_elem_of_In, list_elem_of_fmap. exists (Z.to_nat b).
       unfold is_byte in Hb. split; [lia|]. apply elem_of_seq. lia. }
  all: by specialize (H ltac:(apply list_elem_of_In, list_elem_of_fmap; exists (Z.to_nat b); unfold is_byte in Hb; split; [lia|apply elem_of_seq; lia])).
Qed.

Lemma mac_bytes_text b0 b1 b2 b3 b4 b5 : Forall is_byte [b0; b1; b2; b3; b4; b5] ->
  mac_bytes (mac_text b0 b1 b2 b3 b4 b5) = [b0; b1; b2; b3; b4; b5] /\ strlen (mac_text b0 b1 b2 b3 b4 b5) = 17.
Proof.
  intros Hb. rewrite !Forall_cons_iff in Hb. destruct Hb as (H0 & H1 & H2 & H3 & H4 & H5 & _).
  destruct (hex2_digits b0 H0) as (c00 & c01 & E0 & V0). destruct (hex2_digits b1 H1) as (c10 & c11 & E1 & V1).
  destruct (hex2_digits b2 H2) as (c20 & c21 & E2 & V2). destruct (hex2_digits b3 H3) as (c30 & c31 & E3 & V3).
  destruct (hex2_digits b4 H4) as (c40 & c41 & E4 & V4). destruct (hex2_digits b5 H5) as (c50 & c51 & E5 & V5).
  unfold mac_text. rewrite E0, E1, E2, E3, E4, E5. split; [|done].
  rewrite <- V0, <- V1, <- V2, <- V3, <- V4, <- V5. done.
Qed.

Section bind.
Context {D : Type} `{MK : MacvlanKernel D} `{DM : DataModel} (env : mv_env).

(** Binding and unbinding an address: for an address written the way [info]
    shows it, the macvlan module receives exactly its six bytes and the name of
    the interface, in one request; the program ends with 0 when the request is
    carried out and with 1 when not. *)
Theorem bind_roundtrip (fuel : nat) (prog ifn : string) (b0 b1 b2 b3 b4 b5 : Z) (unbind : bool) (s : st D) :
  Forall is_byte [b0; b1; b2; b3; b4; b5] -> me_socket env = None ->
  wp (main env fuel [prog; if unbind then "unbind" else "bind"; ifn; mac_text b0 b1 b2 b3 b4 b5]) s (fun x s' =>
    let req := mk_req (if unbind then MACVLAN_UNBIND else MACVLAN_BIND) ifn (portidx (me_req env)) (ifidx (me_req env))
                 (macaddridx (me_req env)) [b0; b1; b2; b3; b4; b5] in
    let '(e, _, d') := mv_ioctl req (me_rep env) (dev s) in
    dev s' = d' /\ x = Ret (match e with None => 0 | Some _ => 1 end)).
Proof.
  intros Hb Hsock. destruct (mac_bytes_text b0 b1 b2 b3 b4 b5 Hb) as [Em El].
  assert (forall c what, wp (do_mac env c what [if unbind then "unbind" else "bind"; ifn; mac_text b0 b1 b2 b3 b4 b5]) s (fun x s' =>
    let '(e, _, d') := mv_ioctl (mk_req c ifn (portidx (me_req env)) (ifidx (me_req env)) (macaddridx (me_req env)) [b0; b1; b2; b3; b4; b5])
      (me_rep env) (dev s) in
    dev s' = d' /\ x = Ret (match e with None => 0 | Some _ => 1 end))) as Hdo.
  { intros c what. unfold do_mac, argc, argv, with_socket. cbn [length nth]. rewrite Hsock, Em, El. cbn [Z.eqb negb].
    unfold ioctl_, ioctl. apply wp_bind, wp_bind. unfold wp at 1, devop. cbn [set_macaddr set_ifname set_cmd cmd ifname portidx ifidx macaddridx].
    destruct (mv_ioctl _ _ (dev s)) as [[e r'] d'] eqn:E. cbn [fst snd]. apply wp_ret. destruct e as [en|]; [|done].
    apply wp_bind. unfold perror. apply wp_eprintf. done. }
  unfold main, argc, argv. cbn [length nth]. destruct unbind; cbn [find_command]; unfold find_command, command_list; cbn [List.find c_name streq];
    apply wp_bind; (eapply wp_mono; [apply Hdo|]); cbn beta; intros x s'; destruct (mv_ioctl _ _ (dev s)) as [[e r'] d'];
    intros [Hd ->]; destruct e; (apply wp_shows; [|done]) || done.
Qed.
End bind.

(** *** Removing everything *)

Abbreviation info_state := (macvlan_ioctl * macvlan_ioctl_reply)%type.

(** What the module promises: the devices with their VLANs, in order, and what
    the requests do to them. Nothing is said about other requests. *)
Class MacvlanDriver (D : Type) `{MK : MacvlanKernel D} : Type := {
  mv_ports : D -> list (string * list string);
  mv_num_ports : forall q r d, cmd q = MACVLAN_GET_NUM_PORTS ->
    exists n, mv_ioctl q r d = (None, mk_rep (Z.of_nat (length (mv_ports d))) n, d);
  mv_port_name : forall q r d p vs rest, cmd q = MACVLAN_GET_PORT_NAME -> portidx q = 0 -> mv_ports d = (p, vs) :: rest ->
    exists k tl, mv_ioctl q r d = (None, mk_rep k (name_bytes p ++ 0 :: tl), d) /\ is_name p /\ strlen p < 64;
  mv_num_vlans : forall q r d p vs rest, cmd q = MACVLAN_GET_NUM_VLANS -> portidx q = 0 -> mv_ports d = (p, vs) :: rest ->
    exists n, mv_ioctl q r d = (None, mk_rep (Z.of_nat (length vs)) n, d);
  mv_vlan_name : forall q r d p v vs rest, cmd q = MACVLAN_GET_VLAN_NAME -> portidx q = 0 -> ifidx q = 0 ->
    mv_ports d = (p, v :: vs) :: rest ->
    exists k tl, mv_ioctl q r d = (None, mk_rep k (name_bytes v ++ 0 :: tl), d) /\ is_name v /\ strlen v < 64;
  mv_down_ports : forall v d, mv_ports (mv_down v d) = mv_ports d
}.

Section unload.
Context {D : Type} `{MD : MacvlanDriver D} `{DM : DataModel} (env : mv_env).

(** The driver removes what it is asked to remove. *)
Definition removes : Prop :=
  (forall q r d p v vs rest, cmd q = MACVLAN_DEL -> ifname q = v -> mv_ports d = (p, v :: vs) :: rest ->
     exists r' d', mv_ioctl q r d = (None, r', d') /\ mv_ports d' = (p, vs) :: rest) /\
  (forall q r d p rest, cmd q = MACVLAN_DISABLE -> ifname q = p -> mv_ports d = (p, []) :: rest ->
     exists r' d', mv_ioctl q r d = (None, r', d') /\ mv_ports d' = rest).
(** The driver refuses to remove a VLAN. *)
Definition keeps_vlans : Prop :=
  forall q r d, cmd q = MACVLAN_DEL -> exists en r' d', mv_ioctl q r d = (Some en, r', d') /\ mv_ports d' = mv_ports d.

Lemma bind_oof {A B} (m : M D A) (f : A -> M D B) s : fst (m s) = OutOfFuel -> fst ((m ≫= f) s) = OutOfFuel.
Proof. unfold mbind, M_bind. destruct (m s) as [x s']. cbn. by intros ->. Qed.

Lemma run_ioctl_eq q r e r' d' (s : st D) : mv_ioctl q r (dev s) = (e, r', d') -> ioctl q r s = (Ret (e, r'), mkst (out s) d').
Proof. intros E. unfold ioctl, devop. by rewrite E. Qed.

Lemma runs_ioctl_eq q r e r' d' (s : st D) (Q : option Z * macvlan_ioctl_reply -> st D -> Prop) :
  mv_ioctl q r (dev s) = (e, r', d') -> Q (e, r') (mkst (out s) d') -> runs (ioctl q r) s Q.
Proof. intros E HQ. unfold ioctl. apply runs_devop. by rewrite E. Qed.

Lemma runs_fprintf f args (s : st D) (Q : unit -> st D -> Prop) :
  fmt_ok f (is_int <$> args) = true -> (forall o, Q tt (mkst o (dev s))) -> runs (fprintf f args) s Q.
Proof.
  intros Hf HQ. destruct (shows_runs _ _ s (shows_fprintf f args (fun _ => True) Hf I)) as (a & s' & E & Ed & _).
  exists a, s'. split; [done|]. destruct a, s' as [o w]. cbn in Ed. subst w. apply HQ.
Qed.

Lemma runs_num_ports (s : st D) : runs (get_num_ports env) s (fun n s' => n = Z.of_nat (length (mv_ports (dev s))) /\ dev s' = dev s).
Proof.
  unfold get_num_ports. destruct (mv_num_ports (set_cmd MACVLAN_GET_NUM_PORTS (me_req env)) (me_rep env) (dev s) eq_refl) as [n E].
  apply runs_bind. eapply runs_ioctl_eq; [exact E|]. cbn [fst snd num].
  apply runs_bind, runs_fprintf; [done|]. intros o. apply runs_ret. done.
Qed.

Lemma runs_num_vlans (s : st D) p vs rest : mv_ports (dev s) = (p, vs) :: rest ->
  runs (get_num_vlans env 0) s (fun n s' => n = Z.of_nat (length vs) /\ dev s' = dev s).
Proof.
  intros Hp. unfold get_num_vlans.
  destruct (mv_num_vlans (set_portidx 0 (set_cmd MACVLAN_GET_NUM_VLANS (me_req env))) (me_rep env) (dev s) p vs rest eq_refl eq_refl Hp) as [n E].
  apply runs_bind. eapply runs_ioctl_eq; [exact E|]. cbn [fst snd num].
  apply runs_bind, runs_fprintf; [done|]. intros o. apply runs_ret. done.
Qed.

(** One round of the inner loop up to the removal. *)
Lemma unload_vlan_step acc (s : st D) p v vs rest (Q : info_state + (info_state + Z) -> st D -> Prop) :
  mv_ports (dev s) = (p, v :: vs) :: rest ->
  (forall q r s', mv_ports (dev s') = (p, v :: vs) :: rest -> runs (_do_del env v) s' (fun _ => Q (inl (q, r)))) ->
  runs (unload_vlan env acc) s Q.
Proof.
  intros Hp Hdel. destruct acc as [q r]. unfold unload_vlan. apply runs_bind.
  eapply runs_mono; [apply (runs_num_vlans s p (v :: vs) rest Hp)|]. intros n s1 [-> Hd1]. rewrite <- Hd1 in Hp.
  rewrite (proj2 (Z.ltb_lt 0 _)) by (cbn [length]; lia). cbn [negb]. apply runs_bind.
  destruct (mv_vlan_name (set_ifidx 0 (set_portidx 0 (set_cmd MACVLAN_GET_VLAN_NAME q))) r (dev s1) p v vs rest
    eq_refl eq_refl eq_refl Hp) as (k & tl & E & Hn & Hlen).
  eapply runs_ioctl_eq; [exact E|]. cbn [fst snd name]. apply runs_bind.
  exists v, (mkst (out s1) (dev s1)). split; [by apply c_str_name|]. apply runs_bind, runs_fprintf; [done|]. intros o.
  rewrite (proj2 (Z.leb_gt 128 _)) by lia. apply runs_bind, runs_ret. apply runs_bind, runs_setdev. cbn [dev out]. apply runs_bind.
  eapply runs_mono; [apply Hdel|].
  - cbn [dev]. by rewrite mv_down_ports.
  - intros x s2 HQ. apply runs_ret. exact HQ.
Qed.

Lemma runs_do_del v (s : st D) p vs rest : removes -> mv_ports (dev s) = (p, v :: vs) :: rest ->
  runs (_do_del env v) s (fun _ s' => mv_ports (dev s') = (p, vs) :: rest).
Proof.
  intros [Hdel _] Hp. unfold _do_del, ioctl_.
  destruct (Hdel (set_ifname v (set_cmd MACVLAN_DEL (me_req env))) (me_rep env) (dev s) p v vs rest eq_refl eq_refl Hp) as (r' & d' & E & Hp').
  apply runs_bind, runs_bind. eapply runs_ioctl_eq; [exact E|]. apply runs_ret. cbn [fst].
  apply runs_bind, runs_fprintf; [done|]. intros o. by apply runs_ret.
Qed.

Lemma runs_do_disable p (s : st D) rest : removes -> mv_ports (dev s) = (p, []) :: rest ->
  runs (_do_disable env p) s (fun _ s' => mv_ports (dev s') = rest).
Proof.
  intros [_ Hdis] Hp. unfold _do_disable, ioctl_.
  destruct (Hdis (set_ifname p (set_cmd MACVLAN_DISABLE (me_req env))) (me_rep env) (dev s) p rest eq_refl eq_refl Hp) as (r' & d' & E & Hp').
  apply runs_bind, runs_bind. eapply runs_ioctl_eq; [exact E|]. apply runs_ret. cbn [fst].
  apply runs_bind, runs_fprintf; [done|]. intros o. by apply runs_ret.
Qed.

(** The inner loop empties the first device. *)
Lemma unload_vlans_run fuel : forall vs acc (s : st D) p rest, removes -> (length vs < fuel)%nat ->
  mv_ports (dev s) = (p, vs) :: rest ->
  runs (while_ fuel acc (unload_vlan env)) s (fun x s' => (exists acc', x = inl acc') /\ mv_ports (dev s') = (p, []) :: rest).
Proof.
  induction fuel as [|fuel IH]; intros vs acc s p rest Hr Hf Hp; [lia|]. cbn [while_]. apply runs_bind.
  destruct vs as [|v vs].
  - destruct acc as [q r]. unfold unload_vlan. apply runs_bind. eapply runs_mono; [apply (runs_num_vlans s p [] rest Hp)|].
    intros n s1 [-> Hd1]. cbn [length]. change (0 <? Z.of_nat 0) with false. cbn [negb]. apply runs_ret, runs_ret.
    split; [by eexists|]. by rewrite Hd1.
  - eapply unload_vlan_step; [exact Hp|]. intros q r s1 Hp1. eapply runs_mono; [by apply (runs_do_del v s1 p vs rest)|].
    intros x s2 Hp2. apply (IH vs); [done|cbn in Hf; lia|done].
Qed.

(** The outer loop removes the devices one after the other. *)
Lemma unload_ports_run inner ports : forall fuel acc (s : st D), removes -> (length ports < fuel)%nat ->
  Forall (fun p => (length (snd p) < inner)%nat) ports -> mv_ports (dev s) = ports ->
  runs (while_ fuel acc (unload_port env inner)) s (fun x s' => x = 0 /\ mv_ports (dev s') = []).
Proof.
  induction ports as [|[p vs] ports IH]; intros fuel acc s Hr Hf Hvs Hp; (destruct fuel as [|fuel]; [cbn in Hf; lia|]);
    cbn [while_]; apply runs_bind; destruct acc as [q r]; unfold unload_port; apply runs_bind;
    (eapply runs_mono; [apply runs_num_ports|]); intros n s1 [-> Hd1]; rewrite Hp.
  - cbn [length]. change (0 <? Z.of_nat 0) with false. cbn [negb]. apply runs_ret, runs_ret. by rewrite Hd1.
  - rewrite (proj2 (Z.ltb_lt 0 _)) by (cbn [length]; lia). cbn [negb]. apply Forall_cons_iff in Hvs as [Hv Hvs]. cbn in Hv.
    rewrite <- Hd1 in Hp.
    destruct (mv_port_name (set_portidx 0 (set_cmd MACVLAN_GET_PORT_NAME q)) r (dev s1) p vs ports eq_refl eq_refl Hp)
      as (k & tl & E & Hn & Hlen).
    apply runs_bind. eapply runs_ioctl_eq; [exact E|]. cbn [fst snd name]. apply runs_bind.
    exists p, (mkst (out s1) (dev s1)). split.
    { unfold strcpy. rewrite (bind_ret_run _ _ _ _ _ (c_str_name p tl _ Hn)). by rewrite (proj2 (Z.leb_gt 64 _)) by lia. }
    apply runs_bind. eapply runs_mono; [by apply (unload_vlans_run inner vs _ _ p ports)|].
    intros y s2 [[acc' ->] Hp2]. apply runs_bind. eapply runs_mono; [by apply (runs_do_disable p s2 ports)|].
    intros v s3 Hp3. apply runs_ret. apply IH; [done|cbn in Hf; lia|done|done].
Qed.

(** A driver that keeps its VLANs keeps the inner loop going. *)
Lemma unload_vlans_spin fuel : forall acc (s : st D) p v vs rest, keeps_vlans -> mv_ports (dev s) = (p, v :: vs) :: rest ->
  fst (while_ fuel acc (unload_vlan env) s) = OutOfFuel.
Proof.
  induction fuel as [|fuel IH]; intros acc s p v vs rest Hk Hp; cbn [while_]; [done|].
  assert (runs (unload_vlan env acc) s (fun x s' => (exists acc', x = inl acc') /\ mv_ports (dev s') = (p, v :: vs) :: rest)) as H.
  { eapply unload_vlan_step; [exact Hp|]. intros q r s1 Hp1. unfold _do_del, ioctl_.
    destruct (Hk (set_ifname v (set_cmd MACVLAN_DEL (me_req env))) (me_rep env) (dev s1) eq_refl) as (en & r' & d' & E & Hp').
    apply runs_bind, runs_bind. eapply runs_ioctl_eq; [exact E|]. apply runs_ret. cbn [fst].
    apply runs_bind, runs_fprintf; [done|]. intros o. apply runs_bind. unfold perror. apply runs_eprintf. apply runs_ret.
    split; [by eexists|]. cbn [dev]. by rewrite Hp'. }
  destruct H as (x & s' & E & [acc' ->] & Hp'). rewrite (bind_ret_run _ _ _ _ _ E). by apply (IH acc' s' p v vs rest).
Qed.

(** C0: [macvlan_config unload] ends with every VLAN and every device removed, when
    the module removes what it is asked to; one more round than there are devices
    and than each has VLANs is enough. When the module refuses to remove VLANs,
    the command tries the first one for ever. *)
Theorem unload_removes_everything (prog : string) (fuel : nat) (s : st D) :
  me_socket env = None ->
  (removes -> (length (mv_ports (dev s)) < fuel)%nat -> Forall (fun p => (length (snd p) < fuel)%nat) (mv_ports (dev s)) ->
     runs (main env fuel [prog; "unload"]) s (fun x s' => x = 0 /\ mv_ports (dev s') = [])) /\
  (keeps_vlans -> (exists p v vs rest, mv_ports (dev s) = (p, v :: vs) :: rest) ->
     fst (main env fuel [prog; "unload"] s) = OutOfFuel).
Proof.
  intros Hsock. unfold main, argc, argv, find_command, command_list. cbn [length nth List.find c_name streq tail].
  change (Z.of_nat 2 <? 2) with false. cbn iota. split.
  - intros Hr Hf Hvs. apply runs_bind. cbn [run_command]. unfold run_command, do_unload, with_socket. rewrite Hsock.
    eapply runs_mono; [by apply (unload_ports_run fuel (mv_ports (dev s)) fuel)|]. intros x s' [-> Hp]. by apply runs_ret.
  - intros Hk (p & v & vs & rest & Hp). unfold run_command, do_unload, with_socket. rewrite Hsock.
    apply bind_oof. destruct fuel as [|fuel]; [done|]. cbn [while_]. apply bind_oof. unfold unload_port.
    destruct (runs_num_ports s) as (n & s1 & En & -> & Hd1). rewrite (bind_ret_run _ _ _ _ _ En).
    rewrite (proj2 (Z.ltb_lt 0 _)) by (rewrite Hp; cbn [length]; lia). cbn [negb]. rewrite <- Hd1 in Hp.
    destruct (mv_port_name (set_portidx 0 (set_cmd MACVLAN_GET_PORT_NAME (me_req env))) (me_rep env) (dev s1) p (v :: vs) rest
      eq_refl eq_refl Hp) as (k & tl & E & Hn & Hlen).
    rewrite (bind_ret_run _ _ s1 _ _ (run_ioctl_eq _ _ _ _ _ _ E)). cbn [fst snd name].
    assert (strcpy 64 (name_bytes p ++ 0 :: tl) (mkst (out s1) (dev s1)) = (Ret p, mkst (out s1) (dev s1))) as Ec.
    { unfold strcpy. rewrite (bind_ret_run _ _ _ _ _ (c_str_name p tl _ Hn)). by rewrite (proj2 (Z.leb_gt 64 _)) by lia. }
    rewrite (bind_ret_run _ _ _ _ _ Ec). apply bind_oof. by apply (unload_vlans_spin _ _ _ p v vs rest).
Qed.
End unload.

(** *** A driver: devices and VLANs have one of two names each *)

Definition demo_port (b : bool) : string := if b then "eth0" else "eth1".
Definition demo_vlan (b : bool) : string := if b then "eth0#1" else "eth0#2".
Definition demo_macvlan : Type := list (bool * list bool).
Definition demo_name (s : string) : macvlan_ioctl_reply := mk_rep 0 (name_bytes s ++ 0 :: replicate 8 0).

Definition demo_mv_ioctl (refuse : bool) (q : macvlan_ioctl) (r : macvlan_ioctl_reply) (d : demo_macvlan)
    : option Z * macvlan_ioctl_reply * demo_macvlan :=
  match cmd q, d with
  | MACVLAN_GET_NUM_PORTS, _ => (None, mk_rep (Z.of_nat (length d)) [], d)
  | MACVLAN_GET_PORT_NAME, (p, _) :: _ => (None, demo_name (demo_port p), d)
  | MACVLAN_GET_NUM_VLANS, (_, vs) :: _ => (None, mk_rep (Z.of_nat (length vs)) [], d)
  | MACVLAN_GET_VLAN_NAME, (_, v :: _) :: _ => (None, demo_name (demo_vlan v), d)
  | MACVLAN_DEL, (p, v :: vs) :: rest =>
      if (negb refuse && streq (ifname q) (demo_vlan v))%bool then (None, r, (p, vs) :: rest) else (Some 16, r, d)
  | MACVLAN_DISABLE, (p, []) :: rest => if streq (ifname q) (demo_port p) then (None, r, rest) else (Some 16, r, d)
  | MACVLAN_BIND, _ => (None, mk_rep 0 (macaddr q), d)
  | _, _ => (Some 22, r, d)
  end.
Definition demo_kernel (refuse : bool) : MacvlanKernel demo_macvlan :=
  {| mv_ioctl := demo_mv_ioctl refuse; mv_down := fun _ d => d |}.
Definition demo_view (d : demo_macvlan) : list (string * list string) := List.map (fun x => (demo_port (fst x), List.map demo_vlan (snd x))) d.

Lemma demo_names b : (is_name (demo_port b) /\ strlen (demo_port b) < 64) /\ is_name (demo_vlan b) /\ strlen (demo_vlan b) < 64.
Proof. destruct b; repeat split; try reflexivity; repeat constructor; discriminate. Qed.

Definition demo_driver (refuse : bool) : @MacvlanDriver demo_macvlan (demo_kernel refuse).
Proof.
  refine (@Build_MacvlanDriver _ (demo_kernel refuse) demo_view _ _ _ _ _).
  - intros q r d Hc. eexists. cbn. unfold demo_mv_ioctl, demo_view. rewrite Hc, List.length_map. done.
  - intros q r d p vs rest Hc _ Hd. destruct d as [|[b bs] d]; [done|]. injection Hd as <- <- <-. exists 0, (replicate 8 0).
    cbn [mv_ioctl demo_kernel]. unfold demo_mv_ioctl. rewrite Hc. split; [done|]. apply (demo_names b).
  - intros q r d p vs rest Hc _ Hd. destruct d as [|[b bs] d]; [done|]. injection Hd as <- <- <-. eexists.
    cbn [mv_ioctl demo_kernel]. unfold demo_mv_ioctl. rewrite Hc, List.length_map. done.
  - intros q r d p v vs rest Hc _ _ Hd. destruct d as [|[b [|v' bs]] d]; [done|done|]. injection Hd as <- <- <- <-. exists 0, (replicate 8 0).
    cbn [mv_ioctl demo_kernel]. unfold demo_mv_ioctl. rewrite Hc. split; [done|]. apply (demo_names v').
  - done.
Defined.

Definition demo_mv_env : mv_env :=
  Build_mv_env (mk_req MACVLAN_ENABLE "" 0 0 0 []) (mk_rep 0 []) 0 None (fun _ => "error").

Lemma demo_removes : @removes _ (demo_kernel false) (demo_driver false).
Proof.
  split.
  - intros q r d p v vs rest Hc Hi Hd. destruct d as [|[b [|v' bs]] d]; [done|done|]. injection Hd as <- <- <- <-.
    exists r. eexists. cbn [mv_ioctl demo_kernel]. unfold demo_mv_ioctl. rewrite Hc, Hi. unfold streq. rewrite String.eqb_refl. done.
  - intros q r d p rest Hc Hi Hd. destruct d as [|[b [|v' bs]] d]; [done| |done]. injection Hd as <- <-.
    exists r. eexists. cbn [mv_ioctl demo_kernel]. unfold demo_mv_ioctl. rewrite Hc, Hi. unfold streq. rewrite String.eqb_refl. done.
Qed.

Lemma demo_keeps : @keeps_vlans _ (demo_kernel true) (demo_driver true).
Proof.
  intros q r d Hc. cbn [mv_ioctl demo_kernel]. unfold demo_mv_ioctl. rewrite Hc. cbn [negb andb].
  destruct d as [|[b [|v' bs]] d]; eauto.
Qed.

Definition demo_tree : demo_macvlan := [(true, [true; false]); (false, [])].

Lemma bind_roundtrip_witness :
  Forall is_byte [0; 17; 34; 171; 205; 255] /\
  wp (@main _ (demo_kernel false) ILP32 demo_mv_env 3 ["macvlan_config"; "bind"; "eth0#1"; "00:11:22:ab:cd:ff"]) (mkst [] demo_tree)
    (fun x s' => dev s' = demo_tree /\ x = Ret 0).
Proof.
  assert (Forall is_byte [0; 17; 34; 171; 205; 255]) as Hb by (repeat constructor; unfold is_byte; lia).
  split; [exact Hb|].
  exact (@bind_roundtrip _ (demo_kernel false) ILP32 demo_mv_env 3 "macvlan_config" "eth0#1" 0 17 34 171 205 255 false
    (mkst [] demo_tree) Hb eq_refl).
Defined.

Lemma unload_removes_everything_witness :
  runs (@main _ (demo_kernel false) ILP32 demo_mv_env 3 ["macvlan_config"; "unload"]) (mkst [] demo_tree)
    (fun x s' => x = 0 /\ demo_view (dev s') = []) /\
  fst (@main _ (demo_kernel true) ILP32 demo_mv_env 100 ["macvlan_config"; "unload"] (mkst [] demo_tree)) = OutOfFuel.
Proof.
  split.
  - apply (@unload_removes_everything _ (demo_kernel false) (demo_driver false) ILP32 demo_mv_env "macvlan_config" 3 (mkst [] demo_tree) eq_refl).
    + exact demo_removes.
    + cbn. lia.
    + repeat constructor; cbn; lia.
  - apply (@unload_removes_everything _ (demo_kernel true) (demo_driver true) ILP32 demo_mv_env "macvlan_config" 100 (mkst [] demo_tree) eq_refl).
    + exact demo_keeps.
    + exists "eth0", "eth0#1", ["eth0#2"], [("eth1", [])]. reflexivity.
Defined.

(** ** Counting what arrives *)

Lemma wraps_add w a b : 0 < w -> wraps w (wraps w a + b) = wraps w (a + b).
Proof.
  intros Hw. unfold wraps. f_equal. replace ((a + 2 ^ (w - 1)) mod 2 ^ w - 2 ^ (w - 1) + b + 2 ^ (w - 1))
    with ((a + 2 ^ (w - 1)) mod 2 ^ w + b) by lia.
  rewrite Z.add_mod_idemp_l by (pose proof (Z.pow_pos_nonneg 2 w); lia). f_equal. lia.
Qed.

Section counting.
Import TestSuite.
Context (os : ts_os).

(** What a reading of the socket is: the bytes that arrived, none when there is
    nothing to read yet, and whether it failed for another reason. *)
Definition arrived (r : Z + list Z) : Z := match r with inr l => Z.of_nat (length l) | inl _ => 0 end.
Definition read_failed (r : Z + list Z) : bool := match r with inr _ => false | inl en => negb (en =? EWOULDBLOCK) end.

(** Round [k], counted from the reading [i] of the socket and [j] of the clock,
    goes on, or is the last one: a reading without data ends nothing. *)
Definition goes_on (starttime secs : Z) (i j k : nat) : Prop :=
  read_failed (os_read os (i + k)) = false /\ u64 (u64 (os_clock os (j + k)) - starttime) < u64 secs.
Definition is_last (starttime secs : Z) (i j k : nat) : Prop :=
  read_failed (os_read os (i + k)) = true \/ u64 secs <= u64 (u64 (os_clock os (j + k)) - starttime).

Lemma bytes_read_eq r : bytes_read r = arrived r - Z.b2z (read_failed r).
Proof. destruct r as [en|l]; cbn [bytes_read arrived read_failed]; [by destruct (en =? EWOULDBLOCK)|cbn; lia]. Qed.
Lemma read_ok r : read_failed r = false <-> 0 <= bytes_read r.
Proof. destruct r as [en|l]; cbn [bytes_read read_failed]; [destruct (en =? EWOULDBLOCK); cbn; split; done || lia|split; [lia|done]]. Qed.
Lemma read_bad r : read_failed r = true <-> bytes_read r < 0.
Proof. rewrite <- (not_false_iff_true (read_failed r)), read_ok. lia. Qed.

(** Data that fits the buffer. *)
Definition fits (size : Z) : Prop := forall k l, os_read os k = inr l -> Z.of_nat (length l) <= size.

Lemma runs_read size (s : st ts_w) (Q : Z + list Z -> st ts_w -> Prop) : fits size ->
  Q (os_read os (ts_reads (dev s))) (mkst (out s) (mk_ts (ts_log (dev s)) (ts_ticks (dev s)) (S (ts_reads (dev s))))) ->
  runs (read os size) s Q.
Proof.
  intros Hf HQ. unfold read. apply runs_devop. destruct (os_read os (ts_reads (dev s))) as [en|l] eqn:E; [done|].
  specialize (Hf _ _ E). by rewrite take_ge by lia.
Qed.

Lemma runs_more_time starttime secs (s : st ts_w) (Q : bool -> st ts_w -> Prop) :
  Q (u64 (u64 (os_clock os (ts_ticks (dev s))) - starttime) <? u64 secs)
    (mkst (out s) (mk_ts (ts_log (dev s)) (S (ts_ticks (dev s))) (ts_reads (dev s)))) ->
  runs (more_time os starttime secs) s Q.
Proof. intros HQ. unfold more_time, getseconds. apply runs_bind, runs_devop, runs_ret. done. Qed.

(** What a round adds: [weight] of the buffer times the bytes read. *)
Fixpoint counted (weight : list Z -> Z) (buf : list Z) (reads : list (Z + list Z)) : Z :=
  match reads with
  | [] => 0
  | r :: reads' => let buf' := RawRecv.into r buf in weight buf' * bytes_read r + counted weight buf' reads'
  end.
Definition raw_weight (buf : list Z) : Z := if RawRecv.is_test_frame buf then 2 else 1.
Definition reads (i n : nat) : list (Z + list Z) := (fun k => os_read os k) <$> seq i n.

Lemma counted_reads weight buf i n : counted weight buf (reads i (S n)) =
  weight (RawRecv.into (os_read os i) buf) * bytes_read (os_read os i) +
  counted weight (RawRecv.into (os_read os i) buf) (reads (S i) n).
Proof. done. Qed.

Lemma raw_loop_counts n : forall fuel starttime secs buf tot (s : st ts_w),
  fits 2048 -> (n < fuel)%nat ->
  (forall k, (k < n)%nat -> goes_on starttime secs (ts_reads (dev s)) (ts_ticks (dev s)) k) ->
  is_last starttime secs (ts_reads (dev s)) (ts_ticks (dev s)) n ->
  runs (while_ fuel (buf, tot) (fun acc =>
    let '(recvbuf, totbytes) := acc in
    r ← read os 2048;
    let bytesread := bytes_read r in
    let recvbuf := RawRecv.into r recvbuf in
    let totbytes := if RawRecv.is_test_frame recvbuf then s32 (totbytes + bytesread) else totbytes in
    let totbytes := s32 (totbytes + bytesread) in
    if bytesread <? 0 then mret (inr totbytes)
    else b ← more_time os starttime secs; mret (if b : bool then inl (recvbuf, totbytes) else inr totbytes))) s
    (fun t s' => t = s32 (tot + counted raw_weight buf (reads (ts_reads (dev s)) (S n))) /\ out s' = out s).
Proof.
  induction n as [|n IH]; intros fuel starttime secs buf tot s Hfit Hf Hgo Hlast; (destruct fuel as [|fuel]; [lia|]);
    cbn [while_]; apply runs_bind, runs_bind, runs_read; try done; set (r := os_read os (ts_reads (dev s))); cbn zeta;
    set (buf' := RawRecv.into r buf).
  - assert (s32 ((if RawRecv.is_test_frame buf' then s32 (tot + bytes_read r) else tot) + bytes_read r) =
      s32 (tot + counted raw_weight buf (reads (ts_reads (dev s)) 1))) as Ht.
    { rewrite counted_reads. fold r. fold buf'. change (counted _ _ (reads _ 0)) with 0. unfold raw_weight, s32.
      destruct (RawRecv.is_test_frame buf'); [rewrite wraps_add by lia|]; f_equal; lia. }
    destruct (Z.ltb_spec (bytes_read r) 0).
    + apply runs_ret, runs_ret. done.
    + apply runs_bind, runs_more_time. cbn [dev out ts_log ts_ticks ts_reads].
      unfold is_last in Hlast. rewrite !Nat.add_0_r in Hlast. fold r in Hlast. rewrite read_bad in Hlast.
      rewrite (proj2 (Z.ltb_ge _ _)) by lia. apply runs_ret, runs_ret. done.
  - destruct (Hgo 0%nat ltac:(lia)) as [Hr Ht]. rewrite !Nat.add_0_r in Hr, Ht. fold r in Hr. rewrite read_ok in Hr.
    rewrite (proj2 (Z.ltb_ge _ _)) by lia. apply runs_bind, runs_more_time. cbn [dev out ts_log ts_ticks ts_reads].
    rewrite (proj2 (Z.ltb_lt _ _)) by lia. apply runs_ret.
    eapply runs_mono; [apply IH; [done|lia| |]|].
    + intros k Hk. cbn [dev ts_reads ts_ticks]. specialize (Hgo (S k) ltac:(lia)). unfold goes_on in *. by rewrite <- !Nat.add_succ_comm in Hgo.
    + cbn [dev ts_reads ts_ticks]. unfold is_last in *. by rewrite <- !Nat.add_succ_comm in Hlast.
    + cbn [dev out ts_reads]. intros t s' [-> Ho]. split; [|done]. rewrite (counted_reads _ _ _ (S n)). fold r. fold buf'.
      set (c := counted raw_weight buf' _). unfold raw_weight, s32.
      destruct (RawRecv.is_test_frame buf'); rewrite wraps_add by lia; [rewrite <- Z.add_assoc, wraps_add by lia|]; f_equal; lia.
Qed.

Lemma mc_loop_counts n : forall fuel starttime secs tot (s : st ts_w),
  fits 1024 -> (n < fuel)%nat ->
  (forall k, (k < n)%nat -> goes_on starttime secs (ts_reads (dev s)) (ts_ticks (dev s)) k) ->
  is_last starttime secs (ts_reads (dev s)) (ts_ticks (dev s)) n ->
  runs (while_ fuel tot (fun totbytes =>
    r ← read os 1024;
    let bytesread := bytes_read r in
    let totbytes := s32 (totbytes + bytesread) in
    if bytesread <? 0 then mret (inr totbytes)
    else b ← more_time os starttime secs; mret (if b : bool then inl totbytes else inr totbytes))) s
    (fun t s' => t = s32 (tot + counted (fun _ => 1) [] (reads (ts_reads (dev s)) (S n))) /\ out s' = out s).
Proof.
  induction n as [|n IH]; intros fuel starttime secs tot s Hfit Hf Hgo Hlast; (destruct fuel as [|fuel]; [lia|]);
    cbn [while_]; apply runs_bind, runs_bind, runs_read; try done; set (r := os_read os (ts_reads (dev s))); cbn zeta.
  - assert (s32 (tot + bytes_read r) = s32 (tot + counted (fun _ => 1) [] (reads (ts_reads (dev s)) 1))) as Ht.
    { rewrite counted_reads. fold r. change (counted _ _ (reads _ 0)) with 0. f_equal. lia. }
    destruct (Z.ltb_spec (bytes_read r) 0).
    + apply runs_ret, runs_ret. done.
    + apply runs_bind, runs_more_time. cbn [dev out ts_log ts_ticks ts_reads].
      unfold is_last in Hlast. rewrite !Nat.add_0_r in Hlast. fold r in Hlast. rewrite read_bad in Hlast.
      rewrite (proj2 (Z.ltb_ge _ _)) by lia. apply runs_ret, runs_ret. done.
  - destruct (Hgo 0%nat ltac:(lia)) as [Hr Ht]. rewrite !Nat.add_0_r in Hr, Ht. fold r in Hr. rewrite read_ok in Hr.
    rewrite (proj2 (Z.ltb_ge _ _)) by lia. apply runs_bind, runs_more_time. cbn [dev out ts_log ts_ticks ts_reads].
    rewrite (proj2 (Z.ltb_lt _ _)) by lia. apply runs_ret.
    eapply runs_mono; [apply IH; [done|lia| |]|].
    + intros k Hk. cbn [dev ts_reads ts_ticks]. specialize (Hgo (S k) ltac:(lia)). unfold goes_on in *. by rewrite <- !Nat.add_succ_comm in Hgo.
    + cbn [dev ts_reads ts_ticks]. unfold is_last in *. by rewrite <- !Nat.add_succ_comm in Hlast.
    + cbn [dev out ts_reads]. intros t s' [-> Ho]. split; [|done]. rewrite (counted_reads _ _ _ (S n)). fold r.
      assert (forall l b1 b2, counted (fun _ => 1) b1 l = counted (fun _ => 1) b2 l) as Hb.
      { induction l as [|x l IHl]; intros b1 b2; [done|]. cbn [counted]. f_equal. apply IHl. }
      rewrite (Hb _ (RawRecv.into r []) []). unfold s32. rewrite wraps_add by lia. f_equal. lia.
Qed.

(** The bytes of the readings; the last may have failed. *)
Lemma counted_bytes n : forall i buf, (forall k, (k < n)%nat -> read_failed (os_read os (i + k)) = false) ->
  counted (fun _ => 1) buf (reads i (S n)) =
  fold_right Z.add 0 (arrived <$> reads i (S n)) - Z.b2z (read_failed (os_read os (i + n))).
Proof.
  induction n as [|n IH]; intros i buf Hok; rewrite counted_reads, bytes_read_eq.
  - rewrite Nat.add_0_r. change (counted _ _ (reads _ 0)) with 0. cbn [reads seq fmap list_fmap fold_right]. lia.
  - rewrite (IH (S i)) by (intros k Hk; rewrite Nat.add_succ_comm; apply Hok; lia). rewrite Nat.add_succ_comm.
    pose proof (Hok 0%nat ltac:(lia)) as H0. rewrite Nat.add_0_r in H0. rewrite H0.
    change (reads i (S (S n))) with (os_read os i :: reads (S i) (S n)). cbn [fmap list_fmap fold_right Z.b2z].
    set (l := fold_right _ _ _). lia.
Qed.

(** What a frame adds in rawrecv: its bytes, twice when it is for the address
    rawsend sends to. *)
Definition raw_count (r : Z + list Z) : Z :=
  match r with
  | inr l => (if bool_decide (take 6 l = take 6 RawSend.frame) then 2 else 1) * Z.of_nat (length l)
  | inl _ => 0
  end.
(** No reading fails, and frames have a destination address. *)
Definition whole_frames (i n : nat) : Prop := forall k, (k <= n)%nat ->
  match os_read os (i + k) with inr l => (6 <= length l)%nat | inl en => en = EWOULDBLOCK end.

Lemma counted_frames n : forall i buf, whole_frames i n ->
  counted raw_weight buf (reads i (S n)) = fold_right Z.add 0 (raw_count <$> reads i (S n)).
Proof.
  induction n as [|n IH]; intros i buf Hw; rewrite counted_reads;
    (assert (raw_weight (RawRecv.into (os_read os i) buf) * bytes_read (os_read os i) = raw_count (os_read os i)) as ->;
     [pose proof (Hw 0%nat ltac:(lia)) as H0; rewrite Nat.add_0_r in H0; destruct (os_read os i) as [en|l];
      [subst en; cbn; lia|unfold raw_weight, RawRecv.is_test_frame; cbn [RawRecv.into bytes_read raw_count];
       rewrite take_app_le by done; change (take 6 RawSend.frame) with [0x00; 0xff; 0xee; 0xdd; 0xcc; 0xbb];
       by case_bool_decide]|]).
  - by change (counted _ _ (reads _ 0)) with 0.
  - rewrite IH; [done|]. intros k Hk. rewrite Nat.add_succ_comm. apply Hw. lia.
Qed.

Section receivers.
Context `{DM : DataModel}.

Lemma pad_left_0 c x : pad_left c 0 x = x.
Proof. unfold pad_left. pose proof (strlen_nonneg x). by rewrite Z2Nat.nonpos by lia. Qed.

Lemma show_total_out total (s : st ts_w) : s32 total = total ->
  show_total total s = (Ret tt, mkst (Stdout (if truth total then (if total <? 0 then "-" else "") +:+ dec (Z.abs total) +:+ "bytes" +:+ nl
                                               else "none" +:+ nl) :: out s) (dev s)).
Proof.
  intros E. unfold show_total. destruct (truth total); [|done]. unfold fprintf.
  assert (sprintf "%dbytes\n" [PI total] = Some (pad_left (chr 32) 0 ((if s32 total <? 0 then "-" else "") +:+ dec (Z.abs (s32 total))) +:+ ("bytes" +:+ nl))) as -> by reflexivity.
  rewrite pad_left_0, E, str_app_assoc. done.
Qed.

Lemma runs_getseconds (s : st ts_w) (Q : Z -> st ts_w -> Prop) :
  Q (u64 (os_clock os (ts_ticks (dev s)))) (mkst (out s) (mk_ts (ts_log (dev s)) (S (ts_ticks (dev s))) (ts_reads (dev s)))) ->
  runs (getseconds os) s Q.
Proof. intros HQ. unfold getseconds. by apply runs_devop. Qed.

Lemma runs_op_ok x (s : st ts_w) (Q : option Z -> st ts_w -> Prop) : os_op os x = None ->
  Q None (mkst (out s) (mk_ts (x :: ts_log (dev s)) (ts_ticks (dev s)) (ts_reads (dev s)))) -> runs (op os x) s Q.
Proof. intros E HQ. unfold op. apply runs_devop. by rewrite E. Qed.

(** The line for a total. *)
Definition total_line (total : Z) : string :=
  if total =? 0 then "none" +:+ nl else (if total <? 0 then "-" else "") +:+ dec (Z.abs total) +:+ "bytes" +:+ nl.

(** C39: the receivers of the test suite count to the end of their time: with
    every call of the setup granted, they read the socket until the time is up or
    a reading fails, where having nothing to read is not a failure, and return 0.
    recvmc then shows the number of bytes that arrived (in 32 bits, and less one
    when the last reading failed). rawrecv, when no reading fails and every frame
    has at least the 6 bytes of its destination, shows the sum of the lengths
    (in 32 bits) where a frame to the address of rawsend counts twice and every
    other frame, which is not of the test, once. Frames fit the buffers. *)
Theorem receivers_report (n fuel : nat) (prog a1 a2 a3 secs : string) (s : st ts_w) :
  let i := ts_reads (dev s) in let j := ts_ticks (dev s) in
  let start := s32 (u64 (os_clock os j)) in
  let stops := (n < fuel)%nat /\ (forall k, (k < n)%nat -> goes_on start (atoi secs) i (S j) k) /\ is_last start (atoi secs) i (S j) n in
  os_socket os = None -> (forall x, os_op os x = None) ->
  (fits 1024 -> stops ->
     runs (RecvMc.main os fuel [prog; a1; a2; a3; secs]) s (fun v s' => v = 0 /\
       out s' = Stdout (total_line (s32 (fold_right Z.add 0 (arrived <$> reads i (S n)) -
                                         Z.b2z (read_failed (os_read os (i + n)))))) :: out s)) /\
  (fits 2048 -> stops -> strlen a1 < 16 -> (exists f, os_getflags os a1 = inr f) -> (exists x, os_ifindex os a1 = inr x) ->
   os_nonblock os = None -> whole_frames i n ->
     runs (RawRecv.main os fuel [prog; a1; a2; secs]) s (fun v s' => v = 0 /\
       out s' = Stdout (total_line (s32 (fold_right Z.add 0 (raw_count <$> reads i (S n))))) :: out s)).
Proof.
  intros i j start stops Hsock Hop.
  assert (forall x, s32 (s32 x) = s32 x) as Hss by (intros; apply wraps_small; [lia|apply wraps_range; lia]).
  assert (forall x, (if truth x then (if x <? 0 then "-" else "") +:+ dec (Z.abs x) +:+ "bytes" +:+ nl else "none" +:+ nl) =
    total_line x) as Hline by (intros x; unfold truth, total_line; by destruct (x =? 0)).
  split.
  - intros Hfit (Hf & Hgo & Hlast). unfold RecvMc.main, or_exit. cbn [length]. change (Z.of_nat 5 <? 5) with false. cbn iota.
    rewrite Hsock. cbn [argv nth]. apply runs_bind, runs_ret.
    do 3 (apply runs_bind, runs_op_ok; [apply Hop|]; apply runs_bind, runs_ret).
    apply runs_bind, runs_getseconds. cbn [dev out ts_log ts_ticks ts_reads]. apply runs_bind.
    eapply runs_mono; [apply (mc_loop_counts n fuel start (atoi secs) 0); try done|]. intros t s' [-> Ho].
    cbn [dev out ts_log ts_ticks ts_reads] in *. fold i. rewrite counted_bytes by (intros k Hk; by apply Hgo).
    rewrite Z.add_0_l. apply runs_bind. eexists _, _. split; [apply show_total_out, Hss|].
    apply runs_ret. split; [done|]. cbn [out]. by rewrite Ho, Hline.
  - intros Hfit (Hf & Hgo & Hlast) Hlen [f Hflags] [x Hidx] Hnb Hframes. unfold RawRecv.main, need, RawRecv.raw_init, or_exit.
    cbn [lookup list_lookup]. rewrite Hsock, Hnb. unfold IFNAMSIZ. rewrite (proj2 (Z.leb_gt 16 _)) by done.
    rewrite Hflags, Hidx. apply runs_bind. apply runs_bind, runs_op_ok; [apply Hop|]. apply runs_bind, runs_ret, runs_ret.
    apply runs_bind, runs_getseconds. cbn [dev out ts_log ts_ticks ts_reads]. apply runs_bind.
    eapply runs_mono; [apply (raw_loop_counts n fuel start (atoi secs) (replicate 4096 0) 0); try done|]. intros t s' [-> Ho].
    cbn [dev out ts_log ts_ticks ts_reads] in *. fold i. rewrite counted_frames by done.
    rewrite Z.add_0_l. apply runs_bind. eexists _, _. split; [apply show_total_out, Hss|].
    apply runs_ret. split; [done|]. cbn [out]. by rewrite Ho, Hline.
Qed.
End receivers.
End counting.

(** A clock that advances by a second with every reading, and a socket on which
    there is nothing, then a frame of rawsend, then one for another address. *)
Definition demo_ts : TestSuite.ts_os := TestSuite.Build_ts_os None (fun _ => None) Z.of_nat
  (fun k => match k with 0%nat => inl 11 | 1%nat => inr (take 512 TestSuite.RawSend.frame) | _ => inr (replicate 60 1) end)
  None (fun _ => true) (fun _ => []) (fun _ => 0) (fun _ => inr 0) (fun _ => inr 2) (fun _ => "error").

Lemma receivers_report_witness :
  runs (@TestSuite.RecvMc.main ILP32 demo_ts 3 ["recvmc"; "10.0.0.1"; "225.1.1.1"; "5555"; "3"]) (mkst [] (TestSuite.mk_ts [] 0 0))
    (fun v s' => out s' = [Stdout ("572bytes" +:+ nl)]) /\
  runs (@TestSuite.RawRecv.main ILP32 demo_ts 3 ["rawrecv"; "10.0.0.1"; "225.1.1.1"; "3"]) (mkst [] (TestSuite.mk_ts [] 0 0))
    (fun v s' => out s' = [Stdout ("1084bytes" +:+ nl)]).
Proof.
  assert (fits demo_ts 2048 /\ fits demo_ts 1024) as [Hf2 Hf1]
    by (split; intros [|[|k]] l [= <-]; vm_compute; discriminate).
  assert ((2 < 3)%nat /\ (forall k, (k < 2)%nat -> goes_on demo_ts 0 3 0 1 k) /\ is_last demo_ts 0 3 0 1 2) as Hstop.
  { split; [lia|]. split; [|right; vm_compute; discriminate].
    intros k Hk. destruct k as [|[|k]]; [split; vm_compute; congruence|split; vm_compute; congruence|lia]. }
  destruct (@receivers_report demo_ts ILP32 2 3 "recvmc" "10.0.0.1" "225.1.1.1" "5555" "3" (mkst [] (TestSuite.mk_ts [] 0 0)) eq_refl
    (fun _ => eq_refl)) as [H1 _].
  destruct (@receivers_report demo_ts ILP32 2 3 "rawrecv" "10.0.0.1" "225.1.1.1" "5555" "3" (mkst [] (TestSuite.mk_ts [] 0 0)) eq_refl
    (fun _ => eq_refl)) as [_ H2].
  split.
  - eapply runs_mono; [exact (H1 Hf1 Hstop)|]. intros v s' [_ Ho]. rewrite Ho. vm_compute. reflexivity.
  - eapply runs_mono; [apply H2; try done|].
    + by exists 0.
    + by exists 2.
    + intros [|[|k]] _; [reflexivity|vm_compute; lia|vm_compute; lia].
    + intros v s' [_ Ho]. rewrite Ho. vm_compute. reflexivity.
Defined.

(** ** The SPI converter *)

Section adc.
Import Adc.

(** The sample of two bytes: the upper 16 of its 24 bits. *)
Definition sample (b : Z * Z) : Z := 65536 * snd b + 256 * fst b.
Definition channel (b : Z * Z) : Z := if Z.testbit (snd b) 6 then 1 else 0.

Lemma sample_eq b : is_byte (fst b) -> is_byte (snd b) ->
  Z.lor (Z.shiftl (snd b) 16) (Z.shiftl (fst b) 8) = sample b /\
  (if truth (Z.land (sample b) SPI_DATA_CHANNEL_MASK) then 1 else 0) = channel b.
Proof.
  destruct b as [lo hi]. cbn [fst snd]. unfold is_byte. intros Hlo Hhi.
  assert (sample (lo, hi) = Z.lor (Z.shiftl hi 16) (Z.shiftl lo 8)) as E.
  { assert (Z.land (Z.shiftl hi 16) (Z.shiftl lo 8) = 0) as H0.
    { apply Z.bits_inj'. intros i Hi. rewrite Z.land_spec, Z.bits_0. destruct (Z.lt_ge_cases i 16); [by rewrite Z.shiftl_spec_low by lia|].
      rewrite !Z.shiftl_spec by lia. rewrite (testbit_high 8 lo) by lia. apply andb_false_r. }
    rewrite <- Z.lxor_lor, <- Z.add_nocarry_lxor, !Z.shiftl_mul_pow2 by (done || lia). unfold sample. cbn [fst snd]. lia. }
  split; [done|]. change SPI_DATA_CHANNEL_MASK with (2 ^ 22). rewrite land_pow2_testbit by lia. rewrite E, Z.lor_spec.
  rewrite !Z.shiftl_spec by lia. rewrite (testbit_high 8 lo) by lia. by rewrite orb_false_r.
Qed.

Lemma adc_read os k b (s : st nat) : dev s = k -> os_spi os k = Some b -> is_byte (fst b) -> is_byte (snd b) ->
  LTC2422_read os s = (Ret (Some (channel b, sample b)), mkst (out s) (S k)).
Proof.
  intros Hk Hb Hlo Hhi. unfold LTC2422_read, devop, mbind, M_bind. rewrite Hk, Hb. destruct b as [lo hi]. cbn [fst snd] in *.
  destruct (sample_eq (lo, hi) Hlo Hhi) as [E1 E2]. cbn [fst snd] in E1. by rewrite E1, E2.
Qed.

(** Reading the converter: the first sample is thrown away, and when the next
    two are of different channels, whatever their order, the program shows both
    codes and both voltages and returns 0. The raw value called A is that of
    channel 0, while the voltage called A is that of channel 1. *)
Theorem adc_shows_both_channels (os : adc_os) (k : nat) (b0 b1 b2 : Z * Z) (s : st nat) :
  dev s = k -> os_spi os k = Some b0 -> os_spi os (S k) = Some b1 -> os_spi os (S (S k)) = Some b2 ->
  Forall is_byte [fst b0; snd b0; fst b1; snd b1; fst b2; snd b2] -> channel b1 <> channel b2 -> length (os_array os) = 2%nat ->
  let code c := if channel b1 =? c then sample b1 else sample b2 in
  let volts c := fmt_f 6 4 (LTC2422_voltage (code c) LTC2422_lsb) in
  spi_read_adc os s = (Ret 0, mkst
    (Stdout ("     ADC B : " +:+ volts 0 +:+ " V" +:+ nl) :: Stdout ("     ADC A : " +:+ volts 1 +:+ " V" +:+ nl) ::
     Stdout ("     ADC B (raw)): 0x" +:+ hexU (code 1) +:+ nl) :: Stdout ("     ADC A (raw)): 0x" +:+ hexU (code 0) +:+ nl) :: out s)
    (S (S (S k)))).
Proof.
  intros Hk H0 H1 H2 Hb Hne Hlen code volts. rewrite !Forall_cons_iff in Hb. destruct Hb as (Ha & Hb & Hc & Hd & He & Hf & _).
  assert (forall b, is_byte (fst b) -> is_byte (snd b) -> 0 <= sample b < 2 ^ 32) as Hs by (unfold is_byte, sample; intros; lia).
  assert (forall c, 0 <= code c < 2 ^ 32) as Hcode by (intros c; unfold code; destruct (_ =? c); auto).
  assert (forall c (t : st nat), fprintf "     ADC A (raw)): 0x%X\n" [PI (code c)] t =
    (Ret tt, mkst (Stdout ("     ADC A (raw)): 0x" +:+ hexU (code c) +:+ nl) :: out t) (dev t))) as EA.
  { intros c t. unfold fprintf. assert (sprintf "     ADC A (raw)): 0x%X\n" [PI (code c)] =
      Some ("     ADC A (raw)): 0x" +:+ (pad_left (chr 32) 0 (hexU (u32 (code c))) +:+ nl))) as -> by reflexivity.
    rewrite pad_left_0, (wrapu_small 32) by apply Hcode. done. }
  assert (forall c (t : st nat), fprintf "     ADC B (raw)): 0x%X\n" [PI (code c)] t =
    (Ret tt, mkst (Stdout ("     ADC B (raw)): 0x" +:+ hexU (code c) +:+ nl) :: out t) (dev t))) as EB.
  { intros c t. unfold fprintf. assert (sprintf "     ADC B (raw)): 0x%X\n" [PI (code c)] =
      Some ("     ADC B (raw)): 0x" +:+ (pad_left (chr 32) 0 (hexU (u32 (code c))) +:+ nl))) as -> by reflexivity.
    rewrite pad_left_0, (wrapu_small 32) by apply Hcode. done. }
  assert (forall x (t : st nat), fprintf "     ADC A : %s V\n" [PS x] t = (Ret tt, mkst (Stdout ("     ADC A : " +:+ x +:+ " V" +:+ nl) :: out t) (dev t))) as VA.
  { intros x t. unfold fprintf. assert (sprintf "     ADC A : %s V\n" [PS x] = Some ("     ADC A : " +:+ (pad_left (chr 32) 0 x +:+ (" V" +:+ nl)))) as -> by reflexivity.
    by rewrite pad_left_0. }
  assert (forall x (t : st nat), fprintf "     ADC B : %s V\n" [PS x] t = (Ret tt, mkst (Stdout ("     ADC B : " +:+ x +:+ " V" +:+ nl) :: out t) (dev t))) as VB.
  { intros x t. unfold fprintf. assert (sprintf "     ADC B : %s V\n" [PS x] = Some ("     ADC B : " +:+ (pad_left (chr 32) 0 x +:+ (" V" +:+ nl)))) as -> by reflexivity.
    by rewrite pad_left_0. }
  unfold spi_read_adc. rewrite (bind_ret_run _ _ _ _ _ (adc_read os k b0 s Hk H0 Ha Hb)). cbn [reading].
  rewrite (bind_ret_run _ _ _ _ _ (adc_read os (S k) b1 (mkst (out s) (S k)) eq_refl H1 Hc Hd)). cbn [reading out].
  destruct (os_array os) as [|x0 [|x1 [|]]]; try done.
  assert (exists l1 l2, (forall t : st nat, store [x0; x1] (channel b1) (sample b1) t = (Ret l1, t)) /\
    (forall t : st nat, store l1 (channel b2) (sample b2) t = (Ret l2, t)) /\ l2 = [code 0; code 1]) as (l1 & l2 & E1 & E2 & ->).
  { unfold code, channel in *. destruct (Z.testbit (snd b1) 6), (Z.testbit (snd b2) 6); try done; eexists _, _; split; [done| |done|]; done. }
  rewrite (bind_ret_run _ _ _ _ _ (E1 _)), (bind_ret_run _ _ _ _ _ (adc_read os (S (S k)) b2 (mkst (out s) (S (S k))) eq_refl H2 He Hf)). cbn [reading out].
  rewrite (bind_ret_run _ _ _ _ _ (E2 _)). change (elem [code 0; code 1] 0) with (mret (code 0) : M nat Z).
  change (elem [code 0; code 1] 1) with (mret (code 1) : M nat Z).
  do 2 rewrite (bind_ret_run (mret _) _ _ _ _ eq_refl).
  rewrite (bind_ret_run _ _ _ _ _ (EA 0 _)), (bind_ret_run _ _ _ _ _ (EB 1 _)), (bind_ret_run _ _ _ _ _ (VA _ _)), (bind_ret_run _ _ _ _ _ (VB _ _)).
  cbn [out dev]. unfold volts, u32. by rewrite !(wrapu_small 32) by apply Hcode.
Qed.
End adc.

(** A converter that alternates between its channels. *)
Definition demo_adc : Adc.adc_os := Adc.Build_adc_os
  (fun k => Some (if Nat.even k then (0x34, 0x60) else (0x78, 0x2a))) 7 9 [0; 0].

Lemma adc_shows_both_channels_witness :
  Adc.spi_read_adc demo_adc (mkst [] 0%nat) = (Ret 0, mkst
    [Stdout ("     ADC B : " +:+ "3.2715" +:+ " V" +:+ nl); Stdout ("     ADC A : " +:+ "0.0635" +:+ " V" +:+ nl);
     Stdout ("     ADC B (raw)): 0x" +:+ "603400" +:+ nl); Stdout ("     ADC A (raw)): 0x" +:+ "2A7800" +:+ nl)] 3%nat).
Proof.
  assert (Forall is_byte [0x34; 0x60; 0x78; 0x2a; 0x34; 0x60]) as Hb by (repeat constructor; unfold is_byte; lia).
  rewrite (adc_shows_both_channels demo_adc 0 (0x34, 0x60) (0x78, 0x2a) (0x34, 0x60) (mkst [] 0%nat)
    eq_refl eq_refl eq_refl eq_refl Hb ltac:(vm_compute; discriminate) eq_refl).
  vm_compute. reflexivity.
Defined.

(** ** The latency test *)

Lemma strto_scan_dec10_app n r : 0 <= n -> stops r -> strto_scan 10 (dec n +:+ r) = Some (false, n, r).
Proof.
  intros Hn Hr. rewrite dec_app by done. set (f := S (Z.to_nat (Z.log2 n))).
  pose proof (fmt_base_fuel n Hn) as Hf. fold f in Hf.
  destruct (fmt_digits_head 10 ltac:(lia) f n r ltac:(unfold f; lia) Hf) as (d & q & E & Hd & Hz).
  destruct (digit_chr_facts d ltac:(lia)) as (_ & Hsp & Hm & Hp & H0).
  pose proof (scan_fmt_digits 10 ltac:(lia) f n r false ltac:(unfold f; lia) Hf) as Hs.
  rewrite (scan_digits_stops 10 r n Hr), E in Hs. rewrite E.
  unfold strto_scan. cbn [skip_while]. rewrite Hsp. cbn [scan_sign]. rewrite Hm, Hp.
  change (10 =? 0) with false. change (10 =? 16) with false. cbn [orb]. cbv iota beta. by rewrite Hs.
Qed.

Lemma atoi_dec `{DM : DataModel} n r : 0 <= n < 2 ^ 31 -> stops r -> atoi (dec n +:+ r) = n.
Proof.
  intros Hn Hr. unfold atoi, strtos. rewrite strto_scan_dec10_app by (done || lia).
  assert (2 ^ 31 <= 2 ^ (long_bits - 1)) by (destruct long_bits_cases as [-> | ->]; lia).
  rewrite (proj2 (Z.ltb_ge _ _)) by lia. cbn [sv]. apply wraps_small; lia.
Qed.

Lemma skip_digits f : forall n r, skip_while isdigit (fmt_digits f false 10 n r) = skip_while isdigit r.
Proof.
  induction f as [|f IH]; intros n r; cbn [fmt_digits]; [done|].
  pose proof (Z.mod_pos_bound n 10 ltac:(lia)).
  assert (forall x, skip_while isdigit (String (digit_chr false (n mod 10)) x) = skip_while isdigit x) as Hc.
  { intros x. cbn [skip_while]. by rewrite isdigit_chr by lia. }
  destruct (_ =? 0); [apply Hc|]. by rewrite IH, Hc.
Qed.

Lemma skip_dec n r : 0 <= n -> (match r with String c _ => isdigit c = false | _ => True end) ->
  skip_while isdigit (dec n +:+ r) = r.
Proof.
  intros Hn Hr. rewrite dec_app by done. rewrite skip_digits. destruct r as [|c r]; [done|]. cbn [skip_while]. by rewrite Hr.
Qed.

Lemma skip_blank_dec n r : 0 <= n -> skip_while isblank (dec n +:+ r) = dec n +:+ r.
Proof.
  intros Hn. rewrite dec_app by done. pose proof (fmt_base_fuel n Hn) as Hf.
  destruct (fmt_digits_head 10 ltac:(lia) (S (Z.to_nat (Z.log2 n))) n r ltac:(lia) Hf) as (d & q & E & Hd & _). rewrite E.
  cbn [skip_while]. destruct (digit_chr_facts d ltac:(lia)) as (_ & Hsp & _).
  assert (isblank (digit_chr false d) = false) as ->; [|done]. unfold isspace in Hsp. unfold isblank.
  apply orb_false_iff in Hsp as [H1 H2]. rewrite H1. cbn [orb]. apply Z.eqb_neq. intros E9. by rewrite E9 in H2.
Qed.

(** The line of the kernel's scheduler statistics reads back: three decimal
    numbers below 2^31 with single spaces give exactly these numbers, whatever
    follows them. *)
Theorem latency_stats_roundtrip `{DM : DataModel} (run wait nran : Z) (rest : string) :
  0 <= run < 2 ^ 31 -> 0 <= wait < 2 ^ 31 -> 0 <= nran < 2 ^ 31 -> stops rest ->
  Latency.get_stats (dec run +:+ " " +:+ dec wait +:+ " " +:+ dec nran +:+ rest) = (run, wait, nran).
Proof.
  intros Hr Hw Hn Hs. unfold Latency.get_stats.
  assert (forall n r, 0 <= n -> skip_while isblank (skip_while isdigit (dec n +:+ (" " +:+ r))) = skip_while isblank r) as Hskip.
  { intros n r Hn'. rewrite skip_dec by done. done. }
  assert (forall r, stops (" " +:+ r)) as Hst by (intros r; vm_compute; repeat split; congruence).
  rewrite skip_blank_dec by lia. rewrite atoi_dec by (done || apply Hst). rewrite Hskip by lia.
  rewrite skip_blank_dec by lia. rewrite atoi_dec by (done || apply Hst). rewrite Hskip by lia.
  rewrite skip_blank_dec by lia. rewrite atoi_dec by done. unfold u32. by rewrite !wrapu_small by lia.
Qed.

Lemma latency_stats_roundtrip_witness :
  stops nl /\ @Latency.get_stats ILP32 (dec 12 +:+ " " +:+ dec 0 +:+ " " +:+ dec 70000 +:+ nl) = (12, 0, 70000).
Proof.
  assert (stops nl) as H by (vm_compute; repeat split; congruence).
  split; [exact H|]. apply (@latency_stats_roundtrip ILP32 12 0 70000 nl); [lia|lia|lia|exact H].
Defined.
