(* ===== verification/NpLib.v ===== *)
(** * The control connection of netperf ([netperf-2.6.0/src/netlib.c])

    netperf and netserver exchange requests and responses of 164 integers over
    a stream. The two unions are lists of integers; what travels is their memory,
    in the byte order of the host. The code is that of the configuration in
    config.h; the stream the messages go to is the standard output. *)

From stdpp Require Import base list strings numbers.
From Stdlib Require Import ZArith Lia Ascii.
From S2P Require Import Prelude CInt CLib CFmt.

(** ** The state *)

(** What the kernel is asked for besides receiving and sending. *)
Inductive np_event : Type :=
| BindCpu (cpu : Z)
| CloseSock
| ShutdownSock.

(** The two messages, the bytes of the peer that were not received, the bytes
    that were sent (oldest first), how often [select], [recv] and [send] were
    called, the events (newest first) and the globals. *)
Record np_w := mk_np {
  np_req : list Z; np_resp : list Z;
  np_in : list Z; np_out : list Z;
  np_selects : nat; np_recvs : nat; np_sends : nat;
  np_log : list np_event;
  np_debug : Z; np_local_affinity : Z; np_remote_affinity : Z
}.

(** The host, and the answers of the kernel by number of the call: [select] with
    its [errno], how many bytes a [recv] gives at most or its [errno], the result
    of a [send] with its [errno], [sched_setaffinity] by processor. *)
Record np_os := {
  os_big : bool;
  os_select : nat -> Z * Z;
  os_recv : nat -> nat + Z;
  os_send : nat -> Z * Z;
  os_setaffinity : Z -> option Z;
  os_getpid : Z;
  os_strerror : Z -> string;
  os_address : string
}.

Definition MAXSPECDATA : nat := 162.
(** [sizeof(netperf_request) / 4] and [sizeof(netperf_request)]. *)
Definition msg_ints : nat := (2 + MAXSPECDATA)%nat.
Definition msg_bytes : nat := (4 * msg_ints)%nat.
Definition MAXCPUS : Z := 256.

(** The processors are numbered from 0 without gaps. *)
Definition lib_cpu_map : list Z := seqZ 0 MAXCPUS.

Definition set_req (a : list Z) (w : np_w) : np_w :=
  mk_np a (np_resp w) (np_in w) (np_out w) (np_selects w) (np_recvs w) (np_sends w) (np_log w)
    (np_debug w) (np_local_affinity w) (np_remote_affinity w).
Definition set_resp (a : list Z) (w : np_w) : np_w :=
  mk_np (np_req w) a (np_in w) (np_out w) (np_selects w) (np_recvs w) (np_sends w) (np_log w)
    (np_debug w) (np_local_affinity w) (np_remote_affinity w).
Definition add_event (e : np_event) (w : np_w) : np_w :=
  mk_np (np_req w) (np_resp w) (np_in w) (np_out w) (np_selects w) (np_recvs w) (np_sends w) (e :: np_log w)
    (np_debug w) (np_local_affinity w) (np_remote_affinity w).
Definition set_debug (d : Z) (w : np_w) : np_w :=
  mk_np (np_req w) (np_resp w) (np_in w) (np_out w) (np_selects w) (np_recvs w) (np_sends w) (np_log w)
    d (np_local_affinity w) (np_remote_affinity w).
Definition set_affinity (a : Z) (w : np_w) : np_w :=
  mk_np (np_req w) (np_resp w) (np_in w) (np_out w) (np_selects w) (np_recvs w) (np_sends w) (np_log w)
    (np_debug w) a (np_remote_affinity w).

(** ** Byte order *)

Definition int_bytes (big : bool) (x : Z) : list Z := if big then rev (le_bytes 4 x) else le_bytes 4 x.
(** [htonl] and [ntohl]. *)
Definition htonl (big : bool) (x : Z) : Z := if big then x else le_val (rev (le_bytes 4 x)).
(** The memory of an array of integers, and the array at some memory. *)
Definition mem_of (big : bool) (a : list Z) : list Z := a ≫= int_bytes big.
Fixpoint ints_of (big : bool) (m : list Z) : list Z :=
  match m with
  | b0 :: b1 :: b2 :: b3 :: m' => le_val (if big then [b3; b2; b1; b0] else [b0; b1; b2; b3]) :: ints_of big m'
  | _ => []
  end.
(** [memcpy(buf + off, data, len)]. *)
Definition put_bytes (off : nat) (data m : list Z) : list Z := take off m ++ data ++ drop (off + length data) m.

(** [for (i = first; i < limit; i++) a[i] = htonl(a[i])]. *)
Definition convert_range (big : bool) (first limit : nat) (a : list Z) : list Z :=
  foldl (fun a i => alter (htonl big) i a) a (seq first (limit - first)).

(** A [double] in a message: the four bytes from the ends inward are exchanged on
    a little-endian host, and both words are converted as the messages do. *)
Definition swap_ends (l : list Z) : list Z :=
  foldl (fun l i => match l !! i, l !! (7 - i)%nat with
                    | Some a, Some b => <[(7 - i)%nat := a]> (<[i := b]> l)
                    | _, _ => l
                    end) l [0; 1; 2; 3]%nat.
Definition swap_words (big : bool) (l : list Z) : list Z := mem_of big (htonl big <$> ints_of big l).
Definition htond (big : bool) (host_double : list Z) : list Z :=
  if big then host_double else swap_words big (swap_ends host_double).
Definition ntohd (big : bool) (net_double : list Z) : list Z :=
  if big then net_double else swap_ends (swap_words big net_double).

Section control.
Context (os : np_os).
Abbreviation P := (M np_w).

Definition getvar (f : np_w -> Z) : P Z := w ← getdev; mret (f w).
Definition get_debug : P Z := getvar np_debug.

(** ** Messages on demand *)

(** [%4.4s] of the memory of an integer is at most four characters. *)
Definition text4 (x : Z) : parg := PS (cstr (int_bytes (os_big os) x)).
Definition dump_row (counter : Z) (format : string) (a : list Z) : P unit :=
  x0 ← elem a counter; x1 ← elem a (counter + 1); x2 ← elem a (counter + 2); x3 ← elem a (counter + 3);
  fprintf format [PI counter; PI x0; PI x1; PI x2; PI x3; text4 x0; text4 x1; text4 x2; text4 x3].
Definition dump_request : P unit :=
  fprintf "request contents:\n" [];;
  w ← getdev;
  for_ 41 0 (fun k => dump_row (4 * k) "%d:\t%8x %8x %8x %8x \t|%4s| |%4s| |%4s| |%4s|\n" (np_req w)).
Definition dump_response : P unit :=
  fprintf "response contents\n" [];;
  w ← getdev;
  for_ 41 0 (fun k => dump_row (4 * k) "%d:\t%8x %8x %8x %8x \t>%4s< >%4s< >%4s< >%4s<\n" (np_resp w)).

(** ** The kernel *)

Definition perror (what : string) (en : Z) : P unit := eprintf (what +:+ ": " +:+ os_strerror os en +:+ nl).
Definition close_sock : P unit := setdev (add_event CloseSock).
Definition select : P (Z * Z) :=
  devop (fun w => (os_select os (np_selects w),
    mk_np (np_req w) (np_resp w) (np_in w) (np_out w) (S (np_selects w)) (np_recvs w) (np_sends w) (np_log w)
      (np_debug w) (np_local_affinity w) (np_remote_affinity w))).
(** At most [left] bytes of those that are left, at least one if there is one;
    none when the peer has shut the connection down; or the [errno]. *)
Definition recv (left : nat) : P (Z + list Z) :=
  devop (fun w =>
    let next i := mk_np (np_req w) (np_resp w) i (np_out w) (np_selects w) (S (np_recvs w)) (np_sends w) (np_log w)
      (np_debug w) (np_local_affinity w) (np_remote_affinity w) in
    match os_recv os (np_recvs w) with
    | inl limit => let k := Nat.min left (Nat.max 1 limit) in (inr (take k (np_in w)), next (drop k (np_in w)))
    | inr en => (inl en, next (np_in w))
    end).
(** The bytes of a message; the result and [errno]. *)
Definition send (m : list Z) : P (Z * Z) :=
  devop (fun w =>
    let r := os_send os (np_sends w) in
    (r, mk_np (np_req w) (np_resp w) (np_in w) (np_out w ++ take (Z.to_nat (fst r)) m) (np_selects w) (np_recvs w)
          (S (np_sends w)) (np_log w) (np_debug w) (np_local_affinity w) (np_remote_affinity w))).

Definition bind_to_specific_processor (processor_affinity use_cpu_map : Z) : P unit :=
  mapped_affinity ← (if truth use_cpu_map then elem lib_cpu_map processor_affinity else mret processor_affinity);
  debug ← get_debug;
  if u64 mapped_affinity <? 1024 then
    setdev (add_event (BindCpu mapped_affinity));;
    match os_setaffinity os mapped_affinity with
    | Some en => when (truth debug) (efprintf "failed to set PID %d's CPU affinity errno %d\n" [PI (os_getpid os); PI en])
    | None => mret tt
    end
  else when (truth debug) (eprintf (lit "CPU number larger than pre-compiled limits. Consider a recompile.\n")).

(** ** Sending *)

(** How many integers are converted. *)
Definition int_count (what : string) (n : Z) : P Z :=
  let count := if n <? 0 then Z.of_nat msg_ints else 2 + n in
  if Z.of_nat msg_ints <? count then
    debug ← get_debug;
    when (1 <? debug) (fprintf "WARNING, htonl conversion count of %d was larger than %s\n" [PI (count - 2); PS what]);;
    mret (Z.of_nat msg_ints)
  else mret count.

Definition convert_req (count : Z) (w : np_w) : np_w :=
  set_req (convert_range (os_big os) 0 (Z.to_nat count) (np_req w)) w.
Definition convert_resp (count : Z) (w : np_w) : np_w :=
  set_resp (convert_range (os_big os) 0 (Z.to_nat count) (np_resp w)) w.
(** [netperf_request.content.dummy = remote_proc_affinity]. *)
Definition put_affinity (w : np_w) : np_w := set_req (<[1%nat := u32 (np_remote_affinity w)]> (np_req w)) w.

Definition send_request_n (n : Z) : P unit :=
  count ← int_count "netperf_request" n;
  debug ← get_debug;
  when (1 <? debug)
    (fprintf "entered send_request_n...contents before %d htonls:\n" [PI count];; dump_request);;
  setdev put_affinity;;
  setdev (convert_req count);;
  when (1 <? debug)
    (fprintf "send_request_n...contents after %d htonls:\n" [PI count];;
     dump_request;;
     fprintf "\nsend_request: about to send %u bytes from %s\n" [PI (Z.of_nat msg_bytes); PS (os_address os)]);;
  w ← getdev;
  r ← send (mem_of (os_big os) (np_req w));
  if fst r =? Z.of_nat msg_bytes then mret tt
  else perror "send_request: send call failure" (snd r);; exit 1.

Definition send_request : P unit := setdev put_affinity;; send_request_n (-1).

Definition send_response_n (n : Z) : P unit :=
  count ← int_count "netperf_request" n;
  debug ← get_debug;
  when (1 <? debug)
    (fprintf "send_response_n: contents of %u ints before %d htonl,\n" [PI (Z.of_nat msg_ints); PI count];; dump_response);;
  setdev (convert_resp count);;
  when (1 <? debug)
    (fprintf "send_response_n: contents after htonl\n" [];;
     dump_response;;
     fprintf "about to send %u bytes from %s\n" [PI (Z.of_nat msg_bytes); PS (os_address os)]);;
  w ← getdev;
  r ← send (mem_of (os_big os) (np_resp w));
  if fst r =? Z.of_nat msg_bytes then mret tt
  else perror "send_response_n: send call failure" (snd r);; fprintf "BytesSent: %d\n" [PI (fst r)];; exit 1.

Definition send_response : P unit := send_response_n (-1).

(** ** Receiving *)

Definition fixup_request_n (n : Z) : P unit :=
  if n + 2 <? 0 then crash else
  setdev (fun w => set_req (convert_range (os_big os) (Z.to_nat (n + 2)) msg_ints (np_req w)) w);;
  debug ← get_debug;
  when (1 <? debug)
    (fprintf "%s: request contents after fixup at the %d th int\n" [PS "fixup_request_n"; PI n];; dump_request).

(** The bytes received go to the message from [tot_bytes_recvd] on. *)
Definition store_req (off : nat) (data : list Z) (w : np_w) : np_w :=
  set_req (ints_of (os_big os) (put_bytes off data (mem_of (os_big os) (np_req w)))) w.
Definition store_resp (off : nat) (data : list Z) (w : np_w) : np_w :=
  set_resp (ints_of (os_big os) (put_bytes off data (mem_of (os_big os) (np_resp w)))) w.

(** The loop of [recv_request_timed_n]: the bytes received and the last result of
    [recv] with its [errno], or a failed [select]. A round without data is the last
    one, so as many rounds as bytes and one more are enough. *)
Definition recv_round (tot_bytes_recvd : nat) : P (nat + (unit + nat * Z * Z)) :=
  r ← select;
  if negb (fst r =? 1) then
    fprintf "Issue receiving request on control connection. Errno %d (%s)\n" [PI (snd r); PS (os_strerror os (snd r))];;
    close_sock;;
    mret (inr (inl tt))
  else
    d ← recv (msg_bytes - tot_bytes_recvd);
    match d with
    | inl en => mret (inr (inr (tot_bytes_recvd, -1, en)))
    | inr data =>
        setdev (store_req tot_bytes_recvd data);;
        let tot := (tot_bytes_recvd + length data)%nat in
        if (negb (tot =? msg_bytes)%nat && (0 <? length data)%nat)%bool then mret (inl tot)
        else mret (inr (inr (tot, Z.of_nat (length data), 0)))
    end.
Definition recv_loop : P (unit + nat * Z * Z) := while_ (S msg_bytes) 0%nat recv_round.

Definition recv_request_timed_n (n seconds : Z) : P Z :=
  count ← int_count "netperf_request" n;
  r ← recv_loop;
  match r with
  | inl _ => mret (-1)
  | inr (tot_bytes_recvd, bytes_recvd, en) =>
      setdev (convert_req count);;
      debug ← get_debug;
      when (truth debug) (fprintf "recv_request: received %d bytes of request.\n" [PI (Z.of_nat tot_bytes_recvd)]);;
      if bytes_recvd =? -1 then
        fprintf "%s  errno %d\n" [PS "recv_request: error on recv"; PI en];; close_sock;; mret (-1)
      else if bytes_recvd =? 0 then
        when (truth debug) (fprintf "recv_request: remote requested shutdown of control\n" []);; close_sock;; mret 0
      else if (tot_bytes_recvd <? msg_bytes)%nat then
        when (1 <? debug) dump_request;;
        fprintf "recv_request: partial request received of %d bytes\n" [PI (Z.of_nat tot_bytes_recvd)];;
        close_sock;; mret (-1)
      else
        when (1 <? debug) dump_request;;
        w ← getdev;
        dummy ← elem (np_req w) 1;
        let affinity := s32 dummy in
        setdev (set_affinity affinity);;
        when (negb (affinity =? -1)) (bind_to_specific_processor affinity 0);;
        mret (Z.of_nat msg_bytes)
  end.
Definition recv_request_n (n : Z) : P Z := recv_request_timed_n n 0.
Definition recv_request : P Z := recv_request_n (-1).

(** The loop of [recv_response_timed_n]. *)
Definition recv_response_round (tot_bytes_recvd : nat) : P (nat + nat * Z * Z) :=
  d ← recv (msg_bytes - tot_bytes_recvd);
  match d with
  | inl en => mret (inr (tot_bytes_recvd, -1, en))
  | inr data =>
      setdev (store_resp tot_bytes_recvd data);;
      let tot := (tot_bytes_recvd + length data)%nat in
      if (negb (tot =? msg_bytes)%nat && (0 <? length data)%nat)%bool then mret (inl tot)
      else mret (inr (tot, Z.of_nat (length data), 0))
  end.
Definition recv_response_loop : P (nat * Z * Z) := while_ (S msg_bytes) 0%nat recv_response_round.

Definition recv_response_timed_n (addl_time n : Z) : P unit :=
  count ← int_count "netperf_response" n;
  setdev (set_resp (replicate msg_ints 0));;
  c ← select;
  if negb (fst c =? 1) then
    fprintf "%s: no response received. errno %d counter %d\n" [PS "recv_response_timed_n"; PI (snd c); PI (fst c)];; exit 1
  else
    r ← recv_response_loop;
    let '(tot_bytes_recvd, bytes_recvd, en) := r in
    debug ← get_debug;
    when (truth debug) (fprintf "recv_response: received a %d byte response\n" [PI (Z.of_nat tot_bytes_recvd)]);;
    setdev (convert_resp count);;
    if bytes_recvd =? -1 then perror "recv_response" en;; exit 1
    else if (tot_bytes_recvd <? msg_bytes)%nat then
      efprintf "recv_response: partial response received: %d bytes\n" [PI (Z.of_nat tot_bytes_recvd)];;
      when (1 <? debug) dump_response;;
      exit 1
    else when (1 <? debug) dump_response.
Definition recv_response_timed (addl_time : Z) : P unit := recv_response_timed_n addl_time (-1).
Definition recv_response : P unit := recv_response_timed_n 0 (-1).
Definition recv_response_n (n : Z) : P unit := recv_response_timed_n 0 n.

(** The end of the client: what the peer still sends is thrown away. *)
Definition shutdown_control (shutdown_errno : option Z) : P unit :=
  debug ← get_debug;
  when (truth debug) (fprintf "shutdown_control: shutdown of control connection requested.\n" []);;
  setdev (add_event ShutdownSock);;
  match shutdown_errno with
  | Some en => fprintf "%s  errno %d\n" [PS "shutdown_control: error in shutdown"; PI en];; exit 1
  | None =>
      c ← select;
      if negb (fst c =? 1) then fprintf "%s  errno %d\n" [PS "shutdown_control: no response received"; PI (snd c)];; exit 1
      else d ← recv msg_bytes;
           match d with inl _ => mret tt | inr data => setdev (store_resp 0 data) end
  end.
End control.
