(* ===== verification/NpServer.v ===== *)
(** * netserver and the requests of netperf ([netperf-2.6.0/src])

    [Server] is the event loop of netserver.c: one control connection, from the
    first request to the end of the connection. [Client] has the requests of
    netlib.c and netperf.c outside the tests. The tests themselves, on either
    side, are an argument. *)

From stdpp Require Import base list strings numbers.
From Stdlib Require Import ZArith Lia Ascii SpecFloat.
From S2P Require Import Prelude CInt CLib CFmt FloatTools NpLib.

(** ** Message types ([netlib.h]) *)

Definition DEBUG_ON : Z := 1.
Definition DEBUG_OFF : Z := 2.
Definition DEBUG_OK : Z := 3.
Definition CPU_CALIBRATE : Z := 5.
Definition PASSPHRASE : Z := 6.
Definition DO_TCP_STREAM : Z := 10.
Definition DO_TCP_RR : Z := 13.
Definition DO_UDP_STREAM : Z := 16.
Definition DO_UDP_RR : Z := 19.
Definition DO_TCP_CRR : Z := 34.
Definition DO_TCP_MAERTS : Z := 94.
Definition DO_OMNI : Z := 97.
Definition DO_TCP_CC : Z := 300.
Definition DO_SYSINFO : Z := 600.
Definition SYSINFO_RESPONSE : Z := 601.

(** The tests that are compiled in: [recv_tcp_stream], [recv_tcp_maerts], ... *)
Definition test_requests : list Z :=
  [DO_TCP_STREAM; DO_TCP_MAERTS; DO_TCP_RR; DO_TCP_CRR; DO_TCP_CC; DO_UDP_STREAM; DO_UDP_RR; DO_OMNI].

(** Bytes [test_specific_data] of a message. *)
Definition data_bytes : nat := (4 * MAXSPECDATA)%nat.

(** The bits of a [float]. *)
Definition float_bits (x : spec_float) : Z :=
  let sign (s : bool) := if s then 2 ^ 31 else 0 in
  match x with
  | S754_zero s => sign s
  | S754_infinity s => sign s + 255 * 2 ^ 23
  | S754_nan => 511 * 2 ^ 22
  | S754_finite s m e => sign s + (if Z.pos m <? 2 ^ 23 then Z.pos m else (e + 150) * 2 ^ 23 + (Z.pos m - 2 ^ 23))
  end.

(** What the program knows of its host, and its options. *)
Record sys_names := mk_names { n_sysname : string; n_release : string; n_machine : string; n_version : string }.
Definition names_list (n : sys_names) : list string := [n_sysname n; n_release n; n_machine n; n_version n].

Record np_env := {
  env_names : sys_names;
  env_cpus : Z;                     (* sysconf(_SC_NPROCESSORS_ONLN) *)
  env_passphrase : option string;
  env_suppress_debug : bool
}.

Section requests.
Context (os : np_os) (env : np_env).
Abbreviation P := (M np_w).

Definition get_num_cpus : P Z :=
  let temp_cpus := s32 (env_cpus env) in
  if MAXCPUS <? temp_cpus then
    fprintf "Sorry, this system has more CPUs (%d) than I can handle (%d).\nPlease alter MAXCPUS in netlib.h and recompile.\n"
      [PI temp_cpus; PI MAXCPUS];; exit 1
  else mret temp_cpus.
(** The rate and [lib_num_loc_cpus]; no way to measure is configured. *)
Definition calibrate_local_cpu (local_cpu_rate : spec_float) : P (spec_float * Z) :=
  n ← get_num_cpus;
  mret (if SFltb (S754_zero false) local_cpu_rate then local_cpu_rate else S754_zero false, n).

Definition put_resp (i : nat) (v : Z) : P unit := setdev (fun w => set_resp (<[i := u32 v]> (np_resp w)) w).
Definition put_req (i : nat) (v : Z) : P unit := setdev (fun w => set_req (<[i := u32 v]> (np_req w)) w).
(** [snprintf] to the data of the response. *)
Definition put_text (s : string) : P unit :=
  setdev (store_resp os 8 (str_bytes (str_take (data_bytes - 1) s) ++ [0])).
(** The data of a message as a string; it ends with the message at the latest. *)
Definition data_text (a : list Z) : string := cstr (drop 8 (mem_of (os_big os) a)).
Definition request_type : P Z := w ← getdev; t ← elem (np_req w) 0; mret (s32 t).
End requests.

Module Server.
Section server.
Context (os : np_os) (env : np_env) (run_test : Z -> M np_w unit).
Abbreviation P := (M np_w).

Definition recv_passphrase (passphrase : string) : P bool :=
  r ← recv_request_timed_n os 0 20;
  t ← request_type;
  w ← getdev;
  if ((0 <? r) && (t =? PASSPHRASE) && streq passphrase (data_text os (np_req w)))%bool then mret true
  else
    fprintf "Unable to match required passphrase.  Closing control connection\n" [];;
    close_sock;; mret false.

Definition delims : list ascii := ["|"; ","; "_"; ";"]%char.
Definition has_char (c : ascii) (s : string) : bool := strstr s (String c EmptyString).
(** Four strings, each with the delimiter in front. *)
Definition delimited (d : ascii) (l : list string) : string :=
  foldr (fun s t => String d (s +:+ t)) EmptyString l.
Definition sysinfo_text : string :=
  let l := names_list (env_names env) in
  match List.find (fun d => negb (existsb (has_char d) l)) delims with
  | Some d => delimited d l
  | None => delimited ";"%char (replicate 4 "NoDelimUnique")
  end.

Definition debug_on : P unit :=
  put_resp 0 DEBUG_OK;;
  when (negb (env_suppress_debug env))
    (setdev (fun w => set_debug (s32 (np_debug w + 1)) w);;
     debug ← get_debug;
     when (debug =? 1) (dump_request os));;
  send_response os.
Definition debug_off : P unit :=
  setdev (fun w => if truth (np_debug w) then set_debug (s32 (np_debug w - 1)) w else w);;
  put_resp 0 DEBUG_OK;;
  send_response os.
Definition sysinfo : P unit :=
  put_resp 0 SYSINFO_RESPONSE;; put_text os sysinfo_text;; send_response_n os 0.
Definition cpu_calibrate : P unit :=
  put_resp 0 CPU_CALIBRATE;;
  r ← calibrate_local_cpu env (S754_zero false);
  put_resp 2 (float_bits (fst r));;
  put_resp 3 (snd r);;
  debug ← get_debug;
  when (truth debug)
    (fprintf "netserver: sending CPU information: rate is %s num cpu %d\n" [PS "0"; PI (snd r)]);;
  send_response os.
Definition unknown_test (t : Z) : P unit :=
  fprintf "unknown test number %d\n" [PI t];; put_resp 1 998;; send_response os.

(** The [switch] of [process_requests]. *)
Definition dispatch (t : Z) : P unit :=
  if t =? DEBUG_ON then debug_on
  else if t =? DEBUG_OFF then debug_off
  else if t =? DO_SYSINFO then sysinfo
  else if t =? CPU_CALIBRATE then cpu_calibrate
  else if bool_decide (t ∈ test_requests) then run_test t
  else if t =? PASSPHRASE then
    debug ← get_debug;
    when (truth debug) (fprintf "Ignoring an unexpected passphrase control message\n" [])
  else unknown_test t.

Definition request_loop (fuel : nat) : P unit :=
  while_ fuel tt (fun _ =>
    r ← recv_request os;
    if r <=? 0 then close_sock;; mret (inr tt)
    else t ← request_type; dispatch t;; mret (inl tt)).

Definition process_requests (fuel : nat) : P unit :=
  debug ← get_debug;
  when (truth debug) (fprintf "%s: enter\n" [PS "process_requests"]);;
  match env_passphrase env with
  | None => request_loop fuel
  | Some p => ok ← recv_passphrase p; if ok : bool then request_loop fuel else mret tt
  end.
End server.
End Server.

Module Client.
Section client.
Context (os : np_os).
Abbreviation P := (M np_w).

(** [strtok] with one delimiter, from a position of the memory: the token, where
    the next search begins, and the memory with the delimiter overwritten. *)
Fixpoint span_not (d : Z) (l : list Z) : nat :=
  match l with b :: l' => if (b =? 0) || (b =? d) then 0%nat else S (span_not d l') | [] => 0%nat end.
Fixpoint skip_delims (d : Z) (l : list Z) : nat :=
  match l with b :: l' => if (b =? d) && negb (b =? 0) then S (skip_delims d l') else 0%nat | [] => 0%nat end.
Definition strtok (d : Z) (m : list Z) (pos : nat) : option string * nat * list Z :=
  let start := (pos + skip_delims d (drop pos m))%nat in
  let stop := (start + span_not d (drop start m))%nat in
  if (stop =? start)%nat then (None, start, m)
  else (Some (cstr (take (stop - start) (drop start m))),
        if nth stop m 0 =? 0 then stop else S stop,
        <[stop := 0]> m).

(** The text of the response, cut into four names; [strtok] must find its end. *)
Definition parse_names (m : list Z) : sys_names * list Z :=
  let d := nth 8 m 0 in
  let '(t1, p, m) := strtok d m 8 in
  let '(t2, p, m) := strtok d m p in
  let '(t3, p, m) := strtok d m p in
  let '(t4, p, m) := strtok d m p in
  (mk_names (default "UnknownRemoteSysname" t1) (default "UnknownRemoteRelease" t2)
     (default "UnknownRemoteMachine" t3) (default "UnknownRemoteVersion" t4), m).

Definition get_remote_system_info : P sys_names :=
  put_req 0 DO_SYSINFO;;
  send_request os;;
  recv_response_n os 0;;
  w ← getdev;
  serv_errno ← elem (np_resp w) 1;
  if serv_errno =? 0 then
    let m := mem_of (os_big os) (np_resp w) in
    if negb (existsb (Z.eqb 0) (drop 8 m)) then crash else
    let '(names, m) := parse_names m in
    setdev (set_resp (ints_of (os_big os) m));;
    mret names
  else mret (mk_names "UnknownRemoteSysname" "UnknownRemoteRelease" "UnknownRemoteMachine" "UnknownRemoteVersion").

(** The rate as the bits of a [float], and [lib_num_rem_cpus]. *)
Definition calibrate_remote_cpu : P (Z * option Z) :=
  put_req 0 CPU_CALIBRATE;;
  send_request os;;
  recv_response_timed os 40;;
  w ← getdev;
  serv_errno ← elem (np_resp w) 1;
  if serv_errno =? 0 then
    rate ← elem (np_resp w) 2; cpus ← elem (np_resp w) 3; mret (rate, Some (s32 cpus))
  else mret (0, None).

(** [strncpy] to the data of the request, and the first message of [main]. *)
Definition put_data (s : string) : P unit :=
  setdev (store_req os 8 (let b := take data_bytes (str_bytes s) in b ++ replicate (data_bytes - length b) 0)).
Definition send_passphrase (passphrase : string) : P unit :=
  put_req 0 PASSPHRASE;; put_data passphrase;; send_request_n os 0.
End client.
End Client.
