(* ===== verification/NpSh.v ===== *)
(** * Options of netperf and netserver ([netperf-2.6.0/src])

    dscp.c, the command lines of netsh.c and netserver.c, and the number parsing
    of netlib.c. The globals are maps from their names; the debugging level and
    the processors are those of [np_w]. Standard error and standard output are
    kept apart, the scanners of single tests are an argument. *)

From stdpp Require Import base list strings numbers gmap.
From Stdlib Require Import ZArith Lia Ascii SpecFloat.
From S2P Require Import Prelude CInt CLib CFmt FloatTools NpLib.

(** ** Numbers *)

(** [convert]: every suffix letter that occurs multiplies, in 32 bits. *)
Definition suffixes : list (string * Z) :=
  [("K", 1024); ("M", 1024 * 1024); ("G", 1024 * 1024 * 1024); ("k", 1000); ("m", 1000 * 1000); ("g", 1000 * 1000 * 1000)].
Definition convert `{DataModel} (s : string) : Z :=
  foldl (fun base '(letter, factor) => if strstr s letter then u32 (base * factor) else base) (u32 (atoi s)) suffixes.
Definition convert_timespec `{DataModel} (s : string) : Z :=
  let base := u32 (atoi s) in
  if strstr s "m" then u32 (base * 1000)
  else if strstr s "u" then u32 (base * 1)
  else if strstr s "s" then u32 (base * (1000 * 1000))
  else u32 (base * 1000).

(** [strtod], rounded once: the digits with their point, and the exponent. *)
Fixpoint scan_frac (base : Z) (s : string) (acc shift : Z) (any point : bool) : Z * Z * bool * string :=
  match s with
  | EmptyString => (acc, shift, any, s)
  | String c s' =>
      match digit_in base c with
      | Some d => scan_frac base s' (acc * base + d) (if point then shift - 1 else shift) true point
      | None => if (cc c =? 46) && negb point then scan_frac base s' acc shift any true else (acc, shift, any, s)
      end
  end.
(** The exponent after one of two letters; without digits there is none. *)
Definition scan_exponent (letters : Z * Z) (s : string) : Z :=
  match s with
  | String c s' =>
      if (cc c =? fst letters) || (cc c =? snd letters) then
        let '(neg, s1) := scan_sign s' in
        let '(v, any, _) := scan_digits 10 s1 0 false in
        if any : bool then (if neg : bool then - v else v) else 0
      else 0
  | EmptyString => 0
  end.
Definition signed (neg : bool) (m : Z) (k : positive -> spec_float) : spec_float :=
  match m with Z.pos p => k p | _ => S754_zero neg end.
Definition strtod (s : string) : spec_float :=
  let '(neg, s1) := scan_sign (skip_while isspace s) in
  match hex_prefix s1 with
  | Some s2 =>
      let '(m, shift, any, r) := scan_frac 16 s2 0 0 false false in
      let e := 4 * shift + scan_exponent (112, 80) r in
      signed neg m (fun p => binary_normalize 53 1024 (if neg then Z.neg p else Z.pos p) e neg)
  | None =>
      let '(m, shift, any, r) := scan_frac 10 s1 0 0 false false in
      let e := shift + scan_exponent (101, 69) r in
      if negb any then
        if String.prefix "inf" (smap tolower s1) then S754_infinity neg
        else if String.prefix "nan" (smap tolower s1) then S754_nan
        else S754_zero neg
      else signed neg m (fun p =>
        if 0 <=? e then binary_normalize 53 1024 ((if neg then Z.neg p else Z.pos p) * 10 ^ e) 0 neg
        else SFdiv 53 1024 (S754_finite neg p 0) (S754_finite false (Z.to_pos (10 ^ (- e))) 0))
  end.

Example strtod_ex1 : strtod " -12.5e-1x" = ddiv (double_of_Z (-5)) (double_of_Z 4). Proof. vm_compute. reflexivity. Qed.
Example strtod_ex2 : strtod "0x1.8p3" = double_of_Z 12. Proof. vm_compute. reflexivity. Qed.
Example strtod_ex3 : strtod "0.1" = ddiv (double_of_Z 1) (double_of_Z 10). Proof. vm_compute. reflexivity. Qed.
Example convert_ex1 : @convert ILP32 "32M" = 33554432. Proof. vm_compute. reflexivity. Qed.

(** ** Type of service ([dscp.c]) *)

Definition ipqos : list (string * Z) := [
  ("af11", 0x28); ("af12", 0x30); ("af13", 0x38); ("af21", 0x48); ("af22", 0x50); ("af23", 0x58); ("af31", 0x68); ("af32", 0x70);
  ("af33", 0x78); ("af41", 0x88); ("af42", 0x90); ("af43", 0x98); ("cs0", 0x00); ("cs1", 0x20); ("cs2", 0x40); ("cs3", 0x60);
  ("cs4", 0x80); ("cs5", 0xa0); ("cs6", 0xc0); ("cs7", 0xe0); ("ef", 0xb8); ("lowdelay", 0x10); ("throughput", 0x08);
  ("reliability", 0x04) ].
Definition parse_ipqos `{DataModel} (cp : string) : Z :=
  match List.find (fun q => strcasecmp cp (fst q)) ipqos with
  | Some (_, value) => value
  | None =>
      let r := strtos long_bits 0 cp in
      if (streq cp EmptyString || negb (streq (CLib.send r) EmptyString) || (sv r <? 0) || (255 <? sv r))%bool then -1 else sv r
  end.
Definition iptos2str (iptos : Z) : string :=
  let iptos := if (iptos <? 0) || (64 <? iptos) then 0 else iptos in
  match List.find (fun q => snd q =? iptos) ipqos with
  | Some (name, _) => name
  | None => "0x" +:+ hex0 2 iptos
  end.

(** ** Usage *)

Definition netserver_usage : string := "
Usage: netserver [options] 

Options:
    -h                Display this text
    -D                Do not daemonize
    -d                Increase debugging output
    -f                Do not spawn chilren for each test, run serially
    -L name,family    Use name to pick listen address and family for family
    -N                No debugging output, even if netperf asks
    -p portnum        Listen for connect requests on portnum.
    -4                Do IPv4
    -6                Do IPv6
    -v verbosity      Specify the verbosity level
    -V                Display version information and exit
    -Z passphrase     Expect passphrase as the first thing received

".
Definition netperf_usage1 : string := "
Usage: netperf [global options] -- [test options] 

Global options:
    -a send,recv      Set the local send,recv buffer alignment
    -A send,recv      Set the remote send,recv buffer alignment
    -B brandstr       Specify a string to be emitted with brief output
    -c [cpu_rate]     Report local CPU usage
    -C [cpu_rate]     Report remote CPU usage
    -d                Increase debugging output
    -D time,[units] * Display interim results at least every time interval
                      using units as the initial guess for units per second
                      A negative value for time will make heavy use of the
                      system's timestamping functionality
    -f G|M|K|g|m|k    Set the output units
    -F lfill[,rfill]* Pre-fill buffers with data from specified file
    -h                Display this text
    -H name|ip,fam *  Specify the target machine and/or local ip and family
    -i max,min        Specify the max and min number of iterations (15,1)
    -I lvl[,intvl]    Specify confidence level (95 or 99) (99) 
                      and confidence interval in percentage (10)
    -j                Keep additional timing statistics
    -l testlen        Specify test duration (>0 secs) (<0 bytes|trans)
    -L name|ip,fam *  Specify the local ip|name and address family
    -o send,recv      Set the local send,recv buffer offsets
    -O send,recv      Set the remote send,recv buffer offset
    -n numcpu         Set the number of processors for CPU util
    -N                Establish no control connection, do 'send' side only
    -p port,lport*    Specify netserver port number and/or local port
    -P 0|1            Don't/Do display test headers
    -r                Allow confidence to be hit on result only
    -s seconds        Wait seconds between test setup and test start
    -S                Set SO_KEEPALIVE on the data connection
    -t testname       Specify test to perform
    -T lcpu,rcpu      Request netperf/netserver be bound to local/remote cpu
    -v verbosity      Specify the verbosity level
    -W send,recv      Set the number of send,recv buffers
    -v level          Set the verbosity level (default 1, min 0)
    -V                Display the netperf version and exit
    -y local,remote   Set the socket priority
    -Y local,remote   Set the IP_TOS. Use hexadecimal.
    -Z passphrase     Set and pass to netserver a passphrase
".
Definition netperf_usage2 : string := "
For those options taking two parms, at least one must be specified;
specifying one value without a comma will set both parms to that
value, specifying a value with a leading comma will set just the second
parm, a value with a trailing comma will set just the first. To set
each parm to unique values, specify both and separate them with a
comma.

* For these options taking two parms, specifying one value with no comma
will only set the first parms and will leave the second at the default
value. To set the second value it must be preceded with a comma or be a
comma-separated pair. This is to retain previous netperf behaviour.
".

(** ** Globals *)

(** The world of a command line: [np_w], the integers, strings, numbers with a
    fraction and allocated strings by name, and what was asked of the resolver. *)
Record sh_w := mk_sh {
  sh_np : np_w;
  sh_int : gmap string Z;
  sh_str : gmap string string;
  sh_flt : gmap string spec_float;
  sh_ptr : gmap string string;
  sh_resolves : nat
}.
(** An entry of the answer of [getaddrinfo]; the address may be missing. *)
Record addrinfo := mk_ai {
  ai_flags : Z; ai_family : Z; ai_socktype : Z; ai_protocol : Z; ai_addrlen : Z;
  ai_canonname : option string; ai_addr : option (Z * list Z)
}.
Record sh_os := {
  sh_net : np_os;
  sh_malloc : Z -> bool;
  sh_getaddrinfo : nat -> string -> option string -> Z -> Z + list addrinfo;
  sh_gai_strerror : Z -> string
}.

Definition AF_UNSPEC : Z := 0.
Definition AF_INET : Z := 2.
Definition AF_INET6 : Z := 10.
Definition AF_RDS : Z := 21.
Definition AF_INET_SDP : Z := 27.
Definition SOCK_STREAM : Z := 1.
Definition SOCK_DGRAM : Z := 2.
Definition SOCK_SEQPACKET : Z := 5.
Definition SOCK_DCCP : Z := 6.
Definition NST_UNKN : Z := -1.
Definition IPPROTO_IP : Z := 0.
Definition IPPROTO_TCP : Z := 6.
Definition IPPROTO_UDP : Z := 17.
Definition IPPROTO_DCCP : Z := 33.
Definition IPPROTO_SCTP : Z := 132.
Definition IPPROTO_UDPLITE : Z := 136.
Definition NETPERF_XMIT : Z := 0x2.
Definition NETPERF_RECV : Z := 0x4.
Definition EAI_AGAIN : Z := -3.
Definition BUFSIZ : Z := 8192.
Definition HOSTNAMESIZE : Z := 255.
Definition PORTBUFSIZE : Z := 10.
Definition NETPERF_VERSION : string := "2.6.0".

(** The initial values that are not zero. *)
Definition init_ints : gmap string Z := list_to_map [
  ("print_headers", 1); ("verbosity", 1); ("shell_num_cpus", 1); ("test_time", 10);
  ("local_recv_align", 8); ("local_send_align", 8); ("remote_recv_align", 8); ("remote_send_align", 8);
  ("loc_dirty_count", -1); ("loc_clean_count", -1); ("rem_dirty_count", -1); ("rem_clean_count", -1);
  ("iteration_min", 1); ("iteration_max", 1);
  ("local_socket_prio", -1); ("remote_socket_prio", -1); ("local_socket_tos", -1); ("remote_socket_tos", -1);
  ("libfmt", 63); ("spawn_on_accept", 1); ("want_daemonize", 1) ].
Definition init_strs : gmap string string := list_to_map [
  ("test_name", "TCP_STREAM"); ("test_port", "12865"); ("local_test_port", "0"); ("listen_port", "12865") ].
Definition fzero : spec_float := S754_zero false.

Definition inet_ttos (type : Z) : string :=
  if type =? SOCK_DGRAM then "SOCK_DGRAM" else if type =? SOCK_STREAM then "SOCK_STREAM"
  else if type =? SOCK_DCCP then "SOCK_DCCP" else if type =? SOCK_SEQPACKET then "SOCK_SEQPACKET" else "SOCK_UNKNOWN".
(** The text for an unknown protocol is cut to 31 characters. *)
Definition inet_ptos (protocol : Z) : string :=
  if protocol =? IPPROTO_TCP then "IPPROTO_TCP" else if protocol =? IPPROTO_UDP then "IPPROTO_UDP"
  else if protocol =? IPPROTO_SCTP then "IPPROTO_SCTP" else if protocol =? IPPROTO_DCCP then "IPPROTO_DCCP"
  else if protocol =? IPPROTO_UDPLITE then "IPPROTO_UDPLITE"
  else str_take 31 ("IPPROTO_UNKNOWN(" +:+ default EmptyString (sprintf "%d" [PI protocol]) +:+ ")").
Definition inet_ftos (family : Z) : string :=
  if family =? AF_INET then "AF_INET" else if family =? AF_INET6 then "AF_INET6"
  else if family =? AF_INET_SDP then "AF_INET_SDP" else if family =? AF_RDS then "AF_RDS" else "AF_UNSPEC".

Section sh.
Context `{DM : DataModel} (os : sh_os).
Abbreviation P := (M sh_w).

Definition geti (n : string) : P Z := w ← getdev; mret (default 0 (sh_int w !! n)).
Definition seti (n : string) (z : Z) : P unit :=
  setdev (fun w => mk_sh (sh_np w) (<[n := z]> (sh_int w)) (sh_str w) (sh_flt w) (sh_ptr w) (sh_resolves w)).
Definition gets (n : string) : P string := w ← getdev; mret (default EmptyString (sh_str w !! n)).
Definition sets (n s : string) : P unit :=
  setdev (fun w => mk_sh (sh_np w) (sh_int w) (<[n := s]> (sh_str w)) (sh_flt w) (sh_ptr w) (sh_resolves w)).
Definition getf (n : string) : P spec_float := w ← getdev; mret (default fzero (sh_flt w !! n)).
Definition setf (n : string) (x : spec_float) : P unit :=
  setdev (fun w => mk_sh (sh_np w) (sh_int w) (sh_str w) (<[n := x]> (sh_flt w)) (sh_ptr w) (sh_resolves w)).
Definition getp (n : string) : P (option string) := w ← getdev; mret (sh_ptr w !! n).
Definition setp (n s : string) : P unit :=
  setdev (fun w => mk_sh (sh_np w) (sh_int w) (sh_str w) (sh_flt w) (<[n := s]> (sh_ptr w)) (sh_resolves w)).
(** The globals of the control connection. *)
Definition get_np {A} (f : np_w -> A) : P A := w ← getdev; mret (f (sh_np w)).
Definition set_np (f : np_w -> np_w) : P unit :=
  setdev (fun w => mk_sh (f (sh_np w)) (sh_int w) (sh_str w) (sh_flt w) (sh_ptr w) (sh_resolves w)).
Definition lift {A} (m : M np_w A) : P A := fun s =>
  let '(r, s') := m (mkst (out s) (sh_np (dev s))) in
  (r, mkst (out s') (mk_sh (dev s') (sh_int (dev s)) (sh_str (dev s)) (sh_flt (dev s)) (sh_ptr (dev s)) (sh_resolves (dev s)))).
Definition debugging (m : P unit) : P unit := d ← get_np np_debug; when (truth d) m.

(** [strncpy] to an array of [size] characters; one that is full has no end, and
    reading it as a string leaves it. *)
Definition put_array (n : string) (size : Z) (s : string) : P unit := sets n (str_take (Z.to_nat size) s).
Definition get_array (n : string) (size : Z) : P string := s ← gets n; if strlen s <? size then mret s else crash.

(** ** Arguments ([netsh.c]) *)

(** The parts are copied to arrays of [BUFSIZ] characters. *)
Definition fits (s : string) : P unit := if strlen s <? BUFSIZ then mret tt else crash.
(** The text before the separator, and after it if there is one. *)
Fixpoint split_at (sep : ascii) (s : string) : string * option string :=
  match s with
  | EmptyString => (EmptyString, None)
  | String c s' => if Ascii.eqb c sep then (EmptyString, Some s') else let '(a, b) := split_at sep s' in (String c a, b)
  end.
Definition break_args (s : string) : P (string * string) :=
  let '(a, b) := split_at ","%char s in
  let arg2 := default s b in
  fits arg2;; fits a;; mret (a, arg2).
Definition break_args_explicit_sep (s : string) (sep : ascii) : P (string * string) :=
  let '(a, b) := split_at sep s in
  let arg2 := default EmptyString b in
  fits arg2;; fits a;; mret (a, arg2).
Definition break_args_explicit (s : string) : P (string * string) := break_args_explicit_sep s ","%char.

Definition temp10 (s : string) : P string := if strlen s <? 10 then mret s else crash.
Definition parse_address_family (family_string : string) : P Z :=
  temp ← temp10 family_string;
  debugging (fprintf "Attempting to parse address family from %s derived from %s\n" [PS temp; PS family_string]);;
  if strstr temp "6" then mret AF_INET6
  else if strstr temp "inet" || strstr temp "4" then mret AF_INET
  else if strstr temp "af_rds" || strstr temp "32" then mret AF_RDS
  else if strstr temp "unspec" || strstr temp "0" then mret AF_UNSPEC
  else
    fprintf "WARNING! %s not recognized as an address family, using AF_UNPSEC\nAre you sure netperf was configured for that address family?\n"
      [PS family_string];;
    mret AF_UNSPEC.
Definition parse_socket_type (socket_string : string) : P Z :=
  temp ← temp10 socket_string;
  debugging (fprintf "Attempting to parse socket type from %s derived from %s\n" [PS temp; PS socket_string]);;
  mret (if strstr temp "stream" then SOCK_STREAM else if strstr temp "dgram" then SOCK_DGRAM else NST_UNKN).

(** One word of a direction. *)
Definition direction_word (arg1 : string) : Z :=
  if streq arg1 EmptyString then 0
  else if existsb (strcasecmp arg1) ["xmit"; "send"; "stream"; "transmit"] then NETPERF_XMIT
  else if existsb (strcasecmp arg1) ["recv"; "receive"; "maerts"] then NETPERF_RECV
  else if strcasecmp arg1 "rr" then Z.lor NETPERF_XMIT NETPERF_RECV
  else s32 (sv (strtos long_bits 0 arg1)).
(** Every call goes on with a shorter string. *)
Fixpoint parse_direction_ (fuel : nat) (direction_string : string) : P Z :=
  match fuel with
  | O => out_of_fuel
  | S f =>
      if streq direction_string EmptyString then mret 0
      else
        a ← break_args_explicit_sep direction_string "|"%char;
        right ← parse_direction_ f (snd a);
        mret (Z.lor (direction_word (fst a)) right)
  end.
Definition parse_direction (direction_string : option string) : P Z :=
  match direction_string with None => mret 0 | Some s => parse_direction_ (S (String.length s)) s end.

(** The protocol; a message of the debugging level shows the array. *)
Definition parse_protocol (protocol_string : string) : P Z :=
  let temp := str_take 10 protocol_string in
  debugging (t ← temp10 protocol_string; fprintf "Attempting to parse protocol from %s derived from %s\n" [PS t; PS protocol_string]);;
  if strcasecmp temp "tcp" then seti "socket_type" SOCK_STREAM;; mret IPPROTO_TCP
  else if strcasecmp temp "udp" then seti "socket_type" SOCK_DGRAM;; mret IPPROTO_UDP
  else if strcasecmp temp "sctp" then mret IPPROTO_SCTP
  else if strcasecmp temp "dccp" then seti "socket_type" SOCK_DCCP;; mret IPPROTO_DCCP
  else if strcasecmp temp "udplite" then seti "socket_type" SOCK_DGRAM;; mret IPPROTO_UDPLITE
  else mret IPPROTO_IP.

Definition print_netserver_usage : P unit := eprintf netserver_usage.
Definition print_netperf_usage : P unit := eprintf (netperf_usage1 +:+ netperf_usage2).
Definition convert_to_upper (source : string) : string := smap toupper source.

(** ** Names of hosts ([netlib.c]) *)

(** The bytes of an address are read up to [ai_addrlen], from the third one on. *)
Definition dump_addrinfo (info : list addrinfo) (host : string) (port : option string) (family : Z) : P unit :=
  fprintf "getaddrinfo returned the following for host '%s' port '%s'  family %s\n"
    [PS host; PS (default "(null)" port); PS (inet_ftos family)];;
  foldr (fun temp rest =>
    fprintf "\tcannonical name: '%s'\n\tflags: %x family: %s: socktype: %s protocol %s addrlen %d\n"
      [PS (default "(nil)" (ai_canonname temp)); PI (ai_flags temp); PS (inet_ftos (ai_family temp)); PS (inet_ttos (ai_socktype temp));
       PS (inet_ptos (ai_protocol temp)); PI (ai_addrlen temp)];;
    match ai_addr temp with
    | Some (sa_family, sa_data) =>
        fprintf "\tsa_family: %s sadata:" [PS (inet_ftos sa_family)];;
        for_ (Z.to_nat (ai_addrlen temp)) 0 (fun i =>
          b ← elem sa_data i;
          if ai_family temp =? AF_INET then fprintf " %d" [PI b] else fprintf " %s" [PS (hex0 2 b)]);;
        fprintf "\n" []
    | None => mret tt
    end;;
    rest) (mret tt) info.

Definition getaddrinfo (host : string) (port : option string) (family : Z) : P (Z + list addrinfo) :=
  devop (fun w => (sh_getaddrinfo os (sh_resolves w) host port family,
    mk_sh (sh_np w) (sh_int w) (sh_str w) (sh_flt w) (sh_ptr w) (S (sh_resolves w)))).
(** A name server that is busy is asked up to six times. *)
Definition resolve_host (hostname : string) (port : option string) (family : Z) : P (option (list addrinfo)) :=
  let show_port := PS (default "(null)" port) in
  debugging (fprintf "resolve_host called with host '%s' port '%s' family %s\n" [PS hostname; show_port; PS (inet_ftos family)]);;
  r ← while_ 6 0 (fun count =>
    r ← getaddrinfo hostname port family;
    match r with
    | inl error =>
        if error =? EAI_AGAIN then
          debugging (fprintf "Sleeping on getaddrinfo EAI_AGAIN\n" []);;
          mret (if count + 1 <=? 5 then inl (count + 1) else inr r)
        else mret (inr r)
    | inr _ => mret (inr r)
    end);
  match r with
  | inl error =>
      fprintf "%s: could not resolve host '%s' port '%s' af %s\n\tgetaddrinfo returned %d %s\n"
        [PS "resolve_host"; PS hostname; show_port; PS (inet_ftos family); PI error; PS (sh_gai_strerror os error)];;
      mret None
  | inr ai => debugging (dump_addrinfo ai hostname port family);; mret (Some ai)
  end.
(** ** The command line of netperf *)

Definition set_remote_affinity (a : Z) (w : np_w) : np_w :=
  mk_np (np_req w) (np_resp w) (np_in w) (np_out w) (np_selects w) (np_recvs w) (np_sends w) (np_log w)
    (np_debug w) (np_local_affinity w) a.
Definition nonempty (s : string) : bool := negb (streq s EmptyString).
(** [v = convert(s)], and the two halves of an argument where they are given. *)
Definition set_conv (n s : string) : P unit := seti n (s32 (convert s)).
Definition halves (a : P (string * string)) (first second : string -> P unit) : P unit :=
  p ← a; when (nonempty (fst p)) (first (fst p));; when (nonempty (snd p)) (second (snd p)).
Definition conv_pair (optarg first second : string) : P unit := halves (break_args optarg) (set_conv first) (set_conv second).
Definition add1 (n : string) : P unit := z ← geti n; seti n (s32 (z + 1)).
Definition set_family (n s : string) : P unit := f ← parse_address_family s; seti n f.
(** [if (interval == 0.0) interval = 0.05]. *)
Definition default_interval : P unit :=
  x ← getf "interval"; when (SFeqb x fzero) (setf "interval" (ddiv (double_of_Z 5) (double_of_Z 100))).
Definition fix_int (n : string) (f : Z -> bool) (z : Z) : P unit := x ← geti n; when (f x) (seti n z).
Definition set_passphrase (s : string) : P unit :=
  p ← getp "passphrase";
  if bool_decide (p = None) && negb (sh_malloc os 648) then crash else setp "passphrase" (str_take 647 s).

Definition opt_iterations (optarg : string) : P unit :=
  halves (break_args optarg) (set_conv "iteration_max") (set_conv "iteration_min");;
  mx ← geti "iteration_max"; mn ← geti "iteration_min";
  when (mx <? mn) (seti "iteration_max" mn);;
  fix_int "iteration_max" (fun x => x <? 3) 3;;
  fix_int "iteration_min" (fun x => x <? 3) 3;;
  fix_int "iteration_max" (fun x => 30 <? x) 30;;
  fix_int "iteration_min" (fun x => 30 <? x) 30;;
  fix_int "confidence_level" (fun x => x =? 0) 99;;
  default_interval.
Definition opt_confidence (optarg : string) : P unit :=
  a ← break_args optarg;
  when (nonempty (fst a)) (set_conv "confidence_level" (fst a));;
  level ← geti "confidence_level";
  if negb (level =? 95) && negb (level =? 99) then
    printf (lit "Only 95%% and 99%% confidence level is supported\n");; exit (-1)
  else
    when (nonempty (snd a)) (setf "interval" (SFdiv 53 1024 (strtod (snd a)) (double_of_Z 100)));;
    fix_int "iteration_min" (fun x => x =? 1) 3;;
    fix_int "iteration_max" (fun x => x =? 1) 10;;
    default_interval.
Definition opt_fill (optarg : string) : P unit :=
  halves (break_args_explicit optarg)
    (fun s => sets "local_fill_file" (str_take (Z.to_nat (BUFSIZ - 1)) s))
    (fun s => if 31 <? strlen s then
                efprintf "Remote fill file name must be less than %d characters\n" [PI 32];; exit (-1)
              else sets "remote_fill_file" (str_take 31 s)).
Definition opt_length (optarg : string) : P unit :=
  set_conv "test_time" optarg;; seti "test_trans" 0;; seti "test_bytes" 0;;
  t ← geti "test_time";
  when (t <? 0) (seti "test_bytes" (s32 (-1 * t));; seti "test_trans" (s32 (-1 * t));; seti "test_time" 0).
Definition opt_cpu (which : string) (rate : option string) : P unit :=
  match rate with Some s => setf (which +:+ "_cpu_rate") (float_of_double (strtod s)) | None => mret tt end;;
  add1 (which +:+ "_cpu_usage").
Definition opt_affinity (optarg : string) : P unit :=
  halves (break_args optarg)
    (fun s => set_np (set_affinity (s32 (convert s)));; lift (bind_to_specific_processor (sh_net os) (s32 (convert s)) 0))
    (fun s => set_np (set_remote_affinity (s32 (convert s))));;
  seti "cpu_binding_requested" 1.
Definition opt_tos (optarg : string) : P unit :=
  halves (break_args optarg) (fun s => seti "local_socket_tos" (parse_ipqos s))
    (fun s => seti "remote_socket_tos" (parse_ipqos s);;
              debugging (fprintf "Setting remote_socket_tos to 0x%x\n" [PI (parse_ipqos s)])).
Definition opt_brand (optarg : string) : P unit :=
  if sh_malloc os (strlen optarg + 1) then setp "result_brand" optarg
  else fprintf "Unable to malloc space for result brand\n" [].
Definition opt_burst (optarg : string) : P unit :=
  halves (break_args_explicit optarg) (fun _ => fprintf "Packet burst size is not compiled in. \n" [])
    (fun s => set_conv "remote_interval_burst" s;;
              u ← geti "remote_interval_usecs"; when (u =? 0) (seti "remote_interval_usecs" 1000)).

(** The [switch] of [scan_cmd_line]; [arg] is [optarg], or the word behind [-c]
    or [-C] that begins with a digit. *)
Definition scan_option (c : Z) (arg : option string) : P unit :=
  let optarg := default EmptyString arg in
  match chr c with
  | "?"%char | "h"%char => print_netperf_usage;; exit 1
  | "a"%char => conv_pair optarg "local_send_align" "local_recv_align"
  | "A"%char => conv_pair optarg "remote_send_align" "remote_recv_align"
  | "c"%char => opt_cpu "local" arg
  | "C"%char => opt_cpu "remote" arg
  | "d"%char => set_np (fun w => set_debug (s32 (np_debug w + 1)) w)
  | "D"%char => printf (lit "Sorry, Demo Mode not configured into this netperf.\nPlease consider reconfiguring netperf with\n--enable-demo=yes and recompiling\n")
  | "f"%char => seti "libfmt" (char_at0 optarg)
  | "F"%char => opt_fill optarg
  | "i"%char => opt_iterations optarg
  | "I"%char => opt_confidence optarg
  | "j"%char => seti "keep_histogram" 1;; seti "keep_statistics" 1
  | "k"%char | "K"%char => printf (lit "I don't know how to get dirty.\n")
  | "n"%char => seti "shell_num_cpus" (atoi optarg)
  | "N"%char => seti "no_control" 1
  | "o"%char => conv_pair optarg "local_send_offset" "local_recv_offset"
  | "O"%char => conv_pair optarg "remote_send_offset" "remote_recv_offset"
  | "P"%char => set_conv "print_headers" optarg
  | "r"%char => seti "result_confidence_only" 1
  | "S"%char => seti "want_keepalive" 1
  | "s"%char => set_conv "wait_time_secs" optarg
  | "t"%char => sets "test_name" (convert_to_upper (str_take (Z.to_nat (BUFSIZ - 1)) optarg))
  | "T"%char => opt_affinity optarg
  | "W"%char => conv_pair optarg "send_width" "recv_width"
  | "y"%char => conv_pair optarg "local_socket_prio" "remote_socket_prio"
  | "Y"%char => opt_tos optarg
  | "Z"%char => set_passphrase optarg
  | "l"%char => opt_length optarg
  | "v"%char => set_conv "verbosity" optarg
  | "p"%char => halves (break_args_explicit optarg) (put_array "test_port" PORTBUFSIZE) (put_array "local_test_port" PORTBUFSIZE)
  | "H"%char => halves (break_args_explicit optarg) (put_array "host_name" HOSTNAMESIZE) (set_family "address_family")
  | "L"%char => halves (break_args_explicit optarg) (put_array "local_host_name" HOSTNAMESIZE) (set_family "local_address_family")
  | "w"%char => halves (break_args_explicit optarg) (fun _ => fprintf "Packet rate control is not compiled in.\n" [])
                  (fun s => seti "remote_interval_usecs" (s32 (convert_timespec s)))
  | "b"%char => opt_burst optarg
  | "B"%char => opt_brand optarg
  | "4"%char => seti "address_family" AF_INET;; seti "local_address_family" AF_INET
  | "6"%char => seti "address_family" AF_INET6;; seti "local_address_family" AF_INET6
  | "V"%char => fprintf "Netperf version %s\n" [PS NETPERF_VERSION];; exit 0
  | _ => mret tt
  end.

Definition GLOBAL_CMD_LINE_ARGS : string := "A:a:b:B:CcdD:f:F:H:hi:I:jk:K:l:L:n:NO:o:P:p:rSs:t:T:v:VW:w:y:Y:Z:46".
(** [getopt] on the words behind the program; [-c] or [-C] at the end of a word
    take the next one if it begins with a digit. The results and the words left. *)
Fixpoint np_getopt (args : list string) : list optev * list string :=
  match args with
  | [] => ([], [])
  | a :: rest =>
      let more (evs : list optev) r := let '(es, ops) := np_getopt r in (evs ++ es, ops) in
      match a with
      | String c0 (String _ _ as body) =>
          if negb (cc c0 =? 45) then let '(es, ops) := np_getopt rest in (es, a :: ops)
          else if streq a "--" then ([], rest)
          else match short_cluster GLOBAL_CMD_LINE_ARGS body with
               | (evs, None) =>
                   match last evs, rest with
                   | Some (c, None), v :: rest' =>
                       if ((c =? 99) || (c =? 67)) && match v with String d _ => isdigit d | EmptyString => false end then
                         more (removelast evs ++ [(c, Some v)]) rest'
                       else more evs rest
                   | _, _ => more evs rest
                   end
               | (evs, Some c) => match rest with
                                  | v :: rest' => more (evs ++ [(cc c, Some v)]) rest'
                                  | [] => (evs ++ [opt_bad], [])
                                  end
               end
      | _ => let '(es, ops) := np_getopt rest in (es, a :: ops)
      end
  end.
Fixpoint scan_options (evs : list optev) : P unit :=
  match evs with [] => mret tt | (c, arg) :: evs' => scan_option c arg;; scan_options evs' end.

(** What stands for a host that is not named: by the family, or else by the other
    family. *)
Definition default_host (n v4 v6 : string) (family other address_family : Z) : P unit :=
  let bad := fprintf "Netperf does not understand %d as an address family\n" [PI address_family];; exit (-1) in
  let by_family f k := if (f =? AF_INET) || (f =? AF_RDS) then sets n v4 else if f =? AF_INET6 then sets n v6 else k in
  by_family family (if family =? AF_UNSPEC then by_family other (if other =? AF_UNSPEC then sets n v4 else bad) else bad).
Definition resolve_names : P unit :=
  host ← gets "host_name"; af ← geti "address_family"; laf ← geti "local_address_family";
  (if streq host EmptyString then default_host "host_name" "localhost" "::1" af laf af
   else
     host_name ← get_array "host_name" HOSTNAMESIZE;
     ai ← resolve_host host_name None af;
     match ai with
     | None => fprintf "Netperf could not resolve %s as a host name\n" [PS host_name];; exit (-1)
     | Some [] => crash
     | Some (a :: _) => seti "address_family" (ai_family a)
     end);;
  local ← gets "local_host_name"; af ← geti "address_family"; laf ← geti "local_address_family";
  when (streq local EmptyString) (default_host "local_host_name" "0.0.0.0" "::0" laf af af).

(** Without control connection there is nothing to tell the other side. *)
Definition reset_remote : P unit :=
  no_control ← geti "no_control";
  when (truth no_control)
    (seti "remote_socket_prio" (-1);; seti "remote_socket_tos" (-1);; seti "remote_recv_align" (-1);;
     seti "remote_send_align" (-1);; seti "remote_send_offset" (-1);; seti "remote_recv_offset" (-1);;
     setf "remote_cpu_rate" (float_of_Z (-1));; seti "remote_cpu_usage" 0).

(** The scanner of the options of a test. *)
Inductive test_scan : Type := ScanSockets | ScanOmni.
Definition is_rr (s : string) : bool := existsb (strstr s) ["RR"; "rr"; "Rr"; "rR"].
Definition choose_scan (test_name : string) : option test_scan :=
  if existsb (strcasecmp test_name) ["TCP_SENDFILE"; "TCP_CC"; "TCP_MSS"] then Some ScanSockets
  else if existsb (strcasecmp test_name) ["OMNI"; "TCP_STREAM"; "TCP_MAERTS"; "TCP_RR"; "TCP_CRR"; "UDP_STREAM"; "UDP_RR"; "UUID"]
  then Some ScanOmni else None.
Definition choose_units : P unit :=
  test_name ← gets "test_name"; libfmt ← geti "libfmt";
  when (negb (strcasecmp test_name "omni"))
    (if libfmt =? 63 then seti "libfmt" (if is_rr test_name then 120 else 109)
     else when ((libfmt =? 120) && negb (is_rr test_name)) (seti "libfmt" 109)).

Definition scan_cmd_line (scan_test : test_scan -> list string -> P unit) (argv : list string) : P unit :=
  match argv with
  | [] => crash
  | program :: args =>
      if negb (sh_malloc os (strlen program + 1)) then fprintf "malloc() to store program name failed!\n" [];; exit (-1)
      else
        setp "program" program;;
        let cmnd_len := foldr (fun a n => strlen a + n) 0 argv + Z.of_nat (length argv) in
        if negb (sh_malloc os (cmnd_len + 1)) then fprintf "malloc(%d) failed!\n" [PI cmnd_len];; exit (-1)
        else
          setp "command_line" (String.concat " " argv);;
          let '(evs, rest) := np_getopt args in
          scan_options evs;;
          resolve_names;;
          reset_remote;;
          test_name ← gets "test_name";
          match choose_scan test_name with Some which => scan_test which rest | None => mret tt end;;
          choose_units
  end.

Definition dump_globals : P unit :=
  let show f n := z ← geti n; fprintf f [PI z] in
  program ← getp "program";
  fprintf "Program name: %s\n" [PS (default "(null)" program)];;
  show "Local send alignment: %d\n" "local_send_align";;
  show "Local recv alignment: %d\n" "local_recv_align";;
  show "Remote send alignment: %d\n" "remote_send_align";;
  show "Remote recv alignment: %d\n" "remote_recv_align";;
  show "Local socket priority: %d\n" "local_socket_prio";;
  show "Remote socket priority: %d\n" "remote_socket_prio";;
  tos ← geti "local_socket_tos"; fprintf "Local socket TOS: %s\n" [PS (iptos2str tos)];;
  tos ← geti "remote_socket_tos"; fprintf "Remote socket TOS: %s\n" [PS (iptos2str tos)];;
  show "Report local CPU %d\n" "local_cpu_usage";;
  show "Report remote CPU %d\n" "remote_cpu_usage";;
  show "Verbosity: %d\n" "verbosity";;
  debug ← get_np np_debug; fprintf "Debug: %d\n" [PI debug];;
  port ← get_array "test_port" PORTBUFSIZE; fprintf "Port: %s\n" [PS port];;
  name ← gets "test_name"; fprintf "Test name: %s\n" [PS name];;
  b ← geti "test_bytes"; t ← geti "test_time"; x ← geti "test_trans";
  fprintf "Test bytes: %d Test time: %d Test trans: %d\n" [PI b; PI t; PI x];;
  host ← get_array "host_name" HOSTNAMESIZE; fprintf "Host name: %s\n" [PS host];;
  fprintf "\n" [].

(** ** The command line of netserver ([netserver.c]) *)

Definition SERVER_ARGS : string := "DdfhL:n:Np:v:VZ:46".
Definition server_option (c : Z) (arg : option string) : P unit :=
  let optarg := default EmptyString arg in
  match chr c with
  | "?"%char | "h"%char => print_netserver_usage;; exit 1
  | "d"%char => set_np (fun w => set_debug (s32 (np_debug w + 1)) w);; seti "suppress_debug" 0
  | "D"%char => seti "want_daemonize" 0;; seti "not_inetd" 1
  | "f"%char => seti "spawn_on_accept" 0;; seti "not_inetd" 1
  | "L"%char =>
      seti "not_inetd" 1;;
      halves (break_args_explicit optarg) (put_array "local_host_name" HOSTNAMESIZE) (set_family "local_address_family")
  | "n"%char =>
      seti "shell_num_cpus" (atoi optarg);;
      when (MAXCPUS <? atoi optarg)
        (efprintf "netserver: This version can only support %d CPUs. Pleaseincrease MAXCPUS in netlib.h and recompile.\n" [PI MAXCPUS];; exit 1)
  | "N"%char => seti "suppress_debug" 1;; set_np (set_debug 0)
  | "p"%char => put_array "listen_port" 10 optarg;; seti "not_inetd" 1
  | "Z"%char => set_passphrase optarg
  | "4"%char => seti "local_address_family" AF_INET
  | "6"%char => seti "local_address_family" AF_INET6
  | "v"%char => seti "verbosity" (atoi optarg)
  | "V"%char => fprintf "Netperf version %s\n" [PS NETPERF_VERSION];; exit 0
  | _ => mret tt
  end.
Fixpoint server_options (evs : list optev) : P unit :=
  match evs with [] => mret tt | (c, arg) :: evs' => server_option c arg;; server_options evs' end.
Definition scan_netserver_args (args : list string) : P unit :=
  debugging (fprintf "%s: enter\n" [PS "scan_netserver_args"]);;
  server_options (fst (getopt SERVER_ARGS args)).
(** Without an option that says otherwise, a socket as standard input means that
    inetd has started the program. *)
Definition check_if_inetd (stdin_is_socket : bool) : P unit :=
  debugging (fprintf "%s: enter\n" [PS "check_if_inetd"]);;
  not_inetd ← geti "not_inetd";
  when (negb (truth not_inetd)) (if stdin_is_socket then seti "not_inetd" 0;; seti "child" 1 else seti "not_inetd" 1).
End sh.
