(* ===== verification/NpStat.v ===== *)
(** * Buffers, statistics and identifiers of netperf ([netperf-2.6.0/src])

    The buffer rings, the histogram of hist.h, throughput, service demand and
    confidence of netlib.c, the counters of netcpu_procstat.c, and net_uuid.c. *)

From stdpp Require Import base list strings numbers.
From Stdlib Require Import ZArith Lia Ascii SpecFloat.
From S2P Require Import Prelude CInt CLib CFmt FloatTools NpLib.

Definition fadd : spec_float -> spec_float -> spec_float := SFadd 24 128.
Definition fdiv : spec_float -> spec_float -> spec_float := SFdiv 24 128.
Definition dadd : spec_float -> spec_float -> spec_float := SFadd 53 1024.
Definition dsub : spec_float -> spec_float -> spec_float := SFsub 53 1024.
Definition dmul : spec_float -> spec_float -> spec_float := SFmul 53 1024.
Definition dsqrt : spec_float -> spec_float := SFsqrt 53 1024.
Definition dzero : spec_float := S754_zero false.
(** [(int)x] for a number in range. *)
Definition trunc (x : spec_float) : Z :=
  match x with
  | S754_finite s m e => (if s then Z.opp else id) (if 0 <=? e then Z.pos m * 2 ^ e else Z.pos m / 2 ^ (- e))
  | _ => 0
  end.

(** ** Buffer rings ([allocate_buffer_ring]) *)

Module Ring.

(** An element: where its block begins, where its buffer begins, the contents of
    the block, and the number of the next element. *)
Record ring_elt := mk_elt { buffer_base : Z; buffer_ptr : Z; block : list Z; next : nat }.

(** The addresses [malloc] gives, by number of the call, and the file to fill the
    buffers from: none is asked for, it cannot be opened, or its bytes. *)
Record ring_os := {
  os_malloc : nat -> Z -> option Z;
  os_junk : Z -> list Z;
  os_fill_file : option (option (list Z));
  os_strerror : string
}.

Section ring.
Context (os : ring_os).
Abbreviation P := (M nat).

Definition sizeof_ring_elt : Z := 16.
Definition malloc (size : Z) : P (option Z) := devop (fun k => (os_malloc os k size, S k)).

(** [bufptr[i] = b] in a block. *)
Definition store (b : list Z) (off v : Z) : P (list Z) :=
  if (0 <=? off) && (off <? Z.of_nat (length b)) then mret (<[Z.to_nat off := v]> b) else crash.

Definition default_fill : list Z := str_bytes "netperf" ++ [0].
(** The default pattern; the cursor goes on from buffer to buffer. *)
Definition fill_byte (off j : Z) (a : list Z * Z) : P (list Z * Z + unit) :=
  let '(b, cursor) := a in
  v ← elem default_fill cursor;
  b ← store b (off + j) v;
  let cursor := cursor + 1 in
  mret (inl (b, if 7 <? cursor then 0 else cursor)).
Definition fill_default (b : list Z) (off buffer_size cursor : Z) : P (list Z * Z) :=
  r ← for_acc (Z.to_nat buffer_size) 0 (b, cursor) (fill_byte off);
  match r with inl a => mret a | inr _ => crash end.
(** The bytes of a file from a position on, from the start again at its end: the
    block, where the next byte goes, how many are left, and the position. *)
Definition fill_round (src : list Z) (a : list Z * Z * nat * nat) : P (list Z * Z * nat * nat + list Z * nat) :=
  let '(b, bufptr, bytes_left, pos) := a in
  if (bytes_left =? 0)%nat then mret (inr (b, pos))
  else
    let data := take bytes_left (drop pos src) in
    let bytes_read := length data in
    if (bytes_read =? 0)%nat then mret (inl (b, bufptr, bytes_left, 0%nat))
    else
      b ← (if (0 <=? bufptr) && (bufptr + Z.of_nat bytes_read <=? Z.of_nat (length b)) then
             mret (put_bytes (Z.to_nat bufptr) data b) else crash);
      mret (inl (b, bufptr + Z.of_nat bytes_read, (bytes_left - bytes_read)%nat, (pos + bytes_read)%nat)).
Definition fill_file (src : list Z) (b : list Z) (off buffer_size : Z) (pos : nat) : P (list Z * nat) :=
  while_ (2 * Z.to_nat buffer_size + 2) (b, off, Z.to_nat buffer_size, pos) (fill_round src).

Definition align (base alignment : Z) : Z := Z.land (base + alignment - 1) (Z.lnot (alignment - 1)).
(** What the fill code carries from one buffer to the next. *)
Inductive filler : Type := Pattern (cursor : Z) | FromFile (src : list Z) (pos : nat) | NoFile.

Definition new_elt (i : Z) (f : filler) (buffer_size alignment offset : Z) : P (ring_elt * filler) :=
  let malloc_size := s32 (buffer_size + alignment + offset) in
  e ← malloc sizeof_ring_elt;
  match e with
  | None => fprintf "malloc(%u) failed!\n" [PI sizeof_ring_elt];; exit (-1)
  | Some _ =>
      m ← malloc malloc_size;
      let base := default 0 m in
      let data := match m with Some _ => take (Z.to_nat malloc_size) (os_junk os malloc_size) | None => [] end in
      let ptr := align base alignment + offset in
      r ← match f with
          | Pattern cursor => a ← fill_default data (ptr - base) buffer_size cursor; mret (fst a, Pattern (snd a))
          | FromFile src pos => a ← fill_file src data (ptr - base) buffer_size pos; mret (fst a, FromFile src (snd a))
          | NoFile => if truth buffer_size then crash else mret (data, f)
          end;
      mret (mk_elt base ptr (fst r) (Z.to_nat (i - 2)), snd r)
  end.

(** The ring: an element points to the one before, the first one to the last. *)
Definition allocate_buffer_ring (width buffer_size alignment offset : Z) : P (list ring_elt) :=
  f ← match os_fill_file os with
      | None => mret (Pattern 0)
      | Some None => fprintf "Could not open requested fill file: %s\n" [PS (os_strerror os)];; mret NoFile
      | Some (Some src) => mret (FromFile src 0)
      end;
  if width <? 1 then abort
  else
    r ← for_acc (Z.to_nat width) 1 ([], f) (fun i a =>
      x ← new_elt i (snd a) buffer_size alignment offset;
      mret (inl (B := unit) (fst a ++ [fst x], snd x)));
    match r with
    | inl (e :: l, _) => mret (mk_elt (buffer_base e) (buffer_ptr e) (block e) (Z.to_nat (width - 1)) :: l)
    | _ => crash
    end.
End ring.
End Ring.

(** ** The histogram ([hist.h]) *)

Module Hist.

Definition HIST_NUM_OF_BUCKET : Z := 100.
(** The rows of buckets: [unit_usec], [ten_usec], ... [ten_sec]. *)
Definition num_rows : nat := 8.

Record hist := mk_hist {
  rows : list (list Z);
  ridiculous : Z; total : Z; sum : Z; sumsquare : spec_float; hmin : Z; hmax : Z;
  limit : Z; count : Z; producer : Z; consumer : Z;
  time_ones : option (list (Z * Z)); time_two : Z * Z
}.

(** The clock by number of the reading, and what new memory holds. *)
Record hist_os := {
  os_clock : nat -> Z * Z;
  os_alloc : Z -> option (list (Z * Z));
  os_keep_statistics : bool;
  os_debug : Z
}.

Section hist.
Context (os : hist_os).
Abbreviation P := (M nat).

Definition HIST_clear : hist :=
  mk_hist (replicate num_rows (replicate (Z.to_nat HIST_NUM_OF_BUCKET) 0)) 0 0 0 dzero 0 0 0 0 0 0 None (0, 0).
Definition HIST_purge (h : hist) : hist :=
  mk_hist (rows h) (ridiculous h) (total h) (sum h) (sumsquare h) (hmin h) (hmax h) (limit h) 0 0 0 (time_ones h) (time_two h).
(** The structure itself is allocated first; the answer for its size is not
    modelled apart from the one for the time stamps. *)
Definition HIST_new_n (max_outstanding : Z) : P hist :=
  let h := HIST_clear in
  let limit := s32 (max_outstanding + 1) in
  match os_alloc os limit with
  | None => eprintf (lit "HIST_new_n - time_ones malloc failed: Cannot allocate memory\n");; exit 1
  | Some l => mret (mk_hist (rows h) 0 0 0 dzero 0 0 limit 0 0 0 (Some l) (0, 0))
  end.
Definition HIST_new : P hist := HIST_new_n 0.

Definition base10 : spec_float := float_of_Z (HIST_NUM_OF_BUCKET / 10).
Definition ten : spec_float := float_of_Z 10.
(** [row[i]++]. *)
Definition bump (h : hist) (k : nat) (i : Z) : P hist :=
  match rows h !! k with
  | Some row =>
      if (0 <=? i) && (i <? HIST_NUM_OF_BUCKET) then
        mret (mk_hist (<[k := alter (fun z => s32 (z + 1)) (Z.to_nat i) row]> (rows h)) (ridiculous h) (total h) (sum h) (sumsquare h)
          (hmin h) (hmax h) (limit h) (count h) (producer h) (consumer h) (time_ones h) (time_two h))
      else crash
  | None => crash
  end.
Definition bump_ridiculous (h : hist) : hist :=
  mk_hist (rows h) (s32 (ridiculous h + 1)) (total h) (sum h) (sumsquare h) (hmin h) (hmax h) (limit h) (count h) (producer h)
    (consumer h) (time_ones h) (time_two h).
(** [if (val < 10) ... else { val /= 10; ... }], from row [k] on. *)
Fixpoint pick_row (n k : nat) (v : spec_float) (h : hist) : P hist :=
  match n with
  | O => mret (bump_ridiculous h)
  | S n' => if SFltb v ten then bump h k (trunc (fmul v base10)) else pick_row n' (S k) (fdiv v ten) h
  end.
Definition HIST_add (h : hist) (time_delta : Z) : P hist :=
  if time_delta <? 0 then mret (bump_ridiculous h)
  else
    let first := total h =? 0 in
    let mn := if first then time_delta else hmin h in
    let mx := if first then time_delta else hmax h in
    let h := mk_hist (rows h) (ridiculous h) (s32 (total h + 1)) (wraps 64 (sum h + time_delta))
      (if os_keep_statistics os then dadd (sumsquare h) (dmul (double_of_Z time_delta) (double_of_Z time_delta)) else sumsquare h)
      (if mn <? time_delta then mn else time_delta) (if time_delta <? mx then mx else time_delta)
      (limit h) (count h) (producer h) (consumer h) (time_ones h) (time_two h) in
    pick_row num_rows 0 (float_of_Z time_delta) h.

(** *** Reports *)

Definition sum_row (row : list Z) : Z := foldl (fun s z => s32 (s + z)) 0 row.
Definition output_row (title : string) (row : list Z) : P unit :=
  printf title;;
  for_ 10 0 (fun i => fprintf ": %4d" [PI (sum_row (take 10 (drop (10 * Z.to_nat i) row)))]);;
  fprintf "\n" [].
Definition row_titles : list string := [
  "UNIT_USEC     "; "TEN_USEC      "; "HUNDRED_USEC  "; "UNIT_MSEC     "; "TEN_MSEC      "; "HUNDRED_MSEC  "; "UNIT_SEC      ";
  "TEN_SEC       "].
Definition HIST_report (h : hist) : P unit :=
  for_ num_rows 0 (fun k => title ← elem row_titles k; row ← elem (rows h) k; output_row title row);;
  fprintf ">100_SECS: %d\n" [PI (ridiculous h)];;
  fprintf "HIST_TOTAL:      %d\n" [PI (total h)];;
  when (truth (os_debug os))
    (fprintf "sum %ld, sumsquare %s, limit %d count %d\n"
       [PI (sum h); PS (fmt_f 0 6 (sumsquare h)); PI (limit h); PI (count h)]).

(** [last] and [current] afterwards, and the result. *)
Fixpoint HIST_search_bucket (unit : list Z) (i num last current : Z) (scale : spec_float) : Z * Z * Z :=
  match unit with
  | [] => (last, current, 0)
  | u :: unit' =>
      let last := current in
      let current := s32 (current + u) in
      if num <=? current then
        (last, current,
         trunc (ddiv (dmul (dadd (double_of_Z i) (ddiv (double_of_Z (s32 (num - last))) (double_of_Z (s32 (current - last))))) scale)
                     (double_of_Z (HIST_NUM_OF_BUCKET / 10))))
      else HIST_search_bucket unit' (i + 1) num last current scale
  end.
Fixpoint search_rows (l : list (list Z)) (num last current scale : Z) : Z :=
  match l with
  | [] => 10 ^ 8
  | row :: l' =>
      let '(last, current, result) := HIST_search_bucket row 0 num last current (double_of_Z scale) in
      if truth result then result else search_rows l' num last current (10 * scale)
  end.
Definition HIST_get_percentile (h : hist) (percentile : spec_float) : Z :=
  let num := trunc (dmul percentile (double_of_Z (total h))) in
  if num =? 0 then 0 else search_rows (rows h) num 0 0 1.
(** Minimum, maximum, mean and standard deviation. *)
Definition HIST_get_stats (h : hist) : Z * Z * spec_float * spec_float :=
  if truth (total h) then
    let mean := ddiv (double_of_Z (sum h)) (double_of_Z (total h)) in
    let s := double_of_Z (sum h) in
    let n := double_of_Z (total h) in
    let var := ddiv (dsub (dmul (sumsquare h) n) (dmul s s)) (dmul n n) in
    (hmin h, hmax h, mean, dsqrt var)
  else (hmin h, hmax h, dzero, dzero).

(** *** Time stamps *)

Definition HIST_timestamp : P (Z * Z) := devop (fun k => (os_clock os k, S k)).
(** In microseconds, and the second time with the second it has borrowed. *)
Definition delta_micro (b e : Z * Z) : Z * (Z * Z) :=
  let e := if snd e <? snd b then (fst e - 1, snd e + 1000000) else e in
  (s32 (s32 (snd e - snd b) + s32 (s32 (fst e - fst b) * 1000000)), e).
Definition with_times (h : hist) (ones : list (Z * Z)) (two : Z * Z) (cnt p c : Z) : hist :=
  mk_hist (rows h) (ridiculous h) (total h) (sum h) (sumsquare h) (hmin h) (hmax h) (limit h) cnt p c (Some ones) two.

Definition HIST_timestamp_start (h : option hist) : P hist :=
  match h with
  | None => fprintf "HIST_timestamp_start called with NULL histogram\n" [];; exit (-1)
  | Some h =>
      when (count h =? limit h) (fprintf "HIST_timestamp_start called with full time_ones\n" []);;
      match time_ones h with
      | Some ones =>
          if (0 <=? producer h) && (producer h <? Z.of_nat (length ones)) then
            t ← HIST_timestamp;
            if limit h =? 0 then crash
            else mret (with_times h (<[Z.to_nat (producer h) := t]> ones) (time_two h) (s32 (count h + 1))
                         (Z.rem (s32 (producer h + 1)) (limit h)) (consumer h))
          else crash
      | None => crash
      end
  end.
Definition HIST_timestamp_stop_add (h : option hist) : P hist :=
  match h with
  | None => fprintf "HIST_timestamp_stop called with NULL histogram\n" [];; exit (-1)
  | Some h =>
      if consumer h =? producer h then
        fprintf "HIST_timestamp_stop called with empty time_ones consumer %d producer %d\n" [PI (consumer h); PI (producer h)];;
        exit (-1)
      else
        t ← HIST_timestamp;
        match time_ones h with
        | Some ones =>
            one ← elem ones (consumer h);
            let '(delta, two) := delta_micro one t in
            h' ← HIST_add (with_times h ones two (count h) (producer h) (consumer h)) delta;
            if limit h =? 0 then crash
            else mret (with_times h' ones two (s32 (count h - 1)) (producer h) (Z.rem (s32 (consumer h + 1)) (limit h)))
        | None => crash
        end
  end.
End hist.
End Hist.

(** ** Throughput, service demand and confidence ([netlib.c]) *)

Module Stat.

Definition d (n den : Z) : spec_float := ddiv (double_of_Z n) (double_of_Z den).
Definition d1024 : spec_float := double_of_Z 1024.
Definition d1000 : spec_float := double_of_Z 1000.
Definition d8 : spec_float := double_of_Z 8.

Section stat.
Context {W : Type}.
Abbreviation P := (M W).

Definition format_number (libfmt : ascii) (number : spec_float) : string :=
  let over x y := ddiv x y in
  let bits := dmul number d8 in
  let x := match libfmt with
    | "K"%char => over number d1024
    | "M"%char => over (over number d1024) d1024
    | "G"%char => over (over (over number d1024) d1024) d1024
    | "k"%char => over bits d1000
    | "m"%char => over (over bits d1000) d1000
    | "g"%char => over (over (over bits d1000) d1000) d1000
    | "x"%char => number
    | _ => over number d1024
    end in
  str_take 63 (pad_right 7 (fmt_f 0 2 x)).
Definition cpu_methods : list string := ["U"; "I"; "P"; "T"; "L"; "R"; "N"; "K"; "S"; "C"; "E"; "M"; "O"].
Definition format_cpu_method (method : Z) : string :=
  if method <? 0 then "?" else default "?" (cpu_methods !! Z.to_nat method).
Definition format_units (libfmt : ascii) : string :=
  match libfmt with
  | "K"%char => "KBytes" | "M"%char => "MBytes" | "G"%char => "GBytes"
  | "k"%char => "10^3bits" | "m"%char => "10^6bits" | "g"%char => "10^9bits"
  | "x"%char => "Trans" | _ => "KBytes"
  end.

(** Bytes, or transactions, in a unit; [None] for an unknown unit. *)
Definition divisor (libfmt : ascii) : option spec_float :=
  match libfmt with
  | "K"%char => Some d1024
  | "M"%char => Some (dmul d1024 d1024)
  | "G"%char => Some (dmul (dmul d1024 d1024) d1024)
  | "k"%char => Some (ddiv d1000 d8)
  | "m"%char => Some (ddiv (dmul d1000 d1000) d8)
  | "g"%char => Some (ddiv (dmul (dmul d1000 d1000) d1000) d8)
  | "x"%char => Some (double_of_Z 1)
  | _ => None
  end.
Definition calc_thruput_interval (libfmt : ascii) (units_received elapsed : spec_float) : spec_float :=
  ddiv (ddiv units_received (default d1024 (divisor libfmt))) elapsed.
Definition calc_thruput (libfmt : ascii) (lib_elapsed units_received : spec_float) : spec_float :=
  calc_thruput_interval libfmt units_received lib_elapsed.
Definition calc_thruput_interval_omni (libfmt : ascii) (units_received elapsed : spec_float) : P spec_float :=
  match divisor libfmt with
  | Some x => mret (ddiv (ddiv units_received x) elapsed)
  | None =>
      fprintf "WARNING calc_throughput_internal_omni: unknown units %c\n" [PI (cc libfmt)];;
      mret (ddiv (ddiv units_received d1024) elapsed)
  end.
Definition calc_thruput_omni (libfmt : ascii) (lib_elapsed units_received : spec_float) : P spec_float :=
  calc_thruput_interval_omni libfmt units_received lib_elapsed.

(** What is used where the caller has no value: [lib_num_loc_cpus], [lib_elapsed]
    and [lib_local_cpu_util]. *)
Record lib_values := mk_lib { lib_debug : Z; lib_cpus : Z; lib_elapsed : spec_float; lib_cpu_util : spec_float }.
Definition show (x : spec_float) : parg := PS (fmt_f 0 6 x).
Definition calc_service_demand_internal (l : lib_values) (unit_divisor units_sent elapsed_time cpu_utilization : spec_float) (num_cpus : Z)
    : P spec_float :=
  when (truth (lib_debug l))
    (fprintf "calc_service_demand called:  units_sent = %s\n                             elapsed_time = %s\n                             cpu_util = %s\n                             num cpu = %d\n"
       [show units_sent; show elapsed_time; show cpu_utilization; PI num_cpus]);;
  let num_cpus := if num_cpus =? 0 then lib_cpus l else num_cpus in
  let elapsed_time := if SFeqb elapsed_time dzero then lib_elapsed l else elapsed_time in
  let cpu_utilization := if SFeqb cpu_utilization dzero then lib_cpu_util l else cpu_utilization in
  let thruput := ddiv (ddiv units_sent unit_divisor) elapsed_time in
  let service_demand := dmul (ddiv (dmul cpu_utilization (double_of_Z 10000)) thruput) (float_of_Z num_cpus) in
  when (truth (lib_debug l))
    (fprintf "calc_service_demand using:   units_sent = %s\n                             elapsed_time = %s\n                             cpu_util = %s\n                             num cpu = %d\ncalc_service_demand got:     thruput = %s\n                             servdem = %s\n"
       [show units_sent; show elapsed_time; show cpu_utilization; PI num_cpus; show thruput; show service_demand]);;
  mret (float_of_double service_demand).
Definition calc_service_demand (l : lib_values) : spec_float -> spec_float -> spec_float -> Z -> P spec_float :=
  calc_service_demand_internal l d1024.
Definition calc_service_demand_fmt (l : lib_values) (libfmt : ascii) : spec_float -> spec_float -> spec_float -> Z -> P spec_float :=
  calc_service_demand_internal l (if Ascii.eqb libfmt "x"%char then double_of_Z 1 else d1024).

(** Student's t, in thousandths; the entry 0 and those from 31 on are not set. *)
Definition t95 : list Z := [
  12706; 4303; 3182; 2776; 2571; 2447; 2365; 2306; 2262; 2228; 2201; 2179; 2160; 2145; 2131; 2120; 2110; 2101; 2093; 2086; 2080; 2074;
  2069; 2064; 2060; 2056; 2052; 2048; 2045; 2042].
Definition t99 : list Z := [
  63657; 9925; 5841; 4604; 4032; 3707; 3499; 3355; 3250; 3169; 3106; 3055; 3012; 2977; 2947; 2921; 2898; 2878; 2861; 2845; 2831; 2819;
  2807; 2797; 2787; 2779; 2771; 2763; 2756; 2750].
Definition confid (level freedom : Z) : P spec_float :=
  if level =? 95 then x ← elem t95 (freedom - 1); mret (d x 1000)
  else if level =? 99 then x ← elem t99 (freedom - 1); mret (d x 1000)
  else mret dzero.

(** What is kept of a measured quantity. *)
Record measured := mk_m { m_sum : spec_float; m_square_sum : spec_float; m_mean : spec_float; m_var : spec_float }.
Definition m_zero : measured := mk_m dzero dzero dzero dzero.
Record stats := mk_stats {
  local_time : measured; result : measured; local_cpu : measured; remote_cpu : measured;
  local_service_demand : measured; remote_service_demand : measured;
  result_confid : spec_float; loc_cpu_confid : spec_float; rem_cpu_confid : spec_float; confidence : spec_float
}.
Definition minus10 : spec_float := double_of_Z (-10).
(** [init_stat] leaves the three partial results alone. *)
Definition init_stat (s : stats) : stats :=
  mk_stats m_zero m_zero m_zero m_zero m_zero m_zero (result_confid s) (loc_cpu_confid s) (rem_cpu_confid s) minus10.
Definition measure (m : measured) (x n : spec_float) : measured :=
  let sum := dadd (m_sum m) x in
  let square_sum := dadd (m_square_sum m) (dmul x x) in
  let mean := ddiv sum n in
  mk_m sum square_sum mean (dsub (ddiv square_sum n) (dmul mean mean)).

(** Level, width, and whether only the result counts, of the command line. *)
Record confidence_options := mk_co { confidence_level : Z; interval : spec_float; result_confidence_only : Z; co_debug : Z }.
Definition partial_confid (o : confidence_options) (m : measured) (n : Z) : P spec_float :=
  t ← confid (confidence_level o) (n - 1);
  mret (dsub (interval o)
    (ddiv (dmul (dmul (double_of_Z 2) t) (dsqrt (ddiv (m_var m) (dsub (double_of_Z n) (double_of_Z 1))))) (m_mean m))).
Definition dmin (a b : spec_float) : spec_float := if SFltb a b then a else b.
Definition percent (o : confidence_options) (x : spec_float) : spec_float := dmul (dsub (interval o) x) (double_of_Z 100).
Definition calculate_confidence (o : confidence_options) (s : stats) (confidence_iterations : Z)
    (time result_ loc_cpu rem_cpu loc_sd rem_sd : spec_float) : P stats :=
  when (truth (co_debug o))
    (fprintf "calculate_confidence: itr  %d; time %s; res  %s\n                               lcpu %s; rcpu %s\n                               lsdm %s; rsdm %s\n"
       [PI confidence_iterations; show time; show result_; show loc_cpu; show rem_cpu; show loc_sd; show rem_sd]);;
  let n := double_of_Z confidence_iterations in
  let s := mk_stats (measure (local_time s) time n) (measure (result s) result_ n) (measure (local_cpu s) loc_cpu n)
    (measure (remote_cpu s) rem_cpu n) (measure (local_service_demand s) loc_sd n) (measure (remote_service_demand s) rem_sd n)
    (result_confid s) (loc_cpu_confid s) (rem_cpu_confid s) (confidence s) in
  if 1 <? confidence_iterations then
    a ← partial_confid o (result s) confidence_iterations;
    b ← partial_confid o (local_cpu s) confidence_iterations;
    c ← partial_confid o (remote_cpu s) confidence_iterations;
    when (truth (co_debug o))
      (fprintf "Conf_itvl %2d: results:%s%% loc_cpu:%s%% rem_cpu:%s%%\n"
         [PI confidence_iterations; PS (fmt_f 4 1 (percent o a)); PS (fmt_f 4 1 (percent o b)); PS (fmt_f 4 1 (percent o c))]);;
    mret (mk_stats (local_time s) (result s) (local_cpu s) (remote_cpu s) (local_service_demand s) (remote_service_demand s) a b c
      (if result_confidence_only o =? 0 then dmin (dmin a b) c else a))
  else mret s.
Definition retrieve_confident_values (s : stats) : list spec_float :=
  [float_of_double (m_mean (local_time s)); m_mean (result s); float_of_double (m_mean (local_cpu s));
   float_of_double (m_mean (remote_cpu s)); float_of_double (m_mean (local_service_demand s));
   float_of_double (m_mean (remote_service_demand s))].
Definition get_confid (o : confidence_options) (x : spec_float) : spec_float := dmul (double_of_Z 100) (dsub (interval o) x).
Definition display_confidence (o : confidence_options) (s : stats) : P unit :=
  fprintf "!!! WARNING\n!!! Desired confidence was not achieved within the specified iterations.\n!!! This implies that there was variability in the test environment that\n!!! must be investigated before going further.\n!!! Confidence intervals: Throughput      : %s%%\n!!!                       Local CPU util  : %s%%\n!!!                       Remote CPU util : %s%%\n\n"
    [PS (fmt_f 4 3 (get_confid o (result_confid s))); PS (fmt_f 4 3 (get_confid o (loc_cpu_confid s)));
     PS (fmt_f 4 3 (get_confid o (rem_cpu_confid s)))].

(** The difference of two counters of [/proc/stat] ([netcpu_procstat.c]). *)
Definition tick_subtract (start finish : Z) : Z :=
  if (start <=? finish) || truth (Z.land start 0xffffffff00000000) then u64 (finish - start)
  else u64 (finish - start + 0xffffffff00000000).
End stat.
End Stat.

(** ** Identifiers ([net_uuid.c]) *)

Module Uuid.

Record uuid_t := mk_uuid {
  time_low : Z; time_mid : Z; time_hi_and_version : Z; clock_seq_hi_and_reserved : Z; clock_seq_low : Z; node : list Z
}.
Definition UUIDS_PER_TICK : Z := 1024.

(** The static variables: of [get_current_time], of the node and of
    [true_random]; how often the clock and [rand] were asked. *)
Record uuid_w := mk_uw {
  u_time_inited : bool; time_last : Z; uuids_this_tick : Z;
  saved_node : option (list Z); u_rand_inited : bool; u_seed : Z;
  u_clock : nat; u_rand : nat
}.
(** [gettimeofday] in seconds and microseconds, [rand] after [srand] by seed and
    number, what [/dev/urandom] holds, and a buffer that was not initialised. *)
Record uuid_os := {
  os_time : nat -> Z * Z;
  os_rand : Z -> nat -> Z;
  os_urandom : option (list Z);
  os_seed_junk : list Z
}.

Section uuid.
Context (os : uuid_os).
Abbreviation P := (M uuid_w).

(** 100 ns ticks since the epoch of UUIDs. *)
Definition uuid_time (tp : Z * Z) : Z := u64 (u64 (fst tp) * 10000000 + u64 (snd tp) * 10 + 0x01B21DD213814000).
Definition get_system_time : P Z :=
  devop (fun w => (uuid_time (os_time os (u_clock w)),
    mk_uw (u_time_inited w) (time_last w) (uuids_this_tick w) (saved_node w) (u_rand_inited w) (u_seed w) (S (u_clock w)) (u_rand w))).
Definition true_random : P Z :=
  w ← getdev;
  (if u_rand_inited w then mret tt
   else
     time_now ← get_system_time;
     let time_now := time_now / UUIDS_PER_TICK in
     setdev (fun w => mk_uw (u_time_inited w) (time_last w) (uuids_this_tick w) (saved_node w) true
       (Z.land (Z.lxor (Z.shiftr time_now 32) time_now) 0xffffffff) (u_clock w) 0));;
  devop (fun w => (u16 (os_rand os (u_seed w) (u_rand w)),
    mk_uw (u_time_inited w) (time_last w) (uuids_this_tick w) (saved_node w) (u_rand_inited w) (u_seed w) (u_clock w) (S (u_rand w)))).

(** Without a random device 14 of the 16 bytes are set, and then a null pointer is
    closed. *)
Definition get_random_info : P (list Z) :=
  match os_urandom os with
  | Some l => mret (take 16 l ++ drop (length (take 16 l)) (os_seed_junk os))
  | None =>
      _ ← for_acc 7 0 (os_seed_junk os) (fun i seed =>
        myrand ← true_random;
        mret (inl (B := unit) (<[Z.to_nat (2 * i + 1) := Z.shiftr myrand 8]> (<[Z.to_nat (2 * i) := Z.land myrand 0xff]> seed))));
      crash
  end.

(** The time of a new identifier: the clock, and how many were made at this
    reading. The clock is read again while that is too many. *)
Definition get_current_time (fuel : nat) : P Z :=
  w ← getdev;
  (if u_time_inited w then mret tt
   else
     _ ← get_system_time;
     setdev (fun w => mk_uw true (time_last w) UUIDS_PER_TICK (saved_node w) (u_rand_inited w) (u_seed w) (u_clock w) (u_rand w)));;
  while_ fuel tt (fun _ =>
    time_now ← get_system_time;
    w ← getdev;
    let set last n := setdev (fun w => mk_uw (u_time_inited w) last n (saved_node w) (u_rand_inited w) (u_seed w) (u_clock w) (u_rand w)) in
    if negb (time_last w =? time_now) then set time_now 0;; mret (inr time_now)
    else if uuids_this_tick w <? UUIDS_PER_TICK then
      set (time_last w) (u16 (uuids_this_tick w + 1));; mret (inr (u64 (time_now + u16 (uuids_this_tick w + 1))))
    else mret (inl tt)).

Definition get_ieee_node_identifier : P (list Z) :=
  w ← getdev;
  match saved_node w with
  | Some n => mret n
  | None =>
      seed ← get_random_info;
      s0 ← elem seed 0;
      let n := take 6 (<[0%nat := Z.lor s0 1]> seed) in
      setdev (fun w => mk_uw (u_time_inited w) (time_last w) (uuids_this_tick w) (Some n) (u_rand_inited w) (u_seed w) (u_clock w) (u_rand w));;
      mret n
  end.

Definition format_uuid_v1 (clock_seq timestamp : Z) (node : list Z) : uuid_t :=
  mk_uuid (u32 (Z.land timestamp 0xFFFFFFFF)) (u16 (Z.land (Z.shiftr timestamp 32) 0xFFFF))
    (Z.lor (u16 (Z.land (Z.shiftr timestamp 48) 0x0FFF)) (Z.shiftl 1 12))
    (Z.lor (u8 (Z.shiftr (Z.land clock_seq 0x3F00) 8)) 0x80) (u8 (Z.land clock_seq 0xFF)) node.
Definition uuid_create (fuel : nat) : P uuid_t :=
  timestamp ← get_current_time fuel;
  node ← get_ieee_node_identifier;
  clockseq ← true_random;
  mret (format_uuid_v1 clockseq timestamp node).

(** The text of an identifier in a buffer of [size] bytes. *)
Definition uuid_text (u : uuid_t) : string :=
  hex0 8 (time_low u) +:+ "-" +:+ hex0 4 (time_mid u) +:+ "-" +:+ hex0 4 (time_hi_and_version u) +:+ "-" +:+
  hex0 2 (clock_seq_hi_and_reserved u) +:+ hex0 2 (clock_seq_low u) +:+ "-" +:+ String.concat EmptyString (hex0 2 <$> node u).
Definition puid (u : uuid_t) : P unit := printf (uuid_text u +:+ nl).
Definition snpuid (size : Z) (u : uuid_t) : string :=
  if size <? 38 then str_take (Z.to_nat (size - 1)) "uuid string too small" else uuid_text u.
Definition get_uuid_string (fuel : nat) (size : Z) : P string := u ← uuid_create fuel; mret (snpuid size u).
End uuid.
End Uuid.
