(* ===== verification/NpOk.v ===== *)
(** * Lemmas on the control connection of netperf *)

From stdpp Require Import base list strings numbers.
From Stdlib Require Import ZArith Lia Ascii.
From S2P Require Import Prelude CInt CLib CLibOk CFmt FloatTools NpLib NpServer.

(** ** Memory of messages *)

Definition is_u32 (x : Z) : Prop := 0 <= x < 2 ^ 32.

Lemma u32_is_u32 x : is_u32 (u32 x).
Proof. by apply wrapu_range. Qed.

Lemma int_bytes_length big x : length (int_bytes big x) = 4%nat.
Proof. unfold int_bytes. destruct big; [rewrite length_rev|]; by apply le_bytes_length. Qed.

Lemma int_bytes_is_byte big x : Forall is_byte (int_bytes big x).
Proof. unfold int_bytes. destruct big; [apply Forall_rev|]; apply le_bytes_is_byte. Qed.

Lemma le_val_bytes4 x : is_u32 x -> le_val (le_bytes 4 x) = x.
Proof. intros H. rewrite le_val_bytes. apply Z.mod_small. exact H. Qed.

Lemma le_bytes_val4 l : length l = 4%nat -> Forall is_byte l -> le_bytes 4 (le_val l) = l.
Proof. intros E H. rewrite <- E. by apply le_bytes_val. Qed.

Lemma htonl_range big x : is_u32 x -> is_u32 (htonl big x).
Proof.
  intros H. destruct big; [done|]. unfold htonl. pose proof (le_val_range (rev (le_bytes 4 x))) as R.
  rewrite length_rev, le_bytes_length in R. apply R, Forall_rev, le_bytes_is_byte.
Qed.

(** A converted integer is in network order, whatever the host. *)
Lemma int_bytes_htonl big x : is_u32 x -> int_bytes big (htonl big x) = rev (le_bytes 4 x).
Proof.
  intros H. destruct big; [done|]. unfold int_bytes, htonl.
  apply le_bytes_val4; [by rewrite length_rev, le_bytes_length|apply Forall_rev, le_bytes_is_byte].
Qed.

Lemma mem_of_length big a : length (mem_of big a) = (4 * length a)%nat.
Proof.
  induction a as [|x a IH]; [done|]. unfold mem_of in *. cbn. rewrite length_app, IH, int_bytes_length. lia.
Qed.

Lemma mem_of_cons big x a : mem_of big (x :: a) = int_bytes big x ++ mem_of big a.
Proof. done. Qed.

Lemma mem_of_app big a b : mem_of big (a ++ b) = mem_of big a ++ mem_of big b.
Proof. unfold mem_of. by rewrite bind_app. Qed.

Lemma mem_of_is_byte big a : Forall is_byte (mem_of big a).
Proof. induction a as [|x a IH]; [constructor|]. rewrite mem_of_cons. apply Forall_app_2; [apply int_bytes_is_byte|done]. Qed.

Lemma ints_of_int_bytes big x m : is_u32 x -> ints_of big (int_bytes big x ++ m) = x :: ints_of big m.
Proof. intros H. rewrite <- (le_val_bytes4 x H) at 2. by destruct big. Qed.

Lemma ints_of_mem big a : Forall is_u32 a -> ints_of big (mem_of big a) = a.
Proof.
  induction 1 as [|x a Hx _ IH]; [done|]. by rewrite mem_of_cons, ints_of_int_bytes, IH.
Qed.

(** Memory in pieces of four bytes. *)
Lemma ints_of_facts big : forall k m, length m = (4 * k)%nat -> Forall is_byte m ->
  length (ints_of big m) = k /\ Forall is_u32 (ints_of big m) /\ mem_of big (ints_of big m) = m.
Proof.
  induction k as [|k IH]; intros m Hl Hb; [destruct m; [by repeat split|done]|].
  destruct m as [|b0 [|b1 [|b2 [|b3 m]]]]; try (cbn in Hl; lia).
  change (b0 :: b1 :: b2 :: b3 :: m) with ([b0; b1; b2; b3] ++ m) in Hb.
  apply Forall_app in Hb as [Hb Hm]. destruct (IH m) as (El & Hu & Em); [cbn in Hl; lia|done|].
  cbn [ints_of length]. rewrite El. split; [done|].
  set (q := if big then [b3; b2; b1; b0] else [b0; b1; b2; b3]).
  assert (Hq : length q = 4%nat /\ Forall is_byte q).
  { unfold q. destruct big; [|done]. split; [done|]. change (Forall is_byte (rev [b0; b1; b2; b3])). by apply Forall_rev. }
  destruct Hq as [Hq1 Hq2]. split.
  - constructor; [|done]. pose proof (le_val_range q Hq2) as R. by rewrite Hq1 in R.
  - rewrite mem_of_cons, Em. unfold int_bytes. rewrite (le_bytes_val4 q Hq1 Hq2). unfold q. by destruct big.
Qed.

(** ** Conversions *)

Lemma convert_step (f : Z -> Z) a b x : foldl (fun a i => alter f i a) (b ++ x :: a) [length b] = b ++ f x :: a.
Proof. cbn. rewrite alter_app_r_alt by lia. by rewrite Nat.sub_diag. Qed.

Lemma convert_from (f : Z -> Z) : forall n b a, (n <= length a)%nat ->
  foldl (fun a i => alter f i a) (b ++ a) (seq (length b) n) = b ++ (f <$> take n a) ++ drop n a.
Proof.
  induction n as [|n IH]; intros b a Hn; [done|]. destruct a as [|x a]; [cbn in Hn; lia|].
  cbn [seq]. change (foldl (fun a i => alter f i a) (b ++ x :: a) (length b :: seq (S (length b)) n)) with
    (foldl (fun a i => alter f i a) (foldl (fun a i => alter f i a) (b ++ x :: a) [length b]) (seq (S (length b)) n)).
  rewrite convert_step. change (b ++ f x :: a) with (b ++ [f x] ++ a). rewrite app_assoc.
  replace (S (length b)) with (length (b ++ [f x])) by (rewrite length_app; cbn; lia).
  rewrite IH by (cbn in Hn; lia). cbn. by rewrite <- app_assoc.
Qed.

Lemma convert_first big n a : (n <= length a)%nat ->
  convert_range big 0 n a = (htonl big <$> take n a) ++ drop n a.
Proof. intros H. unfold convert_range. rewrite Nat.sub_0_r. exact (convert_from (htonl big) n [] a H). Qed.

Lemma convert_first_length big n a : (n <= length a)%nat -> length (convert_range big 0 n a) = length a.
Proof. intros H. rewrite convert_first by done. rewrite length_app, length_fmap, length_take, length_drop. lia. Qed.

Lemma Forall_htonl big l : Forall is_u32 l -> Forall is_u32 (htonl big <$> l).
Proof. induction 1 as [|x l Hx _ IH]; constructor; [by apply htonl_range|done]. Qed.

Lemma convert_first_u32 big n a : (n <= length a)%nat -> Forall is_u32 a -> Forall is_u32 (convert_range big 0 n a).
Proof.
  intros H Ha. rewrite convert_first by done. apply Forall_app_2; [apply Forall_htonl, Forall_take, Ha|apply Forall_drop, Ha].
Qed.

(** What [n] converted integers look like on the wire: the first ones in network
    order, the others as the host has them. *)
Definition wire (big : bool) (n : nat) (a : list Z) : list Z := mem_of true (take n a) ++ mem_of big (drop n a).

Lemma mem_of_htonl big l : Forall is_u32 l -> mem_of big (htonl big <$> l) = mem_of true l.
Proof.
  induction 1 as [|x l Hx _ IH]; [done|]. rewrite fmap_cons, !mem_of_cons, IH, int_bytes_htonl by done. done.
Qed.

Lemma mem_of_convert big n a : (n <= length a)%nat -> Forall is_u32 a ->
  mem_of big (convert_range big 0 n a) = wire big n a.
Proof.
  intros H Ha. rewrite convert_first, mem_of_app by done. unfold wire. f_equal.
  by apply mem_of_htonl, Forall_take.
Qed.

Lemma wire_length big n a : length (wire big n a) = (4 * length a)%nat.
Proof. unfold wire. rewrite length_app, !mem_of_length, length_take, length_drop. lia. Qed.

Lemma wire_is_byte big n a : Forall is_byte (wire big n a).
Proof. apply Forall_app_2; apply mem_of_is_byte. Qed.

Lemma ints_of_app big : forall k m m', length m = (4 * k)%nat ->
  ints_of big (m ++ m') = ints_of big m ++ ints_of big m'.
Proof.
  induction k as [|k IH]; intros m m' Hl; [by destruct m|].
  destruct m as [|b0 [|b1 [|b2 [|b3 m]]]]; try (cbn in Hl; lia).
  cbn [ints_of app]. f_equal. apply IH. cbn in Hl. lia.
Qed.

Lemma htonl_ints_net big l : Forall is_u32 l -> htonl big <$> ints_of big (mem_of true l) = l.
Proof.
  induction 1 as [|x l Hx _ IH]; [done|]. rewrite mem_of_cons.
  rewrite (ints_of_app big 1) by (rewrite int_bytes_length; done). rewrite fmap_app, IH.
  change (x :: l) with ([x] ++ l). f_equal. destruct big.
  - cbn [int_bytes]. cbn -[le_val le_bytes]. f_equal. rewrite <- (le_val_bytes4 x Hx) at 2. done.
  - unfold int_bytes. rewrite <- (le_val_bytes4 x Hx) at 2.
    assert (E : forall b0 b1 b2 b3, Forall is_byte [b0; b1; b2; b3] ->
      htonl false <$> ints_of false (rev [b0; b1; b2; b3]) = [le_val [b0; b1; b2; b3]]).
    { intros b0 b1 b2 b3 Hb. cbn [rev app ints_of]. rewrite list_fmap_singleton. unfold htonl.
      rewrite le_bytes_val4; [done..|]. change (Forall is_byte (rev [b0; b1; b2; b3])). by apply Forall_rev. }
    exact (E _ _ _ _ (le_bytes_is_byte 4 x)).
Qed.

(** The receiver's conversion undoes the sender's, whatever the byte orders. *)
Lemma convert_wire big1 big2 n a : (n <= length a)%nat -> Forall is_u32 a ->
  convert_range big2 0 n (ints_of big2 (wire big1 n a)) = take n a ++ ints_of big2 (mem_of big1 (drop n a)).
Proof.
  intros H Ha. assert (Hl : length (mem_of true (take n a)) = (4 * n)%nat) by (rewrite mem_of_length, length_take; lia).
  unfold wire. rewrite (ints_of_app big2 n) by done.
  destruct (ints_of_facts big2 n (mem_of true (take n a)) Hl (mem_of_is_byte _ _)) as (El & _ & _).
  rewrite convert_first by (rewrite length_app; lia).
  rewrite take_app_length', drop_app_length' by done. by rewrite htonl_ints_net by by apply Forall_take.
Qed.

(** ** Doubles *)

Lemma swap_ends_rev b0 b1 b2 b3 b4 b5 b6 b7 :
  swap_ends [b0; b1; b2; b3; b4; b5; b6; b7] = [b7; b6; b5; b4; b3; b2; b1; b0].
Proof. done. Qed.

(** ** Deterministic steps

    The state without the counters of the calls; [det m v v' a] says that [m]
    returns [a] and takes states that look like [v] to states that look like
    [v'], whatever is written. *)

Definition view (w : np_w) : np_w :=
  mk_np (np_req w) (np_resp w) (np_in w) (np_out w) 0 0 0 (np_log w) (np_debug w) (np_local_affinity w) (np_remote_affinity w).
Definition set_in (i : list Z) (w : np_w) : np_w :=
  mk_np (np_req w) (np_resp w) i (np_out w) (np_selects w) (np_recvs w) (np_sends w) (np_log w)
    (np_debug w) (np_local_affinity w) (np_remote_affinity w).
Definition add_out (o : list Z) (w : np_w) : np_w :=
  mk_np (np_req w) (np_resp w) (np_in w) (np_out w ++ o) (np_selects w) (np_recvs w) (np_sends w) (np_log w)
    (np_debug w) (np_local_affinity w) (np_remote_affinity w).

Definition det {A} (m : M np_w A) (v v' : np_w) (a : A) : Prop :=
  forall s, view (dev s) = v -> exists s', m s = (Ret a, s') /\ view (dev s') = v'.

(** What both ends rely on: every call succeeds, and a message is sent whole. *)
Definition good_net (os : np_os) : Prop := forall k,
  fst (os_select os k) = 1 /\ (exists limit, os_recv os k = inl limit) /\ fst (os_send os k) = Z.of_nat msg_bytes.

(** The messages have their size and hold integers. *)
Definition good_ints (a : list Z) : Prop := length a = msg_ints /\ Forall is_u32 a.

Lemma good_mem big a : good_ints a -> length (mem_of big a) = msg_bytes.
Proof. intros [Hl _]. by rewrite mem_of_length, Hl. Qed.

Lemma good_ints_of big m : length m = msg_bytes -> Forall is_byte m -> good_ints (ints_of big m) /\ mem_of big (ints_of big m) = m.
Proof. intros Hl Hm. destruct (ints_of_facts big msg_ints m Hl Hm) as (? & ? & ?). by repeat split. Qed.

Lemma good_convert big n a : (n <= msg_ints)%nat -> good_ints a -> good_ints (convert_range big 0 n a).
Proof. intros Hn [Hl Ha]. split; [rewrite convert_first_length; lia|apply convert_first_u32; [lia|done]]. Qed.

Lemma good_insert i v a : good_ints a -> good_ints (<[i := u32 v]> a).
Proof. intros [Hl Ha]. split; [by rewrite length_insert|]. apply Forall_insert; [done|apply u32_is_u32]. Qed.

Section det.
Implicit Types v : np_w.

Lemma det_ret {A} (a : A) v : det (mret a) v v a.
Proof. intros s Hs. by exists s. Qed.

Lemma det_bind {A B} (m : M np_w A) (k : A -> M np_w B) v v1 v2 a b : det m v v1 a -> det (k a) v1 v2 b -> det (m ≫= k) v v2 b.
Proof.
  intros Hm Hk s Hs. destruct (Hm s Hs) as (s1 & E1 & Hv1). destruct (Hk s1 Hv1) as (s2 & E2 & Hv2).
  exists s2. by rewrite (bind_ret_run _ _ _ _ _ E1).
Qed.

Lemma det_shows (m : M np_w unit) v : shows m (fun _ => True) -> det m v v tt.
Proof. intros H s Hs. destruct (shows_runs m _ s H) as ([] & s' & E & Ed & _). exists s'. by rewrite Ed. Qed.

Lemma det_when (b : bool) (m : M np_w unit) v : det m v v tt -> det (when b m) v v tt.
Proof. destruct b; [done|]. intros _ s Hs. by exists s. Qed.

Lemma det_setdev f v : (forall w, view (f w) = f (view w)) -> det (setdev f) v (f v) tt.
Proof. intros Hf s <-. exists (mkst (out s) (f (dev s))). split; [done|]. apply Hf. Qed.

(** Reading the state. *)
Lemma det_getdev {B} (k : np_w -> M np_w B) v v' b : (forall w, view w = v -> det (k w) v v' b) -> det (getdev ≫= k) v v' b.
Proof. intros H s Hs. rewrite (bind_ret_run getdev k s (dev s) s) by by destruct s. by apply H. Qed.

Lemma det_getvar f v : (forall w, f (view w) = f w) -> det (getvar f) v v (f v).
Proof. intros Hf. unfold getvar. apply det_getdev. intros w Hw s Hs. exists s. by rewrite <- (Hf w), Hw. Qed.
End det.

Lemma det_debug v : det get_debug v v (np_debug v).
Proof. by apply det_getvar. Qed.

Lemma det_elem {A} (l : list A) (i : Z) a v : 0 <= i -> l !! Z.to_nat i = Some a -> det (elem l i) v v a.
Proof. intros Hi Hl s Hs. exists s. split; [|done]. unfold elem. by rewrite (proj2 (Z.ltb_ge i 0) Hi), Hl. Qed.

Lemma view_eq w v : view w = v -> np_req w = np_req v /\ np_resp w = np_resp v /\ np_in w = np_in v /\ np_out w = np_out v
  /\ np_debug w = np_debug v /\ np_remote_affinity w = np_remote_affinity v.
Proof. by intros <-. Qed.

(** ** The steps *)

Section steps.
Context (os : np_os).
Implicit Types v : np_w.

Lemma shows_dump_row counter f (a : list Z) : 0 <= counter -> counter + 3 < Z.of_nat (length a) ->
  fmt_ok f [true; true; true; true; true; false; false; false; false] = true ->
  shows (W := np_w) (dump_row os counter f a) (fun _ => True).
Proof.
  intros H0 H1 Hf. unfold dump_row.
  do 4 (eapply shows_bind; [apply shows_elem; [lia|intros a'; exact I]|intros ? _]). by apply shows_fprintf.
Qed.

Lemma det_dump_request v : length (np_req v) = msg_ints -> det (dump_request os) v v tt.
Proof.
  intros Hl. unfold dump_request. eapply det_bind; [apply det_shows; shows_all|]. apply det_getdev. intros w Hw.
  destruct (view_eq w v Hw) as (E & _). apply det_shows, shows_for. intros k Hk.
  apply shows_dump_row; [lia|rewrite E, Hl; cbv [msg_ints MAXSPECDATA]; lia|vm_compute; reflexivity].
Qed.

Lemma det_dump_response v : length (np_resp v) = msg_ints -> det (dump_response os) v v tt.
Proof.
  intros Hl. unfold dump_response. eapply det_bind; [apply det_shows; shows_all|]. apply det_getdev. intros w Hw.
  destruct (view_eq w v Hw) as (_ & E & _). apply det_shows, shows_for. intros k Hk.
  apply shows_dump_row; [lia|rewrite E, Hl; cbv [msg_ints MAXSPECDATA]; lia|vm_compute; reflexivity].
Qed.

(** How many integers a call with [n] converts. *)
Definition count_of (n : Z) : nat := if n <? 0 then msg_ints else Nat.min msg_ints (Z.to_nat (2 + n)).

Lemma count_of_le n : (count_of n <= msg_ints)%nat.
Proof. unfold count_of. destruct (n <? 0); lia. Qed.

Lemma det_int_count what n v : det (int_count what n) v v (Z.of_nat (count_of n)).
Proof.
  unfold int_count, count_of. destruct (Z.ltb_spec n 0).
  - rewrite Z.ltb_irrefl. apply det_ret.
  - destruct (Z.ltb_spec (Z.of_nat msg_ints) (2 + n)).
    + eapply det_bind; [apply det_debug|]. eapply det_bind; [apply det_when, det_shows; shows_all|].
      replace (Nat.min _ _) with msg_ints by lia. apply det_ret.
    + replace (Z.of_nat _) with (2 + n) by lia. apply det_ret.
Qed.

Lemma det_select (Hg : good_net os) {B} (k : Z * Z -> M np_w B) v v' b :
  (forall r, fst r = 1 -> det (k r) v v' b) -> det (select os ≫= k) v v' b.
Proof.
  intros H s Hs. destruct (Hg (np_selects (dev s))) as (E & _). eapply (H (os_select os (np_selects (dev s))) E).
  cbn. by rewrite <- Hs.
Qed.

Lemma det_send (Hg : good_net os) m {B} (k : Z * Z -> M np_w B) v v' b : length m = msg_bytes ->
  (forall r, fst r = Z.of_nat msg_bytes -> det (k r) (add_out m v) v' b) -> det (send os m ≫= k) v v' b.
Proof.
  intros Hm H s Hs. destruct (Hg (np_sends (dev s))) as (_ & _ & E). eapply (H (os_send os (np_sends (dev s))) E).
  cbn [dev]. rewrite E, Nat2Z.id, take_ge by lia. by rewrite <- Hs.
Qed.

(** A message is sent. *)
Lemma det_send_request_n (Hg : good_net os) n v : good_ints (np_req v) ->
  let a := <[1%nat := u32 (np_remote_affinity v)]> (np_req v) in
  det (send_request_n os n) v (add_out (wire (os_big os) (count_of n) a) (set_req (convert_range (os_big os) 0 (count_of n) a) v)) tt.
Proof.
  intros Hr a. pose proof (good_insert 1 (np_remote_affinity v) _ Hr) as Ha. fold a in Ha.
  pose proof (good_convert (os_big os) _ _ (count_of_le n) Ha) as Hc.
  unfold send_request_n. eapply det_bind; [apply det_int_count|]. eapply det_bind; [apply det_debug|].
  eapply det_bind; [apply det_when; eapply det_bind; [apply det_shows; shows_all|apply det_dump_request, Hr]|].
  eapply det_bind; [by apply det_setdev|]. eapply det_bind; [by apply det_setdev|].
  unfold convert_req, put_affinity. cbn [np_req set_req np_remote_affinity]. fold a. rewrite Nat2Z.id.
  eapply det_bind. { apply det_when. eapply det_bind; [apply det_shows; shows_all|].
    eapply det_bind; [apply det_dump_request, Hc|apply det_shows; shows_all]. }
  apply det_getdev. intros w Hw. destruct (view_eq _ _ Hw) as (-> & _). cbn [np_req set_req].
  rewrite mem_of_convert; [|destruct Ha as [-> _]; apply count_of_le|apply Ha].
  apply (det_send Hg); [rewrite wire_length; destruct Ha as [-> _]; done|]. intros r ->. rewrite Z.eqb_refl. apply det_ret.
Qed.

Lemma det_send_response_n (Hg : good_net os) n v : good_ints (np_resp v) ->
  det (send_response_n os n) v
    (add_out (wire (os_big os) (count_of n) (np_resp v)) (set_resp (convert_range (os_big os) 0 (count_of n) (np_resp v)) v)) tt.
Proof.
  intros Ha. pose proof (good_convert (os_big os) _ _ (count_of_le n) Ha) as Hc.
  unfold send_response_n. eapply det_bind; [apply det_int_count|]. eapply det_bind; [apply det_debug|].
  eapply det_bind; [apply det_when; eapply det_bind; [apply det_shows; shows_all|apply det_dump_response, Ha]|].
  eapply det_bind; [by apply det_setdev|]. unfold convert_resp. rewrite Nat2Z.id.
  eapply det_bind. { apply det_when. eapply det_bind; [apply det_shows; shows_all|].
    eapply det_bind; [apply det_dump_response, Hc|apply det_shows; shows_all]. }
  apply det_getdev. intros w Hw. destruct (view_eq _ _ Hw) as (_ & -> & _). cbn [np_resp set_resp].
  rewrite mem_of_convert; [|destruct Ha as [-> _]; apply count_of_le|apply Ha].
  apply (det_send Hg); [rewrite wire_length; destruct Ha as [-> _]; done|]. intros r ->. rewrite Z.eqb_refl. apply det_ret.
Qed.
End steps.

(** ** Receiving *)

Lemma det_assoc {A B C} (m : M np_w A) (f : A -> M np_w B) (g : B -> M np_w C) v v' c :
  det (m ≫= fun a => f a ≫= g) v v' c -> det ((m ≫= f) ≫= g) v v' c.
Proof.
  intros H s Hs. destruct (H s Hs) as (s' & E & Hs'). exists s'. split; [|done]. rewrite <- E.
  unfold mbind, M_bind. by destruct (m s) as [[] s1].
Qed.

Lemma det_while {S R B} (body : S -> M np_w (S + R)) f acc (k : R -> M np_w B) v v' b :
  det (body acc ≫= (fun r => match r with inl a => while_ f a body ≫= k | inr x => k x end)) v v' b ->
  det (while_ (Datatypes.S f) acc body ≫= k) v v' b.
Proof.
  intros H s Hs. destruct (H s Hs) as (s' & E & Hs'). exists s'. split; [|done]. rewrite <- E.
  unfold mbind, M_bind. cbn [while_]. unfold mbind, M_bind. destruct (body acc s) as [[[a|x]| | | |] s1]; done.
Qed.

Lemma msg_pos : (0 < msg_bytes)%nat.
Proof. vm_compute. lia. Qed.

Section receiving.
Context (os : np_os) (Hg : good_net os) (v : np_w).

(** A message as a loop sees it that has received [tot] bytes. *)
Definition got (a : list Z) (tot : nat) : list Z :=
  ints_of (os_big os) (take tot (np_in v) ++ drop tot (mem_of (os_big os) a)).
Definition all_got : nat := Nat.min msg_bytes (length (np_in v)).
Definition req_at (tot : nat) : np_w := set_in (drop tot (np_in v)) (set_req (got (np_req v) tot) v).
Definition resp_at (a : list Z) (tot : nat) : np_w := set_in (drop tot (np_in v)) (set_resp (got a tot) v).

Lemma got_good a tot : good_ints a -> Forall is_byte (np_in v) -> (tot <= all_got)%nat ->
  good_ints (got a tot) /\ mem_of (os_big os) (got a tot) = take tot (np_in v) ++ drop tot (mem_of (os_big os) a).
Proof.
  intros Ha Hi Ht. unfold all_got in Ht. apply good_ints_of.
  - rewrite length_app, length_take, length_drop, good_mem by done. lia.
  - apply Forall_app_2; [by apply Forall_take|apply Forall_drop, mem_of_is_byte].
Qed.

Lemma got_0 a : good_ints a -> got a 0 = a.
Proof. intros [_ Ha]. unfold got. rewrite take_0, drop_0. by apply ints_of_mem. Qed.

Lemma got_all a : (msg_bytes <= length (np_in v))%nat -> good_ints a ->
  got a msg_bytes = ints_of (os_big os) (take msg_bytes (np_in v)).
Proof. intros Hl Ha. unfold got. rewrite (drop_ge (mem_of _ _)), app_nil_r by (by rewrite good_mem). done. Qed.

(** Storing the next piece. *)
Lemma put_got a tot c : good_ints a -> Forall is_byte (np_in v) -> (tot + c <= all_got)%nat ->
  ints_of (os_big os) (put_bytes tot (take c (drop tot (np_in v))) (mem_of (os_big os) (got a tot))) = got a (tot + c).
Proof.
  intros Ha Hi Ht. destruct (got_good a tot Ha Hi ltac:(lia)) as [_ ->]. unfold got, put_bytes. f_equal.
  unfold all_got in Ht. rewrite take_app_le, take_take, Nat.min_id by (rewrite length_take; lia).
  rewrite app_assoc, take_take_drop. f_equal. rewrite length_take, length_drop.
  rewrite drop_app_ge by (rewrite length_take; lia). rewrite length_take, drop_drop. f_equal. lia.
Qed.

Lemma det_recv tot w {B} (k : Z + list Z -> M np_w B) v' b : (tot <= all_got)%nat ->
  np_in w = drop tot (np_in v) ->
  (forall c, (tot + c <= all_got)%nat -> (c = 0%nat <-> (tot = all_got)%nat) ->
     det (k (inr (take c (drop tot (np_in v))))) (set_in (drop (tot + c) (np_in v)) w) v' b) ->
  (tot < msg_bytes)%nat ->
  det (recv os (msg_bytes - tot) ≫= k) w v' b.
Proof.
  intros Ht Hw H Hl s Hs. destruct (Hg (np_recvs (dev s))) as (_ & [limit E] & _).
  pose proof (f_equal np_in Hs) as Hi. cbn in Hi. rewrite Hw in Hi.
  unfold recv, devop, mbind, M_bind. rewrite E. rewrite Hi.
  set (q := Nat.min (msg_bytes - tot) (Nat.max 1 limit)). set (c := length (take q (drop tot (np_in v)))).
  unfold all_got in *.
  assert (Hc : c = Nat.min q (length (np_in v) - tot)) by (unfold c; by rewrite length_take, length_drop).
  assert (E1 : take q (drop tot (np_in v)) = take c (drop tot (np_in v))).
  { unfold c. rewrite length_take. destruct (Nat.min_spec q (length (drop tot (np_in v)))) as [[? ->]|[? ->]]; [done|].
    by rewrite !take_ge by lia. }
  assert (E2 : drop q (drop tot (np_in v)) = drop (tot + c) (np_in v)).
  { rewrite drop_drop, Hc. destruct (Nat.min_spec q (length (np_in v) - tot)) as [[? ->]|[? ->]]; [done|].
    by rewrite !drop_ge by lia. }
  rewrite E1, E2. apply (H c); [lia|lia|]. cbn [dev]. by rewrite <- Hs.
Qed.

Lemma chunk_length tot c : (tot + c <= all_got)%nat -> length (take c (drop tot (np_in v))) = c.
Proof. unfold all_got. intros H. rewrite length_take, length_drop. lia. Qed.

(** The loops end with all there is, and with nothing more exactly if that is
    less than a message. *)
Lemma det_recv_loop {B} (k : unit + nat * Z * Z -> M np_w B) v' b : good_ints (np_req v) -> Forall is_byte (np_in v) ->
  (forall c, (c = 0 <-> (all_got < msg_bytes)%nat) -> 0 <= c -> det (k (inr (all_got, c, 0))) (req_at all_got) v' b) ->
  det (recv_loop os ≫= k) v v' b.
Proof.
  intros Ha Hi Hk. assert (E0 : v = req_at 0) by (unfold req_at; rewrite got_0, drop_0 by done; by destruct v).
  rewrite E0. unfold recv_loop.
  assert (H : forall f tot, (msg_bytes - tot < f)%nat -> (tot <= all_got)%nat -> (tot < msg_bytes)%nat ->
    det (while_ f tot (recv_round os) ≫= k) (req_at tot) v' b); [|apply H; [lia|lia|exact msg_pos]].
  induction f as [|f IH]; intros tot Hf Ht Hl; [lia|]. apply det_while. unfold recv_round.
  assert (Hall : (all_got <= msg_bytes)%nat) by apply Nat.le_min_l.
  eapply det_assoc, (det_select os Hg). intros r ->. cbn [negb Z.eqb Pos.eqb].
  eapply det_assoc, det_recv; [done|done| |done]. intros c Hc Hc0. cbv beta iota.
  eapply det_assoc, det_bind; [by apply det_setdev|]. cbn zeta. rewrite chunk_length by done.
  assert (E : store_req os tot (take c (drop tot (np_in v))) (set_in (drop (tot + c) (np_in v)) (req_at tot)) = req_at (tot + c)).
  { unfold store_req, req_at. cbn [np_req set_in set_req]. by rewrite put_got. }
  rewrite E. destruct (Nat.eqb_spec (tot + c) msg_bytes) as [Ef|Ef]; cbn [negb andb].
  - eapply det_bind; [apply det_ret|]. cbv beta iota. replace (tot + c)%nat with all_got by (unfold all_got in *; lia). apply Hk; [split; intros ?; unfold all_got in *; lia|lia].
  - destruct (Nat.ltb_spec 0 c).
    + eapply det_bind; [apply det_ret|]. cbv beta iota. apply IH; lia.
    + eapply det_bind; [apply det_ret|]. cbv beta iota. replace (tot + c)%nat with all_got by (unfold all_got in *; lia). apply Hk; [split; intros ?; unfold all_got in *; lia|lia].
Qed.

Lemma det_recv_response_loop {B} (k : nat * Z * Z -> M np_w B) v' b a : good_ints a -> Forall is_byte (np_in v) ->
  (forall c, (c = 0 <-> (all_got < msg_bytes)%nat) -> 0 <= c -> det (k (all_got, c, 0)) (resp_at a all_got) v' b) ->
  det (recv_response_loop os ≫= k) (set_resp a v) v' b.
Proof.
  intros Ha Hi Hk. assert (E0 : set_resp a v = resp_at a 0) by (unfold resp_at; rewrite got_0, drop_0 by done; done).
  rewrite E0. unfold recv_response_loop.
  assert (H : forall f tot, (msg_bytes - tot < f)%nat -> (tot <= all_got)%nat -> (tot < msg_bytes)%nat ->
    det (while_ f tot (recv_response_round os) ≫= k) (resp_at a tot) v' b); [|apply H; [lia|lia|exact msg_pos]].
  induction f as [|f IH]; intros tot Hf Ht Hl; [lia|]. apply det_while. unfold recv_response_round.
  assert (Hall : (all_got <= msg_bytes)%nat) by apply Nat.le_min_l.
  eapply det_assoc, det_recv; [done|done| |done]. intros c Hc Hc0. cbv beta iota.
  eapply det_assoc, det_bind; [by apply det_setdev|]. cbn zeta. rewrite chunk_length by done.
  assert (E : store_resp os tot (take c (drop tot (np_in v))) (set_in (drop (tot + c) (np_in v)) (resp_at a tot)) = resp_at a (tot + c)).
  { unfold store_resp, resp_at. cbn [np_resp set_in set_resp]. by rewrite put_got. }
  rewrite E. destruct (Nat.eqb_spec (tot + c) msg_bytes) as [Ef|Ef]; cbn [negb andb].
  - eapply det_bind; [apply det_ret|]. cbv beta iota. replace (tot + c)%nat with all_got by (unfold all_got in *; lia). apply Hk; [split; intros ?; unfold all_got in *; lia|lia].
  - destruct (Nat.ltb_spec 0 c).
    + eapply det_bind; [apply det_ret|]. cbv beta iota. apply IH; lia.
    + eapply det_bind; [apply det_ret|]. cbv beta iota. replace (tot + c)%nat with all_got by (unfold all_got in *; lia). apply Hk; [split; intros ?; unfold all_got in *; lia|lia].
Qed.
End receiving.

(** ** Whole messages *)

Section messages.
Context (os : np_os) (Hg : good_net os).
Implicit Types v : np_w.

Definition bound_cpu (affinity : Z) (v : np_w) : np_w :=
  if affinity =? -1 then v else if u64 affinity <? 1024 then add_event (BindCpu affinity) v else v.
(** The integers of a message after the conversion of the first ones. *)
Definition converted (n : nat) (m : list Z) : list Z := convert_range (os_big os) 0 n (ints_of (os_big os) m).
Definition finished (v : np_w) : np_w :=
  let affinity := s32 (nth 1 (np_req v) 0) in bound_cpu affinity (set_affinity affinity v).
(** The state after a request, and after the end of the stream. *)
Definition after_request (n : nat) (v : np_w) : np_w :=
  finished (set_in (drop msg_bytes (np_in v)) (set_req (converted n (take msg_bytes (np_in v))) v)).
Definition after_end (n : nat) (v : np_w) : np_w :=
  add_event CloseSock (set_in [] (set_req (convert_range (os_big os) 0 n (got os v (np_req v) (length (np_in v)))) v)).

Lemma det_bind_cpu affinity v : (affinity =? -1) = false ->
  det (bind_to_specific_processor os affinity 0) v (bound_cpu affinity v) tt.
Proof.
  intros E. unfold bind_to_specific_processor, bound_cpu. rewrite E. cbn [truth Z.eqb negb].
  eapply det_bind; [apply det_ret|]. eapply det_bind; [apply det_debug|]. destruct (u64 affinity <? 1024).
  - eapply det_bind; [by apply det_setdev|]. destruct (os_setaffinity os affinity); [|apply det_ret].
    apply det_when, det_shows. shows_all.
  - apply det_when, det_shows. shows_all.
Qed.

Lemma good_lookup a (i : nat) : good_ints a -> (i < msg_ints)%nat -> a !! i = Some (nth i a 0).
Proof. intros [Hl _] Hi. rewrite nth_lookup. destruct (lookup_lt_is_Some_2 a i) as [x ->]; [lia|done]. Qed.

(** The end of [recv_request_timed_n], once a request is there. *)
Definition finish_request (debug : Z) : M np_w Z :=
  when (1 <? debug) (dump_request os);;
  w ← getdev;
  dummy ← elem (np_req w) 1;
  let affinity := s32 dummy in
  setdev (set_affinity affinity);;
  when (negb (affinity =? -1)) (bind_to_specific_processor os affinity 0);;
  mret (Z.of_nat msg_bytes).
Lemma det_finish debug v : good_ints (np_req v) -> det (finish_request debug) v (finished v) (Z.of_nat msg_bytes).
Proof.
  intros Ha. unfold finish_request. eapply det_bind; [apply det_when, det_dump_request, Ha|].
  apply det_getdev. intros w Hw. destruct (view_eq _ _ Hw) as (-> & _).
  eapply det_bind; [apply det_elem; [done|]; apply good_lookup; [done|vm_compute; lia]|].
  unfold finished. cbn zeta. change (Z.to_nat 1) with 1%nat. set (affinity := s32 _).
  eapply det_bind; [by apply det_setdev|]. destruct (affinity =? -1) eqn:E; cbn [negb when].
  - eapply det_bind; [apply det_ret|]. unfold bound_cpu. rewrite E. apply det_ret.
  - eapply det_bind; [by apply det_bind_cpu|]. apply det_ret.
Qed.

Lemma finished_same v : np_req (finished v) = np_req v /\ np_in (finished v) = np_in v.
Proof. unfold finished, bound_cpu. destruct (_ =? -1); [done|]. by destruct (_ <? 1024). Qed.

Lemma det_recv_request n secs v : good_ints (np_req v) -> Forall is_byte (np_in v) -> (msg_bytes <= length (np_in v))%nat ->
  det (recv_request_timed_n os n secs) v (after_request (count_of n) v) (Z.of_nat msg_bytes).
Proof.
  intros Hr Hi Hl. unfold recv_request_timed_n. eapply det_bind; [apply det_int_count|].
  apply (det_recv_loop os Hg); [done|done|]. unfold all_got. rewrite Nat.min_l by done. intros c Hc Hc0. cbv beta iota.
  eapply det_bind; [by apply det_setdev|]. eapply det_bind; [apply det_debug|].
  eapply det_bind; [apply det_when, det_shows; shows_all|].
  rewrite (proj2 (Z.eqb_neq c (-1))), (proj2 (Z.eqb_neq c 0)), Nat.ltb_irrefl by lia.
  unfold req_at, convert_req. cbn [np_req set_req set_in]. rewrite got_all, Nat2Z.id by done.
  destruct (good_ints_of (os_big os) (take msg_bytes (np_in v))) as [Ha _];
    [rewrite length_take; lia|by apply Forall_take|].
  pose proof (good_convert (os_big os) _ _ (count_of_le n) Ha) as Hc1. fold (converted (count_of n) (take msg_bytes (np_in v))) in *.
  exact (det_finish _ (set_in (drop msg_bytes (np_in v)) (set_req (converted (count_of n) (take msg_bytes (np_in v))) v)) Hc1).
Qed.

Lemma det_recv_end n secs v : good_ints (np_req v) -> Forall is_byte (np_in v) -> (length (np_in v) < msg_bytes)%nat ->
  det (recv_request_timed_n os n secs) v (after_end (count_of n) v) 0.
Proof.
  intros Hr Hi Hl. unfold recv_request_timed_n. eapply det_bind; [apply det_int_count|].
  apply (det_recv_loop os Hg); [done|done|]. unfold all_got. rewrite Nat.min_r by lia. intros c Hc Hc0. cbv beta iota.
  eapply det_bind; [by apply det_setdev|]. eapply det_bind; [apply det_debug|].
  eapply det_bind; [apply det_when, det_shows; shows_all|].
  replace c with 0 by lia. cbn [Z.eqb]. eapply det_bind; [apply det_when, det_shows; shows_all|].
  eapply det_bind; [by apply det_setdev|].
  unfold req_at, convert_req, after_end. cbn [np_req set_req set_in]. rewrite Nat2Z.id, drop_all. apply det_ret.
Qed.

Lemma good_zero : good_ints (replicate msg_ints 0).
Proof. split; [by rewrite length_replicate|]. apply Forall_replicate. by split. Qed.

Lemma det_recv_response t n v : Forall is_byte (np_in v) -> (msg_bytes <= length (np_in v))%nat ->
  det (recv_response_timed_n os t n) v
    (set_in (drop msg_bytes (np_in v)) (set_resp (converted (count_of n) (take msg_bytes (np_in v))) v)) tt.
Proof.
  intros Hi Hl. unfold recv_response_timed_n. eapply det_bind; [apply det_int_count|].
  eapply det_bind; [by apply det_setdev|]. apply (det_select os Hg). intros r ->. cbn [negb Z.eqb Pos.eqb].
  apply (det_recv_response_loop os Hg v); [exact good_zero|done|]. unfold all_got. rewrite Nat.min_l by done.
  intros c Hc Hc0. cbv beta iota. eapply det_bind; [apply det_debug|].
  eapply det_bind; [apply det_when, det_shows; shows_all|]. eapply det_bind; [by apply det_setdev|].
  rewrite (proj2 (Z.eqb_neq c (-1))), Nat.ltb_irrefl by lia.
  unfold resp_at, convert_resp. cbn [np_resp set_resp set_in]. rewrite got_all, Nat2Z.id by first [done|exact good_zero].
  destruct (good_ints_of (os_big os) (take msg_bytes (np_in v))) as [Ha _];
    [rewrite length_take; lia|by apply Forall_take|].
  apply det_when, det_dump_response, (good_convert (os_big os) _ _ (count_of_le n) Ha).
Qed.
End messages.

(** ** A network that may fail *)

Section failing.
Context (os : np_os).

Lemma runs_shows {A} (m : M np_w A) (s : st np_w) (Q : A -> st np_w -> Prop) :
  shows m (fun _ => True) -> (forall a s', dev s' = dev s -> Q a s') -> runs m s Q.
Proof. intros Hm HQ. eapply runs_mono; [apply Hm|]. intros a s' [E _]. by apply HQ. Qed.

(** After [tot] bytes of the stream [inp], over the memory [mem0]. *)
Definition part_at (inp mem0 : list Z) (tot : nat) (w : np_w) : Prop :=
  np_in w = drop tot inp /\ good_ints (np_req w) /\ (tot <= length inp)%nat /\ mem_of (os_big os) (np_req w) = take tot inp ++ drop tot mem0.

(** How the loop of a request can end. *)
Definition loop_end (inp mem0 : list Z) (r : unit + nat * Z * Z) (w : np_w) : Prop :=
  match r with
  | inl _ => exists l, np_log w = CloseSock :: l
  | inr (tot, b, _) => b = -1 \/ (b = 0 /\ (tot < msg_bytes)%nat) \/ (0 < b /\ tot = msg_bytes /\ part_at inp mem0 msg_bytes w)
  end.

Lemma part_store inp mem0 tot n w : length mem0 = msg_bytes -> Forall is_byte inp -> Forall is_byte mem0 ->
  (tot + n <= msg_bytes)%nat -> part_at inp mem0 tot w ->
  let data := take n (np_in w) in
  forall w', np_in w' = drop n (np_in w) -> np_req w' = np_req w ->
  part_at inp mem0 (tot + length data) (store_req os tot data w').
Proof.
  intros Hm Hi Hb Hn (Ei & Hr & Hl & Em) data w' Ei' Er'. unfold part_at, store_req. cbn [np_in np_req set_req].
  assert (Hd : length data = Nat.min n (length inp - tot)) by (unfold data; by rewrite length_take, Ei, length_drop).
  assert (E : put_bytes tot data (mem_of (os_big os) (np_req w')) = take (tot + length data) inp ++ drop (tot + length data) mem0).
  { rewrite Er', Em. unfold put_bytes. rewrite take_app_le, take_take, Nat.min_id by (rewrite length_take; lia).
    rewrite drop_app_ge by (rewrite length_take; lia). rewrite length_take, drop_drop, app_assoc. f_equal.
    - rewrite <- take_take_drop. f_equal. unfold data at 1. rewrite Ei, Hd.
      destruct (Nat.min_spec n (length inp - tot)) as [[? ->]|[? ->]]; [done|]. by rewrite !take_ge by (rewrite length_drop; lia).
    - f_equal. lia. }
  rewrite E. split; [|split; [|split; [lia|]]].
  - rewrite Ei', Ei, drop_drop, Hd. destruct (Nat.min_spec n (length inp - tot)) as [[? ->]|[? ->]]; [done|]. by rewrite !drop_ge by lia.
  - apply good_ints_of; [rewrite length_app, length_take, length_drop; lia|apply Forall_app_2; [by apply Forall_take|by apply Forall_drop]].
  - apply good_ints_of; [rewrite length_app, length_take, length_drop; lia|apply Forall_app_2; [by apply Forall_take|by apply Forall_drop]].
Qed.

Lemma recv_round_runs inp mem0 tot s : length mem0 = msg_bytes -> Forall is_byte inp -> Forall is_byte mem0 ->
  (tot < msg_bytes)%nat -> part_at inp mem0 tot (dev s) ->
  runs (recv_round os tot) s (fun r s' => match r with
    | inl tot' => (tot < tot' < msg_bytes)%nat /\ part_at inp mem0 tot' (dev s')
    | inr e => loop_end inp mem0 e (dev s')
    end).
Proof.
  intros Hm Hi Hb Ht Hp. unfold recv_round. apply runs_bind. unfold select. apply runs_devop. cbv beta. cbn [dev].
  match goal with |- runs _ (mkst _ ?x) _ => set (w := x) end.
  assert (Hw : part_at inp mem0 tot w) by exact Hp. clearbody w. destruct (negb _).
  - apply runs_bind, runs_shows; [shows_all|]. intros _ s1 E1. apply runs_bind. apply runs_setdev. apply runs_ret.
    cbn. eauto.
  - apply runs_bind. unfold recv. apply runs_devop. cbv beta. cbn [dev].
    destruct (os_recv os (np_recvs w)) as [limit|en]; cbn [fst snd].
    + set (n := Nat.min _ _). apply runs_bind, runs_setdev. cbn [dev].
      assert (Hn : (tot + n <= msg_bytes)%nat) by lia.
      pose proof (part_store inp mem0 tot n w Hm Hi Hb Hn Hw) as Hst. cbn zeta in *.
      pose proof (firstn_le_length n (np_in w)) as Hd. set (data := take n (np_in w)) in *.
      destruct (Nat.eqb_spec (tot + length data) msg_bytes) as [E|E]; cbn [negb andb].
      * apply runs_ret. cbn [loop_end dev]. right. right. split; [lia|]. split; [done|]. rewrite <- E. by apply Hst.
      * destruct (Nat.ltb_spec 0 (length data)); apply runs_ret; cbn [loop_end dev].
        -- split; [lia|]. by apply Hst.
        -- right. left. split; lia.
    + apply runs_ret. by left.
Qed.

Lemma convert_part inp mem0 k s : length mem0 = msg_bytes -> part_at inp mem0 msg_bytes (dev s) ->
  (k <= msg_ints)%nat ->
  let w := convert_req os (Z.of_nat k) (dev s) in
  exists m, length m = msg_bytes /\ inp = m ++ np_in w /\ np_req w = converted os k m /\ good_ints (np_req w).
Proof.
  intros Hm (Ei & Hr & Hl & Em) Hk w. exists (take msg_bytes inp). split; [rewrite length_take; lia|].
  rewrite (drop_ge mem0), app_nil_r in Em by lia. subst w. unfold convert_req. cbn [np_req np_in set_req]. rewrite Nat2Z.id.
  split; [by rewrite Ei, take_drop|]. split; [|by apply good_convert]. unfold converted. f_equal.
  rewrite <- Em. symmetry. apply ints_of_mem, Hr.
Qed.

Lemma runs_get_debug s (Q : Z -> st np_w -> Prop) : Q (np_debug (dev s)) s -> runs get_debug s Q.
Proof. intros H. apply runs_bind, runs_getdev, runs_ret, H. Qed.

Lemma recv_loop_runs s : good_ints (np_req (dev s)) -> Forall is_byte (np_in (dev s)) ->
  runs (recv_loop os) s (fun r s' => loop_end (np_in (dev s)) (mem_of (os_big os) (np_req (dev s))) r (dev s')).
Proof.
  intros Hr Hi. set (inp := np_in (dev s)) in *. set (mem0 := mem_of _ _).
  assert (Hm : length mem0 = msg_bytes) by by apply good_mem.
  assert (Hb : Forall is_byte mem0) by apply mem_of_is_byte.
  assert (Hp : part_at inp mem0 0 (dev s)) by (split; [by rewrite drop_0|]; repeat split; by try lia; apply Hr).
  unfold recv_loop. clearbody inp mem0. revert Hp. assert (H0 : (msg_bytes - 0 < S msg_bytes /\ 0 < msg_bytes)%nat) by (pose proof msg_pos; lia).
  revert H0. generalize (S msg_bytes), 0%nat, s. clear s Hr.
  induction n as [|f IH]; intros tot s [Hf Ht] Hp; [lia|]. cbn [while_]. apply runs_bind.
  eapply runs_mono; [by apply (recv_round_runs inp mem0)|]. intros [tot'|e] s1 H1; [|by apply runs_ret].
  destruct H1 as [H1 H2]. apply IH; [lia|done].
Qed.
End failing.

(** ** Texts in messages *)

Lemma cc_is_byte ch : is_byte (cc ch).
Proof. unfold cc, is_byte. pose proof (N_ascii_bounded ch). lia. Qed.

Lemma str_bytes_is_byte s : Forall is_byte (str_bytes s).
Proof. induction s as [|c s IH]; constructor; [apply cc_is_byte|done]. Qed.

Lemma str_bytes_length s : length (str_bytes s) = String.length s.
Proof. induction s as [|c s IH]; [done|]. cbn. by rewrite IH. Qed.

Lemma str_take_length n s : (String.length (str_take n s) <= n)%nat.
Proof. revert s. induction n as [|n IH]; intros [|c s]; cbn; try lia. specialize (IH s). lia. Qed.

Lemma put_bytes_facts off data m : (off + length data <= length m)%nat -> Forall is_byte data -> Forall is_byte m ->
  length (put_bytes off data m) = length m /\ Forall is_byte (put_bytes off data m).
Proof.
  intros Hl Hd Hm. unfold put_bytes. split; [rewrite !length_app, length_take, length_drop; lia|].
  apply Forall_app_2; [by apply Forall_take|]. apply Forall_app_2; [done|by apply Forall_drop].
Qed.

Lemma good_store big off data a : good_ints a -> (off + length data <= msg_bytes)%nat -> Forall is_byte data ->
  good_ints (ints_of big (put_bytes off data (mem_of big a))) /\
  mem_of big (ints_of big (put_bytes off data (mem_of big a))) = put_bytes off data (mem_of big a).
Proof.
  intros Ha Hl Hd. destruct (put_bytes_facts off data (mem_of big a)) as [El Hb];
    [by rewrite good_mem|done|apply mem_of_is_byte|].
  apply good_ints_of; [by rewrite El, good_mem|done].
Qed.

(** The text of a response, cut to its size and ended. *)
Definition text_data (s : string) : list Z := str_bytes (str_take (data_bytes - 1) s) ++ [0].

Lemma text_data_fits s : (8 + length (text_data s) <= msg_bytes)%nat /\ Forall is_byte (text_data s).
Proof.
  unfold text_data. rewrite length_app, str_bytes_length. pose proof (str_take_length (data_bytes - 1) s) as H.
  split; [|apply Forall_app_2; [apply str_bytes_is_byte|by repeat constructor]].
  change (length [0]) with 1%nat. change msg_bytes with (8 + data_bytes)%nat. assert (0 < data_bytes)%nat by (vm_compute; lia). lia.
Qed.

(** ** The answers of the server *)

Section answers.
Context (os : np_os) (Hg : good_net os) (env : np_env) (run_test : Z -> M np_w unit) (Hcpus : 0 <= env_cpus env <= MAXCPUS).
Implicit Types v : np_w.

(** The response to a request of type [t], and how many integers of it are
    converted. The rest of it is what the last response left. *)
Definition reply (t : Z) (r : list Z) : option (nat * list Z) :=
  if (t =? DEBUG_ON) || (t =? DEBUG_OFF) then Some (msg_ints, <[0%nat := DEBUG_OK]> r)
  else if t =? DO_SYSINFO then
    Some (2%nat, ints_of (os_big os) (put_bytes 8 (text_data (Server.sysinfo_text env)) (mem_of (os_big os) (<[0%nat := SYSINFO_RESPONSE]> r))))
  else if t =? CPU_CALIBRATE then Some (msg_ints, <[3%nat := env_cpus env]> (<[2%nat := 0]> (<[0%nat := CPU_CALIBRATE]> r)))
  else if t =? PASSPHRASE then None
  else Some (msg_ints, <[1%nat := 998]> r).
Definition debug_after (t d : Z) : Z :=
  if (t =? DEBUG_ON) && negb (env_suppress_debug env) then s32 (d + 1)
  else if (t =? DEBUG_OFF) && truth d then s32 (d - 1) else d.
Definition answer (t : Z) (r : list Z) : list Z * list Z :=
  match reply t r with
  | Some (n, r') => (convert_range (os_big os) 0 n r', wire (os_big os) n r')
  | None => (r, [])
  end.
Definition answered (t : Z) (v : np_w) : np_w :=
  let '(r, o) := answer t (np_resp v) in add_out o (set_resp r (set_debug (debug_after t (np_debug v)) v)).

Lemma add_out_nil v : add_out [] v = v.
Proof. unfold add_out. rewrite app_nil_r. by destruct v. Qed.

Lemma good_reply t r n r' : good_ints r -> reply t r = Some (n, r') -> good_ints r' /\ (n <= msg_ints)%nat.
Proof.
  assert (Hle : (2 <= msg_ints)%nat) by (vm_compute; lia). assert (Hu : u32 (env_cpus env) = env_cpus env).
  { apply wrapu_small. unfold MAXCPUS in Hcpus. lia. }
  intros Hr. unfold reply. destruct (_ || _)%bool; [intros [= <- <-]; split; [exact (good_insert 0 3 r Hr)|done]|].
  destruct (t =? DO_SYSINFO).
  { intros [= <- <-]. split; [|done]. destruct (text_data_fits (Server.sysinfo_text env)).
    apply good_store; [exact (good_insert 0 601 r Hr)|done|done]. }
  destruct (t =? CPU_CALIBRATE).
  { intros [= <- <-]. split; [|done]. rewrite <- Hu. apply good_insert. apply (good_insert 2 0), (good_insert 0 5), Hr. }
  destruct (t =? PASSPHRASE); [done|]. intros [= <- <-]. split; [exact (good_insert 1 998 r Hr)|done].
Qed.

Lemma good_answer t r : good_ints r -> good_ints (fst (answer t r)).
Proof.
  intros Hr. unfold answer. destruct (reply t r) as [[n r']|] eqn:E; [|done].
  destruct (good_reply t r n r' Hr E) as [H1 H2]. by apply good_convert.
Qed.

Lemma det_send_response v : good_ints (np_resp v) ->
  det (send_response os) v (add_out (wire (os_big os) msg_ints (np_resp v)) (set_resp (convert_range (os_big os) 0 msg_ints (np_resp v)) v)) tt.
Proof. intros Hr. exact (det_send_response_n os Hg (-1) v Hr). Qed.

Lemma det_put_resp i x v : det (put_resp i x) v (set_resp (<[i := u32 x]> (np_resp v)) v) tt.
Proof. by apply (det_setdev (fun w => set_resp (<[i := u32 x]> (np_resp w)) w)). Qed.

Lemma det_dispatch t v : t ∉ test_requests -> good_ints (np_resp v) -> length (np_req v) = msg_ints ->
  det (Server.dispatch os env run_test t) v (answered t v) tt.
Proof.
  intros Ht Hr Hq. unfold Server.dispatch, answered, answer, reply, debug_after.
  destruct (Z.eqb_spec t DEBUG_ON) as [->|H1]; cbn [orb andb].
  { change (DEBUG_ON =? DEBUG_OFF) with false. cbn [andb]. unfold Server.debug_on. eapply det_bind; [apply det_put_resp|].
    pose proof (good_insert 0 DEBUG_OK _ Hr) as Hr'.
    destruct (env_suppress_debug env); cbn [negb when].
    - eapply det_bind; [apply det_ret|]. exact (det_send_response (set_resp (<[0%nat := u32 DEBUG_OK]> (np_resp v)) v) Hr').
    - eapply det_bind; [|exact (det_send_response (set_debug (s32 (np_debug v + 1)) (set_resp (<[0%nat := u32 DEBUG_OK]> (np_resp v)) v)) Hr')].
      eapply det_bind; [by apply det_setdev|]. eapply det_bind; [apply det_debug|]. by apply det_when, det_dump_request. }
  destruct (Z.eqb_spec t DEBUG_OFF) as [->|H2]; cbn [orb andb].
  { unfold Server.debug_off. pose proof (good_insert 0 DEBUG_OK _ Hr) as Hr'.
    eapply det_bind. { apply det_setdev. intros w. cbn [np_debug view]. by destruct (truth (np_debug w)). }
    eapply det_bind; [apply det_put_resp|]. destruct (truth (np_debug v)) eqn:E.
    - exact (det_send_response (set_resp (<[0%nat := u32 DEBUG_OK]> (np_resp v)) (set_debug (s32 (np_debug v - 1)) v)) Hr').
    - assert (Ed : set_debug (np_debug v) v = v) by by destruct v. rewrite Ed. exact (det_send_response (set_resp (<[0%nat := u32 DEBUG_OK]> (np_resp v)) v) Hr'). }
  assert (Ed : set_debug (np_debug v) v = v) by by destruct v. rewrite Ed.
  destruct (Z.eqb_spec t DO_SYSINFO) as [->|H3].
  { unfold Server.sysinfo, put_text. eapply det_bind; [apply det_put_resp|]. eapply det_bind; [by apply det_setdev|].
    destruct (good_reply DO_SYSINFO (np_resp v) _ _ Hr eq_refl) as [Hr' _].
    refine (det_send_response_n os Hg 0 (set_resp _ v) Hr'). }
  destruct (Z.eqb_spec t CPU_CALIBRATE) as [->|H4].
  { unfold Server.cpu_calibrate. eapply det_bind; [apply det_put_resp|].
    assert (En : s32 (env_cpus env) = env_cpus env) by (apply wraps_small; unfold MAXCPUS in Hcpus; lia).
    assert (Hu : u32 (env_cpus env) = env_cpus env) by (apply wrapu_small; unfold MAXCPUS in Hcpus; lia).
    eapply det_bind. { unfold calibrate_local_cpu, get_num_cpus. rewrite En, (proj2 (Z.ltb_ge MAXCPUS (env_cpus env))) by lia.
      eapply det_bind; [apply det_ret|apply det_ret]. }
    eapply det_bind; [apply det_put_resp|]. eapply det_bind; [apply det_put_resp|].
    eapply det_bind; [apply det_debug|]. eapply det_bind; [apply det_when, det_shows; shows_all|].
    cbn [np_resp set_resp fst snd]. rewrite Hu.
    destruct (good_reply CPU_CALIBRATE (np_resp v) _ _ Hr eq_refl) as [Hr' _].
    refine (det_send_response (set_resp _ v) Hr'). }
  rewrite bool_decide_false by done. destruct (Z.eqb_spec t PASSPHRASE) as [->|H5].
  { eapply det_bind; [apply det_debug|]. replace (set_resp (np_resp v) v) with v by by destruct v. rewrite add_out_nil.
    apply det_when, det_shows. shows_all. }
  unfold Server.unknown_test. eapply det_bind; [apply det_shows; shows_all|]. eapply det_bind; [apply det_put_resp|].
  refine (det_send_response (set_resp _ v) (good_insert 1 998 _ Hr)).
Qed.
End answers.

(** ** Texts that arrive *)

Lemma mem_of_drop big : forall k a, mem_of big (drop k a) = drop (4 * k) (mem_of big a).
Proof.
  induction k as [|k IH]; intros [|x a]; [done|done|by rewrite drop_nil|].
  cbn [drop]. rewrite IH, mem_of_cons. replace (4 * S k)%nat with (4 + 4 * k)%nat by lia.
  by rewrite <- drop_drop, drop_app_length' by (by rewrite int_bytes_length).
Qed.

Lemma mem_of_take big k a : mem_of big (take k a) = take (4 * k) (mem_of big a).
Proof.
  destruct (Nat.le_gt_cases (length a) k) as [H|H].
  - rewrite !take_ge; [done|rewrite mem_of_length; lia|done].
  - rewrite <- (take_drop k a) at 2. rewrite mem_of_app, take_app_length'; [done|]. rewrite mem_of_length, length_take. lia.
Qed.

(** The bytes behind the converted integers are those of the stream. *)
Lemma drop_converted os n m : (n <= msg_ints)%nat -> length m = msg_bytes -> Forall is_byte m ->
  drop (4 * n) (mem_of (os_big os) (converted os n m)) = drop (4 * n) m.
Proof.
  intros Hn Hl Hb. destruct (good_ints_of (os_big os) m Hl Hb) as [[Hi Hu] Em]. unfold converted.
  rewrite mem_of_convert by by rewrite ?Hi. unfold wire. rewrite drop_app_length'.
  - by rewrite mem_of_drop, Em.
  - rewrite mem_of_length, length_take. lia.
Qed.

Lemma drop_wire big n a : good_ints a -> (n <= msg_ints)%nat -> drop (4 * n) (wire big n a) = drop (4 * n) (mem_of big a).
Proof.
  intros [Hl _] Hn. unfold wire. rewrite drop_app_length'; [by rewrite mem_of_drop|]. rewrite mem_of_length, length_take. lia.
Qed.

Lemma drop_put data m : (8 <= length m)%nat -> drop 8 (put_bytes 8 data m) = data ++ drop (8 + length data) m.
Proof. intros H. unfold put_bytes. rewrite drop_app_length'; [done|]. rewrite length_take. lia. Qed.

(** A C string: no character is zero. *)
Definition c_string (s : string) : Prop := Forall (fun b => b <> 0) (str_bytes s).

Lemma chr_cc c : chr (cc c) = c.
Proof. unfold chr, cc. by rewrite N2Z.id, ascii_N_embedding. Qed.

Lemma cstr_app s l : c_string s -> cstr (str_bytes s ++ 0 :: l) = s.
Proof.
  unfold c_string. induction s as [|c s IH]; intros H; [done|]. cbn in *. apply Forall_cons_iff in H as [H1 H2].
  rewrite (proj2 (Z.eqb_neq _ 0) H1), chr_cc, IH by done. done.
Qed.

Lemma cstr_exact s : c_string s -> cstr (str_bytes s) = s.
Proof.
  unfold c_string. induction s as [|c s IH]; intros H; [done|]. cbn in *. apply Forall_cons_iff in H as [H1 H2].
  rewrite (proj2 (Z.eqb_neq _ 0) H1), chr_cc, IH by done. done.
Qed.

Lemma str_take_all s : forall n, (String.length s <= n)%nat -> str_take n s = s.
Proof. induction s as [|c s IH]; intros [|n] H; cbn in *; try done; [lia|]. by rewrite IH by lia. Qed.

Lemma str_bytes_app a b : str_bytes (a +:+ b) = str_bytes a ++ str_bytes b.
Proof.
  induction a as [|c a IH]; [done|]. change (String c a +:+ b) with (String c (a +:+ b)). cbn [str_bytes app]. by rewrite IH.
Qed.

(** A character that [strstr] does not find. *)
Lemma has_char_false c s : Server.has_char c s = false -> Forall (fun b => b <> cc c) (str_bytes s).
Proof.
  unfold Server.has_char. induction s as [|c' s IH]; intros H; [constructor|]. cbn [strstr] in H.
  apply orb_false_iff in H as [H1 H2]. constructor; [|by apply IH].
  cbn in H1. destruct (ascii_dec c c') as [->|Hne]; [by destruct s|]. intros E. apply Hne.
  rewrite <- (chr_cc c), <- (chr_cc c'). by rewrite E.
Qed.

(** [strtok] on a token. *)
Lemma strtok_token d a k t e r : d <> 0 -> t <> [] -> Forall (fun b => b <> 0) t -> Forall (fun b => b <> d) t -> e = d \/ e = 0 ->
  Client.strtok d (a ++ replicate k d ++ t ++ e :: r) (length a) =
  (Some (cstr t), if e =? 0 then (length a + k + length t)%nat else S (length a + k + length t), a ++ replicate k d ++ t ++ 0 :: r).
Proof.
  intros Hd Ht H0 Hnd He. unfold Client.strtok. rewrite drop_app_length.
  assert (Hsk : Client.skip_delims d (replicate k d ++ t ++ e :: r) = k).
  { induction k as [|k IH]; cbn [replicate app Client.skip_delims].
    - destruct t as [|b t]; [done|]. apply Forall_cons_iff in Hnd as [Hb _]. cbn. by rewrite (proj2 (Z.eqb_neq b d) Hb).
    - by rewrite Z.eqb_refl, (proj2 (Z.eqb_neq d 0) Hd), IH. }
  rewrite Hsk. set (m := a ++ replicate k d ++ t ++ e :: r).
  assert (Em : m = (a ++ replicate k d ++ t) ++ e :: r) by (unfold m; by rewrite <- !app_assoc).
  assert (Hl : length (a ++ replicate k d ++ t) = (length a + k + length t)%nat) by (rewrite !length_app, length_replicate; lia).
  assert (Hdr : drop (length a + k) m = t ++ e :: r).
  { unfold m. by rewrite <- drop_drop, drop_app_length, drop_app_length' by (by rewrite length_replicate). }
  rewrite Hdr. assert (Hsp : Client.span_not d (t ++ e :: r) = length t).
  { clear -H0 Hnd He. induction t as [|b t IH]; cbn.
    - destruct He as [-> | ->]; [by rewrite Z.eqb_refl, orb_true_r|done].
    - apply Forall_cons_iff in H0 as [? ?]. apply Forall_cons_iff in Hnd as [? ?].
      by rewrite (proj2 (Z.eqb_neq b 0)), (proj2 (Z.eqb_neq b d)), IH. }
  rewrite Hsp. assert (Hlt : (0 < length t)%nat) by (destruct t; [done|cbn; lia]).
  rewrite (proj2 (Nat.eqb_neq _ _)) by lia. replace (_ + length t - _)%nat with (length t) by lia.
  rewrite take_app_length, Em, <- Hl, nth_middle. f_equal.
  rewrite <- (Nat.add_0_r (length (a ++ _))), insert_app_r. cbn [insert list_insert]. by rewrite <- !app_assoc.
Qed.

Definition good_token (d : Z) (t : list Z) : Prop := t <> [] /\ Forall (fun b => b <> 0) t /\ Forall (fun b => b <> d) t.

Lemma parse_names_tokens d p t1 t2 t3 t4 r : d <> 0 -> length p = 8%nat -> good_token d t1 -> good_token d t2 -> good_token d t3 -> good_token d t4 ->
  fst (Client.parse_names (p ++ d :: t1 ++ d :: t2 ++ d :: t3 ++ d :: t4 ++ 0 :: r)) =
  mk_names (cstr t1) (cstr t2) (cstr t3) (cstr t4).
Proof.
  intros Hd Hp (H1 & H1' & H1'') (H2 & H2' & H2'') (H3 & H3' & H3'') (H4 & H4' & H4''). unfold Client.parse_names.
  assert (Hn : nth 8 (p ++ d :: t1 ++ d :: t2 ++ d :: t3 ++ d :: t4 ++ 0 :: r) 0 = d) by (rewrite <- Hp; apply nth_middle).
  rewrite Hn. cbv zeta.
  pose proof (strtok_token d p 1 t1 d (t2 ++ d :: t3 ++ d :: t4 ++ 0 :: r) Hd H1 H1' H1'' (or_introl eq_refl)) as E1.
  rewrite Hp, (proj2 (Z.eqb_neq d 0) Hd) in E1. cbn [replicate app] in E1. rewrite E1. clear E1. cbv beta iota.
  set (a1 := p ++ d :: t1 ++ [0]). assert (L1 : length a1 = S (8 + 1 + length t1)) by (unfold a1; rewrite length_app; cbn; rewrite length_app; cbn; lia).
  pose proof (strtok_token d a1 0 t2 d (t3 ++ d :: t4 ++ 0 :: r) Hd H2 H2' H2'' (or_introl eq_refl)) as E2.
  rewrite L1, (proj2 (Z.eqb_neq d 0) Hd) in E2. cbn [replicate app] in E2.
  replace (p ++ d :: t1 ++ 0 :: t2 ++ d :: t3 ++ d :: t4 ++ 0 :: r) with (a1 ++ t2 ++ d :: t3 ++ d :: t4 ++ 0 :: r)
    by (unfold a1; by rewrite <- app_assoc; cbn; rewrite <- app_assoc).
  rewrite E2. clear E2. cbv beta iota.
  set (a2 := a1 ++ t2 ++ [0]). assert (L2 : length a2 = S (S (8 + 1 + length t1) + 0 + length t2)) by (unfold a2; rewrite !length_app, L1; cbn; lia).
  pose proof (strtok_token d a2 0 t3 d (t4 ++ 0 :: r) Hd H3 H3' H3'' (or_introl eq_refl)) as E3.
  rewrite L2, (proj2 (Z.eqb_neq d 0) Hd) in E3. cbn [replicate app] in E3.
  replace (a1 ++ t2 ++ 0 :: t3 ++ d :: t4 ++ 0 :: r) with (a2 ++ t3 ++ d :: t4 ++ 0 :: r) by (unfold a2; by rewrite <- !app_assoc).
  rewrite E3. clear E3. cbv beta iota.
  set (a3 := a2 ++ t3 ++ [0]). assert (L3 : length a3 = S (S (S (8 + 1 + length t1) + 0 + length t2) + 0 + length t3)) by (unfold a3; rewrite !length_app, L2; cbn; lia).
  pose proof (strtok_token d a3 0 t4 0 r Hd H4 H4' H4'' (or_intror eq_refl)) as E4.
  rewrite L3 in E4. cbn [replicate app] in E4.
  replace (a2 ++ t3 ++ 0 :: t4 ++ 0 :: r) with (a3 ++ t4 ++ 0 :: r) by (unfold a3; by rewrite <- !app_assoc).
  by rewrite E4.
Qed.

Lemma length_pos_cc s : s <> EmptyString -> str_bytes s <> [].
Proof. by destruct s. Qed.

(** The text with the four names, as the server writes it. *)
Lemma delimited_bytes d n : str_bytes (Server.delimited d (names_list n)) =
  cc d :: str_bytes (n_sysname n) ++ cc d :: str_bytes (n_release n) ++ cc d :: str_bytes (n_machine n) ++ cc d :: str_bytes (n_version n).
Proof.
  unfold Server.delimited, names_list. cbn [foldr str_bytes]. rewrite !str_bytes_app. cbn [str_bytes]. rewrite !str_bytes_app.
  cbn [str_bytes]. rewrite !str_bytes_app. cbn [str_bytes]. rewrite str_bytes_app. cbn [str_bytes]. by rewrite app_nil_r.
Qed.

(** The delimiter found fits all names. *)
Lemma delims_tokens n d :
  List.find (fun d => negb (existsb (Server.has_char d) (names_list n))) Server.delims = Some d ->
  Forall (fun n => c_string n /\ n <> EmptyString) (names_list n) ->
  cc d <> 0 /\ good_token (cc d) (str_bytes (n_sysname n)) /\ good_token (cc d) (str_bytes (n_release n)) /\
  good_token (cc d) (str_bytes (n_machine n)) /\ good_token (cc d) (str_bytes (n_version n)).
Proof.
  intros Hf Hn. apply find_some in Hf as [Hin Hf]. apply negb_true_iff in Hf. split.
  { repeat (destruct Hin as [<-|Hin]; [done|]). done. }
  assert (H : Forall (fun n => good_token (cc d) (str_bytes n)) (names_list n)).
  { clear Hin. induction Hn as [|x l [Hx Hne] _ IH]; [constructor|]. cbn [existsb] in Hf. apply orb_false_iff in Hf as [H1 H2].
    constructor; [|by apply IH]. split; [by apply length_pos_cc|]. split; [done|by apply has_char_false]. }
  unfold names_list in H. rewrite !Forall_cons_iff in H. tauto.
Qed.

(** Both words of a double converted. *)
Lemma swap_words_eq big x0 x1 x2 x3 x4 x5 x6 x7 : Forall is_byte [x0; x1; x2; x3; x4; x5; x6; x7] ->
  swap_words big [x0; x1; x2; x3; x4; x5; x6; x7] = if big then [x0; x1; x2; x3; x4; x5; x6; x7] else [x3; x2; x1; x0; x7; x6; x5; x4].
Proof.
  intros H. change [x0; x1; x2; x3; x4; x5; x6; x7] with ([x0; x1; x2; x3] ++ [x4; x5; x6; x7]) in H.
  apply Forall_app in H as [H1 H2]. unfold swap_words. destruct big; cbn [ints_of]; rewrite !fmap_cons, fmap_nil, !mem_of_cons.
  - unfold htonl, int_bytes. rewrite !le_bytes_val4; [done|done|..]; try done;
      [change (Forall is_byte (rev [x4; x5; x6; x7]))|change (Forall is_byte (rev [x0; x1; x2; x3]))]; by apply Forall_rev.
  - unfold htonl, int_bytes. rewrite !(le_bytes_val4 [_; _; _; _]) by done. cbn [rev app].
    rewrite !le_bytes_val4; [done|done|..]; try done;
      [change (Forall is_byte (rev [x4; x5; x6; x7]))|change (Forall is_byte (rev [x0; x1; x2; x3]))]; by apply Forall_rev.
Qed.
