(* ===== verification/NpClaims.v ===== *)
(** * The properties of netperf *)

From stdpp Require Import base list strings numbers.
From Stdlib Require Import ZArith Lia Ascii.
From S2P Require Import Prelude CInt CLib CLibOk CFmt FloatTools NpLib NpServer NpOk.

(** ** The control connection *)

Section control.
Context (c s : np_os) (Hc : good_net c) (Hs : good_net s).

Lemma converted_wire n a : good_ints a ->
  converted s (count_of n) (wire (os_big c) (count_of n) a) =
  take (count_of n) a ++ ints_of (os_big s) (mem_of (os_big c) (drop (count_of n) a)).
Proof. intros [Hl Ha]. unfold converted. apply convert_wire; [rewrite Hl; apply count_of_le|done]. Qed.

Lemma good_wire big n a : good_ints a -> length (wire big n a) = msg_bytes /\ Forall is_byte (wire big n a).
Proof. intros [Hl _]. split; [by rewrite wire_length, Hl|apply wire_is_byte]. Qed.

(** C6: A request that one host sends arrives at the other, and a response at
    the first, in however small pieces the network delivers it, whatever follows
    it in the stream and whatever the debugging level: the integers that both
    ends convert have the same values in any combination of byte orders (the
    second one is the processor the client asks for), the others have the same
    bytes; exactly one message is taken from the stream. *)
Theorem control_messages_arrive n secs : let k := count_of n in
  (forall sc : st np_w, good_ints (np_req (dev sc)) ->
     exists sc' w, send_request_n c n sc = (Ret tt, sc') /\ np_out (dev sc') = np_out (dev sc) ++ w /\
     forall (ss : st np_w) rest, good_ints (np_req (dev ss)) -> Forall is_byte rest -> np_in (dev ss) = w ++ rest ->
     exists ss', recv_request_timed_n s n secs ss = (Ret (Z.of_nat msg_bytes), ss') /\ np_in (dev ss') = rest /\
       let a := <[1%nat := u32 (np_remote_affinity (dev sc))]> (np_req (dev sc)) in
       np_req (dev ss') = take k a ++ ints_of (os_big s) (mem_of (os_big c) (drop k a))) /\
  (forall ss : st np_w, good_ints (np_resp (dev ss)) ->
     exists ss' w, send_response_n s n ss = (Ret tt, ss') /\ np_out (dev ss') = np_out (dev ss) ++ w /\
     forall (sc : st np_w) rest, Forall is_byte rest -> np_in (dev sc) = w ++ rest ->
     exists sc', recv_response_timed_n c secs n sc = (Ret tt, sc') /\ np_in (dev sc') = rest /\
       np_resp (dev sc') = take k (np_resp (dev ss)) ++ ints_of (os_big c) (mem_of (os_big s) (drop k (np_resp (dev ss))))).
Proof.
  intros k. split.
  - intros sc Hqc. destruct (det_send_request_n c Hc n (view (dev sc)) Hqc sc eq_refl) as (sc' & E & Ev).
    pose proof (good_insert 1 (np_remote_affinity (dev sc)) _ Hqc) as Ha. cbn [np_req np_remote_affinity view] in Ev.
    exists sc', (wire (os_big c) k (<[1%nat := u32 (np_remote_affinity (dev sc))]> (np_req (dev sc)))).
    split; [done|]. split; [exact (f_equal np_out Ev)|]. intros ss rest Hqs Hr Hi.
    destruct (good_wire (os_big c) k _ Ha) as [Hl Hb].
    destruct (det_recv_request s Hs n secs (view (dev ss)) Hqs) with (s := ss) as (ss' & E' & Ev');
      cbn [np_in view]; rewrite ?Hi; [by apply Forall_app_2|rewrite length_app; lia|done|].
    exists ss'. split; [done|]. unfold after_request in Ev'. cbn [np_in view] in Ev'.
    rewrite Hi, take_app_length', drop_app_length', converted_wire in Ev' by done.
    split; [etrans; [exact (f_equal np_in Ev')|]|etrans; [exact (f_equal np_req Ev')|]]; apply finished_same.
  - intros ss Hps. destruct (det_send_response_n s Hs n (view (dev ss)) Hps ss eq_refl) as (ss' & E & Ev).
    exists ss', (wire (os_big s) k (np_resp (dev ss))). split; [done|]. split; [exact (f_equal np_out Ev)|]. intros sc rest Hr Hi.
    destruct (good_wire (os_big s) k _ Hps) as [Hl Hb].
    destruct (det_recv_response c Hc secs n (view (dev sc))) with (s := sc) as (sc' & E' & Ev');
      cbn [np_in view]; rewrite ?Hi; [by apply Forall_app_2|rewrite length_app; lia|done|].
    exists sc'. split; [done|]. cbn [np_in view] in Ev'. rewrite Hi, take_app_length', drop_app_length' in Ev' by done.
    split; [exact (f_equal np_in Ev')|]. etrans; [exact (f_equal np_resp Ev')|]. cbn [np_resp set_in set_resp].
    unfold converted. destruct Hps as [Hl' Ha']. apply convert_wire; [rewrite Hl'; apply count_of_le|done].
Qed.
End control.

(** C25: On any network, failing or not, [recv_request_timed_n] returns. The
    result is the size of a message exactly when a whole message was taken from
    the stream and converted; otherwise it is 0 or -1 and the socket was closed.
    When no call fails, a request that is cut short gives 0, the result for an
    orderly end of the connection: the branch that reports a partial request is
    never taken. *)
Theorem request_or_closed (os : np_os) n secs (s : st np_w) : good_ints (np_req (dev s)) -> Forall is_byte (np_in (dev s)) ->
  runs (recv_request_timed_n os n secs) s (fun r s' =>
    (r = Z.of_nat msg_bytes /\ exists m, length m = msg_bytes /\ np_in (dev s) = m ++ np_in (dev s') /\
       np_req (dev s') = converted os (count_of n) m) \/
    ((r = 0 \/ r = -1) /\ exists l, np_log (dev s') = CloseSock :: l)) /\
  (good_net os -> (length (np_in (dev s)) < msg_bytes)%nat ->
     exists s', recv_request_timed_n os n secs s = (Ret 0, s') /\ np_in (dev s') = []).
Proof.
  intros Hr Hi. split.
  - unfold recv_request_timed_n. apply runs_bind.
    destruct (det_int_count "netperf_request" n (view (dev s)) s eq_refl) as (s1 & E1 & Ev1).
    exists (Z.of_nat (count_of n)), s1. split; [done|]. cbv beta. apply runs_bind.
    pose proof (f_equal np_req Ev1) as Er. pose proof (f_equal np_in Ev1) as Ei. cbn [np_req np_in view] in Er, Ei.
    eapply runs_mono; [apply recv_loop_runs; congruence|]. rewrite Er, Ei. intros r s2 H2.
    destruct r as [[]|[[tot b] en]]; [apply runs_ret; right; split; [by right|done]|].
    apply runs_bind, runs_setdev, runs_bind, runs_get_debug. cbv beta. apply runs_bind, runs_shows; [shows_all|]. intros _ s3 E3.
    destruct (Z.eqb_spec b (-1)) as [->|Hb].
    { apply runs_bind, runs_shows; [shows_all|]. intros _ s4 E4. apply runs_bind, runs_setdev, runs_ret. right. split; [by right|]. by eexists. }
    destruct (Z.eqb_spec b 0) as [->|Hb0].
    { apply runs_bind, runs_shows; [shows_all|]. intros _ s4 E4. apply runs_bind, runs_setdev, runs_ret. right. split; [by left|]. by eexists. }
    destruct H2 as [?|[[? ?]|(_ & -> & H2)]]; [done|done|]. rewrite Nat.ltb_irrefl.
    destruct (convert_part os _ _ (count_of n) s2 (good_mem _ _ Hr) H2 (count_of_le n)) as (m & Em & Ei' & Er' & Hg).
    cbn [dev] in E3. rewrite <- E3 in Ei', Er', Hg. destruct (det_finish os (np_debug (convert_req os (Z.of_nat (count_of n)) (dev s2))) (view (dev s3)) Hg s3 eq_refl) as (s4 & E4 & Ev4).
    exists (Z.of_nat msg_bytes), s4. split; [exact E4|]. left. split; [done|].
    exists m. split; [done|]. destruct (finished_same (view (dev s3))) as [F1 F2]. rewrite <- Ev4 in F1, F2. cbn [np_req np_in view] in F1, F2.
    by rewrite F1, F2.
  - intros Hg Hl. destruct (det_recv_end os Hg n secs (view (dev s)) Hr Hi Hl s eq_refl) as (s' & E & Ev).
    exists s'. split; [done|]. exact (f_equal np_in Ev).
Qed.

(** ** The server *)

Section server.
Context (os : np_os) (Hg : good_net os) (env : np_env) (run_test : Z -> M np_w unit) (Hcpus : 0 <= env_cpus env <= MAXCPUS).

(** The type of a request in the stream, and what a server whose last response
    and debugging level are [r] and [d] answers to a sequence of requests. *)
Definition msg_type (m : list Z) : Z := s32 (nth 0 (converted os msg_ints m) 0).
Fixpoint session (r : list Z) (d : Z) (ms : list (list Z)) : list Z * Z * list Z :=
  match ms with
  | [] => (r, d, [])
  | m :: ms =>
      let '(r', o) := answer os env (msg_type m) r in
      let '(r'', d', o') := session r' (debug_after env (msg_type m) d) ms in
      (r'', d', o ++ o')
  end.
(** A request that is no test. *)
Definition control_request (m : list Z) : Prop :=
  length m = msg_bytes /\ Forall is_byte m /\ msg_type m ∉ test_requests.
Definition only_binds (l : list np_event) : Prop := Forall (fun e => e <> CloseSock) l.

Lemma after_request_facts n v : exists l, only_binds l /\ np_log (after_request os n v) = l ++ np_log v /\
  np_req (after_request os n v) = converted os n (take msg_bytes (np_in v)) /\
  np_resp (after_request os n v) = np_resp v /\ np_out (after_request os n v) = np_out v /\
  np_in (after_request os n v) = drop msg_bytes (np_in v) /\ np_debug (after_request os n v) = np_debug v.
Proof.
  unfold after_request, finished, bound_cpu. destruct (_ =? -1); [exists []; by split; [constructor|]|].
  destruct (_ <? 1024); [|exists []; by split; [constructor|]]. eexists [BindCpu _]. split; [constructor; [discriminate|constructor]|done].
Qed.

Lemma session_loop ms : forall v rest fuel,
  good_ints (np_req v) -> good_ints (np_resp v) -> np_in v = concat ms ++ rest -> Forall control_request ms ->
  Forall is_byte rest -> (length rest < msg_bytes)%nat -> (length ms < fuel)%nat ->
  let '(r, d, o) := session (np_resp v) (np_debug v) ms in
  exists v' l, det (Server.request_loop os env run_test fuel) v v' tt /\
    np_out v' = np_out v ++ o /\ np_in v' = [] /\ np_resp v' = r /\ np_debug v' = d /\
    only_binds l /\ np_log v' = CloseSock :: CloseSock :: l ++ np_log v.
Proof.
  induction ms as [|m ms IH]; intros v rest fuel Hq Hr Hi Hm Hb Hl Hf.
  - cbn [session concat app] in *. destruct fuel as [|f]; [lia|].
    exists (add_event CloseSock (after_end os msg_ints v)), []. split.
    + eapply det_bind. { eapply det_bind; [apply (det_recv_end os Hg (-1) 0); [done|by rewrite Hi|by rewrite Hi]|].
        cbv beta. eapply det_bind; [by apply det_setdev|apply det_ret]. }
      apply det_ret.
    + rewrite app_nil_r. by repeat split; try apply Forall_nil_2.
  - apply Forall_cons_iff in Hm as [(Hml & Hmb & Hmt) Hms]. cbn [concat] in Hi. rewrite <- app_assoc in Hi.
    assert (Hall : Forall is_byte (np_in v)).
    { rewrite Hi. apply Forall_app_2; [done|]. apply Forall_app_2; [|done]. apply Forall_concat.
      eapply Forall_impl; [|exact Hms]. by intros x (_ & ? & _). }
    destruct (after_request_facts msg_ints v) as (l0 & Hl0 & El & Eq & Er & Eo & Ei & Ed).
    rewrite Hi, take_app_length' in Eq by done. rewrite Hi, drop_app_length' in Ei by done.
    assert (Hq1 : good_ints (np_req (after_request os msg_ints v))).
    { rewrite Eq. apply good_convert; [done|]. by apply good_ints_of. }
    cbn [session]. destruct (answer os env (msg_type m) (np_resp v)) as [r' o] eqn:Ea.
    destruct fuel as [|f]; [lia|]. set (v1 := answered os env (msg_type m) (after_request os msg_ints v)).
    assert (E1 : np_resp v1 = r' /\ np_debug v1 = debug_after env (msg_type m) (np_debug v) /\ np_out v1 = np_out v ++ o /\
      np_in v1 = concat ms ++ rest /\ np_log v1 = l0 ++ np_log v /\ np_req v1 = np_req (after_request os msg_ints v)).
    { unfold v1, answered. rewrite Er, Ea. cbn [np_resp np_debug np_out np_in np_log np_req add_out set_resp set_debug]. by rewrite Ed, Eo, Ei, El. }
    destruct E1 as (F1 & F2 & F3 & F4 & F5 & F6).
    assert (Hr1 : good_ints (np_resp v1)).
    { rewrite F1. change r' with (fst (r', o)). rewrite <- Ea. by apply good_answer. }
    specialize (IH v1 rest f ltac:(by rewrite F6) Hr1 F4 Hms Hb Hl ltac:(cbn in Hf; lia)).
    rewrite F1, F2 in IH. destruct (session r' _ ms) as [[r'' d'] o']. destruct IH as (v' & l & Hd & Io & Ii & Ir & Idb & Hbl & Il).
    exists v', (l ++ l0). split; [|by rewrite Io, F3, <- app_assoc, Il, F5, <- !app_assoc; repeat split; try done; apply Forall_app_2].
    refine (det_bind _ _ v v1 v' (inl tt) tt _ Hd). eapply det_bind; [apply (det_recv_request os Hg (-1) 0); [done|done|rewrite Hi, length_app; lia]|].
    cbv beta. change (count_of (-1)) with msg_ints. eapply det_bind. { unfold request_type. apply det_getdev. intros w Hw.
      destruct (view_eq _ _ Hw) as (-> & _). eapply det_bind; [apply det_elem; [done|]; apply good_lookup; [done|vm_compute; lia]|apply det_ret]. }
    cbv beta. rewrite Eq. fold (msg_type m). refine (det_bind _ _ _ _ _ tt (inl tt) _ (det_ret _ _)).
    apply (det_dispatch os Hg); [done|done|by rewrite Er|apply Hq1].
Qed.

Lemma det_process fuel v v' : env_passphrase env = None -> det (Server.request_loop os env run_test fuel) v v' tt ->
  det (Server.process_requests os env run_test fuel) v v' tt.
Proof.
  intros Hp Hd. unfold Server.process_requests. rewrite Hp. eapply det_bind; [apply det_debug|].
  eapply det_bind; [apply det_when, det_shows; shows_all|exact Hd].
Qed.

(** C3: A server without passphrase answers a client that sends any number of
    requests that are no tests and then closes the connection, with the bytes of
    the request and the end of the stream in pieces of any size: it sends one
    response for each request but PASSPHRASE, in order and as [answer] says - the
    parts of a response that its request does not set are those of the response
    before, converted once more -, counts the debugging level, returns, and by
    then has closed its socket twice. *)
Theorem server_session (s : st np_w) ms rest fuel :
  good_ints (np_req (dev s)) -> good_ints (np_resp (dev s)) -> env_passphrase env = None ->
  np_in (dev s) = concat ms ++ rest -> Forall control_request ms -> Forall is_byte rest -> (length rest < msg_bytes)%nat ->
  (length ms < fuel)%nat ->
  let '(r, d, o) := session (np_resp (dev s)) (np_debug (dev s)) ms in
  exists s' l, Server.process_requests os env run_test fuel s = (Ret tt, s') /\
    np_out (dev s') = np_out (dev s) ++ o /\ np_in (dev s') = [] /\ np_resp (dev s') = r /\ np_debug (dev s') = d /\
    only_binds l /\ np_log (dev s') = CloseSock :: CloseSock :: l ++ np_log (dev s).
Proof.
  intros Hq Hr Hp Hi Hm Hb Hl Hf. pose proof (session_loop ms (view (dev s)) rest fuel Hq Hr Hi Hm Hb Hl Hf) as H.
  cbn [np_resp np_debug view] in H. destruct (session _ _ ms) as [[r d] o]. destruct H as (v' & l & Hd & H).
  destruct (det_process fuel _ _ Hp Hd s eq_refl) as (s' & E & <-). by exists s', l.
Qed.
End server.

(** ** The names of the host *)

Section names.
Context (c s : np_os) (Hc : good_net c) (Hs : good_net s).

(** The request that [get_remote_system_info] and the first message of [main]
    send. *)
Definition typed (t : Z) (sc : st np_w) : list Z := <[1%nat := u32 (np_remote_affinity (dev sc))]> (<[0%nat := u32 t]> (np_req (dev sc))).

Lemma good_typed t sc : good_ints (np_req (dev sc)) -> good_ints (typed t sc).
Proof. intros H. apply good_insert. by apply good_insert. Qed.

Lemma converted_first n m k : (k < n)%nat -> (n <= msg_ints)%nat -> good_ints m ->
  nth k (converted s n (wire (os_big c) n m)) 0 = nth k m 0.
Proof.
  intros Hk Hn [Hl Hu]. unfold converted. rewrite convert_wire by by rewrite ?Hl.
  rewrite app_nth1 by (rewrite length_take; lia). rewrite !nth_lookup. by rewrite lookup_take_lt.
Qed.

(** The response to DO_SYSINFO. *)
Definition sysinfo_response (env : np_env) (r : list Z) : list Z :=
  ints_of (os_big s) (put_bytes 8 (text_data (Server.sysinfo_text env)) (mem_of (os_big s) (<[0%nat := SYSINFO_RESPONSE]> r))).

Lemma sysinfo_response_facts env r : good_ints r ->
  good_ints (sysinfo_response env r) /\ nth 1 (sysinfo_response env r) 0 = nth 1 r 0 /\
  exists tail, drop 8 (mem_of (os_big s) (sysinfo_response env r)) = text_data (Server.sysinfo_text env) ++ tail.
Proof.
  intros Hr. destruct (text_data_fits (Server.sysinfo_text env)) as [Hl Hb].
  pose proof (good_insert 0 SYSINFO_RESPONSE r Hr) as Hr'. change (u32 SYSINFO_RESPONSE) with SYSINFO_RESPONSE in Hr'.
  destruct (good_store (os_big s) 8 _ _ Hr' Hl Hb) as [Hg Em]. fold (sysinfo_response env r) in Hg, Em.
  split; [done|]. split.
  - rewrite !nth_lookup, <- (list_lookup_insert_ne r 0 1 SYSINFO_RESPONSE) by done.
    assert (E : take 2 (sysinfo_response env r) = take 2 (<[0%nat := SYSINFO_RESPONSE]> r)); [|by rewrite <- (lookup_take_lt _ 2), E, lookup_take_lt by lia].
    rewrite <- (ints_of_mem (os_big s) (take 2 (sysinfo_response env r))), <- (ints_of_mem (os_big s) (take 2 (<[_ := _]> r)))
      by (apply Forall_take; first [apply Hg|apply Hr']).
    f_equal. rewrite !mem_of_take, Em. unfold put_bytes. change (4 * 2)%nat with 8%nat.
    rewrite take_app_le, take_take by (rewrite length_take, (good_mem _ _ Hr'); vm_compute; lia). done.
  - rewrite Em, drop_put by (rewrite (good_mem _ _ Hr'); vm_compute; lia). by eexists.
Qed.

(** What [get_remote_system_info] makes of a response. *)
Lemma det_remote_info (sc : st np_w) w rest names : good_ints (np_req (dev sc)) ->
  length w = msg_bytes -> Forall is_byte (w ++ rest) -> np_in (dev sc) = w ++ rest ->
  nth 1 (converted c 2 w) 0 = 0 -> existsb (Z.eqb 0) (drop 8 w) = true ->
  (forall p, length p = 8%nat -> fst (Client.parse_names (p ++ drop 8 w)) = names) ->
  exists sc', Client.get_remote_system_info c sc = (Ret names, sc') /\
    np_out (dev sc') = np_out (dev sc) ++ wire (os_big c) msg_ints (typed DO_SYSINFO sc).
Proof.
  intros Hq Hl Hb Hi He Hz Hp. set (v := view (dev sc)).
  set (v1 := set_req (<[1%nat := u32 (np_remote_affinity v)]> (<[0%nat := u32 DO_SYSINFO]> (np_req v))) v).
  assert (Hq1 : good_ints (np_req v1)) by exact (good_typed DO_SYSINFO sc Hq).
  set (a := typed DO_SYSINFO sc). set (v2 := add_out (wire (os_big c) msg_ints a) (set_req (convert_range (os_big c) 0 msg_ints a) v)).
  assert (Hw : good_ints (converted c 2 w)).
  { apply good_convert; [vm_compute; lia|]. apply good_ints_of; [done|]. by apply Forall_app in Hb as [? _]. }
  set (m := mem_of (os_big c) (converted c 2 w)).
  assert (Ed : drop 8 m = drop 8 w).
  { apply (drop_converted c 2 w); [vm_compute; lia|done|by apply Forall_app in Hb as [? _]]. }
  assert (Em : m = take 8 m ++ drop 8 w) by by rewrite <- Ed, take_drop.
  assert (Hpn : fst (Client.parse_names m) = names).
  { rewrite Em. apply Hp. rewrite length_take. unfold m. rewrite (good_mem _ _ Hw). vm_compute. lia. }
  destruct (Client.parse_names m) as [ns m'] eqn:Epn. cbn [fst] in Hpn. subst ns.
  assert (Hd : exists v', det (Client.get_remote_system_info c) v v' names /\ np_out v' = np_out v2).
  { eexists. split.
    - unfold Client.get_remote_system_info, put_req. eapply det_bind; [by apply (det_setdev (fun w => set_req (<[0%nat := u32 DO_SYSINFO]> (np_req w)) w))|].
      eapply det_bind. { unfold send_request. eapply det_bind; [by apply det_setdev|].
        pose proof (det_send_request_n c Hc (-1) v1 Hq1) as Hsend. cbn zeta in Hsend.
        assert (Ea : <[1%nat := u32 (np_remote_affinity v1)]> (np_req v1) = a) by apply list_insert_insert_eq.
        rewrite Ea in Hsend. exact (Hsend : det _ v1 v2 tt). }
      eapply det_bind. { apply (det_recv_response c Hc 0 0); change (np_in v2) with (np_in (dev sc)); rewrite Hi;
        [done|rewrite length_app; lia]. }
      change (count_of 0) with 2%nat. apply det_getdev. intros x Hx. destruct (view_eq _ _ Hx) as (_ & -> & _).
      change (np_in v2) with (np_in (dev sc)). cbn [np_resp set_in set_resp]. rewrite Hi, take_app_length' by done.
      eapply det_bind; [apply det_elem; [done|]; apply good_lookup; [done|vm_compute; lia]|]. change (Z.to_nat 1) with 1%nat.
      rewrite He. cbn [Z.eqb]. fold m. cbv zeta. rewrite Ed, Hz. cbn [negb].
      rewrite Epn. eapply det_bind; [by apply (det_setdev (set_resp _))|apply det_ret].
    - done. }
  destruct Hd as (v' & Hd & Eo). destruct (Hd sc eq_refl) as (sc' & E & Ev). exists sc'. split; [done|].
  exact (eq_trans (f_equal np_out Ev) Eo).
Qed.
Lemma msg_type_typed t sc : good_ints (np_req (dev sc)) -> s32 (u32 t) = t -> msg_type s (wire (os_big c) msg_ints (typed t sc)) = t.
Proof.
  intros Hq Ht. unfold msg_type. rewrite converted_first; [|vm_compute; lia|done|by apply good_typed].
  unfold typed. rewrite nth_lookup, list_lookup_insert_ne by done.
  rewrite list_lookup_insert_eq; [exact Ht|]. destruct Hq as [-> _]. vm_compute. lia.
Qed.

(** C30: A client asks a server for the names of its host. When there is a
    delimiter that none of the names contains, the names are not empty and fit
    into a message, [get_remote_system_info] returns exactly the names of the
    server, for every byte order of the two, every fragmentation of request and
    response, every debugging level of both, and whatever the server answered
    before. *)
Theorem sysinfo_roundtrip (env : np_env) run_test d (sc : st np_w) :
  good_ints (np_req (dev sc)) ->
  List.find (fun d => negb (existsb (Server.has_char d) (names_list (env_names env)))) Server.delims = Some d ->
  Forall (fun n => c_string n /\ n <> EmptyString) (names_list (env_names env)) ->
  (String.length (Server.delimited d (names_list (env_names env))) < data_bytes)%nat ->
  exists q, forall (ss : st np_w) fuel,
    good_ints (np_req (dev ss)) -> good_ints (np_resp (dev ss)) -> nth 1 (np_resp (dev ss)) 0 = 0 ->
    0 <= env_cpus env <= MAXCPUS -> env_passphrase env = None -> np_in (dev ss) = q -> (1 < fuel)%nat ->
    exists ss' w, Server.process_requests s env run_test fuel ss = (Ret tt, ss') /\ np_out (dev ss') = np_out (dev ss) ++ w /\
      forall rest, Forall is_byte rest ->
      exists sc', Client.get_remote_system_info c (mkst (out sc) (set_in (w ++ rest) (dev sc))) = (Ret (env_names env), sc') /\
        np_out (dev sc') = np_out (dev sc) ++ q.
Proof.
  intros Hqc Hf Hn Hlen. pose proof (good_typed DO_SYSINFO sc Hqc) as Ha.
  set (q := wire (os_big c) msg_ints (typed DO_SYSINFO sc)). exists q. intros ss fuel Hqs Hrs Herr Hcpus Hp Hi Hfuel.
  destruct (good_wire (os_big c) msg_ints _ Ha) as [Hwl Hwb]. fold q in Hwl, Hwb.
  assert (Ht : msg_type s q = DO_SYSINFO) by by apply msg_type_typed.
  pose proof (session_loop s Hs env run_test Hcpus [q] (view (dev ss)) [] fuel Hqs Hrs) as H.
  cbn [session concat app np_resp np_debug view] in H. rewrite Ht in H.
  unfold answer in H at 1. change (reply s env DO_SYSINFO (np_resp (dev ss))) with (Some (2%nat, sysinfo_response env (np_resp (dev ss)))) in H.
  cbv beta iota in H. destruct H as (v' & l & Hd & Ho & _).
  { by rewrite !app_nil_r. } { constructor; [|constructor]. split; [done|]. split; [done|]. rewrite Ht. by apply (bool_decide_eq_false_1 (DO_SYSINFO ∈ test_requests)). }
  { constructor. } { exact msg_pos. } { cbn. lia. }
  destruct (det_process s env run_test fuel _ _ Hp Hd ss eq_refl) as (ss' & Es & Evs).
  rewrite app_nil_r in Ho. set (w := wire (os_big s) 2 (sysinfo_response env (np_resp (dev ss)))) in Ho.
  exists ss', w. split; [exact Es|]. split; [exact (eq_trans (f_equal np_out Evs) Ho)|]. intros rest Hrb.
  destruct (sysinfo_response_facts env (np_resp (dev ss)) Hrs) as (Hg & He & tail & Etail).
  destruct (good_wire (os_big s) 2 _ Hg) as [Hl2 Hb2]. fold w in Hl2, Hb2.
  assert (Ew : drop 8 w = text_data (Server.sysinfo_text env) ++ tail).
  { unfold w. rewrite (drop_wire (os_big s) 2); [exact Etail|done|vm_compute; lia]. }
  assert (Etext : text_data (Server.sysinfo_text env) = str_bytes (Server.delimited d (names_list (env_names env))) ++ [0]).
  { unfold text_data, Server.sysinfo_text. rewrite Hf, str_take_all by lia. done. }
  rewrite Etext, delimited_bytes in Ew. destruct (delims_tokens (env_names env) d Hf Hn) as (Hd0 & G1 & G2 & G3 & G4).
  apply (det_remote_info (mkst (out sc) (set_in (w ++ rest) (dev sc))) w rest); [done|done|by apply Forall_app_2|done| | |].
  - assert (E : converted c 2 w = take 2 (sysinfo_response env (np_resp (dev ss))) ++ ints_of (os_big c) (mem_of (os_big s) (drop 2 (sysinfo_response env (np_resp (dev ss)))))).
    { unfold converted, w. destruct Hg as [Hgl Hgu]. apply convert_wire; [rewrite Hgl; vm_compute; lia|done]. }
    rewrite E, app_nth1 by (rewrite length_take; destruct Hg as [-> _]; vm_compute; lia).
    rewrite nth_lookup, lookup_take_lt, <- nth_lookup by lia. by rewrite He.
  - rewrite Ew, <- app_assoc, existsb_app. apply orb_true_iff. right. done.
  - intros p Hpl. rewrite Ew. repeat (progress (cbn [app]; rewrite <- ?app_assoc)).
    rewrite (parse_names_tokens (cc d)) by done. inversion Hn as [|? ? [C1 _] Hn1]; subst. inversion Hn1 as [|? ? [C2 _] Hn2]; subst.
    inversion Hn2 as [|? ? [C3 _] Hn3]; subst. inversion Hn3 as [|? ? [C4 _] _]; subst. rewrite !cstr_exact by done. by destruct (env_names env).
Qed.
End names.

(** ** The passphrase *)

Section passphrase.
Context (c s : np_os) (Hc : good_net c) (Hs : good_net s) (env : np_env) (run_test : Z -> M np_w unit) (p : string).

(** Whether a stream begins with the message that is asked for. *)
Definition admitted (stream : list Z) : bool :=
  let a := converted s 2 (take msg_bytes stream) in
  ((msg_bytes <=? length stream)%nat && (s32 (nth 0 a 0) =? PASSPHRASE) && streq p (data_text s a))%bool.

(** What [recv_passphrase] finds. *)
Lemma det_recv_passphrase v : good_ints (np_req v) -> Forall is_byte (np_in v) ->
  exists v', det (Server.recv_passphrase s p) v v' (admitted (np_in v)) /\ np_out v' = np_out v /\ np_resp v' = np_resp v /\
    np_in v' = drop msg_bytes (np_in v) /\ (admitted (np_in v) = false -> exists l, np_log v' = CloseSock :: l).
Proof.
  intros Hq Hi. unfold Server.recv_passphrase, admitted. destruct (Nat.leb_spec msg_bytes (length (np_in v))) as [Hl|Hl]; cbn [andb].
  - destruct (after_request_facts s 2 v) as (l0 & _ & _ & Eq & Er & Eo & Ei & _).
    set (a := converted s 2 (take msg_bytes (np_in v))) in *.
    assert (Ha : good_ints a).
    { apply good_convert; [vm_compute; lia|]. apply good_ints_of; [rewrite length_take; lia|by apply Forall_take]. }
    exists (if ((s32 (nth 0 a 0) =? PASSPHRASE) && streq p (data_text s a))%bool then after_request s 2 v else add_event CloseSock (after_request s 2 v)).
    split; [|destruct (_ && _)%bool; repeat split; try done; by eexists].
    eapply det_bind; [by apply (det_recv_request s Hs 0 20)|]. change (count_of 0) with 2%nat.
    eapply det_bind. { unfold request_type. apply det_getdev. intros w Hw. destruct (view_eq _ _ Hw) as (-> & _). rewrite Eq.
      eapply det_bind; [apply det_elem; [done|]; apply good_lookup; [done|vm_compute; lia]|apply det_ret]. }
    change (Z.to_nat 0) with 0%nat. apply det_getdev. intros w Hw. destruct (view_eq _ _ Hw) as (-> & _). rewrite Eq.
    change (0 <? Z.of_nat msg_bytes) with true. cbn [andb]. destruct (_ && _)%bool; [apply det_ret|].
    eapply det_bind; [apply det_shows; shows_all|]. eapply det_bind; [by apply det_setdev|apply det_ret].
  - exists (add_event CloseSock (after_end s 2 v)). split; [|repeat split; [by rewrite drop_ge by lia|by eexists]].
    eapply det_bind; [by apply (det_recv_end s Hs 0 20)|]. change (count_of 0) with 2%nat.
    assert (Hg : good_ints (np_req (after_end s 2 v))).
    { apply good_convert; [vm_compute; lia|]. apply got_good; [done|done|unfold all_got; lia]. }
    eapply det_bind. { unfold request_type. apply det_getdev. intros w Hw. destruct (view_eq _ _ Hw) as (-> & _).
      eapply det_bind; [apply det_elem; [done|]; apply good_lookup; [exact Hg|vm_compute; lia]|apply det_ret]. }
    apply det_getdev. intros w Hw. change (0 <? 0) with false. cbn [andb].
    eapply det_bind; [apply det_shows; shows_all|]. eapply det_bind; [by apply det_setdev|apply det_ret].
Qed.

(** The first message of a client with a passphrase. *)
Lemma det_send_passphrase v : good_ints (np_req v) -> (String.length p < data_bytes)%nat -> c_string p ->
  exists v' w, det (Client.send_passphrase c p) v v' tt /\ np_out v' = np_out v ++ w /\ length w = msg_bytes /\ Forall is_byte w /\
    forall rest, admitted (w ++ rest) = true.
Proof.
  intros Hq Hp Hc0. set (text := str_bytes p ++ replicate (data_bytes - String.length p) 0).
  assert (Ht : (8 + length text)%nat = msg_bytes).
  { unfold text. rewrite length_app, length_replicate, str_bytes_length. change msg_bytes with (8 + data_bytes)%nat. lia. }
  assert (Htb : Forall is_byte text) by (apply Forall_app_2; [apply str_bytes_is_byte|apply Forall_replicate; by split]).
  set (a0 := <[0%nat := u32 PASSPHRASE]> (np_req v)). pose proof (good_insert 0 PASSPHRASE _ Hq) as Ha0. fold a0 in Ha0.
  destruct (good_store (os_big c) 8 text a0 Ha0 ltac:(lia) Htb) as [Ha1 Em1]. set (a1 := ints_of _ _) in Ha1, Em1.
  set (v1 := set_req a1 v). set (a := <[1%nat := u32 (np_remote_affinity v)]> a1).
  pose proof (good_insert 1 (np_remote_affinity v) a1 Ha1) as Ha. fold a in Ha.
  pose proof (det_send_request_n c Hc 0 v1 Ha1) as Hsend. cbn zeta in Hsend. change (count_of 0) with 2%nat in Hsend.
  change (<[1%nat := u32 (np_remote_affinity v1)]> (np_req v1)) with a in Hsend.
  exists (add_out (wire (os_big c) 2 a) (set_req (convert_range (os_big c) 0 2 a) v1)), (wire (os_big c) 2 a).
  destruct (good_wire (os_big c) 2 a Ha) as [Hwl Hwb]. split; [|split; [done|split; [done|split; [done|]]]].
  - unfold Client.send_passphrase, Client.put_data, put_req.
    eapply det_bind; [by apply (det_setdev (fun w => set_req (<[0%nat := u32 PASSPHRASE]> (np_req w)) w))|].
    eapply det_bind; [by apply det_setdev|]. unfold store_req. cbn [np_req set_req].
    rewrite take_ge, str_bytes_length by (rewrite str_bytes_length; lia). exact Hsend.
  - intros rest. unfold admitted. rewrite length_app, take_app_length' by done. rewrite (proj2 (Nat.leb_le _ _)) by lia.
    assert (E0 : nth 0 a 0 = PASSPHRASE).
    { unfold a. rewrite nth_lookup, list_lookup_insert_ne by done.
      assert (Et : take 1 a1 = take 1 a0).
      { rewrite <- (ints_of_mem (os_big c) (take 1 a1)), <- (ints_of_mem (os_big c) (take 1 a0))
          by (apply Forall_take; first [apply Ha1|apply Ha0]). f_equal. rewrite !mem_of_take, Em1. unfold put_bytes.
        rewrite take_app_le, take_take by (rewrite length_take, (good_mem _ _ Ha0); vm_compute; lia). done. }
      rewrite <- (lookup_take_lt a1 1), Et, lookup_take_lt by lia. unfold a0.
      rewrite list_lookup_insert_eq; [done|]. destruct Hq as [-> _]. vm_compute. lia. }
    rewrite (converted_first c s 2 a 0) by (lia || exact Ha || (vm_compute; lia)). rewrite E0. cbn [andb].
    change (s32 PASSPHRASE =? PASSPHRASE) with true. cbn [andb]. unfold data_text.
    assert (H2 : (2 <= msg_ints)%nat) by (vm_compute; lia).
    pose proof (drop_converted s 2 (wire (os_big c) 2 a) H2 Hwl Hwb) as D1.
    pose proof (drop_wire (os_big c) 2 a Ha H2) as D2. change (4 * 2)%nat with 8%nat in D1, D2. rewrite D1, D2.
    assert (Ed : drop 8 (mem_of (os_big c) a) = text).
    { change 8%nat with (4 * 2)%nat. rewrite <- mem_of_drop. unfold a. rewrite drop_insert_lt by lia. rewrite mem_of_drop, Em1.
      change (4 * 2)%nat with 8%nat. rewrite drop_put by (rewrite (good_mem _ _ Ha0); vm_compute; lia).
      by rewrite drop_ge, app_nil_r by (rewrite (good_mem _ _ Ha0); lia). }
    rewrite Ed. unfold text. destruct (data_bytes - String.length p)%nat as [|k] eqn:Ek; [lia|].
    cbn [replicate]. rewrite cstr_app by done. apply String.eqb_refl.
Qed.

(** C19: A server started with a passphrase serves nobody who does not know it:
    unless the first message of the stream is a PASSPHRASE message with exactly
    this text, the server closes the connection and returns without having sent
    anything or started a test. The first message of a client with the same
    passphrase is such a message, whatever the byte orders; the server takes
    exactly this message from the stream and serves the rest. *)
Theorem passphrase_guards : env_passphrase env = Some p ->
  (forall fuel (ss : st np_w), good_ints (np_req (dev ss)) -> Forall is_byte (np_in (dev ss)) -> admitted (np_in (dev ss)) = false ->
     exists ss' l, Server.process_requests s env run_test fuel ss = (Ret tt, ss') /\ np_out (dev ss') = np_out (dev ss) /\
       np_log (dev ss') = CloseSock :: l) /\
  ((String.length p < data_bytes)%nat -> c_string p -> forall (sc : st np_w), good_ints (np_req (dev sc)) ->
     exists sc' w, Client.send_passphrase c p sc = (Ret tt, sc') /\ np_out (dev sc') = np_out (dev sc) ++ w /\
       forall rest fuel (ss : st np_w), good_ints (np_req (dev ss)) -> Forall is_byte rest -> np_in (dev ss) = w ++ rest ->
       exists ss1, Server.process_requests s env run_test fuel ss = Server.request_loop s env run_test fuel ss1 /\
         np_in (dev ss1) = rest /\ np_resp (dev ss1) = np_resp (dev ss) /\ np_out (dev ss1) = np_out (dev ss)).
Proof.
  intros Hp. assert (Hstart : forall fuel (ss : st np_w), good_ints (np_req (dev ss)) -> Forall is_byte (np_in (dev ss)) ->
    exists ss1, Server.process_requests s env run_test fuel ss =
      (if admitted (np_in (dev ss)) then Server.request_loop s env run_test fuel else mret tt) ss1 /\
      np_in (dev ss1) = drop msg_bytes (np_in (dev ss)) /\ np_resp (dev ss1) = np_resp (dev ss) /\ np_out (dev ss1) = np_out (dev ss) /\
      (admitted (np_in (dev ss)) = false -> exists l, np_log (dev ss1) = CloseSock :: l)).
  { intros fuel ss Hq Hi. destruct (det_recv_passphrase (view (dev ss)) Hq Hi) as (v' & Hd & Ho & Hr & Hin & Hl).
    assert (Hpre : det (when (truth (np_debug (dev ss))) (fprintf "%s: enter\n" [PS "process_requests"])) (view (dev ss)) (view (dev ss)) tt).
    { apply det_when, det_shows. shows_all. }
    destruct (Hpre ss eq_refl) as (s0 & E0 & V0). destruct (Hd s0 V0) as (s1 & E1 & V1). exists s1. subst v'.
    split; [|by repeat split]. unfold Server.process_requests. rewrite Hp.
    rewrite (bind_ret_run get_debug _ ss (np_debug (dev ss)) ss) by by destruct ss.
    rewrite (bind_ret_run _ _ _ _ _ E0), (bind_ret_run _ _ _ _ _ E1). cbn [np_in view]. by destruct (admitted _). }
  split.
  - intros fuel ss Hq Hi Hno. destruct (Hstart fuel ss Hq Hi) as (s1 & E & _ & _ & Eo & Hl). rewrite Hno in E.
    destruct (Hl Hno) as [l El]. by exists s1, l.
  - intros Hlen Hcs sc Hq. destruct (det_send_passphrase (view (dev sc)) Hq Hlen Hcs) as (v' & w & Hd & Ho & Hwl & Hwb & Hadm).
    destruct (Hd sc eq_refl) as (sc' & E & V). subst v'. exists sc', w. split; [done|]. split; [done|].
    intros rest fuel ss Hqs Hrb Hi. destruct (Hstart fuel ss Hqs) as (s1 & E1 & Ein & Er & Eo & _).
    { rewrite Hi. by apply Forall_app_2. }
    rewrite Hi, Hadm in E1. exists s1. split; [done|]. rewrite Ein, Hi, drop_app_length' by done. done.
Qed.
End passphrase.

(** ** Numbers with a fraction *)

(** A [double] that one host puts into a message with [htond] is the same
    number after [ntohd] on the other, for every combination of byte orders,
    although the messages convert its two words once more in between: the eight
    bytes in memory are equal for hosts of equal order and reversed otherwise. *)
Theorem double_crosses (big1 big2 : bool) (d : list Z) : length d = 8%nat -> Forall is_byte d ->
  let sent := swap_words big1 (htond big1 d) in
  let received := swap_words big2 sent in
  ntohd big2 received = if Bool.eqb big1 big2 then d else rev d.
Proof.
  intros Hl Hb. destruct d as [|b0 [|b1 [|b2 [|b3 [|b4 [|b5 [|b6 [|b7 []]]]]]]]]; try done. clear Hl.
  rewrite !Forall_cons_iff in Hb. destruct big1, big2; unfold htond, ntohd; rewrite ?swap_ends_rev;
    repeat (rewrite swap_words_eq by (rewrite !Forall_cons_iff; tauto)); by rewrite ?swap_ends_rev.
Qed.

(** ** Witnesses *)

(** A host on a network that delivers at most [limit] bytes at a time, and a
    program that has just been started. *)
Definition quiet (big : bool) (limit : nat) : np_os := {|
  os_big := big; os_select := fun _ => (1, 0); os_recv := fun _ => inl limit; os_send := fun _ => (Z.of_nat msg_bytes, 0);
  os_setaffinity := fun _ => None; os_getpid := 1; os_strerror := fun _ => "error"; os_address := "0x0" |}.
Definition fresh (i : list Z) : st np_w :=
  mkst [] (mk_np (replicate msg_ints 0) (replicate msg_ints 0) i [] 0 0 0 [] 0 (-1) (-1)).
Definition linux_env (passphrase : option string) : np_env :=
  {| env_names := mk_names "Linux" "5.4" "armv7l" "#1 SMP"; env_cpus := 2; env_passphrase := passphrase; env_suppress_debug := false |}.

Lemma quiet_good big limit : good_net (quiet big limit).
Proof. intros k. split; [done|]. split; [by eexists|done]. Qed.

Lemma fresh_good i : good_ints (np_req (dev (fresh i))) /\ good_ints (np_resp (dev (fresh i))).
Proof. split; exact good_zero. Qed.

Lemma bytes_check l : forallb (fun b => (0 <=? b) && (b <? 256))%bool l = true -> Forall is_byte l.
Proof.
  intros H. apply List.Forall_forall. intros b Hb. rewrite forallb_forall in H. specialize (H b Hb).
  apply andb_true_iff in H as [H1 H2]. split; [by apply Z.leb_le|by apply Z.ltb_lt].
Qed.

(** A little-endian client that asks for processor -1, a big-endian server. *)
Lemma control_messages_arrive_witness : exists sc' w ss',
  send_request_n (quiet false 100) 3 (fresh []) = (Ret tt, sc') /\
  recv_request_timed_n (quiet true 7) 3 20 (fresh (w ++ [1; 2])) = (Ret 656, ss') /\
  np_in (dev ss') = [1; 2] /\ take 5 (np_req (dev ss')) = [0; 4294967295; 0; 0; 0].
Proof.
  destruct (control_messages_arrive (quiet false 100) (quiet true 7) (quiet_good _ _) (quiet_good _ _) 3 20) as [H _].
  destruct (H (fresh []) (proj1 (fresh_good []))) as (sc' & w & E & _ & Hr).
  destruct (Hr (fresh (w ++ [1; 2])) [1; 2]) as (ss' & E' & Ei & Eq);
    [exact (proj1 (fresh_good []))|by apply bytes_check|reflexivity|].
  exists sc', w, ss'. split; [exact E|]. split; [exact E'|]. split; [exact Ei|]. rewrite Eq. vm_compute. reflexivity.
Defined.

(** Three bytes and then the end of the stream, on a network that is too short. *)
Lemma request_or_closed_witness : exists s',
  recv_request_timed_n (quiet true 7) (-1) 0 (fresh [1; 2; 3]) = (Ret 0, s') /\ np_in (dev s') = [].
Proof.
  destruct (request_or_closed (quiet true 7) (-1) 0 (fresh [1; 2; 3])) as [_ H];
    [exact (proj1 (fresh_good []))|by apply bytes_check|]. apply H; [exact (quiet_good _ _)|vm_compute; repeat constructor].
Defined.

(** DEBUG_ON, a test that is not known and DEBUG_OFF from a big-endian client,
    to a little-endian server: the error code of the second response is in the
    third one again, converted twice. *)
Definition three_requests : list (list Z) :=
  (fun t => mem_of true (<[0%nat := t]> (<[1%nat := 2 ^ 32 - 1]> (replicate msg_ints 0)))) <$> [DEBUG_ON; 77; DEBUG_OFF].
Definition heads (o : list Z) : list (list Z) := (fun i => take 8 (drop (656 * i) o)) <$> [0; 1; 2]%nat.
Lemma server_session_witness : exists s' l,
  Server.process_requests (quiet false 50) (linux_env None) (fun _ => crash) 4 (fresh (concat three_requests)) = (Ret tt, s') /\
  heads (np_out (dev s')) = [[0; 0; 0; 3; 0; 0; 0; 0]; [3; 0; 0; 0; 0; 0; 3; 230]; [0; 0; 0; 3; 230; 3; 0; 0]] /\
  np_debug (dev s') = 0 /\ np_log (dev s') = CloseSock :: CloseSock :: l.
Proof.
  assert (Hcp : 0 <= env_cpus (linux_env None) <= MAXCPUS) by (vm_compute; split; discriminate).
  pose proof (server_session (quiet false 50) (quiet_good _ _) (linux_env None) (fun _ => crash) Hcp
    (fresh (concat three_requests)) three_requests [] 4) as H.
  assert (Hm : Forall (control_request (quiet false 50)) three_requests).
  { repeat constructor; try (by apply bytes_check); apply (bool_decide_unpack _); vm_compute; exact I. }
  assert (Ex : (fun x => (heads (snd x), snd (fst x))) (session (quiet false 50) (linux_env None) (np_resp (dev (fresh (concat three_requests)))) (np_debug (dev (fresh (concat three_requests)))) three_requests) =
    ([[0; 0; 0; 3; 0; 0; 0; 0]; [3; 0; 0; 0; 0; 0; 3; 230]; [0; 0; 0; 3; 230; 3; 0; 0]], 0)) by (vm_compute; reflexivity).
  destruct (session _ _ (np_resp _) _ three_requests) as [[r d] o]. pose proof (f_equal fst Ex) as Eo. pose proof (f_equal snd Ex) as Ed.
  destruct H as (s' & l & E' & Eo' & _ & _ & Ed' & _ & El); [exact (proj1 (fresh_good []))|exact (proj2 (fresh_good []))|reflexivity|
    by rewrite app_nil_r|exact Hm|constructor|exact msg_pos|cbn; lia|].
  exists s', (l ++ []). split; [exact E'|]. rewrite Eo', Ed', El. split; [exact Eo|]. split; [exact Ed|]. reflexivity.
Defined.

(** A little-endian server under Linux, a big-endian client. *)
Lemma sysinfo_roundtrip_witness : exists q ss' w sc',
  Server.process_requests (quiet false 50) (linux_env None) (fun _ => crash) 2 (fresh q) = (Ret tt, ss') /\ np_out (dev ss') = w /\
  Client.get_remote_system_info (quiet true 9) (fresh (w ++ [])) = (Ret (mk_names "Linux" "5.4" "armv7l" "#1 SMP"), sc').
Proof.
  destruct (sysinfo_roundtrip (quiet true 9) (quiet false 50) (quiet_good _ _) (quiet_good _ _) (linux_env None) (fun _ => crash)
    "|"%char (fresh [])) as [q H]; [exact (proj1 (fresh_good []))|reflexivity|by repeat constructor|vm_compute; lia|].
  destruct (H (fresh q) 2%nat) as (ss' & w & E & Eo & H'); [exact (proj1 (fresh_good []))|exact (proj2 (fresh_good []))|reflexivity|
    vm_compute; split; discriminate|reflexivity|reflexivity|lia|].
  destruct (H' [] ltac:(constructor)) as (sc' & E' & _). exists q, ss', w, sc'. split; [exact E|]. split; [exact Eo|exact E'].
Defined.

(** The client knows the passphrase; another stream does not begin with it. *)
Lemma passphrase_guards_witness : exists w ss1 ss' l,
  Server.process_requests (quiet false 50) (linux_env (Some "secret")) (fun _ => crash) 5 (fresh (w ++ [])) =
    Server.request_loop (quiet false 50) (linux_env (Some "secret")) (fun _ => crash) 5 ss1 /\ np_in (dev ss1) = [] /\
  Server.process_requests (quiet false 50) (linux_env (Some "secret")) (fun _ => crash) 5 (fresh (concat three_requests)) = (Ret tt, ss') /\
  np_out (dev ss') = [] /\ np_log (dev ss') = CloseSock :: l.
Proof.
  destruct (passphrase_guards (quiet true 9) (quiet false 50) (quiet_good _ _) (quiet_good _ _) (linux_env (Some "secret")) (fun _ => crash)
    "secret" eq_refl) as [H1 H2].
  destruct (H2 ltac:(vm_compute; lia) ltac:(repeat constructor; discriminate) (fresh []) (proj1 (fresh_good []))) as (sc' & w & _ & _ & H3).
  destruct (H3 [] 5%nat (fresh (w ++ [])) (proj1 (fresh_good [])) ltac:(constructor) eq_refl) as (ss1 & E1 & Ei & _).
  destruct (H1 5%nat (fresh (concat three_requests)) (proj1 (fresh_good []))) as (ss' & l & E2 & Eo & El); [by apply bytes_check|by vm_compute|].
  exists w, ss1, ss', l. split; [exact E1|]. split; [exact Ei|]. split; [exact E2|]. split; [exact Eo|exact El].
Defined.

(** The number 1.0, from a little-endian host to a big-endian one. *)
Lemma double_crosses_witness :
  ntohd true (swap_words true (swap_words false (htond false [0; 0; 0; 0; 0; 0; 240; 63]))) = [63; 240; 0; 0; 0; 0; 0; 0].
Proof. apply (double_crosses false true [0; 0; 0; 0; 0; 0; 240; 63]); [reflexivity|by apply bytes_check]. Defined.
