(* ===== verification/NpShOk.v ===== *)
(** * The properties of the options of netperf

    The number of iterations and the confidence level after a command line, the
    names of the types of service, and the words of a direction. *)

From stdpp Require Import base list strings numbers gmap.
From Stdlib Require Import ZArith Lia Ascii SpecFloat.
From S2P Require Import Prelude CInt CLib CLibOk CFmt FloatTools NpLib NpSh NpStat.

(** ** Iterations and confidence *)

(** Either no confidence is asked for and there is one iteration, or a level that
    is known and from 3 to 30 iterations. *)
Definition good_iterations (level mn mx : Z) : Prop :=
  (level = 0 /\ mn = 1 /\ mx = 1) \/ ((level = 95 \/ level = 99) /\ 3 <= mn <= mx /\ mx <= 30).
Definition int_of (w : sh_w) (n : string) : Z := default 0 (sh_int w !! n).
Definition iterations_ok (w : sh_w) : Prop :=
  good_iterations (int_of w "confidence_level") (int_of w "iteration_min") (int_of w "iteration_max").
Definition iteration_keys : list string := ["confidence_level"; "iteration_min"; "iteration_max"].

(** Code that leaves the integers [K] alone when it returns. *)
Definition kept {A} (K : list string) (m : M sh_w A) : Prop := forall s,
  wp m s (fun r s' => match r with Ret _ => forall n, n ∈ K -> int_of (dev s') n = int_of (dev s) n | _ => True end).

Section kept.
Context (K : list string).

Lemma kept_ret {A} (a : A) : kept K (mret a).
Proof. by intros s. Qed.
Lemma kept_bind {A B} (m : M sh_w A) (f : A -> M sh_w B) : kept K m -> (forall a, kept K (f a)) -> kept K (m ≫= f).
Proof.
  intros Hm Hf s. apply wp_bind. eapply wp_mono; [apply Hm|]. intros [] s' H; try done.
  eapply wp_mono; [apply Hf|]. intros [] s'' H'; try done. intros n Hn. by rewrite H', H.
Qed.
Lemma kept_crash {A} : kept K (crash (A := A)).
Proof. by intros s. Qed.
Lemma kept_exit {A} c : kept K (exit (A := A) c).
Proof. by intros s. Qed.
Lemma kept_fuel {A} : kept K (out_of_fuel (A := A)).
Proof. by intros s. Qed.
Lemma kept_printf x : kept K (printf x).
Proof. by intros s. Qed.
Lemma kept_eprintf x : kept K (eprintf x).
Proof. by intros s. Qed.
Lemma kept_fprintf f l : kept K (fprintf f l).
Proof. unfold fprintf. destruct (sprintf f l); [apply kept_printf|apply kept_crash]. Qed.
Lemma kept_efprintf f l : kept K (efprintf f l).
Proof. unfold efprintf. destruct (sprintf f l); [apply kept_eprintf|apply kept_crash]. Qed.
Lemma kept_devop {A} (f : sh_w -> A * sh_w) : (forall w, sh_int (f w).2 = sh_int w) -> kept K (devop f).
Proof. intros Hf s. unfold wp, devop, int_of. specialize (Hf (dev s)). destruct (f (dev s)) as [a w]. cbn in *. intros n Hn. by rewrite Hf. Qed.
Lemma kept_seti n z : n ∉ K -> kept K (seti n z).
Proof.
  intros Hn s. unfold wp, seti, setdev, devop, int_of. cbn [fst snd dev sh_int]. intros n' Hn'. by rewrite lookup_insert_ne by (intros ->; done).
Qed.
Lemma kept_lift {A} (m : M np_w A) : kept K (lift m).
Proof. intros s. unfold wp, lift. destruct (m _) as [[] s']; done. Qed.
Lemma kept_elem {A} (l : list A) i : kept K (elem l i).
Proof. unfold elem. destruct (i <? 0); [apply kept_crash|]. destruct (l !! _); [apply kept_ret|apply kept_crash]. Qed.
Lemma kept_when b m : kept K m -> kept K (when b m).
Proof. intros H. destruct b; [done|apply kept_ret]. Qed.
Lemma kept_if {A} (b : bool) (x y : M sh_w A) : kept K x -> kept K y -> kept K (if b then x else y).
Proof. by destruct b. Qed.
Lemma kept_for n (body : Z -> M sh_w unit) : (forall i, kept K (body i)) -> forall i, kept K (for_ n i body).
Proof. intros H. induction n as [|n IH]; intros i; [apply kept_ret|]. by apply kept_bind. Qed.
Lemma kept_while {S R} (body : S -> M sh_w (S + R)) : (forall a, kept K (body a)) -> forall n a, kept K (while_ n a body).
Proof.
  intros H. induction n as [|n IH]; intros a; [apply kept_fuel|]. apply kept_bind; [done|]. intros [|]; [apply IH|apply kept_ret].
Qed.
End kept.

Create HintDb kept_db.
#[export] Hint Resolve kept_ret kept_crash kept_exit kept_fuel kept_printf kept_eprintf kept_fprintf kept_efprintf kept_lift kept_elem : kept_db.

(** A variable is not one of those listed. *)
Ltac not_listed := unfold iteration_keys; rewrite ?not_elem_of_cons; repeat split; try discriminate; try apply not_elem_of_nil.
Ltac kept_step :=
  match goal with
  | |- kept _ (mbind _ _) => apply kept_bind; [|intros ?]
  | |- kept _ (seti _ _) => apply kept_seti; solve [not_listed]
  | |- kept _ (devop _) => apply kept_devop; intros ?; reflexivity
  | |- kept _ getdev => apply kept_devop; intros ?; reflexivity
  | |- kept _ (setdev _) => apply kept_devop; intros ?; reflexivity
  | |- kept _ (when _ _) => apply kept_when
  | |- kept _ (if _ then _ else _) => apply kept_if
  | |- kept _ (for_ _ _ _) => apply kept_for; intros ?
  | |- kept _ (while_ _ _ _) => apply kept_while; intros ?
  | |- kept _ (match ?x with _ => _ end) => destruct x
  | |- kept _ (let _ := _ in _) => cbv zeta
  | |- kept _ _ => solve [auto with kept_db]
  end.
Ltac kept_steps := repeat kept_step.

Section options.
Context `{DM : DataModel} (os : sh_os) (K : list string).

Lemma kept_geti n : kept K (geti n). Proof. unfold geti. kept_steps. Qed.
Lemma kept_gets n : kept K (gets n). Proof. unfold gets. kept_steps. Qed.
Lemma kept_getf n : kept K (getf n). Proof. unfold getf. kept_steps. Qed.
Lemma kept_getp n : kept K (getp n). Proof. unfold getp. kept_steps. Qed.
Lemma kept_get_np {A} (f : np_w -> A) : kept K (get_np f). Proof. unfold get_np. kept_steps. Qed.
Lemma kept_sets n x : kept K (sets n x). Proof. unfold sets. kept_steps. Qed.
Lemma kept_setf n x : kept K (setf n x). Proof. unfold setf. kept_steps. Qed.
Lemma kept_setp n x : kept K (setp n x). Proof. unfold setp. kept_steps. Qed.
Lemma kept_set_np f : kept K (set_np f). Proof. unfold set_np. kept_steps. Qed.
#[local] Hint Resolve kept_geti kept_gets kept_getf kept_getp kept_get_np kept_sets kept_setf kept_setp kept_set_np : kept_db.
Lemma kept_debugging m : kept K m -> kept K (debugging m). Proof. intros H. unfold debugging. kept_steps. Qed.
Lemma kept_halves a f g : kept K a -> (forall x, kept K (f x)) -> (forall x, kept K (g x)) -> kept K (halves a f g).
Proof. intros Ha Hf Hg. unfold halves. apply kept_bind; [done|]. intros p. apply kept_bind; [|intros ?]; by apply kept_when. Qed.
Lemma kept_break_args x : kept K (break_args x).
Proof. unfold break_args, fits. destruct (split_at _ _). kept_steps. Qed.
Lemma kept_break_args_explicit x : kept K (break_args_explicit x).
Proof. unfold break_args_explicit, break_args_explicit_sep, fits. destruct (split_at _ _). kept_steps. Qed.
#[local] Hint Resolve kept_break_args kept_break_args_explicit : kept_db.
Lemma kept_family x : kept K (parse_address_family x).
Proof. unfold parse_address_family, temp10. kept_steps; apply kept_debugging; kept_steps. Qed.
Lemma kept_array n z x : kept K (put_array n z x).
Proof. unfold put_array. kept_steps. Qed.
#[local] Hint Resolve kept_family kept_array : kept_db.
Lemma kept_get_array n z : kept K (get_array n z).
Proof. unfold get_array. kept_steps. Qed.
Lemma kept_set_passphrase x : kept K (set_passphrase os x).
Proof. unfold set_passphrase. kept_steps. Qed.
#[local] Hint Resolve kept_get_array kept_set_passphrase : kept_db.
Lemma kept_conv_pair x a b : a ∉ K -> b ∉ K -> kept K (conv_pair x a b).
Proof. intros. unfold conv_pair, set_conv. apply kept_halves; [kept_steps|intros; by apply kept_seti..]. Qed.

End options.

(** Code that keeps the three numbers in order. *)
Definition in_order {A} (m : M sh_w A) : Prop := forall s, iterations_ok (dev s) ->
  wp m s (fun r s' => match r with Ret _ => iterations_ok (dev s') | _ => True end).

Lemma three_alike (s s' : st sh_w) : (forall n, n ∈ iteration_keys -> int_of (dev s') n = int_of (dev s) n) ->
  int_of (dev s') "confidence_level" = int_of (dev s) "confidence_level" /\
  int_of (dev s') "iteration_min" = int_of (dev s) "iteration_min" /\ int_of (dev s') "iteration_max" = int_of (dev s) "iteration_max".
Proof. intros H. split_and!; apply H; unfold iteration_keys; set_solver. Qed.

Lemma kept_in_order {A} (m : M sh_w A) : kept iteration_keys m -> in_order m.
Proof.
  intros Hm s Hs. eapply wp_mono; [apply Hm|]. intros [] s' H; try done. apply three_alike in H as (H1 & H2 & H3).
  unfold iterations_ok in *. by rewrite H1, H2, H3.
Qed.
Lemma in_order_bind {A B} (m : M sh_w A) (f : A -> M sh_w B) : in_order m -> (forall a, in_order (f a)) -> in_order (m ≫= f).
Proof. intros Hm Hf s Hs. apply wp_bind. eapply wp_mono; [by apply Hm|]. intros [] s' H; try done. by apply Hf. Qed.

(** One variable changed. *)
Definition with_int (s : st sh_w) (n : string) (z : Z) (s' : st sh_w) : Prop :=
  int_of (dev s') n = z /\ forall n', n' <> n -> int_of (dev s') n' = int_of (dev s) n'.

Lemma wp_geti {B} n (f : Z -> M sh_w B) s Q : wp (f (int_of (dev s) n)) s Q -> wp (geti n ≫= f) s Q.
Proof. intros H. unfold wp, geti, getdev, devop, mbind, M_bind, mret, M_ret in *. cbn [dev out]. destruct s. exact H. Qed.
Lemma wp_seti n z s (Q : res unit -> st sh_w -> Prop) : (forall s', with_int s n z s' -> Q (Ret tt) s') -> wp (seti n z) s Q.
Proof.
  intros H. apply H. unfold with_int, int_of, seti, setdev, devop. cbn [snd dev sh_int]. split; [by rewrite lookup_insert_eq|].
  intros n' Hn. by rewrite lookup_insert_ne by done.
Qed.
Lemma wp_fix n (f : Z -> bool) z s (Q : res unit -> st sh_w -> Prop) :
  (forall s', with_int s n (if f (int_of (dev s) n) then z else int_of (dev s) n) s' -> Q (Ret tt) s') -> wp (fix_int n f z) s Q.
Proof.
  intros H. apply wp_geti. destruct (f _) eqn:E; [by apply wp_seti|]. by apply H.
Qed.

Section options.
Context `{DM : DataModel} (os : sh_os).
Abbreviation level := "confidence_level".
Abbreviation mn := "iteration_min".
Abbreviation mx := "iteration_max".

Lemma kept_default_interval K : kept K default_interval.
Proof. unfold default_interval, getf, setf. kept_steps. Qed.

(** What a correction of one of the three numbers does to all of them. *)
Definition corrected (n : string) (f : Z -> bool) (z : Z) (s s' : st sh_w) : Prop := forall n',
  int_of (dev s') n' = if String.eqb n' n then (if f (int_of (dev s) n) then z else int_of (dev s) n) else int_of (dev s) n'.
Lemma wp_corrected n f z s (Q : res unit -> st sh_w -> Prop) : (forall s', corrected n f z s s' -> Q (Ret tt) s') -> wp (fix_int n f z) s Q.
Proof. intros H. apply wp_fix. intros s' [H1 H2]. apply H. intros n'. destruct (String.eqb_spec n' n) as [->|Hd]; [done|by apply H2]. Qed.

Ltac correct :=
  apply wp_bind; apply wp_corrected; let s := fresh "s" in let C := fresh "C" in intros s C;
  pose proof (C level); pose proof (C mn); pose proof (C mx); clear C;
  repeat match goal with
  | H : int_of (dev s) _ = _ |- _ => progress lazy [String.eqb Ascii.eqb Bool.eqb] in H
  end;
  repeat match goal with
  | H : context [if ?b then _ else _] |- _ =>
      match type of H with int_of (dev s) _ = _ => destruct b eqn:? end
  end.


Lemma iterations_in_order x : in_order (opt_iterations x).
Proof.
  intros s Hs. unfold opt_iterations. apply wp_bind. eapply wp_mono.
  { apply (kept_halves [level] (break_args x) (set_conv mx) (set_conv mn)); [apply kept_break_args|intros ?; unfold set_conv; kept_steps..]. }
  intros [] s1 H1; try done. specialize (H1 level ltac:(set_solver)).
  assert (int_of (dev s1) level = 0 \/ int_of (dev s1) level = 95 \/ int_of (dev s1) level = 99) as Hl by (unfold iterations_ok, good_iterations in Hs; lia).
  clear H1 Hs s. apply wp_geti, wp_geti. apply wp_bind.
  assert (wp (when (int_of (dev s1) mx <? int_of (dev s1) mn) (seti mx (int_of (dev s1) mn))) s1 (fun r s' => r = Ret tt /\
    int_of (dev s') level = int_of (dev s1) level /\ int_of (dev s') mn <= int_of (dev s') mx)) as Hw.
  { destruct (Z.ltb_spec (int_of (dev s1) mx) (int_of (dev s1) mn)); [|apply wp_ret; split; [done|]; split; [done|lia]].
    apply wp_seti. intros s' [E1 E2]. split; [done|]. split; [by apply E2|]. rewrite E1, E2 by done. lia. }
  eapply wp_mono; [exact Hw|]. cbv beta. intros r s2 (-> & Hl2 & Hle). rewrite <- Hl2 in Hl. clear Hl2 Hw s1.
  do 5 correct.
  all: eapply wp_mono; [apply (kept_default_interval iteration_keys)|]; intros [] s' Hk; try done; apply three_alike in Hk as (Hk1 & Hk2 & Hk3).
  all: unfold iterations_ok, good_iterations; rewrite Hk1, Hk2, Hk3; clear Hk1 Hk2 Hk3; lia.
Qed.

Lemma confidence_in_order x : in_order (opt_confidence x).
Proof.
  intros s Hs. unfold opt_confidence. apply wp_bind. eapply wp_mono; [apply (kept_break_args iteration_keys)|].
  intros [a| | | |] s1 H1; try done. apply three_alike in H1 as (_ & H1mn & H1mx). apply wp_bind.
  assert (wp (when (nonempty (fst a)) (set_conv level (fst a))) s1 (fun r s' => r = Ret tt /\
    int_of (dev s') mn = int_of (dev s) mn /\ int_of (dev s') mx = int_of (dev s) mx)) as Hw.
  { destruct (nonempty (fst a)); [|by apply wp_ret].
    apply wp_seti. intros s' [_ E]. split; [done|]. rewrite (E mn), (E mx) by done. done. }
  eapply wp_mono; [exact Hw|]. cbv beta. intros r s2 (-> & Hmn & Hmx). apply wp_geti.
  destruct (Z.eqb_spec (int_of (dev s2) level) 95), (Z.eqb_spec (int_of (dev s2) level) 99); cbn [negb andb]; [lia| | |apply wp_bind; done].
  all: apply wp_bind; eapply wp_mono;
    [apply (kept_when iteration_keys), kept_setf|intros [] s3 H3; try done; apply three_alike in H3 as (? & ? & ?)].
  all: do 2 correct.
  all: eapply wp_mono; [apply (kept_default_interval iteration_keys)|]; intros [] s' Hk; try done; apply three_alike in Hk as (Hk1 & Hk2 & Hk3).
  all: unfold iterations_ok, good_iterations in *; rewrite Hk1, Hk2, Hk3; clear Hk1 Hk2 Hk3; lia.
Qed.
End options.

Section command_line.
Context `{DM : DataModel} (os : sh_os).
Abbreviation K := iteration_keys.

Lemma kept_set_conv n x : n ∉ K -> kept K (set_conv n x).
Proof. intros H. by apply kept_seti. Qed.
#[local] Hint Resolve kept_geti kept_gets kept_getf kept_getp kept_get_np kept_sets kept_setf kept_setp kept_set_np
  kept_break_args kept_break_args_explicit kept_family kept_array kept_get_array kept_set_passphrase : kept_db.
#[local] Hint Extern 1 (kept _ (set_conv _ _)) => apply kept_set_conv; not_listed : kept_db.
#[local] Hint Extern 1 (kept _ (conv_pair _ _ _)) => apply kept_conv_pair; not_listed : kept_db.
Ltac kept_all := repeat first
  [ kept_step | apply kept_halves; [|intros ?..] | apply kept_debugging ].

Lemma kept_fill x : kept K (opt_fill x). Proof. unfold opt_fill. kept_all. Qed.
Lemma kept_length x : kept K (opt_length x). Proof. unfold opt_length. kept_all. Qed.
Lemma kept_cpu w x : w = "local" \/ w = "remote" -> kept K (opt_cpu w x).
Proof. intros [-> | ->]; unfold opt_cpu, add1; kept_all. Qed.
Lemma kept_affinity x : kept K (opt_affinity os x). Proof. unfold opt_affinity. kept_all. Qed.
Lemma kept_tos x : kept K (opt_tos x). Proof. unfold opt_tos. kept_all. Qed.
Lemma kept_brand x : kept K (opt_brand os x). Proof. unfold opt_brand. kept_all. Qed.
Lemma kept_burst x : kept K (opt_burst x). Proof. unfold opt_burst. kept_all. Qed.
#[local] Hint Resolve kept_fill kept_length kept_affinity kept_tos kept_brand kept_burst : kept_db.
#[local] Hint Extern 1 (kept _ (opt_cpu _ _)) => apply kept_cpu; tauto : kept_db.

Lemma option_in_order c arg : in_order (scan_option os c arg).
Proof.
  unfold scan_option. cbv zeta. generalize (default EmptyString arg) as optarg. intros optarg.
  unfold print_netperf_usage, set_family.
  destruct (chr c) as [[] [] [] [] [] [] [] []]; lazy beta iota;
    lazymatch goal with
    | |- in_order (mret _) => apply kept_in_order, kept_ret
    | |- in_order (opt_iterations _) => apply iterations_in_order
    | |- in_order (opt_confidence _) => apply confidence_in_order
    | |- _ => apply kept_in_order; kept_all
    end.
Qed.

Lemma options_in_order evs : in_order (scan_options os evs).
Proof.
  induction evs as [|[c arg] evs IH]; cbn [scan_options]; [apply kept_in_order, kept_ret|].
  apply in_order_bind; [apply option_in_order|done].
Qed.

Lemma kept_default_host n v4 v6 f o a : kept K (default_host n v4 v6 f o a).
Proof. unfold default_host. cbv zeta. kept_all. Qed.
Lemma kept_dump info host port family : kept K (dump_addrinfo info host port family).
Proof.
  unfold dump_addrinfo. apply kept_bind; [kept_all|intros _]. induction info as [|a info IH]; cbn [foldr]; [kept_all|].
  apply kept_bind; [kept_all|intros _]. apply kept_bind; [|intros _; done]. kept_all.
Qed.
#[local] Hint Resolve kept_default_host kept_dump : kept_db.
Lemma kept_resolve_host h p f : kept K (resolve_host os h p f).
Proof. unfold resolve_host, getaddrinfo. kept_all. Qed.
#[local] Hint Resolve kept_resolve_host : kept_db.
Lemma kept_resolve : kept K (resolve_names os).
Proof. unfold resolve_names. kept_all. Qed.
Lemma kept_reset : kept K reset_remote.
Proof. unfold reset_remote. kept_all. Qed.
Lemma kept_units : kept K choose_units.
Proof. unfold choose_units. kept_all. Qed.

Lemma confid_defined {W} level freedom (s : st W) : level = 95 \/ level = 99 -> 1 <= freedom <= 30 -> exists x, Stat.confid level freedom s = (Ret x, s).
Proof.
  intros Hl Hf. unfold Stat.confid.
  assert (forall l, length l = 30%nat -> exists x : Z, elem l (freedom - 1) s = (Ret x, s)) as He.
  { intros l Hlen. unfold elem. destruct (Z.ltb_spec (freedom - 1) 0); [lia|]. destruct (lookup_lt_is_Some_2 l (Z.to_nat (freedom - 1))) as [x ->]; [lia|by exists x]. }
  destruct Hl as [-> | ->]; cbn [Z.eqb Pos.eqb].
  - destruct (He Stat.t95 eq_refl) as [x E]. rewrite (bind_ret_run _ _ _ _ _ E). by eexists.
  - destruct (He Stat.t99 eq_refl) as [x E]. rewrite (bind_ret_run _ _ _ _ _ E). by eexists.
Qed.

(** C14: Whatever the options of netperf are, and in whatever order: when the
    command line is accepted, either no confidence was asked for and the test is
    run once, or the level is 95 or 99 and the test is run at least 3 and at
    most 30 times. So the table of Student's t, which has entries for 1 to 30
    degrees of freedom, has one for every iteration. *)
Theorem iterations_bounded scan_test argv (s : st sh_w) :
  (forall which rest s, iterations_ok (dev s) -> wp (scan_test which rest) s (fun r s' => match r with Ret _ => iterations_ok (dev s') | _ => True end)) ->
  sh_int (dev s) = init_ints ->
  match scan_cmd_line os scan_test argv s with
  | (Ret _, s') =>
      let number n := default 0 (sh_int (dev s') !! n) in
      good_iterations (number "confidence_level") (number "iteration_min") (number "iteration_max") /\
      (1 < number "iteration_max" -> forall W (q : st W) itr, 2 <= itr <= number "iteration_max" ->
         exists x, Stat.confid (number "confidence_level") (itr - 1) q = (Ret x, q))
  | _ => True
  end.
Proof.
  intros Hscan Hs.
  assert (in_order (scan_cmd_line os scan_test argv)) as Hall.
  { unfold scan_cmd_line. destruct argv as [|program args]; [apply kept_in_order, kept_crash|].
    destruct (sh_malloc os _); cbn [negb]; [|apply kept_in_order; kept_all].
    apply in_order_bind; [apply kept_in_order; kept_all|intros _]. cbv zeta.
    destruct (sh_malloc os _); cbn [negb]; [|apply kept_in_order; kept_all].
    apply in_order_bind; [apply kept_in_order; kept_all|intros _]. destruct (np_getopt args) as [evs rest].
    apply in_order_bind; [apply options_in_order|intros _]. apply in_order_bind; [apply kept_in_order, kept_resolve|intros _].
    apply in_order_bind; [apply kept_in_order, kept_reset|intros _]. apply in_order_bind; [apply kept_in_order; kept_all|intros name].
    apply in_order_bind; [|intros _; apply kept_in_order, kept_units].
    destruct (choose_scan name) as [which|]; [|apply kept_in_order, kept_ret]. intros s1 Hs1. by apply Hscan. }
  specialize (Hall s). unfold wp in Hall. destruct (scan_cmd_line os scan_test argv s) as [[] s']; try done. cbn [fst snd] in Hall.
  assert (iterations_ok (dev s')) as Hok by (apply Hall; unfold iterations_ok, int_of; rewrite Hs; left; done).
  cbv zeta. split; [exact Hok|]. unfold iterations_ok, int_of in Hok. intros H1 W q itr Hitr.
  destruct Hok as [(_ & _ & E)|(Hl & Hm & Hx)]; [lia|]. apply confid_defined; [done|lia].
Qed.
End command_line.

(** ** Types of service *)

Definition is_letter (c : ascii) : bool := negb (isdigit c).
Definition named (f : string -> bool) : option (string * Z) := List.find (fun q => f (smap tolower (fst q))) ipqos.

Section tos.
Context `{DM : DataModel}.

Lemma strcasecmp_lower c name : strcasecmp c name = streq (smap tolower c) (smap tolower name).
Proof. reflexivity. Qed.

(** [parse_ipqos] of a text without name, by the width of [long]. *)
Definition parse_number (w : Z) (cp : string) : Z :=
  let r := strtos w 0 cp in
  if (streq cp EmptyString || negb (streq (CLib.send r) EmptyString) || (sv r <? 0) || (255 <? sv r))%bool then -1 else sv r.
Lemma parse_ipqos_unfold cp : parse_ipqos cp = match named (streq (smap tolower cp)) with Some (_, v) => v | None => parse_number long_bits cp end.
Proof. reflexivity. Qed.

(** What holds for both widths. *)
Lemma at_widths (f : Z -> bool) : f 32 = true -> f 64 = true -> f long_bits = true.
Proof. intros H1 H2. by destruct long_bits_cases as [-> | ->]. Qed.

Definition parse_at (w : Z) (cp : string) : Z := match named (streq (smap tolower cp)) with Some (_, v) => v | None => parse_number w cp end.
Definition upto (n : nat) : list Z := Z.of_nat <$> seq 0 n.
Lemma upto_spec n z : 0 <= z < Z.of_nat n -> In z (upto n).
Proof. intros H. apply list_elem_of_In, list_elem_of_fmap. exists (Z.to_nat z). split; [lia|]. apply elem_of_seq. lia. Qed.

Lemma all_upto (f : Z -> bool) n z : forallb f (upto n) = true -> 0 <= z < Z.of_nat n -> f z = true.
Proof. intros H Hz. rewrite forallb_forall in H. by apply H, upto_spec. Qed.

Lemma digits_no_name n : 0 <= n -> named (streq (smap tolower (dec n))) = None.
Proof.
  intros Hn. unfold dec. destruct (Z.ltb_spec n 0) as [|_]; [lia|]. destruct (fmt_base_head 10 ltac:(lia) n Hn) as (d & r & -> & Hd & _).
  assert (forallb (fun d => match named (fun x => match x with String c _ => Ascii.eqb (tolower (digit_chr false d)) c | EmptyString => false end) with None => true | _ => false end)
    (upto 10) = true) as Hall by (vm_compute; reflexivity).
  pose proof (all_upto _ 10 d Hall ltac:(lia)) as H. cbv beta in H. unfold named in *. clear Hall.
  induction ipqos as [|[x v] l IH]; [done|]. cbn [List.find fst] in *. cbn [smap]. destruct (smap tolower x) as [|c y]; [by apply IH|].
  unfold streq. cbn [String.eqb]. destruct (Ascii.eqb _ c); [done|by apply IH].
Qed.

(** A type of service is understood by its name, with letters of any case, or
    as a number from 0 to 255, decimal or hexadecimal; larger numbers are
    refused. What netperf shows for a value up to 64 is understood as this value
    again; every value above is shown as the name of 0, although most names stand
    for such values. *)
Theorem tos_names :
  (forall name v cp, In (name, v) ipqos -> smap tolower cp = name -> parse_ipqos cp = v) /\
  (forall n, 0 <= n <= 255 -> parse_ipqos (dec n) = n /\ parse_ipqos ("0x" +:+ hex n) = n) /\
  (forall n, 255 < n < 2 ^ 31 -> parse_ipqos (dec n) = -1) /\
  (forall n, 0 <= n <= 64 -> parse_ipqos (iptos2str n) = n) /\
  (forall n, n < 0 \/ 64 < n -> iptos2str n = "cs0" /\ parse_ipqos (iptos2str n) = 0).
Proof.
  assert (forall f : Z -> Z -> bool, forallb (f 32) (upto 256) = true -> forallb (f 64) (upto 256) = true ->
    forall n, 0 <= n <= 255 -> f long_bits n = true) as Hfin.
  { intros f H1 H2 n Hn. apply (at_widths (fun w => f w n)); [by apply (all_upto _ 256); [|lia]..]. }
  split; [|split; [|split; [|split]]].
  - intros name v cp Hin Hcp. rewrite parse_ipqos_unfold, Hcp.
    assert (forallb (fun q => match named (streq (fst q)) with Some (_, v) => v =? snd q | None => false end) ipqos = true) as Hall by (vm_compute; reflexivity).
    rewrite forallb_forall in Hall. specialize (Hall _ Hin). cbn [fst snd] in Hall. destruct (named _) as [[]|]; [|done]. lia.
  - intros n Hn.
    pose proof (Hfin (fun w n => (parse_at w (dec n) =? n) && (parse_at w ("0x" +:+ hex n) =? n))%bool ltac:(vm_compute; reflexivity) ltac:(vm_compute; reflexivity) n Hn) as H.
    apply andb_true_iff in H as [H1%Z.eqb_eq H2%Z.eqb_eq]. done.
  - intros n Hn. rewrite parse_ipqos_unfold, digits_no_name by lia. unfold parse_number, strtos. rewrite strto_scan_dec by lia.
    assert ((2 ^ (long_bits - 1) - 1 <? n) = false) as -> by (destruct long_bits_cases as [-> | ->]; lia).
    cbn [sv CLib.send]. assert ((255 <? n) = true) as -> by lia. by rewrite !orb_true_r.
  - intros n Hn. pose proof (Hfin (fun w n => (64 <? n) || (parse_at w (iptos2str n) =? n))%bool ltac:(vm_compute; reflexivity) ltac:(vm_compute; reflexivity) n ltac:(lia)) as H.
    apply orb_true_iff in H as [H|H%Z.eqb_eq]; [lia|done].
  - intros n Hn. assert (iptos2str n = "cs0") as E.
    { unfold iptos2str. assert (((n <? 0) || (64 <? n))%bool = true) as -> by lia. done. }
    split; [exact E|]. rewrite E. reflexivity.
Qed.
End tos.

(** ** Directions *)

(** The words of a text between separators. *)
Fixpoint words (c : ascii) (s : string) : list string :=
  match s with
  | EmptyString => [EmptyString]
  | String a s' =>
      if Ascii.eqb a c then EmptyString :: words c s'
      else match words c s' with w :: ws => String a w :: ws | [] => [String a EmptyString] end
  end.

Lemma words_split c s : words c s = match split_at c s with (a, Some b) => a :: words c b | (a, None) => [a] end.
Proof.
  induction s as [|a s IH]; cbn [words split_at]; [done|]. destruct (Ascii.eqb a c); [done|]. rewrite IH. by destruct (split_at c s) as [x [y|]].
Qed.

Lemma split_at_short c s : strlen (fst (split_at c s)) <= strlen s /\
  match snd (split_at c s) with Some b => strlen b < strlen s | None => True end.
Proof.
  induction s as [|a s IH]; cbn [split_at]; [done|]. destruct (Ascii.eqb a c); cbn [fst snd strlen]; [pose proof (strlen_nonneg s); lia|].
  destruct (split_at c s) as [x y]. cbn [fst snd strlen] in *. destruct y; lia.
Qed.

(** No word of a direction begins with a digit. *)
Lemma digits_no_direction n : 0 <= n -> streq (dec n) EmptyString = false /\
  existsb (strcasecmp (dec n)) ["xmit"; "send"; "stream"; "transmit"] = false /\
  existsb (strcasecmp (dec n)) ["recv"; "receive"; "maerts"] = false /\ strcasecmp (dec n) "rr" = false.
Proof.
  intros Hn. unfold dec. destruct (Z.ltb_spec n 0) as [|_]; [lia|]. destruct (fmt_base_head 10 ltac:(lia) n Hn) as (d & r & -> & Hd & _).
  split; [done|]. unfold strcasecmp, streq. cbn [smap existsb String.eqb].
  assert (forallb (fun d => negb (existsb (Ascii.eqb (tolower (digit_chr false d))) (map tolower ["x"; "s"; "t"; "r"; "m"]%char))) (upto 10) = true) as Hall
    by (vm_compute; reflexivity).
  pose proof (all_upto _ 10 d Hall ltac:(lia)) as H0. cbv beta in H0. apply negb_true_iff in H0. cbn [map existsb] in H0. rewrite !orb_false_iff in H0.
  destruct H0 as (-> & -> & -> & -> & -> & _). done.
Qed.

Section direction.
Context `{DM : DataModel}.

Lemma parse_direction_words fuel : forall s (q : st sh_w), strlen s < BUFSIZ -> strlen s < Z.of_nat fuel ->
  parse_direction_ fuel s q = (Ret (foldr Z.lor 0 (direction_word <$> words "|"%char s)), q).
Proof.
  induction fuel as [|f IH]; intros s q Hs Hf; [pose proof (strlen_nonneg s); lia|]. cbn [parse_direction_].
  destruct s as [|a0 s0]; [done|]. set (s := String a0 s0) in *. change (streq s EmptyString) with false. cbv iota.
  rewrite (words_split _ s). pose proof (split_at_short "|"%char s) as [H1 H2].
  assert (break_args_explicit_sep s "|"%char q = (Ret (fst (split_at "|"%char s), default EmptyString (snd (split_at "|"%char s))), q) /\
    strlen (default EmptyString (snd (split_at "|"%char s))) < strlen s) as [E Hb].
  { unfold break_args_explicit_sep, fits. destruct (split_at _ s) as [a b]. cbn [fst snd] in *.
    assert (strlen (default EmptyString b) < strlen s) as Hb by (destruct b; cbn; [done|subst s; cbn [strlen]; pose proof (strlen_nonneg s0); lia]).
    split; [|done]. destruct (Z.ltb_spec (strlen (default EmptyString b)) BUFSIZ); [|lia]. by destruct (Z.ltb_spec (strlen a) BUFSIZ); [|lia]. }
  rewrite (bind_ret_run _ _ _ _ _ E). cbn [fst snd]. rewrite (bind_ret_run _ _ _ _ _ (IH (default EmptyString (snd (split_at "|"%char s))) q ltac:(lia) ltac:(lia))).
  unfold mret, M_ret. do 2 f_equal. destruct (split_at _ s) as [a [b|] ]; reflexivity.
Qed.

(** A direction is the union of what its words mean, in whatever order they
    stand between the separators; the function always returns. Words of one
    meaning, with letters of any case, mean the same; a number means itself. *)
Theorem direction_is_union s (q : st sh_w) : strlen s < BUFSIZ ->
  parse_direction (Some s) q = (Ret (foldr Z.lor 0 (direction_word <$> words "|"%char s)), q) /\
  (forall w, smap tolower w ∈ ["xmit"; "send"; "stream"; "transmit"] -> direction_word w = NETPERF_XMIT) /\
  (forall w, smap tolower w ∈ ["recv"; "receive"; "maerts"] -> direction_word w = NETPERF_RECV) /\
  (forall w, smap tolower w = "rr" -> direction_word w = Z.lor NETPERF_XMIT NETPERF_RECV) /\
  (forall n, 0 <= n < 2 ^ 31 -> direction_word (dec n) = n).
Proof.
  intros Hs. assert (forall w x, smap tolower w = x -> x <> EmptyString -> streq w EmptyString = false) as Hne
    by (intros [|] x E Hx; [by destruct Hx|done]).
  split; [|split; [|split; [|split]]].
  - unfold parse_direction. apply parse_direction_words; [done|]. rewrite strlen_length. lia.
  - intros w Hw. unfold direction_word, strcasecmp. rewrite !elem_of_cons in Hw.
    destruct Hw as [E|[E|[E|[E|[]%elem_of_nil]]]]; rewrite (Hne w _ E) by done; cbn [existsb]; by rewrite E.
  - intros w Hw. unfold direction_word, strcasecmp. rewrite !elem_of_cons in Hw.
    destruct Hw as [E|[E|[E|[]%elem_of_nil]]]; rewrite (Hne w _ E) by done; cbn [existsb]; by rewrite E.
  - intros w E. unfold direction_word, strcasecmp. rewrite (Hne w _ E) by done. cbn [existsb]. by rewrite E.
  - intros n Hn. pose proof (digits_no_direction n ltac:(lia)) as (H1 & H2 & H3 & H4). unfold direction_word. rewrite H1, H2, H3, H4.
    unfold strtos. rewrite strto_scan_dec by lia.
    assert ((2 ^ (long_bits - 1) - 1 <? n) = false) as -> by (destruct long_bits_cases as [-> | ->]; lia). cbn [sv]. apply (wraps_small 32); lia.
Qed.
End direction.

(** ** Witnesses *)

Definition shell_env : sh_os := {|
  sh_net := {| os_big := false; os_select _ := (1, 0); os_recv _ := inl 0%nat; os_send _ := (0, 0); os_setaffinity _ := None; os_getpid := 1;
    os_strerror _ := "Success"; os_address := "0.0.0.0" |};
  sh_malloc _ := true; sh_getaddrinfo _ _ _ _ := inl (-2); sh_gai_strerror _ := "Name or service not known" |}.
Definition shell_start : st sh_w :=
  mkst [] (mk_sh (mk_np [] [] [] [] 0 0 0 [] 0 (-1) (-1)) init_ints init_strs ∅ ∅ 0).
Definition iterations_after (argv : list string) : option (Z * Z * Z) :=
  match scan_cmd_line (DM := ILP32) shell_env (fun _ _ => mret tt) argv shell_start with
  | (Ret _, s') => Some (int_of (dev s') "confidence_level", int_of (dev s') "iteration_min", int_of (dev s') "iteration_max")
  | _ => None
  end.

Lemma iterations_bounded_witness : iterations_after ["netperf"; "-I"; "95,5"; "-i"; "40,2"] = Some (95, 3, 30) /\ good_iterations 95 3 30.
Proof.
  assert (iterations_after ["netperf"; "-I"; "95,5"; "-i"; "40,2"] = Some (95, 3, 30)) as E by (vm_compute; reflexivity).
  split; [exact E|].
  pose proof (iterations_bounded (DM := ILP32) shell_env (fun _ _ => mret tt) ["netperf"; "-I"; "95,5"; "-i"; "40,2"] shell_start
    (fun _ _ s H => H) eq_refl) as H.
  unfold iterations_after in E. destruct (scan_cmd_line _ _ _ _) as [[] s']; try discriminate. injection E as E1 E2 E3.
  destruct H as [H _]. unfold int_of in *. rewrite E1, E2, E3 in H. exact H.
Defined.

Lemma tos_names_witness : @parse_ipqos ILP32 "AF41" = 136 /\ iptos2str 136 = "cs0".
Proof.
  destruct (tos_names (DM := ILP32)) as (H1 & _ & _ & _ & H2).
  split; [apply (H1 "af41"); [right; right; right; right; right; right; right; right; right; left; reflexivity|reflexivity] | apply H2; lia].
Defined.

Lemma direction_is_union_witness : fst (parse_direction (DM := ILP32) (Some "Send|recv") shell_start) = Ret 6.
Proof.
  destruct (direction_is_union (DM := ILP32) "Send|recv" shell_start) as [E _]; [reflexivity|].
  rewrite E. reflexivity.
Defined.
