(* ===== verification/NpStatOk.v ===== *)
(** * The properties of the statistics, buffers and identifiers of netperf

    Rounding to single precision, the histogram as counts and as a queue of time
    stamps, the rings of buffers, and the time stamps of the identifiers. *)

From stdpp Require Import base list strings numbers.
From Stdlib Require Import ZArith Lia Ascii SpecFloat FinFun.
From S2P Require Import Prelude CInt CLib CFmt FloatTools NpLib NpStat.

(** ** Rounding of positive numbers to single precision *)

Lemma digits2_bounds p : 2 ^ (Z.pos (digits2_pos p) - 1) <= Z.pos p < 2 ^ Z.pos (digits2_pos p).
Proof.
  assert (forall q, Z.pos (Pos.succ q) = Z.pos q + 1) as Hs by lia.
  induction p as [p IH|p IH|]; cbn [digits2_pos]; [..|done]; rewrite Hs.
  all: replace (Z.pos (digits2_pos p) + 1 - 1) with (Z.pos (digits2_pos p) - 1 + 1) by lia.
  all: rewrite !Z.pow_add_r by lia; lia.
Qed.

Lemma digits2_unique p n : 0 < n -> 2 ^ (n - 1) <= Z.pos p < 2 ^ n -> Z.pos (digits2_pos p) = n.
Proof.
  intros Hn H. pose proof (digits2_bounds p) as Hd.
  assert (n - 1 < Z.pos (digits2_pos p)) by (apply (Z.pow_lt_mono_r_iff 2); lia).
  assert (Z.pos (digits2_pos p) - 1 < n) by (apply (Z.pow_lt_mono_r_iff 2); lia). lia.
Qed.

Lemma shr_1_half mrs : 0 <= shr_m mrs -> shr_m (shr_1 mrs) = shr_m mrs / 2.
Proof.
  destruct mrs as [m r s]. cbn [shr_m]. intros Hm. destruct m as [|p|p]; [done| |lia].
  destruct p as [p|p|]; cbn [shr_1 shr_m]; [|rewrite (Pos2Z.inj_xO p)|done].
  - rewrite (Pos2Z.inj_xI p). apply (Z.div_unique _ _ _ 1); lia.
  - apply (Z.div_unique _ _ _ 0); lia.
Qed.

Lemma iter_shr_1 p : forall mrs, 0 <= shr_m mrs -> shr_m (iter_pos shr_1 p mrs) = shr_m mrs / 2 ^ Z.pos p.
Proof.
  assert (forall a b c, 0 <= a -> 0 < b -> 0 < c -> 0 <= a / b) as Hp by (intros; by apply Z.div_pos).
  induction p as [p IH|p IH|]; intros mrs Hm; cbn [iter_pos].
  - assert (0 <= shr_m (shr_1 mrs)) as H1 by (rewrite shr_1_half by done; apply Z.div_pos; lia).
    assert (0 <= shr_m (iter_pos shr_1 p (shr_1 mrs))) by (rewrite IH by done; apply Z.div_pos; lia).
    rewrite !IH, shr_1_half, !Z.div_div by lia. f_equal.
    rewrite (Pos2Z.inj_xI p). replace (2 * Z.pos p + 1) with (1 + (Z.pos p + Z.pos p)) by lia. rewrite !Z.pow_add_r by lia. lia.
  - assert (0 <= shr_m (iter_pos shr_1 p mrs)) by (rewrite IH by done; apply Z.div_pos; lia).
    rewrite !IH, Z.div_div by lia. f_equal. rewrite (Pos2Z.inj_xO p), <- Z.pow_add_r by lia. f_equal. lia.
  - by apply shr_1_half.
Qed.

Lemma shr_facts mrs e n : 0 <= shr_m mrs -> 0 <= n -> shr_m (fst (shr mrs e n)) = shr_m mrs / 2 ^ n /\ snd (shr mrs e n) = e + n.
Proof.
  intros Hm Hn. destruct n as [|p|p]; cbn [shr fst snd]; [|by rewrite iter_shr_1|lia].
  split; [by rewrite Z.pow_0_r, Z.div_1_r | lia].
Qed.

Lemma shr_record_m m l : shr_m (shr_record_of_loc m l) = m.
Proof. by destruct l as [|[]]. Qed.

Lemma round_nearest_even_near m l : round_nearest_even m l = m \/ round_nearest_even m l = m + 1.
Proof. destruct l as [|[]]; cbn; [tauto| |tauto|tauto]. destruct (Z.even m); tauto. Qed.

(** A number in single precision with all 24 bits. *)
Definition normal (m : positive) : Prop := 2 ^ 23 <= Z.pos m < 2 ^ 24.

Lemma shr_fexp_normal m e l : 2 ^ 23 <= m < 2 ^ 24 -> -149 <= e ->
  shr_m (fst (shr_fexp 24 128 m e l)) = m /\ snd (shr_fexp 24 128 m e l) = e.
Proof.
  intros Hm He. unfold shr_fexp. destruct m as [|p|p]; [lia| |lia]. cbn [Zdigits2].
  rewrite (digits2_unique p 24) by lia.
  replace (fexp 24 128 (24 + e) - e) with 0 by (unfold fexp, emin; lia).
  pose proof (shr_facts (shr_record_of_loc (Z.pos p) l) e 0) as H. rewrite shr_record_m, Z.div_1_r in H. lia.
Qed.

(** The rounded number is the mantissa cut to 24 bits, or the one after it. *)
Lemma round_near mx ex lx n : 0 <= n -> 2 ^ (23 + n) <= mx < 2 ^ (24 + n) -> -149 <= ex + n <= 100 ->
  exists m e, binary_round_aux 24 128 false mx ex lx = S754_finite false m e /\ normal m /\ ex + n <= e <= ex + n + 1 /\
    (mx / 2 ^ n) * 2 ^ (ex + n + 149) <= Z.pos m * 2 ^ (e + 149) <= (mx / 2 ^ n + 1) * 2 ^ (ex + n + 149).
Proof.
  intros Hn Hm He. unfold binary_round_aux.
  assert (2 ^ 23 <= mx / 2 ^ n < 2 ^ 24) as Hq.
  { rewrite !Z.pow_add_r in Hm by lia. split; [apply Z.div_le_lower_bound | apply Z.div_lt_upper_bound]; lia. }
  assert (exists mrs, shr_fexp 24 128 mx ex lx = (mrs, ex + n) /\ shr_m mrs = mx / 2 ^ n) as (mrs & -> & Hmrs).
  { destruct mx as [|p|p]; [lia| |lia]. unfold shr_fexp. cbn [Zdigits2]. rewrite (digits2_unique p (24 + n)) by (try lia; by replace (24 + n - 1) with (23 + n) by lia).
    replace (fexp 24 128 (24 + n + ex) - ex) with n by (unfold fexp, emin; lia).
    pose proof (shr_facts (shr_record_of_loc (Z.pos p) lx) ex n) as H. rewrite shr_record_m in H.
    destruct (shr _ ex n) as [mrs e']. exists mrs. destruct H as [H1 H2]; [lia|lia|]. cbn [fst snd] in H1, H2. by subst. }
  set (r := round_nearest_even _ _).
  assert (r = mx / 2 ^ n \/ r = mx / 2 ^ n + 1) as Hr by (subst r; rewrite <- Hmrs; apply round_nearest_even_near).
  assert (0 < 2 ^ (ex + n + 149)) by (apply Z.pow_pos_nonneg; lia).
  destruct (Z_lt_dec r (2 ^ 24)) as [Hlt|Hge].
  - destruct (shr_fexp_normal r (ex + n) loc_Exact) as [H1 H2]; [lia|lia|].
    destruct (shr_fexp 24 128 r (ex + n) loc_Exact) as [mrs' e']. cbn [fst snd] in H1, H2. subst e'.
    destruct r as [|p|p]; [lia| |lia]. rewrite H1. destruct (Z.leb_spec (ex + n) (128 - 24)); [|lia].
    exists p, (ex + n). split; [done|]. unfold normal. split; [lia|]. split; [lia|]. nia.
  - assert (r = 2 ^ 24) as Hr24 by lia. rewrite Hr24. unfold shr_fexp.
    change (Zdigits2 (2 ^ 24)) with 25. replace (fexp 24 128 (25 + (ex + n)) - (ex + n)) with 1 by (unfold fexp, emin; lia).
    change (shr (shr_record_of_loc (2 ^ 24) loc_Exact) (ex + n) 1) with (Build_shr_record (2 ^ 23) false false, ex + n + 1). cbn [shr_m].
    change (2 ^ 23) with (Z.pos 8388608). cbv iota. destruct (Z.leb_spec (ex + n + 1) (128 - 24)); [|lia].
    exists 8388608%positive, (ex + n + 1). split; [done|]. split; [unfold normal; lia|]. split; [lia|].
    replace (ex + n + 1 + 149) with (1 + (ex + n + 149)) by lia. rewrite (Z.pow_add_r 2 1) by lia. nia.
Qed.

(** What a single-precision number is worth, in units of [2^-149]. *)
Definition worth (m : positive) (e : Z) : Z := Z.pos m * 2 ^ (e + 149).

Lemma ten_eq : Hist.ten = S754_finite false 10485760 (-20) /\ Hist.base10 = Hist.ten.
Proof. by split. Qed.

Lemma compare_floats m e p k :
  SFltb (S754_finite false m e) (S754_finite false p k) = bool_decide (e < k \/ e = k /\ Z.pos m < Z.pos p).
Proof.
  unfold SFltb. cbn [SFcompare]. assert (Pos.compare_cont Eq m p = Pos.compare m p) as -> by reflexivity.
  case_bool_decide as H; destruct (Z.compare_spec e k) as [He|He|He]; try reflexivity; try (exfalso; lia).
  - destruct H as [H|[_ H]]; [lia|]. apply Pos2Z.pos_lt_pos in H || change (m < p)%positive in H. unfold Pos.lt in H. by rewrite H.
  - destruct (Pos.compare m p) eqn:E; [done| |done]. exfalso. apply H. right. split; [done|]. by apply Pos2Z.pos_lt_pos.
Qed.

(** Below ten, and at least ten. *)
Lemma ltb_ten m e : normal m -> -149 <= e ->
  if SFltb (S754_finite false m e) Hist.ten then e < -20 \/ e = -20 /\ Z.pos m < 10485760
  else 10 * 2 ^ 149 <= worth m e /\ -20 <= e /\ (e = -20 -> 10485760 <= Z.pos m).
Proof.
  intros Hm He. rewrite (proj1 ten_eq), compare_floats. case_bool_decide as H; [done|].
  assert (e = -20 -> 10485760 <= Z.pos m) as Hge by (intros ->; apply Z.nlt_ge; tauto). assert (-20 <= e) by tauto || (apply Z.nlt_ge; tauto).
  unfold worth, normal in *. clear H. split; [|lia].
  replace (e + 149) with (e + 20 + 129) by lia. rewrite Z.pow_add_r by lia. assert (2 ^ 149 = 2 ^ 20 * 2 ^ 129) as -> by done.
  assert (0 < 2 ^ 129) by done. generalize dependent (2 ^ 129). intros w Hw.
  destruct (Z.eq_dec e (-20)) as [->|Hne]; [change (2 ^ (-20 + 20)) with 1; nia|].
  assert (2 <= 2 ^ (e + 20)) by (apply (Z.pow_le_mono_r 2 1); lia). generalize dependent (2 ^ (e + 20)). intros x Hx.
  rewrite Z.mul_assoc, Z.mul_assoc. apply Z.mul_le_mono_nonneg_r; [lia|]. change (10 * 2 ^ 20) with 10485760. nia.
Qed.

Lemma div_arith m q r w x : m * 2 ^ 24 = 10485760 * q + r -> 0 <= r < 10485760 -> 2 ^ 23 <= m -> 0 < w ->
  q * w <= x <= (q + 1) * w -> m * (16 * w) * (2 ^ 23 - 1) <= x * 10 * 2 ^ 23 <= m * (16 * w) * (2 ^ 23 + 1).
Proof.
  intros H Hr Hm Hw Hx. assert (m * w * 2 ^ 24 = 10485760 * (q * w) + r * w) as H1 by (rewrite <- (Z.mul_assoc m w), (Z.mul_comm w), Z.mul_assoc, H; ring).
  assert (0 <= r * w <= 10485760 * w) by (split; [apply Z.mul_nonneg_nonneg | apply Z.mul_le_mono_nonneg_r]; lia).
  assert (2 ^ 23 * w <= m * w) by (apply Z.mul_le_mono_nonneg_r; lia).
  replace (m * (16 * w)) with (16 * (m * w)) by ring. replace ((q + 1) * w) with (q * w + w) in Hx by ring.
  revert Hx. generalize dependent (m * w). generalize dependent (q * w). generalize dependent (r * w). intros; lia.
Qed.

Lemma div_arith2 m q r w x : m * 2 ^ 24 = 10485760 * q + r -> 0 <= r < 10485760 -> 10485760 <= m -> 0 < w ->
  (q / 2) * (2 * w) <= x <= (q / 2 + 1) * (2 * w) -> m * (16 * w) * (2 ^ 23 - 1) <= x * 10 * 2 ^ 23 <= m * (16 * w) * (2 ^ 23 + 1).
Proof.
  intros H Hr Hm Hw Hx. pose proof (Z.div_mod q 2 ltac:(lia)) as Hd. pose proof (Z.mod_pos_bound q 2 ltac:(lia)) as Hp.
  remember (q / 2) as h eqn:Eh. remember (q mod 2) as b eqn:Eb. clear Eh Eb. subst q. rename Hp into Hb.
  assert (m * w * 2 ^ 24 = 20971520 * (h * w) + 10485760 * (b * w) + r * w) as H1
    by (rewrite <- (Z.mul_assoc m w), (Z.mul_comm w), Z.mul_assoc, H; ring).
  assert (0 <= r * w <= 10485760 * w) by (split; [apply Z.mul_nonneg_nonneg | apply Z.mul_le_mono_nonneg_r]; lia).
  assert (0 <= b * w <= w) by (split; [apply Z.mul_nonneg_nonneg; lia | rewrite <- (Z.mul_1_l w) at 2; apply Z.mul_le_mono_nonneg_r; lia]).
  assert (10485760 * w <= m * w) by (apply Z.mul_le_mono_nonneg_r; lia).
  replace (m * (16 * w)) with (16 * (m * w)) by ring. replace (h * (2 * w)) with (2 * (h * w)) in Hx by ring.
  replace ((h + 1) * (2 * w)) with (2 * (h * w) + 2 * w) in Hx by ring. clear H Hr Hm Hb.
  generalize dependent (m * w). generalize dependent (h * w). generalize dependent (r * w). generalize dependent (b * w). intros; lia.
Qed.

(** [val / 10]: off by a part in [2^23]. *)
Lemma div_ten m e : normal m -> -20 <= e <= 8 -> (e = -20 -> 10485760 <= Z.pos m) ->
  exists m' e', fdiv (S754_finite false m e) Hist.ten = S754_finite false m' e' /\ normal m' /\ -23 <= e' <= 8 /\
    worth m e * (2 ^ 23 - 1) <= worth m' e' * 10 * 2 ^ 23 <= worth m e * (2 ^ 23 + 1).
Proof.
  intros Hm He Hten. pose proof Hm as Hm'. unfold normal in Hm'. unfold fdiv. rewrite (proj1 ten_eq). cbn [SFdiv]. unfold SFdiv_core_binary. cbn [Zdigits2].
  rewrite (digits2_unique m 24) by lia. change (Z.pos (digits2_pos 10485760)) with 24.
  replace (Z.min (fexp 24 128 (24 + e - (24 + -20))) (e - -20)) with (e - 4) by (unfold fexp, emin; lia).
  replace (e - -20 - (e - 4)) with 24 by lia. rewrite Z.shiftl_mul_pow2 by lia.
  pose proof (Z.div_eucl_eq (Z.pos m * 2 ^ 24) 10485760 ltac:(lia)) as Hq. pose proof (Z.mod_pos_bound (Z.pos m * 2 ^ 24) 10485760 ltac:(lia)) as Hr.
  unfold Z.modulo in Hr. destruct (Z.div_eucl _ _) as [q r]. cbn [xorb].
  assert (Hw : 0 < 2 ^ (e + 145)) by (apply Z.pow_pos_nonneg; lia).
  unfold worth. replace (e + 149) with (4 + (e + 145)) by lia. rewrite (Z.pow_add_r 2 4) by lia. change (2 ^ 4) with 16.
  destruct (Z_lt_dec q (2 ^ 24)) as [Hlt|Hge].
  - destruct (round_near q (e - 4) (new_location 10485760 r) 0) as (m1 & e1 & -> & Hn1 & He1 & Hb); [lia|change (2 ^ 23 <= q < 2 ^ 24); lia|lia|].
    exists m1, e1. split; [done|]. split; [done|]. rewrite Z.div_1_r in Hb. replace (e - 4 + 0 + 149) with (e + 145) in Hb by lia.
    split; [lia|]. apply (div_arith _ q r); [lia..|done].
  - destruct (round_near q (e - 4) (new_location 10485760 r) 1) as (m1 & e1 & -> & Hn1 & He1 & Hb); [lia|change (2 ^ 24 <= q < 2 ^ 25); lia|lia|].
    exists m1, e1. split; [done|]. split; [done|]. replace (e - 4 + 1 + 149) with (1 + (e + 145)) in Hb by lia.
    rewrite (Z.pow_add_r 2 1) in Hb by lia. split; [lia|]. apply (div_arith2 _ q r); [lia..|exact Hb].
Qed.

(** A rounded result of [M * v] is off by a part in [2^23]. *)
Lemma near_part a n v x : 0 < n -> n * 2 ^ 23 <= a -> 0 < v -> (a / n) * (n * v) <= x <= (a / n + 1) * (n * v) ->
  a * v * (2 ^ 23 - 1) <= x * 2 ^ 23 <= a * v * (2 ^ 23 + 1).
Proof.
  intros Hn Ha Hv Hx. pose proof (Z.div_mod a n ltac:(lia)) as Hd. pose proof (Z.mod_pos_bound a n Hn) as Hr.
  remember (a / n) as q eqn:Eq. remember (a mod n) as r eqn:Er. clear Eq Er.
  assert (a * v = q * (n * v) + r * v) as H1 by (rewrite Hd; ring).
  assert (0 <= r * v <= n * v) by (split; [apply Z.mul_nonneg_nonneg | apply Z.mul_le_mono_nonneg_r]; lia).
  assert (n * v * 2 ^ 23 <= a * v) by (replace (n * v * 2 ^ 23) with (n * 2 ^ 23 * v) by ring; apply Z.mul_le_mono_nonneg_r; lia).
  replace ((q + 1) * (n * v)) with (q * (n * v) + n * v) in Hx by ring. clear Hd Hr Ha.
  generalize dependent (a * v). generalize dependent (q * (n * v)). generalize dependent (r * v). generalize dependent (n * v). intros; lia.
Qed.

(** The integer part of a number below [2^24]. *)
Lemma trunc_facts m e : -149 <= e < 0 ->
  0 <= trunc (S754_finite false m e) /\
  trunc (S754_finite false m e) * 2 ^ 149 <= worth m e < (trunc (S754_finite false m e) + 1) * 2 ^ 149.
Proof.
  intros He. unfold trunc, worth. destruct (Z.leb_spec 0 e); [lia|]. unfold id.
  assert (0 < 2 ^ (- e)) by (apply Z.pow_pos_nonneg; lia). assert (0 < 2 ^ (e + 149)) by (apply Z.pow_pos_nonneg; lia).
  assert (2 ^ 149 = 2 ^ (- e) * 2 ^ (e + 149)) as -> by (rewrite <- Z.pow_add_r by lia; f_equal; lia).
  pose proof (Z.div_mod (Z.pos m) (2 ^ (- e)) ltac:(lia)). pose proof (Z.mod_pos_bound (Z.pos m) (2 ^ (- e)) ltac:(lia)).
  split; [apply Z.div_pos; lia|]. rewrite !Z.mul_assoc.
  split; [apply Z.mul_le_mono_nonneg_r | apply Z.mul_lt_mono_pos_r]; lia.
Qed.

(** The entry of a row: below 100, and right but for a part in [2^23]. *)
Lemma mul_ten m e : normal m -> -23 <= e -> e < -20 \/ e = -20 /\ Z.pos m < 10485760 ->
  let i := trunc (fmul (S754_finite false m e) Hist.base10) in
  0 <= i < 100 /\ i * 2 ^ 149 * 2 ^ 23 <= 10 * worth m e * (2 ^ 23 + 1) /\ 10 * worth m e * (2 ^ 23 - 1) < (i + 1) * 2 ^ 149 * 2 ^ 23.
Proof.
  intros Hm He Hlt. assert (e <= -20) by lia. unfold normal in Hm. rewrite (proj2 ten_eq), (proj1 ten_eq). unfold fmul. cbn [SFmul xorb].
  rewrite Pos2Z.inj_mul. set (M := Z.pos m * 10485760).
  assert (10 * worth m e = M * 2 ^ (e + 129)) as HW.
  { unfold worth, M. replace (e + 149) with (20 + (e + 129)) by lia. rewrite (Z.pow_add_r 2 20) by lia. ring. }
  set (n := if M <? 2 ^ 47 then 23 else 24).
  assert (0 <= n <= 24 /\ 2 ^ (23 + n) <= M < 2 ^ (24 + n)) as [Hn HM].
  { subst n. destruct (Z.ltb_spec M (2 ^ 47)); (split; [lia|]); [change (2 ^ 46 <= M < 2 ^ 47)|change (2 ^ 47 <= M < 2 ^ 48)]; lia. }
  destruct (round_near M (e + -20) loc_Exact n) as (m1 & e1 & -> & _ & He1 & Hb); [lia..|]. cbv zeta.
  assert (0 < 2 ^ (e + 129)) by (apply Z.pow_pos_nonneg; lia). assert (0 < 2 ^ n) by (apply Z.pow_pos_nonneg; lia).
  replace (e + -20 + n + 149) with (n + (e + 129)) in Hb by lia. rewrite (Z.pow_add_r 2 n) in Hb by lia. fold (worth m1 e1) in Hb.
  pose proof (near_part M (2 ^ n) (2 ^ (e + 129)) (worth m1 e1)) as Hnear. rewrite <- HW in Hnear.
  destruct Hnear as [Hlo Hhi]; [lia|rewrite <- Z.pow_add_r by lia; replace (n + 23) with (23 + n) by lia; apply HM|done|exact Hb|].
  destruct (trunc_facts m1 e1) as (Hi & Hi1 & Hi2); [lia|].
  assert (worth m1 e1 < 100 * 2 ^ 149) as H100.
  { assert (e < -20 \/ e = -20) as [Hs| ->] by lia.
    - assert (worth m e <= 2 ^ 24 * 2 ^ 128) by (apply Z.mul_le_mono_nonneg; [lia..|apply Z.pow_nonneg; lia|apply Z.pow_le_mono_r; lia]). lia.
    - destruct Hlt as [?|[_ Hlt]]; [lia|].
      assert (n = 23) as Hn23 by (subst n; destruct (Z.ltb_spec M (2 ^ 47)); [done | lia]). rewrite Hn23 in Hb.
      assert (M / 2 ^ 23 < 13107199) by (apply Z.div_lt_upper_bound; lia).
      change (2 ^ (-20 + 129)) with (2 ^ 109) in Hb. lia. }
  generalize dependent (trunc (S754_finite false m1 e1)). generalize dependent (worth m1 e1). generalize dependent (worth m e).
  clear. intros. lia.
Qed.

Lemma pos_iter_xO p k : Z.pos (Pos.iter xO p k) = Z.pos p * 2 ^ Z.pos k.
Proof.
  induction k as [|k IH] using Pos.peano_ind; [change (Z.pos p~0 = Z.pos p * 2); lia|].
  rewrite Pos.iter_succ, Pos2Z.inj_succ, Z.pow_succ_r, Pos2Z.inj_xO, IH by lia. ring.
Qed.

(** [(float) t]. *)
Lemma int_float t : 1 <= t < 2 ^ 31 ->
  exists m e, float_of_Z t = S754_finite false m e /\ normal m /\ -23 <= e <= 8 /\
    t * 2 ^ 149 * (2 ^ 23 - 1) <= worth m e * 2 ^ 23 <= t * 2 ^ 149 * (2 ^ 23 + 1).
Proof.
  intros Ht. destruct t as [|p|p]; [lia| |lia]. unfold float_of_Z, of_Z, binary_normalize, binary_round, shl_align.
  pose proof (digits2_bounds p) as Hd. set (d := Z.pos (digits2_pos p)) in *. assert (1 <= d) by lia.
  assert (d - 1 < 31) by (apply (Z.pow_lt_mono_r_iff 2); lia).
  replace (fexp 24 128 (d + 0) - 0) with (d - 24) by (unfold fexp, emin; lia). replace (fexp 24 128 (d + 0)) with (d - 24) by (unfold fexp, emin; lia).
  assert (exists mx ex, (match d - 24 with Z.neg k => (Pos.iter xO p k, d - 24) | _ => (p, 0) end) = (mx, ex) /\
    ex = Z.min 0 (d - 24) /\ Z.pos mx = Z.pos p * 2 ^ (- ex)) as (mx & ex & -> & Hex & Hmx).
  { destruct (d - 24) as [|k|k] eqn:E; [exists p, 0; change (2 ^ (- 0)) with 1; split_and!; [done|lia|lia]..|].
    exists (Pos.iter xO p k), (Z.neg k). rewrite pos_iter_xO. split; [done|]. split; [lia|]. done. }
  set (n := Z.max 0 (d - 24)).
  assert (2 ^ (23 + n) <= Z.pos mx < 2 ^ (24 + n)) as Hb.
  { rewrite Hmx. replace (23 + n) with (d - 1 + - ex) by lia. replace (24 + n) with (d + - ex) by lia. rewrite !Z.pow_add_r by lia.
    assert (0 < 2 ^ (- ex)) by (apply Z.pow_pos_nonneg; lia). split; [apply Z.mul_le_mono_nonneg_r | apply Z.mul_lt_mono_pos_r]; lia. }
  destruct (round_near (Z.pos mx) ex loc_Exact n) as (m & e & -> & Hm & He & Hn); [lia..|].
  exists m, e. split; [done|]. split; [done|]. split; [lia|].
  replace (ex + n + 149) with (n + (ex + 149)) in Hn by lia. rewrite (Z.pow_add_r 2 n) in Hn by lia.
  assert (Z.pos p * 2 ^ 149 = Z.pos mx * 2 ^ (ex + 149)) as ->
    by (rewrite Hmx, <- Z.mul_assoc, <- Z.pow_add_r by lia; do 2 f_equal; lia).
  apply (near_part _ (2 ^ n)); [apply Z.pow_pos_nonneg; lia| |apply Z.pow_pos_nonneg; lia|done].
  rewrite <- Z.pow_add_r by lia. replace (n + 23) with (23 + n) by lia. apply Hb.
Qed.

(** A number that is [t / d] but for [j] parts in [2^22]. *)
Definition tracks (t d j a : Z) : Prop := a * d * 2 ^ 22 <= t * (2 ^ 22 + j) /\ t * (2 ^ 22 - j) <= a * d * 2 ^ 22.

Lemma tracks_step t d j a x c : 0 <= t -> 0 < d -> 0 <= j <= 16 -> 0 <= c -> tracks t d j a ->
  a * (2 ^ 23 - 1) <= x * c * 2 ^ 23 <= a * (2 ^ 23 + 1) -> tracks t (d * c) (j + 1) x.
Proof.
  intros Ht Hd Hj Hc [H1 H2] [H3 H4]. unfold tracks.
  assert (a * d * (2 ^ 23 - 1) <= x * (d * c) * 2 ^ 23) as H5.
  { replace (a * d * (2 ^ 23 - 1)) with (d * (a * (2 ^ 23 - 1))) by ring. replace (x * (d * c) * 2 ^ 23) with (d * (x * c * 2 ^ 23)) by ring.
    apply Z.mul_le_mono_nonneg_l; lia. }
  assert (x * (d * c) * 2 ^ 23 <= a * d * (2 ^ 23 + 1)) as H6.
  { replace (a * d * (2 ^ 23 + 1)) with (d * (a * (2 ^ 23 + 1))) by ring. replace (x * (d * c) * 2 ^ 23) with (d * (x * c * 2 ^ 23)) by ring.
    apply Z.mul_le_mono_nonneg_l; lia. }
  assert (0 <= t * j <= t * 16) by (split; [apply Z.mul_nonneg_nonneg | apply Z.mul_le_mono_nonneg_l]; lia).
  replace (t * (2 ^ 22 + j)) with (t * 2 ^ 22 + t * j) in H1 by ring. replace (t * (2 ^ 22 - j)) with (t * 2 ^ 22 - t * j) in H2 by ring.
  replace (t * (2 ^ 22 + (j + 1))) with (t * 2 ^ 22 + t * j + t) by ring. replace (t * (2 ^ 22 - (j + 1))) with (t * 2 ^ 22 - t * j - t) by ring.
  clear H3 H4. generalize dependent (a * d). generalize dependent (x * (d * c)). generalize dependent (t * j). clear -Ht. intros. lia.
Qed.

(** ** The histogram *)

(** The row and the entry [HIST_add] counts a time in. *)
Fixpoint place_from (n k : nat) (v : spec_float) : option (nat * nat) :=
  match n with
  | O => None
  | S n' => if SFltb v Hist.ten then Some (k, Z.to_nat (trunc (fmul v Hist.base10))) else place_from n' (S k) (fdiv v Hist.ten)
  end.
Definition place (t : Z) : option (nat * nat) := if t <? 0 then None else place_from Hist.num_rows 0 (float_of_Z t).

(** Entry [i] of row [k] is for the times from [i] to [i + 1] tenths of [10^k]
    microseconds, but for rounding. *)
Definition close (t : Z) (p : option (nat * nat)) : Prop :=
  match p with
  | Some (k, i) =>
      (k < 8)%nat /\ (i < 100)%nat /\
      Z.of_nat i * 10 ^ Z.of_nat k * 2 ^ 18 <= 10 * t * (2 ^ 18 + 1) /\
      10 * t * (2 ^ 18 - 1) < (Z.of_nat i + 1) * 10 ^ Z.of_nat k * 2 ^ 18
  | None => t < 0 \/ 10 ^ 8 * 2 ^ 18 <= t * (2 ^ 18 + 1)
  end.

Lemma close_entry t k j a i : 0 <= t -> 0 <= j <= 9 -> 0 <= k -> tracks (t * 2 ^ 149) (10 ^ k) j a ->
  i * 2 ^ 149 * 2 ^ 23 <= 10 * a * (2 ^ 23 + 1) -> 10 * a * (2 ^ 23 - 1) < (i + 1) * 2 ^ 149 * 2 ^ 23 ->
  i * 10 ^ k * 2 ^ 18 <= 10 * t * (2 ^ 18 + 1) /\ 10 * t * (2 ^ 18 - 1) < (i + 1) * 10 ^ k * 2 ^ 18.
Proof.
  intros Ht Hj Hk [H1 H2] H3 H4. assert (0 < 10 ^ k) as Hd by (apply Z.pow_pos_nonneg; lia). set (d := 10 ^ k) in *.
  set (P := 2 ^ 149) in *. assert (0 < P) as HP by done. clearbody P d.
  assert (i * d * P * 2 ^ 23 <= 10 * (a * d) * (2 ^ 23 + 1)) as H5.
  { replace (i * d * P * 2 ^ 23) with (d * (i * P * 2 ^ 23)) by ring. replace (10 * (a * d) * (2 ^ 23 + 1)) with (d * (10 * a * (2 ^ 23 + 1))) by ring.
    apply Z.mul_le_mono_nonneg_l; lia. }
  assert (10 * (a * d) * (2 ^ 23 - 1) < (i + 1) * d * P * 2 ^ 23) as H6.
  { replace ((i + 1) * d * P * 2 ^ 23) with (d * ((i + 1) * P * 2 ^ 23)) by ring. replace (10 * (a * d) * (2 ^ 23 - 1)) with (d * (10 * a * (2 ^ 23 - 1))) by ring.
    apply Z.mul_lt_mono_pos_l; lia. }
  assert (0 <= t * P * j <= t * P * 9) by (split; [repeat apply Z.mul_nonneg_nonneg | apply Z.mul_le_mono_nonneg_l; [apply Z.mul_nonneg_nonneg|]]; lia).
  replace (t * P * (2 ^ 22 + j)) with (t * P * 2 ^ 22 + t * P * j) in H1 by ring. replace (t * P * (2 ^ 22 - j)) with (t * P * 2 ^ 22 - t * P * j) in H2 by ring.
  split; [apply (Zmult_le_reg_r _ _ P); [lia|] | apply (Zmult_lt_reg_r _ _ P); [lia|]].
  - replace (i * d * 2 ^ 18 * P) with (i * d * P * 2 ^ 18) by ring. replace (10 * t * (2 ^ 18 + 1) * P) with (10 * (t * P) * (2 ^ 18 + 1)) by ring.
    clear H3 H4 H6. assert (0 <= t * P) by (apply Z.mul_nonneg_nonneg; lia).
    generalize dependent (i * d * P). generalize dependent (a * d). generalize dependent (t * P * j). generalize dependent (t * P). clear. intros. lia.
  - replace ((i + 1) * d * 2 ^ 18 * P) with ((i + 1) * d * P * 2 ^ 18) by ring. replace (10 * t * (2 ^ 18 - 1) * P) with (10 * (t * P) * (2 ^ 18 - 1)) by ring.
    clear H3 H4 H5. assert (0 <= t * P) by (apply Z.mul_nonneg_nonneg; lia). assert (0 < (i + 1) * d * P \/ a * d < 0 \/ t * P = 0) by lia.
    generalize dependent ((i + 1) * d * P). generalize dependent (a * d). generalize dependent (t * P * j). generalize dependent (t * P). clear. intros. lia.
Qed.

Lemma place_from_close t n : forall k m e, 0 <= t -> normal m -> -23 <= e <= 8 -> (k + n = 8)%nat ->
  tracks (t * 2 ^ 149) (10 ^ Z.of_nat k) (Z.of_nat k + 1) (worth m e) -> close t (place_from n k (S754_finite false m e)).
Proof.
  induction n as [|n IH]; intros k m e Ht Hm He Hk Htr; cbn [place_from].
  - right. destruct Htr as [Htr _]. assert (Z.of_nat k = 8) as Hk8 by lia. rewrite Hk8 in Htr.
    assert (2 ^ 149 <= worth m e) as Hw.
    { unfold worth, normal in *. replace 149 with (23 + 126) at 1 by done. rewrite Z.pow_add_r by done.
      apply Z.mul_le_mono_nonneg; [done|lia|done|apply Z.pow_le_mono_r; lia]. }
    change (2 ^ 149) with (2 ^ 40 * 2 ^ 109) in *. lia.
  - pose proof (ltb_ten m e Hm ltac:(lia)) as Hten. destruct (SFltb _ _).
    + destruct (mul_ten m e Hm ltac:(lia) Hten) as (Hi & H1 & H2). set (i := trunc _) in *.
      destruct (close_entry t (Z.of_nat k) (Z.of_nat k + 1) (worth m e) i) as [H3 H4]; [lia..|done|done|done|].
      cbn [close]. rewrite Z2Nat.id by lia. split; [lia|]. split; [|done]. change 100%nat with (Z.to_nat 100). apply Z2Nat.inj_lt; lia.
    + destruct Hten as (_ & He' & Hm'). destruct (div_ten m e Hm ltac:(lia) Hm') as (m' & e' & -> & Hn & He'' & Hw).
      apply IH; [done..|lia|]. rewrite Nat2Z.inj_succ, Z.pow_succ_r, (Z.mul_comm 10) by lia.
      replace (Z.succ (Z.of_nat k) + 1) with (Z.of_nat k + 1 + 1) by lia.
      eapply tracks_step; [| | | |exact Htr|exact Hw]; [by apply Z.mul_nonneg_nonneg|apply Z.pow_pos_nonneg; lia|lia|lia].
Qed.

Lemma place_close t : t < 2 ^ 31 -> close t (place t).
Proof.
  intros Ht. unfold place. destruct (Z.ltb_spec t 0); [by left|]. assert (t = 0 \/ 1 <= t) as [->|H1] by lia.
  - vm_compute. repeat split; try (intros; discriminate); repeat constructor.
  - destruct (int_float t ltac:(lia)) as (m & e & -> & Hm & He & Hw). apply place_from_close; [lia|done|done|done|].
    unfold tracks. rewrite Z.pow_0_r. generalize dependent (worth m e). generalize dependent (t * 2 ^ 149). clear. intros. lia.
Qed.

Import Hist.

Definition bucket (h : hist) (k i : nat) : Z := default 0 (rows h !! k ≫= (.!! i)).
Definition shaped (h : hist) : Prop := length (rows h) = 8%nat /\ forall k row, rows h !! k = Some row -> length row = 100%nat.
(** [h] with one more time at a place. *)
Definition counted (h : hist) (p : option (nat * nat)) : hist :=
  match p with
  | Some (k, i) =>
      mk_hist (alter (alter (fun z => s32 (z + 1)) i) k (rows h)) (ridiculous h) (total h) (sum h) (sumsquare h)
        (hmin h) (hmax h) (limit h) (count h) (producer h) (consumer h) (time_ones h) (time_two h)
  | None => bump_ridiculous h
  end.

Lemma bump_counted h k i s : shaped h -> (k < 8)%nat -> 0 <= i < 100 -> bump h k i s = (Ret (counted h (Some (k, Z.to_nat i))), s).
Proof.
  intros [H8 _] Hk Hi. unfold bump. destruct (lookup_lt_is_Some_2 (rows h) k) as [row E]; [lia|]. rewrite E.
  destruct (Z.leb_spec 0 i); [|lia]. destruct (Z.ltb_spec i HIST_NUM_OF_BUCKET) as [_|]; [|unfold HIST_NUM_OF_BUCKET in *; lia]. cbn [andb].
  cbn [counted]. set (f := alter _ _). assert (<[k := f row]> (rows h) = alter f k (rows h)) as ->; [|done].
  rewrite list_insert_alter. apply list_alter_ext; [|done]. intros r Hr. congruence.
Qed.

Lemma pick_row_from h s n : forall k m e, shaped h -> normal m -> -23 <= e <= 8 -> (k + n = 8)%nat ->
  pick_row n k (S754_finite false m e) h s = (Ret (counted h (place_from n k (S754_finite false m e))), s).
Proof.
  induction n as [|n IH]; intros k m e Hh Hm He Hk; cbn [pick_row place_from]; [done|].
  pose proof (ltb_ten m e Hm ltac:(lia)) as Hten. destruct (SFltb _ _).
  - apply bump_counted; [done|lia|]. exact (proj1 (mul_ten m e Hm ltac:(lia) Hten)).
  - destruct Hten as (_ & He' & Hm'). destruct (div_ten m e Hm ltac:(lia) Hm') as (m' & e' & -> & Hn & He'' & _). apply IH; [done..|lia].
Qed.

Lemma pick_row_place h s t : shaped h -> 0 <= t < 2 ^ 31 -> pick_row num_rows 0 (float_of_Z t) h s = (Ret (counted h (place t)), s).
Proof.
  intros Hh Ht. unfold place. destruct (Z.ltb_spec t 0); [lia|]. assert (t = 0 \/ 1 <= t) as [->|H1] by lia.
  - change (bump h 0 0 s = (Ret (counted h (Some (0%nat, Z.to_nat 0))), s)). apply bump_counted; [done|lia|lia].
  - destruct (int_float t ltac:(lia)) as (m & e & -> & Hm & He & _). by apply pick_row_from.
Qed.

Lemma bucket_counted h k i k' i' : shaped h -> (k < 8)%nat -> (i < 100)%nat ->
  bucket (counted h (Some (k, i))) k' i' = if decide ((k, i) = (k', i')) then s32 (bucket h k i + 1) else bucket h k' i'.
Proof.
  intros [H8 Hrow] Hk Hi. unfold bucket. cbn [counted rows]. destruct (lookup_lt_is_Some_2 (rows h) k) as [row E]; [lia|].
  pose proof (Hrow k row E). destruct (lookup_lt_is_Some_2 row i) as [b Eb]; [lia|].
  case_decide as Hd; [injection Hd as <- <-|].
  - rewrite list_lookup_alter_eq, E. cbn. by rewrite list_lookup_alter_eq, Eb.
  - destruct (decide (k = k')) as [<-|Hne]; [|by rewrite list_lookup_alter_ne].
    rewrite list_lookup_alter_eq, E. cbn. by rewrite list_lookup_alter_ne by congruence.
Qed.

Lemma shaped_counted h p : shaped h -> shaped (counted h p).
Proof.
  intros [H8 Hrow]. destruct p as [[k i]|]; [|done]. split; cbn [counted rows]; [by rewrite length_alter|].
  intros k' row. destruct (decide (k = k')) as [<-|Hne]; [|rewrite list_lookup_alter_ne by done; apply Hrow].
  rewrite list_lookup_alter_eq. destruct (rows h !! k) as [r|] eqn:E; [|done]. intros [= <-]. rewrite length_alter. by eapply Hrow.
Qed.

(** How many times of a list [f] holds for. *)
Definition times (f : Z -> bool) (ts : list Z) : Z := Z.of_nat (length (List.filter f ts)).

Lemma times_snoc f ts t : times f (ts ++ [t]) = times f ts + if f t then 1 else 0.
Proof. unfold times. rewrite List.filter_app, length_app. cbn [List.filter]. destruct (f t); cbn [length]; lia. Qed.

Lemma times_le f ts : 0 <= times f ts <= Z.of_nat (length ts).
Proof. unfold times. pose proof (List.filter_length_le f ts). lia. Qed.

Definition here (k i : nat) (t : Z) : bool := bool_decide (place t = Some (k, i)).
Definition elsewhere (t : Z) : bool := bool_decide (place t = None).
Definition counts (t : Z) : bool := 0 <=? t.
(** What a histogram holds that has been given the times [ts]. *)
Record holds (h : hist) (ts : list Z) : Prop := {
  h_shaped : shaped h;
  h_buckets k i : (k < 8)%nat -> (i < 100)%nat -> bucket h k i = times (here k i) ts;
  h_ridiculous : ridiculous h = times elsewhere ts;
  h_total : total h = times counts ts;
  h_sum : Hist.sum h = foldr Z.add 0 (List.filter counts ts);
  h_min : hmin h = match List.filter counts ts with [] => 0 | t :: l => foldl Z.min t l end;
  h_max : hmax h = match List.filter counts ts with [] => 0 | t :: l => foldl Z.max t l end
}.
Fixpoint add_all (os : hist_os) (ts : list Z) (h : hist) : M nat hist :=
  match ts with [] => mret h | t :: ts => h ← HIST_add os h t; add_all os ts h end.

Lemma foldr_add_snoc l x : foldr Z.add 0 (l ++ [x]) = foldr Z.add 0 l + x.
Proof. induction l as [|y l IH]; cbn; [lia|]. rewrite IH. lia. Qed.

Lemma sum_bound ts : Forall (fun t => t < 2 ^ 31) ts -> 0 <= foldr Z.add 0 (List.filter counts ts) <= Z.of_nat (length ts) * 2 ^ 31.
Proof.
  induction 1 as [|t ts Ht _ IH]; [done|]. cbn [List.filter length]. destruct (counts t) eqn:E; unfold counts in E; cbn [foldr]; lia.
Qed.

Lemma place_inside t k i : t < 2 ^ 31 -> place t = Some (k, i) -> (k < 8)%nat /\ (i < 100)%nat.
Proof. intros Ht E. pose proof (place_close t Ht) as H. rewrite E in H. cbn in H. tauto. Qed.

Lemma place_negative t : t < 0 -> place t = None.
Proof. intros Ht. unfold place. destruct (Z.ltb_spec t 0); [done|lia]. Qed.

Lemma s32_id x : - 2 ^ 31 <= x < 2 ^ 31 -> s32 x = x.
Proof. intros H. by apply (wraps_small 32). Qed.

(** Only the rows and the rest change when a time is counted. *)
Lemma holds_counted h h' ts t : holds h ts -> Z.of_nat (length (ts ++ [t])) < 2 ^ 31 -> t < 2 ^ 31 ->
  rows h' = rows h -> ridiculous h' = ridiculous h -> total h' = times counts (ts ++ [t]) ->
  Hist.sum h' = foldr Z.add 0 (List.filter counts (ts ++ [t])) ->
  hmin h' = match List.filter counts (ts ++ [t]) with [] => 0 | t :: l => foldl Z.min t l end ->
  hmax h' = match List.filter counts (ts ++ [t]) with [] => 0 | t :: l => foldl Z.max t l end ->
  holds (counted h' (place t)) (ts ++ [t]).
Proof.
  intros [Hs Hb Hr _ _ _ _] Hlen Ht Er Erid Et Esum Emin Emax. rewrite length_app in Hlen. cbn [length] in Hlen.
  assert (shaped h') as Hs' by (unfold shaped; by rewrite Er).
  assert (forall k i, bucket h' k i = bucket h k i) as Hbu by (intros; unfold bucket; by rewrite Er).
  split; [by apply shaped_counted|..].
  - intros k i Hk Hi. rewrite times_snoc. unfold here at 2. pose proof (times_le (here k i) ts). destruct (place t) as [[k1 i1]|] eqn:Ep.
    + destruct (place_inside t k1 i1 Ht Ep) as [Hk1 Hi1]. rewrite bucket_counted, !Hbu by done.
      case_decide as Hd; case_bool_decide as Hd'; try congruence.
      * injection Hd as <- <-. rewrite Hb by done. rewrite s32_id; lia.
      * rewrite Hb by done. lia.
    + rewrite bool_decide_false by done. unfold counted, bucket, bump_ridiculous. cbn [rows]. fold (bucket h' k i). rewrite Hbu, Hb by done. lia.
  - rewrite times_snoc. unfold elsewhere at 2. pose proof (times_le elsewhere ts). destruct (place t) as [[k1 i1]|] eqn:Ep.
    + rewrite bool_decide_false by done. cbn [counted ridiculous]. lia.
    + rewrite bool_decide_true by done. cbn [counted ridiculous bump_ridiculous]. rewrite Erid, Hr, s32_id; lia.
  - destruct (place t) as [[]|]; done.
  - destruct (place t) as [[]|]; done.
  - destruct (place t) as [[]|]; done.
  - destruct (place t) as [[]|]; done.
Qed.

Lemma foldl_extreme (f : Z -> Z -> Z) l : forall t x, foldl f t (l ++ [x]) = f (foldl f t l) x.
Proof. induction l as [|y l IH]; intros t x; cbn; [done|]. apply IH. Qed.

Lemma HIST_add_holds os h ts t s : holds h ts -> Z.of_nat (length (ts ++ [t])) < 2 ^ 31 -> Forall (fun t => t < 2 ^ 31) (ts ++ [t]) ->
  exists h', HIST_add os h t s = (Ret h', s) /\ holds h' (ts ++ [t]).
Proof.
  intros Hh Hlen Hts. pose proof (proj1 (List.Forall_app _ _ _) Hts) as [Hts0 Ht]. apply Forall_inv in Ht.
  pose proof (sum_bound ts Hts0) as Hsum. pose proof (times_le counts ts) as Htot.
  pose proof Hlen as Hlen0. rewrite length_app in Hlen. cbn [length] in Hlen.
  assert (List.filter counts (ts ++ [t]) = List.filter counts ts ++ (if counts t then [t] else [])) as Hf by (rewrite List.filter_app; done).
  unfold HIST_add. destruct (Z.ltb_spec t 0) as [Hneg|Hpos].
  - eexists. split; [reflexivity|]. assert (counts t = false) as Hc by (unfold counts; lia). rewrite Hc, app_nil_r in Hf.
    pose proof (holds_counted h h ts t Hh) as H. rewrite place_negative in H by done. apply H; try done.
    + rewrite times_snoc, Hc. rewrite (h_total h ts Hh). lia.
    + rewrite Hf. apply Hh.
    + rewrite Hf. apply Hh.
    + rewrite Hf. apply Hh.
  - assert (counts t = true) as Hc by (unfold counts; lia). rewrite Hc in Hf. destruct Hh as [Hs Hb Hr Htt Hss Hmin Hmax] eqn:Eh. clear Eh.
    rewrite pick_row_place; [|done|lia]. eexists. split; [reflexivity|]. apply (holds_counted h _ ts); try done; cbn [rows ridiculous total Hist.sum hmin hmax].
    + rewrite times_snoc, Hc, Htt, s32_id; lia.
    + rewrite Hf, foldr_add_snoc, Hss, wraps_small; [done|lia|]. change (2 ^ (64 - 1)) with (2 ^ 32 * 2 ^ 31). nia.
    + rewrite Hf, Hmin, Htt. unfold times. destruct (List.filter counts ts) as [|t0 l]; cbn [app length]; [cbn; by rewrite Z.ltb_irrefl|].
      rewrite foldl_extreme. destruct (Z.eqb_spec (Z.of_nat (S (length l))) 0); [lia|]. destruct (Z.ltb_spec (foldl Z.min t0 l) t); lia.
    + rewrite Hf, Hmax, Htt. unfold times. destruct (List.filter counts ts) as [|t0 l]; cbn [app length]; [cbn; by rewrite Z.ltb_irrefl|].
      rewrite foldl_extreme. destruct (Z.eqb_spec (Z.of_nat (S (length l))) 0); [lia|]. destruct (Z.ltb_spec t (foldl Z.max t0 l)); lia.
Qed.

Lemma holds_clear : holds HIST_clear [].
Proof.
  split; try done; [split; [done|]|].
  - intros k row E. cbn [HIST_clear rows] in E. apply lookup_replicate in E as [-> _]. apply length_replicate.
  - intros k i Hk Hi. unfold bucket, HIST_clear. cbn [rows]. rewrite lookup_replicate_2 by done. cbn. by rewrite lookup_replicate_2.
Qed.

Lemma add_all_holds os s : forall ts2 ts1 h, holds h ts1 -> Forall (fun t => t < 2 ^ 31) (ts1 ++ ts2) -> Z.of_nat (length (ts1 ++ ts2)) < 2 ^ 31 ->
  exists h', add_all os ts2 h s = (Ret h', s) /\ holds h' (ts1 ++ ts2).
Proof.
  induction ts2 as [|t ts2 IH]; intros ts1 h Hh Hts Hlen; [exists h; by rewrite app_nil_r|].
  cbn [add_all]. replace (ts1 ++ t :: ts2) with ((ts1 ++ [t]) ++ ts2) in * by (by rewrite <- app_assoc).
  destruct (HIST_add_holds os h ts1 t s Hh) as (h1 & E & Hh1); [rewrite length_app in Hlen; lia|by apply List.Forall_app in Hts as [? _]|].
  destruct (IH (ts1 ++ [t]) h1 Hh1 Hts Hlen) as (h' & E' & Hh'). exists h'. split; [|done]. by rewrite (bind_ret_run _ _ _ _ _ E).
Qed.

(** C8: Whatever times a cleared histogram is given, [HIST_add] neither writes
    outside of its rows nor loses one: every entry of every row holds the number of
    the times that belong there, what is negative or 100 seconds and more is counted
    apart, and total, sum, smallest and largest are those of the times that are
    not negative. An entry [i] of row [k] is for the times of [i] to [i + 1] tenths
    of [10^k] microseconds; the divisions in single precision move its bounds
    by less than a part in [2^18]. *)
Theorem histogram_counts : exists where_ : Z -> option (nat * nat),
  (forall t, t < 2 ^ 31 -> close t (where_ t)) /\
  forall os ts (s : st nat), Forall (fun t => t < 2 ^ 31) ts -> Z.of_nat (length ts) < 2 ^ 31 ->
  exists h, add_all os ts HIST_clear s = (Ret h, s) /\
    (forall k i, (k < 8)%nat -> (i < 100)%nat -> bucket h k i = times (fun t => bool_decide (where_ t = Some (k, i))) ts) /\
    ridiculous h = times (fun t => bool_decide (where_ t = None)) ts /\
    total h = times (Z.leb 0) ts /\
    Hist.sum h = foldr Z.add 0 (List.filter (Z.leb 0) ts) /\
    hmin h = match List.filter (Z.leb 0) ts with [] => 0 | t :: l => foldl Z.min t l end /\
    hmax h = match List.filter (Z.leb 0) ts with [] => 0 | t :: l => foldl Z.max t l end.
Proof.
  exists place. split; [exact place_close|]. intros os ts s.
  intros Hts Hlen. destruct (add_all_holds os s ts [] HIST_clear holds_clear Hts Hlen) as (h & E & Hh). exists h. split; [exact E|]. destruct Hh. done.
Qed.

(** ** Time stamps under way *)

(** The numbers of one histogram with the time stamps of another. *)
Definition put (a h : hist) : hist :=
  mk_hist (rows a) (ridiculous a) (total a) (Hist.sum a) (sumsquare a) (hmin a) (hmax a) (limit h) (count h) (producer h) (consumer h)
    (time_ones h) (time_two h).
Definition ret_put (h : hist) (r : res hist * st nat) : res hist * st nat :=
  match r with (Ret a, s) => (Ret (put a h), s) | _ => r end.

Lemma pick_row_put n h s : forall k v a, pick_row n k v (put a h) s = ret_put h (pick_row n k v a s).
Proof.
  induction n as [|n IH]; intros k v a; cbn [pick_row]; [done|]. destruct (SFltb v Hist.ten); [|apply IH].
  unfold bump. cbn [put rows]. destruct (rows a !! k) as [row|]; [|done]. by destruct (_ && _)%bool.
Qed.

Lemma HIST_add_put os a h t s : HIST_add os (put a h) t s = ret_put h (HIST_add os a t s).
Proof. unfold HIST_add. destruct (t <? 0); [done|]. cbv zeta. rewrite <- pick_row_put. done. Qed.

Lemma add_all_put os h ts : forall a s, add_all os ts (put a h) s = ret_put h (add_all os ts a s).
Proof.
  induction ts as [|t ts IH]; intros a s; cbn [add_all]; [done|]. unfold mbind, M_bind. rewrite HIST_add_put.
  destruct (HIST_add os a t s) as [[] s']; [apply IH|done..].
Qed.

(** [HIST_add] does not look at the state. *)
Lemma pick_row_state n s s' : forall k v a, pick_row n k v a s' = ((pick_row n k v a s).1, s').
Proof.
  induction n as [|n IH]; intros k v a; cbn [pick_row]; [done|]. destruct (SFltb v Hist.ten); [|apply IH].
  unfold bump. destruct (rows a !! k) as [row|]; [|done]. by destruct (_ && _)%bool.
Qed.

Lemma HIST_add_state os a t s s' : HIST_add os a t s' = ((HIST_add os a t s).1, s').
Proof. unfold HIST_add. destruct (t <? 0); [done|]. apply pick_row_state. Qed.

Lemma add_all_state os ts : forall a a' s s', add_all os ts a s = (Ret a', s) -> add_all os ts a s' = (Ret a', s').
Proof.
  induction ts as [|t ts IH]; intros a a' s s' E; cbn [add_all] in *; [by injection E as <-|].
  unfold mbind, M_bind in *. rewrite (HIST_add_state os a t s s'). pose proof (HIST_add_state os a t s s) as E1.
  destruct (HIST_add os a t s) as [[] s1]; cbn [fst] in *; try done. injection E1 as ->. by apply (IH _ _ s).
Qed.

Lemma add_all_first os h t ts a : (forall s, (h ← HIST_add os h t; add_all os ts h) s = (Ret a, s)) ->
  exists a1, (forall s, HIST_add os h t s = (Ret a1, s)) /\ forall s, add_all os ts a1 s = (Ret a, s).
Proof.
  intros H. destruct ((HIST_add os h t (mkst [] 0%nat)).1) as [a1| | | |] eqn:E.
  - assert (forall s, HIST_add os h t s = (Ret a1, s)) as H1 by (intros s; by rewrite (HIST_add_state os h t (mkst [] 0%nat)), E).
    exists a1. split; [done|]. intros s. rewrite <- (H s). by rewrite (bind_ret_run _ _ _ _ _ (H1 s)).
  - specialize (H (mkst [] 0%nat)). unfold mbind, M_bind in H. rewrite (surjective_pairing (HIST_add _ _ _ _)), E in H. done.
  - specialize (H (mkst [] 0%nat)). unfold mbind, M_bind in H. rewrite (surjective_pairing (HIST_add _ _ _ _)), E in H. done.
  - specialize (H (mkst [] 0%nat)). unfold mbind, M_bind in H. rewrite (surjective_pairing (HIST_add _ _ _ _)), E in H. done.
  - specialize (H (mkst [] 0%nat)). unfold mbind, M_bind in H. rewrite (surjective_pairing (HIST_add _ _ _ _)), E in H. done.
Qed.

(** The time stamps under way, oldest first, in a ring with one place more than
    there may be. *)
Record in_ring (n : Z) (h : hist) (q : list (Z * Z)) : Prop := {
  r_limit : limit h = n + 1;
  r_len : Z.of_nat (length q) <= n;
  r_count : count h = Z.of_nat (length q);
  r_consumer : 0 <= consumer h < n + 1;
  r_producer : producer h = (consumer h + Z.of_nat (length q)) mod (n + 1);
  r_ones : exists ones, time_ones h = Some ones /\ Z.of_nat (length ones) = n + 1 /\
    forall i x, q !! i = Some x -> ones !! Z.to_nat ((consumer h + Z.of_nat i) mod (n + 1)) = Some x
}.

Lemma mod_apart c a b l : 0 < l -> 0 <= a < b -> b < l -> (c + a) mod l <> (c + b) mod l.
Proof.
  intros Hl Ha Hb E. pose proof (Z.div_mod (c + a) l ltac:(lia)). pose proof (Z.div_mod (c + b) l ltac:(lia)).
  assert (b - a = l * ((c + b) / l - (c + a) / l)) as Hd by (rewrite Z.mul_sub_distr_l; lia).
  assert ((c + b) / l - (c + a) / l <= 0 \/ 1 <= (c + b) / l - (c + a) / l) as [H1|H1] by lia; nia.
Qed.

Inductive hist_op : Type := Start | Stop.
Fixpoint run_ops (os : hist_os) (ops : list hist_op) (h : hist) : M nat hist :=
  match ops with
  | [] => mret h
  | Start :: ops => h ← HIST_timestamp_start os (Some h); run_ops os ops h
  | Stop :: ops => h ← HIST_timestamp_stop_add os (Some h); run_ops os ops h
  end.
(** A queue of at most [n] time stamps: the differences that are added, what is
    still under way, and how often the clock was read. *)
Fixpoint fifo (os : hist_os) (n : Z) (ops : list hist_op) (k : nat) (q : list (Z * Z)) : option (list Z * list (Z * Z) * nat) :=
  match ops, q with
  | [], _ => Some ([], q, k)
  | Start :: ops, _ => if Z.of_nat (length q) <? n then fifo os n ops (S k) (q ++ [os_clock os k]) else None
  | Stop :: ops, [] => None
  | Stop :: ops, t :: q => match fifo os n ops (S k) q with
                           | Some (ds, q', k') => Some (fst (delta_micro t (os_clock os k)) :: ds, q', k')
                           | None => None
                           end
  end.

Section ring.
Context (os : hist_os) (n : Z) (Hn : 0 <= n) (Hn2 : n + 1 < 2 ^ 31).

Lemma start_queues h q o k : in_ring n h q -> Z.of_nat (length q) < n ->
  exists h', HIST_timestamp_start os (Some h) (mkst o k) = (Ret (put h h'), mkst o (S k)) /\ in_ring n h' (q ++ [os_clock os k]).
Proof.
  intros [Hl Hq Hc Hcons Hprod (ones & Ho & Hlen & Hones)] Hlt. unfold HIST_timestamp_start.
  destruct (Z.eqb_spec (count h) (limit h)); [lia|]. rewrite Ho. cbn [when].
  pose proof (Z.mod_pos_bound (consumer h + Z.of_nat (length q)) (n + 1) ltac:(lia)) as Hm.
  unfold mbind, M_bind, mret, M_ret. cbn beta iota.
  destruct (Z.leb_spec 0 (producer h)); [|lia]. destruct (Z.ltb_spec (producer h) (Z.of_nat (length ones))); [|lia]. cbn [andb].
  unfold HIST_timestamp, devop. cbn [dev out]. destruct (Z.eqb_spec (limit h) 0); [lia|].
  exists (with_times h (<[Z.to_nat (producer h) := os_clock os k]> ones) (time_two h) (s32 (count h + 1)) (Z.rem (s32 (producer h + 1)) (limit h)) (consumer h)).
  split; [reflexivity|]. split; cbn [with_times limit count producer consumer time_ones].
  - done.
  - rewrite length_app. cbn [length]. lia.
  - rewrite length_app, Hc. cbn [length]. rewrite s32_id; lia.
  - done.
  - rewrite length_app, Hprod, Hl, s32_id by lia. cbn [length].
    rewrite Z.rem_mod_nonneg by lia. rewrite Zplus_mod_idemp_l. f_equal. lia.
  - eexists. split; [reflexivity|]. rewrite length_insert. split; [done|]. intros i x Hi.
    destruct (decide (i = length q)) as [->|Hne].
    + rewrite lookup_app_r, Nat.sub_diag in Hi by lia. injection Hi as <-. rewrite <- Hprod, list_lookup_insert_eq; [done|lia].
    + assert (i < length q)%nat by (apply lookup_lt_Some in Hi; rewrite length_app in Hi; cbn [length] in Hi; lia).
      rewrite lookup_app_l in Hi by lia. rewrite list_lookup_insert_ne; [by apply Hones|].
      pose proof (mod_apart (consumer h) (Z.of_nat i) (Z.of_nat (length q)) (n + 1) ltac:(lia) ltac:(lia) ltac:(lia)).
      pose proof (Z.mod_pos_bound (consumer h + Z.of_nat i) (n + 1) ltac:(lia)). lia.
Qed.

Lemma stop_takes h t q o k a' : in_ring n h (t :: q) ->
  HIST_add os h (fst (delta_micro t (os_clock os k))) (mkst o (S k)) = (Ret a', mkst o (S k)) ->
  exists h', HIST_timestamp_stop_add os (Some h) (mkst o k) = (Ret (put a' h'), mkst o (S k)) /\ in_ring n h' q.
Proof.
  intros [Hl Hq Hc Hcons Hprod (ones & Ho & Hlen & Hones)] Hadd. cbn [length] in *. unfold HIST_timestamp_stop_add.
  destruct (Z.eqb_spec (consumer h) (producer h)) as [E|_].
  { pose proof (mod_apart (consumer h) 0 (Z.of_nat (S (length q))) (n + 1) ltac:(lia) ltac:(lia) ltac:(lia)) as Hne.
    rewrite Z.add_0_r, (Z.mod_small (consumer h)) in Hne by lia. lia. }
  pose proof (Hones 0%nat t eq_refl) as Ht. rewrite Z.add_0_r, Z.mod_small in Ht by lia.
  unfold HIST_timestamp. rewrite Ho. unfold mbind at 1, M_bind at 1, devop. cbn [dev out].
  assert (elem ones (consumer h) (mkst o (S k)) = (Ret t, mkst o (S k))) as Eel.
  { unfold elem. destruct (Z.ltb_spec (consumer h) 0); [lia|]. by rewrite Ht. }
  rewrite (bind_ret_run _ _ _ _ _ Eel). destruct (delta_micro t (os_clock os k)) as [delta two]. cbn [fst] in Hadd.
  set (x := with_times h ones two (count h) (producer h) (consumer h)). change x with (put h x) at 1.
  rewrite (bind_ret_run _ _ _ (put a' x) (mkst o (S k))) by (by rewrite HIST_add_put, Hadd).
  destruct (Z.eqb_spec (limit h) 0); [lia|].
  exists (with_times x ones two (s32 (count h - 1)) (producer h) (Z.rem (s32 (consumer h + 1)) (limit h))).
  split; [reflexivity|]. subst x. split; cbn [with_times limit count producer consumer time_ones].
  - done.
  - lia.
  - rewrite Hc, s32_id; lia.
  - rewrite s32_id, Hl, Z.rem_mod_nonneg by lia. apply Z.mod_pos_bound. lia.
  - rewrite s32_id, Hl, Z.rem_mod_nonneg, Hprod, Zplus_mod_idemp_l by lia. f_equal. lia.
  - exists ones. split; [done|]. split; [done|]. intros i y Hi. rewrite <- (Hones (S i) y Hi).
    rewrite s32_id, Hl, Z.rem_mod_nonneg, Zplus_mod_idemp_l by lia. do 3 f_equal. lia.
Qed.

Lemma ring_put a h q : in_ring n h q -> in_ring n (put a h) q.
Proof. intros []. by split. Qed.

Lemma run_ops_queue o ops : forall h q k ds q' k' a,
  in_ring n h q -> fifo os n ops k q = Some (ds, q', k') -> (forall s, add_all os ds h s = (Ret a, s)) ->
  exists h', run_ops os ops h (mkst o k) = (Ret h', mkst o k') /\ put a h' = h' /\ in_ring n h' q'.
Proof.
  induction ops as [|op ops IH]; intros h q k ds q' k' a Hq Hf Ha.
  - injection Hf as <- <- <-. exists h. split; [done|]. split; [|done]. specialize (Ha (mkst o k)). injection Ha as <-. by destruct h.
  - destruct op; cbn [fifo] in Hf.
    + destruct (Z.ltb_spec (Z.of_nat (length q)) n); [|done]. destruct (start_queues h q o k Hq ltac:(done)) as (h1 & E & Hr).
      cbn [run_ops]. rewrite (bind_ret_run _ _ _ _ _ E). destruct (IH (put h h1) _ _ _ _ _ (put a h1) (ring_put h h1 _ Hr) Hf) as (h' & Eh & Hp & Hr').
      { intros s. rewrite add_all_put, Ha. done. }
      exists h'. done.
    + destruct q as [|t q]; [done|]. destruct (fifo os n ops (S k) q) as [[[ds1 q1] k1]|] eqn:Ef; [|done]. injection Hf as <- <- <-.
      destruct (add_all_first _ _ _ _ _ Ha) as (a1 & E1 & E2).
      destruct (stop_takes h t q o k a1 Hq (E1 _)) as (h1 & E & Hr). cbn [run_ops]. rewrite (bind_ret_run _ _ _ _ _ E).
      destruct (IH (put a1 h1) _ _ _ _ _ (put a h1) (ring_put a1 h1 _ Hr) Ef) as (h' & Eh & Hp & Hr'); [|by exists h'].
      intros s. by rewrite add_all_put, E2.
Qed.
End ring.

Lemma fifo_deltas os n ops : forall k q ds q' k', fifo os n ops k q = Some (ds, q', k') ->
  Forall (fun t => t < 2 ^ 31) ds /\ (length ds <= length ops)%nat.
Proof.
  induction ops as [|op ops IH]; intros k q ds q' k' E; cbn [fifo] in E; [by injection E as <- <- <-|].
  destruct op.
  - destruct (_ <? _); [|done]. apply IH in E as [? ?]. split; [done|]. cbn [length]. lia.
  - destruct q as [|t q]; [done|]. destruct (fifo os n ops (S k) q) as [[[ds1 q1] k1]|] eqn:E1; [|done]. injection E as <- <- <-.
    apply IH in E1 as [? ?]. split; [|cbn [length]; lia]. apply Forall_cons_2; [|done].
    apply (wraps_range 32). lia.
Qed.

(** C10: A histogram made for [n] operations under way measures them like a queue:
    as long as at most [n] operations are under way and each stop has a start,
    every stop takes the oldest time stamp, what is added is the time since then,
    and nothing else changes the numbers. The ring has [n + 1] places, so neither
    the message about a full nor the exit for an empty ring is met. With [n = 0],
    as [HIST_new] makes it, the first stop ends the program, because start and
    stop are then always at the same place. *)
Theorem histogram_is_fifo os n l ops ds q k o : 0 <= n -> n + 1 < 2 ^ 31 -> os_alloc os (n + 1) = Some l -> Z.of_nat (length l) = n + 1 ->
  fifo os n ops 0 [] = Some (ds, q, k) -> Z.of_nat (length ops) < 2 ^ 31 ->
  (exists h a, (h ← HIST_new_n os n; run_ops os ops h) (mkst o 0%nat) = (Ret h, mkst o k) /\
     (forall s, add_all os ds HIST_clear s = (Ret a, s)) /\ put a h = h /\ count h = Z.of_nat (length q)) /\
  (n = 0 -> exists s', (h ← HIST_new_n os n; run_ops os [Start; Stop] h) (mkst o 0%nat) = (Exit (-1), s')).
Proof.
  intros Hn Hn2 El Hl Hf Hops. destruct (fifo_deltas os n ops _ _ _ _ _ Hf) as [Hds Hlen].
  set (h0 := mk_hist [] 0 0 0 dzero 0 0 (n + 1) 0 0 0 (Some l) (0, 0)).
  assert (forall s, HIST_new_n os n s = (Ret (put HIST_clear h0), s)) as Enew.
  { intros s. unfold HIST_new_n. rewrite s32_id by lia. rewrite El. done. }
  assert (in_ring n h0 []) as H0.
  { split; try done; [cbn; lia..|exists l; done]. }
  split.
  - assert (forall s, exists a, add_all os ds HIST_clear s = (Ret a, s)) as Hex.
    { intros s. destruct (add_all_holds os s ds [] HIST_clear holds_clear Hds) as (a & E & _); [cbn [app]; lia|]. by exists a. }
    assert (exists a, forall s, add_all os ds HIST_clear s = (Ret a, s)) as (a & Ha).
    { destruct (Hex (mkst [] 0%nat)) as [a Ea]. exists a. intros s. destruct (Hex s) as [a' Ea']. rewrite Ea'. do 2 f_equal.
      assert (a' = a); [|done]. apply (add_all_state os) with (s' := s) in Ea. rewrite Ea in Ea'. by injection Ea' as ->. }
    destruct (run_ops_queue os n Hn Hn2 o ops (put HIST_clear h0) [] 0 ds q k (put a h0) (ring_put _ _ _ _ H0) Hf) as (h & E & Hp & Hr).
    { intros s. by rewrite add_all_put, Ha. }
    exists h, a. split; [by rewrite (bind_ret_run _ _ _ _ _ (Enew _))|]. split; [done|]. split; [exact Hp|apply Hr].
  - intros ->. rewrite (bind_ret_run _ _ _ _ _ (Enew _)). destruct l as [|x [|y l]]; [done| |cbn in Hl; lia].
    eexists. cbn. reflexivity.
Qed.

(** ** Buffer rings *)

(** [n] bytes of a pattern that is repeated, from position [start] on. *)
Definition cyc (pat : list Z) (start n : nat) : list Z := (fun j => nth ((start + j) mod length pat) pat 0) <$> seq 0 n.

Lemma cyc_length pat start n : length (cyc pat start n) = n.
Proof. unfold cyc. by rewrite length_fmap, length_seq. Qed.

Lemma cyc_app pat start a b : cyc pat start (a + b) = cyc pat start a ++ cyc pat (start + a) b.
Proof.
  unfold cyc. rewrite seq_app, fmap_app. f_equal. replace (0 + a)%nat with (a + 0)%nat by lia. rewrite <- (fmap_add_seq a 0 b).
  rewrite <- list_fmap_compose. apply list_fmap_ext. intros j x _. cbn [compose]. by rewrite Nat.add_assoc.
Qed.

Lemma cyc_mod pat start n : pat <> [] -> cyc pat (start mod length pat) n = cyc pat start n.
Proof.
  intros Hp. unfold cyc. apply list_fmap_ext. intros k j _. assert (length pat <> 0)%nat by (destruct pat; [done|cbn; lia]).
  by rewrite Nat.Div0.add_mod_idemp_l.
Qed.

(** A piece that ends before the pattern does. *)
Lemma cyc_piece pat start n : (start + n <= length pat)%nat -> cyc pat start n = take n (drop start pat).
Proof.
  intros Hn. apply list_eq. intros j. unfold cyc. destruct (decide (j < n)%nat) as [Hj|Hj].
  - rewrite lookup_take_lt by done. rewrite lookup_drop, list_lookup_fmap, lookup_seq_lt by done. cbn [fmap option_fmap option_map].
    rewrite Nat.add_0_l, Nat.mod_small by lia. destruct (lookup_lt_is_Some_2 pat (start + j)) as [x E]; [lia|].
    rewrite E. f_equal. by apply nth_lookup_Some.
  - rewrite !lookup_ge_None_2; [done|rewrite length_take; lia|rewrite length_fmap, length_seq; lia].
Qed.

Lemma put_bytes_app off a b m : put_bytes (off + length a) b (put_bytes off a m) = put_bytes off (a ++ b) m \/ (length m < off + length a)%nat.
Proof.
  destruct (decide (off + length a <= length m)%nat) as [H|H]; [left|lia].
  assert (put_bytes off a m = (take off m ++ a) ++ drop (off + length a) m) as -> by (unfold put_bytes; by rewrite app_assoc).
  assert (length (take off m ++ a) = (off + length a)%nat) as El by (rewrite length_app, length_take; lia).
  unfold put_bytes. rewrite take_app_length' by done. rewrite drop_app_ge by lia. rewrite El, drop_drop, length_app, <- !app_assoc.
  do 4 f_equal. lia.
Qed.

Lemma put_bytes_size off a m : (off + length a <= length m)%nat -> length (put_bytes off a m) = length m.
Proof. intros H. unfold put_bytes. rewrite !length_app, length_take, length_drop. lia. Qed.

Lemma put_byte off v m : (off < length m)%nat -> <[off := v]> m = put_bytes off [v] m.
Proof. intros H. unfold put_bytes. rewrite insert_take_drop by done. cbn [length app]. by replace (off + 1)%nat with (S off) by lia. Qed.

Import Ring.

Section rings.
Context (os : ring_os).

Lemma fill_default_runs n : forall i b off c (s : st nat), 0 <= off + i -> (Z.to_nat (off + i) + n <= length b)%nat -> (c < 8)%nat ->
  for_acc n i (b, Z.of_nat c) (fill_byte off) s =
  (Ret (inl (put_bytes (Z.to_nat (off + i)) (cyc default_fill c n) b, Z.of_nat ((c + n) mod 8))), s).
Proof.
  induction n as [|n IH]; intros i b off c s Hi Hb Hc; cbn [for_acc].
  - rewrite Nat.add_0_r, Nat.mod_small by done. unfold put_bytes. cbn. by rewrite Nat.add_0_r, take_drop.
  - destruct (lookup_lt_is_Some_2 default_fill c) as [v Ev]; [exact Hc|].
    assert (elem default_fill (Z.of_nat c) s = (Ret v, s)) as E1.
    { unfold elem. destruct (Z.ltb_spec (Z.of_nat c) 0); [lia|]. by rewrite Nat2Z.id, Ev. }
    assert (store b (off + i) v s = (Ret (<[Z.to_nat (off + i) := v]> b), s)) as E2.
    { unfold store. destruct (Z.leb_spec 0 (off + i)); [|lia]. by destruct (Z.ltb_spec (off + i) (Z.of_nat (length b))); [|lia]. }
    assert ((if 7 <? Z.of_nat c + 1 then 0 else Z.of_nat c + 1) = Z.of_nat ((c + 1) mod 8)) as Ec.
    { destruct (Z.ltb_spec 7 (Z.of_nat c + 1)); [by replace c with 7%nat by lia|]. rewrite Nat.mod_small by lia. lia. }
    assert (fill_byte off i (b, Z.of_nat c) s = (Ret (inl (<[Z.to_nat (off + i) := v]> b, Z.of_nat ((c + 1) mod 8))), s)) as Eb.
    { unfold fill_byte. rewrite (bind_ret_run _ _ _ _ _ E1), (bind_ret_run _ _ _ _ _ E2). cbv zeta. by rewrite Ec. }
    rewrite (bind_ret_run _ _ _ _ _ Eb). cbv iota. rewrite IH; [|lia|rewrite length_insert; lia|by apply Nat.mod_upper_bound].
    do 2 f_equal. f_equal. f_equal.
    + rewrite put_byte by lia. replace (Z.to_nat (off + (i + 1))) with (Z.to_nat (off + i) + length [v])%nat by (cbn; lia).
      destruct (put_bytes_app (Z.to_nat (off + i)) [v] (cyc default_fill ((c + 1) mod 8) n) b) as [->|?]; [|cbn in *; lia].
      f_equal. rewrite (cyc_mod default_fill (c + 1)) by done. change (S n) with (1 + n)%nat. rewrite (cyc_app default_fill c 1 n). f_equal.
      change (cyc default_fill c 1) with [nth ((c + 0) mod length default_fill) default_fill 0]. rewrite Nat.add_0_r, Nat.mod_small by exact Hc.
      f_equal. symmetry. by apply nth_lookup_Some.
    + f_equal. rewrite Nat.Div0.add_mod_idemp_l. f_equal. lia.
Qed.

Lemma fill_file_runs src f : forall b off left pos (s : st nat), src <> [] -> 0 <= off -> (Z.to_nat off + left <= length b)%nat -> (pos <= length src)%nat ->
  (2 * left + (if decide (pos = length src) then 1 else 0) < f)%nat ->
  exists pos' : nat, while_ f (b, off, left, pos) (fill_round src) s =
  (Ret (put_bytes (Z.to_nat off) (cyc src pos left) b, pos'), s) /\ (pos' <= length src /\ pos' mod length src = (pos + left) mod length src)%nat.
Proof.
  induction f as [|f IH]; intros b off left pos s Hsrc Hoff Hb Hpos Hf; [lia|]. cbn [while_].
  assert (0 < length src)%nat as Hlen by (destruct src; [done|cbn; lia]).
  destruct (Nat.eqb_spec left 0) as [->|Hleft].
  - exists pos. assert (fill_round src (b, off, 0%nat, pos) s = (Ret (inr (b, pos)), s)) as Eb by done.
    rewrite (bind_ret_run _ _ _ _ _ Eb). split; [|split; [done|by rewrite Nat.add_0_r]].
    unfold put_bytes. cbn. by rewrite Nat.add_0_r, take_drop.
  - assert (length (take left (drop pos src)) = Nat.min left (length src - pos)) as El by (rewrite length_take, length_drop; done).
    destruct (Nat.eqb_spec (length (take left (drop pos src))) 0) as [H0|H0].
    + assert (pos = length src) as -> by lia. rewrite decide_True in Hf by done.
      assert (fill_round src (b, off, left, length src) s = (Ret (inl (b, off, left, 0%nat)), s)) as Eb.
      { unfold fill_round. destruct (Nat.eqb_spec left 0); [lia|]. cbv zeta. by rewrite H0. }
      rewrite (bind_ret_run _ _ _ _ _ Eb). cbv iota. destruct (IH b off left 0%nat s Hsrc Hoff Hb) as (pos' & E & Hp & Hm); [lia|case_decide; lia|].
      exists pos'. rewrite E. split; [|split; [done|]].
      * do 3 f_equal. rewrite <- (cyc_mod src (length src)) by done. by rewrite Nat.Div0.mod_same.
      * rewrite Hm. rewrite <- (Nat.Div0.add_mod_idemp_l (length src)), Nat.Div0.mod_same. done.
    + set (r := length (take left (drop pos src))) in *.
      assert (fill_round src (b, off, left, pos) s =
        (Ret (inl (put_bytes (Z.to_nat off) (take left (drop pos src)) b, off + Z.of_nat r, (left - r)%nat, (pos + r)%nat)), s)) as Eb.
      { unfold fill_round. destruct (Nat.eqb_spec left 0); [lia|]. cbv zeta. fold r. destruct (Nat.eqb_spec r 0); [lia|].
        destruct (Z.leb_spec 0 off); [|lia]. by destruct (Z.leb_spec (off + Z.of_nat r) (Z.of_nat (length b))); [|lia]. }
      rewrite (bind_ret_run _ _ _ _ _ Eb). cbv iota.
      destruct (IH (put_bytes (Z.to_nat off) (take left (drop pos src)) b) (off + Z.of_nat r) (left - r)%nat (pos + r)%nat s Hsrc) as (pos' & E & Hp & Hm);
        [lia|rewrite put_bytes_size; fold r; lia|lia|repeat case_decide; lia|].
      exists pos'. rewrite E. split; [|split; [done|]].
      * do 2 f_equal. replace (Z.to_nat (off + Z.of_nat r)) with (Z.to_nat off + length (take left (drop pos src)))%nat by (fold r; lia).
        destruct (put_bytes_app (Z.to_nat off) (take left (drop pos src)) (cyc src (pos + r) (left - r)) b) as [Ep|Hbad]; [|fold r in Hbad; lia].
        rewrite Ep. f_equal. f_equal. replace left with (r + (left - r))%nat at 3 by lia. rewrite cyc_app. f_equal.
        rewrite cyc_piece by lia. apply list_eq. intros j. rewrite El in *. destruct (decide (j < r)%nat).
        -- rewrite !lookup_take_lt by lia. done.
        -- rewrite !lookup_ge_None_2; [done|rewrite length_take; lia|fold r; lia].
      * rewrite Hm. f_equal. lia.
Qed.
End rings.

Lemma land_le_r x y : 0 <= y -> 0 <= Z.land x y <= y.
Proof.
  intros Hy. split; [apply Z.land_nonneg; by right|].
  assert (y - Z.land x y = Z.ldiff y (Z.land x y)) as E.
  { apply Z.sub_nocarry_ldiff. apply Z.bits_inj'. intros n Hn. rewrite Z.ldiff_spec, Z.land_spec, Z.bits_0.
    by destruct (Z.testbit x n), (Z.testbit y n). }
  assert (0 <= Z.ldiff y (Z.land x y)) by (apply Z.ldiff_nonneg; by right + by left). lia.
Qed.

Lemma align_facts base alignment : 1 <= alignment ->
  base <= align base alignment < base + alignment /\
  (forall k, 0 <= k -> alignment = 2 ^ k -> align base alignment mod alignment = 0).
Proof.
  intros Ha. unfold align. rewrite <- Z.ldiff_land. set (x := base + alignment - 1).
  assert (x - Z.land x (alignment - 1) = Z.ldiff x (alignment - 1)) as E.
  { replace (Z.ldiff x (alignment - 1)) with (Z.ldiff x (Z.land x (alignment - 1))).
    - apply Z.sub_nocarry_ldiff. apply Z.bits_inj'. intros n Hn. rewrite Z.ldiff_spec, Z.land_spec, Z.bits_0.
      by destruct (Z.testbit x n), (Z.testbit _ n).
    - apply Z.bits_inj'. intros n Hn. rewrite !Z.ldiff_spec, Z.land_spec. by destruct (Z.testbit x n), (Z.testbit _ n). }
  pose proof (land_le_r x (alignment - 1) ltac:(lia)). split; [lia|]. intros k Hk ->.
  replace (2 ^ k - 1) with (Z.ones k) by (rewrite Z.ones_equiv; lia). rewrite Z.ldiff_ones_r, Z.shiftl_mul_pow2 by lia. apply Z.mod_mul. lia.
Qed.

Section buffers.
Context (os : ring_os) (width size alignment offset : Z) (pat : list Z).
Context (Hmalloc : forall k z, exists a, os_malloc os k z = Some a /\ 0 <= a).
Context (Hjunk : forall z, z <= Z.of_nat (length (os_junk os z))).
Context (Hpat : pat <> [] /\ match os_fill_file os with None => pat = default_fill | Some f => f = Some pat end).
Context (Hwidth : 1 <= width) (Hsize : 0 <= size) (Halign : 1 <= alignment) (Hoffset : 0 <= offset) (Hint : size + alignment + offset < 2 ^ 31).

(** The filler stands where [i] buffers have been filled. *)
Definition filler_at (i : nat) (f : filler) : Prop :=
  let start := (i * Z.to_nat size)%nat in
  match f with
  | Pattern c => pat = default_fill /\ c = Z.of_nat (start mod 8)
  | FromFile src pos => src = pat /\ (pos <= length src /\ pos mod length src = start mod length src)%nat
  | NoFile => False
  end.
(** Element number [i], but for its link. *)
Definition buffer_ok (i : nat) (e : ring_elt) : Prop :=
  Z.of_nat (length (block e)) = size + alignment + offset /\
  buffer_base e <= buffer_ptr e /\ buffer_ptr e + size <= buffer_base e + Z.of_nat (length (block e)) /\
  take (Z.to_nat size) (drop (Z.to_nat (buffer_ptr e - buffer_base e)) (block e)) = cyc pat (i * Z.to_nat size) (Z.to_nat size) /\
  (forall k, 0 <= k -> alignment = 2 ^ k -> (buffer_ptr e - offset) mod alignment = 0).

Lemma take_drop_put off a m : (off + length a <= length m)%nat -> take (length a) (drop off (put_bytes off a m)) = a.
Proof.
  intros H. unfold put_bytes. rewrite drop_app_length' by (rewrite length_take; lia). by rewrite take_app_length.
Qed.

Lemma new_elt_ok i f s : filler_at i f -> exists e f' s',
  new_elt os (Z.of_nat i + 1) f size alignment offset s = (Ret (e, f'), s') /\ out s' = out s /\
  buffer_ok i e /\ next e = (i - 1)%nat /\ filler_at (S i) f'.
Proof.
  intros Hf. unfold new_elt, malloc. rewrite s32_id by lia.
  unfold mbind at 1, M_bind at 1, devop at 1. destruct (Hmalloc (dev s) sizeof_ring_elt) as (a0 & -> & _).
  unfold mbind at 1, M_bind at 1, devop at 1. cbn [dev out]. set (z := size + alignment + offset).
  destruct (Hmalloc (S (dev s)) z) as (base & -> & Hbase). cbn [default]. set (b := take (Z.to_nat z) (os_junk os z)).
  assert (Z.of_nat (length b) = z) as Hb by (subst b; rewrite length_take; specialize (Hjunk z); lia).
  destruct (align_facts base alignment Halign) as [Hal Hpow]. set (ptr := align base alignment + offset).
  assert (exists f' s', match f with
    | Pattern cursor => a ← fill_default b (ptr - base) size cursor; mret (fst a, Pattern (snd a))
    | FromFile src pos => a ← fill_file src b (ptr - base) size pos; mret (fst a, FromFile src (snd a))
    | NoFile => if truth size then crash else mret (b, f)
    end (mkst (out s) (S (S (dev s)))) = (Ret (put_bytes (Z.to_nat (ptr - base)) (cyc pat (i * Z.to_nat size) (Z.to_nat size)) b, f'), s') /\
    out s' = out s /\ filler_at (S i) f') as (f' & s' & E & Hout & Hf').
  { destruct f as [c|src pos|]; [| |done].
    - destruct Hf as [-> ->]. set (c := ((i * Z.to_nat size) mod 8)%nat).
      pose proof (fill_default_runs (Z.to_nat size) 0 b (ptr - base) c (mkst (out s) (S (S (dev s))))) as E.
      rewrite Z.add_0_r in E. specialize (E ltac:(lia) ltac:(lia) ltac:(by apply Nat.mod_upper_bound)). exists (Pattern (Z.of_nat ((c + Z.to_nat size) mod 8))). eexists. split; [|split].
      + unfold fill_default. rewrite (bind_ret_run _ _ _ _ _ (bind_ret_run _ _ _ _ _ E)). cbn [mret M_ret fst snd]. subst c.
        change 8%nat with (length default_fill). by rewrite (cyc_mod default_fill).
      + done.
      + split; [done|]. f_equal. subst c. rewrite Nat.Div0.add_mod_idemp_l. f_equal. lia.
    - destruct Hf as (-> & Hpos & Hmod). destruct Hpat as [Hne _].
      destruct (fill_file_runs pat (2 * Z.to_nat size + 2) b (ptr - base) (Z.to_nat size) pos (mkst (out s) (S (S (dev s))))) as (pos' & E & Hp & Hm);
        [done|lia|lia|done|case_decide; lia|].
      exists (FromFile pat pos'). eexists. split; [|split].
      + unfold fill_file. rewrite (bind_ret_run _ _ _ _ _ E). cbn [fst snd]. by rewrite <- (cyc_mod pat pos), Hmod, cyc_mod by done.
      + done.
      + split; [done|]. split; [done|]. rewrite Hm, <- Nat.Div0.add_mod_idemp_l, Hmod, Nat.Div0.add_mod_idemp_l. f_equal. lia. }
  rewrite (bind_ret_run _ _ _ _ _ E). do 3 eexists. split; [reflexivity|]. split; [done|]. split; [|split; [cbn [next]; lia|done]].
  assert (length (put_bytes (Z.to_nat (ptr - base)) (cyc pat (i * Z.to_nat size) (Z.to_nat size)) b) = length b) as El
    by (apply put_bytes_size; rewrite cyc_length; lia).
  unfold buffer_ok. cbn [block buffer_ptr buffer_base fst snd from_option id]. unfold id. split; [lia|]. fold ptr. split; [lia|]. split; [lia|]. split.
  - rewrite <- (cyc_length pat (i * Z.to_nat size) (Z.to_nat size)) at 1. apply take_drop_put. rewrite cyc_length. lia.
  - intros k Hk Hak. subst ptr. rewrite <- (Hpow k Hk Hak). f_equal. lia.
Qed.
End buffers.

(** C22: With enough memory and something to fill them with, a ring has as many
    buffers as asked for, each inside of its own block (with its offset, and at
    a multiple of the alignment when that is a power of two), each linked to the
    one before and the first to the last; together they hold the pattern, or the
    bytes of the file, over and over, going on from one buffer to the next. *)
Theorem buffer_ring os width size alignment offset pat (s : st nat) :
  (forall k z, exists a, os_malloc os k z = Some a /\ 0 <= a) -> (forall z, z <= Z.of_nat (length (os_junk os z))) ->
  pat <> [] /\ match os_fill_file os with None => pat = str_bytes "netperf" ++ [0] | Some f => f = Some pat end ->
  1 <= width -> 0 <= size -> 1 <= alignment -> 0 <= offset -> size + alignment + offset < 2 ^ 31 ->
  exists l s', allocate_buffer_ring os width size alignment offset s = (Ret l, s') /\ out s' = out s /\ Z.of_nat (length l) = width /\
    forall i e, l !! i = Some e ->
      buffer_ok size alignment offset pat i e /\ next e = if (i =? 0)%nat then (length l - 1)%nat else (i - 1)%nat.
Proof.
  intros Hm Hj Hp Hw Hs Ha Ho Hi. unfold allocate_buffer_ring.
  assert (exists f, match os_fill_file os with
    | None => mret (Pattern 0)
    | Some None => fprintf "Could not open requested fill file: %s\n" [PS (os_strerror os)];; mret NoFile
    | Some (Some src) => mret (FromFile src 0)
    end s = (Ret f, s) /\ filler_at size pat 0 f) as (f & E & Hf).
  { destruct Hp as [Hne Hp]. destruct (os_fill_file os) as [ [src|]|]; [|done|]; [injection Hp as ->|subst pat]; eexists; (split; [reflexivity|]).
    - split; [done|]. split; [lia|]. done.
    - split; [done|]. done. }
  rewrite (bind_ret_run _ _ _ _ _ E). destruct (Z.ltb_spec width 1); [lia|].
  set (body := fun i a => _).
  assert (runs (for_acc (Z.to_nat width) 1 ([], f) body) s (fun r s' => match r with
    | inl (l, f) => out s' = out s /\ Z.of_nat (length l) = width /\ filler_at size pat (length l) f /\
        forall i e, l !! i = Some e -> buffer_ok size alignment offset pat i e /\ next e = (i - 1)%nat
    | inr _ => False end)) as (r & s' & Er & Hr).
  { eapply runs_mono; [apply (runs_for_acc (fun i a s' => out s' = out s /\ Z.of_nat (length (fst a)) = i - 1 /\
      filler_at size pat (length (fst a)) (snd a) /\
      forall j e, fst a !! j = Some e -> buffer_ok size alignment offset pat j e /\ next e = (j - 1)%nat) (fun _ _ => False))|].
    - done.
    - intros k [l fl] s1 Hk (Hout & Hlen & Hfl & Hall). cbn [fst snd] in *.
      destruct (new_elt_ok os size alignment offset pat Hm Hj Hp Hs Ha Ho Hi (length l) fl s1 Hfl) as (e & f' & s2 & E2 & Hout2 & He & Hn & Hf').
      replace (Z.of_nat (length l) + 1) with k in E2 by lia.
      exists (inl (l ++ [e], f')), s2. split; [by unfold body; rewrite (bind_ret_run _ _ _ _ _ E2)|]. cbn [fst snd]. rewrite length_app. cbn [length].
      split; [congruence|]. split; [lia|]. split; [by rewrite Nat.add_1_r|]. intros j x Hx.
      destruct (decide (j < length l)%nat); [rewrite lookup_app_l in Hx by done; by apply Hall|].
      rewrite lookup_app_r in Hx by lia. apply list_lookup_singleton_Some in Hx as [Hj0 <-]. by replace j with (length l) by lia.
    - intros [ [l fl]|] s1; [|done]. cbn [fst snd]. intros (? & ? & ? & ?). split; [done|]. split; [lia|done]. }
  rewrite (bind_ret_run _ _ _ _ _ Er). destruct r as [ [l fl]|]; [|done]. destruct Hr as (Hout & Hlen & _ & Hall).
  destruct l as [|e l]; [cbn in Hlen; lia|]. exists (mk_elt (buffer_base e) (buffer_ptr e) (block e) (Z.to_nat (width - 1)) :: l), s'.
  split; [done|]. split; [done|]. split; [done|]. intros i x Hx. cbn [length] in *.
  destruct i as [|i]; [injection Hx as <-; split; [by apply (Hall 0%nat e)|cbn; lia]|]. apply (Hall (S i)). done.
Qed.

(** ** Identifiers *)

Import Uuid.

Definition stamp_of (u : uuid_t) : Z := time_low u + Z.shiftl (time_mid u) 32 + Z.shiftl (Z.land (time_hi_and_version u) 0xfff) 48.
Definition clock_seq_of (u : uuid_t) : Z := Z.shiftl (Z.land (clock_seq_hi_and_reserved u) 0x3f) 8 + clock_seq_low u.

Lemma split_bits x n : 0 <= n -> x = x mod 2 ^ n + Z.shiftl (Z.shiftr x n) n.
Proof. intros Hn. rewrite Z.shiftl_mul_pow2, Z.shiftr_div_pow2 by done. pose proof (Z.div_mod x (2 ^ n) ltac:(lia)). lia. Qed.

Lemma lor_high a b n : 0 <= n -> 0 <= a < 2 ^ n -> b mod 2 ^ n = 0 -> Z.land (Z.lor a b) (Z.ones n) = a.
Proof.
  intros Hn Ha Hb. rewrite Z.land_ones, <- (Z.mod_small a (2 ^ n)) at 1 by done. apply Z.bits_inj'. intros i Hi.
  destruct (Z.ltb_spec i n).
  - rewrite Z.mod_pow2_bits_low, Z.lor_spec, Z.mod_pow2_bits_low by done.
    assert (Z.testbit b i = false) as ->; [|apply orb_false_r]. rewrite <- (Z.mod_pow2_bits_low b n i), Hb by done. apply Z.bits_0.
  - rewrite Z.mod_pow2_bits_high by lia. destruct (Z.eq_dec a 0) as [->|]; [by rewrite Z.bits_0|].
    symmetry. apply Z.bits_above_log2; [lia|]. apply Z.log2_lt_pow2; [lia|]. apply Z.lt_le_trans with (2 ^ n); [lia|apply Z.pow_le_mono_r; lia].
Qed.

Lemma format_recovers cs ts node : 0 <= ts < 2 ^ 60 -> 0 <= cs < 2 ^ 14 ->
  let u := format_uuid_v1 cs ts node in
  stamp_of u = ts /\ clock_seq_of u = cs /\ Uuid.node u = node /\
  Z.shiftr (time_hi_and_version u) 12 = 1 /\ Z.shiftr (clock_seq_hi_and_reserved u) 6 = 2.
Proof.
  intros Ht Hc. cbv zeta. unfold stamp_of, clock_seq_of, format_uuid_v1. cbn [time_low time_mid time_hi_and_version clock_seq_hi_and_reserved clock_seq_low Uuid.node].
  assert (u32 (Z.land ts 0xFFFFFFFF) = ts mod 2 ^ 32) as ->.
  { change 0xFFFFFFFF with (Z.ones 32). rewrite Z.land_ones by done. apply Z.mod_mod. done. }
  assert (u16 (Z.land (Z.shiftr ts 32) 0xFFFF) = Z.shiftr ts 32 mod 2 ^ 16) as ->.
  { change 0xFFFF with (Z.ones 16). rewrite Z.land_ones by done. apply Z.mod_mod. done. }
  assert (0 <= Z.shiftr ts 48 < 2 ^ 12) as Hhi.
  { rewrite Z.shiftr_div_pow2 by done. split; [apply Z.div_pos; lia|apply Z.div_lt_upper_bound; lia]. }
  assert (u16 (Z.land (Z.shiftr ts 48) 0x0FFF) = Z.shiftr ts 48) as ->.
  { change 0x0FFF with (Z.ones 12). rewrite Z.land_ones, Z.mod_small by lia. apply Z.mod_small. lia. }
  assert (0 <= Z.shiftr cs 8 < 2 ^ 6) as Hcs.
  { rewrite Z.shiftr_div_pow2 by done. split; [apply Z.div_pos; lia|apply Z.div_lt_upper_bound; lia]. }
  assert (u8 (Z.shiftr (Z.land cs 0x3F00) 8) = Z.shiftr cs 8) as ->.
  { rewrite Z.shiftr_land. change (Z.shiftr 0x3F00 8) with (Z.ones 6). rewrite Z.land_ones, Z.mod_small by lia. apply Z.mod_small. lia. }
  assert (u8 (Z.land cs 0xFF) = cs mod 2 ^ 8) as ->.
  { change 0xFF with (Z.ones 8). rewrite Z.land_ones by done. apply Z.mod_mod. done. }
  change (Z.land (Z.lor (Z.shiftr ts 48) (Z.shiftl 1 12)) 4095) with (Z.land (Z.lor (Z.shiftr ts 48) (Z.shiftl 1 12)) (Z.ones 12)).
  change (Z.land (Z.lor (Z.shiftr cs 8) 128) 63) with (Z.land (Z.lor (Z.shiftr cs 8) 128) (Z.ones 6)).
  rewrite !lor_high by done. split; [|split; [|split; [done|split]]].
  - rewrite (split_bits ts 32) at 4 by done. rewrite (split_bits (Z.shiftr ts 32) 16) at 2 by done.
    rewrite Z.shiftr_shiftr by done. rewrite !Z.shiftl_mul_pow2 by done. change (32 + 16) with 48. lia.
  - rewrite (split_bits cs 8) at 3 by done. lia.
  - rewrite Z.shiftr_lor. rewrite (Z.shiftr_div_pow2 (Z.shiftr ts 48)) by done. by rewrite Z.div_small.
  - rewrite Z.shiftr_lor. rewrite (Z.shiftr_div_pow2 (Z.shiftr cs 8)) by done. by rewrite Z.div_small.
Qed.

(** The time stamps of [n] identifiers one after another. *)
Fixpoint stamps (os : uuid_os) (n : nat) : M uuid_w (list Z) :=
  match n with O => mret [] | S n => t ← get_current_time os 1; l ← stamps os n; mret (t :: l) end.

Lemma stamps_app os n2 : forall n1 s l1 s1 l2 s2, stamps os n1 s = (Ret l1, s1) -> stamps os n2 s1 = (Ret l2, s2) -> stamps os (n1 + n2) s = (Ret (l1 ++ l2), s2).
Proof.
  induction n1 as [|n1 IH]; intros s l1 s1 l2 s2 E1 E2; cbn [stamps Nat.add] in *; [by injection E1 as <- <-|].
  unfold mbind, M_bind in *. destruct (get_current_time os 1 s) as [[t| | | |] s3]; try done. destruct (stamps os n1 s3) as [[l3| | | |] s4] eqn:E3; try done.
  injection E1 as <- <-. by rewrite (IH s3 l3 s4 l2 s2 E3 E2).
Qed.

Lemma same_tick os t n : forall (w : uuid_w) o, u_time_inited w = true -> time_last w = uuid_time t -> 0 <= uuids_this_tick w ->
  uuids_this_tick w + Z.of_nat n <= 1024 -> uuid_time t + 1024 < 2 ^ 64 -> (forall j, (j < n)%nat -> os_time os (u_clock w + j) = t) ->
  exists w', stamps os n (mkst o w) = (Ret (map (fun j => uuid_time t + uuids_this_tick w + 1 + Z.of_nat j) (seq 0 n)), mkst o w') /\
    u_time_inited w' = true /\ time_last w' = uuid_time t /\ u_clock w' = (u_clock w + n)%nat.
Proof.
  assert (0 <= uuid_time t) as H0 by (apply Z.mod_pos_bound; done).
  induction n as [|n IH]; intros w o Hi Hl Hu Hn Ht Hc; [exists w; rewrite Nat.add_0_r; done|].
  pose proof (Hc 0%nat ltac:(lia)) as Hc0. rewrite Nat.add_0_r in Hc0.
  assert (exists w1, get_current_time os 1 (mkst o w) = (Ret (uuid_time t + uuids_this_tick w + 1), mkst o w1) /\ u_time_inited w1 = true /\
    time_last w1 = uuid_time t /\ uuids_this_tick w1 = uuids_this_tick w + 1 /\ u_clock w1 = S (u_clock w)) as (w1 & E & Hi1 & Hl1 & Hu1 & Hc1).
  { eexists. split.
    - unfold get_current_time, mbind, M_bind, getdev, devop. cbn [dev out]. rewrite Hi. cbn [mret M_ret while_]. unfold mbind, M_bind, get_system_time, devop.
      cbn [dev out time_last uuids_this_tick]. rewrite Hc0, Hl, Z.eqb_refl. cbn [negb]. destruct (Z.ltb_spec (uuids_this_tick w) UUIDS_PER_TICK); [|unfold UUIDS_PER_TICK in *; lia].
      unfold setdev, devop. cbn [mret M_ret dev out]. unfold u64, u16, wrapu. rewrite (Z.mod_small (uuids_this_tick w + 1)) by lia. rewrite Z.mod_small by lia.
      rewrite Z.add_assoc. reflexivity.
    - cbn [u_time_inited time_last uuids_this_tick u_clock]. done. }
  destruct (IH w1 o Hi1 Hl1) as (w' & E' & Hi' & Hl' & Hc'); [lia|lia|done|intros j Hj; rewrite Hc1; replace (S (u_clock w) + j)%nat with (u_clock w + S j)%nat by lia; apply Hc; lia|].
  exists w'. split; [|split; [done|split; [done|lia]]]. cbn [stamps]. rewrite (bind_ret_run _ _ _ _ _ E), (bind_ret_run _ _ _ _ _ E').
  cbn [seq map]. rewrite <- seq_shift, map_map, Hu1. unfold mret, M_ret. do 3 f_equal; [lia|]. apply map_ext. intros j. lia.
Qed.

Lemma next_tick os t (w : uuid_w) o : u_time_inited w = true -> time_last w <> uuid_time t -> os_time os (u_clock w) = t ->
  exists w', stamps os 1 (mkst o w) = (Ret [uuid_time t], mkst o w') /\ u_time_inited w' = true /\ time_last w' = uuid_time t /\
    uuids_this_tick w' = 0 /\ u_clock w' = S (u_clock w).
Proof.
  intros Hi Hl Ht. eexists. split; [|split; [|split; [|split]]].
  - unfold stamps, get_current_time, mbind, M_bind, getdev, devop. cbn [dev out]. rewrite Hi. cbn [mret M_ret while_]. unfold mbind, M_bind, get_system_time, devop.
    cbn [dev out time_last uuids_this_tick]. rewrite Ht. destruct (Z.eqb_spec (time_last w) (uuid_time t)); [done|]. cbn. reflexivity.
  - done.
  - done.
  - done.
  - done.
Qed.

(** An identifier shows the 60 bits of its time stamp, its 14-bit clock
    sequence and its node, with version 1 and the variant of the standard. As long
    as the clock shows the same time, the identifiers get this time and the 1024
    numbers after it. The clock goes on in steps of ten of its units, though, so
    that after more than ten identifiers at one time those at the next one
    start with a time stamp that has been used. *)
Theorem uuid_stamps os t t' m (w : uuid_w) o cs node :
  u_time_inited w = true -> time_last w <> uuid_time t -> uuid_time t + 1024 < 2 ^ 60 -> (m <= 1024)%nat ->
  (forall j, (j <= m)%nat -> os_time os (u_clock w + j) = t) -> os_time os (u_clock w + S m) = t' -> uuid_time t' <> uuid_time t ->
  0 <= cs < 2 ^ 14 ->
  let used := map (fun j => uuid_time t + Z.of_nat j) (seq 0 (S m)) in
  (exists w', stamps os (S m + 1) (mkst o w) = (Ret (used ++ [uuid_time t']), mkst o w')) /\
  NoDup used /\ (uuid_time t' = uuid_time t + 10 -> (10 <= m)%nat -> In (uuid_time t') used) /\
  forall ts, In ts used -> let u := format_uuid_v1 cs ts node in stamp_of u = ts /\ clock_seq_of u = cs /\ Uuid.node u = node /\
    Z.shiftr (time_hi_and_version u) 12 = 1 /\ Z.shiftr (clock_seq_hi_and_reserved u) 6 = 2.
Proof.
  intros Hi Hl Ht Hm Hc Hc' Hne Hcs used. assert (0 <= uuid_time t) as H0 by (apply Z.mod_pos_bound; done).
  split; [|split; [|split]].
  - pose proof (Hc 0%nat ltac:(lia)) as Hc0. rewrite Nat.add_0_r in Hc0.
    destruct (next_tick os t w o Hi Hl Hc0) as (w1 & E1 & Hi1 & Hl1 & Hu1 & Hc1).
    destruct (same_tick os t m w1 o Hi1 Hl1) as (w2 & E2 & Hi2 & Hl2 & Hc2); [lia|lia|lia|intros j Hj; rewrite Hc1; replace (S (u_clock w) + j)%nat with (u_clock w + S j)%nat by lia; apply Hc; lia|].
    destruct (next_tick os t' w2 o Hi2) as (w3 & E3 & _); [congruence|rewrite Hc2, Hc1; replace (S (u_clock w) + m)%nat with (u_clock w + S m)%nat by lia; done|].
    exists w3. rewrite (stamps_app os 1 (S m) _ _ _ _ _ (stamps_app os m 1 _ _ _ _ _ E1 E2) E3). do 2 f_equal. subst used.
    cbn [seq map app]. rewrite Hu1, Z.add_0_r. do 2 f_equal; [lia|]. rewrite <- seq_shift, map_map. apply map_ext. intros j. lia.
  - apply NoDup_ListNoDup. apply Finite.Injective_map_NoDup; [intros x y; lia|apply seq_NoDup].
  - intros E Hten. apply in_map_iff. exists 10%nat. split; [lia|]. apply in_seq. lia.
  - intros ts Hts. apply in_map_iff in Hts as (j & <- & Hj). apply in_seq in Hj. apply format_recovers; [lia|done].
Qed.

(** ** Witnesses *)

Definition hist_env : hist_os := {| os_clock k := (7, 100 * Z.of_nat k); os_alloc z := Some (replicate (Z.to_nat z) (0, 0));
  os_keep_statistics := true; os_debug := 0 |}.
Definition ring_env : ring_os := {| os_malloc k z := Some (4096 * Z.of_nat k + 3); os_junk z := replicate (Z.to_nat z) 255;
  os_fill_file := None; os_strerror := "No such file or directory" |}.
Definition uuid_env : uuid_os := {| os_time k := if (k <? 11)%nat then (1000, 0) else (1000, 1); os_rand s k := s + Z.of_nat k;
  os_urandom := Some (replicate 16 7); os_seed_junk := replicate 16 0 |}.
Definition uuid_start : uuid_w := mk_uw true 0 1024 None false 0 0 0.

Lemma histogram_counts_witness : exists h, add_all hist_env [5; -1; 250; 5] HIST_clear (mkst [] 0%nat) = (Ret h, mkst [] 0%nat) /\
  total h = 3 /\ Hist.sum h = 260 /\ hmin h = 5 /\ hmax h = 250.
Proof.
  destruct histogram_counts as (w & _ & H). destruct (H hist_env [5; -1; 250; 5] (mkst [] 0%nat)) as (h & E & _ & _ & Ht & Hs & Hmin & Hmax).
  - repeat constructor; lia.
  - cbn. lia.
  - exists h. exact (conj E (conj Ht (conj Hs (conj Hmin Hmax)))).
Defined.

Lemma histogram_is_fifo_witness : exists h a,
  (h ← HIST_new_n hist_env 2; run_ops hist_env [Start; Start; Stop; Start; Stop] h) (mkst [] 0%nat) = (Ret h, mkst [] 5%nat) /\
  add_all hist_env [200; 300] HIST_clear (mkst [] 0%nat) = (Ret a, mkst [] 0%nat) /\ put a h = h /\ count h = 1.
Proof.
  destruct (histogram_is_fifo hist_env 2 (replicate 3 (0, 0)) [Start; Start; Stop; Start; Stop] [200; 300] [(7, 300)] 5 [])
    as [(h & a & E & Ea & Hp & Hc) _]; [lia|lia|done|done|vm_compute; reflexivity|cbn; lia|].
  exists h, a. split; [exact E|]. split; [apply Ea|]. split; [exact Hp|exact Hc].
Defined.

Lemma buffer_ring_witness : exists l s', allocate_buffer_ring ring_env 3 10 8 1 (mkst [] 0%nat) = (Ret l, s') /\ Z.of_nat (length l) = 3.
Proof.
  destruct (buffer_ring ring_env 3 10 8 1 (str_bytes "netperf" ++ [0]) (mkst [] 0%nat)) as (l & s' & E & _ & Hl & _); [| | |lia..|].
  - intros k z. exists (4096 * Z.of_nat k + 3). split; [done|lia].
  - intros z. cbn [os_junk ring_env]. rewrite length_replicate. lia.
  - done.
  - exists l, s'. exact (conj E Hl).
Defined.

(** Eleven identifiers at one time, and the next one a microsecond later. *)
Lemma uuid_stamps_witness : exists w', stamps uuid_env 12 (mkst [] uuid_start) =
  (Ret (map (fun j => uuid_time (1000, 0) + Z.of_nat j) (seq 0 11) ++ [uuid_time (1000, 0) + 10]), mkst [] w').
Proof.
  destruct (uuid_stamps uuid_env (1000, 0) (1000, 1) 10 uuid_start [] 5 []) as [ [w' E] _];
    [done|done|done|lia| |done|done|done|].
  - intros j Hj. change ((if (j <? 11)%nat then (1000, 0) else (1000, 1)) = (1000, 0)). destruct (Nat.ltb_spec j 11); [done|lia].
  - exists w'. exact E.
Defined.
