(* ===== verification/NpOmni.v ===== *)
(** * The results of netperf's omni test ([netperf-2.6.0/src/nettest_omni.c])

    What can be shown, the selection of what is shown by option or by file, and
    the three ways to show it: lines of values for programs, keywords, and
    columns. Buffers are blocks of bytes with the size the code asks for; an
    access outside of them is a crash. *)

From stdpp Require Import base list strings numbers gmap.
From Stdlib Require Import ZArith Lia Ascii SpecFloat.
From S2P Require Import Prelude CInt CLib CFmt FloatTools NpLib NpSh.

(** ** Names of results *)

(** [enum netperf_output_name]. *)
Definition netperf_output_name : list string := [
  "NETPERF_OUTPUT_UNKNOWN"; "OUTPUT_NONE"; "SOCKET_TYPE"; "PROTOCOL"; "DIRECTION"; "ELAPSED_TIME"; "THROUGHPUT"; "THROUGHPUT_UNITS"; "LSS_SIZE_REQ";
  "LSS_SIZE"; "LSS_SIZE_END"; "LSR_SIZE_REQ"; "LSR_SIZE"; "LSR_SIZE_END"; "RSS_SIZE_REQ"; "RSS_SIZE"; "RSS_SIZE_END"; "RSR_SIZE_REQ"; "RSR_SIZE";
  "RSR_SIZE_END"; "LOCAL_SEND_SIZE"; "LOCAL_RECV_SIZE"; "REMOTE_SEND_SIZE"; "REMOTE_RECV_SIZE"; "REQUEST_SIZE"; "RESPONSE_SIZE"; "LOCAL_CPU_UTIL";
  "LOCAL_CPU_METHOD"; "LOCAL_SD"; "REMOTE_CPU_UTIL"; "REMOTE_CPU_METHOD"; "REMOTE_SD"; "SD_UNITS"; "CONFIDENCE_LEVEL"; "CONFIDENCE_INTERVAL";
  "CONFIDENCE_ITERATION"; "THROUGHPUT_CONFID"; "LOCAL_CPU_CONFID"; "REMOTE_CPU_CONFID"; "TRANSACTION_RATE"; "RT_LATENCY"; "BURST_SIZE";
  "LOCAL_TRANSPORT_RETRANS"; "REMOTE_TRANSPORT_RETRANS"; "TRANSPORT_MSS"; "LOCAL_SEND_THROUGHPUT"; "LOCAL_RECV_THROUGHPUT"; "REMOTE_SEND_THROUGHPUT";
  "REMOTE_RECV_THROUGHPUT"; "LOCAL_CPU_BIND"; "LOCAL_CPU_COUNT"; "LOCAL_CPU_PEAK_UTIL"; "LOCAL_CPU_PEAK_ID"; "LOCAL_CPU_MODEL";
  "LOCAL_CPU_FREQUENCY"; "REMOTE_CPU_BIND"; "REMOTE_CPU_COUNT"; "REMOTE_CPU_PEAK_UTIL"; "REMOTE_CPU_PEAK_ID"; "REMOTE_CPU_MODEL";
  "REMOTE_CPU_FREQUENCY"; "SOURCE_PORT"; "SOURCE_ADDR"; "SOURCE_FAMILY"; "DEST_PORT"; "DEST_ADDR"; "DEST_FAMILY"; "LOCAL_SEND_CALLS";
  "LOCAL_RECV_CALLS"; "LOCAL_BYTES_PER_RECV"; "LOCAL_BYTES_PER_SEND"; "LOCAL_BYTES_SENT"; "LOCAL_BYTES_RECVD"; "LOCAL_BYTES_XFERD";
  "LOCAL_SEND_OFFSET"; "LOCAL_RECV_OFFSET"; "LOCAL_SEND_ALIGN"; "LOCAL_RECV_ALIGN"; "LOCAL_SEND_WIDTH"; "LOCAL_RECV_WIDTH"; "LOCAL_SEND_DIRTY_COUNT";
  "LOCAL_RECV_DIRTY_COUNT"; "LOCAL_RECV_CLEAN_COUNT"; "LOCAL_NODELAY"; "LOCAL_CORK"; "REMOTE_SEND_CALLS"; "REMOTE_RECV_CALLS";
  "REMOTE_BYTES_PER_RECV"; "REMOTE_BYTES_PER_SEND"; "REMOTE_BYTES_SENT"; "REMOTE_BYTES_RECVD"; "REMOTE_BYTES_XFERD"; "REMOTE_SEND_OFFSET";
  "REMOTE_RECV_OFFSET"; "REMOTE_SEND_ALIGN"; "REMOTE_RECV_ALIGN"; "REMOTE_SEND_WIDTH"; "REMOTE_RECV_WIDTH"; "REMOTE_SEND_DIRTY_COUNT";
  "REMOTE_RECV_DIRTY_COUNT"; "REMOTE_RECV_CLEAN_COUNT"; "REMOTE_NODELAY"; "REMOTE_CORK"; "LOCAL_SYSNAME"; "LOCAL_SYSTEM_MODEL"; "LOCAL_RELEASE";
  "LOCAL_VERSION"; "LOCAL_MACHINE"; "REMOTE_SYSNAME"; "REMOTE_SYSTEM_MODEL"; "REMOTE_RELEASE"; "REMOTE_VERSION"; "REMOTE_MACHINE";
  "LOCAL_INTERFACE_NAME"; "LOCAL_INTERFACE_VENDOR"; "LOCAL_INTERFACE_DEVICE"; "LOCAL_INTERFACE_SUBVENDOR"; "LOCAL_INTERFACE_SUBDEVICE";
  "LOCAL_DRIVER_NAME"; "LOCAL_DRIVER_VERSION"; "LOCAL_DRIVER_FIRMWARE"; "LOCAL_DRIVER_BUS"; "LOCAL_INTERFACE_SLOT"; "REMOTE_INTERFACE_NAME";
  "REMOTE_INTERFACE_VENDOR"; "REMOTE_INTERFACE_DEVICE"; "REMOTE_INTERFACE_SUBVENDOR"; "REMOTE_INTERFACE_SUBDEVICE"; "REMOTE_DRIVER_NAME";
  "REMOTE_DRIVER_VERSION"; "REMOTE_DRIVER_FIRMWARE"; "REMOTE_DRIVER_BUS"; "REMOTE_INTERFACE_SLOT"; "LOCAL_INTERVAL_USECS"; "LOCAL_INTERVAL_BURST";
  "REMOTE_INTERVAL_USECS"; "REMOTE_INTERVAL_BURST"; "LOCAL_SECURITY_TYPE_ID"; "LOCAL_SECURITY_TYPE"; "LOCAL_SECURITY_ENABLED_NUM";
  "LOCAL_SECURITY_ENABLED"; "LOCAL_SECURITY_SPECIFIC"; "REMOTE_SECURITY_TYPE_ID"; "REMOTE_SECURITY_TYPE"; "REMOTE_SECURITY_ENABLED_NUM";
  "REMOTE_SECURITY_ENABLED"; "REMOTE_SECURITY_SPECIFIC"; "RESULT_BRAND"; "UUID"; "MIN_LATENCY"; "MAX_LATENCY"; "P50_LATENCY"; "P90_LATENCY";
  "P99_LATENCY"; "MEAN_LATENCY"; "STDDEV_LATENCY"; "LOCAL_SOCKET_PRIO"; "REMOTE_SOCKET_PRIO"; "LOCAL_SOCKET_TOS"; "REMOTE_SOCKET_TOS";
  "LOCAL_CONG_CONTROL"; "REMOTE_CONG_CONTROL"; "LOCAL_FILL_FILE"; "REMOTE_FILL_FILE"; "COMMAND_LINE"; "OUTPUT_END"; "NETPERF_OUTPUT_MAX"].
Fixpoint index_of (n : string) (l : list string) : Z :=
  match l with [] => 0 | x :: l' => if streq n x then 0 else 1 + index_of n l' end.
Definition enum (n : string) : Z := index_of n netperf_output_name.
Definition NETPERF_OUTPUT_UNKNOWN : Z := Eval vm_compute in enum "NETPERF_OUTPUT_UNKNOWN".
Definition OUTPUT_NONE : Z := Eval vm_compute in enum "OUTPUT_NONE".
Definition OUTPUT_END : Z := Eval vm_compute in enum "OUTPUT_END".
Definition NETPERF_OUTPUT_MAX : Z := Eval vm_compute in enum "NETPERF_OUTPUT_MAX".
Definition NETPERF_MAX_BLOCKS : Z := 4.

(** The cases of [netperf_output_enum_to_str]; the text of each is its name. *)
Definition local_cases : list string := [
  "OUTPUT_NONE"; "COMMAND_LINE"; "UUID"; "RESULT_BRAND"; "SOCKET_TYPE"; "DIRECTION"; "PROTOCOL"; "ELAPSED_TIME"; "SOURCE_PORT"; "SOURCE_ADDR";
  "SOURCE_FAMILY"; "DEST_PORT"; "DEST_ADDR"; "DEST_FAMILY"; "THROUGHPUT"; "LOCAL_SEND_THROUGHPUT"; "LOCAL_RECV_THROUGHPUT"; "REMOTE_SEND_THROUGHPUT";
  "REMOTE_RECV_THROUGHPUT"; "THROUGHPUT_UNITS"; "CONFIDENCE_LEVEL"; "CONFIDENCE_INTERVAL"; "CONFIDENCE_ITERATION"; "THROUGHPUT_CONFID";
  "LOCAL_CPU_CONFID"; "REMOTE_CPU_CONFID"; "RT_LATENCY"; "TRANSACTION_RATE"; "BURST_SIZE"; "LOCAL_TRANSPORT_RETRANS"; "REMOTE_TRANSPORT_RETRANS";
  "TRANSPORT_MSS"; "REQUEST_SIZE"; "RESPONSE_SIZE"; "LSS_SIZE_REQ"; "LSS_SIZE"; "LSS_SIZE_END"; "LSR_SIZE_REQ"; "LSR_SIZE"; "LSR_SIZE_END";
  "LOCAL_SEND_SIZE"; "LOCAL_RECV_SIZE"; "LOCAL_SEND_CALLS"; "LOCAL_RECV_CALLS"; "LOCAL_BYTES_PER_RECV"; "LOCAL_BYTES_PER_SEND"; "LOCAL_BYTES_SENT";
  "LOCAL_BYTES_RECVD"; "LOCAL_BYTES_XFERD"; "LOCAL_SEND_OFFSET"; "LOCAL_RECV_OFFSET"; "LOCAL_RECV_ALIGN"; "LOCAL_SEND_ALIGN"; "LOCAL_SEND_WIDTH";
  "LOCAL_RECV_WIDTH"; "LOCAL_SEND_DIRTY_COUNT"; "LOCAL_RECV_DIRTY_COUNT"; "LOCAL_RECV_CLEAN_COUNT"; "LOCAL_CPU_UTIL"; "LOCAL_CPU_BIND"; "LOCAL_SD";
  "SD_UNITS"; "LOCAL_CPU_METHOD"; "LOCAL_CPU_COUNT"; "LOCAL_CPU_PEAK_UTIL"; "LOCAL_CPU_PEAK_ID"; "LOCAL_NODELAY"; "LOCAL_CORK"].
Definition remote_cases : list string := [
  "RSS_SIZE_REQ"; "RSS_SIZE"; "RSS_SIZE_END"; "RSR_SIZE_REQ"; "RSR_SIZE"; "RSR_SIZE_END"; "REMOTE_SEND_SIZE"; "REMOTE_RECV_SIZE";
  "REMOTE_SEND_CALLS"; "REMOTE_RECV_CALLS"; "REMOTE_BYTES_PER_RECV"; "REMOTE_BYTES_PER_SEND"; "REMOTE_BYTES_SENT"; "REMOTE_BYTES_RECVD";
  "REMOTE_BYTES_XFERD"; "REMOTE_SEND_OFFSET"; "REMOTE_RECV_OFFSET"; "REMOTE_RECV_ALIGN"; "REMOTE_SEND_ALIGN"; "REMOTE_SEND_WIDTH";
  "REMOTE_RECV_WIDTH"; "REMOTE_SEND_DIRTY_COUNT"; "REMOTE_RECV_DIRTY_COUNT"; "REMOTE_RECV_CLEAN_COUNT"; "REMOTE_CPU_UTIL"; "REMOTE_CPU_BIND";
  "REMOTE_SD"; "REMOTE_CPU_METHOD"; "REMOTE_CPU_COUNT"; "REMOTE_CPU_PEAK_UTIL"; "REMOTE_CPU_PEAK_ID"; "REMOTE_NODELAY"; "REMOTE_CORK";
  "LOCAL_INTERFACE_SLOT"; "REMOTE_INTERFACE_SLOT"; "REMOTE_INTERFACE_SUBDEVICE"; "REMOTE_INTERFACE_SUBVENDOR"; "REMOTE_INTERFACE_DEVICE";
  "REMOTE_INTERFACE_VENDOR"; "LOCAL_INTERFACE_SUBDEVICE"; "LOCAL_INTERFACE_SUBVENDOR"; "LOCAL_INTERFACE_DEVICE"; "LOCAL_INTERFACE_VENDOR";
  "LOCAL_INTERFACE_NAME"; "REMOTE_INTERFACE_NAME"; "REMOTE_DRIVER_NAME"; "REMOTE_DRIVER_VERSION"; "REMOTE_DRIVER_FIRMWARE"; "REMOTE_DRIVER_BUS";
  "LOCAL_DRIVER_NAME"; "LOCAL_DRIVER_VERSION"; "LOCAL_DRIVER_FIRMWARE"; "LOCAL_INTERVAL_USECS"; "LOCAL_INTERVAL_BURST"; "REMOTE_INTERVAL_USECS";
  "REMOTE_INTERVAL_BURST"; "LOCAL_SECURITY_TYPE_ID"; "LOCAL_SECURITY_ENABLED_NUM"; "LOCAL_SECURITY_TYPE"; "LOCAL_SECURITY_ENABLED";
  "LOCAL_SECURITY_SPECIFIC"; "REMOTE_SECURITY_TYPE_ID"; "REMOTE_SECURITY_ENABLED_NUM"; "REMOTE_SECURITY_TYPE"; "REMOTE_SECURITY_ENABLED";
  "REMOTE_SECURITY_SPECIFIC"; "LOCAL_DRIVER_BUS"].
Definition system_cases : list string := [
  "REMOTE_SYSNAME"; "REMOTE_MACHINE"; "REMOTE_VERSION"; "REMOTE_RELEASE"; "LOCAL_SYSNAME"; "LOCAL_MACHINE"; "LOCAL_VERSION"; "LOCAL_RELEASE";
  "REMOTE_CPU_MODEL"; "REMOTE_CPU_FREQUENCY"; "REMOTE_SYSTEM_MODEL"; "LOCAL_CPU_MODEL"; "LOCAL_CPU_FREQUENCY"; "LOCAL_SYSTEM_MODEL"; "MIN_LATENCY";
  "MAX_LATENCY"; "P50_LATENCY"; "P90_LATENCY"; "P99_LATENCY"; "MEAN_LATENCY"; "STDDEV_LATENCY"; "LOCAL_SOCKET_PRIO"; "REMOTE_SOCKET_PRIO";
  "LOCAL_SOCKET_TOS"; "REMOTE_SOCKET_TOS"; "LOCAL_CONG_CONTROL"; "REMOTE_CONG_CONTROL"; "LOCAL_FILL_FILE"; "REMOTE_FILL_FILE"; "OUTPUT_END"].
Definition enum_cases : list string := local_cases ++ remote_cases ++ system_cases.
Definition netperf_output_enum_to_str (output_name : Z) : string :=
  match netperf_output_name !! Z.to_nat output_name with
  | Some n => if ((0 <=? output_name) && existsb (streq n) enum_cases)%bool then n else "!UNKNOWN OUTPUT SELECTOR!"
  | None => "!UNKNOWN OUTPUT SELECTOR!"
  end.

Definition OMNI_WANT_REM_IFNAME : Z := 0x00000001.
Definition OMNI_WANT_LOC_IFNAME : Z := 0x00010000.
Definition OMNI_WANT_REM_IFSLOT : Z := 0x00000002.
Definition OMNI_WANT_LOC_IFSLOT : Z := 0x00020000.
Definition OMNI_WANT_REM_IFIDS : Z := 0x00000004.
Definition OMNI_WANT_LOC_IFIDS : Z := 0x00040000.
Definition OMNI_WANT_REM_DRVINFO : Z := 0x00000008.
Definition OMNI_WANT_LOC_DRVINFO : Z := 0x00080000.
Definition OMNI_WANT_STATS : Z := 0x00100010.
Definition OMNI_WANT_REM_CONG : Z := 0x00000020.
Definition OMNI_WANT_LOC_CONG : Z := 0x00200000.

(** ** What is shown of a result *)

Inductive output_type : Type := TUNKNOWN | TUINT32 | TINT32 | TUINT64 | TINT64 | TCHAR | TFLOAT | TDOUBLE.
Definition type_code (t : output_type) : Z :=
  match t with TUNKNOWN => 0 | TUINT32 => 1 | TINT32 => 2 | TUINT64 => 3 | TINT64 => 4 | TCHAR => 5 | TFLOAT => 6 | TDOUBLE => 7 end.

(** The pointer in a row of the table: none, a literal, an array of characters,
    a variable that is a pointer to text, the address of a variable. *)
Inductive pointer : Type := Null | Lit (s : string) | Arr (n : string) | Ptr (n : string) | Addr (n : string).
(** Where a pointer leads when the table is made. *)
Inductive shown : Type := DNull | DText (s : string) | DCell (n : string).

Record elt_args := mk_args {
  a_name : string; a_line0 : string; a_line1 : string; a_line2 : string; a_line3 : string;
  a_format : string; a_value : pointer; a_default : Z; a_group : Z; a_type : output_type
}.
Definition quoted : string := String (chr 34) ("%s" +:+ String (chr 34) EmptyString).
(** The calls of [set_output_elt] in [print_omni_init_list]: of the test, of
    the local and the remote side, of the interfaces and of the systems. *)
Definition test_elts : list elt_args := [
  mk_args "OUTPUT_NONE" " " "" "" "" "%s" (Lit " ") 1 0 TCHAR;
  mk_args "COMMAND_LINE" "Command" "Line" "" "" quoted (Ptr "command_line") 1 0 TCHAR;
  mk_args "UUID" "Test" "UUID" "" "" "%s" (Arr "test_uuid") 1 0 TCHAR;
  mk_args "RESULT_BRAND" "Result" "Tag" "" "" quoted (Ptr "result_brand") 1 0 TCHAR;
  mk_args "SOCKET_TYPE" "Socket" "Type" "" "" "%s" (Ptr "socket_type_str") 1 0 TCHAR;
  mk_args "DIRECTION" "Direction" "" "" "" "%s" (Ptr "direction_str") 1 0 TCHAR;
  mk_args "PROTOCOL" "Protocol" "" "" "" "%s" (Ptr "protocol_str") 1 0 TCHAR;
  mk_args "ELAPSED_TIME" "Elapsed" "Time" "(sec)" "" "%.2f" (Addr "elapsed_time_double") 1 0 TDOUBLE;
  mk_args "SOURCE_PORT" "Source" "Port" "" "" "%s" (Arr "local_data_port") 1 0 TCHAR;
  mk_args "SOURCE_ADDR" "Source" "Address" "" "" "%s" (Ptr "local_data_address") 1 0 TCHAR;
  mk_args "SOURCE_FAMILY" "Source" "Family" "" "" "%d" (Addr "local_data_family") 1 0 TINT32;
  mk_args "DEST_PORT" "Destination" "Port" "" "" "%s" (Arr "remote_data_port") 1 0 TCHAR;
  mk_args "DEST_ADDR" "Destination" "Address" "" "" "%s" (Ptr "remote_data_address") 1 0 TCHAR;
  mk_args "DEST_FAMILY" "Destination" "Family" "" "" "%d" (Addr "remote_data_family") 1 0 TINT32;
  mk_args "THROUGHPUT" "Throughput" "" "" "" "%.2f" (Addr "thruput") 1 0 TDOUBLE;
  mk_args "LOCAL_SEND_THROUGHPUT" "Local" "Send" "Throughput" "" "%.2f" (Addr "local_send_thruput") 1 0 TDOUBLE;
  mk_args "LOCAL_RECV_THROUGHPUT" "Local" "Recv" "Throughput" "" "%.2f" (Addr "local_recv_thruput") 1 0 TDOUBLE;
  mk_args "REMOTE_SEND_THROUGHPUT" "Remote" "Send" "Throughput" "" "%.2f" (Addr "remote_send_thruput") 1 0 TDOUBLE;
  mk_args "REMOTE_RECV_THROUGHPUT" "Remote" "Recv" "Throughput" "" "%.2f" (Addr "remote_recv_thruput") 1 0 TDOUBLE;
  mk_args "THROUGHPUT_UNITS" "Throughput" "Units" "" "" "%s/s" (Ptr "thruput_format_str") 1 0 TCHAR;
  mk_args "CONFIDENCE_LEVEL" "Confidence" "Level" "Percent" "" "%d" (Addr "confidence_level") 1 0 TINT32;
  mk_args "CONFIDENCE_INTERVAL" "Confidence" "Width" "Target" "" "%f" (Addr "interval_pct") 1 0 TDOUBLE;
  mk_args "CONFIDENCE_ITERATION" "Confidence" "Iterations" "Run" "" "%d" (Addr "confidence_iteration") 1 0 TINT32;
  mk_args "THROUGHPUT_CONFID" "Throughput" "Confidence" "Width (%)" "" "%.3f" (Addr "result_confid_pct") 1 0 TDOUBLE;
  mk_args "LOCAL_CPU_CONFID" "Local" "CPU" "Confidence" "Width (%)" "%.3f" (Addr "loc_cpu_confid_pct") 1 0 TDOUBLE;
  mk_args "REMOTE_CPU_CONFID" "Remote" "CPU" "Confidence" "Width (%)" "%.3f" (Addr "rem_cpu_confid_pct") 1 0 TDOUBLE;
  mk_args "RT_LATENCY" "Round" "Trip" "Latency" "usec/tran" "%.3f" (Addr "rtt_latency") 1 0 TDOUBLE;
  mk_args "TRANSACTION_RATE" "Transaction" "Rate" "Tran/s" "" "%.3f" (Addr "transaction_rate") 1 0 TDOUBLE;
  mk_args "TRANSPORT_MSS" "Transport" "MSS" "bytes" "" "%d" (Addr "transport_mss") 1 0 TINT32;
  mk_args "LOCAL_TRANSPORT_RETRANS" "Local" "Transport" "Retransmissions" "" "%d" (Addr "local_transport_retrans") 1 0 TINT32;
  mk_args "REMOTE_TRANSPORT_RETRANS" "Remote" "Transport" "Retransmissions" "" "%d" (Addr "remote_transport_retrans") 1 0 TINT32;
  mk_args "REQUEST_SIZE" "Request" "Size" "Bytes" "" "%d" (Addr "req_size") 1 0 TINT32;
  mk_args "RESPONSE_SIZE" "Response" "Size" "Bytes" "" "%d" (Addr "rsp_size") 1 0 TINT32;
  mk_args "BURST_SIZE" "Initial" "Burst" "Requests" "" "%d" (Addr "first_burst_size") 1 0 TINT32 ].
Definition local_elts : list elt_args := [
  mk_args "LSS_SIZE_REQ" "Local" "Send Socket" "Size" "Requested" "%d" (Addr "lss_size_req") 1 0 TINT32;
  mk_args "LSS_SIZE" "Local" "Send Socket" "Size" "Initial" "%d" (Addr "lss_size") 1 0 TINT32;
  mk_args "LSS_SIZE_END" "Local" "Send Socket" "Size" "Final" "%d" (Addr "lss_size_end") 1 0 TINT32;
  mk_args "LSR_SIZE_REQ" "Local" "Recv Socket" "Size" "Requested" "%d" (Addr "lsr_size_req") 1 0 TINT32;
  mk_args "LSR_SIZE" "Local" "Recv Socket" "Size" "Initial" "%d" (Addr "lsr_size") 1 0 TINT32;
  mk_args "LSR_SIZE_END" "Local" "Recv Socket" "Size" "Final" "%d" (Addr "lsr_size_end") 1 0 TINT32;
  mk_args "LOCAL_SEND_SIZE" "Local" "Send" "Size" "" "%d" (Addr "send_size") 1 0 TINT32;
  mk_args "LOCAL_RECV_SIZE" "Local" "Recv" "Size" "" "%d" (Addr "recv_size") 1 0 TINT32;
  mk_args "LOCAL_SEND_CALLS" "Local" "Send" "Calls" "" "%llu" (Addr "local_send_calls") 1 0 TUINT64;
  mk_args "LOCAL_RECV_CALLS" "Local" "Recv" "Calls" "" "%llu" (Addr "local_receive_calls") 1 0 TUINT64;
  mk_args "LOCAL_BYTES_PER_RECV" "Local" "Bytes" "Per" "Recv" "%.2f" (Addr "bytes_per_recv") 1 0 TDOUBLE;
  mk_args "LOCAL_BYTES_PER_SEND" "Local" "Bytes" "Per" "Send" "%.2f" (Addr "bytes_per_send") 1 0 TDOUBLE;
  mk_args "LOCAL_BYTES_RECVD" "Local" "Bytes" "Received" "" "%llu" (Addr "bytes_received") 1 0 TUINT64;
  mk_args "LOCAL_BYTES_SENT" "Local" "Bytes" "Sent" "" "%llu" (Addr "bytes_sent") 1 0 TUINT64;
  mk_args "LOCAL_BYTES_XFERD" "Local" "Bytes" "Xferred" "" "%.0f" (Addr "bytes_xferd") 1 0 TDOUBLE;
  mk_args "LOCAL_SEND_WIDTH" "Local" "Send" "Width" "" "%d" (Addr "send_width") 1 0 TINT32;
  mk_args "LOCAL_RECV_WIDTH" "Local" "Recv" "Width" "" "%d" (Addr "recv_width") 1 0 TINT32;
  mk_args "LOCAL_SEND_OFFSET" "Local" "Send" "Offset" "" "%d" (Addr "local_send_offset") 1 0 TINT32;
  mk_args "LOCAL_RECV_OFFSET" "Local" "Recv" "Offset" "" "%d" (Addr "local_recv_offset") 1 0 TINT32;
  mk_args "LOCAL_RECV_ALIGN" "Local" "Recv" "Alignment" "" "%d" (Addr "local_recv_align") 1 0 TINT32;
  mk_args "LOCAL_SEND_ALIGN" "Local" "Send" "Alignment" "" "%d" (Addr "local_send_align") 1 0 TINT32;
  mk_args "LOCAL_SEND_DIRTY_COUNT" "Local" "Send" "Dirty" "Count" "%d" (Addr "loc_dirty_count") 1 0 TINT32;
  mk_args "LOCAL_RECV_DIRTY_COUNT" "Local" "Recv" "Dirty" "Count" "%d" (Addr "loc_dirty_count") 1 0 TINT32;
  mk_args "LOCAL_RECV_CLEAN_COUNT" "Local" "Recv" "Clean" "Count" "%d" (Addr "loc_clean_count") 1 0 TINT32;
  mk_args "LOCAL_CPU_UTIL" "Local" "CPU" "Util" "%" "%.2f" (Addr "local_cpu_utilization_double") 1 0 TDOUBLE;
  mk_args "LOCAL_CPU_PEAK_UTIL" "Local" "Peak" "Per CPU" "Util %" "%.2f" (Addr "lib_local_peak_cpu_util") 1 0 TDOUBLE;
  mk_args "LOCAL_CPU_PEAK_ID" "Local" "Peak" "Per CPU" "ID" "%d" (Addr "lib_local_peak_cpu_id") 1 0 TINT32;
  mk_args "LOCAL_CPU_BIND" "Local" "CPU" "Bind" "" "%d" (Addr "local_proc_affinity") 1 0 TINT32;
  mk_args "LOCAL_SD" "Local" "Service" "Demand" "" "%.3f" (Addr "local_service_demand_double") 1 0 TDOUBLE;
  mk_args "SD_UNITS" "Service" "Demand" "Units" "" "%s" (Ptr "sd_str") 1 0 TCHAR;
  mk_args "LOCAL_CPU_METHOD" "Local" "CPU" "Util" "Method" "%c" (Addr "local_cpu_method") 1 0 TINT32;
  mk_args "LOCAL_CPU_COUNT" "Local" "CPU" "Count" "" "%d" (Addr "lib_num_loc_cpus") 1 0 TINT32;
  mk_args "LOCAL_NODELAY" "Local" "NODELAY" "" "" "%d" (Addr "loc_nodelay") 1 0 TINT32;
  mk_args "LOCAL_CORK" "Local" "Cork" "" "" "%d" (Addr "loc_tcpcork") 1 0 TINT32 ].
Definition remote_elts : list elt_args := [
  mk_args "RSS_SIZE_REQ" "Remote" "Send Socket" "Size" "Requested" "%d" (Addr "rss_size_req") 1 0 TINT32;
  mk_args "RSS_SIZE" "Remote" "Send Socket" "Size" "Initial" "%d" (Addr "rss_size") 1 0 TINT32;
  mk_args "RSS_SIZE_END" "Remote" "Send Socket" "Size" "Final" "%d" (Addr "rss_size_end") 1 0 TINT32;
  mk_args "RSR_SIZE_REQ" "Remote" "Recv Socket" "Size" "Requested" "%d" (Addr "rsr_size_req") 1 0 TINT32;
  mk_args "RSR_SIZE" "Remote" "Recv Socket" "Size" "Initial" "%d" (Addr "rsr_size") 1 0 TINT32;
  mk_args "RSR_SIZE_END" "Remote" "Recv Socket" "Size" "Final" "%d" (Addr "rsr_size_end") 1 0 TINT32;
  mk_args "REMOTE_SEND_SIZE" "Remote" "Send" "Size" "" "%d" (Addr "remote_send_size") 1 0 TINT32;
  mk_args "REMOTE_RECV_SIZE" "Remote" "Recv" "Size" "" "%d" (Addr "remote_recv_size") 1 0 TINT32;
  mk_args "REMOTE_SEND_CALLS" "Remote" "Send" "Calls" "" "%llu" (Addr "remote_send_calls") 1 0 TUINT64;
  mk_args "REMOTE_RECV_CALLS" "Remote" "Recv" "Calls" "" "%llu" (Addr "remote_receive_calls") 1 0 TUINT64;
  mk_args "REMOTE_BYTES_PER_RECV" "Remote" "Bytes" "Per" "Recv" "%.2f" (Addr "remote_bytes_per_recv") 1 0 TDOUBLE;
  mk_args "REMOTE_BYTES_PER_SEND" "Remote" "Bytes" "Per" "Send" "%.2f" (Addr "remote_bytes_per_send") 1 0 TDOUBLE;
  mk_args "REMOTE_BYTES_RECVD" "Remote" "Bytes" "Received" "" "%llu" (Addr "remote_bytes_received") 1 0 TUINT64;
  mk_args "REMOTE_BYTES_SENT" "Remote" "Bytes" "Sent" "" "%llu" (Addr "remote_bytes_sent") 1 0 TUINT64;
  mk_args "REMOTE_BYTES_XFERD" "Remote" "Bytes" "Xferred" "" "%.0f" (Addr "remote_bytes_xferd") 1 0 TDOUBLE;
  mk_args "REMOTE_SEND_WIDTH" "Remote" "Send" "Width" "" "%d" (Addr "remote_send_width") 1 0 TINT32;
  mk_args "REMOTE_RECV_WIDTH" "Remote" "Recv" "Width" "" "%d" (Addr "remote_recv_width") 1 0 TINT32;
  mk_args "REMOTE_SEND_OFFSET" "Remote" "Send" "Offset" "" "%d" (Addr "remote_send_offset") 1 0 TINT32;
  mk_args "REMOTE_RECV_OFFSET" "Remote" "Recv" "Offset" "" "%d" (Addr "remote_recv_offset") 1 0 TINT32;
  mk_args "REMOTE_RECV_ALIGN" "Remote" "Recv" "Alignment" "" "%d" (Addr "remote_recv_align") 1 0 TINT32;
  mk_args "REMOTE_SEND_ALIGN" "Remote" "Send" "Alignment" "" "%d" (Addr "remote_send_align") 1 0 TINT32;
  mk_args "REMOTE_SEND_DIRTY_COUNT" "Remote" "Send" "Dirty" "Count" "%d" (Addr "rem_dirty_count") 1 0 TINT32;
  mk_args "REMOTE_RECV_DIRTY_COUNT" "Remote" "Recv" "Dirty" "Count" "%d" (Addr "rem_dirty_count") 1 0 TINT32;
  mk_args "REMOTE_RECV_CLEAN_COUNT" "Remote" "Recv" "Clean" "Count" "%d" (Addr "rem_clean_count") 1 0 TINT32;
  mk_args "REMOTE_CPU_UTIL" "Remote" "CPU" "Util" "%" "%.2f" (Addr "remote_cpu_utilization_double") 1 0 TDOUBLE;
  mk_args "REMOTE_CPU_PEAK_UTIL" "Remote" "Peak" "Per CPU" "Util %" "%.2f" (Addr "lib_remote_peak_cpu_util") 1 0 TDOUBLE;
  mk_args "REMOTE_CPU_PEAK_ID" "Remote" "Peak" "Per CPU" "ID" "%d" (Addr "lib_remote_peak_cpu_id") 1 0 TINT32;
  mk_args "REMOTE_CPU_BIND" "Remote" "CPU" "Bind" "" "%d" (Addr "remote_proc_affinity") 1 0 TINT32;
  mk_args "REMOTE_SD" "Remote" "Service" "Demand" "" "%.3f" (Addr "remote_service_demand_double") 1 0 TDOUBLE;
  mk_args "REMOTE_CPU_METHOD" "Remote" "CPU" "Util" "Method" "%c" (Addr "remote_cpu_method") 1 0 TINT32;
  mk_args "REMOTE_CPU_COUNT" "Remote" "CPU" "Count" "" "%d" (Addr "lib_num_rem_cpus") 1 0 TINT32;
  mk_args "REMOTE_NODELAY" "Remote" "NODELAY" "" "" "%d" (Addr "rem_nodelay") 1 0 TINT32;
  mk_args "REMOTE_CORK" "Remote" "Cork" "" "" "%d" (Addr "rem_tcpcork") 1 0 TINT32 ].
Definition interface_elts : list elt_args := [
  mk_args "LOCAL_DRIVER_NAME" "Local" "Driver" "Name" "" "%s" (Arr "local_driver_name") 1 OMNI_WANT_LOC_DRVINFO TCHAR;
  mk_args "LOCAL_DRIVER_VERSION" "Local" "Driver" "Version" "" "%s" (Arr "local_driver_version") 1 OMNI_WANT_LOC_DRVINFO TCHAR;
  mk_args "LOCAL_DRIVER_FIRMWARE" "Local" "Driver" "Firmware" "" "%s" (Arr "local_driver_firmware") 1 OMNI_WANT_LOC_DRVINFO TCHAR;
  mk_args "LOCAL_DRIVER_BUS" "Local" "Driver" "Bus" "" "%s" (Arr "local_driver_bus") 1 OMNI_WANT_LOC_DRVINFO TCHAR;
  mk_args "REMOTE_DRIVER_NAME" "Remote" "Driver" "Name" "" "%s" (Arr "remote_driver_name") 1 OMNI_WANT_REM_DRVINFO TCHAR;
  mk_args "REMOTE_DRIVER_VERSION" "Remote" "Driver" "Version" "" "%s" (Arr "remote_driver_version") 1 OMNI_WANT_REM_DRVINFO TCHAR;
  mk_args "REMOTE_DRIVER_FIRMWARE" "Remote" "Driver" "Firmware" "" "%s" (Arr "remote_driver_firmware") 1 OMNI_WANT_REM_DRVINFO TCHAR;
  mk_args "REMOTE_DRIVER_BUS" "Remote" "Driver" "Bus" "" "%s" (Arr "remote_driver_bus") 1 OMNI_WANT_REM_DRVINFO TCHAR;
  mk_args "LOCAL_INTERFACE_SUBDEVICE" "Local" "Interface" "Subdevice" "" "0x%.4x" (Addr "local_interface_subdevice") 1 OMNI_WANT_LOC_IFIDS TINT32;
  mk_args "LOCAL_INTERFACE_DEVICE" "Local" "Interface" "Device" "" "0x%.4x" (Addr "local_interface_device") 1 OMNI_WANT_LOC_IFIDS TINT32;
  mk_args "LOCAL_INTERFACE_SUBVENDOR" "Local" "Interface" "Subvendor" "" "0x%.4x" (Addr "local_interface_subvendor") 1 OMNI_WANT_LOC_IFIDS TUINT32;
  mk_args "LOCAL_INTERFACE_VENDOR" "Local" "Interface" "Vendor" "" "0x%.4x" (Addr "local_interface_vendor") 1 OMNI_WANT_LOC_IFIDS TUINT32;
  mk_args "REMOTE_INTERFACE_SUBDEVICE" "Remote" "Interface" "Subdevice" "" "0x%.4x" (Addr "remote_interface_subdevice") 1 OMNI_WANT_REM_IFIDS TUINT32;
  mk_args "REMOTE_INTERFACE_DEVICE" "Remote" "Interface" "Device" "" "0x%.4x" (Addr "remote_interface_device") 1 OMNI_WANT_REM_IFIDS TUINT32;
  mk_args "REMOTE_INTERFACE_SUBVENDOR" "Remote" "Interface" "Subvendor" "" "0x%.4x" (Addr "remote_interface_subvendor") 1 OMNI_WANT_REM_IFIDS TUINT32;
  mk_args "REMOTE_INTERFACE_VENDOR" "Remote" "Interface" "Vendor" "" "0x%.4x" (Addr "remote_interface_vendor") 1 OMNI_WANT_REM_IFIDS TUINT32;
  mk_args "LOCAL_INTERFACE_NAME" "Local" "Interface" "Name" "" "%s" (Ptr "local_interface_name") 1 OMNI_WANT_LOC_IFNAME TCHAR;
  mk_args "REMOTE_INTERFACE_NAME" "Remote" "Interface" "Name" "" "%s" (Ptr "remote_interface_name") 1 OMNI_WANT_REM_IFNAME TCHAR;
  mk_args "LOCAL_INTERFACE_SLOT" "Local" "Interface" "Slot" "" "%s" (Ptr "local_interface_slot") 1 OMNI_WANT_LOC_IFSLOT TCHAR;
  mk_args "REMOTE_INTERFACE_SLOT" "Remote" "Interface" "Slot" "" "%s" (Ptr "remote_interface_slot") 1 OMNI_WANT_REM_IFSLOT TCHAR ].
Definition system_elts : list elt_args := [
  mk_args "REMOTE_MACHINE" "Remote" "Machine" "" "" "%s" (Ptr "remote_machine") 1 0 TCHAR;
  mk_args "REMOTE_VERSION" "Remote" "Version" "" "" "%s" (Ptr "remote_version") 1 0 TCHAR;
  mk_args "REMOTE_RELEASE" "Remote" "Release" "" "" "%s" (Ptr "remote_release") 1 0 TCHAR;
  mk_args "REMOTE_SYSNAME" "Remote" "Sysname" "" "" "%s" (Ptr "remote_sysname") 1 0 TCHAR;
  mk_args "LOCAL_MACHINE" "Local" "Machine" "" "" "%s" (Ptr "local_machine") 1 0 TCHAR;
  mk_args "LOCAL_VERSION" "Local" "Version" "" "" "%s" (Ptr "local_version") 1 0 TCHAR;
  mk_args "LOCAL_RELEASE" "Local" "Release" "" "" "%s" (Ptr "local_release") 1 0 TCHAR;
  mk_args "LOCAL_SYSNAME" "Local" "Sysname" "" "" "%s" (Ptr "local_sysname") 1 0 TCHAR;
  mk_args "REMOTE_INTERVAL_USECS" "Remote" "Interval" "Usecs" "" "%d" (Addr "remote_interval_usecs") 1 0 TINT32;
  mk_args "REMOTE_INTERVAL_BURST" "Remote" "Interval" "Burst" "" "%d" (Addr "remote_interval_burst") 1 0 TINT32;
  mk_args "LOCAL_SECURITY_ENABLED" "Local" "OS" "Security" "Enabled" "%s" (Ptr "local_security_enabled") 1 0 TCHAR;
  mk_args "LOCAL_SECURITY_TYPE" "Local" "OS" "Security" "Type" "%s" (Ptr "local_security_type") 1 0 TCHAR;
  mk_args "LOCAL_SECURITY_SPECIFIC" "Local" "OS" "Security" "Specific" "%s" (Ptr "local_security_specific") 1 0 TCHAR;
  mk_args "LOCAL_SECURITY_ENABLED_NUM" "Local" "OS" "Security" "Enabled Num" "%d" (Addr "local_security_enabled_num") 1 0 TINT32;
  mk_args "LOCAL_SECURITY_TYPE_ID" "Local" "OS" "Security" "Type ID" "%d" (Addr "local_security_type_id") 1 0 TINT32;
  mk_args "REMOTE_SECURITY_ENABLED" "Remote" "OS" "Security" "Enabled" "%s" (Ptr "remote_security_enabled") 1 0 TCHAR;
  mk_args "REMOTE_SECURITY_TYPE" "Remote" "OS" "Security" "Type" "%s" (Ptr "remote_security_type") 1 0 TCHAR;
  mk_args "REMOTE_SECURITY_SPECIFIC" "Remote" "OS" "Security" "Specific" "%s" (Ptr "remote_security_specific") 1 0 TCHAR;
  mk_args "REMOTE_SECURITY_ENABLED_NUM" "Remote" "OS" "Security" "Enabled" "%d" (Addr "remote_security_enabled_num") 1 0 TINT32;
  mk_args "REMOTE_SECURITY_TYPE_ID" "Remote" "OS" "Security" "Type" "%d" (Addr "remote_security_type_id") 1 0 TINT32;
  mk_args "LOCAL_INTERVAL_USECS" "Local" "Interval" "Usecs" "" "%d" (Addr "interval_usecs") 1 0 TINT32;
  mk_args "LOCAL_INTERVAL_BURST" "Local" "Interval" "Burst" "" "%d" (Addr "interval_burst") 1 0 TINT32;
  mk_args "REMOTE_SYSTEM_MODEL" "Remote" "System" "Model" "" "%s" (Ptr "remote_system_model") 1 0 TCHAR;
  mk_args "REMOTE_CPU_MODEL" "Remote" "CPU" "Model" "" "%s" (Ptr "remote_cpu_model") 1 0 TCHAR;
  mk_args "REMOTE_CPU_FREQUENCY" "Remote" "CPU" "Frequency" "MHz" "%d" (Addr "remote_cpu_frequency") 1 0 TINT32;
  mk_args "LOCAL_SYSTEM_MODEL" "Local" "System" "Model" "" "%s" (Ptr "local_system_model") 1 0 TCHAR;
  mk_args "LOCAL_CPU_MODEL" "Local" "CPU" "Model" "" "%s" (Ptr "local_cpu_model") 1 0 TCHAR;
  mk_args "LOCAL_CPU_FREQUENCY" "Local" "CPU" "Frequency" "MHz" "%d" (Addr "local_cpu_frequency") 1 0 TINT32;
  mk_args "MIN_LATENCY" "Minimum" "Latency" "Microseconds" "" "%d" (Addr "min_latency") 0 OMNI_WANT_STATS TINT32;
  mk_args "MAX_LATENCY" "Maximum" "Latency" "Microseconds" "" "%d" (Addr "max_latency") 0 OMNI_WANT_STATS TINT32;
  mk_args "P50_LATENCY" "50th" "Percentile" "Latency" "Microseconds" "%d" (Addr "p50_latency") 0 OMNI_WANT_STATS TINT32;
  mk_args "P90_LATENCY" "90th" "Percentile" "Latency" "Microseconds" "%d" (Addr "p90_latency") 0 OMNI_WANT_STATS TINT32;
  mk_args "P99_LATENCY" "99th" "Percentile" "Latency" "Microseconds" "%d" (Addr "p99_latency") 0 OMNI_WANT_STATS TINT32;
  mk_args "MEAN_LATENCY" "Mean" "Latency" "Microseconds" "" "%.2f" (Addr "mean_latency") 0 OMNI_WANT_STATS TDOUBLE;
  mk_args "STDDEV_LATENCY" "Stddev" "Latency" "Microseconds" "" "%.2f" (Addr "stddev_latency") 0 OMNI_WANT_STATS TDOUBLE;
  mk_args "LOCAL_SOCKET_PRIO" "Local" "Socket" "Priority" "" "%d" (Addr "local_socket_prio") 1 0 TINT32;
  mk_args "REMOTE_SOCKET_PRIO" "Remote" "Socket" "Priority" "" "%d" (Addr "remote_socket_prio") 1 0 TINT32;
  mk_args "LOCAL_SOCKET_TOS" "Local" "Socket" "TOS" "" "0x%.2x" (Addr "local_socket_tos") 1 0 TINT32;
  mk_args "REMOTE_SOCKET_TOS" "Remote" "Socket" "TOS" "" "0x%.2x" (Addr "remote_socket_tos") 1 0 TINT32;
  mk_args "LOCAL_CONG_CONTROL" "Local" "Congestion" "Control" "Algorithm" "%s" (Arr "local_cong_control") 0 OMNI_WANT_LOC_CONG TCHAR;
  mk_args "REMOTE_CONG_CONTROL" "Remote" "Congestion" "Control" "Algorithm" "%s" (Arr "remote_cong_control") 0 OMNI_WANT_REM_CONG TCHAR;
  mk_args "LOCAL_FILL_FILE" "Local" "Fill" "File" "" "%s" (Arr "local_fill_file") 0 0 TCHAR;
  mk_args "REMOTE_FILL_FILE" "Remote" "Fill" "File" "" "%s" (Arr "remote_fill_file") 0 0 TCHAR;
  mk_args "OUTPUT_END" "This" "Is" "The" "End" "%s" (Null) 0 0 TCHAR ].
Definition omni_elts : list elt_args := test_elts ++ local_elts ++ remote_elts ++ interface_elts ++ system_elts.

(** [netperf_output_elt_t]. *)
Record elt := mk_elt {
  output_name : Z; max_line_len : Z; tot_line_len : Z; lines : list string;
  brief : string; format : string; display_value : shown; output_kind : output_type;
  output_default : Z; output_group : Z
}.
Definition set_max (z : Z) (e : elt) : elt :=
  mk_elt (output_name e) z (tot_line_len e) (lines e) (brief e) (format e) (display_value e) (output_kind e) (output_default e) (output_group e).
Definition set_tot (z : Z) (e : elt) : elt :=
  mk_elt (output_name e) (max_line_len e) z (lines e) (brief e) (format e) (display_value e) (output_kind e) (output_default e) (output_group e).
(** [NETPERF_LINE_MAX] and [NETPERF_LINE_TOT]. *)
Definition NETPERF_LINE_MAX (l : list string) : Z := foldr (fun s m => Z.max (strlen s) m) 0 l.
Definition NETPERF_LINE_TOT (l : list string) : Z := foldr (fun s t => strlen s + t) 0 l + 4.

(** ** The state *)

(** The world of netperf's options, the table and the list of what to show. *)
Record om_w := mk_om { om_sh : sh_w; om_source : list elt; om_list : list (list Z) }.
(** Files by name with [errno], memory by size of the request, the text of a pointer. *)
Record om_os := {
  om_net : sh_os;
  om_fopen : string -> Z + list Z;
  om_malloc : Z -> bool;
  om_pointer : shown -> string
}.

(** Initial values that are not zero; the file's other globals are those of [sh_w]. *)
Definition omni_ints : list (string * Z) := [
  ("remote_send_size", -1); ("remote_recv_size", -1); ("remote_send_size_req", -1); ("remote_recv_size_req", -1);
  ("transport_mss", -2); ("local_transport_retrans", -2); ("remote_transport_retrans", -2);
  ("min_latency", -1); ("max_latency", -1); ("p50_latency", -1); ("p90_latency", -1); ("p99_latency", -1);
  ("client_port_min", 5000); ("client_port_max", 65535)].
Definition omni_flts : list (string * spec_float) :=
  ((fun n => (n, double_of_Z (-1))) <$>
    ["result_confid_pct"; "loc_cpu_confid_pct"; "rem_cpu_confid_pct"; "interval_pct"; "rtt_latency"; "mean_latency"; "stddev_latency"])
  ++ [("transaction_rate", double_of_Z 1)].

(** ** Values as text *)

Inductive value : Type := VInt (z : Z) | VDbl (x : spec_float) | VStr (s : string).

(** [%.<p>f]; without a point for [p = 0]. *)
Definition fmt_p (p : Z) (x : spec_float) : string :=
  if p =? 0 then
    match x with
    | S754_finite s m e => (if s : bool then "-" else EmptyString) +:+ dec (scaled 0 m e)
    | S754_zero s => (if s : bool then "-" else EmptyString) +:+ "0"
    | _ => fmt_f 0 0 x
    end
  else fmt_f 0 p x.
Definition sdec (z : Z) : string := (if z <? 0 then "-" else EmptyString) +:+ dec (Z.abs z).
(** What one conversion writes: precision, letter, value. *)
Definition conversion (p : option Z) (c : ascii) (v : value) : option string :=
  match c, v with
  | "s"%char, VStr s => Some s
  | "d"%char, VInt z => Some (sdec z)
  | "u"%char, VInt z => Some (dec z)
  | "x"%char, VInt z => Some (hex0 (default 1 p) (u32 z))
  | "c"%char, VInt z => Some (String (chr (u8 z)) EmptyString)
  | "f"%char, VDbl x => Some (fmt_p (default 6 p) x)
  | _, _ => None
  end.
Fixpoint in_conversion (p : option Z) (f : string) (v : value) : option string :=
  match f with
  | String c f' =>
      if cc c =? 46 then in_conversion (Some 0) f' v
      else if cc c =? 108 then in_conversion p f' v
      else match p, isdigit c with
           | Some n, true => in_conversion (Some (n * 10 + (cc c - 48))) f' v
           | _, _ => (fun x => x +:+ f') <$> conversion p c v
           end
  | EmptyString => None
  end.
(** A format with one conversion. *)
Fixpoint format_value (f : string) (v : value) : option string :=
  match f with
  | String c f' => if cc c =? 37 then in_conversion None f' v else String c <$> format_value f' v
  | EmptyString => Some EmptyString
  end.

Example format_ex1 : format_value "0x%.4x" (VInt 43) = Some "0x002b". Proof. vm_compute. reflexivity. Qed.
Example format_ex2 : format_value "%.0f" (VDbl (double_of_Z 1500)) = Some "1500". Proof. vm_compute. reflexivity. Qed.
Example format_ex3 : format_value "%s/s" (VStr "10^6bits") = Some "10^6bits/s". Proof. vm_compute. reflexivity. Qed.
Example format_ex4 : format_value "%llu" (VInt (2 ^ 64 - 1)) = Some "18446744073709551615". Proof. vm_compute. reflexivity. Qed.

Section omni.
Context `{DM : DataModel} (os : om_os).
Abbreviation P := (M om_w).

Definition sh {A} (m : M sh_w A) : P A := fun s =>
  let '(r, s') := m (mkst (out s) (om_sh (dev s))) in
  (r, mkst (out s') (mk_om (dev s') (om_source (dev s)) (om_list (dev s)))).
Definition debug_level : P Z := sh (get_np np_debug).
Definition set_source (l : list elt) : P unit := setdev (fun w => mk_om (om_sh w) l (om_list w)).
Definition set_list (l : list (list Z)) : P unit := setdev (fun w => mk_om (om_sh w) (om_source w) l).

(** [netperf_output_source[k]], and an assignment to one of its members. *)
Definition source (k : Z) : P elt := w ← getdev; elem (om_source w) k.
Definition update_source (k : Z) (f : elt -> elt) : P unit :=
  w ← getdev; e ← elem (om_source w) k; set_source (<[Z.to_nat k := f e]> (om_source w)).
(** [output_list[i][j]]. *)
Definition cell (i j : Z) : P Z := w ← getdev; row ← elem (om_list w) i; elem row j.
Definition set_cell (i j k : Z) : P unit :=
  w ← getdev; row ← elem (om_list w) i; elem row j;;
  set_list (<[Z.to_nat i := <[Z.to_nat j := k]> row]> (om_list w)).

(** ** The table *)

(** An integer variable; the processors are globals of netlib.c. *)
Definition read_int (n : string) : P Z :=
  if streq n "local_proc_affinity" then sh (get_np np_local_affinity)
  else if streq n "remote_proc_affinity" then sh (get_np np_remote_affinity)
  else sh (geti n).
Definition display (p : pointer) : P shown :=
  match p with
  | Null => mret DNull
  | Lit s => mret (DText s)
  | Arr n => s ← sh (gets n); mret (DText s)
  | Ptr n => s ← sh (getp n); mret (match s with Some s => DText s | None => DNull end)
  | Addr n => mret (DCell n)
  end.
Definition set_output_elt (a : elt_args) : P unit :=
  v ← display (a_value a);
  let l := [a_line0 a; a_line1 a; a_line2 a; a_line3 a] in
  update_source (enum (a_name a)) (fun e =>
    mk_elt (enum (a_name a)) (NETPERF_LINE_MAX l) (NETPERF_LINE_TOT l) l (brief e) (a_format a) v (a_type a) (a_default a) (a_group a)).
Definition blank_elt (i : Z) : elt :=
  mk_elt i 0 0 (replicate 4 EmptyString) EmptyString EmptyString DNull TUNKNOWN 1 0.
Definition print_omni_init_list : P unit :=
  debug ← debug_level; when (truth debug) (fprintf "%s called\n" [PS "print_omni_init_list"]);;
  set_source (blank_elt <$> seqZ 0 NETPERF_OUTPUT_MAX);;
  foldr (fun a rest => set_output_elt a;; rest) (mret tt) omni_elts.

Definition dump_netperf_output_list : P unit :=
  for_ 4 0 (fun i =>
    eprintf ("Output Block " +:+ dec (i + 1) +:+ nl);;
    for_ (Z.to_nat NETPERF_OUTPUT_MAX) 0 (fun j => k ← cell i j; eprintf (netperf_output_enum_to_str k +:+ " "));;
    eprintf nl).
Definition dump_netperf_output_choices (csv : Z) : P unit :=
  print_omni_init_list;;
  for_ (Z.to_nat (NETPERF_OUTPUT_MAX - OUTPUT_NONE)) OUTPUT_NONE (fun i =>
    when (negb (i =? OUTPUT_NONE)) (printf (if truth csv then "," else nl));;
    e ← source i; printf (netperf_output_enum_to_str (output_name e)));;
  printf nl.
Definition line_of (e : elt) (k : nat) : string := default EmptyString (lines e !! k).
Definition dump_netperf_output_source : P unit :=
  for_ (Z.to_nat (NETPERF_OUTPUT_MAX - OUTPUT_NONE)) OUTPUT_NONE (fun i =>
    e ← source i;
    fprintf "Output Name: %s\n\tmax_line_len %d tot_line_len %d display_value %s\n\tline[0]: |%s|\n\tline[1]: |%s|\n\tline[2]: |%s|\n\tline[3]: |%s|\n\tbrief: |%s|\n\tformat: |%s|\n"
      [PS (netperf_output_enum_to_str (output_name e)); PI (max_line_len e); PI (tot_line_len e); PS (om_pointer os (display_value e));
       PS (line_of e 0); PS (line_of e 1); PS (line_of e 2); PS (line_of e 3); PS (brief e); PS (format e)]).

(** ** Blocks of memory *)

(** [*(b + off) = ...] for a number of bytes. *)
Definition write (off : Z) (data b : list Z) : P (list Z) :=
  if ((0 <=? off) && (off + Z.of_nat (length data) <=? Z.of_nat (length b)))%bool
  then mret (put_bytes (Z.to_nat off) data b) else crash.
(** The text at a position of a block ends at the first zero. *)
Definition c_text (b : list Z) : P string :=
  if bool_decide (0 ∈ b) then mret (cstr b) else crash.
(** The lines of a header one after the other, with a space after each. *)
Definition used_lines (l : list string) : list string :=
  (fix go l := match l with [] => [] | s :: l' => if streq s EmptyString then [] else s :: go l' end) l.
Fixpoint copy_lines (l : list string) (h : Z) (b : list Z) : P (Z * list Z) :=
  match l with
  | [] => mret (h, b)
  | s :: l' =>
      b ← write h (str_bytes s ++ [0]) b;
      let len := strlen s in
      b ← write (h + len) [32] b;
      copy_lines l' (h + len + 1) b
  end.

(** ** Selection *)

Definition match_string_to_output_mnenomic (candidate : string) : Z :=
  match List.find (fun name => strcasecmp candidate (netperf_output_enum_to_str name)) (seqZ OUTPUT_NONE (NETPERF_OUTPUT_MAX - OUTPUT_NONE)) with
  | Some name => name
  | None => NETPERF_OUTPUT_UNKNOWN
  end.
(** The header of a result in one line. *)
Definition header_matches (candidate : string) (name : Z) : P bool :=
  e ← source name;
  let size := NETPERF_LINE_TOT (lines e) in
  if om_malloc os size then
    '(h1, temp) ← copy_lines (used_lines (lines e)) 0 (replicate (Z.to_nat size) 255);
    temp ← write (h1 - 1) [0] temp;
    t ← c_text temp;
    mret (strcasecmp candidate t)
  else mret false.
Definition match_string_to_output (candidate : string) : P Z :=
  r ← for_acc (Z.to_nat (NETPERF_OUTPUT_MAX - OUTPUT_NONE)) OUTPUT_NONE tt (fun name _ =>
    if strcasecmp candidate (netperf_output_enum_to_str name) then mret (inr name)
    else b ← header_matches candidate name; mret (if b : bool then inr name else inl tt));
  mret (match r with inr name => name | inl _ => OUTPUT_NONE end).

Definition add_group (name : Z) : P unit :=
  e ← source name;
  g ← sh (geti "desired_output_groups"); sh (seti "desired_output_groups" (Z.lor g (output_group e))).
(** [for (k = first; k <= last; k++)] of one line. *)
Definition set_line (i first last : Z) : P unit :=
  for_ (Z.to_nat (last + 1 - first)) first (fun k => set_cell i (k - first) k;; add_group k).
Definition set_output_list_all : P unit :=
  set_line 0 (enum "SOCKET_TYPE") (enum "RESPONSE_SIZE");;
  set_line 1 (enum "LOCAL_CPU_UTIL") (enum "TRANSPORT_MSS");;
  set_line 2 (enum "LOCAL_SEND_THROUGHPUT") (enum "REMOTE_CORK");;
  set_line 3 (enum "LOCAL_SYSNAME") (enum "COMMAND_LINE").

Definition isprint (c : Z) : bool := (32 <=? c) && (c <=? 126).
(** The characters of a file; [name] is the text since the last separator. *)
Fixpoint selection_chars (l : list Z) (line column j : Z) (name : list Z) : P unit :=
  match l with
  | [] =>
      when (negb (bool_decide (name = []))) (k ← match_string_to_output (cstr name); set_cell line j k)
  | c :: l' =>
      if line <? 4 then
        if Z.of_nat (length name) =? 80 then
          fprintf "Output selection starting column %d on line %d is too long\n" [PI (line + 1); PI column];; exit (-1)
        else if c =? 44 then
          if j =? NETPERF_OUTPUT_MAX then fprintf "Too many output selectors on line %d\n" [PI line];; exit (-1)
          else
            k ← match_string_to_output (cstr name); set_cell line j k;;
            selection_chars l' line (column + 1) (j + 1) []
        else if c =? 10 then
          k ← match_string_to_output (cstr name); set_cell line j k;;
          selection_chars l' (line + 1) (column + 1) 0 []
        else selection_chars l' line (column + 1) j (if isprint c then name ++ [c] else name)
      else mret tt
  end.
Definition parse_output_selection_file (selection_file : string) : P unit :=
  match om_fopen os selection_file with
  | inl en => fprintf "Could not open output selection file '%s' errno %d\n" [PS selection_file; PI en];; exit (-1)
  | inr l => selection_chars l 0 1 0 []
  end.

(** [strtok]: the non-empty pieces between separators. *)
Fixpoint tokens_ (sep : ascii -> bool) (s acc : string) : list string :=
  let found := if nonempty acc then [acc] else [] in
  match s with
  | EmptyString => found
  | String c s' => if sep c then found ++ tokens_ sep s' EmptyString else tokens_ sep s' (acc +:+ String c EmptyString)
  end.
Definition tokens (sep : ascii -> bool) (s : string) : list string := tokens_ sep s EmptyString.
Definition is_sep (c : ascii) : bool := ((cc c =? 32) || (cc c =? 44))%bool.
Fixpoint select_tokens (line j : Z) (l : list string) : P unit :=
  match l with
  | [] => mret tt
  | token :: l' =>
      debug ← debug_level;
      if j <? NETPERF_OUTPUT_MAX then
        let name := match_string_to_output_mnenomic token in
        if ((name =? NETPERF_OUTPUT_UNKNOWN) && truth debug)%bool then
          fprintf "Ignoring unknown output selector %d |%s| on line %d\n" [PI (j + 1); PS token; PI (line + 1)];;
          select_tokens line j l'
        else set_cell line j name;; add_group name;; select_tokens line (j + 1) l'
      else when (truth debug)
        (fprintf "There can be no more than %d output selectors per line. Ignoring remaining selectors on line %d\n"
           [PI NETPERF_OUTPUT_MAX; PI (line + 1)])
  end.
Definition parse_output_selection_line (line : Z) (list : string) : P unit :=
  if line <? 0 then fprintf "parse_output_selection_line called with negative line number %d\n" [PI line];; exit (-1)
  else if NETPERF_MAX_BLOCKS <=? line then
    debug ← debug_level;
    when (truth debug)
      (fprintf "There can be no more than %d output selection lines. Ignoring output selection line %d |%s|\n"
         [PI NETPERF_MAX_BLOCKS; PI (line + 1); PS list])
  else select_tokens line 0 (tokens is_sep list).
(** The parts between semicolons; every round goes on with a shorter text. *)
Fixpoint selection_parts (fuel : nat) (i : Z) (source : string) : P unit :=
  match fuel with
  | O => out_of_fuel
  | S f =>
      let '(line, rest) := split_at ";"%char source in
      let remainder := default EmptyString rest in
      when (nonempty line) (parse_output_selection_line i line);;
      if nonempty remainder then selection_parts f (i + 1) remainder else mret tt
  end.
Definition parse_output_selection_direct (output_selection : string) : P unit :=
  let len := strlen output_selection in
  if om_malloc os (len + 1) then selection_parts (S (String.length output_selection)) 0 output_selection
  else fprintf "Unable to malloc memory for output selection parsing\n" [];; exit (-1).

Definition NETPERF_TPUT : string := "ELAPSED_TIME,THROUGHPUT,THROUGHPUT_UNITS".
Definition NETPERF_OUTPUT_STREAM : string := "LSS_SIZE_END,RSR_SIZE_END,LOCAL_SEND_SIZE".
Definition NETPERF_OUTPUT_MAERTS : string := "RSS_SIZE_END,LSR_SIZE_END,REMOTE_SEND_SIZE".
Definition NETPERF_CPU : string := "LOCAL_CPU_UTIL,LOCAL_CPU_METHOD,REMOTE_CPU_UTIL,REMOTE_CPU_METHOD,LOCAL_SD,REMOTE_SD,SD_UNITS".
Definition NETPERF_RR : string := "LSS_SIZE_END,LSR_SIZE_END,RSR_SIZE_END,RSS_SIZE_END,REQUEST_SIZE,RESPONSE_SIZE".
Definition bits (x m : Z) : bool := truth (Z.land x m).
Definition NETPERF_XMIT_ONLY (x : Z) : bool := bits x NETPERF_XMIT && negb (bits x NETPERF_RECV).
Definition NETPERF_RECV_ONLY (x : Z) : bool := bits x NETPERF_RECV && negb (bits x NETPERF_XMIT).
Definition NETPERF_CC (x : Z) : bool := negb (bits x NETPERF_XMIT) && negb (bits x NETPERF_RECV).
Definition NETPERF_IS_RR (x : Z) : bool :=
  (bits x NETPERF_XMIT && bits x NETPERF_RECV) || negb (bits x NETPERF_XMIT || bits x NETPERF_RECV).

Definition set_output_list_by_test : P unit :=
  debug ← debug_level; when (truth debug) (fprintf "%s setting the output list by test\n" [PS "set_output_list_by_test"]);;
  direction ← sh (geti "direction");
  local_cpu ← sh (geti "local_cpu_usage"); remote_cpu ← sh (geti "remote_cpu_usage");
  let select (no_cpu : string) :=
    parse_output_selection_direct (no_cpu +:+ "," +:+ NETPERF_TPUT +:+
      (if truth local_cpu || truth remote_cpu then "," +:+ NETPERF_CPU else EmptyString)) in
  if NETPERF_XMIT_ONLY direction then select NETPERF_OUTPUT_STREAM
  else if NETPERF_RECV_ONLY direction then select NETPERF_OUTPUT_MAERTS
  else if NETPERF_CC direction then select NETPERF_RR
  else if NETPERF_IS_RR direction then select NETPERF_RR
  else
    when (truth debug) (fprintf "Cannot determine default test output, using mins\n" []);;
    parse_output_selection_direct (NETPERF_TPUT +:+ "," +:+ NETPERF_CPU).
Definition parse_output_selection (output_selection : string) : P unit :=
  debug ← debug_level;
  when (truth debug) (fprintf "%s is parsing the output selection '%s'\n" [PS "parse_output_selection"; PS output_selection]);;
  (if strcasecmp output_selection "all" then set_output_list_all
   else if strstr output_selection "," || strstr output_selection ";" ||
           negb (match_string_to_output_mnenomic output_selection =? NETPERF_OUTPUT_UNKNOWN)
   then parse_output_selection_direct output_selection
   else parse_output_selection_file output_selection);;
  when (2 <? debug) dump_netperf_output_list.
Definition print_omni_init : P unit :=
  debug ← debug_level; when (truth debug) (fprintf "%s entered\n" [PS "print_omni_init"]);;
  print_omni_init_list;;
  initialized ← sh (geti "printing_initialized");
  if truth initialized then mret tt
  else
    sh (seti "printing_initialized" 1);;
    set_list (replicate 4 (replicate (Z.to_nat NETPERF_OUTPUT_MAX) OUTPUT_END));;
    spec ← sh (getp "output_selection_spec");
    match spec with
    | Some s => parse_output_selection s
    | None => set_output_list_by_test
    end.

(** ** Showing *)

Definition read_value (t : output_type) (d : shown) : P value :=
  match t, d with
  | TCHAR, DText s => mret (VStr s)
  | TINT32, DCell n => z ← read_int n; mret (VInt (s32 z))
  | TUINT32, DCell n => z ← read_int n; mret (VInt (u32 z))
  | TINT64, DCell n => z ← read_int n; mret (VInt (wraps 64 z))
  | TUINT64, DCell n => z ← read_int n; mret (VInt (u64 z))
  | TDOUBLE, DCell n => x ← sh (getf n); mret (VDbl x)
  | _, _ => crash
  end.
(** The text [snprintf] makes, of which a buffer gets what fits. *)
Definition my_snprintf (e : elt) : P string :=
  match output_kind e with
  | TUNKNOWN | TFLOAT => efprintf "Unknown/unsupported output_elt output_type of %d\n" [PI (type_code (output_kind e))];; exit (-1)
  | t => v ← read_value t (display_value e); match format_value (format e) v with Some s => mret s | None => crash end
  end.
(** What [snprintf] writes to a buffer of some size: nothing, or text and a zero. *)
Definition fitting (size : Z) (s : string) : list Z :=
  if size <=? 0 then [] else take (Z.to_nat (size - 1)) (str_bytes s) ++ [0].
(** The test for a value before each use. *)
Definition has_value (e : elt) : bool := match display_value e with DNull => false | _ => true end.

(** The results of a block, up to the first [OUTPUT_END]. *)
Fixpoint until_end (l : list Z) : list Z :=
  match l with [] => [] | k :: l' => if k =? OUTPUT_END then [] else k :: until_end l' end.
Definition blocks : P (list (list Z)) := w ← getdev; mret (until_end <$> om_list w).
(** Statements for each result of a list, with a value carried along. *)
Fixpoint each {A} (f : Z -> A -> P A) (l : list Z) (a : A) : P A :=
  match l with [] => mret a | k :: l' => a ← f k a; each f l' a end.

(** *** Lines of values *)

Definition csv_width (k buflen : Z) : P Z :=
  e ← source k;
  vallen ← (if has_value e then s ← my_snprintf e; mret (strlen s + 1) else mret 0);
  when (tot_line_len e <? vallen) (update_source k (set_tot vallen));;
  e ← source k;
  mret (s32 (buflen + tot_line_len e)).
(** The ends of the headers and of the values, and the two buffers. *)
Definition csv_field (print_headers : Z) (k : Z) (a : Z * list Z * Z * list Z) : P (Z * list Z * Z * list Z) :=
  let '(h1, hdr1, v1, val1) := a in
  e ← source k;
  '(h1, hdr1) ← (if truth print_headers then
    '(h1, hdr1) ← copy_lines (used_lines (lines e)) h1 hdr1;
    hdr1 ← write (h1 - 1) [44] hdr1; mret (h1, hdr1)
  else mret (h1, hdr1));
  if has_value e then
    s ← my_snprintf e;
    val1 ← write v1 (fitting (tot_line_len e) s) val1;
    val1 ← write (v1 + strlen s) [44] val1;
    mret (h1, hdr1, v1 + strlen s + 1, val1)
  else
    val1 ← write v1 [44] val1; mret (h1, hdr1, v1 + 2, val1).
Definition print_omni_csv : P unit :=
  bs ← blocks;
  let ks := concat bs in
  buflen ← each csv_width ks 0;
  print_headers ← sh (geti "print_headers");
  if negb (om_malloc os (buflen + 1)) then fprintf "unable to allocate output buffers\n" [];; exit (-1)
  else
    let space := replicate (Z.to_nat (buflen + 1)) 32 in
    '(h1, hdr1, v1, val1) ← each (csv_field print_headers) ks (0, space, 0, space);
    hdr1 ← (if truth print_headers then write (h1 - 1) [0] hdr1 else mret hdr1);
    val1 ← write (v1 - 1) [0] val1;
    first ← cell 0 0;
    if first =? OUTPUT_END then mret tt
    else
      when (truth print_headers) (t ← c_text hdr1; printf (t +:+ nl));;
      t ← c_text val1; printf (t +:+ nl).

(** *** Keywords *)

Definition print_omni_keyword : P unit :=
  bs ← blocks;
  each (fun k _ =>
    e ← source k;
    if has_value e then
      s ← my_snprintf e;
      printf (netperf_output_enum_to_str k +:+ "=" +:+ cstr (fitting 1024 s) +:+ nl)
    else mret tt) (concat bs) tt.

(** *** Columns *)

Definition human_width (k buflen : Z) : P Z :=
  e ← source k;
  vallen ← (if has_value e then s ← my_snprintf e; mret (strlen s + 1) else mret 0);
  when (max_line_len e <? vallen) (update_source k (set_max vallen));;
  e ← source k;
  mret (s32 (buflen + max_line_len e + 1)).
Fixpoint human_size (bs : list (list Z)) (buflen_max : Z) : P Z :=
  match bs with
  | [] => mret buflen_max
  | b :: bs' => buflen ← each human_width b 0; human_size bs' (if buflen_max <? buflen then buflen else buflen_max)
  end.
(** The four header lines of one result at the same position of their buffers. *)
Fixpoint human_headers (e : elt) (k : nat) (h : Z) (hdr : list (list Z)) : P (list (list Z)) :=
  match hdr with
  | [] => mret []
  | b :: hdr' =>
      b ← write h (str_bytes (line_of e k)) b;
      hdr' ← human_headers e (S k) h hdr';
      mret (b :: hdr')
  end.
Definition human_field (k : Z) (a : Z * list (list Z) * list Z) : P (Z * list (list Z) * list Z) :=
  let '(h, hdr, val1) := a in
  e ← source k;
  hdr ← human_headers e 0 h hdr;
  val1 ← (if has_value e then
    s ← my_snprintf e;
    val1 ← write h (fitting (max_line_len e) s) val1;
    write (h + strlen s) [32] val1
  else mret val1);
  mret (h + max_line_len e + 1, hdr, val1).
Definition end_line (h : Z) (b : list Z) : P string := b ← write h [0] b; c_text b.
Definition human_block (print_headers buflen_max : Z) (i : Z) (ks : list Z) : P unit :=
  let space := replicate (Z.to_nat (buflen_max + 1)) 32 in
  '(h, hdr, val1) ← each human_field ks (0, if truth print_headers then replicate 4 space else [], space);
  hs ← mapM (end_line h) hdr;
  v ← end_line h val1;
  first ← cell i 0;
  if first =? OUTPUT_END then mret tt
  else
    when (0 <? i) (printf nl);;
    foldr (fun t rest => printf (t +:+ nl);; rest) (mret tt) hs;;
    printf (v +:+ nl).
Fixpoint human_blocks (print_headers buflen_max i : Z) (bs : list (list Z)) : P unit :=
  match bs with
  | [] => mret tt
  | b :: bs' => human_block print_headers buflen_max i b;; human_blocks print_headers buflen_max (i + 1) bs'
  end.
(** [malloc(0 + 1)] and more; the value's buffer is used without a test. *)
Definition print_omni_human : P unit :=
  bs ← blocks;
  buflen_max ← human_size bs 0;
  print_headers ← sh (geti "print_headers");
  if om_malloc os (buflen_max + 1) then human_blocks print_headers buflen_max 0 bs
  else if truth print_headers then fprintf "Unable to allocate output buffers\n" [];; exit (-1)
  else crash.

Definition HUMAN : Z := 0.
Definition CSV : Z := 1.
Definition KEYVAL : Z := 2.
Definition print_omni : P unit :=
  print_omni_init;;
  debug ← debug_level; when (2 <? debug) dump_netperf_output_source;;
  mode ← sh (geti "netperf_output_mode");
  if mode =? CSV then print_omni_csv
  else if mode =? KEYVAL then print_omni_keyword
  else if mode =? HUMAN then print_omni_human
  else fprintf "Yo Rick! There is a bug in netperf_output_mode!\n" [];; exit (-1).
End omni.
