(* ===== verification/NpOmniOk.v ===== *)
(** * The properties of netperf's omni results

    The table of results, the three ways to show them, and their selection. *)

From stdpp Require Import base list strings numbers gmap.
From Stdlib Require Import ZArith Lia Ascii SpecFloat.
From S2P Require Import Prelude CInt CLib CLibOk CFmt FloatTools NpLib NpSh NpServer NpOk NpOmni.

(** ** The table as a function of the variables *)

Definition display_of (w : sh_w) (p : pointer) : shown :=
  match p with
  | Null => DNull
  | Lit s => DText s
  | Arr n => DText (default EmptyString (sh_str w !! n))
  | Ptr n => match sh_ptr w !! n with Some s => DText s | None => DNull end
  | Addr n => DCell n
  end.
Definition made (w : sh_w) (a : elt_args) : elt :=
  let l := [a_line0 a; a_line1 a; a_line2 a; a_line3 a] in
  mk_elt (enum (a_name a)) (NETPERF_LINE_MAX l) (NETPERF_LINE_TOT l) l EmptyString (a_format a) (display_of w (a_value a))
    (a_type a) (a_default a) (a_group a).
Definition blanks : list elt := blank_elt <$> seqZ 0 NETPERF_OUTPUT_MAX.
Definition place (w : sh_w) (t : list elt) (a : elt_args) : list elt := <[Z.to_nat (enum (a_name a)) := made w a]> t.
Definition table (w : sh_w) : list elt := foldl (place w) blanks omni_elts.

Definition int_of (w : sh_w) (n : string) : Z :=
  if streq n "local_proc_affinity" then np_local_affinity (sh_np w)
  else if streq n "remote_proc_affinity" then np_remote_affinity (sh_np w)
  else default 0 (sh_int w !! n).
Definition value_of (w : sh_w) (t : output_type) (d : shown) : option value :=
  match t, d with
  | TCHAR, DText s => Some (VStr s)
  | TINT32, DCell n => Some (VInt (s32 (int_of w n)))
  | TUINT32, DCell n => Some (VInt (u32 (int_of w n)))
  | TINT64, DCell n => Some (VInt (wraps 64 (int_of w n)))
  | TUINT64, DCell n => Some (VInt (u64 (int_of w n)))
  | TDOUBLE, DCell n => Some (VDbl (default fzero (sh_flt w !! n)))
  | _, _ => None
  end.
Definition text_of (w : sh_w) (e : elt) : option string := v ← value_of w (output_kind e) (display_value e); format_value (format e) v.

(** A conversion succeeds for all values of a kind or for none. *)
Definition kind_sample (t : output_type) : option value :=
  match t with
  | TUNKNOWN | TFLOAT => None
  | TCHAR => Some (VStr EmptyString)
  | TDOUBLE => Some (VDbl fzero)
  | _ => Some (VInt 0)
  end.
Definition same_kind (v v' : value) : Prop :=
  match v, v' with VInt _, VInt _ | VDbl _, VDbl _ | VStr _, VStr _ => True | _, _ => False end.
Lemma conversion_kind p p' c v v' : same_kind v v' -> is_Some (conversion p c v) -> is_Some (conversion p' c v').
Proof.
  destruct v, v'; try done; intros _ [r H]; destruct c as [[] [] [] [] [] [] [] []]; cbn in *; try discriminate H; by eexists.
Qed.
Definition same_prec (p p' : option Z) : Prop := is_Some p <-> is_Some p'.
Lemma in_conversion_kind f : forall p p' v v', same_prec p p' -> same_kind v v' ->
  is_Some (in_conversion p f v) -> is_Some (in_conversion p' f v').
Proof.
  induction f as [|c f IH]; intros p p' v v' Hp Hk H; cbn [in_conversion] in *; [done|].
  destruct (cc c =? 46); [eapply IH; [|done|done]; done|].
  destruct (cc c =? 108); [by eapply IH|].
  unfold same_prec in Hp. destruct p as [n|], p' as [n'|];
    [|exfalso; destruct Hp as [Hp _]; by destruct (Hp (ex_intro _ n eq_refl))|
     exfalso; destruct Hp as [_ Hp]; by destruct (Hp (ex_intro _ n' eq_refl))|].
  - destruct (isdigit c); [eapply IH; [|done|done]; done|].
    apply fmap_is_Some. apply fmap_is_Some in H. by eapply conversion_kind.
  - apply fmap_is_Some. apply fmap_is_Some in H. by eapply conversion_kind.
Qed.
Lemma format_kind f v v' : same_kind v v' -> is_Some (format_value f v) -> is_Some (format_value f v').
Proof.
  intros Hk. induction f as [|c f IH]; cbn [format_value]; [done|].
  destruct (cc c =? 37); [by apply in_conversion_kind|]. rewrite !fmap_is_Some. done.
Qed.

(** A row whose format, pointer and type belong together, with a first line. *)
Definition row_typed (a : elt_args) : bool :=
  match a_value a, a_type a with
  | Null, TCHAR | Lit _, TCHAR | Arr _, TCHAR | Ptr _, TCHAR => true
  | Addr _, (TINT32 | TUINT32 | TINT64 | TUINT64 | TDOUBLE) => true
  | _, _ => false
  end &&
  match kind_sample (a_type a) with Some v => bool_decide (is_Some (format_value (a_format a) v)) | None => false end &&
  nonempty (a_line0 a) && (0 <=? enum (a_name a)) && (enum (a_name a) <? NETPERF_OUTPUT_MAX).
Lemma rows_typed : forallb row_typed omni_elts = true.
Proof. vm_compute. reflexivity. Qed.
Lemma all_named : forallb (fun k => existsb (fun a => enum (a_name a) =? k) omni_elts) (seqZ 1 (NETPERF_OUTPUT_MAX - 1)) = true.
Proof. vm_compute. reflexivity. Qed.

Lemma made_text w a : row_typed a = true -> has_value (made w a) = true -> is_Some (text_of w (made w a)).
Proof.
  unfold row_typed. rewrite !andb_true_iff. intros ((((Hp & Hf) & _) & _) & _).
  unfold has_value, text_of, made. cbn [display_value output_kind format].
  destruct (a_value a), (a_type a); try discriminate Hp; cbn [display_of value_of kind_sample] in *; try done;
    apply bool_decide_eq_true in Hf; try (intros _; by eapply format_kind; [|exact Hf]).
  destruct (sh_ptr w !! n); [|done]. intros _. by eapply format_kind; [|exact Hf].
Qed.

Lemma place_lookup w l : forall t k e, foldl (place w) t l !! k = Some e ->
  t !! k = Some e \/ exists a, a ∈ l /\ Z.to_nat (enum (a_name a)) = k /\ e = made w a.
Proof.
  induction l as [|a l IH] using rev_ind; intros t k e H; [by left|].
  rewrite foldl_snoc in H. unfold place in H at 1. destruct (decide (Z.to_nat (enum (a_name a)) = k)) as [<-|Hne].
  - apply list_lookup_insert_Some in H as [(_ & <- & _)|(Hne & _)]; [|done]. right. exists a. split; [set_solver|done].
  - rewrite list_lookup_insert_ne in H by done. destruct (IH _ _ _ H) as [|(a' & Hin & Hk & He)]; [by left|].
    right. exists a'. split; [set_solver|done].
Qed.
Lemma place_named w l t (k : nat) a : a ∈ l -> Z.to_nat (enum (a_name a)) = k -> (k < length t)%nat ->
  exists a', a' ∈ l /\ Z.to_nat (enum (a_name a')) = k /\ foldl (place w) t l !! k = Some (made w a').
Proof.
  intros Hin Hk Hl. assert (forall t', length (foldl (place w) t' l) = length t') as Hlen.
  { clear. induction l as [|a l IH]; intros t'; [done|]. cbn [foldl]. rewrite IH. apply length_insert. }
  revert t Hl Hlen Hin. induction l as [|b l IH] using rev_ind; intros t Hl Hlen Hin; [by apply not_elem_of_nil in Hin|].
  rewrite foldl_snoc. unfold place at 1.
  assert (length (foldl (place w) t l) = length t) as Hlen'.
  { specialize (Hlen t). rewrite foldl_snoc in Hlen. unfold place in Hlen at 1. by rewrite length_insert in Hlen. }
  destruct (decide (Z.to_nat (enum (a_name b)) = k)) as [Hb|Hb].
  - exists b. split; [set_solver|]. split; [done|]. rewrite Hb. apply list_lookup_insert_eq. lia.
  - assert (a ∈ l) as Ha. { apply elem_of_app in Hin as [|Hin]; [done|]. apply list_elem_of_singleton in Hin as ->. done. }
    rewrite list_lookup_insert_ne by done.
    destruct (IH t) as (a' & Ha' & Hk' & E); [done| |done|].
    + intros t'. specialize (Hlen t'). rewrite foldl_snoc in Hlen. unfold place in Hlen at 1. by rewrite length_insert in Hlen.
    + exists a'. split; [set_solver|done].
Qed.

(** What is known of the rows of the table. *)
Definition no_value_of (w : sh_w) (e : elt) : Prop := has_value e = false \/ is_Some (text_of w e).
Lemma blanks_lookup k e : blanks !! k = Some e -> exists i, e = blank_elt i.
Proof. unfold blanks. rewrite list_lookup_fmap. intros (i & _ & ->)%fmap_Some. by exists i. Qed.
Lemma blanks_length : length blanks = Z.to_nat NETPERF_OUTPUT_MAX.
Proof. reflexivity. Qed.
Lemma table_length w : length (table w) = Z.to_nat NETPERF_OUTPUT_MAX.
Proof.
  unfold table. rewrite <- blanks_length. generalize blanks. induction omni_elts as [|a l IH]; intros t; [done|].
  cbn [foldl]. rewrite IH. apply length_insert.
Qed.
Lemma row_of a : a ∈ omni_elts -> row_typed a = true.
Proof. intros H. pose proof rows_typed as Hf. rewrite forallb_forall in Hf. apply Hf. by apply list_elem_of_In. Qed.
Lemma table_text w k e : table w !! k = Some e -> has_value e = true -> is_Some (text_of w e).
Proof.
  intros He Hv. apply place_lookup in He as [(i & ->)%blanks_lookup|(a & Ha & _ & ->)]; [done|].
  apply made_text; [by apply row_of|done].
Qed.
Lemma table_named w k : 1 <= k < NETPERF_OUTPUT_MAX -> exists a, a ∈ omni_elts /\ table w !! Z.to_nat k = Some (made w a).
Proof.
  intros Hk. pose proof all_named as H. rewrite forallb_forall in H. specialize (H k).
  destruct (proj1 (existsb_exists _ _) (H ltac:(apply list_elem_of_In, elem_of_seqZ; lia))) as (a & Ha & E).
  apply Z.eqb_eq in E. destruct (place_named w omni_elts blanks (Z.to_nat k) a) as (a' & Ha' & _ & E');
    [by apply list_elem_of_In|by rewrite E|rewrite blanks_length; lia|]. exists a'. exact (conj Ha' E').
Qed.

#[local] Opaque table omni_elts.

(** The next command of a sequence, when its run is known. *)
Ltac run E := rewrite (bind_ret_run _ _ _ _ _ E).
Lemma quiet {W} m (s : st W) : when (truth 0) m s = (Ret tt, s).
Proof. done. Qed.
Lemma getdev_run {W} o (w : W) : getdev (mkst o w) = (Ret w, mkst o w).
Proof. done. Qed.

Section omni.
Context `{DM : DataModel} (os : om_os).
Implicit Types (w : sh_w) (src : list elt) (lst : list (list Z)) (o : list msg).

Lemma debug_run o w src lst : debug_level (mkst o (mk_om w src lst)) = (Ret (np_debug (sh_np w)), mkst o (mk_om w src lst)).
Proof. done. Qed.
Lemma geti_run n o w src lst : sh (geti n) (mkst o (mk_om w src lst)) = (Ret (default 0 (sh_int w !! n)), mkst o (mk_om w src lst)).
Proof. done. Qed.
Lemma getp_run n o w src lst : sh (getp n) (mkst o (mk_om w src lst)) = (Ret (sh_ptr w !! n), mkst o (mk_om w src lst)).
Proof. done. Qed.

Lemma display_run p o w src lst : display p (mkst o (mk_om w src lst)) = (Ret (display_of w p), mkst o (mk_om w src lst)).
Proof. by destruct p. Qed.

Lemma elem_run {W A} (l : list A) k e (s : st W) : 0 <= k -> l !! Z.to_nat k = Some e -> elem l k s = (Ret e, s).
Proof. intros Hk H. unfold elem. by rewrite (proj2 (Z.ltb_ge k 0)), H by done. Qed.

Lemma source_run k e o w src lst : 0 <= k -> src !! Z.to_nat k = Some e ->
  source k (mkst o (mk_om w src lst)) = (Ret e, mkst o (mk_om w src lst)).
Proof. intros Hk H. unfold source. run (getdev_run o (mk_om w src lst)). by apply elem_run. Qed.

Lemma update_run k f e o w src lst : 0 <= k -> src !! Z.to_nat k = Some e ->
  update_source k f (mkst o (mk_om w src lst)) = (Ret tt, mkst o (mk_om w (<[Z.to_nat k := f e]> src) lst)).
Proof.
  intros Hk H. unfold update_source. run (getdev_run o (mk_om w src lst)). cbn [om_source].
  run (elem_run _ _ _ (mkst o (mk_om w src lst)) Hk H). done.
Qed.

Lemma cell_run i j row k o w src lst : 0 <= i -> 0 <= j -> lst !! Z.to_nat i = Some row -> row !! Z.to_nat j = Some k ->
  cell i j (mkst o (mk_om w src lst)) = (Ret k, mkst o (mk_om w src lst)).
Proof.
  intros Hi Hj Hr Hk. unfold cell. run (getdev_run o (mk_om w src lst)). cbn [om_list].
  run (elem_run _ _ _ (mkst o (mk_om w src lst)) Hi Hr). by apply elem_run.
Qed.

Lemma set_elt_run a e o w src lst : 0 <= enum (a_name a) -> src !! Z.to_nat (enum (a_name a)) = Some e -> brief e = EmptyString ->
  set_output_elt a (mkst o (mk_om w src lst)) = (Ret tt, mkst o (mk_om w (place w src a) lst)).
Proof.
  intros Hk He Hb. unfold set_output_elt. run (display_run (a_value a) o w src lst). cbv zeta.
  rewrite (update_run _ _ _ _ _ _ _ Hk He). unfold place, made. by rewrite Hb.
Qed.

Lemma set_elts_run l o w src lst : (forall a, a ∈ l -> row_typed a = true) -> length src = Z.to_nat NETPERF_OUTPUT_MAX ->
  (forall k e, src !! k = Some e -> brief e = EmptyString) ->
  foldr (fun a rest => set_output_elt a;; rest) (mret tt) l (mkst o (mk_om w src lst)) =
  (Ret tt, mkst o (mk_om w (foldl (place w) src l) lst)).
Proof.
  revert src. induction l as [|a l IH]; intros src Ht Hl Hb; [done|]. cbn [foldr foldl].
  pose proof (Ht a ltac:(set_solver)) as Ha. unfold row_typed in Ha. rewrite !andb_true_iff in Ha. destruct Ha as ((_ & H0) & H1).
  apply Z.leb_le in H0. apply Z.ltb_lt in H1.
  destruct (lookup_lt_is_Some_2 src (Z.to_nat (enum (a_name a)))) as [e He]; [lia|].
  run (set_elt_run a e o w src lst H0 He (Hb _ _ He)). apply IH.
  - intros b Hbl. apply Ht. set_solver.
  - unfold place. by rewrite length_insert.
  - intros k e' H. unfold place in H. apply list_lookup_insert_Some in H as [(_ & <- & _)|(_ & H)]; [done|by eapply Hb].
Qed.

Lemma init_list_run o w src lst : np_debug (sh_np w) = 0 ->
  print_omni_init_list (mkst o (mk_om w src lst)) = (Ret tt, mkst o (mk_om w (table w) lst)).
Proof.
  intros Hd. unfold print_omni_init_list. run (debug_run o w src lst). rewrite Hd.
  run (quiet (fprintf "%s called\n" [PS "print_omni_init_list"]) (mkst o (mk_om w src lst))).
  change (blank_elt <$> seqZ 0 NETPERF_OUTPUT_MAX) with blanks.
  run (eq_refl : set_source blanks (mkst o (mk_om w src lst)) = (Ret tt, mkst o (mk_om w blanks lst))).
  apply set_elts_run; [apply row_of|apply blanks_length|].
  intros k e H. by apply blanks_lookup in H as [i ->].
Qed.

Lemma snprintf_run e t o w src lst : text_of w e = Some t ->
  my_snprintf e (mkst o (mk_om w src lst)) = (Ret t, mkst o (mk_om w src lst)).
Proof.
  unfold text_of, my_snprintf. intros H. apply bind_Some in H as (v & Hv & Hf).
  assert (read_value (output_kind e) (display_value e) (mkst o (mk_om w src lst)) = (Ret v, mkst o (mk_om w src lst))) as E.
  { destruct (output_kind e), (display_value e); try discriminate Hv; injection Hv as <-; unfold read_value, read_int, int_of;
      try reflexivity; by destruct (streq n "local_proc_affinity"), (streq n "remote_proc_affinity"). }
  destruct (output_kind e); try discriminate Hv; run E; by rewrite Hf.
Qed.

(** ** Writing into a block of spaces *)

Lemma write_run off d b (s : st om_w) : 0 <= off -> off + Z.of_nat (length d) <= Z.of_nat (length b) ->
  write off d b s = (Ret (put_bytes (Z.to_nat off) d b), s).
Proof.
  intros H1 H2. unfold write. by rewrite (proj2 (Z.leb_le 0 off)), (proj2 (Z.leb_le _ (Z.of_nat (length b)))) by done.
Qed.


Lemma put_spaced a d n : (length d <= n)%nat ->
  put_bytes (length a) d (a ++ replicate n 32) = a ++ d ++ replicate (n - length d) 32.
Proof.
  intros H. unfold put_bytes. rewrite take_app_length. f_equal. f_equal.
  rewrite drop_app_ge by lia. replace (length a + length d - length a)%nat with (length d) by lia. apply drop_replicate.
Qed.
Lemma write_spaced h a d n (s : st om_w) : h = Z.of_nat (length a) -> (length d <= n)%nat ->
  write h d (a ++ replicate n 32) s = (Ret (a ++ d ++ replicate (n - length d) 32), s).
Proof.
  intros -> H. rewrite write_run by (rewrite ?length_app, ?length_replicate; lia). by rewrite Nat2Z.id, put_spaced.
Qed.

Lemma cstr_stop l r : cstr (l ++ 0 :: r) = cstr l.
Proof. induction l as [|b l IH]; [done|]. cbn. by rewrite IH. Qed.
Definition visible (s : string) : string := cstr (str_bytes s).
Lemma visible_c_string s : c_string s -> visible s = s.
Proof. apply cstr_exact. Qed.

Lemma end_line_run h a n (s : st om_w) : h = Z.of_nat (length a) -> (1 <= n)%nat ->
  end_line h (a ++ replicate n 32) s = (Ret (cstr a), s).
Proof.
  intros Hh Hn. unfold end_line. run (write_spaced h a [0] n s Hh Hn). unfold c_text.
  rewrite bool_decide_true by set_solver. exact (f_equal (fun t => (Ret t, s)) (cstr_stop a _)).
Qed.

(** *** Columns *)

Definition col w (k : Z) : elt := default (blank_elt k) (table w !! Z.to_nat k).
Definition text w (e : elt) : string := default EmptyString (text_of w e).
Definition vallen w (e : elt) : Z := if has_value e then strlen (text w e) + 1 else 0.
Definition width w (e : elt) : Z := Z.max (max_line_len e) (vallen w e).
Definition total w (ks : list Z) : Z := foldr (fun k t => width w (col w k) + 1 + t) 0 ks.
(** One line: the columns with their widths. *)
Definition row_text w (f : elt -> string) (ks : list Z) : string :=
  foldr (fun k t => pad_right (width w (col w k) + 1) (f (col w k)) +:+ t) EmptyString ks.

Lemma col_lookup w k : 0 <= k < NETPERF_OUTPUT_MAX -> table w !! Z.to_nat k = Some (col w k).
Proof.
  intros Hk. unfold col. destruct (lookup_lt_is_Some_2 (table w) (Z.to_nat k)) as [e He]; [rewrite table_length; lia|]. by rewrite He.
Qed.
Lemma col_text w k : 0 <= k < NETPERF_OUTPUT_MAX -> has_value (col w k) = true -> text_of w (col w k) = Some (text w (col w k)).
Proof. intros Hk Hv. unfold text. by destruct (table_text w _ _ (col_lookup w k Hk) Hv) as [t ->]. Qed.
Lemma col_width_nonneg w k : 0 <= vallen w (col w k).
Proof. unfold vallen. destruct has_value; [|done]. pose proof (strlen_nonneg (text w (col w k))). lia. Qed.

(** The table while the sizes of what is listed are being found: the rows of [V]
    have been changed by [g]. *)
Definition adjusted (g : elt -> elt) w (V : list Z) src : Prop := forall k, 0 <= k < NETPERF_OUTPUT_MAX ->
  src !! Z.to_nat k = Some (if bool_decide (k ∈ V) then g (col w k) else col w k).
Lemma adjusted_init g w : adjusted g w [] (table w).
Proof. intros k Hk. rewrite bool_decide_false by apply not_elem_of_nil. by apply col_lookup. Qed.
Lemma adjusted_same g w V V' src : (forall k, k ∈ V <-> k ∈ V') -> adjusted g w V src -> adjusted g w V' src.
Proof. intros HV H k Hk. rewrite H by done. by rewrite (bool_decide_ext (k ∈ V') (k ∈ V)). Qed.

Lemma adjusted_step g w V src k : 0 <= k < NETPERF_OUTPUT_MAX -> adjusted g w V src ->
  adjusted g w (k :: V) (<[Z.to_nat k := g (col w k)]> src).
Proof.
  intros Hk H k' Hk'. destruct (decide (k' = k)) as [->|Hne].
  - rewrite list_lookup_insert_eq by (eapply lookup_lt_Some; by apply H). by rewrite bool_decide_true by set_solver.
  - rewrite list_lookup_insert_ne, H by (done || lia).
    by rewrite (bool_decide_ext (k' ∈ k :: V) (k' ∈ V)) by set_solver.
Qed.
Lemma adjusted_fixed g w V src k : 0 <= k < NETPERF_OUTPUT_MAX -> adjusted g w V src ->
  src !! Z.to_nat k = Some (g (col w k)) -> adjusted g w (k :: V) src.
Proof.
  intros Hk H Hs k' Hk'. destruct (decide (k' = k)) as [->|Hne]; [by rewrite Hs, bool_decide_true by set_solver|].
  rewrite H by done. by rewrite (bool_decide_ext (k' ∈ k :: V) (k' ∈ V)) by set_solver.
Qed.

(** [human_width] and [csv_width]: a member of the row grows to the size of the
    value, and the sum of the members, with [c] more for each, is carried along. *)
Definition grow (get : elt -> Z) (set : Z -> elt -> elt) (fin : Z -> Z -> Z) (k b : Z) : M om_w Z :=
  e ← source k;
  vallen ← (if has_value e then s ← my_snprintf e; mret (strlen s + 1) else mret 0);
  when (get e <? vallen) (update_source k (set vallen));;
  e ← source k;
  mret (fin b (get e)).
Record growth (get : elt -> Z) (set : Z -> elt -> elt) (fin : Z -> Z -> Z) (c : Z) : Prop := {
  g_get : forall z e, get (set z e) = z;
  g_same : forall e, set (get e) e = e;
  g_set : forall z z' e, set z (set z' e) = set z e;
  g_text : forall w z e, text_of w (set z e) = text_of w e;
  g_has : forall z e, has_value (set z e) = has_value e;
  g_fin : forall b m, fin b m = s32 (b + m + c);
  g_nonneg : 0 <= c
}.
Lemma growth_human : growth max_line_len set_max (fun b m => s32 (b + m + 1)) 1.
Proof. split; try done. by intros []. Qed.
Lemma growth_csv : growth tot_line_len set_tot (fun b m => s32 (b + m)) 0.
Proof. split; try done; [by intros []|]. intros b m. by rewrite Z.add_0_r. Qed.

Section grow.
Context (get : elt -> Z) (set : Z -> elt -> elt) (fin : Z -> Z -> Z) (c : Z) (G : growth get set fin c).
(** The size of a row, the row with it, and the sum. *)
Definition size w (e : elt) : Z := Z.max (get e) (vallen w e).
Definition sized w (e : elt) : elt := set (size w e) e.
Definition sum w (ks : list Z) : Z := foldr (fun k t => size w (col w k) + c + t) 0 ks.

Lemma size_nonneg w k : 0 <= size w (col w k).
Proof. unfold size. pose proof (col_width_nonneg w k). lia. Qed.
Lemma sum_nonneg w ks : 0 <= sum w ks.
Proof.
  induction ks as [|k ks IH]; [done|]. cbn [sum foldr]. fold (sum w ks). pose proof (size_nonneg w k). pose proof (g_nonneg _ _ _ _ G). lia.
Qed.

Lemma grow_run k b V o w src lst : 0 <= k < NETPERF_OUTPUT_MAX -> adjusted (sized w) w V src -> exists src',
  grow get set fin k b (mkst o (mk_om w src lst)) = (Ret (s32 (b + size w (col w k) + c)), mkst o (mk_om w src' lst)) /\
  adjusted (sized w) w (k :: V) src'.
Proof.
  intros Hk H. pose proof (H k Hk) as Hs. set (e := if bool_decide (k ∈ V) then _ else _) in Hs.
  assert (text_of w e = text_of w (col w k) /\ has_value e = has_value (col w k) /\
          (get e = get (col w k) \/ get e = size w (col w k)) /\ set (size w (col w k)) e = sized w (col w k)) as (Ht & Hv & Hm & He).
  { subst e. unfold sized. case_bool_decide.
    - rewrite (g_text _ _ _ _ G), (g_has _ _ _ _ G), (g_get _ _ _ _ G), (g_set _ _ _ _ G). split_and!; try exact eq_refl. right. exact eq_refl.
    - split_and!; try exact eq_refl. left. exact eq_refl. }
  unfold grow. run (source_run k e o w src lst ltac:(lia) Hs). rewrite Hv.
  assert ((if has_value (col w k) then s ← my_snprintf e; mret (strlen s + 1) else mret 0) (mkst o (mk_om w src lst)) =
          (Ret (vallen w (col w k)), mkst o (mk_om w src lst))) as E.
  { unfold vallen. destruct (has_value (col w k)) eqn:Hh; [|done].
    run (snprintf_run e _ o w src lst (eq_trans Ht (col_text w k Hk Hh))). done. }
  run E. destruct (get e <? vallen w (col w k)) eqn:Hlt.
  - apply Z.ltb_lt in Hlt. assert (vallen w (col w k) = size w (col w k)) as Hw by (unfold size in *; lia).
    unfold when. run (update_run k (set (vallen w (col w k))) e o w src lst ltac:(lia) Hs).
    rewrite Hw, He. set (src' := <[_ := _]> src). assert (adjusted (sized w) w (k :: V) src') as Hn by by apply adjusted_step.
    assert (src' !! Z.to_nat k = Some (sized w (col w k))) as Hs' by (apply list_lookup_insert_eq; by eapply lookup_lt_Some).
    exists src'. run (source_run k _ o w src' lst ltac:(lia) Hs'). split; [|done].
    unfold sized. by rewrite (g_get _ _ _ _ G), (g_fin _ _ _ _ G).
  - apply Z.ltb_ge in Hlt.
    run (eq_refl : when false (update_source k (set (vallen w (col w k)))) (mkst o (mk_om w src lst)) = (Ret tt, mkst o (mk_om w src lst))).
    run (source_run k e o w src lst ltac:(lia) Hs). assert (get e = size w (col w k)) as Hw.
    { unfold size in *. pose proof (col_width_nonneg w k). lia. }
    exists src. split; [by rewrite Hw, (g_fin _ _ _ _ G)|]. apply adjusted_fixed; [done|done|]. rewrite Hs. f_equal.
    rewrite <- He, <- Hw. symmetry. apply (g_same _ _ _ _ G).
Qed.

Lemma each_grow_run ks : forall b V o w src lst, Forall (fun k => 0 <= k < NETPERF_OUTPUT_MAX) ks -> adjusted (sized w) w V src ->
  0 <= b -> b + sum w ks < 2 ^ 31 -> exists src',
  each (grow get set fin) ks b (mkst o (mk_om w src lst)) = (Ret (b + sum w ks), mkst o (mk_om w src' lst)) /\ adjusted (sized w) w (ks ++ V) src'.
Proof.
  induction ks as [|k ks IH]; intros b V o w src lst Hr H Hb Hs.
  - exists src. split; [|done]. cbn [each sum foldr]. by rewrite Z.add_0_r.
  - apply Forall_cons_iff in Hr as [Hk Hr]. cbn [each]. cbn [sum foldr] in Hs. fold (sum w ks) in Hs.
    pose proof (sum_nonneg w ks) as Ht. pose proof (size_nonneg w k) as Hw. pose proof (g_nonneg _ _ _ _ G) as Hc.
    destruct (grow_run k b V o w src lst Hk H) as (src1 & E & H1). run E.
    unfold s32. rewrite wraps_small by lia.
    destruct (IH (b + size w (col w k) + c) (k :: V) o w src1 lst Hr H1) as (src2 & E2 & H2); [lia|lia|].
    exists src2. rewrite E2. split.
    + do 2 f_equal. cbn [sum foldr]. fold (sum w ks). lia.
    + eapply adjusted_same; [|exact H2]. set_solver.
Qed.
End grow.

Definition widen w (e : elt) : elt := set_max (width w e) e.
Abbreviation widened w := (adjusted (widen w) w).
Definition in_range (ks : list Z) : Prop := Forall (fun k => 0 <= k < NETPERF_OUTPUT_MAX) ks.
Lemma width_nonneg w k : 0 <= width w (col w k).
Proof. apply (size_nonneg max_line_len). Qed.
Lemma row_total_nonneg w ks : 0 <= total w ks.
Proof. apply (sum_nonneg _ _ _ _ growth_human). Qed.

Lemma each_width_run ks b V o w src lst : in_range ks -> widened w V src -> 0 <= b -> b + total w ks < 2 ^ 31 -> exists src',
  each human_width ks b (mkst o (mk_om w src lst)) = (Ret (b + total w ks), mkst o (mk_om w src' lst)) /\ widened w (ks ++ V) src'.
Proof. exact (each_grow_run _ _ _ _ growth_human ks b V o w src lst). Qed.

Definition largest w (bs : list (list Z)) (m : Z) : Z := foldl (fun m ks => Z.max m (total w ks)) m bs.
Lemma human_size_run bs : forall m V o w src lst, Forall in_range bs -> widened w V src ->
  Forall (fun ks => total w ks < 2 ^ 31) bs -> exists src' V',
  human_size bs m (mkst o (mk_om w src lst)) = (Ret (largest w bs m), mkst o (mk_om w src' lst)) /\
  widened w V' src' /\ (forall k, k ∈ V \/ k ∈ concat bs -> k ∈ V').
Proof.
  induction bs as [|ks bs IH]; intros m V o w src lst Hr H Hs.
  - exists src, V. split; [done|]. split; [done|]. set_solver.
  - apply Forall_cons_iff in Hr as [Hk Hr]. apply Forall_cons_iff in Hs as [Ht Hs]. cbn [human_size].
    destruct (each_width_run ks 0 V o w src lst Hk H) as (src1 & E & H1); [lia|lia|]. run E. rewrite Z.add_0_l.
    destruct (IH (Z.max m (total w ks)) (ks ++ V) o w src1 lst Hr H1 Hs) as (src2 & V2 & E2 & H2 & Hv).
    exists src2, V2. split; [|split; [done|]].
    + replace (if m <? total w ks then total w ks else m) with (Z.max m (total w ks))
        by (destruct (Z.ltb_spec m (total w ks)); lia). exact E2.
    + cbn [concat]. intros k Hin. apply Hv. set_solver.
Qed.
Lemma largest_spec w bs : forall m, m <= largest w bs m /\ Forall (fun ks => total w ks <= largest w bs m) bs.
Proof.
  induction bs as [|ks bs IH]; intros m; cbn [largest foldl]; [split; [lia|constructor]|].
  destruct (IH (Z.max m (total w ks))) as [H1 H2]. fold (largest w bs (Z.max m (total w ks))). split; [lia|].
  constructor; [lia|done].
Qed.
Lemma largest_bound w bs : forall m, m < 2 ^ 31 -> Forall (fun ks => total w ks < 2 ^ 31) bs -> largest w bs m < 2 ^ 31.
Proof.
  induction bs as [|ks bs IH]; intros m Hm H; [done|]. apply Forall_cons_iff in H as [H1 H2]. cbn [largest foldl]. apply IH; [lia|done].
Qed.

(** *** The buffers of a block *)

Definition cell_bytes w (f : elt -> string) (k : Z) : list Z := str_bytes (pad_right (width w (col w k) + 1) (f (col w k))).
Definition row_bytes w f (ks : list Z) : list Z := ks ≫= cell_bytes w f.
Lemma nchars_bytes n c : str_bytes (nchars n c) = replicate n (cc c).
Proof. induction n as [|n IH]; [done|]. cbn. by rewrite IH. Qed.
Lemma bytes_len s : Z.of_nat (length (str_bytes s)) = strlen s.
Proof. by rewrite str_bytes_length, strlen_length. Qed.
Lemma pad_bytes wd s : str_bytes (pad_right wd s) = str_bytes s ++ replicate (Z.to_nat (wd - strlen s)) 32.
Proof. unfold pad_right. by rewrite str_bytes_app, nchars_bytes. Qed.
Lemma row_is_bytes w f ks : str_bytes (row_text w f ks) = row_bytes w f ks.
Proof. induction ks as [|k ks IH]; [done|]. cbn [row_text foldr]. rewrite str_bytes_app. unfold row_bytes. cbn. f_equal. exact IH. Qed.

(** One piece, padded: what is written before it and how much room is left. *)
Lemma pad_room a s wd n : strlen s <= wd -> (Z.to_nat wd <= n)%nat ->
  a ++ str_bytes s ++ replicate (n - length (str_bytes s)) 32 = (a ++ str_bytes (pad_right wd s)) ++ replicate (n - Z.to_nat wd) 32.
Proof.
  intros H1 H2. rewrite <- app_assoc, pad_bytes, <- app_assoc. do 2 f_equal. rewrite <- replicate_add. f_equal.
  pose proof (bytes_len s). pose proof (strlen_nonneg s). lia.
Qed.

Definition cell_text w (e : elt) : string := if has_value e then text w e else EmptyString.
Definition heading (j : nat) (e : elt) : string := line_of e j.

Lemma line_max l j : strlen (default EmptyString (l !! j)) <= NETPERF_LINE_MAX l.
Proof.
  revert j. induction l as [|s l IH]; intros j; cbn [NETPERF_LINE_MAX foldr]; [rewrite lookup_nil; cbn; lia|].
  fold (NETPERF_LINE_MAX l). destruct j as [|j]; [cbn [lookup list_lookup default]; change (strlen s <= strlen s `max` NETPERF_LINE_MAX l); lia|].
  specialize (IH j). change ((s :: l) !! S j) with (l !! j). lia.
Qed.
Lemma heading_width w k j : 0 <= k < NETPERF_OUTPUT_MAX -> strlen (heading j (col w k)) <= width w (col w k).
Proof.
  intros Hk. unfold width. enough (strlen (heading j (col w k)) <= max_line_len (col w k)) by lia.
  pose proof (col_lookup w k Hk) as H. Transparent table. unfold table in H. Opaque table.
  apply place_lookup in H as [(i & ->)%blanks_lookup|(a & _ & _ & ->)]; unfold heading, line_of.
  - cbn [lines blank_elt max_line_len]. destruct j as [|[|[|[|j]]]]; done.
  - apply line_max.
Qed.
Lemma cell_width w k : strlen (cell_text w (col w k)) <= width w (col w k).
Proof.
  unfold width, cell_text, vallen. destruct (has_value (col w k)); [lia|]. unfold width. cbn [strlen].
  lia.
Qed.

(** Header buffers: what is in each, and the room that is left. *)
Definition hdrs (m : nat) (A : nat -> list Z) (n : nat) : list (list Z) := (fun j => A j ++ replicate n 32) <$> seq 0 m.

Lemma headers_run e n h (A : nat -> list Z) m : forall j0 (s : st om_w),
  (forall j, h = Z.of_nat (length (A j))) -> (forall j, strlen (heading j e) <= Z.of_nat n) ->
  human_headers e j0 h ((fun j => A j ++ replicate n 32) <$> seq j0 m) s =
  (Ret ((fun j => A j ++ str_bytes (heading j e) ++ replicate (n - length (str_bytes (heading j e))) 32) <$> seq j0 m), s).
Proof.
  induction m as [|m IH]; intros j0 s Hh Hn; [done|]. cbn [seq]. rewrite !fmap_cons. cbn [human_headers].
  pose proof (bytes_len (heading j0 e)) as Hl. specialize (Hn j0) as Hn0.
  run (write_spaced h (A j0) (str_bytes (heading j0 e)) n s (Hh j0) ltac:(lia)).
  run (IH (S j0) s Hh Hn). done.
Qed.

Lemma put_one a x y r : put_bytes (length a) [x] (a ++ y :: r) = a ++ x :: r.
Proof.
  unfold put_bytes. rewrite take_app_length. f_equal. cbn [length app]. f_equal.
  rewrite drop_app_ge by lia. by replace (length a + 1 - length a)%nat with 1%nat by lia.
Qed.

(** A text, its zero, and a character in the place of the zero. *)
Lemma text_run x h a s n (q : st om_w) : h = Z.of_nat (length a) -> strlen s + 1 <= Z.of_nat n ->
  (b ← write h (str_bytes s ++ [0]) (a ++ replicate n 32); write (h + strlen s) [x] b) q =
  (Ret (a ++ str_bytes s ++ x :: replicate (n - length (str_bytes s) - 1) 32), q).
Proof.
  intros Hh Hn. pose proof (bytes_len s) as Hl. pose proof (strlen_nonneg s).
  run (write_spaced h a (str_bytes s ++ [0]) n q Hh ltac:(rewrite length_app; cbn; lia)).
  rewrite <- app_assoc. replace (n - length (str_bytes s ++ [0%Z]))%nat with (n - length (str_bytes s) - 1)%nat by (rewrite length_app; cbn [length]; lia).
  rewrite (app_assoc a), (app_assoc a). rewrite write_run.
  - replace (Z.to_nat (h + strlen s)) with (length (a ++ str_bytes s)) by (rewrite length_app; lia).
    exact (f_equal (fun b => (Ret b, q)) (put_one (a ++ str_bytes s) x 0 _)).
  - lia.
  - rewrite !length_app. cbn [length]. lia.
Qed.
Lemma fitting_all wd s : strlen s + 1 <= wd -> fitting wd s = str_bytes s ++ [0].
Proof.
  intros H. pose proof (bytes_len s). pose proof (strlen_nonneg s). unfold fitting.
  rewrite (proj2 (Z.leb_gt wd 0)) by lia. by rewrite take_ge by lia.
Qed.
Lemma value_run wd h a s n (q : st om_w) : h = Z.of_nat (length a) -> strlen s + 1 <= wd -> wd <= Z.of_nat n ->
  (val1 ← write h (fitting wd s) (a ++ replicate n 32); write (h + strlen s) [32] val1) q =
  (Ret (a ++ str_bytes s ++ replicate (n - length (str_bytes s)) 32), q).
Proof.
  intros Hh Hw Hn. rewrite fitting_all, (text_run 32) by (done || lia). pose proof (bytes_len s). pose proof (strlen_nonneg s).
  rewrite <- replicate_S. by replace (S (n - length (str_bytes s) - 1)) with (n - length (str_bytes s))%nat by lia.
Qed.

Lemma field_run k V m A B n o w src lst : 0 <= k < NETPERF_OUTPUT_MAX -> k ∈ V -> widened w V src ->
  (forall j, length (A j) = length B) -> width w (col w k) + 1 <= Z.of_nat n ->
  human_field k (Z.of_nat (length B), hdrs m A n, B ++ replicate n 32) (mkst o (mk_om w src lst)) =
  (let n' := (n - Z.to_nat (width w (col w k) + 1))%nat in
   Ret (Z.of_nat (length B) + width w (col w k) + 1, hdrs m (fun j => A j ++ cell_bytes w (heading j) k) n',
        (B ++ cell_bytes w (cell_text w) k) ++ replicate n' 32), mkst o (mk_om w src lst)).
Proof.
  intros Hk Hv H Hl Hn. set (wd := width w (col w k)) in *. pose proof (H k Hk) as Hs. rewrite bool_decide_true in Hs by done.
  unfold widen in Hs. fold wd in Hs. unfold human_field. run (source_run k _ o w src lst ltac:(lia) Hs).
  set (q := mkst o (mk_om w src lst)).
  assert (forall j, heading j (set_max wd (col w k)) = heading j (col w k)) as Hh by (intros j; exact eq_refl).
  run (headers_run (set_max wd (col w k)) n (Z.of_nat (length B)) A m 0 q ltac:(intros j; by rewrite Hl)
         ltac:(intros j; rewrite Hh; pose proof (heading_width w k j Hk); lia)).
  assert ((if has_value (set_max wd (col w k)) then
     s ← my_snprintf (set_max wd (col w k));
     val1 ← write (Z.of_nat (length B)) (fitting (max_line_len (set_max wd (col w k))) s) (B ++ replicate n 32);
     write (Z.of_nat (length B) + strlen s) [32] val1
   else mret (B ++ replicate n 32)) q =
   (Ret (B ++ str_bytes (cell_text w (col w k)) ++ replicate (n - length (str_bytes (cell_text w (col w k)))) 32), q)) as E.
  { unfold cell_text. change (has_value (set_max wd (col w k))) with (has_value (col w k)).
    destruct (has_value (col w k)) eqn:Hhv; [|cbn; by rewrite Nat.sub_0_r].
    run (snprintf_run (set_max wd (col w k)) _ o w src lst (col_text w k Hk Hhv)).
    apply value_run; [done| |cbn; lia]. cbn [max_line_len set_max]. unfold wd, width, vallen. rewrite Hhv. lia. }
  run E. cbv zeta. unfold mret at 1, M_ret. f_equal. f_equal. f_equal; [f_equal|].
  - unfold hdrs. apply list_fmap_ext. intros i j _. rewrite Hh. unfold cell_bytes. fold wd.
    pose proof (heading_width w k j Hk). apply pad_room; lia.
  - unfold cell_bytes. fold wd. pose proof (cell_width w k). apply pad_room; lia.
Qed.

Lemma row_cons w f k ks : row_bytes w f (k :: ks) = cell_bytes w f k ++ row_bytes w f ks.
Proof. done. Qed.
Lemma fields_run ks : forall m A B n V o w src lst, in_range ks -> (forall k, k ∈ ks -> k ∈ V) -> widened w V src ->
  (forall j, length (A j) = length B) -> total w ks + 1 <= Z.of_nat n -> exists n', (1 <= n')%nat /\
  each human_field ks (Z.of_nat (length B), hdrs m A n, B ++ replicate n 32) (mkst o (mk_om w src lst)) =
  (Ret (Z.of_nat (length (B ++ row_bytes w (cell_text w) ks)), hdrs m (fun j => A j ++ row_bytes w (heading j) ks) n',
        (B ++ row_bytes w (cell_text w) ks) ++ replicate n' 32), mkst o (mk_om w src lst)).
Proof.
  induction ks as [|k ks IH]; intros m A B n V o w src lst Hr Hv H Hl Hn.
  - exists n. split; [cbn in Hn; lia|]. cbn [each row_bytes mbind list_bind]. rewrite app_nil_r.
    unfold mret at 1, M_ret. f_equal. f_equal. f_equal. f_equal. unfold hdrs. apply list_fmap_ext. intros. by rewrite app_nil_r.
  - apply Forall_cons_iff in Hr as [Hk Hr]. cbn [total foldr] in Hn. fold (total w ks) in Hn.
    pose proof (row_total_nonneg w ks) as Ht. pose proof (width_nonneg w k) as Hw. set (wd := width w (col w k)) in *.
    cbn [each]. run (field_run k V m A B n o w src lst Hk (Hv k (list_elem_of_here k ks)) H Hl ltac:(lia)). fold wd.
    assert (forall f, strlen (f (col w k)) <= wd -> length (cell_bytes w f k) = Z.to_nat (wd + 1)) as Hc.
    { intros f Hf. unfold cell_bytes. fold wd. rewrite pad_bytes, length_app, length_replicate. pose proof (bytes_len (f (col w k))).
      pose proof (strlen_nonneg (f (col w k))). lia. }
    pose proof (Hc (cell_text w) (cell_width w k)) as Hct.
    replace (Z.of_nat (length B) + wd + 1) with (Z.of_nat (length (B ++ cell_bytes w (cell_text w) k)))
      by (rewrite length_app, Hct; lia).
    destruct (IH m (fun j => A j ++ cell_bytes w (heading j) k) (B ++ cell_bytes w (cell_text w) k)
                (n - Z.to_nat (wd + 1))%nat V o w src lst Hr) as (n' & Hn' & E).
    + intros k' Hk'. apply Hv. by right.
    + done.
    + intros j. rewrite !length_app, Hl, Hct. rewrite (Hc (heading j)) by apply (heading_width w k j Hk). done.
    + lia.
    + exists n'. split; [done|]. cbv zeta. rewrite E, row_cons, !app_assoc. do 4 f_equal. unfold hdrs.
      apply list_fmap_ext. intros. by rewrite row_cons, !app_assoc.
Qed.

(** The lines of one block. *)
Definition block_text w (print_headers i : Z) (ks : list Z) : list string :=
  if decide (ks = []) then []
  else (if 0 <? i then [nl] else []) ++
       (if truth print_headers then (fun j => visible (row_text w (heading j) ks) +:+ nl) <$> [0; 1; 2; 3]%nat else []) ++
       [visible (row_text w (cell_text w) ks) +:+ nl].

Lemma prints_run l : forall o (d : om_w),
  foldr (fun t rest => printf (t +:+ nl);; rest) (mret tt) l (mkst o d) = (Ret tt, mkst (rev ((fun t => Stdout (t +:+ nl)) <$> l) ++ o) d).
Proof.
  induction l as [|x l IH]; intros o d; [done|]. cbn [foldr]. run (eq_refl : printf (x +:+ nl) (mkst o d) = (Ret tt, mkst (Stdout (x +:+ nl) :: o) d)).
  rewrite IH. cbn [fmap list_fmap rev]. by rewrite <- app_assoc.
Qed.

Lemma end_lines_run m A n h (s : st om_w) : (forall j, h = Z.of_nat (length (A j))) -> (1 <= n)%nat ->
  mapM (end_line h) (hdrs m A n) s = (Ret ((fun j => cstr (A j)) <$> seq 0 m), s).
Proof.
  intros Hh Hn. unfold hdrs. generalize 0%nat. induction m as [|m IH]; intros j; [done|].
  cbn [seq]. rewrite !fmap_cons. cbn [mapM]. run (end_line_run h (A j) n s (Hh j) Hn). run (IH (S j)). done.
Qed.

Lemma until_end_first row : row <> [] -> (until_end row = [] <-> row !! 0%nat = Some OUTPUT_END).
Proof.
  destruct row as [|k row]; [done|]. intros _. cbn [until_end lookup list_lookup]. destruct (Z.eqb_spec k OUTPUT_END) as [->|Hne].
  - by split.
  - split; [discriminate|]. intros [= E]. by rewrite E in Hne.
Qed.
Lemma row_bytes_length w f ks : (forall k, k ∈ ks -> strlen (f (col w k)) <= width w (col w k)) ->
  Z.of_nat (length (row_bytes w f ks)) = total w ks.
Proof.
  induction ks as [|k ks IH]; intros H; [done|]. cbn [total foldr]. fold (total w ks). rewrite row_cons, length_app, Nat2Z.inj_add, IH by (intros; apply H; set_solver).
  unfold cell_bytes. rewrite bytes_len. unfold pad_right. rewrite strlen_app, strlen_nchars.
  specialize (H k ltac:(set_solver)). pose proof (strlen_nonneg (f (col w k))). lia.
Qed.

Lemma block_run print_headers i row V size o w src lst : 0 <= i -> lst !! Z.to_nat i = Some row -> row <> [] ->
  in_range (until_end row) -> (forall k, k ∈ until_end row -> k ∈ V) -> widened w V src -> total w (until_end row) <= size ->
  human_block print_headers size i (until_end row) (mkst o (mk_om w src lst)) =
  (Ret tt, mkst (rev (Stdout <$> block_text w print_headers i (until_end row)) ++ o) (mk_om w src lst)).
Proof.
  intros Hi Hrow Hne Hr Hv H Hs. set (ks := until_end row) in *. unfold human_block.
  set (m := if truth print_headers then 4%nat else 0%nat).
  replace (if truth print_headers then replicate 4 (replicate (Z.to_nat (size + 1)) 32) else [])
    with (hdrs m (fun _ => []) (Z.to_nat (size + 1))) by (unfold m; by destruct (truth print_headers)).
  pose proof (row_total_nonneg w ks).
  destruct (fields_run ks m (fun _ => []) [] (Z.to_nat (size + 1)) V o w src lst Hr Hv H ltac:(done) ltac:(lia)) as (n' & Hn' & E).
  cbn [length app] in E. change (Z.of_nat 0) with 0 in E. cbv zeta. run E. cbv beta iota.
  assert (forall j, Z.of_nat (length (row_bytes w (cell_text w) ks)) = Z.of_nat (length (row_bytes w (heading j) ks))) as Hlen.
  { intros j. rewrite !row_bytes_length; [done| |].
    - intros k Hk. apply heading_width. unfold in_range in Hr. rewrite Forall_forall in Hr. by apply Hr.
    - intros k _. apply cell_width. }
  run (end_lines_run m (fun j => row_bytes w (heading j) ks) n' _ (mkst o (mk_om w src lst)) Hlen Hn').
  run (end_line_run _ (row_bytes w (cell_text w) ks) n' (mkst o (mk_om w src lst)) eq_refl Hn').
  destruct (row !! 0%nat) as [k0|] eqn:Hk0; [|by destruct row].
  run (cell_run i 0 row k0 o w src lst Hi ltac:(lia) Hrow Hk0). unfold block_text.
  destruct (Z.eqb_spec k0 OUTPUT_END) as [->|Hk].
  { rewrite decide_True by by apply until_end_first. done. }
  rewrite decide_False by (intros E0; apply until_end_first in E0; [|done]; congruence).
  assert (forall j, cstr (row_bytes w (heading j) ks) = visible (row_text w (heading j) ks)) as Hvis
    by (intros; unfold visible; by rewrite row_is_bytes).
  replace (cstr (row_bytes w (cell_text w) ks)) with (visible (row_text w (cell_text w) ks)) by (unfold visible; by rewrite row_is_bytes).
  set (o1 := if 0 <? i then Stdout nl :: o else o).
  assert (when (0 <? i) (printf nl) (mkst o (mk_om w src lst)) = (Ret tt, mkst o1 (mk_om w src lst))) as E1
    by (unfold o1; by destruct (0 <? i)).
  run E1. run (prints_run ((fun j => cstr (row_bytes w (heading j) ks)) <$> seq 0 m) o1 (mk_om w src lst)).
  unfold printf. cbn [out dev]. do 2 f_equal. rewrite !fmap_app, !rev_app_distr, <- !app_assoc. cbn [fmap list_fmap rev app]. f_equal.
  unfold m, o1. destruct (truth print_headers); destruct (0 <? i); cbn [seq fmap list_fmap rev app]; by rewrite ?Hvis.
Qed.

Fixpoint human_text w (print_headers i : Z) (bs : list (list Z)) : list string :=
  match bs with [] => [] | ks :: bs' => block_text w print_headers i ks ++ human_text w print_headers (i + 1) bs' end.
(** A list of what to show whose rows can be followed to their ends. *)
Definition list_ok lst : Prop := length lst = 4%nat /\ Forall (fun row => row <> [] /\ in_range (until_end row)) lst.

Lemma blocks_run print_headers V size o w src lst : forall rest i, lst = take i lst ++ rest ->
  Forall (fun row => row <> [] /\ in_range (until_end row)) rest -> (forall k, k ∈ concat (until_end <$> rest) -> k ∈ V) ->
  widened w V src -> Forall (fun row => total w (until_end row) <= size) rest -> (i + length rest = length lst)%nat ->
  human_blocks print_headers size (Z.of_nat i) (until_end <$> rest) (mkst o (mk_om w src lst)) =
  (Ret tt, mkst (rev (Stdout <$> human_text w print_headers (Z.of_nat i) (until_end <$> rest)) ++ o) (mk_om w src lst)).
Proof.
  intros rest. revert o. induction rest as [|row rest IH]; intros o i Hl Hok Hv H Hs Hlen; [done|].
  apply Forall_cons_iff in Hok as [(Hne & Hr) Hok]. apply Forall_cons_iff in Hs as [Hs1 Hs]. rewrite !fmap_cons. cbn [human_blocks human_text].
  cbn [length] in Hlen. assert (length (take i lst) = i) as Hti by (rewrite length_take; lia).
  assert (lst !! Z.to_nat (Z.of_nat i) = Some row) as Hrow.
  { rewrite Nat2Z.id, Hl, lookup_app_r by lia. by rewrite Hti, Nat.sub_diag. }
  run (block_run print_headers (Z.of_nat i) row V size o w src lst ltac:(lia) Hrow Hne Hr
         (fun k Hk => Hv k (proj2 (elem_of_app _ _ _) (or_introl Hk))) H Hs1).
  replace (Z.of_nat i + 1) with (Z.of_nat (S i)) by lia. rewrite IH.
  - rewrite fmap_app, rev_app_distr, <- app_assoc. done.
  - rewrite Nat2Z.id in Hrow. by rewrite (take_S_r _ _ _ Hrow), <- app_assoc.
  - done.
  - intros k Hk. apply Hv. rewrite fmap_cons. cbn [concat]. apply elem_of_app. by right.
  - done.
  - done.
  - lia.
Qed.

Lemma human_run o w lst : (forall n, om_malloc os n = true) -> list_ok lst ->
  Forall (fun row => total w (until_end row) < 2 ^ 31) lst -> exists src',
  print_omni_human os (mkst o (mk_om w (table w) lst)) =
  (Ret tt, mkst (rev (Stdout <$> human_text w (default 0 (sh_int w !! "print_headers")) 0 (until_end <$> lst)) ++ o) (mk_om w src' lst)).
Proof.
  intros Hm [Hl Hok] Hs. unfold print_omni_human.
  run (eq_refl : blocks (mkst o (mk_om w (table w) lst)) = (Ret (until_end <$> lst), mkst o (mk_om w (table w) lst))).
  assert (Forall in_range (until_end <$> lst)) as Hr by (apply Forall_fmap; eapply Forall_impl; [exact Hok|]; by intros ? []).
  destruct (human_size_run (until_end <$> lst) 0 [] o w (table w) lst Hr (adjusted_init (widen w) w)) as (src & V & E & H & Hv);
    [by apply Forall_fmap|]. run E. run (geti_run "print_headers" o w src lst). rewrite Hm. exists src.
  apply (blocks_run _ V _ o w src lst lst 0); try done.
  - intros k Hk. apply Hv. by right.
  - destruct (largest_spec w (until_end <$> lst) 0) as [_ Hsz]. exact (proj1 (Forall_fmap _ _ _) Hsz).
Qed.

(** *** Selection by name *)

Definition set_int (n : string) (z : Z) w : sh_w := mk_sh (sh_np w) (<[n := z]> (sh_int w)) (sh_str w) (sh_flt w) (sh_ptr w) (sh_resolves w).
Lemma table_set_int n z w : table (set_int n z w) = table w.
Proof. Transparent table. reflexivity. Opaque table. Qed.
Lemma col_set_int n z w k : col (set_int n z w) k = col w k.
Proof. unfold col. by rewrite table_set_int. Qed.
Lemma seti_run n z o w src lst : sh (seti n z) (mkst o (mk_om w src lst)) = (Ret tt, mkst o (mk_om (set_int n z w) src lst)).
Proof. done. Qed.

(** The groups of what is selected are wanted. *)
Definition groups w (ks : list Z) : Z := foldl (fun g k => Z.lor g (output_group (col w k))) (default 0 (sh_int w !! "desired_output_groups")) ks.
Definition grouped (ks : list Z) w : sh_w := match ks with [] => w | _ => set_int "desired_output_groups" (groups w ks) w end.

Lemma mnemonic_range c : 0 <= match_string_to_output_mnenomic c < NETPERF_OUTPUT_MAX.
Proof.
  unfold match_string_to_output_mnenomic. destruct (List.find _ _) as [k|] eqn:E; [|done].
  apply List.find_some in E as [H _]. apply list_elem_of_In, elem_of_seqZ in H. unfold OUTPUT_NONE, NETPERF_OUTPUT_MAX in *. lia.
Qed.

Lemma set_cell_run i j k row o w src lst : 0 <= i -> 0 <= j < Z.of_nat (length row) -> lst !! Z.to_nat i = Some row ->
  set_cell i j k (mkst o (mk_om w src lst)) = (Ret tt, mkst o (mk_om w src (<[Z.to_nat i := <[Z.to_nat j := k]> row]> lst))).
Proof.
  intros Hi Hj Hrow. unfold set_cell. run (getdev_run o (mk_om w src lst)). cbn [om_list].
  run (elem_run lst i row (mkst o (mk_om w src lst)) Hi Hrow).
  destruct (lookup_lt_is_Some_2 row (Z.to_nat j)) as [x Hx]; [lia|].
  run (elem_run row j x (mkst o (mk_om w src lst)) ltac:(lia) Hx). done.
Qed.
Lemma add_group_run k o w lst : 0 <= k < NETPERF_OUTPUT_MAX ->
  add_group k (mkst o (mk_om w (table w) lst)) = (Ret tt, mkst o (mk_om (grouped [k] w) (table w) lst)).
Proof.
  intros Hk. unfold add_group. run (source_run k _ o w (table w) lst ltac:(lia) (col_lookup w k Hk)).
  run (geti_run "desired_output_groups" o w (table w) lst). done.
Qed.
Lemma grouped_cons k ks w : grouped ks (grouped [k] w) = grouped (k :: ks) w.
Proof.
  destruct ks as [|k' ks]; [done|]. unfold grouped, set_int, groups. cbn [sh_np sh_int sh_str sh_flt sh_ptr sh_resolves].
  rewrite insert_insert_eq, lookup_insert_eq. reflexivity.
Qed.

Lemma grouped_app ks1 : forall ks2 w, grouped ks2 (grouped ks1 w) = grouped (ks1 ++ ks2) w.
Proof.
  induction ks1 as [|k ks1 IH]; intros ks2 w; [done|]. rewrite <- (grouped_cons k ks1), IH, grouped_cons. done.
Qed.
Lemma table_grouped ks w : table (grouped ks w) = table w.
Proof. destruct ks; [done|apply table_set_int]. Qed.
Lemma np_grouped ks w : sh_np (grouped ks w) = sh_np w.
Proof. by destruct ks. Qed.

Lemma put_next j k ks row : (j < length row)%nat -> put_bytes (S j) ks (<[j := k]> row) = put_bytes j (k :: ks) row.
Proof.
  intros Hj. unfold put_bytes. rewrite (take_S_r _ j k) by (by rewrite list_lookup_insert_eq).
  rewrite take_insert_ge by lia. rewrite drop_insert_lt by lia. rewrite <- app_assoc. cbn [app length]. do 3 f_equal.
  by rewrite Nat.add_succ_r.
Qed.

Lemma alter_some {A} (g : A -> A) (i : nat) (l : list A) x : l !! i = Some x -> alter g i l = <[i := g x]> l.
Proof.
  intros H. apply list_eq. intros j. destruct (decide (i = j)) as [<-|Hne].
  - rewrite list_lookup_alter_eq, H. cbn. rewrite list_lookup_insert_eq; [done|by eapply lookup_lt_Some].
  - by rewrite list_lookup_alter_ne, list_lookup_insert_ne.
Qed.
Lemma alter_none {A} (g : A -> A) (i : nat) (l : list A) : l !! i = None -> alter g i l = l.
Proof.
  intros H. apply list_eq. intros j. destruct (decide (i = j)) as [<-|Hne]; [by rewrite list_lookup_alter_eq, H|].
  by rewrite list_lookup_alter_ne.
Qed.

Definition names (part : string) : list Z := match_string_to_output_mnenomic <$> tokens is_sep part.

Lemma select_run l : forall i j row o w lst, np_debug (sh_np w) = 0 -> lst !! i = Some row ->
  length row = Z.to_nat NETPERF_OUTPUT_MAX -> (j <= length row)%nat ->
  select_tokens (Z.of_nat i) (Z.of_nat j) l (mkst o (mk_om w (table w) lst)) =
  (let ks := take (length row - j) (match_string_to_output_mnenomic <$> l) in
   (Ret tt, mkst o (mk_om (grouped ks w) (table w) (<[i := put_bytes j ks row]> lst)))).
Proof.
  induction l as [|token l IH]; intros i j row o w lst Hd Hrow Hlen Hj.
  - cbn [select_tokens fmap list_fmap]. rewrite take_nil. cbn [grouped]. unfold put_bytes. cbn [length app].
    rewrite Nat.add_0_r, take_drop, list_insert_id by done. done.
  - cbn [select_tokens]. run (debug_run o w (table w) lst). rewrite Hd, andb_false_r. destruct (Z.ltb_spec (Z.of_nat j) NETPERF_OUTPUT_MAX) as [Hlt|Hge].
    + set (k := match_string_to_output_mnenomic token).
      run (set_cell_run (Z.of_nat i) (Z.of_nat j) k row o w (table w) lst ltac:(lia) ltac:(lia) ltac:(by rewrite Nat2Z.id)).
      rewrite !Nat2Z.id. run (add_group_run k o w (<[i := <[j := k]> row]> lst) (mnemonic_range token)).
      replace (Z.of_nat j + 1) with (Z.of_nat (S j)) by lia. rewrite <- (table_grouped [k] w).
      rewrite (IH i (S j) (<[j := k]> row)).
      * rewrite length_insert, fmap_cons. replace (length row - j)%nat with (S (length row - S j))%nat by lia. cbn [take]. cbv zeta.
        fold k. rewrite grouped_cons, list_insert_insert_eq, put_next by lia. done.
      * by rewrite np_grouped.
      * rewrite list_lookup_insert_eq; [done|by eapply lookup_lt_Some].
      * by rewrite length_insert.
      * rewrite length_insert. lia.
    + assert (j = length row) as -> by lia. rewrite Nat.sub_diag, take_0. cbn [grouped]. unfold put_bytes. cbn [length app].
      rewrite Nat.add_0_r, take_drop, list_insert_id by done. done.
Qed.

Definition write_line (i : nat) (ks : list Z) (lst : list (list Z)) : list (list Z) := alter (put_bytes 0 ks) i lst.
Definition chosen_part (part : string) : list Z := take (Z.to_nat NETPERF_OUTPUT_MAX) (names part).
Definition rows_full lst : Prop := length lst = 4%nat /\ Forall (fun row => length row = Z.to_nat NETPERF_OUTPUT_MAX) lst.

Lemma write_line_full i part lst : rows_full lst -> rows_full (write_line i (chosen_part part) lst).
Proof.
  intros [H1 H2]. split; [by unfold write_line; rewrite length_alter|]. unfold write_line. apply Forall_alter; [done|].
  intros row Hr. rewrite Forall_forall in H2. specialize (H2 row (list_elem_of_lookup_2 _ _ _ Hr)). cbn beta in *.
  unfold put_bytes, chosen_part. rewrite !length_app, length_drop, !length_take. cbn [length]. lia.
Qed.

Lemma part_run i part o w lst : np_debug (sh_np w) = 0 -> rows_full lst ->
  parse_output_selection_line (Z.of_nat i) part (mkst o (mk_om w (table w) lst)) =
  (Ret tt, mkst o (mk_om (if decide (i < 4)%nat then grouped (chosen_part part) w else w) (table w) (write_line i (chosen_part part) lst))).
Proof.
  intros Hd [Hl Hf]. unfold parse_output_selection_line. rewrite (proj2 (Z.ltb_ge (Z.of_nat i) 0)) by lia.
  destruct (decide (i < 4)%nat) as [Hi|Hi].
  - rewrite (proj2 (Z.leb_gt NETPERF_MAX_BLOCKS (Z.of_nat i))) by (unfold NETPERF_MAX_BLOCKS; lia).
    destruct (lookup_lt_is_Some_2 lst i) as [row Hrow]; [lia|]. rewrite Forall_forall in Hf.
    pose proof (Hf row (list_elem_of_lookup_2 _ _ _ Hrow)) as Hlr. cbn beta in Hlr.
    pose proof (select_run (tokens is_sep part) i 0 row o w lst Hd Hrow Hlr ltac:(lia)) as E. change (Z.of_nat 0) with 0 in E.
    rewrite E, Nat.sub_0_r, Hlr. cbv zeta.
    unfold write_line. by rewrite (alter_some _ _ _ _ Hrow).
  - rewrite (proj2 (Z.leb_le NETPERF_MAX_BLOCKS (Z.of_nat i))) by (unfold NETPERF_MAX_BLOCKS; lia).
    run (debug_run o w (table w) lst). rewrite Hd. unfold write_line. rewrite alter_none by (apply lookup_ge_None; lia). done.
Qed.

(** The parts between separators, and what they choose, block by block. *)
Fixpoint split_all (c : ascii) (s : string) : list string :=
  match s with
  | EmptyString => [EmptyString]
  | String a s' =>
      if Ascii.eqb a c then EmptyString :: split_all c s'
      else match split_all c s' with p :: ps => String a p :: ps | [] => [String a EmptyString] end
  end.
Definition chosen (t : string) : list (list Z) := chosen_part <$> split_all ";" t.
Fixpoint write_lines (i : nat) (kss : list (list Z)) lst : list (list Z) :=
  match kss with [] => lst | ks :: kss' => write_lines (S i) kss' (write_line i ks lst) end.

Lemma split_all_at c s : split_all c s = match split_at c s with (a, None) => [a] | (a, Some b) => a :: split_all c b end.
Proof.
  induction s as [|x s IH]; [done|]. cbn [split_all split_at]. destruct (Ascii.eqb x c); [done|].
  rewrite IH. destruct (split_at c s) as [a [b|]]; done.
Qed.
Lemma split_rest_short c s a b : split_at c s = (a, Some b) -> (String.length b < String.length s)%nat.
Proof.
  revert a b. induction s as [|x s IH]; intros a b; cbn [split_at]; [discriminate|]. destruct (Ascii.eqb x c).
  - intros [= _ <-]. cbn. lia.
  - destruct (split_at c s) as [a' [b'|]] eqn:E; [|discriminate]. intros [= _ <-]. specialize (IH _ _ eq_refl). cbn. lia.
Qed.

Lemma write_nothing i lst : write_line i [] lst = lst.
Proof.
  unfold write_line. apply list_eq. intros j. destruct (decide (i = j)) as [<-|Hne]; [|by rewrite list_lookup_alter_ne].
  rewrite list_lookup_alter_eq. by destruct (lst !! i).
Qed.
Lemma concat_take_nil n : concat (take n [@nil Z]) = [].
Proof. by destruct n as [|[|n]]. Qed.
Lemma chosen_empty : chosen_part EmptyString = [].
Proof. reflexivity. Qed.

Lemma parts_run fuel : forall i t o w lst, (String.length t < fuel)%nat -> np_debug (sh_np w) = 0 -> rows_full lst ->
  selection_parts fuel (Z.of_nat i) t (mkst o (mk_om w (table w) lst)) =
  (Ret tt, mkst o (mk_om (grouped (concat (take (4 - i) (chosen t))) w) (table w) (write_lines i (chosen t) lst))).
Proof.
  induction fuel as [|fuel IH]; intros i t o w lst Hf Hd Hl; [lia|]. cbn [selection_parts].
  destruct (split_at ";" t) as [line rest] eqn:Es. cbv zeta.
  set (w1 := if decide (i < 4)%nat then grouped (chosen_part line) w else w). set (lst1 := write_line i (chosen_part line) lst).
  assert (when (nonempty line) (parse_output_selection_line (Z.of_nat i) line) (mkst o (mk_om w (table w) lst)) =
          (Ret tt, mkst o (mk_om w1 (table w) lst1))) as E.
  { destruct line as [|c line]; [|by apply part_run]. unfold w1, lst1. rewrite chosen_empty, write_nothing. by case_decide. }
  run E. assert (table w1 = table w) as Ht by (unfold w1; case_decide; [apply table_grouped|done]).
  assert (forall kss, grouped (concat (take (4 - S i) kss)) w1 = grouped (concat (take (4 - i) (chosen_part line :: kss))) w) as Hg.
  { intros kss. unfold w1. case_decide as Hi.
    - replace (4 - i)%nat with (S (4 - S i)) by lia. cbn [take concat]. by rewrite grouped_app.
    - replace (4 - i)%nat with 0%nat by lia. replace (4 - S i)%nat with 0%nat by lia. done. }
  unfold chosen. rewrite (split_all_at ";" t), Es. destruct rest as [b|]; cbn [default]; unfold id; rewrite !fmap_cons; cbn [write_lines].
  - fold (chosen b). destruct b as [|c b].
    + change (chosen EmptyString) with [@nil Z]. cbn [nonempty write_lines]. rewrite write_nothing.
      rewrite <- Hg, concat_take_nil. reflexivity.
    + change (if nonempty (String c b) then ?m else _) with m. replace (Z.of_nat i + 1) with (Z.of_nat (S i)) by lia.
      rewrite <- Ht. pose proof (split_rest_short _ _ _ _ Es) as Hb. rewrite IH.
      * by rewrite Hg.
      * lia.
      * unfold w1. case_decide; [by rewrite np_grouped|done].
      * by apply write_line_full.
  - change (fmap chosen_part []) with (@nil (list Z)). cbn [write_lines]. rewrite <- Hg, take_nil. reflexivity.
Qed.

Definition blank_row : list Z := replicate (Z.to_nat NETPERF_OUTPUT_MAX) OUTPUT_END.
Lemma write_lines_beyond kss : forall i lst, (length lst <= i)%nat -> write_lines i kss lst = lst.
Proof.
  induction kss as [|ks kss IH]; intros i lst H; [done|]. cbn [write_lines].
  unfold write_line. rewrite alter_none by (apply lookup_ge_None; lia). apply IH. lia.
Qed.
Lemma write_lines_blank kss :
  write_lines 0 kss (replicate 4 blank_row) = ((fun ks => put_bytes 0 ks blank_row) <$> take 4 kss) ++ replicate (4 - length kss) blank_row.
Proof.
  generalize blank_row. intros b. destruct kss as [|k1 [|k2 [|k3 [|k4 kss]]]]; [reflexivity..|].
  cbn [write_lines]. by rewrite write_lines_beyond.
Qed.
Lemma until_end_app ks n : until_end (ks ++ replicate n OUTPUT_END) = until_end ks.
Proof. induction ks as [|k ks IH]; cbn [until_end app]; [by destruct n|]. by rewrite IH. Qed.
Lemma until_end_put ks : until_end (put_bytes 0 ks blank_row) = until_end ks.
Proof. unfold put_bytes, blank_row. cbn [take app]. rewrite drop_replicate. apply until_end_app. Qed.
Lemma until_end_in k ks : k ∈ until_end ks -> k ∈ ks.
Proof.
  induction ks as [|x ks IH]; cbn [until_end]; [done|]. destruct (x =? OUTPUT_END); [by intros ?%not_elem_of_nil|].
  intros [->|H]%elem_of_cons; [by left|right; by apply IH].
Qed.
Lemma chosen_range part : in_range (chosen_part part).
Proof.
  apply List.Forall_forall. intros k Hk. apply list_elem_of_In in Hk. unfold chosen_part, names in Hk.
  apply elem_of_take in Hk as (i & Hi & _). rewrite list_lookup_fmap in Hi.
  apply fmap_Some in Hi as (x & _ & ->). apply mnemonic_range.
Qed.
Lemma until_range ks : in_range ks -> in_range (until_end ks).
Proof. unfold in_range. rewrite !Forall_forall. intros H k Hk. apply H. by apply until_end_in. Qed.

(** What a text of names selects, and the variables afterwards. *)
Definition shown_blocks (t : string) : list (list Z) := until_end <$> take 4 (chosen t).
Definition selected (t : string) w : sh_w := grouped (concat (take 4 (chosen t))) (set_int "printing_initialized" 1 w).
Definition selection_list (t : string) : list (list Z) := write_lines 0 (chosen t) (replicate 4 blank_row).
(** The text is a list of names, not the word for everything or a file. *)
Definition by_name (t : string) : bool :=
  negb (strcasecmp t "all") &&
  (strstr t "," || strstr t ";" || negb (match_string_to_output_mnenomic t =? NETPERF_OUTPUT_UNKNOWN)).

Lemma blank_length : length blank_row = Z.to_nat NETPERF_OUTPUT_MAX.
Proof. apply length_replicate. Qed.
Lemma selection_blocks t : until_end <$> selection_list t = shown_blocks t ++ replicate (4 - length (chosen t)) [].
Proof.
  unfold selection_list, shown_blocks. rewrite write_lines_blank, fmap_app. f_equal.
  - rewrite <- list_fmap_compose. apply list_fmap_ext. intros _ ks _. apply until_end_put.
  - by rewrite fmap_replicate.
Qed.
Lemma selection_ok t : list_ok (selection_list t).
Proof.
  unfold selection_list. rewrite write_lines_blank. split.
  - rewrite length_app, length_fmap, length_take, length_replicate. lia.
  - apply Forall_app_2.
    + apply Forall_fmap, Forall_take, Forall_fmap, Forall_true. intros part. cbn. split.
      * intros E. apply (f_equal length) in E. unfold put_bytes in E. rewrite !length_app, length_drop, blank_length in E.
        cbn [length] in E. unfold chosen_part in E. rewrite length_take in E. unfold NETPERF_OUTPUT_MAX in E. lia.
      * rewrite until_end_put. apply until_range, chosen_range.
    + apply Forall_replicate. split; [done|]. change blank_row with (put_bytes 0 [] blank_row). rewrite until_end_put. constructor.
Qed.

Lemma init_run o w src lst t : np_debug (sh_np w) = 0 -> default 0 (sh_int w !! "printing_initialized") = 0 ->
  sh_ptr w !! "output_selection_spec" = Some t -> by_name t = true -> (forall n, om_malloc os n = true) ->
  print_omni_init os (mkst o (mk_om w src lst)) = (Ret tt, mkst o (mk_om (selected t w) (table w) (selection_list t))).
Proof.
  intros Hd Hi Hp Hn Hm. apply andb_true_iff in Hn as [Hall Hn]. apply negb_true_iff in Hall. unfold print_omni_init.
  run (debug_run o w src lst). rewrite Hd. run (quiet (fprintf "%s entered\n" [PS "print_omni_init"]) (mkst o (mk_om w src lst))).
  run (init_list_run o w src lst Hd). run (geti_run "printing_initialized" o w (table w) lst). rewrite Hi.
  change (if truth 0 then _ else ?m) with m. run (seti_run "printing_initialized" 1 o w (table w) lst).
  set (w1 := set_int "printing_initialized" 1 w).
  run (eq_refl : set_list (replicate 4 (replicate (Z.to_nat NETPERF_OUTPUT_MAX) OUTPUT_END)) (mkst o (mk_om w1 (table w) lst)) =
                 (Ret tt, mkst o (mk_om w1 (table w) (replicate 4 blank_row)))).
  run (getp_run "output_selection_spec" o w1 (table w) (replicate 4 blank_row)). change (sh_ptr w1) with (sh_ptr w). rewrite Hp.
  unfold parse_output_selection. run (debug_run o w1 (table w) (replicate 4 blank_row)). change (np_debug (sh_np w1)) with (np_debug (sh_np w)).
  rewrite Hd, Hall, Hn. run (quiet (fprintf "%s is parsing the output selection '%s'\n" [PS "parse_output_selection"; PS t])
    (mkst o (mk_om w1 (table w) (replicate 4 blank_row)))).
  unfold parse_output_selection_direct. cbv zeta. rewrite Hm. rewrite <- (table_set_int "printing_initialized" 1 w). fold w1.
  pose proof (parts_run (S (String.length t)) 0 t o w1 (replicate 4 blank_row) ltac:(lia) Hd) as E. change (Z.of_nat 0) with 0 in E.
  run (E ltac:(split; [done|by apply Forall_replicate, blank_length])). reflexivity.
Qed.

Lemma block_text_nil w ph i : block_text w ph i [] = [].
Proof. done. Qed.
Lemma human_text_app w ph n bs : forall i, human_text w ph i (bs ++ replicate n []) = human_text w ph i bs.
Proof.
  induction bs as [|b bs IH]; intros i; cbn [human_text app].
  - revert i. induction n as [|n IHn]; intros i; [done|]. cbn [replicate human_text]. by rewrite IHn.
  - by rewrite IH.
Qed.

(** *** Lines of values *)

Definition tallied w : list Z -> list elt -> Prop := adjusted (sized tot_line_len set_tot w) w.
Definition tot w (e : elt) : Z := size tot_line_len w e.
Definition tots w (ks : list Z) : Z := sum tot_line_len 0 w ks.

(** A header in one line, and the text of a value with the comma behind it. *)
Definition label (e : elt) : string := String.concat " " (used_lines (lines e)).
Definition csv_heads w (ks : list Z) : string := foldr (fun k t => label (col w k) +:+ "," +:+ t) EmptyString ks.
Definition csv_value w (e : elt) : string := if has_value e then text w e +:+ "," else ", ".
Definition csv_values w (ks : list Z) : string := foldr (fun k t => csv_value w (col w k) +:+ t) EmptyString ks.
(** Without the last character. *)
Fixpoint chop (s : string) : string :=
  match s with String c (String _ _ as s') => String c (chop s') | _ => EmptyString end.

(** Lines, each with a space behind it. *)
Definition lined (l : list string) : string := foldr (fun s t => s +:+ " " +:+ t) EmptyString l.
Lemma lined_concat l : l <> [] -> lined l = String.concat " " l +:+ " ".
Proof.
  induction l as [|s l IH]; [done|]. intros _. cbn [lined foldr]. destruct l as [|s' l].
  - done.
  - fold (lined (s' :: l)). rewrite IH by done. change (String.concat " " (s :: s' :: l)) with (s +:+ " " +:+ String.concat " " (s' :: l)).
    by rewrite !str_app_assoc.
Qed.
Lemma lined_length l : strlen (lined l) = foldr (fun s t => strlen s + t) 0 l + Z.of_nat (length l).
Proof. induction l as [|s l IH]; [done|]. cbn [lined foldr length]. fold (lined l). rewrite !strlen_app, IH. cbn [strlen]. lia. Qed.
Lemma used_tot l : length l = 4%nat -> strlen (lined (used_lines l)) <= NETPERF_LINE_TOT l.
Proof.
  intros Hl. rewrite lined_length. unfold NETPERF_LINE_TOT.
  enough (foldr (fun s t => strlen s + t) 0 (used_lines l) <= foldr (fun s t => strlen s + t) 0 l /\ (length (used_lines l) <= length l)%nat) by lia.
  clear Hl. induction l as [|s l [IH1 IH2]]; [done|]. cbn [used_lines foldr]. fold used_lines. pose proof (strlen_nonneg s).
  destruct (streq s EmptyString); cbn [foldr length]; [|split; [|]; try lia].
  - assert (0 <= foldr (fun s t => strlen s + t) 0 l).
    { clear. induction l as [|x l IH]; [done|]. cbn [foldr]. pose proof (strlen_nonneg x). lia. }
    split; lia.
  - change ((fix go l := match l with [] => [] | s :: l' => if streq s EmptyString then [] else s :: go l' end) l) with (used_lines l). lia.
  - change ((fix go l := match l with [] => [] | s :: l' => if streq s EmptyString then [] else s :: go l' end) l) with (used_lines l). lia.
Qed.

Lemma copy_run l : forall h a n (q : st om_w), h = Z.of_nat (length a) -> strlen (lined l) <= Z.of_nat n ->
  copy_lines l h (a ++ replicate n 32) q =
  (Ret (h + strlen (lined l), (a ++ str_bytes (lined l)) ++ replicate (n - length (str_bytes (lined l))) 32), q).
Proof.
  induction l as [|s l IH]; intros h a n q Hh Hn.
  - cbn [copy_lines lined foldr str_bytes length strlen]. by rewrite Z.add_0_r, app_nil_r, Nat.sub_0_r.
  - cbn [lined foldr] in Hn. fold (lined l) in Hn. rewrite !strlen_app in Hn. cbn [strlen] in Hn.
    pose proof (strlen_nonneg s). pose proof (strlen_nonneg (lined l)). pose proof (bytes_len s). pose proof (bytes_len (lined l)).
    pose proof (text_run 32 h a s n q Hh ltac:(lia)) as E. unfold mbind, M_bind in E.
    cbn [copy_lines]. unfold mbind at 1, M_bind at 1. destruct (write h (str_bytes s ++ [0]) (a ++ replicate n 32) q) as [[b| | | |] q1]; try discriminate E.
    cbv zeta. run E. replace (a ++ str_bytes s ++ 32 :: replicate (n - length (str_bytes s) - 1) 32)
      with ((a ++ str_bytes s ++ [32]) ++ replicate (n - length (str_bytes s) - 1) 32) by (by rewrite <- !app_assoc).
    rewrite IH.
    + cbn [lined foldr]. fold (lined l). rewrite !strlen_app, !str_bytes_app, <- !app_assoc. cbn [strlen str_bytes app].
      change (cc " ") with 32. rewrite !length_app. cbn [length]. f_equal. f_equal. f_equal; [lia|]. do 4 f_equal. f_equal. lia.
    + rewrite !length_app. cbn [length]. lia.
    + lia.
Qed.

Definition listed (ks : list Z) : Prop := Forall (fun k => 1 <= k < NETPERF_OUTPUT_MAX) ks.
Lemma listed_range ks : listed ks -> in_range ks.
Proof. intros H. unfold listed in H. unfold in_range. eapply Forall_impl; [exact H|]. cbn. lia. Qed.
Lemma tot_lined l : 4 <= NETPERF_LINE_TOT l.
Proof. unfold NETPERF_LINE_TOT. induction l as [|x l IH]; cbn [foldr]; [lia|]. pose proof (strlen_nonneg x). lia. Qed.
Lemma listed_row w k : 1 <= k < NETPERF_OUTPUT_MAX -> used_lines (lines (col w k)) <> [] /\
  strlen (lined (used_lines (lines (col w k)))) <= tot w (col w k) /\ 4 <= tot w (col w k).
Proof.
  intros Hk. destruct (table_named w k Hk) as (a & Ha & E). pose proof (col_lookup w k ltac:(lia)) as E'. rewrite E in E'.
  apply (inj Some) in E'. rewrite <- E'. pose proof (row_of a Ha) as Ht. unfold row_typed in Ht. rewrite !andb_true_iff in Ht.
  destruct Ht as (((_ & Hne) & _) & _). unfold tot, size.
  pose proof (used_tot [a_line0 a; a_line1 a; a_line2 a; a_line3 a] eq_refl). pose proof (tot_lined [a_line0 a; a_line1 a; a_line2 a; a_line3 a]).
  change (tot_line_len (made w a)) with (NETPERF_LINE_TOT [a_line0 a; a_line1 a; a_line2 a; a_line3 a]).
  change (lines (made w a)) with [a_line0 a; a_line1 a; a_line2 a; a_line3 a]. split; [|lia].
  cbn [used_lines]. unfold nonempty in Hne. apply negb_true_iff in Hne. by rewrite Hne.
Qed.
Lemma value_tot w k : 1 <= k < NETPERF_OUTPUT_MAX -> strlen (csv_value w (col w k)) <= tot w (col w k).
Proof.
  intros Hk. destruct (listed_row w k Hk) as (_ & _ & H4). unfold tot, size, csv_value, vallen in *.
  destruct (has_value (col w k)); [rewrite strlen_app; cbn [strlen]; lia|cbn [strlen]; lia].
Qed.
Lemma label_comma e : used_lines (lines e) <> [] ->
  exists x, str_bytes (lined (used_lines (lines e))) = str_bytes (label e) ++ [x] /\
            str_bytes (label e +:+ ",") = str_bytes (label e) ++ [44].
Proof.
  intros H. exists 32. rewrite (lined_concat _ H). fold (label e). by rewrite !str_bytes_app.
Qed.

(** A header in the buffer, its last space replaced by a comma. *)
Lemma head_run e a n (q : st om_w) : used_lines (lines e) <> [] -> strlen (lined (used_lines (lines e))) <= Z.of_nat n ->
  ('(h1, hdr1) ← copy_lines (used_lines (lines e)) (Z.of_nat (length a)) (a ++ replicate n 32);
   hdr1 ← write (h1 - 1) [44] hdr1; mret (h1, hdr1)) q =
  (let b := a ++ str_bytes (label e +:+ ",") in
   (Ret (Z.of_nat (length b), b ++ replicate (n - length (str_bytes (label e +:+ ","))) 32), q)).
Proof.
  intros Hne Hn. run (copy_run (used_lines (lines e)) _ a n q eq_refl Hn). destruct (label_comma e Hne) as (x & Ex & Ec).
  pose proof (bytes_len (lined (used_lines (lines e)))) as Hl. rewrite Ex, length_app in Hl. cbn [length] in Hl.
  rewrite Ex, Ec. cbv beta iota zeta. rewrite !length_app. cbn [length]. set (C := str_bytes (label e)) in *.
  set (L := strlen _) in *. set (r := replicate _ 32).
  assert (write (Z.of_nat (length a) + L - 1) [44] ((a ++ C ++ [x]) ++ r) q = (Ret ((a ++ C ++ [44]) ++ r), q)) as Ew.
  { rewrite write_run by (rewrite ?length_app; cbn [length]; lia).
    replace (Z.to_nat _) with (length (a ++ C)) by (rewrite length_app; lia).
    rewrite !(app_assoc a), <- !(app_assoc (a ++ C)). exact (f_equal (fun b => (Ret b, q)) (put_one (a ++ C) 44 x r)). }
  run Ew. unfold mret, M_ret. do 3 f_equal. lia.
Qed.

Lemma csv_field_run ph k V A B nh nv o w src lst : 1 <= k < NETPERF_OUTPUT_MAX -> k ∈ V -> tallied w V src ->
  tot w (col w k) <= Z.of_nat nh -> tot w (col w k) <= Z.of_nat nv ->
  let lab := str_bytes (label (col w k) +:+ ",") in let val := str_bytes (csv_value w (col w k)) in
  csv_field ph k (Z.of_nat (length A), A ++ replicate nh 32, Z.of_nat (length B), B ++ replicate nv 32) (mkst o (mk_om w src lst)) =
  (Ret (if truth ph then Z.of_nat (length (A ++ lab)) else Z.of_nat (length A),
        if truth ph then (A ++ lab) ++ replicate (nh - length lab) 32 else A ++ replicate nh 32,
        Z.of_nat (length (B ++ val)), (B ++ val) ++ replicate (nv - length val) 32), mkst o (mk_om w src lst)).
Proof.
  intros Hk Hv H Hh Hn. cbv zeta. pose proof (H k ltac:(lia)) as Hs. rewrite bool_decide_true in Hs by done. unfold sized in Hs. fold (tot w (col w k)) in Hs.
  set (wd := tot w (col w k)) in *. destruct (listed_row w k Hk) as (Hne & Hlen & H4). fold wd in Hlen, H4.
  unfold csv_field. run (source_run k _ o w src lst ltac:(lia) Hs). set (q := mkst o (mk_om w src lst)).
  change (lines (set_tot wd (col w k))) with (lines (col w k)). change (has_value (set_tot wd (col w k))) with (has_value (col w k)).
  change (tot_line_len (set_tot wd (col w k))) with wd.
  assert ((if truth ph then '(h1, hdr1) ← copy_lines (used_lines (lines (col w k))) (Z.of_nat (length A)) (A ++ replicate nh 32);
             hdr1 ← write (h1 - 1) [44] hdr1; mret (h1, hdr1) else mret (Z.of_nat (length A), A ++ replicate nh 32)) q =
          (Ret (if truth ph then (Z.of_nat (length (A ++ str_bytes (label (col w k) +:+ ","))),
                  (A ++ str_bytes (label (col w k) +:+ ",")) ++ replicate (nh - length (str_bytes (label (col w k) +:+ ","))) 32)
                else (Z.of_nat (length A), A ++ replicate nh 32)), q)) as E.
  { destruct (truth ph); [|done]. by rewrite (head_run (col w k) A nh q Hne ltac:(lia)). }
  run E. pose proof (value_tot w k Hk) as Hvt. fold wd in Hvt. unfold csv_value in *.
  assert (forall (h : Z * list Z) P1 P2, (if truth ph then P1 else P2) = h -> h = (if truth ph then P1.1 else P2.1, if truth ph then P1.2 else P2.2)) as Hif.
  { intros h P1 P2 <-. destruct (truth ph); by destruct P1, P2. }
  rewrite (Hif _ _ _ eq_refl). cbn [fst snd]. destruct (has_value (col w k)) eqn:Hhv.
  - run (snprintf_run (set_tot wd (col w k)) _ o w src lst (col_text w k ltac:(lia) Hhv)). fold q.
    set (s := text w (col w k)) in *. rewrite strlen_app in Hvt. cbn [strlen] in Hvt. rewrite fitting_all by lia.
    pose proof (text_run 44 _ B s nv q eq_refl ltac:(lia)) as E2. unfold mbind, M_bind in E2. unfold mbind at 1, M_bind at 1.
    destruct (write (Z.of_nat (length B)) (str_bytes s ++ [0]) (B ++ replicate nv 32) q) as [[b| | | |] q1]; try discriminate E2.
    run E2. unfold mret, M_ret. rewrite (str_bytes_app s ","), !length_app, <- !app_assoc. cbn [app str_bytes length].
    change (cc ",") with 44. pose proof (bytes_len s). f_equal. f_equal. f_equal; [f_equal; lia|]. do 4 f_equal. lia.
  - cbn [strlen] in Hvt. run (write_spaced _ B [44] nv q eq_refl ltac:(cbn; lia)). unfold mret, M_ret.
    cbn [str_bytes length]. rewrite !length_app, <- !app_assoc. cbn [app length]. f_equal. f_equal. f_equal; [f_equal; lia|].
    do 2 f_equal. change (cc " ") with 32. rewrite <- replicate_S. f_equal. lia.
Qed.
End omni.
