(* ===== verification/NpOmniShow.v ===== *)
(** * What netperf's omni test shows

    The lines of values and the columns as functions of the variables and of the
    text that selects them. *)

From stdpp Require Import base list strings numbers gmap.
From Stdlib Require Import ZArith Lia Ascii SpecFloat.
From S2P Require Import Prelude CInt CLib CLibOk CFmt FloatTools NpLib NpSh NpServer NpOk NpOmni NpOmniOk.

#[local] Opaque table omni_elts.

Section shown.
Context `{DM : DataModel} (os : om_os).
Implicit Types (w : sh_w) (src : list elt) (lst : list (list Z)) (o : list msg).

Lemma tots_nonneg w ks : 0 <= tots w ks.
Proof. apply (sum_nonneg _ _ _ _ growth_csv). Qed.
Lemma tots_cons w k ks : tots w (k :: ks) = tot w (col w k) + tots w ks.
Proof. cbn [tots sum foldr]. unfold tots, tot. by rewrite Z.add_0_r. Qed.
Lemma head_tot w k : 1 <= k < NETPERF_OUTPUT_MAX -> strlen (label (col w k) +:+ ",") <= tot w (col w k).
Proof.
  intros Hk. destruct (listed_row w k Hk) as (Hne & Hl & _). rewrite (lined_concat _ Hne) in Hl. fold (label (col w k)) in Hl.
  rewrite strlen_app in *. cbn [strlen] in *. lia.
Qed.

Lemma csv_fields_run ph ks : forall V A B nh nv o w src lst, listed ks -> (forall k, k ∈ ks -> k ∈ V) -> tallied w V src ->
  tots w ks < Z.of_nat nh -> tots w ks < Z.of_nat nv -> exists nh' nv', (1 <= nh')%nat /\ (1 <= nv')%nat /\
  let A' := if truth ph then A ++ str_bytes (csv_heads w ks) else A in let B' := B ++ str_bytes (csv_values w ks) in
  each (csv_field ph) ks (Z.of_nat (length A), A ++ replicate nh 32, Z.of_nat (length B), B ++ replicate nv 32) (mkst o (mk_om w src lst)) =
  (Ret (Z.of_nat (length A'), A' ++ replicate nh' 32, Z.of_nat (length B'), B' ++ replicate nv' 32), mkst o (mk_om w src lst)).
Proof.
  induction ks as [|k ks IH]; intros V A B nh nv o w src lst Hl Hv H Hnh Hnv.
  - exists nh, nv. cbn in Hnh, Hnv. split; [lia|]. split; [lia|]. cbv zeta. cbn [each csv_heads csv_values foldr str_bytes].
    rewrite !app_nil_r. by destruct (truth ph).
  - apply Forall_cons_iff in Hl as [Hk Hl]. rewrite tots_cons in Hnh, Hnv. pose proof (tots_nonneg w ks).
    cbn [each]. pose proof (csv_field_run ph k V A B nh nv o w src lst Hk (Hv k (list_elem_of_here k ks)) H ltac:(lia) ltac:(lia)) as E.
    cbv zeta in E. run E. clear E. pose proof (head_tot w k Hk) as Hht. pose proof (value_tot w k Hk) as Hvt.
    set (lab := label (col w k) +:+ ",") in *. set (val := csv_value w (col w k)) in *. pose proof (bytes_len lab). pose proof (bytes_len val).
    set (A1 := if truth ph then A ++ str_bytes lab else A). set (nh1 := if truth ph then (nh - length (str_bytes lab))%nat else nh).
    assert (tots w ks < Z.of_nat nh1) as Hn1 by (unfold nh1; destruct (truth ph); lia).
    destruct (IH V A1 (B ++ str_bytes val) nh1 (nv - length (str_bytes val))%nat o w src lst Hl) as (nh' & nv' & Ha & Hb & E);
      [intros k' Hk'; apply Hv; by right|done|done|lia|].
    exists nh', nv'. split; [done|]. split; [done|]. cbv zeta in *. cbn [csv_heads csv_values foldr]. fold (csv_heads w ks) (csv_values w ks).
    fold val. rewrite (str_bytes_app val), (app_assoc B), <- (str_app_assoc (label (col w k)) ",").
    fold lab. rewrite (str_bytes_app lab), (app_assoc A). unfold A1, nh1 in *. destruct (truth ph); exact E.
Qed.

(** The end of a line: its last character is replaced by the zero. *)
Lemma chop_bytes s : s <> EmptyString -> exists x, str_bytes s = str_bytes (chop s) ++ [x].
Proof.
  induction s as [|c s IH]; [done|]. intros _. destruct s as [|c' s]; [by exists (cc c)|].
  destruct IH as [x Hx]; [done|]. exists x. change (chop (String c (String c' s))) with (String c (chop (String c' s))).
  cbn [str_bytes app] in *. by rewrite Hx.
Qed.
Lemma last_run s n (q : st om_w) : s <> EmptyString ->
  write (Z.of_nat (length (str_bytes s)) - 1) [0] (str_bytes s ++ replicate n 32) q = (Ret (str_bytes (chop s) ++ 0 :: replicate n 32), q).
Proof.
  intros Hs. destruct (chop_bytes s Hs) as [x ->]. rewrite write_run by (rewrite ?length_app; cbn [length]; lia).
  replace (Z.to_nat _) with (length (str_bytes (chop s))) by (rewrite length_app; cbn [length]; lia).
  rewrite <- app_assoc. exact (f_equal (fun b => (Ret b, q)) (put_one (str_bytes (chop s)) 0 x (replicate n 32))).
Qed.
Lemma text_before s r (q : st om_w) : c_text (str_bytes s ++ 0 :: r) q = (Ret (visible s), q).
Proof. unfold c_text. rewrite bool_decide_true by set_solver. exact (f_equal (fun t => (Ret t, q)) (cstr_stop (str_bytes s) r)). Qed.

Lemma csv_values_nonempty w ks : ks <> [] -> csv_values w ks <> EmptyString.
Proof.
  destruct ks as [|k ks]; [done|]. intros _ H. apply (f_equal strlen) in H. cbn [csv_values foldr] in H. fold (csv_values w ks) in H.
  rewrite strlen_app in H. pose proof (strlen_nonneg (csv_values w ks)). unfold csv_value in H.
  destruct (has_value _); rewrite ?strlen_app in H; pose proof (strlen_nonneg (text w (col w k))); cbn [strlen] in H; lia.
Qed.
Lemma csv_heads_nonempty w ks : ks <> [] -> csv_heads w ks <> EmptyString.
Proof.
  destruct ks as [|k ks]; [done|]. intros _ H. apply (f_equal strlen) in H. cbn [csv_heads foldr] in H. fold (csv_heads w ks) in H.
  rewrite !strlen_app in H. pose proof (strlen_nonneg (csv_heads w ks)). pose proof (strlen_nonneg (label (col w k))). cbn [strlen] in H. lia.
Qed.

(** The two lines for programs; none when the first block is empty. *)
Definition csv_text w (print_headers : Z) (bs : list (list Z)) : list string :=
  let ks := concat bs in
  match bs with
  | [] :: _ => []
  | _ => (if truth print_headers then [visible (chop (csv_heads w ks)) +:+ nl] else []) ++ [visible (chop (csv_values w ks)) +:+ nl]
  end.

Lemma csv_run o w lst : (forall n, om_malloc os n = true) -> list_ok lst -> let ks := concat (until_end <$> lst) in
  listed ks -> ks <> [] -> tots w ks + 1 < 2 ^ 31 -> exists src',
  print_omni_csv os (mkst o (mk_om w (table w) lst)) =
  (Ret tt, mkst (rev (Stdout <$> csv_text w (default 0 (sh_int w !! "print_headers")) (until_end <$> lst)) ++ o) (mk_om w src' lst)).
Proof.
  intros Hm [Hlen Hok] ks Hl Hne Hs. unfold print_omni_csv.
  run (eq_refl : blocks (mkst o (mk_om w (table w) lst)) = (Ret (until_end <$> lst), mkst o (mk_om w (table w) lst))). fold ks. cbv zeta.
  destruct (each_grow_run _ _ _ _ growth_csv ks 0 [] o w (table w) lst (listed_range _ Hl) (adjusted_init _ w)) as (src & E & H); [done| |].
  { change (0 + tots w ks < 2 ^ 31). lia. }
  change (each csv_width ks 0 (mkst o (mk_om w (table w) lst)) = (Ret (tots w ks), mkst o (mk_om w src lst))) in E.
  rewrite app_nil_r in H. change (tallied w ks src) in H. run E. run (geti_run "print_headers" o w src lst).
  set (ph := default 0 (sh_int w !! "print_headers")). rewrite Hm. change (negb true) with false. cbv iota.
  set (q := mkst o (mk_om w src lst)). pose proof (tots_nonneg w ks).
  destruct (csv_fields_run ph ks ks [] [] (Z.to_nat (tots w ks + 1)) (Z.to_nat (tots w ks + 1)) o w src lst Hl ltac:(done) H)
    as (nh & nv & _ & _ & Ef); [lia|lia|]. cbv zeta in Ef. cbn [app length] in Ef. change (Z.of_nat 0) with 0 in Ef. fold q in Ef.
  run Ef. cbv beta iota.
  set (hdr := if truth ph then str_bytes (chop (csv_heads w ks)) ++ 0 :: replicate nh 32 else replicate nh 32).
  assert ((if truth ph then write (Z.of_nat (length (if truth ph then str_bytes (csv_heads w ks) else [])) - 1) [0]
             ((if truth ph then str_bytes (csv_heads w ks) else []) ++ replicate nh 32)
           else mret ((if truth ph then str_bytes (csv_heads w ks) else []) ++ replicate nh 32)) q = (Ret hdr, q)) as Eh.
  { unfold hdr. destruct (truth ph); [|done]. by apply last_run, csv_heads_nonempty. }
  run Eh. run (last_run (csv_values w ks) nv q (csv_values_nonempty w ks Hne)).
  destruct lst as [|row lst]; [done|]. apply Forall_cons_iff in Hok as [(Hrow & _) _].
  destruct row as [|k0 row]; [done|]. run (cell_run 0 0 (k0 :: row) k0 o w src ((k0 :: row) :: lst) ltac:(lia) ltac:(lia) eq_refl eq_refl).
  exists src. unfold csv_text. rewrite fmap_cons. cbn [until_end]. destruct (k0 =? OUTPUT_END) eqn:Ek; [done|].
  assert (ks = concat ((k0 :: until_end row) :: (until_end <$> lst))) as <- by (unfold ks; rewrite fmap_cons; cbn [until_end]; by rewrite Ek).
  set (q' := mkst (if truth ph then Stdout (visible (chop (csv_heads w ks)) +:+ nl) :: o else o) (mk_om w src ((k0 :: row) :: lst))).
  assert (when (truth ph) (t ← c_text hdr; printf (t +:+ nl)) q = (Ret tt, q')) as Et.
  { unfold hdr, q'. destruct (truth ph); [|done]. unfold when. by run (text_before (chop (csv_heads w ks)) (replicate nh 32) q). }
  run Et. run (text_before (chop (csv_values w ks)) (replicate nv 32) q'). unfold q'. by destruct (truth ph).
Qed.

(** Keywords: one line for each result with a value, of which 1023 characters fit. *)
Definition keyword_line w (k : Z) : list string :=
  if has_value (col w k) then [netperf_output_enum_to_str k +:+ "=" +:+ cstr (fitting 1024 (text w (col w k))) +:+ nl] else [].
Definition keyword_text w (ks : list Z) : list string := ks ≫= keyword_line w.
Lemma keyword_run ks : forall o w lst, in_range ks ->
  each (fun k _ =>
    e ← source k;
    if has_value e then s ← my_snprintf e; printf (netperf_output_enum_to_str k +:+ "=" +:+ cstr (fitting 1024 s) +:+ nl)
    else mret tt) ks tt (mkst o (mk_om w (table w) lst)) =
  (Ret tt, mkst (rev (Stdout <$> keyword_text w ks) ++ o) (mk_om w (table w) lst)).
Proof.
  induction ks as [|k ks IH]; intros o w lst Hr; [done|]. apply Forall_cons_iff in Hr as [Hk Hr]. cbn [each].
  change (keyword_text w (k :: ks)) with (keyword_line w k ++ keyword_text w ks). rewrite fmap_app, rev_app_distr, <- app_assoc.
  rewrite <- (IH (rev (Stdout <$> keyword_line w k) ++ o) w lst Hr). apply bind_ret_run.
  run (source_run k _ o w (table w) lst ltac:(lia) (col_lookup w k Hk)). unfold keyword_line.
  destruct (has_value (col w k)) eqn:Hv; [|done]. by run (snprintf_run _ _ o w (table w) lst (col_text w k Hk Hv)).
Qed.

(** ** From the variables to what is shown *)

Lemma selected_int t w n : n <> "printing_initialized" -> n <> "desired_output_groups" -> sh_int (selected t w) !! n = sh_int w !! n.
Proof.
  intros H1 H2. unfold selected, grouped. destruct (concat _); cbn [sh_int set_int]; by rewrite !lookup_insert_ne by done.
Qed.
Lemma table_selected t w : table (selected t w) = table w.
Proof. unfold selected. by rewrite table_grouped, table_set_int. Qed.
Lemma blocks_total t w lim : Forall (fun ks => total (selected t w) ks < lim) (shown_blocks t) -> 0 < lim ->
  Forall (fun row => total (selected t w) (until_end row) < lim) (selection_list t).
Proof.
  intros H Hl. apply (Forall_fmap until_end (fun ks => total (selected t w) ks < lim)). rewrite selection_blocks. apply Forall_app_2; [done|].
  by apply Forall_replicate.
Qed.
Lemma selection_concat t : concat (until_end <$> selection_list t) = concat (shown_blocks t).
Proof.
  rewrite selection_blocks. rewrite concat_app. enough (concat (replicate (4 - length (chosen t)) (@nil Z)) = []) as -> by apply app_nil_r.
  by induction (4 - length (chosen t))%nat.
Qed.
Lemma chosen_nonempty t : exists ks kss, chosen t = ks :: kss.
Proof.
  unfold chosen. rewrite split_all_at. destruct (split_at _ t) as [a [b|]]; rewrite fmap_cons; by eexists _, _.
Qed.
Lemma csv_text_selected t w ph : csv_text w ph (until_end <$> selection_list t) = csv_text w ph (shown_blocks t).
Proof.
  unfold csv_text. rewrite selection_concat, selection_blocks. unfold shown_blocks. destruct (chosen_nonempty t) as (ks & kss & ->).
  cbn [take]. rewrite fmap_cons. reflexivity.
Qed.

(** What all the ways have in common: the test's results are shown for the
    first time, and the option names what is wanted. *)
Record asked w (t : string) : Prop := {
  ask_quiet : np_debug (sh_np w) = 0;
  ask_first : default 0 (sh_int w !! "printing_initialized") = 0;
  ask_spec : sh_ptr w !! "output_selection_spec" = Some t;
  ask_names : by_name t = true
}.
Lemma print_omni_run o w src lst t mode : asked w t -> (forall n, om_malloc os n = true) ->
  default 0 (sh_int w !! "netperf_output_mode") = mode ->
  print_omni os (mkst o (mk_om w src lst)) =
  (if mode =? CSV then print_omni_csv os
   else if mode =? KEYVAL then print_omni_keyword
   else if mode =? HUMAN then print_omni_human os
   else fprintf "Yo Rick! There is a bug in netperf_output_mode!\n" [];; exit (-1))
    (mkst o (mk_om (selected t w) (table (selected t w)) (selection_list t))).
Proof.
  intros [Hd Hi Hs Hn] Hm Hmode. unfold print_omni. run (init_run os o w src lst t Hd Hi Hs Hn Hm). rewrite table_selected.
  run (debug_run o (selected t w) (table w) (selection_list t)).
  assert (np_debug (sh_np (selected t w)) = 0) as -> by (unfold selected; by rewrite np_grouped).
  run (eq_refl : when (2 <? 0) (dump_netperf_output_source os) (mkst o (mk_om (selected t w) (table w) (selection_list t))) = (Ret tt, _)).
  run (geti_run "netperf_output_mode" o (selected t w) (table w) (selection_list t)).
  rewrite selected_int by done. by rewrite Hmode.
Qed.
Lemma csv_nothing o w lst : (forall n, om_malloc os n = true) -> concat (until_end <$> lst) = [] ->
  fst (print_omni_csv os (mkst o (mk_om w (table w) lst))) = Crash.
Proof.
  intros Hm He. unfold print_omni_csv.
  run (eq_refl : blocks (mkst o (mk_om w (table w) lst)) = (Ret (until_end <$> lst), mkst o (mk_om w (table w) lst))). rewrite He. cbv zeta.
  run (eq_refl : each csv_width [] 0 (mkst o (mk_om w (table w) lst)) = (Ret 0, mkst o (mk_om w (table w) lst))).
  run (geti_run "print_headers" o w (table w) lst). rewrite Hm. by destruct (truth _).
Qed.
End shown.

(** ** The properties *)

(** C11: with the option that names results and columns asked for, netperf
    prints exactly the columns it describes: for every block that is not empty
    an empty line between blocks, the four lines of headers when they are
    wanted, and the line of values, each column as wide as its widest header or
    its value; no buffer is overrun whatever the values are, as long as the
    widths are numbers the code can add. *)
Theorem columns_shown (os : om_os) o w src lst t : asked w t -> (forall n, om_malloc os n = true) ->
  default 0 (sh_int w !! "netperf_output_mode") = HUMAN ->
  Forall (fun ks => total (selected t w) ks + 1 < 2 ^ 31) (shown_blocks t) -> exists src',
  print_omni os (mkst o (mk_om w src lst)) =
  (Ret tt, mkst (rev (Stdout <$> human_text (selected t w) (default 0 (sh_int w !! "print_headers")) 0 (shown_blocks t)) ++ o)
                (mk_om (selected t w) src' (selection_list t))).
Proof.
  intros Ha Hm Hmode Hs. rewrite (print_omni_run os o w src lst t HUMAN Ha Hm Hmode).
  assert (Forall (fun ks => total (selected t w) ks < 2 ^ 31) (shown_blocks t)) as Hs' by (eapply Forall_impl; [exact Hs|]; cbn; lia).
  destruct (human_run os o (selected t w) (selection_list t) Hm (selection_ok t) (blocks_total t w _ Hs' ltac:(lia))) as (src' & E).
  exists src'. rewrite selection_blocks, human_text_app, selected_int in E by done. exact E.
Qed.

(** C26: with the option that names results and lines for programs asked for,
    netperf prints two lines: the headers of all results in one line each,
    separated by commas, when they are wanted, and the values; a result without
    a value is a space. Both are written within their buffers. Nothing is shown
    when the first block is empty, even if others are not. *)
Theorem csv_shown (os : om_os) o w src lst t : asked w t -> (forall n, om_malloc os n = true) ->
  default 0 (sh_int w !! "netperf_output_mode") = CSV -> listed (concat (shown_blocks t)) -> concat (shown_blocks t) <> [] ->
  tots (selected t w) (concat (shown_blocks t)) + 1 < 2 ^ 31 -> exists src',
  print_omni os (mkst o (mk_om w src lst)) =
  (Ret tt, mkst (rev (Stdout <$> csv_text (selected t w) (default 0 (sh_int w !! "print_headers")) (shown_blocks t)) ++ o)
                (mk_om (selected t w) src' (selection_list t))).
Proof.
  intros Ha Hm Hmode Hl Hne Hs. rewrite (print_omni_run os o w src lst t CSV Ha Hm Hmode).
  destruct (csv_run os o (selected t w) (selection_list t) Hm (selection_ok t)) as (src' & E); rewrite ?selection_concat; [done..|].
  exists src'. rewrite csv_text_selected, selected_int in E by done. exact E.
Qed.

(** With the option that names results and keywords asked for, netperf
    prints one line for each result that has a value, in the order of the
    option: the name, an equals sign and the value, of which the first 1023
    characters are shown. *)
Theorem keywords_shown (os : om_os) o w src lst t : asked w t -> (forall n, om_malloc os n = true) ->
  default 0 (sh_int w !! "netperf_output_mode") = KEYVAL ->
  print_omni os (mkst o (mk_om w src lst)) =
  (Ret tt, mkst (rev (Stdout <$> keyword_text (selected t w) (concat (shown_blocks t))) ++ o)
                (mk_om (selected t w) (table (selected t w)) (selection_list t))).
Proof.
  intros Ha Hm Hmode. rewrite (print_omni_run os o w src lst t KEYVAL Ha Hm Hmode). cbn [KEYVAL CSV Z.eqb].
  rewrite <- (selection_concat t). apply (keyword_run _ o (selected t w) (selection_list t)).
  apply Forall_concat, Forall_fmap. destruct (selection_ok t) as [_ Hok]. eapply Forall_impl; [exact Hok|]. by intros ? [].
Qed.

(** When the option's names select nothing, the lines for programs end by
    writing a zero in front of a buffer. *)
Theorem csv_unwritable (os : om_os) o w src lst t : asked w t -> (forall n, om_malloc os n = true) ->
  default 0 (sh_int w !! "netperf_output_mode") = CSV -> concat (shown_blocks t) = [] ->
  fst (print_omni os (mkst o (mk_om w src lst))) = Crash.
Proof.
  intros Ha Hm Hmode He. rewrite (print_omni_run os o w src lst t CSV Ha Hm Hmode). by apply csv_nothing; [|rewrite selection_concat].
Qed.

(** ** Applied to an option *)

Definition calm_np : np_w := mk_np (replicate 164 0) (replicate 164 0) [] [] 0 0 0 [] 0 (-1) (-1).
Definition started (spec : string) (mode : Z) : sh_w :=
  mk_sh calm_np (<["netperf_output_mode" := mode]> (init_ints ∪ list_to_map omni_ints)) init_strs (list_to_map omni_flts)
    (<["output_selection_spec" := spec]> {[ "thruput_format_str" := "10^6bits" ]}) 0.
Definition calm_os : om_os :=
  Build_om_os (Build_sh_os (Build_np_os false (fun _ => (0, 0)) (fun _ => inl 1%nat) (fun _ => (656, 0)) (fun _ => None) 1 (fun _ => EmptyString) EmptyString)
    (fun _ => true) (fun _ _ _ _ => inl 0) (fun _ => EmptyString)) (fun _ => inl 2) (fun _ => true) (fun _ => EmptyString).
Definition demo_spec : string := "THROUGHPUT,throughput_units;LOCAL_SEND_CALLS,local_cpu_bind".
Definition demo_columns : list string := (fun s => s +:+ nl) <$>
  ["Throughput Throughput  "; "           Units       "; "                       "; "                       "; "0.00       10^6bits/s  ";
   ""; "Local Local "; "Send  CPU   "; "Calls Bind  "; "            "; "0     -1    "].
Definition demo_lines : list string := (fun s => s +:+ nl) <$>
  ["Throughput,Throughput Units,Local Send Calls,Local CPU Bind"; "0.00,10^6bits/s,0,-1"].
Definition demo_keywords : list string := (fun s => s +:+ nl) <$>
  ["THROUGHPUT=0.00"; "THROUGHPUT_UNITS=10^6bits/s"; "LOCAL_SEND_CALLS=0"; "LOCAL_CPU_BIND=-1"].
Lemma demo_blocks : shown_blocks demo_spec = [[6; 7]; [67; 49]].
Proof. vm_compute. reflexivity. Qed.
Lemma started_asked spec mode : by_name spec = true -> asked (started spec mode) spec.
Proof. intros H. by split. Qed.

Lemma columns_shown_witness : exists q,
  print_omni calm_os (mkst [] (mk_om (started demo_spec HUMAN) [] [])) = (Ret tt, mkst (rev (Stdout <$> demo_columns) ++ []) q).
Proof.
  destruct (columns_shown calm_os [] (started demo_spec HUMAN) [] [] demo_spec) as [src' E].
  - apply started_asked. vm_compute. reflexivity.
  - reflexivity.
  - vm_compute. reflexivity.
  - rewrite demo_blocks. constructor; [vm_compute; reflexivity|]. constructor; [vm_compute; reflexivity|]. constructor.
  - eexists. rewrite E.
    assert (human_text (selected demo_spec (started demo_spec HUMAN)) (default 0 (sh_int (started demo_spec HUMAN) !! "print_headers")) 0
              (shown_blocks demo_spec) = demo_columns) as -> by (vm_compute; reflexivity). reflexivity.
Defined.

Lemma csv_shown_witness : exists q,
  print_omni calm_os (mkst [] (mk_om (started demo_spec CSV) [] [])) = (Ret tt, mkst (rev (Stdout <$> demo_lines) ++ []) q).
Proof.
  destruct (csv_shown calm_os [] (started demo_spec CSV) [] [] demo_spec) as [src' E].
  - apply started_asked. vm_compute. reflexivity.
  - reflexivity.
  - vm_compute. reflexivity.
  - rewrite demo_blocks. repeat (constructor; [split; [discriminate|reflexivity]|]). constructor.
  - vm_compute. discriminate.
  - vm_compute. reflexivity.
  - eexists. rewrite E.
    assert (csv_text (selected demo_spec (started demo_spec CSV)) (default 0 (sh_int (started demo_spec CSV) !! "print_headers"))
              (shown_blocks demo_spec) = demo_lines) as -> by (vm_compute; reflexivity). reflexivity.
Defined.

Lemma keywords_shown_witness : exists q,
  print_omni calm_os (mkst [] (mk_om (started demo_spec KEYVAL) [] [])) = (Ret tt, mkst (rev (Stdout <$> demo_keywords) ++ []) q).
Proof.
  eexists. rewrite (keywords_shown calm_os [] (started demo_spec KEYVAL) [] [] demo_spec).
  - assert (keyword_text (selected demo_spec (started demo_spec KEYVAL)) (concat (shown_blocks demo_spec)) = demo_keywords) as ->
      by (vm_compute; reflexivity). reflexivity.
  - apply started_asked. vm_compute. reflexivity.
  - reflexivity.
  - vm_compute. reflexivity.
Defined.

Lemma csv_unwritable_witness : fst (print_omni calm_os (mkst [] (mk_om (started ";" CSV) [] []))) = Crash.
Proof.
  apply (csv_unwritable calm_os [] (started ";" CSV) [] [] ";").
  - apply started_asked. vm_compute. reflexivity.
  - reflexivity.
  - vm_compute. reflexivity.
  - vm_compute. reflexivity.
Defined.
